(* ===== verification/_CoqProject ===== *)
-Q . S2P
Prelude.v
RadixTree.v
Idr.v
Bootmem.v
Buddy.v
PageAlloc.v
Vma.v
Slab.v
Task.v
Process.v
Cstring.v
Vsprintf.v
Parser.v
Ntty.v
Files.v
Rmap.v
Paging.v
Swap.v
Fault.v
AddrSpace.v
Fork.v
Path.v
Dcache.v
Namei.v
Bytes.v
Block.v
Buffer.v
Minix.v
