(* ===== verification/Prelude.v ===== *)
(** * Lite kernel verification: overview and shared library

    Lite is a small 32-bit x86 kernel in C that follows the structure of
    Linux 2.6.  This library models the parts of it that carry its own logic,
    translated from the C sources function by function, and proves what makes
    them correct.

    ** The parts and their models

    - [RadixTree] ([lib/radix-tree.c]) and [Idr] ([lib/idr.c]): the tree from
      32-bit indices to pointers and the identifier allocator over it.  Nodes
      live on the kernel heap.
    - [Bootmem] ([mm/bootmem.c]): regions found at boot, and the allocator that
      serves until the page allocator runs.
    - [Buddy] (the free lists of [mm/page_alloc.c]) and [PageAlloc] (the rest
      of it, [mm/mmzone.c], [mm/vmscan.c]): zones, watermarks, allocation
      passes, reference counts, the inactive list, reclaim, and the way from
      [Bootmem] to a running allocator.
    - [Slab] ([mm/slab.c]): [kmalloc] and [kfree] over pages.
    - [Vma] ([mm/mmap.c]): the areas of an address space and [mmap], [munmap],
      [mprotect], [mremap], [brk].
    - [Task] ([kernel/sched/core.c], [kernel/sched/wait.c]) and [Process]
      ([kernel/fork.c], [kernel/exit.c], [kernel/signal.c], [kernel/pid.c],
      [do_waitpid]): the scheduler, wait queues, and the life of a process.
    - [Cstring] ([lib/string.c]), [Vsprintf] ([lib/vsprintf.c]), [Parser]
      ([lib/parser.c]): byte-level library code.
    - [Ntty] ([drivers/tty/n_tty.c]): the terminal line discipline.
    - [Files] ([fs/file.c], [fs/open.c]): open files and descriptors.
    - [Rmap] ([mm/rmap.c]), [Paging] ([asm/pgtable.h] and the functions of
      [mm/memory.c] on page tables), [Swap] ([mm/swap.c]) and [Fault] (the rest
      of [mm/memory.c]): the virtual memory.  Physical memory is a map from
      frames to 1024 words, page tables are words in it; swap slots hold the
      contents of pages; the page allocator of [PageAlloc] runs with the real
      [swap_out_page].  A function returns [Ret], [Panics], or [Faults] where
      the kernel itself takes a page fault.
    - [AddrSpace] (the functions of [mm/mmap.c] that build, change and tear down
      page tables) and [Fork] (the proof of [dup_mm], copy on write).
    - [Path] (path normalisation in [fs/namei.c]), [Dcache] ([fs/dcache.c]) and
      [Namei] (the rest of [fs/namei.c], the dispatch functions of
      [fs/readdir.c], [vfs_check_access], [vfs_chmod], [vfs_chdir]): the names
      of files.
    - [Bytes] (parts of byte arrays, little-endian integers), [Block]
      ([block/blk-core.c], the transfers and device references of
      [fs/block_dev.c], the registries of [block/genhd.c], the request function
      of [drivers/block/brd.c]), [Buffer] ([fs/buffer.c]) and [Minix]
      ([fs/minix]): the way of a file from its inode over the buffer cache and
      the request queue to a RAM disk.

    A component's state is a record with the fields of the C structures and
    static variables it owns; each C function is one definition of the same
    name (or a few, where a loop body has its own name), taking and returning
    that state.  [unsigned long], [size_t], [uint32_t] and pointers are integers
    of [Z] reduced modulo 2^32 by the operators [+w], [-w], [*w], [<<w].
    A NULL result is [None]; [panic] and non-termination are values
    ([outcome], [None] of [free_pages]).  Intrusive lists whose nodes are owned by
    exactly one list are lists of addresses.

    ** Interfaces between the parts

    - [KAlloc]/[KAllocSpec] (here): what [kmalloc] and [kfree] promise;
      [RadixTree], [Idr], [Vma], [Task], [Process], [Files] are proved against
      it and [Slab.kheap_kalloc_spec] discharges it.
    - [PageSource]/[PageSourceSpec] (in [Slab]): what the slab allocator needs
      from the page allocator.
    - [Reclaimers]/[ReclaimersOk] (in [PageAlloc]): what reclaim calls in the
      page cache, write-back, slab and swap code.
    - [FileReclaim]/[FileReclaimOk] (in [Swap]): the reclaimers of files and
      slabs, once [swap_out_page] is no longer one of the interface.
    - [PageTables] (in [Vma]): the page-table updates under the areas.
    - [TaskRes] (in [Task]) and [FsOps] (in [Files]): address spaces,
      descriptors and directory references of a task; dentries and inodes of
      an open file.
    - [FsTables] (in [Namei]): the operation tables of the file systems.
    - [Drivers] (in [Block]): the request functions of the drivers, called
      through the queue.  [BlockDev]/[BlockDevSpec] (in [Block]): a device that
      holds bytes, which the RAM disk discharges and the buffer cache uses.
      [BlockStore]/[BlockStoreSpec] (in [Buffer]): an array of blocks, which the
      buffer cache discharges and [Minix] uses.

    Every law of an interface is a property its implementation documents; each
    interface has an instance in the library on which the witnesses evaluate.

    ** What the theorems show

    - Data structures refine finite maps, sequences or sets: every sequence of
      radix-tree operations gives the results of a finite map; the ring of the
      terminal is a queue; [vsnprintf] and [match_one] agree with reference
      definitions on all inputs.
    - Allocators hand out memory that was free, inside their bounds, and keep
      their invariants on success and on failure; freeing gives back exactly
      the block; merging is complete.
    - The areas of an address space stay sorted and disjoint, and each system
      call changes exactly the addresses it names, failures included.
    - In every state reachable from boot by system calls, interrupts and
      wake-ups the process tree, the task list, the wait queues, the reference
      counts and the heap agree; a runnable task runs after a bounded number of
      scheduler passes.
    - Open files are referenced as often as there are descriptors.
    - The invariant [vm_ok] ties the page tables in memory, the reference counts
      and reverse mappings of the frames, the swap slots and the heap to the
      abstract entries of the address spaces; [user_mem] is the memory a program
      sees.  Page faults, copy on write, swapping and allocation under memory
      pressure keep the invariant, and change [user_mem] only where they must;
      fork gives the child the same memory.
    - Path normalisation agrees with a stack of components; the directory cache
      refines a map from parent and name to entry, and resolving a path walks
      this map.
    - A transfer to the RAM disk moves exactly the bytes of its range; the buffer
      cache is transparent; reading and writing a Minix file touches exactly the
      bytes named, and creating a file or directory keeps all that was in use.
      In [Minix] the predicate [io_error] holds of a state that a failing
      transfer left, so that the theorems say that nothing else ends an
      operation early.

    Where the code does not do what it means to, the theorem states what it
    does (for instance [Vma.brk_maps_nothing], [Task.wake_up_nr_loses_waiters],
    [Slab.kmalloc_huge_never_returns], [Process.init_exit_never_ends]).

    ** Fuel

    Loops that are not structural take a number of rounds.  [Vma.GAP_FUEL] is
    the number of pages of the address space, more than the rounds of a search
    that moves up by at least a page; the walk along a buddy list gets the
    length of the page array; the loop of [buddy_alloc] the number of orders;
    [alloc_tries] the 4 rounds of the code; [required_height_loop] the maximal
    height 6; [access_loop] the number of pages of the address space.  The theorems are about the results with these values, so that
    enough fuel is part of what is proved.  [exit_notify] takes its fuel as an
    argument: the theorems say from which value on it returns, and that for
    one case no value is enough.

    ** The machine

    The virtual memory is proved for a machine with at most 896 MB of low memory
    ([0 < lowmem_end <= LOWMEM_MAX]), the part the kernel maps directly.  Kernel
    stores ignore the write permission, since [CR0.WP] is never set.

    ** Not modelled

    Device drivers, interrupt controllers, assembly and the boot sequence work
    on hardware state.  The file systems are behind [FsTables] for the lookup of
    names; ramfs, proc and sysfs and the mounting of file systems are not
    modelled, nor is the device model; the page cache and write-back are behind
    [Reclaimers].  Printing for diagnosis is left out of the
    functions that do it.  The kernel runs on one processor with interrupts off
    in the modelled sections, so that each function is one step; sleeping
    functions are modelled per stretch between two sleeps. *)

From stdpp Require Import base tactics numbers list gmap sets sorting.
From Stdlib Require Import ZArith Lia.

#[global] Open Scope Z_scope.

(** ** Machine integers

    The kernel is built for 32-bit x86: [unsigned long], [uint32_t], [size_t]
    and pointers are 32 bits wide and wrap around. *)

Definition U32_MAX : Z := 4294967295.
Definition INT_MAX : Z := 2147483647.

(** Reduction to an unsigned 32-bit word. *)
Definition u32 (x : Z) : Z := x mod 4294967296.

(** The signed reading of a 32-bit word: [(int32_t)x]. *)
Definition s32 (x : Z) : Z :=
  let y := u32 x in if y <? 2147483648 then y else y - 4294967296.

Definition u16 (x : Z) : Z := x mod 65536.

Definition add32 (a b : Z) : Z := u32 (a + b).
Definition sub32 (a b : Z) : Z := u32 (a - b).
Definition mul32 (a b : Z) : Z := u32 (a * b).
Definition shl32 (a n : Z) : Z := u32 (Z.shiftl a n).
(** [~a] on a 32-bit word. *)
Definition not32 (a : Z) : Z := 4294967295 - a.

(** [flags & bit] as a condition. *)
Definition has (fl bit : Z) : bool := negb (Z.land fl bit =? 0).

Declare Scope word_scope.
Delimit Scope word_scope with word.
Notation "a +w b" := (add32 a b) (at level 50, left associativity) : word_scope.
Notation "a -w b" := (sub32 a b) (at level 50, left associativity) : word_scope.
Notation "a *w b" := (mul32 a b) (at level 40, left associativity) : word_scope.
Notation "a <<w b" := (shl32 a b) (at level 54, left associativity) : word_scope.
#[global] Open Scope word_scope.

(** [x] is the value of an unsigned 32-bit word. *)
Definition is_u32 (x : Z) : Prop := 0 <= x < 4294967296.

(** ** Error numbers ([include/linux/errno.h]) *)
Definition ENOENT : Z := 2.
Definition ENOMEM : Z := 12.
Definition EEXIST : Z := 17.
Definition EINVAL : Z := 22.
Definition ENOSPC : Z := 28.

(** ** Lemmas on machine words *)

Create HintDb lite.
Create Rewrite HintDb word.

Lemma u32_range x : is_u32 (u32 x).
Proof. unfold is_u32, u32. apply Z.mod_pos_bound. lia. Qed.

Lemma u32_id x : is_u32 x -> u32 x = x.
Proof. unfold is_u32, u32. apply Z.mod_small. Qed.

Lemma add32_id a b : 0 <= a + b < 4294967296 -> a +w b = a + b.
Proof. apply u32_id. Qed.

Lemma sub32_id a b : 0 <= a - b < 4294967296 -> a -w b = a - b.
Proof. apply u32_id. Qed.

Lemma mul32_id a b : 0 <= a * b < 4294967296 -> a *w b = a * b.
Proof. apply u32_id. Qed.

#[export] Hint Resolve u32_range : lite.
#[export] Hint Rewrite u32_id add32_id sub32_id mul32_id using lia : word.

(** Rewrite word arithmetic that cannot wrap into arithmetic on [Z]. *)
Ltac unwrap :=
  repeat first
    [ rewrite add32_id by lia
    | rewrite sub32_id by lia
    | rewrite mul32_id by lia
    | rewrite u32_id by (unfold is_u32; lia) ].

(** Case analysis on every boolean comparison of integers in sight. *)
Ltac bcase :=
  repeat match goal with
  | |- context [Z.eqb ?a ?b] => destruct (Z.eqb_spec a b)
  | |- context [Z.ltb ?a ?b] => destruct (Z.ltb_spec a b)
  | |- context [Z.leb ?a ?b] => destruct (Z.leb_spec a b)
  end.

Ltac bcase_in H :=
  repeat match type of H with
  | context [Z.eqb ?a ?b] => destruct (Z.eqb_spec a b)
  | context [Z.ltb ?a ?b] => destruct (Z.ltb_spec a b)
  | context [Z.leb ?a ?b] => destruct (Z.leb_spec a b)
  end.

(** Masking with a low mask is reduction modulo a power of two. *)
Lemma land_mask x n m :
  0 <= n -> m = 2 ^ n - 1 -> Z.land x m = x mod 2 ^ n.
Proof.
  intros Hn ->. rewrite <- Z.land_ones by done. f_equal.
  rewrite Z.ones_equiv. lia.
Qed.

(** Clearing the low bits rounds down to a multiple of a power of two. *)
Lemma land_not32_mask x n m :
  0 <= n <= 32 -> m = 2 ^ n - 1 -> is_u32 x ->
  Z.land x (not32 m) = x - x mod 2 ^ n.
Proof.
  intros Hn -> Hx. unfold not32.
  replace (4294967295 - (2 ^ n - 1)) with (Z.land (Z.lnot (Z.ones n)) (Z.ones 32)).
  2:{ rewrite Z.land_ones by lia. rewrite Z.ones_equiv.
      replace (Z.lnot (Z.pred (2 ^ n))) with ((4294967296 - 2 ^ n) + (-1) * 2 ^ 32)
        by (unfold Z.lnot; lia).
      rewrite Z.mod_add by lia.
      assert (0 < 2 ^ n <= 2 ^ 32).
      { split; [lia | apply Z.pow_le_mono_r; lia]. }
      rewrite Z.mod_small; lia. }
  rewrite (Z.land_comm _ (Z.ones 32)), Z.land_assoc, (Z.land_ones x 32) by lia.
  rewrite (Z.mod_small x) by (unfold is_u32 in Hx; lia).
  rewrite <- Z.ldiff_land, Z.ldiff_ones_r by lia.
  rewrite Z.shiftl_mul_pow2, Z.shiftr_div_pow2 by lia.
  pose proof (Z.div_mod x (2 ^ n)). lia.
Qed.

(** ** Lists indexed by [Z] (C arrays)

    [a[i]] and [a[i] = x] with the C reading of the index; reads and writes
    outside the array are left undefined by C, here a read gives the default
    and a write has no effect, and every use is proved to be in range. *)

Section arrays.
Context {A : Type} `{!Inhabited A}.
Implicit Types (l : list A) (i j : Z).

Definition zlen (l : list A) : Z := Z.of_nat (length l).
Definition znth (l : list A) (i : Z) : A := l !!! Z.to_nat i.
Definition zset (l : list A) (i : Z) (x : A) : list A := <[Z.to_nat i := x]> l.

Lemma zlen_app l1 l2 : zlen (l1 ++ l2) = zlen l1 + zlen l2.
Proof. unfold zlen. rewrite length_app. lia. Qed.

Lemma zlen_zset l i x : zlen (zset l i x) = zlen l.
Proof. unfold zlen, zset. by rewrite length_insert. Qed.

Lemma length_zset l i x : length (zset l i x) = length l.
Proof. apply length_insert. Qed.

Lemma znth_zset_eq l i x : 0 <= i < zlen l -> znth (zset l i x) i = x.
Proof.
  intros H. unfold znth, zset, zlen in *.
  apply list_lookup_total_insert_eq. lia.
Qed.

Lemma znth_zset_ne l i j x : 0 <= i -> 0 <= j -> i <> j -> znth (zset l i x) j = znth l j.
Proof.
  intros Hi Hj Hne. unfold znth, zset.
  apply list_lookup_total_insert_ne. lia.
Qed.

Lemma znth_lookup l i : 0 <= i < zlen l -> l !! Z.to_nat i = Some (znth l i).
Proof. intros H. unfold znth, zlen in *. apply list_lookup_lookup_total_lt. lia. Qed.

End arrays.

#[export] Hint Rewrite @zlen_zset @length_zset : word.

(** ** Chains of addresses *)

(** Unlinks the first occurrence. *)
Fixpoint unlink_from (d : Z) (l : list Z) : list Z :=
  match l with
  | [] => []
  | c :: l' => if c =? d then l' else c :: unlink_from d l'
  end.

Lemma unlink_from_elem d l c : NoDup l -> c ∈ unlink_from d l <-> c ∈ l /\ c <> d.
Proof.
  induction 1 as [|b l Hb Hl IH]; cbn [unlink_from]; [split; [by intros ?%elem_of_nil|by intros [?%elem_of_nil _]]|].
  destruct (Z.eqb_spec b d) as [->|Hne]; rewrite elem_of_cons.
  - split; [|tauto]. intros Hc. split; [by right|]. by intros ->.
  - rewrite elem_of_cons, IH. split; [intros [->|[? ?]]; tauto|tauto].
Qed.

Lemma unlink_from_nodup d l : NoDup l -> NoDup (unlink_from d l).
Proof.
  induction 1 as [|b l Hb Hl IH]; cbn [unlink_from]; [constructor|]. destruct (b =? d); [done|]. apply NoDup_cons. split; [|done].
  rewrite unlink_from_elem by done. tauto.
Qed.

Lemma filter_all_out {A} (P : A -> Prop) `{!forall x, Decision (P x)} (l : list A) :
  (forall x, x ∈ l -> ~ P x) -> filter P l = [].
Proof.
  induction l as [|x l IH]; intros Hall; [done|]. rewrite filter_cons_False by (apply Hall; set_solver).
  apply IH. set_solver.
Qed.

Lemma filter_all_in {A} (P : A -> Prop) `{!forall x, Decision (P x)} (l : list A) :
  (forall x, x ∈ l -> P x) -> filter P l = l.
Proof.
  induction l as [|x l IH]; intros Hall; [done|]. rewrite filter_cons_True by (apply Hall; set_solver).
  f_equal. apply IH. set_solver.
Qed.

Lemma filter_iff_on {A} (P Q : A -> Prop) `{!forall x, Decision (P x), !forall x, Decision (Q x)}
    (l : list A) :
  (forall x, x ∈ l -> P x <-> Q x) -> filter P l = filter Q l.
Proof.
  induction l as [|x l IH]; intros Hall; [done|]. rewrite !filter_cons.
  rewrite IH by set_solver. specialize (Hall x ltac:(set_solver)).
  repeat case_decide; tauto.
Qed.

(** ** Counting entries of a finite map *)

Section counting.
Context {K V : Type} `{Countable K} (P : V -> Prop) `{!forall v, Decision (P v)}.
Implicit Types (m : gmap K V) (k : K) (v : V).

(** How many values of the map satisfy [P]. *)
Definition count_if m : Z := Z.of_nat (size (filter (fun kv => P kv.2) m)).

Lemma count_if_insert m k v : m !! k = None -> count_if (<[k := v]> m) = count_if m + (if decide (P v) then 1 else 0).
Proof.
  intros Hk. unfold count_if. case_decide.
  - rewrite map_filter_insert_True by done. rewrite map_size_insert_None; [lia|]. apply map_lookup_filter_None. by left.
  - rewrite map_filter_insert_False by done. rewrite delete_id by done. lia.
Qed.

Lemma count_if_delete m k v : m !! k = Some v -> count_if (delete k m) = count_if m - (if decide (P v) then 1 else 0).
Proof.
  intros Hk. rewrite <- (insert_id m k v Hk) at 2.
  rewrite <- insert_delete_eq, (count_if_insert _ k v) by apply lookup_delete_eq. lia.
Qed.

Lemma count_if_nonneg m : 0 <= count_if m.
Proof. unfold count_if. lia. Qed.

Lemma count_if_pos m k v : m !! k = Some v -> P v -> 1 <= count_if m.
Proof.
  intros Hk Hv. pose proof (count_if_delete m k v Hk) as E. rewrite decide_True in E by done.
  pose proof (count_if_nonneg (delete k m)). lia.
Qed.

(** Replacing a value. *)
Lemma count_if_replace m k v v' :
  m !! k = Some v ->
  count_if (<[k := v']> m) = count_if m - (if decide (P v) then 1 else 0) + (if decide (P v') then 1 else 0).
Proof.
  intros Hk. rewrite <- insert_delete_eq, count_if_insert by apply lookup_delete_eq.
  by rewrite (count_if_delete m k v Hk).
Qed.

(** A count of at most one names at most one key. *)
Lemma count_if_unique m k k' v v' :
  count_if m <= 1 -> m !! k = Some v -> m !! k' = Some v' -> P v -> P v' -> k = k'.
Proof.
  intros Hc Hk Hk' Hv Hv'. destruct (decide (k = k')) as [|Hne]; [done|].
  pose proof (count_if_delete m k v Hk) as E. rewrite decide_True in E by done.
  pose proof (count_if_pos (delete k m) k' v' ltac:(by rewrite lookup_delete_ne) Hv'). lia.
Qed.

Lemma count_if_none m : (forall k v, m !! k = Some v -> ~ P v) -> count_if m = 0.
Proof.
  intros Hn. unfold count_if. destruct (decide (filter (fun kv => P kv.2) m = ∅)) as [->|Hne]; [done|].
  apply map_choose in Hne as (k & v & [Hk Hv]%map_lookup_filter_Some). by destruct (Hn k v).
Qed.

Lemma count_if_zero m k v : count_if m <= 0 -> m !! k = Some v -> ~ P v.
Proof. intros Hc Hk Hv. pose proof (count_if_pos m k v Hk Hv). lia. Qed.

(** Different keys that are counted. *)
Lemma count_if_keys m (l : list K) :
  NoDup l -> (forall k, k ∈ l -> exists v, m !! k = Some v /\ P v) -> Z.of_nat (length l) <= count_if m.
Proof.
  revert m. induction l as [|k l IH]; intros m Hnd Hl; [apply count_if_nonneg|].
  apply NoDup_cons in Hnd as [Hk Hnd]. destruct (Hl k ltac:(by left)) as (v & Ek & Hv).
  pose proof (count_if_delete m k v Ek) as E. rewrite decide_True in E by done.
  assert (IH' : Z.of_nat (length l) <= count_if (delete k m)).
  { apply IH; [done|]. intros k' Hk'. destruct (Hl k' ltac:(by right)) as (v' & Ek' & Hv'). exists v'. split; [|done].
    rewrite lookup_delete_ne; [done|]. by intros ->. }
  cbn [length]. lia.
Qed.
End counting.

(** ** Runs *)

(** A run of kernel code: it returns, it panics, or it touches an unmapped
    page and is interrupted by a page fault. *)
Inductive run (A : Type) : Type := Ret (a : A) | Panics | Faults (va : Z).
Arguments Ret {A} a.
Arguments Panics {A}.
Arguments Faults {A} va.

Definition rbind {A B} (x : run A) (f : A -> run B) : run B :=
  match x with Ret a => f a | Panics => Panics | Faults va => Faults va end.
Notation "'let?' x := e 'in' k" := (rbind e (fun x => k))
  (at level 200, x pattern, e at level 200, k at level 200).

(** ** The kernel heap seen by its clients

    What [kmalloc]/[kfree] ([mm/slab.c]) promise to the data structures built on
    them: an allocation either fails or returns a non-null object that is not
    live; freeing a live object makes it not live.  Clients are proved against
    this interface. *)

Class KAlloc (M : Type) := {
  kmalloc : Z -> M -> option Z * M;
  kfree : Z -> M -> M;
}.

Class KAllocSpec (M : Type) `{!KAlloc M} := {
  km_ok : M -> Prop;
  live : M -> gset Z;
  kmalloc_none sz m m' :
    km_ok m -> kmalloc sz m = (None, m') -> km_ok m' /\ live m' = live m;
  kmalloc_some sz m p m' :
    km_ok m -> kmalloc sz m = (Some p, m') ->
    km_ok m' /\ p <> 0 /\ (p ∉ live m) /\ live m' = ({[p]} ∪ live m);
  kfree_live p m :
    km_ok m -> p ∈ live m -> km_ok (kfree p m) /\ live (kfree p m) = (live m ∖ {[p]});
  live_range p m : km_ok m -> p ∈ live m -> 0 < p < 4294967296;
}.

(** A concrete heap for evaluating definitions: [budget] objects can still be
    allocated, addresses are handed out in increasing order. *)
Module Heap.

Record heap := Build_heap { budget : nat; brk : positive; used : gset Z }.

Definition alloc (sz : Z) (h : heap) : option Z * heap :=
  match budget h with
  | O => (None, h)
  | S b => if Zpos (brk h) <? 4294967296
           then (Some (Zpos (brk h)), Build_heap b (brk h + 1) ({[Zpos (brk h)]} ∪ used h))
           else (None, h)
  end.

Definition free (p : Z) (h : heap) : heap :=
  Build_heap (S (budget h)) (brk h) (used h ∖ {[p]}).

Definition ok (h : heap) : Prop := forall p, p ∈ used h -> 0 < p < Zpos (brk h) /\ p < 4294967296.

#[global] Instance heap_kalloc : KAlloc heap := {| kmalloc := alloc; kfree := free |}.

#[global] Program Instance heap_kalloc_spec : KAllocSpec heap :=
  {| km_ok := ok; live := used |}.
Next Obligation.
  intros sz m m' Hok H. unfold kmalloc in H; simpl in H. unfold alloc in H.
  destruct (budget m); [by simplify_eq|]. case_match; by simplify_eq.
Qed.
Next Obligation.
  intros sz m p m' Hok H. unfold kmalloc in H; simpl in H. unfold alloc in H.
  destruct (budget m) as [|b]; [done|]. destruct (Z.ltb_spec (Z.pos (brk m)) 4294967296); [|done].
  simplify_eq. split_and!; simpl; try done.
  - intros q Hq. simpl in *. apply elem_of_union in Hq as [->%elem_of_singleton|Hq]; [lia|].
    specialize (Hok _ Hq). lia.
  - intros Hin. specialize (Hok _ Hin). lia.
Qed.
Next Obligation.
  intros p m Hok Hin. unfold kfree; simpl. split; [|done].
  intros q Hq. apply Hok. set_solver.
Qed.
Next Obligation. intros p m Hok Hin. destruct (Hok p Hin). lia. Qed.

(** [n] objects can be allocated from a fresh heap. *)
Definition init (n : nat) : heap := Build_heap n 4096 ∅.

Lemma init_ok n : ok (init n).
Proof. intros p Hp. simpl in Hp. set_solver. Qed.

End Heap.
