(* ===== verification/RadixTree.v ===== *)
(** * The radix tree of [lib/radix-tree.c]

    Nodes of 64 slots, six index bits per level, tree height 1 to 6 for a
    32-bit index.  A node is owned by exactly one slot, so the pointer
    structure is a tree: [RNode] carries the address [kmalloc] returned (what
    [kfree] is later called with), the [height] and [count] fields and the
    [slots] array.  A slot is a raw pointer ([Ptr 0] is NULL) or a child node.
    The [kmalloc]ed memory is threaded as a state [M] of the interface
    [KAlloc]. *)

From stdpp Require Import base tactics numbers list gmap sets sorting.
From Stdlib Require Import ZArith Lia.
From S2P Require Import Prelude.

(** ** Data ([include/linux/radix-tree.h]) *)

Definition RADIX_TREE_MAP_SHIFT : Z := 6.
Definition RADIX_TREE_MAP_SIZE : Z := 64.
Definition RADIX_TREE_MAP_MASK : Z := 63.
(** [sizeof(struct radix_tree_node)]: two words and 64 pointers. *)
Definition RADIX_TREE_NODE_BYTES : Z := 264.

Inductive radix_tree_node : Type :=
  RNode (addr : Z) (height : nat) (count : Z) (slots : list slot)
with slot : Type :=
  | Ptr (p : Z)
  | Child (n : radix_tree_node).

Record radix_tree_root : Type := Build_root {
  height : nat;
  gfp_mask : Z;
  rnode : option radix_tree_node;
}.

Definition n_addr (n : radix_tree_node) : Z := let '(RNode a _ _ _) := n in a.
Definition n_height (n : radix_tree_node) : nat := let '(RNode _ h _ _) := n in h.
Definition n_count (n : radix_tree_node) : Z := let '(RNode _ _ c _) := n in c.
Definition n_slots (n : radix_tree_node) : list slot := let '(RNode _ _ _ s) := n in s.

#[export] Instance slot_inhabited : Inhabited slot := populate (Ptr 0).

(** The slots of a node after [memset(node, 0, sizeof( *node))]. *)
Definition empty_slots : list slot := replicate 64 (Ptr 0).

(** [!slot] *)
Definition is_null (s : slot) : bool :=
  match s with Ptr p => p =? 0 | Child _ => false end.

(** [(void * )slot]: the item a leaf slot holds. *)
Definition slot_item (s : slot) : Z :=
  match s with Ptr p => p | Child n => n_addr n end.

(** The slot of [index] at the level whose children have height [k]:
    [(index >> (k * RADIX_TREE_MAP_SHIFT)) & RADIX_TREE_MAP_MASK]. *)
Definition slot_offset (index : Z) (k : nat) : Z :=
  Z.land (Z.shiftr index (Z.of_nat k * RADIX_TREE_MAP_SHIFT)) RADIX_TREE_MAP_MASK.

Definition INIT_RADIX_TREE (mask : Z) : radix_tree_root := Build_root 0 mask None.

(** ** Operations *)

Fixpoint radix_tree_maxindex (h : nat) : Z :=
  match h with
  | O => 0
  | S h' => Z.lor (radix_tree_maxindex h' <<w RADIX_TREE_MAP_SHIFT) RADIX_TREE_MAP_MASK
  end.

(** [while (index > radix_tree_maxindex(height)) height++;] with [fuel]
    remaining rounds. *)
Fixpoint required_height_loop (fuel : nat) (h : nat) (index : Z) : nat :=
  match fuel with
  | O => h
  | S f => if radix_tree_maxindex h <? index then required_height_loop f (S h) index else h
  end.

(** Six levels cover every 32-bit index, so five rounds are enough from height 1. *)
Definition radix_tree_required_height (index : Z) : nat :=
  required_height_loop 5 1 index.

(** The loop of [__radix_tree_lookup]: the leaf slot of [index], NULL when the
    path ends early.  [k] is [height - 1]. *)
Fixpoint lookup_slot (k : nat) (node : radix_tree_node) (index : Z) : slot :=
  match k with
  | O => znth (n_slots node) (Z.land index RADIX_TREE_MAP_MASK)
  | S k' =>
      match znth (n_slots node) (slot_offset index k) with
      | Child child => lookup_slot k' child index
      | Ptr _ => Ptr 0
      end
  end.

Definition radix_tree_lookup (root : radix_tree_root) (index : Z) : Z :=
  match rnode root with
  | None => 0
  | Some node =>
      if radix_tree_maxindex (height root) <? index then 0
      else slot_item (lookup_slot (pred (height root)) node index)
  end.

(** [radix_tree_lookup_slot] returns the address of a non-null leaf slot; the
    slot is named by the index that leads to it. *)
Definition radix_tree_lookup_slot (root : radix_tree_root) (index : Z) : option Z :=
  if radix_tree_lookup root index =? 0 then None else Some index.

(** [*slot = item] through the slot that [index] leads to. *)
Fixpoint store_slot (k : nat) (node : radix_tree_node) (index item : Z) : radix_tree_node :=
  let '(RNode a h c ss) := node in
  match k with
  | O => RNode a h c (zset ss (Z.land index RADIX_TREE_MAP_MASK) (Ptr item))
  | S k' =>
      let o := slot_offset index k in
      match znth ss o with
      | Child child => RNode a h c (zset ss o (Child (store_slot k' child index item)))
      | Ptr _ => node
      end
  end.

Definition radix_tree_replace_slot (root : radix_tree_root) (slot item : Z) : radix_tree_root :=
  match rnode root with
  | None => root
  | Some node =>
      Build_root (height root) (gfp_mask root)
        (Some (store_slot (pred (height root)) node slot item))
  end.

(** *** Ordered traversals

    [radix_tree_gang_lookup_node] and [radix_tree_gang_lookup_slot_node] are the
    same traversal; they differ in what they record for a non-null leaf slot:
    the item, or the slot's address (leaf address and offset) with its index. *)
Section gang.
Context {R : Type} (emit : Z -> Z -> Z -> Z -> R).

(** [for (i = 0; i < RADIX_TREE_MAP_SIZE && found < max_items; i++)] over the
    slots from number [i] on; [found] is the number of results. *)
Fixpoint for_slots (body : slot -> Z -> list R -> list R) (max_items : Z)
    (ss : list slot) (i : Z) (results : list R) : list R :=
  match ss with
  | [] => results
  | s :: ss' =>
      if max_items <=? zlen results then results
      else for_slots body max_items ss' (i + 1) (body s i results)
  end.

Definition gang_leaf_body (addr base first_index : Z) (s : slot) (i : Z) (results : list R)
  : list R :=
  let index := base +w i in
  if index <? first_index then results
  else if is_null s then results
  else results ++ [emit addr i index (slot_item s)].

Definition gang_inner_body (rec : radix_tree_node -> Z -> list R -> list R) (k : nat)
    (base first_index : Z) (s : slot) (i : Z) (results : list R) : list R :=
  let child_base := base +w (i <<w (Z.of_nat k * RADIX_TREE_MAP_SHIFT)) in
  let child_last0 := child_base +w radix_tree_maxindex k in
  let child_last := if child_last0 <? child_base then U32_MAX else child_last0 in
  if child_last <? first_index then results
  else match s with
       | Child child => rec child child_base results
       | Ptr _ => results
       end.

Fixpoint gang_lookup_node (k : nat) (node : radix_tree_node) (base first_index max_items : Z)
    (results : list R) : list R :=
  if zlen results =? max_items then results else
  match k with
  | O =>
      for_slots (gang_leaf_body (n_addr node) base first_index) max_items
        (n_slots node) 0 results
  | S k' =>
      for_slots
        (gang_inner_body
          (fun child child_base res => gang_lookup_node k' child child_base first_index max_items res)
          k base first_index)
        max_items (n_slots node) 0 results
  end.

Definition gang_lookup (root : radix_tree_root) (first_index max_items : Z) : list R :=
  match rnode root with
  | None => []
  | Some node =>
      if max_items =? 0 then []
      else gang_lookup_node (pred (height root)) node 0 first_index max_items []
  end.
End gang.

Definition radix_tree_gang_lookup (root : radix_tree_root) (first_index max_items : Z) : list Z :=
  gang_lookup (fun _ _ _ item => item) root first_index max_items.

Definition radix_tree_gang_lookup_slot (root : radix_tree_root) (first_index max_items : Z)
  : list ((Z * Z) * Z) :=
  gang_lookup (fun addr i index _ => ((addr, i), index)) root first_index max_items.

Fixpoint locate_leaf_loop (ss : list slot) (i base item : Z) : Z :=
  match ss with
  | [] => U32_MAX
  | s :: ss' => if slot_item s =? item then base +w i else locate_leaf_loop ss' (i + 1) base item
  end.

Fixpoint locate_inner_loop (rec : radix_tree_node -> Z -> Z) (k : nat) (ss : list slot)
    (i base : Z) : Z :=
  match ss with
  | [] => U32_MAX
  | s :: ss' =>
      let child_base := base +w (i <<w (Z.of_nat k * RADIX_TREE_MAP_SHIFT)) in
      let found := match s with Child child => rec child child_base | Ptr _ => U32_MAX end in
      if found =? U32_MAX then locate_inner_loop rec k ss' (i + 1) base else found
  end.

Fixpoint radix_tree_locate_item_node (k : nat) (node : radix_tree_node) (base item : Z) : Z :=
  match k with
  | O => locate_leaf_loop (n_slots node) 0 base item
  | S k' =>
      locate_inner_loop
        (fun child child_base => radix_tree_locate_item_node k' child child_base item)
        k (n_slots node) 0 base
  end.

Definition radix_tree_locate_item (root : radix_tree_root) (item : Z) : Z :=
  match rnode root with
  | None => U32_MAX
  | Some node => radix_tree_locate_item_node (pred (height root)) node 0 item
  end.

(** *** Operations that allocate or free nodes *)

Section ops.
Context {M : Type} `{!KAlloc M}.

Definition radix_tree_node_alloc (h : nat) (m : M) : option radix_tree_node * M :=
  match kmalloc RADIX_TREE_NODE_BYTES m with
  | (None, m') => (None, m')
  | (Some a, m') => (Some (RNode a h 0 empty_slots), m')
  end.

(** The loop of [radix_tree_extend]: [n] rounds push a new root on top. *)
Fixpoint extend_loop (n : nat) (h : nat) (node : radix_tree_node) (m : M)
  : Z * nat * radix_tree_node * M :=
  match n with
  | O => (0, h, node, m)
  | S n' =>
      match radix_tree_node_alloc (S h) m with
      | (None, m') => (- ENOMEM, h, node, m')
      | (Some new, m') =>
          extend_loop n' (S h)
            (RNode (n_addr new) (n_height new) 1 (zset (n_slots new) 0 (Child node))) m'
      end
  end.

Definition radix_tree_extend (root : radix_tree_root) (index : Z) (m : M)
  : Z * radix_tree_root * M :=
  let required := radix_tree_required_height index in
  match rnode root with
  | None =>
      match radix_tree_node_alloc required m with
      | (None, m') => (- ENOMEM, root, m')
      | (Some new, m') => (0, Build_root required (gfp_mask root) (Some new), m')
      end
  | Some node =>
      let '(r, h, node', m') := extend_loop (required - height root) (height root) node m in
      (r, Build_root h (gfp_mask root) (Some node'), m')
  end.

(** The descent of [radix_tree_insert] from a node whose children have height
    [k] (so [k = 0] at a leaf). *)
Fixpoint insert_node (k : nat) (node : radix_tree_node) (index item : Z) (m : M)
  : Z * radix_tree_node * M :=
  let '(RNode a h c ss) := node in
  match k with
  | O =>
      let o := Z.land index RADIX_TREE_MAP_MASK in
      if is_null (znth ss o) then (0, RNode a h (c + 1) (zset ss o (Ptr item)), m)
      else (- EEXIST, node, m)
  | S k' =>
      let o := slot_offset index k in
      match znth ss o with
      | Child child =>
          let '(r, child', m') := insert_node k' child index item m in
          (r, RNode a h c (zset ss o (Child child')), m')
      | Ptr _ =>
          match radix_tree_node_alloc k m with
          | (None, m') => (- ENOMEM, node, m')
          | (Some child, m') =>
              let '(r, child', m'') := insert_node k' child index item m' in
              (r, RNode a h (c + 1) (zset ss o (Child child')), m'')
          end
      end
  end.

Definition radix_tree_insert (root : radix_tree_root) (index item : Z) (m : M)
  : Z * radix_tree_root * M :=
  match radix_tree_extend root index m with
  | (0, root1, m1) =>
      match rnode root1 with
      | None => (- ENOMEM, root1, m1)
      | Some node =>
          let '(r, node', m2) := insert_node (pred (height root1)) node index item m1 in
          (r, Build_root (height root1) (gfp_mask root1) (Some node'), m2)
      end
  | (_, root1, m1) => (- ENOMEM, root1, m1)
  end.

(** [if (node->count) node->count--;] *)
Definition dec_count (c : Z) : Z := if c =? 0 then 0 else c - 1.

(** The descent and the unwinding of [radix_tree_delete]: the C arrays
    [path[]] and [offsets[]] are the recursion stack.  Returns the item (0 when
    the index is empty, and then nothing changes) and the node, [None] when it
    lost its last slot and was freed. *)
Fixpoint delete_node (k : nat) (node : radix_tree_node) (index : Z) (m : M)
  : Z * option radix_tree_node * M :=
  let '(RNode a h c ss) := node in
  match k with
  | O =>
      let o := Z.land index RADIX_TREE_MAP_MASK in
      let item := slot_item (znth ss o) in
      if item =? 0 then (0, Some node, m) else
      let c' := dec_count c in
      if c' =? 0 then (item, None, kfree a m)
      else (item, Some (RNode a h c' (zset ss o (Ptr 0))), m)
  | S k' =>
      let o := slot_offset index k in
      match znth ss o with
      | Ptr _ => (0, Some node, m)
      | Child child =>
          match delete_node k' child index m with
          | (item, Some child', m') =>
              if item =? 0 then (0, Some node, m)
              else (item, Some (RNode a h c (zset ss o (Child child'))), m')
          | (item, None, m') =>
              let c' := dec_count c in
              if c' =? 0 then (item, None, kfree a m')
              else (item, Some (RNode a h c' (zset ss o (Ptr 0))), m')
          end
      end
  end.

Definition radix_tree_delete (root : radix_tree_root) (index : Z) (m : M)
  : Z * radix_tree_root * M :=
  match rnode root with
  | None => (0, root, m)
  | Some node =>
      if radix_tree_maxindex (height root) <? index then (0, root, m) else
      match delete_node (pred (height root)) node index m with
      | (item, None, m') => (item, Build_root 0 (gfp_mask root) None, m')
      | (item, Some node', m') =>
          if item =? 0 then (0, root, m)
          else (item, Build_root (n_height node') (gfp_mask root) (Some node'), m')
      end
  end.

Definition radix_tree_delete_item (root : radix_tree_root) (index item : Z) (m : M)
  : Z * radix_tree_root * M :=
  let entry := radix_tree_lookup root index in
  if entry =? 0 then (0, root, m)
  else if negb (item =? 0) && negb (entry =? item) then (0, root, m)
  else radix_tree_delete root index m.

(** [radix_tree_free_node]: children first, then the node. *)
Fixpoint radix_tree_free_node (k : nat) (node : radix_tree_node) (m : M) : M :=
  let m' :=
    match k with
    | O => m
    | S k' =>
        if (1 <? n_height node)%nat then
          foldl (fun m s => match s with Child c => radix_tree_free_node k' c m | Ptr _ => m end)
                m (n_slots node)
        else m
    end in
  kfree (n_addr node) m'.

Definition radix_tree_destroy (root : radix_tree_root) (m : M) : radix_tree_root * M :=
  (Build_root 0 (gfp_mask root) None,
   match rnode root with
   | None => m
   | Some node => radix_tree_free_node (pred (height root)) node m
   end).
End ops.

(** ** Index arithmetic *)

Lemma slot_offset_spec index k : slot_offset index k = (index / 64 ^ Z.of_nat k) mod 64.
Proof.
  unfold slot_offset, RADIX_TREE_MAP_MASK, RADIX_TREE_MAP_SHIFT.
  rewrite (land_mask _ 6) by lia. rewrite Z.shiftr_div_pow2 by lia.
  rewrite (Z.mul_comm (Z.of_nat k)), Z.pow_mul_r by lia. done.
Qed.

Lemma slot_offset_range index k : 0 <= slot_offset index k < 64.
Proof. rewrite slot_offset_spec. apply Z.mod_pos_bound. lia. Qed.

Lemma leaf_offset_spec index : Z.land index RADIX_TREE_MAP_MASK = slot_offset index 0.
Proof.
  rewrite slot_offset_spec. unfold RADIX_TREE_MAP_MASK.
  rewrite (land_mask _ 6) by lia. simpl. by rewrite Z.div_1_r.
Qed.

Lemma pow64_pos k : 0 < 64 ^ Z.of_nat k.
Proof. apply Z.pow_pos_nonneg; lia. Qed.

Lemma pow64_S k : 64 ^ Z.of_nat (S k) = 64 * 64 ^ Z.of_nat k.
Proof. rewrite Nat2Z.inj_succ, Z.pow_succ_r by lia. done. Qed.

(** The low digits of an index: its top digit at level [k] and the rest. *)
Lemma mod_pow64_S index k :
  index mod 64 ^ Z.of_nat (S k) =
  slot_offset index k * 64 ^ Z.of_nat k + index mod 64 ^ Z.of_nat k.
Proof.
  rewrite slot_offset_spec, pow64_S, (Z.mul_comm 64).
  pose proof (pow64_pos k). rewrite Z.rem_mul_r by lia. lia.
Qed.

(** Two indices agree on [k + 1] digits when they agree on the digit at level
    [k] and on the digits below. *)
Lemma agree_S i j k :
  i mod 64 ^ Z.of_nat (S k) = j mod 64 ^ Z.of_nat (S k) <->
  slot_offset i k = slot_offset j k /\ i mod 64 ^ Z.of_nat k = j mod 64 ^ Z.of_nat k.
Proof.
  rewrite !mod_pow64_S. pose proof (pow64_pos k) as Hp.
  pose proof (Z.mod_pos_bound i (64 ^ Z.of_nat k) Hp).
  pose proof (Z.mod_pos_bound j (64 ^ Z.of_nat k) Hp).
  split; [|intros [-> ->]; done]. intros H'.
  assert (slot_offset i k = slot_offset j k) by nia. split; [done|]. nia.
Qed.

Lemma slot_offset_below index k :
  0 <= index -> slot_offset index k * 64 ^ Z.of_nat k <= index.
Proof.
  intros Hi. rewrite slot_offset_spec. pose proof (pow64_pos k) as Hp.
  pose proof (Z.div_pos index _ Hi Hp).
  pose proof (Z.mod_le (index / 64 ^ Z.of_nat k) 64 ltac:(done) ltac:(lia)).
  pose proof (Z.mul_div_le index (64 ^ Z.of_nat k) Hp). nia.
Qed.

Lemma maxindex_spec h :
  radix_tree_maxindex h = Z.min (64 ^ Z.of_nat h - 1) U32_MAX.
Proof.
  assert (forall n, radix_tree_maxindex (6 + n) = U32_MAX) as Hbig.
  { intros n. induction n as [|n IH]; [done|].
    replace (6 + S n)%nat with (S (6 + n)) by lia. cbn [radix_tree_maxindex].
    rewrite IH. done. }
  do 6 (destruct h as [|h]; [done|]).
  change (S (S (S (S (S (S h)))))) with (6 + h)%nat. rewrite Hbig.
  rewrite Nat2Z.inj_add, Z.pow_add_r by lia. pose proof (pow64_pos h).
  change (64 ^ Z.of_nat 6) with 68719476736. unfold U32_MAX. lia.
Qed.

(** [radix_tree_required_height] is the least height whose index range
    contains the index; it is between 1 and 6 for a 32-bit index. *)
Lemma required_height_spec index :
  is_u32 index ->
  let h := radix_tree_required_height index in
  (1 <= h <= 6)%nat /\ index <= radix_tree_maxindex h /\
  (forall h', (1 <= h' < h)%nat -> radix_tree_maxindex h' < index).
Proof.
  intros Hi. unfold radix_tree_required_height, is_u32 in *. cbn [required_height_loop].
  change (radix_tree_maxindex 6) with 4294967295. cbv zeta.
  set (m1 := radix_tree_maxindex 1). set (m2 := radix_tree_maxindex 2).
  set (m3 := radix_tree_maxindex 3). set (m4 := radix_tree_maxindex 4).
  set (m5 := radix_tree_maxindex 5).
  assert (forall h', (1 <= h' < 6)%nat ->
    (h' = 1 \/ h' = 2 \/ h' = 3 \/ h' = 4 \/ h' = 5)%nat) as Hsmall by lia.
  bcase; (split; [lia|split; [try lia|]]); try (change (radix_tree_maxindex 6) with 4294967295; lia);
    intros h' Hh'; destruct (Hsmall h' ltac:(lia)) as [->|[->|[->|[->| ->]]]]; lia.
Qed.

(** ** Invariant *)

Definition nonnull (s : slot) : Z := if is_null s then 0 else 1.

Definition count_nonnull (ss : list slot) : Z := foldr (fun s n => nonnull s + n) 0 ss.

Lemma count_nonnull_app ss1 ss2 :
  count_nonnull (ss1 ++ ss2) = count_nonnull ss1 + count_nonnull ss2.
Proof. induction ss1 as [|s ss1 IH]; simpl; [done|]. rewrite IH. lia. Qed.

(** An array as the slots before [o], slot [o] and the slots after it. *)
Lemma znth_split (ss : list slot) o :
  0 <= o < zlen ss ->
  exists l r, ss = l ++ znth ss o :: r /\ forall s, zset ss o s = l ++ s :: r.
Proof.
  intros Ho. pose proof (znth_lookup ss o Ho) as Hl.
  exists (take (Z.to_nat o) ss), (drop (S (Z.to_nat o)) ss). split.
  - symmetry. by apply take_drop_middle.
  - intros s. unfold zset, zlen in *. apply insert_take_drop. lia.
Qed.

Lemma count_nonnull_zset ss o s :
  0 <= o < zlen ss ->
  count_nonnull (zset ss o s) = count_nonnull ss - nonnull (znth ss o) + nonnull s.
Proof.
  intros Ho. destruct (znth_split ss o Ho) as (l & r & Hss & Hset).
  apply (f_equal count_nonnull) in Hss. rewrite count_nonnull_app in Hss. simpl in Hss.
  rewrite Hset, count_nonnull_app. simpl. lia.
Qed.

Lemma nonnull_nonneg s : 0 <= nonnull s <= 1.
Proof. unfold nonnull. destruct (is_null s); lia. Qed.

Lemma count_nonnull_nonneg ss : 0 <= count_nonnull ss.
Proof. induction ss as [|s ss IH]; simpl; [done|]. pose proof (nonnull_nonneg s). lia. Qed.

(** The well-formed nodes whose children have height [k]: field [height] is
    right, [count] is the number of non-null slots, leaves hold raw pointers
    and inner nodes hold NULL or well-formed children, and no slot is used
    whose indices would not fit 32 bits. *)
Fixpoint wf_node (k : nat) (n : radix_tree_node) : Prop :=
  zlen (n_slots n) = 64 /\ n_height n = S k /\ n_count n = count_nonnull (n_slots n) /\
  (forall o, 0 <= o < 64 ->
     (is_null (znth (n_slots n) o) = false -> o * 64 ^ Z.of_nat k < 4294967296) /\
     match k, znth (n_slots n) o with
     | O, Ptr _ => True
     | O, Child _ => False
     | S k', Ptr p => p = 0
     | S k', Child c => wf_node k' c
     end).

Definition wf_root (root : radix_tree_root) : Prop :=
  match rnode root with
  | None => height root = O
  | Some n => (1 <= height root <= 6)%nat /\ wf_node (pred (height root)) n
  end.

(** The item stored at [index] below a node. *)
Definition node_get (k : nat) (n : radix_tree_node) (index : Z) : Z :=
  slot_item (lookup_slot k n index).

Lemma wf_node_fields k n :
  wf_node k n -> zlen (n_slots n) = 64 /\ n_height n = S k /\ n_count n = count_nonnull (n_slots n).
Proof. destruct k; simpl; tauto. Qed.

Lemma wf_node_slot k n o :
  wf_node k n -> 0 <= o < 64 ->
  (is_null (znth (n_slots n) o) = false -> o * 64 ^ Z.of_nat k < 4294967296) /\
  match k, znth (n_slots n) o with
  | O, Ptr _ => True
  | O, Child _ => False
  | S k', Ptr p => p = 0
  | S k', Child c => wf_node k' c
  end.
Proof. destruct k; simpl; intros (_ & _ & _ & H) Ho; by apply H. Qed.

(** Replacing one slot by a suitable one, with [count] adjusted, keeps a node
    well-formed. *)
Lemma wf_node_zset k a h c ss o s c' :
  wf_node k (RNode a h c ss) -> 0 <= o < 64 ->
  (is_null s = false -> o * 64 ^ Z.of_nat k < 4294967296) ->
  match k, s with
  | O, Ptr _ => True
  | O, Child _ => False
  | S k', Ptr p => p = 0
  | S k', Child c => wf_node k' c
  end ->
  c' = c - nonnull (znth ss o) + nonnull s ->
  wf_node k (RNode a h c' (zset ss o s)).
Proof.
  intros Hwf Ho Hs Hm ->. pose proof (wf_node_fields _ _ Hwf) as (Hl & Hh & Hc). simpl in *.
  assert (forall o', 0 <= o' < 64 ->
    (is_null (znth (zset ss o s) o') = false -> o' * 64 ^ Z.of_nat k < 4294967296) /\
    match k, znth (zset ss o s) o' with
    | O, Ptr _ => True
    | O, Child _ => False
    | S k', Ptr p => p = 0
    | S k', Child c => wf_node k' c
    end) as Hall.
  { intros o' Ho'. destruct (decide (o = o')) as [<-|Hne].
    - rewrite znth_zset_eq by lia. done.
    - rewrite znth_zset_ne by lia. apply (wf_node_slot _ _ o' Hwf Ho'). }
  assert (c - nonnull (znth ss o) + nonnull s = count_nonnull (zset ss o s)) as Hcnt.
  { rewrite count_nonnull_zset by lia. lia. }
  destruct k; simpl; rewrite zlen_zset; split_and!; done.
Qed.

Lemma lookup_slot_unfold k n index :
  lookup_slot k n index =
  match k with
  | O => znth (n_slots n) (slot_offset index 0)
  | S k' =>
      match znth (n_slots n) (slot_offset index k) with
      | Child child => lookup_slot k' child index
      | Ptr _ => Ptr 0
      end
  end.
Proof. destruct k; simpl; [|done]. by rewrite leaf_offset_spec. Qed.

Lemma znth_empty_slots o : 0 <= o < 64 -> znth empty_slots o = Ptr 0.
Proof. intros Ho. unfold znth, empty_slots. apply lookup_total_replicate_2. lia. Qed.

Lemma wf_new_node a k : wf_node k (RNode a (S k) 0 empty_slots).
Proof.
  destruct k; (split_and!; [done..|]); intros o Ho; cbn [n_slots];
    rewrite znth_empty_slots by done; done.
Qed.

Lemma new_node_get a h k index : node_get k (RNode a h 0 empty_slots) index = 0.
Proof.
  unfold node_get. rewrite lookup_slot_unfold. cbn [n_slots].
  destruct k; rewrite znth_empty_slots by apply slot_offset_range; done.
Qed.

(** ** Lookup after an update of one slot *)

(** The indices [i] and [j] take the same path below a node whose children
    have height [k]. *)
Definition same_path (k : nat) (i j : Z) : bool :=
  i mod 64 ^ Z.of_nat (S k) =? j mod 64 ^ Z.of_nat (S k).

Lemma same_path_S k i j :
  same_path (S k) i j = (slot_offset i (S k) =? slot_offset j (S k)) && same_path k i j.
Proof.
  unfold same_path. pose proof (agree_S i j (S k)) as Hag.
  apply eq_bool_prop_intro. rewrite andb_True, !Is_true_true, !Z.eqb_eq. done.
Qed.

Lemma same_path_0 i j : same_path 0 i j = (slot_offset i 0 =? slot_offset j 0).
Proof.
  unfold same_path. pose proof (agree_S i j 0) as Hag.
  change (64 ^ Z.of_nat 0) with 1 in Hag. rewrite !Z.mod_1_r in Hag.
  apply eq_bool_prop_intro. rewrite !Is_true_true, !Z.eqb_eq. tauto.
Qed.

Lemma node_get_0 n j : node_get 0 n j = slot_item (znth (n_slots n) (slot_offset j 0)).
Proof. unfold node_get. by rewrite lookup_slot_unfold. Qed.

Lemma node_get_S k n j :
  node_get (S k) n j =
  match znth (n_slots n) (slot_offset j (S k)) with
  | Child c => node_get k c j
  | Ptr _ => 0
  end.
Proof. unfold node_get. rewrite lookup_slot_unfold. by destruct (znth _ _). Qed.

Lemma node_get_0_zset a h c c' ss i v j :
  zlen ss = 64 ->
  node_get 0 (RNode a h c' (zset ss (slot_offset i 0) (Ptr v))) j =
  if same_path 0 i j then v else node_get 0 (RNode a h c ss) j.
Proof.
  intros Hl. rewrite same_path_0, !node_get_0. simpl.
  pose proof (slot_offset_range i 0). pose proof (slot_offset_range j 0).
  bcase; [rewrite <- e, znth_zset_eq by lia | rewrite znth_zset_ne by lia]; done.
Qed.

(** Replacing the child on the path of [i] changes lookups only on that path. *)
Lemma node_get_S_zset k a h c c' ss i s j :
  zlen ss = 64 ->
  node_get (S k) (RNode a h c' (zset ss (slot_offset i (S k)) s)) j =
  if slot_offset i (S k) =? slot_offset j (S k)
  then match s with Child c => node_get k c j | Ptr _ => 0 end
  else node_get (S k) (RNode a h c ss) j.
Proof.
  intros Hl. rewrite !node_get_S. simpl.
  pose proof (slot_offset_range i (S k)). pose proof (slot_offset_range j (S k)).
  bcase; [rewrite <- e, znth_zset_eq by lia | rewrite znth_zset_ne by lia]; done.
Qed.

Section correctness.
Context {M : Type} `{!KAlloc M}.

Lemma slot_in_range k i : is_u32 i -> slot_offset i k * 64 ^ Z.of_nat k < 4294967296.
Proof.
  intros Hi. unfold is_u32 in Hi. pose proof (slot_offset_below i k ltac:(lia)). lia.
Qed.

(** What an insertion below a node does, for each of its three results. *)
Definition insert_outcome (k : nat) (n n' : radix_tree_node) (i v r : Z) : Prop :=
  (r = 0 /\ node_get k n i = 0 /\
     forall j, node_get k n' j = if same_path k i j then v else node_get k n j) \/
  (r = - EEXIST /\ node_get k n i <> 0 /\ forall j, node_get k n' j = node_get k n j) \/
  (r = - ENOMEM /\ node_get k n i = 0 /\ forall j, node_get k n' j = node_get k n j).

(** The outcome of an insertion below a child is the outcome below the node. *)
Lemma insert_outcome_lift k a h c c' ss i v r s child' child :
  zlen ss = 64 -> s = znth ss (slot_offset i (S k)) ->
  (s = Child child \/ (exists p, s = Ptr p) /\ forall j, node_get k child j = 0) ->
  insert_outcome k child child' i v r ->
  insert_outcome (S k) (RNode a h c ss)
    (RNode a h c' (zset ss (slot_offset i (S k)) (Child child'))) i v r.
Proof.
  intros Hl Hs Hcase Hout.
  assert (forall j, slot_offset i (S k) = slot_offset j (S k) ->
    node_get (S k) (RNode a h c ss) j = node_get k child j) as Hget.
  { intros j Hj. rewrite node_get_S. simpl. rewrite <- Hj, <- Hs.
    destruct Hcase as [->|[[p ->] Hz]]; [done|]. by rewrite Hz. }
  assert (node_get (S k) (RNode a h c ss) i = node_get k child i) as Hi by by apply Hget.
  unfold insert_outcome in *.
  destruct Hout as [(-> & H0 & Hj)|[(-> & H0 & Hj)|(-> & H0 & Hj)]];
    [left | right; left | right; right]; rewrite Hi; (split_and!; [done|done|]);
    intros j; rewrite (node_get_S_zset _ _ _ c _ _ _ _ _ Hl), Hj, ?same_path_S; bcase; simpl;
    try done; rewrite Hget by done; done.
Qed.

Lemma insert_node_spec k n i v (m : M) r n' m' :
  wf_node k n -> is_u32 i -> v <> 0 -> insert_node k n i v m = (r, n', m') ->
  wf_node k n' /\ n_addr n' = n_addr n /\ insert_outcome k n n' i v r.
Proof.
  revert n m r n' m'. induction k as [|k IH]; intros [a h c ss] m r n' m' Hwf Hi Hv Hins;
    pose proof (wf_node_fields _ _ Hwf) as (Hl & Hh & Hc); simpl in Hl.
  - simpl in Hins. rewrite leaf_offset_spec in Hins.
    pose proof (slot_offset_range i 0) as Ho.
    destruct (wf_node_slot _ _ _ Hwf Ho) as [_ Hleaf]. simpl in Hleaf.
    destruct (znth ss (slot_offset i 0)) as [p|] eqn:Hp; [|done]. simpl in Hins.
    destruct (Z.eqb_spec p 0) as [->|Hne]; simplify_eq.
    + split_and!; [|done|].
      * eapply wf_node_zset; [done|done| |done|].
        -- intros _. by apply slot_in_range.
        -- rewrite Hp. unfold nonnull; simpl. destruct (Z.eqb_spec v 0); [done|]. simpl. lia.
      * left. split_and!; [done| |].
        -- rewrite node_get_0. simpl. by rewrite Hp.
        -- intros j. by apply (node_get_0_zset _ _ c).
    + split_and!; [done|done|]. right; left. split_and!; [done| |done].
      rewrite node_get_0. simpl. by rewrite Hp.
  - cbn [insert_node] in Hins. pose proof (slot_offset_range i (S k)) as Ho.
    destruct (wf_node_slot _ _ _ Hwf Ho) as [_ Hslot]. cbn [n_slots] in Hslot.
    destruct (znth ss (slot_offset i (S k))) as [p|child] eqn:Hp.
    + subst p. unfold radix_tree_node_alloc in Hins.
      destruct (kmalloc _ m) as [[a'|] m1] eqn:Hk.
      * destruct (insert_node k _ i v m1) as [[r1 c1] m2] eqn:Hrec. simplify_eq.
        apply IH in Hrec as (Hwf' & _ & Hout); [|apply wf_new_node|done|done].
        split_and!; [|done|].
        -- eapply wf_node_zset; [done|done| |done|].
           ++ intros _. by apply slot_in_range.
           ++ rewrite Hp. unfold nonnull; simpl. lia.
        -- eapply insert_outcome_lift; [done|by rewrite Hp| |exact Hout].
           right. split; [by eexists|]. intros j. apply new_node_get.
      * simplify_eq. split_and!; [done|done|]. right; right. split_and!; [done| |done].
        rewrite node_get_S. simpl. by rewrite Hp.
    + destruct (insert_node k child i v m) as [[r1 c1] m2] eqn:Hrec. simplify_eq.
      apply IH in Hrec as (Hwf' & _ & Hout); [|done..].
      split_and!; [|done|].
      * eapply wf_node_zset; [done|done| |done|].
        -- intros _. by apply slot_in_range.
        -- rewrite Hp. unfold nonnull; simpl. lia.
      * eapply insert_outcome_lift; [done|by rewrite Hp|by left|exact Hout].
Qed.

(** ** Growing the tree *)

(** Lookup in a tree of height [h]. *)
Definition root_get (h : nat) (n : radix_tree_node) (j : Z) : Z :=
  if radix_tree_maxindex h <? j then 0 else node_get (pred h) n j.

Lemma radix_tree_lookup_get root j :
  radix_tree_lookup root j =
  match rnode root with None => 0 | Some n => root_get (height root) n j end.
Proof. done. Qed.

Definition push_root (a : Z) (k : nat) (n : radix_tree_node) : radix_tree_node :=
  RNode a (S (S k)) 1 (zset empty_slots 0 (Child n)).

Lemma push_root_wf a k n : wf_node k n -> wf_node (S k) (push_root a k n).
Proof.
  intros Hwf. unfold push_root.
  eapply (wf_node_zset (S k) a _ 0); [apply wf_new_node|lia|lia|done|].
  rewrite znth_empty_slots by lia. done.
Qed.

(** Pushing a root on top keeps every lookup. *)
Lemma push_root_get a k n j :
  (S (S k) <= 6)%nat -> is_u32 j -> root_get (S (S k)) (push_root a k n) j = root_get (S k) n j.
Proof.
  intros Hk Hj. unfold root_get, is_u32 in *. cbn [pred].
  rewrite node_get_S. unfold push_root. cbn [n_slots].
  rewrite !maxindex_spec. unfold U32_MAX.
  pose proof (pow64_pos (S k)). rewrite (pow64_S (S k)).
  pose proof (slot_offset_range j (S k)).
  assert (64 ^ Z.of_nat (S k) <= 64 ^ 5).
  { apply Z.pow_le_mono_r; lia. }
  destruct (Z.ltb_spec (Z.min (64 ^ Z.of_nat (S k) - 1) 4294967295) j) as [Hgt|Hle].
  - bcase; [done|]. rewrite znth_zset_ne, znth_empty_slots; [done|lia|lia|lia|].
    rewrite slot_offset_spec. intros Heq. symmetry in Heq.
    rewrite Z.mod_small in Heq.
    + apply Z.div_small_iff in Heq; lia.
    + split; [apply Z.div_pos; lia|]. apply Z.div_lt_upper_bound; lia.
  - assert (slot_offset j (S k) = 0) as ->.
    { rewrite slot_offset_spec, Z.div_small by lia. done. }
    bcase; [lia|]. rewrite znth_zset_eq by done. done.
Qed.

Lemma extend_loop_spec n h node (m : M) r h' node' m' :
  (1 <= h)%nat -> (h + n <= 6)%nat -> wf_node (pred h) node ->
  extend_loop n h node m = (r, h', node', m') ->
  (h <= h' <= h + n)%nat /\ wf_node (pred h') node' /\
  (forall j, is_u32 j -> root_get h' node' j = root_get h node j) /\
  ((r = 0 /\ h' = (h + n)%nat) \/ (r = - ENOMEM /\ n <> O)).
Proof.
  revert h node m. induction n as [|n IH]; intros h node m Hh Hn Hwf Hext; simpl in Hext.
  - simplify_eq. split_and!; [lia|lia|done|done|left; split; [done|lia]].
  - unfold radix_tree_node_alloc in Hext. destruct (kmalloc _ m) as [[a|] m1].
    + destruct h as [|k]; [lia|]. cbn [n_addr n_height n_slots] in Hext.
      fold (push_root a k node) in Hext.
      apply IH in Hext as (Hle & Hwf' & Hget & Hr); [|lia|lia|by apply push_root_wf].
      split_and!; [lia|lia|done| |].
      * intros j Hj. rewrite Hget by done. apply push_root_get; [lia|done].
      * destruct Hr as [[-> ->]|[-> _]]; [left; split; [done|lia]|right; done].
    + simplify_eq. split_and!; [lia|lia|done|done|right; done].
Qed.

(** [radix_tree_extend] keeps the tree well-formed and all lookups; it either
    fails with [-ENOMEM], and then the index was outside the tree, or the index
    is inside the tree afterwards. *)
Lemma radix_tree_extend_spec root i (m : M) r root' m' :
  wf_root root -> is_u32 i -> radix_tree_extend root i m = (r, root', m') ->
  wf_root root' /\ gfp_mask root' = gfp_mask root /\
  (forall j, is_u32 j -> radix_tree_lookup root' j = radix_tree_lookup root j) /\
  ((r = 0 /\ i <= radix_tree_maxindex (height root') /\ is_Some (rnode root')) \/
   (r = - ENOMEM /\ radix_tree_lookup root i = 0)).
Proof.
  intros Hwf Hi Hext. destruct (required_height_spec i Hi) as (Hreq & Hmax & Hmin).
  unfold radix_tree_extend in Hext. unfold wf_root in Hwf.
  destruct (rnode root) as [node|] eqn:Hr0.
  - destruct Hwf as [Hh Hwf].
    destruct (extend_loop _ _ node m) as [[[r1 h1] n1] m1] eqn:Hloop. simplify_eq.
    apply extend_loop_spec in Hloop as (Hle & Hwf' & Hget & Hr); [|lia|lia|done].
    assert (forall j, is_u32 j ->
      radix_tree_lookup (Build_root h1 (gfp_mask root) (Some n1)) j = radix_tree_lookup root j)
      as Hlk.
    { intros j Hj. rewrite !radix_tree_lookup_get, Hr0. simpl. by apply Hget. }
    split_and!; [split; [simpl; lia|done]|done|done|].
    destruct Hr as [[-> ->]|[-> Hn]].
    + left. simpl. split_and!; [done| |done].
      destruct (decide (radix_tree_required_height i <= height root)%nat) as [Hge|Hlt].
      * rewrite maxindex_spec in *. replace (height root + _)%nat with (height root) by lia.
        pose proof (Z.pow_le_mono_r 64 (Z.of_nat (radix_tree_required_height i))
                      (Z.of_nat (height root)) ltac:(lia) ltac:(lia)). lia.
      * replace (height root + _)%nat with (radix_tree_required_height i) by lia. done.
    + right. split; [done|]. rewrite radix_tree_lookup_get, Hr0. unfold root_get.
      specialize (Hmin (height root) ltac:(lia)). bcase; [done|lia].
  - unfold radix_tree_node_alloc in Hext. destruct (kmalloc _ m) as [[a|] m1]; simplify_eq.
    + split_and!; [split; [simpl; lia|] | done | | left; split_and!; done].
      * simpl. destruct (radix_tree_required_height i) as [|k]; [lia|]. apply wf_new_node.
      * intros j Hj. rewrite !radix_tree_lookup_get, Hr0. simpl. unfold root_get.
        rewrite new_node_get. by destruct (_ <? _).
    + split_and!; [unfold wf_root; by rewrite Hr0|done|done|right].
      split; [done|]. by rewrite radix_tree_lookup_get, Hr0.
Qed.


(** Inside a tree of height [h], two 32-bit indices on the same path are equal. *)
Lemma same_path_eq h i j :
  is_u32 i -> is_u32 j -> i <= radix_tree_maxindex h -> j <= radix_tree_maxindex h ->
  (1 <= h)%nat -> same_path (pred h) i j = (j =? i).
Proof.
  intros Hi Hj Him Hjm Hh. rewrite maxindex_spec in Him, Hjm. unfold is_u32, same_path in *.
  replace (S (pred h)) with h by lia. rewrite !Z.mod_small by lia. apply Z.eqb_sym.
Qed.

Lemma radix_tree_insert_spec root i v (m : M) r root' m' :
  wf_root root -> is_u32 i -> v <> 0 -> radix_tree_insert root i v m = (r, root', m') ->
  wf_root root' /\
  ((r = 0 /\ radix_tree_lookup root i = 0 /\
      forall j, is_u32 j -> radix_tree_lookup root' j = if j =? i then v else radix_tree_lookup root j) \/
   (r = - EEXIST /\ radix_tree_lookup root i <> 0 /\
      forall j, is_u32 j -> radix_tree_lookup root' j = radix_tree_lookup root j) \/
   (r = - ENOMEM /\ radix_tree_lookup root i = 0 /\
      forall j, is_u32 j -> radix_tree_lookup root' j = radix_tree_lookup root j)).
Proof.
  intros Hwf Hi Hv Hins. unfold radix_tree_insert in Hins.
  destruct (radix_tree_extend root i m) as [[r1 root1] m1] eqn:Hext.
  apply radix_tree_extend_spec in Hext as (Hwf1 & _ & Hlk & Hr); [|done|done].
  destruct Hr as [(-> & Hmax & [node Hnode])|[-> Hz]].
  2:{ simpl in Hins. simplify_eq. split; [done|]. right; right. done. }
  rewrite Hnode in Hins.
  destruct (insert_node _ node i v m1) as [[r2 node'] m2] eqn:Hin. simplify_eq.
  unfold wf_root in Hwf1. rewrite Hnode in Hwf1. destruct Hwf1 as [Hh Hwf1].
  apply insert_node_spec in Hin as (Hwf2 & _ & Hout); [|done..].
  split; [split; [simpl; lia|done]|].
  assert (forall n j, j <= radix_tree_maxindex (height root1) ->
    root_get (height root1) n j = node_get (pred (height root1)) n j) as Hin.
  { intros n j Hj. unfold root_get. bcase; [lia|done]. }
  assert (forall n j, radix_tree_maxindex (height root1) < j -> root_get (height root1) n j = 0)
    as Hoff.
  { intros n j Hj. unfold root_get. bcase; [done|lia]. }
  rewrite <- (Hlk i Hi), radix_tree_lookup_get, Hnode, (Hin _ _ Hmax).
  assert (forall j, is_u32 j -> radix_tree_lookup root j = root_get (height root1) node j) as Hlk'.
  { intros j Hj. by rewrite <- (Hlk j Hj), radix_tree_lookup_get, Hnode. }
  destruct Hout as [(-> & H0 & Hj)|[(-> & H0 & Hj)|(-> & H0 & Hj)]];
    [left | right; left | right; right]; (split_and!; [done|done|]);
    intros j Hju; rewrite Hlk' by done; rewrite radix_tree_lookup_get; simpl;
    (destruct (decide (j <= radix_tree_maxindex (height root1)));
     [rewrite !Hin by done; rewrite Hj | rewrite !Hoff by lia; try done]); try done.
  - rewrite (same_path_eq (height root1)) by (done || lia). done.
  - bcase; [lia|done].
Qed.

(** ** Deletion *)

Lemma count_zero_null ss o :
  count_nonnull ss = 0 -> 0 <= o < zlen ss -> is_null (znth ss o) = true.
Proof.
  intros Hc Ho. destruct (znth_split ss o Ho) as (l & r & Hss & _).
  apply (f_equal count_nonnull) in Hss. rewrite count_nonnull_app in Hss. simpl in Hss.
  pose proof (count_nonnull_nonneg l). pose proof (count_nonnull_nonneg r).
  unfold nonnull in Hss at 1. destruct (is_null (znth ss o)); [done|lia].
Qed.

(** Taking the last used slot away leaves only null slots. *)
Lemma dec_count_zero k a h c ss o :
  wf_node k (RNode a h c ss) -> 0 <= o < 64 -> is_null (znth ss o) = false ->
  dec_count c = c - 1 /\
  (dec_count c = 0 -> forall o', 0 <= o' < 64 -> o' <> o -> is_null (znth ss o') = true).
Proof.
  intros Hwf Ho Hnn. pose proof (wf_node_fields _ _ Hwf) as (Hl & _ & Hc). simpl in *.
  pose proof (count_nonnull_zset ss o (Ptr 0) ltac:(lia)) as Hz.
  pose proof (count_nonnull_nonneg (zset ss o (Ptr 0))).
  unfold nonnull in Hz. rewrite Hnn in Hz. simpl in Hz.
  assert (dec_count c = c - 1) as Hd by (unfold dec_count; bcase; lia).
  split; [done|]. intros Hd0 o' Ho' Hne.
  pose proof (count_zero_null (zset ss o (Ptr 0)) o' ltac:(lia)) as Hn.
  rewrite zlen_zset, znth_zset_ne in Hn by lia. apply Hn. lia.
Qed.

Definition delete_outcome (k : nat) (n : radix_tree_node) (on : option radix_tree_node) (i : Z) : Prop :=
  match on with
  | Some n' =>
      wf_node k n' /\ n_addr n' = n_addr n /\
      forall j, node_get k n' j = if same_path k i j then 0 else node_get k n j
  | None => forall j, same_path k i j = false -> node_get k n j = 0
  end.

Lemma delete_node_spec k n i (m : M) item on m' :
  wf_node k n -> delete_node k n i m = (item, on, m') ->
  item = node_get k n i /\ (item = 0 -> on = Some n /\ m' = m) /\
  (item <> 0 -> delete_outcome k n on i).
Proof.
  revert n m item on m'.
  induction k as [|k IH]; intros [a h c ss] m item on m' Hwf Hdel;
    pose proof (wf_node_fields _ _ Hwf) as (Hl & Hh & Hc); simpl in Hl.
  - simpl in Hdel. rewrite leaf_offset_spec in Hdel.
    pose proof (slot_offset_range i 0) as Ho.
    destruct (wf_node_slot _ _ _ Hwf Ho) as [_ Hleaf]. cbn [n_slots] in Hleaf.
    rewrite node_get_0. cbn [n_slots].
    destruct (znth ss (slot_offset i 0)) as [p|] eqn:Hp; [|done]. cbn [slot_item] in Hdel |- *.
    destruct (Z.eqb_spec p 0) as [->|Hne]; [by simplify_eq|].
    assert (is_null (znth ss (slot_offset i 0)) = false) as Hnn.
    { rewrite Hp. simpl. by bcase. }
    destruct (dec_count_zero _ _ _ _ _ _ Hwf Ho Hnn) as [Hd Hall].
    destruct (Z.eqb_spec (dec_count c) 0) as [Hd0|Hd0]; simplify_eq;
      (split_and!; [done|done|]); intros _.
    + intros j. rewrite same_path_0, node_get_0. cbn [n_slots]. intros Hj.
      pose proof (slot_offset_range j 0) as Hjo. apply Z.eqb_neq in Hj.
      specialize (Hall Hd0 _ Hjo ltac:(lia)).
      destruct (wf_node_slot _ _ _ Hwf Hjo) as [_ Hl']. cbn [n_slots] in Hl'.
      destruct (znth ss (slot_offset j 0)); [|done]. simpl in *. by apply Z.eqb_eq in Hall.
    + split_and!; [|done|intros j; by apply (node_get_0_zset _ _ c)].
      eapply wf_node_zset; [done|done|done|done|]. unfold nonnull. rewrite Hnn. simpl. lia.
  - cbn [delete_node] in Hdel. pose proof (slot_offset_range i (S k)) as Ho.
    destruct (wf_node_slot _ _ _ Hwf Ho) as [_ Hslot]. cbn [n_slots] in Hslot.
    rewrite node_get_S. cbn [n_slots].
    destruct (znth ss (slot_offset i (S k))) as [p|child] eqn:Hp; [by simplify_eq|].
    assert (is_null (znth ss (slot_offset i (S k))) = false) as Hnn by by rewrite Hp.
    destruct (dec_count_zero _ _ _ _ _ _ Hwf Ho Hnn) as [Hd Hall].
    destruct (delete_node k child i m) as [[item1 on1] m1] eqn:Hrec.
    apply IH in Hrec as (Hitem & Hz & Hout); [|done].
    assert (forall j, slot_offset i (S k) = slot_offset j (S k) ->
      node_get (S k) (RNode a h c ss) j = node_get k child j) as Hget.
    { intros j Hj. rewrite node_get_S. simpl. by rewrite <- Hj, Hp. }
    destruct on1 as [child'|].
    + destruct (Z.eqb_spec item1 0) as [->|Hne]; [by simplify_eq|]. simplify_eq.
      split_and!; [done|done|]. intros _. destruct (Hout Hne) as (Hwf' & _ & Hj).
      split_and!; [|done|].
      * eapply wf_node_zset; [done|done| |done|].
        -- intros _. apply (proj1 (wf_node_slot _ _ _ Hwf Ho)). cbn [n_slots]. by rewrite Hp.
        -- unfold nonnull. rewrite Hnn. simpl. lia.
      * intros j. rewrite (node_get_S_zset _ _ _ c) by done. rewrite same_path_S, Hj.
        bcase; simpl; [|done]. by rewrite Hget.
    + assert (item1 <> 0) as Hne by (intros ->; by destruct Hz).
      specialize (Hout Hne). simpl in Hout.
      destruct (Z.eqb_spec (dec_count c) 0) as [Hd0|Hd0]; simplify_eq;
        (split_and!; [done|done|]); intros _.
      * intros j. rewrite same_path_S. intros Hj.
        destruct (Z.eqb_spec (slot_offset i (S k)) (slot_offset j (S k))) as [Hs|Hs].
        { rewrite Hget by done. apply Hout. done. }
        pose proof (slot_offset_range j (S k)) as Hjo.
        specialize (Hall Hd0 _ Hjo ltac:(lia)). rewrite node_get_S. cbn [n_slots].
        by destruct (znth ss (slot_offset j (S k))).
      * split_and!; [|done|].
        -- eapply wf_node_zset; [done|done|done|done|]. unfold nonnull. rewrite Hnn. simpl. lia.
        -- intros j. rewrite (node_get_S_zset _ _ _ c) by done. rewrite same_path_S.
           bcase; simpl; [|done]. rewrite Hget by done.
           destruct (same_path k i j) eqn:Hsp; [done|]. symmetry. by apply Hout.
Qed.

Lemma radix_tree_delete_spec root i (m : M) item root' m' :
  wf_root root -> is_u32 i -> radix_tree_delete root i m = (item, root', m') ->
  wf_root root' /\ item = radix_tree_lookup root i /\
  forall j, is_u32 j -> radix_tree_lookup root' j = if j =? i then 0 else radix_tree_lookup root j.
Proof.
  intros Hwf Hi Hdel. unfold radix_tree_delete in Hdel.
  assert (radix_tree_lookup root i = 0 -> forall j, is_u32 j ->
    radix_tree_lookup root j = if j =? i then 0 else radix_tree_lookup root j) as Hsame.
  { intros H0 j _. bcase; [by subst|done]. }
  rewrite radix_tree_lookup_get in Hsame |- *. pose proof Hwf as Hwf0. unfold wf_root in Hwf.
  destruct (rnode root) as [node|] eqn:Hr; [|simplify_eq; split_and!; [done..|]; by auto].
  destruct Hwf as [Hh Hwf]. unfold root_get in Hsame |- * at 1.
  destruct (Z.ltb_spec (radix_tree_maxindex (height root)) i) as [Hgt|Hle];
    [simplify_eq; by auto|].
  destruct (delete_node _ node i m) as [[item1 on] m1] eqn:Hd.
  apply delete_node_spec in Hd as (Hitem & Hz & Hout); [|done].
  assert (forall j, radix_tree_lookup root j = root_get (height root) node j) as Hlk.
  { intros j. by rewrite radix_tree_lookup_get, Hr. }
  destruct on as [node'|].
  - destruct (Z.eqb_spec item1 0) as [->|Hne]; [simplify_eq; split_and!; [done..|]; by auto|].
    simplify_eq. destruct (Hout Hne) as (Hwf' & _ & Hj).
    pose proof (wf_node_fields _ _ Hwf') as (_ & Hh' & _).
    replace (n_height node') with (height root) by lia.
    split_and!; [split; [simpl; lia|done]|done|].
    intros j Hju. rewrite radix_tree_lookup_get, Hlk. simpl. unfold root_get.
    destruct (Z.ltb_spec (radix_tree_maxindex (height root)) j); [by bcase|].
    rewrite Hj, (same_path_eq (height root)) by (done || lia). done.
  - assert (item1 <> 0) as Hne by (intros ->; by destruct Hz).
    simplify_eq. split_and!; [done|done|]. intros j Hju.
    rewrite radix_tree_lookup_get, Hlk. simpl. unfold root_get.
    destruct (Z.ltb_spec (radix_tree_maxindex (height root)) j); [by bcase|].
    rewrite <- (same_path_eq (height root)) by (done || lia).
    destruct (same_path _ i j) eqn:Hsp; [done|]. symmetry. by apply (Hout Hne).
Qed.

End correctness.

(** ** Writing through a slot *)

Lemma store_slot_spec k n i v :
  wf_node k n -> is_u32 i -> node_get k n i <> 0 -> v <> 0 ->
  wf_node k (store_slot k n i v) /\
  forall j, node_get k (store_slot k n i v) j = if same_path k i j then v else node_get k n j.
Proof.
  revert n. induction k as [|k IH]; intros [a h c ss] Hwf Hi Hnz Hv;
    pose proof (wf_node_fields _ _ Hwf) as (Hl & _ & _); cbn [n_slots] in Hl.
  - cbn [store_slot]. rewrite leaf_offset_spec. pose proof (slot_offset_range i 0) as Ho.
    destruct (wf_node_slot _ _ _ Hwf Ho) as [_ Hleaf]. rewrite node_get_0 in Hnz.
    cbn [n_slots] in Hleaf, Hnz. destruct (znth ss (slot_offset i 0)) as [p|] eqn:Hp; [|done].
    split; [|intros j; by apply (node_get_0_zset _ _ c)].
    eapply wf_node_zset; [done|done| |done|].
    + intros _. by apply slot_in_range.
    + rewrite Hp. unfold nonnull. simpl in *. bcase; (done || lia).
  - cbn [store_slot]. pose proof (slot_offset_range i (S k)) as Ho.
    destruct (wf_node_slot _ _ _ Hwf Ho) as [_ Hs]. rewrite node_get_S in Hnz.
    cbn [n_slots] in Hs, Hnz. destruct (znth ss (slot_offset i (S k))) as [p|child] eqn:Hp; [done|].
    destruct (IH child Hs Hi Hnz Hv) as [Hwf' Hg]. split.
    + eapply wf_node_zset; [done|done| |done|].
      * intros _. by apply slot_in_range.
      * rewrite Hp. unfold nonnull. simpl. lia.
    + intros j. rewrite (node_get_S_zset _ _ _ c) by done. rewrite same_path_S, Hg, node_get_S.
      cbn [n_slots]. bcase; simpl; [|done]. by rewrite <- e, Hp.
Qed.

(** Storing through the slot of an occupied index rebinds that index. *)
Lemma replace_slot_spec root i v :
  wf_root root -> is_u32 i -> radix_tree_lookup root i <> 0 -> v <> 0 ->
  wf_root (radix_tree_replace_slot root i v) /\
  forall j, is_u32 j ->
    radix_tree_lookup (radix_tree_replace_slot root i v) j =
    if j =? i then v else radix_tree_lookup root j.
Proof.
  intros Hwf Hi Hnz Hv. rewrite radix_tree_lookup_get in Hnz. unfold radix_tree_replace_slot.
  unfold wf_root in Hwf. destruct (rnode root) as [n|] eqn:Hr; [|done]. destruct Hwf as [Hh Hwf].
  unfold root_get in Hnz. destruct (Z.ltb_spec (radix_tree_maxindex (height root)) i); [done|].
  destruct (store_slot_spec _ _ _ v Hwf Hi Hnz Hv) as [Hwf' Hg].
  split; [split; [simpl; lia|done]|]. intros j Hj. rewrite !radix_tree_lookup_get, Hr. simpl.
  unfold root_get. destruct (Z.ltb_spec (radix_tree_maxindex (height root)) j); [bcase; [lia|done]|].
  rewrite Hg, (same_path_eq (height root)) by (done || lia). done.
Qed.

(** ** Ownership of nodes *)

Section ownership.
Context {M : Type} `{!KAlloc M, !KAllocSpec M}.

(** The addresses of the nodes of a subtree. *)
Fixpoint node_addrs (k : nat) (n : radix_tree_node) : list Z :=
  n_addr n ::
  match k with
  | O => []
  | S k' => n_slots n ≫= (fun s => match s with Child c => node_addrs k' c | Ptr _ => [] end)
  end.

Definition slot_addrs (k : nat) (s : slot) : list Z :=
  match s with Child c => node_addrs k c | Ptr _ => [] end.

Definition root_addrs (root : radix_tree_root) : list Z :=
  match rnode root with None => [] | Some n => node_addrs (pred (height root)) n end.

(** The tree's nodes are live, distinct objects of the heap. *)
Definition owned (l : list Z) (m : M) : Prop :=
  km_ok m /\ NoDup l /\ forall a, a ∈ l -> a ∈ live m.

Lemma node_addrs_S k a h c ss :
  node_addrs (S k) (RNode a h c ss) = a :: (ss ≫= slot_addrs k).
Proof. done. Qed.

Lemma bind_zset (f : slot -> list Z) ss o :
  0 <= o < zlen ss ->
  exists rest, ss ≫= f ≡ₚ f (znth ss o) ++ rest /\
    forall s, zset ss o s ≫= f ≡ₚ f s ++ rest.
Proof.
  intros Ho. destruct (znth_split ss o Ho) as (l & r & Hss & Hset).
  exists ((l ≫= f) ++ (r ≫= f)). split.
  - rewrite Hss at 1. rewrite bind_app. simpl. rewrite Permutation_app_swap_app. done.
  - intros s. rewrite Hset, bind_app. simpl. rewrite Permutation_app_swap_app. done.
Qed.

(** [m'] extends [m] by exactly the nodes that [l'] has and [l] has not. *)
Definition grows (l l' : list Z) (m m' : M) : Prop :=
  km_ok m' /\ exists new, l' ≡ₚ new ++ l /\ NoDup new /\
    (forall a, a ∈ new -> a ∉ live m) /\ live m' = (list_to_set new ∪ live m).

Lemma grows_refl l m : km_ok m -> grows l l m m.
Proof.
  intros Hm. split; [done|]. exists []. split_and!; [done|constructor|set_solver|set_solver].
Qed.

Lemma grows_trans l1 l2 l3 m1 m2 m3 : grows l1 l2 m1 m2 -> grows l2 l3 m2 m3 -> grows l1 l3 m1 m3.
Proof.
  intros [_ (n1 & Hp1 & Hn1 & Hd1 & Hl1)] [Hok (n2 & Hp2 & Hn2 & Hd2 & Hl2)].
  split; [done|]. exists (n2 ++ n1). split_and!.
  - by rewrite Hp2, Hp1, app_assoc.
  - apply NoDup_app. split_and!; [done| |done]. intros a Ha Ha'.
    apply (Hd2 a Ha). rewrite Hl1. set_solver.
  - set_solver.
  - rewrite Hl2, Hl1, list_to_set_app_L. set_solver.
Qed.

Lemma grows_frame x l l' m m' : grows l l' m m' -> grows (x ++ l) (x ++ l') m m'.
Proof.
  intros [Hok (new & Hp & H)]. split; [done|]. exists new. split; [|done].
  rewrite Hp. apply Permutation_app_swap_app.
Qed.

Lemma grows_perm l1 l2 l1' l2' m m' :
  l1 ≡ₚ l1' -> l2 ≡ₚ l2' -> grows l1 l2 m m' -> grows l1' l2' m m'.
Proof.
  intros H1 H2 [Hok (new & Hp & H)]. split; [done|]. exists new. split; [|done].
  by rewrite <- H2, Hp, H1.
Qed.

Lemma kmalloc_grows sz a l (m m' : M) :
  km_ok m -> kmalloc sz m = (Some a, m') -> grows l (a :: l) m m'.
Proof.
  intros Hok Hk. destruct (kmalloc_some _ _ _ _ Hok Hk) as (Hok' & _ & Hnew & Hlive).
  split; [done|]. exists [a]. split_and!; [done|apply NoDup_singleton|set_solver|set_solver].
Qed.

Lemma kmalloc_none_grows sz l (m m' : M) :
  km_ok m -> kmalloc sz m = (None, m') -> grows l l m m'.
Proof.
  intros Hok Hk. destruct (kmalloc_none _ _ _ Hok Hk) as [Hok' Hlive].
  split; [done|]. exists []. split_and!; [done|constructor|set_solver|set_solver].
Qed.

Lemma bind_slots_null k ss : count_nonnull ss = 0 -> ss ≫= slot_addrs k = [].
Proof.
  induction ss as [|s ss IH]; [done|]. pose proof (nonnull_nonneg s).
  pose proof (count_nonnull_nonneg ss). rewrite bind_cons. intros Hc. simpl in Hc.
  rewrite IH by lia. destruct s; [done|]. unfold nonnull in Hc. simpl in Hc. lia.
Qed.

Lemma grows_owned l l' m m' :
  owned l m -> grows l l' m m' ->
  owned l' m' /\ live m' ∖ list_to_set l' = live m ∖ list_to_set l.
Proof.
  intros (_ & Hnd & Hin) [Hok (new & Hp & Hnn & Hd & Hl)]. split.
  - split_and!; [done| |].
    + rewrite Hp. apply NoDup_app. split_and!; [done| |done].
      intros a Ha Ha'. by apply (Hd a Ha), Hin.
    + intros a. rewrite Hp, Hl. set_solver.
  - apply set_eq. intros a. rewrite Hl.
    assert (a ∈ list_to_set (C := gset Z) l' <-> a ∈ new \/ a ∈ l) as Hiff.
    { rewrite elem_of_list_to_set, Hp. set_solver. }
    specialize (Hd a). set_solver.
Qed.

Lemma insert_node_grows k n i v (m : M) r n' m' :
  wf_node k n -> km_ok m -> insert_node k n i v m = (r, n', m') ->
  grows (node_addrs k n) (node_addrs k n') m m'.
Proof.
  revert n m r n' m'. induction k as [|k IH]; intros [a h c ss] m r n' m' Hwf Hok Hins;
    pose proof (wf_node_fields _ _ Hwf) as (Hl & _ & _); simpl in Hl.
  - simpl in Hins. destruct (is_null _); simplify_eq; by apply grows_refl.
  - cbn [insert_node] in Hins. pose proof (slot_offset_range i (S k)) as Ho.
    destruct (wf_node_slot _ _ _ Hwf Ho) as [_ Hslot]. cbn [n_slots] in Hslot.
    destruct (bind_zset (slot_addrs k) ss (slot_offset i (S k)) ltac:(lia)) as (rest & H1 & H2).
    rewrite node_addrs_S.
    assert (forall x s', grows x (slot_addrs k s') m m' -> slot_addrs k (znth ss (slot_offset i (S k))) = x ->
      grows (a :: (ss ≫= slot_addrs k)) (a :: (zset ss (slot_offset i (S k)) s' ≫= slot_addrs k)) m m')
      as Hframe.
    { intros x s' Hg Hx. apply (grows_frame [a]).
      eapply grows_perm; [rewrite H1, Hx, Permutation_app_comm; reflexivity
                         |rewrite H2, Permutation_app_comm; reflexivity|].
      by apply grows_frame. }
    destruct (znth ss (slot_offset i (S k))) as [p|child] eqn:Hp.
    + unfold radix_tree_node_alloc in Hins. destruct (kmalloc _ m) as [[a'|] m1] eqn:Hk.
      * destruct (insert_node k _ i v m1) as [[r1 c1] m2] eqn:Hrec. simplify_eq.
        rewrite node_addrs_S. apply (Hframe [] (Child c1)); [|done].
        pose proof (kmalloc_grows _ _ [] _ _ Hok Hk) as Hg.
        eapply grows_trans; [exact Hg|]. apply IH in Hrec; [|apply wf_new_node|apply Hg].
        enough ([a'] = node_addrs k (RNode a' (S k) 0 empty_slots)) as -> by done.
        by destruct k.
      * simplify_eq. by eapply kmalloc_none_grows.
    + destruct (insert_node k child i v m) as [[r1 c1] m2] eqn:Hrec. simplify_eq.
      rewrite node_addrs_S. apply (Hframe (node_addrs k child) (Child c1)); [|done].
      by apply IH in Hrec.
Qed.

Lemma extend_loop_grows n k node (m : M) r h' node' m' :
  km_ok m -> extend_loop n (S k) node m = (r, h', node', m') ->
  grows (node_addrs k node) (node_addrs (pred h') node') m m'.
Proof.
  revert k node m. induction n as [|n IH]; intros k node m Hok Hext; simpl in Hext.
  - simplify_eq. by apply grows_refl.
  - unfold radix_tree_node_alloc in Hext. destruct (kmalloc _ m) as [[a|] m1] eqn:Hk.
    + pose proof (kmalloc_grows _ _ (node_addrs k node) _ _ Hok Hk) as Hg.
      apply IH in Hext; [|apply Hg]. eapply grows_trans; [exact Hg|].
      cbn [n_addr n_height n_slots] in Hext. fold (push_root a k node) in Hext.
      enough (node_addrs (S k) (push_root a k node) = a :: node_addrs k node) as Heq
        by by rewrite Heq in Hext.
      unfold push_root. rewrite node_addrs_S. simpl. by rewrite app_nil_r.
    + simplify_eq. by eapply kmalloc_none_grows.
Qed.

Lemma radix_tree_insert_grows root i v (m : M) r root' m' :
  wf_root root -> is_u32 i -> km_ok m -> radix_tree_insert root i v m = (r, root', m') ->
  grows (root_addrs root) (root_addrs root') m m'.
Proof.
  intros Hwf Hi Hok Hins. unfold radix_tree_insert in Hins.
  destruct (radix_tree_extend root i m) as [[r1 root1] m1] eqn:Hext.
  assert (grows (root_addrs root) (root_addrs root1) m m1) as Hg1.
  { unfold radix_tree_extend in Hext. unfold root_addrs, wf_root in *.
    destruct (rnode root) as [node|] eqn:Hr0.
    - destruct Hwf as [Hh Hwf]. destruct (height root) as [|k]; [lia|].
      destruct (extend_loop _ _ node m) as [[[r2 h2] n2] m2] eqn:Hloop. simplify_eq.
      by eapply extend_loop_grows in Hloop.
    - destruct (required_height_spec i Hi) as (Hreq & _).
      unfold radix_tree_node_alloc in Hext. destruct (kmalloc _ m) as [[a|] m2] eqn:Hk; simplify_eq.
      + simpl. pose proof (kmalloc_grows _ _ [] _ _ Hok Hk) as Hg.
        enough (node_addrs (pred (radix_tree_required_height i))
          (RNode a (radix_tree_required_height i) 0 empty_slots) = [a]) as -> by done.
        by destruct (pred _).
      + rewrite Hr0. by eapply kmalloc_none_grows. }
  apply radix_tree_extend_spec in Hext as [Hwf1 _]; [|done|done].
  destruct r1; [|by simplify_eq..]. destruct (rnode root1) as [node|] eqn:Hn; [|by simplify_eq].
  destruct (insert_node _ node i v m1) as [[r2 node'] m2] eqn:Hin. simplify_eq.
  unfold wf_root in Hwf1. rewrite Hn in Hwf1. destruct Hwf1 as [_ Hwf1].
  apply insert_node_grows in Hin; [|done|apply Hg1].
  eapply grows_trans; [exact Hg1|]. unfold root_addrs at 1. by rewrite Hn.
Qed.

(** [m'] is [m] with exactly the nodes freed that [l] has and [l'] has not. *)
Definition shrinks (l l' : list Z) (m m' : M) : Prop :=
  km_ok m' /\ exists old, l ≡ₚ old ++ l' /\ live m' = live m ∖ list_to_set old.

Lemma shrinks_refl l m : km_ok m -> shrinks l l m m.
Proof. intros Hm. split; [done|]. exists []. split; [done|set_solver]. Qed.

Lemma shrinks_trans l1 l2 l3 m1 m2 m3 :
  shrinks l1 l2 m1 m2 -> shrinks l2 l3 m2 m3 -> shrinks l1 l3 m1 m3.
Proof.
  intros [_ (o1 & Hp1 & Hl1)] [Hok (o2 & Hp2 & Hl2)]. split; [done|].
  exists (o1 ++ o2). split; [by rewrite Hp1, Hp2, app_assoc|].
  rewrite Hl2, Hl1, list_to_set_app_L. set_solver.
Qed.

Lemma shrinks_frame x l l' m m' : shrinks l l' m m' -> shrinks (x ++ l) (x ++ l') m m'.
Proof.
  intros [Hok (old & Hp & H)]. split; [done|]. exists old. split; [|done].
  rewrite Hp. apply Permutation_app_swap_app.
Qed.

Lemma shrinks_perm l1 l2 l1' l2' m m' :
  l1 ≡ₚ l1' -> l2 ≡ₚ l2' -> shrinks l1 l2 m m' -> shrinks l1' l2' m m'.
Proof.
  intros H1 H2 [Hok (old & Hp & H)]. split; [done|]. exists old. split; [|done].
  by rewrite <- H1, Hp, H2.
Qed.

Lemma owned_perm l l' m : l ≡ₚ l' -> owned l m -> owned l' m.
Proof.
  intros Hp (Hok & Hnd & Hin). split_and!; [done|by rewrite <- Hp|].
  intros a. rewrite <- Hp. apply Hin.
Qed.

Lemma owned_app l1 l2 m : owned (l1 ++ l2) m -> owned l1 m /\ owned l2 m.
Proof.
  intros (Hok & (Hn1 & _ & Hn2)%NoDup_app & Hin). split; (split_and!; [done|done|]);
    intros a Ha; apply Hin; set_solver.
Qed.

Lemma kfree_shrinks a l (m : M) : owned (a :: l) m -> shrinks (a :: l) l m (kfree a m).
Proof.
  intros (Hok & _ & Hin). destruct (kfree_live a m Hok) as [Hok' Hl]; [apply Hin; set_solver|].
  split; [done|]. exists [a]. split; [done|]. rewrite Hl. set_solver.
Qed.

Lemma shrinks_owned l l' m m' :
  owned l m -> shrinks l l' m m' ->
  owned l' m' /\ live m' ∖ list_to_set l' = live m ∖ list_to_set l.
Proof.
  intros (_ & Hnd & Hin) [Hok (old & Hp & Hl)]. rewrite Hp in Hnd.
  apply NoDup_app in Hnd as (_ & Hdis & Hnd). split.
  - split_and!; [done|done|]. intros a Ha. rewrite Hl.
    assert (a ∈ l) by (rewrite Hp; set_solver).
    assert (a ∉ old) by (intros ?; by apply (Hdis a)). specialize (Hin a). set_solver.
  - apply set_eq. intros a. rewrite Hl.
    assert (a ∈ list_to_set (C := gset Z) l <-> a ∈ old \/ a ∈ l') as Hiff.
    { rewrite elem_of_list_to_set, Hp. set_solver. }
    specialize (Hin a). set_solver.
Qed.

Lemma delete_node_shrinks k n i (m : M) item on m' :
  wf_node k n -> owned (node_addrs k n) m -> delete_node k n i m = (item, on, m') ->
  shrinks (node_addrs k n) (match on with None => [] | Some n' => node_addrs k n' end) m m'.
Proof.
  revert n m item on m'.
  induction k as [|k IH]; intros [a h c ss] m item on m' Hwf Hown Hdel;
    pose proof (wf_node_fields _ _ Hwf) as (Hl & _ & Hc); simpl in Hl;
    pose proof (proj1 Hown) as Hok.
  - simpl in Hdel. destruct (_ =? 0) in Hdel; [simplify_eq; by apply shrinks_refl|].
    destruct (dec_count c =? 0); simplify_eq; [by apply kfree_shrinks|by apply shrinks_refl].
  - cbn [delete_node] in Hdel. pose proof (slot_offset_range i (S k)) as Ho.
    destruct (wf_node_slot _ _ _ Hwf Ho) as [_ Hslot]. cbn [n_slots] in Hslot.
    destruct (bind_zset (slot_addrs k) ss (slot_offset i (S k)) ltac:(lia)) as (rest & H1 & H2).
    rewrite node_addrs_S in *.
    destruct (znth ss (slot_offset i (S k))) as [p|child] eqn:Hp;
      [simplify_eq; by apply shrinks_refl|].
    assert (a :: (ss ≫= slot_addrs k) ≡ₚ (a :: rest) ++ node_addrs k child) as Hperm.
    { rewrite H1. simpl. by rewrite Permutation_app_comm. }
    pose proof (owned_perm _ _ _ Hperm Hown) as Hown'. apply owned_app in Hown' as Hown''.
    destruct Hown'' as [_ Hchild].
    destruct (delete_node k child i m) as [[item1 on1] m1] eqn:Hrec.
    pose proof Hrec as Hspec. apply delete_node_spec in Hspec as (_ & Hz & _); [|done].
    apply IH in Hrec; [|done|done].
    pose proof (shrinks_frame (a :: rest) _ _ _ _ Hrec) as Hsh.
    destruct on1 as [child'|].
    + destruct (Z.eqb_spec item1 0) as [->|Hne]; [simplify_eq; by apply shrinks_refl|]. simplify_eq.
      rewrite node_addrs_S. eapply shrinks_perm; [by symmetry| |exact Hsh].
      rewrite H2. simpl. by rewrite Permutation_app_comm.
    + rewrite app_nil_r in Hsh.
      pose proof (shrinks_owned _ _ _ _ Hown' Hsh) as [Hown1 _].
      destruct (Z.eqb_spec (dec_count c) 0) as [Hd0|Hd0]; simplify_eq.
      * eapply shrinks_trans; [eapply shrinks_perm; [by symmetry|reflexivity|exact Hsh]|].
        enough (rest = []) as -> by by apply kfree_shrinks.
        assert (is_null (znth ss (slot_offset i (S k))) = false) as Hnn by by rewrite Hp.
        destruct (dec_count_zero _ _ _ _ _ _ Hwf Ho Hnn) as [Hd _].
        pose proof (count_nonnull_zset ss (slot_offset i (S k)) (Ptr 0) ltac:(lia)) as Hcz.
        unfold nonnull in Hcz. rewrite Hnn in Hcz. simpl in Hc, Hcz.
        specialize (H2 (Ptr 0)). rewrite bind_slots_null in H2 by lia.
        by apply Permutation_nil in H2.
      * rewrite node_addrs_S. eapply shrinks_perm; [by symmetry| |exact Hsh].
        rewrite H2. done.
Qed.

Lemma free_slots_shrinks (f : slot -> M -> M) k ss (m : M) :
  (forall s (m : M), s ∈ ss -> owned (slot_addrs k s) m -> shrinks (slot_addrs k s) [] m (f s m)) ->
  owned (ss ≫= slot_addrs k) m ->
  shrinks (ss ≫= slot_addrs k) [] m (foldl (fun m s => f s m) m ss).
Proof.
  revert m. induction ss as [|s ss IH]; intros m Hf Hown; [by apply shrinks_refl, Hown|].
  rewrite bind_cons in *. simpl. apply owned_app in Hown as Hown'. destruct Hown' as [Hs _].
  specialize (Hf s m ltac:(set_solver) Hs) as Hsh.
  apply (shrinks_frame (ss ≫= slot_addrs k)) in Hsh. rewrite app_nil_r in Hsh.
  apply (shrinks_perm _ _ (slot_addrs k s ++ (ss ≫= slot_addrs k)) (ss ≫= slot_addrs k)) in Hsh;
    [|by rewrite Permutation_app_comm|done].
  eapply shrinks_trans; [exact Hsh|]. apply IH; [set_solver|].
  by apply (shrinks_owned _ _ _ _ Hown Hsh).
Qed.

Lemma free_node_shrinks k n (m : M) :
  wf_node k n -> owned (node_addrs k n) m ->
  shrinks (node_addrs k n) [] m (radix_tree_free_node k n m).
Proof.
  revert n m. induction k as [|k IH]; intros [a h c ss] m Hwf Hown.
  - by apply kfree_shrinks.
  - rewrite node_addrs_S in *. pose proof (wf_node_fields _ _ Hwf) as (Hl & Hh & _).
    cbn [n_height n_slots] in Hl, Hh. cbn [radix_tree_free_node n_height n_slots n_addr].
    rewrite Hh. cbn [Nat.ltb Nat.leb].
    apply (owned_app [a]) in Hown as Hown'. destruct Hown' as [_ Hss].
    set (f := fun (s : slot) (m : M) =>
      match s with Child c => radix_tree_free_node k c m | Ptr _ => m end).
    assert (shrinks (ss ≫= slot_addrs k) [] m (foldl (fun m s => f s m) m ss)) as Hsh.
    { apply free_slots_shrinks; [|done].
      intros s' m' Hin Ho. destruct s' as [q|cc]; [by apply shrinks_refl, Ho|].
      apply IH; [|done]. apply list_elem_of_lookup in Hin as [o Hin].
      pose proof (lookup_lt_Some _ _ _ Hin). unfold zlen in Hl.
      pose proof (wf_node_slot _ _ (Z.of_nat o) Hwf ltac:(lia)) as [_ Hc].
      unfold znth in Hc. cbn [n_slots] in Hc.
      rewrite Nat2Z.id, (list_lookup_total_correct _ _ _ Hin) in Hc. done. }
    apply (shrinks_frame [a]) in Hsh. simpl in Hsh.
    eapply shrinks_trans; [exact Hsh|]. apply kfree_shrinks.
    by apply (shrinks_owned _ _ _ _ Hown Hsh).
Qed.
End ownership.

(** ** The indices in use, in order *)

Section slots_js.
Context (f : slot -> Z -> list Z) (step : Z).

(** [f] on every slot of an array; slot [o] starts at [base + o * step]. *)
Fixpoint slots_js (ss : list slot) (base : Z) : list Z :=
  match ss with
  | [] => []
  | s :: ss' => f s base ++ slots_js ss' (base + step)
  end.

Lemma slots_js_elem ss base j :
  j ∈ slots_js ss base <->
  exists o, 0 <= o < zlen ss /\ j ∈ f (znth ss o) (base + o * step).
Proof.
  revert base. induction ss as [|s ss IH]; intros base; simpl.
  { split; [set_solver|]. intros (o & Ho & _). unfold zlen in Ho. simpl in Ho. lia. }
  rewrite elem_of_app, IH. unfold zlen in *. simpl. split.
  - intros [Hj|(o & Ho & Hj)].
    + exists 0. split; [lia|]. unfold znth. simpl. by rewrite Z.mul_0_l, Z.add_0_r.
    + exists (o + 1). split; [lia|]. unfold znth in *.
      replace (Z.to_nat (o + 1)) with (S (Z.to_nat o)) by lia. simpl.
      by replace (base + (o + 1) * step) with (base + step + o * step) by lia.
  - intros (o & Ho & Hj). destruct (decide (o = 0)) as [->|Hne].
    + left. unfold znth in Hj. simpl in Hj. by rewrite Z.mul_0_l, Z.add_0_r in Hj.
    + right. exists (o - 1). split; [lia|]. unfold znth in *.
      replace (Z.to_nat o) with (S (Z.to_nat (o - 1))) in Hj by lia. simpl in Hj.
      by replace (base + step + (o - 1) * step) with (base + o * step) by lia.
Qed.

Lemma slots_js_sorted ss base :
  0 <= step ->
  (forall o, 0 <= o < zlen ss ->
    StronglySorted Z.lt (f (znth ss o) (base + o * step)) /\
    forall j, j ∈ f (znth ss o) (base + o * step) ->
      base + o * step <= j < base + o * step + step) ->
  StronglySorted Z.lt (slots_js ss base).
Proof.
  intros Hstep. revert base. induction ss as [|s ss IH]; intros base Hf; simpl; [constructor|].
  assert (zlen (s :: ss) = zlen ss + 1) as Hlen by (unfold zlen; simpl; lia).
  assert (0 <= zlen ss) by (unfold zlen; lia).
  assert (forall o, 0 <= o < zlen ss ->
    StronglySorted Z.lt (f (znth ss o) (base + step + o * step)) /\
    forall j, j ∈ f (znth ss o) (base + step + o * step) ->
      base + step + o * step <= j < base + step + o * step + step) as Hf'.
  { intros o Ho. specialize (Hf (o + 1) ltac:(lia)). unfold znth in *.
    replace (Z.to_nat (o + 1)) with (S (Z.to_nat o)) in Hf by lia. simpl in Hf.
    by replace (base + (o + 1) * step) with (base + step + o * step) in Hf by lia. }
  destruct (Hf 0 ltac:(lia)) as [Hs0 Hr0]. unfold znth in Hs0, Hr0. simpl in Hs0, Hr0.
  rewrite Z.add_0_r in Hs0, Hr0. apply StronglySorted_app_2; [|done|by apply IH].
  intros x y Hx (o & Ho & Hy)%slots_js_elem.
  specialize (Hr0 x Hx). destruct (Hf' o Ho) as [_ Hr]. specialize (Hr y Hy). nia.
Qed.
End slots_js.

(** The indices with a non-null item below a node whose first index is [base]. *)
Fixpoint node_js (k : nat) (n : radix_tree_node) (base : Z) : list Z :=
  match k with
  | O => slots_js (fun s b => if is_null s then [] else [b]) 1 (n_slots n) base
  | S k' =>
      slots_js (fun s b => match s with Child c => node_js k' c b | Ptr _ => [] end)
        (64 ^ Z.of_nat k) (n_slots n) base
  end.

(** A node can sit at [base]: its first index is aligned and its indices fit
    32 bits (at height 6 the unused slots do not count). *)
Definition fits (k : nat) (base : Z) : Prop :=
  0 <= base /\ base mod 64 ^ Z.of_nat (S k) = 0 /\
  (base + 64 ^ Z.of_nat (S k) <= 4294967296 \/ (k = 5%nat /\ base = 0)).

Lemma fits_root h : (1 <= h <= 6)%nat -> fits (pred h) 0.
Proof.
  intros Hh. split_and!; [done|by apply Z.mod_0_l; pose proof (pow64_pos (S (pred h))); lia|].
  destruct (decide (h = 6%nat)) as [->|]; [by right|left].
  pose proof (Z.pow_le_mono_r 64 (Z.of_nat (S (pred h))) 5 ltac:(lia) ltac:(lia)). lia.
Qed.

Lemma fits_child k base o :
  fits (S k) base -> 0 <= o < 64 -> o * 64 ^ Z.of_nat (S k) < 4294967296 ->
  fits k (base + o * 64 ^ Z.of_nat (S k)) /\
  base + o * 64 ^ Z.of_nat (S k) + 64 ^ Z.of_nat (S k) <= 4294967296.
Proof.
  intros (Hb & Hmod & Hfit) Ho Hlt. rewrite pow64_S in Hmod, Hfit.
  pose proof (pow64_pos (S k)) as Hp. set (q := 64 ^ Z.of_nat (S k)) in *.
  assert (base + o * q + q <= 4294967296) as Hend.
  { destruct Hfit as [Hfit|[Hk ->]]; [nia|].
    assert (q = 1073741824) as Hq by (injection Hk as ->; done). nia. }
  split; [|done]. split_and!; [nia| |left; nia]. fold q.
  rewrite Z.mod_add by lia. apply Z.mod_divide in Hmod; [|lia].
  apply Z.mod_divide; [lia|]. destruct Hmod as [z ->]. exists (z * 64). lia.
Qed.

(** Below a node at [base], index [base + o * 64^k + r] has digit [o] at level [k]. *)
Lemma slot_offset_at k base o r :
  0 <= base -> base mod 64 ^ Z.of_nat (S k) = 0 -> 0 <= o < 64 -> 0 <= r < 64 ^ Z.of_nat k ->
  slot_offset (base + o * 64 ^ Z.of_nat k + r) k = o.
Proof.
  intros Hb Hmod Ho Hr. rewrite slot_offset_spec. pose proof (pow64_pos k) as Hp.
  rewrite pow64_S in Hmod. apply Z.mod_divide in Hmod as [z ->]; [|lia].
  replace (z * (64 * 64 ^ Z.of_nat k) + o * 64 ^ Z.of_nat k + r)
    with (r + (o + z * 64) * 64 ^ Z.of_nat k) by lia.
  rewrite Z.div_add, Z.div_small by lia. rewrite Z.add_0_l, Z.mod_add by lia.
  apply Z.mod_small. lia.
Qed.

(** The start of the child that holds index [j]. *)
Lemma slot_base_of k base j :
  0 <= base -> base mod 64 ^ Z.of_nat (S k) = 0 ->
  base <= j < base + 64 ^ Z.of_nat (S k) ->
  base + slot_offset j k * 64 ^ Z.of_nat k <= j <
  base + slot_offset j k * 64 ^ Z.of_nat k + 64 ^ Z.of_nat k.
Proof.
  intros Hb Hmod Hj. pose proof (pow64_pos k) as Hp. pose proof (pow64_pos (S k)) as Hp'.
  pose proof (mod_pow64_S j k) as Hd.
  pose proof (Z.mod_pos_bound j (64 ^ Z.of_nat k) Hp).
  apply Z.mod_divide in Hmod as [z ->]; [|lia].
  replace (j mod 64 ^ Z.of_nat (S k)) with (j - z * 64 ^ Z.of_nat (S k)) in Hd.
  { lia. }
  replace j with ((j - z * 64 ^ Z.of_nat (S k)) + z * 64 ^ Z.of_nat (S k)) at 2 by lia.
  rewrite Z.mod_add by lia. rewrite Z.mod_small; lia.
Qed.

Lemma node_js_spec k n base :
  wf_node k n -> fits k base ->
  StronglySorted Z.lt (node_js k n base) /\
  forall j, j ∈ node_js k n base <->
    base <= j < base + 64 ^ Z.of_nat (S k) /\ node_get k n j <> 0.
Proof.
  revert n base. induction k as [|k IH]; intros n base Hwf Hfit;
    pose proof (wf_node_fields _ _ Hwf) as (Hl & _ & _); destruct Hfit as (Hb & Hmod & Hfit).
  - cbn [node_js]. change (64 ^ Z.of_nat 1) with 64 in *. split.
    { apply slots_js_sorted; [lia|]. intros o Ho. destruct (is_null _); [split; [constructor|set_solver]|].
      split; [repeat constructor|]. intros j ->%list_elem_of_singleton. lia. }
    intros j. rewrite slots_js_elem, Hl, node_get_0.
    assert (forall o, 0 <= o < 64 ->
      is_null (znth (n_slots n) o) = (slot_item (znth (n_slots n) o) =? 0)) as Hnull.
    { intros o Ho. destruct (wf_node_slot _ _ _ Hwf Ho) as [_ H'].
      by destruct (znth (n_slots n) o). }
    split.
    + intros (o & Ho & Hj). rewrite Hnull in Hj by done.
      destruct (Z.eqb_spec (slot_item (znth (n_slots n) o)) 0) as [|Hne]; [set_solver|].
      apply list_elem_of_singleton in Hj as ->.
      pose proof (slot_offset_at 0 base o 0 Hb Hmod Ho ltac:(lia)) as Hoff.
      change (64 ^ Z.of_nat 0) with 1 in Hoff. rewrite Z.add_0_r in Hoff. rewrite Hoff. lia.
    + intros (Hj & Hne). pose proof (slot_offset_range j 0) as Ho.
      exists (slot_offset j 0). split; [done|]. rewrite Hnull by done.
      destruct (Z.eqb_spec (slot_item (znth (n_slots n) (slot_offset j 0))) 0); [done|].
      apply list_elem_of_singleton.
      pose proof (slot_base_of 0 base j Hb Hmod Hj) as Hs. change (64 ^ Z.of_nat 0) with 1 in Hs. lia.
  - cbn [node_js]. 
    assert (forall o, 0 <= o < 64 ->
      let b := base + o * 64 ^ Z.of_nat (S k) in
      let l := match znth (n_slots n) o with Child c => node_js k c b | Ptr _ => [] end in
      StronglySorted Z.lt l /\
      forall j, j ∈ l <-> b <= j < b + 64 ^ Z.of_nat (S k) /\ node_get (S k) n j <> 0) as Hslot.
    { intros o Ho b l. pose proof (wf_node_slot _ _ _ Hwf Ho) as [Hr Hs]. cbn beta iota in Hs.
      assert (forall j, b <= j < b + 64 ^ Z.of_nat (S k) -> slot_offset j (S k) = o) as Hoff.
      { intros j Hj. replace j with (base + o * 64 ^ Z.of_nat (S k) + (j - b)) by (unfold b; lia).
        apply slot_offset_at; [done|done|done|lia]. }
      unfold l. destruct (znth (n_slots n) o) as [p|c] eqn:Hz.
      - split; [constructor|]. intros j. split; [set_solver|]. intros [Hj Hne].
        rewrite node_get_S, (Hoff j Hj), Hz in Hne. done.
      - destruct (IH c b Hs) as [Hsort Hel].
        { apply fits_child; [split_and!; done|done|by apply Hr]. }
        assert (forall j, b <= j < b + 64 ^ Z.of_nat (S k) -> node_get (S k) n j = node_get k c j)
          as Hg by (intros j Hj; by rewrite node_get_S, (Hoff j Hj), Hz).
        split; [done|]. intros j. rewrite Hel.
        split; intros [Hj Hne]; (split; [done|]); specialize (Hg j Hj); congruence. }
    split.
    { apply slots_js_sorted; [pose proof (pow64_pos (S k)); lia|]. intros o Ho. rewrite Hl in Ho.
      destruct (Hslot o Ho) as [Hs He]. split; [done|]. intros j Hj. by apply He in Hj as [Hj _]. }
    intros j. rewrite slots_js_elem, Hl. split.
    + intros (o & Ho & Hj). destruct (Hslot o Ho) as [_ He]. apply He in Hj as [Hj Hne].
      split; [|done]. rewrite pow64_S. pose proof (pow64_pos (S k)). nia.
    + intros [Hj Hne]. pose proof (slot_offset_range j (S k)) as Ho.
      exists (slot_offset j (S k)). split; [done|]. apply (Hslot _ Ho). split; [|done].
      by apply slot_base_of.
Qed.

(** ** Gang lookups *)

Section gang_spec.
Context {R : Type}.

(** [res] filled up with the elements of [X] to at most [max] elements. *)
Definition fill (max : Z) (res X : list R) : list R :=
  res ++ take (Z.to_nat (max - zlen res)) X.

Lemma fill_nil max res : fill max res [] = res.
Proof. unfold fill. rewrite take_nil, app_nil_r. done. Qed.

Lemma fill_full max res X : max <= zlen res -> fill max res X = res.
Proof.
  intros H. unfold fill. replace (Z.to_nat (max - zlen res)) with O by lia. by rewrite app_nil_r.
Qed.

Lemma fill_fill max res X Y : fill max (fill max res X) Y = fill max res (X ++ Y).
Proof.
  unfold fill. rewrite <- app_assoc. f_equal. rewrite take_app. f_equal.
  rewrite zlen_app. unfold zlen at 2. rewrite length_take. f_equal. unfold zlen. lia.
Qed.

Fixpoint slots_list (X : slot -> Z -> list R) (ss : list slot) (i : Z) : list R :=
  match ss with
  | [] => []
  | s :: ss' => X s i ++ slots_list X ss' (i + 1)
  end.

Lemma for_slots_fill body max X ss i res :
  (forall x, 0 <= x < zlen ss -> forall res, zlen res < max ->
     body (znth ss x) (i + x) res = fill max res (X (znth ss x) (i + x))) ->
  for_slots body max ss i res = fill max res (slots_list X ss i).
Proof.
  revert i res. induction ss as [|s ss IH]; intros i res Hb; simpl; [by rewrite fill_nil|].
  assert (zlen (s :: ss) = zlen ss + 1) as Hlen by (unfold zlen; simpl; lia).
  assert (0 <= zlen ss) by (unfold zlen; lia).
  destruct (Z.leb_spec max (zlen res)); [by rewrite fill_full|].
  rewrite <- fill_fill. pose proof (Hb 0 ltac:(lia) res ltac:(lia)) as Hb0.
  unfold znth in Hb0. simpl in Hb0. rewrite Z.add_0_r in Hb0. rewrite Hb0.
  apply IH. intros x Hx res' Hres'. specialize (Hb (x + 1) ltac:(lia) res' Hres').
  unfold znth in *. replace (Z.to_nat (x + 1)) with (S (Z.to_nat x)) in Hb by lia.
  simpl in Hb. by replace (i + (x + 1)) with (i + 1 + x) in Hb by lia.
Qed.

Lemma slots_list_js (ev : Z -> R) (first step : Z) f ss base i :
  ev <$> filter (fun j => first <= j) (slots_js f step ss (base + i * step)) =
  slots_list (fun s o => ev <$> filter (fun j => first <= j) (f s (base + o * step))) ss i.
Proof.
  revert i. induction ss as [|s ss IH]; intros i; simpl; [done|].
  rewrite filter_app, fmap_app. f_equal. rewrite <- IH.
  by replace (base + (i + 1) * step) with (base + i * step + step) by lia.
Qed.

Context (emit : Z -> Z -> Z -> Z -> R).

(** The address of the leaf on the path of an index. *)
Fixpoint leaf_addr (k : nat) (n : radix_tree_node) (j : Z) : Z :=
  match k with
  | O => n_addr n
  | S k' =>
      match znth (n_slots n) (slot_offset j k) with
      | Child c => leaf_addr k' c j
      | Ptr _ => 0
      end
  end.

Definition emit_at (k : nat) (n : radix_tree_node) (j : Z) : R :=
  emit (leaf_addr k n j) (slot_offset j 0) j (node_get k n j).

Lemma shl_slot o k :
  0 <= o -> o * 64 ^ Z.of_nat k < 4294967296 ->
  o <<w (Z.of_nat k * RADIX_TREE_MAP_SHIFT) = o * 64 ^ Z.of_nat k.
Proof.
  intros Ho Hlt. unfold shl32, RADIX_TREE_MAP_SHIFT. rewrite Z.shiftl_mul_pow2 by lia.
  rewrite (Z.mul_comm (Z.of_nat k)), Z.pow_mul_r by lia. change (2 ^ 6) with 64.
  pose proof (pow64_pos k). apply u32_id. unfold is_u32. nia.
Qed.

Lemma gang_lookup_node_spec k n base first max res :
  (k <= 5)%nat -> wf_node k n -> fits k base ->
  gang_lookup_node emit k n base first max res =
  fill max res (emit_at k n <$> filter (fun j => first <= j) (node_js k n base)).
Proof.
  revert n base res. induction k as [|k IH]; intros n base res Hk Hwf Hfit;
    pose proof (wf_node_fields _ _ Hwf) as (Hl & _ & _); pose proof Hfit as (Hb & Hmod & Hfit');
    cbn [gang_lookup_node]; (destruct (Z.eqb_spec (zlen res) max) as [He|He];
      [by rewrite fill_full by lia|]).
  - cbn [node_js]. replace base with (base + 0 * 1) at 2 by lia. rewrite slots_list_js.
    apply for_slots_fill. intros o Ho res' Hres'. rewrite Hl in Ho. rewrite Z.add_0_l.
    change (64 ^ Z.of_nat 1) with 64 in *.
    assert (base + 64 <= 4294967296) as Hend by (destruct Hfit' as [|[? _]]; [done|lia]).
    unfold gang_leaf_body. rewrite add32_id by lia. rewrite Z.mul_1_r.
    destruct (is_null (znth (n_slots n) o)) eqn:Hnull.
    + rewrite filter_nil. simpl. rewrite fill_nil. by destruct (_ <? _).
    + rewrite filter_cons, filter_nil. destruct (Z.ltb_spec (base + o) first).
      * rewrite decide_False by lia. simpl. by rewrite fill_nil.
      * rewrite decide_True by lia. unfold fill. simpl. rewrite take_ge by (simpl; lia).
        unfold emit_at. simpl. rewrite node_get_0.
        pose proof (slot_offset_at 0 base o 0 Hb Hmod Ho ltac:(lia)) as Hoff.
        change (64 ^ Z.of_nat 0) with 1 in Hoff. rewrite Z.add_0_r, Z.mul_1_r in Hoff.
        by rewrite Hoff.
  - cbn [node_js]. replace base with (base + 0 * 64 ^ Z.of_nat (S k)) at 2 by lia.
    rewrite slots_list_js. apply for_slots_fill. intros o Ho res' Hres'. rewrite Hl in Ho.
    rewrite Z.add_0_l. destruct (wf_node_slot _ _ _ Hwf Ho) as [Hr Hs]. cbn beta iota in Hs.
    unfold gang_inner_body.
    destruct (znth (n_slots n) o) as [p|c] eqn:Hz.
    { simpl. rewrite fill_nil. by repeat case_match. }
    specialize (Hr eq_refl). destruct (fits_child _ _ _ Hfit Ho Hr) as [Hfc Hend].
    pose proof (pow64_pos (S k)) as Hp.
    rewrite shl_slot, (add32_id base) by lia.
    set (b := base + o * 64 ^ Z.of_nat (S k)) in *.
    assert (radix_tree_maxindex (S k) = 64 ^ Z.of_nat (S k) - 1) as Hmx.
    { rewrite maxindex_spec. pose proof (Z.pow_le_mono_r 64 (Z.of_nat (S k)) 5 ltac:(lia) ltac:(lia)).
      unfold U32_MAX. lia. }
    rewrite Hmx, add32_id by (unfold b in *; lia).
    destruct (Z.ltb_spec (b + (64 ^ Z.of_nat (S k) - 1)) b); [lia|].
    destruct (node_js_spec k c b Hs Hfc) as [_ Hel].
    destruct (Z.ltb_spec (b + (64 ^ Z.of_nat (S k) - 1)) first) as [Hlt|Hge].
    + assert (filter (fun j => first <= j) (node_js k c b) = []) as ->.
      { apply filter_all_out. intros j Hj. apply Hel in Hj. lia. }
      simpl. by rewrite fill_nil.
    + rewrite IH by (done || lia). f_equal. apply list_fmap_ext. intros x j Hj.
      apply list_elem_of_lookup_2, list_elem_of_filter in Hj as [_ Hj]. apply Hel in Hj as [Hj _].
      assert (slot_offset j (S k) = o) as Hoff.
      { replace j with (base + o * 64 ^ Z.of_nat (S k) + (j - b)) by (unfold b; lia).
        apply slot_offset_at; [done|done|done|lia]. }
      unfold emit_at. rewrite node_get_S. cbn [leaf_addr]. by rewrite Hoff, Hz.
Qed.
End gang_spec.

(** ** What the radix tree promises: a finite map *)

(** The specification: a partial map from 32-bit indices to non-null items.
    An insertion may also fail for lack of memory, and then changes nothing. *)
Inductive op : Type :=
  | OpInsert (index item : Z)
  | OpDelete (index : Z)
  | OpDeleteItem (index item : Z)
  | OpLookup (index : Z).

Definition op_ok (o : op) : Prop :=
  match o with
  | OpInsert i v => is_u32 i /\ v <> 0
  | OpDelete i | OpLookup i | OpDeleteItem i _ => is_u32 i
  end.

Definition map_get (f : gmap Z Z) (i : Z) : Z := default 0 (f !! i).

Inductive map_step : gmap Z Z -> op -> Z -> gmap Z Z -> Prop :=
  | step_insert f i v : f !! i = None -> map_step f (OpInsert i v) 0 (<[i := v]> f)
  | step_exists f i v : is_Some (f !! i) -> map_step f (OpInsert i v) (- EEXIST) f
  | step_nomem f i v : f !! i = None -> map_step f (OpInsert i v) (- ENOMEM) f
  | step_delete f i : map_step f (OpDelete i) (map_get f i) (delete i f)
  | step_delete_item f i v :
      v = 0 \/ f !! i = Some v -> map_step f (OpDeleteItem i v) (map_get f i) (delete i f)
  | step_delete_other f i v :
      v <> 0 -> f !! i <> Some v -> map_step f (OpDeleteItem i v) 0 f
  | step_lookup f i : map_step f (OpLookup i) (map_get f i) f.

Inductive map_steps : gmap Z Z -> list op -> list Z -> gmap Z Z -> Prop :=
  | steps_nil f : map_steps f [] [] f
  | steps_cons f o r f' os rs f'' :
      map_step f o r f' -> map_steps f' os rs f'' -> map_steps f (o :: os) (r :: rs) f''.

(** The tree [root] stands for the map [f]. *)
Definition represents (root : radix_tree_root) (f : gmap Z Z) : Prop :=
  (forall i, is_u32 i -> radix_tree_lookup root i = map_get f i) /\
  (forall i v, f !! i = Some v -> v <> 0).

Section trace.
Context {M : Type} `{!KAlloc M}.

Definition run_op (root : radix_tree_root) (o : op) (m : M) : Z * radix_tree_root * M :=
  match o with
  | OpInsert i v => radix_tree_insert root i v m
  | OpDelete i => radix_tree_delete root i m
  | OpDeleteItem i v => radix_tree_delete_item root i v m
  | OpLookup i => (radix_tree_lookup root i, root, m)
  end.

Fixpoint run_ops (root : radix_tree_root) (os : list op) (m : M) : list Z * radix_tree_root * M :=
  match os with
  | [] => ([], root, m)
  | o :: os' =>
      let '(r, root1, m1) := run_op root o m in
      let '(rs, root2, m2) := run_ops root1 os' m1 in
      (r :: rs, root2, m2)
  end.

Lemma represents_none root f i :
  represents root f -> is_u32 i -> radix_tree_lookup root i = 0 <-> f !! i = None.
Proof.
  intros [Hr Hnz] Hi. rewrite (Hr i Hi). unfold map_get.
  destruct (f !! i) as [v|] eqn:Hf; simpl; [|done]. by apply Hnz in Hf.
Qed.

Lemma represents_delete root root' f i :
  represents root f -> is_u32 i ->
  (forall j, is_u32 j -> radix_tree_lookup root' j = if j =? i then 0 else radix_tree_lookup root j) ->
  represents root' (delete i f).
Proof.
  intros [Hr Hnz] Hi Hlk. split.
  - intros j Hj. rewrite Hlk by done. unfold map_get. bcase.
    + subst. by rewrite lookup_delete_eq.
    + rewrite lookup_delete_ne by done. by apply Hr.
  - intros j v [_ Hj]%lookup_delete_Some. by apply Hnz in Hj.
Qed.

Lemma run_op_refines root f o (m : M) r root' m' :
  wf_root root -> represents root f -> op_ok o -> run_op root o m = (r, root', m') ->
  exists f', map_step f o r f' /\ wf_root root' /\ represents root' f'.
Proof.
  intros Hwf Hrep Hok Hrun. pose proof Hrep as [Hr Hnz]. destruct o as [i v|i|i v|i]; simpl in *.
  - destruct Hok as [Hi Hv].
    apply radix_tree_insert_spec in Hrun as (Hwf' & Hout); [|done..].
    rewrite (represents_none root f i Hrep Hi) in Hout.
    destruct Hout as [(-> & Hn & Hj)|[(-> & Hn & Hj)|(-> & Hn & Hj)]].
    + exists (<[i := v]> f). split_and!; [by constructor|done|]. split.
      * intros j Hju. rewrite Hj by done. unfold map_get. bcase.
        -- subst. by rewrite lookup_insert_eq.
        -- rewrite lookup_insert_ne by done. by apply Hr.
      * intros j w [[_ <-]|[_ Hf]]%lookup_insert_Some; [done|]. by apply Hnz in Hf.
    + exists f. split_and!; [constructor; by apply not_eq_None_Some|done|].
      split; [|done]. intros j Hju. rewrite Hj by done. by apply Hr.
    + exists f. split_and!; [by constructor|done|].
      split; [|done]. intros j Hju. rewrite Hj by done. by apply Hr.
  - apply radix_tree_delete_spec in Hrun as (Hwf' & -> & Hj); [|done..].
    exists (delete i f). rewrite (Hr i Hok).
    split_and!; [by constructor|done|by eapply represents_delete].
  - unfold radix_tree_delete_item in Hrun. pose proof (represents_none root f i Hrep Hok) as Hnone.
    rewrite (Hr i Hok) in Hrun, Hnone. unfold map_get in *.
    destruct (Z.eqb_spec (default 0 (f !! i)) 0) as [H0|H0].
    + simplify_eq. apply Hnone in H0 as Hf. destruct (decide (v = 0)) as [->|Hv].
      * exists (delete i f). split_and!; [|done|by rewrite delete_id].
        replace 0 with (map_get f i) at 2 by (unfold map_get; by rewrite Hf). constructor. by left.
      * exists f. split_and!; [|done|done]. constructor; [done|]. by rewrite Hf.
    + destruct (f !! i) as [w|] eqn:Hf; [|done]. simpl in *.
      destruct (negb (v =? 0) && negb (w =? v)) eqn:Hb.
      * simplify_eq. exists f. apply andb_true_iff in Hb as [Hv%negb_true_iff Hw%negb_true_iff].
        apply Z.eqb_neq in Hv, Hw. split_and!; [|done|done]. constructor; [done|congruence].
      * apply radix_tree_delete_spec in Hrun as (Hwf' & -> & Hj); [|done..].
        exists (delete i f). rewrite (Hr i Hok).
        split_and!; [|done|by eapply represents_delete]. constructor.
        apply andb_false_iff in Hb as [Hv%negb_false_iff|Hw%negb_false_iff].
        -- left. by apply Z.eqb_eq.
        -- right. rewrite Hf. f_equal. by apply Z.eqb_eq.
  - simplify_eq. exists f. rewrite (Hr i Hok). split_and!; [constructor|done|done].
Qed.
End trace.

(** C4: the radix tree implements a finite map.  Starting from any well-formed
    tree that stands for a map, every sequence of insertions, deletions,
    conditional deletions and lookups returns the results of the same sequence
    on the map (an insertion may report [-ENOMEM], and then it changed nothing),
    and the tree that results is well-formed and stands for the resulting map. *)
Theorem radix_tree_refines_map {M : Type} `{!KAlloc M} root f os (m : M) rs root' m' :
  wf_root root -> represents root f -> Forall op_ok os ->
  run_ops root os m = (rs, root', m') ->
  exists f', map_steps f os rs f' /\ wf_root root' /\ represents root' f'.
Proof.
  intros Hwf Hrep Hok. revert root f m rs root' m' Hwf Hrep.
  induction Hok as [|o os Ho _ IH]; intros root f m rs root' m' Hwf Hrep Hrun; simpl in Hrun.
  - simplify_eq. exists f. split_and!; [constructor|done|done].
  - destruct (run_op root o m) as [[r root1] m1] eqn:H1.
    destruct (run_ops root1 os m1) as [[rs1 root2] m2] eqn:H2. simplify_eq.
    apply (run_op_refines root f) in H1 as (f1 & Hs & Hwf1 & Hrep1); [|done..].
    apply (IH root1 f1) in H2 as (f2 & Hss & Hwf2 & Hrep2); [|done..].
    exists f2. split_and!; [by econstructor|done|done].
Qed.

Definition demo_ops : list op :=
  [OpInsert 3 11; OpInsert 70 22; OpInsert 3 12; OpInsert 4000000000 33; OpDelete 70;
   OpLookup 3; OpLookup 70; OpDeleteItem 4000000000 33; OpLookup 4000000000].

Lemma radix_tree_refines_map_witness :
  exists f', map_steps ∅ demo_ops [0; 0; - EEXIST; 0; 22; 11; 0; 33; 0] f'.
Proof.
  destruct (run_ops (INIT_RADIX_TREE 0) demo_ops (Heap.init 20)) as [[rs r'] m'] eqn:Hrun.
  destruct (radix_tree_refines_map (INIT_RADIX_TREE 0) ∅ demo_ops (Heap.init 20) rs r' m')
    as (f' & Hs & _).
  - done.
  - split; [done|]. intros i v Hi. by rewrite lookup_empty in Hi.
  - repeat constructor; done.
  - done.
  - exists f'. vm_compute in Hrun. injection Hrun as <- _ _. exact Hs.
Defined.

(** ** Properties of memory use *)

(** The heap objects that are not nodes of the tree. *)
Definition foreign {M : Type} `{!KAlloc M, !KAllocSpec M} (root : radix_tree_root) (m : M) : gset Z :=
  live m ∖ list_to_set (root_addrs root).

(** C30: insertion, deletion and destruction neither leak a node nor free one
    twice or touch foreign memory.  When the nodes of a well-formed tree are
    distinct live objects, so are the nodes of the resulting tree, and the live
    objects that are not nodes of the tree are exactly the same as before; after
    [radix_tree_destroy] no node is left. *)
Theorem radix_tree_owns_nodes {M : Type} `{!KAlloc M, !KAllocSpec M} root i v (m : M) :
  wf_root root -> is_u32 i -> owned (root_addrs root) m ->
  (let '(_, root', m') := radix_tree_insert root i v m in
     owned (root_addrs root') m' /\ foreign root' m' = foreign root m) /\
  (let '(_, root', m') := radix_tree_delete root i m in
     owned (root_addrs root') m' /\ foreign root' m' = foreign root m) /\
  (let '(root', m') := radix_tree_destroy root m in
     root_addrs root' = [] /\ km_ok m' /\ live m' = foreign root m).
Proof.
  intros Hwf Hi Hown. unfold foreign. split_and!.
  - destruct (radix_tree_insert root i v m) as [[r root'] m'] eqn:Hins.
    eapply grows_owned; [done|]. eapply radix_tree_insert_grows; [done..|apply Hown|done].
  - destruct (radix_tree_delete root i m) as [[r root'] m'] eqn:Hdel.
    eapply shrinks_owned; [done|]. unfold radix_tree_delete in Hdel. unfold root_addrs, wf_root in *.
    destruct (rnode root) as [n|] eqn:Hr;
      [|simplify_eq; rewrite Hr; apply shrinks_refl, Hown].
    destruct Hwf as [Hh Hwf].
    destruct (_ <? i) in Hdel; [simplify_eq; rewrite Hr; apply shrinks_refl, Hown|].
    destruct (delete_node _ n i m) as [[item on] m1] eqn:Hd.
    pose proof Hd as Hspec. apply delete_node_spec in Hspec as (_ & Hz & Hout); [|done].
    apply delete_node_shrinks in Hd; [|done|done]. destruct on as [n'|]; [|by simplify_eq].
    destruct (Z.eqb_spec item 0) as [->|Hne];
      [simplify_eq; rewrite Hr; apply shrinks_refl, Hown|]. simplify_eq. simpl.
    destruct (Hout Hne) as (Hwf' & _). pose proof (wf_node_fields _ _ Hwf') as (_ & -> & _). done.
  - simpl. unfold root_addrs, wf_root in *. destruct (rnode root) as [n|] eqn:Hr.
    + destruct Hwf as [_ Hwf]. pose proof (free_node_shrinks _ _ _ Hwf Hown) as Hsh.
      destruct (shrinks_owned _ _ _ _ Hown Hsh) as [(Hok & _) Hl].
      split_and!; [done|done|]. rewrite <- Hl. set_solver.
    + split_and!; [done|apply Hown|set_solver].
Qed.

Lemma radix_tree_owns_nodes_witness :
  let '(_, root', m') := radix_tree_insert (INIT_RADIX_TREE 0) 5000 7 (Heap.init 20) in
  owned (root_addrs root') m' /\ foreign root' m' = ∅.
Proof.
  destruct (radix_tree_owns_nodes (INIT_RADIX_TREE 0) 5000 7 (Heap.init 20)) as [H _].
  - done.
  - done.
  - split_and!; [apply Heap.init_ok|constructor|set_solver].
  - destruct (radix_tree_insert _ _ _ _) as [[r root'] m']. destruct H as [H1 H2].
    split; [exact H1|]. rewrite H2. reflexivity.
Defined.

(** ** Properties of ordered lookups *)

(** [js] lists, in increasing order, the indices from [first] on that hold an item. *)
Definition occupied_from (root : radix_tree_root) (first : Z) (js : list Z) : Prop :=
  StronglySorted Z.lt js /\
  forall j, j ∈ js <-> is_u32 j /\ first <= j /\ radix_tree_lookup root j <> 0.

Lemma StronglySorted_filter {A} (R : relation A) (P : A -> Prop) `{!forall x, Decision (P x)} l :
  StronglySorted R l -> StronglySorted R (filter P l).
Proof.
  induction 1 as [|x l Hl IH Hx]; [constructor|]. rewrite filter_cons. case_decide; [|done].
  constructor; [done|]. rewrite Forall_forall in *. intros y [_ Hy]%list_elem_of_filter. by apply Hx.
Qed.

(** The occupied indices of a well-formed tree. *)
Lemma root_js root n :
  wf_root root -> rnode root = Some n ->
  forall j, j ∈ node_js (pred (height root)) n 0 <-> is_u32 j /\ radix_tree_lookup root j <> 0.
Proof.
  intros Hwf Hr j. unfold wf_root in Hwf. rewrite Hr in Hwf. destruct Hwf as [Hh Hwf].
  destruct (node_js_spec _ _ _ Hwf (fits_root _ Hh)) as [_ Hel].
  rewrite radix_tree_lookup_get, Hr, Hel. unfold root_get, is_u32. rewrite maxindex_spec.
  replace (S (pred (height root))) with (height root) by lia. unfold U32_MAX.
  assert (node_get (pred (height root)) n j <> 0 -> j < 64 ^ Z.of_nat (height root) -> 0 <= j ->
    j < 4294967296) as Hu.
  { intros Hne Hlt Hj0. destruct (decide (height root = 6%nat)) as [H6|H6].
    - rewrite H6 in *. simpl in Hne. rewrite node_get_S in Hne.
      pose proof (slot_offset_range j 5) as Ho.
      destruct (wf_node_slot _ _ _ Hwf Ho) as [Hu _].
      destruct (znth (n_slots n) (slot_offset j 5)) eqn:Hz; [done|]. specialize (Hu eq_refl).
      pose proof (slot_base_of 5 0 j ltac:(lia) ltac:(done) ltac:(lia)).
      change (Z.of_nat (pred 6)) with 5 in Hu. change (Z.of_nat 5) with 5 in *. lia.
    - pose proof (Z.pow_le_mono_r 64 (Z.of_nat (height root)) 5 ltac:(lia) ltac:(lia)). lia. }
  pose proof (pow64_pos (height root)).
  destruct (Z.ltb_spec (Z.min (64 ^ Z.of_nat (height root) - 1) 4294967295) j) as [Hgt|Hle];
    (split; [intros [H1 H2]|intros [H1 H2]]); [|done|split; [lia|done]|split; [lia|done]].
  specialize (Hu H2). lia.
Qed.

(** The leaf the path of an index ends in. *)
Fixpoint leaf_of (k : nat) (n : radix_tree_node) (j : Z) : radix_tree_node :=
  match k with
  | O => n
  | S k' => match znth (n_slots n) (slot_offset j k) with Child c => leaf_of k' c j | Ptr _ => n end
  end.

(** The leaf slot of an index: the address of its leaf and its number in it. *)
Definition slot_of (root : radix_tree_root) (j : Z) : Z * Z :=
  match rnode root with
  | None => (0, 0)
  | Some n => (n_addr (leaf_of (pred (height root)) n j), slot_offset j 0)
  end.

(** What the slot holds. *)
Definition slot_content (root : radix_tree_root) (j : Z) : Z :=
  match rnode root with
  | None => 0
  | Some n => slot_item (znth (n_slots (leaf_of (pred (height root)) n j)) (slot_offset j 0))
  end.

Lemma leaf_of_get k n j : node_get k n j <> 0 ->
  leaf_addr k n j = n_addr (leaf_of k n j) /\ slot_item (znth (n_slots (leaf_of k n j)) (slot_offset j 0)) = node_get k n j.
Proof.
  revert n. induction k as [|k IH]; intros n Hn; [by rewrite node_get_0|]. rewrite node_get_S in *. cbn [leaf_addr leaf_of].
  destruct (znth (n_slots n) (slot_offset j (S k))) as [p|c]; [done|by apply IH].
Qed.

(** C31: the gang lookups return, in increasing index order and without gaps, the
    first [max_items] occupied slots from [first_index] on:
    [radix_tree_gang_lookup] their items, [radix_tree_gang_lookup_slot] the
    slots themselves (the leaf on the path of the index and the number in it,
    where the item of the index is stored) with their indices. *)
Theorem radix_tree_gang_lookup_correct root first max :
  wf_root root -> is_u32 first -> 0 <= max ->
  exists js, occupied_from root first js /\
    radix_tree_gang_lookup root first max = (radix_tree_lookup root <$> take (Z.to_nat max) js) /\
    radix_tree_gang_lookup_slot root first max = ((fun j => (slot_of root j, j)) <$> take (Z.to_nat max) js) /\
    (forall j, j ∈ js -> slot_content root j = radix_tree_lookup root j).
Proof.
  intros Hwf Hf Hmax. unfold radix_tree_gang_lookup, radix_tree_gang_lookup_slot, gang_lookup.
  destruct (rnode root) as [n|] eqn:Hr.
  2:{ exists []. rewrite take_nil. split_and!; [|done|done|by intros j Hj%elem_of_nil]. split; [constructor|].
      intros j. rewrite radix_tree_lookup_get, Hr. set_solver. }
  pose proof (root_js root n Hwf Hr) as Hjs. pose proof Hwf as Hwf0.
  unfold wf_root in Hwf. rewrite Hr in Hwf. destruct Hwf as [Hh Hwf].
  exists (filter (fun j => first <= j) (node_js (pred (height root)) n 0)).
  destruct (node_js_spec _ _ _ Hwf (fits_root _ Hh)) as [Hsort _].
  split; [split; [by apply StronglySorted_filter|]|].
  { intros j. rewrite list_elem_of_filter, Hjs. naive_solver. }
  assert (Hget : forall j, j ∈ filter (fun j => first <= j) (node_js (pred (height root)) n 0) ->
    radix_tree_lookup root j = node_get (pred (height root)) n j /\ node_get (pred (height root)) n j <> 0).
  { intros j [_ Hj]%list_elem_of_filter. apply Hjs in Hj as [_ Hj]. rewrite radix_tree_lookup_get, Hr in *. unfold root_get in *.
    by bcase_in Hj; bcase. }
  assert (Hc : forall j, j ∈ filter (fun j => first <= j) (node_js (pred (height root)) n 0) -> slot_content root j = radix_tree_lookup root j).
  { intros j Hj. destruct (Hget j Hj) as [E Hn]. unfold slot_content. rewrite Hr, E. by apply leaf_of_get. }
  destruct (Z.eqb_spec max 0) as [->|Hne]; [by rewrite !take_0|].
  rewrite !gang_lookup_node_spec by (done || lia || by apply fits_root).
  unfold fill. change (zlen (@nil Z)) with 0. change (zlen (@nil (Z * Z * Z))) with 0.
  rewrite Z.sub_0_r, !app_nil_l, <- !fmap_take. split_and!; [| |done].
  - apply list_fmap_ext. intros x j [Hj _]%lookup_take_Some. apply list_elem_of_lookup_2 in Hj. by destruct (Hget j Hj) as [-> _].
  - apply list_fmap_ext. intros x j [Hj _]%lookup_take_Some. apply list_elem_of_lookup_2 in Hj. destruct (Hget j Hj) as [_ Hn].
    unfold emit_at, slot_of. rewrite Hr. by destruct (leaf_of_get _ _ _ Hn) as [-> _].
Qed.

(** Evaluation on small inputs. *)
Module Examples.
Definition ops3 : list op := [OpInsert 3 11; OpInsert 70 22; OpInsert 4000000000 33].
Definition t3 : radix_tree_root := (run_ops (INIT_RADIX_TREE 0) ops3 (Heap.init 100)).1.2.

Lemma t3_wf : wf_root t3.
Proof.
  unfold t3. destruct (run_ops _ _ _) as [[rs r'] m'] eqn:Hrun. cbn [fst snd].
  cbn [ops3 run_ops run_op] in Hrun.
  destruct (radix_tree_insert (INIT_RADIX_TREE 0) 3 11 _) as [[r1 a] m1] eqn:H1.
  apply radix_tree_insert_spec in H1 as [Hwf1 _]; [|done..].
  destruct (radix_tree_insert a 70 22 m1) as [[r2 b] m2] eqn:H2.
  apply radix_tree_insert_spec in H2 as [Hwf2 _]; [|done..].
  destruct (radix_tree_insert b 4000000000 33 m2) as [[r3 c] m3] eqn:H3.
  apply radix_tree_insert_spec in H3 as [Hwf3 _]; [|done..]. by simplify_eq.
Qed.

Example lookups_t3 :
  (radix_tree_lookup t3 3, radix_tree_lookup t3 70, radix_tree_lookup t3 4000000000,
   radix_tree_lookup t3 71, height t3, radix_tree_gang_lookup t3 4 10,
   radix_tree_locate_item t3 33) = (11, 22, 33, 0, 6%nat, [22; 33], 4000000000).
Proof. vm_compute. reflexivity. Qed.
End Examples.

Lemma radix_tree_gang_lookup_correct_witness :
  exists js, occupied_from Examples.t3 4 js /\
    [22] = (radix_tree_lookup Examples.t3 <$> take 1 js).
Proof.
  destruct (radix_tree_gang_lookup_correct Examples.t3 4 1) as (js & Hjs & Hg & _);
    [exact Examples.t3_wf|done|done|].
  exists js. split; [exact Hjs|]. etransitivity; [|exact Hg]. vm_compute. reflexivity.
Defined.
