(* ===== verification/Idr.v ===== *)
(** * The IDR allocator of [lib/idr.c]

    Integer identifiers are handed out over the radix tree of [RadixTree]: an
    identifier is in use when its slot holds an item.  The state of
    [struct idr] is the tree and the cursor [cur] of the cyclic allocations. *)

From stdpp Require Import base tactics numbers list gmap sets sorting.
From Stdlib Require Import ZArith Lia.
From S2P Require Import Prelude RadixTree.

(** ** Data and operations *)

Record idr : Type := Build_idr { root : radix_tree_root; cur : Z }.

Definition idr_init : idr := Build_idr (INIT_RADIX_TREE 0) 0.

(** The occupied indices of a tree in increasing order; they bound the length
    of the searches below. *)
Definition occupied (r : radix_tree_root) : list Z :=
  match rnode r with None => [] | Some n => node_js (pred (height r)) n 0 end.

Definition set_gfp (r : radix_tree_root) (gfp : Z) : radix_tree_root :=
  Build_root (height r) gfp (rnode r).

Section ops.
Context {M : Type} `{!KAlloc M}.

(** [for (id = start; id < end; id++)] of [idr_alloc].  A round that does not
    return has found an occupied identifier, so one round more than there are
    occupied identifiers is enough; [idr_alloc_spec] shows that the fuel is
    never used up. *)
Fixpoint idr_alloc_loop (fuel : nat) (idp : idr) (ptr id end_ : Z) (m : M) : Z * idr * M :=
  match fuel with
  | O => (- ENOSPC, idp, m)
  | S fuel' =>
      if negb (id <? end_) then (- ENOSPC, idp, m)
      else if radix_tree_lookup (root idp) id =? 0 then
        let '(r, root', m') := radix_tree_insert (root idp) id ptr m in
        if r =? 0 then (id, Build_idr root' (id + 1), m')
        else (- ENOMEM, Build_idr root' (cur idp), m')
      else idr_alloc_loop fuel' idp ptr (id + 1) end_ m
  end.

Definition idr_alloc (idp : idr) (ptr start end_ gfp : Z) (m : M) : Z * idr * M :=
  if start <? 0 then (- EINVAL, idp, m) else
  let end' := if end_ <=? 0 then INT_MAX else end_ in
  if end' <=? start then (- EINVAL, idp, m) else
  idr_alloc_loop (S (length (occupied (root idp))))
    (Build_idr (set_gfp (root idp) gfp) (cur idp)) ptr start end' m.

Definition idr_alloc_cyclic (idp : idr) (ptr start end_ gfp : Z) (m : M) : Z * idr * M :=
  let next := if start <? cur idp then cur idp else start in
  let '(id1, idp1, m1) := idr_alloc idp ptr next end_ gfp m in
  let '(id, idp2, m2) :=
    if id1 =? - ENOSPC then idr_alloc idp1 ptr start end_ gfp m1 else (id1, idp1, m1) in
  if 0 <=? id then (id, Build_idr (root idp2) (id + 1), m2) else (id, idp2, m2).

(** The identifier is returned through the pointer [id]; here as a pair. *)
Definition idr_get_new_above (idp : idr) (ptr starting_id : Z) (m : M)
  : Z * option Z * idr * M :=
  let '(ret, idp', m') :=
    idr_alloc idp ptr (if starting_id <? 0 then 0 else starting_id) 0 0 m in
  if ret <? 0 then (ret, None, idp', m') else (0, Some ret, idp', m').

Definition idr_get_new (idp : idr) (ptr : Z) (m : M) : Z * option Z * idr * M :=
  let '(ret1, idp1, m1) := idr_alloc idp ptr (cur idp) 0 0 m in
  let '(ret, idp2, m2) :=
    if (ret1 <? 0) && (0 <? cur idp1) then idr_alloc idp1 ptr 0 (cur idp1) 0 m1
    else (ret1, idp1, m1) in
  if ret <? 0 then (ret, None, idp2, m2) else (0, Some ret, idp2, m2).

Definition idr_remove (idp : idr) (id : Z) (m : M) : idr * M :=
  if id <? 0 then (idp, m) else
  let '(item, root', m') := radix_tree_delete (root idp) id m in
  (Build_idr root' (if negb (item =? 0) && (id <? cur idp) then id else cur idp), m').

Definition idr_destroy (idp : idr) (m : M) : idr * M :=
  let '(root', m') := radix_tree_destroy (root idp) m in (Build_idr root' 0, m').
End ops.

Definition idr_find (idp : idr) (id : Z) : Z :=
  if id <? 0 then 0 else radix_tree_lookup (root idp) id.

(** [ERR_PTR] results are the [inl] side. *)
Definition idr_replace (idp : idr) (ptr id : Z) : (Z + Z) * idr :=
  if id <? 0 then (inl (- EINVAL), idp) else
  match radix_tree_lookup_slot (root idp) id with
  | None => (inl (- ENOENT), idp)
  | Some slot =>
      (inr (radix_tree_lookup (root idp) id),
       Build_idr (radix_tree_replace_slot (root idp) slot ptr) (cur idp))
  end.

Definition idr_is_empty (idp : idr) : bool :=
  match rnode (root idp) with None => true | Some _ => false end.

(** The leaf loop of [idr_get_next_node], from slot [offset] on. *)
Fixpoint next_leaf_loop (ss : list slot) (offset base : Z) : option (Z * Z) :=
  match ss with
  | [] => None
  | s :: ss' =>
      let id := base +w offset in
      if INT_MAX <? id then None
      else if is_null s then next_leaf_loop ss' (offset + 1) base
      else Some (id, slot_item s)
  end.

Fixpoint next_inner_loop (rec : radix_tree_node -> Z -> option (Z * Z)) (k : nat)
    (ss : list slot) (offset base start : Z) : option (Z * Z) :=
  match ss with
  | [] => None
  | s :: ss' =>
      let span := 1 <<w (Z.of_nat k * RADIX_TREE_MAP_SHIFT) in
      let child_base := base +w (offset *w span) in
      if (child_base +w span) -w 1 <? start then next_inner_loop rec k ss' (offset + 1) base start
      else if INT_MAX <? child_base then None
      else match s with
           | Child child =>
               match rec child child_base with
               | Some p => Some p
               | None => next_inner_loop rec k ss' (offset + 1) base start
               end
           | Ptr _ => next_inner_loop rec k ss' (offset + 1) base start
           end
  end.

(** Returns [*nextidp] and the item. *)
Fixpoint idr_get_next_node (k : nat) (node : radix_tree_node) (base start : Z) : option (Z * Z) :=
  match k with
  | O =>
      let first := if base <? start then start -w base else 0 in
      next_leaf_loop (drop (Z.to_nat first) (n_slots node)) first base
  | S k' =>
      next_inner_loop (fun child child_base => idr_get_next_node k' child child_base start)
        k (n_slots node) 0 base start
  end.

Definition idr_get_next (idp : idr) (nextid : Z) : option (Z * Z) :=
  if nextid <? 0 then None else
  match rnode (root idp) with
  | None => None
  | Some n => idr_get_next_node (pred (height (root idp))) n 0 nextid
  end.

(** [idr_for_each]: the callback sees the identifier and the item and updates
    the caller's [data]; a non-zero return stops the walk.  Every round consumes
    an occupied identifier, which bounds the number of rounds. *)
Section for_each.
Context {D : Type} (fn : Z -> Z -> D -> Z * D).

Fixpoint for_each_loop (fuel : nat) (idp : idr) (id : Z) (data : D) : Z * D :=
  match fuel with
  | O => (0, data)
  | S fuel' =>
      match idr_get_next idp id with
      | None => (0, data)
      | Some (id', ptr) =>
          let '(ret, data') := fn id' ptr data in
          if negb (ret =? 0) then (ret, data')
          else if id' =? INT_MAX then (0, data')
          else for_each_loop fuel' idp (id' + 1) data'
      end
  end.

Definition idr_for_each (idp : idr) (data : D) : Z * D :=
  for_each_loop (S (length (occupied (root idp)))) idp 0 data.
End for_each.

(** ** Allocation *)

Definition wf_idr (idp : idr) : Prop := wf_root (root idp) /\ 0 <= cur idp <= INT_MAX.

Lemma occupied_spec r :
  wf_root r ->
  StronglySorted Z.lt (occupied r) /\
  forall j, j ∈ occupied r <-> is_u32 j /\ radix_tree_lookup r j <> 0.
Proof.
  intros Hwf. unfold occupied. destruct (rnode r) as [n|] eqn:Hr.
  - split; [|by apply root_js]. unfold wf_root in Hwf. rewrite Hr in Hwf. destruct Hwf as [Hh Hwf].
    by apply node_js_spec; [|apply fits_root].
  - split; [constructor|]. intros j. rewrite radix_tree_lookup_get, Hr. set_solver.
Qed.

Lemma StronglySorted_lt_NoDup (l : list Z) : StronglySorted Z.lt l -> NoDup l.
Proof.
  induction 1 as [|x l _ IH Hx]; constructor; [|done]. intros Hin.
  rewrite Forall_forall in Hx. specialize (Hx x Hin). lia.
Qed.

(** A run of occupied identifiers is no longer than the list of them. *)
Lemma occupied_run r start n :
  wf_root r -> 0 <= start -> start + n <= 4294967296 ->
  (forall j, start <= j < start + n -> radix_tree_lookup r j <> 0) ->
  n <= zlen (occupied r).
Proof.
  intros Hwf Hs Hn Hocc. destruct (occupied_spec r Hwf) as [_ Hel].
  destruct (decide (0 <= n)); [|unfold zlen; lia].
  assert (seqZ start n ⊆+ occupied r) as Hsub%submseteq_length.
  { apply NoDup_submseteq; [apply NoDup_seqZ|]. intros j Hj%elem_of_seqZ.
    apply Hel. split; [unfold is_u32; lia|]. apply Hocc. lia. }
  rewrite length_seqZ in Hsub. unfold zlen. lia.
Qed.

Section alloc.
Context {M : Type} `{!KAlloc M}.

(** The outcome of a search for a free identifier in [start, end_). *)
Inductive alloc_outcome (idp : idr) (ptr start end_ : Z) : Z -> idr -> Prop :=
  | alloc_ok id idp' :
      start <= id < end_ -> idr_find idp id = 0 ->
      (forall j, start <= j < id -> idr_find idp j <> 0) ->
      (forall j, 0 <= j <= INT_MAX ->
         idr_find idp' j = if j =? id then ptr else idr_find idp j) ->
      cur idp' = id + 1 -> alloc_outcome idp ptr start end_ id idp'
  | alloc_nomem idp' :
      (exists id, start <= id < end_ /\ idr_find idp id = 0) ->
      (forall j, 0 <= j <= INT_MAX -> idr_find idp' j = idr_find idp j) ->
      cur idp' = cur idp -> alloc_outcome idp ptr start end_ (- ENOMEM) idp'
  | alloc_nospc idp' :
      (forall j, start <= j < end_ -> idr_find idp j <> 0) ->
      (forall j, idr_find idp' j = idr_find idp j) ->
      cur idp' = cur idp -> alloc_outcome idp ptr start end_ (- ENOSPC) idp'.

Lemma idr_find_lookup idp j : 0 <= j -> idr_find idp j = radix_tree_lookup (root idp) j.
Proof. intros Hj. unfold idr_find. by destruct (Z.ltb_spec j 0); [lia|]. Qed.

Lemma idr_alloc_loop_spec fuel idp ptr start id end_ (m : M) r idp' m' :
  wf_idr idp -> ptr <> 0 -> 0 <= start <= id -> id <= end_ <= INT_MAX ->
  (forall j, start <= j < id -> idr_find idp j <> 0) ->
  zlen (occupied (root idp)) < Z.of_nat fuel + (id - start) ->
  idr_alloc_loop fuel idp ptr id end_ m = (r, idp', m') ->
  wf_idr idp' /\ alloc_outcome idp ptr start end_ r idp'.
Proof.
  unfold INT_MAX. intros [Hwf Hcur] Hptr. revert id.
  induction fuel as [|fuel IH]; intros id Hs He Hocc Hfuel Hloop; simpl in Hloop.
  { exfalso. pose proof (occupied_run (root idp) start (id - start) Hwf) as Hrun.
    specialize (Hrun ltac:(lia) ltac:(lia)).
    enough (id - start <= zlen (occupied (root idp))) by lia. apply Hrun.
    intros j Hj. rewrite <- idr_find_lookup by lia. apply Hocc. lia. }
  destruct (Z.ltb_spec id end_) as [Hlt|Hge]; simpl in Hloop.
  2:{ simplify_eq. split; [done|]. constructor; [|done|done]. intros j Hj. apply Hocc. lia. }
  destruct (Z.eqb_spec (radix_tree_lookup (root idp) id) 0) as [Hfree|Hused].
  - destruct (radix_tree_insert (root idp) id ptr m) as [[r1 root1] m1] eqn:Hins.
    apply radix_tree_insert_spec in Hins as (Hwf1 & Hout); [|done|unfold is_u32; lia|done].
    destruct Hout as [(-> & _ & Hj)|[(-> & Hn & _)|(-> & _ & Hj)]]; [|done|];
      simpl in Hloop; simplify_eq; (split; [split; [done|simpl; unfold INT_MAX in *; lia]|]).
    + constructor; [lia|by rewrite idr_find_lookup by lia|done| |done].
      intros j Hju. unfold INT_MAX in Hju. rewrite !idr_find_lookup by lia. apply Hj. unfold is_u32. lia.
    + constructor; [| |done].
      * exists id. split; [lia|]. by rewrite idr_find_lookup by lia.
      * intros j Hju. unfold INT_MAX in Hju. rewrite !idr_find_lookup by lia. apply Hj. unfold is_u32. lia.
  - apply IH in Hloop; [done|lia|lia| |lia].
    intros j Hj. destruct (decide (j = id)) as [->|]; [by rewrite idr_find_lookup by lia|].
    apply Hocc. lia.
Qed.

(** The upper bound that [idr_alloc] uses. *)
Definition eff_end (end_ : Z) : Z := if end_ <=? 0 then INT_MAX else end_.

Lemma idr_alloc_spec idp ptr start end_ gfp (m : M) r idp' m' :
  wf_idr idp -> ptr <> 0 -> end_ <= INT_MAX ->
  idr_alloc idp ptr start end_ gfp m = (r, idp', m') ->
  wf_idr idp' /\
  ((start < 0 \/ eff_end end_ <= start) /\ r = - EINVAL /\ idp' = idp /\ m' = m \/
   0 <= start < eff_end end_ /\ alloc_outcome idp ptr start (eff_end end_) r idp').
Proof.
  intros Hwf Hptr He Hal. unfold idr_alloc in Hal. fold (eff_end end_) in Hal.
  destruct (Z.ltb_spec start 0); [simplify_eq; split; [done|left; naive_solver]|].
  destruct (Z.leb_spec (eff_end end_) start); [simplify_eq; split; [done|left; naive_solver]|].
  assert (eff_end end_ <= INT_MAX) by (unfold eff_end; bcase; lia).
  apply (idr_alloc_loop_spec _ _ _ start) in Hal as [Hwf' Hout].
  - split; [done|right]. split; [lia|]. clear -Hout. inversion Hout; subst; constructor; done.
  - done.
  - done.
  - lia.
  - lia.
  - intros j Hj. lia.
  - simpl. unfold occupied, set_gfp. simpl. unfold zlen. lia.
Qed.
End alloc.

(** C32: [idr_alloc] returns the least free identifier of the range.  A bad
    range gives [-EINVAL] and no change.  Otherwise, if some identifier in
    [start, end) is free, the least one is returned, is bound to [ptr] and
    becomes the cursor (or [-ENOMEM] is returned and no binding changes); if none
    is free the result is [-ENOSPC].  All other bindings are kept. *)
Theorem idr_alloc_least_free {M : Type} `{!KAlloc M} idp ptr start end_ gfp (m : M) r idp' m' :
  wf_idr idp -> ptr <> 0 -> end_ <= INT_MAX ->
  idr_alloc idp ptr start end_ gfp m = (r, idp', m') ->
  wf_idr idp' /\
  ((start < 0 \/ eff_end end_ <= start) /\ r = - EINVAL /\ idp' = idp /\ m' = m \/
   0 <= start < eff_end end_ /\ alloc_outcome idp ptr start (eff_end end_) r idp').
Proof. apply idr_alloc_spec. Qed.

(** ** Iteration *)

Lemma slots_js_app f step ss1 ss2 base :
  slots_js f step (ss1 ++ ss2) base =
  slots_js f step ss1 base ++ slots_js f step ss2 (base + zlen ss1 * step).
Proof.
  revert base. induction ss1 as [|s ss1 IH]; intros base; simpl.
  - unfold zlen. simpl. by rewrite Z.add_0_r.
  - rewrite IH, <- app_assoc. do 3 f_equal. unfold zlen. simpl. lia.
Qed.

Lemma head_filter_app (P : Z -> Prop) `{!forall x, Decision (P x)} l1 l2 :
  head (filter P (l1 ++ l2)) =
  match head (filter P l1) with Some x => Some x | None => head (filter P l2) end.
Proof. rewrite filter_app. by destruct (filter P l1). Qed.

Definition leaf_js (s : slot) (b : Z) : list Z := if is_null s then [] else [b].

Lemma leaf_js_range ss base j :
  j ∈ slots_js leaf_js 1 ss base -> base <= j < base + zlen ss.
Proof.
  intros (o & Ho & Hj)%slots_js_elem. unfold leaf_js in Hj.
  destruct (is_null _); [set_solver|]. apply list_elem_of_singleton in Hj. lia.
Qed.

Lemma next_leaf_loop_spec ss off base g :
  0 <= base + off -> base + off + zlen ss <= 4294967296 ->
  (forall x, 0 <= x < zlen ss -> slot_item (znth ss x) = g (base + off + x)) ->
  next_leaf_loop ss off base =
  (fun j => (j, g j)) <$>
    head (filter (fun j => j <= INT_MAX) (slots_js leaf_js 1 ss (base + off))).
Proof.
  revert off. induction ss as [|s ss IH]; intros off Hb Hend Hg; [done|].
  assert (zlen (s :: ss) = zlen ss + 1) as Hlen by (unfold zlen; simpl; lia).
  assert (0 <= zlen ss) by (unfold zlen; lia).
  assert (next_leaf_loop ss (off + 1) base =
    (fun j => (j, g j)) <$>
      head (filter (fun j => j <= INT_MAX) (slots_js leaf_js 1 ss (base + off + 1)))) as Hrec.
  { rewrite IH; [by replace (base + (off + 1)) with (base + off + 1) by lia|lia|lia|].
    intros x Hx. specialize (Hg (x + 1) ltac:(lia)). unfold znth in *.
    replace (Z.to_nat (x + 1)) with (S (Z.to_nat x)) in Hg by lia. simpl in Hg. rewrite Hg. f_equal. lia. }
  cbn [next_leaf_loop slots_js]. rewrite add32_id by lia. unfold leaf_js at 1.
  destruct (Z.ltb_spec INT_MAX (base + off)) as [Hbig|Hsm].
  - rewrite filter_all_out; [done|]. intros j Hj.
    enough (base + off <= j) by lia. apply elem_of_app in Hj as [Hj|Hj%leaf_js_range]; [|lia].
    destruct (is_null s); [set_solver|]. apply list_elem_of_singleton in Hj. lia.
  - destruct (is_null s); [done|]. rewrite head_filter_app, filter_cons_True by lia. simpl.
    specialize (Hg 0 ltac:(lia)). unfold znth in Hg. simpl in Hg. by rewrite Hg, Z.add_0_r.
Qed.

Lemma drop_slots_js ss n base :
  0 <= n <= zlen ss ->
  slots_js leaf_js 1 ss base =
  slots_js leaf_js 1 (take (Z.to_nat n) ss) base ++
  slots_js leaf_js 1 (drop (Z.to_nat n) ss) (base + n).
Proof.
  intros Hn. rewrite <- (take_drop (Z.to_nat n) ss) at 1. rewrite slots_js_app. do 2 f_equal.
  unfold zlen in *. rewrite length_take. lia.
Qed.

Lemma get_next_leaf n base start :
  wf_node 0 n -> fits 0 base -> 0 <= start <= INT_MAX ->
  idr_get_next_node 0 n base start =
  (fun j => (j, node_get 0 n j)) <$>
    head (filter (fun j => start <= j <= INT_MAX) (node_js 0 n base)).
Proof.
  intros Hwf (Hb & Hmod & Hfit) Hst. pose proof (wf_node_fields _ _ Hwf) as (Hl & _ & _).
  change (64 ^ Z.of_nat 1) with 64 in *.
  assert (base + 64 <= 4294967296) as Hend by (destruct Hfit as [|[? _]]; [done|lia]).
  cbn [idr_get_next_node node_js]. fold leaf_js. unfold INT_MAX in *.
  set (first := if base <? start then start -w base else 0).
  assert (first = Z.max 0 (start - base)) as Hfirst.
  { unfold first. bcase; [rewrite sub32_id|]; lia. }
  destruct (decide (first <= 64)) as [Hle|Hgt].
  2:{ rewrite drop_ge by (unfold zlen in Hl; lia). rewrite filter_all_out; [done|].
      intros j Hj%leaf_js_range. lia. }
  assert (forall x, 0 <= x < 64 -> slot_item (znth (n_slots n) x) = node_get 0 n (base + x)) as Hget.
  { intros x Hx. rewrite node_get_0.
    pose proof (slot_offset_at 0 base x 0 Hb Hmod Hx ltac:(lia)) as Hoff.
    change (64 ^ Z.of_nat 0) with 1 in Hoff. rewrite Z.add_0_r, Z.mul_1_r in Hoff. by rewrite Hoff. }
  assert (zlen (drop (Z.to_nat first) (n_slots n)) = 64 - first) as Hld.
  { unfold zlen in *. rewrite length_drop. lia. }
  rewrite (next_leaf_loop_spec _ first base (node_get 0 n)); [|lia|lia|].
  2:{ intros x Hx. unfold znth. rewrite lookup_total_drop.
      replace (Z.to_nat first + Z.to_nat x)%nat with (Z.to_nat (first + x)) by lia.
      fold (znth (n_slots n) (first + x)).
      rewrite (Hget (first + x)) by lia. f_equal. lia. }
  rewrite (drop_slots_js (n_slots n) first base) by lia. rewrite head_filter_app.
  rewrite (filter_all_out _ (slots_js leaf_js 1 (take _ _) base)).
  2:{ intros j Hj%leaf_js_range. unfold zlen in Hj. rewrite length_take in Hj. lia. }
  simpl. do 2 f_equal. apply filter_iff_on. intros j Hj%leaf_js_range. unfold INT_MAX. lia.
Qed.

Definition inner_js (k : nat) (s : slot) (b : Z) : list Z :=
  match s with Child c => node_js k c b | Ptr _ => [] end.

(** The inner loop, from the child that starts at [b = base + off * 64^(k+1)] on. *)
Lemma next_inner_loop_spec k ss off base start g rec :
  let q := 64 ^ Z.of_nat (S k) in
  (S k <= 5)%nat -> 0 <= start <= INT_MAX -> 0 <= off -> 0 <= base -> (q | base) ->
  base + off * q <= 2147483648 ->
  (forall x c, 0 <= x < zlen ss -> znth ss x = Child c ->
     wf_node k c /\ fits k (base + (off + x) * q) /\
     (base + (off + x) * q <= INT_MAX ->
      rec c (base + (off + x) * q) =
       (fun j => (j, g j)) <$> head (filter (fun j => start <= j <= INT_MAX)
                                      (node_js k c (base + (off + x) * q))))) ->
  next_inner_loop rec (S k) ss off base start =
  (fun j => (j, g j)) <$>
    head (filter (fun j => start <= j <= INT_MAX) (slots_js (inner_js k) q ss (base + off * q))).
Proof.
  intros q Hk Hst Hoff Hbase Hdiv. unfold INT_MAX in *.
  assert (0 < q <= 1073741824) as Hq.
  { unfold q. split; [apply pow64_pos|]. change 1073741824 with (64 ^ 5). apply Z.pow_le_mono_r; lia. }
  assert (q | 2147483648) as Hq31.
  { unfold q. do 5 (destruct k as [|k]; [by apply Z.mod_divide|]). lia. }
  revert off Hoff. induction ss as [|s ss IH]; intros off Hoff Hb Hss; [done|].
  assert (zlen (s :: ss) = zlen ss + 1) as Hlen by (unfold zlen; simpl; lia).
  assert (0 <= zlen ss) by (unfold zlen; lia).
  assert (forall x c, 0 <= x < zlen (s :: ss) -> znth (s :: ss) x = Child c ->
    forall j, j ∈ node_js k c (base + (off + x) * q) ->
    base + (off + x) * q <= j < base + (off + x) * q + q) as Hrange.
  { intros x c Hx Hc j Hj. destruct (Hss x c Hx Hc) as (Hwf & Hfit & _).
    apply (node_js_spec _ _ _ Hwf Hfit) in Hj as [Hj _]. done. }
  assert (base + (off + 1) * q <= 2147483648 ->
    next_inner_loop rec (S k) ss (off + 1) base start =
    (fun j => (j, g j)) <$>
      head (filter (fun j => start <= j <= 2147483647)
              (slots_js (inner_js k) q ss (base + off * q + q)))) as Hrec.
  { intros Hb'. rewrite IH; [by replace (base + (off + 1) * q) with (base + off * q + q) by lia|lia|lia|].
    intros x c Hx Hc. replace (off + 1 + x) with (off + (x + 1)) by lia.
    apply Hss; [lia|]. unfold znth in *. by replace (Z.to_nat (x + 1)) with (S (Z.to_nat x)) by lia. }
  cbn [next_inner_loop]. unfold INT_MAX. rewrite (shl_slot 1 (S k)) by (fold q; lia). fold q. rewrite Z.mul_1_l.
  rewrite (mul32_id off q), (add32_id base) by nia. set (b := base + off * q) in *.
  rewrite (add32_id b q), (sub32_id (b + q)) by (unfold b in *; nia).
  cbn [slots_js]. rewrite head_filter_app.
  assert (forall j, j ∈ inner_js k s b -> b <= j < b + q) as Hs.
  { intros j Hj. destruct s as [p|c]; [set_solver|]. simpl in Hj.
    specialize (Hrange 0 c ltac:(lia) eq_refl j). rewrite Z.add_0_r in Hrange. by apply Hrange. }
  assert (b < 2147483648 -> base + (off + 1) * q <= 2147483648) as Hnext.
  { intros Hlt. replace (base + (off + 1) * q) with (b + q) by (unfold b; lia).
    destruct Hq31 as [z Hz], Hdiv as [y Hy].
    assert (b = (y + off) * q) as Hbq by (unfold b; lia). rewrite Hbq in Hlt |- *.
    assert (y + off < z) by (apply (Z.mul_lt_mono_pos_r q); lia). nia. }
  destruct (Z.ltb_spec (b + q - 1) start) as [Hskip|Hin].
  - rewrite (filter_all_out _ (inner_js k s b)) by (intros j Hj%Hs; lia). simpl.
    apply Hrec, Hnext. lia.
  - destruct (Z.ltb_spec 2147483647 b) as [Hbig|Hsm].
    + rewrite (filter_all_out _ (inner_js k s b)) by (intros j Hj%Hs; lia).
      rewrite (filter_all_out _ (slots_js _ _ _ _)); [done|].
      intros j (x & Hx & Hj)%slots_js_elem. destruct (znth ss x) as [p|c] eqn:Hz; [set_solver|].
      specialize (Hrange (x + 1) c ltac:(lia)).
      unfold znth in *. replace (Z.to_nat (x + 1)) with (S (Z.to_nat x)) in Hrange by lia.
      simpl in Hj. replace (b + q + x * q) with (base + (off + (x + 1)) * q) in Hj by (unfold b; lia).
      specialize (Hrange Hz j Hj). unfold b in *. nia.
    + specialize (Hrec (Hnext ltac:(lia))). destruct s as [p|c]; [done|].
      destruct (Hss 0 c ltac:(lia) eq_refl) as (_ & _ & Hc). rewrite Z.add_0_r in Hc. fold b in Hc.
      rewrite Hc by done. simpl. destruct (head (filter _ (node_js k c b))); [done|exact Hrec].
Qed.

Lemma head_filter_fmap_ext {B} (f g : Z -> B) (P : Z -> Prop) `{!forall x, Decision (P x)} l :
  (forall j, j ∈ l -> P j -> f j = g j) -> f <$> head (filter P l) = g <$> head (filter P l).
Proof.
  intros Hfg. destruct (filter P l) as [|j l'] eqn:Hf; [done|]. simpl. f_equal.
  assert (j ∈ filter P l) as [HP Hj]%list_elem_of_filter by (rewrite Hf; set_solver). by apply Hfg.
Qed.

Lemma get_next_node_spec k n base start :
  (k <= 5)%nat -> wf_node k n -> fits k base -> base <= INT_MAX -> 0 <= start <= INT_MAX ->
  idr_get_next_node k n base start =
  (fun j => (j, node_get k n j)) <$>
    head (filter (fun j => start <= j <= INT_MAX) (node_js k n base)).
Proof.
  revert n base. induction k as [|k IH]; intros n base Hk Hwf Hfit Hb Hst.
  - by apply get_next_leaf.
  - pose proof (wf_node_fields _ _ Hwf) as (Hl & _ & _). destruct Hfit as (Hb0 & Hmod & Hfit).
    cbn [idr_get_next_node node_js]. fold (inner_js k).
    change (fun (s : slot) (b : Z) => match s with Ptr _ => [] | Child c => node_js k c b end)
      with (inner_js k).
    replace base with (base + 0 * 64 ^ Z.of_nat (S k)) at 2 by lia.
    assert (forall o c, 0 <= o < 64 -> znth (n_slots n) o = Child c ->
      wf_node k c /\ fits k (base + o * 64 ^ Z.of_nat (S k)) /\
      (forall j, base + o * 64 ^ Z.of_nat (S k) <= j < base + o * 64 ^ Z.of_nat (S k) + 64 ^ Z.of_nat (S k) ->
        node_get (S k) n j = node_get k c j)) as Hchild.
    { intros o c Ho Hc. destruct (wf_node_slot _ _ _ Hwf Ho) as [Hr Hs]. rewrite Hc in Hr, Hs.
      specialize (Hr eq_refl). destruct (fits_child k base o) as [Hfc _]; [split_and!; done|done|done|].
      split_and!; [done|done|]. intros j Hj. rewrite node_get_S.
      assert (slot_offset j (S k) = o) as ->; [|by rewrite Hc].
      replace j with (base + o * 64 ^ Z.of_nat (S k) + (j - base - o * 64 ^ Z.of_nat (S k))) by lia.
      apply slot_offset_at; [done|done|done|lia]. }
    apply next_inner_loop_spec; [lia|done|lia|lia| | |].
    + apply Z.mod_divide in Hmod as [z ->]; [|pose proof (pow64_pos (S (S k))); lia].
      rewrite (pow64_S (S k)). exists (z * 64). lia.
    + unfold INT_MAX in *. lia.
    + intros x c Hx Hc. rewrite Hl in Hx. rewrite Z.add_0_l.
      destruct (Hchild x c Hx Hc) as (Hwfc & Hfc & Hg). split_and!; [done|done|].
      pose proof (node_js_spec _ _ _ Hwfc Hfc) as [_ Hel].
      intros Hle. rewrite (IH c _ ltac:(lia) Hwfc Hfc Hle Hst). apply head_filter_fmap_ext. intros j Hj _.
      apply Hel in Hj as [Hj _]. by rewrite Hg.
Qed.

Lemma idr_get_next_spec idp start :
  wf_root (root idp) -> 0 <= start <= INT_MAX ->
  idr_get_next idp start =
  (fun j => (j, idr_find idp j)) <$>
    head (filter (fun j => start <= j <= INT_MAX) (occupied (root idp))).
Proof.
  intros Hwf Hst. unfold idr_get_next, occupied. destruct (Z.ltb_spec start 0); [lia|].
  destruct (rnode (root idp)) as [n|] eqn:Hr; [|done].
  pose proof (root_js _ _ Hwf Hr) as Hjs. unfold wf_root in Hwf. rewrite Hr in Hwf.
  destruct Hwf as [Hh Hwf].
  rewrite get_next_node_spec; [|lia|done|by apply fits_root|done|done].
  apply head_filter_fmap_ext. intros j Hj [Hs _]. apply Hjs in Hj as [_ Hj].
  rewrite idr_find_lookup by lia. rewrite radix_tree_lookup_get, Hr in *.
  unfold root_get in *. by destruct (_ <? j).
Qed.

Section visit.
Context {D : Type} (fn : Z -> Z -> D -> Z * D).

(** The walk a caller of [idr_for_each] expects: the callback on each
    identifier of the list in turn, until it returns non-zero. *)
Fixpoint visit (find : Z -> Z) (ids : list Z) (data : D) : Z * D :=
  match ids with
  | [] => (0, data)
  | id :: ids' =>
      let '(ret, data') := fn id (find id) data in
      if negb (ret =? 0) then (ret, data') else visit find ids' data'
  end.

(** In a sorted list, the elements after the first one from [a] on. *)
Lemma filter_sorted_tail (l : list Z) a b x r :
  StronglySorted Z.lt l -> filter (fun j => a <= j <= b) l = x :: r ->
  filter (fun j => x + 1 <= j <= b) l = r.
Proof.
  induction 1 as [|y l Hl IH Hy]; [done|]. rewrite Forall_forall in Hy. rewrite filter_cons.
  case_decide as Hd; intros Hf.
  - simplify_eq. rewrite filter_cons_False by lia. apply filter_iff_on.
    intros j Hj. specialize (Hy j Hj). lia.
  - rewrite filter_cons_False; [by apply IH|].
    assert (x ∈ filter (fun j => a <= j <= b) l) as [Hx Hin]%list_elem_of_filter
      by (rewrite Hf; set_solver).
    specialize (Hy x Hin). lia.
Qed.

Lemma for_each_loop_spec fuel idp id data :
  wf_root (root idp) -> 0 <= id <= INT_MAX ->
  zlen (filter (fun j => id <= j <= INT_MAX) (occupied (root idp))) < Z.of_nat fuel ->
  for_each_loop fn fuel idp id data =
  visit (idr_find idp) (filter (fun j => id <= j <= INT_MAX) (occupied (root idp))) data.
Proof.
  intros Hwf. revert id data. induction fuel as [|fuel IH]; intros id data Hid Hf;
    [unfold zlen in Hf; lia|].
  cbn [for_each_loop]. rewrite idr_get_next_spec by done.
  destruct (filter _ (occupied (root idp))) as [|j js] eqn:Hfl; [done|]. simpl.
  destruct (fn j (idr_find idp j) data) as [ret data'].
  destruct (Z.eqb_spec ret 0); simpl; [|done].
  pose proof (proj1 (occupied_spec _ Hwf)) as Hsort.
  pose proof (filter_sorted_tail _ _ _ _ _ Hsort Hfl) as Htl.
  assert (j ∈ filter (fun j => id <= j <= INT_MAX) (occupied (root idp))) as [Hj _]%list_elem_of_filter
    by (rewrite Hfl; set_solver).
  destruct (Z.eqb_spec j INT_MAX) as [->|Hne].
  - rewrite filter_all_out in Htl by (intros; lia). by subst.
  - rewrite IH; [by rewrite Htl|lia|]. rewrite Htl. unfold zlen in *. simpl in Hf. lia.
Qed.
End visit.

(** iteration is complete, ordered and without repetition.
    [idr_get_next] returns the least identifier in use that is not below its
    argument, with its pointer; [idr_for_each] calls the callback on exactly the
    identifiers in use, each once and in increasing order, until the callback
    returns non-zero, and returns that value. *)
Theorem idr_iteration_correct {D} (fn : Z -> Z -> D -> Z * D) idp start data :
  wf_idr idp -> 0 <= start <= INT_MAX ->
  exists ids, StronglySorted Z.lt ids /\
    (forall j, j ∈ ids <-> 0 <= j <= INT_MAX /\ idr_find idp j <> 0) /\
    idr_get_next idp start =
      (fun j => (j, idr_find idp j)) <$> head (filter (fun j => start <= j) ids) /\
    idr_for_each fn idp data = visit fn (idr_find idp) ids data.
Proof.
  intros [Hwf _] Hst. destruct (occupied_spec _ Hwf) as [Hsort Hel].
  exists (filter (fun j => 0 <= j <= INT_MAX) (occupied (root idp))). split_and!.
  - by apply StronglySorted_filter.
  - intros j. rewrite list_elem_of_filter, Hel. unfold is_u32, INT_MAX.
    split.
    + intros (H1 & H2 & H3). split; [lia|]. by rewrite idr_find_lookup by lia.
    + intros [H1 H2]. rewrite idr_find_lookup in H2 by lia. split_and!; (lia || done).
  - rewrite idr_get_next_spec by done. do 2 f_equal. rewrite list_filter_filter.
    apply filter_iff_on. intros j [Hj _]%Hel. unfold is_u32, INT_MAX in *. lia.
  - unfold idr_for_each. apply for_each_loop_spec; [done|unfold INT_MAX; lia|].
    pose proof (length_filter (fun j => 0 <= j <= INT_MAX) (occupied (root idp))).
    unfold zlen. lia.
Qed.

(** ** Removal, replacement and the derived allocators *)

(** [idr_remove] frees exactly the given identifier and lowers the cursor to
    it when it was below; [idr_replace] rebinds a bound identifier and returns
    the old pointer, and reports [-EINVAL] for a negative and [-ENOENT] for an
    unbound identifier without changing anything. *)
Theorem idr_remove_replace_correct {M : Type} `{!KAlloc M} idp ptr id (m : M) :
  wf_idr idp -> ptr <> 0 -> id <= INT_MAX ->
  (let '(idp', _) := idr_remove idp id m in
     wf_idr idp' /\
     (forall j, j <= INT_MAX -> idr_find idp' j = if j =? id then 0 else idr_find idp j) /\
     cur idp' = if negb (idr_find idp id =? 0) then Z.min id (cur idp) else cur idp) /\
  (let '(r, idp') := idr_replace idp ptr id in
     wf_idr idp' /\
     (id < 0 /\ r = inl (- EINVAL) /\ idp' = idp \/
      0 <= id /\ idr_find idp id = 0 /\ r = inl (- ENOENT) /\ idp' = idp \/
      0 <= id /\ idr_find idp id <> 0 /\ r = inr (idr_find idp id) /\ cur idp' = cur idp /\
      forall j, j <= INT_MAX -> idr_find idp' j = if j =? id then ptr else idr_find idp j)).
Proof.
  intros [Hwf Hc] Hptr Hid. unfold INT_MAX in *. unfold idr_remove, idr_replace.
  destruct (Z.ltb_spec id 0) as [Hneg|Hpos].
  { split.
    - split_and!; [done| |].
      + intros j Hj. bcase; [|done]. subst. unfold idr_find. bcase; [done|lia].
      + unfold idr_find. destruct (Z.ltb_spec id 0); [done|lia].
    - split; [done|]. by left. }
  assert (is_u32 id) as Hu by (unfold is_u32; lia). split.
  - destruct (radix_tree_delete (root idp) id m) as [[item root'] m'] eqn:Hd.
    apply radix_tree_delete_spec in Hd as (Hwf' & -> & Hg); [|done|done].
    rewrite <- idr_find_lookup by lia. split_and!.
    + split; [done|]. simpl. unfold INT_MAX. destruct (_ && _) eqn:Hb; lia.
    + intros j Hj. unfold idr_find. destruct (Z.ltb_spec j 0); [by bcase|]. simpl. apply Hg.
      unfold is_u32. lia.
    + simpl. destruct (negb _); simpl; [|done]. bcase; lia.
  - unfold radix_tree_lookup_slot. rewrite <- idr_find_lookup by lia.
    destruct (Z.eqb_spec (idr_find idp id) 0) as [H0|Hnz].
    + split; [done|]. right; left. done.
    + rewrite idr_find_lookup in Hnz by lia.
      destruct (replace_slot_spec _ _ ptr Hwf Hu Hnz Hptr) as [Hwf' Hg].
      split; [done|]. right; right. rewrite (idr_find_lookup idp id) by lia.
      split_and!; [done|done|done|done|].
      intros j Hj. unfold idr_find. destruct (Z.ltb_spec j 0); [by bcase; lia|]. simpl. apply Hg.
      unfold is_u32. lia.
Qed.

(** [idr_get_new] binds a free identifier or changes no binding: on success
    the returned identifier was unbound and only it is rebound; every failure is
    [-ENOMEM] or [-ENOSPC]. *)
Theorem idr_get_new_correct {M : Type} `{!KAlloc M} idp ptr (m : M) r id idp' m' :
  wf_idr idp -> ptr <> 0 -> idr_get_new idp ptr m = (r, id, idp', m') ->
  wf_idr idp' /\
  ((exists i, r = 0 /\ id = Some i /\ 0 <= i < INT_MAX /\ idr_find idp i = 0 /\
      forall j, 0 <= j <= INT_MAX -> idr_find idp' j = if j =? i then ptr else idr_find idp j) \/
   ((r = - ENOMEM \/ r = - ENOSPC) /\ id = None /\
      forall j, 0 <= j <= INT_MAX -> idr_find idp' j = idr_find idp j)).
Proof.
  intros Hwf Hptr Hget. unfold idr_get_new in Hget.
  destruct (idr_alloc idp ptr (cur idp) 0 0 m) as [[r1 idp1] m1] eqn:H1.
  pose proof (proj2 Hwf) as Hc.
  apply idr_alloc_spec in H1 as (Hwf1 & Hout1); [|done|done|done].
  assert ((0 <= r1 < INT_MAX /\ idr_find idp r1 = 0 /\
      forall j, 0 <= j <= INT_MAX -> idr_find idp1 j = if j =? r1 then ptr else idr_find idp j) \/
    ((r1 = - EINVAL /\ cur idp = INT_MAX \/ r1 = - ENOMEM \/ r1 = - ENOSPC) /\ cur idp1 = cur idp /\
      forall j, 0 <= j <= INT_MAX -> idr_find idp1 j = idr_find idp j)) as Hr1.
  { change (eff_end 0) with INT_MAX in Hout1.
    destruct Hout1 as [([?|?] & -> & -> & _)|[Hs Hout]]; [lia|right; split_and!; [left; lia|done|done]|].
    destruct Hout as [i i' Hi Hf _ Hj _|i' _ Hj Hcur|i' _ Hj Hcur];
      [left; split_and!; [lia|lia|done|done]|right; split_and!; auto..]. }
  clear Hout1. destruct Hr1 as [(Hr & Hf & Hj)|(Hr & Hcur & Hj)].
  - destruct (Z.ltb_spec r1 0); [lia|]. cbn [andb] in Hget.
    destruct (Z.ltb_spec r1 0); [lia|]. simplify_eq. split; [done|]. left. exists r1. auto.
  - assert (r1 < 0) as Hneg by (unfold EINVAL, ENOMEM, ENOSPC in Hr; lia).
    destruct (Z.ltb_spec r1 0); [|lia]. cbn [andb] in Hget. rewrite Hcur in Hget.
    destruct (Z.ltb_spec 0 (cur idp)) as [Hpos|Hz].
    + destruct (idr_alloc idp1 ptr 0 (cur idp) 0 m1) as [[r2 idp2] m2] eqn:H2.
      apply idr_alloc_spec in H2 as (Hwf2 & Hout2); [|done|done|lia].
      assert (eff_end (cur idp) = cur idp) as He by (unfold eff_end; bcase; lia). rewrite He in Hout2.
      destruct Hout2 as [([?|?] & _)|[_ Hout]]; [lia|lia|].
      destruct Hout as [i i' Hi Hf _ Hj2 _|i' _ Hj2 Hcur2|i' _ Hj2 Hcur2]; cbn in Hget.
      * destruct (Z.ltb_spec i 0); [lia|]. simplify_eq. split; [done|]. left. exists i.
        split_and!; [done|done|lia|lia|rewrite <- Hj by lia; done|].
        intros j Hju. rewrite Hj2, Hj by done. done.
      * change (- ENOMEM <? 0) with true in Hget. cbv iota in Hget. simplify_eq.
        split; [done|]. right. split_and!; [auto|done|].
        intros j Hju. rewrite Hj2, Hj by done. done.
      * change (- ENOSPC <? 0) with true in Hget. cbv iota in Hget. simplify_eq.
        split; [done|]. right. split_and!; [auto|done|].
        intros j Hju. rewrite Hj2, Hj by done. done.
    + destruct (Z.ltb_spec r1 0); [|lia]. simplify_eq. split; [done|]. right.
      split_and!; [|done|done]. unfold INT_MAX in *. lia.
Qed.

(** once the cursor has reached the end of the range, [idr_alloc_cyclic]
    fails with [-EINVAL] although identifiers may be free: the retry from
    [start] is only made for [-ENOSPC], and [idr_alloc] answers an empty
    range with [-EINVAL]. *)
Theorem idr_alloc_cyclic_does_not_wrap {M : Type} `{!KAlloc M} idp ptr start end_ gfp (m : M) :
  0 <= start -> 0 < end_ -> end_ <= cur idp ->
  idr_alloc_cyclic idp ptr start end_ gfp m = (- EINVAL, idp, m).
Proof.
  intros Hs He Hc. unfold idr_alloc_cyclic.
  assert (forall next, end_ <= next -> idr_alloc idp ptr next end_ gfp m = (- EINVAL, idp, m)) as Hal.
  { intros next Hn. unfold idr_alloc. destruct (Z.ltb_spec next 0); [done|].
    destruct (Z.leb_spec end_ 0); [lia|]. destruct (Z.leb_spec end_ next); [done|lia]. }
  rewrite Hal; [done|]. bcase; lia.
Qed.

(** ** Evaluation on small inputs *)
Module Demo.

(** Two identifiers are allocated, the first one is then removed. *)
Definition two : idr * Heap.heap :=
  let '(_, a, m1) := idr_alloc idr_init 101 0 2 0 (Heap.init 20) in
  let '(_, b, m2) := idr_alloc a 102 0 2 0 m1 in (b, m2).

Definition freed : idr * Heap.heap := idr_remove two.1 0 two.2.

Lemma two_wf : wf_idr two.1.
Proof.
  unfold two. destruct (idr_alloc idr_init 101 0 2 0 (Heap.init 20)) as [[r1 a] m1] eqn:H1.
  apply idr_alloc_spec in H1 as [Hwf1 _]; [|done..].
  destruct (idr_alloc a 102 0 2 0 m1) as [[r2 b] m2] eqn:H2.
  by apply idr_alloc_spec in H2 as [Hwf2 _].
Qed.
End Demo.

Lemma idr_alloc_least_free_witness :
  exists idp' m', idr_alloc Demo.two.1 103 0 5 0 Demo.two.2 = (2, idp', m') /\ wf_idr idp'.
Proof.
  destruct (idr_alloc Demo.two.1 103 0 5 0 Demo.two.2) as [[r idp'] m'] eqn:H.
  destruct (idr_alloc_least_free Demo.two.1 103 0 5 0 Demo.two.2 r idp' m') as [Hwf _];
    [exact Demo.two_wf|done|done|done|].
  exists idp', m'. split; [|exact Hwf].
  assert (r = 2) as Hr; [|by rewrite <- Hr].
  change r with (r, idp', m').1.1. rewrite <- H. vm_compute. reflexivity.
Defined.

Lemma idr_iteration_correct_witness :
  exists ids, (forall j, j ∈ ids <-> 0 <= j <= INT_MAX /\ idr_find Demo.two.1 j <> 0) /\
    idr_for_each (fun id p d => (0, d + p)) Demo.two.1 0 =
      visit (fun id p d => (0, d + p)) (idr_find Demo.two.1) ids 0 /\
    idr_for_each (fun id p d => (0, d + p)) Demo.two.1 0 = (0, 203).
Proof.
  destruct (idr_iteration_correct (fun id p d => (0, d + p)) Demo.two.1 0 0)
    as (ids & _ & H1 & _ & H2); [exact Demo.two_wf|done|].
  exists ids. split; [exact H1|split; [exact H2|vm_compute; reflexivity]].
Defined.

Lemma idr_remove_replace_correct_witness :
  idr_find (idr_remove Demo.two.1 0 Demo.two.2).1 0 = 0 /\
  idr_find (idr_remove Demo.two.1 0 Demo.two.2).1 1 = 102.
Proof.
  destruct (idr_remove_replace_correct Demo.two.1 7 0 Demo.two.2) as [H _];
    [exact Demo.two_wf|done|done|].
  destruct (idr_remove Demo.two.1 0 Demo.two.2) as [idp' m']. destruct H as (_ & H & _).
  cbn [fst]. split; [apply (H 0); done|]. rewrite (H 1) by done. vm_compute. reflexivity.
Defined.

Lemma idr_get_new_correct_witness :
  exists r id idp' m', idr_get_new Demo.two.1 9 Demo.two.2 = (r, id, idp', m') /\ wf_idr idp'.
Proof.
  destruct (idr_get_new Demo.two.1 9 Demo.two.2) as [[[r id] idp'] m'] eqn:H.
  exists r, id, idp', m'. split; [done|].
  apply (idr_get_new_correct Demo.two.1 9 Demo.two.2 r id idp' m'); [exact Demo.two_wf|done|done].
Defined.

(** The range [0, 2) has the free identifier 0, and the cursor stands at 2. *)
Lemma idr_alloc_cyclic_does_not_wrap_witness :
  let idp := Build_idr (root Demo.freed.1) 2 in
  idr_find idp 0 = 0 /\ idr_alloc_cyclic idp 5 0 2 0 Demo.freed.2 = (- EINVAL, idp, Demo.freed.2).
Proof.
  split; [vm_compute; reflexivity|]. apply idr_alloc_cyclic_does_not_wrap; simpl; lia.
Defined.
