(* ===== verification/Bootmem.v ===== *)
(** * The boot memory allocator of [mm/bootmem.c]

    [struct bootmem_data] keeps fixed arrays with counters; a list stands for
    the used prefix of an array, its length for the counter.  The multiboot
    memory map and module list, which the code walks in memory, are lists.
    Addresses are 32-bit words and wrap. *)

From stdpp Require Import base tactics numbers list gmap sets sorting.
From Stdlib Require Import ZArith Lia.
From S2P Require Import Prelude.

(** ** Data *)

Definition BOOTMEM_MAX_REGIONS : Z := 256.
Definition BOOTMEM_MAX_E820 : Z := 64.
Definition BOOTMEM_MAX_MODULES : Z := 8.
Definition MULTIBOOT_MEMORY_AVAILABLE : Z := 1.
Definition PAGE_SIZE : Z := 4096.
Definition PAGE_OFFSET : Z := 3221225472.

Record bootmem_region : Type := Region { base : Z; size : Z }.
Record bootmem_e820_entry : Type := E820 { e_base : Z; e_size : Z; e_type : Z }.
Record bootmem_module_range : Type := Module_range { m_start : Z; m_end : Z }.

Record bootmem_data : Type := Bootmem {
  available : list bootmem_region;
  reserved : list bootmem_region;
  e820 : list bootmem_e820_entry;
  mods : list bootmem_module_range;
  kernel_phys_start : Z;
  kernel_phys_end : Z;
  total_pages : Z;
  lowmem_end : Z;
  ram_kb : Z;
  reserved_kb : Z;
  bm_start : Z;
  bm_end : Z;
  bm_current : Z;
}.

(** The fields of [struct multiboot_info] that are read; [mi_mmap] is [None]
    when bit 6 of [flags] is clear. *)
Record multiboot_info : Type := Mbi {
  mods_addr : Z;
  mi_mods : list bootmem_module_range;
  mi_mmap : option (list bootmem_e820_entry);
}.

#[export] Instance region_inhabited : Inhabited bootmem_region := populate (Region 0 0).

(** ** Operations *)

Definition align_up (value align : Z) : Z :=
  if align =? 0 then value
  else Z.land (value +w (align -w 1)) (not32 (align -w 1)).

Definition align_down (value align : Z) : Z :=
  if align =? 0 then value else Z.land value (not32 (align -w 1)).

Definition with_reserved (b : bootmem_data) (r : list bootmem_region) : bootmem_data :=
  Bootmem (available b) r (e820 b) (mods b) (kernel_phys_start b) (kernel_phys_end b)
    (total_pages b) (lowmem_end b) (ram_kb b) (reserved_kb b) (bm_start b) (bm_end b) (bm_current b).

Definition with_available (b : bootmem_data) (a : list bootmem_region) : bootmem_data :=
  Bootmem a (reserved b) (e820 b) (mods b) (kernel_phys_start b) (kernel_phys_end b)
    (total_pages b) (lowmem_end b) (ram_kb b) (reserved_kb b) (bm_start b) (bm_end b) (bm_current b).

Definition with_e820 (b : bootmem_data) (l : list bootmem_e820_entry) : bootmem_data :=
  Bootmem (available b) (reserved b) l (mods b) (kernel_phys_start b) (kernel_phys_end b)
    (total_pages b) (lowmem_end b) (ram_kb b) (reserved_kb b) (bm_start b) (bm_end b) (bm_current b).

Definition with_current (b : bootmem_data) (c : Z) : bootmem_data :=
  Bootmem (available b) (reserved b) (e820 b) (mods b) (kernel_phys_start b) (kernel_phys_end b)
    (total_pages b) (lowmem_end b) (ram_kb b) (reserved_kb b) (bm_start b) (bm_end b) c.

Definition bootmem_reserve (b : bootmem_data) (bs sz : Z) : bootmem_data :=
  if BOOTMEM_MAX_REGIONS <=? zlen (reserved b) then b
  else with_reserved b (reserved b ++ [Region bs sz]).

Definition bootmem_add_available (b : bootmem_data) (bs sz : Z) : bootmem_data :=
  if BOOTMEM_MAX_REGIONS <=? zlen (available b) then b
  else with_available b (available b ++ [Region bs sz]).

Definition bootmem_add_e820 (b : bootmem_data) (bs sz ty : Z) : bootmem_data :=
  if sz =? 0 then b
  else if BOOTMEM_MAX_E820 <=? zlen (e820 b) then b
  else with_e820 b (e820 b ++ [E820 bs sz ty]).

(** [end_addr <= rbase] or [base >= rend]: the region is passed over. *)
Definition misses (bs end_addr : Z) (r : bootmem_region) : bool :=
  (end_addr <=? base r) || (base r +w size r <=? bs).

(** The loop shared by [bootmem_is_reserved] and
    [bootmem_find_reserved_overlap]: the end of the first reserved region that
    is not passed over. *)
Fixpoint find_overlap (rs : list bootmem_region) (bs end_addr : Z) : option Z :=
  match rs with
  | [] => None
  | r :: rs' => if misses bs end_addr r then find_overlap rs' bs end_addr
                else Some (base r +w size r)
  end.

Definition bootmem_is_reserved (b : bootmem_data) (bs sz : Z) : bool :=
  match find_overlap (reserved b) bs (bs +w sz) with Some _ => true | None => false end.

Definition bootmem_find_reserved_overlap (b : bootmem_data) (bs sz : Z) : option Z :=
  find_overlap (reserved b) bs (bs +w sz).

(** *** The exchange sorts

    [for i, for j > i, if (a[j].base < a[i].base) swap].  The inner loop keeps
    the candidate [a[i]] in hand while it walks the rest of the array. *)
Section sort.
Context {A : Type} (key : A -> Z).

Fixpoint exchange_pass (x : A) (rest : list A) : A * list A :=
  match rest with
  | [] => (x, [])
  | y :: rest' =>
      if key y <? key x then
        let '(m, r) := exchange_pass y rest' in (m, x :: r)
      else
        let '(m, r) := exchange_pass x rest' in (m, y :: r)
  end.

(** The outer loop, one round per array element. *)
Fixpoint exchange_sort_loop (n : nat) (l : list A) : list A :=
  match n, l with
  | S n', x :: rest =>
      let '(m, r) := exchange_pass x rest in m :: exchange_sort_loop n' r
  | _, _ => l
  end.

Definition exchange_sort (l : list A) : list A := exchange_sort_loop (length l) l.
End sort.

Definition bootmem_sort_e820 (b : bootmem_data) : bootmem_data :=
  with_e820 b (exchange_sort e_base (e820 b)).

Definition bootmem_sort_available (b : bootmem_data) : bootmem_data :=
  with_available b (exchange_sort base (available b)).

(** One round of [bootmem_coalesce_available]; [out] are the finished entries,
    the last one being [available[out - 1]]. *)
Definition coalesce_step (out : list bootmem_region) (r : bootmem_region) : list bootmem_region :=
  if size r =? 0 then out else
  match last out with
  | None => out ++ [r]
  | Some c =>
      let cur_end := base c +w size c in
      let end_ := base r +w size r in
      if base r <=? cur_end then
        if cur_end <? end_ then zset out (zlen out - 1) (Region (base c) (end_ -w base c))
        else out
      else out ++ [r]
  end.

Definition bootmem_coalesce_available (b : bootmem_data) : bootmem_data :=
  if zlen (available b) <? 2 then b
  else with_available b (foldl coalesce_step [] (available b)).

Definition bootmem_min_u32 (a b : Z) : Z := if a <? b then a else b.
Definition bootmem_max_u32 (a b : Z) : Z := if b <? a then a else b.

(** The [while (addr < rend)] search of [bootmem_alloc] in one region.  Every
    round that continues moves past the end of one more reserved region, so
    one round more than there are reserved regions is enough
    ([region_search_complete]). *)
Fixpoint region_search (fuel : nat) (b : bootmem_data) (addr sz align rend : Z) : option Z :=
  match fuel with
  | O => None
  | S fuel' =>
      if negb (addr <? rend) then None
      else if rend <? addr +w sz then None
      else match bootmem_find_reserved_overlap b addr sz with
           | Some overlap_end => region_search fuel' b (align_up overlap_end align) sz align rend
           | None => Some addr
           end
  end.

Fixpoint alloc_regions (rs : list bootmem_region) (b : bootmem_data) (sz align : Z) : option Z :=
  match rs with
  | [] => None
  | r :: rs' =>
      if bm_end b <=? base r then alloc_regions rs' b sz align else
      let rend0 := base r +w size r in
      let rend := if bm_end b <? rend0 then bm_end b else rend0 in
      let addr := align_up (bootmem_max_u32 (bm_current b) (base r)) align in
      match region_search (S (length (reserved b))) b addr sz align rend with
      | Some a => Some a
      | None => alloc_regions rs' b sz align
      end
  end.

Definition bootmem_alloc (b : bootmem_data) (sz align : Z) : option Z * bootmem_data :=
  let req_align := if align =? 0 then PAGE_SIZE else align in
  if sz =? 0 then (None, b) else
  match alloc_regions (available b) b sz req_align with
  | None => (None, b)
  | Some a => (Some a, bootmem_reserve (with_current b (a +w sz)) a sz)
  end.

(** The loop of [bootmem_present_pages]; it stops at the first region at or
    beyond [end_addr]. *)
Fixpoint present_loop (rs : list bootmem_region) (start_addr end_addr pages : Z) : Z :=
  match rs with
  | [] => pages
  | r :: rs' =>
      let rend := base r +w size r in
      if rend <=? start_addr then present_loop rs' start_addr end_addr pages
      else if end_addr <=? base r then pages
      else
        let a := align_up (bootmem_max_u32 (base r) start_addr) PAGE_SIZE in
        let b := align_down (bootmem_min_u32 rend end_addr) PAGE_SIZE in
        let pages' := if a <? b then pages +w ((b -w a) / PAGE_SIZE) else pages in
        present_loop rs' start_addr end_addr pages'
  end.

Definition bootmem_present_pages (b : bootmem_data) (start_pfn end_pfn0 : Z) : Z :=
  let end_pfn := if total_pages b <? end_pfn0 then total_pages b else end_pfn0 in
  if end_pfn <=? start_pfn then 0 else
  let start_addr := start_pfn *w PAGE_SIZE in
  let end_addr0 := end_pfn *w PAGE_SIZE in
  if lowmem_end b <=? start_addr then 0 else
  let end_addr := if lowmem_end b <? end_addr0 then lowmem_end b else end_addr0 in
  present_loop (available b) start_addr end_addr 0.

(** The walk over the memory map in [bootmem_init]. *)
Fixpoint init_mmap (ms : list bootmem_e820_entry) (b : bootmem_data) (max_end ram resv : Z)
  : bootmem_data * Z * Z * Z :=
  match ms with
  | [] => (b, max_end, ram, resv)
  | e :: ms' =>
      let b1 := bootmem_add_e820 b (e_base e) (e_size e) (e_type e) in
      if e_type e =? MULTIBOOT_MEMORY_AVAILABLE then
        let b2 := bootmem_add_available b1 (e_base e) (e_size e) in
        let region_end := e_base e +w e_size e in
        init_mmap ms' b2 (if max_end <? region_end then region_end else max_end)
          (ram +w (e_size e / 1024)) resv
      else init_mmap ms' b1 max_end ram (resv +w (e_size e / 1024))
  end.

(** Reserving the modules that were loaded; [sizeof(struct multiboot_module)] is 16. *)
Definition init_mods (mbi : multiboot_info) (b : bootmem_data) : bootmem_data :=
  if negb (zlen (mi_mods mbi) =? 0) && negb (mods_addr mbi =? 0) then
    let b1 := bootmem_reserve b (mods_addr mbi) (zlen (mi_mods mbi) *w 16) in
    let taken := take (Z.to_nat BOOTMEM_MAX_MODULES) (mi_mods mbi) in
    let b2 := foldl (fun b m =>
      if m_start m <? m_end m then bootmem_reserve b (m_start m) (m_end m -w m_start m) else b)
      b1 taken in
    Bootmem (available b2) (reserved b2) (e820 b2) taken (kernel_phys_start b2) (kernel_phys_end b2)
      (total_pages b2) (lowmem_end b2) (ram_kb b2) (reserved_kb b2)
      (bm_start b2) (bm_end b2) (bm_current b2)
  else b.

Definition lowmem_limit : Z := 939524096.

(** [kernel_image_end] is the linker symbol [end]. *)
Definition bootmem_init (kernel_image_end : Z) (mbi : multiboot_info) : bootmem_data :=
  let ke0 := if PAGE_OFFSET <=? kernel_image_end then kernel_image_end -w PAGE_OFFSET
             else kernel_image_end in
  let kernel_end := align_up ke0 PAGE_SIZE in
  let b0 := Bootmem [] [] [] [] 1048576 kernel_end 0 0 0 0 0 0 0 in
  let b1 := bootmem_reserve b0 0 1048576 in
  let b2 := if kernel_phys_start b1 <? kernel_phys_end b1
            then bootmem_reserve b1 (kernel_phys_start b1) (kernel_phys_end b1 -w kernel_phys_start b1)
            else b1 in
  let b3 := init_mods mbi b2 in
  let '(b4, max0, ram, resv) :=
    match mi_mmap mbi with
    | Some ms => init_mmap ms b3 0 0 0
    | None => (b3, 0, 0, 0)
    end in
  let b5 := bootmem_sort_e820 (bootmem_coalesce_available (bootmem_sort_available b4)) in
  let max_ram_end := if max0 =? 0 then kernel_end else max0 in
  let low := bootmem_min_u32 max_ram_end lowmem_limit in
  let cur1 := if kernel_end <? kernel_end then kernel_end else kernel_end in
  let cur2 := if low <? cur1 then low else cur1 in
  Bootmem (available b5) (reserved b5) (e820 b5) (mods b5) (kernel_phys_start b5) (kernel_phys_end b5)
    (low / PAGE_SIZE) low ram resv kernel_end low cur2.

(** ** Reference definitions *)

Definition region_end (r : bootmem_region) : Z := base r + size r.

(** A region that does not wrap around the address space. *)
Definition region_ok (r : bootmem_region) : Prop :=
  0 <= base r /\ 0 <= size r /\ region_end r < 4294967296.

Definition covers (a : Z) (r : bootmem_region) : Prop := base r <= a < region_end r.

(** Sorted, with a gap before the next region. *)
Fixpoint separated (rs : list bootmem_region) : Prop :=
  match rs with
  | r1 :: ((r2 :: _) as rs') => region_end r1 < base r2 /\ separated rs'
  | _ => True
  end.

Definition bm_ok (b : bootmem_data) : Prop :=
  Forall region_ok (available b) /\ Forall region_ok (reserved b) /\
  separated (available b) /\ 0 <= bm_current b /\ bm_end b < 4294967296.

(** [a .. a + sz) keeps clear of a reserved region. *)
Definition clear_of (a sz : Z) (r : bootmem_region) : Prop :=
  a + sz <= base r \/ region_end r <= a.

(** An address an allocation of [sz] bytes may return. *)
Definition fits_region (b : bootmem_data) (sz al a : Z) (r : bootmem_region) : Prop :=
  base r <= a /\ a + sz <= region_end r /\ a + sz <= bm_end b /\
  bm_current b <= a /\ (al | a) /\ Forall (clear_of a sz) (reserved b).

Definition fits (b : bootmem_data) (sz al a : Z) : Prop :=
  Exists (fits_region b sz al a) (available b).

(** Nothing that [bootmem_alloc] adds or rounds up can wrap. *)
Definition request_ok (b : bootmem_data) (sz al : Z) : Prop :=
  (exists n, 0 <= n < 32 /\ al = 2 ^ n) /\ 0 < sz /\ bm_end b + sz < 4294967296 /\
  bm_current b + al <= 4294967296 /\
  Forall (fun r => region_end r + al <= 4294967296) (available b) /\
  Forall (fun r => region_end r + al <= 4294967296) (reserved b).

(** ** Alignment *)

Lemma align_up_spec v n :
  0 <= n < 32 -> 0 <= v -> v + 2 ^ n <= 4294967296 ->
  align_up v (2 ^ n) = v + (- v) mod 2 ^ n.
Proof.
  intros Hn Hv Hs. unfold align_up.
  assert (Hp : 0 < 2 ^ n) by (apply Z.pow_pos_nonneg; lia).
  bcase; [lia|]. unwrap.
  rewrite (land_not32_mask _ n) by (unfold is_u32; lia).
  pose proof (Z.mod_pos_bound (- v) (2 ^ n) Hp).
  assert (Hm : (v + (2 ^ n - 1)) mod 2 ^ n = 2 ^ n - 1 - (- v) mod 2 ^ n); [|lia].
  symmetry. apply (Z.mod_unique_pos _ _ ((v + (- v) mod 2 ^ n) / 2 ^ n)); [lia|].
  assert (Hd : (v + (- v) mod 2 ^ n) mod 2 ^ n = 0).
  { rewrite Zplus_mod_idemp_r. rewrite Z.add_opp_diag_r. apply Z.mod_0_l. lia. }
  apply Z.div_exact in Hd; lia.
Qed.

Lemma align_up_least v al :
  (exists n, 0 <= n < 32 /\ al = 2 ^ n) -> 0 <= v -> v + al <= 4294967296 ->
  v <= align_up v al < v + al /\ (al | align_up v al) /\
  forall a, (al | a) -> v <= a -> align_up v al <= a.
Proof.
  intros (n & Hn & ->) Hv Hs. rewrite align_up_spec by done.
  assert (Hp : 0 < 2 ^ n) by (apply Z.pow_pos_nonneg; lia).
  pose proof (Z.mod_pos_bound (- v) (2 ^ n) Hp).
  assert (Hd : (2 ^ n | v + (- v) mod 2 ^ n)).
  { apply Z.mod_divide; [lia|]. rewrite Zplus_mod_idemp_r, Z.add_opp_diag_r.
    apply Z.mod_0_l. lia. }
  split; [lia|]. split; [done|].
  intros a [k ->] Ha. destruct Hd as [k' Hd]. rewrite Hd in *.
  assert (k' - 1 < k); nia.
Qed.

Lemma align_down_spec v n :
  0 <= n < 32 -> is_u32 v -> align_down v (2 ^ n) = v - v mod 2 ^ n.
Proof.
  intros Hn Hv. unfold align_down.
  assert (Hp : 0 < 2 ^ n) by (apply Z.pow_pos_nonneg; lia).
  assert (2 ^ n <= 2 ^ 31) by (apply Z.pow_le_mono_r; lia).
  bcase; [lia|]. unwrap. by rewrite (land_not32_mask _ n) by (try done; lia).
Qed.

(** ** Reserved regions *)

Lemma misses_clear bs sz r :
  region_ok r -> misses bs (bs + sz) r = true <-> clear_of bs sz r.
Proof.
  intros (? & ? & ?). unfold misses, clear_of, region_end in *.
  rewrite add32_id by lia. rewrite orb_true_iff, !Z.leb_le. done.
Qed.

Lemma find_overlap_none rs bs sz :
  Forall region_ok rs ->
  find_overlap rs bs (bs + sz) = None <-> Forall (clear_of bs sz) rs.
Proof.
  induction 1 as [|r rs Hr Hrs IH]; simpl; [by split|].
  rewrite Forall_cons, <- IH, <- misses_clear by done.
  destruct (misses bs (bs + sz) r); naive_solver.
Qed.

Lemma find_overlap_some rs bs sz e :
  Forall region_ok rs -> find_overlap rs bs (bs + sz) = Some e ->
  exists r, r ∈ rs /\ ~ clear_of bs sz r /\ e = region_end r.
Proof.
  induction 1 as [|r rs Hr Hrs IH]; simpl; [done|].
  destruct (misses bs (bs + sz) r) eqn:E; intros Hf.
  - destruct (IH Hf) as (r' & ? & ? & ?). exists r'. split; [by right|]. done.
  - simplify_eq. exists r. split; [by left|]. split.
    + rewrite <- misses_clear by done. by rewrite E.
    + unfold region_ok, region_end in *. rewrite add32_id by lia. done.
Qed.

(** How many reserved regions the search has still in front of it. *)
Definition ahead (rs : list bootmem_region) (addr : Z) : nat :=
  length (filter (fun r => addr < region_end r) rs).

Lemma ahead_le rs addr : (ahead rs addr <= length rs)%nat.
Proof. apply length_filter. Qed.

Lemma ahead_mono rs a1 a2 : a1 <= a2 -> (ahead rs a2 <= ahead rs a1)%nat.
Proof.
  intros Ha. unfold ahead. induction rs as [|r rs IH]; [done|].
  rewrite !filter_cons. repeat case_decide; simpl; lia.
Qed.

Lemma ahead_lt rs r a1 a2 :
  r ∈ rs -> a1 < region_end r <= a2 -> (ahead rs a2 < ahead rs a1)%nat.
Proof.
  intros Hr Ha. induction rs as [|r' rs IH]; [by apply elem_of_nil in Hr|].
  unfold ahead in *. rewrite !filter_cons.
  apply elem_of_cons in Hr as [<-|Hr].
  - rewrite decide_False, decide_True by lia. cbn [length].
    pose proof (ahead_mono rs a1 a2 ltac:(lia)). unfold ahead in *. lia.
  - specialize (IH Hr). repeat case_decide; simpl; lia.
Qed.

(** ** The search *)

(** [a] is acceptable to the search of one region that ends at [rend]. *)
Definition slot_ok (b : bootmem_data) (sz al rend addr a : Z) : Prop :=
  addr <= a /\ (al | a) /\ a + sz <= rend /\ Forall (clear_of a sz) (reserved b).

Definition least (P : Z -> Prop) (a : Z) : Prop := P a /\ forall a', P a' -> a <= a'.

(** A search result is the least solution, and [None] means there is none. *)
Definition finds_least (P : Z -> Prop) (o : option Z) : Prop :=
  match o with Some a => least P a | None => forall a, ~ P a end.

Lemma finds_least_ext P Q o :
  (forall a, P a <-> Q a) -> finds_least P o -> finds_least Q o.
Proof. intros H. destruct o as [a|]; simpl; unfold least; firstorder. Qed.

(** No slot between an address that overlaps a reserved region and the
    aligned end of that region. *)
Lemma slot_after_overlap b sz al rend addr r :
  (exists n, 0 <= n < 32 /\ al = 2 ^ n) -> region_ok r -> region_end r + al <= 4294967296 ->
  r ∈ reserved b -> ~ clear_of addr sz r ->
  forall a, slot_ok b sz al rend (align_up (region_end r) al) a <-> slot_ok b sz al rend addr a.
Proof.
  intros Hal Hok Hw Hr Hc a. unfold clear_of, region_ok, region_end in *.
  destruct (align_up_least (base r + size r) al Hal) as (? & ? & Hl); [lia..|].
  split; intros (H1 & H2 & H3 & H4); (split; [|done]).
  - lia.
  - apply Hl; [done|].
    rewrite Forall_forall in H4. specialize (H4 r Hr).
    unfold clear_of, region_end in H4. lia.
Qed.

Lemma region_search_least fuel b addr sz al rend :
  Forall region_ok (reserved b) -> request_ok b sz al ->
  rend <= bm_end b -> 0 <= addr -> (al | addr) -> (ahead (reserved b) addr < fuel)%nat ->
  finds_least (slot_ok b sz al rend addr) (region_search fuel b addr sz al rend).
Proof.
  intros Hr Hreq Hrend. revert addr.
  destruct Hreq as (Hal & Hsz & Hw & _ & _ & Hw').
  induction fuel as [|fuel IH]; intros addr Ha Hd Hf; [lia|]. simpl.
  destruct (Z.ltb_spec addr rend); simpl; [|intros a (?&?&?&?); lia].
  rewrite add32_id by lia.
  destruct (Z.ltb_spec rend (addr + sz)); [intros a (?&?&?&?); lia|].
  unfold bootmem_find_reserved_overlap. rewrite add32_id by lia.
  destruct (find_overlap _ _ _) as [e|] eqn:E.
  - apply find_overlap_some in E as (r & Hin & Hc & ->); [|done].
    assert (Hrok : region_ok r) by (by eapply Forall_forall in Hr).
    assert (Hrw : region_end r + al <= 4294967296) by (by eapply Forall_forall in Hw').
    eapply finds_least_ext; [by apply slot_after_overlap|].
    unfold clear_of, region_ok, region_end in *.
    destruct (align_up_least (base r + size r) al Hal) as (? & ? & _); [lia..|].
    apply IH; [lia|done|].
    eapply Nat.lt_le_trans; [apply (ahead_lt _ r addr); [done|unfold region_end; lia]|].
    lia.
  - apply find_overlap_none in E; [|done]. split; [done|].
    by intros a' (? & _).
Qed.

(** One region of the outer loop. *)
Lemma region_least b r sz al :
  bm_ok b -> request_ok b sz al -> region_ok r -> region_end r + al <= 4294967296 ->
  finds_least (fun a => fits_region b sz al a r)
    (if bm_end b <=? base r then None else
     region_search (S (length (reserved b))) b
       (align_up (bootmem_max_u32 (bm_current b) (base r)) al) sz al
       (if bm_end b <? base r +w size r then bm_end b else base r +w size r)).
Proof.
  intros (_ & Hres & _ & Hc & He) Hreq Hr Hw.
  pose proof Hreq as (Hal & Hsz & ? & Hwc & _).
  unfold region_ok, region_end in *. rewrite add32_id by lia.
  destruct (Z.leb_spec (bm_end b) (base r)) as [Hb|Hb].
  { intros a (? & ? & ? & ? & _). lia. }
  assert (Hm : bootmem_max_u32 (bm_current b) (base r) = Z.max (bm_current b) (base r))
    by (unfold bootmem_max_u32; bcase; lia).
  rewrite Hm.
  destruct (align_up_least (Z.max (bm_current b) (base r)) al Hal) as (? & ? & Hl); [lia..|].
  eapply finds_least_ext; [|apply region_search_least; try done].
  - intros a. unfold fits_region, slot_ok, region_end.
    split; [intros (G1 & G2 & G3 & G4) | intros (G1 & G2 & G3 & G4 & G5 & G6)].
    + bcase_in G3; repeat split; try done; lia.
    + repeat split; try done; [apply Hl; [done|lia] | bcase; lia].
  - bcase; lia.
  - lia.
  - pose proof (ahead_le (reserved b) (align_up (Z.max (bm_current b) (base r)) al)). lia.
Qed.

Lemma separated_cons_lt r rs r' :
  separated (r :: rs) -> Forall region_ok (r :: rs) -> r' ∈ rs -> region_end r < base r'.
Proof.
  revert r. induction rs as [|r2 rs IH]; intros r Hs Hok Hin; [by apply elem_of_nil in Hin|].
  destruct Hs as [Hs1 Hs2]. apply Forall_cons in Hok as [_ Hok].
  apply elem_of_cons in Hin as [->|Hin]; [done|].
  specialize (IH r2 Hs2 Hok Hin). apply Forall_cons in Hok as [Hok _].
  unfold region_ok, region_end in *. lia.
Qed.

Lemma separated_tail r rs : separated (r :: rs) -> separated rs.
Proof. destruct rs; [done|]. by intros [_ ?]. Qed.

Lemma alloc_regions_least rs b sz al :
  bm_ok b -> request_ok b sz al -> Forall region_ok rs -> separated rs ->
  Forall (fun r => region_end r + al <= 4294967296) rs ->
  finds_least (fun a => Exists (fits_region b sz al a) rs) (alloc_regions rs b sz al).
Proof.
  intros Hb Hreq. induction rs as [|r rs IH]; intros Hok Hs Hw.
  { intros a He. by apply Exists_nil in He. }
  pose proof Hok as [Hr Hrs]%Forall_cons. apply Forall_cons in Hw as [Hw1 Hw2].
  specialize (IH Hrs (separated_tail _ _ Hs) Hw2).
  pose proof (region_least b r sz al Hb Hreq Hr Hw1) as HL.
  assert (Hnone : (forall a, ~ fits_region b sz al a r) ->
    finds_least (fun a => Exists (fits_region b sz al a) (r :: rs)) (alloc_regions rs b sz al)).
  { intros Hn. eapply finds_least_ext; [|exact IH].
    intros a. rewrite Exists_cons. naive_solver. }
  cbn [alloc_regions]. destruct (bm_end b <=? base r); [by apply Hnone|].
  destruct (region_search _ _ _ _ _ _) as [a|]; [|by apply Hnone].
  destruct HL as [HL1 HL2]. split; [by left|].
  intros a' Ha'. apply Exists_cons in Ha' as [Ha'|Ha']; [by apply HL2|].
  apply Exists_exists in Ha' as (r' & Hin & Hf).
  pose proof (separated_cons_lt _ _ _ Hs Hok Hin).
  unfold fits_region in *. destruct Hreq as (_ & ? & _). lia.
Qed.

Definition eff_align (align : Z) : Z := if align =? 0 then PAGE_SIZE else align.

(** C29: [bootmem_alloc] returns the least address that is aligned (to a page
    when the caller passes 0), lies at or above the allocation cursor, inside
    one available region and below the end of low memory, and keeps clear of
    every reserved region; it returns NULL exactly when there is no such
    address.  On success the block is recorded as reserved (unless the table
    of 256 is full) and the cursor moves to its end; on failure nothing
    changes. *)
Theorem bootmem_alloc_least b sz align :
  bm_ok b -> request_ok b sz (eff_align align) ->
  finds_least (fits b sz (eff_align align)) (bootmem_alloc b sz align).1 /\
  (bootmem_alloc b sz align).2 =
    match (bootmem_alloc b sz align).1 with
    | None => b
    | Some a => with_reserved (with_current b (a + sz))
        (if 256 <=? zlen (reserved b) then reserved b else reserved b ++ [Region a sz])
    end.
Proof.
  intros Hb Hreq. pose proof Hreq as (_ & Hsz & Hw & _ & Hav & _).
  pose proof Hb as (Ha1 & _ & Ha2 & _ & _).
  pose proof (alloc_regions_least (available b) b sz _ Hb Hreq Ha1 Ha2 Hav) as HL.
  unfold bootmem_alloc. fold (eff_align align).
  destruct (Z.eqb_spec sz 0); [lia|].
  destruct (alloc_regions _ _ _ _) as [a|]; cbn [fst snd]; [|done].
  split; [done|].
  destruct HL as [HL _]. apply Exists_exists in HL as (r & Hr & Hf).
  unfold fits_region in Hf.
  assert (region_ok r) as (? & ? & ?) by (by eapply Forall_forall in Ha1).
  rewrite add32_id by lia. unfold bootmem_reserve. cbn [reserved with_current].
  change BOOTMEM_MAX_REGIONS with 256. by destruct (256 <=? zlen (reserved b)).
Qed.

(** ** Sequences of allocations *)

Lemma fits_bounds b sz al a :
  bm_ok b -> fits b sz al a -> 0 <= a /\ bm_current b <= a /\ a + sz <= bm_end b.
Proof.
  intros (Ha & _) He. apply Exists_exists in He as (r & Hr & Hf).
  assert (region_ok r) by (by eapply Forall_forall in Ha).
  unfold fits_region, region_ok in *. lia.
Qed.

(** What an allocation does, in one relation: [None] leaves the state alone. *)
Lemma bootmem_alloc_cases b sz align :
  bm_ok b -> request_ok b sz (eff_align align) ->
  (bootmem_alloc b sz align = (None, b)) \/
  exists a, fits b sz (eff_align align) a /\
    bootmem_alloc b sz align = (Some a, bootmem_reserve (with_current b (a + sz)) a sz).
Proof.
  intros Hb Hreq. pose proof Hreq as (_ & Hsz & Hw & _ & Hav & _).
  pose proof Hb as (Ha1 & _ & Ha2 & _ & _).
  pose proof (alloc_regions_least (available b) b sz _ Hb Hreq Ha1 Ha2 Hav) as HL.
  unfold bootmem_alloc. fold (eff_align align).
  destruct (Z.eqb_spec sz 0); [lia|].
  destruct (alloc_regions _ _ _ _) as [a|]; [right|by left].
  destruct HL as [HL _]. exists a. split; [done|].
  pose proof (fits_bounds _ _ _ _ Hb HL). rewrite add32_id by lia. done.
Qed.

Lemma bm_ok_alloc b sz align :
  bm_ok b -> request_ok b sz (eff_align align) -> bm_ok (bootmem_alloc b sz align).2.
Proof.
  intros Hb Hreq. destruct (bootmem_alloc_cases b sz align Hb Hreq) as [->|(a & Hf & ->)]; [done|].
  pose proof (fits_bounds _ _ _ _ Hb Hf). destruct Hreq as (_ & ? & ? & _).
  destruct Hb as (K1 & K2 & K3 & K4 & K5).
  unfold bootmem_reserve. cbn [reserved with_current].
  destruct (_ <=? _); unfold bm_ok; simpl; repeat split; try done; try lia.
  apply Forall_app; split; [done|]. apply Forall_singleton.
  unfold region_ok, region_end; simpl; lia.
Qed.

(** A boot sequence of allocation requests (size, alignment); the results
    are the blocks handed out, oldest first. *)
Fixpoint alloc_seq (b : bootmem_data) (reqs : list (Z * Z)) : list bootmem_region * bootmem_data :=
  match reqs with
  | [] => ([], b)
  | (sz, align) :: reqs' =>
      match bootmem_alloc b sz align with
      | (Some a, b') => let '(l, b'') := alloc_seq b' reqs' in (Region a sz :: l, b'')
      | (None, b') => alloc_seq b' reqs'
      end
  end.

(** Requests that cannot wrap whatever was allocated before. *)
Definition requests_ok (b : bootmem_data) (reqs : list (Z * Z)) : Prop :=
  Forall (fun '(sz, align) =>
    request_ok b sz (eff_align align) /\
    bm_end b + eff_align align <= 4294967296) reqs.

Lemma request_ok_alloc b sz align sz' al' :
  bm_ok b -> request_ok b sz (eff_align align) ->
  request_ok b sz' al' -> bm_end b + al' <= 4294967296 ->
  request_ok (bootmem_alloc b sz align).2 sz' al'.
Proof.
  intros Hb Hreq Hreq' Hal. destruct (bootmem_alloc_cases b sz align Hb Hreq) as [->|(a & Hf & ->)]; [done|].
  pose proof (fits_bounds _ _ _ _ Hb Hf).
  destruct Hreq' as (K1 & K2 & K3 & K4 & K5 & K6).
  unfold bootmem_reserve. cbn [reserved with_current].
  destruct (_ <=? _); unfold request_ok; simpl; repeat split; try done; try lia.
  apply Forall_app; split; [done|]. apply Forall_singleton. unfold region_end; simpl; lia.
Qed.

Lemma bootmem_alloc_frame b sz align :
  bm_ok b -> request_ok b sz (eff_align align) ->
  available (bootmem_alloc b sz align).2 = available b /\
  bm_end (bootmem_alloc b sz align).2 = bm_end b /\
  bm_current b <= bm_current (bootmem_alloc b sz align).2 /\
  (forall r, r ∈ reserved b -> r ∈ reserved (bootmem_alloc b sz align).2).
Proof.
  intros Hb Hreq. destruct (bootmem_alloc_cases b sz align Hb Hreq) as [->|(a & Hf & ->)]; [done|].
  pose proof (fits_bounds _ _ _ _ Hb Hf). pose proof Hreq as (_ & ? & _).
  unfold bootmem_reserve. cbn [reserved with_current].
  destruct (_ <=? _); simpl; repeat split; try lia; set_solver.
Qed.

Lemma requests_ok_alloc b sz align reqs :
  bm_ok b -> request_ok b sz (eff_align align) -> requests_ok b reqs ->
  requests_ok (bootmem_alloc b sz align).2 reqs.
Proof.
  intros Hb Hreq Hr. eapply Forall_impl; [exact Hr|]. intros [sz' al'] [K1 K2].
  destruct (bootmem_alloc_frame b sz align Hb Hreq) as (_ & -> & _).
  split; [by apply request_ok_alloc|done].
Qed.

(** The blocks a boot sequence hands out are inside available memory,
    pairwise disjoint (each starts at or above the end of the one before it,
    even when the reserved table has overflowed) and never touch memory that
    was reserved when the sequence started. *)
Theorem bootmem_allocations_disjoint b reqs :
  bm_ok b -> requests_ok b reqs ->
  Forall (fun r =>
    bm_current b <= base r /\ region_end r <= bm_end b /\
    Exists (fun v => base v <= base r /\ region_end r <= region_end v) (available b) /\
    Forall (clear_of (base r) (size r)) (reserved b)) (alloc_seq b reqs).1 /\
  StronglySorted (fun r1 r2 => region_end r1 <= base r2) (alloc_seq b reqs).1.
Proof.
  revert b. induction reqs as [|[sz al] reqs IH]; intros b Hb Hreqs.
  { split; constructor. }
  apply Forall_cons in Hreqs as [[Hreq Hend] Hreqs].
  specialize (IH _ (bm_ok_alloc b sz al Hb Hreq) (requests_ok_alloc b sz al reqs Hb Hreq Hreqs)).
  destruct (bootmem_alloc_frame b sz al Hb Hreq) as (Hav & Hbe & Hcur & Hres).
  cbn [alloc_seq].
  assert (Hcase : (bootmem_alloc b sz al) = (None, b) \/ exists a b', 
    bootmem_alloc b sz al = (Some a, b') /\ fits b sz (eff_align al) a /\ bm_current b' = a + sz).
  { destruct (bootmem_alloc_cases b sz al Hb Hreq) as [->|(a & Hf & ->)]; [by left|right].
    eexists _, _. split; [done|]. split; [done|].
    unfold bootmem_reserve. by destruct (_ <=? _). }
  destruct Hcase as [E|(a & b' & E & Hf & Hc)]; rewrite E in *; cbn [fst snd] in *; [done|].
  destruct (alloc_seq b' reqs) as [l b'']. cbn [fst snd] in *.
  rewrite Hav, Hbe in IH. destruct IH as [IH1 IH2].
  split; [constructor|constructor].
  - apply Exists_exists in Hf as (v & Hv & Hf). unfold fits_region, region_end in *. simpl.
    repeat split; try lia; [|tauto]. apply Exists_exists. exists v. split; [done|]. lia.
  - eapply Forall_impl; [exact IH1|]. intros r (G1 & G2 & G3 & G4).
    repeat split; try done; [lia|]. rewrite Forall_forall in *. naive_solver.
  - done.
  - eapply Forall_impl; [exact IH1|]. intros r (G1 & _). unfold region_end; simpl. lia.
Qed.

(** ** Sorting *)

Section sort_lemmas.
Context {A : Type} (key : A -> Z).

Lemma exchange_pass_spec x rest m r :
  exchange_pass key x rest = (m, r) ->
  m :: r ≡ₚ x :: rest /\ key m <= key x /\ Forall (fun y => key m <= key y) r.
Proof.
  revert x m r. induction rest as [|y rest IH]; intros x m r; cbn [exchange_pass].
  { intros [= <- <-]. repeat split; [done|lia|constructor]. }
  destruct (Z.ltb_spec (key y) (key x)).
  - destruct (exchange_pass key y rest) as [m' r'] eqn:E. intros [= <- <-].
    destruct (IH _ _ _ E) as (Hp & Hm & Hr). split; [|split].
    + etrans; [apply Permutation_swap|]. by f_equiv.
    + lia.
    + constructor; [lia|done].
  - destruct (exchange_pass key x rest) as [m' r'] eqn:E. intros [= <- <-].
    destruct (IH _ _ _ E) as (Hp & Hm & Hr). split; [|split].
    + etrans; [apply Permutation_swap|]. rewrite Hp. apply Permutation_swap.
    + lia.
    + constructor; [lia|done].
Qed.

Lemma exchange_sort_loop_spec n l :
  (length l <= n)%nat ->
  exchange_sort_loop key n l ≡ₚ l /\
  StronglySorted (fun x y => key x <= key y) (exchange_sort_loop key n l).
Proof.
  revert l. induction n as [|n IH]; intros [|x rest] Hn; cbn [exchange_sort_loop];
    try (simpl in Hn; lia); try (split; [done|constructor]).
  destruct (exchange_pass key x rest) as [m r] eqn:E.
  destruct (exchange_pass_spec _ _ _ _ E) as (Hp & Hm & Hr).
  destruct (IH r) as [IH1 IH2].
  { apply Permutation_length in Hp. simpl in *. lia. }
  split; [by rewrite IH1|]. constructor; [done|]. by rewrite IH1.
Qed.

Lemma exchange_sort_spec l :
  exchange_sort key l ≡ₚ l /\ StronglySorted (fun x y => key x <= key y) (exchange_sort key l).
Proof. by apply exchange_sort_loop_spec. Qed.
End sort_lemmas.

(** ** Coalescing *)

Lemma separated_snoc l c r :
  separated ((l ++ [c]) ++ [r]) <-> separated (l ++ [c]) /\ region_end c < base r.
Proof.
  induction l as [|x l IH]; simpl; [tauto|].
  destruct l as [|y l]; simpl in *; [tauto|].
  rewrite IH. tauto.
Qed.

Lemma separated_last l c c' :
  base c = base c' -> separated (l ++ [c]) -> separated (l ++ [c']).
Proof.
  intros Hb. destruct l as [|x l _] using rev_ind; [done|].
  rewrite !separated_snoc. by rewrite Hb.
Qed.

Definition covered (l : list bootmem_region) (a : Z) : Prop := Exists (covers a) l.

Lemma covered_app l1 l2 a : covered (l1 ++ l2) a <-> covered l1 a \/ covered l2 a.
Proof. apply Exists_app. Qed.

Lemma covered_one r a : covered [r] a <-> covers a r.
Proof. unfold covered. rewrite Exists_cons, Exists_nil. tauto. Qed.

(** What holds of the finished entries: they are separated, not empty and do
    not wrap, and the last of them starts below [bound]. *)
Definition out_ok (out : list bootmem_region) (bound : Z) : Prop :=
  separated out /\ Forall (fun r => region_ok r /\ 0 < size r) out /\
  (forall c, last out = Some c -> base c <= bound).

Lemma zset_last (l : list bootmem_region) c c' :
  zset (l ++ [c]) (zlen (l ++ [c]) - 1) c' = l ++ [c'].
Proof.
  unfold zset, zlen. rewrite length_app. simpl.
  replace (Z.to_nat _) with (length l + 0)%nat by lia.
  by rewrite insert_app_r.
Qed.

Lemma coalesce_step_spec out r :
  out_ok out (base r) -> region_ok r ->
  out_ok (coalesce_step out r) (base r) /\
  forall a, covered (coalesce_step out r) a <-> covered out a \/ covers a r.
Proof.
  intros (Hs & Hf & Hl) Hr. unfold coalesce_step.
  destruct (Z.eqb_spec (size r) 0) as [Hz|Hz].
  { split; [done|]. intros a. unfold covers, region_end. rewrite Hz. split; [tauto|]. intros [?|?]; [done|lia]. }
  assert (Hr' : region_ok r /\ 0 < size r) by (unfold region_ok in *; lia).
  destruct out as [|c l _] using rev_ind.
  { simpl. split.
    - split; [done|]. split; [by constructor|]. by intros c [= <-].
    - intros a. rewrite covered_one. unfold covered. rewrite Exists_nil. tauto. }
  rewrite last_snoc in *. specialize (Hl c eq_refl).
  apply Forall_app in Hf as [Hf [[Hc Hc0] _]%Forall_cons].
  unfold region_ok, region_end in Hc, Hr, Hr'. rewrite !add32_id by lia.
  destruct (Z.leb_spec (base r) (base c + size c)).
  2:{ split.
      - split; [|split].
        + apply separated_snoc. unfold region_end. split; [done|lia].
        + rewrite !Forall_app. repeat split; try done; by constructor.
        + rewrite last_snoc. by intros ? [= <-].
      - intros a. rewrite covered_app, covered_one. done. }
  destruct (Z.ltb_spec (base c + size c) (base r + size r)).
  - rewrite sub32_id by lia. rewrite zset_last. split.
    + split; [|split].
      * by eapply separated_last; [|exact Hs].
      * apply Forall_app. split; [done|]. constructor; [|constructor].
        unfold region_ok, region_end. simpl. lia.
      * rewrite last_snoc. by intros ? [= <-].
    + intros a. rewrite !covered_app, !covered_one. unfold covers, region_end. simpl.
      destruct (Z.lt_ge_cases a (base c + size c));
        (split; [intros [?|?]|intros [[?|?]|?]]); try tauto; lia || (right; lia) || (left; right; lia).
  - split.
    + split; [done|]. split.
      * apply Forall_app. split; [done|]. constructor; [|constructor].
        unfold region_ok, region_end. done.
      * rewrite last_snoc. by intros ? [= <-].
    + intros a. rewrite !covered_app, !covered_one. unfold covers, region_end.
      split; [tauto|]. intros [?|?]; [done|right; lia].
Qed.

Lemma out_ok_mono out b1 b2 : b1 <= b2 -> out_ok out b1 -> out_ok out b2.
Proof. intros Hle (? & ? & Hl). split; [done|]. split; [done|]. intros c Hc. specialize (Hl c Hc). lia. Qed.

Lemma coalesce_fold_spec rs out bound :
  out_ok out bound -> Forall region_ok rs ->
  StronglySorted (fun x y => base x <= base y) rs -> Forall (fun r => bound <= base r) rs ->
  (exists bound', out_ok (foldl coalesce_step out rs) bound') /\
  forall a, covered (foldl coalesce_step out rs) a <-> covered out a \/ covered rs a.
Proof.
  revert out bound. induction rs as [|r rs IH]; intros out bound Ho Hr Hs Hb.
  { simpl. split; [by exists bound|]. intros a. unfold covered at 3. rewrite Exists_nil. tauto. }
  apply Forall_cons in Hr as [Hr1 Hr2]. apply Forall_cons in Hb as [Hb1 Hb2].
  apply StronglySorted_inv in Hs as [Hs1 Hs2].
  apply (out_ok_mono _ _ _ Hb1) in Ho.
  destruct (coalesce_step_spec out r Ho Hr1) as [Ho' Hc].
  cbn [foldl]. destruct (IH _ _ Ho' Hr2 Hs1 Hs2) as [IH1 IH2]. split; [done|].
  intros a. rewrite IH2, Hc. unfold covered. rewrite Exists_cons. tauto.
Qed.

Lemma sort_coalesce_spec b :
  Forall region_ok (available b) ->
  let b' := bootmem_coalesce_available (bootmem_sort_available b) in
  separated (available b') /\ Forall region_ok (available b') /\
  (forall a, covered (available b') a <-> covered (available b) a).
Proof.
  intros Hok. cbv zeta. destruct (exchange_sort_spec base (available b)) as [Hp Hs].
  assert (Hok' : Forall region_ok (exchange_sort base (available b))) by (by rewrite Hp).
  assert (Hcov : forall a, covered (exchange_sort base (available b)) a <-> covered (available b) a).
  { intros a. unfold covered. rewrite !Exists_exists. by setoid_rewrite Hp. }
  unfold bootmem_coalesce_available. cbn [available bootmem_sort_available with_available].
  destruct (_ <? 2) eqn:E; cbn [available bootmem_sort_available with_available].
  - split; [|done]. apply Z.ltb_lt in E. unfold zlen in E.
    destruct (exchange_sort base (available b)) as [|x [|y l]]; simpl in *; [done..|lia].
  - destruct (coalesce_fold_spec (exchange_sort base (available b)) [] 0) as [[bd (H1 & H2 & _)] Hc];
      [repeat split; by try constructor | done | done | |].
    + eapply Forall_impl; [exact Hok'|]. intros r (? & _). done.
    + split; [done|]. split.
      * eapply Forall_impl; [exact H2|]. by intros r [? _].
      * intros a. rewrite Hc, Hcov. unfold covered at 1. rewrite Exists_nil. tauto.
Qed.

(** Sorting and then coalescing the available regions leaves sorted
    regions with gaps between them that cover exactly the same addresses as
    before; sorting the e820 entries gives a sorted permutation of them. *)
Theorem bootmem_normalise_correct b :
  Forall region_ok (available b) ->
  let b' := bootmem_sort_e820 (bootmem_coalesce_available (bootmem_sort_available b)) in
  separated (available b') /\
  (forall a, covered (available b') a <-> covered (available b) a) /\
  e820 b' ≡ₚ e820 b /\ StronglySorted (fun x y => e_base x <= e_base y) (e820 b') /\
  reserved b' = reserved b.
Proof.
  intros Hok. destruct (sort_coalesce_spec b Hok) as (H1 & _ & H3).
  assert (He : e820 (bootmem_coalesce_available (bootmem_sort_available b)) = e820 b)
    by (unfold bootmem_coalesce_available; by destruct (_ <? 2)).
  assert (Hr : reserved (bootmem_coalesce_available (bootmem_sort_available b)) = reserved b)
    by (unfold bootmem_coalesce_available; by destruct (_ <? 2)).
  cbn [available e820 reserved bootmem_sort_e820 with_e820]. rewrite He.
  destruct (exchange_sort_spec e_base (e820 b)) as [Hp Hs]. done.
Qed.

(** ** Initialisation *)

Definition entry_region (e : bootmem_e820_entry) : bootmem_region := Region (e_base e) (e_size e).

Definition usable (e : bootmem_e820_entry) : Prop := e_type e = MULTIBOOT_MEMORY_AVAILABLE.

#[export] Instance usable_dec e : Decision (usable e).
Proof. unfold usable. apply _. Defined.

(** A boot loader's description that does not wrap around. *)
Definition mbi_ok (mbi : multiboot_info) : Prop :=
  Forall (fun m => 0 <= m_start m /\ 0 <= m_end m < 4294967296) (mi_mods mbi) /\
  0 <= mods_addr mbi /\ mods_addr mbi + zlen (mi_mods mbi) * 16 < 4294967296 /\
  match mi_mmap mbi with
  | Some ms => Forall (fun e => region_ok (entry_region e)) ms /\
               zlen (filter usable ms) <= BOOTMEM_MAX_REGIONS
  | None => True
  end.

Definition map_entries (mbi : multiboot_info) : list bootmem_e820_entry :=
  default [] (mi_mmap mbi).

Lemma init_mmap_frame ms b mx ram resv b' mx' ram' resv' :
  init_mmap ms b mx ram resv = (b', mx', ram', resv') -> reserved b' = reserved b.
Proof.
  revert b mx ram resv. induction ms as [|e ms IH]; intros b mx ram resv; cbn [init_mmap].
  { by intros [= <- _ _ _]. }
  assert (He : reserved (bootmem_add_e820 b (e_base e) (e_size e) (e_type e)) = reserved b).
  { unfold bootmem_add_e820. by repeat destruct (_ : bool). }
  destruct (_ =? _); intros Hi; apply IH in Hi; rewrite Hi; [|done].
  unfold bootmem_add_available. by destruct (_ <=? _).
Qed.

Lemma add_e820_available b x y z : available (bootmem_add_e820 b x y z) = available b.
Proof. unfold bootmem_add_e820. by repeat destruct (_ : bool). Qed.

Lemma init_mmap_available ms b mx ram resv b' mx' ram' resv' :
  init_mmap ms b mx ram resv = (b', mx', ram', resv') ->
  zlen (available b) + zlen (filter usable ms) <= BOOTMEM_MAX_REGIONS ->
  available b' = available b ++ map entry_region (filter usable ms).
Proof.
  revert b mx ram resv. induction ms as [|e ms IH]; intros b mx ram resv; cbn [init_mmap].
  { intros [= <- _ _ _] _. by rewrite app_nil_r. }
  rewrite filter_cons. unfold usable at 1.
  destruct (Z.eqb_spec (e_type e) MULTIBOOT_MEMORY_AVAILABLE) as [Ht|Ht]; intros Hi Hlen.
  - rewrite decide_True in Hlen |- * by done.
    unfold zlen in Hlen. cbn [length] in Hlen.
    apply IH in Hi; [|].
    all: unfold bootmem_add_available in *; rewrite add_e820_available in *.
    all: destruct (Z.leb_spec BOOTMEM_MAX_REGIONS (zlen (available b))); unfold zlen in *; try lia.
    + rewrite Hi. simpl. by rewrite <- app_assoc.
    + simpl. rewrite length_app. simpl. lia.
  - rewrite decide_False in Hlen |- * by done.
    apply IH in Hi; rewrite ?add_e820_available in *; [|done]. done.
Qed.

Definition loaded (m : bootmem_module_range) : Prop := m_start m < m_end m.

#[export] Instance loaded_dec m : Decision (loaded m).
Proof. unfold loaded. apply _. Defined.

Definition module_region (m : bootmem_module_range) : bootmem_region :=
  Region (m_start m) (m_end m -w m_start m).

Lemma reserve_mods_spec (l : list bootmem_module_range) b :
  zlen (reserved b) + zlen l <= BOOTMEM_MAX_REGIONS ->
  let b' := foldl (fun b m =>
      if m_start m <? m_end m then bootmem_reserve b (m_start m) (m_end m -w m_start m) else b) b l in
  reserved b' = reserved b ++ map module_region (filter loaded l) /\ available b' = available b.
Proof.
  revert b. induction l as [|m l IH]; intros b Hlen; cbn [foldl]; cbv zeta in *.
  { by rewrite app_nil_r. }
  rewrite filter_cons. unfold loaded at 1. unfold zlen in *. cbn [length] in Hlen.
  destruct (Z.ltb_spec (m_start m) (m_end m)).
  - rewrite decide_True by done. unfold bootmem_reserve at 2 4.
    destruct (Z.leb_spec BOOTMEM_MAX_REGIONS (zlen (reserved b))); unfold zlen in *; [lia|].
    destruct (IH (with_reserved b (reserved b ++ [Region (m_start m) (m_end m -w m_start m)]))) as [-> ->].
    + cbn [reserved with_reserved]. rewrite length_app. simpl. lia.
    + cbn [reserved available with_reserved]. by rewrite <- app_assoc.
  - rewrite decide_False by (unfold loaded; lia). apply IH. lia.
Qed.

(** The regions [bootmem_init] reserves. *)
Definition boot_reserved (kernel_end : Z) (mbi : multiboot_info) : list bootmem_region :=
  [Region 0 1048576] ++
  (if 1048576 <? kernel_end then [Region 1048576 (kernel_end -w 1048576)] else []) ++
  (if negb (zlen (mi_mods mbi) =? 0) && negb (mods_addr mbi =? 0)
   then Region (mods_addr mbi) (zlen (mi_mods mbi) *w 16) ::
        map module_region (filter loaded (take 8 (mi_mods mbi)))
   else []).

(** The state of [bootmem_init] before the memory map is read. *)
Lemma init_prefix_spec kernel_end mbi :
  let b0 := Bootmem [] [] [] [] 1048576 kernel_end 0 0 0 0 0 0 0 in
  let b1 := bootmem_reserve b0 0 1048576 in
  let b2 := if kernel_phys_start b1 <? kernel_phys_end b1
            then bootmem_reserve b1 (kernel_phys_start b1) (kernel_phys_end b1 -w kernel_phys_start b1)
            else b1 in
  reserved (init_mods mbi b2) = boot_reserved kernel_end mbi /\ available (init_mods mbi b2) = [].
Proof.
  cbv zeta. unfold boot_reserved.
  change (bootmem_reserve (Bootmem [] [] [] [] 1048576 kernel_end 0 0 0 0 0 0 0) 0 1048576)
    with (Bootmem [] [Region 0 1048576] [] [] 1048576 kernel_end 0 0 0 0 0 0 0).
  cbn [kernel_phys_start kernel_phys_end].
  set (b2 := if 1048576 <? kernel_end then _ else _).
  assert (Hb2 : reserved b2 = Region 0 1048576 ::
      (if 1048576 <? kernel_end then [Region 1048576 (kernel_end -w 1048576)] else []) /\
    available b2 = []).
  { unfold b2. by destruct (1048576 <? kernel_end). }
  assert (Hlen : zlen (reserved b2) <= 2).
  { destruct Hb2 as [-> _]. by destruct (1048576 <? kernel_end). }
  destruct Hb2 as [Hb2 Hav]. clearbody b2. unfold init_mods.
  destruct (negb (zlen (mi_mods mbi) =? 0) && negb (mods_addr mbi =? 0)).
  - set (b3 := bootmem_reserve b2 _ _).
    assert (Hb3 : reserved b3 = reserved b2 ++ [Region (mods_addr mbi) (zlen (mi_mods mbi) *w 16)]
                  /\ available b3 = []).
    { unfold b3, bootmem_reserve, BOOTMEM_MAX_REGIONS.
      destruct (Z.leb_spec 256 (zlen (reserved b2))); [lia|done]. }
    destruct Hb3 as [Hb3 Hav3]. clearbody b3.
    destruct (reserve_mods_spec (take (Z.to_nat BOOTMEM_MAX_MODULES) (mi_mods mbi)) b3) as [H1 H2].
    { rewrite Hb3. unfold zlen, BOOTMEM_MAX_REGIONS, BOOTMEM_MAX_MODULES in *.
      rewrite length_app, length_take. cbn [length]. lia. }
    cbv zeta. cbn [reserved available]. rewrite H1, H2, Hb3, Hb2, Hav3.
    split; [|done]. simpl. by rewrite <- app_assoc.
  - rewrite Hb2. split; [|done]. simpl. by rewrite app_nil_r.
Qed.

Lemma boot_reserved_ok kernel_end mbi :
  0 <= kernel_end < 4294967296 -> mbi_ok mbi -> Forall region_ok (boot_reserved kernel_end mbi).
Proof.
  intros Hk (Hm & Ha & Ha' & _). unfold boot_reserved. rewrite !Forall_app. split; [|split].
  - constructor; [|constructor]. unfold region_ok, region_end; simpl; lia.
  - destruct (Z.ltb_spec 1048576 kernel_end); [|constructor]. constructor; [|constructor].
    unfold region_ok, region_end; simpl. unwrap. lia.
  - destruct (_ && _); constructor.
    + unfold region_ok, region_end; simpl. unfold zlen in *. rewrite mul32_id by lia. lia.
    + apply Forall_fmap. rewrite Forall_forall in *. intros m [Hl Hin]%list_elem_of_filter.
      apply elem_of_take in Hin as (i & Hi & _).
      specialize (Hm m (list_elem_of_lookup_2 _ _ _ Hi)).
      unfold loaded in Hl. unfold compose, region_ok, region_end, module_region; simpl. unwrap. lia.
Qed.

Lemma init_mmap_max ms b mx ram resv b' mx' ram' resv' :
  init_mmap ms b mx ram resv = (b', mx', ram', resv') -> 0 <= mx -> 0 <= mx'.
Proof.
  revert b mx ram resv. induction ms as [|e ms IH]; intros b mx ram resv; cbn [init_mmap].
  { by intros [= _ <- _ _]. }
  destruct (_ =? _); intros Hi Hmx; eapply IH; try exact Hi; [|done].
  pose proof (u32_range (e_base e + e_size e)). unfold add32, is_u32 in *. bcase; lia.
Qed.

Definition kernel_end_of (kernel_image_end : Z) : Z :=
  align_up (if PAGE_OFFSET <=? kernel_image_end then kernel_image_end -w PAGE_OFFSET
            else kernel_image_end) PAGE_SIZE.

Lemma kernel_end_range ke :
  0 <= ke <= 4294963200 -> 0 <= kernel_end_of ke < 4294967296.
Proof.
  intros Hk. unfold kernel_end_of. change PAGE_SIZE with (2 ^ 12).
  assert (Hv : 0 <= (if PAGE_OFFSET <=? ke then ke -w PAGE_OFFSET else ke) <= 4294963199
    \/ (if PAGE_OFFSET <=? ke then ke -w PAGE_OFFSET else ke) = 4294963200).
  { unfold PAGE_OFFSET. bcase; unwrap; lia. }
  destruct Hv as [Hv|Hv].
  - destruct (align_up_least (if PAGE_OFFSET <=? ke then ke -w PAGE_OFFSET else ke) (2 ^ 12)) as [? _];
      [by exists 12|lia..].
  - rewrite Hv. done.
Qed.

(** After [bootmem_init] the allocator's state is well-formed; the
    available regions cover exactly the addresses the memory map calls
    available; the first megabyte, the kernel image, the module table and the
    modules are reserved; and the cursor and the end of low memory are
    ordered and at most 896 MB. *)
Theorem bootmem_init_correct ke mbi :
  0 <= ke <= 4294963200 -> mbi_ok mbi ->
  let b := bootmem_init ke mbi in
  bm_ok b /\ reserved b = boot_reserved (kernel_end_of ke) mbi /\
  (forall a, covered (available b) a <->
     exists e, e ∈ map_entries mbi /\ usable e /\ covers a (entry_region e)) /\
  bm_current b <= bm_end b <= 939524096 /\ total_pages b = bm_end b / 4096.
Proof.
  intros Hk Hm. pose proof (kernel_end_range ke Hk) as Hke. cbv zeta.
  unfold bootmem_init. fold (kernel_end_of ke).
  pose proof (init_prefix_spec (kernel_end_of ke) mbi) as Hpre. cbv zeta in Hpre.
  set (b3 := init_mods mbi _) in Hpre |- *. destruct Hpre as [Hr3 Ha3]. clearbody b3.
  destruct (match mi_mmap mbi with Some ms => _ | None => _ end) as [[[b4 max0] ram] resv] eqn:E.
  assert (H4 : reserved b4 = boot_reserved (kernel_end_of ke) mbi /\
    available b4 = map entry_region (filter usable (map_entries mbi))).
  { destruct Hm as (_ & _ & _ & Hmm). unfold map_entries.
    destruct (mi_mmap mbi) as [ms|]; cbn [default]; [|by simplify_eq].
    split; [by rewrite (init_mmap_frame _ _ _ _ _ _ _ _ _ E)|].
    rewrite (init_mmap_available _ _ _ _ _ _ _ _ _ E); rewrite Ha3; [done|].
    destruct Hmm as [_ Hmm]. unfold zlen in *. simpl. lia. }
  destruct H4 as [Hr4 Ha4].
  assert (Hok4 : Forall region_ok (available b4)).
  { rewrite Ha4. apply Forall_fmap, Forall_forall. intros e [_ Hin]%list_elem_of_filter.
    destruct Hm as (_ & _ & _ & Hmm). unfold map_entries in Hin.
    destruct (mi_mmap mbi); [|by apply elem_of_nil in Hin].
    destruct Hmm as [Hmm _]. by eapply Forall_forall in Hmm. }
  destruct (sort_coalesce_spec b4 Hok4) as (H1 & H2 & H3).
  assert (Hr : reserved (bootmem_coalesce_available (bootmem_sort_available b4)) = reserved b4)
    by (unfold bootmem_coalesce_available; by destruct (_ <? 2)).
  set (low := bootmem_min_u32 _ _).
  assert (Hmax : 0 <= max0).
  { destruct (mi_mmap mbi); [|by simplify_eq]. by eapply init_mmap_max; [exact E|]. }
  assert (Hlow : 0 <= low <= 939524096) by (unfold low, bootmem_min_u32, lowmem_limit; bcase; lia).
  set (cur := if low <? _ then low else _).
  assert (Hcur : 0 <= cur <= low) by (unfold cur; bcase; lia).
  split; [|split; [|split; [|split; [|done]]]].
  - unfold bm_ok. cbn [available reserved bootmem_sort_e820 with_e820 bm_current bm_end].
    rewrite Hr, Hr4. repeat split; try done.
    + by apply boot_reserved_ok.
    + lia.
    + lia.
  - cbn [reserved bootmem_sort_e820 with_e820]. by rewrite Hr.
  - intros a. cbn [available bootmem_sort_e820 with_e820]. rewrite H3, Ha4.
    unfold covered. rewrite Exists_exists. split.
    + intros (r & (e & -> & [Hu Hin]%list_elem_of_filter)%list_elem_of_fmap & Hc). by exists e.
    + intros (e & Hin & Hu & Hc). exists (entry_region e). split; [|done].
      apply list_elem_of_fmap. exists e. split; [done|]. by apply list_elem_of_filter.
  - cbn [bm_current bm_end]. lia.
Qed.

(** ** A concrete machine: 128 MB, one module *)

Module Machine.
Definition mbi : multiboot_info :=
  Mbi 4325376 [Module_range 8388608 12582912]
    (Some [E820 1048576 133169152 1; E820 0 654336 1; E820 983040 65536 2; E820 134217728 4096 3]).
Definition ke : Z := 3225419776. (* 0xC0400000 *)
Definition b0 : bootmem_data := bootmem_init ke mbi.
Definition reqs : list (Z * Z) := [(100, 4); (8000000, 0); (4096, 4096)].

(** Deciding the side conditions of a concrete state. *)
Ltac concrete :=
  repeat match goal with
  | |- context [b0] => let x := eval vm_compute in b0 in change b0 with x
  end;
  unfold bm_ok, mbi_ok, mbi, region_ok, region_end, entry_region, separated;
  cbn [available reserved bm_current bm_end mi_mods mods_addr mi_mmap base size m_start m_end
       e_base e_size e_type];
  rewrite ?Forall_cons, ?Forall_nil; cbn [base size m_start m_end e_base e_size];
  repeat split; lia || done.

Lemma b0_ok : bm_ok b0.
Proof. concrete. Qed.

Lemma mbi_fine : mbi_ok mbi.
Proof. concrete. Qed.

Lemma request_fine : request_ok b0 8000000 (eff_align 0).
Proof. split; [exists 12; done|]. concrete. Qed.

Lemma requests_fine : requests_ok b0 reqs.
Proof.
  unfold requests_ok, reqs. rewrite !Forall_cons. repeat split; try (exists 2; done);
    try (exists 12; done); concrete.
Qed.

Lemma alloc_runs :
  (alloc_seq b0 reqs).1 = [Region 4194304 100; Region 12582912 8000000; Region 20586496 4096].
Proof. vm_compute. reflexivity. Qed.
End Machine.

Lemma bootmem_alloc_least_witness :
  (bootmem_alloc Machine.b0 8000000 0).1 = Some 12582912 /\
  finds_least (fits Machine.b0 8000000 4096) (bootmem_alloc Machine.b0 8000000 0).1.
Proof.
  split; [vm_compute; reflexivity|].
  apply (bootmem_alloc_least Machine.b0 8000000 0 Machine.b0_ok Machine.request_fine).
Defined.

Lemma bootmem_allocations_disjoint_witness :
  StronglySorted (fun r1 r2 => region_end r1 <= base r2) (alloc_seq Machine.b0 Machine.reqs).1.
Proof.
  apply (bootmem_allocations_disjoint Machine.b0 Machine.reqs Machine.b0_ok Machine.requests_fine).
Defined.

Lemma bootmem_normalise_correct_witness :
  Forall region_ok [Region 8192 4096; Region 4096 4096; Region 0 10] /\
  separated (available (bootmem_sort_e820 (bootmem_coalesce_available (bootmem_sort_available
    (with_available Machine.b0 [Region 8192 4096; Region 4096 4096; Region 0 10]))))).
Proof.
  assert (H : Forall region_ok [Region 8192 4096; Region 4096 4096; Region 0 10]) by Machine.concrete.
  split; [exact H|].
  apply (bootmem_normalise_correct (with_available Machine.b0 [Region 8192 4096; Region 4096 4096; Region 0 10]) H).
Defined.

Lemma bootmem_init_correct_witness :
  bm_current Machine.b0 = 4194304 /\ bm_ok (bootmem_init Machine.ke Machine.mbi).
Proof.
  split; [vm_compute; reflexivity|].
  apply (bootmem_init_correct Machine.ke Machine.mbi); [vm_compute; split; discriminate|].
  exact Machine.mbi_fine.
Defined.
