(* ===== verification/Buddy.v ===== *)
(** * The buddy lists of one zone ([mm/page_alloc.c])

    The free blocks of a zone are kept in one singly linked list per order;
    the links are the array [buddy_next], indexed by page frame, the heads are
    [zone->free_area[order].free_list], and a free block's first page carries
    [PG_BUDDY] and the block's order.  [buddy_next] and [mem_map] are shared
    by the zones, so the functions work on a zone together with the two
    arrays; [pfn_to_page] finds no page at or beyond the end of [mem_map]. *)

From stdpp Require Import base tactics numbers list gmap sets.
From Stdlib Require Import ZArith Lia.
From S2P Require Import Prelude.

(** ** Data ([include/linux/mmzone.h]) *)

Definition MAX_ORDER : Z := 11.
Definition PG_BUDDY : Z := 1.
Definition PG_RESERVED : Z := 2.
Definition PG_LRU : Z := 4.
Definition PG_ISOLATED : Z := 8.

Inductive zone_type : Type := ZONE_DMA | ZONE_NORMAL.

(** [map_mm] is the address of the mapping [mm_struct], 0 for none, and
    [rmap_list] the list of further mappings, each a heap object.  The node
    [lru] is represented by the page's position in the [inactive_list] of its
    zone. *)
Record rmap_item : Type := Rmap_item { ri_node : Z; ri_mm : Z; ri_vaddr : Z }.

Record page : Type := Page {
  flags : Z;
  refcount : Z;
  order : Z;
  mapcount : Z;
  map_mm : Z;
  map_vaddr : Z;
  rmap_list : list rmap_item;
}.

Record free_area : Type := Free_area { free_list : Z; nr_free : Z }.

Record zone : Type := Zone {
  type : zone_type;
  start_pfn : Z;
  spanned_pages : Z;
  present_pages : Z;
  managed_pages : Z;
  watermark : list Z;
  free_areas : list free_area;
  inactive_list : list Z;
  nr_inactive : Z;
}.

(** A zone with the two shared arrays. *)
Record buddy : Type := Buddy {
  bzone : zone;
  buddy_next : list Z;
  mem_map : list page;
}.

#[export] Instance page_inhabited : Inhabited page := populate (Page 0 0 0 0 0 0 []).
#[export] Instance free_area_inhabited : Inhabited free_area := populate (Free_area (-1) 0).
#[export] Instance zone_type_eq_dec : EqDecision zone_type.
Proof. solve_decision. Defined.

Definition set_flags (fl : Z) (p : page) : page :=
  Page fl (refcount p) (order p) (mapcount p) (map_mm p) (map_vaddr p) (rmap_list p).
Definition set_order (o : Z) (p : page) : page :=
  Page (flags p) (refcount p) (u16 o) (mapcount p) (map_mm p) (map_vaddr p) (rmap_list p).
Definition set_refcount (r : Z) (p : page) : page :=
  Page (flags p) (u16 r) (order p) (mapcount p) (map_mm p) (map_vaddr p) (rmap_list p).

Definition set_bit (bit : Z) (p : page) : page := set_flags (Z.lor (flags p) bit) p.
Definition clear_bit (bit : Z) (p : page) : page := set_flags (Z.land (flags p) (not32 bit)) p.

(** [struct page *pg = pfn_to_page(pfn); if (pg) ...] *)
Definition upd_page (pages : list page) (pfn : Z) (f : page -> page) : list page :=
  if zlen pages <=? pfn then pages else zset pages pfn (f (znth pages pfn)).

Definition set_area (z : zone) (o : Z) (a : free_area) : zone :=
  Zone (type z) (start_pfn z) (spanned_pages z) (present_pages z) (managed_pages z) (watermark z)
    (zset (free_areas z) o a) (inactive_list z) (nr_inactive z).

Definition area (z : zone) (o : Z) : free_area := znth (free_areas z) o.

(** ** Operations *)

(** The sum is of [unsigned long]s and wraps. *)
Definition zone_free_pages (z : zone) : Z :=
  foldl (fun free o => free +w (nr_free (area z o) <<w o)) 0 (seqZ 0 MAX_ORDER).

Definition buddy_list_add (b : buddy) (o pg : Z) : buddy :=
  if pg =? 0 then b else
  let a := area (bzone b) o in
  Buddy (set_area (bzone b) o (Free_area pg (nr_free a +w 1)))
    (zset (buddy_next b) pg (free_list a))
    (upd_page (mem_map b) pg (fun p => set_order o (set_bit PG_BUDDY p))).

(** [if (nr_free) nr_free--] *)
Definition dec (n : Z) : Z := if n =? 0 then 0 else n - 1.

(** The walk of [buddy_list_remove].  A free list visits a page frame at most
    once, so the number of frames bounds the walk. *)
Fixpoint remove_walk (fuel : nat) (b : buddy) (o pg prev cur : Z) : buddy :=
  match fuel with
  | O => b
  | S fuel' =>
      if cur <? 0 then b
      else if cur =? pg then
        let a := area (bzone b) o in
        let nxt := znth (buddy_next b) cur in
        let a1 := if prev <? 0 then Free_area nxt (nr_free a) else a in
        let next1 := if prev <? 0 then buddy_next b else zset (buddy_next b) prev nxt in
        Buddy (set_area (bzone b) o (Free_area (free_list a1) (dec (nr_free a1))))
          (zset next1 cur (-1))
          (upd_page (mem_map b) cur (clear_bit PG_BUDDY))
      else remove_walk fuel' b o pg cur (znth (buddy_next b) cur)
  end.

Definition buddy_list_remove (b : buddy) (o pg : Z) : buddy :=
  remove_walk (S (length (buddy_next b))) b o pg (-1) (free_list (area (bzone b) o)).

(** Taking the first block off a list, in [buddy_alloc]. *)
Definition list_pop (b : buddy) (o pg : Z) : buddy :=
  let a := area (bzone b) o in
  Buddy (set_area (bzone b) o (Free_area (znth (buddy_next b) pg) (dec (nr_free a))))
    (zset (buddy_next b) pg (-1))
    (upd_page (mem_map b) pg (clear_bit PG_BUDDY)).

(** [while (o > order) { o--; buddy_list_add(zone, o, page + (1u << o)); }];
    [n] is [o - order]. *)
Fixpoint split (n : nat) (b : buddy) (pg order : Z) : buddy :=
  match n with
  | O => b
  | S n' =>
      let o := order + Z.of_nat n' in
      split n' (buddy_list_add b o (s32 (pg +w (1 <<w o)))) pg order
  end.

(** The [for] loop of [buddy_alloc]; [n] is the number of rounds left,
    [buddy_max_order + 1 - o]. *)
Fixpoint alloc_loop (n : nat) (b : buddy) (order o : Z) : Z * buddy :=
  match n with
  | O => (-1, b)
  | S n' =>
      let pg := free_list (area (bzone b) o) in
      if pg <? 0 then alloc_loop n' b order (o + 1)
      else
        let b1 := list_pop b o pg in
        if pg =? 0 then alloc_loop n' b1 order (o + 1)
        else
          let b2 := split (Z.to_nat (o - order)) b1 pg order in
          (pg, Buddy (bzone b2) (buddy_next b2)
                 (upd_page (mem_map b2) pg (fun p => set_order order (clear_bit PG_BUDDY p))))
  end.

Definition buddy_alloc (buddy_max_order : Z) (b : buddy) (order : Z) : Z * buddy :=
  alloc_loop (Z.to_nat (buddy_max_order + 1 - order)) b order order.

Definition zone_end (z : zone) : Z := start_pfn z +w spanned_pages z.

(** The merging loop of [buddy_free_block]; [n] is [buddy_max_order - order]. *)
Fixpoint merge_loop (n : nat) (b : buddy) (pg o : Z) : buddy * Z * Z :=
  match n with
  | O => (b, pg, o)
  | S n' =>
      let z := bzone b in
      let bud := Z.lxor pg (1 <<w o) in
      if (bud <? start_pfn z) || (zone_end z <=? bud) then (b, pg, o)
      else
        let new_base := if bud <? pg then bud else pg in
        if zone_end z <? new_base +w (1 <<w (o + 1)) then (b, pg, o)
        else if zlen (mem_map b) <=? bud then (b, pg, o)
        else
          let bp := znth (mem_map b) bud in
          if negb (has (flags bp) PG_BUDDY) || negb (order bp =? o) then (b, pg, o)
          else merge_loop n' (buddy_list_remove b o bud) (if bud <? pg then bud else pg) (o + 1)
  end.

(** [while (order > 0 && page + (1u << order) > zone_end) order--] *)
Fixpoint trim_order (n : nat) (zend pg : Z) : Z :=
  match n with
  | O => 0
  | S n' => if zend <? pg +w (1 <<w Z.of_nat n) then trim_order n' zend pg else Z.of_nat n
  end.

Definition buddy_free_block (buddy_max_order : Z) (b : buddy) (pg o : Z) : buddy :=
  let '(b1, pg1, o1) := merge_loop (Z.to_nat (buddy_max_order - o)) b pg o in
  buddy_list_add b1 (trim_order (Z.to_nat o1) (zone_end (bzone b1)) pg1) pg1.

(** ** Specification *)

(** [next] links the frames [l] from [head] to the end mark [-1]. *)
Fixpoint is_list (next : list Z) (head : Z) (l : list Z) : Prop :=
  match l with
  | [] => head = -1
  | p :: l' => head = p /\ 0 <= p < zlen next /\ is_list next (znth next p) l'
  end.

Definition zend (z : zone) : Z := start_pfn z + spanned_pages z.

Definition in_zone (z : zone) (p : Z) : Prop := start_pfn z <= p < zend z.

Definition in_block (p o x : Z) : Prop := p <= x < p + 2 ^ o.

Definition is_buddy (b : buddy) (p : Z) : Prop := has (flags (znth (mem_map b) p)) PG_BUDDY = true.

Definition page_order (b : buddy) (p : Z) : Z := order (znth (mem_map b) p).

(** An aligned block of a zone that does not start at frame 0. *)
Definition block_ok (mo : Z) (z : zone) (p o : Z) : Prop :=
  0 <= o <= mo /\ 0 < p /\ start_pfn z <= p /\ p + 2 ^ o <= zend z /\ (2 ^ o | p).

Definition disjoint_blocks (p1 o1 p2 o2 : Z) : Prop :=
  p1 + 2 ^ o1 <= p2 \/ p2 + 2 ^ o2 <= p1.

Definition zone_shape (mo : Z) (b : buddy) : Prop :=
  zlen (buddy_next b) = zlen (mem_map b) /\ zlen (mem_map b) <= 1048576 /\
  zlen (free_areas (bzone b)) = 11 /\ 0 <= start_pfn (bzone b) /\ 0 <= spanned_pages (bzone b) /\
  zend (bzone b) <= zlen (mem_map b) /\ 0 <= mo <= 10.

(** The lists [L] are the free lists of the zone: linked as the heads and
    [buddy_next] say, counted by [nr_free]; their members are well-formed
    blocks marked in [mem_map], every marked page of the zone is a member, and
    distinct blocks do not overlap. *)
Record lists_ok (mo : Z) (b : buddy) (L : Z -> list Z) : Prop := ListsOk {
  lo_shape : zone_shape mo b;
  lo_list o : 0 <= o < 11 ->
    is_list (buddy_next b) (free_list (area (bzone b) o)) (L o) /\
    nr_free (area (bzone b) o) = zlen (L o) /\ NoDup (L o);
  lo_block o p : 0 <= o < 11 -> p ∈ L o ->
    block_ok mo (bzone b) p o /\ is_buddy b p /\ page_order b p = o;
  lo_mark p : in_zone (bzone b) p -> is_buddy b p ->
    0 <= page_order b p <= mo /\ p ∈ L (page_order b p);
  lo_disj o1 o2 p1 p2 : 0 <= o1 < 11 -> 0 <= o2 < 11 -> p1 ∈ L o1 -> p2 ∈ L o2 ->
    (o1 = o2 /\ p1 = p2) \/ disjoint_blocks p1 o1 p2 o2;
}.

(** Frame [x] belongs to a free block. *)
Definition page_free (b : buddy) (x : Z) : Prop :=
  exists p, in_zone (bzone b) p /\ is_buddy b p /\ in_block p (page_order b p) x.

(** What the buddy functions leave alone: everything of the zone but its free
    lists, the frames outside the zone, and of a page everything but
    [PG_BUDDY] and [order]. *)
Definition zone_static (z : zone) :=
  (type z, start_pfn z, spanned_pages z, present_pages z, managed_pages z, watermark z,
   inactive_list z, nr_inactive z).

Definition page_rest (p : page) :=
  (has (flags p) PG_RESERVED, has (flags p) PG_LRU, has (flags p) PG_ISOLATED,
   refcount p, mapcount p, map_mm p, map_vaddr p, rmap_list p).

Definition bframe (b b' : buddy) : Prop :=
  zone_static (bzone b') = zone_static (bzone b) /\
  zlen (buddy_next b') = zlen (buddy_next b) /\ zlen (mem_map b') = zlen (mem_map b) /\
  (forall q, 0 <= q -> ~ in_zone (bzone b) q ->
     znth (buddy_next b') q = znth (buddy_next b) q /\ znth (mem_map b') q = znth (mem_map b) q) /\
  (forall q, 0 <= q -> page_rest (znth (mem_map b') q) = page_rest (znth (mem_map b) q)).

(** ** Flags *)

Lemma has_testbit fl n : 0 <= n -> has fl (2 ^ n) = Z.testbit fl n.
Proof.
  intros Hn. unfold has. destruct (Z.testbit fl n) eqn:E.
  - destruct (Z.eqb_spec (Z.land fl (2 ^ n)) 0) as [H0|]; [|done].
    assert (Z.testbit (Z.land fl (2 ^ n)) n = true) as Hb.
    { rewrite Z.land_spec, E, Z.pow2_bits_true by done. done. }
    by rewrite H0, Z.bits_0 in Hb.
  - destruct (Z.eqb_spec (Z.land fl (2 ^ n)) 0) as [H0|H0]; [done|].
    destruct H0. apply Z.bits_inj'. intros i Hi. rewrite Z.land_spec, Z.bits_0.
    destruct (decide (i = n)) as [->|Hne]; [by rewrite E|].
    rewrite Z.pow2_bits_false by lia. apply andb_false_r.
Qed.

Lemma has_set fl n : 0 <= n -> has (Z.lor fl (2 ^ n)) (2 ^ n) = true.
Proof. intros Hn. rewrite has_testbit, Z.lor_spec, Z.pow2_bits_true by done. apply orb_true_r. Qed.

Lemma has_set_ne fl n m : 0 <= n -> 0 <= m -> n <> m -> has (Z.lor fl (2 ^ n)) (2 ^ m) = has fl (2 ^ m).
Proof.
  intros Hn Hm Hne. rewrite !has_testbit, Z.lor_spec, Z.pow2_bits_false by done. apply orb_false_r.
Qed.

(** [not32] of a bit as a bit mask. *)
Lemma not32_testbit n m : 0 <= n < 32 -> 0 <= m < 32 -> Z.testbit (not32 (2 ^ n)) m = negb (m =? n).
Proof.
  intros Hn Hm. unfold not32.
  assert (0 < 2 ^ n <= 2 ^ 31) by (split; [lia | apply Z.pow_le_mono_r; lia]).
  replace (4294967295 - 2 ^ n) with (Z.land (Z.lnot (2 ^ n)) (Z.ones 32)).
  - rewrite Z.land_spec, Z.lnot_spec, Z.ones_spec_low, andb_true_r by lia.
    rewrite Z.pow2_bits_eqb by lia. by rewrite Z.eqb_sym.
  - rewrite Z.land_ones by lia. unfold Z.lnot. symmetry.
    apply (Z.mod_unique_pos _ _ (-1)); lia.
Qed.

Lemma has_clear fl n : 0 <= n < 32 -> has (Z.land fl (not32 (2 ^ n))) (2 ^ n) = false.
Proof.
  intros Hn. rewrite has_testbit, Z.land_spec, not32_testbit by lia.
  rewrite Z.eqb_refl. apply andb_false_r.
Qed.

Lemma has_clear_ne fl n m :
  0 <= n < 32 -> 0 <= m < 32 -> n <> m -> has (Z.land fl (not32 (2 ^ n))) (2 ^ m) = has fl (2 ^ m).
Proof.
  intros Hn Hm Hne. rewrite !has_testbit, Z.land_spec, not32_testbit by lia.
  destruct (Z.eqb_spec m n); [lia|]. apply andb_true_r.
Qed.

(** ** Arrays and records *)

Lemma zlen_upd_page pages p f : zlen (upd_page pages p f) = zlen pages.
Proof. unfold upd_page. destruct (_ <=? _); [done|]. apply zlen_zset. Qed.

Lemma znth_upd_page pages p q f :
  0 <= p < zlen pages -> 0 <= q ->
  znth (upd_page pages p f) q = if decide (p = q) then f (znth pages q) else znth pages q.
Proof.
  intros Hp Hq. unfold upd_page. destruct (Z.leb_spec (zlen pages) p); [lia|].
  case_decide as E; [subst; by rewrite znth_zset_eq|]. by rewrite znth_zset_ne by lia.
Qed.

Lemma znth_zset {A} `{!Inhabited A} (l : list A) i j x :
  0 <= i < zlen l -> 0 <= j -> znth (zset l i x) j = if decide (i = j) then x else znth l j.
Proof.
  intros Hi Hj. case_decide; [subst; by rewrite znth_zset_eq|]. by rewrite znth_zset_ne by lia.
Qed.

Lemma area_set_area z o o' a :
  zlen (free_areas z) = 11 -> 0 <= o < 11 -> 0 <= o' ->
  area (set_area z o a) o' = if decide (o = o') then a else area z o'.
Proof. intros Hl Ho Ho'. unfold area, set_area. cbn [free_areas]. apply znth_zset; lia. Qed.

Lemma page_rest_buddy_set o p : page_rest (set_order o (set_bit PG_BUDDY p)) = page_rest p.
Proof.
  unfold page_rest. cbn [flags refcount mapcount map_mm map_vaddr rmap_list set_order set_bit set_flags].
  change PG_BUDDY with (2 ^ 0). change PG_RESERVED with (2 ^ 1). change PG_LRU with (2 ^ 2).
  change PG_ISOLATED with (2 ^ 3). by rewrite !has_set_ne by lia.
Qed.

Lemma page_rest_buddy_clear p : page_rest (clear_bit PG_BUDDY p) = page_rest p.
Proof.
  unfold page_rest. cbn [flags refcount mapcount map_mm map_vaddr rmap_list clear_bit set_flags].
  change PG_BUDDY with (2 ^ 0). change PG_RESERVED with (2 ^ 1). change PG_LRU with (2 ^ 2).
  change PG_ISOLATED with (2 ^ 3). by rewrite !has_clear_ne by lia.
Qed.

Lemma page_rest_set_order o p : page_rest (set_order o p) = page_rest p.
Proof. done. Qed.

#[export] Instance bframe_refl : Reflexive bframe.
Proof. intros b. by repeat split. Qed.

#[export] Instance bframe_trans : Transitive bframe.
Proof.
  intros b1 b2 b3 (A1 & A2 & A3 & A4 & A5) (B1 & B2 & B3 & B4 & B5).
  assert (Hz : forall q, in_zone (bzone b2) q <-> in_zone (bzone b1) q).
  { intros q. unfold zone_static in A1. injection A1 as _ E1 E2 _ _ _ _ _.
    unfold in_zone, zend. by rewrite E1, E2. }
  split_and!; try congruence.
  - intros q Hq Hnz. destruct (A4 q Hq Hnz) as [<- <-]. apply B4; [done|]. by rewrite Hz.
  - intros q Hq. by rewrite B5, A5.
Qed.

(** ** Linked lists in [buddy_next] *)

Lemma is_list_frame next next' h l :
  zlen next' = zlen next -> (forall q, q ∈ l -> znth next' q = znth next q) ->
  is_list next h l -> is_list next' h l.
Proof.
  intros Hlen. revert h. induction l as [|p l IH]; intros h Hq; simpl; [done|].
  intros (-> & Hp & Hl). rewrite Hlen, (Hq p) by set_solver.
  split_and!; try done; try lia. apply IH; [set_solver|done].
Qed.

Lemma is_list_bounds next h l p : is_list next h l -> p ∈ l -> 0 <= p < zlen next.
Proof.
  revert h. induction l as [|q l IH]; intros h; simpl; [set_solver|].
  intros (-> & Hq & Hl) [->|Hin]%elem_of_cons; [done|]. by eapply IH.
Qed.

(** A list without repetitions is no longer than the array. *)
Lemma is_list_length next h l : is_list next h l -> NoDup l -> (length l <= length next)%nat.
Proof.
  intros Hl Hnd.
  assert (Hincl : list_to_set (C := gset Z) l ⊆ list_to_set (seqZ 0 (zlen next))).
  { intros p. rewrite !elem_of_list_to_set, elem_of_seqZ. intros Hp.
    pose proof (is_list_bounds _ _ _ _ Hl Hp). lia. }
  apply subseteq_size in Hincl.
  rewrite !size_list_to_set in Hincl by (done || apply NoDup_seqZ).
  rewrite length_seqZ in Hincl. unfold zlen in Hincl. lia.
Qed.

(** Unlinking: the predecessor's link (or the head) skips [p]. *)
Lemma is_list_unlink next h l1 p l2 :
  is_list next h (l1 ++ p :: l2) -> NoDup (l1 ++ p :: l2) ->
  match last l1 with
  | None => is_list next (znth next p) l2
  | Some prev => is_list (zset next prev (znth next p)) h (l1 ++ l2)
  end.
Proof.
  revert h. induction l1 as [|q l1 IH]; intros h; simpl.
  { by intros (_ & _ & ?) _. }
  intros (-> & Hq & Hl) Hnd. apply NoDup_cons in Hnd as [Hni Hnd].
  destruct l1 as [|q' l1].
  - simpl in *. destruct Hl as (Hqp & Hp & Hl). rewrite zlen_zset, znth_zset_eq by done.
    split_and!; try done; try lia. eapply is_list_frame; [apply zlen_zset| |done].
    intros r Hr. pose proof (is_list_bounds _ _ _ _ Hl Hr). apply znth_zset_ne; [lia..|].
    intros ->. set_solver.
  - specialize (IH _ Hl Hnd). rewrite last_cons_cons. destruct (last (q' :: l1)) as [prev|] eqn:E.
    2:{ by apply last_None in E. }
    assert (Hprev : prev ∈ q' :: l1) by (by apply last_Some_elem_of).
    pose proof (is_list_bounds _ _ _ prev Hl ltac:(set_solver)).
    rewrite zlen_zset, znth_zset_ne by (lia || (intros ->; set_solver)). done.
Qed.

(** ** Adding and removing one block *)

Definition upd (L : Z -> list Z) (o : Z) (l : list Z) : Z -> list Z :=
  fun o' => if decide (o = o') then l else L o'.

Lemma pow2_pos o : 0 <= o -> 0 < 2 ^ o.
Proof. intros. apply Z.pow_pos_nonneg; lia. Qed.

Lemma block_ok_range mo b p o :
  zone_shape mo b -> block_ok mo (bzone b) p o ->
  0 <= o <= 10 /\ 0 < p < zlen (mem_map b) /\ in_zone (bzone b) p /\ p + 2 ^ o <= zlen (mem_map b).
Proof.
  intros (? & ? & ? & ? & ? & ? & ?) ([? ?] & ? & ? & ? & _).
  pose proof (pow2_pos o ltac:(done)). unfold in_zone. lia.
Qed.

Lemma not_member mo b L p o q :
  lists_ok mo b L -> 0 <= o -> (forall o' q, 0 <= o' < 11 -> q ∈ L o' -> disjoint_blocks p o q o') ->
  forall o', 0 <= o' < 11 -> q ∈ L o' -> q <> p.
Proof.
  intros HL Ho Hd o' Ho' Hq ->. specialize (Hd o' p Ho' Hq). unfold disjoint_blocks in Hd.
  pose proof (pow2_pos o Ho). pose proof (pow2_pos o' ltac:(lia)). lia.
Qed.

Lemma u16_order o : 0 <= o <= 10 -> u16 o = o.
Proof. intros. unfold u16. apply Z.mod_small. lia. Qed.

Lemma bframe_add b o p :
  zlen (buddy_next b) = zlen (mem_map b) -> in_zone (bzone b) p -> 0 <= p < zlen (mem_map b) ->
  bframe b (buddy_list_add b o p).
Proof.
  intros Hlen Hz Hp. unfold buddy_list_add. destruct (p =? 0); [done|].
  unfold bframe. cbn [bzone buddy_next mem_map]. rewrite zlen_zset, zlen_upd_page.
  split_and!; try done.
  - intros q Hq Hnz. assert (p <> q) by (intros ->; done).
    rewrite znth_zset, znth_upd_page by lia. by rewrite !decide_False by done.
  - intros q Hq. rewrite znth_upd_page by lia. case_decide; [|done]. apply page_rest_buddy_set.
Qed.

Lemma add_ok mo b L p o :
  lists_ok mo b L -> block_ok mo (bzone b) p o ->
  (forall o' q, 0 <= o' < 11 -> q ∈ L o' -> disjoint_blocks p o q o') ->
  lists_ok mo (buddy_list_add b o p) (upd L o (p :: L o)).
Proof.
  intros HL Hb Hd. pose proof (lo_shape _ _ _ HL) as Hs.
  destruct (block_ok_range _ _ _ _ Hs Hb) as (Ho & Hp & Hpz & Hpo).
  pose proof Hs as (Hlen & Hmax & Hfa & _).
  pose proof (not_member mo b L p o) as Hnm.
  assert (Hnm' : forall o' q, 0 <= o' < 11 -> q ∈ L o' -> q <> p) by (intros; eapply Hnm; try done; lia).
  unfold buddy_list_add. destruct (Z.eqb_spec p 0); [lia|].
  assert (Hpg : forall q, 0 <= q -> znth (upd_page (mem_map b) p (fun p0 => set_order o (set_bit PG_BUDDY p0))) q
    = if decide (p = q) then set_order o (set_bit PG_BUDDY (znth (mem_map b) q)) else znth (mem_map b) q).
  { intros q Hq. apply znth_upd_page; lia. }
  split; unfold is_buddy, page_order; cbn [bzone buddy_next mem_map].
  - unfold zone_shape in *. cbn [bzone buddy_next mem_map set_area free_areas start_pfn spanned_pages].
    rewrite !zlen_zset, zlen_upd_page. done.
  - intros o' Ho'. rewrite area_set_area by lia. unfold upd.
    destruct (lo_list _ _ _ HL o' Ho') as (Hl & Hn & Hnd).
    assert (Hl' : is_list (zset (buddy_next b) p (free_list (area (bzone b) o)))
                    (free_list (area (bzone b) o')) (L o')).
    { eapply is_list_frame; [apply zlen_zset| |exact Hl]. intros q Hq.
      pose proof (is_list_bounds _ _ _ _ Hl Hq). apply znth_zset_ne; [lia..|].
      intros ->. by eapply Hnm'. }
    case_decide as E; [subst o'|done]. cbn [free_list nr_free is_list].
    rewrite zlen_zset, znth_zset_eq by lia. split_and!; try done; try lia.
    + rewrite Hn. unfold zlen. cbn [length].
      pose proof (is_list_length _ _ _ Hl Hnd) as Hle. unfold zlen in *. unwrap. lia.
    + constructor; [|done]. intros Hin. by eapply Hnm'.
  - intros o' q Ho' Hq. unfold upd in Hq. case_decide as E.
    + subst o'. apply elem_of_cons in Hq as [->|Hq].
      * split; [done|]. rewrite Hpg by lia. rewrite decide_True by done.
        cbn [flags order set_order set_bit set_flags]. split; [by apply (has_set _ 0)|].
        by apply u16_order.
      * destruct (lo_block _ _ _ HL o q Ho' Hq) as (B1 & B2 & B3).
        destruct (block_ok_range _ _ _ _ Hs B1) as (_ & ? & _).
        split; [done|]. rewrite Hpg by lia. rewrite decide_False by (intros ->; by eapply Hnm').
        done.
    + destruct (lo_block _ _ _ HL o' q Ho' Hq) as (B1 & B2 & B3).
      destruct (block_ok_range _ _ _ _ Hs B1) as (_ & ? & _).
      split; [done|]. rewrite Hpg by lia. rewrite decide_False by (intros ->; by eapply Hnm').
      done.
  - intros q Hz. assert (0 <= q) by (unfold in_zone, zone_shape in *; simpl in *; lia).
    rewrite Hpg by done. unfold upd. case_decide as E.
    + subst q. intros _. cbn [order set_order set_bit set_flags]. rewrite u16_order by done.
      split; [destruct Hb; lia|]. rewrite decide_True by done. by left.
    + intros Hb'. destruct (lo_mark _ _ _ HL q Hz Hb') as [M1 M2]. split; [done|].
      unfold page_order in *. case_decide as E'; [|done]. rewrite <- E' in M2. by right.
  - assert (Hds : forall a oa c oc, disjoint_blocks a oa c oc -> disjoint_blocks c oc a oa)
      by (unfold disjoint_blocks; tauto).
    intros o1 o2 p1 p2 Ho1 Ho2. unfold upd.
    pose proof (lo_disj _ _ _ HL) as HD.
    repeat case_decide; subst; rewrite ?elem_of_cons; intros G1 G2; naive_solver.
Qed.

(** The walk arrives at [p] with its predecessor in hand. *)
Lemma remove_walk_at fuel b o p prev cur mid l2 :
  is_list (buddy_next b) cur (mid ++ p :: l2) -> p ∉ mid -> (length mid < fuel)%nat ->
  remove_walk fuel b o p prev cur = remove_walk 1 b o p (default prev (last mid)) p.
Proof.
  revert fuel prev cur. induction mid as [|q mid IH]; intros fuel prev cur Hl Hni Hf;
    (destruct fuel as [|fuel]; [simpl in Hf; lia|]); simpl in Hl, Hf.
  - destruct Hl as (-> & Hp & _). cbn [remove_walk]. destruct (Z.ltb_spec p 0); [lia|].
    by rewrite Z.eqb_refl.
  - destruct Hl as (-> & Hq & Hl). apply not_elem_of_cons in Hni as [Hne Hni].
    cbn [remove_walk]. destruct (Z.ltb_spec q 0); [lia|].
    destruct (Z.eqb_spec q p); [congruence|].
    rewrite (IH fuel q _ Hl Hni) by lia.
    replace (default prev (last (q :: mid))) with (default q (last mid)); [done|].
    destruct mid as [|q' mid]; [done|]. rewrite last_cons_cons.
    destruct (last (q' :: mid)) eqn:E; [done|]. by apply last_None in E.
Qed.

(** The state after the removal of [p], which follows [prev]. *)
Definition removed (b : buddy) (o p : Z) (prev : option Z) : buddy :=
  let a := area (bzone b) o in
  let nxt := znth (buddy_next b) p in
  Buddy (set_area (bzone b) o
           (Free_area (match prev with None => nxt | Some _ => free_list a end) (dec (nr_free a))))
    (zset (match prev with None => buddy_next b | Some r => zset (buddy_next b) r nxt end) p (-1))
    (upd_page (mem_map b) p (clear_bit PG_BUDDY)).

Lemma buddy_list_remove_eq mo b L o p l1 l2 :
  lists_ok mo b L -> 0 <= o < 11 -> L o = l1 ++ p :: l2 ->
  buddy_list_remove b o p = removed b o p (last l1).
Proof.
  intros HL Ho HLo. destruct (lo_list _ _ _ HL o Ho) as (Hl & _ & Hnd).
  pose proof (is_list_length _ _ _ Hl Hnd) as Hle.
  rewrite HLo in Hl, Hle, Hnd. rewrite length_app in Hle. simpl in Hle.
  unfold buddy_list_remove.
  rewrite (remove_walk_at _ b o p (-1) _ l1 l2 Hl) by (lia || (apply NoDup_app in Hnd; set_solver)).
  pose proof (is_list_bounds _ _ _ p Hl ltac:(set_solver)) as Hp.
  cbn [remove_walk]. destruct (Z.ltb_spec p 0); [lia|]. rewrite Z.eqb_refl.
  unfold removed. destruct (last l1) as [r|] eqn:E; cbn [default]; [|done].
  pose proof (is_list_bounds _ _ _ r Hl) as Hr.
  apply last_Some_elem_of in E. specialize (Hr ltac:(set_solver)). unfold id. destruct (Z.ltb_spec r 0); [lia|done].
Qed.

Lemma list_pop_removed b o p : list_pop b o p = removed b o p None.
Proof. done. Qed.

Lemma bframe_removed mo b L o p l1 l2 :
  lists_ok mo b L -> 0 <= o < 11 -> L o = l1 ++ p :: l2 -> bframe b (removed b o p (last l1)).
Proof.
  intros HL Ho HLo.
  pose proof (lo_shape _ _ _ HL) as Hs. pose proof Hs as (Hlen & _).
  assert (Hz : forall q, q ∈ L o -> in_zone (bzone b) q /\ 0 <= q < zlen (mem_map b)).
  { intros q Hq. destruct (lo_block _ _ _ HL o q Ho Hq) as (B & _).
    destruct (block_ok_range _ _ _ _ Hs B) as (_ & ? & ? & _). split; [done|lia]. }
  rewrite HLo in Hz. destruct (Hz p) as [Hpz Hp]; [set_solver|].
  unfold bframe, removed. cbn [bzone buddy_next mem_map]. rewrite zlen_upd_page.
  destruct (last l1) as [r|] eqn:E.
  - destruct (Hz r) as [Hrz Hr]; [apply last_Some_elem_of in E; set_solver|].
    rewrite !zlen_zset. split_and!; try done.
    + intros q Hq Hnz. assert (p <> q /\ r <> q) as [? ?] by (split; intros ->; done).
      rewrite !znth_zset, znth_upd_page by (rewrite ?zlen_zset; lia).
      by rewrite !decide_False by done.
    + intros q Hq. rewrite znth_upd_page by lia. case_decide; [|done]. apply page_rest_buddy_clear.
  - rewrite !zlen_zset. split_and!; try done.
    + intros q Hq Hnz. assert (p <> q) by (intros ->; done).
      rewrite !znth_zset, znth_upd_page by (rewrite ?zlen_zset; lia).
      by rewrite !decide_False by done.
    + intros q Hq. rewrite znth_upd_page by lia. case_decide; [|done]. apply page_rest_buddy_clear.
Qed.

(** Distinct lists of a zone share no frame. *)
Lemma lists_distinct mo b L o1 o2 p :
  lists_ok mo b L -> 0 <= o1 < 11 -> 0 <= o2 < 11 -> p ∈ L o1 -> p ∈ L o2 -> o1 = o2.
Proof.
  intros HL H1 H2 Hp1 Hp2. destruct (lo_disj _ _ _ HL o1 o2 p p H1 H2 Hp1 Hp2) as [[? _]|Hd]; [done|].
  unfold disjoint_blocks in Hd. pose proof (pow2_pos o1 ltac:(lia)). pose proof (pow2_pos o2 ltac:(lia)). lia.
Qed.

Lemma removed_ok mo b L o p l1 l2 :
  lists_ok mo b L -> 0 <= o < 11 -> L o = l1 ++ p :: l2 ->
  lists_ok mo (removed b o p (last l1)) (upd L o (l1 ++ l2)).
Proof.
  intros HL Ho HLo. pose proof (lo_shape _ _ _ HL) as Hs. pose proof Hs as (Hlen & Hmax & Hfa & _).
  pose proof (bframe_removed _ _ _ _ _ _ _ HL Ho HLo) as (_ & Hl1 & Hl2 & _).
  assert (Hpin : p ∈ L o) by (rewrite HLo; set_solver).
  destruct (lo_block _ _ _ HL o p Ho Hpin) as (Hb & _).
  destruct (block_ok_range _ _ _ _ Hs Hb) as (_ & Hp & Hpz & _).
  destruct (lo_list _ _ _ HL o Ho) as (Hlo & Hno & Hndo).
  assert (Hsub : forall q, q ∈ l1 ++ l2 -> q ∈ L o /\ q <> p).
  { rewrite HLo in *. apply NoDup_app in Hndo as (_ & Hx & [? _]%NoDup_cons).
    intros q. rewrite !elem_of_app, elem_of_cons. intros [?|?]; split; try tauto; set_solver. }
  assert (Hprev : forall r, last l1 = Some r -> r ∈ L o /\ 0 <= r < zlen (buddy_next b)).
  { intros r Hr. apply last_Some_elem_of in Hr. assert (r ∈ L o) by (rewrite HLo; set_solver).
    split; [done|]. by eapply is_list_bounds. }
  assert (Hpg : forall q, 0 <= q -> znth (mem_map (removed b o p (last l1))) q
    = if decide (p = q) then clear_bit PG_BUDDY (znth (mem_map b) q) else znth (mem_map b) q).
  { intros q Hq. cbn [mem_map removed]. apply znth_upd_page; lia. }
  split.
  - unfold zone_shape in *. rewrite Hl1, Hl2. unfold removed. cbn [bzone set_area free_areas start_pfn spanned_pages].
    rewrite zlen_zset. done.
  - intros o' Ho'. unfold removed. cbn [bzone buddy_next]. rewrite area_set_area by lia. unfold upd.
    case_decide as E.
    + subst o'. cbn [free_list nr_free]. rewrite HLo in Hlo, Hndo.
      pose proof (is_list_unlink _ _ _ _ _ Hlo Hndo) as Hu.
      split_and!.
      * destruct (last l1) as [r|] eqn:El.
        -- eapply is_list_frame; [apply zlen_zset| |exact Hu]. intros q Hq.
           destruct (Hsub q Hq) as [Hq1 Hq2]. rewrite <- HLo in Hlo.
           pose proof (is_list_bounds _ _ _ _ Hlo Hq1). apply znth_zset_ne; lia.
        -- apply last_None in El. subst l1.
           eapply is_list_frame; [apply zlen_zset| |exact Hu]. intros q Hq.
           destruct (Hsub q Hq) as [Hq1 Hq2]. rewrite <- HLo in Hlo.
           pose proof (is_list_bounds _ _ _ _ Hlo Hq1). apply znth_zset_ne; lia.
      * rewrite Hno, HLo. unfold dec, zlen. rewrite !length_app. simpl. bcase; lia.
      * apply NoDup_app in Hndo as (N1 & N2 & [_ N3]%NoDup_cons). apply NoDup_app.
        split_and!; try done. set_solver.
    + destruct (lo_list _ _ _ HL o' Ho') as (Hl & Hn & Hnd). split_and!; try done.
      assert (Hq : forall q, q ∈ L o' -> q ∈ L o -> False).
      { intros q Q1 Q2. apply E. by eapply lists_distinct. }
      destruct (last l1) as [r|] eqn:El.
      * destruct (Hprev r eq_refl) as [Hr Hrb].
        apply (is_list_frame (buddy_next b)); [by rewrite !zlen_zset| |exact Hl]. intros q Hqin.
        pose proof (is_list_bounds _ _ _ _ Hl Hqin).
        assert (p <> q /\ r <> q) as [? ?] by (split; intros ->; by apply (Hq q)).
        rewrite !znth_zset by (rewrite ?zlen_zset; lia). by rewrite !decide_False by done.
      * apply (is_list_frame (buddy_next b)); [by rewrite !zlen_zset| |exact Hl]. intros q Hqin.
        pose proof (is_list_bounds _ _ _ _ Hl Hqin).
        assert (p <> q) by (intros ->; by apply (Hq q)).
        rewrite !znth_zset by (rewrite ?zlen_zset; lia). by rewrite !decide_False by done.
  - intros o' q Ho' Hq.
    assert (Hq' : q ∈ L o' /\ q <> p).
    { unfold upd in Hq. case_decide; [subst; by apply Hsub|]. split; [done|].
      intros ->. by pose proof (lists_distinct _ _ _ _ _ _ HL Ho Ho' Hpin Hq). }
    destruct Hq' as [Hq1 Hq2]. destruct (lo_block _ _ _ HL o' q Ho' Hq1) as (B1 & B2 & B3).
    destruct (block_ok_range _ _ _ _ Hs B1) as (_ & ? & _).
    split; [done|]. unfold is_buddy, page_order. rewrite Hpg by lia.
    rewrite decide_False by done. done.
  - intros q Hz. assert (0 <= q) by (unfold in_zone, zone_shape in *; simpl in *; lia).
    unfold is_buddy, page_order. rewrite Hpg by done. case_decide as E.
    + cbn [flags clear_bit set_flags]. pose proof (has_clear (flags (znth (mem_map b) q)) 0 ltac:(lia)) as Hc.
      change (2 ^ 0) with PG_BUDDY in Hc. rewrite Hc. done.
    + intros Hbq. destruct (lo_mark _ _ _ HL q Hz Hbq) as [M1 M2]. split; [done|].
      unfold upd, page_order in *. case_decide as E'; [|done].
      rewrite <- E', HLo in M2. set_solver.
  - intros o1 o2 p1 p2 Ho1 Ho2 G1 G2. apply (lo_disj _ _ _ HL); try done.
    + unfold upd in G1. case_decide; [subst; by apply Hsub|done].
    + unfold upd in G2. case_decide; [subst; by apply Hsub|done].
Qed.

(** ** The set of free frames *)

Definition free_in (L : Z -> list Z) (x : Z) : Prop :=
  exists o p, 0 <= o < 11 /\ p ∈ L o /\ in_block p o x.

Lemma page_free_iff mo b L x : lists_ok mo b L -> page_free b x <-> free_in L x.
Proof.
  intros HL. pose proof (lo_shape _ _ _ HL) as Hs. split.
  - intros (p & Hz & Hb & Hx). destruct (lo_mark _ _ _ HL p Hz Hb) as [M1 M2].
    exists (page_order b p), p. split_and!; try done; destruct Hs as (_&_&_&_&_&_&?); lia.
  - intros (o & p & Ho & Hp & Hx). destruct (lo_block _ _ _ HL o p Ho Hp) as (B1 & B2 & B3).
    destruct (block_ok_range _ _ _ _ Hs B1) as (_ & _ & ? & _). exists p. by rewrite B3.
Qed.

Lemma free_in_add L o p x :
  0 <= o < 11 -> free_in (upd L o (p :: L o)) x <-> free_in L x \/ in_block p o x.
Proof.
  intros Ho. unfold free_in, upd. split.
  - intros (o' & q & Ho' & Hq & Hx). case_decide; [subst o'|left; by eauto].
    apply elem_of_cons in Hq as [->|Hq]; [by right|left; by eauto].
  - intros [(o' & q & Ho' & Hq & Hx)|Hx].
    + exists o', q. split_and!; try done; try lia. case_decide; [subst; by right|done].
    + exists o, p. split_and!; try done; try lia. rewrite decide_True by done. by left.
Qed.

Lemma free_in_remove mo b L o p l1 l2 x :
  lists_ok mo b L -> 0 <= o < 11 -> L o = l1 ++ p :: l2 ->
  free_in (upd L o (l1 ++ l2)) x <-> free_in L x /\ ~ in_block p o x.
Proof.
  intros HL Ho HLo. unfold free_in.
  assert (Hpin : p ∈ L o) by (rewrite HLo; set_solver).
  pose proof (removed_ok _ _ _ _ _ _ _ HL Ho HLo) as HL'.
  split.
  - intros (o' & q & Ho' & Hq & Hx).
    assert (Hq' : q ∈ L o') by (unfold upd in Hq; case_decide; [subst; rewrite HLo; set_solver|done]).
    split; [by eauto|]. intros Hxp.
    destruct (lo_disj _ _ _ HL o' o q p Ho' Ho Hq' Hpin) as [[-> ->]|Hd].
    + unfold upd in Hq. rewrite decide_True in Hq by done.
      destruct (lo_list _ _ _ HL o Ho) as (_ & _ & Hnd). rewrite HLo in Hnd.
      apply NoDup_app in Hnd as (_ & N1 & [N2 _]%NoDup_cons). set_solver.
    + unfold disjoint_blocks, in_block in *. lia.
  - intros [(o' & q & Ho' & Hq & Hx) Hnx]. exists o', q. split_and!; try done; try lia.
    unfold upd. case_decide as E; [|done]. subst o'. rewrite HLo in Hq. set_solver.
Qed.

(** No block of a zone covers part of a block that is wholly not free. *)
Lemma disjoint_from_free mo b L p o :
  lists_ok mo b L -> 0 <= o -> (forall x, in_block p o x -> ~ free_in L x) ->
  forall o' q, 0 <= o' < 11 -> q ∈ L o' -> disjoint_blocks p o q o'.
Proof.
  intros HL Ho Hf o' q Ho' Hq. unfold disjoint_blocks.
  pose proof (pow2_pos o Ho). pose proof (pow2_pos o' ltac:(lia)).
  destruct (Z.le_gt_cases (p + 2 ^ o) q); [by left|].
  destruct (Z.le_gt_cases (q + 2 ^ o') p); [by right|].
  destruct (Hf (Z.max p q)); [unfold in_block; lia|].
  exists o', q. split_and!; try done; try lia; unfold in_block; lia.
Qed.

(** Words: nothing wraps below 2^20 frames. *)
Lemma shl1 o : 0 <= o <= 11 -> 1 <<w o = 2 ^ o.
Proof.
  intros Ho. unfold shl32. rewrite Z.shiftl_1_l. apply u32_id. unfold is_u32.
  pose proof (pow2_pos o ltac:(lia)). assert (2 ^ o <= 2 ^ 11) by (apply Z.pow_le_mono_r; lia). lia.
Qed.

Lemma pow2_le o : 0 <= o <= 11 -> 0 < 2 ^ o <= 2048.
Proof. intros. split; [apply pow2_pos; lia|]. change 2048 with (2 ^ 11). apply Z.pow_le_mono_r; lia. Qed.

Lemma s32_small x : 0 <= x < 2147483648 -> s32 x = x.
Proof. intros H. unfold s32. rewrite u32_id by (unfold is_u32; lia). bcase; lia. Qed.

Lemma split_frame pg o : 0 <= o <= 10 -> 0 < pg <= 1048576 -> s32 (pg +w (1 <<w o)) = pg + 2 ^ o.
Proof.
  intros Ho Hp. pose proof (pow2_le o ltac:(lia)). rewrite shl1, add32_id by lia.
  apply s32_small. lia.
Qed.

Lemma pow2_succ o : 0 <= o -> 2 ^ (o + 1) = 2 * 2 ^ o.
Proof. intros. rewrite Z.add_1_r. apply Z.pow_succ_r. lia. Qed.

(** ** Buddies *)

Lemma lxor_1 k : 0 <= k -> (Z.Even k -> Z.lxor k 1 = k + 1) /\ (Z.Odd k -> Z.lxor k 1 = k - 1).
Proof.
  intros Hk. split; intros [m ->].
  - destruct m as [|m|m]; [done|done|lia].
  - destruct m as [|m|m]; [done| |lia]. simpl. done.
Qed.

(** The buddy of an aligned block is its neighbour, and the lower of the two
    is aligned for the next order. *)
Lemma buddy_xor p o :
  0 <= o -> 0 <= p -> (2 ^ o | p) ->
  (Z.lxor p (2 ^ o) = p + 2 ^ o /\ (2 ^ (o + 1) | p)) \/
  (Z.lxor p (2 ^ o) = p - 2 ^ o /\ (2 ^ (o + 1) | p - 2 ^ o)).
Proof.
  intros Ho Hp [k ->]. pose proof (pow2_pos o Ho) as Hpos. assert (0 <= k) by nia.
  replace (Z.lxor (k * 2 ^ o) (2 ^ o)) with (Z.lxor k 1 * 2 ^ o).
  2:{ rewrite <- !Z.shiftl_mul_pow2, Z.shiftl_lxor by done. f_equal. by rewrite Z.shiftl_1_l. }
  rewrite pow2_succ by done. destruct (lxor_1 k) as [He Hd]; [done|].
  destruct (Z.Even_or_Odd k) as [HE|HO].
  - left. rewrite He by done. split; [lia|]. destruct HE as [m ->]. exists m. lia.
  - right. rewrite Hd by done. split; [lia|]. destruct HO as [m ->]. exists m. lia.
Qed.

Lemma lxor_involutive p m : Z.lxor (Z.lxor p m) m = p.
Proof. by rewrite Z.lxor_assoc, Z.lxor_nilpotent, Z.lxor_0_r. Qed.

(** No two buddies below the top order are both free: blocks are merged as
    far as they can be. *)
Definition merged (mo : Z) (L : Z -> list Z) : Prop :=
  forall o p, 0 <= o < mo -> p ∈ L o -> Z.lxor p (2 ^ o) ∉ L o.

Lemma merged_add mo L o p :
  merged mo L -> 0 <= o -> (o < mo -> Z.lxor p (2 ^ o) ∉ L o) ->
  merged mo (upd L o (p :: L o)).
Proof.
  intros Hm Ho Hb o' q Ho'. unfold upd. case_decide as E; [subst o'|by apply Hm].
  pose proof (pow2_pos o Ho) as Hpos.
  assert (Hself : forall r, Z.lxor r (2 ^ o) <> r).
  { intros r Hr. assert (Z.lxor r (Z.lxor r (2 ^ o)) = 0) by (rewrite Hr; apply Z.lxor_nilpotent).
    rewrite <- Z.lxor_assoc, Z.lxor_nilpotent, Z.lxor_0_l in *. lia. }
  rewrite !elem_of_cons. intros [->|Hq] [Hx|Hx].
  - by eapply Hself.
  - apply Hb in Hx; [done|lia].
  - apply Hb; [lia|]. by rewrite <- Hx, lxor_involutive.
  - by apply (Hm o q).
Qed.

Lemma merged_remove mo L o l :
  merged mo L -> (forall q, q ∈ l -> q ∈ L o) -> merged mo (upd L o l).
Proof.
  intros Hm Hl o' q Ho'. unfold upd. case_decide as E; [subst o'|by apply Hm].
  intros Hq Hx. by eapply (Hm o q); [|apply Hl|apply Hl].
Qed.

(** ** Splitting *)

Lemma zone_of_frame b b' : bframe b b' ->
  start_pfn (bzone b') = start_pfn (bzone b) /\ spanned_pages (bzone b') = spanned_pages (bzone b).
Proof. intros (E & _). unfold zone_static in E. by injection E as _ -> -> _ _ _ _ _. Qed.

Lemma block_ok_frame b b' mo p o :
  bframe b b' -> block_ok mo (bzone b') p o <-> block_ok mo (bzone b) p o.
Proof. intros [E1 E2]%zone_of_frame. unfold block_ok, zend. by rewrite E1, E2. Qed.

Lemma block_halves mo z p o :
  0 <= o -> block_ok mo z p (o + 1) ->
  block_ok mo z p o /\ block_ok mo z (p + 2 ^ o) o.
Proof.
  intros Ho (B1 & B2 & B3 & B4 & B5). rewrite pow2_succ in * by done.
  pose proof (pow2_pos o Ho).
  assert (2 ^ o | p) by (etrans; [|exact B5]; by apply Z.divide_factor_r).
  split; (split_and!; [lia..|]); [done|]. by apply Z.divide_add_r.
Qed.

Lemma split_ok mo n b L pg o0 :
  lists_ok mo b L -> 0 <= o0 -> block_ok mo (bzone b) pg (o0 + Z.of_nat n) ->
  (forall x, in_block pg (o0 + Z.of_nat n) x -> ~ free_in L x) ->
  exists L', lists_ok mo (split n b pg o0) L' /\ bframe b (split n b pg o0) /\
    (merged mo L -> merged mo L') /\
    forall x, free_in L' x <->
      free_in L x \/ (in_block pg (o0 + Z.of_nat n) x /\ ~ in_block pg o0 x).
Proof.
  revert b L. induction n as [|n IH]; intros b L HL Ho Hb Hf.
  { exists L. split_and!; [done|done|done|]. intros x. rewrite Z.add_0_r. tauto. }
  pose proof (lo_shape _ _ _ HL) as Hs.
  destruct (block_ok_range _ _ _ _ Hs Hb) as (Hor & Hp & Hpz & Hpe). pose proof Hs as (Hlen & Hmax & _).
  replace (o0 + Z.of_nat (S n)) with (o0 + Z.of_nat n + 1) in * by lia.
  set (o := o0 + Z.of_nat n) in *. assert (0 <= o <= 9) as Hoo by lia.
  destruct (block_halves mo (bzone b) pg o ltac:(lia) Hb) as [Hb1 Hb2].
  destruct (block_ok_range _ _ _ _ Hs Hb2) as (_ & Hp2 & Hpz2 & _).
  cbn [split]. fold o. rewrite split_frame by lia.
  pose proof (pow2_succ o ltac:(lia)) as Hsucc. pose proof (pow2_pos o ltac:(lia)) as Hpos.
  assert (Hd : forall o' q, 0 <= o' < 11 -> q ∈ L o' -> disjoint_blocks (pg + 2 ^ o) o q o').
  { eapply disjoint_from_free; [done|lia|]. intros x Hx. apply Hf. unfold in_block in *. lia. }
  pose proof (add_ok _ _ _ _ _ HL Hb2 Hd) as HL1.
  pose proof (bframe_add b o (pg + 2 ^ o) Hlen Hpz2 ltac:(lia)) as HF.
  edestruct (IH _ _ HL1 Ho) as (L' & HL' & HF' & Hmg & Hx).
  - by rewrite block_ok_frame.
  - intros x Hx. rewrite free_in_add by lia. intros [Hc|Hc].
    + eapply Hf; [|exact Hc]. unfold in_block in *. lia.
    + unfold in_block in *. lia.
  - exists L'. split_and!; [done|by etrans| |].
    { intros Hm. apply Hmg, merged_add; [done|lia|]. intros _ Hin.
      assert (Hxor : Z.lxor (pg + 2 ^ o) (2 ^ o) = pg).
      { destruct Hb as (_ & _ & _ & _ & Hdiv).
        destruct (buddy_xor pg o) as [[<- _]|[_ Hdiv2]]; [lia..|apply Hb1| |].
        - apply lxor_involutive.
        - exfalso. assert (Hd2 : (2 ^ (o + 1) | 2 ^ o)).
          { replace (2 ^ o) with (pg - (pg - 2 ^ o)) by lia. by apply Z.divide_sub_r. }
          apply Z.divide_pos_le in Hd2; lia. }
      rewrite Hxor in Hin. apply (Hf pg); [unfold in_block; lia|].
      exists o, pg. split_and!; try done; try lia; unfold in_block; lia. }
    intros x. rewrite Hx, free_in_add by lia.
    assert (Hsub : in_block pg o0 x -> in_block pg o x).
    { unfold in_block. assert (2 ^ o0 <= 2 ^ o) by (apply Z.pow_le_mono_r; lia). lia. }
    unfold in_block in *. destruct (Z.lt_ge_cases x (pg + 2 ^ o)); intuition lia.
Qed.

(** ** Allocation *)

(** Changing a page that is in no list and stays unmarked. *)
Lemma lists_ok_page mo b L p f :
  lists_ok mo b L -> in_zone (bzone b) p ->
  has (flags (znth (mem_map b) p)) PG_BUDDY = false ->
  has (flags (f (znth (mem_map b) p))) PG_BUDDY = false ->
  lists_ok mo (Buddy (bzone b) (buddy_next b) (upd_page (mem_map b) p f)) L.
Proof.
  intros HL Hz Hn Hn'. pose proof (lo_shape _ _ _ HL) as Hs.
  assert (Hp : 0 <= p < zlen (mem_map b)) by (unfold zone_shape, in_zone in *; lia).
  assert (Hpg : forall q, 0 <= q -> is_buddy (Buddy (bzone b) (buddy_next b) (upd_page (mem_map b) p f)) q ->
    q <> p /\ is_buddy b q /\
    page_order (Buddy (bzone b) (buddy_next b) (upd_page (mem_map b) p f)) q = page_order b q).
  { intros q Hq. unfold is_buddy, page_order. cbn [mem_map]. rewrite znth_upd_page by lia.
    case_decide; [subst; congruence|]. done. }
  assert (Hpg' : forall q, 0 <= q -> is_buddy b q ->
    is_buddy (Buddy (bzone b) (buddy_next b) (upd_page (mem_map b) p f)) q /\
    page_order (Buddy (bzone b) (buddy_next b) (upd_page (mem_map b) p f)) q = page_order b q).
  { intros q Hq. unfold is_buddy, page_order. cbn [mem_map]. rewrite znth_upd_page by lia.
    case_decide; [subst; congruence|]. done. }
  split.
  - unfold zone_shape in *. cbn [bzone buddy_next mem_map]. by rewrite zlen_upd_page.
  - apply HL.
  - intros o q Ho Hq. destruct (lo_block _ _ _ HL o q Ho Hq) as (B1 & B2 & B3).
    destruct (block_ok_range _ _ _ _ Hs B1) as (_ & ? & _).
    destruct (Hpg' q ltac:(lia) B2) as [? ->]. done.
  - intros q Hzq Hq. cbn [bzone] in Hzq.
    destruct (Hpg q ltac:(unfold zone_shape, in_zone in *; lia) Hq) as (_ & G1 & ->).
    by apply (lo_mark _ _ _ HL).
  - apply HL.
Qed.

Lemma not_marked mo b L p :
  lists_ok mo b L -> in_zone (bzone b) p -> ~ free_in L p ->
  has (flags (znth (mem_map b) p)) PG_BUDDY = false.
Proof.
  intros HL Hz Hf. apply not_true_is_false. intros Hb. apply Hf.
  destruct (lo_mark _ _ _ HL p Hz Hb) as [M1 M2]. destruct (lo_shape _ _ _ HL) as (_&_&_&_&_&_&?).
  exists (page_order b p), p. split_and!; try done; try lia.
  all: unfold in_block; pose proof (pow2_pos (page_order b p) ltac:(lia)); lia.
Qed.

(** What one successful allocation of the block [p], [o] does. *)
Definition takes (mo : Z) (b : buddy) (L : Z -> list Z) (p o : Z) (b' : buddy) : Prop :=
  exists L', lists_ok mo b' L' /\ bframe b b' /\ block_ok mo (bzone b) p o /\
    page_order b' p = o /\ (merged mo L -> merged mo L') /\
    (forall x, in_block p o x -> free_in L x) /\
    (forall x, free_in L' x <-> free_in L x /\ ~ in_block p o x).

Lemma take_block mo b L p l o0 o :
  lists_ok mo b L -> 0 <= o0 <= o -> o < 11 -> L o = p :: l ->
  let b2 := split (Z.to_nat (o - o0)) (list_pop b o p) p o0 in
  takes mo b L p o0 (Buddy (bzone b2) (buddy_next b2)
    (upd_page (mem_map b2) p (fun q => set_order o0 (clear_bit PG_BUDDY q)))).
Proof.
  intros HL Ho0 Ho HLo b2.
  pose proof (lo_shape _ _ _ HL) as Hs.
  assert (Hpin : p ∈ L o) by (rewrite HLo; by left).
  destruct (lo_block _ _ _ HL o p ltac:(lia) Hpin) as (Hb & _).
  destruct (block_ok_range _ _ _ _ Hs Hb) as (_ & Hp & Hpz & _).
  unfold b2; clear b2; rewrite list_pop_removed.
  pose proof (removed_ok mo b L o p [] l HL ltac:(lia) HLo) as HL1.
  pose proof (bframe_removed mo b L o p [] l HL ltac:(lia) HLo) as HF1.
  pose proof (fun x => free_in_remove mo b L o p [] l x HL ltac:(lia) HLo) as Hx1.
  cbn [last app] in *. set (b1 := removed b o p None) in *.
  assert (Hon : o0 + Z.of_nat (Z.to_nat (o - o0)) = o) by lia.
  destruct (split_ok mo (Z.to_nat (o - o0)) b1 (upd L o l) p o0 HL1 ltac:(lia)) as (L2 & HL2 & HF2 & Hm2 & Hx2).
  { rewrite Hon. by rewrite block_ok_frame. }
  { rewrite Hon. intros x Hx. rewrite Hx1. tauto. }
  rewrite Hon in Hx2. set (b2 := split _ b1 p o0) in *.
  assert (HF : bframe b b2) by (by etrans).
  assert (Hpz2 : in_zone (bzone b2) p).
  { destruct (zone_of_frame _ _ HF) as [E1 E2]. unfold in_zone, zend in *. by rewrite E1, E2. }
  assert (Hlen2 : zlen (mem_map b2) = zlen (mem_map b)) by apply HF.
  assert (Hle : 2 ^ o0 <= 2 ^ o) by (apply Z.pow_le_mono_r; lia).
  pose proof (pow2_pos o0 ltac:(lia)).
  assert (Hin0 : in_block p o0 p) by (unfold in_block; lia).
  assert (Hnf : ~ free_in L2 p) by (rewrite Hx2, Hx1; unfold in_block in *; lia).
  exists L2. split_and!.
  - apply lists_ok_page; try done.
    + by eapply not_marked.
    + apply (has_clear _ 0). lia.
  - etrans; [exact HF|]. unfold bframe. cbn [bzone buddy_next mem_map]. rewrite zlen_upd_page.
    split_and!; try done.
    + intros q Hq Hnz. split; [done|]. rewrite znth_upd_page by lia.
      rewrite decide_False by (intros ->; done). done.
    + intros q Hq. rewrite znth_upd_page by lia. case_decide; [|done].
      rewrite page_rest_set_order. apply page_rest_buddy_clear.
  - destruct Hb as (? & ? & ? & ? & Hd). repeat split; try lia.
    etrans; [|exact Hd]. exists (2 ^ (o - o0)). rewrite <- Z.pow_add_r by lia. f_equal. lia.
  - unfold page_order. cbn [mem_map]. rewrite znth_upd_page by lia. rewrite decide_True by done.
    cbn [order set_order]. destruct Hs as (_&_&_&_&_&_&?). destruct Hb. apply u16_order. lia.
  - intros Hm. apply Hm2, merged_remove; [done|]. intros q Hq. rewrite HLo. by right.
  - intros x Hx. exists o, p. split_and!; try done; try lia; unfold in_block in *; lia.
  - intros x. rewrite Hx2, Hx1. assert (in_block p o0 x -> in_block p o x) by (unfold in_block; lia).
    assert (in_block p o x -> free_in L x) by (intros; exists o, p; split_and!; try done; lia).
    unfold in_block in *. destruct (Z.lt_ge_cases x p), (Z.lt_ge_cases x (p + 2 ^ o0)), (Z.lt_ge_cases x (p + 2 ^ o));
      intuition lia.
Qed.

Lemma alloc_loop_spec mo n b L o0 o :
  lists_ok mo b L -> 0 <= o0 <= o -> n = Z.to_nat (mo + 1 - o) ->
  (forall o', o0 <= o' < o -> L o' = []) ->
  (alloc_loop n b o0 o = (-1, b) /\ forall o', o0 <= o' <= mo -> L o' = []) \/
  exists p b', alloc_loop n b o0 o = (p, b') /\ 0 < p /\ takes mo b L p o0 b'.
Proof.
  revert o. induction n as [|n IH]; intros o HL Ho Hn Hempty.
  { left. split; [done|]. intros o' Ho'. apply Hempty. lia. }
  pose proof (lo_shape _ _ _ HL) as (_&_&_&_&_&_&Hmo).
  destruct (lo_list _ _ _ HL o ltac:(lia)) as (Hl & _ & _).
  cbn [alloc_loop]. destruct (L o) as [|p l] eqn:E; cbn [is_list] in Hl.
  - rewrite Hl. apply IH; [done|lia|lia|]. intros o' Ho'.
    destruct (decide (o' = o)) as [->|]; [done|]. apply Hempty. lia.
  - destruct Hl as (-> & Hp & _).
    assert (Hpin : p ∈ L o) by (rewrite E; by left).
    destruct (lo_block _ _ _ HL o p ltac:(lia) Hpin) as ((_ & Hp0 & _) & _).
    destruct (Z.ltb_spec p 0); [lia|]. destruct (Z.eqb_spec p 0); [lia|].
    right. eexists _, _. split; [done|]. split; [done|]. by eapply take_block; [done|lia|lia|].
Qed.

(** ** Freeing *)

Lemma lower_buddy mo b L p o q :
  lists_ok mo b L -> block_ok mo (bzone b) p o -> o < mo -> q = Z.lxor p (2 ^ o) -> q ∈ L o ->
  let np := if q <? p then q else p in
  block_ok mo (bzone b) np (o + 1) /\
  (forall x, in_block np (o + 1) x <-> in_block p o x \/ in_block q o x).
Proof.
  intros HL Hb Ho -> Hq. destruct Hb as (B1 & B2 & B3 & B4 & B5).
  pose proof (lo_shape _ _ _ HL) as (_&_&_&_&_&_&Hmo).
  destruct (lo_block _ _ _ HL o _ ltac:(lia) Hq) as ((_ & Q2 & Q3 & Q4 & _) & _).
  pose proof (pow2_succ o ltac:(lia)) as Hsucc. pose proof (pow2_pos o ltac:(lia)).
  unfold block_ok, in_block.
  destruct (buddy_xor p o) as [[Hx Hd]|[Hx Hd]]; [lia..|done| |]; rewrite Hx in *.
  - destruct (Z.ltb_spec (p + 2 ^ o) p); [lia|]. rewrite Hsucc in *.
    split; [split_and!; try lia; done|]. intros x; lia.
  - destruct (Z.ltb_spec (p - 2 ^ o) p); [|lia]. rewrite Hsucc in *.
    split; [split_and!; try lia; done|]. intros x; lia.
Qed.

(** When the loop stops below the top order, the buddy is not free. *)
Definition stops (mo : Z) (L : Z -> list Z) (p o : Z) : Prop :=
  o < mo -> Z.lxor p (2 ^ o) ∉ L o.

Lemma merge_loop_spec mo n b L p o :
  lists_ok mo b L -> block_ok mo (bzone b) p o -> n = Z.to_nat (mo - o) ->
  (forall x, in_block p o x -> ~ free_in L x) ->
  exists b' p' o' L', merge_loop n b p o = (b', p', o') /\
    lists_ok mo b' L' /\ bframe b b' /\ block_ok mo (bzone b) p' o' /\
    (merged mo L -> merged mo L') /\ stops mo L' p' o' /\
    (forall x, in_block p' o' x -> ~ free_in L' x) /\
    (forall x, free_in L' x \/ in_block p' o' x <-> free_in L x \/ in_block p o x).
Proof.
  revert b L p o. induction n as [|n IH]; intros b L p o HL Hb Hn Hf.
  { exists b, p, o, L. split_and!; try done. intros ?. destruct Hb; lia. }
  pose proof (lo_shape _ _ _ HL) as Hs. pose proof Hs as (Hlen & Hmax & Hfa & Hst & Hsp & Hze & Hmo).
  destruct (block_ok_range _ _ _ _ Hs Hb) as (Hor & Hp & Hpz & Hpe).
  assert (Hzend : zone_end (bzone b) = zend (bzone b)).
  { unfold zone_end, zend in *. rewrite add32_id; lia. }
  assert (Hstop : (Z.lxor p (2 ^ o) ∈ L o -> False) ->
    exists b' p' o' L', (b, p, o) = (b', p', o') /\
    lists_ok mo b' L' /\ bframe b b' /\ block_ok mo (bzone b) p' o' /\
    (merged mo L -> merged mo L') /\ stops mo L' p' o' /\
    (forall x, in_block p' o' x -> ~ free_in L' x) /\
    (forall x, free_in L' x \/ in_block p' o' x <-> free_in L x \/ in_block p o x)).
  { intros Hni. exists b, p, o, L. split_and!; try done. by intros _. }
  pose proof (pow2_le o ltac:(lia)) as Hpow.
  cbn [merge_loop]. rewrite shl1 by lia. set (q := Z.lxor p (2 ^ o)) in *.
  rewrite shl1 by lia. rewrite Hzend.
  assert (Hmem : q ∈ L o -> block_ok mo (bzone b) q o /\ is_buddy b q /\ page_order b q = o)
    by (intros; apply (lo_block _ _ _ HL); [lia|done]).
  destruct ((q <? start_pfn (bzone b)) || (zend (bzone b) <=? q)) eqn:E1.
  { apply Hstop. intros Hq. destruct (Hmem Hq) as ((_ & _ & ? & ? & _) & _).
    apply orb_true_iff in E1 as [?%Z.ltb_lt|?%Z.leb_le]; lia. }
  apply orb_false_iff in E1 as [E1%Z.ltb_ge E1'%Z.leb_gt].
  assert (Hnp : 0 <= (if q <? p then q else p) <= 1048576) by (destruct (q <? p); lia).
  rewrite add32_id by (rewrite pow2_succ by lia; lia).
  destruct (Z.ltb_spec (zend (bzone b)) ((if q <? p then q else p) + 2 ^ (o + 1))) as [E2|E2].
  { apply Hstop. intros Hq.
    destruct (lower_buddy mo b L p o q HL Hb ltac:(lia) eq_refl Hq) as [(_&_&_&?&_) _]. lia. }
  destruct (Z.leb_spec (zlen (mem_map b)) q); [lia|].
  destruct (negb _ || negb _) eqn:E3.
  { apply Hstop. intros Hq. destruct (Hmem Hq) as (_ & G1 & G2). unfold is_buddy, page_order in *.
    rewrite G1, G2, Z.eqb_refl in E3. done. }
  apply orb_false_iff in E3 as [E3%negb_false_iff E4%negb_false_iff%Z.eqb_eq].
  assert (Hq : q ∈ L o).
  { destruct (lo_mark _ _ _ HL q) as [_ G]; [split; lia|done|].
    unfold page_order in G. by rewrite E4 in G. }
  destruct (lower_buddy mo b L p o q HL Hb ltac:(lia) eq_refl Hq) as [Hb' Hx'].
  apply list_elem_of_split in Hq as (l1 & l2 & HLo).
  rewrite (buddy_list_remove_eq mo b L o q l1 l2 HL ltac:(lia) HLo).
  pose proof (removed_ok mo b L o q l1 l2 HL ltac:(lia) HLo) as HL1.
  pose proof (bframe_removed mo b L o q l1 l2 HL ltac:(lia) HLo) as HF1.
  pose proof (fun x => free_in_remove mo b L o q l1 l2 x HL ltac:(lia) HLo) as Hx1.
  destruct (IH _ _ (if q <? p then q else p) (o + 1) HL1) as (b' & p' & o' & L' & H1 & H2 & H3 & H4 & H5 & H6 & H7 & H8).
  - by rewrite block_ok_frame.
  - lia.
  - intros x. rewrite Hx', Hx1. intros [?|?]; [|tauto]. specialize (Hf x). tauto.
  - exists b', p', o', L'. rewrite block_ok_frame in H4 by done. split_and!; try done.
    + by etrans.
    + intros Hm. apply H5, merged_remove; [done|]. intros r Hr. rewrite HLo. set_solver.
    + intros x. rewrite H8, Hx', Hx1.
      assert (in_block q o x -> free_in L x).
      { intros ?. exists o, q. split_and!; try done; try lia. rewrite HLo. set_solver. }
      unfold in_block in *. destruct (Z.lt_ge_cases x q), (Z.lt_ge_cases x (q + 2 ^ o)); intuition lia.
Qed.

Lemma trim_order_id n zend pg :
  (n <= 10)%nat -> 0 <= pg <= 1048576 -> pg + 2 ^ Z.of_nat n <= zend ->
  trim_order n zend pg = Z.of_nat n.
Proof.
  intros Hn Hp Hz. destruct n as [|n]; [done|]. cbn [trim_order].
  pose proof (pow2_le (Z.of_nat (S n)) ltac:(lia)).
  rewrite shl1, add32_id by lia. bcase; [lia|done].
Qed.

Lemma free_block_spec mo b L p o :
  lists_ok mo b L -> block_ok mo (bzone b) p o -> (forall x, in_block p o x -> ~ free_in L x) ->
  exists L', lists_ok mo (buddy_free_block mo b p o) L' /\ bframe b (buddy_free_block mo b p o) /\
    (merged mo L -> merged mo L') /\
    (forall x, free_in L' x <-> free_in L x \/ in_block p o x).
Proof.
  intros HL Hb Hf.
  destruct (merge_loop_spec mo _ b L p o HL Hb eq_refl Hf)
    as (b' & p' & o' & L' & E & HL' & HF & Hb' & Hm & Hst & Hf' & Hx).
  unfold buddy_free_block. rewrite E.
  pose proof (lo_shape _ _ _ HL') as Hs'. pose proof Hs' as (Hlen & Hmax & _ & ? & ? & Hze & _).
  assert (Hb2 : block_ok mo (bzone b') p' o') by (by rewrite block_ok_frame).
  destruct (block_ok_range _ _ _ _ Hs' Hb2) as (Hor & Hp & Hpz & Hpe).
  assert (Hzend : zone_end (bzone b') = zend (bzone b')).
  { unfold zone_end, zend in *. rewrite add32_id; lia. }
  rewrite Hzend, trim_order_id by (try (rewrite Z2Nat.id by lia; apply Hb2); lia).
  rewrite Z2Nat.id by lia.
  exists (upd L' o' (p' :: L' o')). split_and!.
  - apply add_ok; try done. eapply disjoint_from_free; [done|lia|done].
  - etrans; [exact HF|]. apply bframe_add; [done|done|lia].
  - intros Hmg. apply merged_add; [by apply Hm|lia|done].
  - intros x. rewrite free_in_add by lia. by rewrite Hx.
Qed.

(** ** Counting *)

Definition frames_of (L : Z -> list Z) (o : Z) : list Z := L o ≫= fun p => seqZ p (2 ^ o).
Definition frames (L : Z -> list Z) : list Z := seqZ 0 11 ≫= frames_of L.

Lemma elem_of_frames L x : x ∈ frames L <-> free_in L x.
Proof.
  unfold frames, frames_of, free_in, in_block. rewrite list_elem_of_bind.
  setoid_rewrite elem_of_seqZ. setoid_rewrite list_elem_of_bind. setoid_rewrite elem_of_seqZ.
  split.
  - intros (o & (p & Hx & Hp) & Ho). exists o, p. split_and!; try done; lia.
  - intros (o & p & Ho & Hp & Hx). exists o. split; [|lia]. exists p. split; [lia|done].
Qed.

Lemma zlen_frames_of L o : 0 <= o -> zlen (frames_of L o) = zlen (L o) * 2 ^ o.
Proof.
  intros Ho. pose proof (pow2_pos o Ho). unfold frames_of, zlen. induction (L o) as [|p l IH]; [done|].
  rewrite bind_cons, length_app, length_seqZ. simpl length. lia.
Qed.

Lemma NoDup_frames mo b L : lists_ok mo b L -> NoDup (frames L).
Proof.
  intros HL. unfold frames, frames_of. apply NoDup_bind; [| |apply NoDup_seqZ].
  - intros o1 o2 x Ho1 Ho2. rewrite !list_elem_of_bind.
    intros (p1 & Hx1 & Hp1) (p2 & Hx2 & Hp2). rewrite elem_of_seqZ in *.
    destruct (lo_disj _ _ _ HL o1 o2 p1 p2) as [[? _]|Hd]; try done; try lia.
    unfold disjoint_blocks in Hd. lia.
  - intros o Ho. apply elem_of_seqZ in Ho. apply NoDup_bind; [| |apply (lo_list _ _ _ HL); lia].
    + intros p1 p2 x Hp1 Hp2 Hx1 Hx2. rewrite elem_of_seqZ in *.
      destruct (lo_disj _ _ _ HL o o p1 p2) as [[_ ?]|Hd]; try done; try lia.
      unfold disjoint_blocks in Hd. lia.
    + intros p _. apply NoDup_seqZ.
Qed.

Lemma free_in_bounds mo b L x : lists_ok mo b L -> free_in L x -> 0 < x /\ in_zone (bzone b) x.
Proof.
  intros HL (o & p & Ho & Hp & Hx). destruct (lo_block _ _ _ HL o p Ho Hp) as ((_ & ? & ? & ? & _) & _).
  unfold in_block, in_zone in *. lia.
Qed.

Lemma frames_bound mo b L : lists_ok mo b L -> zlen (frames L) <= spanned_pages (bzone b).
Proof.
  intros HL. pose proof (NoDup_frames _ _ _ HL) as Hnd.
  assert (Hincl : list_to_set (C := gset Z) (frames L)
            ⊆ list_to_set (seqZ (start_pfn (bzone b)) (spanned_pages (bzone b)))).
  { intros x. rewrite !elem_of_list_to_set, elem_of_frames, elem_of_seqZ.
    intros [_ Hx]%(free_in_bounds _ _ _ _ HL). unfold in_zone, zend in Hx. lia. }
  apply subseteq_size in Hincl.
  rewrite !size_list_to_set in Hincl by (done || apply NoDup_seqZ).
  rewrite length_seqZ in Hincl. destruct (lo_shape _ _ _ HL) as (_&_&_&_&?&_). unfold zlen. lia.
Qed.

Lemma add32_u32 a c : u32 a +w u32 c = u32 (a + c).
Proof. unfold add32, u32. by rewrite <- Z.add_mod. Qed.

Lemma sum_wraps L z os a :
  (forall o, o ∈ os -> 0 <= o /\ nr_free (area z o) = zlen (L o)) ->
  foldl (fun free o => free +w (nr_free (area z o) <<w o)) (u32 a) os
    = u32 (a + zlen (os ≫= frames_of L)).
Proof.
  revert a. induction os as [|o os IH]; intros a Ho; cbn [foldl].
  { unfold zlen. simpl. by rewrite Z.add_0_r. }
  destruct (Ho o) as [Ho1 Ho2]; [by left|]. rewrite Ho2. unfold shl32.
  rewrite Z.shiftl_mul_pow2, <- zlen_frames_of, add32_u32 by done.
  rewrite IH by (intros; apply Ho; by right). f_equal.
  rewrite bind_cons. unfold zlen. rewrite length_app. lia.
Qed.

Lemma zone_free_pages_frames mo b L :
  lists_ok mo b L -> zone_free_pages (bzone b) = zlen (frames L).
Proof.
  intros HL. unfold zone_free_pages. change 0 with (u32 0) at 1.
  rewrite (sum_wraps L).
  - apply u32_id. pose proof (frames_bound _ _ _ HL). destruct (lo_shape _ _ _ HL) as (_&?&_&?&?&?&_).
    unfold zend, is_u32 in *. change (seqZ 0 MAX_ORDER ≫= frames_of L) with (frames L).
    unfold zlen in *. lia.
  - intros o Ho. apply elem_of_seqZ in Ho. unfold MAX_ORDER in Ho. split; [lia|].
    apply (lo_list _ _ _ HL). lia.
Qed.

(** ** Completeness of the merged lists *)

(** Two aligned blocks that meet are nested. *)
Lemma nested p a q c x :
  0 <= a <= c -> (2 ^ a | p) -> (2 ^ c | q) -> in_block p a x -> in_block q c x ->
  q <= p /\ p + 2 ^ a <= q + 2 ^ c.
Proof.
  unfold in_block. intros Hac [k ->] [m ->] Hx1 Hx2.
  pose proof (pow2_pos a ltac:(lia)). pose proof (pow2_pos (c - a) ltac:(lia)).
  assert (E : 2 ^ c = 2 ^ (c - a) * 2 ^ a) by (rewrite <- Z.pow_add_r by lia; f_equal; lia).
  rewrite E in *. assert (m * 2 ^ (c - a) < k + 1) by nia.
  assert (k < m * 2 ^ (c - a) + 2 ^ (c - a)) by nia. split; nia.
Qed.

(** In merged lists no block lies strictly inside an aligned run of free
    frames. *)
Lemma no_small_block mo b L p o :
  lists_ok mo b L -> merged mo L -> 0 <= o <= mo -> (2 ^ o | p) ->
  (forall x, in_block p o x -> free_in L x) ->
  forall o' q, 0 <= o' < o -> q ∈ L o' -> p <= q -> q + 2 ^ o' <= p + 2 ^ o -> False.
Proof.
  intros HL Hm Ho Hp Hfree o'.
  pose proof (lo_shape _ _ _ HL) as (_&_&_&_&_&_&Hmo).
  induction (Z.lt_wf 0 o') as [o' _ IH]. intros q Ho' Hq Hq1 Hq2.
  destruct (lo_block _ _ _ HL o' q ltac:(lia) Hq) as ((_ & Q1 & _ & _ & Qd) & _).
  pose proof (pow2_pos o' ltac:(lia)) as Hpos.
  assert (Hinside : p <= Z.lxor q (2 ^ o') /\ Z.lxor q (2 ^ o') + 2 ^ o' <= p + 2 ^ o /\
    (2 ^ o' | Z.lxor q (2 ^ o')) /\
    exists np, (2 ^ (o' + 1) | np) /\ in_block np (o' + 1) q /\
      in_block np (o' + 1) (Z.lxor q (2 ^ o'))).
  { pose proof (pow2_succ o' ltac:(lia)) as Hs.
    destruct (buddy_xor q o') as [[-> Hd]|[-> Hd]]; [lia|lia|done| |].
    - destruct (nested q (o' + 1) p o q) as [? ?]; [lia|done|done|unfold in_block; lia..|].
      split_and!; [lia|lia|by apply Z.divide_add_r|]. exists q. unfold in_block. split_and!; try lia; done.
    - destruct (nested (q - 2 ^ o') (o' + 1) p o q) as [? ?]; [lia|done|done|unfold in_block; lia..|].
      split_and!; [lia|lia|by apply Z.divide_sub_r|].
      exists (q - 2 ^ o'). unfold in_block. split_and!; try lia; done. }
  destruct Hinside as (I1 & I2 & I3 & np & N1 & N2 & N3). set (r := Z.lxor q (2 ^ o')) in *.
  destruct (Hfree r) as (o2 & r2 & Ho2 & Hr2 & Hx); [unfold in_block; lia|].
  destruct (lo_block _ _ _ HL o2 r2 Ho2 Hr2) as ((_ & _ & _ & _ & Rd) & _).
  assert (Hrr : in_block r o' r) by (unfold in_block; lia).
  destruct (Z.lt_trichotomy o2 o') as [Hlt|[->|Hgt]].
  - destruct (nested r2 o2 r o' r) as [? ?]; [lia|done..|].
    eapply (IH o2 ltac:(lia) r2); [lia|done|lia|lia].
  - destruct (nested r2 o' r o' r) as [? ?]; [lia|done..|]. assert (r2 = r) by lia. subst r2.
    eapply (Hm o' q); [lia|done|done].
  - destruct (nested np (o' + 1) r2 o2 r) as [? ?]; [lia|done..|].
    destruct (lo_disj _ _ _ HL o' o2 q r2) as [[? _]|Hd]; try done; try lia.
    unfold disjoint_blocks, in_block in *. lia.
Qed.

Lemma run_in_list mo b L p o :
  lists_ok mo b L -> merged mo L -> 0 <= o <= mo -> (2 ^ o | p) ->
  (forall x, in_block p o x -> free_in L x) -> exists o', o <= o' <= mo /\ L o' <> [].
Proof.
  intros HL Hm Ho Hp Hfree. pose proof (pow2_pos o ltac:(lia)).
  destruct (Hfree p) as (o' & q & Ho' & Hq & Hx); [unfold in_block; lia|].
  destruct (lo_block _ _ _ HL o' q Ho' Hq) as ((? & _ & _ & _ & Qd) & _).
  destruct (Z.lt_ge_cases o' o).
  - exfalso. destruct (nested q o' p o p) as [? ?]; [lia|done|done|done|unfold in_block; lia|].
    by eapply (no_small_block mo b L p o HL Hm Ho Hp Hfree o' q); [lia|..].
  - exists o'. split; [lia|]. intros E. rewrite E in Hq. set_solver.
Qed.

(** ** The invariant and the correctness of the operations *)

Definition buddy_ok (mo : Z) (b : buddy) : Prop := exists L, lists_ok mo b L /\ merged mo L.

(** ** Changes the buddy lists do not see *)

(** The free lists of the zone and what they look at are the same. *)
Definition bagree (b b' : buddy) : Prop :=
  start_pfn (bzone b') = start_pfn (bzone b) /\ spanned_pages (bzone b') = spanned_pages (bzone b) /\
  free_areas (bzone b') = free_areas (bzone b) /\
  zlen (buddy_next b') = zlen (buddy_next b) /\ zlen (mem_map b') = zlen (mem_map b) /\
  forall q, in_zone (bzone b) q ->
    znth (buddy_next b') q = znth (buddy_next b) q /\
    has (flags (znth (mem_map b') q)) PG_BUDDY = has (flags (znth (mem_map b) q)) PG_BUDDY /\
    page_order b' q = page_order b q.

Lemma bagree_zone b b' : bagree b b' -> forall q, in_zone (bzone b') q <-> in_zone (bzone b) q.
Proof. intros (E1 & E2 & _) q. unfold in_zone, zend. by rewrite E1, E2. Qed.

Lemma bagree_page_free b b' : bagree b b' -> forall x, page_free b' x <-> page_free b x.
Proof.
  intros Ha x. pose proof (bagree_zone b b' Ha) as Hz. destruct Ha as (_ & _ & _ & _ & _ & Hq).
  unfold page_free, is_buddy.
  split; intros (p & H1 & H2 & H3); exists p; rewrite Hz in *; destruct (Hq p H1) as (_ & Q2 & Q3);
    rewrite Q2, Q3 in *; done.
Qed.

Lemma bagree_lists_ok mo b b' L : bagree b b' -> lists_ok mo b L -> lists_ok mo b' L.
Proof.
  intros Ha HL. pose proof (bagree_zone b b' Ha) as Hz. pose proof (lo_shape _ _ _ HL) as Hs.
  destruct Ha as (E1 & E2 & E3 & E4 & E5 & Hq).
  assert (Harea : forall o, area (bzone b') o = area (bzone b) o) by (intros o; unfold area; by rewrite E3).
  assert (Hmem : forall o p, 0 <= o < 11 -> p ∈ L o -> in_zone (bzone b) p).
  { intros o p Ho Hp. destruct (lo_block _ _ _ HL o p Ho Hp) as (B & _).
    by destruct (block_ok_range _ _ _ _ Hs B) as (_ & _ & ? & _). }
  split.
  - unfold zone_shape, zend in *. by rewrite E1, E2, E3, E4, E5.
  - intros o Ho. rewrite Harea. destruct (lo_list _ _ _ HL o Ho) as (Hl & ? & ?). split_and!; try done.
    eapply is_list_frame; [done| |exact Hl]. intros q Hqin. by destruct (Hq q (Hmem o q Ho Hqin)).
  - intros o p Ho Hp. destruct (lo_block _ _ _ HL o p Ho Hp) as (B1 & B2 & B3).
    destruct (Hq p (Hmem o p Ho Hp)) as (_ & Q2 & Q3). unfold is_buddy in *. rewrite Q2, Q3.
    split; [|done]. unfold block_ok, zend in *. by rewrite E1, E2.
  - intros p Hzp Hb. apply Hz in Hzp. destruct (Hq p Hzp) as (_ & Q2 & Q3).
    unfold is_buddy in Hb. rewrite Q2 in Hb. rewrite Q3. by apply (lo_mark _ _ _ HL).
  - apply HL.
Qed.

Lemma bagree_buddy_ok mo b b' : bagree b b' -> buddy_ok mo b -> buddy_ok mo b'.
Proof. intros Ha (L & HL & Hm). exists L. split; [by eapply bagree_lists_ok|done]. Qed.

(** The outcome of an allocation, stated on the free set. *)
Definition alloc_post (mo : Z) (b : buddy) (o p : Z) (b' : buddy) : Prop :=
  (p = -1 /\ b' = b /\
   forall q, (2 ^ o | q) -> ~ (forall x, in_block q o x -> page_free b x)) \/
  (block_ok mo (bzone b) p o /\ page_order b' p = o /\ buddy_ok mo b' /\ bframe b b' /\
   (forall x, in_block p o x -> page_free b x) /\
   forall x, page_free b' x <-> page_free b x /\ ~ in_block p o x).

Lemma buddy_alloc_post mo b o :
  buddy_ok mo b -> 0 <= o <= mo ->
  alloc_post mo b o (buddy_alloc mo b o).1 (buddy_alloc mo b o).2.
Proof.
  intros (L & HL & Hm) Ho. unfold buddy_alloc.
  destruct (alloc_loop_spec mo _ b L o o HL ltac:(lia) eq_refl ltac:(lia))
    as [[-> Hempty]|(p & b' & -> & Hp & L' & HL' & HF & Hb & Hord & Hm' & Hin & Hx)].
  - left. split_and!; try done. intros q Hq Hrun.
    destruct (run_in_list mo b L q o HL Hm Ho Hq) as (o' & Ho' & Hne).
    + intros x Hx. by apply (page_free_iff _ _ _ _ HL), Hrun.
    + apply Hne, Hempty. lia.
  - right. split_and!; try done.
    + exists L'. split; [done|by apply Hm'].
    + intros x. rewrite (page_free_iff _ _ _ _ HL). apply Hin.
    + intros x. cbn [snd]. by rewrite (page_free_iff _ _ _ _ HL), (page_free_iff _ _ _ _ HL').
Qed.

Lemma buddy_free_post mo b p o :
  buddy_ok mo b -> block_ok mo (bzone b) p o -> (forall x, in_block p o x -> ~ page_free b x) ->
  buddy_ok mo (buddy_free_block mo b p o) /\ bframe b (buddy_free_block mo b p o) /\
  forall x, page_free (buddy_free_block mo b p o) x <-> page_free b x \/ in_block p o x.
Proof.
  intros (L & HL & Hm) Hb Hf.
  destruct (free_block_spec mo b L p o HL Hb) as (L' & HL' & HF & Hm' & Hx).
  { intros x Hx. rewrite <- (page_free_iff _ _ _ _ HL). by apply Hf. }
  split_and!; try done.
  - exists L'. split; [done|by apply Hm'].
  - intros x. by rewrite (page_free_iff _ _ _ _ HL), (page_free_iff _ _ _ _ HL').
Qed.

(** A zone with empty lists and no marked page is well-formed. *)
Lemma empty_ok mo b :
  zone_shape mo b ->
  (forall o, 0 <= o < 11 -> area (bzone b) o = Free_area (-1) 0) ->
  (forall p, in_zone (bzone b) p -> ~ is_buddy b p) -> buddy_ok mo b.
Proof.
  intros Hs Ha Hp. exists (fun _ => []). split; [|by intros ? ? ? ?%elem_of_nil].
  split; [done|..].
  - intros o Ho. rewrite Ha by done. split_and!; [done|done|constructor].
  - by intros ? ? ? ?%elem_of_nil.
  - intros p Hz Hb. by destruct (Hp p).
  - by intros ? ? ? ? ? ? ?%elem_of_nil.
Qed.

(** C18: [buddy_alloc] on a well-formed zone.  It fails, changing nothing, only
    if the zone has no aligned run of [2^order] free frames (because free
    buddies are always merged); otherwise it returns the first frame of an
    aligned block of free frames, sets the page's order, removes exactly the
    block's frames from the free set, keeps the zone well-formed and leaves
    everything but the free lists, [PG_BUDDY] and page orders of the zone
    alone. *)
Theorem buddy_alloc_correct mo b o :
  buddy_ok mo b -> 0 <= o <= mo ->
  let '(p, b') := buddy_alloc mo b o in
  (p = -1 /\ b' = b /\
   forall q, (2 ^ o | q) -> ~ (forall x, in_block q o x -> page_free b x)) \/
  (block_ok mo (bzone b) p o /\ page_order b' p = o /\ buddy_ok mo b' /\ bframe b b' /\
   (forall x, in_block p o x -> page_free b x) /\
   forall x, page_free b' x <-> page_free b x /\ ~ in_block p o x).
Proof.
  intros Hok Ho. pose proof (buddy_alloc_post mo b o Hok Ho) as H.
  by destruct (buddy_alloc mo b o).
Qed.

(** C6: [buddy_free_block] of an aligned block of a well-formed zone, none of
    whose frames is free: the block's frames join the free set and no others,
    the zone stays well-formed (in particular merged as far as possible), and
    everything but the free lists, [PG_BUDDY] and page orders of the zone is
    left alone. *)
Theorem buddy_free_block_correct mo b p o :
  buddy_ok mo b -> block_ok mo (bzone b) p o -> (forall x, in_block p o x -> ~ page_free b x) ->
  buddy_ok mo (buddy_free_block mo b p o) /\ bframe b (buddy_free_block mo b p o) /\
  forall x, page_free (buddy_free_block mo b p o) x <-> page_free b x \/ in_block p o x.
Proof. apply buddy_free_post. Qed.

(** [zone_free_pages] is the exact number of free frames of a well-formed
    zone (the 32-bit sum over the orders does not wrap). *)
Theorem zone_free_pages_correct mo b :
  buddy_ok mo b ->
  exists X : gset Z, (forall x, x ∈ X <-> page_free b x) /\
    zone_free_pages (bzone b) = Z.of_nat (size X).
Proof.
  intros (L & HL & _). exists (list_to_set (frames L)). split.
  - intros x. by rewrite elem_of_list_to_set, elem_of_frames, (page_free_iff _ _ _ _ HL).
  - rewrite (zone_free_pages_frames _ _ _ HL), size_list_to_set by (by eapply NoDup_frames). done.
Qed.

(** ** A small zone: 16 frames, blocks of up to 8 *)

Module Small.
Definition z0 : zone :=
  Zone ZONE_NORMAL 0 16 16 16 [0; 0; 0] (replicate 11 (Free_area (-1) 0)) [] 0.
Definition b0 : buddy := Buddy z0 (replicate 16 (-1)) (replicate 16 (Page 0 0 0 0 0 0 [])).

(** The zone after frames 8 to 15 were freed one by one. *)
Definition b1 : buddy := foldl (fun b p => buddy_free_block 3 b p 0) b0 (seqZ 8 8).

Lemma merged_to_one :
  map free_list (free_areas (bzone b1)) = [-1; -1; -1; 8; -1; -1; -1; -1; -1; -1; -1] /\
  zone_free_pages (bzone b1) = 8.
Proof. vm_compute. done. Qed.

Lemma alloc_splits :
  let '(p, b) := buddy_alloc 3 b1 1 in
  p = 8 /\ map free_list (free_areas (bzone b)) = [-1; 10; 12; -1; -1; -1; -1; -1; -1; -1; -1].
Proof. vm_compute. done. Qed.

(** The eight single frames freed so far. *)
Lemma frees_ok n :
  (n <= 8)%nat ->
  let b := foldl (fun b p => buddy_free_block 3 b p 0) b0 (seqZ 8 (Z.of_nat n)) in
  buddy_ok 3 b /\ bframe b0 b /\ forall x, page_free b x <-> 8 <= x < 8 + Z.of_nat n.
Proof.
  intros Hn. induction n as [|n IH].
  - cbn [foldl seqZ]. change (seqZ 8 (Z.of_nat 0)) with (@nil Z). cbn [foldl].
    assert (Hnb : forall p, in_zone z0 p -> ~ is_buddy b0 p).
    { intros p Hz. unfold is_buddy, b0, znth. cbn [mem_map].
      destruct (Z.to_nat p) as [|[|[|[|[|[|[|[|[|[|[|[|[|[|[|[|k]]]]]]]]]]]]]]]]; done. }
    split_and!; [|done|].
    + apply empty_ok; [done| |done]. intros o Ho. unfold area. cbn [bzone b0 z0 free_areas]. unfold znth.
      rewrite lookup_total_replicate_2 by lia. done.
    + intros x. split; [|lia]. intros (p & Hz & Hb & _). by destruct (Hnb p).
  - replace (Z.of_nat (S n)) with (Z.of_nat n + 1) by lia.
    rewrite seqZ_app by lia. rewrite foldl_app. cbn zeta.
    destruct (IH ltac:(lia)) as (Hok & HF & Hx). set (b := foldl _ b0 _) in *.
    change (seqZ (8 + Z.of_nat n) 1) with [0 + (8 + Z.of_nat n)]. cbn [foldl].
    destruct (buddy_free_post 3 b (0 + (8 + Z.of_nat n)) 0) as (H1 & H2 & H3); [done| | |].
    + rewrite block_ok_frame by done. unfold block_ok. cbn [bzone b0 z0 start_pfn]. unfold zend. simpl.
      split_and!; try lia. apply Z.divide_1_l.
    + intros x Hin. rewrite Hx. unfold in_block in Hin. lia.
    + split_and!; [done|by etrans|]. intros x. rewrite H3, Hx. unfold in_block. lia.
Qed.

Lemma b1_ok : buddy_ok 3 b1 /\ bframe b0 b1 /\ forall x, page_free b1 x <-> 8 <= x < 16.
Proof. exact (frees_ok 8 (le_n 8)). Qed.
End Small.

Lemma buddy_alloc_correct_witness :
  (buddy_alloc 3 Small.b1 1).1 = 8 /\ 0 <= 1 <= 3 /\ buddy_ok 3 Small.b1 /\
  (forall x, in_block 8 1 x -> page_free Small.b1 x).
Proof.
  pose proof (proj1 Small.b1_ok) as Hok.
  pose proof (buddy_alloc_correct 3 Small.b1 1 Hok ltac:(lia)) as H.
  assert (E : (buddy_alloc 3 Small.b1 1).1 = 8) by (vm_compute; reflexivity).
  split; [exact E|]. split; [lia|]. split; [exact Hok|].
  destruct (buddy_alloc 3 Small.b1 1) as [p b']. cbn [fst] in E. subst p.
  destruct H as [(? & _)|(_ & _ & _ & _ & H & _)]; [lia|exact H].
Defined.

Lemma buddy_free_block_correct_witness :
  page_free (buddy_free_block 3 Small.b1 4 2) 6 <-> page_free Small.b1 6 \/ in_block 4 2 6.
Proof.
  destruct Small.b1_ok as (Hok & HF & Hx).
  apply (buddy_free_block_correct 3 Small.b1 4 2 Hok).
  - rewrite (block_ok_frame Small.b0 Small.b1 3 4 2 HF). unfold block_ok, zend. simpl.
    split_and!; try lia. exists 1. reflexivity.
  - intros x Hin Hc. pose proof (proj1 (Hx x) Hc). unfold in_block in Hin. simpl in Hin. lia.
Defined.

Lemma zone_free_pages_correct_witness :
  exists X : gset Z, (forall x, x ∈ X <-> page_free Small.b1 x) /\ Z.of_nat (size X) = 8.
Proof.
  destruct (zone_free_pages_correct 3 Small.b1 (proj1 Small.b1_ok)) as (X & H1 & H2).
  exists X. split; [exact H1|]. rewrite <- H2. vm_compute. reflexivity.
Defined.
