(* ===== verification/PageAlloc.v ===== *)
(** * The page allocator ([mm/page_alloc.c], [mm/mmzone.c], [mm/vmscan.c])

    The state of the allocator is one record: the page array and the link
    array shared by the zones, the DMA and the normal zone, the zone lists,
    the boot allocator it starts from, and the counters of [vmscan.c].  The
    page cache, the write-back code, the slab shrinker and the swap code, which
    reclaim calls, are an interface: functions on the allocator's state
    and the state [X] of the rest of the kernel. *)

From stdpp Require Import base tactics numbers list gmap sets.
From Stdlib Require Import ZArith Lia.
From S2P Require Import Prelude Bootmem Buddy.

(** ** State *)

Definition MAX_DMA_PFN : Z := 4096.
Definition GFP_KERNEL : Z := 0.
Definition GFP_DMA : Z := 1.
Definition WMARK_MIN : Z := 0.
Definition WMARK_LOW : Z := 1.
Definition WMARK_HIGH : Z := 2.

Record kswapd_stats : Type := Kswapd {
  kswapd_running : bool;
  kswapd_wakeups : Z;
  kswapd_tries : Z;
  kswapd_reclaims : Z;
  kswapd_anon_reclaims : Z;
  kswapd_file_reclaims : Z;
}.

Record pa : Type := Pa {
  pages : list page;            (* mem_map, of mem_map_pages elements; empty before init_zones *)
  next : list Z;                (* buddy_next *)
  zone_dma : zone;
  zone_normal : zone;
  contig_zonelist : list zone_type;
  dma_zonelist : list zone_type;
  buddy_max_order : Z;
  buddy_ready : bool;
  total_pages : Z;
  managed_pages_total : Z;
  bootmem : bootmem_data;
  kswapd : kswapd_stats;
}.

Definition get_zone (s : pa) (t : zone_type) : zone :=
  match t with ZONE_DMA => zone_dma s | ZONE_NORMAL => zone_normal s end.

(** The state with a zone, the links and the pages replaced. *)
Definition put (s : pa) (t : zone_type) (b : buddy) : pa :=
  Pa (mem_map b) (buddy_next b)
    (match t with ZONE_DMA => bzone b | ZONE_NORMAL => zone_dma s end)
    (match t with ZONE_DMA => zone_normal s | ZONE_NORMAL => bzone b end)
    (contig_zonelist s) (dma_zonelist s) (buddy_max_order s) (buddy_ready s) (total_pages s)
    (managed_pages_total s) (bootmem s) (kswapd s).

(** The view of one zone that the buddy functions work on. *)
Definition view (s : pa) (t : zone_type) : buddy := Buddy (get_zone s t) (next s) (pages s).

Definition with_pages (s : pa) (ps : list page) : pa :=
  put s ZONE_DMA (Buddy (zone_dma s) (next s) ps).

Definition with_bootmem (s : pa) (bm : bootmem_data) : pa :=
  Pa (pages s) (next s) (zone_dma s) (zone_normal s) (contig_zonelist s) (dma_zonelist s)
    (buddy_max_order s) (buddy_ready s) (total_pages s) (managed_pages_total s) bm (kswapd s).

Definition with_kswapd (s : pa) (k : kswapd_stats) : pa :=
  Pa (pages s) (next s) (zone_dma s) (zone_normal s) (contig_zonelist s) (dma_zonelist s)
    (buddy_max_order s) (buddy_ready s) (total_pages s) (managed_pages_total s) (bootmem s) k.

Definition set_lru (z : zone) (l : list Z) (n : Z) : zone :=
  Zone (type z) (start_pfn z) (spanned_pages z) (present_pages z) (managed_pages z) (watermark z)
    (free_areas z) l n.

(** [pfn_to_page(pfn)] is not NULL. *)
Definition page_exists (s : pa) (pfn : Z) : bool := pfn <? zlen (pages s).

Definition pfn_to_zone (s : pa) (pfn : Z) : zone_type :=
  if negb (spanned_pages (zone_dma s) =? 0) && (pfn <? MAX_DMA_PFN) then ZONE_DMA else ZONE_NORMAL.

(** ** The inactive list *)

Definition lru_add_inactive (s : pa) (pfn : Z) : pa :=
  if negb (page_exists s pfn) then s else
  let pg := znth (pages s) pfn in
  if has (flags pg) (Z.lor (Z.lor PG_BUDDY PG_RESERVED) (Z.lor PG_LRU PG_ISOLATED)) then s else
  let t := pfn_to_zone s pfn in
  let z := get_zone s t in
  put s t (Buddy (set_lru z (inactive_list z ++ [pfn]) (nr_inactive z +w 1)) (next s)
             (upd_page (pages s) pfn (set_bit PG_LRU))).

(** [list_del] unlinks the page's node wherever it is. *)
Definition lru_del (s : pa) (pfn : Z) : pa :=
  if negb (page_exists s pfn) then s else
  if negb (has (flags (znth (pages s) pfn)) PG_LRU) then s else
  let t := pfn_to_zone s pfn in
  let z := get_zone s t in
  put s t (Buddy (set_lru z (filter (fun q => q <> pfn) (inactive_list z)) (dec (nr_inactive z))) (next s)
             (upd_page (pages s) pfn (clear_bit PG_LRU))).

(** ** Reclaim ([mm/vmscan.c]) *)

(** [wakeup_kswapd] counts. *)
Definition wakeup_kswapd (s : pa) : pa :=
  let k := kswapd s in
  if kswapd_running k then
    with_kswapd s (Kswapd true (kswapd_wakeups k +w 1) (kswapd_tries k) (kswapd_reclaims k)
                     (kswapd_anon_reclaims k) (kswapd_file_reclaims k))
  else s.

Definition kswapd_init (s : pa) : pa :=
  let k := kswapd s in
  with_kswapd s (Kswapd true (kswapd_wakeups k) (kswapd_tries k) (kswapd_reclaims k)
                   (kswapd_anon_reclaims k) (kswapd_file_reclaims k)).

Definition count_try (s : pa) : pa :=
  let k := kswapd s in
  with_kswapd s (Kswapd (kswapd_running k) (kswapd_wakeups k) (kswapd_tries k +w 1) (kswapd_reclaims k)
                   (kswapd_anon_reclaims k) (kswapd_file_reclaims k)).

Definition count_file (s : pa) : pa :=
  let k := kswapd s in
  with_kswapd s (Kswapd (kswapd_running k) (kswapd_wakeups k) (kswapd_tries k) (kswapd_reclaims k +w 1)
                   (kswapd_anon_reclaims k) (kswapd_file_reclaims k +w 1)).

Definition count_anon (s : pa) : pa :=
  let k := kswapd s in
  with_kswapd s (Kswapd (kswapd_running k) (kswapd_wakeups k) (kswapd_tries k) (kswapd_reclaims k +w 1)
                   (kswapd_anon_reclaims k +w 1) (kswapd_file_reclaims k)).

Record scan_control : Type := Scan { may_writepage : bool; may_unmap : bool; may_swap : bool }.

(** The reclaimers of the other subsystems; the results are C [int]s. *)
Class Reclaimers (X : Type) := {
  page_cache_reclaim_one : pa * X -> Z * (pa * X);
  writeback_flush_all : pa * X -> Z * (pa * X);
  slab_reclaim_one : pa * X -> Z * (pa * X);
  swap_out_page : Z -> pa * X -> Z * (pa * X);
}.

Section alloc.
Context {X : Type} `{!Reclaimers X}.

Definition on_pa (f : pa -> pa) (w : pa * X) : pa * X := (f w.1, w.2).

(** The file part of [shrink_zone]: whether something was reclaimed. *)
Definition shrink_file (sc : scan_control) (w : pa * X) : bool * (pa * X) :=
  if may_unmap sc then
    let '(r1, w1) := page_cache_reclaim_one w in
    if negb (r1 =? 0) then (true, on_pa count_file w1) else
    let '(ok, w2) :=
      if may_writepage sc then
        let '(n, w') := writeback_flush_all w1 in
        if 0 <? n then let '(r2, w'') := page_cache_reclaim_one w' in (negb (r2 =? 0), w'')
        else (false, w')
      else (false, w1) in
    if ok then (true, on_pa count_file w2) else
    let '(r3, w3) := slab_reclaim_one w2 in
    if negb (r3 =? 0) then (true, on_pa count_file w3) else (false, w3)
  else (false, w).

(** Taking the first page off the inactive list. *)
Definition isolate (t : zone_type) (pg : Z) (s : pa) : pa :=
  let z := get_zone s t in
  put s t (Buddy (set_lru z (tail (inactive_list z)) (dec (nr_inactive z))) (next s)
             (upd_page (pages s) pg (fun p => set_bit PG_ISOLATED (clear_bit PG_LRU p)))).

Definition putback (t : zone_type) (pg : Z) (s : pa) : pa :=
  let z := get_zone s t in
  put s t (Buddy (set_lru z (inactive_list z ++ [pg]) (nr_inactive z +w 1)) (next s)
             (upd_page (pages s) pg (fun p => set_bit PG_LRU (clear_bit PG_ISOLATED p)))).

Definition shrink_zone (t : zone_type) (order : Z) (sc : scan_control) (w : pa * X) : Z * (pa * X) :=
  let '(done, w1) := shrink_file sc (on_pa count_try w) in
  if done then (1 <<w order, w1) else
  match may_unmap sc && may_swap sc, inactive_list (get_zone w1.1 t) with
  | true, pg :: _ =>
      let '(r, w2) := swap_out_page pg (on_pa (isolate t pg) w1) in
      if r =? 0 then (1 <<w order, on_pa count_anon w2)
      else (0, on_pa (putback t pg) w2)
  | _, _ => (0, w1)
  end.

Definition try_to_free_pages (t : zone_type) (order : Z) (w : pa * X) : Z * (pa * X) :=
  shrink_zone t order (Scan true true true) w.

Definition alloc_build_scan_control : scan_control := Scan true true true.

Definition alloc_reclaim_slowpath (t : zone_type) (order : Z) (w : pa * X) : pa * X :=
  (shrink_zone t order alloc_build_scan_control (on_pa wakeup_kswapd w)).2.

(** ** Allocation *)

Definition default_zonelist_for_gfp (s : pa) (gfp_mask : Z) : list zone_type :=
  if has gfp_mask GFP_DMA then dma_zonelist s else contig_zonelist s.

Definition zone_watermark_ok (z : zone) (order mark : Z) : bool :=
  let free_pages := zone_free_pages z in
  let needed := 1 <<w order in
  if free_pages <? needed then false
  else znth (watermark z) mark <? free_pages -w needed.

(** [pg->refcount = 1] for the pages of a run. *)
Definition take_refs (s : pa) (frame order : Z) : pa :=
  with_pages s (foldl (fun ps i => upd_page ps i (set_refcount 1)) (pages s) (seqZ frame (1 <<w order))).

(** One zone in one pass; [None] is [continue]. *)
Definition try_zone (pass gfp_mask order : Z) (t : zone_type) (w : pa * X) : option Z * (pa * X) :=
  let z := get_zone w.1 t in
  if (pass =? 0) && negb (zone_watermark_ok z order WMARK_HIGH) then (None, w)
  else if (pass =? 1) && negb (zone_watermark_ok z order WMARK_LOW) then (None, on_pa wakeup_kswapd w)
  else if (pass =? 2) && negb (zone_watermark_ok z order WMARK_MIN)
  then (None, alloc_reclaim_slowpath t order w)
  else
    let '(frame, b) := buddy_alloc (buddy_max_order w.1) (view w.1 t) order in
    let s1 := put w.1 t b in
    if frame <? 0 then (None, (s1, w.2))
    else (Some frame, (take_refs s1 frame order, w.2)).

Fixpoint try_zones (pass gfp_mask order : Z) (zs : list zone_type) (w : pa * X) : option Z * (pa * X) :=
  match zs with
  | [] => (None, w)
  | t :: zs' =>
      match try_zone pass gfp_mask order t w with
      | (Some frame, w') => (Some frame, w')
      | (None, w') => try_zones pass gfp_mask order zs' w'
      end
  end.

Fixpoint try_passes (ps : list Z) (gfp_mask order : Z) (zs : list zone_type) (w : pa * X)
  : option Z * (pa * X) :=
  match ps with
  | [] => (None, w)
  | pass :: ps' =>
      match try_zones pass gfp_mask order zs w with
      | (Some frame, w') => (Some frame, w')
      | (None, w') => try_passes ps' gfp_mask order zs w'
      end
  end.

(** The path before [mem_init]: pages come from the boot allocator. *)
Definition alloc_pages_boot (order : Z) (s : pa) : option Z * pa :=
  match bootmem_alloc (bootmem s) (PAGE_SIZE <<w order) PAGE_SIZE with
  | (None, bm) => (None, with_bootmem s bm)
  | (Some addr, bm) =>
      if addr =? 0 then (None, with_bootmem s bm) else
      let frame := addr / PAGE_SIZE in
      let s1 := take_refs (with_bootmem s bm) frame order in
      (if page_exists s1 frame then Some frame else None, s1)
  end.

(** [zonelist] is NULL in every caller; the result is the frame of the page
    returned, [None] for NULL. *)
Definition __alloc_pages_nodemask (gfp_mask order : Z) (w : pa * X) : option Z * (pa * X) :=
  if negb (buddy_ready w.1) then
    let '(r, s) := alloc_pages_boot order w.1 in (r, (s, w.2))
  else try_passes [0; 1; 2] gfp_mask order (default_zonelist_for_gfp w.1 gfp_mask) w.

(** At most [tries] rounds; frame 0 is reserved and another page is taken. *)
Fixpoint alloc_tries (tries : nat) (gfp order : Z) (w : pa * X) : option Z * (pa * X) :=
  match tries with
  | O => (None, w)
  | S tries' =>
      match __alloc_pages_nodemask gfp order w with
      | (None, w1) => (None, w1)
      | (Some pfn, w1) =>
          if pfn =? 0 then
            alloc_tries tries' gfp order
              (on_pa (fun s => with_pages s (upd_page (pages s) pfn
                 (fun p => set_refcount 1 (set_bit PG_RESERVED p)))) w1)
          else (Some (pfn *w PAGE_SIZE), w1)
      end
  end.

(** The physical address, [None] for NULL. *)
Definition alloc_pages (gfp order : Z) (w : pa * X) : option Z * (pa * X) :=
  alloc_tries 4 gfp order w.

(** The pages [paging_init] takes for the kernel page tables: one for the
    directory, one for each 4 MB of low memory.  [None] is [panic]; without a
    page for the directory it returns.  Its checks of the layout of the
    address space do not touch the allocator. *)
Fixpoint paging_tables (low_pdes : nat) (w : pa * X) : option (pa * X) :=
  match low_pdes with
  | O => Some w
  | S n => match alloc_pages GFP_KERNEL 0 w with
           | (None, _) => None
           | (Some _, w1) => paging_tables n w1
           end
  end.

Definition kernel_pdes (lowmem : Z) : Z :=
  let low_pdes := (lowmem +w (4194304 - 1)) / 4194304 in
  if 1024 - 768 <? low_pdes then 1024 - 768 else low_pdes.

Definition paging_init (w : pa * X) : option (pa * X) :=
  match alloc_pages GFP_KERNEL 0 w with
  | (None, w1) => Some w1
  | (Some _, w1) => paging_tables (Z.to_nat (kernel_pdes (Bootmem.lowmem_end (bootmem w1.1)))) w1
  end.
End alloc.

(** ** Freeing *)

(** One page of the loop in [free_pages]: [can_free] is threaded. *)
Definition free_one (r : pa * bool) (idx : Z) : pa * bool :=
  let '(s, can_free) := r in
  if negb (page_exists s idx) then (s, can_free) else
  let s1 := if has (flags (znth (pages s) idx)) PG_LRU then lru_del s idx else s in
  let rc := refcount (znth (pages s1) idx) in
  if 1 <? rc then (with_pages s1 (upd_page (pages s1) idx (set_refcount (rc - 1))), false)
  else if rc =? 1 then (with_pages s1 (upd_page (pages s1) idx (set_refcount 0)), can_free)
  else (s1, can_free).

(** [None] is [panic]. *)
Definition free_pages (s : pa) (addr order : Z) : option pa :=
  if PAGE_OFFSET <=? addr then None
  else if negb (Z.land addr (PAGE_SIZE - 1) =? 0) then None
  else
    let frame := addr / PAGE_SIZE in
    if negb (total_pages s =? 0) && (total_pages s <=? frame) then None
    else
      let run := 1 <<w order in
      if run =? 0 then Some s
      else if negb (buddy_ready s) then Some s
      else
        let '(s1, can_free) := foldl free_one (s, true) (seqZ frame run) in
        if negb can_free then Some s1
        else
          let t := pfn_to_zone s1 frame in
          Some (put s1 t (buddy_free_block (buddy_max_order s1) (view s1 t) frame order)).

Definition __free_pages (s : pa) (pfn order : Z) : option pa :=
  free_pages s (pfn *w PAGE_SIZE) order.

Definition get_page (s : pa) (addr : Z) : pa :=
  let frame := addr / PAGE_SIZE in
  if negb (page_exists s frame) then s else
  let rc := refcount (znth (pages s) frame) in
  if rc =? 0 then with_pages s (upd_page (pages s) frame (set_refcount 1))
  else if rc <? 65535 then with_pages s (upd_page (pages s) frame (set_refcount (rc + 1)))
  else s.

Definition page_ref_count (s : pa) (addr : Z) : Z :=
  let frame := addr / PAGE_SIZE in
  if negb (page_exists s frame) then 0 else refcount (znth (pages s) frame).

Definition nr_free_pages (s : pa) : Z :=
  let n1 := if negb (spanned_pages (zone_dma s) =? 0) then zone_free_pages (zone_dma s) else 0 in
  if negb (spanned_pages (zone_normal s) =? 0) then n1 +w zone_free_pages (zone_normal s) else n1.

Definition totalram_pages (s : pa) : Z :=
  if negb (managed_pages_total s =? 0) then managed_pages_total s else total_pages s.

(** ** Initialisation *)

Definition SIZEOF_PAGE : Z := 32.

Definition build_all_zonelists (s : pa) : pa :=
  let dma := if negb (spanned_pages (zone_dma s) =? 0) then [ZONE_DMA] else [] in
  let normal := if negb (spanned_pages (zone_normal s) =? 0) then [ZONE_NORMAL] else [] in
  Pa (pages s) (next s) (zone_dma s) (zone_normal s) (dma ++ normal) dma
    (buddy_max_order s) (buddy_ready s) (total_pages s) (managed_pages_total s) (bootmem s) (kswapd s).

Definition set_wmarks (z : zone) (n : Z) : zone :=
  Zone (type z) (start_pfn z) (spanned_pages z) (present_pages z) (managed_pages z)
    [n / 64; n / 32; n / 16] (free_areas z) (inactive_list z) (nr_inactive z).

Definition setup_per_zone_wmarks (s : pa) : pa :=
  Pa (pages s) (next s) (set_wmarks (zone_dma s) (managed_pages (zone_dma s)))
    (set_wmarks (zone_normal s) (managed_pages (zone_normal s))) (contig_zonelist s) (dma_zonelist s)
    (buddy_max_order s) (buddy_ready s) (total_pages s) (managed_pages_total s) (bootmem s) (kswapd s).

(** A zone as [init_zones] leaves it. *)
Definition fresh_zone (t : zone_type) (start spanned present : Z) : zone :=
  Zone t start spanned present present [spanned / 64; spanned / 32; spanned / 16]
    (replicate 11 (Free_area (-1) 0)) [] 0.

Definition init_zones (s : pa) : pa :=
  let total := Bootmem.total_pages (bootmem s) in
  if total =? 0 then s else
  match bootmem_alloc (bootmem s) (SIZEOF_PAGE *w total) PAGE_SIZE with
  | (None, bm) => with_bootmem s bm
  | (Some addr, bm) =>
      if addr =? 0 then with_bootmem s bm else
      let dma_pages := if MAX_DMA_PFN <? total then MAX_DMA_PFN else total in
      Pa (replicate (Z.to_nat total) (Page PG_RESERVED 0 0 0 0 0 [])) (next s)
        (fresh_zone ZONE_DMA 0 dma_pages (bootmem_present_pages bm 0 dma_pages))
        (fresh_zone ZONE_NORMAL dma_pages (total -w dma_pages) (bootmem_present_pages bm dma_pages total))
        (contig_zonelist s) (dma_zonelist s) (buddy_max_order s) (buddy_ready s) (total_pages s)
        (managed_pages_total s) bm (kswapd s)
  end.

(** [while (buddy_max_order > 0 && (1u << buddy_max_order) > total_pages) buddy_max_order--] *)
Fixpoint max_order_loop (n : nat) (total : Z) : Z :=
  match n with
  | O => 0
  | S n' => if total <? 1 <<w Z.of_nat n then max_order_loop n' total else Z.of_nat n
  end.

(** [mem_kb] is [mem_lower + mem_upper] when the loader gives it, else 0;
    [None] is [panic]. *)
Definition free_area_init_core (s : pa) (mem_kb : Z) : option pa :=
  let tp := Bootmem.total_pages (bootmem s) in
  let total := if tp =? 0 then (mem_kb *w 1024) / PAGE_SIZE else tp in
  match bootmem_alloc (bootmem s) (total *w 4) PAGE_SIZE with
  | (None, _) => None
  | (Some addr, bm) =>
      if addr =? 0 then None else
      Some (Pa (pages s) (replicate (Z.to_nat total) (-1)) (zone_dma s) (zone_normal s)
        (contig_zonelist s) (dma_zonelist s)
        (max_order_loop 10 total) (buddy_ready s) total (managed_pages_total s) bm (kswapd s))
  end.

(** The pages of one available region of the memory map lose [PG_RESERVED],
    except those the boot allocator holds; [n] pages are left, [pfn] is the
    next one. *)
Fixpoint unreserve_run (n : nat) (bm : bootmem_data) (total pfn : Z) (ps : list page) : list page :=
  match n with
  | O => ps
  | S n' =>
      if total <=? pfn then ps
      else unreserve_run n' bm total (pfn +w 1)
             (if bootmem_is_reserved bm (pfn *w PAGE_SIZE) PAGE_SIZE then ps
              else upd_page ps pfn (clear_bit PG_RESERVED))
  end.

Definition unreserve_entry (bm : bootmem_data) (total : Z) (ps : list page) (e : bootmem_e820_entry)
  : list page :=
  if negb (e_type e =? MULTIBOOT_MEMORY_AVAILABLE) then ps
  else if e_base e <? 1048576 then ps
  else unreserve_run (Z.to_nat (e_size e / PAGE_SIZE)) bm total (e_base e / PAGE_SIZE) ps.

Definition count_managed (z : zone) : zone :=
  Zone (type z) (start_pfn z) (spanned_pages z) (present_pages z) (managed_pages z +w 1) (watermark z)
    (free_areas z) (inactive_list z) (nr_inactive z).

Definition zero_managed (z : zone) : zone :=
  Zone (type z) (start_pfn z) (spanned_pages z) (present_pages z) 0 (watermark z)
    (free_areas z) (inactive_list z) (nr_inactive z).

(** One round of the second loop of [mem_init]. *)
Definition release_page (s : pa) (i : Z) : pa :=
  if negb (page_exists s i) then s else
  let pg := znth (pages s) i in
  if has (flags pg) PG_RESERVED then s else
  let t := pfn_to_zone s i in
  let s1 := put s t (Buddy (count_managed (get_zone s t)) (next s) (pages s)) in
  if has (flags pg) PG_BUDDY then s1
  else put s1 t (buddy_free_block (buddy_max_order s1) (view s1 t) i 0).

(** [None] is [panic]: no memory map. *)
Definition mem_init (s : pa) (mmap : option (list bootmem_e820_entry)) : option pa :=
  if (total_pages s =? 0) || (zlen (next s) =? 0) then Some s else
  match mmap with
  | None => None
  | Some ms =>
      let ps := foldl (unreserve_entry (bootmem s) (total_pages s)) (pages s) ms in
      let s1 := Pa ps (next s) (zero_managed (zone_dma s)) (zero_managed (zone_normal s))
        (contig_zonelist s) (dma_zonelist s) (buddy_max_order s) (buddy_ready s) (total_pages s)
        (managed_pages_total s) (bootmem s) (kswapd s) in
      let s2 := foldl release_page s1 (seqZ 0 (total_pages s)) in
      let s3 := setup_per_zone_wmarks s2 in
      Some (Pa (pages s3) (next s3) (zone_dma s3) (zone_normal s3) (contig_zonelist s3) (dma_zonelist s3)
        (buddy_max_order s3) true (total_pages s3)
        (managed_pages (zone_dma s3) +w managed_pages (zone_normal s3)) (bootmem s3) (kswapd s3))
  end.

(** ** The invariant *)

Definition free_page (s : pa) (x : Z) : Prop := exists t, page_free (view s t) x.

(** The two zones split the frames at [MAX_DMA_PFN]. *)
Definition zones_ok (s : pa) : Prop :=
  zlen (next s) = total_pages s /\ zlen (pages s) = total_pages s /\ 0 < total_pages s <= 1048576 /\
  start_pfn (zone_dma s) = 0 /\ spanned_pages (zone_dma s) = Z.min 4096 (total_pages s) /\
  start_pfn (zone_normal s) = Z.min 4096 (total_pages s) /\
  spanned_pages (zone_normal s) = total_pages s - Z.min 4096 (total_pages s) /\
  0 <= buddy_max_order s <= 10.

Definition zonelists_ok (s : pa) : Prop :=
  (forall t, t ∈ contig_zonelist s <-> spanned_pages (get_zone s t) <> 0) /\
  dma_zonelist s = [ZONE_DMA].

Definition watermarks_ok (z : zone) : Prop :=
  znth (watermark z) WMARK_MIN <= znth (watermark z) WMARK_LOW <= znth (watermark z) WMARK_HIGH.

(** The inactive list holds exactly the [PG_LRU] pages of the zone. *)
Definition lru_ok (z : zone) (ps : list page) : Prop :=
  NoDup (inactive_list z) /\ nr_inactive z = zlen (inactive_list z) /\
  forall p, p ∈ inactive_list z <-> in_zone z p /\ has (flags (znth ps p)) PG_LRU = true.

(** A free frame is not referenced and not on the inactive list. *)
Definition idle (p : page) : Prop := refcount p = 0 /\ has (flags p) PG_LRU = false.

Record pa_ok (s : pa) : Prop := PaOk {
  ok_zones : zones_ok s;
  ok_lists : zonelists_ok s;
  ok_wmarks t : watermarks_ok (get_zone s t);
  ok_buddy t : buddy_ok (buddy_max_order s) (view s t);
  ok_lru t : lru_ok (get_zone s t) (pages s);
  ok_free x : free_page s x -> idle (znth (pages s) x);
}.

(** ** Zones *)

Lemma in_zone_total s t q : zones_ok s -> in_zone (get_zone s t) q -> 0 <= q < total_pages s.
Proof. intros (?&?&?&?&?&?&?&?). destruct t; unfold in_zone, zend; simpl; lia. Qed.

Lemma zones_disjoint s t t' q :
  zones_ok s -> in_zone (get_zone s t) q -> in_zone (get_zone s t') q -> t = t'.
Proof. intros (?&?&?&?&?&?&?&?). destruct t, t'; unfold in_zone, zend; simpl; try done; lia. Qed.

Lemma zone_of_pfn s q :
  zones_ok s -> 0 <= q < total_pages s -> in_zone (get_zone s (pfn_to_zone s q)) q.
Proof.
  intros (?&?&?&Hs&Hp&Hn&Hnp&?) Hq. unfold pfn_to_zone, MAX_DMA_PFN.
  destruct (Z.eqb_spec (spanned_pages (zone_dma s)) 0); [lia|].
  destruct (Z.ltb_spec q 4096); unfold in_zone, zend; simpl; lia.
Qed.

Lemma zone_of_pfn_eq s t q :
  zones_ok s -> in_zone (get_zone s t) q -> pfn_to_zone s q = t.
Proof.
  intros Hz Hq. eapply zones_disjoint; [done| |done]. apply zone_of_pfn; [done|]. by eapply in_zone_total.
Qed.

Lemma free_page_zone s x : zones_ok s -> (forall t, buddy_ok (buddy_max_order s) (view s t)) ->
  free_page s x -> 0 < x < total_pages s.
Proof.
  intros Hz Hb [t Hx]. destruct (Hb t) as (L & HL & _). rewrite (page_free_iff _ _ _ _ HL) in Hx.
  destruct (free_in_bounds _ _ _ _ HL Hx) as [? Hin]. pose proof (in_zone_total s t x Hz Hin). lia.
Qed.

Lemma page_free_in_zone mo b x : buddy_ok mo b -> page_free b x -> in_zone (bzone b) x.
Proof.
  intros (L & HL & _) Hx. rewrite (page_free_iff _ _ _ _ HL) in Hx.
  by destruct (free_in_bounds _ _ _ _ HL Hx).
Qed.

Lemma free_page_in s t x :
  zones_ok s -> (forall t, buddy_ok (buddy_max_order s) (view s t)) ->
  in_zone (get_zone s t) x -> free_page s x <-> page_free (view s t) x.
Proof.
  intros Hz Hb Hin. split; [|by exists t]. intros [t' Hx].
  pose proof (page_free_in_zone _ _ _ (Hb t') Hx) as Hin'.
  by rewrite (zones_disjoint s t t' x Hz Hin Hin').
Qed.

Lemma put_view s t : put s t (view s t) = s.
Proof. by destruct s, t. Qed.

Lemma get_put s t b : get_zone (put s t b) t = bzone b.
Proof. by destruct t. Qed.

Lemma get_put_ne s t t' b : t <> t' -> get_zone (put s t b) t' = get_zone s t'.
Proof. by destruct t, t'. Qed.

Lemma view_put s t b : view (put s t b) t = b.
Proof. by destruct t, b. Qed.

(** A change within zone [t] leaves the other zone's lists alone. *)
Lemma bagree_other s t t' b :
  zones_ok s -> bframe (view s t) b -> t <> t' -> bagree (view s t') (view (put s t b) t').
Proof.
  intros Hz (_ & Hl1 & Hl2 & Hout & _) Hne. unfold bagree, view, page_order.
  rewrite get_put_ne by done. cbn [bzone buddy_next mem_map put next pages] in *.
  split_and!; try done. intros q Hq. assert (0 <= q) by (by apply (in_zone_total s t')).
  destruct (Hout q) as [-> ->]; [done| |done].
  intros Hq'. apply Hne. by eapply zones_disjoint.
Qed.

(** The [page_rest] of a frame decides whether it is idle. *)
Lemma idle_rest p p' : page_rest p' = page_rest p -> idle p <-> idle p'.
Proof. unfold page_rest, idle. by intros [= _ -> _ -> _ _ _ _]. Qed.

Lemma lru_ok_rest z z' ps ps' :
  zone_static z' = zone_static z ->
  (forall q, in_zone z q -> page_rest (znth ps' q) = page_rest (znth ps q)) ->
  lru_ok z ps -> lru_ok z' ps'.
Proof.
  intros Hz Hq (H1 & H2 & H3).
  unfold zone_static in Hz. injection Hz as _ E1 E2 _ _ _ E3 E4.
  unfold lru_ok, in_zone, zend in *. rewrite E1, E2, E3, E4. split_and!; try done.
  intros p. rewrite H3. split; intros [P1 P2]; (split; [done|]); specialize (Hq p P1);
    unfold page_rest in Hq; congruence.
Qed.

(** ** Preservation, generically *)

(** A change of one zone's lists. *)
Lemma pa_ok_put s t b :
  pa_ok s -> bframe (view s t) b -> buddy_ok (buddy_max_order s) b ->
  (forall x, page_free b x -> idle (znth (pages s) x)) ->
  pa_ok (put s t b) /\
  (forall x, free_page (put s t b) x <->
     page_free b x \/ (free_page s x /\ ~ in_zone (get_zone s t) x)).
Proof.
  intros Hok HF Hb Hidle. pose proof (ok_zones _ Hok) as Hz.
  pose proof HF as (Hst & Hl1 & Hl2 & Hout & Hrest). cbn [view bzone buddy_next mem_map] in *.
  assert (Hst' : forall t', zone_static (get_zone (put s t b) t') = zone_static (get_zone s t')).
  { intros t'. destruct (decide (t = t')) as [<-|]; [by rewrite get_put|by rewrite get_put_ne]. }
  assert (Hspan : forall t', start_pfn (get_zone (put s t b) t') = start_pfn (get_zone s t') /\
    spanned_pages (get_zone (put s t b) t') = spanned_pages (get_zone s t') /\
    watermark (get_zone (put s t b) t') = watermark (get_zone s t')).
  { intros t'. specialize (Hst' t'). unfold zone_static in Hst'. injection Hst'. intros. done. }
  assert (Hfree : forall x, free_page (put s t b) x <->
     page_free b x \/ (free_page s x /\ ~ in_zone (get_zone s t) x)).
  { intros x. split.
    - intros [t' Hx]. destruct (decide (t = t')) as [<-|Hne]; [left; by rewrite view_put in Hx|].
      rewrite (bagree_page_free _ _ (bagree_other s t t' b Hz HF Hne)) in Hx. right.
      split; [by exists t'|]. pose proof (page_free_in_zone _ _ _ (ok_buddy _ Hok t') Hx) as Hin.
      intros Hin'. apply Hne. by eapply zones_disjoint.
    - intros [Hx|[[t' Hx] Hnin]]; [exists t; by rewrite view_put|]. exists t'.
      assert (Hne : t <> t').
      { intros <-. apply Hnin. by apply (page_free_in_zone _ _ _ (ok_buddy _ Hok t)). }
      by rewrite (bagree_page_free _ _ (bagree_other s t t' b Hz HF Hne)). }
  split; [|done]. split.
  - destruct (Hspan ZONE_DMA) as (S1 & S2 & _), (Hspan ZONE_NORMAL) as (S3 & S4 & _).
    unfold zones_ok in *. cbn [get_zone] in *. rewrite S1, S2, S3, S4. cbn [put next pages total_pages buddy_max_order].
    rewrite Hl1, Hl2. done.
  - destruct (ok_lists _ Hok) as [Hc Hd]. split; [|done]. intros t'. cbn [put contig_zonelist].
    rewrite Hc. destruct (Hspan t') as (_ & E & _). by rewrite E.
  - intros t'. destruct (Hspan t') as (_ & _ & E). unfold watermarks_ok. rewrite E. apply (ok_wmarks _ Hok).
  - intros t'. destruct (decide (t = t')) as [<-|Hne]; [by rewrite view_put|].
    eapply bagree_buddy_ok; [by apply bagree_other|]. apply (ok_buddy _ Hok).
  - intros t'. eapply lru_ok_rest; [apply Hst'| |apply (ok_lru _ Hok t')].
    intros q Hq. apply Hrest. by apply (in_zone_total s t').
  - intros x Hx. pose proof Hx as Hx'. apply Hfree in Hx'.
    assert (Hx0 : 0 <= x).
    { destruct Hx' as [Hx'|[Hx' _]].
      - pose proof (page_free_in_zone _ _ _ Hb Hx') as Hin. destruct (zone_of_frame _ _ HF) as [E1 E2].
        unfold in_zone, zend in Hin. rewrite E1, E2 in Hin. by apply (in_zone_total s t x Hz).
      - pose proof (free_page_zone s x Hz (ok_buddy _ Hok) Hx'). lia. }
    cbn [put pages]. rewrite <- (idle_rest _ _ (Hrest x Hx0)).
    destruct Hx' as [Hx'|[Hx' _]]; [by apply Hidle|by apply (ok_free _ Hok)].
Qed.

(** A change of pages that keeps [PG_BUDDY], [PG_LRU] and the orders, and
    the free pages idle (reference counts, mapping fields, other flags). *)
Definition refs_only (ps ps' : list page) : Prop :=
  zlen ps' = zlen ps /\
  forall q, 0 <= q ->
    has (flags (znth ps' q)) PG_BUDDY = has (flags (znth ps q)) PG_BUDDY /\
    has (flags (znth ps' q)) PG_LRU = has (flags (znth ps q)) PG_LRU /\
    order (znth ps' q) = order (znth ps q).

Lemma get_with_pages s ps t : get_zone (with_pages s ps) t = get_zone s t.
Proof. by destruct t. Qed.

Lemma pa_ok_refs s ps :
  pa_ok s -> refs_only (pages s) ps ->
  (forall x, free_page s x -> refcount (znth ps x) = 0) ->
  pa_ok (with_pages s ps) /\ (forall x, free_page (with_pages s ps) x <-> free_page s x).
Proof.
  intros Hok [Hlen Hq] Hidle. pose proof (ok_zones _ Hok) as Hz.
  assert (Ha : forall t, bagree (view s t) (view (with_pages s ps) t)).
  { intros t. unfold bagree, view, page_order. rewrite get_with_pages. cbn [bzone buddy_next mem_map].
    split_and!; try done. intros q Hin.
    destruct (Hq q) as (Q1 & _ & Q3); [by apply (in_zone_total s t)|]. done. }
  assert (Hfree : forall x, free_page (with_pages s ps) x <-> free_page s x).
  { intros x. unfold free_page. split; intros [t Hx]; exists t;
      by rewrite (bagree_page_free _ _ (Ha t)) in *. }
  split; [|done]. split.
  - unfold zones_ok in *. cbn [with_pages put zone_dma zone_normal next pages total_pages buddy_max_order].
    cbn [bzone mem_map buddy_next]. rewrite Hlen. done.
  - destruct (ok_lists _ Hok) as [Hc Hd]. split; [|done]. intros t.
    rewrite get_with_pages. apply Hc.
  - intros t. rewrite get_with_pages. apply (ok_wmarks _ Hok).
  - intros t. eapply bagree_buddy_ok; [apply Ha|]. apply (ok_buddy _ Hok).
  - intros t. rewrite get_with_pages. destruct (ok_lru _ Hok t) as (L1 & L2 & L3).
    split_and!; try done. intros p. rewrite L3. cbn [with_pages put pages mem_map].
    split; intros [P1 P2]; (split; [done|]); destruct (Hq p) as (_ & Q2 & _);
      try (by apply (in_zone_total s t)); congruence.
  - intros x Hx. apply Hfree in Hx. cbn [with_pages put pages mem_map].
    destruct (ok_free _ Hok x Hx) as [_ Hl]. split; [by apply Hidle|].
    pose proof (free_page_zone s x Hz (ok_buddy _ Hok) Hx).
    destruct (Hq x) as (_ & -> & _); [lia|done].
Qed.

(** Setting the reference counts of a run. *)
Lemma take_refs_pages ps l q r :
  0 <= r < 65536 -> 0 <= q < zlen ps -> (forall i, i ∈ l -> 0 <= i) ->
  let ps' := foldl (fun ps i => upd_page ps i (set_refcount r)) ps l in
  zlen ps' = zlen ps /\
  znth ps' q = if decide (q ∈ l) then set_refcount r (znth ps q) else znth ps q.
Proof.
  intros Hr. revert ps. induction l as [|i l IH]; intros ps Hq Hl; cbn [foldl]; cbv zeta in *.
  { split; [done|]. rewrite decide_False by set_solver. done. }
  destruct (IH (upd_page ps i (set_refcount r))) as [IH1 IH2].
  { by rewrite zlen_upd_page. }
  { set_solver. }
  rewrite IH1, IH2, zlen_upd_page. split; [done|].
  assert (Hi : 0 <= i) by set_solver.
  assert (E : znth (upd_page ps i (set_refcount r)) q =
    if decide (i = q) then set_refcount r (znth ps q) else znth ps q).
  { destruct (Z.lt_ge_cases i (zlen ps)); [apply znth_upd_page; lia|].
    unfold upd_page. destruct (Z.leb_spec (zlen ps) i); [|lia]. by rewrite decide_False by lia. }
  rewrite E. repeat case_decide; try done; set_solver.
Qed.

(** ** Allocation from a zone *)

(** The mapping fields of a page ([mm/rmap.c]). *)
Definition page_maps (p : page) := (mapcount p, map_mm p, map_vaddr p, rmap_list p).

(** What a successful allocation of the block [p], [o] from zone [t] does. *)
Record granted (s : pa) (t : zone_type) (p o : Z) (s' : pa) : Prop := Granted {
  gr_block : block_ok (buddy_max_order s) (get_zone s t) p o;
  gr_was_free x : in_block p o x -> free_page s x;
  gr_free x : free_page s' x <-> free_page s x /\ ~ in_block p o x;
  gr_refs x : in_block p o x -> refcount (znth (pages s') x) = 1;
  gr_rest x : 0 <= x < total_pages s -> ~ in_block p o x ->
    page_rest (znth (pages s') x) = page_rest (znth (pages s) x);
  gr_maps x : 0 <= x < total_pages s -> page_maps (znth (pages s') x) = page_maps (znth (pages s) x);
  gr_count : zone_free_pages (get_zone s' t) = zone_free_pages (get_zone s t) - 2 ^ o;
  gr_static : zone_static (get_zone s' t) = zone_static (get_zone s t);
}.

Lemma elem_of_run p o x : 0 <= o <= 11 -> x ∈ seqZ p (1 <<w o) <-> in_block p o x.
Proof. intros Ho. rewrite shl1, elem_of_seqZ by done. done. Qed.

(** The free count drops by the size of the block taken. *)
Lemma free_count_drop mo b b' p o :
  buddy_ok mo b -> buddy_ok mo b' -> 0 <= o ->
  (forall x, in_block p o x -> page_free b x) ->
  (forall x, page_free b' x <-> page_free b x /\ ~ in_block p o x) ->
  zone_free_pages (bzone b') = zone_free_pages (bzone b) - 2 ^ o.
Proof.
  intros (L & HL & _) (L' & HL' & _) Ho Hin Hx.
  rewrite (zone_free_pages_frames _ _ _ HL), (zone_free_pages_frames _ _ _ HL').
  assert (Hset : list_to_set (C := gset Z) (frames L') =
    list_to_set (frames L) ∖ list_to_set (seqZ p (2 ^ o))).
  { apply set_eq. intros x. rewrite elem_of_difference, !elem_of_list_to_set, !elem_of_frames, elem_of_seqZ.
    rewrite <- (page_free_iff _ _ _ _ HL), <- (page_free_iff _ _ _ _ HL'), Hx. done. }
  apply (f_equal base.size) in Hset. rewrite size_difference in Hset.
  2:{ intros x. rewrite !elem_of_list_to_set, elem_of_frames, elem_of_seqZ.
      rewrite <- (page_free_iff _ _ _ _ HL). apply Hin. }
  rewrite !size_list_to_set in Hset by (apply NoDup_seqZ || by eapply NoDup_frames).
  rewrite length_seqZ in Hset.
  assert (Hle : (length (seqZ p (2 ^ o)) <= length (frames L))%nat).
  { rewrite <- !(size_list_to_set (C := gset Z)) by (apply NoDup_seqZ || by eapply NoDup_frames).
    apply subseteq_size. intros x. rewrite !elem_of_list_to_set, elem_of_frames, elem_of_seqZ.
    rewrite <- (page_free_iff _ _ _ _ HL). apply Hin. }
  rewrite length_seqZ in Hle. pose proof (pow2_pos o Ho). unfold zlen. lia.
Qed.

Lemma alloc_in_zone s t o :
  pa_ok s -> 0 <= o ->
  let r := buddy_alloc (buddy_max_order s) (view s t) o in
  (r.1 = -1 /\ put s t r.2 = s) \/
  (0 < r.1 /\ pa_ok (take_refs (put s t r.2) r.1 o) /\
   granted s t r.1 o (take_refs (put s t r.2) r.1 o)).
Proof.
  intros Hok Ho. cbv zeta. destruct (Z.lt_ge_cases (buddy_max_order s) o) as [Hbig|Hle].
  { left. unfold buddy_alloc. replace (Z.to_nat _) with O by lia. cbn [alloc_loop fst snd].
    split; [done|apply put_view]. }
  pose proof (buddy_alloc_post (buddy_max_order s) (view s t) o (ok_buddy _ Hok t) ltac:(lia)) as HP.
  destruct (buddy_alloc (buddy_max_order s) (view s t) o) as [p b]. cbn [fst snd] in *.
  destruct HP as [(E1 & E2 & _)|(Hb & _ & Hok' & HF & Hin & Hx)].
  { left. split; [done|]. rewrite E2. apply put_view. }
  right.
  pose proof (ok_zones _ Hok) as Hz. pose proof Hz as (_ & Htot & _ & _ & _ & _ & _ & Hmo).
  destruct (ok_buddy _ Hok t) as (L & HL & _).
  destruct (block_ok_range _ _ _ _ (lo_shape _ _ _ HL) Hb) as (Ho10 & Hp & Hpz & Hpe).
  cbn [view mem_map bzone] in Hp, Hpz, Hpe.
  destruct (pa_ok_put s t b Hok HF Hok') as [Hok1 Hfree1].
  { intros x Hxf. apply Hx in Hxf as [Hxf _]. apply (ok_free _ Hok). by exists t. }
  assert (Hfree : forall x, free_page (put s t b) x <-> free_page s x /\ ~ in_block p o x).
  { intros x. rewrite Hfree1, Hx. split.
    - intros [[G1 G2]|[G1 G2]]; [split; [by exists t|done]|]. split; [done|].
      intros Hxb. apply G2. destruct Hb as (_ & _ & ? & ? & _). unfold in_zone, in_block, view in *. simpl in *. lia.
    - intros [[t' G1] G2]. destruct (decide (t = t')) as [<-|Hne]; [by left|].
      right. split; [by exists t'|]. intros Hxz. apply Hne.
      eapply zones_disjoint; [done|done|]. by apply (page_free_in_zone _ _ _ (ok_buddy _ Hok t')). }
  assert (Hlen : zlen (pages (put s t b)) = zlen (pages s)) by (cbn [put pages]; apply HF).
  assert (Hrun : forall q, 0 <= q < zlen (pages s) ->
    znth (pages (take_refs (put s t b) p o)) q =
      if decide (q ∈ seqZ p (1 <<w o)) then set_refcount 1 (znth (mem_map b) q) else znth (mem_map b) q).
  { intros q Hq. destruct (take_refs_pages (pages (put s t b)) (seqZ p (1 <<w o)) q 1) as [_ E]; try lia.
    - intros i Hi. rewrite elem_of_run in Hi by lia. unfold in_block in Hi. lia.
    - exact E. }
  assert (Hblock : forall x, in_block p o x -> 0 <= x < zlen (pages s)) by (unfold in_block; lia).
  destruct HF as (Hst & _ & _ & _ & Hrest). cbn [view mem_map bzone] in Hrest, Hst.
  split; [lia|]. destruct (pa_ok_refs (put s t b) (pages (take_refs (put s t b) p o)) Hok1) as [Hok2 Hfree2].
  { destruct (take_refs_pages (pages (put s t b)) (seqZ p (1 <<w o)) p 1) as [E _]; try lia.
    { intros i Hi. rewrite elem_of_run in Hi by lia. unfold in_block in Hi. lia. }
    split; [exact E|]. intros q Hq. destruct (Z.lt_ge_cases q (zlen (pages s))).
    - rewrite Hrun by lia. case_decide; done.
    - assert (Hdef : forall ps : list page, zlen ps <= q -> znth ps q = inhabitant).
      { intros ps Hps. unfold znth, zlen in *. rewrite list_lookup_total_alt.
        by rewrite lookup_ge_None_2 by lia. }
      rewrite !Hdef; [done|cbn [put pages] in *; lia|]. etrans; [apply Z.eq_le_incl, E|]. lia. }
  { intros x Hxf. apply Hfree in Hxf as [Hxf Hnb].
    pose proof (free_page_zone s x Hz (ok_buddy _ Hok) Hxf).
    rewrite Hrun by lia. rewrite decide_False by (rewrite elem_of_run by lia; done).
    destruct (ok_free _ Hok x Hxf) as [Hr _].
    specialize (Hrest x ltac:(lia)). unfold page_rest in Hrest. congruence. }
  split; [exact Hok2|]. split.
  - exact Hb.
  - intros x Hxb. exists t. by apply Hin.
  - intros x. etrans; [apply Hfree2|]. apply Hfree.
  - intros x Hxb. rewrite Hrun by (by apply Hblock).
    rewrite decide_True by (rewrite elem_of_run by lia; done). done.
  - intros x Hx0 Hnb. rewrite Hrun by lia.
    rewrite decide_False by (rewrite elem_of_run by lia; done). apply Hrest. lia.
  - intros x Hx0. rewrite Hrun by lia. specialize (Hrest x ltac:(lia)). unfold page_rest in Hrest.
    unfold page_maps. case_decide; cbn; congruence.
  - unfold take_refs. rewrite get_with_pages, get_put.
    apply (free_count_drop (buddy_max_order s) (view s t) b p o); try done. apply (ok_buddy _ Hok).
  - unfold take_refs. rewrite get_with_pages, get_put. exact Hst.
Qed.

(** ** The inactive list *)

Lemma has_lru_isolated_keep p :
  has (flags (set_bit PG_ISOLATED (clear_bit PG_LRU p))) PG_BUDDY = has (flags p) PG_BUDDY /\
  has (flags (set_bit PG_ISOLATED (clear_bit PG_LRU p))) PG_LRU = false /\
  has (flags (set_bit PG_LRU (clear_bit PG_ISOLATED p))) PG_BUDDY = has (flags p) PG_BUDDY /\
  has (flags (set_bit PG_LRU (clear_bit PG_ISOLATED p))) PG_LRU = true /\
  has (flags (set_bit PG_LRU p)) PG_BUDDY = has (flags p) PG_BUDDY /\
  has (flags (set_bit PG_LRU p)) PG_LRU = true /\
  has (flags (clear_bit PG_LRU p)) PG_BUDDY = has (flags p) PG_BUDDY /\
  has (flags (clear_bit PG_LRU p)) PG_LRU = false.
Proof.
  cbn [flags set_bit clear_bit set_flags].
  change PG_BUDDY with (2 ^ 0). change PG_LRU with (2 ^ 2). change PG_ISOLATED with (2 ^ 3).
  split_and!; repeat first [rewrite has_set by lia | rewrite has_clear by lia
    | rewrite has_set_ne by lia | rewrite has_clear_ne by lia]; done.
Qed.

(** A change of one page's [PG_LRU] together with the list of its zone. *)
Definition relist (s : pa) (t : zone_type) (pg : Z) (l : list Z) (n : Z) (f : page -> page) : pa :=
  put s t (Buddy (set_lru (get_zone s t) l n) (next s) (upd_page (pages s) pg f)).

Lemma pa_ok_relist s t pg l n f :
  pa_ok s -> in_zone (get_zone s t) pg ->
  has (flags (f (znth (pages s) pg))) PG_BUDDY = has (flags (znth (pages s) pg)) PG_BUDDY ->
  order (f (znth (pages s) pg)) = order (znth (pages s) pg) ->
  refcount (f (znth (pages s) pg)) = refcount (znth (pages s) pg) ->
  NoDup l -> n = zlen l ->
  (forall q, q ∈ l <-> if decide (q = pg) then has (flags (f (znth (pages s) pg))) PG_LRU = true
                      else q ∈ inactive_list (get_zone s t)) ->
  (has (flags (f (znth (pages s) pg))) PG_LRU = true -> ~ free_page s pg) ->
  pa_ok (relist s t pg l n f) /\ (forall x, free_page (relist s t pg l n f) x <-> free_page s x).
Proof.
  intros Hok Hin Fb Fo Fr Hnd Hn Hl Hfl. pose proof (ok_zones _ Hok) as Hz.
  pose proof (in_zone_total s t pg Hz Hin) as Hpg. pose proof Hz as (Hz1 & Hz2 & _).
  assert (Hq : forall q, 0 <= q -> znth (upd_page (pages s) pg f) q =
    if decide (pg = q) then f (znth (pages s) q) else znth (pages s) q)
    by (intros q Hq; apply znth_upd_page; lia).
  assert (Hgz : forall t', start_pfn (get_zone (relist s t pg l n f) t') = start_pfn (get_zone s t') /\
    spanned_pages (get_zone (relist s t pg l n f) t') = spanned_pages (get_zone s t') /\
    free_areas (get_zone (relist s t pg l n f) t') = free_areas (get_zone s t') /\
    watermark (get_zone (relist s t pg l n f) t') = watermark (get_zone s t')) by (by destruct t, t').
  assert (Ha : forall t', bagree (view s t') (view (relist s t pg l n f) t')).
  { intros t'. destruct (Hgz t') as (G1 & G2 & G3 & _). unfold bagree, view, page_order.
    cbn [bzone buddy_next mem_map]. rewrite G1, G2, G3. cbn [relist put next pages buddy_next mem_map].
    rewrite zlen_upd_page. split_and!; try done. intros q Hqz.
    rewrite Hq by (by apply (in_zone_total s t')). case_decide; [subst|]; done. }
  assert (Hfree : forall x, free_page (relist s t pg l n f) x <-> free_page s x).
  { intros x. unfold free_page. split; intros [t' Hx]; exists t'; by rewrite (bagree_page_free _ _ (Ha t')) in *. }
  split; [|done]. split.
  - destruct (Hgz ZONE_DMA) as (A1 & A2 & _), (Hgz ZONE_NORMAL) as (A3 & A4 & _).
    unfold zones_ok in *. cbn [get_zone] in *. rewrite A1, A2, A3, A4.
    cbn [relist put next pages total_pages buddy_max_order buddy_next mem_map]. by rewrite zlen_upd_page.
  - destruct (ok_lists _ Hok) as [Hc Hd]. split; [|done]. intros t'.
    destruct (Hgz t') as (_ & -> & _). apply Hc.
  - intros t'. destruct (Hgz t') as (_ & _ & _ & E). unfold watermarks_ok. rewrite E. apply (ok_wmarks _ Hok).
  - intros t'. eapply bagree_buddy_ok; [apply Ha|]. apply (ok_buddy _ Hok).
  - intros t'. destruct (ok_lru _ Hok t') as (L1 & L2 & L3).
    destruct (decide (t = t')) as [<-|Hne].
    + unfold relist. rewrite get_put. unfold lru_ok. cbn [bzone set_lru inactive_list nr_inactive put pages mem_map].
      split_and!; try done. intros q. rewrite Hl. unfold in_zone, zend in *.
      cbn [set_lru start_pfn spanned_pages]. case_decide as E.
      * subst q. rewrite Hq by lia. rewrite decide_True by done. tauto.
      * rewrite L3. split; intros [G1 G2]; (split; [done|]);
          rewrite Hq in * by (by apply (in_zone_total s t)); by rewrite decide_False in * by done.
    + unfold relist. rewrite get_put_ne by done. split_and!; try done. intros q. rewrite L3.
      cbn [put pages mem_map].
      split; intros [G1 G2]; (split; [done|]);
        rewrite Hq in * by (by apply (in_zone_total s t'));
        rewrite decide_False in * by (intros ->; apply Hne; by eapply zones_disjoint); done.
  - intros x Hx. apply Hfree in Hx. destruct (ok_free _ Hok x Hx) as [I1 I2].
    pose proof (free_page_zone s x Hz (ok_buddy _ Hok) Hx).
    cbn [relist put pages mem_map]. rewrite Hq by lia. case_decide as E; [subst x|done].
    split; [by rewrite Fr|]. destruct (has (flags (f (znth (pages s) pg))) PG_LRU); [|done]. by destruct Hfl.
Qed.

(** What the list operations leave of a page. *)
Definition page_core (p : page) := (refcount p, mapcount p, map_mm p, map_vaddr p, rmap_list p).

Lemma lru_del_ok s pg :
  pa_ok s -> 0 <= pg ->
  pa_ok (lru_del s pg) /\ (forall x, free_page (lru_del s pg) x <-> free_page s x).
Proof.
  intros Hok Hpg. pose proof (ok_zones _ Hok) as Hz. unfold lru_del.
  destruct (page_exists s pg) eqn:E; cbn [negb]; [|done].
  destruct (has (flags (znth (pages s) pg)) PG_LRU) eqn:El; cbn [negb]; [|done].
  apply Z.ltb_lt in E. pose proof Hz as (_ & Hlen & _).
  pose proof (zone_of_pfn s pg Hz ltac:(lia)) as Hin. set (t := pfn_to_zone s pg) in *.
  destruct (ok_lru _ Hok t) as (L1 & L2 & L3).
  assert (Hmem : pg ∈ inactive_list (get_zone s t)) by (by rewrite L3).
  pose proof (has_lru_isolated_keep (znth (pages s) pg)) as (_&_&_&_&_&_&K1&K2).
  apply (pa_ok_relist s t pg); try done.
  - by apply NoDup_filter.
  - rewrite L2. apply list_elem_of_split in Hmem as (l1 & l2 & Hl). rewrite Hl in L1 |- *.
    apply NoDup_app in L1 as (_ & N1 & [N2 _]%NoDup_cons).
    assert (Hf : filter (fun q => q <> pg) (l1 ++ pg :: l2) = l1 ++ l2).
    { rewrite filter_app, filter_cons. rewrite decide_False by (by intros ?).
      f_equal; apply filter_all_in; set_solver. }
    rewrite Hf. unfold dec, zlen. rewrite !length_app. simpl. bcase; lia.
  - intros q. rewrite list_elem_of_filter. case_decide; [subst|].
    + rewrite K2. split; [tauto|done].
    + tauto.
  - by rewrite K2.
Qed.

Lemma lru_length s t : pa_ok s -> zlen (inactive_list (get_zone s t)) <= 1048576.
Proof.
  intros Hok. pose proof (ok_zones _ Hok) as Hz. destruct (ok_lru _ Hok t) as (L1 & L2 & L3).
  assert (Hincl : list_to_set (C := gset Z) (inactive_list (get_zone s t)) ⊆ list_to_set (seqZ 0 (total_pages s))).
  { intros q. rewrite !elem_of_list_to_set, elem_of_seqZ, L3. intros [Hq _].
    pose proof (in_zone_total s t q Hz Hq). lia. }
  apply subseteq_size in Hincl. destruct Hz as (_ & _ & ? & _).
  rewrite !size_list_to_set, length_seqZ in Hincl by (done || apply NoDup_seqZ). unfold zlen. lia.
Qed.

Lemma lru_add_inactive_ok s pg :
  pa_ok s -> 0 <= pg -> ~ free_page s pg ->
  pa_ok (lru_add_inactive s pg) /\ (forall x, free_page (lru_add_inactive s pg) x <-> free_page s x).
Proof.
  intros Hok Hpg Hnf. pose proof (ok_zones _ Hok) as Hz. unfold lru_add_inactive.
  destruct (page_exists s pg) eqn:E; cbn [negb]; [|done].
  destruct (has (flags (znth (pages s) pg)) _) eqn:El; [done|].
  apply Z.ltb_lt in E. pose proof Hz as (_ & Hlen & Htot & _).
  pose proof (zone_of_pfn s pg Hz ltac:(lia)) as Hin. set (t := pfn_to_zone s pg) in *.
  destruct (ok_lru _ Hok t) as (L1 & L2 & L3).
  assert (Hnl : has (flags (znth (pages s) pg)) PG_LRU = false).
  { unfold has in *. apply negb_false_iff, Z.eqb_eq in El.
    change (Z.lor (Z.lor PG_BUDDY PG_RESERVED) (Z.lor PG_LRU PG_ISOLATED)) with (Z.lor 11 PG_LRU) in El.
    rewrite Z.land_lor_distr_r in El. apply Z.lor_eq_0_iff in El as [_ ->]. done. }
  assert (Hmem : pg ∉ inactive_list (get_zone s t)) by (rewrite L3; intros [_ ?]; congruence).
  pose proof (has_lru_isolated_keep (znth (pages s) pg)) as (_&_&_&_&K1&K2&_).
  pose proof (lru_length s t Hok) as Hbound.
  apply (pa_ok_relist s t pg); try done.
  - apply NoDup_app. split_and!; [done| |apply NoDup_singleton]. set_solver.
  - rewrite L2. unfold zlen in *. rewrite length_app. simpl. unwrap. lia.
  - intros q. rewrite K2. case_decide; [subst; set_solver|set_solver].
Qed.

(** ** Reclaim *)

(** What no operation of the allocator changes after [mem_init]. *)
Definition pa_static (s : pa) :=
  (contig_zonelist s, dma_zonelist s, buddy_max_order s, buddy_ready s, total_pages s,
   watermark (zone_dma s), watermark (zone_normal s)).

(** The pages in use stay in use and keep their counts and mappings. *)
Definition held_same (s s' : pa) : Prop :=
  forall q, 0 <= q < total_pages s -> ~ free_page s q ->
    ~ free_page s' q /\ page_core (znth (pages s') q) = page_core (znth (pages s) q).

(** Every page keeps its mapping fields. *)
Definition maps_same (s s' : pa) : Prop :=
  forall q, 0 <= q < total_pages s -> page_maps (znth (pages s') q) = page_maps (znth (pages s) q).

(** What the reclaimers promise: they keep the allocator's invariant and their
    own ([xok], on the pages they hold), which does not depend on pages that
    are free; a failed [swap_out_page] leaves the isolated page as it was. *)
Class ReclaimersOk (X : Type) `{!Reclaimers X} := {
  xok : pa -> X -> Prop;
  xok_stable s s' x : xok s x -> pa_ok s -> pa_ok s' -> pa_static s' = pa_static s ->
    held_same s s' -> maps_same s s' -> xok s' x;
  page_cache_reclaim_ok s x : pa_ok s -> xok s x ->
    let w' := (page_cache_reclaim_one (s, x)).2 in
    pa_ok w'.1 /\ xok w'.1 w'.2 /\ pa_static w'.1 = pa_static s;
  writeback_ok s x : pa_ok s -> xok s x ->
    let w' := (writeback_flush_all (s, x)).2 in
    pa_ok w'.1 /\ xok w'.1 w'.2 /\ pa_static w'.1 = pa_static s;
  slab_reclaim_ok s x : pa_ok s -> xok s x ->
    let w' := (slab_reclaim_one (s, x)).2 in
    pa_ok w'.1 /\ xok w'.1 w'.2 /\ pa_static w'.1 = pa_static s;
  swap_out_ok pg s x : pa_ok s -> xok s x -> 0 <= pg < total_pages s -> ~ free_page s pg ->
    has (flags (znth (pages s) pg)) PG_LRU = false ->
    let r := swap_out_page pg (s, x) in
    pa_ok r.2.1 /\ xok r.2.1 r.2.2 /\ pa_static r.2.1 = pa_static s /\
    (r.1 <> 0 -> ~ free_page r.2.1 pg /\ has (flags (znth (pages r.2.1) pg)) PG_LRU = false);
}.

Section reclaim.
Context {X : Type} `{!Reclaimers X, !ReclaimersOk X}.
Implicit Types w : pa * X.

(** The invariant of the allocator and the reclaimers together. *)
Definition wok w : Prop := pa_ok w.1 /\ xok w.1 w.2.

(** A step keeps the invariant and the static part. *)
Definition keeps w w' : Prop := wok w' /\ pa_static w'.1 = pa_static w.1.

Lemma keeps_trans w1 w2 w3 : keeps w1 w2 -> keeps w2 w3 -> keeps w1 w3.
Proof. intros [? E1] [? E2]. split; [done|congruence]. Qed.

Lemma held_same_refl_of s s' :
  pages s' = pages s -> (forall x, free_page s' x <-> free_page s x) -> held_same s s'.
Proof. intros E Hf q Hq Hn. rewrite Hf, E. done. Qed.

(** The counters of [vmscan.c] are outside everything else. *)
Lemma pa_ok_kswapd s k : pa_ok (with_kswapd s k) <-> pa_ok s.
Proof.
  split; intros [H1 H2 H3 H4 H5 H6]; split; try done;
    intros t; try (by specialize (H3 t); destruct t); try (by specialize (H5 t); destruct t);
    by specialize (H4 t); destruct t.
Qed.

Lemma free_page_kswapd s k x : free_page (with_kswapd s k) x <-> free_page s x.
Proof. unfold free_page. split; intros [t Ht]; exists t; by destruct t. Qed.

Lemma keeps_kswapd w (f : pa -> pa) :
  (exists k, f w.1 = with_kswapd w.1 k) -> wok w -> keeps w (on_pa f w).
Proof.
  intros [k E] [H1 H2]. unfold keeps, wok, on_pa. cbn [fst snd]. rewrite E.
  assert (pa_ok (with_kswapd w.1 k)) by (by apply pa_ok_kswapd).
  split_and!; try done. eapply xok_stable; try done.
Qed.

Lemma keeps_wakeup w : wok w -> keeps w (on_pa wakeup_kswapd w).
Proof.
  intros Hw. unfold wakeup_kswapd. destruct (kswapd_running (kswapd w.1)) eqn:E.
  - apply keeps_kswapd; [|done]. cbv zeta. rewrite E. by eexists.
  - apply keeps_kswapd; [|done]. cbv zeta. rewrite E. exists (kswapd w.1). by destruct w as [[] ?].
Qed.

Lemma keeps_count_file w : wok w -> keeps w (on_pa count_file w).
Proof. intros. apply keeps_kswapd; [by eexists|done]. Qed.
Lemma keeps_count_try w : wok w -> keeps w (on_pa count_try w).
Proof. intros. apply keeps_kswapd; [by eexists|done]. Qed.
Lemma keeps_count_anon w : wok w -> keeps w (on_pa count_anon w).
Proof. intros. apply keeps_kswapd; [by eexists|done]. Qed.

Lemma keeps_reclaimers w : wok w ->
  keeps w (page_cache_reclaim_one w).2 /\ keeps w (writeback_flush_all w).2 /\ keeps w (slab_reclaim_one w).2.
Proof.
  intros [H1 H2]. destruct w as [s x].
  destruct (page_cache_reclaim_ok s x H1 H2) as (? & ? & ?), (writeback_ok s x H1 H2) as (? & ? & ?),
    (slab_reclaim_ok s x H1 H2) as (? & ? & ?).
  unfold keeps, wok. cbn [fst snd] in *. tauto.
Qed.

Lemma keeps_refl w : wok w -> keeps w w.
Proof. by split. Qed.

Lemma keeps_file sc w : wok w -> keeps w (shrink_file sc w).2.
Proof.
  intros Hw. unfold shrink_file. destruct (may_unmap sc); [|by apply keeps_refl].
  pose proof (keeps_reclaimers w Hw) as (K1 & _ & _).
  destruct (page_cache_reclaim_one w) as [r1 w1]. cbn [snd] in K1. pose proof K1 as [Hw1 _].
  destruct (negb (r1 =? 0)).
  { eapply keeps_trans; [exact K1|]. by apply keeps_count_file. }
  set (mid := if may_writepage sc then _ else _).
  assert (Hmid : keeps w mid.2).
  { unfold mid. destruct (may_writepage sc); [|done].
    pose proof (keeps_reclaimers w1 Hw1) as (_ & K2 & _).
    destruct (writeback_flush_all w1) as [n w']. cbn [snd] in K2. pose proof K2 as [Hw' _].
    destruct (0 <? n); [|by eapply keeps_trans].
    pose proof (keeps_reclaimers w' Hw') as (K3 & _ & _).
    destruct (page_cache_reclaim_one w') as [r2 w'']. cbn [snd] in *.
    eapply keeps_trans; [exact K1|]. by eapply keeps_trans. }
  destruct mid as [ok w2]. cbn [snd] in Hmid. pose proof Hmid as [Hw2 _].
  destruct ok.
  { eapply keeps_trans; [exact Hmid|]. by apply keeps_count_file. }
  pose proof (keeps_reclaimers w2 Hw2) as (_ & _ & K3).
  destruct (slab_reclaim_one w2) as [r3 w3]. cbn [snd] in K3. pose proof K3 as [Hw3 _].
  destruct (negb (r3 =? 0)); cbn [snd]; [|by eapply keeps_trans].
  eapply keeps_trans; [exact Hmid|]. eapply keeps_trans; [exact K3|]. by apply keeps_count_file.
Qed.

Lemma static_relist s t pg l n f : pa_static (relist s t pg l n f) = pa_static s.
Proof. by destruct s, t. Qed.

Lemma total_of_static s s' : pa_static s' = pa_static s -> total_pages s' = total_pages s.
Proof. unfold pa_static. congruence. Qed.

(** A relisted page keeps what its holders rely on. *)
Lemma held_same_relist s t pg l n f :
  zones_ok s -> 0 <= pg < total_pages s ->
  page_core (f (znth (pages s) pg)) = page_core (znth (pages s) pg) ->
  (forall x, free_page (relist s t pg l n f) x <-> free_page s x) ->
  held_same s (relist s t pg l n f).
Proof.
  intros (_ & Hlen & _) Hpg Hc Hf q Hq Hn. rewrite Hf. split; [done|].
  unfold relist. cbn [put pages mem_map]. rewrite znth_upd_page by lia.
  case_decide; [by subst|done].
Qed.

Lemma maps_same_relist s t pg l n f :
  zones_ok s -> 0 <= pg < total_pages s ->
  page_core (f (znth (pages s) pg)) = page_core (znth (pages s) pg) ->
  maps_same s (relist s t pg l n f).
Proof.
  intros (_ & Hlen & _) Hpg Hc q Hq. unfold relist. cbn [put pages mem_map]. rewrite znth_upd_page by lia.
  case_decide; [subst|done]. unfold page_core in Hc. unfold page_maps. congruence.
Qed.

Lemma keeps_isolate w t pg l :
  wok w -> inactive_list (get_zone w.1 t) = pg :: l ->
  keeps w (on_pa (isolate t pg) w) /\ 0 <= pg < total_pages w.1 /\ in_zone (get_zone w.1 t) pg /\
  ~ free_page (isolate t pg w.1) pg /\
  has (flags (znth (pages (isolate t pg w.1)) pg)) PG_LRU = false.
Proof.
  intros [Hok Hx] Hl. destruct w as [s x]. cbn [fst snd] in *.
  pose proof (ok_zones _ Hok) as Hz. destruct (ok_lru _ Hok t) as (L1 & L2 & L3).
  destruct (proj1 (L3 pg)) as [Hin Hlru]; [rewrite Hl; by left|].
  pose proof (in_zone_total s t pg Hz Hin) as Hpg.
  assert (Hnf : ~ free_page s pg).
  { intros Hf. destruct (ok_free _ Hok pg Hf). congruence. }
  pose proof (has_lru_isolated_keep (znth (pages s) pg)) as (K1&K2&_).
  destruct (pa_ok_relist s t pg (tail (inactive_list (get_zone s t))) (dec (nr_inactive (get_zone s t)))
    (fun p => set_bit PG_ISOLATED (clear_bit PG_LRU p))) as [Hok' Hfree]; try done.
  - rewrite Hl in *. by apply NoDup_cons in L1 as [_ ?].
  - rewrite L2, Hl. unfold dec, zlen. simpl. bcase; lia.
  - intros q. cbv beta. rewrite K2. rewrite Hl in *. cbn [tail]. apply NoDup_cons in L1 as [L1 _].
    case_decide; [subst; naive_solver|]. rewrite elem_of_cons. naive_solver.
  - change (relist s t pg _ _ _) with (isolate t pg s) in *.
    assert (Hp : has (flags (znth (pages (isolate t pg s)) pg)) PG_LRU = false).
    { unfold isolate. cbn [put pages mem_map]. destruct Hz as (_ & Hlen & _).
      rewrite znth_upd_page by lia. by rewrite decide_True. }
    split; [|split; [done|split; [done|split; [by rewrite Hfree|done]]]].
    split; cbn [on_pa fst snd]; [|apply (static_relist s t pg)]. split; [done|]. cbn [fst snd].
    eapply xok_stable; try done; [apply (static_relist s t pg)|by apply held_same_relist|by apply maps_same_relist].
Qed.

Lemma keeps_putback w t pg :
  wok w -> in_zone (get_zone w.1 t) pg -> ~ free_page w.1 pg ->
  has (flags (znth (pages w.1) pg)) PG_LRU = false ->
  keeps w (on_pa (putback t pg) w).
Proof.
  intros [Hok Hx] Hin Hnf Hnl. destruct w as [s x]. cbn [fst snd] in *.
  pose proof (ok_zones _ Hok) as Hz. destruct (ok_lru _ Hok t) as (L1 & L2 & L3).
  pose proof (in_zone_total s t pg Hz Hin) as Hpg.
  pose proof (has_lru_isolated_keep (znth (pages s) pg)) as (_&_&K1&K2&_).
  assert (Hni : pg ∉ inactive_list (get_zone s t)) by (rewrite L3; intros [_ ?]; congruence).
  destruct (pa_ok_relist s t pg (inactive_list (get_zone s t) ++ [pg]) (nr_inactive (get_zone s t) +w 1)
    (fun p => set_bit PG_LRU (clear_bit PG_ISOLATED p))) as [Hok' Hfree]; try done.
  - apply NoDup_app. split_and!; [done| |apply NoDup_singleton]. set_solver.
  - rewrite L2. pose proof (lru_length s t Hok). unfold zlen in *. rewrite length_app. simpl. unwrap. lia.
  - intros q. cbv beta. rewrite K2. case_decide; [subst; set_solver|set_solver].
  - change (relist s t pg _ _ _) with (putback t pg s) in *.
    split; cbn [on_pa fst snd]; [|apply (static_relist s t pg)]. split; [done|]. cbn [fst snd].
    eapply xok_stable; try done; [apply (static_relist s t pg)|by apply held_same_relist|by apply maps_same_relist].
Qed.

Lemma in_zone_static s s' t q : zones_ok s -> zones_ok s' -> total_pages s' = total_pages s ->
  in_zone (get_zone s' t) q <-> in_zone (get_zone s t) q.
Proof. intros (?&?&?&?&?&?&?&?) (?&?&?&?&?&?&?&?) ?. destruct t; unfold in_zone, zend; simpl; lia. Qed.

Lemma keeps_shrink t o sc w : wok w -> keeps w (shrink_zone t o sc w).2.
Proof.
  intros Hw. unfold shrink_zone. pose proof (keeps_count_try w Hw) as K0. pose proof K0 as [Hw0 _].
  pose proof (keeps_file sc _ Hw0) as K1. destruct (shrink_file sc (on_pa count_try w)) as [d w1].
  cbn [snd] in K1. assert (K : keeps w w1) by (eapply keeps_trans; [exact K0|exact K1]). pose proof K as [Hw1 _].
  destruct d; [done|]. destruct (may_unmap sc && may_swap sc); [|done].
  destruct (inactive_list (get_zone w1.1 t)) as [|pg l] eqn:El; [done|].
  destruct (keeps_isolate w1 t pg l Hw1 El) as (K2 & Hpg & Hin & Hnf & Hnl). pose proof K2 as [[Hok2 Hx2] Hst2].
  pose proof (total_of_static _ _ Hst2) as Htot.
  destruct w1 as [s1 x1]. cbn [on_pa fst snd] in *.
  pose proof (swap_out_ok pg (isolate t pg s1) x1 Hok2 Hx2 ltac:(lia) Hnf Hnl) as Hs. cbv zeta in Hs.
  unfold on_pa at 1. cbn [fst snd].
  destruct (swap_out_page pg (isolate t pg s1, x1)) as [r w2]. cbn [fst snd] in Hs.
  destruct Hs as (Hok3 & Hx3 & Hst3 & Hfail).
  assert (K3 : keeps w w2).
  { eapply keeps_trans; [exact K|]. eapply keeps_trans; [exact K2|]. by split. }
  pose proof K3 as [Hw2 _].
  destruct (Z.eqb_spec r 0); cbn [snd].
  - eapply keeps_trans; [exact K3|]. by apply keeps_count_anon.
  - destruct (Hfail ltac:(done)) as [F1 F2].
    eapply keeps_trans; [exact K3|]. apply keeps_putback; try done.
    rewrite (in_zone_static s1 w2.1); try done; [apply Hw1|apply Hok3|].
    rewrite (total_of_static _ _ Hst3). done.
Qed.

Lemma keeps_slowpath t o w : wok w -> keeps w (alloc_reclaim_slowpath t o w).
Proof.
  intros Hw. unfold alloc_reclaim_slowpath. pose proof (keeps_wakeup w Hw) as K. pose proof K as [Hw' _].
  eapply keeps_trans; [exact K|]. by apply keeps_shrink.
Qed.

(** ** The allocation passes *)

(** The two ways a failed attempt changes the state. *)
Definition reclaim_step w w' : Prop :=
  w' = on_pa wakeup_kswapd w \/ exists t o, w' = alloc_reclaim_slowpath t o w.

Lemma reclaim_keeps w w' : wok w -> rtc reclaim_step w w' -> keeps w w'.
Proof.
  intros Hw Hr. induction Hr as [w|w w1 w2 [->|(t & o & ->)] _ IH]; [by apply keeps_refl|..].
  - pose proof (keeps_wakeup w Hw) as K. eapply keeps_trans; [exact K|]. apply IH, K.
  - pose proof (keeps_slowpath t o w Hw) as K. eapply keeps_trans; [exact K|]. apply IH, K.
Qed.

(** The outcome of an attempt over the zones [zs]. *)
Definition attempt (zs : list zone_type) (o : Z) w (r : option Z * (pa * X)) : Prop :=
  match r.1 with
  | None => rtc reclaim_step w r.2
  | Some p => exists w1 t, rtc reclaim_step w w1 /\ t ∈ zs /\ wok r.2 /\
      granted w1.1 t p o r.2.1 /\ pa_static r.2.1 = pa_static w.1 /\ r.2.2 = w1.2 /\
      znth (watermark (get_zone r.2.1 t)) WMARK_MIN < zone_free_pages (get_zone r.2.1 t)
  end.

Lemma held_same_granted s t p o s' : granted s t p o s' -> held_same s s'.
Proof.
  intros Hg q Hq Hn. split; [rewrite (gr_free _ _ _ _ _ Hg); tauto|].
  assert (Hnb : ~ in_block p o q) by (intros Hb; by apply Hn, (gr_was_free _ _ _ _ _ Hg)).
  pose proof (gr_rest _ _ _ _ _ Hg q Hq Hnb) as E. unfold page_rest in E. unfold page_core. congruence.
Qed.

Lemma watermark_spec z o m :
  0 <= o <= 11 -> 0 <= zone_free_pages z < 4294967296 -> zone_watermark_ok z o m = true ->
  znth (watermark z) m < zone_free_pages z - 2 ^ o.
Proof.
  intros Ho Hf. unfold zone_watermark_ok. rewrite shl1 by done.
  pose proof (pow2_le o Ho). bcase; try done. intros _. rewrite sub32_id in * by lia. done.
Qed.

Lemma zone_free_pages_range z : 0 <= zone_free_pages z < 4294967296.
Proof.
  unfold zone_free_pages.
  assert (H : forall os a, 0 <= a < 4294967296 ->
    0 <= foldl (fun free o => free +w (nr_free (area z o) <<w o)) a os < 4294967296).
  { induction os as [|o os IH]; intros a Ha; [done|]. cbn [foldl]. apply IH. apply u32_range. }
  apply H. lia.
Qed.

Lemma static_put s t b : zone_static (bzone b) = zone_static (get_zone s t) ->
  pa_static (put s t b) = pa_static s.
Proof.
  unfold zone_static. intros E. injection E as _ _ _ _ _ E _ _. unfold pa_static.
  destruct t; cbn [put contig_zonelist dma_zonelist buddy_max_order buddy_ready total_pages zone_dma zone_normal get_zone] in *;
    by rewrite E.
Qed.

Lemma try_zone_post pass gfp o t w zs :
  wok w -> 0 <= o -> pass ∈ [0; 1; 2] -> t ∈ zs -> attempt zs o w (try_zone pass gfp o t w).
Proof.
  intros Hw Hpos Hpass Ht. pose proof Hw as [Hok Hx]. unfold try_zone.
  destruct ((pass =? 0) && _) eqn:E0; [apply rtc_refl|].
  destruct ((pass =? 1) && _) eqn:E1; [apply rtc_once; by left|].
  destruct ((pass =? 2) && _) eqn:E2; [apply rtc_once; right; by eexists _, _|].
  destruct (decide (buddy_max_order w.1 < o)) as [Hbig|Hsmall].
  { unfold buddy_alloc. replace (Z.to_nat (buddy_max_order w.1 + 1 - o)) with 0%nat by lia. cbn. rewrite put_view. unfold attempt. cbn [fst snd].
    by destruct w. }
  assert (Ho : 0 <= o <= 10) by (pose proof (ok_zones _ Hok) as (_ & _ & _ & _ & _ & _ & _ & ?); lia).
  assert (Hmark : znth (watermark (get_zone w.1 t)) WMARK_MIN
                  < zone_free_pages (get_zone w.1 t) - 2 ^ o).
  { destruct (ok_wmarks _ Hok t) as [W1 W2].
    pose proof (fun m => watermark_spec (get_zone w.1 t) o m ltac:(lia) (zone_free_pages_range _)) as HW.
    apply andb_false_iff in E0, E1, E2.
    rewrite !negb_false_iff in *. rewrite !Z.eqb_neq in *.
    assert (pass = 0 \/ pass = 1 \/ pass = 2) as [->|[->| ->]] by set_solver.
    - destruct E0 as [?|E]; [done|]. apply HW in E. lia.
    - destruct E1 as [?|E]; [done|]. apply HW in E. lia.
    - destruct E2 as [?|E]; [done|]. by apply HW in E. }
  pose proof (alloc_in_zone w.1 t o Hok ltac:(lia)) as Ha. cbv zeta in Ha.
  destruct (buddy_alloc (buddy_max_order w.1) (view w.1 t) o) as [p b]. cbn [fst snd] in Ha.
  destruct Ha as [[-> E]|(Hp & Hok' & Hg)].
  - cbn. rewrite E. unfold attempt. cbn [fst snd]. by destruct w.
  - destruct (Z.ltb_spec p 0); [lia|]. unfold attempt. cbn [fst snd].
    exists w, t. pose proof (gr_static _ _ _ _ _ Hg) as Hst. split_and!; try done.
    + split; [done|]. eapply xok_stable; try done; [|by eapply held_same_granted|intros q; by apply (gr_maps _ _ _ _ _ Hg)].
      unfold take_refs in Hst. rewrite get_with_pages, get_put in Hst. by apply static_put in Hst.
    + unfold take_refs in Hst. rewrite get_with_pages, get_put in Hst. by apply static_put in Hst.
    + rewrite (gr_count _ _ _ _ _ Hg). unfold zone_static in Hst. injection Hst as _ _ _ _ _ -> _ _. done.
Qed.

Lemma attempt_then zs o w w' r :
  rtc reclaim_step w w' -> wok w -> attempt zs o w' r -> attempt zs o w r.
Proof.
  intros Hr Hw. pose proof (reclaim_keeps w w' Hw Hr) as [_ Hst]. unfold attempt.
  destruct r.1; [|intros; by etrans].
  intros (w1 & t & H1 & H2 & H3 & H4 & H5 & H6 & H7). exists w1, t. split_and!; try done; [by etrans|congruence].
Qed.

Lemma try_zones_post pass gfp o zs zs' w :
  wok w -> 0 <= o -> pass ∈ [0; 1; 2] -> zs' ⊆ zs -> attempt zs o w (try_zones pass gfp o zs' w).
Proof.
  intros Hw Ho Hp. revert w Hw. induction zs' as [|t zs' IH]; intros w Hw Hsub; cbn [try_zones].
  { apply rtc_refl. }
  pose proof (try_zone_post pass gfp o t w zs Hw Ho Hp ltac:(set_solver)) as Ha.
  destruct (try_zone pass gfp o t w) as [[p|] w']; [exact Ha|].
  eapply attempt_then; [exact Ha|done|]. apply IH; [|set_solver]. by eapply reclaim_keeps.
Qed.

Lemma try_passes_post ps gfp o zs w :
  wok w -> 0 <= o -> ps ⊆ [0; 1; 2] -> attempt zs o w (try_passes ps gfp o zs w).
Proof.
  intros Hw Ho. revert w Hw. induction ps as [|p ps IH]; intros w Hw Hsub; cbn [try_passes].
  { apply rtc_refl. }
  pose proof (try_zones_post p gfp o zs zs w Hw Ho ltac:(set_solver) ltac:(done)) as Ha.
  destruct (try_zones p gfp o zs w) as [[q|] w']; [exact Ha|].
  eapply attempt_then; [exact Ha|done|]. apply IH; [|set_solver]. by eapply reclaim_keeps.
Qed.

(** What [alloc_pages] returns and keeps. *)
Lemma alloc_pages_post gfp o w :
  wok w -> buddy_ready w.1 = true -> 0 <= o ->
  let '(r, w') := alloc_pages gfp o w in
  wok w' /\
  match r with
  | None => rtc reclaim_step w w'
  | Some addr => exists p w1 t, addr = p * 4096 /\ rtc reclaim_step w w1 /\
      t ∈ default_zonelist_for_gfp w.1 gfp /\ (has gfp GFP_DMA = true -> p + 2 ^ o <= 4096) /\
      granted w1.1 t p o w'.1 /\ pa_static w'.1 = pa_static w.1 /\ w'.2 = w1.2 /\
      znth (watermark (get_zone w'.1 t)) WMARK_MIN < zone_free_pages (get_zone w'.1 t)
  end.
Proof.
  intros Hw Hrdy Ho. unfold alloc_pages. cbn [alloc_tries]. unfold __alloc_pages_nodemask at 1.
  rewrite Hrdy. cbn [negb].
  pose proof (try_passes_post [0; 1; 2] gfp o (default_zonelist_for_gfp w.1 gfp) w Hw Ho ltac:(done)) as Ha.
  destruct (try_passes _ _ _ _ _) as [[p|] w']; unfold attempt in Ha; cbn [fst snd] in Ha.
  2:{ split; [|done]. by apply (reclaim_keeps w w' Hw Ha). }
  destruct Ha as (w1 & t & Hr & Ht & Hw' & Hg & Hst & Hx2 & Hwm).
  pose proof (reclaim_keeps w w1 Hw Hr) as [[Hok1 _] Hst1].
  pose proof (gr_block _ _ _ _ _ Hg) as Hb.
  destruct (ok_buddy _ Hok1 t) as (L & HL & _).
  destruct (block_ok_range _ _ _ _ (lo_shape _ _ _ HL) Hb) as (_ & Hp & _ & _).
  pose proof (ok_zones _ Hok1) as (Z1 & Z2 & Z3 & Z4 & Z5 & _). cbn [view mem_map] in Hp.
  destruct (Z.eqb_spec p 0); [lia|].
  split; [done|]. exists p, w1, t. split_and!; try done.
  - unfold PAGE_SIZE. apply mul32_id. lia.
  - unfold default_zonelist_for_gfp in Ht. intros Hd. rewrite Hd in Ht.
    destruct (ok_lists _ (proj1 Hw)) as [_ El]. rewrite El in Ht. apply list_elem_of_singleton in Ht. subst t.
    destruct Hb as (_ & _ & _ & Hb & _). unfold zend in Hb. cbn [get_zone] in Hb. lia.
Qed.

(** C5: [alloc_pages] on a running allocator.  It returns NULL after reclaim
    steps only, or the physical address of an aligned block: between reclaim
    steps and the return, the block's frames were free, and exactly they stop
    being free; their reference counts become 1, no other page changes its
    count, mappings or flags but for [PG_BUDDY]; the zone stays above its
    minimum watermark; the zone is one of the zone list of the request, so
    that a [GFP_DMA] block lies below 16 MB; and the invariant is kept. *)
Theorem alloc_pages_correct gfp o w :
  wok w -> buddy_ready w.1 = true -> 0 <= o ->
  let '(r, w') := alloc_pages gfp o w in
  wok w' /\
  match r with
  | None => rtc reclaim_step w w'
  | Some addr => exists p w1 t, addr = p * 4096 /\ rtc reclaim_step w w1 /\
      t ∈ default_zonelist_for_gfp w.1 gfp /\ (has gfp GFP_DMA = true -> p + 2 ^ o <= 4096) /\
      granted w1.1 t p o w'.1 /\
      znth (watermark (get_zone w'.1 t)) WMARK_MIN < zone_free_pages (get_zone w'.1 t)
  end.
Proof.
  intros Hw Hrdy Ho. pose proof (alloc_pages_post gfp o w Hw Hrdy Ho) as H. destruct (alloc_pages gfp o w) as [r w'].
  destruct H as [Hw' Hr]. split; [done|]. destruct r as [addr|]; [|done].
  destruct Hr as (p & w1 & t & H1 & H2 & H3 & H4 & H5 & _ & _ & H6). by exists p, w1, t.
Qed.
End reclaim.

(** ** Freeing *)

(** The reference count after one call of [free_pages]. *)
Definition dropped (rc : Z) : Z := if 1 <? rc then rc - 1 else 0.


Lemma lru_del_page s pg :
  0 <= pg < zlen (pages s) ->
  has (flags (znth (pages (lru_del s pg)) pg)) PG_LRU = false /\
  zlen (pages (lru_del s pg)) = zlen (pages s) /\
  (forall q, 0 <= q -> page_core (znth (pages (lru_del s pg)) q) = page_core (znth (pages s) q)) /\
  pa_static (lru_del s pg) = pa_static s.
Proof.
  intros Hpg. unfold lru_del, page_exists. destruct (Z.ltb_spec pg (zlen (pages s))); [|lia]. cbn [negb].
  destruct (has (flags (znth (pages s) pg)) PG_LRU) eqn:E; cbn [negb]; [|done].
  pose proof (has_lru_isolated_keep (znth (pages s) pg)) as (_&_&_&_&_&_&_&K).
  cbn [put pages mem_map]. rewrite zlen_upd_page. split_and!; try done.
  - rewrite znth_upd_page by lia. by rewrite decide_True.
  - intros q Hq. rewrite znth_upd_page by lia. by case_decide.
  - by destruct s, (pfn_to_zone _ pg).
Qed.

(** The state between the pages of a run: frames done have dropped a
    reference, the others are as they were. *)
Record releasing (s s1 : pa) (cf : bool) (l : list Z) : Prop := Releasing {
  rl_ok : pa_ok s1;
  rl_static : pa_static s1 = pa_static s;
  rl_free x : free_page s1 x <-> free_page s x;
  rl_page q : 0 <= q < total_pages s ->
    refcount (znth (pages s1) q) =
      (if decide (q ∈ l) then dropped (refcount (znth (pages s) q)) else refcount (znth (pages s) q)) /\
    page_maps (znth (pages s1) q) = page_maps (znth (pages s) q) /\
    (q ∈ l -> has (flags (znth (pages s1) q)) PG_LRU = false);
  rl_can : cf = true <-> forall q, q ∈ l -> refcount (znth (pages s) q) <= 1;
}.

Lemma set_count_ok s i r :
  pa_ok s -> 0 <= i < total_pages s -> ~ free_page s i -> 0 <= r < 65536 ->
  let s' := with_pages s (upd_page (pages s) i (set_refcount r)) in
  pa_ok s' /\ (forall x, free_page s' x <-> free_page s x) /\
  forall q, 0 <= q < total_pages s ->
    refcount (znth (pages s') q) = (if decide (i = q) then r else refcount (znth (pages s) q)) /\
    page_maps (znth (pages s') q) = page_maps (znth (pages s) q) /\
    flags (znth (pages s') q) = flags (znth (pages s) q).
Proof.
  intros Hok Hi Hnf Hr s'. pose proof (ok_zones _ Hok) as Hz. pose proof Hz as (_ & Hlen & _).
  assert (Hq : forall q, 0 <= q -> znth (upd_page (pages s) i (set_refcount r)) q =
    if decide (i = q) then set_refcount r (znth (pages s) q) else znth (pages s) q)
    by (intros; apply znth_upd_page; lia).
  destruct (pa_ok_refs s (upd_page (pages s) i (set_refcount r)) Hok) as [H1 H2].
  - split; [apply zlen_upd_page|]. intros q Hq0. rewrite Hq by done. by case_decide.
  - intros x Hx. pose proof (free_page_zone s x Hz (ok_buddy _ Hok) Hx). rewrite Hq by lia.
    rewrite decide_False by (intros ->; done). by apply (ok_free _ Hok).
  - split_and!; try done. intros q Hq0. cbn [s' with_pages put pages mem_map].
    rewrite Hq by lia. case_decide; [|done]. cbn [refcount set_refcount].
    unfold u16. by rewrite Z.mod_small.
Qed.

Lemma releasing_step s s1 cf l i :
  releasing s s1 cf l -> 0 <= i < total_pages s -> ~ free_page s i -> i ∉ l ->
  0 <= refcount (znth (pages s) i) < 65536 ->
  releasing s (free_one (s1, cf) i).1 (free_one (s1, cf) i).2 (i :: l).
Proof.
  intros HR Hi Hnf Hni Hrc. pose proof (rl_ok _ _ _ _ HR) as Hok1.
  pose proof (total_of_static _ _ (rl_static _ _ _ _ HR)) as Htot.
  pose proof (ok_zones _ Hok1) as Hz1. pose proof Hz1 as (_ & Hlen1 & _).
  unfold free_one, page_exists. destruct (Z.ltb_spec i (zlen (pages s1))); [|lia]. cbn [negb].
  set (s2 := if has (flags (znth (pages s1) i)) PG_LRU then lru_del s1 i else s1).
  assert (H2 : pa_ok s2 /\ (forall x, free_page s2 x <-> free_page s x) /\ pa_static s2 = pa_static s /\
    has (flags (znth (pages s2) i)) PG_LRU = false /\ zlen (pages s2) = zlen (pages s1) /\
    (forall q, 0 <= q -> page_core (znth (pages s2) q) = page_core (znth (pages s1) q)) /\
    (forall q, 0 <= q < total_pages s -> has (flags (znth (pages s1) q)) PG_LRU = false ->
       has (flags (znth (pages s2) q)) PG_LRU = false)).
  { unfold s2. destruct (has (flags (znth (pages s1) i)) PG_LRU) eqn:E.
    - destruct (lru_del_ok s1 i Hok1 ltac:(lia)) as [D1 D2].
      destruct (lru_del_page s1 i ltac:(lia)) as (D3 & D4 & D5 & D6).
      split_and!; try done.
      + intros x. rewrite D2. apply (rl_free _ _ _ _ HR).
      + rewrite D6. apply (rl_static _ _ _ _ HR).
      + intros q Hq Hq'. unfold lru_del, page_exists in *.
        destruct (negb (i <? zlen (pages s1))); [done|]. rewrite E in *. cbn [negb] in *.
        cbn [put pages mem_map] in *. rewrite znth_upd_page by lia. case_decide; [subst|done].
        by rewrite znth_upd_page, decide_True in D3 by lia.
    - split_and!; try done; [apply (rl_free _ _ _ _ HR)|apply (rl_static _ _ _ _ HR)]. }
  destruct H2 as (Hok2 & Hf2 & Hst2 & Hl2 & Hlen2 & Hc2 & Hlru2). clearbody s2.
  pose proof (total_of_static _ _ Hst2) as Htot2.
  assert (Hrc2 : refcount (znth (pages s2) i) = refcount (znth (pages s) i)).
  { specialize (Hc2 i ltac:(lia)). destruct (rl_page _ _ _ _ HR i Hi) as [E _].
    rewrite decide_False in E by done. unfold page_core in Hc2. congruence. }
  assert (Hpg2 : forall q, 0 <= q < total_pages s ->
    refcount (znth (pages s2) q) =
      (if decide (q ∈ l) then dropped (refcount (znth (pages s) q)) else refcount (znth (pages s) q)) /\
    page_maps (znth (pages s2) q) = page_maps (znth (pages s) q) /\
    (q ∈ l -> has (flags (znth (pages s2) q)) PG_LRU = false)).
  { intros q Hq. destruct (rl_page _ _ _ _ HR q Hq) as (P1 & P2 & P3).
    specialize (Hc2 q ltac:(lia)). unfold page_core, page_maps in *. split_and!; try congruence.
    intros Hql. apply Hlru2; [done|]. by apply P3. }
  rewrite Hrc2. set (rc := refcount (znth (pages s) i)) in *.
  assert (Hfin : forall s3 cf3,
    pa_ok s3 -> (forall x, free_page s3 x <-> free_page s2 x) -> pa_static s3 = pa_static s2 ->
    (forall q, 0 <= q < total_pages s2 ->
      refcount (znth (pages s3) q) = (if decide (i = q) then dropped rc else refcount (znth (pages s2) q)) /\
      page_maps (znth (pages s3) q) = page_maps (znth (pages s2) q) /\
      flags (znth (pages s3) q) = flags (znth (pages s2) q)) ->
    (cf3 = true <-> cf = true /\ rc <= 1) -> releasing s s3 cf3 (i :: l)).
  { intros s3 cf3 G1 G2 G3 G4 G5. split; try done.
    - congruence.
    - intros x. by rewrite G2, Hf2.
    - intros q Hq. destruct (G4 q ltac:(lia)) as (E1 & E2 & E3), (Hpg2 q Hq) as (P1 & P2 & P3).
      rewrite E1, E2, E3, P1, P2. split_and!; [|done|].
      + destruct (decide (i = q)) as [->|Hne].
        * rewrite decide_True by (by left). done.
        * destruct (decide (q ∈ l)); [rewrite decide_True by (by right)|rewrite decide_False by set_solver]; done.
      + intros [->|Hql]%elem_of_cons; [done|by apply P3].
    - rewrite G5, (rl_can _ _ _ _ HR). split.
      + intros [A1 A2] q [->|Hq]%elem_of_cons; [done|by apply A1].
      + intros A. split; [intros q Hq; apply A; by right|apply A; by left]. }
  assert (Hnf2 : ~ free_page s2 i) by (by rewrite Hf2).
  destruct (Z.ltb_spec 1 rc).
  - destruct (set_count_ok s2 i (rc - 1) Hok2 ltac:(lia) Hnf2 ltac:(lia)) as (C1 & C2 & C3).
    apply Hfin; try done.
    + unfold dropped. destruct (Z.ltb_spec 1 rc); [|lia]. done.
    + cbn [snd]. split; [done|lia].
  - destruct (Z.eqb_spec rc 1).
    + destruct (set_count_ok s2 i 0 Hok2 ltac:(lia) Hnf2 ltac:(lia)) as (C1 & C2 & C3).
      apply Hfin; try done.
      * unfold dropped. destruct (Z.ltb_spec 1 rc); [lia|]. done.
      * cbn [snd]. split; [split; [done|lia]|tauto].
    + apply Hfin; try done.
      * intros q Hq. split_and!; try done. case_decide; [subst q|done]. cbn [fst]. rewrite Hrc2. fold rc.
        unfold dropped. bcase; lia.
      * cbn [snd]. split; [split; [done|lia]|tauto].
Qed.

Lemma releasing_run s l s1 cf done_ :
  releasing s s1 cf done_ -> NoDup l -> (forall i, i ∈ l -> i ∉ done_) ->
  (forall i, i ∈ l -> 0 <= i < total_pages s /\ ~ free_page s i /\ 0 <= refcount (znth (pages s) i) < 65536) ->
  releasing s (foldl free_one (s1, cf) l).1 (foldl free_one (s1, cf) l).2 (rev l ++ done_).
Proof.
  revert s1 cf done_. induction l as [|i l IH]; intros s1 cf dn HR Hnd Hdis Hall; cbn [foldl].
  { exact HR. }
  apply NoDup_cons in Hnd as [Hi Hnd]. destruct (Hall i) as (A1 & A2 & A3); [by left|].
  pose proof (releasing_step s s1 cf dn i HR A1 A2 (Hdis i ltac:(by left)) A3) as HR'.
  destruct (free_one (s1, cf) i) as [s2 cf2]. cbn [fst snd] in HR'.
  replace (rev (i :: l) ++ dn) with (rev l ++ (i :: dn)) by (simpl; by rewrite <- app_assoc).
  apply IH; try done; set_solver.
Qed.

Lemma releasing_refl s : pa_ok s -> releasing s s true [].
Proof.
  intros Hok. split; try done.
  - intros q Hq. rewrite decide_False by apply not_elem_of_nil. split_and!; try done. by intros ?%elem_of_nil.
  - split; [|done]. by intros _ q ?%elem_of_nil.
Qed.

(** What [free_pages] does to a block in use. *)
Record released (s : pa) (p o : Z) (s' : pa) : Prop := Released {
  rd_ok : pa_ok s';
  rd_static : pa_static s' = pa_static s;
  rd_refs q : in_block p o q -> refcount (znth (pages s') q) = dropped (refcount (znth (pages s) q));
  rd_other q : 0 <= q < total_pages s -> ~ in_block p o q ->
    refcount (znth (pages s') q) = refcount (znth (pages s) q);
  rd_maps q : 0 <= q < total_pages s -> page_maps (znth (pages s') q) = page_maps (znth (pages s) q);
  rd_last : (forall q, in_block p o q -> refcount (znth (pages s) q) <= 1) ->
    forall x, free_page s' x <-> free_page s x \/ in_block p o x;
  rd_shared : (exists q, in_block p o q /\ 1 < refcount (znth (pages s) q)) ->
    forall x, free_page s' x <-> free_page s x;
}.

(** A block in use whose counts are 16-bit values. *)
Definition in_use (s : pa) (t : zone_type) (p o : Z) : Prop :=
  block_ok (buddy_max_order s) (get_zone s t) p o /\ p * 4096 < PAGE_OFFSET /\
  forall x, in_block p o x -> ~ free_page s x /\ 0 <= refcount (znth (pages s) x) < 65536.

Lemma free_pages_post s t p o :
  pa_ok s -> buddy_ready s = true -> in_use s t p o ->
  exists s', free_pages s (p * 4096) o = Some s' /\ released s p o s'.
Proof.
  intros Hok Hrdy (Hb & Hoff & Huse). pose proof (ok_zones _ Hok) as Hz.
  pose proof Hz as (_ & Hlen & Htot & _ & _ & _ & _ & Hmo).
  destruct (ok_buddy _ Hok t) as (L & HL & _).
  destruct (block_ok_range _ _ _ _ (lo_shape _ _ _ HL) Hb) as (Ho & Hp & Hpz & Hpe).
  cbn [view mem_map bzone] in Hp, Hpz, Hpe.
  unfold free_pages. destruct (Z.leb_spec PAGE_OFFSET (p * 4096)); [lia|].
  rewrite (land_mask _ 12) by done. rewrite Z.mod_mul by done. cbn [negb Z.eqb].
  change PAGE_SIZE with 4096. rewrite Z.div_mul by done.
  destruct (Z.leb_spec (total_pages s) p); [lia|]. rewrite andb_false_r.
  pose proof (pow2_le o ltac:(lia)) as Hpow. rewrite shl1 by lia.
  destruct (Z.eqb_spec (2 ^ o) 0); [lia|]. rewrite Hrdy. cbn [negb].
  assert (Hrun : forall i, i ∈ seqZ p (2 ^ o) <-> in_block p o i) by (intros; rewrite elem_of_seqZ; done).
  pose proof (releasing_run s (seqZ p (2 ^ o)) s true [] (releasing_refl s Hok) (NoDup_seqZ _ _)) as HR.
  destruct (foldl free_one (s, true) (seqZ p (2 ^ o))) as [s1 cf]. cbn [fst snd] in HR.
  rewrite app_nil_r in HR.
  assert (HRR : releasing s s1 cf (rev (seqZ p (2 ^ o)))).
  { apply HR; [by intros ? _ ?%elem_of_nil|]. intros i Hi. rewrite Hrun in Hi. destruct (Huse i Hi) as [U1 U2].
    split; [unfold in_block in Hi; lia|done]. }
  clear HR. destruct HRR as [R1 R2 R3 R4 R5].
  assert (Hmem : forall q, q ∈ rev (seqZ p (2 ^ o)) <-> in_block p o q).
  { intros q. rewrite <- Hrun, !list_elem_of_In, <- in_rev. done. }
  setoid_rewrite Hmem in R5.
  assert (Hrefs1 : forall q, in_block p o q -> refcount (znth (pages s1) q) = dropped (refcount (znth (pages s) q))).
  { intros q Hq. destruct (R4 q) as [E _]; [unfold in_block in Hq; lia|].
    by rewrite decide_True in E by (by apply Hmem). }
  assert (Hother1 : forall q, 0 <= q < total_pages s -> ~ in_block p o q ->
    refcount (znth (pages s1) q) = refcount (znth (pages s) q)).
  { intros q Hq Hnb. destruct (R4 q Hq) as [E _]. by rewrite decide_False in E by (by rewrite Hmem). }
  pose proof (ok_zones _ R1) as Hz1. pose proof (total_of_static _ _ R2) as Htot1.
  assert (Hmo1 : buddy_max_order s1 = buddy_max_order s) by (unfold pa_static in R2; congruence).
  destruct cf; cbn [negb].
  - (* the last reference: the block goes back to its zone *)
    assert (Ht : pfn_to_zone s1 p = t).
    { apply zone_of_pfn_eq; [done|]. by rewrite (in_zone_static s s1). }
    rewrite Ht, Hmo1. eexists. split; [done|].
    assert (Hb1 : block_ok (buddy_max_order s) (bzone (view s1 t)) p o).
    { destruct Hz as (_&_&_&A1&A2&A3&A4&_), Hz1 as (_&_&_&B1&B2&B3&B4&_).
      unfold block_ok, zend in *. cbn [view bzone]. destruct t; cbn [get_zone] in *;
        rewrite ?B1, ?B2, ?B3, ?B4, ?A1, ?A2, ?A3, ?A4, ?Htot1 in *; done. }
    assert (Hnf1 : forall x, in_block p o x -> ~ page_free (view s1 t) x).
    { intros x Hx Hf. destruct (Huse x Hx) as [U _]. apply U, R3. by exists t. }
    destruct (buddy_free_post (buddy_max_order s) (view s1 t) p o) as (F1 & F2 & F3); try done.
    { rewrite <- Hmo1. apply (ok_buddy _ R1). }
    set (b := buddy_free_block _ _ _ _) in *.
    assert (Hidle : forall x, page_free b x -> idle (znth (pages s1) x)).
    { intros x Hx. apply F3 in Hx as [Hx|Hx]; [apply (ok_free _ R1); by exists t|].
      destruct (R4 x) as (_ & _ & E); [unfold in_block in Hx; lia|]. split; [|by apply E, Hmem].
      rewrite Hrefs1 by done. pose proof (proj1 R5 eq_refl x Hx). unfold dropped. bcase; lia. }
    assert (Hb' : buddy_ok (buddy_max_order s1) b) by (by rewrite Hmo1).
    destruct (pa_ok_put s1 t b R1 F2 Hb' Hidle) as [P1 P2].
    pose proof F2 as (Hst & _ & _ & _ & Hrest). cbn [view mem_map bzone] in Hrest, Hst.
    assert (Hcore : forall q, 0 <= q -> page_core (znth (pages (put s1 t b)) q) = page_core (znth (pages s1) q)).
    { intros q Hq. cbn [put pages]. specialize (Hrest q Hq). unfold page_rest in Hrest. unfold page_core. congruence. }
    split; try done.
    + rewrite static_put by done. done.
    + intros q Hq. rewrite <- Hrefs1 by done. specialize (Hcore q ltac:(unfold in_block in Hq; lia)).
      unfold page_core in Hcore. congruence.
    + intros q Hq Hnb. rewrite <- Hother1 by done. specialize (Hcore q ltac:(lia)). unfold page_core in Hcore. congruence.
    + intros q Hq. destruct (R4 q Hq) as (_ & <- & _). specialize (Hcore q ltac:(lia)).
      unfold page_core, page_maps in *. congruence.
    + intros _ x. rewrite P2, F3. split.
      * intros [[Hx|Hx]|[Hx _]]; [left; apply R3; by exists t|by right|left; by apply R3].
      * intros [Hx|Hx]; [|left; by right]. apply R3 in Hx.
        destruct Hx as [t' Hx]. destruct (decide (t = t')) as [<-|Hne]; [left; by left|].
        right. split; [by exists t'|]. intros Hxz. apply Hne.
        eapply zones_disjoint; [exact Hz1|done|]. by apply (page_free_in_zone _ _ _ (ok_buddy _ R1 t')).
    + intros (q & Hq & Hgt). pose proof (proj1 R5 eq_refl q Hq). lia.
  - (* still referenced *)
    exists s1. split; [done|]. split; try done.
    + intros q Hq. by destruct (R4 q Hq) as (_ & ? & _).
    + intros Hall. exfalso. assert (false = true) by (by apply R5). done.
Qed.

(** C22: [free_pages] on a block in use drops one reference from each page of
    the block and from no other, takes the pages off the inactive list, and
    keeps the invariant; the block's frames join the free set exactly when no
    page of the block was shared, otherwise the free set is unchanged.  It
    never panics on such a block. *)
Theorem free_pages_correct s t p o :
  pa_ok s -> buddy_ready s = true -> in_use s t p o ->
  exists s', free_pages s (p * 4096) o = Some s' /\ released s p o s'.
Proof. apply free_pages_post. Qed.

(** ** Initialisation *)

(** Replacing a zone's bookkeeping outside its lists. *)
Lemma pa_ok_zone s t z :
  pa_ok s ->
  start_pfn z = start_pfn (get_zone s t) -> spanned_pages z = spanned_pages (get_zone s t) ->
  free_areas z = free_areas (get_zone s t) -> inactive_list z = inactive_list (get_zone s t) ->
  nr_inactive z = nr_inactive (get_zone s t) -> watermarks_ok z ->
  let s' := put s t (Buddy z (next s) (pages s)) in
  pa_ok s' /\ (forall x, free_page s' x <-> free_page s x).
Proof.
  intros Hok E1 E2 E3 E4 E5 Hw s'. pose proof (ok_zones _ Hok) as Hz.
  assert (Ha : forall t', bagree (view s t') (view s' t')).
  { intros t'. unfold bagree, view, page_order, s'. cbn [bzone buddy_next mem_map].
    destruct (decide (t = t')) as [<-|Hne]; [rewrite get_put|rewrite get_put_ne by done]; done. }
  assert (Hgz : forall t', start_pfn (get_zone s' t') = start_pfn (get_zone s t') /\
    spanned_pages (get_zone s' t') = spanned_pages (get_zone s t') /\
    inactive_list (get_zone s' t') = inactive_list (get_zone s t') /\
    nr_inactive (get_zone s' t') = nr_inactive (get_zone s t') /\ watermarks_ok (get_zone s' t')).
  { intros t'. unfold s'. destruct (decide (t = t')) as [<-|Hne]; [rewrite get_put|rewrite get_put_ne by done].
    - done.
    - split_and!; try done; apply (ok_wmarks _ Hok). }
  assert (Hfree : forall x, free_page s' x <-> free_page s x).
  { intros x. unfold free_page. split; intros [t' Hx]; exists t'; by rewrite (bagree_page_free _ _ (Ha t')) in *. }
  split; [|done]. split.
  - destruct (Hgz ZONE_DMA) as (A1 & A2 & _), (Hgz ZONE_NORMAL) as (A3 & A4 & _).
    unfold zones_ok in *. cbn [get_zone] in *. rewrite A1, A2, A3, A4. done.
  - destruct (ok_lists _ Hok) as [Hc Hd]. split; [|done]. intros t'.
    destruct (Hgz t') as (_ & -> & _). apply Hc.
  - intros t'. apply Hgz.
  - intros t'. eapply bagree_buddy_ok; [apply Ha|]. apply (ok_buddy _ Hok).
  - intros t'. destruct (Hgz t') as (G1 & G2 & G3 & G4 & _). destruct (ok_lru _ Hok t') as (L1 & L2 & L3).
    unfold lru_ok, in_zone, zend in *. rewrite G1, G2, G3, G4. done.
  - intros x Hx. apply Hfree in Hx. by apply (ok_free _ Hok).
Qed.

(** A frame the memory map gives to the allocator and boot code does not hold. *)
Definition releasable (bm : bootmem_data) (ms : list bootmem_e820_entry) (x : Z) : Prop :=
  bootmem_is_reserved bm (x * 4096) 4096 = false /\
  Exists (fun e => usable e /\ 1048576 <= e_base e /\
    e_base e / 4096 <= x < e_base e / 4096 + e_size e / 4096) ms.

(** The pages as [init_zones] leaves them, but for [PG_RESERVED]. *)
Definition boot_page (p : page) : Prop :=
  p = Page PG_RESERVED 0 0 0 0 0 [] \/ p = Page 0 0 0 0 0 0 [].

(** A page taken before [mem_init]. *)
Definition held_page (p : page) : Prop := p = Page PG_RESERVED 1 0 0 0 0 [].

Definition boot_pages (ps : list page) (total : Z) (R H : Z -> Prop) : Prop :=
  zlen ps = total /\
  forall q, 0 <= q < total -> (boot_page (znth ps q) \/ H q /\ held_page (znth ps q)) /\
    (has (flags (znth ps q)) PG_RESERVED = false <-> R q).

Lemma boot_page_clear p : boot_page p -> clear_bit PG_RESERVED p = Page 0 0 0 0 0 0 [].
Proof. by intros [->| ->]. Qed.

Lemma boot_pages_ext ps total R R' H :
  (forall q, 0 <= q < total -> R q <-> R' q) -> boot_pages ps total R H -> boot_pages ps total R' H.
Proof.
  intros HR [Hl Hq]. split; [done|]. intros q Hq0. destruct (Hq q Hq0) as [H1 H2]. split; [done|].
  rewrite H2. by apply HR.
Qed.

Lemma boot_pages_clear ps total R H i :
  boot_pages ps total R H -> 0 <= i < total -> ~ H i ->
  boot_pages (upd_page ps i (clear_bit PG_RESERVED)) total (fun q => R q \/ q = i) H.
Proof.
  intros [Hl Hq] Hi Hh. split; [by rewrite zlen_upd_page|]. intros q Hq0. destruct (Hq q Hq0) as [H1 H2].
  rewrite znth_upd_page by lia. case_decide.
  - subst q. destruct H1 as [H1|[? _]]; [|done]. rewrite boot_page_clear by done. split; [by left; right|]. split; [by right|done].
  - split; [done|]. rewrite H2. naive_solver.
Qed.

Lemma unreserve_run_spec n bm total pfn ps R H :
  (forall q, H q -> bootmem_is_reserved bm (q * 4096) 4096 = true) ->
  boot_pages ps total R H -> 0 <= pfn <= 1048576 -> total <= 1048576 ->
  boot_pages (unreserve_run n bm total pfn ps) total
    (fun q => R q \/ (pfn <= q < pfn + Z.of_nat n /\ bootmem_is_reserved bm (q * 4096) 4096 = false)) H.
Proof.
  intros HH. revert pfn ps R. induction n as [|n IH]; intros pfn ps R Hps Hpfn Htot; cbn [unreserve_run].
  { eapply boot_pages_ext; [|exact Hps]. intros q Hq. split; [tauto|]. intros [?|[? _]]; [done|lia]. }
  destruct (Z.leb_spec total pfn).
  { eapply boot_pages_ext; [|exact Hps]. intros q Hq. split; [tauto|]. intros [?|[? _]]; [done|lia]. }
  rewrite add32_id by lia. change PAGE_SIZE with 4096. rewrite mul32_id by lia.
  destruct (bootmem_is_reserved bm (pfn * 4096) 4096) eqn:E.
  - eapply boot_pages_ext; [|apply (IH (pfn + 1) ps R Hps ltac:(lia) Htot)]. intros q Hq. cbv beta.
    split; intros [?|[? Hr]]; [by left|right; split; [lia|done]|by left|].
    right. split; [|done]. assert (q <> pfn) by (intros ->; congruence). lia.
  - assert (Hfree : ~ H pfn) by (intros Hp%HH; congruence).
    eapply boot_pages_ext; [|apply (IH (pfn + 1) _ _ (boot_pages_clear ps total R H pfn Hps ltac:(lia) Hfree) ltac:(lia) Htot)].
    intros q Hq. cbv beta. split.
    + intros [[?| ->]|[? ?]]; [by left|right; split; [lia|done]|right; split; [lia|done]].
    + intros [?|[? ?]]; [by left; left|]. destruct (decide (q = pfn)); [left; by right|right; split; [lia|done]].
Qed.

Lemma unreserve_spec ms bm total ps R H :
  (forall q, H q -> bootmem_is_reserved bm (q * 4096) 4096 = true) ->
  boot_pages ps total R H -> total <= 1048576 -> Forall (fun e => 0 <= e_base e < 4294967296 /\ 0 <= e_size e) ms ->
  boot_pages (foldl (unreserve_entry bm total) ps ms) total (fun q => R q \/ releasable bm ms q) H.
Proof.
  intros HH Hps Htot Hms. revert ps R Hps. induction Hms as [|e ms [He1 He2] Hms IH]; intros ps R Hps; cbn [foldl].
  { eapply boot_pages_ext; [|exact Hps]. intros q Hq. unfold releasable. rewrite Exists_nil. tauto. }
  assert (Hstep : boot_pages (unreserve_entry bm total ps e) total
    (fun q => R q \/ releasable bm [e] q) H).
  { unfold unreserve_entry. unfold releasable, usable, MULTIBOOT_MEMORY_AVAILABLE.
    destruct (Z.eqb_spec (e_type e) 1); cbn [negb].
    2:{ eapply boot_pages_ext; [|exact Hps]. intros q Hq. rewrite Exists_cons, Exists_nil. tauto. }
    destruct (Z.ltb_spec (e_base e) 1048576).
    { eapply boot_pages_ext; [|exact Hps]. intros q Hq. rewrite Exists_cons, Exists_nil.
      split; [tauto|]. intros [?|(_ & [(_ & ? & _)|[]])]; [done|lia]. }
    assert (0 <= e_base e / 4096 <= 1048576).
    { split; [apply Z.div_pos; lia|]. apply Z.div_le_upper_bound; lia. }
    assert (0 <= e_size e / 4096) by (apply Z.div_pos; lia).
    change PAGE_SIZE with 4096.
    eapply boot_pages_ext; [|apply (unreserve_run_spec _ bm total (e_base e / 4096) ps R H HH Hps); [lia|lia]].
    intros q Hq. rewrite Exists_cons, Exists_nil, Z2Nat.id by lia. naive_solver. }
  eapply boot_pages_ext; [|apply (IH _ _ Hstep)]. intros q Hq. unfold releasable.
  rewrite !Exists_cons, Exists_nil. tauto.
Qed.

(** The state [mem_init] starts from: what [init_zones], [build_all_zonelists]
    and [free_area_init] leave. *)
Definition booted (s : pa) (R H : Z -> Prop) : Prop :=
  zones_ok s /\ zonelists_ok s /\ boot_pages (pages s) (total_pages s) R H /\
  forall t, free_areas (get_zone s t) = replicate 11 (Free_area (-1) 0) /\
    inactive_list (get_zone s t) = [] /\ nr_inactive (get_zone s t) = 0 /\ watermarks_ok (get_zone s t).

Lemma boot_page_idle p : boot_page p -> idle p.
Proof. by intros [->| ->]. Qed.

Lemma boot_page_flags p (H : Prop) :
  boot_page p \/ H /\ held_page p -> has (flags p) PG_BUDDY = false /\ has (flags p) PG_LRU = false.
Proof. by intros [[->| ->]|[_ ->]]. Qed.

Lemma booted_ok s R H : booted s R H -> pa_ok s /\ forall x, ~ free_page s x.
Proof.
  intros (Hz & Hl & [Hlen Hps] & Ht).
  assert (Hnb : forall t p, in_zone (get_zone s t) p -> ~ is_buddy (view s t) p).
  { intros t p Hin Hb. destruct (Hps p) as [Hp _]; [by apply (in_zone_total s t)|].
    destruct (boot_page_flags _ _ Hp) as (E & _). unfold is_buddy in Hb. cbn [view mem_map] in Hb. congruence. }
  assert (Hnf : forall x, ~ free_page s x).
  { intros x (t & p & Hin & Hb & _). exact (Hnb t p Hin Hb). }
  split; [|done]. split; try done.
  - intros t. apply Ht.
  - intros t. apply empty_ok; [|intros o Ho|apply Hnb].
    + destruct (Ht t) as (E & _). destruct Hz as (?&?&?&?&?&?&?&?).
      unfold zone_shape. cbn [view buddy_next mem_map bzone]. rewrite E.
      split_and!; try done; try lia; destruct t; unfold zend; cbn [get_zone]; lia.
    + destruct (Ht t) as (E & _). cbn [view bzone]. unfold area, znth. rewrite E.
      rewrite lookup_total_replicate_2 by lia. done.
  - intros t. destruct (Ht t) as (_ & E1 & E2 & _). unfold lru_ok. rewrite E1, E2.
    split_and!; [constructor|done|]. intros p. rewrite elem_of_nil. split; [done|].
    intros [Hin Hlru]. destruct (Hps p) as [Hp _]; [by apply (in_zone_total s t)|].
    destruct (boot_page_flags _ _ Hp) as (_ & E). congruence.
  - intros x Hx. by destruct (Hnf x).
Qed.

(** The second loop: pages below [i] have been given to their zones. *)
Record giving (s0 s : pa) (i : Z) (R : Z -> Prop) : Prop := Giving {
  gv_ok : pa_ok s;
  gv_total : total_pages s = total_pages s0 /\ buddy_max_order s = buddy_max_order s0 /\
    contig_zonelist s = contig_zonelist s0 /\ dma_zonelist s = dma_zonelist s0;
  gv_free x : free_page s x <-> R x /\ 0 < x < i;
  gv_page q : 0 <= q < total_pages s0 ->
    (R q -> idle (znth (pages s) q)) /\ (has (flags (znth (pages s) q)) PG_RESERVED = false <-> R q);
  gv_managed t : 0 <= managed_pages (get_zone s t);
}.

Lemma free_page_not s i R s0 : giving s0 s i R -> ~ free_page s i.
Proof. intros HG Hf. apply (gv_free _ _ _ _ HG) in Hf. lia. Qed.

Lemma release_page_step s0 s i R :
  giving s0 s i R -> 0 <= i < total_pages s0 -> (R i -> 0 < i) -> giving s0 (release_page s i) (i + 1) R.
Proof.
  intros HG Hi Hpos. pose proof HG as [Hok (T1 & T2 & T3 & T4) Hfree Hpage Hman].
  pose proof (ok_zones _ Hok) as Hz. pose proof Hz as (_ & Hlen & _).
  unfold release_page, page_exists. destruct (Z.ltb_spec i (zlen (pages s))); [|lia]. cbn [negb].
  destruct (Hpage i Hi) as [Hidle HRi].
  destruct (has (flags (znth (pages s) i)) PG_RESERVED) eqn:Er.
  { assert (~ R i) by (rewrite <- HRi; done). split; try done. intros x. rewrite Hfree.
    split; [intros [? ?]; split; [done|lia]|]. intros [HR ?]. split; [done|].
    assert (x <> i) by (intros ->; done). lia. }
  assert (HR : R i) by (by apply HRi). specialize (Hpos HR). specialize (Hidle HR).
  assert (Hin : in_zone (get_zone s (pfn_to_zone s i)) i) by (apply zone_of_pfn; [done|lia]).
  set (t := pfn_to_zone s i) in *.
  destruct (pa_ok_zone s t (count_managed (get_zone s t)) Hok) as [Hok1 Hfree1]; try done.
  { apply (ok_wmarks _ Hok). }
  set (s1 := put s t (Buddy (count_managed (get_zone s t)) (next s) (pages s))) in *.
  assert (Hnf : ~ free_page s i) by (by eapply free_page_not).
  assert (Hnb : has (flags (znth (pages s) i)) PG_BUDDY = false).
  { destruct (ok_buddy _ Hok t) as (L & HL & _). apply (not_marked _ (view s t) L i HL Hin).
    rewrite <- (page_free_iff _ _ _ _ HL). intros Hf. apply Hnf. by exists t. }
  rewrite Hnb. set (mo := buddy_max_order s1).
  assert (Hmo : 0 <= mo <= 10) by apply Hz.
  destruct (buddy_free_post mo (view s1 t) i 0) as (F1 & F2 & F3).
  { apply (ok_buddy _ Hok1). }
  { unfold block_ok. unfold s1. rewrite view_put. cbn [bzone]. unfold in_zone, zend in *.
    cbn [count_managed start_pfn spanned_pages]. change (2 ^ 0) with 1. split_and!; try lia. apply Z.divide_1_l. }
  { intros x Hx Hf. unfold in_block in Hx. change (2 ^ 0) with 1 in Hx. assert (x = i) as -> by lia.
    apply Hnf, Hfree1. by exists t. }
  destruct (pa_ok_put s1 t _ Hok1 F2 F1) as [P1 P2].
  { intros x Hx. apply F3 in Hx as [Hx|Hx]; [apply (ok_free _ Hok1); by exists t|].
    unfold in_block in Hx. change (2 ^ 0) with 1 in Hx. assert (x = i) as -> by lia. exact Hidle. }
  assert (Hrest : forall q, 0 <= q -> page_rest (znth (pages (put s1 t (buddy_free_block mo (view s1 t) i 0))) q)
    = page_rest (znth (pages s) q)).
  { intros q Hq. destruct F2 as (_ & _ & _ & _ & Hr). exact (Hr q Hq). }
  split; try done.
  - intros x. rewrite P2, F3. unfold in_block. change (2 ^ 0) with 1.
    assert (Hx1 : free_page s1 x <-> R x /\ 0 < x < i) by (by rewrite Hfree1, Hfree).
    split.
    + intros [[Hx|Hx]|[Hx _]].
      * assert (free_page s1 x) as [? ?]%Hx1 by (by exists t). split; [done|lia].
      * assert (x = i) as -> by lia. split; [done|lia].
      * apply Hx1 in Hx as [? ?]. split; [done|lia].
    + intros [HRx Hx]. destruct (decide (x = i)) as [->|Hne]; [left; right; lia|].
      assert (free_page s1 x) as [t' Hf] by (apply Hx1; split; [done|lia]).
      destruct (decide (t = t')) as [<-|Hnt]; [left; by left|]. right. split; [by exists t'|].
      intros Hxz. apply Hnt. eapply (zones_disjoint s1); [apply (ok_zones _ Hok1)| |].
      * exact Hxz.
      * by apply (page_free_in_zone _ _ _ (ok_buddy _ Hok1 t')).
  - intros q Hq. destruct (Hpage q Hq) as [H1 H2]. specialize (Hrest q ltac:(lia)).
    split; [intros HRq; by apply (idle_rest _ _ Hrest), H1|]. rewrite <- H2. unfold page_rest in Hrest.
    injection Hrest as E _. change (mem_map (buddy_free_block mo (view s1 t) i 0))
      with (pages (put s1 t (buddy_free_block mo (view s1 t) i 0))) in E. by rewrite E.
  - intros t'. destruct (decide (t = t')) as [<-|Hne].
    + rewrite get_put. destruct F2 as (Hst & _). unfold zone_static in Hst. injection Hst as _ _ _ _ -> _ _ _.
      unfold s1. rewrite get_put. apply u32_range.
    + unfold s1. rewrite !get_put_ne by done. apply Hman.
Qed.

Lemma release_pages s0 s R n :
  giving s0 s 0 R -> Z.of_nat n <= total_pages s0 -> (forall x, R x -> 0 < x) ->
  giving s0 (foldl release_page s (seqZ 0 (Z.of_nat n))) (Z.of_nat n) R.
Proof.
  intros HG Hn HR. induction n as [|n IH]; [exact HG|].
  replace (Z.of_nat (S n)) with (Z.of_nat n + 1) by lia.
  rewrite seqZ_app by lia. rewrite foldl_app.
  change (seqZ (0 + Z.of_nat n) 1) with [0 + (0 + Z.of_nat n)]. cbn [foldl].
  apply release_page_step; [apply IH; lia|lia|apply HR].
Qed.

Lemma watermarks_fracs z n : 0 <= n -> watermark z = [n / 64; n / 32; n / 16] -> watermarks_ok z.
Proof.
  intros Hn E. unfold watermarks_ok. rewrite E. change (n / 64 <= n / 32 <= n / 16).
  split; apply Z.div_le_compat_l; lia.
Qed.

(** The invariant does not look at the remaining fields. *)
Definition other_fields (s : pa) (rd : bool) (m : Z) (bm : bootmem_data) (k : kswapd_stats) : pa :=
  Pa (pages s) (next s) (zone_dma s) (zone_normal s) (contig_zonelist s) (dma_zonelist s)
    (buddy_max_order s) rd (total_pages s) m bm k.

Lemma pa_ok_other s rd m bm k : pa_ok s -> pa_ok (other_fields s rd m bm k).
Proof.
  by intros [H1 H2 H3 H4 H5 H6]; split.
Qed.

Lemma free_page_other s rd m bm k x : free_page (other_fields s rd m bm k) x <-> free_page s x.
Proof. unfold free_page. split; intros [t Ht]; exists t; by destruct t. Qed.

(** [mem_init] from the state left by the earlier boot steps. *)
Lemma mem_init_spec s ms H :
  booted s (fun _ => False) H -> (forall q, H q -> bootmem_is_reserved (bootmem s) (q * 4096) 4096 = true) ->
  Forall (fun e => 0 <= e_base e < 4294967296 /\ 0 <= e_size e) ms ->
  exists s', mem_init s (Some ms) = Some s' /\ pa_ok s' /\ buddy_ready s' = true /\
    forall x, free_page s' x <-> 0 < x < total_pages s /\ releasable (bootmem s) ms x.
Proof.
  intros Hb HH Hms. pose proof Hb as (Hz & Hl & Hps & Ht). pose proof Hz as (Hn & _ & Htot & _).
  unfold mem_init. destruct (Z.eqb_spec (total_pages s) 0); [lia|].
  destruct (Z.eqb_spec (zlen (next s)) 0); [lia|]. cbn [orb].
  pose proof (unreserve_spec ms (bootmem s) (total_pages s) (pages s) _ H HH Hps ltac:(lia) Hms) as Hps1.
  set (ps := foldl _ (pages s) ms) in *.
  set (s1 := Pa ps _ _ _ _ _ _ _ _ _ _ _).
  set (R := releasable (bootmem s) ms).
  assert (Hb1 : booted s1 R H).
  { split_and!.
    - unfold zones_ok in *. cbn [s1 next pages zone_dma zone_normal total_pages buddy_max_order zero_managed start_pfn spanned_pages].
      destruct Hps1 as [E _]. rewrite E. tauto.
    - destruct Hl as [L1 L2]. split; [|done]. intros t. cbn [s1 contig_zonelist]. rewrite L1. by destruct t.
    - eapply boot_pages_ext; [|exact Hps1]. intros q Hq. cbv beta. unfold R. tauto.
    - intros t. specialize (Ht t). by destruct t. }
  destruct (booted_ok s1 R H Hb1) as [Hok1 Hnf1].
  assert (HR : forall x, R x -> 0 < x).
  { intros x [_ He]. apply Exists_exists in He as (e & _ & _ & He1 & He2 & _).
    assert (1048576 / 4096 <= e_base e / 4096) by (apply Z.div_le_mono; lia). change (1048576 / 4096) with 256 in *. lia. }
  assert (HG0 : giving s1 s1 0 R).
  { split; try done.
    - intros x. split; [by intros ?%Hnf1|lia].
    - intros q Hq. destruct Hb1 as (_ & _ & [_ Hq1] & _). destruct (Hq1 q Hq) as [B1 B2].
      split; [|done]. intros HRq. apply B2 in HRq. destruct B1 as [B1|[_ B1]]; [by apply boot_page_idle|]. by rewrite B1 in HRq.
    - by intros []. }
  pose proof (release_pages s1 s1 R (Z.to_nat (total_pages s)) HG0) as HG.
  rewrite Z2Nat.id in HG by lia. specialize (HG ltac:(done) HR).
  set (s2 := foldl release_page s1 _) in *. destruct HG as [Hok2 _ Hf2 _ Hman].
  destruct (pa_ok_zone s2 ZONE_DMA (set_wmarks (zone_dma s2) (managed_pages (zone_dma s2))) Hok2) as [Hok3 Hf3]; try done.
  { eapply watermarks_fracs; [|done]. apply (Hman ZONE_DMA). }
  set (s3 := put s2 ZONE_DMA _) in Hok3, Hf3.
  destruct (pa_ok_zone s3 ZONE_NORMAL (set_wmarks (zone_normal s2) (managed_pages (zone_normal s2))) Hok3) as [Hok4 Hf4]; try done.
  { eapply watermarks_fracs; [|done]. apply (Hman ZONE_NORMAL). }
  set (s4 := put s3 ZONE_NORMAL _) in Hok4, Hf4.
  eexists. split; [done|]. split; [exact (pa_ok_other s4 _ _ _ _ Hok4)|]. split; [done|].
  intros x. etrans; [apply (free_page_other s4)|]. rewrite Hf4, Hf3, Hf2. unfold R. tauto.
Qed.

Lemma bootmem_alloc_total b sz al :
  Bootmem.total_pages (bootmem_alloc b sz al).2 = Bootmem.total_pages b /\ bm_end (bootmem_alloc b sz al).2 = bm_end b.
Proof.
  unfold bootmem_alloc. destruct (sz =? 0); [done|]. destruct (alloc_regions _ _ _ _); [|done].
  unfold bootmem_reserve. cbn [snd]. by destruct (_ <=? _).
Qed.

Lemma max_order_range n total : 0 <= max_order_loop n total <= Z.of_nat n.
Proof. induction n as [|n IH]; cbn [max_order_loop]; [lia|]. destruct (_ <? _); lia. Qed.

(** [init_zones], [build_all_zonelists] and [free_area_init]. *)
Lemma zones_booted s kb s' H :
  0 < Bootmem.total_pages (bootmem s) <= 1048576 -> pages s = [] ->
  free_area_init_core (build_all_zonelists (init_zones s)) kb = Some s' -> pages s' <> [] ->
  booted s' (fun _ => False) H /\ total_pages s' = Bootmem.total_pages (bootmem s) /\
  buddy_ready s' = buddy_ready s /\ bm_end (bootmem s') = bm_end (bootmem s).
Proof.
  intros Htot Hnil. unfold init_zones. set (total := Bootmem.total_pages (bootmem s)) in *.
  destruct (Z.eqb_spec total 0); [lia|].
  pose proof (bootmem_alloc_total (bootmem s) (SIZEOF_PAGE *w total) PAGE_SIZE) as [Hbt He].
  destruct (bootmem_alloc (bootmem s) (SIZEOF_PAGE *w total) PAGE_SIZE) as [[addr|] bm]; cbn [snd] in Hbt, He.
  2:{ unfold free_area_init_core. destruct (bootmem_alloc _ _ _) as [[a|] bm']; [|done].
      destruct (a =? 0); [done|]. intros [= <-] Hne. by destruct Hne. }
  destruct (addr =? 0).
  { unfold free_area_init_core. destruct (bootmem_alloc _ _ _) as [[a|] bm']; [|done].
    destruct (a =? 0); [done|]. intros [= <-] Hne. by destruct Hne. }
  set (d := if MAX_DMA_PFN <? total then MAX_DMA_PFN else total).
  assert (Hd : d = Z.min 4096 total) by (unfold d, MAX_DMA_PFN; bcase; lia).
  rewrite sub32_id by lia. unfold free_area_init_core.
  cbn [build_all_zonelists bootmem pages zone_dma zone_normal contig_zonelist dma_zonelist total_pages managed_pages_total kswapd buddy_ready fresh_zone spanned_pages].
  rewrite Hbt. fold total. destruct (Z.eqb_spec total 0); [lia|].
  pose proof (bootmem_alloc_total bm (total *w 4) PAGE_SIZE) as [_ He'].
  destruct (bootmem_alloc bm _ _) as [[a|] bm']; [|done]. cbn [snd] in He'. destruct (a =? 0); [done|].
  intros [= <-] _. split; [|split; [done|split; [done|cbn [bootmem]; congruence]]].
  pose proof (max_order_range 10 total) as Hmo.
  assert (Hlen : forall A (x : A), zlen (replicate (Z.to_nat total) x) = total).
  { intros A x. unfold zlen. rewrite length_replicate. lia. }
  split_and!.
  - unfold zones_ok. cbn [next pages total_pages zone_dma zone_normal fresh_zone start_pfn spanned_pages buddy_max_order].
    rewrite !Hlen. split_and!; try done; try lia; exact (proj1 Hmo) || exact (proj2 Hmo).
  - split.
    + intros t. cbn [contig_zonelist]. destruct (Z.eqb_spec d 0), (Z.eqb_spec (total - d) 0);
        destruct t; cbn [get_zone zone_dma zone_normal fresh_zone spanned_pages negb app];
        try lia; set_solver.
    + cbn [dma_zonelist]. destruct (Z.eqb_spec d 0); [lia|done].
  - cbn [pages total_pages]. split; [apply Hlen|]. intros q Hq. unfold znth.
    rewrite lookup_total_replicate_2 by lia. split; [by left; left|]. done.
  - intros t. split_and!; try (by destruct t).
    destruct t; (eapply watermarks_fracs; [|done]); lia.
Qed.

(** Frames that the boot allocator has handed out: their reservation is recorded
    unless the table of 256 reservations is full. *)
Definition held_by (s : pa) (q : Z) : Prop :=
  256 <= zlen (reserved (bootmem s)) \/ bootmem_is_reserved (bootmem s) (q * 4096) 4096 = true.

(** A state between [free_area_init] and [mem_init]. *)
Record boot_ready (s : pa) (total lowest : Z) : Prop := BootReady {
  br_booted : booted s (fun _ => False) (held_by s);
  br_total : total_pages s = total;
  br_ready : buddy_ready s = false;
  br_end : bm_end (bootmem s) = lowest;
}.

Lemma region_search_range n b addr sz al rend a :
  region_search n b addr sz al rend = Some a -> 0 <= addr -> al <> 0 -> 0 <= a < rend.
Proof.
  revert addr. induction n as [|n IH]; intros addr E Ha Hal; cbn [region_search] in E; [done|].
  destruct (Z.ltb_spec addr rend); cbn [negb] in E; [|done]. destruct (_ <? _); [done|].
  destruct (bootmem_find_reserved_overlap b addr sz) as [e|]; [|injection E as <-; lia].
  apply (IH _ E); [|done]. unfold align_up. destruct (Z.eqb_spec al 0); [done|]. apply Z.land_nonneg. left. apply u32_range.
Qed.

Lemma alloc_regions_range rs b sz al a :
  alloc_regions rs b sz al = Some a -> al <> 0 -> 0 <= a < bm_end b.
Proof.
  intros E Hal. induction rs as [|r rs IH]; cbn [alloc_regions] in E; [done|]. destruct (_ <=? _); [by apply IH|].
  destruct (region_search _ _ _ _ _ _) as [x|] eqn:Es; [|by apply IH]. injection E as ->.
  apply region_search_range in Es; [| |done].
  - destruct (Z.ltb_spec (bm_end b) (base r +w size r)); lia.
  - unfold align_up. destruct (Z.eqb_spec al 0); [done|]. apply Z.land_nonneg. left. apply u32_range.
Qed.

Lemma find_overlap_hit rs bs e r : r ∈ rs -> misses bs e r = false -> find_overlap rs bs e <> None.
Proof.
  intros Hr Hm. induction rs as [|x rs IH]; [by apply elem_of_nil in Hr|]. cbn [find_overlap].
  apply elem_of_cons in Hr as [<-|Hr]; [by rewrite Hm|]. destruct (misses bs e x); [by apply IH|done].
Qed.

Lemma reserved_mono b b' l bs sz :
  reserved b' = reserved b ++ l -> bootmem_is_reserved b bs sz = true -> bootmem_is_reserved b' bs sz = true.
Proof.
  intros E. unfold bootmem_is_reserved. rewrite E. generalize (reserved b). intros rs.
  induction rs as [|r rs IH]; [done|]. cbn [app find_overlap]. by destruct (misses _ _ r).
Qed.

(** A state with the same pages and a reservation more. *)
Lemma booted_bootmem s R H H' bm : (forall q, H q -> H' q) -> booted s R H -> booted (with_bootmem s bm) R H'.
Proof.
  intros HH (Hz & Hl & [Hn Hps] & Ht). split_and!; try done. split; [done|]. intros q Hq.
  destruct (Hps q Hq) as [[?|[? ?]] ?]; (split; [|done]); [by left|right; split; [by apply HH|done]].
Qed.

(** Frame [f] is taken. *)
Lemma booted_hold s H f g :
  0 <= f -> H f -> (forall p, boot_page p \/ held_page p -> has (flags p) PG_RESERVED = true -> held_page (g p)) ->
  booted s (fun _ => False) H -> booted (with_pages s (upd_page (pages s) f g)) (fun _ => False) H.
Proof.
  intros Hf Hh Hg (Hz & Hl & [Hn Hps] & Ht). assert (El : zlen (upd_page (pages s) f g) = zlen (pages s)) by apply zlen_upd_page.
  split_and!; try done.
  - destruct Hz as (Z1 & Z2 & Z3). split; [exact Z1|]. split; [exact (eq_trans El Z2)|exact Z3].
  - split; [exact (eq_trans El Hn)|]. intros q Hq. change (pages (with_pages s ?x)) with x.
    change (total_pages (with_pages s _)) with (total_pages s) in Hq.
    destruct (Hps q Hq) as [Hp Hr]. destruct (Z.leb_spec (zlen (pages s)) f) as [Hout|Hin].
    { unfold upd_page. by destruct (Z.leb_spec (zlen (pages s)) f); [|lia]. }
    rewrite znth_upd_page by lia. case_decide; [|done]. subst q.
    assert (Hfl : has (flags (znth (pages s) f)) PG_RESERVED = true) by (destruct (has _ _); tauto).
    assert (Hq' : held_page (g (znth (pages s) f))) by (apply Hg; [tauto|done]). split; [by right|]. rewrite Hq'. done.
Qed.

Lemma hold_page p : boot_page p \/ held_page p -> has (flags p) PG_RESERVED = true -> held_page (set_refcount 1 p).
Proof. by intros [[->| ->]| ->] E. Qed.

Lemma alloc_pages_boot_ready s n e :
  e <= 4294963200 -> boot_ready s n e ->
  boot_ready (alloc_pages_boot 0 s).2 n e /\
  forall f, (alloc_pages_boot 0 s).1 = Some f -> 0 <= f /\ held_by (alloc_pages_boot 0 s).2 f.
Proof.
  intros He [Hb Hn Hr He']. unfold alloc_pages_boot, bootmem_alloc. change (PAGE_SIZE <<w 0 =? 0) with false. cbv iota.
  change (if PAGE_SIZE =? 0 then PAGE_SIZE else PAGE_SIZE) with 4096. change (PAGE_SIZE <<w 0) with 4096.
  destruct (alloc_regions _ _ _ _) as [a|] eqn:Ea; cbn [fst snd].
  2:{ split; [|done]. by split. }
  apply alloc_regions_range in Ea as [Ha1 Ha2]; [|done]. rewrite He' in Ha2.
  set (bm := bootmem_reserve _ a 4096). set (s1 := with_bootmem s bm).
  assert (Hend : bm_end bm = e) by (unfold bm, bootmem_reserve; by destruct (_ <=? _)).
  assert (Hmono : forall q, held_by s q -> held_by s1 q).
  { intros q. unfold held_by, s1, bm, bootmem_reserve. cbn [with_bootmem bootmem]. change BOOTMEM_MAX_REGIONS with 256.
    change (reserved (with_current (bootmem s) _)) with (reserved (bootmem s)).
    destruct (Z.leb_spec 256 (zlen (reserved (bootmem s)))); [by left|]. intros [?|Hq]; [lia|]. right.
    by apply (reserved_mono (bootmem s) _ [Region a 4096]). }
  assert (Hb1 : booted s1 (fun _ => False) (held_by s1)) by (by eapply booted_bootmem).
  destruct (a =? 0); cbn [fst snd]; [by split|].
  assert (Hh : held_by s1 (a / 4096)).
  { unfold held_by, s1, bm, bootmem_reserve. cbn [with_bootmem bootmem]. change BOOTMEM_MAX_REGIONS with 256.
    change (reserved (with_current (bootmem s) _)) with (reserved (bootmem s)).
    destruct (Z.leb_spec 256 (zlen (reserved (bootmem s)))); [by left|]. right. unfold bootmem_is_reserved.
    pose proof (Z.div_mod a 4096 ltac:(lia)) as Hd. pose proof (Z.mod_pos_bound a 4096 ltac:(lia)) as Hm.
    destruct (find_overlap _ _ _) eqn:Ef; [done|]. exfalso. revert Ef. apply (find_overlap_hit _ _ _ (Region a 4096)).
    - cbn [with_reserved reserved]. apply elem_of_app. right. by left.
    - unfold misses. cbn [base size]. rewrite !add32_id by lia.
      destruct (Z.leb_spec (a / 4096 * 4096 + 4096) a); [lia|]. destruct (Z.leb_spec (a + 4096) (a / 4096 * 4096)); [lia|done]. }
  assert (Hf : 0 <= a / 4096) by (apply Z.div_pos; lia).
  assert (Et : take_refs s1 (a / PAGE_SIZE) 0 = with_pages s1 (upd_page (pages s1) (a / 4096) (set_refcount 1))).
  { unfold take_refs. change (1 <<w 0) with 1. change (seqZ (a / PAGE_SIZE) 1) with [0 + (a / PAGE_SIZE)]. done. }
  rewrite Et. split.
  - split; try done. by apply (booted_hold s1 (held_by s1)); [..|intros; apply hold_page|].
  - intros f. destruct (page_exists _ _); [|done]. intros [= <-]. by split.
Qed.

Section boot.
Context {X : Type} `{!Reclaimers X}.
Implicit Types (w : pa * X).

(** The boot sequence of [start_kernel] up to [mem_init]. *)
Definition boot_sequence w (mem_kb : Z) : option (pa * X) :=
  match free_area_init_core (build_all_zonelists (init_zones w.1)) mem_kb with
  | None => None
  | Some s => paging_init (s, w.2)
  end.

Lemma alloc_tries_ready tries w n e :
  e <= 4294963200 -> boot_ready w.1 n e -> boot_ready (alloc_tries tries GFP_KERNEL 0 w).2.1 n e.
Proof.
  intros He. revert w. induction tries as [|tries IH]; intros w Hw; cbn [alloc_tries]; [done|].
  unfold __alloc_pages_nodemask. rewrite (br_ready _ _ _ Hw). cbn [negb].
  destruct (alloc_pages_boot_ready w.1 n e He Hw) as [Hs Hf]. destruct (alloc_pages_boot 0 w.1) as [[f|] s]; cbn [fst snd] in *; [|done].
  destruct (Z.eqb_spec f 0) as [->|]; [|done]. destruct (Hf 0 eq_refl) as [_ Hh]. apply IH. destruct Hs as [S1 S2 S3 S4].
  split; try done. cbn [on_pa fst]. apply (booted_hold s (held_by s)); try done.
  intros p Hp E. destruct (hold_page p Hp E). by destruct Hp as [[->| ->]| ->].
Qed.

Lemma paging_init_ready w w' n e :
  e <= 4294963200 -> boot_ready w.1 n e -> paging_init w = Some w' -> boot_ready w'.1 n e.
Proof.
  intros He Hw. unfold paging_init. pose proof (alloc_tries_ready 4 w n e He Hw) as H1.
  change (alloc_tries 4 GFP_KERNEL 0 w) with (alloc_pages GFP_KERNEL 0 w) in H1.
  destruct (alloc_pages GFP_KERNEL 0 w) as [[p|] w1]; [|by intros [= <-]]. cbn [snd] in H1.
  generalize (Z.to_nat (kernel_pdes (Bootmem.lowmem_end (bootmem w1.1)))) as k. clear Hw. intros k. revert w1 H1.
  induction k as [|k IH]; intros w1 H1; cbn [paging_tables]; [by intros [= <-]|].
  pose proof (alloc_tries_ready 4 w1 n e He H1) as H2. change (alloc_tries 4 GFP_KERNEL 0 w1) with (alloc_pages GFP_KERNEL 0 w1) in H2.
  destruct (alloc_pages GFP_KERNEL 0 w1) as [[q|] w2]; [|done]. by apply IH.
Qed.

(** Without a page array nothing is taken from it. *)
Lemma alloc_tries_empty tries w : buddy_ready w.1 = false -> pages w.1 = [] ->
  buddy_ready (alloc_tries tries GFP_KERNEL 0 w).2.1 = false /\ pages (alloc_tries tries GFP_KERNEL 0 w).2.1 = [].
Proof.
  revert w. induction tries as [|tries IH]; intros w Hr E; cbn [alloc_tries]; [done|].
  unfold __alloc_pages_nodemask. rewrite Hr. cbn [negb]. unfold alloc_pages_boot.
  destruct (bootmem_alloc _ _ _) as [[a|] bm]; [|done]. destruct (a =? 0); [done|].
  assert (Et : pages (take_refs (with_bootmem w.1 bm) (a / PAGE_SIZE) 0) = []).
  { unfold take_refs. cbn [with_pages pages with_bootmem]. rewrite E. change (1 <<w 0) with 1.
    change (seqZ (a / PAGE_SIZE) 1) with [0 + (a / PAGE_SIZE)]. cbn [foldl]. unfold upd_page. by destruct (_ <=? _). }
  destruct (page_exists _ _) eqn:Ex; [|done]. unfold page_exists in Ex. rewrite Et in Ex.
  change (zlen (@nil page)) with 0 in Ex. apply Z.ltb_lt in Ex. destruct (Z.eqb_spec (a / PAGE_SIZE) 0); [lia|done].
Qed.

Lemma paging_init_empty w w' : buddy_ready w.1 = false -> pages w.1 = [] -> paging_init w = Some w' -> pages w'.1 = [].
Proof.
  intros Hr E. unfold paging_init. destruct (alloc_tries_empty 4 w Hr E) as [R1 E1].
  change (alloc_tries 4 GFP_KERNEL 0 w) with (alloc_pages GFP_KERNEL 0 w) in R1, E1.
  destruct (alloc_pages GFP_KERNEL 0 w) as [[p|] w1]; [|by intros [= <-]]. cbn [snd] in R1, E1.
  generalize (Z.to_nat (kernel_pdes (Bootmem.lowmem_end (bootmem w1.1)))) as k. clear E Hr. intros k. revert w1 R1 E1.
  induction k as [|k IH]; intros w1 R1 E1; cbn [paging_tables]; [by intros [= <-]|].
  destruct (alloc_tries_empty 4 w1 R1 E1) as [R2 E2]. change (alloc_tries 4 GFP_KERNEL 0 w1) with (alloc_pages GFP_KERNEL 0 w1) in R2, E2.
  destruct (alloc_pages GFP_KERNEL 0 w1) as [[q|] w2]; [|done]. by apply IH.
Qed.

Lemma zones_ready s kb s' :
  free_area_init_core (build_all_zonelists (init_zones s)) kb = Some s' -> buddy_ready s' = buddy_ready s.
Proof.
  unfold free_area_init_core. destruct (bootmem_alloc _ _ _) as [[a|] bm]; [|done]. destruct (a =? 0); [done|]. intros [= <-].
  cbn [buddy_ready]. unfold init_zones. destruct (_ =? 0); [done|]. destruct (bootmem_alloc _ _ _) as [[a'|] bm']; [|done].
  by destruct (a' =? 0).
Qed.

Lemma boot_sequence_ready w0 kb w :
  0 < Bootmem.total_pages (bootmem w0.1) <= 1048576 -> bm_end (bootmem w0.1) <= 4294963200 ->
  pages w0.1 = [] -> buddy_ready w0.1 = false ->
  boot_sequence w0 kb = Some w -> pages w.1 <> [] ->
  boot_ready w.1 (Bootmem.total_pages (bootmem w0.1)) (bm_end (bootmem w0.1)).
Proof.
  intros Ht He Hnil Hrdy. unfold boot_sequence. destruct (free_area_init_core _ kb) as [s|] eqn:Ef; [|done]. intros Ep Hne.
  assert (Hs : pages s <> []).
  { intros E. apply Hne. eapply (paging_init_empty (s, w0.2)); [|done|done]. cbn [fst]. by rewrite (zones_ready _ _ _ Ef). }
  destruct (zones_booted w0.1 kb s (held_by s) Ht Hnil Ef Hs) as (B1 & B2 & B3 & B4).
  eapply paging_init_ready; [done| |done]. split; [done|done|exact (eq_trans B3 Hrdy)|done].
Qed.

(** C33: Booting the page allocator: [init_zones], [build_all_zonelists],
    [free_area_init], the page-table pages of [paging_init] and then [mem_init]
    with the loader's memory map.  If the page array could be allocated, nothing
    panicked before [mem_init] and the table of boot reservations did not fill up,
    then [mem_init] does not panic, the allocator is ready, its invariant holds,
    and the free frames are exactly those that lie in an available region of the
    map at or above 1 MB, by the region's whole number of pages counted from the
    frame its start is rounded down to, and that overlap no reservation of the boot
    allocator. *)
Theorem page_allocator_boots w0 kb w ms :
  0 < Bootmem.total_pages (bootmem w0.1) <= 1048576 -> bm_end (bootmem w0.1) <= 4294963200 ->
  pages w0.1 = [] -> buddy_ready w0.1 = false ->
  boot_sequence w0 kb = Some w -> pages w.1 <> [] -> zlen (reserved (bootmem w.1)) < 256 ->
  Forall (fun e => 0 <= e_base e < 4294967296 /\ 0 <= e_size e) ms ->
  exists s', mem_init w.1 (Some ms) = Some s' /\ pa_ok s' /\ buddy_ready s' = true /\
    forall x, free_page s' x <->
      0 < x < Bootmem.total_pages (bootmem w0.1) /\ releasable (bootmem w.1) ms x.
Proof.
  intros Ht He Hnil Hrdy Hb Hne Hres Hms. destruct (boot_sequence_ready w0 kb w Ht He Hnil Hrdy Hb Hne) as [B1 <- _ _].
  apply (mem_init_spec _ _ (held_by w.1)); [done| |done]. intros q [?|?]; [lia|done].
Qed.
End boot.

(** ** A small machine: 2 MB, kernel up to 1.25 MB, no page cache and no swap *)

Module Tiny.
Definition mmap : list bootmem_e820_entry := [E820 0 654336 1; E820 1048576 1048576 1].
Definition bm : bootmem_data := bootmem_init 3222536192 (Mbi 0 [] (Some mmap)).
Definition zone0 : zone := Zone ZONE_DMA 0 0 0 0 [0; 0; 0] (replicate 11 (Free_area 0 0)) [] 0.
Definition s0 : pa :=
  Pa [] [] zone0 zone0 [] [] 0 false 0 0 bm (Kswapd false 0 0 0 0 0).

(** Reclaim finds nothing to reclaim. *)
#[global] Instance no_reclaim : Reclaimers unit := {|
  page_cache_reclaim_one := fun w => (0, w);
  writeback_flush_all := fun w => (0, w);
  slab_reclaim_one := fun w => (0, w);
  swap_out_page := fun _ w => (-1, w);
|}.

#[global] Program Instance no_reclaim_ok : ReclaimersOk unit := {| xok := fun _ _ => True |}.
Solve Obligations with done.

Definition w1 : pa * unit := default (s0, tt) (boot_sequence (s0, tt) 0).
Definition s2 : pa := default s0 (mem_init w1.1 (Some mmap)).

Lemma boots : boot_sequence (s0, tt) 0 = Some w1.
Proof. vm_compute. reflexivity. Qed.

Lemma few_reservations : zlen (reserved (bootmem w1.1)) < 256.
Proof. vm_compute. reflexivity. Qed.

Lemma kernel_frames :
  bootmem_is_reserved (bootmem w1.1) (300 * 4096) 4096 = true /\ bootmem_is_reserved (bootmem w1.1) (301 * 4096) 4096 = true.
Proof. vm_compute. done. Qed.

Lemma low_end : bm_end (bootmem s0) <= 4294963200.
Proof. vm_compute. discriminate. Qed.

Lemma has_pages : pages w1.1 <> [].
Proof. vm_compute. discriminate. Qed.

Lemma total : Bootmem.total_pages bm = 512.
Proof. vm_compute. reflexivity. Qed.

Lemma mmap_fine : Forall (fun e => 0 <= e_base e < 4294967296 /\ 0 <= e_size e) mmap.
Proof. unfold mmap. rewrite !Forall_cons. cbn [e_base e_size]. repeat split; (lia || done || constructor). Qed.

Lemma s2_ok : pa_ok s2 /\ buddy_ready s2 = true /\
  forall x, free_page s2 x <-> 0 < x < 512 /\ releasable (bootmem w1.1) mmap x.
Proof.
  destruct (boot_sequence_ready (s0, tt) 0 w1) as [Hb Ht _ _];
    [cbn [fst s0 bootmem]; rewrite total; lia|exact low_end|done|done|exact boots|exact has_pages|].
  destruct (mem_init_spec w1.1 mmap (held_by w1.1) Hb) as (s' & E & H1 & H2 & H3); [|exact mmap_fine|].
  { intros q [Hq|?]; [|done]. pose proof few_reservations. lia. }
  assert (Es : s2 = s') by (unfold s2; rewrite E; done). rewrite Es.
  split; [exact H1|]. split; [exact H2|]. intros x. rewrite H3, Ht. cbn [fst s0 bootmem]. by rewrite total.
Qed.

(** 185 frames are free after boot; an order-3 block is taken at frame 328. *)
Lemma runs :
  nr_free_pages s2 = 185 /\
  (alloc_pages GFP_KERNEL 3 (s2, tt)).1 = Some (328 * 4096).
Proof. vm_compute. done. Qed.
End Tiny.

Lemma page_allocator_boots_witness :
  pages Tiny.w1.1 <> [] /\
  exists s', mem_init Tiny.w1.1 (Some Tiny.mmap) = Some s' /\ buddy_ready s' = true.
Proof.
  split; [exact Tiny.has_pages|].
  destruct (page_allocator_boots (Tiny.s0, tt) 0 Tiny.w1 Tiny.mmap) as (s' & E & _ & H & _).
  - change (bootmem (Tiny.s0, tt).1) with Tiny.bm. rewrite Tiny.total. lia.
  - exact Tiny.low_end.
  - reflexivity.
  - reflexivity.
  - exact Tiny.boots.
  - exact Tiny.has_pages.
  - exact Tiny.few_reservations.
  - exact Tiny.mmap_fine.
  - exists s'. split; [exact E|exact H].
Defined.

Lemma alloc_pages_correct_witness :
  exists p (w1 : pa * unit) t, p * 4096 = 328 * 4096 /\ granted w1.1 t p 3 (alloc_pages GFP_KERNEL 3 (Tiny.s2, tt)).2.1.
Proof.
  assert (Hall : forall s, pa_ok s -> buddy_ready s = true -> (alloc_pages GFP_KERNEL 3 (s, tt)).1 = Some (328 * 4096) ->
    exists p (w1 : pa * unit) t, p * 4096 = 328 * 4096 /\ granted w1.1 t p 3 (alloc_pages GFP_KERNEL 3 (s, tt)).2.1).
  { intros s Hok Hrdy E. pose proof (alloc_pages_correct GFP_KERNEL 3 (s, tt) (conj Hok I) Hrdy ltac:(lia)) as H.
    destruct (alloc_pages GFP_KERNEL 3 (s, tt)) as [r w']. cbn [fst snd] in *. subst r.
    destruct H as (_ & p & w1 & t & Ha & _ & _ & _ & Hg & _). exists p, w1, t. split; [symmetry; exact Ha|exact Hg]. }
  exact (Hall Tiny.s2 (proj1 Tiny.s2_ok) (proj1 (proj2 Tiny.s2_ok)) (proj2 Tiny.runs)).
Defined.

Lemma free_pages_correct_witness :
  exists s', free_pages Tiny.s2 (300 * 4096) 0 = Some s' /\ released Tiny.s2 300 0 s'.
Proof.
  destruct Tiny.s2_ok as (Hok & Hrdy & Hfree).
  apply (free_pages_correct Tiny.s2 ZONE_DMA 300 0 Hok Hrdy).
  split; [|split; [vm_compute; reflexivity|]].
  - unfold block_ok, zend. split; [vm_compute; split; discriminate|].
    split; [vm_compute; reflexivity|]. split; [vm_compute; discriminate|]. split; [vm_compute; discriminate|].
    exists 300. reflexivity.
  - intros x Hx. unfold in_block in Hx. change (2 ^ 0) with 1 in Hx. assert (x = 300) as -> by lia.
    split; [|vm_compute; split; [discriminate|reflexivity]].
    intros Hf. apply Hfree in Hf as [_ [Hr _]]. by rewrite (proj1 Tiny.kernel_frames) in Hr.
Defined.
