(* ===== verification/Vma.v ===== *)
(** * Virtual memory areas ([mm/mmap.c])

    The areas of an address space are a list linked by [vm_next], in which
    each node is a heap object: a list of records that carry the node's
    address stands for the linked list, and [kmalloc]/[kfree] are the heap
    interface of the prelude, so that allocation failures and the ownership of
    the nodes are part of the model.  The page tables below the areas
    ([zap_page_range], [update_mapped_page_flags]) are the interface
    [PageTables]. *)

From stdpp Require Import base tactics numbers list gmap sets.
From Stdlib Require Import ZArith Lia.
From S2P Require Import Prelude.

(** ** Data *)

Definition VMA_READ : Z := 1.
Definition VMA_WRITE : Z := 2.
Definition VMA_EXEC : Z := 4.
Definition TASK_SIZE : Z := 3221225472.
Definition SIZEOF_VMA : Z := 20.

Record vm_area_struct : Type := Vma {
  vm_node : Z;          (* the address of the node *)
  vm_start : Z;
  vm_end : Z;
  vm_flags : Z;
  anon_vma_id : Z;
}.

(** [pgd] is in the state of the page tables. *)
Record mm_struct : Type := Mm {
  start_code : Z;
  end_code : Z;
  start_stack : Z;
  start_brk : Z;
  brk : Z;
  mmap : list vm_area_struct;
}.

Definition with_mmap (mm : mm_struct) (l : list vm_area_struct) : mm_struct :=
  Mm (start_code mm) (end_code mm) (start_stack mm) (start_brk mm) (brk mm) l.

Definition set_start (x : Z) (v : vm_area_struct) : vm_area_struct :=
  Vma (vm_node v) x (vm_end v) (vm_flags v) (anon_vma_id v).
Definition set_end (x : Z) (v : vm_area_struct) : vm_area_struct :=
  Vma (vm_node v) (vm_start v) x (vm_flags v) (anon_vma_id v).
Definition set_vm_flags (x : Z) (v : vm_area_struct) : vm_area_struct :=
  Vma (vm_node v) (vm_start v) (vm_end v) x (anon_vma_id v).

(** Writing through a pointer to the node at address [p]. *)
Definition write_vma (p : Z) (f : vm_area_struct -> vm_area_struct) (l : list vm_area_struct)
  : list vm_area_struct :=
  map (fun v => if vm_node v =? p then f v else v) l.

(** The page tables of the address spaces. *)
Class PageTables (P : Type) := {
  zap_page_range : Z -> Z -> P -> P;
  update_mapped_page_flags : Z -> Z -> Z -> P -> P;
}.

Section vma.
Context {M : Type} `{!KAlloc M}.
Context {P : Type} `{!PageTables P}.
Implicit Types (l : list vm_area_struct) (m : M) (p : P).

(** The parts of the kernel's state these functions share. *)
Record kernel : Type := Kernel {
  next_anon_vma_id : Z;
  heap : M;
  tables : P;
}.

Definition with_heap (k : kernel) (m : M) : kernel := Kernel (next_anon_vma_id k) m (tables k).
Definition with_tables (k : kernel) (p : P) : kernel := Kernel (next_anon_vma_id k) (heap k) p.

(** ** Operations on the list *)

Definition align_up (value : Z) : Z := Z.land (value +w 4095) (not32 4095).

Definition alloc_anon_vma_id (k : kernel) : Z * kernel :=
  let id := if next_anon_vma_id k =? 0 then 1 else next_anon_vma_id k in
  (id, Kernel (id +w 1) (heap k) (tables k)).

Definition vma_list_free (l : list vm_area_struct) (k : kernel) : kernel :=
  with_heap k (foldl (fun m v => kfree (vm_node v) m) (heap k) l).

Definition vma_can_merge (a b : vm_area_struct) : bool :=
  (vm_flags a =? vm_flags b) && (anon_vma_id a =? anon_vma_id b) && (vm_end a =? vm_start b).

(** [vma_merge_adjacent] from a node on. *)
Fixpoint merge_from (v : vm_area_struct) (rest : list vm_area_struct) (m : M) : list vm_area_struct * M :=
  match rest with
  | [] => ([v], m)
  | n :: rest' =>
      if vma_can_merge v n then merge_from (set_end (vm_end n) v) rest' (kfree (vm_node n) m)
      else let '(l, m') := merge_from n rest' m in (v :: l, m')
  end.

Definition vma_merge_adjacent (l : list vm_area_struct) (k : kernel) : list vm_area_struct * kernel :=
  match l with
  | [] => ([], k)
  | v :: rest => let '(l', m) := merge_from v rest (heap k) in (l', with_heap k m)
  end.

(** [while (cur && cur->vm_start < start)]: the nodes passed over and the rest. *)
Fixpoint walk_to (start : Z) (l : list vm_area_struct) : list vm_area_struct * list vm_area_struct :=
  match l with
  | [] => ([], [])
  | v :: l' =>
      if vm_start v <? start then let '(a, b) := walk_to start l' in (v :: a, b) else ([], l)
  end.

(** Merging the nodes that follow [v] into it. *)
Fixpoint absorb (v : vm_area_struct) (rest : list vm_area_struct) (m : M)
  : vm_area_struct * list vm_area_struct * M :=
  match rest with
  | n :: rest' =>
      if vma_can_merge v n then absorb (set_end (vm_end n) v) rest' (kfree (vm_node n) m)
      else (v, rest, m)
  | [] => (v, [], m)
  end.

(** The new node [v] after the nodes [before]: merged into the last of them
    when compatible.  Gives the nodes before the node that stays, and it. *)
Definition merge_prev (before : list vm_area_struct) (v : vm_area_struct) (m : M)
  : list vm_area_struct * vm_area_struct * M :=
  match last before with
  | Some prev =>
      if vma_can_merge prev v
      then (take (length before - 1) before, set_end (vm_end v) prev, kfree (vm_node v) m)
      else (before, v, m)
  | None => (before, v, m)
  end.

Definition vma_add_anon (l : list vm_area_struct) (start end_ flags id : Z) (k : kernel)
  : list vm_area_struct * kernel :=
  if end_ <=? start then (l, k) else
  let '(before, after) := walk_to start l in
  match kmalloc SIZEOF_VMA (heap k) with
  | (None, m) => (l, with_heap k m)
  | (Some p, m) =>
      let '(before1, v1, m1) := merge_prev before (Vma p start end_ flags id) m in
      let '(v2, after2, m2) := absorb v1 after m1 in
      (before1 ++ v2 :: after2, with_heap k m2)
  end.

Definition vma_add (l : list vm_area_struct) (start end_ flags : Z) (k : kernel)
  : list vm_area_struct * kernel :=
  if end_ <=? start then (l, k) else
  let '(before, after) := walk_to start l in
  let left := match last before with
              | Some prev => if (vm_end prev =? start) && (vm_flags prev =? flags)
                             then Some (anon_vma_id prev) else None
              | None => None
              end in
  let id := match left with
            | Some i => i
            | None =>
                match after with
                | cur :: _ => if (vm_start cur =? end_) && (vm_flags cur =? flags)
                              then anon_vma_id cur else 0
                | [] => 0
                end
            end in
  let '(id1, k1) := if id =? 0 then alloc_anon_vma_id k else (id, k) in
  vma_add_anon l start end_ flags id1 k1.

Definition vma_range_free (l : list vm_area_struct) (start end_ : Z) : bool :=
  forallb (fun v => (end_ <=? vm_start v) || (vm_end v <=? start)) l.

Fixpoint vma_find_covering (l : list vm_area_struct) (start end_ : Z) : option vm_area_struct :=
  match l with
  | [] => None
  | v :: l' => if (vm_start v <=? start) && (end_ <=? vm_end v) then Some v
               else vma_find_covering l' start end_
  end.

(** The search loop of [vma_find_gap]; every round moves up one page, so
    2^20 rounds reach the end of the address space. *)
Fixpoint gap_loop (fuel : nat) (l : list vm_area_struct) (size limit start : Z) : Z :=
  match fuel with
  | O => 0
  | S fuel' =>
      if limit <? start +w size then 0
      else if vma_range_free l start (start +w size) then start
      else gap_loop fuel' l size limit (start +w 4096)
  end.

Definition GAP_FUEL : nat := Z.to_nat 1048576.

(** Where the search starts. *)
Definition gap_start (mm : mm_struct) : Z :=
  let s0 := if brk mm =? 0 then 4194304 else align_up (brk mm) in
  let s1 := if negb (start_code mm =? 0) && negb (end_code mm =? 0) then
              if s0 <? end_code mm then align_up (end_code mm) else s0
            else s0 in
  if s1 <? 4096 then 4096 else s1.

Definition vma_find_gap (mm : mm_struct) (size limit : Z) : Z :=
  if size =? 0 then 0 else
  if limit <=? gap_start mm then 0
  else gap_loop GAP_FUEL (mmap mm) size limit (gap_start mm).

Fixpoint vma_find_heap_in (l : list vm_area_struct) (base : Z) : option vm_area_struct :=
  match l with
  | [] => None
  | v :: l' => if (vm_start v =? base) && (Z.land (vm_flags v) (Z.lor VMA_READ VMA_WRITE) =? 3)
               then Some v else vma_find_heap_in l' base
  end.

Definition vma_find_heap (mm : mm_struct) : option vm_area_struct :=
  if start_brk mm =? 0 then None else vma_find_heap_in (mmap mm) (start_brk mm).

(** On an allocation failure the nodes made so far are freed. *)
Fixpoint clone_loop (src acc : list vm_area_struct) (m : M) : option (list vm_area_struct) * M :=
  match src with
  | [] => (Some acc, m)
  | v :: src' =>
      match kmalloc SIZEOF_VMA m with
      | (None, m') => (None, foldl (fun m v => kfree (vm_node v) m) m' acc)
      | (Some p, m') =>
          clone_loop src' (acc ++ [Vma p (vm_start v) (vm_end v) (vm_flags v) (anon_vma_id v)]) m'
      end
  end.

(** The result is NULL for an empty source and after a failure. *)
Definition vma_clone_list (src : list vm_area_struct) (k : kernel) : list vm_area_struct * kernel :=
  let '(r, m) := clone_loop src [] (heap k) in (default [] r, with_heap k m).

(** ** System calls *)

(** [flags] from [prot]. *)
Definition prot_flags (prot : Z) : Z :=
  let f1 := if Z.land prot VMA_READ =? 0 then 0 else VMA_READ in
  let f2 := if Z.land prot VMA_WRITE =? 0 then f1 else Z.lor f1 VMA_WRITE in
  if Z.land prot VMA_EXEC =? 0 then f2 else Z.lor f2 VMA_EXEC.

Definition map_limit (mm : mm_struct) : Z :=
  if start_stack mm =? 0 then TASK_SIZE else start_stack mm.

Definition do_mmap (mm : mm_struct) (addr length prot : Z) (k : kernel) : Z * mm_struct * kernel :=
  if length =? 0 then (0, mm, k) else
  let len := align_up length in
  if len =? 0 then (0, mm, k) else
  let limit := map_limit mm in
  if limit <=? 4096 then (0, mm, k) else
  let target :=
    if negb (addr =? 0) then
      if addr <? 4096 then 0
      else if negb (Z.land addr 4095 =? 0) then 0
      else if limit <? addr +w len then 0
      else if negb (vma_range_free (mmap mm) addr (addr +w len)) then 0
      else addr
    else vma_find_gap mm len limit in
  if target =? 0 then (0, mm, k) else
  let '(l, k1) := vma_add (mmap mm) target (target +w len) (prot_flags prot) k in
  (target, with_mmap mm l, k1).

(** The loop of [do_munmap]; the right part made by a split starts at [end_],
    so the loop passes over it. *)
Fixpoint munmap_loop (l : list vm_area_struct) (addr end_ : Z) (m : M) : list vm_area_struct * M :=
  match l with
  | [] => ([], m)
  | v :: l' =>
      if (end_ <=? vm_start v) || (vm_end v <=? addr) then
        let '(r, m') := munmap_loop l' addr end_ m in (v :: r, m')
      else if (addr <=? vm_start v) && (vm_end v <=? end_) then
        munmap_loop l' addr end_ (kfree (vm_node v) m)
      else if (addr <=? vm_start v) && (end_ <? vm_end v) then
        let '(r, m') := munmap_loop l' addr end_ m in (set_start end_ v :: r, m')
      else if (vm_start v <? addr) && (vm_end v <=? end_) then
        let '(r, m') := munmap_loop l' addr end_ m in (set_end addr v :: r, m')
      else
        match kmalloc SIZEOF_VMA m with
        | (Some p, m1) =>
            let '(r, m') := munmap_loop l' addr end_ m1 in
            (set_end addr v :: Vma p end_ (vm_end v) (vm_flags v) (anon_vma_id v) :: r, m')
        | (None, m1) =>
            let '(r, m') := munmap_loop l' addr end_ m1 in (set_end addr v :: r, m')
        end
  end.

(** The checks on an address range shared by the calls: the end of the range,
    [None] when the call is refused. *)
Definition range_end (addr length : Z) : option Z :=
  if length =? 0 then None
  else if addr <? 4096 then None
  else if negb (Z.land addr 4095 =? 0) then None
  else
    let len := align_up length in
    if len =? 0 then None
    else if addr +w len <=? addr then None
    else Some (addr +w len).

Definition do_munmap (mm : mm_struct) (addr length : Z) (k : kernel) : Z * mm_struct * kernel :=
  match range_end addr length with
  | None => (-1, mm, k)
  | Some end_ =>
      let '(l1, m1) := munmap_loop (mmap mm) addr end_ (heap k) in
      let '(l2, k2) := vma_merge_adjacent l1 (with_heap k m1) in
      (0, with_mmap mm l2, with_tables k2 (zap_page_range addr end_ (tables k2)))
  end.

Definition do_mprotect (mm : mm_struct) (addr length prot : Z) (k : kernel) : Z * mm_struct * kernel :=
  match range_end addr length with
  | None => (0, mm, k)
  | Some end_ =>
      let flags := prot_flags prot in
      match vma_find_covering (mmap mm) addr end_ with
      | None => (0, mm, k)
      | Some v =>
          let '(l1, k1) :=
            if vm_start v <? addr
            then vma_add_anon (mmap mm) (vm_start v) addr (vm_flags v) (anon_vma_id v) k
            else (mmap mm, k) in
          let '(l2, k2) :=
            if end_ <? vm_end v
            then vma_add_anon l1 end_ (vm_end v) (vm_flags v) (anon_vma_id v) k1
            else (l1, k1) in
          let l3 := write_vma (vm_node v)
                      (fun w => set_vm_flags flags (set_end end_ (set_start addr w))) l2 in
          let k3 := with_tables k2 (update_mapped_page_flags addr end_ flags (tables k2)) in
          let '(l4, k4) := vma_merge_adjacent l3 k3 in
          (1, with_mmap mm l4, k4)
      end
  end.

Definition do_mremap (mm : mm_struct) (addr old_length new_length : Z) (k : kernel)
  : Z * mm_struct * kernel :=
  if (old_length =? 0) || (new_length =? 0) then (0, mm, k) else
  match range_end addr old_length, range_end addr new_length with
  | Some old_end, Some new_end =>
      let old_len := align_up old_length in
      let new_len := align_up new_length in
      match vma_find_covering (mmap mm) addr old_end with
      | None => (0, mm, k)
      | Some v =>
          if new_len =? old_len then (addr, mm, k)
          else if new_len <? old_len then
            let l1 := write_vma (vm_node v) (set_end (addr +w new_len)) (mmap mm) in
            let k1 := with_tables k (zap_page_range (addr +w new_len) old_end (tables k)) in
            let '(l2, k2) := vma_merge_adjacent l1 k1 in
            (addr, with_mmap mm l2, k2)
          else if map_limit mm <? new_end then (0, mm, k)
          else if negb (vma_range_free (mmap mm) old_end new_end) then (0, mm, k)
          else
            let l1 := write_vma (vm_node v) (set_end new_end) (mmap mm) in
            let '(l2, k2) := vma_merge_adjacent l1 k in
            (addr, with_mmap mm l2, k2)
      end
  | _, _ => (0, mm, k)
  end.

Definition mm_reset_mmap (mm : mm_struct) (k : kernel) : mm_struct * kernel :=
  (with_mmap mm [], vma_list_free (mmap mm) k).

Definition mm_add_vma (mm : mm_struct) (start end_ flags : Z) (k : kernel) : mm_struct * kernel :=
  let '(l, k1) := vma_add (mmap mm) start end_ flags k in (with_mmap mm l, k1).

Fixpoint vma_allows (l : list vm_area_struct) (addr : Z) (is_write is_exec : bool) : bool :=
  match l with
  | [] => false
  | v :: l' =>
      if (vm_start v <=? addr) && (addr <? vm_end v) then
        if is_exec && (Z.land (vm_flags v) VMA_EXEC =? 0) then false
        else if is_write && (Z.land (vm_flags v) VMA_WRITE =? 0) then false
        else if negb is_write && (Z.land (vm_flags v) VMA_READ =? 0) then false
        else true
      else vma_allows l' addr is_write is_exec
  end.

Definition set_brk (mm : mm_struct) (sb b : Z) : mm_struct :=
  Mm (start_code mm) (end_code mm) (start_stack mm) sb b (mmap mm).

Definition mm_init_brk (mm : mm_struct) (heap_base stack_base : Z) (k : kernel) : mm_struct * kernel :=
  if heap_base <? 4096 then (mm, k)
  else if TASK_SIZE <=? heap_base then (mm, k)
  else if negb (stack_base =? 0) && (stack_base <=? heap_base +w 4096) then (mm, k)
  else
    let mm1 := set_brk mm heap_base heap_base in
    match vma_find_heap mm1 with
    | Some _ => (mm1, k)
    | None =>
        let '(l, k1) := vma_add (mmap mm1) heap_base heap_base (Z.lor VMA_READ VMA_WRITE) k in
        (with_mmap mm1 l, k1)
    end.

Definition do_brk (mm : mm_struct) (new_end : Z) : Z * mm_struct :=
  if start_brk mm =? 0 then (0, mm)
  else if new_end =? 0 then (brk mm, mm)
  else if new_end <? start_brk mm then (brk mm, mm)
  else if TASK_SIZE <=? new_end then (brk mm, mm)
  else if negb (start_stack mm =? 0) && (start_stack mm <? align_up new_end +w 4096) then (brk mm, mm)
  else
    let mm1 := set_brk mm (start_brk mm) new_end in
    match vma_find_heap mm1 with
    | Some h =>
        let e := align_up new_end in
        let e1 := if e <? vm_start h then vm_start h else e in
        (new_end, with_mmap mm1 (write_vma (vm_node h) (set_end e1) (mmap mm1)))
    | None => (new_end, mm1)
    end.
End vma.

(** ** Specification *)

(** The areas are non-empty, sorted and disjoint, between [lo] and [hi]. *)
Fixpoint chain (lo : Z) (l : list vm_area_struct) (hi : Z) : Prop :=
  match l with
  | [] => lo <= hi
  | v :: l' => lo <= vm_start v /\ vm_start v < vm_end v /\ chain (vm_end v) l' hi
  end.

Definition vmas_ok (l : list vm_area_struct) : Prop := chain 0 l U32_MAX.

Definition inside (v : vm_area_struct) (a : Z) : Prop := vm_start v <= a < vm_end v.

#[export] Instance inside_dec v a : Decision (inside v a).
Proof. unfold inside. apply _. Defined.

(** The protection and the lineage of the page an address lies in. *)
Fixpoint area_at (l : list vm_area_struct) (a : Z) : option (Z * Z) :=
  match l with
  | [] => None
  | v :: l' => if decide (inside v a) then Some (vm_flags v, anon_vma_id v) else area_at l' a
  end.

(** No area meets the range. *)
Definition range_unmapped (l : list vm_area_struct) (s e : Z) : Prop :=
  Forall (fun v => e <= vm_start v \/ vm_end v <= s) l.

(** The heap objects owned by an address space: the nodes of its list; [F]
    are the objects of everybody else. *)
Definition nodes (l : list vm_area_struct) : list Z := map vm_node l.

Section owns.
Context {M : Type} `{!KAlloc M, !KAllocSpec M}.

Definition owns (F : gset Z) (ns : list Z) (m : M) : Prop :=
  km_ok m /\ NoDup ns /\ (forall n, n ∈ ns -> n ∉ F) /\ live m = list_to_set ns ∪ F.

Lemma owns_perm F ns ns' m : ns ≡ₚ ns' -> owns F ns m -> owns F ns' m.
Proof.
  intros Hp (H1 & H2 & H3 & H4). split_and!; try done.
  - by rewrite <- Hp.
  - intros n. rewrite <- Hp. apply H3.
  - rewrite H4. f_equal. by apply set_eq; intros x; rewrite !elem_of_list_to_set, Hp.
Qed.

Lemma owns_free F n ns m : owns F (n :: ns) m -> owns F ns (kfree n m).
Proof.
  intros (H1 & H2 & H3 & H4). apply NoDup_cons in H2 as [H2 H2'].
  destruct (kfree_live n m H1) as [H5 H6]; [rewrite H4; set_solver|].
  split_and!; try done; [set_solver|]. rewrite H6, H4. apply set_eq. intros x.
  assert (n ∉ F) by (apply H3; by left). set_solver.
Qed.

Lemma owns_alloc F ns m sz p m' :
  owns F ns m -> kmalloc sz m = (Some p, m') -> owns F (p :: ns) m'.
Proof.
  intros (H1 & H2 & H3 & H4) Hk. destruct (kmalloc_some _ _ _ _ H1 Hk) as (H5 & _ & H6 & H7).
  rewrite H4 in H6. split_and!; try done.
  - apply NoDup_cons. set_solver.
  - set_solver.
  - rewrite H7, H4. set_solver.
Qed.

Lemma owns_alloc_fail F ns m sz m' : owns F ns m -> kmalloc sz m = (None, m') -> owns F ns m'.
Proof.
  intros (H1 & H2 & H3 & H4) Hk. destruct (kmalloc_none _ _ _ H1 Hk) as [H5 H6].
  split_and!; try done. by rewrite H6.
Qed.

Lemma owns_free_at F ns1 n ns2 m : owns F (ns1 ++ n :: ns2) m -> owns F (ns1 ++ ns2) (kfree n m).
Proof.
  intros H. apply owns_free. eapply owns_perm; [|exact H]. by rewrite Permutation_middle.
Qed.
End owns.

(** ** Chains *)

Lemma chain_app lo a b hi : chain lo (a ++ b) hi <-> exists mid, chain lo a mid /\ chain mid b hi.
Proof.
  revert lo. induction a as [|v a IH]; intros lo; simpl.
  - split; [intros H; by exists lo|]. intros (mid & H1 & H2). destruct b; simpl in *; [lia|]. intuition lia.
  - rewrite IH. naive_solver.
Qed.

Lemma chain_bounds lo l hi : chain lo l hi -> lo <= hi.
Proof. revert lo. induction l as [|v l IH]; intros lo; simpl; [done|]. intros (? & ? & H). apply IH in H. lia. Qed.

Lemma chain_weaken lo lo' l hi hi' : lo' <= lo -> hi <= hi' -> chain lo l hi -> chain lo' l hi'.
Proof.
  revert lo lo'. induction l as [|v l IH]; intros lo lo' H1 H2; simpl; [lia|].
  intros (? & ? & H). split_and!; [lia|done|]. by apply (IH (vm_end v)).
Qed.

Lemma chain_hi lo l hi hi' :
  chain lo l hi -> lo <= hi' -> Forall (fun v => vm_end v <= hi') l -> chain lo l hi'.
Proof.
  revert lo. induction l as [|v l IH]; intros lo; simpl; [done|].
  intros (? & ? & H) Hlo [Hv Hl]%Forall_cons. split_and!; try done. by apply IH.
Qed.

Lemma chain_lo lo l hi lo' :
  chain lo l hi -> lo' <= hi -> Forall (fun v => lo' <= vm_start v) l -> chain lo' l hi.
Proof. destruct l as [|v l]; simpl; [done|]. intros (? & ? & H) Hlo [Hv Hl]%Forall_cons. done. Qed.

Lemma chain_elem lo l hi v : chain lo l hi -> v ∈ l -> lo <= vm_start v /\ vm_start v < vm_end v <= hi.
Proof.
  revert lo. induction l as [|w l IH]; intros lo; simpl; [by intros _ ?%elem_of_nil|].
  intros (? & ? & H) [->|Hin]%elem_of_cons.
  - apply chain_bounds in H. lia.
  - specialize (IH _ H Hin). lia.
Qed.

Lemma area_at_in v l x : vm_start v <= x < vm_end v -> area_at (v :: l) x = Some (vm_flags v, anon_vma_id v).
Proof. intros. cbn [area_at]. by rewrite decide_True. Qed.

Lemma area_at_out v l x : ~ (vm_start v <= x < vm_end v) -> area_at (v :: l) x = area_at l x.
Proof. intros. cbn [area_at]. by rewrite decide_False. Qed.

Lemma area_at_app a b x :
  area_at (a ++ b) x = match area_at a x with Some r => Some r | None => area_at b x end.
Proof. induction a as [|v a IH]; simpl; [done|]. by case_decide. Qed.

Lemma area_at_outside lo l hi x : chain lo l hi -> x < lo \/ hi <= x -> area_at l x = None.
Proof.
  revert lo. induction l as [|v l IH]; intros lo; simpl; [done|].
  intros (? & ? & H) Hx. pose proof (chain_bounds _ _ _ H).
  rewrite decide_False by (unfold inside; lia). apply (IH _ H). lia.
Qed.

Lemma area_at_unmapped l s e x : range_unmapped l s e -> s <= x < e -> area_at l x = None.
Proof.
  induction 1 as [|v l Hv Hl IH]; intros Hx; simpl; [done|].
  rewrite decide_False by (unfold inside; lia). by apply IH.
Qed.

Lemma range_free_spec l s e : vma_range_free l s e = true <-> range_unmapped l s e.
Proof.
  unfold vma_range_free, range_unmapped. induction l as [|v l IH]; cbn [forallb]; [by split|].
  by rewrite andb_true_iff, Forall_cons, IH, orb_true_iff, !Z.leb_le.
Qed.

Lemma can_merge_spec a b :
  vma_can_merge a b = true <->
  vm_flags a = vm_flags b /\ anon_vma_id a = anon_vma_id b /\ vm_end a = vm_start b.
Proof. unfold vma_can_merge. rewrite !andb_true_iff, !Z.eqb_eq. tauto. Qed.

(** Merging two neighbours changes no address. *)
Lemma merge_pair v n rest lo hi x :
  vma_can_merge v n = true -> chain lo (v :: n :: rest) hi ->
  chain lo (set_end (vm_end n) v :: rest) hi /\
  area_at (set_end (vm_end n) v :: rest) x = area_at (v :: n :: rest) x.
Proof.
  rewrite can_merge_spec. intros (E1 & E2 & E3) (? & ? & ? & ? & H). split.
  - simpl. split_and!; try lia. done.
  - simpl. unfold inside. simpl.
    destruct (decide (vm_start v <= x < vm_end n)); destruct (decide (vm_start v <= x < vm_end v));
      destruct (decide (vm_start n <= x < vm_end n)); try lia; try done. by rewrite E1, E2.
Qed.

Section merge.
Context {M : Type} `{!KAlloc M, !KAllocSpec M}.

(** The state of the list and the heap: sorted, and owning its nodes. *)
Definition space_ok (F : gset Z) (lo hi : Z) (l : list vm_area_struct) (m : M) : Prop :=
  chain lo l hi /\ owns F (nodes l) m.

Lemma merge_from_spec F pre v rest m l' m' mid hi :
  chain mid (v :: rest) hi ->
  owns F (nodes pre ++ nodes (v :: rest)) m -> merge_from v rest m = (l', m') ->
  chain mid l' hi /\ owns F (nodes pre ++ nodes l') m' /\ forall x, area_at l' x = area_at (v :: rest) x.
Proof.
  intros Hc. revert pre v m l' m' mid Hc.
  induction rest as [|n rest IH]; intros pre v m l' m' mid Hc Ho; cbn [merge_from].
  { by intros [= <- <-]. }
  destruct (vma_can_merge v n) eqn:E.
  - intros Hm. destruct (merge_pair v n rest mid hi 0 E Hc) as [Hc' _].
    destruct (IH pre (set_end (vm_end n) v) (kfree (vm_node n) m) l' m' mid Hc') as (H1 & H2 & H3).
    + change (nodes (set_end (vm_end n) v :: rest)) with (vm_node v :: nodes rest).
      change (nodes (v :: n :: rest)) with (vm_node v :: vm_node n :: nodes rest) in Ho.
      rewrite cons_middle, app_assoc. apply owns_free_at. rewrite <- app_assoc. done.
    + done.
    + split_and!; try done. intros x. rewrite H3. by apply (merge_pair v n rest mid hi x E Hc).
  - destruct (merge_from n rest m) as [l1 m1] eqn:Em. intros [= <- <-].
    destruct Hc as (C1 & C2 & Hc).
    destruct (IH (pre ++ [v]) n m l1 m1 (vm_end v) Hc) as (H1 & H2 & H3).
    + unfold nodes in *. rewrite map_app, <- app_assoc. exact Ho.
    + exact Em.
    + split_and!; try done.
      * unfold nodes in *. rewrite map_app, <- app_assoc in H2. exact H2.
      * intros x. simpl. rewrite H3. done.
Qed.

Context {P : Type} `{!PageTables P}.
Implicit Types k : kernel (M := M) (P := P).

Lemma merge_adjacent_spec F l k l' k' lo hi :
  space_ok F lo hi l (heap k) -> vma_merge_adjacent l k = (l', k') ->
  space_ok F lo hi l' (heap k') /\ tables k' = tables k /\
  next_anon_vma_id k' = next_anon_vma_id k /\ forall x, area_at l' x = area_at l x.
Proof.
  intros [Hc Ho]. destruct l as [|v rest]; cbn [vma_merge_adjacent].
  { by intros [= <- <-]. }
  destruct (merge_from v rest (heap k)) as [l1 m1] eqn:E. intros [= <- <-].
  destruct (merge_from_spec F [] v rest (heap k) l1 m1 lo hi Hc Ho E) as (H1 & H2 & H3).
  split_and!; try done.
Qed.
End merge.

Section add.
Context {M : Type} `{!KAlloc M, !KAllocSpec M}.
Context {P : Type} `{!PageTables P}.
Implicit Types k : kernel (M := M) (P := P).

Lemma walk_to_at s a b :
  Forall (fun v => vm_start v < s) a -> match b with [] => True | v :: _ => s <= vm_start v end ->
  walk_to s (a ++ b) = (a, b).
Proof.
  induction 1 as [|v a Hv Ha IH]; intros Hb; simpl.
  - destruct b as [|v b]; [done|]. simpl. destruct (Z.ltb_spec (vm_start v) s); [lia|done].
  - destruct (Z.ltb_spec (vm_start v) s); [|lia]. by rewrite IH.
Qed.

Lemma merge_prev_spec F a v m a1 v1 m1 lo rest :
  chain lo a (vm_start v) -> vm_start v < vm_end v ->
  owns F (nodes a ++ vm_node v :: rest) m -> merge_prev a v m = (a1, v1, m1) ->
  chain lo a1 (vm_start v1) /\ vm_start v1 < vm_end v1 /\ vm_end v1 = vm_end v /\
  vm_flags v1 = vm_flags v /\ anon_vma_id v1 = anon_vma_id v /\
  owns F (nodes a1 ++ vm_node v1 :: rest) m1 /\
  forall x, area_at (a1 ++ [v1]) x = area_at (a ++ [v]) x.
Proof.
  intros Hc Hv Ho. unfold merge_prev. destruct a as [|prev a _] using rev_ind.
  { cbn [last]. by intros [= <- <- <-]. }
  rewrite last_snoc. destruct (vma_can_merge prev v) eqn:E; [|by intros [= <- <- <-]].
  rewrite length_app. cbn [length]. replace (length a + 1 - 1)%nat with (length a) by lia.
  rewrite take_app_length. intros [= <- <- <-].
  apply can_merge_spec in E as (E1 & E2 & E3).
  apply chain_app in Hc as (mid & Hc1 & Hc2 & Hc3 & Hc4). simpl in Hc4.
  cbn [vm_start vm_end vm_flags anon_vma_id set_end vm_node]. split_and!; try done; try lia.
  - eapply chain_weaken; [reflexivity| |exact Hc1]. lia.
  - unfold nodes in *. rewrite map_app, <- app_assoc in Ho. simpl in Ho.
    rewrite cons_middle, app_assoc. apply owns_free_at. rewrite <- app_assoc. exact Ho.
  - intros x. rewrite <- app_assoc, !area_at_app. simpl. unfold inside. simpl.
    destruct (area_at a x); [done|]. rewrite E1, E2.
    destruct (decide (vm_start prev <= x < vm_end v)); destruct (decide (vm_start prev <= x < vm_end prev));
      destruct (decide (vm_start v <= x < vm_end v)); try lia; done.
Qed.

Lemma absorb_spec F v rest m v' rest' m' lo hi pre :
  chain lo (v :: rest) hi -> owns F (pre ++ vm_node v :: nodes rest) m ->
  absorb v rest m = (v', rest', m') ->
  chain lo (v' :: rest') hi /\ vm_start v' = vm_start v /\
  owns F (pre ++ vm_node v' :: nodes rest') m' /\
  forall x, area_at (v' :: rest') x = area_at (v :: rest) x.
Proof.
  revert v m. induction rest as [|n rest IH]; intros v m Hc Ho; cbn [absorb].
  { by intros [= <- <- <-]. }
  destruct (vma_can_merge v n) eqn:E; [|by intros [= <- <- <-]].
  intros Ha. destruct (merge_pair v n rest lo hi 0 E Hc) as [Hc' _].
  destruct (IH (set_end (vm_end n) v) (kfree (vm_node n) m) Hc') as (H1 & H2 & H3 & H4); [|done|].
  - cbn [vm_node set_end]. rewrite cons_middle, app_assoc. apply owns_free_at. rewrite <- app_assoc. exact Ho.
  - split_and!; try done. intros x. rewrite H4. by apply (merge_pair v n rest lo hi x E Hc).
Qed.

(** Inserting an area at its place in the list. *)
Lemma insert_spec F a b s e fl id k l' k' lo hi :
  chain lo a s -> chain e b hi -> s < e -> owns F (nodes (a ++ b)) (heap k) ->
  Forall (fun v => vm_start v < s) a -> match b with [] => True | v :: _ => s <= vm_start v end ->
  vma_add_anon (a ++ b) s e fl id k = (l', k') ->
  tables k' = tables k /\ next_anon_vma_id k' = next_anon_vma_id k /\
  ((l' = a ++ b /\ owns F (nodes l') (heap k') /\ (kmalloc SIZEOF_VMA (heap k)).1 = None) \/
   (space_ok F lo hi l' (heap k') /\ (kmalloc SIZEOF_VMA (heap k)).1 <> None /\
    forall x, area_at l' x = area_at (a ++ Vma 0 s e fl id :: b) x)).
Proof.
  intros Ha Hb Hse Ho Hwa Hwb. unfold vma_add_anon.
  destruct (Z.leb_spec e s); [lia|]. rewrite (walk_to_at s a b Hwa Hwb).
  destruct (kmalloc SIZEOF_VMA (heap k)) as [[p|] m] eqn:Ek.
  2:{ intros [= <- <-]. split_and!; try done. left. split_and!; try done. cbn [heap with_heap].
      by eapply owns_alloc_fail. }
  destruct (merge_prev a (Vma p s e fl id) m) as [[a1 v1] m1] eqn:Em.
  destruct (absorb v1 b m1) as [[v2 b2] m2] eqn:Eb. intros [= <- <-].
  split_and!; try done. right.
  assert (Ho1 : owns F (nodes a ++ p :: nodes b) m).
  { eapply owns_perm; [|by eapply owns_alloc]. unfold nodes. rewrite map_app. by rewrite Permutation_middle. }
  destruct (merge_prev_spec F a (Vma p s e fl id) m a1 v1 m1 lo (nodes b)) as (H1 & H2 & H3 & H4 & H5 & H6 & H7);
    try done.
  cbn [vm_end] in H3.
  destruct (absorb_spec F v1 b m1 v2 b2 m2 (vm_start v1) hi (nodes a1)) as (G1 & G2 & G3 & G4); try done.
  { simpl. rewrite H3. split_and!; try done; lia. }
  split_and!; try done.
  - split.
    + apply chain_app. exists (vm_start v1). split; [done|]. exact G1.
    + cbn [heap with_heap]. unfold nodes in *. rewrite map_app. exact G3.
  - intros x. rewrite (area_at_app a1), G4. specialize (H7 x). rewrite !area_at_app in H7.
    rewrite area_at_app. simpl in *. unfold inside in *.
    destruct (area_at a1 x), (area_at a x); simpl in *; try (by repeat case_decide).
    all: repeat case_decide; simplify_eq; try done; congruence.
Qed.
End add.

(** ** Mapping *)

Lemma split_unmapped lo l hi s e :
  chain lo l hi -> lo <= s -> e <= hi -> s < e -> range_unmapped l s e ->
  exists a b, l = a ++ b /\ chain lo a s /\ chain e b hi /\ Forall (fun v => vm_start v < s) a /\
    match b with [] => True | v :: _ => s <= vm_start v end.
Proof.
  revert lo. induction l as [|v l IH]; intros lo Hc Hlo Hhi Hse Hu.
  { exists [], []. by split_and!. }
  destruct Hc as (C1 & C2 & C3). apply Forall_cons in Hu as [Hv Hu].
  destruct (decide (vm_end v <= s)) as [Hle|Hgt].
  - destruct (IH (vm_end v) C3 Hle Hhi Hse Hu) as (a & b & -> & A1 & A2 & A3 & A4).
    exists (v :: a), b. split_and!; try done. constructor; [lia|done].
  - exists [], (v :: l). assert (e <= vm_start v) by lia. split_and!; try done; lia || constructor.
Qed.

Lemma align_up_mult v : 0 <= v <= 4294963200 -> align_up v = v + (- v) mod 4096.
Proof.
  intros Hv. unfold align_up. rewrite add32_id by lia.
  rewrite (land_not32_mask _ 12) by (unfold is_u32; lia). change (2 ^ 12) with 4096.
  pose proof (Z.mod_pos_bound (- v) 4096 ltac:(lia)).
  assert (Hm : (v + 4095) mod 4096 = 4095 - (- v) mod 4096); [|lia].
  symmetry. apply (Z.mod_unique_pos _ _ ((v + (- v) mod 4096) / 4096)); [lia|].
  assert (Hd : (v + (- v) mod 4096) mod 4096 = 0).
  { rewrite Zplus_mod_idemp_r, Z.add_opp_diag_r. by apply Z.mod_0_l. }
  apply Z.div_exact in Hd; lia.
Qed.

Lemma align_up_range v :
  0 <= v <= 4294963200 -> v <= align_up v < v + 4096 /\ (4096 | align_up v).
Proof.
  intros Hv. rewrite align_up_mult by done. pose proof (Z.mod_pos_bound (- v) 4096 ltac:(lia)).
  split; [lia|]. apply Z.mod_divide; [done|]. rewrite Zplus_mod_idemp_r, Z.add_opp_diag_r. by apply Z.mod_0_l.
Qed.

(** The length of a request in whole pages. *)
Definition pages_of (length : Z) : Z := length + (- length) mod 4096.

Section calls.
Context {M : Type} `{!KAlloc M, !KAllocSpec M}.
Context {P : Type} `{!PageTables P}.
Implicit Types (k : kernel (M := M) (P := P)) (mm : mm_struct) (F : gset Z).

(** The address space owns its nodes and its areas are sorted and disjoint. *)
Definition mm_ok F mm k : Prop := space_ok F 0 U32_MAX (mmap mm) (heap k).

(** What adding an area to unmapped addresses does: nothing exactly when the node for
    it cannot be allocated. *)
Definition mapped F l s e fl k l' k' : Prop :=
  tables k' = tables k /\ space_ok F 0 U32_MAX l' (heap k') /\
  match (kmalloc SIZEOF_VMA (heap k)).1 with
  | None => l' = l
  | Some _ => exists id, forall x, area_at l' x = if decide (s <= x < e) then Some (fl, id) else area_at l x
  end.

Lemma vma_add_spec F l s e fl k l' k' :
  space_ok F 0 U32_MAX l (heap k) -> 0 <= s -> s < e <= U32_MAX -> range_unmapped l s e ->
  vma_add l s e fl k = (l', k') -> mapped F l s e fl k l' k'.
Proof.
  intros [Hc Ho] Hs He Hu. unfold vma_add. destruct (Z.leb_spec e s); [lia|].
  destruct (split_unmapped 0 l U32_MAX s e Hc Hs ltac:(lia) ltac:(lia) Hu) as (a & b & -> & A1 & A2 & A3 & A4).
  rewrite (walk_to_at s a b A3 A4).
  set (id0 := match (match last a with Some _ => _ | None => _ end) with Some i => i | None => _ end).
  destruct (if id0 =? 0 then alloc_anon_vma_id k else (id0, k)) as [id k1] eqn:Eid.
  assert (Hk1 : heap k1 = heap k /\ tables k1 = tables k).
  { destruct (id0 =? 0); [|by simplify_eq]. unfold alloc_anon_vma_id in Eid. by simplify_eq. }
  destruct Hk1 as [Hh Ht]. intros Hadd.
  destruct (insert_spec F a b s e fl id k1 l' k' 0 U32_MAX) as (T1 & _ & HR); try done; try lia; try (by rewrite Hh).
  rewrite Hh in HR. split; [congruence|].
  destruct HR as [(-> & G1 & ->)|(G1 & G2 & G3)].
  - split; [split; [done|done]|done].
  - split; [done|]. destruct ((kmalloc SIZEOF_VMA (heap k)).1); [|done]. exists id. intros x. rewrite G3, !area_at_app.
    destruct (decide (s <= x < e)).
    + rewrite (area_at_outside 0 a s x A1) by lia. by rewrite area_at_in.
    + by rewrite area_at_out.
Qed.

Lemma gap_start_aligned mm :
  0 <= brk mm <= 4294963200 -> 0 <= end_code mm <= 4294963200 ->
  4096 <= gap_start mm < 4294967296 /\ (4096 | gap_start mm).
Proof.
  intros Hb He. unfold gap_start.
  destruct (align_up_range (brk mm) Hb) as [B1 B2], (align_up_range (end_code mm) He) as [E1 E2].
  assert (D1 : (4096 | 4194304)) by (exists 1024; done). assert (D2 : (4096 | 4096)) by (exists 1; done).
  set (s0 := if brk mm =? 0 then 4194304 else align_up (brk mm)).
  assert (Hs0 : 0 <= s0 < 4294967296 /\ (4096 | s0)) by (unfold s0; bcase; split; lia || done).
  set (s1 := if negb _ && negb _ then _ else s0).
  assert (Hs1 : 0 <= s1 < 4294967296 /\ (4096 | s1)).
  { unfold s1. destruct (_ && _); [|done]. bcase; [split; [lia|done]|done]. }
  bcase; split; lia || done || apply Hs1.
Qed.

(** The search is over the page-aligned addresses from [start] on. *)
Lemma gap_loop_spec fuel l size limit start :
  0 < size -> 0 <= start <= limit + 4096 -> limit + 4096 + size < 4294967296 -> (4096 | start) ->
  limit < start + 4096 * Z.of_nat fuel ->
  let r := gap_loop fuel l size limit start in
  (r = 0 /\ forall a, (4096 | a) -> start <= a -> a + size <= limit -> ~ range_unmapped l a (a + size)) \/
  (start <= r /\ (4096 | r) /\ r + size <= limit /\ range_unmapped l r (r + size) /\
   forall a, (4096 | a) -> start <= a < r -> ~ range_unmapped l a (a + size)).
Proof.
  intros Hsz. revert start. induction fuel as [|fuel IH]; intros start Hs Hlim Hd Hf; cbv zeta; cbn [gap_loop].
  { left. split; [done|]. intros a _ ? ?. lia. }
  rewrite (add32_id start size) by lia.
  destruct (Z.ltb_spec limit (start + size)).
  { left. split; [done|]. intros a _ ? ?. lia. }
  destruct (vma_range_free l start (start + size)) eqn:E.
  { right. apply range_free_spec in E. split_and!; try done; lia. }
  rewrite add32_id by lia.
  assert (Hn : ~ range_unmapped l start (start + size)) by (rewrite <- range_free_spec; by rewrite E).
  assert (Hstep : forall a, (4096 | a) -> start <= a -> a = start \/ start + 4096 <= a).
  { intros a [i ->] Ha. destruct Hd as [j ->]. assert (i = j \/ j + 1 <= i) as [->|?] by lia; [by left|right; lia]. }
  destruct (IH (start + 4096)) as [[H1 H2]|(H1 & H2 & H3 & H4 & H5)]; try lia.
  { apply Z.divide_add_r; [done|]. by exists 1. }
  - left. split; [done|]. intros a Ha1 Ha2 Ha3. destruct (Hstep a Ha1 Ha2) as [->|?]; [done|by apply H2].
  - right. split_and!; try done; try lia. intros a Ha1 Ha2.
    destruct (Hstep a Ha1 ltac:(lia)) as [->|?]; [done|]. apply H5; [done|lia].
Qed.

(** Sizes and addresses for which no sum wraps around. *)
Definition sane mm (addr length : Z) : Prop :=
  0 <= length <= 1073733632 /\ 0 <= addr <= TASK_SIZE /\ 0 <= start_stack mm <= TASK_SIZE /\
  0 <= brk mm <= 4294963200 /\ 0 <= end_code mm <= 4294963200.

Lemma sane_len mm addr length :
  sane mm addr length -> align_up length = pages_of length /\ length <= pages_of length < length + 4096 /\
  (length <> 0 -> 4096 <= pages_of length).
Proof.
  intros (H1 & _). unfold pages_of. rewrite align_up_mult by lia.
  pose proof (Z.mod_pos_bound (- length) 4096 ltac:(lia)). split_and!; try lia. intros Hne.
  destruct (align_up_range length ltac:(lia)) as [_ [i Hi]]. rewrite align_up_mult in Hi by lia. nia.
Qed.

Lemma land_4095 a : Z.land a 4095 = 0 <-> (4096 | a).
Proof. rewrite (land_mask _ 12) by done. apply Z.mod_divide. lia. Qed.

Lemma find_gap_spec mm size limit :
  0 < size -> limit + 4096 + size < 4294967296 -> limit <= TASK_SIZE ->
  0 <= brk mm <= 4294963200 -> 0 <= end_code mm <= 4294963200 ->
  let r := vma_find_gap mm size limit in
  (r = 0 /\ forall a, (4096 | a) -> gap_start mm <= a -> a + size <= limit -> ~ range_unmapped (mmap mm) a (a + size)) \/
  (gap_start mm <= r /\ (4096 | r) /\ r + size <= limit /\ range_unmapped (mmap mm) r (r + size) /\
   forall a, (4096 | a) -> gap_start mm <= a < r -> ~ range_unmapped (mmap mm) a (a + size)).
Proof.
  intros Hsz Hlim Ht Hb He. destruct (gap_start_aligned mm Hb He) as [Hs Hd]. unfold vma_find_gap. cbv zeta.
  destruct (Z.eqb_spec size 0); [lia|]. destruct (Z.leb_spec limit (gap_start mm)).
  { left. split; [done|]. intros a _ ? ?. lia. }
  apply gap_loop_spec; try done; try lia. unfold GAP_FUEL, TASK_SIZE in *. rewrite Z2Nat.id; lia.
Qed.

(** Why a request to map is refused. *)
Definition refused mm (addr length : Z) : Prop :=
  length = 0 \/ map_limit mm <= 4096 \/
  (addr = 0 /\ forall a, (4096 | a) -> gap_start mm <= a -> a + pages_of length <= map_limit mm ->
     ~ range_unmapped (mmap mm) a (a + pages_of length)) \/
  (addr <> 0 /\ (addr < 4096 \/ ~ (4096 | addr) \/ map_limit mm < addr + pages_of length \/
     ~ range_unmapped (mmap mm) addr (addr + pages_of length))).

(** Where a granted request is mapped. *)
Definition placed mm (addr length r : Z) : Prop :=
  4096 <= r /\ (4096 | r) /\ r + pages_of length <= map_limit mm /\
  range_unmapped (mmap mm) r (r + pages_of length) /\
  (addr <> 0 -> r = addr) /\
  (addr = 0 -> gap_start mm <= r /\
     forall a, (4096 | a) -> gap_start mm <= a < r -> ~ range_unmapped (mmap mm) a (a + pages_of length)).

Lemma placed_not_refused mm addr length r :
  length <> 0 -> 4096 < map_limit mm -> placed mm addr length r -> ~ refused mm addr length.
Proof.
  intros Hl Hm (P1 & P2 & P3 & P4 & P5 & P6) [?|[?|[[Ha Hg]|[Ha Hg]]]]; [done|lia| |].
  - destruct (P6 Ha) as [Hs _]. by apply (Hg r).
  - rewrite (P5 Ha) in *. destruct Hg as [?|[?|[?|?]]]; (lia || done).
Qed.

(** C11: [do_mmap], for lengths up to 1 GB and addresses whose sums do not wrap (for
    longer ones [do_mmap_length_overflow] shows otherwise).  A request is refused,
    without any change, exactly when one of the listed reasons holds; a granted
    one gives the requested address, or the least page-aligned gap above the heap
    when none is requested, below the stack and in unmapped memory.  When the node
    for the area can be allocated exactly the pages of the request become mapped
    with the requested protection; when it cannot, the address is returned all the
    same and nothing is mapped.  The areas stay sorted and disjoint, no node leaks
    and the page tables are untouched. *)
Theorem do_mmap_correct F mm addr length prot k :
  mm_ok F mm k -> sane mm addr length ->
  let '(r, mm', k') := do_mmap mm addr length prot k in
  (r = 0 /\ mm' = mm /\ k' = k /\ refused mm addr length) \/
  (~ refused mm addr length /\ placed mm addr length r /\ mm' = with_mmap mm (mmap mm') /\
   mapped F (mmap mm) r (r + pages_of length) (prot_flags prot) k (mmap mm') k').
Proof.
  intros Hok Hsane. destruct (sane_len _ _ _ Hsane) as (El & Hl1 & Hl2).
  destruct Hsane as (S1 & S2 & S3 & S4 & S5). unfold do_mmap.
  destruct (Z.eqb_spec length 0) as [->|Hne]; [left; split_and!; try done; by left|]. specialize (Hl2 Hne).
  rewrite El. set (len := pages_of length) in *.
  destruct (Z.eqb_spec len 0); [lia|].
  assert (Hlim : map_limit mm <= TASK_SIZE) by (unfold map_limit, TASK_SIZE in *; bcase; lia).
  unfold TASK_SIZE in *.
  destruct (Z.leb_spec (map_limit mm) 4096); [left; split_and!; try done; right; by left|].
  set (target := if negb (addr =? 0) then _ else _).
  assert (Ht : (target = 0 /\ refused mm addr length) \/ placed mm addr length target).
  { unfold target, refused, placed. fold len. destruct (Z.eqb_spec addr 0) as [->|Hna]; cbn [negb].
    - destruct (find_gap_spec mm len (map_limit mm)) as [[G1 G2]|(G1 & G2 & G3 & G4 & G5)]; try done; try lia.
      + left. split; [done|]. right; right; left. done.
      + right. destruct (gap_start_aligned mm S4 S5). split_and!; try done; try lia.
    - rewrite add32_id by lia. destruct (Z.ltb_spec addr 4096); [left; split; [done|]; tauto|].
      destruct (Z.eqb_spec (Z.land addr 4095) 0) as [Ha|Ha]; cbn [negb].
      2:{ left. split; [done|]. rewrite land_4095 in Ha. tauto. }
      destruct (Z.ltb_spec (map_limit mm) (addr + len)); [left; split; [done|]; tauto|].
      destruct (vma_range_free (mmap mm) addr (addr + len)) eqn:E; cbn [negb].
      + right. apply land_4095 in Ha. apply range_free_spec in E. split_and!; try done.
      + left. split; [done|]. rewrite <- range_free_spec, E. right; right; right. split; [done|]. right; right; right. done. }
  clearbody target. destruct Ht as [[-> Hr]|Hp]; [by left|].
  pose proof (placed_not_refused mm addr length target Hne ltac:(lia) Hp) as Hnr. destruct Hp as (P1 & P2 & P3 & P4 & P5). fold len in P3, P4.
  destruct (Z.eqb_spec target 0); [lia|]. rewrite add32_id by lia.
  destruct (vma_add (mmap mm) target (target + len) (prot_flags prot) k) as [l k1] eqn:E.
  right. split; [done|]. split; [done|]. split; [done|]. cbn [mmap with_mmap].
  eapply vma_add_spec; try done; unfold U32_MAX; lia.
Qed.

(** The length check of [do_mmap] misses a wrap-around: on an address space
    without areas, a length so large that the end of the gap wraps around to
    an address at or below its start is reported as mapped, at the start of
    the gap, although no area is created. *)
Theorem do_mmap_length_overflow mm length prot k :
  mmap mm = [] -> length <> 0 -> align_up length <> 0 -> 4096 < map_limit mm ->
  gap_start mm < map_limit mm -> gap_start mm <> 0 ->
  gap_start mm +w align_up length <= gap_start mm ->
  do_mmap mm 0 length prot k = (gap_start mm, mm, k).
Proof.
  intros Hnil H1 H2 H3 H4 H5 H6. unfold do_mmap.
  destruct (Z.eqb_spec length 0); [done|]. destruct (Z.eqb_spec (align_up length) 0); [done|].
  destruct (Z.leb_spec (map_limit mm) 4096); [lia|]. cbn [Z.eqb negb].
  assert (Hg : vma_find_gap mm (align_up length) (map_limit mm) = gap_start mm).
  { unfold vma_find_gap. destruct (Z.eqb_spec (align_up length) 0); [done|].
    destruct (Z.leb_spec (map_limit mm) (gap_start mm)); [lia|].
    assert (HF : exists n, GAP_FUEL = S n) by (exists (Nat.pred GAP_FUEL); unfold GAP_FUEL; lia).
    destruct HF as [fuel ->]. cbn [gap_loop].
    destruct (Z.ltb_spec (map_limit mm) (gap_start mm +w align_up length)); [lia|]. by rewrite Hnil. }
  rewrite Hg. destruct (Z.eqb_spec (gap_start mm) 0); [done|].
  unfold vma_add. destruct (Z.leb_spec (gap_start mm +w align_up length) (gap_start mm)); [|lia].
  by destruct mm.
Qed.

(** ** Unmapping *)

(** The addresses that get lost when the range [addr .. e) lies strictly inside an
    area and the node for its right part cannot be allocated: the right part. *)
Definition lost (l : list vm_area_struct) (addr e : Z) (m : M) (x : Z) : Prop :=
  e <= x /\ (kmalloc SIZEOF_VMA m).1 = None /\ Exists (fun v => vm_start v < addr /\ x < vm_end v) l.

(** The mapping after removing [addr .. e) and [gone]: exactly those addresses go. *)
Definition unmapped_from (l : list vm_area_struct) (addr e : Z) (gone : Z -> Prop) (l' : list vm_area_struct) : Prop :=
  forall x, (addr <= x < e \/ gone x -> area_at l' x = None) /\ (~ addr <= x < e -> ~ gone x -> area_at l' x = area_at l x).

Lemma unmapped_cons v v' l l' addr e gone gone' :
  unmapped_from l addr e gone l' -> (forall x, gone' x <-> gone x) -> (forall x, inside v x -> ~ gone x) ->
  vm_flags v' = vm_flags v -> anon_vma_id v' = anon_vma_id v ->
  (forall x, inside v' x <-> inside v x /\ ~ addr <= x < e) ->
  (forall x, inside v x -> area_at l x = None) ->
  unmapped_from (v :: l) addr e gone' (v' :: l').
Proof.
  intros U Hg Hn E1 E2 Hin Hout x. destruct (U x) as [U1 U2]. rewrite Hg. unfold inside in *. split.
  - intros Hx. rewrite area_at_out; [by apply U1|]. rewrite Hin. intros [Hv Hx']. destruct Hx as [?|Hx]; [done|]. by apply (Hn x Hv).
  - intros Hx Hx'. destruct (decide (vm_start v <= x < vm_end v)) as [Hv|Hv].
    + rewrite !area_at_in by (done || by apply Hin). by rewrite E1, E2.
    + rewrite !area_at_out; [by apply U2|done|]. rewrite Hin. tauto.
Qed.

(** No area of the list lies around [addr]: nothing is lost. *)
Lemma lost_tail lo l hi addr e m x : chain lo l hi -> addr <= lo -> ~ lost l addr e m x.
Proof.
  intros Hc Hlo (_ & _ & Hx). apply Exists_exists in Hx as (w & Hw & Hw1 & _). pose proof (chain_elem _ _ _ _ Hc Hw). lia.
Qed.

Lemma tail_outside lo v l hi x : chain lo (v :: l) hi -> inside v x -> area_at l x = None.
Proof. intros (_ & ? & Hc) Hx. apply (area_at_outside _ _ _ x Hc). unfold inside in Hx. lia. Qed.

Lemma munmap_loop_spec F pre l addr e m l' m' lo hi :
  chain lo l hi -> addr < e -> owns F (pre ++ nodes l) m -> munmap_loop l addr e m = (l', m') ->
  chain lo l' hi /\ owns F (pre ++ nodes l') m' /\ unmapped_from l addr e (lost l addr e m) l'.
Proof.
  intros Hc Hae. revert lo pre m l' m' Hc. induction l as [|v l IH]; intros lo pre m l' m' Hc Ho; cbn [munmap_loop].
  { intros [= <- <-]. done. }
  pose proof (fun x => tail_outside lo v l hi x Hc) as Hout. pose proof Hc as (C1 & C2 & C3).
  assert (Ho' : owns F ((pre ++ [vm_node v]) ++ nodes l) m) by (rewrite <- app_assoc; exact Ho).
  assert (Hkeep : forall v', vm_node v' = vm_node v -> vm_flags v' = vm_flags v -> anon_vma_id v' = anon_vma_id v ->
    lo <= vm_start v' -> vm_start v' < vm_end v' -> vm_end v' <= vm_end v -> ~ (vm_start v < addr /\ e < vm_end v) ->
    (forall x, inside v' x <-> inside v x /\ ~ addr <= x < e) ->
    (let '(r, m'') := munmap_loop l addr e m in (v' :: r, m'')) = (l', m') ->
    chain lo l' hi /\ owns F (pre ++ nodes l') m' /\ unmapped_from (v :: l) addr e (lost (v :: l) addr e m) l').
  { intros v' E1 E2 E3 B1 B2 B3 B4 Hin. destruct (munmap_loop l addr e m) as [r m''] eqn:Er. intros [= <- <-].
    destruct (IH (vm_end v) (pre ++ [vm_node v]) m r m'' C3 Ho' Er) as (H1 & H2 & H3). split; [|split].
    - simpl. split_and!; try done. by apply (chain_weaken (vm_end v) (vm_end v') r hi hi).
    - rewrite <- app_assoc in H2. simpl. rewrite E1. exact H2.
    - eapply unmapped_cons; [exact H3| | |done..].
      + intros x. unfold lost. rewrite Exists_cons. split; intros (L1 & L2 & L3); split_and!; try done; [|by right].
        destruct L3 as [?|?]; [lia|done].
      + intros x Hv (L1 & _ & L3). apply Exists_exists in L3 as (w & Hw & Hw1 & _).
        pose proof (chain_elem _ _ _ _ C3 Hw). unfold inside in Hv. lia. }
  destruct ((e <=? vm_start v) || (vm_end v <=? addr)) eqn:E1.
  { apply orb_true_iff in E1. rewrite !Z.leb_le in E1. apply Hkeep; try done; try lia. intros x. unfold inside. lia. }
  apply orb_false_iff in E1 as [E1%Z.leb_gt E1'%Z.leb_gt].
  pose proof (fun m x => lost_tail (vm_end v) l hi addr e m x C3 ltac:(lia)) as Hnl.
  destruct ((addr <=? vm_start v) && (vm_end v <=? e)) eqn:E2.
  { apply andb_true_iff in E2 as [E2%Z.leb_le E2'%Z.leb_le]. intros Hm.
    destruct (IH (vm_end v) pre (kfree (vm_node v) m) l' m' C3) as (H1 & H2 & U); [|done|].
    - apply owns_free_at. exact Ho.
    - split; [apply (chain_weaken (vm_end v) lo l' hi hi); [lia|lia|done]|]. split; [done|]. intros x. destruct (U x) as [U1 U2]. split.
      + intros [Hx|(_ & _ & [Hx|Hx]%Exists_cons)]; [apply U1; by left|lia|].
        apply Exists_exists in Hx as (w & Hw & Hw1 & _). pose proof (chain_elem _ _ _ _ C3 Hw). lia.
      + intros Hx _. rewrite area_at_out by lia. apply U2; [done|apply Hnl]. }
  apply andb_false_iff in E2. rewrite !Z.leb_gt in E2.
  destruct ((addr <=? vm_start v) && (e <? vm_end v)) eqn:E3.
  { apply andb_true_iff in E3 as [E3%Z.leb_le E3'%Z.ltb_lt].
    apply Hkeep; try done; cbn [vm_start vm_end set_start]; try lia. intros x. unfold inside. simpl. lia. }
  apply andb_false_iff in E3. rewrite Z.leb_gt, Z.ltb_ge in E3.
  destruct ((vm_start v <? addr) && (vm_end v <=? e)) eqn:E4.
  { apply andb_true_iff in E4 as [E4%Z.ltb_lt E4'%Z.leb_le].
    apply Hkeep; try done; cbn [vm_start vm_end set_end]; try lia. intros x. unfold inside. simpl. lia. }
  apply andb_false_iff in E4. rewrite Z.leb_gt, Z.ltb_ge in E4.
  assert (Hmid : vm_start v < addr /\ e < vm_end v) by lia. clear E1 E1' E2 E3 E4 Hkeep.
  assert (Hinl : forall x, x < vm_end v -> area_at l x = None) by (intros; apply (area_at_outside _ _ _ _ C3); lia).
  destruct (kmalloc SIZEOF_VMA m) as [[p|] m1] eqn:Ek; destruct (munmap_loop l addr e m1) as [r m''] eqn:Er;
    intros [= <- <-].
  - destruct (IH (vm_end v) (pre ++ [vm_node v; p]) m1 r m'' C3) as (H1 & H2 & U).
    { apply (owns_perm F (p :: pre ++ nodes (v :: l))); [|by eapply owns_alloc].
      rewrite <- (app_assoc pre). cbn [nodes map app].
      etrans; [apply Permutation_middle|]. apply Permutation_app_head, Permutation_swap. }
    { done. }
    split; [simpl; split_and!; try lia; exact H1|]. split; [rewrite <- app_assoc in H2; exact H2|].
    intros x. destruct (U x) as [U1 U2]. split.
    + intros [Hx|(_ & Hx & _)]; [|by rewrite Ek in Hx]. rewrite !area_at_out by (simpl; lia). apply U1. by left.
    + intros Hx _. destruct (decide (vm_start v <= x < vm_end v)).
      * rewrite (area_at_in v) by done. destruct (decide (x < addr)); [by rewrite area_at_in by (simpl; lia)|].
        rewrite area_at_out by (simpl; lia). by rewrite area_at_in by (simpl; lia).
      * rewrite !area_at_out by (simpl; lia). apply U2; [done|apply Hnl].
  - destruct (IH (vm_end v) (pre ++ [vm_node v]) m1 r m'' C3) as (H1 & H2 & U).
    { eapply owns_alloc_fail; [exact Ho'|done]. }
    { done. }
    split; [simpl; split_and!; try lia; apply (chain_weaken (vm_end v) addr r hi hi); [lia|lia|done]|].
    split; [rewrite <- app_assoc in H2; exact H2|]. intros x. destruct (U x) as [U1 U2]. split.
    + intros [Hx|(Hx & _ & [[_ Hv]|Hl]%Exists_cons)].
      * rewrite area_at_out by (simpl; lia). apply U1. by left.
      * rewrite area_at_out by (simpl; lia). rewrite U2 by (lia || apply Hnl). by apply Hinl.
      * apply Exists_exists in Hl as (w & Hw & Hw1 & _). pose proof (chain_elem _ _ _ _ C3 Hw). lia.
    + intros Hx Hg. assert (Hv : ~ (e <= x < vm_end v)) by (intros ?; apply Hg; split_and!; [lia|by rewrite Ek|left; lia]).
      destruct (decide (vm_start v <= x < addr)); [by rewrite !area_at_in by (simpl; lia)|].
      rewrite !area_at_out by (simpl; lia). apply U2; [done|apply Hnl].
Qed.

Lemma range_end_some addr length e :
  range_end addr length = Some e ->
  length <> 0 /\ 4096 <= addr /\ (4096 | addr) /\ addr < e <= U32_MAX /\ e = addr +w align_up length.
Proof.
  unfold range_end. destruct (Z.eqb_spec length 0); [done|]. destruct (Z.ltb_spec addr 4096); [done|].
  destruct (Z.eqb_spec (Z.land addr 4095) 0) as [Ha|]; [|done]. cbn [negb].
  destruct (align_up length =? 0); [done|].
  destruct (Z.leb_spec (addr +w align_up length) addr); [done|]. intros [= <-].
  apply land_4095 in Ha. pose proof (u32_range (addr + align_up length)).
  unfold add32, is_u32, U32_MAX in *. split_and!; try done; lia.
Qed.

(** C21: [do_munmap] refuses a bad range without any change; otherwise it returns 0
    and the addresses that become unmapped are exactly those of the range and, when
    the range lies strictly inside one area and the node for its right part cannot
    be allocated, the part of that area above the range; every other address keeps
    its area; the areas stay sorted and disjoint, no node leaks, and the page tables
    are zapped over the range. *)
Theorem do_munmap_correct F mm addr length k :
  mm_ok F mm k ->
  let '(r, mm', k') := do_munmap mm addr length k in
  match range_end addr length with
  | None => r = -1 /\ mm' = mm /\ k' = k
  | Some e => r = 0 /\ mm_ok F mm' k' /\ mm' = with_mmap mm (mmap mm') /\
      tables k' = zap_page_range addr e (tables k) /\
      unmapped_from (mmap mm) addr e (lost (mmap mm) addr e (heap k)) (mmap mm')
  end.
Proof.
  intros [Hc Ho]. unfold do_munmap. destruct (range_end addr length) as [e|] eqn:E; [|done].
  apply range_end_some in E as (_ & _ & _ & Hae & _).
  destruct (munmap_loop (mmap mm) addr e (heap k)) as [l1 m1] eqn:El.
  destruct (munmap_loop_spec F [] (mmap mm) addr e (heap k) l1 m1 0 U32_MAX Hc ltac:(lia) Ho El) as (H1 & H2 & U).
  destruct (vma_merge_adjacent l1 (with_heap k m1)) as [l2 k2] eqn:Em.
  destruct (merge_adjacent_spec F l1 (with_heap k m1) l2 k2 0 U32_MAX (conj H1 H2) Em) as (G1 & G2 & _ & G3).
  split; [done|]. split; [exact G1|]. split; [done|]. cbn [tables with_tables heap mmap with_mmap]. rewrite G2.
  split; [done|]. intros x. rewrite G3. apply U.
Qed.

(** ** Changing a covering area *)

Lemma covering_split l s e v :
  vma_find_covering l s e = Some v ->
  exists l1 l2, l = l1 ++ v :: l2 /\ vm_start v <= s /\ e <= vm_end v.
Proof.
  induction l as [|w l IH]; cbn [vma_find_covering]; [done|].
  destruct ((vm_start w <=? s) && (e <=? vm_end w)) eqn:E.
  - intros [= ->]. apply andb_true_iff in E as [?%Z.leb_le ?%Z.leb_le]. by exists [], l.
  - intros Hf. destruct (IH Hf) as (l1 & l2 & -> & ? & ?). by exists (w :: l1), l2.
Qed.

Lemma chain_split lo l1 v l2 hi :
  chain lo (l1 ++ v :: l2) hi <->
  chain lo l1 (vm_start v) /\ vm_start v < vm_end v /\ chain (vm_end v) l2 hi.
Proof.
  rewrite chain_app. split.
  - intros (mid & H1 & H2 & H3 & H4). split_and!; try done. by eapply chain_weaken; [reflexivity| |].
  - intros (H1 & H2 & H3). exists (vm_start v). split; [done|]. simpl. split_and!; try done; lia.
Qed.

Lemma write_vma_at (f : vm_area_struct -> vm_area_struct) l1 v l2 :
  NoDup (nodes (l1 ++ v :: l2)) -> write_vma (vm_node v) f (l1 ++ v :: l2) = l1 ++ f v :: l2.
Proof.
  intros Hnd. unfold write_vma. unfold nodes in Hnd. rewrite map_app in Hnd. cbn [map] in Hnd.
  apply NoDup_app in Hnd as (_ & N1 & [N2 _]%NoDup_cons).
  assert (Hid : forall l, (vm_node v ∉ map vm_node l) ->
    map (fun w => if vm_node w =? vm_node v then f w else w) l = l).
  { induction l as [|w l IH]; cbn [map]; [done|]. rewrite not_elem_of_cons. intros [W1 W2].
    destruct (Z.eqb_spec (vm_node w) (vm_node v)); [congruence|]. by rewrite IH. }
  rewrite map_app. cbn [map]. rewrite Z.eqb_refl. rewrite !Hid; [done|done|].
  intros Hin. eapply N1; [exact Hin|]. by left.
Qed.

Lemma owns_nodup G ns (m : M) : owns G ns m -> NoDup ns.
Proof. by intros (_ & ? & _). Qed.

(** The left part of a protected area, split off. *)
Lemma left_split F l1 v l2 addr k l' k' :
  chain 0 (l1 ++ v :: l2) U32_MAX -> owns F (nodes (l1 ++ v :: l2)) (heap k) ->
  vm_start v <= addr -> addr < vm_end v ->
  (if vm_start v <? addr then vma_add_anon (l1 ++ v :: l2) (vm_start v) addr (vm_flags v) (anon_vma_id v) k
   else (l1 ++ v :: l2, k)) = (l', k') ->
  exists A, l' = A ++ v :: l2 /\ chain 0 A addr /\ owns F (nodes l') (heap k') /\ tables k' = tables k /\
    (forall x, x < vm_start v -> area_at A x = area_at l1 x) /\
    (forall x, vm_start v <= x < addr -> area_at A x = Some (vm_flags v, anon_vma_id v) \/
       (area_at A x = None /\ (kmalloc SIZEOF_VMA (heap k)).1 = None)).
Proof.
  intros Hc Ho H1 H2. pose proof Hc as (C1 & C2 & C3)%chain_split.
  destruct (Z.ltb_spec (vm_start v) addr) as [Hlt|Hge].
  2:{ intros [= <- <-]. exists l1. assert (vm_start v = addr) by lia. split_and!; try done; try lia.
      by rewrite <- H. }
  unfold vma_add_anon. destruct (Z.leb_spec addr (vm_start v)); [lia|].
  rewrite walk_to_at; [| |lia].
  2:{ rewrite Forall_forall. intros w Hw. pose proof (chain_elem _ _ _ _ C1 Hw). lia. }
  destruct (kmalloc SIZEOF_VMA (heap k)) as [[p|] m] eqn:Ek.
  2:{ intros [= <- <-]. exists l1. split_and!; try done.
      - by eapply chain_weaken; [reflexivity| |exact C1].
      - cbn [heap with_heap]. by eapply owns_alloc_fail.
      - intros x Hx. right. split; [|done]. apply (area_at_outside _ _ _ x C1). lia. }
  destruct (merge_prev l1 (Vma p (vm_start v) addr (vm_flags v) (anon_vma_id v)) m) as [[a1 v1] m1] eqn:Em.
  destruct (merge_prev_spec F l1 (Vma p (vm_start v) addr (vm_flags v) (anon_vma_id v)) m a1 v1 m1 0 (nodes (v :: l2)))
    as (G1 & G2 & G3 & G4 & G5 & G6 & G7); try done.
  { eapply owns_perm; [|by eapply owns_alloc]. unfold nodes. rewrite map_app. apply Permutation_middle. }
  cbn [vm_end] in G3. cbn [absorb].
  assert (Hnm : vma_can_merge v1 v = false).
  { apply not_true_is_false. rewrite can_merge_spec. lia. }
  rewrite Hnm. intros [= <- <-]. exists (a1 ++ [v1]). rewrite <- app_assoc. split_and!; try done.
  - apply chain_split. split_and!; try done. simpl. lia.
  - cbn [heap with_heap]. unfold nodes in *. rewrite map_app. exact G6.
  - intros x Hx. rewrite G7, area_at_app. destruct (area_at l1 x); [done|]. by rewrite area_at_out by (simpl; lia).
  - intros x Hx. left. rewrite G7, area_at_app. rewrite (area_at_outside _ _ _ x C1) by lia.
    by rewrite area_at_in by (simpl; lia).
Qed.

(** The right part. *)
Lemma right_split F A v l2 addr e k l' k' :
  chain 0 A addr -> chain (vm_end v) l2 U32_MAX -> owns F (nodes (A ++ v :: l2)) (heap k) ->
  vm_start v <= addr -> addr < e <= vm_end v ->
  (if e <? vm_end v then vma_add_anon (A ++ v :: l2) e (vm_end v) (vm_flags v) (anon_vma_id v) k
   else (A ++ v :: l2, k)) = (l', k') ->
  exists B, l' = A ++ v :: B /\ chain e B U32_MAX /\ owns F (nodes l') (heap k') /\ tables k' = tables k /\
    (forall x, vm_end v <= x -> area_at B x = area_at l2 x) /\
    (forall x, e <= x < vm_end v -> area_at B x = Some (vm_flags v, anon_vma_id v) \/
       (area_at B x = None /\ (kmalloc SIZEOF_VMA (heap k)).1 = None)).
Proof.
  intros HA Hl2 Ho H1 H2. destruct (Z.ltb_spec e (vm_end v)) as [Hlt|Hge].
  2:{ intros [= <- <-]. exists l2. assert (vm_end v = e) by lia. split_and!; try done; try lia. by rewrite <- H. }
  unfold vma_add_anon. destruct (Z.leb_spec (vm_end v) e); [lia|].
  replace (A ++ v :: l2) with ((A ++ [v]) ++ l2) in * by (by rewrite <- app_assoc).
  rewrite walk_to_at.
  2:{ rewrite Forall_app. split; [|constructor; [lia|constructor]].
      rewrite Forall_forall. intros w Hw. pose proof (chain_elem _ _ _ _ HA Hw). lia. }
  2:{ destruct l2 as [|w l2]; [done|]. destruct Hl2. lia. }
  destruct (kmalloc SIZEOF_VMA (heap k)) as [[p|] m] eqn:Ek.
  2:{ intros [= <- <-]. exists l2. rewrite <- app_assoc. split_and!; try done.
      - by eapply chain_weaken; [| |exact Hl2]; [lia|done].
      - cbn [heap with_heap]. rewrite <- app_assoc in Ho. by eapply owns_alloc_fail.
      - intros x Hx. right. split; [|done]. apply (area_at_outside _ _ _ x Hl2). lia. }
  unfold merge_prev. rewrite last_snoc.
  assert (Hnm : vma_can_merge v (Vma p e (vm_end v) (vm_flags v) (anon_vma_id v)) = false).
  { apply not_true_is_false. rewrite can_merge_spec. simpl. lia. }
  rewrite Hnm. destruct (absorb _ l2 m) as [[v2 b2] m2] eqn:Eb.
  destruct (absorb_spec F (Vma p e (vm_end v) (vm_flags v) (anon_vma_id v)) l2 m v2 b2 m2 e U32_MAX
    (nodes (A ++ [v]))) as (G1 & G2 & G3 & G4).
  - simpl. split_and!; try done; lia.
  - eapply owns_perm; [|by eapply owns_alloc]. unfold nodes. rewrite (map_app _ (A ++ [v])). apply Permutation_middle.
  - done.
  - intros [= <- <-]. exists (v2 :: b2). rewrite <- app_assoc. split_and!; try done.
    + cbn [heap with_heap]. unfold nodes in *. rewrite map_app in *. cbn [map] in *.
      rewrite <- app_assoc in G3. exact G3.
    + intros x Hx. rewrite G4. by rewrite area_at_out by (simpl; lia).
    + intros x Hx. left. rewrite G4. by rewrite area_at_in by (simpl; lia).
Qed.

(** The state after the left split of [do_mprotect]. *)
Definition left_added (l : list vm_area_struct) v addr k :=
  if vm_start v <? addr then vma_add_anon l (vm_start v) addr (vm_flags v) (anon_vma_id v) k else (l, k).

(** The mapping after protecting [addr .. e) inside the area [v]. *)
Definition protected_from (l : list vm_area_struct) v addr e fl (lfail rfail : Prop) (l' : list vm_area_struct) : Prop :=
  (forall x, addr <= x < e -> area_at l' x = Some (fl, anon_vma_id v)) /\
  (forall x, x < vm_start v \/ vm_end v <= x -> area_at l' x = area_at l x) /\
  (forall x, vm_start v <= x < addr -> area_at l' x = area_at l x \/ (area_at l' x = None /\ lfail)) /\
  (forall x, e <= x < vm_end v -> area_at l' x = area_at l x \/ (area_at l' x = None /\ rfail)).

(** [do_mprotect] refuses, without any change, a bad range and a range no
    single area covers; otherwise exactly the addresses of the range get the
    new protection, everything else is as before (the part of the area left or
    right of the range is lost if its node cannot be allocated), the areas
    stay sorted and disjoint and no node leaks. *)
Theorem do_mprotect_correct F mm addr length prot k :
  mm_ok F mm k ->
  let '(r, mm', k') := do_mprotect mm addr length prot k in
  match range_end addr length with
  | None => r = 0 /\ mm' = mm /\ k' = k
  | Some e =>
      match vma_find_covering (mmap mm) addr e with
      | None => r = 0 /\ mm' = mm /\ k' = k
      | Some v => r = 1 /\ mm_ok F mm' k' /\ mm' = with_mmap mm (mmap mm') /\
          tables k' = update_mapped_page_flags addr e (prot_flags prot) (tables k) /\
          protected_from (mmap mm) v addr e (prot_flags prot)
            ((kmalloc SIZEOF_VMA (heap k)).1 = None)
            ((kmalloc SIZEOF_VMA (heap (left_added (mmap mm) v addr k).2)).1 = None) (mmap mm')
      end
  end.
Proof.
  intros [Hc Ho]. unfold do_mprotect. destruct (range_end addr length) as [e|] eqn:E; [|done].
  apply range_end_some in E as (_ & _ & _ & Hae & _).
  destruct (vma_find_covering (mmap mm) addr e) as [v|] eqn:Ev; [|done].
  apply covering_split in Ev as (l1 & l2 & El & V1 & V2). rewrite El in *.
  pose proof Hc as (C1 & C2 & C3)%chain_split.
  fold (left_added (l1 ++ v :: l2) v addr k).
  destruct (left_added (l1 ++ v :: l2) v addr k) as [l' k1] eqn:E1. unfold left_added in E1. cbn [snd].
  destruct (left_split F l1 v l2 addr k l' k1 Hc Ho V1 ltac:(lia) E1) as (A & -> & A1 & A2 & A3 & A4 & A5).
  destruct (if e <? vm_end v then _ else _) as [l'' k2] eqn:E2.
  destruct (right_split F A v l2 addr e k1 l'' k2 A1 C3 A2 V1 ltac:(lia) E2) as (B & -> & B1 & B2 & B3 & B4 & B5).
  rewrite write_vma_at by (by eapply owns_nodup).
  set (v' := set_vm_flags _ _). set (k3 := with_tables k2 _).
  destruct (vma_merge_adjacent (A ++ v' :: B) k3) as [l4 k4] eqn:E4.
  destruct (merge_adjacent_spec F (A ++ v' :: B) k3 l4 k4 0 U32_MAX) as (G1 & G2 & _ & G3).
  { split.
    - apply chain_split. cbn [v' set_vm_flags set_end set_start vm_start vm_end]. split_and!; try done; lia.
    - unfold nodes in *. rewrite map_app in *. exact B2. }
  { done. }
  split; [done|]. split; [exact G1|]. split; [done|]. split.
  { rewrite G2. cbn [k3 with_tables tables]. congruence. }
  cbn [mmap with_mmap].
  assert (Hl' : forall x, area_at l4 x = if decide (x < addr) then area_at A x else
    if decide (x < e) then Some (prot_flags prot, anon_vma_id v) else area_at B x).
  { intros x. rewrite G3, area_at_app. destruct (decide (x < addr)).
    - rewrite area_at_out by (simpl; lia). rewrite (area_at_outside _ B _ x B1) by lia. by destruct (area_at A x).
    - rewrite (area_at_outside _ A _ x A1) by lia. destruct (decide (x < e)).
      + rewrite area_at_in by (simpl; lia). done.
      + by rewrite area_at_out by (simpl; lia). }
  assert (Hl : forall x, area_at (l1 ++ v :: l2) x = if decide (x < vm_start v) then area_at l1 x else
    if decide (x < vm_end v) then Some (vm_flags v, anon_vma_id v) else area_at l2 x).
  { intros x. rewrite area_at_app. destruct (decide (x < vm_start v)).
    - rewrite area_at_out by lia. rewrite (area_at_outside _ l2 _ x C3) by lia. by destruct (area_at l1 x).
    - rewrite (area_at_outside _ l1 _ x C1) by lia. destruct (decide (x < vm_end v)).
      + by rewrite area_at_in by lia.
      + by rewrite area_at_out by lia. }
  unfold protected_from. setoid_rewrite Hl'. setoid_rewrite Hl. split_and!; intros x Hx.
  - by rewrite decide_False, decide_True by lia.
  - destruct Hx as [Hx|Hx].
    + rewrite !decide_True by lia. by apply A4.
    + rewrite !decide_False by lia. by apply B4.
  - rewrite decide_True by lia. rewrite (decide_False (P := x < vm_start v)), decide_True by lia. by apply A5.
  - rewrite (decide_False (P := x < addr)), (decide_False (P := x < e)), (decide_False (P := x < vm_start v)), decide_True by lia.
    by apply B5.
Qed.

(** Where [do_mremap] can grow an area: it must end where the old range ends. *)
Lemma grow_end l1 v l2 old_end new_end addr :
  chain 0 (l1 ++ v :: l2) U32_MAX -> range_unmapped (l1 ++ v :: l2) old_end new_end ->
  vm_start v <= addr -> old_end <= vm_end v -> addr < old_end < new_end ->
  vm_end v = old_end /\ (new_end <= U32_MAX -> chain new_end l2 U32_MAX).
Proof.
  intros Hc Hu H1 H2 H3. pose proof Hc as (C1 & C2 & C3)%chain_split.
  apply Forall_app in Hu as [_ [Hv Hu]%Forall_cons]. assert (vm_end v = old_end) by lia.
  split; [done|]. intros Hn. apply (chain_lo (vm_end v)); [done|done|].
  rewrite Forall_forall in *. intros w Hw. specialize (Hu w Hw). pose proof (chain_elem _ _ _ _ C3 Hw). lia.
Qed.

(** The mapping after moving the end of the area [v] to [ne]. *)
Lemma move_end F l1 v l2 ne k :
  chain 0 (l1 ++ v :: l2) U32_MAX -> owns F (nodes (l1 ++ v :: l2)) (heap k) ->
  vm_start v < ne -> chain ne l2 U32_MAX ->
  let '(l', k') := vma_merge_adjacent (write_vma (vm_node v) (set_end ne) (l1 ++ v :: l2)) k in
  space_ok F 0 U32_MAX l' (heap k') /\ tables k' = tables k /\
  forall x, area_at l' x =
    if decide (vm_start v <= x < ne) then Some (vm_flags v, anon_vma_id v)
    else if decide (vm_start v <= x < vm_end v) then None else area_at (l1 ++ v :: l2) x.
Proof.
  intros Hc Ho Hne Hl2. pose proof Hc as (C1 & C2 & C3)%chain_split.
  rewrite write_vma_at by (by eapply owns_nodup).
  destruct (vma_merge_adjacent (l1 ++ set_end ne v :: l2) k) as [l' k'] eqn:E.
  destruct (merge_adjacent_spec F (l1 ++ set_end ne v :: l2) k l' k' 0 U32_MAX) as (G1 & G2 & _ & G3); try done.
  { split; [by apply chain_split|]. unfold nodes in *. rewrite map_app in *. exact Ho. }
  split_and!; try done; [apply G1..|]. intros x. rewrite G3, !area_at_app.
  destruct (decide (vm_start v <= x < ne)).
  - rewrite (area_at_outside _ l1 _ x C1) by lia. by rewrite area_at_in by (simpl; lia).
  - destruct (decide (vm_start v <= x < vm_end v)).
    + rewrite (area_at_outside _ l1 _ x C1) by lia. rewrite area_at_out by (simpl; lia).
      apply (area_at_outside _ l2 _ x C3). lia.
    + by rewrite !area_at_out by (simpl; lia).
Qed.

Lemma range_end_exact addr length e :
  0 <= addr -> range_end addr length = Some e -> e = addr + align_up length /\ 0 < align_up length.
Proof.
  intros Ha E. apply range_end_some in E as (_ & H1 & _ & H2 & H3). unfold add32, u32 in H3.
  assert (Hu : 0 <= align_up length < 4294967296).
  { unfold align_up. split; [apply Z.land_nonneg; left; apply u32_range|].
    destruct (Z.lt_ge_cases (Z.land (length +w 4095) (not32 4095)) 4294967296) as [?|Hge]; [done|].
    exfalso. assert (Hb : Z.land (length +w 4095) (not32 4095) = (length +w 4095) - (length +w 4095) mod 2 ^ 12).
    { rewrite (land_not32_mask _ 12); try done; try lia. apply u32_range. }
    pose proof (u32_range (length + 4095)). unfold is_u32, add32 in *.
    pose proof (Z.mod_pos_bound (u32 (length + 4095)) (2 ^ 12) ltac:(lia)). lia. }
  unfold U32_MAX in *. destruct (Z.lt_ge_cases (addr + align_up length) 4294967296).
  - rewrite Z.mod_small in H3 by lia. lia.
  - assert (E2 : (addr + align_up length) mod 4294967296 = addr + align_up length - 4294967296).
    { symmetry. apply (Z.mod_unique_pos _ _ 1); lia. }
    rewrite E2 in H3. lia.
Qed.

(** [do_mremap] of a range inside one area [v].  Equal lengths change
    nothing.  A growing call succeeds exactly when the new end is below the
    limit and the pages above the old range are unmapped, and then maps
    exactly those pages like [v]; a shrinking call cuts [v] off at the new end:
    everything of [v] above it becomes unmapped, also what lies beyond the
    old range, although only the old range is zapped from the page tables.
    The areas stay sorted and disjoint and no node leaks; every refused call
    changes nothing. *)
Theorem do_mremap_correct F mm addr old_length new_length k :
  mm_ok F mm k -> 0 <= map_limit mm <= TASK_SIZE ->
  let '(r, mm', k') := do_mremap mm addr old_length new_length k in
  match range_end addr old_length, range_end addr new_length with
  | Some oe, Some ne =>
      match vma_find_covering (mmap mm) addr oe with
      | None => r = 0 /\ mm' = mm /\ k' = k
      | Some v =>
          (oe = ne -> r = addr /\ mm' = mm /\ k' = k) /\
          (ne < oe -> r = addr /\ mm_ok F mm' k' /\ tables k' = zap_page_range ne oe (tables k) /\
             forall x, area_at (mmap mm') x =
               if decide (ne <= x < vm_end v) then None else area_at (mmap mm) x) /\
          (oe < ne -> map_limit mm < ne \/ ~ range_unmapped (mmap mm) oe ne -> r = 0 /\ mm' = mm /\ k' = k) /\
          (oe < ne -> ne <= map_limit mm -> range_unmapped (mmap mm) oe ne ->
             r = addr /\ mm_ok F mm' k' /\ tables k' = tables k /\
             forall x, area_at (mmap mm') x =
               if decide (oe <= x < ne) then Some (vm_flags v, anon_vma_id v) else area_at (mmap mm) x)
      end
  | _, _ => r = 0 /\ mm' = mm /\ k' = k
  end.
Proof.
  intros [Hc Ho] Hlim. unfold do_mremap.
  destruct (range_end addr old_length) as [oe|] eqn:Eo.
  2:{ by destruct (_ || _). }
  destruct (range_end addr new_length) as [ne|] eqn:En.
  2:{ by destruct (_ || _). }
  pose proof (range_end_some _ _ _ Eo) as (O1 & O2 & _ & O3 & _).
  pose proof (range_end_some _ _ _ En) as (N1 & _ & _ & N3 & N4).
  assert (Hpos : 0 <= addr) by lia.
  destruct (range_end_exact _ _ _ Hpos Eo) as [Ao _], (range_end_exact _ _ _ Hpos En) as [An _].
  destruct (Z.eqb_spec old_length 0); [done|]. destruct (Z.eqb_spec new_length 0); [done|]. cbn [orb].
  destruct (vma_find_covering (mmap mm) addr oe) as [v|] eqn:Ev; [|done].
  apply covering_split in Ev as (l1 & l2 & El & V1 & V2). rewrite El in *.
  pose proof Hc as (C1 & C2 & C3)%chain_split. rewrite <- N4.
  destruct (Z.eqb_spec (align_up new_length) (align_up old_length)).
  { split_and!; intros; try lia; done. }
  destruct (Z.ltb_spec (align_up new_length) (align_up old_length)).
  { pose proof (move_end F l1 v l2 ne (with_tables k (zap_page_range ne oe (tables k)))) as Hm.
    destruct (vma_merge_adjacent _ _) as [l' k'].
    destruct Hm as (G1 & G2 & G3); try done; [lia|apply (chain_weaken (vm_end v) ne l2 U32_MAX U32_MAX); [lia|lia|done]|].
    split; [lia|]. split; [|split; intros; exfalso; lia]. intros _. split; [done|]. split; [done|]. split; [exact G2|].
    intros x. cbn [mmap with_mmap]. rewrite G3. destruct (decide (vm_start v <= x < ne)).
    - rewrite decide_False by lia. rewrite area_at_app, (area_at_outside _ l1 _ x C1) by lia.
      by rewrite area_at_in by lia.
    - destruct (decide (vm_start v <= x < vm_end v)); [by rewrite decide_True by lia|by rewrite decide_False by lia]. }
  assert (Hgt : oe < ne) by lia.
  destruct (Z.ltb_spec (map_limit mm) ne).
  { split; [lia|]. split; [lia|]. split; [done|]. intros. lia. }
  destruct (vma_range_free (l1 ++ v :: l2) oe ne) eqn:Ef; cbn [negb].
  2:{ assert (Hn : ~ range_unmapped (l1 ++ v :: l2) oe ne) by (rewrite <- range_free_spec; by rewrite Ef).
      split; [lia|]. split; [lia|]. done. }
  apply range_free_spec in Ef. unfold TASK_SIZE, U32_MAX in *.
  destruct (grow_end l1 v l2 oe ne addr Hc Ef V1 V2 ltac:(lia)) as [Hve Hl2].
  pose proof (move_end F l1 v l2 ne k) as Hm.
  destruct (vma_merge_adjacent _ _) as [l' k'].
  destruct Hm as (G1 & G2 & G3); try done; [lia|apply Hl2; unfold U32_MAX; lia|].
  split; [lia|]. split; [lia|]. split; [intros _ [?|?]; [lia|done]|]. intros _ _ _. split; [done|]. split; [done|]. split; [exact G2|].
  intros x. cbn [mmap with_mmap]. rewrite G3. destruct (decide (oe <= x < ne)).
  - by rewrite decide_True by lia.
  - destruct (decide (vm_start v <= x < ne)).
    + rewrite area_at_app, (area_at_outside _ l1 _ x C1) by lia. by rewrite area_at_in by lia.
    + by rewrite decide_False by lia.
Qed.

(** ** The heap *)

(** The heap area is never created.  On an address space with no readable
    and writable area at [heap_base], [mm_init_brk] leaves the list of areas
    unchanged (the area it adds is empty, and [vma_add] drops empty areas);
    after it every [do_brk] that moves the break also leaves the list
    unchanged, so the heap addresses it reports as available stay unmapped. *)
Theorem brk_maps_nothing mm heap_base stack_base new_end k :
  4096 <= heap_base < TASK_SIZE ->
  (stack_base = 0 \/ heap_base +w 4096 < stack_base) ->
  vma_find_heap_in (mmap mm) heap_base = None ->
  let '(mm1, k1) := mm_init_brk mm heap_base stack_base k in
  mmap mm1 = mmap mm /\ start_brk mm1 = heap_base /\ brk mm1 = heap_base /\ k1 = k /\
  (heap_base < new_end < TASK_SIZE ->
   (start_stack mm = 0 \/ align_up new_end +w 4096 <= start_stack mm) ->
   do_brk mm1 new_end = (new_end, set_brk mm1 heap_base new_end) /\
   mmap (do_brk mm1 new_end).2 = mmap mm).
Proof.
  intros Hb Hs Hh. unfold mm_init_brk.
  destruct (Z.ltb_spec heap_base 4096); [lia|]. destruct (Z.leb_spec TASK_SIZE heap_base); [lia|].
  assert (Hst : negb (stack_base =? 0) && (stack_base <=? heap_base +w 4096) = false).
  { destruct (Z.eqb_spec stack_base 0); [done|]. cbn [negb andb]. apply Z.leb_gt. lia. }
  rewrite Hst. unfold vma_find_heap. cbn [set_brk start_brk mmap].
  destruct (Z.eqb_spec heap_base 0); [lia|]. rewrite Hh. unfold vma_add. rewrite Z.leb_refl.
  cbn [with_mmap mmap set_brk start_brk brk start_code end_code start_stack]. split_and!; try done.
  intros Hn Hss. unfold do_brk. cbn [with_mmap set_brk start_brk brk start_stack mmap start_code end_code].
  destruct (Z.eqb_spec heap_base 0); [lia|]. destruct (Z.eqb_spec new_end 0); [lia|].
  destruct (Z.ltb_spec new_end heap_base); [lia|]. destruct (Z.leb_spec TASK_SIZE new_end); [lia|].
  assert (Hst2 : negb (start_stack mm =? 0) && (start_stack mm <? align_up new_end +w 4096) = false).
  { destruct (Z.eqb_spec (start_stack mm) 0); [done|]. cbn [negb andb]. apply Z.ltb_ge. lia. }
  rewrite Hst2. unfold vma_find_heap. cbn [with_mmap set_brk start_brk mmap].
  destruct (Z.eqb_spec heap_base 0); [lia|]. rewrite Hh. done.
Qed.

(** ** Copying the list *)

Definition same_area (v w : vm_area_struct) : Prop :=
  vm_start w = vm_start v /\ vm_end w = vm_end v /\ vm_flags w = vm_flags v /\ anon_vma_id w = anon_vma_id v.

Lemma free_all F (l : list vm_area_struct) rest (m : M) :
  owns F (nodes l ++ rest) m -> owns F rest (foldl (fun m v => kfree (vm_node v) m) m l).
Proof.
  revert m. induction l as [|v l IH]; intros m Ho; [done|]. cbn [foldl]. apply IH. by apply owns_free.
Qed.

Lemma clone_loop_spec F src acc m r m' :
  owns F (nodes acc) m -> clone_loop src acc m = (r, m') ->
  match r with
  | Some l => owns F (nodes l) m' /\ exists l', l = acc ++ l' /\ Forall2 same_area src l'
  | None => owns F [] m'
  end.
Proof.
  revert acc m. induction src as [|v src IH]; intros acc m Ho; cbn [clone_loop].
  { intros [= <- <-]. split; [done|]. exists []. by rewrite app_nil_r. }
  destruct (kmalloc SIZEOF_VMA m) as [[p|] m1] eqn:Ek.
  - intros Hc. apply IH in Hc.
    + destruct r as [l|]; [|done]. destruct Hc as (H1 & l' & -> & H2). split; [done|].
      eexists (_ :: l'). rewrite <- app_assoc. split; [done|]. by constructor.
    + eapply owns_perm; [|by eapply owns_alloc]. unfold nodes. rewrite map_app. cbn [map].
      by rewrite Permutation_app_comm.
  - intros [= <- <-]. apply free_all. rewrite app_nil_r. by eapply owns_alloc_fail.
Qed.

(** [vma_clone_list] copies the list node by node into fresh nodes, or, if
    an allocation fails, frees everything it had allocated: the copy has the
    same areas in the same order, and the heap holds exactly the nodes of the
    copy in addition to what it held before. *)
Theorem vma_clone_list_correct F src k :
  km_ok (heap k) -> live (heap k) = F ->
  let '(l, k') := vma_clone_list src k in
  owns F (nodes l) (heap k') /\
  ((Forall2 same_area src l /\ forall x, area_at l x = area_at src x) \/ l = []).
Proof.
  intros Hk HF. unfold vma_clone_list. destruct (clone_loop src [] (heap k)) as [r m] eqn:E.
  assert (Ho : owns F (nodes []) (heap k)).
  { split_and!; [done|constructor|by intros ? ?%elem_of_nil|]. cbn [nodes map]. set_solver. }
  pose proof (clone_loop_spec F src [] (heap k) r m Ho E) as Hr. cbn [heap with_heap].
  destruct r as [l|]; cbn [default]; [|split; [done|by right]].
  destruct Hr as (H1 & l' & -> & H2). split; [done|]. left. split; [done|]. intros x.
  clear -H2. unfold id. cbn [app]. induction H2 as [|v w src l' (E1 & E2 & E3 & E4) _ IH]; [done|].
  destruct (decide (vm_start v <= x < vm_end v)).
  - rewrite !area_at_in by lia. congruence.
  - rewrite !area_at_out by lia. done.
Qed.
End calls.

(** ** A small address space

    Code at 1 MB, one data area, a stack; page tables that count their calls. *)

Module Demo.
#[global] Instance count_tables : PageTables (list (Z * Z)) := {|
  zap_page_range := fun s e p => p ++ [(s, e)];
  update_mapped_page_flags := fun s e _ p => p;
|}.

Notation kern := (kernel (M := Heap.heap) (P := list (Z * Z))).

(** Three nodes allocated at 4096, 4097 and 4098. *)
Definition h3 (n : nat) : Heap.heap := Heap.Build_heap n 4099 {[4096; 4097; 4098]}.
Definition k0 : kern := Kernel 10 (h3 5) [].
Definition k_full : kern := Kernel 10 (h3 0) [].
Definition l0 : list vm_area_struct :=
  [Vma 4096 1048576 1052672 5 1; Vma 4097 2097152 2113536 3 2; Vma 4098 3145728 3149824 3 3].
Definition mm0 : mm_struct := Mm 1048576 1052672 2147483648 0 0 l0.

Lemma h3_owns n : owns ∅ (nodes l0) (h3 n).
Proof.
  split_and!.
  - intros p Hp. cbn [h3 Heap.used Heap.brk] in *. set_solver by lia.
  - by apply (bool_decide_unpack _).
  - set_solver.
  - cbn [live Heap.heap_kalloc_spec h3 Heap.used]. set_solver.
Qed.

Lemma mm0_ok n : mm_ok ∅ mm0 (Kernel 10 (h3 n) ([] : list (Z * Z))).
Proof. split; [|apply h3_owns]. unfold mm0, l0. simpl. unfold U32_MAX. lia. Qed.

(** Unmapping the middle of the data area splits it. *)
Lemma munmap_runs :
  (do_munmap mm0 2101248 4096 k0).1.1 = 0 /\
  map (fun v => (vm_start v, vm_end v)) (mmap (do_munmap mm0 2101248 4096 k0).1.2) =
    [(1048576, 1052672); (2097152, 2101248); (2105344, 2113536); (3145728, 3149824)].
Proof. vm_compute. done. Qed.
End Demo.

Lemma do_mmap_correct_witness :
  sane Demo.mm0 0 8192 /\ (do_mmap Demo.mm0 0 8192 3 Demo.k0).1.1 = 4194304 /\
  placed Demo.mm0 0 8192 (do_mmap Demo.mm0 0 8192 3 Demo.k0).1.1.
Proof.
  assert (Hs : sane Demo.mm0 0 8192) by (unfold sane, TASK_SIZE; simpl; lia).
  pose proof (do_mmap_correct ∅ Demo.mm0 0 8192 3 Demo.k0 (Demo.mm0_ok 5) Hs) as H.
  assert (E : (do_mmap Demo.mm0 0 8192 3 Demo.k0).1.1 = 4194304) by (vm_compute; reflexivity).
  split; [exact Hs|]. split; [exact E|].
  destruct (do_mmap Demo.mm0 0 8192 3 Demo.k0) as [[r mm'] k']. cbn [fst] in *.
  destruct H as [(-> & _)|(_ & Hp & _)]; [discriminate E|exact Hp].
Defined.

Lemma do_mmap_length_overflow_witness :
  let mm := Mm 0 0 2147483648 0 0 [] in
  do_mmap mm 0 4294901760 3 Demo.k0 = (4194304, mm, Demo.k0).
Proof.
  cbv zeta.
  apply (do_mmap_length_overflow (Mm 0 0 2147483648 0 0 []) 4294901760 3 Demo.k0);
    vm_compute; try reflexivity; discriminate.
Defined.

Lemma do_munmap_correct_witness :
  let '(_, mm', _) := do_munmap Demo.mm0 2101248 4096 Demo.k0 in
  area_at (mmap mm') 2101248 = None /\ area_at (mmap mm') 2097152 = Some (3, 2).
Proof.
  pose proof (do_munmap_correct ∅ Demo.mm0 2101248 4096 Demo.k0 (Demo.mm0_ok 5)) as H.
  destruct (do_munmap Demo.mm0 2101248 4096 Demo.k0) as [[r mm'] k'].
  assert (E : range_end 2101248 4096 = Some 2105344) by (vm_compute; reflexivity).
  rewrite E in H. destruct H as (_ & _ & _ & _ & H).
  split; [apply H; left; lia|]. rewrite (proj2 (H 2097152)); [vm_compute; reflexivity|lia|]. intros (Hx & _). lia.
Defined.

Lemma do_mprotect_correct_witness :
  let '(r, mm', _) := do_mprotect Demo.mm0 2101248 4096 1 Demo.k0 in
  r = 1 /\ area_at (mmap mm') 2101248 = Some (1, 2).
Proof.
  pose proof (do_mprotect_correct ∅ Demo.mm0 2101248 4096 1 Demo.k0 (Demo.mm0_ok 5)) as H.
  destruct (do_mprotect Demo.mm0 2101248 4096 1 Demo.k0) as [[r mm'] k'].
  assert (E : range_end 2101248 4096 = Some 2105344) by (vm_compute; reflexivity).
  rewrite E in H.
  assert (Ev : vma_find_covering (mmap Demo.mm0) 2101248 2105344 = Some (Vma 4097 2097152 2113536 3 2))
    by (vm_compute; reflexivity).
  rewrite Ev in H. destruct H as (H1 & _ & _ & _ & H2 & _). split; [exact H1|].
  rewrite H2 by lia. vm_compute. reflexivity.
Defined.

Lemma do_mremap_correct_witness :
  let '(r, mm', _) := do_mremap Demo.mm0 2097152 16384 20480 Demo.k0 in
  r = 2097152 /\ area_at (mmap mm') 2113536 = Some (3, 2).
Proof.
  pose proof (do_mremap_correct ∅ Demo.mm0 2097152 16384 20480 Demo.k0 (Demo.mm0_ok 5)
    ltac:(vm_compute; split; discriminate)) as H.
  destruct (do_mremap Demo.mm0 2097152 16384 20480 Demo.k0) as [[r mm'] k'].
  assert (E1 : range_end 2097152 16384 = Some 2113536) by (vm_compute; reflexivity).
  assert (E2 : range_end 2097152 20480 = Some 2117632) by (vm_compute; reflexivity).
  rewrite E1, E2 in H.
  assert (Ev : vma_find_covering (mmap Demo.mm0) 2097152 2113536 = Some (Vma 4097 2097152 2113536 3 2))
    by (vm_compute; reflexivity).
  rewrite Ev in H. destruct H as (_ & _ & _ & H).
  destruct H as (H1 & _ & _ & H2);
    [lia|vm_compute; discriminate|apply range_free_spec; vm_compute; reflexivity|].
  split; [exact H1|]. rewrite H2. rewrite decide_True by lia. reflexivity.
Defined.

Lemma brk_maps_nothing_witness :
  mmap (do_brk (mm_init_brk Demo.mm0 4194304 2147483648 Demo.k0).1 4204304).2 = mmap Demo.mm0.
Proof.
  pose proof (brk_maps_nothing Demo.mm0 4194304 2147483648 4204304 Demo.k0) as H.
  destruct (mm_init_brk Demo.mm0 4194304 2147483648 Demo.k0) as [mm1 k1].
  destruct H as (_ & _ & _ & _ & H).
  - unfold TASK_SIZE. lia.
  - right. vm_compute. reflexivity.
  - vm_compute. reflexivity.
  - apply H; [unfold TASK_SIZE; lia|]. right. vm_compute. discriminate.
Defined.

Lemma vma_clone_list_correct_witness :
  let '(l, k') := vma_clone_list Demo.l0 Demo.k0 in
  owns {[4096; 4097; 4098]} (nodes l) (heap k').
Proof.
  pose proof (vma_clone_list_correct {[4096; 4097; 4098]} Demo.l0 Demo.k0
    (proj1 (Demo.h3_owns 5)) eq_refl) as H.
  destruct (vma_clone_list Demo.l0 Demo.k0) as [l k']. exact (proj1 H).
Defined.
