(* ===== verification/Slab.v ===== *)
(** * The slab allocator ([mm/slab.c])

    [kmalloc] and [kfree] over slabs of one page and, for large requests,
    blocks of pages.  Slab descriptors are indices of the array [slab_pool];
    the two linked lists through [next] (the unused descriptors and the slabs
    of a cache) and the free objects of a slab, which are linked through their
    first words, are lists.  A cache is named by its number for the nine
    built-in ones and by its address for one made by [kmem_cache_create].
    The headers of large blocks are a map from their addresses, with an entry
    as long as the block is allocated.  The page allocator is the interface
    [PageSource]. *)

From stdpp Require Import base tactics numbers list gmap sets.
From Stdlib Require Import ZArith Lia.
From S2P Require Import Prelude.

(** ** Pages *)

Definition PAGE_SIZE : Z := 4096.
Definition PAGE_OFFSET : Z := 3221225472.
Definition LOWMEM : Z := 939524096.

(** What the slab allocator uses of [mm/page_alloc.c]: physical addresses of
    blocks of [2^order] pages.  When memory is short [alloc_pages] runs reclaim,
    which frees slabs and allocates swap buffers, that is, comes back to this
    allocator.  These runs are not followed: the allocation gives no block and
    [pg_entered] records that it entered reclaim.  What is said about the heap is
    said for runs where it is not set. *)
Class PageSource (G : Type) := {
  pg_alloc : Z -> G -> option Z * G;
  pg_free : Z -> Z -> G -> G;
  pg_entered : G -> bool;
}.

(** The blocks handed out are in low memory, page-aligned and disjoint. *)
Class PageSourceSpec (G : Type) `{!PageSource G} := {
  pg_ok : G -> Prop;
  held : G -> gmap Z Z;
  held_range g a o : pg_ok g -> held g !! a = Some o ->
    0 <= o /\ 0 < a /\ (4096 | a) /\ a + 4096 * 2 ^ o <= LOWMEM;
  held_disjoint g a o a' o' : pg_ok g -> held g !! a = Some o -> held g !! a' = Some o' -> a <> a' ->
    a + 4096 * 2 ^ o <= a' \/ a' + 4096 * 2 ^ o' <= a;
  pg_alloc_none o g g' : pg_ok g -> pg_alloc o g = (None, g') -> pg_ok g' /\ held g' = held g;
  pg_alloc_some o g a g' : pg_ok g -> 0 <= o -> pg_alloc o g = (Some a, g') ->
    pg_ok g' /\ held g !! a = None /\ held g' = <[a := o]> (held g);
  pg_free_held a o g : pg_ok g -> held g !! a = Some o ->
    pg_ok (pg_free a o g) /\ held (pg_free a o g) = delete a (held g);
}.

(** ** Data *)

Definition SLAB_MAX_PAGES : Z := 4096.
Definition LARGE_MAGIC : Z := 1279349319.
Definition SIZEOF_LARGE_HDR : Z := 16.
Definition SIZEOF_CACHE : Z := 8.

Record slab : Type := Slab {
  freelist : list Z;
  inuse : Z;
  total : Z;
  vaddr : Z;
  cache : option Z;
}.

Record kmem_cache : Type := Cache { csize : Z; slabs : list Z }.

Record large_hdr : Type := Large { magic : Z; lorder : Z; lphys : Z }.

Definition cache_sizes : list Z := [8; 16; 32; 64; 128; 256; 512; 1024; 2048].

#[export] Instance slab_inhabited : Inhabited slab := populate (Slab [] 0 0 0 None).

Section slab.
Context {G : Type} `{!PageSource G}.

Record kheap : Type := KHeap {
  slab_pool : list slab;
  slab_free_list : list Z;
  slab_map : list (option Z);
  slab_pages : Z;
  caches : gmap Z kmem_cache;
  hdrs : gmap Z large_hdr;
  pages : G;
}.

Definition with_pool (h : kheap) (p : list slab) : kheap :=
  KHeap p (slab_free_list h) (slab_map h) (slab_pages h) (caches h) (hdrs h) (pages h).
Definition with_free_list (h : kheap) (l : list Z) : kheap :=
  KHeap (slab_pool h) l (slab_map h) (slab_pages h) (caches h) (hdrs h) (pages h).
Definition with_caches (h : kheap) (c : gmap Z kmem_cache) : kheap :=
  KHeap (slab_pool h) (slab_free_list h) (slab_map h) (slab_pages h) c (hdrs h) (pages h).
Definition with_hdrs (h : kheap) (m : gmap Z large_hdr) : kheap :=
  KHeap (slab_pool h) (slab_free_list h) (slab_map h) (slab_pages h) (caches h) m (pages h).
Definition with_gpages (h : kheap) (g : G) : kheap :=
  KHeap (slab_pool h) (slab_free_list h) (slab_map h) (slab_pages h) (caches h) (hdrs h) g.
Definition with_map (h : kheap) (m : list (option Z)) (n : Z) : kheap :=
  KHeap (slab_pool h) (slab_free_list h) m n (caches h) (hdrs h) (pages h).

Definition get_slab (h : kheap) (s : Z) : slab := znth (slab_pool h) s.
Definition set_slab (h : kheap) (s : Z) (x : slab) : kheap := with_pool h (zset (slab_pool h) s x).

(** ** Operations *)

Definition slab_free_meta (h : kheap) (s : Z) : kheap := with_free_list h (s :: slab_free_list h).

Definition align_up (value align : Z) : Z := Z.land (value +w (align - 1)) (not32 (align - 1)).

(** The descriptor comes out zeroed. *)
Definition slab_alloc_meta (h : kheap) : option Z * kheap :=
  match slab_free_list h with
  | [] => (None, h)
  | s :: rest => (Some s, set_slab (with_free_list h rest) s (Slab [] 0 0 0 None))
  end.

Definition set_vaddr (v : Z) (x : slab) : slab := Slab (freelist x) (inuse x) (total x) v (cache x).
Definition set_cache (c : option Z) (x : slab) : slab := Slab (freelist x) (inuse x) (total x) (vaddr x) c.

Definition slab_alloc_page (h : kheap) (s : Z) : bool * kheap :=
  if SLAB_MAX_PAGES <=? slab_pages h then (false, h) else
  match pg_alloc 0 (pages h) with
  | (None, g) => (false, with_gpages h g)
  | (Some phys, g) =>
      let h1 := set_slab (with_gpages h g) s (set_vaddr (phys +w PAGE_OFFSET) (get_slab h s)) in
      (true, with_map h1 (zset (slab_map h1) (slab_pages h1) (Some s)) (slab_pages h1 +w 1))
  end.

(** The loop over [slab_map] in [slab_from_ptr]. *)
Fixpoint find_slab (h : kheap) (m : list (option Z)) (page_base : Z) : option Z :=
  match m with
  | [] => None
  | Some s :: m' => if vaddr (get_slab h s) =? page_base then Some s else find_slab h m' page_base
  | None :: m' => find_slab h m' page_base
  end.

Definition slab_from_ptr (h : kheap) (ptr : Z) : option Z :=
  if ptr =? 0 then None
  else find_slab h (take (Z.to_nat (slab_pages h)) (slab_map h)) (Z.land ptr (not32 4095)).

(** Each object is put in front of the list. *)
Definition slab_init_objects (x : slab) (size : Z) : slab :=
  let n := PAGE_SIZE / size in
  Slab (foldl (fun fl i => (vaddr x +w (i *w size)) :: fl) [] (seqZ 0 n)) 0 n (vaddr x) (cache x).

(** Taking the first object of a slab. *)
Definition take_object (h : kheap) (s : Z) : option Z * kheap :=
  let x := get_slab h s in
  match freelist x with
  | [] => (None, h)
  | obj :: fl => (Some obj, set_slab h s (Slab fl (inuse x +w 1) (total x) (vaddr x) (cache x)))
  end.

Definition has_free (h : kheap) (s : Z) : bool :=
  match freelist (get_slab h s) with [] => false | _ => true end.

Definition kmem_cache_alloc (h : kheap) (c : Z) : option Z * kheap :=
  match caches h !! c with
  | None => (None, h)
  | Some ch =>
      match List.find (has_free h) (slabs ch) with
      | Some s => take_object h s
      | None =>
          match slab_alloc_meta h with
          | (None, h1) => (None, h1)
          | (Some s, h1) =>
              match slab_alloc_page (set_slab h1 s (set_cache (Some c) (get_slab h1 s))) s with
              | (false, h2) => (None, h2)
              | (true, h2) =>
                  let h3 := set_slab h2 s (slab_init_objects (get_slab h2 s) (csize ch)) in
                  let h4 := with_caches h3 (<[c := Cache (csize ch) (s :: slabs ch)]> (caches h3)) in
                  take_object h4 s
              end
          end
      end
  end.

Definition kmem_cache_free (h : kheap) (c ptr : Z) : kheap :=
  if ptr =? 0 then h else
  match slab_from_ptr h ptr with
  | None => h
  | Some s =>
      let x := get_slab h s in
      match cache x with
      | Some c' =>
          if c' =? c then
            set_slab h s (Slab (ptr :: freelist x)
              (if inuse x =? 0 then 0 else inuse x - 1) (total x) (vaddr x) (cache x))
          else h
      | None => h
      end
  end.

(** [while (bytes < size) { bytes <<= 1; order++; }]; [None] if the loop has
    not ended after [fuel] rounds. *)
Fixpoint size_to_order_loop (fuel : nat) (size bytes order : Z) : option Z :=
  match fuel with
  | O => None
  | S fuel' => if bytes <? size then size_to_order_loop fuel' size (bytes <<w 1) (order + 1)
               else Some order
  end.

(** 21 rounds are enough whenever the loop ends ([size_to_order_spec]). *)
Definition size_to_order (size : Z) : option Z := size_to_order_loop 21 size PAGE_SIZE 0.

(** [None]: the computation of the order does not end. *)
Definition kmalloc_large (h : kheap) (size : Z) : option (option Z * kheap) :=
  match size_to_order (size +w SIZEOF_LARGE_HDR) with
  | None => None
  | Some o =>
      match pg_alloc o (pages h) with
      | (None, g) => Some (None, with_gpages h g)
      | (Some phys, g) =>
          let v := phys +w PAGE_OFFSET in
          Some (Some (v +w SIZEOF_LARGE_HDR),
                with_hdrs (with_gpages h g) (<[v := Large LARGE_MAGIC o phys]> (hdrs h)))
      end
  end.

(** The first size class that is large enough. *)
Fixpoint size_class (szs : list Z) (i size : Z) : option Z :=
  match szs with
  | [] => None
  | sz :: szs' => if size <=? sz then Some i else size_class szs' (i + 1) size
  end.

Definition slab_kmalloc (h : kheap) (size : Z) : option (option Z * kheap) :=
  if size =? 0 then Some (None, h)
  else match size_class cache_sizes 0 size with
       | Some i => Some (kmem_cache_alloc h i)
       | None => kmalloc_large h size
       end.

Definition slab_kfree (h : kheap) (ptr : Z) : kheap :=
  if ptr =? 0 then h else
  let large :=
    match hdrs h !! (ptr -w SIZEOF_LARGE_HDR) with
    | None => h
    | Some hd =>
        if negb (magic hd =? LARGE_MAGIC) then h
        else with_hdrs (with_gpages h (pg_free (lphys hd) (lorder hd) (pages h)))
               (delete (ptr -w SIZEOF_LARGE_HDR) (hdrs h))
    end in
  match slab_from_ptr h ptr with
  | Some s => match cache (get_slab h s) with
              | Some c => kmem_cache_free h c ptr
              | None => large
              end
  | None => large
  end.

Definition ksize (h : kheap) (ptr : Z) : Z :=
  if ptr =? 0 then 0 else
  let large :=
    match hdrs h !! (ptr -w SIZEOF_LARGE_HDR) with
    | None => 0
    | Some hd => if negb (magic hd =? LARGE_MAGIC) then 0
                 else (PAGE_SIZE <<w lorder hd) -w SIZEOF_LARGE_HDR
    end in
  match slab_from_ptr h ptr with
  | Some s => match cache (get_slab h s) with
              | Some c => match caches h !! c with Some ch => csize ch | None => 0 end
              | None => large
              end
  | None => large
  end.

Definition kmem_cache_create (h : kheap) (size : Z) : option (option Z * kheap) :=
  match slab_kmalloc h SIZEOF_CACHE with
  | None => None
  | Some (None, h1) => Some (None, h1)
  | Some (Some p, h1) =>
      let sz := align_up size 8 in
      Some (Some p, with_caches h1 (<[p := Cache (if sz <? 4 then 4 else sz) []]> (caches h1)))
  end.

(** The first fully free slab of a cache, for [slab_reclaim_one]. *)
Definition reclaimable (h : kheap) (s : Z) : bool :=
  (inuse (get_slab h s) =? 0) && negb (vaddr (get_slab h s) =? 0).

(** [slab_map[j] = NULL] for the first entry that is [s]. *)
Fixpoint clear_map (s : Z) (n : nat) (m : list (option Z)) : list (option Z) :=
  match n, m with
  | S n', e :: m' => if decide (e = Some s) then None :: m' else e :: clear_map s n' m'
  | _, _ => m
  end.

Definition reclaim_slab (h : kheap) (c s : Z) (ch : kmem_cache) : kheap :=
  let h1 := with_caches h (<[c := Cache (csize ch) (filter (fun s' => s' <> s) (slabs ch))]> (caches h)) in
  let h2 := with_map h1 (clear_map s (Z.to_nat (slab_pages h1)) (slab_map h1)) (slab_pages h1) in
  let x := get_slab h2 s in
  let h3 := with_gpages h2 (pg_free (vaddr x -w PAGE_OFFSET) 0 (pages h2)) in
  slab_free_meta (set_slab h3 s (set_cache None (set_vaddr 0 x))) s.

Fixpoint reclaim_caches (cs : list Z) (h : kheap) : Z * kheap :=
  match cs with
  | [] => (0, h)
  | c :: cs' =>
      match caches h !! c with
      | None => reclaim_caches cs' h
      | Some ch =>
          match List.find (reclaimable h) (slabs ch) with
          | Some s => (1, reclaim_slab h c s ch)
          | None => reclaim_caches cs' h
          end
      end
  end.

Definition slab_reclaim_one (h : kheap) : Z * kheap := reclaim_caches (seqZ 0 9) h.

Definition kmem_cache_init (g : G) : kheap :=
  KHeap (replicate 4096 (Slab [] 0 0 0 None)) (seqZ 0 4096) (replicate 4096 None) 0
    (list_to_map (zip (seqZ 0 9) ((fun sz => Cache sz []) <$> cache_sizes))) ∅ g.
End slab.

(** ** Invariant *)

(** The objects of a slab page. *)
Definition objs (v size : Z) : list Z := (fun i => v + i * size) <$> seqZ 0 (4096 / size).

Section invariant.
Context {G : Type} `{!PageSource G, !PageSourceSpec G}.
Notation kheap := (kheap (G := G)).
Implicit Types h : kheap.

(** Slab [s] holds a page for cache [c]. *)
Definition used h (s c : Z) : Prop :=
  0 <= s < 4096 /\ cache (get_slab h s) = Some c /\ vaddr (get_slab h s) <> 0.

(** The page is held, and the free objects are some of its objects. *)
Definition slab_good h (x : slab) (size : Z) : Prop :=
  (exists phys, vaddr x = phys + PAGE_OFFSET /\ held (pages h) !! phys = Some 0) /\
  total x = 4096 / size /\ NoDup (freelist x) /\ (forall o, o ∈ freelist x -> o ∈ objs (vaddr x) size) /\
  inuse x = total x - zlen (freelist x).

Record kheap_ok h : Prop := KHeapOk {
  ko_len : zlen (slab_pool h) = 4096 /\ zlen (slab_map h) = 4096 /\ 0 <= slab_pages h <= 4096;
  ko_pages : pg_ok (pages h);
  ko_cache c ch : caches h !! c = Some ch -> 4 <= csize ch /\ NoDup (slabs ch) /\ forall s, s ∈ slabs ch -> used h s c;
  ko_used s c : used h s c ->
    (exists ch, caches h !! c = Some ch /\ s ∈ slabs ch /\ slab_good h (get_slab h s) (csize ch)) /\
    Some s ∈ take (Z.to_nat (slab_pages h)) (slab_map h);
  ko_free : NoDup (slab_free_list h) /\ forall s, s ∈ slab_free_list h -> 0 <= s < 4096 /\ forall c, ~ used h s c;
  ko_map s : Some s ∈ take (Z.to_nat (slab_pages h)) (slab_map h) -> exists c, used h s c;
  ko_once : NoDup (omap id (take (Z.to_nat (slab_pages h)) (slab_map h)));
  ko_dist s c s' c' : used h s c -> used h s' c' -> vaddr (get_slab h s) = vaddr (get_slab h s') -> s = s';
  ko_hdr a hd : hdrs h !! a = Some hd ->
    magic hd = LARGE_MAGIC /\ a = lphys hd + PAGE_OFFSET /\ held (pages h) !! lphys hd = Some (lorder hd) /\
    forall s c, used h s c -> vaddr (get_slab h s) <> a;
}.

(** ** The live objects *)

(** The objects of slab [s] that are not free. *)
Definition live_in h (s : Z) : list Z :=
  let x := get_slab h s in
  match cache x with
  | Some c =>
      if vaddr x =? 0 then []
      else match caches h !! c with
           | Some ch => filter (fun o => o ∉ freelist x) (objs (vaddr x) (csize ch))
           | None => []
           end
  | None => []
  end.

Definition live_set h : gset Z :=
  list_to_set (seqZ 0 4096 ≫= live_in h) ∪ set_map (fun a => a + 16) (dom (hdrs h)).

Lemma elem_of_live h p :
  p ∈ live_set h <->
  (exists s, 0 <= s < 4096 /\ p ∈ live_in h s) \/ (exists a hd, hdrs h !! a = Some hd /\ p = a + 16).
Proof.
  unfold live_set. rewrite elem_of_union, elem_of_list_to_set, list_elem_of_bind, elem_of_map.
  setoid_rewrite elem_of_seqZ. setoid_rewrite elem_of_dom. split.
  - intros [(s & H1 & H2)|(a & -> & [hd H])]; [left; exists s; split; [lia|done]|right; by exists a, hd].
  - intros [(s & H1 & H2)|(a & hd & H & ->)]; [left; exists s; split; [done|lia]|right; exists a; split; [done|by exists hd]].
Qed.

Lemma elem_of_live_in h s p :
  0 <= s < 4096 ->
  p ∈ live_in h s <-> exists c ch, used h s c /\ caches h !! c = Some ch /\
    p ∈ objs (vaddr (get_slab h s)) (csize ch) /\ p ∉ freelist (get_slab h s).
Proof.
  intros Hs. unfold live_in, used. destruct (cache (get_slab h s)) as [c|] eqn:Ec.
  2:{ split; [by intros ?%elem_of_nil|]. by intros (c & ch & (_ & ? & _) & _). }
  destruct (Z.eqb_spec (vaddr (get_slab h s)) 0).
  { split; [by intros ?%elem_of_nil|]. by intros (c' & ch & (_ & _ & ?) & _). }
  destruct (caches h !! c) as [ch|] eqn:Ech.
  2:{ split; [by intros ?%elem_of_nil|]. intros (c' & ch & (_ & [= <-] & _) & ? & _). congruence. }
  rewrite list_elem_of_filter. split.
  - intros [H1 H2]. by exists c, ch.
  - intros (c' & ch' & (_ & [= <-] & _) & ? & H1 & H2). simplify_eq. done.
Qed.

(** ** Addresses *)

Lemma elem_of_objs v size p :
  4 <= size -> p ∈ objs v size <-> exists i, 0 <= i < 4096 / size /\ p = v + i * size.
Proof.
  intros Hs. unfold objs. rewrite list_elem_of_fmap. setoid_rewrite elem_of_seqZ.
  split; intros (i & H1 & H2); exists i; split; try done; lia.
Qed.

Lemma objs_range v size p :
  4 <= size -> p ∈ objs v size -> v <= p /\ p + size <= v + 4096.
Proof.
  intros Hs (i & Hi & ->)%elem_of_objs; [|done].
  pose proof (Z.mul_div_le 4096 size ltac:(lia)). nia.
Qed.

Lemma objs_disjoint v size p q :
  4 <= size -> p ∈ objs v size -> q ∈ objs v size -> p <> q -> p + size <= q \/ q + size <= p.
Proof.
  intros Hs (i & Hi & ->)%elem_of_objs (j & Hj & ->)%elem_of_objs Hne; [|done..].
  assert (i < j \/ j < i) as [?|?] by (assert (i <> j) by (intros ->; done); lia); [left|right]; nia.
Qed.

Lemma page_base phys p :
  (4096 | phys) -> phys + PAGE_OFFSET <= p < phys + PAGE_OFFSET + 4096 -> 0 <= phys -> p < 4294967296 ->
  Z.land p (not32 4095) = phys + PAGE_OFFSET.
Proof.
  intros [k ->] Hp Hk Hu. unfold PAGE_OFFSET in *.
  rewrite (land_not32_mask _ 12) by (unfold is_u32; lia). change (2 ^ 12) with 4096.
  assert (Hm : p mod 4096 = p - (k * 4096 + 3221225472)); [|lia].
  symmetry. apply (Z.mod_unique_pos _ _ (k + 786432)); lia.
Qed.

Lemma good_range h x size :
  kheap_ok h -> slab_good h x size ->
  exists phys, vaddr x = phys + PAGE_OFFSET /\ held (pages h) !! phys = Some 0 /\
    0 < phys /\ (4096 | phys) /\ phys + 4096 <= LOWMEM.
Proof.
  intros Hok ((phys & E & Hh) & _). exists phys.
  destruct (held_range _ _ _ (ko_pages _ Hok) Hh) as (_ & ? & ? & H). change (4096 * 2 ^ 0) with 4096 in H. done.
Qed.

(** ** Finding the slab of an object *)

Lemma find_slab_spec h (m : list (option Z)) v s :
  Some s ∈ m -> vaddr (get_slab h s) = v ->
  (forall s', Some s' ∈ m -> vaddr (get_slab h s') = v -> s' = s) -> find_slab h m v = Some s.
Proof.
  intros Hin Hv Hu. induction m as [|[s0|] m IH]; [by apply elem_of_nil in Hin| |]; cbn [find_slab].
  - destruct (Z.eqb_spec (vaddr (get_slab h s0)) v) as [E|E].
    + f_equal. apply Hu; [by left|done].
    + apply IH; [|intros s' ?; apply Hu; by right]. apply elem_of_cons in Hin as [[= <-]|?]; done.
  - apply IH; [|intros s' ?; apply Hu; by right]. by apply elem_of_cons in Hin as [?|?].
Qed.

Lemma find_slab_none h (m : list (option Z)) v :
  (forall s', Some s' ∈ m -> vaddr (get_slab h s') <> v) -> find_slab h m v = None.
Proof.
  induction m as [|[s0|] m IH]; intros Hu; cbn [find_slab]; [done| |].
  - destruct (Z.eqb_spec (vaddr (get_slab h s0)) v) as [E|E]; [by destruct (Hu s0); [left|]|].
    apply IH. intros s' ?. apply Hu. by right.
  - apply IH. intros s' ?. apply Hu. by right.
Qed.

Lemma slab_of_object h s c ch p :
  kheap_ok h -> used h s c -> caches h !! c = Some ch -> p ∈ objs (vaddr (get_slab h s)) (csize ch) ->
  p <> 0 /\ slab_from_ptr h p = Some s.
Proof.
  intros Hok Hus Hc Hp. destruct (ko_used _ Hok s c Hus) as [(ch' & Hc' & _ & Hg) Hm]. simplify_eq.
  destruct (good_range h _ _ Hok Hg) as (phys & Ev & Hh & P1 & P2 & P3).
  destruct (ko_cache _ Hok c ch Hc) as [Hsz _].
  pose proof (objs_range _ _ _ Hsz Hp) as Hr. rewrite Ev in Hr. unfold PAGE_OFFSET, LOWMEM in *.
  assert (p <> 0) by lia. split; [done|]. unfold slab_from_ptr. destruct (Z.eqb_spec p 0); [done|].
  rewrite (page_base phys p) by (unfold PAGE_OFFSET; try done; lia).
  apply find_slab_spec; [done|by rewrite Ev|]. intros s' Hs' Ev'.
  destruct (ko_map _ Hok s' Hs') as [c' Hus']. apply (ko_dist _ Hok s' c' s c Hus' Hus).
  rewrite Ev', Ev. done.
Qed.

Lemma slab_of_large h a hd :
  kheap_ok h -> hdrs h !! a = Some hd ->
  a + 16 <> 0 /\ slab_from_ptr h (a + 16) = None /\ (a + 16) -w SIZEOF_LARGE_HDR = a.
Proof.
  intros Hok Ha. destruct (ko_hdr _ Hok a hd Ha) as (_ & Ea & Hh & Hne).
  destruct (held_range _ _ _ (ko_pages _ Hok) Hh) as (O1 & P1 & P2 & P3).
  assert (1 <= 2 ^ lorder hd) by (pose proof (Z.pow_pos_nonneg 2 (lorder hd)); lia).
  unfold PAGE_OFFSET, LOWMEM, SIZEOF_LARGE_HDR in *.
  split; [lia|]. split; [|rewrite sub32_id; lia]. unfold slab_from_ptr. destruct (Z.eqb_spec (a + 16) 0); [lia|].
  rewrite (page_base (lphys hd) (a + 16)) by (unfold PAGE_OFFSET; try done; lia).
  apply find_slab_none. intros s' Hs'. destruct (ko_map _ Hok s' Hs') as [c' Hus'].
  specialize (Hne s' c' Hus'). unfold PAGE_OFFSET in *. congruence.
Qed.

(** ** Taking and returning an object *)

Lemma get_set_slab h s x s' :
  zlen (slab_pool h) = 4096 -> 0 <= s < 4096 -> 0 <= s' ->
  get_slab (set_slab h s x) s' = if decide (s = s') then x else get_slab h s'.
Proof.
  intros Hl Hs Hs'. unfold get_slab, set_slab, with_pool. cbn [slab_pool]. case_decide.
  - subst. apply znth_zset_eq. lia.
  - apply znth_zset_ne; lia.
Qed.

Lemma get_slab_set h s x :
  zlen (slab_pool h) = 4096 -> 0 <= s < 4096 -> get_slab (set_slab h s x) s = x.
Proof. intros. rewrite get_set_slab by lia. by rewrite decide_True. Qed.

Lemma set_set_slab h s x y : set_slab (set_slab h s x) s y = set_slab h s y.
Proof.
  unfold set_slab, with_pool. cbn [slab_pool slab_map slab_pages slab_free_list caches hdrs pages].
  unfold zset. by rewrite list_insert_insert_eq.
Qed.

(** A change of the free list of a used slab. *)
Lemma set_slab_ok h s c ch x :
  kheap_ok h -> used h s c -> caches h !! c = Some ch ->
  vaddr x = vaddr (get_slab h s) -> cache x = cache (get_slab h s) -> slab_good h x (csize ch) ->
  kheap_ok (set_slab h s x) /\ (forall s' c', used (set_slab h s x) s' c' <-> used h s' c') /\
  (forall s', 0 <= s' -> s' <> s -> live_in (set_slab h s x) s' = live_in h s').
Proof.
  intros Hok Hus Hc Ev Ec Hg. pose proof (ko_len _ Hok) as (Hl & _). pose proof Hus as (Hs & Hus1 & Hus2).
  assert (Hget : forall s', 0 <= s' -> get_slab (set_slab h s x) s' = if decide (s = s') then x else get_slab h s')
    by (intros; by apply get_set_slab).
  assert (Hf : forall s', 0 <= s' -> vaddr (get_slab (set_slab h s x) s') = vaddr (get_slab h s') /\
    cache (get_slab (set_slab h s x) s') = cache (get_slab h s')).
  { intros s' Hs'. rewrite Hget by done. case_decide; [by subst|done]. }
  assert (Hu : forall s' c', used (set_slab h s x) s' c' <-> used h s' c').
  { intros s' c'. unfold used. split; intros (A & B & C); destruct (Hf s' ltac:(lia)) as [F1 F2];
      rewrite F1, F2 in *; done. }
  split; [|split; [done|]].
  2:{ intros s' Hs' Hne. unfold live_in. rewrite Hget by done. by rewrite decide_False by congruence. }
  destruct Hok as [K1 K2 K3 K4 K5 K6 K7 K8 K9]. split; try done.
  - cbn [set_slab with_pool slab_pool slab_map slab_pages]. by rewrite zlen_zset.
  - intros c' ch' Hc'. destruct (K3 c' ch' Hc') as (A & B & C). split_and!; try done.
    intros s' Hs'. by apply Hu, C.
  - intros s' c' Hus'. apply Hu in Hus'. destruct (K4 s' c' Hus') as [(ch' & A & B & C) D]. split; [|done].
    exists ch'. split_and!; try done. rewrite Hget by apply Hus'. case_decide as E; [|done].
    subst s'. destruct Hus' as (_ & Hus' & _). simplify_eq. done.
  - destruct K5 as [A B]. split; [done|]. intros s' Hs'. destruct (B s' Hs') as [B1 B2]. split; [done|].
    intros c'. by rewrite Hu.
  - intros s' Hs'. destruct (K6 s' Hs') as [c' ?]. exists c'. by apply Hu.
  - intros s1 c1 s2 c2. rewrite !Hu. intros A B. destruct (Hf s1 ltac:(apply A)) as [-> _], (Hf s2 ltac:(apply B)) as [-> _].
    by eapply K8.
  - intros a hd Ha. destruct (K9 a hd Ha) as (A & B & C & D). split_and!; try done.
    intros s' c'. rewrite Hu. intros Hus'. destruct (Hf s' ltac:(apply Hus')) as [-> _]. by eapply D.
Qed.

(** Where an object address can be live. *)
Lemma object_place h s c ch p :
  kheap_ok h -> used h s c -> caches h !! c = Some ch -> p ∈ objs (vaddr (get_slab h s)) (csize ch) ->
  (p ∈ live_set h <-> p ∉ freelist (get_slab h s)).
Proof.
  intros Hok Hus Hc Hp. rewrite elem_of_live. split.
  - intros [(s' & Hs' & Hl)|(a & hd & Ha & ->)].
    + apply elem_of_live_in in Hl as (c' & ch' & Hus' & Hc' & Hp' & Hn); [|done].
      destruct (slab_of_object h s c ch p Hok Hus Hc Hp) as [_ E1].
      destruct (slab_of_object h s' c' ch' p Hok Hus' Hc' Hp') as [_ E2]. by simplify_eq.
    + destruct (slab_of_object h s c ch _ Hok Hus Hc Hp) as [_ E1].
      destruct (slab_of_large h a hd Hok Ha) as (_ & E2 & _). congruence.
  - intros Hn. left. exists s. split; [apply Hus|]. apply elem_of_live_in; [apply Hus|]. by exists c, ch.
Qed.

(** An object leaves or joins the free list of its slab: the live set changes
    by that object. *)
Lemma live_change h s c ch x p :
  kheap_ok h -> used h s c -> caches h !! c = Some ch -> kheap_ok (set_slab h s x) ->
  vaddr x = vaddr (get_slab h s) -> cache x = cache (get_slab h s) ->
  p ∈ objs (vaddr (get_slab h s)) (csize ch) ->
  (forall s', 0 <= s' -> s' <> s -> live_in (set_slab h s x) s' = live_in h s') ->
  (forall q, q <> p -> q ∈ freelist x <-> q ∈ freelist (get_slab h s)) ->
  (forall q, q <> p -> q ∈ live_set (set_slab h s x) <-> q ∈ live_set h).
Proof.
  intros Hok Hus Hc Hok' Ev Ec Hp Hother Hfl q Hq. pose proof (ko_len _ Hok) as (Hl & _).
  pose proof Hus as (Hs & _).
  assert (Hget : get_slab (set_slab h s x) s = x) by (rewrite get_set_slab by lia; by rewrite decide_True).
  rewrite !elem_of_live. cbn [set_slab with_pool hdrs]. f_equiv.
  split; intros (s' & Hs' & Hin); exists s'; (split; [done|]);
    (destruct (decide (s' = s)) as [->|Hne]; [|by rewrite Hother in * by lia]).
  - apply elem_of_live_in in Hin as (c' & ch' & (U1 & U2 & U3) & Hc' & A & B); [|done].
    rewrite Hget in *. apply elem_of_live_in; [done|]. exists c', ch'. unfold used.
    rewrite Ev, Ec in *. rewrite Hfl in B by done. done.
  - apply elem_of_live_in in Hin as (c' & ch' & (U1 & U2 & U3) & Hc' & A & B); [|done].
    apply elem_of_live_in; [done|]. exists c', ch'. unfold used. rewrite Hget, Ev, Ec. rewrite Hfl by done. done.
Qed.

Lemma ksize_object h s c ch p :
  kheap_ok h -> used h s c -> caches h !! c = Some ch -> p ∈ objs (vaddr (get_slab h s)) (csize ch) ->
  ksize h p = csize ch.
Proof.
  intros Hok Hus Hc Hp. destruct (slab_of_object h s c ch p Hok Hus Hc Hp) as [Hp0 E].
  unfold ksize. destruct (Z.eqb_spec p 0); [done|]. rewrite E. destruct Hus as (_ & -> & _). by rewrite Hc.
Qed.

Lemma ksize_large h a hd :
  kheap_ok h -> hdrs h !! a = Some hd ->
  16 + ksize h (a + 16) = 4096 * 2 ^ lorder hd.
Proof.
  intros Hok Ha. destruct (slab_of_large h a hd Hok Ha) as (H1 & H2 & H3).
  destruct (ko_hdr _ Hok a hd Ha) as (Em & Ea & Hh & _).
  destruct (held_range _ _ _ (ko_pages _ Hok) Hh) as (O1 & P1 & P2 & P3).
  pose proof (Z.pow_pos_nonneg 2 (lorder hd) ltac:(lia) O1). unfold LOWMEM in *.
  unfold ksize. destruct (Z.eqb_spec (a + 16) 0); [done|]. rewrite H2, H3, Ha, Em, Z.eqb_refl. cbn [negb].
  unfold shl32, PAGE_SIZE, SIZEOF_LARGE_HDR. rewrite Z.shiftl_mul_pow2 by done.
  rewrite u32_id by (unfold is_u32; lia). rewrite sub32_id; lia.
Qed.

Lemma object_apart h s c ch p q :
  kheap_ok h -> used h s c -> caches h !! c = Some ch -> p ∈ objs (vaddr (get_slab h s)) (csize ch) ->
  q ∈ live_set h -> p <> q -> p + csize ch <= q \/ q + ksize h q <= p.
Proof.
  intros Hok Hus Hc Hp Hq Hpq.
  destruct (ko_cache _ Hok c ch Hc) as [Hsz _].
  destruct (ko_used _ Hok s c Hus) as [(ch1 & Hc1 & _ & Hg) _]. simplify_eq.
  destruct (good_range h _ _ Hok Hg) as (phys & Ev & Hh & P1 & P2 & P3).
  pose proof (objs_range _ _ _ Hsz Hp) as Hr.
  apply elem_of_live in Hq as [(s' & Hs' & Hl)|(a & hd & Ha & ->)].
  - apply elem_of_live_in in Hl as (c' & ch' & Hus' & Hc' & Hp' & _); [|done].
    rewrite (ksize_object h s' c' ch' q) by done.
    destruct (ko_cache _ Hok c' ch' Hc') as [Hsz' _].
    destruct (ko_used _ Hok s' c' Hus') as [(ch1 & Hc1' & _ & Hg') _]. simplify_eq.
    destruct (good_range h _ _ Hok Hg') as (phys' & Ev' & Hh' & _).
    pose proof (objs_range _ _ _ Hsz' Hp') as Hr'.
    destruct (decide (s = s')) as [<-|Hne].
    + destruct Hus' as (_ & Hus' & _), Hus as (_ & Hus & _). simplify_eq. by apply (objs_disjoint (vaddr (get_slab h s))).
    + assert (phys <> phys') by (intros ->; apply Hne; eapply (ko_dist _ Hok); [done|done|congruence]).
      destruct (held_disjoint _ _ _ _ _ (ko_pages _ Hok) Hh Hh') as [D|D]; [done| |];
        change (4096 * 2 ^ 0) with 4096 in D; lia.
  - pose proof (ksize_large h a hd Hok Ha). destruct (ko_hdr _ Hok a hd Ha) as (_ & Ea & Hh' & Hne).
    assert (phys <> lphys hd) by (intros ->; apply (Hne s c Hus); congruence).
    destruct (held_disjoint _ _ _ _ _ (ko_pages _ Hok) Hh Hh') as [D|D]; [done| |];
      change (4096 * 2 ^ 0) with 4096 in D; lia.
Qed.

Lemma live_address h p : kheap_ok h -> p ∈ live_set h -> 0 < p < 4294967296.
Proof.
  intros Hok [(s & Hs & Hl)|(a & hd & Ha & ->)]%elem_of_live.
  - apply elem_of_live_in in Hl as (c & ch & U & Hc & Ho & _); [|done].
    destruct (ko_cache _ Hok c ch Hc) as [Hsz _].
    destruct (ko_used _ Hok s c U) as [(ch1 & Hc1 & _ & Hg) _]. simplify_eq.
    destruct (good_range h _ _ Hok Hg) as (phys & Ev & _ & P1 & _ & P3).
    pose proof (objs_range _ _ _ Hsz Ho). unfold PAGE_OFFSET, LOWMEM in *. lia.
  - destruct (ko_hdr _ Hok a hd Ha) as (_ & Ea & Hh & _).
    destruct (held_range _ _ _ (ko_pages _ Hok) Hh) as (O1 & P1 & P2 & P3).
    pose proof (Z.pow_pos_nonneg 2 (lorder hd) ltac:(lia) O1). unfold PAGE_OFFSET, LOWMEM in *. lia.
Qed.

(** The regions of two live objects do not overlap. *)
Lemma live_disjoint h p q :
  kheap_ok h -> p ∈ live_set h -> q ∈ live_set h -> p <> q ->
  p + ksize h p <= q \/ q + ksize h q <= p.
Proof.
  intros Hok Hp Hq Hpq. pose proof Hp as [(s & Hs & Hl)|(a & hd & Ha & ->)]%elem_of_live.
  { apply elem_of_live_in in Hl as (c & ch & U & Hc & Ho & _); [|done].
    rewrite (ksize_object h s c ch p) by done. by apply (object_apart h s c ch). }
  pose proof Hq as [(s & Hs & Hl)|(a' & hd' & Ha' & ->)]%elem_of_live.
  { apply elem_of_live_in in Hl as (c & ch & U & Hc & Ho & _); [|done].
    rewrite (ksize_object h s c ch q) by done. apply or_comm. by apply (object_apart h s c ch). }
  pose proof (ksize_large h a hd Hok Ha). pose proof (ksize_large h a' hd' Hok Ha').
  destruct (ko_hdr _ Hok a hd Ha) as (_ & Ea & Hh & _), (ko_hdr _ Hok a' hd' Ha') as (_ & Ea' & Hh' & _).
  destruct (held_disjoint _ _ _ _ _ (ko_pages _ Hok) Hh Hh') as [D|D]; [congruence|lia|lia].
Qed.

(** ** Later heaps *)

(** [h'] has every slab and every large block of [h]. *)
Definition grows h h' : Prop :=
  (forall s c ch, used h s c -> caches h !! c = Some ch ->
    used h' s c /\ vaddr (get_slab h' s) = vaddr (get_slab h s) /\
    exists ch', caches h' !! c = Some ch' /\ csize ch' = csize ch) /\
  hdrs h ⊆ hdrs h'.

#[export] Instance grows_preorder : PreOrder grows.
Proof.
  split; [intros h; split; [by eauto|done]|]. intros h1 h2 h3 [A1 B1] [A2 B2]. split; [|by transitivity (hdrs h2)].
  intros s c ch U Hc. destruct (A1 s c ch U Hc) as (U2 & E2 & ch2 & Hc2 & Es2).
  destruct (A2 s c ch2 U2 Hc2) as (U3 & E3 & ch3 & Hc3 & Es3).
  split; [done|]. split; [congruence|]. exists ch3. split; [done|congruence].
Qed.

Lemma grows_ksize h h' q :
  kheap_ok h -> kheap_ok h' -> grows h h' -> q ∈ live_set h -> ksize h' q = ksize h q.
Proof.
  intros Hok Hok' [A B] [(s & Hs & Hl)|(a & hd & Ha & ->)]%elem_of_live.
  - apply elem_of_live_in in Hl as (c & ch & U & Hc & Ho & _); [|done].
    destruct (A s c ch U Hc) as (U2 & E2 & ch2 & Hc2 & Es2). rewrite (ksize_object h s c ch q) by done.
    rewrite <- Es2. apply (ksize_object h' s c ch2 q); try done. by rewrite E2, Es2.
  - pose proof (lookup_weaken _ _ _ _ Ha B) as Ha'.
    pose proof (ksize_large h a hd Hok Ha). pose proof (ksize_large h' a hd Hok' Ha'). lia.
Qed.

(** ** Allocating from a slab with a free object *)

Lemma length_objs v size : 4 <= size -> zlen (objs v size) = 4096 / size.
Proof.
  intros Hs. unfold zlen, objs. rewrite length_fmap, length_seqZ.
  pose proof (Z.div_pos 4096 size). lia.
Qed.

Lemma free_objects_le h x size :
  4 <= size -> slab_good h x size -> zlen (freelist x) <= 4096 / size <= 1024.
Proof.
  intros Hs (_ & _ & Hnd & Hin & _). rewrite <- (length_objs (vaddr x) size) at 1 by done. split.
  - unfold zlen. apply inj_le, submseteq_length, NoDup_submseteq; done.
  - apply Z.div_le_upper_bound; lia.
Qed.

Lemma take_object_ok h s c ch p h' :
  kheap_ok h -> used h s c -> caches h !! c = Some ch -> take_object h s = (Some p, h') ->
  kheap_ok h' /\ p <> 0 /\ (p ∉ live_set h) /\ live_set h' = {[p]} ∪ live_set h /\
  grows h h' /\ ksize h' p = csize ch.
Proof.
  intros Hok Hus Hc E. unfold take_object in E. destruct (freelist (get_slab h s)) as [|o fl] eqn:Ef; [done|].
  injection E as -> <-. set (x := Slab fl _ _ _ _).
  destruct (ko_cache _ Hok c ch Hc) as [Hsz _].
  destruct (ko_used _ Hok s c Hus) as [(ch0 & Hc1 & _ & Hg) _]. simplify_eq.
  pose proof (free_objects_le h _ _ Hsz Hg) as Hle. pose proof (ko_len _ Hok) as (Hl & _).
  destruct Hg as (G1 & G2 & G3 & G4 & G5). rewrite Ef in *.
  assert (Hp : p ∈ objs (vaddr (get_slab h s)) (csize ch)) by (apply G4; by left).
  apply NoDup_cons in G3 as [Hpf Hnd]. unfold zlen in *. cbn [length] in *.
  assert (Hg : slab_good h x (csize ch)).
  { unfold slab_good, x, zlen. cbn [vaddr total freelist inuse]. split_and!; try done.
    - intros q Hq. apply G4. by right.
    - rewrite add32_id; lia. }
  destruct (set_slab_ok h s c ch x) as (K1 & K2 & K3); try done.
  assert (Hnl : p ∉ live_set h) by (rewrite (object_place h s c ch p) by done; rewrite Ef; set_solver).
  assert (Hget : get_slab (set_slab h s x) s = x)
    by (rewrite get_set_slab by (unfold zlen in *; try apply Hus; lia); by rewrite decide_True).
  assert (Hp' : p ∈ objs (vaddr (get_slab (set_slab h s x) s)) (csize ch)) by (by rewrite Hget).
  split; [done|]. split; [apply (slab_of_object h s c ch p); done|]. split; [done|]. split; [|split].
  - apply set_eq. intros q. rewrite elem_of_union, elem_of_singleton. destruct (decide (q = p)) as [->|Hq].
    + rewrite (object_place (set_slab h s x) s c ch p), Hget by (try done; by apply K2). tauto.
    + rewrite (live_change h s c ch x p) by (try done; rewrite Ef; set_solver). tauto.
  - split; [|done]. intros s' c' ch' U Hc'. split; [by apply K2|]. split; [|by exists ch'].
    rewrite get_set_slab by (unfold zlen in *; try apply U; try apply Hus; lia). case_decide; [by subst|done].
  - apply (ksize_object _ s c); try done. by apply K2.
Qed.

(** ** Taking a descriptor and a page *)

(** Descriptor [s] leaves the free list and gets the contents [x]. *)
Definition take_meta h (s : Z) (rest : list Z) (x : slab) (g : G) : kheap :=
  with_gpages (set_slab (with_free_list h rest) s x) g.

Lemma get_take_meta h s rest x g s' :
  kheap_ok h -> slab_free_list h = s :: rest -> 0 <= s' ->
  get_slab (take_meta h s rest x g) s' = if decide (s = s') then x else get_slab h s'.
Proof.
  intros Hok Hf Hs'. destruct (ko_free _ Hok) as [_ Hfr]. rewrite Hf in Hfr.
  destruct (Hfr s ltac:(by left)) as [Hs _].
  apply (get_set_slab (with_free_list h rest)); [apply (ko_len _ Hok)|lia|lia].
Qed.

(** The page could not be allocated: the descriptor is lost. *)
Lemma lost_meta_ok h s rest c g :
  kheap_ok h -> slab_free_list h = s :: rest -> pg_ok g -> held g = held (pages h) ->
  let h' := take_meta h s rest (Slab [] 0 0 0 (Some c)) g in
  kheap_ok h' /\ live_set h' = live_set h.
Proof.
  intros Hok Hf Hg Hh h'. pose proof (ko_free _ Hok) as [Hnd Hfr]. rewrite Hf in Hnd, Hfr.
  destruct (Hfr s ltac:(by left)) as [Hs Hns]. apply NoDup_cons in Hnd as [Hsr Hnd].
  assert (Hget : forall s', 0 <= s' -> get_slab h' s' = if decide (s = s') then Slab [] 0 0 0 (Some c) else get_slab h s')
    by (intros; by apply get_take_meta).
  assert (Hu : forall s' c', used h' s' c' <-> used h s' c').
  { intros s' c'. split; intros U; pose proof U as (A & B & C); rewrite ?Hget in B, C by lia.
    - case_decide; [done|done].
    - unfold used. rewrite Hget by lia. rewrite decide_False by (intros <-; by apply (Hns c')). done. }
  assert (Hd : forall s' c', used h s' c' -> get_slab h' s' = get_slab h s').
  { intros s' c' U. rewrite Hget by apply U. rewrite decide_False by (intros <-; by apply (Hns c')). done. }
  split.
  - destruct Hok as [K1 K2 K3 K4 K5 K6 K7 K8 K9]. split; try done.
    + cbn [h' take_meta set_slab with_pool with_gpages with_free_list slab_pool slab_map slab_pages].
      by rewrite zlen_zset.
    + intros c' ch' Hc'. destruct (K3 c' ch' Hc') as (A & B & C). split_and!; try done.
      intros s' Hs'. by apply Hu, C.
    + intros s' c' U. apply Hu in U. destruct (K4 s' c' U) as [(ch' & A & B & C) D]. split; [|done].
      exists ch'. split_and!; try done. rewrite (Hd s' c') by done. unfold slab_good in *.
      cbn [h' take_meta with_gpages pages]. by rewrite Hh.
    + split; [done|]. intros s' Hs'. destruct (Hfr s' ltac:(by right)) as [B1 B2]. split; [done|].
      intros c'. by rewrite Hu.
    + intros s' Hs'. destruct (K6 s' Hs') as [c' ?]. exists c'. by apply Hu.
    + intros s1 c1 s2 c2. rewrite !Hu. intros A B. rewrite (Hd s1 c1), (Hd s2 c2) by done. by eapply K8.
    + intros a hd Ha. destruct (K9 a hd Ha) as (A & B & C & D). split_and!; try done.
      * cbn [h' take_meta with_gpages pages]. by rewrite Hh.
      * intros s' c'. rewrite Hu. intros U. rewrite (Hd s' c') by done. by eapply D.
  - apply set_eq. intros q. rewrite !elem_of_live.
    change (hdrs h') with (hdrs h). f_equiv.
    split; intros (s' & Hs' & Hin); exists s'; (split; [done|]);
      apply elem_of_live_in in Hin as (c' & ch' & U & Hc' & A & B); try done;
      apply elem_of_live_in; try done; exists c', ch'.
    + pose proof U as U'. apply Hu in U. rewrite (Hd s' c') in A, B by done. done.
    + rewrite (Hd s' c') by done. split; [by apply Hu|]. done.
Qed.

Lemma slab_init_objects_eq x size phys :
  4 <= size -> vaddr x = phys + PAGE_OFFSET -> 0 < phys -> phys + 4096 <= LOWMEM ->
  slab_init_objects x size = Slab (reverse (objs (vaddr x) size)) 0 (4096 / size) (vaddr x) (cache x).
Proof.
  intros Hs Hv P1 P2. unfold slab_init_objects, PAGE_SIZE. f_equal.
  unfold objs. assert (Hb : forall i, i ∈ seqZ 0 (4096 / size) -> 0 <= i * size /\ i * size + size <= 4096).
  { intros i Hi%elem_of_seqZ. pose proof (Z.mul_div_le 4096 size ltac:(lia)). nia. }
  revert Hb. rewrite <- (app_nil_r (reverse _)). generalize (@nil Z) at 1 2 as acc.
  generalize (seqZ 0 (4096 / size)) as l. unfold PAGE_OFFSET, LOWMEM in *.
  induction l as [|i l IH]; intros acc Hb; [done|]. cbn [foldl fmap list_fmap]. rewrite IH by set_solver.
  rewrite reverse_cons, <- app_assoc. cbn [app]. destruct (Hb i ltac:(by left)).
  rewrite mul32_id, add32_id by lia. done.
Qed.

Lemma NoDup_objs v size : 4 <= size -> NoDup (objs v size).
Proof.
  intros Hs. unfold objs. apply NoDup_fmap_2; [|apply NoDup_seqZ]. intros i j E. nia.
Qed.

Lemma take_zset_last {A} (m : list A) n x :
  0 <= n < zlen m -> take (Z.to_nat (n + 1)) (zset m n x) = take (Z.to_nat n) m ++ [x].
Proof.
  intros Hn. unfold zset, zlen in *. replace (Z.to_nat (n + 1)) with (S (Z.to_nat n)) by lia.
  rewrite (take_S_r _ _ x) by (apply list_lookup_insert_eq; lia). f_equal. by rewrite take_insert_ge by lia.
Qed.

(** The heap after a new slab for cache [c] was made of descriptor [s] and the
    page [phys]. *)
Definition add_slab h (s : Z) (rest : list Z) (c : Z) (ch : kmem_cache) (phys : Z) (g : G) : kheap :=
  let v := phys + PAGE_OFFSET in
  let x := Slab (reverse (objs v (csize ch))) 0 (4096 / csize ch) v (Some c) in
  with_caches
    (with_map (take_meta h s rest x g) (zset (slab_map h) (slab_pages h) (Some s)) (slab_pages h + 1))
    (<[c := Cache (csize ch) (s :: slabs ch)]> (caches h)).

Section add.
Context (h : kheap) (s : Z) (rest : list Z) (c : Z) (ch : kmem_cache) (phys : Z) (g : G).
Context (Hok : kheap_ok h) (Hf : slab_free_list h = s :: rest) (Hc : caches h !! c = Some ch).
Context (Hn : slab_pages h < 4096) (Ha : pg_alloc 0 (pages h) = (Some phys, g)).
Let h' := add_slab h s rest c ch phys g.

Lemma add_facts :
  0 <= s < 4096 /\ (forall c', ~ used h s c') /\ pg_ok g /\ held (pages h) !! phys = None /\
  held g = <[phys := 0]> (held (pages h)) /\ 0 < phys /\ phys + 4096 <= LOWMEM.
Proof.
  destruct (ko_free _ Hok) as [_ Hfr]. rewrite Hf in Hfr. destruct (Hfr s ltac:(by left)) as [Hs Hns].
  destruct (pg_alloc_some 0 (pages h) phys g (ko_pages _ Hok) ltac:(lia) Ha) as (A & B & C).
  destruct (held_range g phys 0 A) as (_ & R1 & _ & R2); [rewrite C; by simplify_map_eq|].
  change (4096 * 2 ^ 0) with 4096 in R2. done.
Qed.

Lemma add_get s' :
  0 <= s' -> get_slab h' s' =
  if decide (s = s') then
    Slab (reverse (objs (phys + PAGE_OFFSET) (csize ch))) 0 (4096 / csize ch) (phys + PAGE_OFFSET) (Some c)
  else get_slab h s'.
Proof. intros Hs'. unfold h', add_slab. by apply get_take_meta. Qed.

Lemma add_old s' c' : used h s' c' -> s <> s' /\ get_slab h' s' = get_slab h s' /\
  vaddr (get_slab h s') <> phys + PAGE_OFFSET.
Proof.
  intros U. destruct add_facts as (Hs & Hns & _ & Hp & _).
  assert (s <> s') by (intros <-; by apply (Hns c')). split; [done|]. rewrite add_get by apply U.
  rewrite decide_False by done. split; [done|]. intros E.
  destruct (ko_used _ Hok s' c' U) as [(ch' & _ & _ & Hg) _]. destruct Hg as ((phys' & E' & Hh) & _).
  assert (phys' = phys) by lia. congruence.
Qed.

Lemma add_used s' c' : used h' s' c' <-> used h s' c' \/ (s' = s /\ c' = c).
Proof.
  destruct add_facts as (Hs & _ & _ & _ & _ & P1 & _). split.
  - intros (A & B & C). rewrite add_get in B, C by lia. case_decide.
    + cbn [cache] in B. simplify_eq. by right.
    + left. done.
  - intros [U|[-> ->]]; unfold used.
    + destruct (add_old s' c' U) as (_ & -> & _). done.
    + rewrite add_get, decide_True by lia. cbn [cache vaddr]. unfold PAGE_OFFSET. split_and!; [lia|lia|done|lia].
Qed.

Lemma add_take :
  take (Z.to_nat (slab_pages h')) (slab_map h') = take (Z.to_nat (slab_pages h)) (slab_map h) ++ [Some s].
Proof. apply take_zset_last. destruct (ko_len _ Hok) as (_ & -> & ?). lia. Qed.

Lemma add_good x size : slab_good h x size -> slab_good h' x size.
Proof.
  destruct add_facts as (_ & _ & _ & Hp & Hh & _). intros ((ph & E & Hd) & R). split; [|done].
  exists ph. split; [done|]. change (pages h') with g. rewrite Hh, lookup_insert_ne; [done|]. congruence.
Qed.

Lemma add_new_good : slab_good h' (get_slab h' s) (csize ch).
Proof.
  destruct (ko_cache _ Hok c ch Hc) as [Hsz _]. destruct add_facts as (Hs & _ & _ & Hp & Hh & _).
  rewrite add_get, decide_True by lia. split_and!; cbn [vaddr total freelist inuse].
  - exists phys. split; [done|]. change (pages h') with g. rewrite Hh. by simplify_map_eq.
  - done.
  - rewrite reverse_Permutation. apply NoDup_objs, Hsz.
  - intros o. by rewrite elem_of_reverse.
  - unfold zlen. rewrite length_reverse. fold (zlen (objs (phys + PAGE_OFFSET) (csize ch))).
    rewrite length_objs by done. lia.
Qed.

Lemma add_caches c' ch' :
  caches h' !! c' = Some ch' ->
  (c' = c /\ ch' = Cache (csize ch) (s :: slabs ch)) \/ (c' <> c /\ caches h !! c' = Some ch').
Proof. change (caches h') with (<[c:=Cache (csize ch) (s :: slabs ch)]> (caches h)).
  destruct (decide (c' = c)) as [->|]; intros E; simplify_map_eq; auto. Qed.

Lemma add_slab_ok : kheap_ok h'.
Proof.
  destruct add_facts as (Hs & Hns & Hg & Hp & Hh & P1 & P2).
  destruct (ko_free _ Hok) as [Hnd Hfr]. rewrite Hf in Hnd, Hfr. apply NoDup_cons in Hnd as [Hsr Hnd].
  pose proof Hok as [K1 K2 K3 K4 K5 K6 K7 K8 K9]. split; try done.
  - change (slab_map h') with (zset (slab_map h) (slab_pages h) (Some s)).
    change (slab_pages h') with (slab_pages h + 1). unfold h'.
    cbn [add_slab take_meta set_slab with_pool with_caches with_map with_gpages with_free_list slab_pool].
    rewrite !zlen_zset. lia.
  - intros c' ch' [[-> ->]|[Hne Hc']]%add_caches; cbn [csize slabs].
    + destruct (K3 c ch Hc) as (A & B & C). split; [done|]. split.
      * apply NoDup_cons. split; [|done]. intros Hin. by apply (Hns c), C.
      * intros s' [->|Hs']%elem_of_cons; apply add_used; [by right|left; by apply C].
    + destruct (K3 c' ch' Hc') as (A & B & C). split_and!; try done. intros s' Hs'. apply add_used. left. by apply C.
  - intros s' c' [U|[-> ->]]%add_used; rewrite add_take.
    + destruct (K4 s' c' U) as [(ch' & A & B & C) D]. split; [|apply elem_of_app; by left].
      destruct (add_old s' c' U) as (_ & -> & _). change (caches h') with (<[c:=Cache (csize ch) (s :: slabs ch)]> (caches h)).
      destruct (decide (c' = c)) as [->|Hne]; simplify_map_eq.
      * eexists. split; [done|]. cbn [slabs csize]. split; [by right|by apply add_good].
      * exists ch'. split_and!; try done. by apply add_good.
    + split; [|apply elem_of_app; right; by left].
      exists (Cache (csize ch) (s :: slabs ch)). change (caches h') with (<[c:=Cache (csize ch) (s :: slabs ch)]> (caches h)).
      split; [by simplify_map_eq|]. split; [by left|apply add_new_good].
  - split; [done|]. intros s' Hs'. destruct (Hfr s' ltac:(by right)) as [B1 B2]. split; [done|].
    intros c' [U|[-> _]]%add_used; [by apply (B2 c')|done].
  - intros s'. rewrite add_take. intros [Hin|Hin%list_elem_of_singleton]%elem_of_app.
    + destruct (K6 s' Hin) as [c' ?]. exists c'. apply add_used. by left.
    + injection Hin as ->. exists c. apply add_used. by right.
  - rewrite add_take, omap_app. cbn [omap list_omap]. apply NoDup_app. split; [done|]. cbn [id]. split; [|apply NoDup_singleton].
    intros s' Hs' ->%list_elem_of_singleton. apply list_elem_of_omap in Hs' as (e & He & E).
    destruct e; [|done]. cbn [id] in E. simplify_eq. destruct (K6 s He) as [c' U]. by apply (Hns c').
  - assert (Hnew : vaddr (get_slab h' s) = phys + PAGE_OFFSET) by (by rewrite add_get, decide_True by lia).
    intros s1 c1 s2 c2 [U1|[-> ->]]%add_used [U2|[-> ->]]%add_used; [..|done].
    + destruct (add_old s1 c1 U1) as (_ & -> & _), (add_old s2 c2 U2) as (_ & -> & _). by eapply K8.
    + destruct (add_old s1 c1 U1) as (_ & -> & Hv). rewrite Hnew. done.
    + destruct (add_old s2 c2 U2) as (_ & -> & Hv). rewrite Hnew. by intros E.
  - intros a hd E. destruct (K9 a hd E) as (A & B & C & D). split_and!; try done.
    + change (pages h') with g. rewrite Hh, lookup_insert_ne; [done|]. congruence.
    + intros s' c' [U|[-> ->]]%add_used.
      * destruct (add_old s' c' U) as (_ & -> & _). by eapply D.
      * rewrite add_get, decide_True by lia. cbn [vaddr]. intros <-.
        assert (lphys hd = phys) by lia. congruence.
Qed.

Lemma add_slab_live q : q ∈ live_set h' <-> q ∈ live_set h.
Proof.
  destruct add_facts as (Hs & Hns & _). rewrite !elem_of_live. change (hdrs h') with (hdrs h). f_equiv.
  split; intros (s' & Hs' & Hin); exists s'; (split; [done|]);
    apply elem_of_live_in in Hin as (c' & ch' & U & Hc' & A & B); try done; apply elem_of_live_in; try done.
  - apply add_used in U as [U|[-> ->]].
    + destruct (add_old s' c' U) as (_ & E & _). rewrite E in *. destruct (add_caches c' ch' Hc') as [[-> ->]|[? ?]].
      * by exists c, ch.
      * by exists c', ch'.
    + destruct B. rewrite add_get in * by lia. rewrite decide_True in * by done. cbn [freelist vaddr] in *.
      apply elem_of_reverse. destruct (add_caches c ch' Hc') as [[_ ->]|[? ?]]; done.
  - destruct (add_old s' c' U) as (_ & E & _). rewrite E in *.
    assert (U' : used h' s' c') by (apply add_used; by left).
    change (caches h') with (<[c:=Cache (csize ch) (s :: slabs ch)]> (caches h)).
    destruct (decide (c' = c)) as [->|Hne]; simplify_map_eq.
    + eexists c, _. split; [done|]. split; [by simplify_map_eq|done].
    + exists c', ch'. simplify_map_eq. done.
Qed.

Lemma add_grows : grows h h'.
Proof.
  split; [|done]. intros s' c' ch' U Hc'. destruct (add_old s' c' U) as (_ & -> & _).
  split; [apply add_used; by left|]. split; [done|].
  change (caches h') with (<[c:=Cache (csize ch) (s :: slabs ch)]> (caches h)).
  destruct (decide (c' = c)) as [->|Hne]; simplify_map_eq; [|by exists ch'].
  eexists. split; [by simplify_map_eq|done].
Qed.
End add.

(** ** The allocation functions *)

(** What an allocation of [n] bytes promises. *)
Definition alloc_post h (n : Z) (r : option Z * kheap) : Prop :=
  let '(o, h') := r in
  kheap_ok h' /\
  match o with
  | None => live_set h' = live_set h /\ forall q, q ∈ live_set h -> ksize h' q = ksize h q
  | Some p => p <> 0 /\ (p ∉ live_set h) /\ live_set h' = {[p]} ∪ live_set h /\ n <= ksize h' p /\
              forall q, q ∈ live_set h -> ksize h' q = ksize h q
  end.

Lemma find_free h ch s :
  List.find (has_free h) (slabs ch) = Some s -> s ∈ slabs ch /\ freelist (get_slab h s) <> [].
Proof.
  intros [Hin Hb]%List.find_some. rewrite list_elem_of_In. split; [done|]. unfold has_free in Hb.
  by destruct (freelist (get_slab h s)).
Qed.

(** A new slab: the heap before its first object is taken. *)
Lemma alloc_new_slab h c ch s rest phys g :
  kheap_ok h -> caches h !! c = Some ch -> slab_free_list h = s :: rest -> slab_pages h < 4096 ->
  pg_alloc 0 (pages h) = (Some phys, g) ->
  (let h1 := snd (slab_alloc_meta h) in
   let h2 := snd (slab_alloc_page (set_slab h1 s (set_cache (Some c) (get_slab h1 s))) s) in
   let h3 := set_slab h2 s (slab_init_objects (get_slab h2 s) (csize ch)) in
   with_caches h3 (<[c := Cache (csize ch) (s :: slabs ch)]> (caches h3))) = add_slab h s rest c ch phys g.
Proof.
  intros Hok Hc Hf Hn Ha. destruct (add_facts h s rest phys g Hok Hf Ha) as (Hs & _ & _ & _ & _ & P1 & P2).
  destruct (ko_cache _ Hok c ch Hc) as [Hsz _]. destruct (ko_len _ Hok) as (Hl & _ & Hp).
  destruct h as [pool fl mp np cs hs pg]. cbn [slab_pool slab_free_list slab_pages pages] in *. subst fl.
  unfold slab_alloc_meta. cbn [slab_free_list snd].
  rewrite (get_slab_set (KHeap pool rest mp np cs hs pg)) by done.
  rewrite (set_set_slab (KHeap pool rest mp np cs hs pg)).
  unfold slab_alloc_page.
  cbv [set_slab with_pool with_gpages with_free_list with_map with_caches slab_pool slab_map slab_pages slab_free_list caches hdrs pages].
  unfold SLAB_MAX_PAGES. destruct (Z.leb_spec 4096 np); [lia|]. rewrite Ha. cbn [snd].
  unfold get_slab. cbn [slab_pool]. unfold zset, znth.
  rewrite !list_lookup_total_insert_eq by (rewrite ?length_insert; unfold zlen in *; lia).
  rewrite !list_insert_insert_eq.
  cbv [set_cache set_vaddr freelist inuse total vaddr cache].
  unfold PAGE_OFFSET, LOWMEM in *. rewrite !add32_id by lia.
  rewrite (slab_init_objects_eq _ _ phys) by (unfold PAGE_OFFSET, LOWMEM; cbn [vaddr]; lia || done). done.
Qed.

Lemma take_object_post h s c ch n :
  kheap_ok h -> used h s c -> caches h !! c = Some ch -> n <= csize ch ->
  alloc_post h n (take_object h s).
Proof.
  intros Hok U Hc Hn. destruct (take_object h s) as [[p|] h'] eqn:E; cbn [alloc_post].
  - destruct (take_object_ok h s c ch p h') as (A & B & C & D & F & K); try done.
    split_and!; try done; [lia|]. intros q Hq. by apply grows_ksize.
  - unfold take_object in E. destruct (freelist (get_slab h s)); [|done]. by injection E as <-.
Qed.

Lemma alloc_post_grows h h1 n r :
  kheap_ok h -> kheap_ok h1 -> grows h h1 -> live_set h1 = live_set h -> alloc_post h1 n r -> alloc_post h n r.
Proof.
  intros Hok Hok1 Hg Hl. destruct r as [[p|] h']; cbn [alloc_post]; rewrite Hl.
  - intros (A & B & C & D & F & K). split_and!; try done. intros q Hq. rewrite K by done. by apply grows_ksize.
  - intros (A & B & K). split_and!; try done. intros q Hq. rewrite K by done. by apply grows_ksize.
Qed.

(** A heap with the same slabs and headers. *)
Lemma lost_meta_grows h s rest c g :
  kheap_ok h -> slab_free_list h = s :: rest -> grows h (take_meta h s rest (Slab [] 0 0 0 (Some c)) g).
Proof.
  intros Hok Hf. split; [|done]. intros s' c' ch' U Hc'. destruct (ko_free _ Hok) as [_ Hfr]. rewrite Hf in Hfr.
  destruct (Hfr s ltac:(by left)) as [Hs Hns]. unfold used.
  rewrite get_take_meta by (try done; apply U). rewrite decide_False by (intros <-; by apply (Hns c')).
  split; [done|]. split; [done|]. by exists ch'.
Qed.

Lemma same_pages_ok h g :
  kheap_ok h -> pg_ok g -> held g = held (pages h) ->
  kheap_ok (with_gpages h g) /\ live_set (with_gpages h g) = live_set h /\ grows h (with_gpages h g).
Proof.
  intros Hok Hg Hh. split; [|split; [apply set_eq; intros q; by rewrite !elem_of_live|]].
  - destruct Hok as [K1 K2 K3 K4 K5 K6 K7 K8 K9]. split; try done.
    + intros s c U. destruct (K4 s c U) as [(ch & A & B & C) D]. split; [|done]. exists ch. split_and!; try done.
      unfold slab_good in *. cbn [with_gpages pages]. by rewrite Hh.
    + intros a hd Ha. destruct (K9 a hd Ha) as (A & B & C & D). split_and!; try done.
      cbn [with_gpages pages]. by rewrite Hh.
  - split; [|done]. intros s c ch U Hc. split; [done|]. split; [done|]. by exists ch.
Qed.

Lemma kmem_cache_alloc_post h c ch n :
  kheap_ok h -> caches h !! c = Some ch -> n <= csize ch -> alloc_post h n (kmem_cache_alloc h c).
Proof.
  intros Hok Hc Hn. unfold kmem_cache_alloc. rewrite Hc.
  destruct (ko_cache _ Hok c ch Hc) as (Hsz & _ & Hin). destruct (ko_len _ Hok) as (Hl & _ & Hp).
  destruct (List.find (has_free h) (slabs ch)) as [s|] eqn:Efind.
  { apply find_free in Efind as [Hs _]. apply (take_object_post h s c ch); auto. }
  destruct (slab_free_list h) as [|s rest] eqn:Hf.
  { unfold slab_alloc_meta. rewrite Hf. done. }
  pose proof (alloc_new_slab h c ch s rest) as Hnew. destruct (ko_free _ Hok) as [_ Hfr]. rewrite Hf in Hfr.
  destruct (Hfr s ltac:(by left)) as [Hs _].
  unfold slab_alloc_meta in *. rewrite Hf in *. cbn [snd] in Hnew.
  rewrite (get_slab_set (with_free_list h rest)), (set_set_slab (with_free_list h rest)) in * by done.
  assert (Hlost : forall g, pg_ok g -> held g = held (pages h) ->
    alloc_post h n (None, take_meta h s rest (Slab [] 0 0 0 (Some c)) g)).
  { intros g Hg Hh. destruct (lost_meta_ok h s rest c g) as [A B]; try done. cbn [alloc_post]. split_and!; try done.
    intros q Hq. apply grows_ksize; try done. by apply lost_meta_grows. }
  destruct (slab_alloc_page _ s) as [[] h2] eqn:Epage; cbn [snd] in *;
    unfold slab_alloc_page in Epage; cbn [set_slab with_pool with_free_list slab_pages pages] in Epage;
    unfold SLAB_MAX_PAGES in Epage; destruct (Z.leb_spec 4096 (slab_pages h)); try done.
  2:{ injection Epage as <-. apply (Hlost (pages h)); [apply (ko_pages _ Hok)|done]. }
  - destruct (pg_alloc 0 (pages h)) as [[phys|] g] eqn:Ea; [|done].
    rewrite (Hnew phys g) by done.
    assert (Hok' : kheap_ok (add_slab h s rest c ch phys g)) by (by apply add_slab_ok).
    apply (alloc_post_grows h (add_slab h s rest c ch phys g)); try done.
    + by apply add_grows.
    + apply set_eq. intros q. by apply add_slab_live.
    + apply (take_object_post _ s c (Cache (csize ch) (s :: slabs ch))); try done.
      * apply add_used; auto.
      * cbn [add_slab with_caches caches]. by simplify_map_eq.
  - destruct (pg_alloc 0 (pages h)) as [[phys|] g] eqn:Ea; [done|]. injection Epage as <-.
    destruct (pg_alloc_none 0 (pages h) g (ko_pages _ Hok) Ea) as [? ?]. by apply Hlost.
Qed.

(** ** Large blocks *)

Lemma size_to_order_loop_spec fuel size o :
  0 <= o <= 19 -> (20 - o <= Z.of_nat fuel) -> size <= 2147483648 -> (o = 0 \/ 4096 * 2 ^ (o - 1) < size) ->
  exists o', size_to_order_loop fuel size (4096 * 2 ^ o) o = Some o' /\ 0 <= o' <= 19 /\
    size <= 4096 * 2 ^ o' /\ (o' = 0 \/ 4096 * 2 ^ (o' - 1) < size).
Proof.
  revert o. induction fuel as [|fuel IH]; intros o Ho Hf Hs Hlow; [lia|]. cbn [size_to_order_loop].
  destruct (Z.ltb_spec (4096 * 2 ^ o) size); [|by exists o].
  assert (Hb : 4096 * 2 ^ o < 2147483648) by lia.
  assert (o < 19) by (destruct (decide (o = 19)) as [->|]; [cbn in Hb|]; lia).
  assert (Hd : 4096 * 2 ^ o <<w 1 = 4096 * 2 ^ (o + 1)).
  { unfold shl32. rewrite Z.shiftl_mul_pow2, Z.pow_add_r by lia. rewrite u32_id; [lia|].
    pose proof (Z.pow_pos_nonneg 2 o). unfold is_u32. lia. }
  rewrite Hd. apply IH; [lia..|]. right. replace (o + 1 - 1) with o by lia. done.
Qed.

Lemma size_to_order_spec size :
  size <= 2147483648 ->
  exists o, size_to_order size = Some o /\ 0 <= o <= 19 /\ size <= 4096 * 2 ^ o /\
    (o = 0 \/ 4096 * 2 ^ (o - 1) < size).
Proof. intros. by apply (size_to_order_loop_spec 21 size 0); [lia..|left]. Qed.

Lemma size_to_order_zero fuel size o : 0 < size -> size_to_order_loop fuel size 0 o = None.
Proof.
  intros Hs. revert o. induction fuel as [|fuel IH]; intros o; [done|]. cbn [size_to_order_loop].
  destruct (Z.ltb_spec 0 size); [|lia]. change (0 <<w 1) with 0. apply IH.
Qed.

Lemma size_to_order_diverges_from fuel size o k :
  2147483648 < size -> (k <= 19)%nat ->
  size_to_order_loop fuel size (4096 * 2 ^ (19 - Z.of_nat k)) o = None.
Proof.
  intros Hs. revert o k. induction fuel as [|fuel IH]; intros o k Hk; [done|]. cbn [size_to_order_loop].
  assert (Hb : 2 ^ (19 - Z.of_nat k) <= 2 ^ 19) by (apply Z.pow_le_mono_r; lia). change (2 ^ 19) with 524288 in Hb.
  destruct (Z.ltb_spec (4096 * 2 ^ (19 - Z.of_nat k)) size); [|lia]. destruct k as [|k].
  - change (4096 * 2 ^ (19 - Z.of_nat 0) <<w 1) with 0. apply size_to_order_zero. lia.
  - replace (4096 * 2 ^ (19 - Z.of_nat (S k)) <<w 1) with (4096 * 2 ^ (19 - Z.of_nat k)); [apply IH; lia|].
    unfold shl32. replace (19 - Z.of_nat k) with (19 - Z.of_nat (S k) + 1) by lia.
    rewrite Z.shiftl_mul_pow2, Z.pow_add_r by lia.
    assert (2 ^ (19 - Z.of_nat (S k)) <= 2 ^ 18) by (apply Z.pow_le_mono_r; lia).
    pose proof (Z.pow_pos_nonneg 2 (19 - Z.of_nat (S k))). rewrite u32_id; [lia|].
    unfold is_u32. change (2 ^ 18) with 262144 in *. lia.
Qed.

Lemma kmalloc_large_post h size o :
  kheap_ok h -> size_to_order (size +w SIZEOF_LARGE_HDR) = Some o -> 0 <= o ->
  exists r, kmalloc_large h size = Some r /\ alloc_post h (4096 * 2 ^ o - 16) r.
Proof.
  intros Hok Eo Ho. unfold kmalloc_large. rewrite Eo.
  destruct (pg_alloc o (pages h)) as [[phys|] g] eqn:Ea.
  2:{ eexists. split; [done|]. destruct (pg_alloc_none o (pages h) g (ko_pages _ Hok) Ea) as [Hg Hh].
      destruct (same_pages_ok h g Hok Hg Hh) as (A & B & C). cbn [alloc_post]. split_and!; try done.
      intros q Hq. by apply grows_ksize. }
  eexists. split; [done|].
  destruct (pg_alloc_some o (pages h) phys g (ko_pages _ Hok) Ho Ea) as (Hg & Hn & Hh).
  destruct (held_range g phys o Hg) as (_ & P1 & P2 & P3); [rewrite Hh; by simplify_map_eq|].
  pose proof (Z.pow_pos_nonneg 2 o ltac:(lia) Ho) as Hpow. unfold PAGE_OFFSET, SIZEOF_LARGE_HDR, LOWMEM in *.
  rewrite (add32_id phys) by lia. rewrite (add32_id (phys + 3221225472)) by lia.
  set (v := phys + 3221225472). set (hd := Large LARGE_MAGIC o phys).
  set (h' := with_hdrs (with_gpages h g) (<[v:=hd]> (hdrs h))).
  assert (Hv : hdrs h !! v = None).
  { destruct (hdrs h !! v) as [hd'|] eqn:E; [|done]. destruct (ko_hdr _ Hok v hd' E) as (_ & A & B & _).
    assert (lphys hd' = phys) by (unfold v, PAGE_OFFSET in A; lia). congruence. }
  assert (Hnv : forall s c, used h s c -> vaddr (get_slab h s) <> v).
  { intros s c U E. destruct (ko_used _ Hok s c U) as [(ch & _ & _ & (phys' & E' & Hh') & _) _].
    assert (phys' = phys) by (unfold v, PAGE_OFFSET in *; lia). congruence. }
  assert (Hold : forall a x, held (pages h) !! a = Some x -> held g !! a = Some x)
    by (intros a x E; rewrite Hh, lookup_insert_ne; [done|congruence]).
  assert (Hok' : kheap_ok h').
  { pose proof Hok as [K1 K2 K3 K4 K5 K6 K7 K8 K9]. split; try done.
    - intros s c U. destruct (K4 s c U) as [(ch & A & B & (ph & C1 & C2) & C) D]. split; [|done].
      exists ch. split_and!; try done. split; [|done]. exists ph. split; [done|]. by apply Hold.
    - intros a hd'. change (hdrs h') with (<[v:=hd]> (hdrs h)). destruct (decide (a = v)) as [->|Hne]; intros E; simplify_map_eq.
      + split_and!; try done. change (pages h') with g. rewrite Hh. by simplify_map_eq.
      + destruct (K9 a hd' E) as (A & B & C & D). split_and!; try done. by apply Hold. }
  assert (Hgr : grows h h').
  { split; [|by apply insert_subseteq]. intros s c ch U Hc. split; [done|]. split; [done|]. by exists ch. }
  assert (Hlv : hdrs h' !! v = Some hd) by (apply lookup_insert_eq).
  cbn [alloc_post]. split; [done|]. split; [lia|]. split; [|split; [|split]].
  - rewrite elem_of_live. intros [(s & Hs & Hl)|(a & hd' & E & E')].
    + apply elem_of_live_in in Hl as (c & ch & U & Hc & Hp & _); [|done].
      destruct (slab_of_object h' s c ch (v + 16)) as [_ A]; [done|done|done|done|].
      destruct (slab_of_large h' v hd Hok' Hlv) as (_ & B & _). congruence.
    + assert (a = v) by lia. congruence.
  - apply set_eq. intros q. rewrite elem_of_union, elem_of_singleton, !elem_of_live.
    change (hdrs h') with (<[v:=hd]> (hdrs h)). split.
    + intros [Hq|(a & hd' & E & ->)]; [right; by left|]. destruct (decide (a = v)) as [->|Hne]; [by left|].
      right. right. exists a, hd'. by simplify_map_eq.
    + intros [->|[Hq|(a & hd' & E & ->)]]; [right; exists v, hd; by simplify_map_eq|by left|].
      right. exists a, hd'. split; [|done]. rewrite lookup_insert_ne; [done|congruence].
  - pose proof (ksize_large h' v hd Hok' Hlv). cbn [hd lorder] in *. lia.
  - intros q Hq. by apply grows_ksize.
Qed.

Lemma size_class_spec size i : size_class cache_sizes 0 size = Some i ->
  exists sz, cache_sizes !! Z.to_nat i = Some sz /\ 0 <= i < 9 /\ size <= sz.
Proof.
  cbn [cache_sizes size_class]. intros E. bcase_in E; simplify_eq; by eexists.
Qed.

Lemma size_class_large size : size_class cache_sizes 0 size = None <-> 2048 < size.
Proof. cbn [cache_sizes size_class]. bcase; split; try done; lia. Qed.

(** The caches of [kmalloc] exist and have their sizes. *)
Definition builtin_ok h : Prop :=
  forall i, 0 <= i < 9 -> exists ch, caches h !! i = Some ch /\ cache_sizes !! Z.to_nat i = Some (csize ch).

Lemma slab_kmalloc_post h size :
  kheap_ok h -> builtin_ok h -> 0 < size <= 2147483632 ->
  exists r, slab_kmalloc h size = Some r /\ alloc_post h size r.
Proof.
  intros Hok Hb Hs. unfold slab_kmalloc. destruct (Z.eqb_spec size 0); [lia|].
  destruct (size_class cache_sizes 0 size) as [i|] eqn:Ei.
  - apply size_class_spec in Ei as (sz & E1 & Hi & Hsz). destruct (Hb i Hi) as (ch & Hc & E2).
    eexists. split; [done|]. apply (kmem_cache_alloc_post h i ch); try done. congruence.
  - apply size_class_large in Ei. destruct (size_to_order_spec (size +w SIZEOF_LARGE_HDR)) as (o & Eo & Ho & Hle & _).
    { unfold SIZEOF_LARGE_HDR. rewrite add32_id; lia. }
    destruct (kmalloc_large_post h size o Hok Eo) as (r & E & P); [lia|]. exists r. split; [done|].
    unfold SIZEOF_LARGE_HDR in Hle. rewrite add32_id in Hle by lia. destruct r as [[p|] h']; cbn [alloc_post] in *; [|done].
    destruct P as (A & B & C & D & F & K). split_and!; try done. lia.
Qed.

(** ** Freeing *)

(** What freeing [p] promises. *)
Definition free_post h (p : Z) h' : Prop :=
  kheap_ok h' /\ live_set h' = live_set h ∖ {[p]} /\
  forall q, q ∈ live_set h -> q <> p -> ksize h' q = ksize h q.

Lemma kfree_object h s c ch p :
  kheap_ok h -> used h s c -> caches h !! c = Some ch -> p ∈ objs (vaddr (get_slab h s)) (csize ch) ->
  (p ∉ freelist (get_slab h s)) -> free_post h p (slab_kfree h p).
Proof.
  intros Hok U Hc Hp Hnf. destruct (slab_of_object h s c ch p Hok U Hc Hp) as [Hp0 Es].
  unfold slab_kfree, kmem_cache_free. destruct (Z.eqb_spec p 0); [done|]. rewrite Es.
  pose proof U as (Hs & Ec & _). rewrite Ec, Z.eqb_refl.
  set (x := Slab (p :: _) _ _ _ _). destruct (ko_cache _ Hok c ch Hc) as [Hsz _].
  destruct (ko_used _ Hok s c U) as [(ch0 & Hc1 & _ & Hg) _]. simplify_eq.
  pose proof (ko_len _ Hok) as (Hl & _).
  assert (Hx : slab_good h x (csize ch)).
  { pose proof Hg as (G1 & G2 & G3 & G4 & G5). unfold slab_good, x. cbn [vaddr total freelist inuse].
    assert (Hnd : NoDup (p :: freelist (get_slab h s))) by (by apply NoDup_cons).
    assert (Hsub : forall o, o ∈ p :: freelist (get_slab h s) -> o ∈ objs (vaddr (get_slab h s)) (csize ch))
      by (intros o [->|Ho]%elem_of_cons; auto).
    split_and!; try done.
    assert (Hle : zlen (p :: freelist (get_slab h s)) <= 4096 / csize ch).
    { rewrite <- (length_objs (vaddr (get_slab h s)) (csize ch)) by done. unfold zlen.
      by apply inj_le, submseteq_length, NoDup_submseteq. }
    unfold zlen in *. cbn [length] in *. destruct (Z.eqb_spec (inuse (get_slab h s)) 0); lia. }
  destruct (set_slab_ok h s c ch x) as (K1 & K2 & K3); try done.
  assert (Hget : get_slab (set_slab h s x) s = x) by (by apply get_slab_set).
  split; [done|]. split.
  - apply set_eq. intros q. rewrite elem_of_difference, elem_of_singleton. destruct (decide (q = p)) as [->|Hq].
    + rewrite (object_place (set_slab h s x) s c ch p); rewrite ?Hget; try done; [|by apply K2].
      cbn [x freelist]. split; [intros []; by left|tauto].
    + rewrite (live_change h s c ch x p); try done; [tauto|].
      intros q' Hq'. cbn [x freelist]. rewrite elem_of_cons. tauto.
  - intros q Hq _. apply grows_ksize; try done. split; [|done]. intros s' c' ch' U' Hc'.
    split; [by apply K2|]. split; [|by exists ch'].
    rewrite get_set_slab by (try done; apply U'). case_decide; [by subst|done].
Qed.

Lemma kfree_large h a hd :
  kheap_ok h -> hdrs h !! a = Some hd -> free_post h (a + 16) (slab_kfree h (a + 16)).
Proof.
  intros Hok Ha. destruct (slab_of_large h a hd Hok Ha) as (Hp0 & Es & Ew).
  unfold slab_kfree. destruct (Z.eqb_spec (a + 16) 0); [done|]. rewrite Es, Ew, Ha.
  destruct (ko_hdr _ Hok a hd Ha) as (Em & Ea & Hh & Hne). rewrite Em, Z.eqb_refl. cbn [negb].
  destruct (pg_free_held (lphys hd) (lorder hd) (pages h) (ko_pages _ Hok) Hh) as [Hg Hh'].
  set (g := pg_free _ _ _) in *. set (h' := with_hdrs (with_gpages h g) (delete a (hdrs h))).
  assert (Hok' : kheap_ok h').
  { pose proof Hok as [K1 K2 K3 K4 K5 K6 K7 K8 K9]. split; try done.
    - intros s c U. destruct (K4 s c U) as [(ch & A & B & (ph & C1 & C2) & C) D]. split; [|done].
      exists ch. split_and!; try done. split; [|done]. exists ph. split; [done|].
      change (pages h') with g. rewrite Hh', lookup_delete_ne; [done|]. intros <-. apply (Hne s c U). congruence.
    - intros a' hd'. change (hdrs h') with (delete a (hdrs h)). intros [Hne' E]%lookup_delete_Some.
      destruct (K9 a' hd' E) as (A & B & C & D). split_and!; try done.
      change (pages h') with g. rewrite Hh', lookup_delete_ne; [done|]. congruence. }
  split; [done|]. split.
  - apply set_eq. intros q. rewrite elem_of_difference, elem_of_singleton, !elem_of_live.
    change (hdrs h') with (delete a (hdrs h)). split.
    + intros [(s & Hs & Hl)|(a' & hd' & [Hne' E]%lookup_delete_Some & ->)].
      * split; [left; by exists s|]. intros ->.
        apply elem_of_live_in in Hl as (c & ch & U & Hc & Hp & _); [|done].
        destruct (slab_of_object h s c ch (a + 16)) as [_ A]; [done..|congruence].
      * split; [right; by exists a', hd'|lia].
    + intros [[Hl|(a' & hd' & E & ->)] Hq]; [by left|]. right. exists a', hd'. split; [|done].
      rewrite lookup_delete_ne; [done|]. intros <-. done.
  - intros q Hq Hqa. apply elem_of_live in Hq as [(s & Hs & Hl)|(a' & hd' & E & ->)].
    + apply elem_of_live_in in Hl as (c & ch & U & Hc & Hp & _); [|done].
      rewrite (ksize_object h s c ch q), (ksize_object h' s c ch q); done.
    + assert (E' : hdrs h' !! a' = Some hd').
      { change (hdrs h') with (delete a (hdrs h)). rewrite lookup_delete_ne; [done|]. intros <-. done. }
      pose proof (ksize_large h a' hd' Hok E). pose proof (ksize_large h' a' hd' Hok' E'). lia.
Qed.

Lemma slab_kfree_post h p :
  kheap_ok h -> p ∈ live_set h -> free_post h p (slab_kfree h p).
Proof.
  intros Hok [(s & Hs & Hl)|(a & hd & Ha & ->)]%elem_of_live; [|by eapply kfree_large].
  apply elem_of_live_in in Hl as (c & ch & U & Hc & Ho & Hf); [|done]. by apply (kfree_object h s c ch).
Qed.

(** ** Reclaim *)

Lemma clear_map_elem s n (m : list (option Z)) s' :
  NoDup (omap id (take n m)) ->
  Some s' ∈ take n (clear_map s n m) <-> Some s' ∈ take n m /\ s' <> s.
Proof.
  revert m. induction n as [|n IH]; intros m; [set_solver|]. destruct m as [|e m]; [set_solver|].
  cbn [take clear_map]. destruct e as [e|]; cbn [omap list_omap id].
  - intros [Hn Hnd]%NoDup_cons. case_decide as E; cbn [take].
    + injection E as ->. rewrite !elem_of_cons. split.
      * intros [?|Hin]; [done|]. split; [by right|]. intros ->. apply Hn. apply list_elem_of_omap. by exists (Some s).
      * intros [[[= ->]|Hin] Hne]; [done|by right].
    + rewrite !elem_of_cons, IH by done. split; [intros [[= ->]|[? ?]]; split; auto; congruence|].
      intros [[?|?] ?]; auto.
  - intros Hnd. rewrite decide_False by done. cbn [take]. rewrite !elem_of_cons, IH by done.
    split; [by intros [?|[? ?]]; auto|]. by intros [[?|?] ?]; auto.
Qed.

Lemma clear_map_nodup s n (m : list (option Z)) :
  NoDup (omap id (take n m)) -> NoDup (omap id (take n (clear_map s n m))).
Proof.
  revert m. induction n as [|n IH]; intros m; [done|]. destruct m as [|e m]; [done|].
  cbn [take clear_map]. intros Hnd. case_decide as E; cbn [take omap list_omap].
  - subst e. cbn [omap list_omap id] in Hnd. by apply NoDup_cons in Hnd as [_ ?].
  - destruct e as [e|]; cbn [omap list_omap id] in *; [|by apply IH]. apply NoDup_cons in Hnd as [Hn Hnd].
    apply NoDup_cons. split; [|by apply IH]. rewrite list_elem_of_omap. intros (x & Hx & Ex). destruct x; [|done].
    cbn [id] in Ex. simplify_eq. apply (clear_map_elem s n m e) in Hx as [Hx _]; [|done].
    apply Hn. apply list_elem_of_omap. by exists (Some e).
Qed.

Lemma clear_map_length s n (m : list (option Z)) : zlen (clear_map s n m) = zlen m.
Proof.
  unfold zlen. f_equal. revert m. induction n as [|n IH]; intros [|e m]; cbn [clear_map]; try done.
  case_decide; cbn [length]; [done|]. by rewrite IH.
Qed.

Section reclaim.
Context (h : kheap) (c s : Z) (ch : kmem_cache).
Context (Hok : kheap_ok h) (Hc : caches h !! c = Some ch) (Hin : s ∈ slabs ch) (Hz : inuse (get_slab h s) = 0).
Let h' := reclaim_slab h c s ch.

Lemma rec_used : used h s c.
Proof. destruct (ko_cache _ Hok c ch Hc) as (_ & _ & A). by apply A. Qed.

Lemma rec_page : exists phys, vaddr (get_slab h s) = phys + PAGE_OFFSET /\ held (pages h) !! phys = Some 0 /\
  pages h' = pg_free phys 0 (pages h) /\ pg_ok (pages h') /\ held (pages h') = delete phys (held (pages h)).
Proof.
  destruct (ko_used _ Hok s c rec_used) as [(ch0 & Hc0 & _ & Hg) _]. simplify_eq.
  destruct (good_range h _ _ Hok Hg) as (phys & E & Hh & P1 & P2 & P3). exists phys. split; [done|]. split; [done|].
  assert (Ep : pages h' = pg_free phys 0 (pages h)).
  { unfold h', reclaim_slab. cbn [slab_free_meta with_free_list set_slab with_pool with_gpages with_map with_caches pages].
    f_equal. change (get_slab _ s) with (get_slab h s). rewrite E. unfold PAGE_OFFSET, LOWMEM in *.
    rewrite sub32_id; lia. }
  split; [done|]. rewrite Ep. by apply pg_free_held; [apply (ko_pages _ Hok)|].
Qed.

Lemma rec_get s' : 0 <= s' -> get_slab h' s' =
  if decide (s = s') then set_cache None (set_vaddr 0 (get_slab h s)) else get_slab h s'.
Proof.
  intros Hs'. pose proof rec_used as (Hs & _). destruct (ko_len _ Hok) as (Hl & _).
  apply (get_set_slab h s _ s' Hl Hs Hs').
Qed.

Lemma rec_gone s' c' : used h' s' c' <-> used h s' c' /\ s' <> s.
Proof.
  split.
  - intros (A & B & C). rewrite rec_get in B, C by lia. case_decide; [by cbn in C|]. by split.
  - intros [U Hne]. unfold used. rewrite rec_get by apply U. by rewrite decide_False.
Qed.

Lemma rec_same s' : 0 <= s' -> s' <> s -> get_slab h' s' = get_slab h s'.
Proof. intros. rewrite rec_get by done. by rewrite decide_False. Qed.

Lemma rec_map s' :
  Some s' ∈ take (Z.to_nat (slab_pages h')) (slab_map h') <->
  Some s' ∈ take (Z.to_nat (slab_pages h)) (slab_map h) /\ s' <> s.
Proof. apply (clear_map_elem s (Z.to_nat (slab_pages h)) (slab_map h)). apply (ko_once _ Hok). Qed.

Lemma rec_caches c' ch' :
  caches h' !! c' = Some ch' ->
  (c' = c /\ ch' = Cache (csize ch) (filter (fun s' => s' <> s) (slabs ch))) \/ (c' <> c /\ caches h !! c' = Some ch').
Proof.
  change (caches h') with (<[c:=Cache (csize ch) (filter (fun s' => s' <> s) (slabs ch))]> (caches h)).
  destruct (decide (c' = c)) as [->|]; intros E; simplify_map_eq; auto.
Qed.

Lemma rec_cache_of s' c' ch' :
  caches h !! c' = Some ch' -> s' ∈ slabs ch' -> s' <> s ->
  exists ch2, caches h' !! c' = Some ch2 /\ csize ch2 = csize ch' /\ s' ∈ slabs ch2.
Proof.
  intros A B C. change (caches h') with (<[c:=Cache (csize ch) (filter (fun s' => s' <> s) (slabs ch))]> (caches h)).
  destruct (decide (c' = c)) as [->|]; simplify_map_eq; [|by exists ch'].
  eexists. split; [done|]. cbn [csize slabs]. split; [done|]. by apply list_elem_of_filter.
Qed.

Lemma rec_good s' c' x size : used h s' c' -> s' <> s -> x = get_slab h s' -> slab_good h x size -> slab_good h' x size.
Proof.
  intros U Hne -> ((ph & E & Hd) & R). split; [|done]. exists ph. split; [done|].
  destruct rec_page as (phys & E2 & Hh & _ & _ & ->). rewrite lookup_delete_ne; [done|]. intros ->.
  apply Hne. apply (ko_dist _ Hok s' c' s c U rec_used). congruence.
Qed.

Lemma reclaim_slab_ok : kheap_ok h'.
Proof.
  pose proof rec_used as U. pose proof U as (Hs & _). destruct rec_page as (phys & Ev & Hph & Ep & Hg & Hh).
  pose proof Hok as [K1 K2 K3 K4 K5 K6 K7 K8 K9]. split.
  - change (slab_map h') with (clear_map s (Z.to_nat (slab_pages h)) (slab_map h)). rewrite clear_map_length.
    unfold h', reclaim_slab. cbn [slab_free_meta with_free_list set_slab with_pool slab_pool slab_pages with_gpages with_map with_caches].
    rewrite zlen_zset. done.
  - done.
  - intros c' ch' [[-> ->]|[Hne Hc']]%rec_caches; cbn [csize slabs].
    + destruct (K3 c ch Hc) as (A & B & C). split; [done|]. split; [by apply NoDup_filter|].
      intros s' [Hne Hs']%list_elem_of_filter. apply rec_gone. split; [by apply C|done].
    + destruct (K3 c' ch' Hc') as (A & B & C). split_and!; try done. intros s' Hs'. apply rec_gone.
      split; [by apply C|]. intros ->. destruct (C s Hs') as (_ & E & _), U as (_ & E' & _). congruence.
  - intros s' c' [U' Hne]%rec_gone. destruct (K4 s' c' U') as [(ch' & A & B & C) D].
    split; [|by apply rec_map]. destruct (rec_cache_of s' c' ch' A B Hne) as (ch2 & A2 & E2 & B2).
    exists ch2. split_and!; try done. rewrite rec_same by (try done; apply U'). rewrite E2. by apply (rec_good s' c').
  - destruct K5 as [A B]. change (slab_free_list h') with (s :: slab_free_list h). split.
    + apply NoDup_cons. split; [|done]. intros Hs'. by apply (B s Hs') in U.
    + intros s' [->|Hs']%elem_of_cons; [split; [done|]; by intros c' [_ ?]%rec_gone|].
      destruct (B s' Hs') as [B1 B2]. split; [done|]. intros c' [U' _]%rec_gone. by apply (B2 c').
  - intros s' [Hm Hne]%rec_map. destruct (K6 s' Hm) as [c' U']. exists c'. by apply rec_gone.
  - by apply clear_map_nodup.
  - intros s1 c1 s2 c2 [U1 N1]%rec_gone [U2 N2]%rec_gone. rewrite !rec_same by (try done; apply U1 || apply U2). by eapply K8.
  - intros a hd E. change (hdrs h') with (hdrs h) in E. destruct (K9 a hd E) as (A & B & C & D). split_and!; try done.
    + rewrite Hh, lookup_delete_ne; [done|]. intros ->. apply (D s c U). congruence.
    + intros s' c' [U' Hne]%rec_gone. rewrite rec_same by (try done; apply U'). by eapply D.
Qed.

(** A slab with no object in use has no live object. *)
Lemma rec_empty : live_in h s = [].
Proof.
  destruct (live_in h s) as [|p l] eqn:E; [done|]. exfalso.
  assert (Hp : p ∈ live_in h s) by (rewrite E; by left). pose proof rec_used as U.
  apply elem_of_live_in in Hp as (c' & ch' & U' & Hc' & Ho & Hf); [|apply U].
  destruct (ko_used _ Hok s c' U') as [(ch0 & Hc0 & _ & Hg) _]. simplify_eq.
  destruct (ko_cache _ Hok c' ch' Hc') as [Hsz _]. destruct Hg as (G1 & G2 & G3 & G4 & G5).
  assert (Hle : zlen (p :: freelist (get_slab h s)) <= 4096 / csize ch').
  { rewrite <- (length_objs (vaddr (get_slab h s)) (csize ch')) by done. unfold zlen.
    apply inj_le, submseteq_length, NoDup_submseteq; [by apply NoDup_cons|].
    intros o [->|?]%elem_of_cons; auto. }
  unfold zlen in *. cbn [length] in Hle. lia.
Qed.

Lemma reclaim_slab_live : live_set h' = live_set h /\ forall q, q ∈ live_set h -> ksize h' q = ksize h q.
Proof.
  pose proof reclaim_slab_ok as Hok'. split.
  - apply set_eq. intros q. rewrite !elem_of_live. change (hdrs h') with (hdrs h). f_equiv.
    split; intros (s' & Hs' & Hl); exists s'; (split; [done|]).
    + apply elem_of_live_in in Hl as (c' & ch' & [U Hne]%rec_gone & Hc' & A & B); [|done].
      rewrite rec_same in A, B by (try done; lia). apply elem_of_live_in; [done|].
      destruct (rec_caches c' ch' Hc') as [[-> ->]|[? ?]]; [by exists c, ch|by exists c', ch'].
    + assert (Hne : s' <> s) by (intros ->; rewrite rec_empty in Hl; by apply elem_of_nil in Hl).
      apply elem_of_live_in in Hl as (c' & ch' & U & Hc' & A & B); [|done]. apply elem_of_live_in; [done|].
      destruct (ko_used _ Hok s' c' U) as [(ch0 & Hc0 & Hi & _) _]. simplify_eq.
      destruct (rec_cache_of s' c' ch' Hc' Hi Hne) as (ch2 & A2 & E2 & B2). exists c', ch2.
      rewrite rec_same by (try done; lia). rewrite E2. split; [by apply rec_gone|done].
  - intros q [(s' & Hs' & Hl)|(a & hd & Ha & ->)]%elem_of_live.
    + assert (Hne : s' <> s) by (intros ->; rewrite rec_empty in Hl; by apply elem_of_nil in Hl).
      apply elem_of_live_in in Hl as (c' & ch' & U & Hc' & A & B); [|done].
      destruct (ko_used _ Hok s' c' U) as [(ch0 & Hc0 & Hi & _) _]. simplify_eq.
      destruct (rec_cache_of s' c' ch' Hc' Hi Hne) as (ch2 & A2 & E2 & B2).
      rewrite (ksize_object h s' c' ch' q) by done. rewrite <- E2. apply (ksize_object h' s' c' ch2 q); try done.
      * by apply rec_gone.
      * rewrite rec_same by (try done; lia). by rewrite E2.
    + pose proof (ksize_large h a hd Hok Ha). pose proof (ksize_large h' a hd Hok' Ha). lia.
Qed.
End reclaim.

Lemma reclaim_caches_post cs h r h' :
  kheap_ok h -> reclaim_caches cs h = (r, h') ->
  kheap_ok h' /\ live_set h' = live_set h /\ (forall q, q ∈ live_set h -> ksize h' q = ksize h q) /\
  ((r = 0 /\ h' = h /\ forall c ch s, c ∈ cs -> caches h !! c = Some ch -> s ∈ slabs ch -> inuse (get_slab h s) <> 0) \/
   (r = 1 /\ zlen (slab_free_list h') = zlen (slab_free_list h) + 1 /\
    exists phys, held (pages h) !! phys = Some 0 /\ held (pages h') = delete phys (held (pages h)))).
Proof.
  intros Hok. induction cs as [|c cs IH]; cbn [reclaim_caches]; intros E.
  { injection E as <- <-. split_and!; try done. left. split_and!; try done. intros c ch s Hin. by apply elem_of_nil in Hin. }
  destruct (caches h !! c) as [ch|] eqn:Hc.
  2:{ destruct (IH E) as (A & B & C & [(D1 & D2 & D3)|D]); split_and!; try done; [left|by right].
      split_and!; try done. intros c' ch' s [->|Hin]%elem_of_cons Hc'; [congruence|by eapply D3]. }
  destruct (List.find (reclaimable h) (slabs ch)) as [s|] eqn:Ef.
  - injection E as <- <-. apply List.find_some in Ef as [Hin%list_elem_of_In Hr].
    unfold reclaimable in Hr. apply andb_prop in Hr as [Hz%Z.eqb_eq _].
    split; [by apply reclaim_slab_ok|]. destruct (reclaim_slab_live h c s ch Hok Hc Hin Hz) as [A B].
    split; [done|]. split; [done|]. right. split; [done|]. split.
    { unfold zlen. change (slab_free_list (reclaim_slab h c s ch)) with (s :: slab_free_list h). cbn [length]. lia. }
    destruct (rec_page h c s ch Hok Hc Hin) as (phys & _ & P & _ & _ & Q). by exists phys.
  - destruct (IH E) as (A & B & C & [(D1 & D2 & D3)|D]); split_and!; try done; [left|by right].
    split_and!; try done. intros c' ch' s [->|Hin]%elem_of_cons Hc' Hs; [|by eapply D3].
    simplify_eq. intros Hz. apply list_elem_of_In in Hs. pose proof (List.find_none _ _ Ef s Hs) as F.
    unfold reclaimable in F. rewrite Hz, Z.eqb_refl in F. cbn [andb] in F.
    apply negb_false_iff, Z.eqb_eq in F. apply list_elem_of_In in Hs.
    destruct (ko_cache _ Hok c ch Hc) as (_ & _ & Hus). destruct (Hus s Hs) as (_ & _ & ?). done.
Qed.

(** ** The whole allocator *)

Definition kheap_inv h : Prop := kheap_ok h /\ builtin_ok h.

(** The caches keep their sizes. *)
Definition same_sizes h h' : Prop :=
  forall c ch, caches h !! c = Some ch -> exists ch', caches h' !! c = Some ch' /\ csize ch' = csize ch.

Lemma same_sizes_builtin h h' : same_sizes h h' -> builtin_ok h -> builtin_ok h'.
Proof.
  intros Hs Hb i Hi. destruct (Hb i Hi) as (ch & Hc & E). destruct (Hs i ch Hc) as (ch' & Hc' & E').
  exists ch'. by rewrite E'.
Qed.

Lemma same_sizes_eq h h' : caches h' = caches h -> same_sizes h h'.
Proof. intros E c ch Hc. exists ch. by rewrite E. Qed.

Lemma same_sizes_insert h h' c ch l :
  caches h !! c = Some ch -> caches h' = <[c := Cache (csize ch) l]> (caches h) -> same_sizes h h'.
Proof.
  intros Hc E c' ch' Hc'. rewrite E. destruct (decide (c = c')) as [<-|Hne]; simplify_map_eq; eauto.
Qed.

Lemma take_object_caches h s : caches (snd (take_object h s)) = caches h.
Proof. unfold take_object. by destruct (freelist (get_slab h s)). Qed.

Lemma slab_alloc_page_caches h s : caches (snd (slab_alloc_page h s)) = caches h.
Proof.
  unfold slab_alloc_page. destruct (_ <=? _); [done|]. by destruct (pg_alloc 0 (pages h)) as [[phys|] g].
Qed.

Lemma kmem_cache_alloc_sizes h c : same_sizes h (snd (kmem_cache_alloc h c)).
Proof.
  unfold kmem_cache_alloc. destruct (caches h !! c) as [ch|] eqn:Hc; [|by apply same_sizes_eq].
  destruct (List.find (has_free h) (slabs ch)) as [s|]; [apply same_sizes_eq, take_object_caches|].
  unfold slab_alloc_meta. destruct (slab_free_list h) as [|s rest]; [by apply same_sizes_eq|].
  set (h1 := set_slab (set_slab _ _ _) _ _). pose proof (slab_alloc_page_caches h1 s) as E.
  destruct (slab_alloc_page h1 s) as [[] h2]; cbn [snd] in *; [|by apply same_sizes_eq].
  eapply same_sizes_insert; [done|]. rewrite take_object_caches. cbn [set_slab with_pool with_caches caches].
  rewrite E. done.
Qed.

Lemma slab_kmalloc_sizes h size r : slab_kmalloc h size = Some r -> same_sizes h (snd r).
Proof.
  unfold slab_kmalloc, kmalloc_large. intros E. destruct (size =? 0); [simplify_eq; by apply same_sizes_eq|].
  destruct (size_class cache_sizes 0 size); [simplify_eq; apply kmem_cache_alloc_sizes|].
  destruct (size_to_order _) as [o|]; [|done].
  destruct (pg_alloc o (pages h)) as [[phys|] g]; simplify_eq; by apply same_sizes_eq.
Qed.

Lemma slab_kfree_caches h p : caches (slab_kfree h p) = caches h.
Proof.
  unfold slab_kfree, kmem_cache_free. repeat first [case_match | done].
Qed.

Lemma reclaim_caches_sizes cs h : same_sizes h (snd (reclaim_caches cs h)).
Proof.
  induction cs as [|c cs IH]; cbn [reclaim_caches]; [by apply same_sizes_eq|].
  destruct (caches h !! c) as [ch|] eqn:Hc; [|done].
  destruct (List.find (reclaimable h) (slabs ch)) as [s|]; [|done]. by eapply same_sizes_insert.
Qed.


(** C23: [kfree] of a live object removes exactly that object; the others stay
    live with their sizes, so nothing else is freed or handed out twice. *)
Theorem slab_kfree_correct h p :
  kheap_inv h -> p ∈ live_set h ->
  kheap_inv (slab_kfree h p) /\ live_set (slab_kfree h p) = live_set h ∖ {[p]} /\
  forall q, q ∈ live_set h -> q <> p -> ksize (slab_kfree h p) q = ksize h q.
Proof.
  intros [Hok Hb] Hp. destruct (slab_kfree_post h p Hok Hp) as (A & B & C). split_and!; try done.
  split; [done|]. eapply same_sizes_builtin; [apply same_sizes_eq, slab_kfree_caches|done].
Qed.

(** [slab_reclaim_one] gives one page of a slab without live objects back
    to the page allocator and returns 1, or finds no such slab in the built-in
    caches, returns 0 and changes nothing; live objects and their sizes stay. *)
Theorem slab_reclaim_one_correct h :
  kheap_inv h ->
  let '(r, h') := slab_reclaim_one h in
  kheap_inv h' /\ live_set h' = live_set h /\ (forall q, q ∈ live_set h -> ksize h' q = ksize h q) /\
  ((r = 0 /\ h' = h /\ forall c ch s, 0 <= c < 9 -> caches h !! c = Some ch -> s ∈ slabs ch -> inuse (get_slab h s) <> 0) \/
   (r = 1 /\ zlen (slab_free_list h') = zlen (slab_free_list h) + 1 /\
    exists phys, held (pages h) !! phys = Some 0 /\ held (pages h') = delete phys (held (pages h)))).
Proof.
  intros [Hok Hb]. unfold slab_reclaim_one. pose proof (reclaim_caches_sizes (seqZ 0 9) h) as Hss.
  destruct (reclaim_caches (seqZ 0 9) h) as [r h'] eqn:E.
  destruct (reclaim_caches_post _ _ _ _ Hok E) as (A & B & C & D). split; [split; [done|]|].
  { by apply (same_sizes_builtin h). }
  split; [done|]. split; [done|]. destruct D as [(D1 & D2 & D3)|D]; [left|by right].
  split_and!; try done. intros c ch s Hc. apply D3. apply elem_of_seqZ. lia.
Qed.

(** ** The interface of the clients *)

Lemma slab_kmalloc_any h size r :
  kheap_inv h -> slab_kmalloc h size = Some r -> exists n, alloc_post h n r /\ kheap_inv (snd r).
Proof.
  intros [Hok Hb] E. pose proof (slab_kmalloc_sizes _ _ _ E) as Hss.
  cut (exists n, alloc_post h n r).
  { intros [n P]. exists n. split; [done|]. split; [|by apply (same_sizes_builtin h)]. destruct r as [[p|] h']; apply P. }
  unfold slab_kmalloc in E. destruct (size =? 0); [simplify_eq; by exists 0|].
  destruct (size_class cache_sizes 0 size) as [i|] eqn:Ei.
  - injection E as <-. apply size_class_spec in Ei as (sz & E1 & Hi & Hsz). destruct (Hb i Hi) as (ch & Hc & E2).
    exists (csize ch). by apply (kmem_cache_alloc_post h i ch).
  - pose proof E as E'. unfold kmalloc_large in E. destruct (size_to_order _) as [o|] eqn:Eo; [|done].
    assert (0 <= o).
    { revert Eo. unfold size_to_order. generalize 21%nat as fuel, PAGE_SIZE as b. assert (0 <= 0) as H by lia. revert H.
      generalize 0 at 2 3 as k. intros k Hk fuel b. revert k Hk b. induction fuel as [|fuel IH]; intros k Hk b; [done|].
      cbn [size_to_order_loop]. destruct (b <? _); [apply IH; lia|]. by intros [= ->]. }
    destruct (kmalloc_large_post h size o Hok Eo) as (r' & E2 & P); [done|]. simplify_eq. by eexists.
Qed.

Lemma slab_kmalloc_live h size p h' :
  kheap_inv h -> slab_kmalloc h size = Some (Some p, h') -> p ∈ live_set h'.
Proof.
  intros Hi E. destruct (slab_kmalloc_any h size _ Hi E) as (n & (_ & _ & _ & -> & _) & _). set_solver.
Qed.

(** A request whose order computation does not end is not answered. *)
#[global] Instance kheap_kalloc : KAlloc kheap :=
  {| kmalloc := fun sz h => default (None, h) (slab_kmalloc h sz); kfree := fun p h => slab_kfree h p |}.

#[global] Program Instance kheap_kalloc_spec : KAllocSpec kheap :=
  {| km_ok := kheap_inv; live := live_set |}.
Next Obligation.
  intros sz h h' Hinv E. unfold kmalloc, kheap_kalloc in E.
  destruct (slab_kmalloc h sz) as [r|] eqn:Er; cbn [default] in E; [|unfold id in E; by simplify_eq].
  unfold id in E. subst r. destruct (slab_kmalloc_any h sz _ Hinv Er) as (n & (_ & P & _) & Q). done.
Qed.
Next Obligation.
  intros sz h p h' Hinv E. unfold kmalloc, kheap_kalloc in E.
  destruct (slab_kmalloc h sz) as [r|] eqn:Er; cbn [default] in E; [|done].
  unfold id in E. subst r. destruct (slab_kmalloc_any h sz _ Hinv Er) as (n & (_ & A & B & C & _) & Q). done.
Qed.
Next Obligation.
  intros p h [Hok Hb] Hp. destruct (slab_kfree_post h p Hok Hp) as (A & B & _).
  split; [|done]. split; [done|]. eapply same_sizes_builtin; [apply same_sizes_eq, slab_kfree_caches|done].
Qed.
Next Obligation. intros p h [Hok _] Hp. by apply (live_address h). Qed.

(** ** Start-up *)

Lemma znth_replicate {A} `{!Inhabited A} n (x : A) i : 0 <= i < Z.of_nat n -> znth (replicate n x) i = x.
Proof. intros Hi. unfold znth. rewrite lookup_total_replicate_2 by lia. done. Qed.

Lemma init_caches (g : G) i ch :
  caches (kmem_cache_init g) !! i = Some ch -> 4 <= csize ch /\ slabs ch = [].
Proof.
  cbn [kmem_cache_init caches]. intros Hi%elem_of_list_to_map_2.
  apply elem_of_zip_r, list_elem_of_fmap in Hi as (sz & -> & Hsz). cbn [csize slabs]. split; [|done].
  unfold cache_sizes in Hsz. repeat (apply elem_of_cons in Hsz as [->|Hsz]; [lia|]). by apply elem_of_nil in Hsz.
Qed.

Lemma init_builtin (g : G) : builtin_ok (kmem_cache_init g).
Proof.
  intros i Hi. cbn [kmem_cache_init caches].
  assert (i = 0 \/ i = 1 \/ i = 2 \/ i = 3 \/ i = 4 \/ i = 5 \/ i = 6 \/ i = 7 \/ i = 8) as Hc by lia.
  by repeat destruct Hc as [->|Hc]; [eexists; split; vm_compute; reflexivity..|subst i; eexists; split; vm_compute; reflexivity].
Qed.

Lemma init_unused (g : G) s c : ~ used (kmem_cache_init g) s c.
Proof. intros (A & B & C). unfold get_slab in C. cbn [kmem_cache_init slab_pool] in C. rewrite znth_replicate in C by lia. done. Qed.

Lemma init_inv (g : G) : pg_ok g -> kheap_inv (kmem_cache_init g).
Proof.
  intros Hg. split; [|apply init_builtin]. split; try done.
  - intros c ch Hc. destruct (init_caches g c ch Hc) as [? E]. rewrite E. split; [done|]. split; [constructor|].
    intros s Hs. by apply elem_of_nil in Hs.
  - intros s c U. by apply init_unused in U.
  - cbn [kmem_cache_init slab_free_list]. split; [apply NoDup_seqZ|]. intros s Hs%elem_of_seqZ. split; [lia|].
    intros c. apply init_unused.
  - intros s Hs. by apply elem_of_nil in Hs.
  - constructor.
  - intros s c s' c' U. by apply init_unused in U.
Qed.

(** [kmem_cache_init] sets up an empty heap: the allocator's invariant
    holds, nothing is live and all 4096 descriptors are free. *)
Theorem kmem_cache_init_correct (g : G) :
  pg_ok g ->
  kheap_inv (kmem_cache_init g) /\ live_set (kmem_cache_init g) = ∅ /\
  zlen (slab_free_list (kmem_cache_init g)) = 4096.
Proof.
  intros Hg. split; [by apply init_inv|split].
  - apply set_eq. intros q. rewrite elem_of_live. split; [|set_solver].
    intros [(s & Hs & Hl)|(a & hd & Ha & _)]; [|by cbn [kmem_cache_init hdrs] in Ha].
    apply elem_of_live_in in Hl as (c & ch & U & _); [|done]. by apply init_unused in U.
  - cbn [kmem_cache_init slab_free_list]. unfold zlen. rewrite length_seqZ. lia.
Qed.

(** ** Limits *)

(** [kmalloc] never returns for a size between 2^31 - 15 and 2^32 - 17: the
    loop of [size_to_order] doubles [bytes] to 0 and has not ended after any
    number of rounds. *)
Theorem kmalloc_huge_never_returns h size :
  2147483632 < size < 4294967280 ->
  (forall fuel, size_to_order_loop fuel (size +w SIZEOF_LARGE_HDR) PAGE_SIZE 0 = None) /\
  slab_kmalloc h size = None.
Proof.
  intros Hs. assert (H : forall fuel, size_to_order_loop fuel (size +w SIZEOF_LARGE_HDR) PAGE_SIZE 0 = None).
  { intros fuel. apply (size_to_order_diverges_from fuel _ 0 19); [|lia].
    unfold SIZEOF_LARGE_HDR. rewrite add32_id; lia. }
  split; [done|]. unfold slab_kmalloc. destruct (Z.eqb_spec size 0); [lia|].
  rewrite (proj2 (size_class_large size)) by lia. unfold kmalloc_large, size_to_order. by rewrite H.
Qed.

(** for the 16 largest sizes the header makes the sum wrap: [kmalloc]
    returns an object of 4080 bytes for a request of almost 4 GiB. *)
Theorem kmalloc_size_wraps h size phys g :
  kheap_inv h -> 4294967280 <= size < 4294967296 -> pg_alloc 0 (pages h) = (Some phys, g) ->
  exists p h', slab_kmalloc h size = Some (Some p, h') /\ ksize h' p = 4080.
Proof.
  intros [Hok Hb] Hs Ea.
  assert (Ew : size +w SIZEOF_LARGE_HDR = size - 4294967280).
  { unfold SIZEOF_LARGE_HDR, add32, u32. rewrite <- (Z.mod_add _ (-1)) by lia. rewrite Z.mod_small; lia. }
  assert (Eo : size_to_order (size +w SIZEOF_LARGE_HDR) = Some 0).
  { rewrite Ew. unfold size_to_order, PAGE_SIZE. cbn [size_to_order_loop].
    destruct (Z.ltb_spec 4096 (size - 4294967280)); [lia|done]. }
  destruct (kmalloc_large_post h size 0 Hok Eo) as (r & E & P); [lia|].
  unfold slab_kmalloc. destruct (Z.eqb_spec size 0); [lia|]. rewrite (proj2 (size_class_large size)) by lia.
  rewrite E. unfold kmalloc_large in E. rewrite Eo, Ea in E. injection E as <-. eexists _, _. split; [done|].
  set (v := phys +w PAGE_OFFSET) in *. set (h' := with_hdrs _ _) in *. destruct P as [Hok' _].
  assert (Hv : hdrs h' !! v = Some (Large LARGE_MAGIC 0 phys)) by apply lookup_insert_eq.
  pose proof (ksize_large h' v _ Hok' Hv) as K. destruct (ko_hdr _ Hok' _ _ Hv) as (_ & E1 & E2 & _).
  destruct (held_range _ _ _ (ko_pages _ Hok') E2) as (_ & P1 & _ & P3). cbn [lorder lphys] in *.
  change (4096 * 2 ^ 0) with 4096 in *. unfold SIZEOF_LARGE_HDR, PAGE_OFFSET, LOWMEM in *.
  rewrite add32_id by lia. lia.
Qed.

(** the slots of [slab_map] are used once: reclaiming slabs leaves
    [slab_pages] as it is, and once 4096 slabs have been made an allocation
    from a cache without a free object fails, whatever is free by then. *)
Theorem slab_slots_not_reused h c ch :
  slab_pages (snd (slab_reclaim_one h)) = slab_pages h /\
  (slab_pages h = 4096 -> caches h !! c = Some ch -> List.find (has_free h) (slabs ch) = None ->
   fst (kmem_cache_alloc h c) = None).
Proof.
  split.
  - unfold slab_reclaim_one. generalize (seqZ 0 9) as cs. induction cs as [|c' cs IH]; [done|]. cbn [reclaim_caches].
    destruct (caches h !! c'); [|done]. by destruct (List.find (reclaimable h) _).
  - intros Hp Hc Hf. unfold kmem_cache_alloc. rewrite Hc, Hf. unfold slab_alloc_meta.
    destruct (slab_free_list h) as [|s rest]; [done|]. unfold slab_alloc_page.
    cbn [set_slab with_pool with_free_list slab_pages]. by rewrite Hp.
Qed.
End invariant.

(** ** A concrete page source

    Blocks are handed out in increasing order and never reused; the heap can
    then be evaluated. *)
Module Bump.

Record bump : Type := B { next : Z; given : gmap Z Z }.

Definition balloc (o : Z) (g : bump) : option Z * bump :=
  if (0 <=? o) && (next g + 4096 * 2 ^ o <=? LOWMEM)
  then (Some (next g), B (next g + 4096 * 2 ^ o) (<[next g := o]> (given g)))
  else (None, g).

Definition bfree (a o : Z) (g : bump) : bump := B (next g) (delete a (given g)).

Definition bump_ok (g : bump) : Prop :=
  0 < next g /\ (4096 | next g) /\
  (forall a o, given g !! a = Some o -> 0 <= o /\ 0 < a /\ (4096 | a) /\ a + 4096 * 2 ^ o <= next g /\ a + 4096 * 2 ^ o <= LOWMEM) /\
  (forall a o a' o', given g !! a = Some o -> given g !! a' = Some o' -> a <> a' ->
    a + 4096 * 2 ^ o <= a' \/ a' + 4096 * 2 ^ o' <= a).

#[global] Instance bump_source : PageSource bump := {| pg_alloc := balloc; pg_free := bfree; pg_entered := fun _ => false |}.

#[global] Program Instance bump_spec : PageSourceSpec bump := {| pg_ok := bump_ok; held := given |}.
Next Obligation. intros g a o (_ & _ & A & _) E. destruct (A a o E) as (? & ? & ? & ? & ?). done. Qed.
Next Obligation. intros g a o a' o' (_ & _ & _ & A) E E'. by apply A. Qed.
Next Obligation.
  intros o g g' Hok E. unfold pg_alloc in E; simpl in E. unfold balloc in E. case_match; by simplify_eq.
Qed.
Next Obligation.
  intros o g a g' (A & B & C & D) Ho E. unfold pg_alloc in E; simpl in E. unfold balloc in E.
  destruct ((0 <=? o) && _) eqn:Eb; [|done]. apply andb_prop in Eb as [_ Eb%Z.leb_le]. simplify_eq.
  pose proof (Z.pow_pos_nonneg 2 o ltac:(lia) Ho) as Hpow.
  assert (Hlow : forall a o', given g !! a = Some o' -> a < next g).
  { intros a o' E. destruct (C a o' E) as (O1 & _ & _ & P & _). pose proof (Z.pow_pos_nonneg 2 o' ltac:(lia) O1). lia. }
  split; [|split; [|done]].
  - split_and!; cbn [next given].
    + lia.
    + apply Z.divide_add_r; [done|]. apply Z.divide_factor_l.
    + intros a o'. destruct (decide (a = next g)) as [->|Hne]; intros E; simplify_map_eq.
      * split_and!; try done; lia.
      * destruct (C a o' E) as (? & ? & ? & ? & ?). split_and!; try done; lia.
    + intros a1 o1 a2 o2. destruct (decide (a1 = next g)) as [->|N1], (decide (a2 = next g)) as [->|N2];
        intros E1 E2 Hne; simplify_map_eq; try done; [| |by apply (D a1 o1 a2 o2)].
      * right. apply (C _ _ E2).
      * left. apply (C _ _ E1).
  - destruct (given g !! next g) eqn:E; [|done]. apply Hlow in E. lia.
Qed.
Next Obligation.
  intros a o g (A & B & C & D) E. split; [|done]. change (pg_free a o g) with (bfree a o g).
  split_and!; cbn [bfree next given]; try done.
  - intros a' o' [_ E']%lookup_delete_Some. by apply C.
  - intros a1 o1 a2 o2 [_ E1]%lookup_delete_Some [_ E2]%lookup_delete_Some. by apply D.
Qed.

Definition start : bump := B 1048576 ∅.

Lemma start_ok : bump_ok start.
Proof. split_and!; [done|by exists 256|..]; intros *; cbn [start given]; by rewrite lookup_empty. Qed.

(** A fresh heap, and the heap after [kmalloc(100)]. *)
Definition heap0 : kheap := kmem_cache_init start.
Definition heap1 : kheap := match slab_kmalloc heap0 100 with Some (_, h) => h | None => heap0 end.
Definition obj1 : Z := 3222278016.

Lemma heap0_inv : kheap_inv heap0.
Proof. apply init_inv, start_ok. Qed.

Example heap1_object : option_map fst (slab_kmalloc heap0 100) = Some (Some obj1).
Proof. vm_compute. reflexivity. Qed.

Lemma heap1_inv : kheap_inv heap1.
Proof.
  unfold heap1. destruct (slab_kmalloc heap0 100) as [r|] eqn:E; [|apply heap0_inv].
  destruct (slab_kmalloc_any heap0 100 r heap0_inv E) as (n & _ & Hr). by destruct r.
Qed.

Lemma live_after (h : kheap (G := bump)) r p :
  kheap_inv h -> slab_kmalloc h 100 = r -> option_map fst r = Some (Some p) ->
  p ∈ live_set (match r with Some (_, h') => h' | None => h end).
Proof.
  intros Hi Er Ho. destruct r as [[o h']|]; [|done]. cbn [option_map fst] in Ho. injection Ho as ->.
  by apply (slab_kmalloc_live h 100 p h').
Qed.

Lemma heap1_live : obj1 ∈ live_set heap1.
Proof. exact (live_after heap0 (slab_kmalloc heap0 100) obj1 heap0_inv eq_refl heap1_object). Qed.


Lemma slab_kfree_correct_witness :
  kheap_inv (slab_kfree heap1 obj1) /\ live_set (slab_kfree heap1 obj1) = live_set heap1 ∖ {[obj1]} /\
  forall q, q ∈ live_set heap1 -> q <> obj1 -> ksize (slab_kfree heap1 obj1) q = ksize heap1 q.
Proof. apply (slab_kfree_correct heap1 obj1); [apply heap1_inv|apply heap1_live]. Defined.

Lemma slab_reclaim_one_correct_witness :
  kheap_inv heap1 /\ kheap_inv (snd (slab_reclaim_one heap1)).
Proof.
  split; [apply heap1_inv|]. pose proof (slab_reclaim_one_correct heap1 heap1_inv) as H.
  destruct (slab_reclaim_one heap1) as [r h']. apply H.
Defined.

Lemma kmem_cache_init_correct_witness :
  kheap_inv heap0 /\ live_set heap0 = ∅ /\ zlen (slab_free_list heap0) = 4096.
Proof. apply (kmem_cache_init_correct start), start_ok. Defined.

Lemma kmalloc_huge_never_returns_witness :
  (forall fuel, size_to_order_loop fuel (3000000000 +w SIZEOF_LARGE_HDR) PAGE_SIZE 0 = None) /\
  slab_kmalloc heap0 3000000000 = None.
Proof. apply (kmalloc_huge_never_returns heap0 3000000000). lia. Defined.

Lemma kmalloc_size_wraps_witness :
  exists p h', slab_kmalloc heap0 4294967288 = Some (Some p, h') /\ ksize h' p = 4080.
Proof.
  apply (kmalloc_size_wraps heap0 4294967288 1048576 (B 1052672 {[1048576 := 0]})); [apply heap0_inv|lia|].
  reflexivity.
Defined.

(** Every slot of [slab_map] has been used. *)
Definition heap_full : kheap := with_map heap0 (slab_map heap0) 4096.

Lemma slab_slots_not_reused_witness :
  slab_pages (snd (slab_reclaim_one heap_full)) = slab_pages heap_full /\ fst (kmem_cache_alloc heap_full 3) = None.
Proof.
  destruct (slab_slots_not_reused heap_full 3 (Cache 64 [])) as [A B].
  split; [exact A|apply B; [reflexivity|vm_compute; reflexivity|reflexivity]].
Defined.
End Bump.
