(* ===== verification/Task.v ===== *)
(** * Tasks, the scheduler and wait queues
    ([kernel/sched/core.c], [kernel/sched/wait.c])

    Task structures are the values of a finite map from their addresses.  The
    intrusive lists are lists of addresses: the task list, the children of a
    task and the waiters of a queue; whether a node of a task is linked is a
    field of the task ([on_tasks], [sibling], [wait_link]).  The only entries
    ever put on a wait queue are the [wait_entry] fields of tasks, so an entry
    is named by its task.  The trap frame a task was interrupted with is a
    value.  Interrupts are off and there is one processor whenever these
    functions touch the lists, so that each of them is one step; [int $0x20] in
    [task_yield] is the step [timer_irq]. *)

From stdpp Require Import base tactics numbers list gmap sets.
From Stdlib Require Import ZArith Lia.
From S2P Require Import Prelude.

(** ** Data *)

Inductive tstate : Type := TASK_RUNNABLE | TASK_SLEEPING | TASK_BLOCKED | TASK_ZOMBIE.

#[export] Instance tstate_eq_dec : EqDecision tstate.
Proof. solve_decision. Defined.

(** A wait queue head: the [child_exit_wait] of a task, or any other one. *)
Inductive wqid : Type := ChildExit (t : Z) | Queue (a : Z).

#[export] Instance wqid_eq_dec : EqDecision wqid.
Proof. solve_decision. Defined.
#[export] Instance wqid_countable : Countable wqid.
Proof.
  refine (inj_countable' (fun q => match q with ChildExit t => inl t | Queue a => inr a end)
    (fun x => match x with inl t => ChildExit t | inr a => Queue a end) _).
  by intros [].
Defined.

(** Where a [wait_entry] is linked: in a queue, or in the list on the stack of a
    [__wake_up] that has returned. *)
Inductive wqlink : Type := Linked (q : wqid) | Stale.

#[export] Instance wqlink_eq_dec : EqDecision wqlink.
Proof. solve_decision. Defined.

Record pt_regs : Type := Regs {
  ds : Z; edi : Z; esi : Z; ebp : Z; esp : Z; ebx : Z; edx : Z; ecx : Z; eax : Z;
  int_no : Z; err_code : Z; eip : Z; cs : Z; eflags : Z; useresp : Z; ss : Z;
}.

Record thread_struct : Type := Thread { regs : pt_regs; sp0 : Z }.

(** [exit_code], [exit_state], [exit_info0] and [exit_info1]. *)
Record exit_info : Type := ExitInfo { exit_code : Z; exit_state : Z; exit_info0 : Z; exit_info1 : Z }.

Record fs_struct : Type := FS { pwd : option Z; root : option Z }.
Record cred : Type := Cred { uid : Z; gid : Z; umask : Z }.

Record task_struct : Type := Task {
  usage : Z;
  pid : Z;
  real_parent : option Z;
  parent : option Z;
  thread : thread_struct;
  on_tasks : bool;
  children : list Z;
  sibling : option Z;
  wake_jiffies : Z;
  state : tstate;
  time_slice : Z;
  mm : option Z;
  exit : exit_info;
  comm : list Z;
  fs : fs_struct;
  creds : cred;
  waitq : option wqid;
  wait_link : option wqlink;
}.

Definition no_regs : pt_regs := Regs 0 0 0 0 0 0 0 0 0 0 0 0 0 0 0 0.

#[export] Instance task_inhabited : Inhabited task_struct :=
  populate (Task 0 0 None None (Thread no_regs 0) false [] None 0 TASK_RUNNABLE 0 None
    (ExitInfo 0 0 0 0) [] (FS None None) (Cred 0 0 0) None None).

Definition set_usage v k := Task v (pid k) (real_parent k) (parent k) (thread k) (on_tasks k) (children k)
  (sibling k) (wake_jiffies k) (state k) (time_slice k) (mm k) (exit k) (comm k) (fs k) (creds k) (waitq k)
  (wait_link k).
Definition set_real_parent v k := Task (usage k) (pid k) v (parent k) (thread k) (on_tasks k) (children k)
  (sibling k) (wake_jiffies k) (state k) (time_slice k) (mm k) (exit k) (comm k) (fs k) (creds k) (waitq k)
  (wait_link k).
Definition set_parent v k := Task (usage k) (pid k) (real_parent k) v (thread k) (on_tasks k) (children k)
  (sibling k) (wake_jiffies k) (state k) (time_slice k) (mm k) (exit k) (comm k) (fs k) (creds k) (waitq k)
  (wait_link k).
Definition set_thread v k := Task (usage k) (pid k) (real_parent k) (parent k) v (on_tasks k) (children k)
  (sibling k) (wake_jiffies k) (state k) (time_slice k) (mm k) (exit k) (comm k) (fs k) (creds k) (waitq k)
  (wait_link k).
Definition set_on_tasks v k := Task (usage k) (pid k) (real_parent k) (parent k) (thread k) v (children k)
  (sibling k) (wake_jiffies k) (state k) (time_slice k) (mm k) (exit k) (comm k) (fs k) (creds k) (waitq k)
  (wait_link k).
Definition set_children v k := Task (usage k) (pid k) (real_parent k) (parent k) (thread k) (on_tasks k) v
  (sibling k) (wake_jiffies k) (state k) (time_slice k) (mm k) (exit k) (comm k) (fs k) (creds k) (waitq k)
  (wait_link k).
Definition set_sibling v k := Task (usage k) (pid k) (real_parent k) (parent k) (thread k) (on_tasks k)
  (children k) v (wake_jiffies k) (state k) (time_slice k) (mm k) (exit k) (comm k) (fs k) (creds k) (waitq k)
  (wait_link k).
Definition set_wake_jiffies v k := Task (usage k) (pid k) (real_parent k) (parent k) (thread k) (on_tasks k)
  (children k) (sibling k) v (state k) (time_slice k) (mm k) (exit k) (comm k) (fs k) (creds k) (waitq k)
  (wait_link k).
Definition set_state v k := Task (usage k) (pid k) (real_parent k) (parent k) (thread k) (on_tasks k)
  (children k) (sibling k) (wake_jiffies k) v (time_slice k) (mm k) (exit k) (comm k) (fs k) (creds k) (waitq
  k) (wait_link k).
Definition set_time_slice v k := Task (usage k) (pid k) (real_parent k) (parent k) (thread k) (on_tasks k)
  (children k) (sibling k) (wake_jiffies k) (state k) v (mm k) (exit k) (comm k) (fs k) (creds k) (waitq k)
  (wait_link k).
Definition set_mm v k := Task (usage k) (pid k) (real_parent k) (parent k) (thread k) (on_tasks k) (children
  k) (sibling k) (wake_jiffies k) (state k) (time_slice k) v (exit k) (comm k) (fs k) (creds k) (waitq k)
  (wait_link k).
Definition set_exit v k := Task (usage k) (pid k) (real_parent k) (parent k) (thread k) (on_tasks k) (children
  k) (sibling k) (wake_jiffies k) (state k) (time_slice k) (mm k) v (comm k) (fs k) (creds k) (waitq k)
  (wait_link k).
Definition set_comm v k := Task (usage k) (pid k) (real_parent k) (parent k) (thread k) (on_tasks k) (children
  k) (sibling k) (wake_jiffies k) (state k) (time_slice k) (mm k) (exit k) v (fs k) (creds k) (waitq k)
  (wait_link k).
Definition set_fs v k := Task (usage k) (pid k) (real_parent k) (parent k) (thread k) (on_tasks k) (children
  k) (sibling k) (wake_jiffies k) (state k) (time_slice k) (mm k) (exit k) (comm k) v (creds k) (waitq k)
  (wait_link k).
Definition set_waitq v k := Task (usage k) (pid k) (real_parent k) (parent k) (thread k) (on_tasks k)
  (children k) (sibling k) (wake_jiffies k) (state k) (time_slice k) (mm k) (exit k) (comm k) (fs k) (creds k)
  v (wait_link k).
Definition set_wait_link v k := Task (usage k) (pid k) (real_parent k) (parent k) (thread k) (on_tasks k)
  (children k) (sibling k) (wake_jiffies k) (state k) (time_slice k) (mm k) (exit k) (comm k) (fs k) (creds k)
  (waitq k) v.

Definition TASK_TIMESLICE_TICKS : Z := 3.
Definition THREAD_SIZE : Z := 4096.

(** What task management uses of memory management and the file system: address
    spaces, open files and directory references.  It relies on no property of
    them. *)
Class TaskRes (R : Type) := {
  dup_mm : Z -> R -> option Z * R;
  mm_create : R -> option Z * R;
  mm_destroy : Z -> R -> R;
  mm_pgd : Z -> R -> Z;
  kernel_pgd : R -> Z;
  files_init : Z -> R -> R;
  files_clone : Z -> Z -> R -> R;
  files_close_all : Z -> R -> R;
  dentry_get : Z -> R -> R;
  vfs_dentry_put : Z -> R -> R;
  root_dentry : R -> option Z;
}.

Section task.
Context {M : Type} `{!KAlloc M} {R : Type} `{!TaskRes R}.

(** The globals of the two files, the current page directory, the heap of the
    task structures and stacks, and the resources of the tasks. *)
Record kstate : Type := KState {
  tasks : gmap Z task_struct;
  task_list : list Z;
  current : option Z;
  need_resched : bool;
  sched_switch_count : Z;
  last_pid : Z;
  kernel_preempt_count : Z;
  jiffies : Z;
  queues : gmap wqid (list Z);
  pgd_current : Z;
  tss_esp0 : Z;
  kheap : M;
  res : R;
}.
Implicit Types (s : kstate) (t : Z) (q : wqid).

Definition with_tasks s v := KState v (task_list s) (current s) (need_resched s) (sched_switch_count s)
  (last_pid s) (kernel_preempt_count s) (jiffies s) (queues s) (pgd_current s) (tss_esp0 s) (kheap s) (res s).
Definition with_task_list s v := KState (tasks s) v (current s) (need_resched s) (sched_switch_count s)
  (last_pid s) (kernel_preempt_count s) (jiffies s) (queues s) (pgd_current s) (tss_esp0 s) (kheap s) (res s).
Definition with_current s v := KState (tasks s) (task_list s) v (need_resched s) (sched_switch_count s)
  (last_pid s) (kernel_preempt_count s) (jiffies s) (queues s) (pgd_current s) (tss_esp0 s) (kheap s) (res s).
Definition with_need_resched s v := KState (tasks s) (task_list s) (current s) v (sched_switch_count s)
  (last_pid s) (kernel_preempt_count s) (jiffies s) (queues s) (pgd_current s) (tss_esp0 s) (kheap s) (res s).
Definition with_sched_switch_count s v := KState (tasks s) (task_list s) (current s) (need_resched s) v
  (last_pid s) (kernel_preempt_count s) (jiffies s) (queues s) (pgd_current s) (tss_esp0 s) (kheap s) (res s).
Definition with_last_pid s v := KState (tasks s) (task_list s) (current s) (need_resched s)
  (sched_switch_count s) v (kernel_preempt_count s) (jiffies s) (queues s) (pgd_current s) (tss_esp0 s) (kheap
  s) (res s).
Definition with_kernel_preempt_count s v := KState (tasks s) (task_list s) (current s) (need_resched s)
  (sched_switch_count s) (last_pid s) v (jiffies s) (queues s) (pgd_current s) (tss_esp0 s) (kheap s) (res s).
Definition with_jiffies s v := KState (tasks s) (task_list s) (current s) (need_resched s) (sched_switch_count
  s) (last_pid s) (kernel_preempt_count s) v (queues s) (pgd_current s) (tss_esp0 s) (kheap s) (res s).
Definition with_queues s v := KState (tasks s) (task_list s) (current s) (need_resched s) (sched_switch_count
  s) (last_pid s) (kernel_preempt_count s) (jiffies s) v (pgd_current s) (tss_esp0 s) (kheap s) (res s).
Definition with_pgd_current s v := KState (tasks s) (task_list s) (current s) (need_resched s)
  (sched_switch_count s) (last_pid s) (kernel_preempt_count s) (jiffies s) (queues s) v (tss_esp0 s) (kheap s)
  (res s).
Definition with_tss_esp0 s v := KState (tasks s) (task_list s) (current s) (need_resched s)
  (sched_switch_count s) (last_pid s) (kernel_preempt_count s) (jiffies s) (queues s) (pgd_current s) v (kheap
  s) (res s).
Definition with_kheap s v := KState (tasks s) (task_list s) (current s) (need_resched s) (sched_switch_count
  s) (last_pid s) (kernel_preempt_count s) (jiffies s) (queues s) (pgd_current s) (tss_esp0 s) v (res s).
Definition with_res s v := KState (tasks s) (task_list s) (current s) (need_resched s) (sched_switch_count s)
  (last_pid s) (kernel_preempt_count s) (jiffies s) (queues s) (pgd_current s) (tss_esp0 s) (kheap s) v.

(** [*t], and [*t] updated. *)
Definition get s t : task_struct := default inhabitant (tasks s !! t).
Definition upd (f : task_struct -> task_struct) t s : kstate := with_tasks s (alter f t (tasks s)).

(** The waiters of a queue. *)
Definition waiters s q : list Z := default [] (queues s !! q).
Definition set_waiters q (l : list Z) s : kstate := with_queues s (<[q := l]> (queues s)).

(** ** The scheduler *)

Definition task_set_need_resched s : kstate := with_need_resched s true.
Definition task_clear_need_resched s : kstate := with_need_resched s false.
Definition preempt_disable s : kstate := with_kernel_preempt_count s (kernel_preempt_count s + 1).
Definition preempt_enable s : kstate :=
  if 0 <? kernel_preempt_count s then with_kernel_preempt_count s (kernel_preempt_count s - 1) else s.

Definition runqueue_empty s : bool := match task_list s with [] => true | _ => false end.

(** [(int32_t)(now - t->wake_jiffies) >= 0] for a sleeping task. *)
Definition wake_due (now : Z) (k : task_struct) : bool :=
  bool_decide (state k = TASK_SLEEPING) && (0 <=? s32 (now -w wake_jiffies k)).

Definition wake_one (now : Z) (k : task_struct) : task_struct :=
  if wake_due now k then set_state TASK_RUNNABLE k else k.

Definition runqueue_wake_sleepers s (now : Z) : kstate :=
  foldl (fun s t => upd (wake_one now) t s) s (task_list s).

(** The nodes met when walking the circular list from the successor of [c] until
    [c] is met again, the head skipped. *)
Fixpoint walk_from (l seen : list Z) (c : Z) : list Z :=
  match l with
  | [] => []
  | t :: l' => if t =? c then l' ++ reverse seen else walk_from l' (t :: seen) c
  end.

Definition is_runnable s t : bool := bool_decide (state (get s t) = TASK_RUNNABLE).

Definition runqueue_pick_next s (curr : Z) : Z :=
  if runqueue_empty s then curr
  else default curr (List.find (is_runnable s) (walk_from (task_list s) [] curr)).

Definition task_tick s : kstate :=
  if runqueue_empty s then s else
  let s1 := runqueue_wake_sleepers s (jiffies s) in
  match current s1 with
  | None => s1
  | Some c =>
      if negb (bool_decide (state (get s1 c) = TASK_RUNNABLE)) then task_set_need_resched s1
      else
        let s2 := if 0 <? time_slice (get s1 c)
                  then upd (set_time_slice (time_slice (get s1 c) - 1)) c s1 else s1 in
        if time_slice (get s2 c) <=? 0 then task_set_need_resched s2 else s2
  end.

(** [task->mm && task->mm->pgd] and the page directory to run on. *)
Definition task_pgd s t : Z :=
  match mm (get s t) with
  | Some m => mm_pgd m (res s)
  | None => 0
  end.

Definition switch_mm s t : kstate :=
  let p := task_pgd s t in
  if negb (p =? 0) then (if negb (p =? pgd_current s) then with_pgd_current s p else s)
  else let k := kernel_pgd (res s) in
       if negb (k =? 0) && negb (k =? pgd_current s) then with_pgd_current s k else s.

Definition task_schedule s (r : pt_regs) : pt_regs * kstate :=
  match current s with
  | None => (r, s)
  | Some c =>
      let s1 := upd (fun k => set_thread (Thread r (sp0 (thread k))) k) c s in
      if negb (need_resched s1) then (regs (thread (get s1 c)), s1)
      else
        let s2 := task_clear_need_resched s1 in
        let next := runqueue_pick_next s2 c in
        let s3 := if negb (next =? c) then with_sched_switch_count s2 (sched_switch_count s2 +w 1) else s2 in
        let s4 := switch_mm (with_current s3 (Some next)) next in
        let s5 := with_tss_esp0 s4 (sp0 (thread (get s4 next))) in
        let s6 := if time_slice (get s5 next) <=? 0
                  then upd (set_time_slice TASK_TIMESLICE_TICKS) next s5 else s5 in
        (regs (thread (get s6 next)), s6)
  end.

Definition task_should_resched s : bool :=
  match current s with
  | None => false
  | Some c => negb (bool_decide (state (get s c) = TASK_RUNNABLE)) || need_resched s
  end.

(** The timer interrupt: the tick handler counts a jiffy, then [irq_handler]
    runs the scheduler. *)
Definition timer_irq s (r : pt_regs) : pt_regs * kstate :=
  let s1 := task_tick (with_jiffies s (jiffies s +w 1)) in
  if (kernel_preempt_count s1 =? 0) && task_should_resched s1 then task_schedule s1 r else (r, s1).

(** [r] is the frame pushed by [int $0x20]. *)
Definition task_yield s (r : pt_regs) : pt_regs * kstate := timer_irq (task_set_need_resched s) r.

(** [task_sleep] up to its [task_yield]. *)
Definition task_sleep s (ticks : Z) : kstate :=
  match current s with
  | None => s
  | Some c =>
      if ticks =? 0 then s
      else task_set_need_resched (upd (fun k => set_state TASK_SLEEPING (set_wake_jiffies (jiffies s +w ticks) k)) c s)
  end.

Definition wake_up_process t s : Z * kstate :=
  let k := get s t in
  match (match state k with
         | TASK_SLEEPING => Some (upd (fun k => set_state TASK_RUNNABLE (set_wake_jiffies 0 k)) t s)
         | TASK_BLOCKED => Some (upd (set_state TASK_RUNNABLE) t s)
         | _ => None
         end) with
  | None => (0, s)
  | Some s1 =>
      let s2 := if time_slice (get s1 t) <=? 0 then upd (set_time_slice TASK_TIMESLICE_TICKS) t s1 else s1 in
      (1, task_set_need_resched s2)
  end.

(** ** Wait queues *)

Definition default_wake_function t s : Z * kstate := wake_up_process t (upd (set_waitq None) t s).

(** [init_waitqueue_entry] and [add_wait_queue] on the entry of [t], which goes to
    the front.  Linking an entry that is linked elsewhere would corrupt both
    lists: [None]. *)
Definition add_wait_queue q t s : option kstate :=
  match wait_link (get s t) with
  | Some _ => None
  | None => Some (set_waiters q (t :: waiters s q) (upd (set_wait_link (Some (Linked q))) t s))
  end.

(** [list_del_init] on the entry of [t]. *)
Definition remove_wait_queue t s : kstate :=
  match wait_link (get s t) with
  | None => s
  | Some (Linked q) =>
      set_waiters q (filter (fun u => u <> t) (waiters s q)) (upd (set_wait_link None) t s)
  | Some Stale => upd (set_wait_link None) t s
  end.

Definition wait_queue_remove t s : kstate := upd (set_waitq None) t (remove_wait_queue t s).

Definition wait_queue_block_locked q s : option kstate :=
  match current s with
  | None => Some s
  | Some c =>
      if bool_decide (waitq (get s c) = Some q) then Some s
      else if bool_decide (state (get s c) = TASK_ZOMBIE) then Some s
      else
        match add_wait_queue q c (upd (set_waitq (Some q)) c s) with
        | None => None
        | Some s1 => Some (upd (set_state TASK_BLOCKED) c s1)
        end
  end.

(** The second loop of [__wake_up], over the entries moved to its own list. *)
Fixpoint wake_loop (nr woke : Z) (l : list Z) s : Z * kstate :=
  match l with
  | [] => (woke, s)
  | t :: l' =>
      let '(r, s1) := default_wake_function t (upd (set_wait_link None) t s) in
      let woke' := Z.lor woke r in
      if (0 <? nr) && (nr <=? woke') then (woke', s1) else wake_loop nr woke' l' s1
  end.

Definition __wake_up q (nr : Z) s : kstate :=
  let l := waiters s q in
  let s1 := set_waiters q [] (foldl (fun s t => upd (set_wait_link (Some Stale)) t s) s l) in
  let '(woke, s2) := wake_loop nr 0 l s1 in
  if negb (woke =? 0) then task_set_need_resched s2 else s2.

Definition wake_up_all q s : kstate := __wake_up q 0 s.
Definition wake_up_nr q (nr : Z) s : kstate := __wake_up q nr s.
End task.

(** ** Reading an updated state *)

Section lemmas.
Context {M : Type} `{!KAlloc M} {R : Type} `{!TaskRes R}.
Notation kstate := (kstate (M := M) (R := R)).
Implicit Types (s : kstate) (t : Z) (q : wqid) (k : task_struct).

Lemma lookup_upd f t s u :
  tasks (upd f t s) !! u = if decide (t = u) then f <$> tasks s !! u else tasks s !! u.
Proof.
  cbn [upd with_tasks tasks]. case_decide; [subst; apply lookup_alter_eq|by apply lookup_alter_ne].
Qed.

Lemma get_lookup s t k : tasks s !! t = Some k -> get s t = k.
Proof. intros E. unfold get. by rewrite E. Qed.

Lemma get_upd_eq f t s k : tasks s !! t = Some k -> get (upd f t s) t = f k.
Proof. intros E. unfold get. rewrite lookup_upd, decide_True, E by done. done. Qed.

Lemma get_upd_ne f t s u : t <> u -> get (upd f t s) u = get s u.
Proof. intros E. unfold get. by rewrite lookup_upd, decide_False. Qed.

Lemma waiters_set q l s q' : waiters (set_waiters q l s) q' = if decide (q = q') then l else waiters s q'.
Proof.
  unfold waiters. cbn [set_waiters with_queues queues]. case_decide; subst.
  - by rewrite lookup_insert_eq.
  - by rewrite lookup_insert_ne.
Qed.

(** Everything but the tasks, the queues and [need_resched]. *)
Definition rest s :=
  (task_list s, current s, sched_switch_count s, last_pid s, kernel_preempt_count s, jiffies s,
   pgd_current s, tss_esp0 s, kheap s, res s).

(** ** The wait queues *)

(** [t] is on the list of [q] exactly when its entry says so, at most once; the
    entry is linked where [waitq] points; a blocked task, except those of [X],
    waits somewhere. *)
Record wait_inv (X : Z -> Prop) (m : gmap Z task_struct) (qs : gmap wqid (list Z)) : Prop := WaitInv {
  wi_link t q : t ∈ default [] (qs !! q) <-> exists k, m !! t = Some k /\ wait_link k = Some (Linked q);
  wi_nodup q : NoDup (default [] (qs !! q));
  wi_waitq t k : m !! t = Some k -> wait_link k = option_map Linked (waitq k);
  wi_blocked t k : m !! t = Some k -> ~ X t -> state k = TASK_BLOCKED -> is_Some (waitq k);
}.

Definition wait_ok s : Prop := wait_inv (fun _ => False) (tasks s) (queues s).

(** Updates that leave the queues alone and block nothing. *)
Definition calm (f : task_struct -> task_struct) : Prop :=
  forall k, waitq (f k) = waitq k /\ wait_link (f k) = wait_link k /\ (state (f k) = TASK_BLOCKED -> state k = TASK_BLOCKED).

Lemma alter_some {A} (f : A -> A) (m : gmap Z A) t u x :
  alter f t m !! u = Some x -> exists y, m !! u = Some y /\ x = if decide (t = u) then f y else y.
Proof.
  destruct (decide (t = u)) as [->|Hne]; intros E.
  - rewrite lookup_alter_eq in E. destruct (m !! u) as [y|] eqn:Ey; [|done]. injection E as <-. by exists y.
  - rewrite lookup_alter_ne in E by done. by exists x.
Qed.

Lemma alter_alter {A} (f g : A -> A) t (m : gmap Z A) :
  alter f t (alter g t m) = alter (fun x => f (g x)) t m.
Proof.
  apply map_eq. intros u. destruct (decide (t = u)) as [->|Hne].
  - rewrite !lookup_alter_eq. by destruct (m !! u).
  - by rewrite !lookup_alter_ne.
Qed.

Lemma wait_inv_calm X f t m qs : calm f -> wait_inv X m qs -> wait_inv X (alter f t m) qs.
Proof.
  intros Hf [L N Q B]. split; [|done| |].
  - intros u q. rewrite L. split.
    + intros (k & Hk & E). destruct (decide (t = u)) as [->|Hne].
      * exists (f k). rewrite lookup_alter_eq, Hk. split; [done|]. by destruct (Hf k) as (_ & -> & _).
      * exists k. by rewrite lookup_alter_ne.
    + intros (k & (y & Hy & ->)%alter_some & E). exists y. split; [done|]. case_decide; [|done].
      by destruct (Hf y) as (_ & E' & _); rewrite E' in E.
  - intros u k (y & Hy & ->)%alter_some. case_decide; [|by eapply Q]. destruct (Hf y) as (-> & -> & _). by eapply Q.
  - intros u k (y & Hy & ->)%alter_some HX. case_decide; [|by eapply B]. destruct (Hf y) as (-> & _ & E).
    intros Hb. by eapply B; [..|apply E].
Qed.

Lemma wait_inv_weaken (X Y : Z -> Prop) m qs : (forall t, X t -> Y t) -> wait_inv X m qs -> wait_inv Y m qs.
Proof. intros HXY [L N Q B]. split; try done. intros t k Hk HY. apply (B t k Hk). auto. Qed.

(** A task that is not blocked needs no exception. *)
Lemma wait_inv_strengthen (X : Z -> Prop) t m qs :
  wait_inv (fun u => u = t \/ X u) m qs -> (forall k, m !! t = Some k -> state k <> TASK_BLOCKED) -> wait_inv X m qs.
Proof.
  intros [L N Q B] Ht. split; try done. intros u k Hk HX Hb. apply (B u k Hk); [|done].
  intros [->|?]; [by apply (Ht k)|done].
Qed.

(** Blocking the running task. *)
Lemma block_ok q s s' c :
  wait_ok s -> current s = Some c -> is_Some (tasks s !! c) -> wait_queue_block_locked q s = Some s' -> wait_ok s'.
Proof.
  intros [L N Q B] Hc [k Hk] E. unfold wait_queue_block_locked in E. rewrite Hc in E.
  rewrite (get_lookup s c k Hk) in E. case_bool_decide as Eq; [by injection E as <-|].
  case_bool_decide as Ez; [by injection E as <-|]. unfold add_wait_queue in E.
  rewrite (get_upd_eq _ _ _ _ Hk) in E. cbn [set_waitq wait_link] in E.
  destruct (wait_link k) as [w|] eqn:Ew; [done|]. injection E as <-.
  assert (Hq : waitq k = None) by (pose proof (Q c k Hk) as E; rewrite Ew in E; by destruct (waitq k)).
  unfold wait_ok. cbn [upd with_tasks set_waiters with_queues tasks queues].
  assert (Hnin : c ∉ default [] (queues s !! q)).
  { rewrite L. intros (k' & Hk' & E). rewrite Hk in Hk'. injection Hk' as <-. congruence. }
  assert (Hlook : forall u x, alter (set_state TASK_BLOCKED) c (alter (set_wait_link (Some (Linked q))) c
      (alter (set_waitq (Some q)) c (tasks s))) !! u = Some x ->
    if decide (c = u) then x = set_state TASK_BLOCKED (set_wait_link (Some (Linked q)) (set_waitq (Some q) k))
    else tasks s !! u = Some x).
  { intros u x. case_decide; [subst; rewrite !lookup_alter_eq, Hk; by intros [= <-]|by rewrite !lookup_alter_ne]. }
  change (waiters (upd (set_waitq (Some q)) c s) q) with (default [] (queues s !! q)).
  split.
  - intros u q'. destruct (decide (q = q')) as [<-|Hne].
    + rewrite lookup_insert_eq. cbn [default from_option id]. rewrite elem_of_cons, L. split.
      * intros [->|(x & Hx & E)]; [eexists; rewrite !lookup_alter_eq, Hk; by split|].
        exists x. rewrite !lookup_alter_ne by congruence. done.
      * intros (x & Hx & E). specialize (Hlook u x Hx). case_decide; [by left|right; by exists x].
    + rewrite lookup_insert_ne by done. rewrite L. split; intros (x & Hx & E).
      * exists x. rewrite !lookup_alter_ne by congruence. done.
      * specialize (Hlook u x Hx). case_decide; [subst; cbn in E; congruence|by exists x].
  - intros q'. destruct (decide (q = q')) as [<-|Hne]; [rewrite lookup_insert_eq; by constructor|by rewrite lookup_insert_ne].
  - intros u x Hx. specialize (Hlook u x Hx). case_decide; [by subst|by eapply Q].
  - intros u x Hx HX. specialize (Hlook u x Hx). case_decide; [subst; by eexists|by eapply B].
Qed.

(** Taking a task off its queue. *)
Lemma wait_queue_remove_ok X t s :
  wait_inv X (tasks s) (queues s) ->
  wait_inv (fun u => u = t \/ X u) (tasks (wait_queue_remove t s)) (queues (wait_queue_remove t s)) /\
  (forall k, tasks s !! t = Some k ->
    tasks (wait_queue_remove t s) !! t = Some (set_waitq None (set_wait_link None k))) /\
  (forall u, u <> t -> tasks (wait_queue_remove t s) !! u = tasks s !! u) /\
  rest (wait_queue_remove t s) = rest s.
Proof.
  intros [L N Q B]. unfold wait_queue_remove, remove_wait_queue.
  destruct (tasks s !! t) as [k|] eqn:Hk.
  2:{ unfold get. rewrite Hk. cbn [default from_option inhabitant wait_link].
      assert (Ha : forall f, alter f t (tasks s) = tasks s) by (intros f; apply alter_id; intros x; by rewrite Hk).
      cbn [upd with_tasks tasks queues]. rewrite Ha.
      split_and!; try done. split; try done. intros u k Hu HX. apply (B u k Hu). tauto. }
  rewrite (get_lookup s t k Hk). pose proof (Q t k Hk) as Ew.
  destruct (waitq k) as [q|] eqn:Eq; cbn [option_map] in Ew; rewrite Ew.
  - set (m' := alter (set_waitq None) t (alter (set_wait_link None) t (tasks s))).
    assert (Hm : forall u x, m' !! u = Some x ->
      if decide (t = u) then x = set_waitq None (set_wait_link None k) else tasks s !! u = Some x).
    { intros u x. unfold m'. case_decide; [subst; rewrite !lookup_alter_eq, Hk; by intros [= <-]|by rewrite !lookup_alter_ne]. }
    cbn [upd with_tasks set_waiters with_queues tasks queues]. fold m'. split; [|split; [|split; [|done]]].
    + split.
      * intros u q'. destruct (decide (q = q')) as [<-|Hne].
        -- rewrite lookup_insert_eq. cbn [default from_option id]. rewrite list_elem_of_filter. unfold waiters.
           rewrite L. split.
           ++ intros (Hne & x & Hx & E). exists x. split; [|done]. unfold m'. by rewrite !lookup_alter_ne.
           ++ intros (x & Hx & E). specialize (Hm u x Hx). case_decide; [by subst|]. split; [done|by exists x].
        -- rewrite lookup_insert_ne by done. rewrite L. split; intros (x & Hx & E).
           ++ assert (t <> u) by (intros ->; rewrite Hk in Hx; injection Hx as <-; congruence).
              exists x. split; [|done]. unfold m'. by rewrite !lookup_alter_ne.
           ++ specialize (Hm u x Hx). case_decide; [by subst|by exists x].
      * intros q'. destruct (decide (q = q')) as [<-|Hne].
        -- rewrite lookup_insert_eq. by apply NoDup_filter, N.
        -- by rewrite lookup_insert_ne.
      * intros u x Hx. specialize (Hm u x Hx). case_decide; [by subst|by eapply Q].
      * intros u x Hx HX. specialize (Hm u x Hx). case_decide; [subst; tauto|]. apply (B u x Hm). tauto.
    + intros k0 [= <-]. unfold m'. by rewrite !lookup_alter_eq, Hk.
    + intros u Hu. unfold m'. by rewrite !lookup_alter_ne.
  - cbn [upd with_tasks tasks queues].
    assert (Hid : set_waitq None k = set_waitq None (set_wait_link None k)).
    { unfold set_waitq, set_wait_link. cbn. by rewrite Ew. }
    split; [|split; [|split; [|done]]].
    + split; [| done | |].
      * intros u q'. rewrite L. split; intros (x & Hx & E).
        -- exists x. rewrite lookup_alter_ne by congruence. done.
        -- apply alter_some in Hx as (y & Hy & ->). exists y. split; [done|]. by case_decide.
      * intros u x (y & Hy & ->)%alter_some. case_decide; [|by eapply Q]. cbn. subst.
        rewrite Hk in Hy. by injection Hy as <-.
      * intros u x (y & Hy & ->)%alter_some HX. case_decide; [subst; tauto|]. apply (B u y Hy). tauto.
    + intros k0 [= <-]. rewrite lookup_alter_eq, Hk. cbn [fmap option_fmap option_map]. by rewrite Hid.
    + intros u Hu. by rewrite lookup_alter_ne.
Qed.

(** ** Waking *)

Definition slice (k : task_struct) : task_struct :=
  if time_slice k <=? 0 then set_time_slice TASK_TIMESLICE_TICKS k else k.

(** What [wake_up_process] does to a task, and what leaving a queue adds. *)
Definition wake_state (k : task_struct) : task_struct :=
  match state k with
  | TASK_SLEEPING => slice (set_state TASK_RUNNABLE (set_wake_jiffies 0 k))
  | TASK_BLOCKED => slice (set_state TASK_RUNNABLE k)
  | _ => k
  end.

Definition wake_task (k : task_struct) : task_struct := wake_state (set_waitq None (set_wait_link None k)).

Lemma slice_fields k :
  waitq (slice k) = waitq k /\ wait_link (slice k) = wait_link k /\ state (slice k) = state k.
Proof. unfold slice. by destruct (_ <=? _). Qed.

Lemma wake_state_calm : calm wake_state.
Proof.
  intros k. unfold wake_state. destruct (state k) eqn:E; rewrite ?E; try done;
    destruct (slice_fields (set_state TASK_RUNNABLE k)) as (-> & -> & ->) ||
    destruct (slice_fields (set_state TASK_RUNNABLE (set_wake_jiffies 0 k))) as (-> & -> & ->); done.
Qed.

Lemma wake_state_blocked k : state (wake_state k) <> TASK_BLOCKED.
Proof.
  unfold wake_state. destruct (state k) eqn:E; rewrite ?E; try done;
    unfold slice; by destruct (_ <=? _).
Qed.

Lemma wake_up_process_spec t s :
  let s' := snd (wake_up_process t s) in
  tasks s' = alter wake_state t (tasks s) /\ queues s' = queues s /\ rest s' = rest s /\
  (need_resched s = true -> need_resched s' = true).
Proof.
  unfold wake_up_process. destruct (tasks s !! t) as [k|] eqn:Hk.
  2:{ assert (E : get s t = inhabitant) by (unfold get; by rewrite Hk). rewrite E.
      change (state (inhabitant : task_struct)) with TASK_RUNNABLE. cbn [snd].
      rewrite (alter_id _ (tasks s) t) by (intros x; by rewrite Hk). done. }
  rewrite (get_lookup s t k Hk). unfold wake_state.
  assert (Hid : forall f g, f k = g k -> alter f t (tasks s) = alter g t (tasks s)).
  { intros f g E. apply alter_ext. intros x Hx. rewrite Hk in Hx. by injection Hx as <-. }
  destruct (state k) eqn:Ek; cbn [snd].
  - rewrite (alter_id _ (tasks s) t); [done|]. intros x Hx. rewrite Hk in Hx. injection Hx as <-. by rewrite Ek.
  - rewrite (get_upd_eq _ _ _ _ Hk). cbn [set_state set_wake_jiffies time_slice].
    destruct (time_slice k <=? 0) eqn:Et; cbn [task_set_need_resched with_need_resched upd with_tasks tasks queues];
      (split_and!; [|done..]); rewrite ?alter_alter; apply Hid; rewrite Ek; unfold slice;
      cbn [set_state set_wake_jiffies time_slice compose]; by rewrite Et.
  - rewrite (get_upd_eq _ _ _ _ Hk). cbn [set_state time_slice].
    destruct (time_slice k <=? 0) eqn:Et; cbn [task_set_need_resched with_need_resched upd with_tasks tasks queues];
      (split_and!; [|done..]); rewrite ?alter_alter; apply Hid; rewrite Ek; unfold slice;
      cbn [set_state time_slice compose]; by rewrite Et.
  - rewrite (alter_id _ (tasks s) t); [done|]. intros x Hx. rewrite Hk in Hx. injection Hx as <-. by rewrite Ek.
Qed.

Lemma lookup_alter_list {A} (f : A -> A) (l : list Z) (m : gmap Z A) t :
  NoDup l -> foldl (fun m u => alter f u m) m l !! t = if decide (t ∈ l) then f <$> m !! t else m !! t.
Proof.
  intros Hnd. revert m. induction Hnd as [|u l Hu Hnd IH]; intros m; cbn [foldl].
  { by rewrite decide_False by (by intros ?%elem_of_nil). }
  rewrite IH. destruct (decide (t = u)) as [->|Hne].
  - rewrite decide_False by done. rewrite decide_True by (by left). by rewrite lookup_alter_eq.
  - rewrite lookup_alter_ne by done. destruct (decide (t ∈ l)) as [Hin|Hin].
    + by rewrite decide_True by (by right).
    + by rewrite decide_False by (by intros [?|?]%elem_of_cons).
Qed.

Lemma upd_list_spec f (l : list Z) s :
  let s' := foldl (fun s t => upd f t s) s l in
  tasks s' = foldl (fun m u => alter f u m) (tasks s) l /\ queues s' = queues s /\ rest s' = rest s /\
  need_resched s' = need_resched s.
Proof.
  revert s. induction l as [|t l IH]; intros s; cbn [foldl]; [done|].
  destruct (IH (upd f t s)) as (-> & -> & -> & ->). done.
Qed.

Lemma wake_loop_all w (l : list Z) s :
  let s' := snd (wake_loop 0 w l s) in
  tasks s' = foldl (fun m u => alter wake_task u m) (tasks s) l /\ queues s' = queues s /\ rest s' = rest s.
Proof.
  revert w s. induction l as [|t l IH]; intros w s; cbn [foldl wake_loop snd]; [done|].
  unfold default_wake_function.
  destruct (wake_up_process_spec t (upd (set_waitq None) t (upd (set_wait_link None) t s))) as (A & B & C & _).
  destruct (wake_up_process t _) as [r s1]. cbn [snd] in A, B, C. rewrite Z.ltb_irrefl. cbn [andb].
  destruct (IH (Z.lor w r) s1) as (-> & -> & ->). rewrite A, B, C. split; [|done]. f_equal.
  cbn [upd with_tasks tasks]. by rewrite !alter_alter.
Qed.

Lemma wake_up_all_spec q s :
  NoDup (waiters s q) ->
  (forall t, tasks (wake_up_all q s) !! t =
    if decide (t ∈ waiters s q) then wake_task <$> tasks s !! t else tasks s !! t) /\
  queues (wake_up_all q s) = <[q := []]> (queues s) /\ rest (wake_up_all q s) = rest s.
Proof.
  intros Hnd. unfold wake_up_all, __wake_up. set (l := waiters s q) in *.
  set (s0 := foldl _ s l). destruct (upd_list_spec (set_wait_link (Some Stale)) l s) as (A & B & C & _). fold s0 in A, B, C.
  destruct (wake_loop_all 0 l (set_waiters q [] s0)) as (A' & B' & C').
  destruct (wake_loop 0 0 l (set_waiters q [] s0)) as [woke s2]. cbn [snd] in A', B', C'.
  assert (Hend : forall s', s' = s2 \/ s' = task_set_need_resched s2 ->
    (forall t, tasks s' !! t = if decide (t ∈ l) then wake_task <$> tasks s !! t else tasks s !! t) /\
    queues s' = <[q:=[]]> (queues s) /\ rest s' = rest s).
  { intros s' Hs'. assert (E : tasks s' = tasks s2 /\ queues s' = queues s2 /\ rest s' = rest s2) by (by destruct Hs' as [->| ->]).
    destruct E as (-> & -> & ->). rewrite A', B', C'. cbn [set_waiters with_queues tasks queues]. split.
    - intros t. rewrite lookup_alter_list by done. rewrite A, lookup_alter_list by done.
      destruct (decide (t ∈ l)); [|done]. by destruct (tasks s !! t).
    - split; [by rewrite B|]. change (rest (with_queues s0 (<[q:=[]]> (queues s0)))) with (rest s0). done. }
  destruct (negb (woke =? 0)); apply Hend; [by right|by left].
Qed.

Lemma wake_task_fields k :
  waitq (wake_task k) = None /\ wait_link (wake_task k) = None /\ state (wake_task k) <> TASK_BLOCKED.
Proof.
  unfold wake_task. destruct (wake_state_calm (set_waitq None (set_wait_link None k))) as (-> & -> & _).
  split_and!; try done. apply wake_state_blocked.
Qed.

Lemma wake_up_all_ok X q s :
  wait_inv X (tasks s) (queues s) ->
  wait_inv X (tasks (wake_up_all q s)) (queues (wake_up_all q s)).
Proof.
  intros [L N Q B]. destruct (wake_up_all_spec q s (N q)) as (T & Qs & _). rewrite Qs.
  assert (HT : forall u x, tasks (wake_up_all q s) !! u = Some x ->
    exists k, tasks s !! u = Some k /\ ((u ∈ waiters s q /\ x = wake_task k) \/ ((u ∉ waiters s q) /\ x = k))).
  { intros u x. rewrite T. destruct (decide (u ∈ waiters s q)); [|by eauto].
    destruct (tasks s !! u) as [k|]; [|done]. intros [= <-]. eauto. }
  split.
  - intros u q'. destruct (decide (q = q')) as [<-|Hne].
    + rewrite lookup_insert_eq. cbn [default from_option id]. split; [by intros ?%elem_of_nil|].
      intros (x & (k & Hk & [[Hin ->]|[Hin ->]])%HT & E); [by destruct (wake_task_fields k) as (_ & ? & _); congruence|].
      destruct Hin. apply L. by exists k.
    + rewrite lookup_insert_ne by done. rewrite L. split; intros (x & Hx & E).
      * exists x. split; [|done]. rewrite T. rewrite decide_False; [done|]. unfold waiters. rewrite L.
        intros (k' & Hk' & E'). congruence.
      * apply HT in Hx as (k & Hk & [[_ ->]|[_ ->]]); [by destruct (wake_task_fields k) as (_ & ? & _); congruence|].
        by exists k.
  - intros q'. destruct (decide (q = q')) as [<-|Hne]; [rewrite lookup_insert_eq; constructor|by rewrite lookup_insert_ne].
  - intros u x (k & Hk & [[_ ->]|[_ ->]])%HT; [|by eapply Q]. by destruct (wake_task_fields k) as (-> & -> & _).
  - intros u x (k & Hk & [[_ ->]|[_ ->]])%HT HX; [|by eapply B]. by destruct (wake_task_fields k) as (_ & _ & ?).
Qed.

(** ** The order of scheduling *)

Lemma walk_from_app (l seen : list Z) c l1 l2 :
  l = l1 ++ c :: l2 -> c ∉ l1 -> walk_from l seen c = l2 ++ reverse seen ++ l1.
Proof.
  intros ->. revert seen. induction l1 as [|t l1 IH]; intros seen Hc; cbn [app walk_from].
  - by rewrite Z.eqb_refl, app_nil_r.
  - destruct (Z.eqb_spec t c) as [->|Hne]; [by destruct Hc; left|].
    rewrite IH by (intros ?; apply Hc; by right). by rewrite reverse_cons, <- app_assoc.
Qed.

Lemma walk_split (l : list Z) c :
  NoDup l -> c ∈ l -> exists l1 l2, l = l1 ++ c :: l2 /\ walk_from l [] c = l2 ++ l1.
Proof.
  intros Hnd (l1 & l2 & ->)%list_elem_of_split. exists l1, l2. split; [done|].
  rewrite (walk_from_app _ [] c l1 l2); [done..|]. apply NoDup_app in Hnd as (_ & Hd & _). intros Hin. apply (Hd c Hin). by left.
Qed.

(** Walking on from a node of the walk. *)
Lemma walk_rotate (l : list Z) c n w1 w2 :
  NoDup l -> c ∈ l -> walk_from l [] c = w1 ++ n :: w2 -> n ∈ l /\ walk_from l [] n = w2 ++ c :: w1.
Proof.
  intros Hnd Hc E. destruct (walk_split l c Hnd Hc) as (l1 & l2 & El & Ew). rewrite Ew in E.
  assert (Hn : forall a b, l = a ++ n :: b -> n ∈ l /\ walk_from l [] n = b ++ a).
  { intros a b ->. split; [apply elem_of_app; right; by left|]. rewrite (walk_from_app _ [] n a b); [done..|].
    apply NoDup_app in Hnd as (_ & Hd & _). intros Hin. apply (Hd n Hin). by left. }
  apply app_eq_inv in E as [(k & E1 & E2)|(k & E1 & E2)].
  - destruct k as [|x k]; cbn [app] in E2.
    + rewrite app_nil_r in E1. subst l1 w1. destruct (Hn [] (w2 ++ c :: l2)) as [A B]; [by rewrite El|].
      split; [done|]. rewrite B. by rewrite !app_nil_r.
    + injection E2 as -> ->. subst l2. destruct (Hn (l1 ++ c :: w1) k) as [A B].
      { rewrite El. by rewrite <- app_assoc. }
      split; [done|]. rewrite B. by rewrite <- app_assoc.
  - subst l1 w1. destruct (Hn k (w2 ++ c :: l2)) as [A B]; [rewrite El; by rewrite <- app_assoc|].
    split; [done|]. rewrite B. by rewrite <- !app_assoc.
Qed.

Lemma find_first (f : Z -> bool) (l : list Z) t :
  t ∈ l -> f t = true -> exists w1 n w2, l = w1 ++ n :: w2 /\ List.find f l = Some n /\ f n = true /\ t ∈ n :: w2.
Proof.
  induction l as [|x l IH]; [by intros ?%elem_of_nil|]. cbn [List.find]. intros Hin Ht. destruct (f x) eqn:Ex.
  - by exists [], x, l.
  - apply elem_of_cons in Hin as [->|Hin]; [congruence|]. destruct (IH Hin Ht) as (w1 & n & w2 & -> & A & B & C).
    by exists (x :: w1), n, w2.
Qed.

(** The number of tasks the walk from [c] meets before [t]. *)
Fixpoint before (l : list Z) t : nat :=
  match l with [] => 0 | u :: l' => if u =? t then 0 else S (before l' t) end.

Definition distance s (c t : Z) : nat := before (walk_from (task_list s) [] c) t.

Lemma before_app (w1 w2 : list Z) n t :
  t ∈ w2 -> t ∉ w1 -> n <> t -> (before w2 t < before (w1 ++ n :: w2) t)%nat.
Proof.
  intros Hin Hn Hne. induction w1 as [|x w1 IH]; cbn [app before].
  - destruct (Z.eqb_spec n t); [done|lia].
  - destruct (Z.eqb_spec x t) as [->|]; [by destruct Hn; left|]. apply Nat.lt_succ_r, Nat.lt_le_incl, IH.
    intros ?. apply Hn. by right.
Qed.

Lemma before_app_l (w w' : list Z) t : t ∈ w -> before (w ++ w') t = before w t.
Proof.
  induction w as [|x w IH]; [by intros ?%elem_of_nil|]. cbn [app before]. intros [->|Hin]%elem_of_cons.
  - by rewrite Z.eqb_refl.
  - destruct (Z.eqb_spec x t); [done|]. by rewrite IH.
Qed.

Lemma walk_elem (l : list Z) c t : NoDup l -> c ∈ l -> t ∈ walk_from l [] c <-> t ∈ l /\ t <> c.
Proof.
  intros Hnd Hc. destruct (walk_split l c Hnd Hc) as (l1 & l2 & -> & ->).
  rewrite !elem_of_app, elem_of_cons. apply NoDup_app in Hnd as (N1 & D & [N2 N3]%NoDup_cons). split.
  - intros [Hin|Hin]; (split; [tauto|]); intros ->; [done|]. apply (D c Hin). by left.
  - tauto.
Qed.

Lemma walk_length (l : list Z) c : NoDup l -> c ∈ l -> S (length (walk_from l [] c)) = length l.
Proof.
  intros Hnd Hc. destruct (walk_split l c Hnd Hc) as (l1 & l2 & -> & ->). rewrite !length_app. cbn [length]. lia.
Qed.

(** The next task is runnable and, unless it is [t] itself, nearer to a runnable
    task [t] than the one that ran. *)
Lemma pick_next_nearer s c t :
  NoDup (task_list s) -> c ∈ task_list s -> t ∈ task_list s -> t <> c -> is_runnable s t = true ->
  let n := runqueue_pick_next s c in
  n ∈ task_list s /\ is_runnable s n = true /\ (n <> t -> (distance s n t < distance s c t)%nat).
Proof.
  intros Hnd Hc Ht Hne Hr. unfold runqueue_pick_next, runqueue_empty.
  assert (Hw : t ∈ walk_from (task_list s) [] c) by (by apply walk_elem).
  destruct (find_first (is_runnable s) _ t Hw Hr) as (w1 & n & w2 & E & Ef & Hn & Hin). rewrite Ef. cbn [default from_option id].
  destruct (walk_rotate _ _ _ _ _ Hnd Hc E) as [A B].
  destruct (task_list s) as [|x l] eqn:El; [by apply elem_of_nil in Hc|]. rewrite <- El in *.
  split; [done|]. split; [done|]. intros Hnt. apply elem_of_cons in Hin as [->|Hin]; [done|].
  unfold distance. rewrite B, E. rewrite before_app_l by done. apply before_app; try done.
  assert (Hnw : NoDup (walk_from (task_list s) [] c)).
  { destruct (walk_split _ _ Hnd Hc) as (l1 & l2 & E1 & ->). rewrite E1 in Hnd.
    apply NoDup_app in Hnd as (N1 & D & [N2 N3]%NoDup_cons). apply NoDup_app. split_and!; try done.
    intros x' Hx' Hx''. apply (D x' Hx''). by right. }
  rewrite E in Hnw. apply NoDup_app in Hnw as (_ & D & _). intros Hin1. apply (D t Hin1). by right.
Qed.

(** With no other runnable task the running one goes on. *)
Lemma pick_next_cases s c :
  NoDup (task_list s) -> c ∈ task_list s ->
  runqueue_pick_next s c ∈ task_list s /\
  (runqueue_pick_next s c = c \/ is_runnable s (runqueue_pick_next s c) = true).
Proof.
  intros Hnd Hc. unfold runqueue_pick_next, runqueue_empty.
  destruct (task_list s) as [|x l] eqn:El; [by apply elem_of_nil in Hc|]. rewrite <- El in *.
  destruct (List.find (is_runnable s) _) as [n|] eqn:Ef; cbn [default from_option id]; [|by auto].
  apply List.find_some in Ef as [Hin%list_elem_of_In Hr]. apply walk_elem in Hin; [|done..]. tauto.
Qed.

(** ** The timer interrupt *)

(** An update that a field [p] does not see. *)
Lemma get_upd_field {A} (p : task_struct -> A) f t s u :
  (forall k, p (f k) = p k) -> p (get (upd f t s) u) = p (get s u).
Proof.
  intros Hf. unfold get. rewrite lookup_upd. case_decide; [|done]. by destruct (tasks s !! u); cbn.
Qed.

Lemma wake_sleepers_spec s now :
  NoDup (task_list s) ->
  (forall u, get (runqueue_wake_sleepers s now) u = if decide (u ∈ task_list s) then wake_one now (get s u) else get s u) /\
  queues (runqueue_wake_sleepers s now) = queues s /\ rest (runqueue_wake_sleepers s now) = rest s /\
  need_resched (runqueue_wake_sleepers s now) = need_resched s.
Proof.
  intros Hnd. unfold runqueue_wake_sleepers.
  destruct (upd_list_spec (wake_one now) (task_list s) s) as (A & B & C & D). split_and!; [|done..].
  intros u. unfold get. rewrite A, lookup_alter_list by done.
  destruct (decide (u ∈ task_list s)); [|done]. by destruct (tasks s !! u).
Qed.

Lemma wake_one_fields now k :
  time_slice (wake_one now k) = time_slice k /\ (state k = TASK_RUNNABLE -> state (wake_one now k) = TASK_RUNNABLE).
Proof. unfold wake_one, wake_due. destruct (bool_decide_reflect (state k = TASK_SLEEPING)); cbn [andb]; [|done]. by destruct (0 <=? _). Qed.

Lemma task_tick_rest s : NoDup (task_list s) -> rest (task_tick s) = rest s.
Proof.
  intros Hnd. unfold task_tick. destruct (runqueue_empty s); [done|].
  destruct (wake_sleepers_spec s (jiffies s) Hnd) as (_ & _ & E & _).
  destruct (current _) as [c|]; [|done]. destruct (negb _); [done|].
  destruct (0 <? _); by destruct (_ <=? 0).
Qed.

(** What a tick does to the running task and to the others. *)
Lemma task_tick_spec s c :
  NoDup (task_list s) -> current s = Some c -> c ∈ task_list s ->
  (forall u, is_runnable s u = true -> is_runnable (task_tick s) u = true) /\
  (forall u, time_slice (get (task_tick s) u) <= time_slice (get s u)) /\
  (task_should_resched (task_tick s) = false -> 1 <= time_slice (get (task_tick s) c) < time_slice (get s c)).
Proof.
  intros Hnd Hc Hin. unfold task_tick. destruct (runqueue_empty s) eqn:Ee.
  { unfold runqueue_empty in Ee. destruct (task_list s); [by apply elem_of_nil in Hin|done]. }
  destruct (wake_sleepers_spec s (jiffies s) Hnd) as (A & _ & C & D).
  set (s1 := runqueue_wake_sleepers s (jiffies s)) in *.
  assert (Hc1 : current s1 = Some c) by (unfold rest in C; congruence). rewrite Hc1.
  assert (R1 : forall u, is_runnable s u = true -> is_runnable s1 u = true).
  { intros u Hu. unfold is_runnable in *. apply bool_decide_eq_true in Hu. apply bool_decide_eq_true. rewrite A.
    case_decide; [by apply wake_one_fields|done]. }
  assert (S1 : forall u, time_slice (get s1 u) = time_slice (get s u)).
  { intros u. rewrite A. case_decide; [|done]. apply wake_one_fields. }
  destruct (bool_decide_reflect (state (get s1 c) = TASK_RUNNABLE)) as [Hr|Hr]; cbn [negb].
  2:{ change (get (task_set_need_resched s1)) with (get s1). split; [done|].
      split; [intros u; rewrite S1; lia|]. unfold task_should_resched.
      change (current (task_set_need_resched s1)) with (current s1). rewrite Hc1.
      change (get (task_set_need_resched s1)) with (get s1). rewrite bool_decide_eq_false_2 by done. done. }
  set (s2 := if 0 <? _ then _ else s1).
  assert (R2 : forall u, is_runnable s2 u = is_runnable s1 u).
  { intros u. unfold s2. destruct (0 <? _); [|done]. unfold is_runnable. by rewrite get_upd_field. }
  assert (C2 : current s2 = Some c) by (unfold s2; by destruct (0 <? _)).
  assert (S2 : forall u, time_slice (get s2 u) <= time_slice (get s u) /\
    (u = c -> 1 <= time_slice (get s2 c) -> time_slice (get s2 c) < time_slice (get s c))).
  { intros u. unfold s2. destruct (Z.ltb_spec 0 (time_slice (get s1 c))) as [Hp|Hp].
    - destruct (tasks s1 !! c) as [k|] eqn:Hk.
      2:{ unfold get in Hp. rewrite Hk in Hp. by cbn in Hp. }
      destruct (decide (c = u)) as [<-|Hne].
      + rewrite (get_upd_eq _ _ _ _ Hk). cbn [set_time_slice time_slice]. rewrite S1. lia.
      + rewrite (get_upd_ne _ _ _ u) by done. rewrite S1. split; [lia|]. congruence.
    - rewrite !S1 in *. lia. }
  assert (Hend : forall s3, get s3 = get s2 ->
    (forall u, is_runnable s u = true -> is_runnable s3 u = true) /\
    (forall u, time_slice (get s3 u) <= time_slice (get s u))).
  { intros s3 E. split; intros u; [unfold is_runnable; rewrite E; intros Hu; apply R1 in Hu; by rewrite <- R2 in Hu|].
    rewrite E. apply S2. }
  destruct (Z.leb_spec (time_slice (get s2 c)) 0) as [Hz|Hz].
  - destruct (Hend (task_set_need_resched s2) eq_refl) as [E1 E2]. split; [done|]. split; [done|].
    unfold task_should_resched. change (current (task_set_need_resched s2)) with (current s2). rewrite C2.
    change (need_resched (task_set_need_resched s2)) with true. by rewrite orb_true_r.
  - destruct (Hend s2 eq_refl) as [E1 E2]. split; [done|]. split; [done|]. intros _.
    split; [lia|]. apply (S2 c); [done|lia].
Qed.

Lemma task_schedule_switch s r c :
  current s = Some c -> need_resched s = true ->
  let s' := snd (task_schedule s r) in
  current s' = Some (runqueue_pick_next s c) /\ task_list s' = task_list s /\
  kernel_preempt_count s' = kernel_preempt_count s /\ (forall u, state (get s' u) = state (get s u)) /\
  (forall u, time_slice (get s u) <= 3 -> time_slice (get s' u) <= 3).
Proof.
  intros Hc Hn. unfold task_schedule. rewrite Hc.
  set (s1 := upd _ c s). change (need_resched s1) with (need_resched s). rewrite Hn. cbn [negb].
  set (s2 := task_clear_need_resched s1).
  assert (Est : forall u, state (get s1 u) = state (get s u)) by (intros u; unfold s1; by rewrite get_upd_field).
  assert (Ets : forall u, time_slice (get s1 u) = time_slice (get s u)) by (intros u; unfold s1; by rewrite get_upd_field).
  assert (Hrun : forall u, is_runnable s2 u = is_runnable s u).
  { intros u. unfold is_runnable. change (get s2 u) with (get s1 u). by rewrite Est. }
  assert (En : runqueue_pick_next s2 c = runqueue_pick_next s c).
  { unfold runqueue_pick_next. change (runqueue_empty s2) with (runqueue_empty s).
    change (task_list s2) with (task_list s). destruct (runqueue_empty s); [done|]. f_equal.
    induction (walk_from (task_list s) [] c) as [|x l IH]; [done|]. cbn [List.find]. by rewrite Hrun, IH. }
  rewrite En. set (n := runqueue_pick_next s c).
  set (s3 := if negb (n =? c) then _ else s2). set (s4 := switch_mm (with_current s3 (Some n)) n).
  assert (E4 : tasks s4 = tasks s1 /\ task_list s4 = task_list s /\ current s4 = Some n /\
    kernel_preempt_count s4 = kernel_preempt_count s).
  { unfold s4, switch_mm, s3. destruct (negb (n =? c)), (negb (task_pgd _ n =? 0)), (negb (_ =? _)); try done;
      by destruct (negb (kernel_pgd _ =? pgd_current _)). }
  destruct E4 as (T4 & L4 & C4 & P4). set (s5 := with_tss_esp0 s4 _).
  assert (G5 : forall u, get s5 u = get s1 u) by (intros u; unfold get; change (tasks s5) with (tasks s4); by rewrite T4).
  destruct (time_slice (get s5 n) <=? 0); cbn [snd].
  - split_and!; try done.
    + intros u. rewrite get_upd_field by done. by rewrite G5, Est.
    + intros u Hu. unfold get. rewrite lookup_upd. case_decide.
      * destruct (tasks s5 !! u); cbn; unfold TASK_TIMESLICE_TICKS; lia.
      * change (default inhabitant (tasks s5 !! u)) with (get s5 u). by rewrite G5, Ets.
  - split_and!; try done; intros u; rewrite G5; [apply Est|by rewrite Ets].
Qed.

Lemma tick_sets_need_resched s c :
  current s = Some c -> NoDup (task_list s) -> c ∈ task_list s ->
  task_should_resched (task_tick s) = true -> need_resched (task_tick s) = true.
Proof.
  intros Hc Hnd Hin. unfold task_tick. destruct (runqueue_empty s) eqn:Ee.
  { unfold runqueue_empty in Ee. destruct (task_list s); [by apply elem_of_nil in Hin|done]. }
  destruct (wake_sleepers_spec s (jiffies s) Hnd) as (A & _ & C & D).
  set (s1 := runqueue_wake_sleepers s (jiffies s)) in *.
  assert (Hc1 : current s1 = Some c) by (unfold rest in C; congruence). rewrite Hc1.
  destruct (bool_decide_reflect (state (get s1 c) = TASK_RUNNABLE)) as [Hr|Hr]; cbn [negb]; [|done].
  set (s2 := if 0 <? _ then _ else s1).
  assert (E2 : current s2 = Some c /\ state (get s2 c) = TASK_RUNNABLE).
  { unfold s2. destruct (0 <? _); [|done]. split; [done|]. by rewrite get_upd_field. }
  destruct E2 as [E2 E3]. destruct (time_slice (get s2 c) <=? 0); [done|].
  unfold task_should_resched. rewrite E2. by rewrite bool_decide_eq_true_2.
Qed.

(** What the scheduler relies on. *)
Record run_ok s (t : Z) : Prop := RunOk {
  ro_list : NoDup (task_list s);
  ro_cur : exists c, current s = Some c /\ c ∈ task_list s;
  ro_preempt : kernel_preempt_count s = 0;
  ro_slices u : time_slice (get s u) <= 3;
  ro_task : t ∈ task_list s;
  ro_runnable : is_runnable s t = true;
}.

(** [run t s n s']: from [s] to [s'] with [n] timer interrupts, and any number of
    voluntary calls of the scheduler ([schedule] after a task blocked, slept or
    yielded), none of which gave the processor to [t].  In between, steps of the
    running task that keep the task list and [t] runnable, leave preemption
    enabled and do not extend its own time slice. *)
Inductive run (t : Z) : kstate -> nat -> kstate -> Prop :=
  | run_nil s : run t s 0 s
  | run_tick s r n s' :
      current (snd (timer_irq s r)) <> Some t -> run t (snd (timer_irq s r)) n s' -> run t s (S n) s'
  | run_switch s r n s' :
      need_resched s = true -> current (snd (task_schedule s r)) <> Some t ->
      run t (snd (task_schedule s r)) n s' -> run t s n s'
  | run_other s s1 n s' :
      task_list s1 = task_list s -> current s1 = current s -> run_ok s1 t ->
      (forall c, current s = Some c -> time_slice (get s1 c) <= time_slice (get s c)) ->
      run t s1 n s' -> run t s n s'.

Lemma distance_bound s c t : NoDup (task_list s) -> c ∈ task_list s -> (distance s c t < length (task_list s))%nat.
Proof.
  intros Hnd Hc. rewrite <- (walk_length _ _ Hnd Hc). unfold distance.
  induction (walk_from (task_list s) [] c) as [|x l IH]; cbn [before length]; [lia|]. destruct (x =? t); lia.
Qed.

(** A task is as far from itself as can be. *)
Lemma distance_self s t : NoDup (task_list s) -> t ∈ task_list s -> S (distance s t t) = length (task_list s).
Proof.
  intros Hnd Ht. rewrite <- (walk_length _ _ Hnd Ht). unfold distance. f_equal.
  assert (Hn : t ∉ walk_from (task_list s) [] t) by (rewrite walk_elem by done; tauto).
  induction (walk_from (task_list s) [] t) as [|x l IH]; cbn [before length]; [done|].
  destruct (Z.eqb_spec x t) as [->|]; [by destruct Hn; left|]. f_equal. apply IH. intros ?. apply Hn. by right.
Qed.

Lemma distance_in s c t :
  NoDup (task_list s) -> c ∈ task_list s -> t ∈ task_list s -> t <> c -> (S (distance s c t) < length (task_list s))%nat.
Proof.
  intros Hnd Hc Ht Hne. rewrite <- (walk_length _ _ Hnd Hc). unfold distance.
  assert (Hw : t ∈ walk_from (task_list s) [] c) by (by apply walk_elem).
  induction (walk_from (task_list s) [] c) as [|x l IH]; [by apply elem_of_nil in Hw|]. cbn [before length].
  destruct (Z.eqb_spec x t); [lia|]. apply elem_of_cons in Hw as [?|Hw]; [done|]. specialize (IH Hw). lia.
Qed.

(** A call of the scheduler that gives the processor to another task than [t] brings
    the turn of [t] nearer. *)
Lemma schedule_progress s r t c :
  run_ok s t -> current s = Some c -> need_resched s = true -> current (snd (task_schedule s r)) <> Some t ->
  let s' := snd (task_schedule s r) in
  run_ok s' t /\ exists c', current s' = Some c' /\ task_list s' = task_list s /\ (distance s' c' t < distance s c t)%nat.
Proof.
  intros [Hnd (c0 & Hc0 & Hin) Hp Hsl Ht Hr] Hc Hneed. rewrite Hc in Hc0. injection Hc0 as <-.
  destruct (task_schedule_switch s r c Hc Hneed) as (S1 & S2 & S3 & S4 & S5). set (s' := snd (task_schedule s r)) in *. cbv zeta.
  rewrite S1. intros Hne.
  assert (Hlt : runqueue_pick_next s c ∈ task_list s /\ (distance s (runqueue_pick_next s c) t < distance s c t)%nat).
  { destruct (decide (t = c)) as [->|Hneq].
    - destruct (pick_next_cases s c Hnd Hin) as [P1 _]. split; [done|].
      pose proof (distance_self s c Hnd Hin). pose proof (distance_in s (runqueue_pick_next s c) c Hnd P1 Hin).
      assert (c <> runqueue_pick_next s c) by congruence. lia.
    - destruct (pick_next_nearer s c t Hnd Hin Ht Hneq Hr) as (P1 & P2 & P3). split; [done|]. apply P3. congruence. }
  destruct Hlt as [P1 P2]. split.
  - split; rewrite ?S2; try done; [by eexists|congruence|intros u; by apply S5|]. unfold is_runnable in *. by rewrite S4.
  - eexists. split; [done|]. split; [done|]. unfold distance in *. by rewrite S2.
Qed.

(** A timer interrupt keeps what the scheduler relies on, and brings the turn of
    [t] nearer. *)
Lemma timer_irq_progress s r t c :
  run_ok s t -> current s = Some c -> current (snd (timer_irq s r)) <> Some t ->
  let s' := snd (timer_irq s r) in
  run_ok s' t /\ exists c', current s' = Some c' /\ task_list s' = task_list s /\
  (Z.of_nat (distance s' c' t) * 3 + Z.max 1 (time_slice (get s' c')) <
   Z.of_nat (distance s c t) * 3 + Z.max 1 (time_slice (get s c))).
Proof.
  intros [Hnd (c0 & Hc0 & Hin) Hp Hsl Ht Hr] Hc. rewrite Hc in Hc0. injection Hc0 as <-. unfold timer_irq.
  set (s0 := with_jiffies s (jiffies s +w 1)).
  destruct (task_tick_spec s0 c Hnd Hc Hin) as (T1 & T2 & T3).
  pose proof (task_tick_rest s0 Hnd) as Hrest. pose proof (tick_sets_need_resched s0 c Hc Hnd Hin) as Hneed.
  set (s1 := task_tick s0) in *. unfold rest in Hrest. injection Hrest as E1 E2 _ _ E3 _ _ _ _ _.
  change (task_list s0) with (task_list s) in E1. change (current s0) with (current s) in E2.
  change (kernel_preempt_count s0) with (kernel_preempt_count s) in E3.
  change (get s0) with (get s) in T2, T3. rewrite E3, Hp. cbn [Z.eqb andb].
  destruct (task_should_resched s1) eqn:Es.
  - specialize (Hneed eq_refl). intros Hne.
    assert (Hok1 : run_ok s1 t).
    { split; rewrite ?E1; try done; [exists c; by rewrite E2|congruence|intros u; specialize (T2 u); specialize (Hsl u); lia|by apply T1]. }
    destruct (schedule_progress s1 r t c Hok1) as (K1 & c' & K2 & K3 & K4); [congruence|done|done|]. split; [done|]. exists c'.
    split; [done|]. split; [congruence|]. pose proof (ro_slices _ _ K1 c'). unfold distance in *. rewrite E1 in K4. lia.
  - specialize (T3 eq_refl). cbn [snd]. intros Hne. split.
    + split; rewrite ?E1; try done; [exists c; by rewrite E2|congruence|intros u; specialize (T2 u); specialize (Hsl u); lia|by apply T1].
    + exists c. split; [congruence|]. split; [done|]. unfold distance. rewrite E1. lia.
Qed.

(** C17: round robin is fair: a runnable task on the list is given the processor
    after at most three timer interrupts per task on the list, whatever the others
    do in between (blocking, sleeping, waking tasks up, calling the scheduler), as
    long as it stays runnable, no task joins or leaves the list, preemption is
    enabled, and time slices stay within the three ticks and are not extended by
    their task. *)
Theorem bounded_waiting s t n s' :
  run_ok s t -> run t s n s' -> Z.of_nat n <= 3 * Z.of_nat (length (task_list s)).
Proof.
  intros Hok Hrun. destruct (ro_cur s t Hok) as (c & Hc & Hin).
  assert (Hm : Z.of_nat n <= Z.of_nat (distance s c t) * 3 + Z.max 1 (time_slice (get s c))).
  { clear Hin. revert c Hc. induction Hrun as [s|s r n s' Hne Hrun IH|s r n s' Hnr Hne Hrun IH|s s1 n s' E1 E2 Hok1 Hsl Hrun IH]; intros c Hc; [lia| | |].
    - destruct (timer_irq_progress s r t c Hok Hc Hne) as (Hok' & c' & Hc' & _ & Hlt).
      specialize (IH Hok' c' Hc'). lia.
    - destruct (schedule_progress s r t c Hok Hc Hnr Hne) as (Hok' & c' & Hc' & _ & Hlt).
      specialize (IH Hok' c' Hc'). pose proof (ro_slices _ _ Hok' c'). lia.
    - rewrite <- E2 in Hc. specialize (IH Hok1 c Hc). rewrite E2 in Hc. specialize (Hsl c Hc).
      unfold distance in *. rewrite E1 in IH. lia. }
  pose proof (distance_bound s c t (ro_list s t Hok) Hin). pose proof (ro_slices s t Hok c). lia.
Qed.

(** no wakeup is lost: [wake_up_all] makes every task that is blocked on the
    queue runnable, with a time slice, off the queue; it touches no other task and
    leaves the queue empty and all queues consistent. *)
Theorem wake_up_all_correct q s :
  wait_ok s ->
  wait_ok (wake_up_all q s) /\ waiters (wake_up_all q s) q = [] /\
  (forall t k, tasks s !! t = Some k -> state k = TASK_BLOCKED -> waitq k = Some q ->
    exists k', tasks (wake_up_all q s) !! t = Some k' /\ state k' = TASK_RUNNABLE /\ 0 < time_slice k' /\ waitq k' = None) /\
  (forall t k, tasks s !! t = Some k -> waitq k <> Some q -> tasks (wake_up_all q s) !! t = Some k) /\
  rest (wake_up_all q s) = rest s.
Proof.
  intros Hok. pose proof Hok as [L N Q B]. destruct (wake_up_all_spec q s (N q)) as (T & Qs & Hr).
  split; [by apply wake_up_all_ok|]. split; [unfold waiters; by rewrite Qs, lookup_insert_eq|].
  split; [|split; [|done]].
  - intros t k Hk Hb Hw. rewrite T, decide_True.
    2:{ unfold waiters. apply L. exists k. split; [done|]. rewrite (Q t k Hk). by rewrite Hw. }
    rewrite Hk. eexists. split; [done|]. unfold wake_task, wake_state. cbn [set_waitq set_wait_link state]. rewrite Hb.
    unfold slice. cbn [set_state set_waitq set_wait_link time_slice]. destruct (Z.leb_spec (time_slice k) 0); by cbn.
  - intros t k Hk Hw. rewrite T, decide_False; [done|]. unfold waiters. rewrite L. intros (k' & Hk' & E).
    rewrite Hk in Hk'. injection Hk' as <-. rewrite (Q t k Hk) in E. destruct (waitq k); cbn in E; congruence.
Qed.

(** [wake_up_nr] with a positive number loses waiters: the first blocked waiter
    is woken and the loop stops, but the others have already been taken off the
    queue and stay blocked on no queue at all. *)
Theorem wake_up_nr_loses_waiters q s t u l kt ku :
  wait_ok s -> waiters s q = t :: u :: l -> tasks s !! t = Some kt -> state kt = TASK_BLOCKED ->
  tasks s !! u = Some ku -> state ku = TASK_BLOCKED ->
  let s' := wake_up_nr q 1 s in
  exists k', tasks s' !! u = Some k' /\ state k' = TASK_BLOCKED /\ waitq k' = Some q /\
    forall q', u ∉ waiters s' q'.
Proof.
  intros [L N Q B] Hw Ht Hbt Hu Hbu s'.
  assert (Htu : t <> u) by (pose proof (N q) as Hnd; unfold waiters in Hw; rewrite Hw in Hnd; apply NoDup_cons in Hnd as [Hnd _]; intros ->; apply Hnd; by left).
  assert (Hnd : NoDup (t :: u :: l)) by (rewrite <- Hw; apply N).
  assert (Hqu : waitq ku = Some q).
  { assert (Hin : u ∈ waiters s q) by (rewrite Hw; right; by left). unfold waiters in Hin. apply L in Hin as (k & Hk & E).
    rewrite Hu in Hk. injection Hk as <-. rewrite (Q u ku Hu) in E. destruct (waitq ku); cbn in E; congruence. }
  unfold s', wake_up_nr, __wake_up. rewrite Hw.
  destruct (upd_list_spec (set_wait_link (Some Stale)) (t :: u :: l) s) as (A & B' & _).
  set (s0 := foldl _ s (t :: u :: l)) in *. set (s1 := set_waiters q [] s0). cbn [wake_loop]. unfold default_wake_function.
  assert (T1 : forall v, tasks s1 !! v = if decide (v ∈ t :: u :: l) then set_wait_link (Some Stale) <$> tasks s !! v else tasks s !! v).
  { intros v. change (tasks s1) with (tasks s0). rewrite A. by apply lookup_alter_list. }
  set (s2 := upd (set_waitq None) t (upd (set_wait_link None) t s1)).
  destruct (wake_up_process_spec t s2) as (P1 & P2 & _).
  assert (E2 : state (get s2 t) = TASK_BLOCKED).
  { unfold s2. rewrite !get_upd_field by done. unfold get. rewrite T1, decide_True by (by left). by rewrite Ht. }
  assert (E3 : fst (wake_up_process t s2) = 1) by (unfold wake_up_process; by rewrite E2).
  destruct (wake_up_process t s2) as [r s3]. cbn [fst snd] in *. subst r. change (Z.lor 0 1) with 1.
  change ((0 <? 1) && (1 <=? 1)) with true. cbv beta iota zeta. change (negb (1 =? 0)) with true. cbv iota.
  change (tasks (task_set_need_resched s3)) with (tasks s3).
  exists (set_wait_link (Some Stale) ku). split_and!; try done.
  - rewrite P1, lookup_alter_ne by done. unfold s2. rewrite !lookup_upd, !decide_False by done.
    rewrite T1, decide_True by (right; by left). by rewrite Hu.
  - intros q'. unfold waiters. change (queues (task_set_need_resched s3)) with (queues s3). rewrite P2.
    change (queues s2) with (<[q := []]> (queues s0)). rewrite B'. destruct (decide (q = q')) as [<-|Hne].
    + rewrite lookup_insert_eq. apply not_elem_of_nil.
    + rewrite lookup_insert_ne by done. rewrite L. intros (k & Hk & E). rewrite Hu in Hk. injection Hk as <-.
      rewrite (Q u ku Hu), Hqu in E. cbn in E. congruence.
Qed.
End lemmas.

(** ** Concrete states *)

Module Demo.

(** Address spaces are numbers. *)
#[global] Instance res_unit : TaskRes unit := {|
  dup_mm m _ := (Some (m + 1), tt); mm_create _ := (Some 1, tt); mm_destroy _ _ := tt; mm_pgd m _ := m;
  kernel_pgd _ := 0; files_init _ _ := tt; files_clone _ _ _ := tt; files_close_all _ _ := tt;
  dentry_get _ _ := tt; vfs_dentry_put _ _ := tt; root_dentry _ := None |}.

Definition task (st : tstate) (w : option wqid) : task_struct :=
  Task 1 0 None None (Thread no_regs 0) true [] None 0 st 3 None (ExitInfo 0 0 0 0) [] (FS None None) (Cred 0 0 0)
    w (option_map Linked w).

(** Task 1 runs; 2 and 3 are blocked on queue 7. *)
Definition blocked : kstate (M := Heap.heap) (R := unit) :=
  KState {[1 := task TASK_RUNNABLE None; 2 := task TASK_BLOCKED (Some (Queue 7)); 3 := task TASK_BLOCKED (Some (Queue 7))]}
    [1; 2; 3] (Some 1) false 0 0 0 0 {[Queue 7 := [2; 3]]} 0 0 (Heap.init 0) tt.

Lemma blocked_task t k :
  tasks blocked !! t = Some k -> k = task TASK_RUNNABLE None \/ (k = task TASK_BLOCKED (Some (Queue 7)) /\ (t = 2 \/ t = 3)).
Proof.
  cbn [blocked tasks]. rewrite !lookup_insert_Some, lookup_singleton_Some. naive_solver.
Qed.

Lemma blocked_ok : wait_ok blocked.
Proof.
  split.
  - intros t q. cbn [blocked queues]. destruct (decide (q = Queue 7)) as [->|Hq].
    + rewrite lookup_singleton_eq. cbn. rewrite !elem_of_cons, elem_of_nil. split.
      * intros [->|[->|[]]]; eexists; by vm_compute.
      * intros (k & Hk & E). apply blocked_task in Hk as [->|[-> [->| ->]]]; [done|auto..].
    + rewrite lookup_singleton_ne by done. cbn. rewrite elem_of_nil. split; [done|].
      intros (k & Hk & E). apply blocked_task in Hk as [->|[-> _]]; [done|]. cbn in E. congruence.
  - intros q. cbn [blocked queues]. destruct (decide (q = Queue 7)) as [->|Hq].
    + rewrite lookup_singleton_eq. apply (bool_decide_unpack _). by vm_compute.
    + rewrite lookup_singleton_ne by done. apply NoDup_nil_2.
  - intros t k Hk. apply blocked_task in Hk as [->|[-> _]]; done.
  - intros t k Hk _ Hb. apply blocked_task in Hk as [->|[-> _]]; [done|]. by eexists.
Qed.

Lemma wake_up_all_correct_witness :
  state (get blocked 3) = TASK_BLOCKED /\ waiters (wake_up_all (Queue 7) blocked) (Queue 7) = [].
Proof. split; [by vm_compute|]. apply (wake_up_all_correct (Queue 7) blocked blocked_ok). Defined.

Lemma wake_up_nr_loses_waiters_witness :
  exists k', tasks (wake_up_nr (Queue 7) 1 blocked) !! 3 = Some k' /\ state k' = TASK_BLOCKED /\
    3 ∉ waiters (wake_up_nr (Queue 7) 1 blocked) (Queue 7).
Proof.
  destruct (wake_up_nr_loses_waiters (Queue 7) blocked 2 3 [] (get blocked 2) (get blocked 3) blocked_ok)
    as (k' & H1 & H2 & _ & H3).
  - by vm_compute.
  - by vm_compute.
  - by vm_compute.
  - by vm_compute.
  - by vm_compute.
  - exists k'. exact (conj H1 (conj H2 (H3 (Queue 7)))).
Defined.

(** Both woken, task 3 waits for its turn. *)
Definition woken : kstate (M := Heap.heap) (R := unit) := Eval vm_compute in wake_up_all (Queue 7) blocked.

Lemma bounded_waiting_witness : 2 <= 3 * Z.of_nat (length (task_list woken)).
Proof.
  apply (bounded_waiting woken 3 2 (snd (timer_irq (snd (timer_irq woken no_regs)) no_regs))).
  - split.
    + apply (bool_decide_unpack _). by vm_compute.
    + exists 1. split; [done|]. by left.
    + done.
    + intros u. assert (H : map_Forall (fun _ k => time_slice k <= 3) (tasks woken)) by (apply (bool_decide_unpack _); by vm_compute).
      unfold get. destruct (tasks woken !! u) as [k|] eqn:E; cbn [default]; [by apply (H u k E)|cbn; lia].
    + cbn. right. right. by left.
    + by vm_compute.
  - apply run_tick with no_regs; [by vm_compute|]. apply run_tick with no_regs; [by vm_compute|]. apply run_nil.
Defined.
End Demo.
