(* ===== verification/Process.v ===== *)
(** * Process creation, exit, signals and reaping ([kernel/fork.c],
    [kernel/exit.c], [kernel/signal.c], [kernel/pid.c], [do_waitpid] of
    [kernel/sched/wait.c], [init_task] of [kernel/sched/core.c])

    A function that can panic, or whose loop can run forever, gives an
    [outcome].  [do_waitpid] is modelled per round of its loop: a round returns,
    or leaves the caller blocked and [task_yield]s. *)

From stdpp Require Import base tactics numbers list gmap sets.
From Stdlib Require Import ZArith Lia.
From S2P Require Import Prelude Task.

(** [Endless]: the loop has not ended within the given number of rounds. *)
Inductive outcome (A : Type) : Type := Done (a : A) | Panic | Endless.
Arguments Done {A} _.
Arguments Panic {A}.
Arguments Endless {A}.

Definition obind {A B} (x : outcome A) (f : A -> outcome B) : outcome B :=
  match x with Done a => f a | Panic => Panic | Endless => Endless end.
Notation "'let!' x := c1 'in' c2" := (obind c1 (fun x => c2))
  (at level 200, x pattern, c1 at level 200, c2 at level 200).

Definition TASK_EXIT_NORMAL : Z := 0.
Definition TASK_EXIT_SIGNAL : Z := 3.
Definition SIGINT : Z := 2.
Definition SIGKILL : Z := 9.
Definition SIGTERM : Z := 15.
Definition SIGCHLD : Z := 17.

Section process.
Context {M : Type} `{!KAlloc M} {R : Type} `{!TaskRes R}.
(** [sizeof(struct task_struct)] *)
Context (sizeof_task : Z).
Notation kstate := (kstate (M := M) (R := R)).
Implicit Types (s : kstate) (t p : Z).

(** ** Creation *)

Definition copy_thread (stack entry : Z) (parent_regs : option pt_regs) : pt_regs :=
  let stack_top := stack +w THREAD_SIZE in
  match parent_regs with
  | Some r => Regs (ds r) (edi r) (esi r) 0 stack_top (ebx r) (edx r) (ecx r) 0
                (int_no r) (err_code r) (eip r) (cs r) (eflags r) (useresp r) (ss r)
  | None => Regs 16 0 0 0 stack_top 0 0 0 0 0 0 entry 8 514 stack_top 16
  end.

(** The name is the program name cut to 31 bytes. *)
Definition set_task_comm (program : list Z) (k : task_struct) : task_struct := set_comm (take 31 program) k.

Definition get_opt (o : option Z) (r : R) : R := match o with Some d => dentry_get d r | None => r end.

(** Link a new task: last child of its parent, last of the task list. *)
Definition link_task (par : option Z) t s : kstate :=
  let s1 := match par with
            | Some p => upd (set_sibling (Some p)) t (upd (fun k => set_children (children k ++ [t]) k) p s)
            | None => s
            end in
  upd (set_on_tasks true) t (with_task_list s1 (task_list s1 ++ [t])).

Definition sys_fork s (r : pt_regs) : Z * kstate :=
  match current s with
  | None => (-1, s)
  | Some par =>
      match mm (get s par) with
      | None => (-1, s)
      | Some pmm =>
          let '(task, h1) := kmalloc sizeof_task (kheap s) in
          let '(stack, h2) := kmalloc THREAD_SIZE h1 in
          match task, stack with
          | Some t, Some st =>
              match dup_mm pmm (res s) with
              | (None, r1) => (-1, with_res (with_kheap s (kfree t (kfree st h2))) r1)
              | (Some cmm, r1) =>
                  let pk := get s par in
                  let pd := last_pid s +w 1 in
                  let k := Task 1 pd (Some par) (Some par) (Thread (copy_thread st 0 (Some r)) (st +w THREAD_SIZE))
                             false [] None 0 TASK_RUNNABLE TASK_TIMESLICE_TICKS (Some cmm) (ExitInfo 0 0 0 0)
                             (take 31 (comm pk)) (fs pk) (creds pk) None None in
                  let r2 := get_opt (root (fs pk)) (get_opt (pwd (fs pk)) r1) in
                  let r3 := files_clone t par (files_init t r2) in
                  let s1 := with_last_pid (with_res (with_kheap s h2) r3) pd in
                  let s2 := set_waiters (ChildExit t) [] (with_tasks s1 (<[t := k]> (tasks s1))) in
                  (pd, link_task (Some par) t s2)
              end
          | Some t, None => (-1, with_kheap s (kfree t h2))
          | None, Some st => (-1, with_kheap s (kfree st h2))
          | None, None => (-1, with_kheap s h2)
          end
      end
  end.

(** The task or the stack is not freed when the other allocation fails. *)
Definition task_create_internal s (entry : Z) (program : option (list Z)) : Z * kstate :=
  let '(task, h1) := kmalloc sizeof_task (kheap s) in
  let '(stack, h2) := kmalloc THREAD_SIZE h1 in
  match task, stack with
  | Some t, Some st =>
      let pd := last_pid s +w 1 in
      let '(m, failed, r1) :=
        match program with
        | None => (None, false, res s)
        | Some _ => match mm_create (res s) with
                    | (Some m, r1) => (Some m, false, r1)
                    | (None, r1) => (None, true, r1)
                    end
        end in
      if (failed : bool) then (-1, with_last_pid (with_res (with_kheap s (kfree t (kfree st h2))) r1) pd)
      else
        let '(f, c) := match current s with
                       | Some par => (fs (get s par), creds (get s par))
                       | None => (FS (root_dentry r1) (root_dentry r1), Cred 0 0 18)
                       end in
        let k := Task 1 pd (current s) (current s) (Thread (copy_thread st entry None) (st +w THREAD_SIZE))
                   false [] None 0 TASK_RUNNABLE TASK_TIMESLICE_TICKS m (ExitInfo 0 0 0 0)
                   (take 31 (default [] program)) f c None None in
        let r2 := files_init t (get_opt (root f) (get_opt (pwd f) r1)) in
        let s1 := with_last_pid (with_res (with_kheap s h2) r2) pd in
        let s2 := set_waiters (ChildExit t) [] (with_tasks s1 (<[t := k]> (tasks s1))) in
        (pd, link_task (current s) t s2)
  | _, _ => (-1, with_kheap s h2)
  end.

Definition kernel_thread s (entry : Z) : Z * kstate := task_create_internal s entry None.
Definition kernel_create_user s (user_task : Z) (program : list Z) : Z * kstate :=
  task_create_internal s user_task (Some program).

(** The boot task: pid 0, running. *)
Definition init_task (h : M) (r : R) (idle : Z) : outcome kstate :=
  let '(task, h1) := kmalloc sizeof_task h in
  let '(stack, h2) := kmalloc THREAD_SIZE h1 in
  match task, stack with
  | Some t, Some st =>
      let d := root_dentry r in
      let k := Task 1 0 None None (Thread (copy_thread st idle None) (st +w THREAD_SIZE)) true [] None 0
                 TASK_RUNNABLE TASK_TIMESLICE_TICKS None (ExitInfo 0 0 0 0) [] (FS d d) (Cred 0 0 18) None None in
      Done (KState {[t := k]} [t] (Some t) false 0 0 0 0 {[ChildExit t := []]} (kernel_pgd r) (st +w THREAD_SIZE) h2
              (files_init t (get_opt d (get_opt d r))))
  | _, _ => Panic
  end.

(** ** Reference counts and release *)

Definition is_idle_task (k : task_struct) : bool := pid k =? 0.
Definition is_global_init (k : task_struct) : bool := pid k =? 1.

Definition task_release_invariant_holds (k : task_struct) : bool :=
  negb (is_idle_task k) && bool_decide (state k = TASK_ZOMBIE) && bool_decide (real_parent k = None) &&
  bool_decide (parent k = None) && negb (on_tasks k) && bool_decide (sibling k = None) &&
  bool_decide (children k = []) && bool_decide (waitq k = None).

Definition get_task_struct t s : kstate := upd (fun k => set_usage (usage k + 1) k) t s.

Definition __put_task_struct t s : outcome kstate :=
  let k := get s t in
  if negb (task_release_invariant_holds k) then Panic
  else if negb (usage k =? 0) then Panic
  else
    let h := if negb (sp0 (thread k) =? 0) then kfree (sp0 (thread k) -w THREAD_SIZE) (kheap s) else kheap s in
    Done (with_tasks (with_kheap s (kfree t h)) (delete t (tasks s))).

Definition put_task_struct t s : outcome kstate :=
  let s1 := upd (fun k => set_usage (usage k - 1) k) t s in
  if usage (get s1 t) =? 0 then __put_task_struct t s1 else Done s1.

(** [list_del_init] on the [sibling] and [tasks] nodes. *)
Definition unlink_sibling t s : kstate :=
  match sibling (get s t) with
  | None => s
  | Some p => upd (set_sibling None) t (upd (fun k => set_children (filter (fun u => u <> t) (children k)) k) p s)
  end.

Definition unlink_tasks t s : kstate :=
  if on_tasks (get s t)
  then upd (set_on_tasks false) t (with_task_list s (filter (fun u => u <> t) (task_list s)))
  else s.

Definition release_task t s : outcome kstate :=
  if is_idle_task (get s t) then Done s
  else put_task_struct t (upd (fun k => set_parent None (set_real_parent None k)) t (unlink_tasks t (unlink_sibling t s))).

(** ** Exit *)

Definition find_task_by_vpid s (id : Z) : option Z :=
  List.find (fun t => pid (get s t) =? id) (task_list s).

(** The reaper, with a reference. *)
Definition task_reaper_locked s : option Z * kstate :=
  match find_task_by_vpid s 1 with
  | Some t => (Some t, get_task_struct t s)
  | None => match task_list s with
            | t :: _ => (Some t, get_task_struct t s)
            | [] => (None, s)
            end
  end.

(** The successor of [t] in a list; [None] is the list head. *)
Fixpoint next_in (l : list Z) t : option Z :=
  match l with
  | [] => None
  | u :: l' => if u =? t then head l' else next_in l' t
  end.

(** [list_for_each_entry_safe] over the children of [par], with [pos] the node it
    is at: the successor is read before the body moves the node to the end of the
    children of [reaper]. *)
Fixpoint reparent_loop (fuel : nat) (par reaper : Z) (pos : option Z) (wake : bool) s : outcome (bool * kstate) :=
  match pos with
  | None => Done (wake, s)
  | Some t =>
      match fuel with
      | O => Endless
      | S fuel' =>
          let n := next_in (children (get s par)) t in
          let s1 := upd (fun k => set_children (filter (fun u => u <> t) (children k)) k) par s in
          let s2 := upd (fun k => set_sibling (Some reaper) (set_parent (Some reaper) (set_real_parent (Some reaper) k))) t s1 in
          let s3 := upd (fun k => set_children (children k ++ [t]) k) reaper s2 in
          reparent_loop fuel' par reaper n (wake || bool_decide (state (get s3 t) = TASK_ZOMBIE)) s3
      end
  end.

Definition reparent_children (fuel : nat) (par reaper : Z) s : outcome (bool * kstate) :=
  reparent_loop fuel par reaper (head (children (get s par))) false s.

Definition put_opt (o : option Z) (r : R) : R := match o with Some d => vfs_dentry_put d r | None => r end.

Definition task_free_user_memory t s : kstate :=
  match mm (get s t) with
  | None => s
  | Some m => upd (set_mm None) t (with_res s (mm_destroy m (res s)))
  end.

Definition task_release_resources t s : kstate :=
  let s1 := task_free_user_memory t (with_res s (files_close_all t (res s))) in
  let f := fs (get s1 t) in
  upd (set_fs (FS None None)) t (with_res s1 (put_opt (root f) (put_opt (pwd f) (res s1)))).

Definition task_zombify t (code reason info0 info1 : Z) s : kstate :=
  if is_idle_task (get s t) then s
  else if bool_decide (state (get s t) = TASK_ZOMBIE) then s
  else upd (fun k => set_state TASK_ZOMBIE (set_exit (ExitInfo code reason info0 info1) k)) t
         (task_release_resources t s).

Definition signal_notify_exit t s : kstate :=
  match parent (get s t) with
  | None => s
  | Some p => wake_up_all (ChildExit p) (snd (wake_up_process p s))
  end.

Definition exit_notify (fuel : nat) t (code reason info0 info1 : Z) s : outcome kstate :=
  if is_idle_task (get s t) then Done s
  else if bool_decide (state (get s t) = TASK_ZOMBIE) then Done s
  else
    let s1 := if bool_decide (state (get s t) = TASK_BLOCKED) && bool_decide (is_Some (waitq (get s t)))
              then wait_queue_remove t s else s in
    let par := parent (get s1 t) in
    let s2 := match par with Some p => get_task_struct p s1 | None => s1 end in
    let '(reaper0, s3) := task_reaper_locked s2 in
    let reaper := default t reaper0 in
    let! (wake, s4) := reparent_children fuel t reaper s3 in
    let s5 := signal_notify_exit t (task_zombify t code reason info0 info1 s4) in
    let s6 := match par with Some p => wake_up_all (ChildExit p) s5 | None => s5 end in
    let s7 := if (wake : bool) then wake_up_all (ChildExit reaper) s6 else s6 in
    let! s8 := match par with Some p => put_task_struct p s7 | None => Done s7 end in
    let! s9 := if negb (reaper =? t) then put_task_struct reaper s8 else Done s8 in
    Done (task_set_need_resched s9).

Definition do_exit_reason (fuel : nat) (code reason info0 info1 : Z) s : outcome kstate :=
  match current s with
  | None => Done s
  | Some t => if is_idle_task (get s t) then Done s else exit_notify fuel t code reason info0 info1 s
  end.

Definition do_exit (fuel : nat) (code : Z) s : outcome kstate :=
  match current s with
  | None => Done s
  | Some t => if is_idle_task (get s t) then Done s else do_exit_reason fuel code TASK_EXIT_NORMAL 0 0 s
  end.

(** ** Signals *)

Definition signal_wake_up_state t s : kstate :=
  match state (get s t) with
  | TASK_SLEEPING => snd (wake_up_process t s)
  | TASK_BLOCKED =>
      match waitq (get s t) with
      | Some _ => snd (wake_up_process t (wait_queue_remove t s))
      | None => s
      end
  | _ => s
  end.

Definition sys_kill (fuel : nat) (id sig : Z) s : outcome (Z * kstate) :=
  if negb ((sig =? 0) || (sig =? SIGCHLD) || (sig =? SIGINT) || (sig =? SIGKILL) || (sig =? SIGTERM)) then Done (-1, s)
  else if id =? 0 then Done (-1, s)
  else if runqueue_empty s then Done (-1, s)
  else
    match find_task_by_vpid s id with
    | None => Done (-1, s)
    | Some t =>
        if is_idle_task (get s t) then Done (-1, s)
        else if sig =? 0 then Done (0, s)
        else if sig =? SIGCHLD then
          match parent (get s t) with
          | None => Done (-1, s)
          | Some p => Done (0, signal_wake_up_state p s)
          end
        else if bool_decide (state (get s t) = TASK_ZOMBIE) then Done (0, s)
        else if bool_decide (mm (get s t) = None) then Done (-1, s)
        else if bool_decide (current s = Some t) then
          let! s1 := do_exit_reason fuel (128 + sig) TASK_EXIT_SIGNAL sig 0 s in Done (0, s1)
        else if is_global_init (get s t) then Done (-1, s)
        else
          let! s1 := exit_notify fuel t (128 + sig) TASK_EXIT_SIGNAL sig 0 s in Done (0, s1)
    end.

(** ** Waiting for children *)

(** The scan of the children: whether one matches, and the first matching zombie
    before the scan ends. *)
Fixpoint wait_scan s (want_any : bool) (id : Z) (l : list Z) (has_target : bool) : bool * option Z :=
  match l with
  | [] => (has_target, None)
  | t :: l' =>
      if negb (want_any || (pid (get s t) =? id)) then wait_scan s want_any id l' has_target
      else if bool_decide (state (get s t) = TASK_ZOMBIE) then (true, Some t)
      else if negb want_any then (true, None)
      else wait_scan s want_any id l' true
  end.

(** [Reaped pid info]: the call returns [pid] with the exit status; [Failed]: it
    returns -1; [Blocked]: the caller sleeps, and scans again when it runs. *)
Inductive waited : Type := Reaped (pid : Z) (info : exit_info) | Failed | Blocked.

Definition do_waitpid (id : Z) s : outcome (option (waited * kstate)) :=
  let want_any := id =? 4294967295 in
  if id =? 0 then Done (Some (Failed, s)) else
  match current s with
  | None => Done (Some (Failed, s))
  | Some c =>
      if negb want_any && (pid (get s c) =? id) then Done (Some (Failed, s)) else
      let '(has_target, found) := wait_scan s want_any id (children (get s c)) false in
      match found with
      | Some t =>
          let s1 := unlink_sibling t (get_task_struct t s) in
          let info := exit (get s1 t) in
          let pd := pid (get s1 t) in
          let! s2 := release_task t s1 in
          let! s3 := put_task_struct t s2 in
          Done (Some (Reaped pd info, s3))
      | None =>
          if bool_decide (children (get s c) = []) || negb has_target then Done (Some (Failed, s))
          else match wait_queue_block_locked (ChildExit c) s with
               | Some s1 => Done (Some (Blocked, s1))
               | None => Done None
               end
      end
  end.
End process.

(** ** The process tree *)

(** The fields of a task that make up the tree and the task list. *)
Record tnode : Type := Node {
  n_usage : Z; n_pid : Z; n_parent : option Z; n_sp0 : Z; n_on : bool; n_children : list Z; n_sib : option Z;
}.

Definition view (k : task_struct) : tnode :=
  Node (usage k) (pid k) (parent k) (sp0 (thread k)) (on_tasks k) (children k) (sibling k).

(** The kernel stack of a task. *)
Definition n_stack (k : tnode) : Z := n_sp0 k -w THREAD_SIZE.

(** On nodes: the operations on the tree. *)
Definition add_usage (d : Z) (k : tnode) : tnode :=
  Node (n_usage k + d) (n_pid k) (n_parent k) (n_sp0 k) (n_on k) (n_children k) (n_sib k).
Definition add_child (t : Z) (k : tnode) : tnode :=
  Node (n_usage k) (n_pid k) (n_parent k) (n_sp0 k) (n_on k) (n_children k ++ [t]) (n_sib k).
Definition del_child (t : Z) (k : tnode) : tnode :=
  Node (n_usage k) (n_pid k) (n_parent k) (n_sp0 k) (n_on k) (filter (fun u => u <> t) (n_children k)) (n_sib k).
Definition adopt (p : option Z) (k : tnode) : tnode :=
  Node (n_usage k) (n_pid k) p (n_sp0 k) (n_on k) (n_children k) p.
Definition set_on (b : bool) (k : tnode) : tnode :=
  Node (n_usage k) (n_pid k) (n_parent k) (n_sp0 k) b (n_children k) (n_sib k).

Section tree.
Context {M : Type} `{!KAlloc M, !KAllocSpec M}.
Context (idle : Z).
Implicit Types (n : gmap Z tnode) (l : list Z) (h : M).

(** The task list and the tree of parents and children agree with the fields of
    the tasks; pids are distinct and not above [lp]; the idle task is first, has
    pid 0 and no parent; pid 1 is its child; every task owns its structure and its
    stack. *)
Record tree_inv n l (lp : Z) h : Prop := TreeInv {
  ti_nodup_list : NoDup l;
  ti_on t : t ∈ l <-> exists k, n !! t = Some k /\ n_on k = true;
  ti_head : head l = Some idle;
  ti_idle k : n !! idle = Some k -> n_pid k = 0 /\ n_sib k = None;
  ti_usage t k : n !! t = Some k -> 1 <= n_usage k;
  ti_pid t k : n !! t = Some k -> 0 <= n_pid k <= lp /\ (n_pid k = 0 -> t = idle);
  ti_pids t k t' k' : n !! t = Some k -> n !! t' = Some k' -> n_pid k = n_pid k' -> t = t';
  ti_parent t k : n !! t = Some k -> n_parent k = n_sib k;
  ti_sib t k p : n !! t = Some k -> n_sib k = Some p -> t <> p /\ exists kp, n !! p = Some kp /\ t ∈ n_children kp;
  ti_child p kp t : n !! p = Some kp -> t ∈ n_children kp -> exists k, n !! t = Some k /\ n_sib k = Some p;
  ti_nodup p kp : n !! p = Some kp -> NoDup (n_children kp);
  ti_init t k : n !! t = Some k -> n_pid k = 1 -> n_sib k = None \/ n_sib k = Some idle;
  ti_heap : km_ok h;
  ti_own t k : n !! t = Some k -> t ∈ live h /\ n_stack k ∈ live h /\ n_stack k ∉ dom n;
  ti_stack t k t' k' : n !! t = Some k -> n !! t' = Some k' -> t <> t' -> n_stack k <> n_stack k';
}.

(** Reference counts. *)
Lemma add_usage_ok n l lp h t d :
  (forall k, n !! t = Some k -> 1 <= n_usage k + d) -> tree_inv n l lp h -> tree_inv (alter (add_usage d) t n) l lp h.
Proof.
  intros Hd [K1 K2 K3 K4 K5 K6 K7 K8 K9 K10 K11 K12 K13 K14 K15].
  assert (Hl : forall u x, alter (add_usage d) t n !! u = Some x ->
    exists k, n !! u = Some k /\ n_pid x = n_pid k /\ n_parent x = n_parent k /\ n_on x = n_on k /\
      n_children x = n_children k /\ n_sib x = n_sib k /\ n_stack x = n_stack k /\ 1 <= n_usage x).
  { intros u x (k & Hk & ->)%alter_some. exists k. specialize (K5 u k Hk). case_decide; subst; [specialize (Hd k Hk)|]; done. }
  assert (Hr : forall u k, n !! u = Some k -> exists x, alter (add_usage d) t n !! u = Some x /\ n_on x = n_on k /\
      n_children x = n_children k /\ n_sib x = n_sib k).
  { intros u k Hk. destruct (decide (t = u)) as [->|Hne].
    - rewrite lookup_alter_eq, Hk. by eexists.
    - rewrite lookup_alter_ne, Hk by done. by eexists. }
  split; try done.
  - intros u. rewrite K2. split; [intros (k & Hk & E); destruct (Hr u k Hk) as (x & Hx & E' & _); exists x; by rewrite E'|].
    intros (x & (k & Hk & _ & _ & E & _)%Hl & E'). exists k. by rewrite <- E.
  - intros x (k & Hk & -> & _ & _ & _ & -> & _)%Hl. by apply K4.
  - intros u x (k & Hk & _ & _ & _ & _ & _ & _ & ?)%Hl. done.
  - intros u x (k & Hk & -> & _)%Hl. by apply K6.
  - intros u x u' x' (k & Hk & -> & _)%Hl (k' & Hk' & -> & _)%Hl. by eapply K7.
  - intros u x (k & Hk & _ & -> & _ & _ & -> & _)%Hl. by eapply K8.
  - intros u x p (k & Hk & _ & _ & _ & _ & -> & _)%Hl E. destruct (K9 u k p Hk E) as (A & kp & Hkp & Hin). split; [done|].
    destruct (Hr p kp Hkp) as (y & Hy & _ & E' & _). exists y. by rewrite E'.
  - intros p x u (k & Hk & _ & _ & _ & E & _)%Hl Hin. rewrite E in Hin. destruct (K10 p k u Hk Hin) as (ku & Hku & E').
    destruct (Hr u ku Hku) as (y & Hy & _ & _ & E2). exists y. by rewrite E2.
  - intros p x (k & Hk & _ & _ & _ & -> & _)%Hl. by eapply K11.
  - intros u x (k & Hk & -> & _ & _ & _ & -> & _)%Hl. by eapply K12.
  - intros u x (k & Hk & _ & _ & _ & _ & _ & -> & _)%Hl. rewrite dom_alter. by apply (K14 u).
  - intros u x u' x' (k & Hk & _ & _ & _ & _ & _ & -> & _)%Hl (k' & Hk' & _ & _ & _ & _ & _ & -> & _)%Hl. by eapply K15.
Qed.

(** A child moves from [par] to [p]. *)
Definition move_child (par t p : Z) n : gmap Z tnode :=
  alter (add_child t) p (alter (adopt (Some p)) t (alter (del_child t) par n)).

Lemma lookup_move par t p n kp kt kr :
  n !! par = Some kp -> n !! t = Some kt -> n !! p = Some kr -> par <> t -> par <> p -> t <> p ->
  forall u, move_child par t p n !! u =
    if decide (u = par) then Some (del_child t kp) else if decide (u = t) then Some (adopt (Some p) kt)
    else if decide (u = p) then Some (add_child t kr) else n !! u.
Proof.
  intros Hp Ht Hr A B C u. unfold move_child.
  destruct (decide (u = par)) as [->|N1]; [by rewrite !lookup_alter_ne, lookup_alter_eq, Hp by done|].
  destruct (decide (u = t)) as [->|N2]; [by rewrite lookup_alter_ne, lookup_alter_eq, lookup_alter_ne, Ht by done|].
  destruct (decide (u = p)) as [->|N3]; [by rewrite lookup_alter_eq, !lookup_alter_ne, Hr by done|].
  by rewrite !lookup_alter_ne by done.
Qed.

Lemma move_child_ok n l lp h par t p kp kr :
  tree_inv n l lp h -> n !! par = Some kp -> t ∈ n_children kp -> n !! p = Some kr -> par <> p -> t <> p -> par <> idle ->
  tree_inv (move_child par t p n) l lp h.
Proof.
  intros Hi Hp Hin Hr Hpp Htp Hid. pose proof Hi as [K1 K2 K3 K4 K5 K6 K7 K8 K9 K10 K11 K12 K13 K14 K15].
  destruct (K10 par kp t Hp Hin) as (kt & Ht & Hsib). destruct (K9 t kt par Ht Hsib) as [Htpar _].
  pose proof (lookup_move par t p n kp kt kr Hp Ht Hr ltac:(done) Hpp Htp) as HL.
  assert (Hid' : t <> idle) by (intros ->; destruct (K4 kt Ht); congruence).
  assert (Hl : forall u x, move_child par t p n !! u = Some x ->
    exists k, n !! u = Some k /\ n_pid x = n_pid k /\ n_on x = n_on k /\ n_usage x = n_usage k /\ n_stack x = n_stack k /\
      n_sib x = (if decide (u = t) then Some p else n_sib k) /\ n_parent x = (if decide (u = t) then Some p else n_parent k) /\
      n_children x = (if decide (u = par) then filter (fun v => v <> t) (n_children k)
                      else if decide (u = p) then n_children k ++ [t] else n_children k)).
  { intros u x. rewrite HL. intros E.
    destruct (decide (u = par)) as [->|N1]; [injection E as <-; exists kp; repeat case_decide; done|].
    destruct (decide (u = t)) as [->|N2]; [injection E as <-; exists kt; repeat case_decide; done|].
    destruct (decide (u = p)) as [->|N3]; [injection E as <-; exists kr; done|]. by exists x. }
  assert (Hd : forall u k, n !! u = Some k -> exists x, move_child par t p n !! u = Some x /\ n_on x = n_on k).
  { intros u k Hk. rewrite HL.
    destruct (decide (u = par)) as [->|N1]; [simplify_eq; by eexists|].
    destruct (decide (u = t)) as [->|N2]; [simplify_eq; by eexists|].
    destruct (decide (u = p)) as [->|N3]; [simplify_eq; by eexists|]. by exists k. }
  split; try done.
  - intros u. rewrite K2. split; [intros (k & Hk & E); destruct (Hd u k Hk) as (x & Hx & E'); exists x; by rewrite E'|].
    intros (x & (k & Hk & _ & E & _)%Hl & E'). exists k. by rewrite <- E.
  - intros x (k & Hk & -> & _ & _ & _ & -> & _)%Hl. rewrite decide_False by done. by apply K4.
  - intros u x (k & Hk & _ & _ & -> & _)%Hl. by eapply K5.
  - intros u x (k & Hk & -> & _)%Hl. by apply K6.
  - intros u x u' x' (k & Hk & -> & _)%Hl (k' & Hk' & -> & _)%Hl. by eapply K7.
  - intros u x (k & Hk & _ & _ & _ & _ & -> & -> & _)%Hl. case_decide; [done|]. by eapply K8.
  - intros u x p' (k & Hk & _ & _ & _ & _ & -> & _)%Hl E. case_decide as D.
    + subst u. injection E as <-. split; [done|]. exists (add_child t kr). rewrite HL.
      rewrite decide_False, decide_False, decide_True by done. split; [done|]. cbn. apply elem_of_app. right. by left.
    + destruct (K9 u k p' Hk E) as (A & kp' & Hkp' & Hin'). split; [done|]. rewrite HL.
      destruct (decide (p' = par)) as [->|]; [|destruct (decide (p' = t)) as [->|]; [|destruct (decide (p' = p)) as [->|]]].
      * simplify_eq. eexists. split; [done|]. cbn. by apply list_elem_of_filter.
      * simplify_eq. by eexists.
      * simplify_eq. eexists. split; [done|]. cbn. apply elem_of_app. by left.
      * by exists kp'.
  - intros p' x u (k & Hk & _ & _ & _ & _ & _ & _ & E)%Hl Hu. rewrite E in Hu.
    assert (Hcase : (u = t /\ p' = p) \/ (u <> t /\ u ∈ n_children k)).
    { case_decide as D1; [apply list_elem_of_filter in Hu; tauto|]. case_decide as D2.
      - subst p'. destruct (decide (u = t)); [by left|]. right. split; [done|].
        apply elem_of_app in Hu as [?|Hu]; [done|]. by apply list_elem_of_singleton in Hu.
      - right. split; [|done]. intros ->. destruct (K10 p' k t Hk Hu) as (k2 & Hk2 & E2). simplify_eq. }
    destruct Hcase as [[-> ->]|[Hne Hu']].
    + exists (adopt (Some p) kt). by rewrite HL, decide_False, decide_True by done.
    + destruct (K10 p' k u Hk Hu') as (ku & Hku & Es). destruct (Hd u ku Hku) as (y & Hy & _).
      exists y. split; [done|]. apply Hl in Hy as (k2 & Hk2 & _ & _ & _ & _ & -> & _). rewrite decide_False by done. congruence.
  - intros p' x (k & Hk & _ & _ & _ & _ & _ & _ & ->)%Hl. case_decide; [apply NoDup_filter; by eapply K11|].
    case_decide; [|by eapply K11]. subst p'. apply NoDup_app. split; [by eapply K11|]. split; [|apply NoDup_singleton].
    intros u Hu ->%list_elem_of_singleton. destruct (K10 p k t Hk Hu) as (k2 & Hk2 & E2). simplify_eq.
  - intros u x (k & Hk & -> & _ & _ & _ & -> & _)%Hl E. case_decide; [|by eapply K12]. subst u.
    destruct (K12 t k Hk E) as [E'|E']; simplify_eq.
  - intros u x (k & Hk & _ & _ & _ & -> & _)%Hl. unfold move_child. rewrite !dom_alter. by apply (K14 u).
  - intros u x u' x' (k & Hk & _ & _ & _ & -> & _)%Hl (k' & Hk' & _ & _ & _ & -> & _)%Hl. by eapply K15.
Qed.

(** A new task, last child of [par] and last of the list. *)
Definition add_task (t par pd sp : Z) n : gmap Z tnode :=
  alter (add_child t) par (<[t := Node 1 pd (Some par) sp true [] (Some par)]> n).

Lemma add_task_ok n l lp h h' t par st kp :
  tree_inv n l lp h -> n !! par = Some kp -> 0 <= lp < 4294967295 -> km_ok h' ->
  t ∉ live h -> st ∉ live h -> st <> t -> 0 < st < 4294967296 -> live h' = {[st]} ∪ ({[t]} ∪ live h) ->
  tree_inv (add_task t par (lp +w 1) (st +w THREAD_SIZE) n) (l ++ [t]) (lp +w 1) h'.
Proof.
  intros Hi Hp Hlp Hh' Ht Hst Hne Hstr Hlive. pose proof Hi as [K1 K2 K3 K4 K5 K6 K7 K8 K9 K10 K11 K12 K13 K14 K15].
  rewrite add32_id by lia. set (kt := Node 1 (lp + 1) (Some par) (st +w THREAD_SIZE) true [] (Some par)).
  assert (Htn : n !! t = None) by (destruct (n !! t) eqn:E; [|done]; by apply K14 in E as (? & _)).
  assert (Hpt : par <> t) by congruence.
  assert (Estack : n_stack kt = st).
  { unfold n_stack, kt, THREAD_SIZE, sub32, add32, u32. cbn [n_sp0].
    rewrite Zminus_mod_idemp_l. replace (st + 4096 - 4096) with st by lia. apply Z.mod_small. lia. }
  assert (Hidl : idle ∈ l) by (by apply head_Some_elem_of).
  assert (Hidn : is_Some (n !! idle)) by (apply K2 in Hidl as (k & -> & _); by eexists).
  assert (Hti : t <> idle) by (intros ->; destruct Hidn; congruence).
  assert (HL : forall u, add_task t par (lp + 1) (st +w THREAD_SIZE) n !! u =
    if decide (u = t) then Some kt else if decide (u = par) then Some (add_child t kp) else n !! u).
  { intros u. unfold add_task. destruct (decide (u = t)) as [->|N1]; [by rewrite lookup_alter_ne, lookup_insert_eq by done|].
    destruct (decide (u = par)) as [->|N2]; [by rewrite lookup_alter_eq, lookup_insert_ne, Hp by done|].
    by rewrite lookup_alter_ne, lookup_insert_ne by done. }
  assert (Hl : forall u x, add_task t par (lp + 1) (st +w THREAD_SIZE) n !! u = Some x ->
    (u = t /\ x = kt) \/ (u <> t /\ exists k, n !! u = Some k /\ n_pid x = n_pid k /\ n_on x = n_on k /\ n_usage x = n_usage k /\
      n_stack x = n_stack k /\ n_sib x = n_sib k /\ n_parent x = n_parent k /\
      n_children x = if decide (u = par) then n_children k ++ [t] else n_children k)).
  { intros u x. rewrite HL. destruct (decide (u = t)) as [->|N1]; [intros [= <-]; by left|]. intros E. right. split; [done|].
    destruct (decide (u = par)) as [->|N2]; [injection E as <-; by exists kp|by exists x]. }
  assert (Hd : forall u k, n !! u = Some k -> exists x, add_task t par (lp + 1) (st +w THREAD_SIZE) n !! u = Some x /\ n_on x = n_on k /\
    n_sib x = n_sib k /\ forall v, v ∈ n_children k -> v ∈ n_children x).
  { intros u k Hk. rewrite HL. rewrite decide_False by congruence. destruct (decide (u = par)) as [->|N2].
    - simplify_eq. eexists. split; [done|]. split; [done|]. split; [done|]. intros v Hv. cbn. apply elem_of_app. by left.
    - by exists k. }
  assert (Hnt : forall p' kp', n !! p' = Some kp' -> t ∉ n_children kp').
  { intros p' kp' Hkp' Hin. destruct (K10 p' kp' t Hkp' Hin) as (k & Hk & _). congruence. }
  assert (Hlv : forall x, x ∈ live h -> x ∈ live h') by (rewrite Hlive; set_solver).
  split; try done.
  - apply NoDup_app. split; [done|]. split; [|apply NoDup_singleton]. intros u Hu ->%list_elem_of_singleton.
    apply K2 in Hu as (k & Hk & _). congruence.
  - intros u. rewrite elem_of_app, list_elem_of_singleton, K2. split.
    + intros [(k & Hk & E)| ->]; [destruct (Hd u k Hk) as (x & Hx & E' & _); exists x; by rewrite E'|].
      exists kt. by rewrite HL, decide_True.
    + intros (x & [[-> ->]|(N & k & Hk & _ & E & _)]%Hl & E'); [by right|]. left. exists k. by rewrite <- E.
  - rewrite head_app, K3. done.
  - intros x [[E _]|(_ & k & Hk & -> & _ & _ & _ & -> & _)]%Hl; [by destruct Hti|]. by apply K4.
  - intros u x [[-> ->]|(_ & k & Hk & _ & _ & -> & _)]%Hl; [done|by eapply K5].
  - intros u x [[-> ->]|(_ & k & Hk & -> & _)]%Hl; [cbn; lia|]. destruct (K6 u k Hk). split; [lia|done].
  - intros u x u' x' [[-> ->]|(_ & k & Hk & -> & _)]%Hl [[-> ->]|(_ & k' & Hk' & -> & _)]%Hl; try done; cbn [kt n_pid].
    + destruct (K6 _ _ Hk'). lia.
    + destruct (K6 _ _ Hk). lia.
    + by eapply K7.
  - intros u x [[-> ->]|(_ & k & Hk & _ & _ & _ & _ & -> & -> & _)]%Hl; [done|by eapply K8].
  - intros u x p' [[-> ->]|(N & k & Hk & _ & _ & _ & _ & -> & _)]%Hl E.
    + injection E as <-. split; [done|]. exists (add_child t kp). rewrite HL, decide_False, decide_True by done.
      split; [done|]. cbn. apply elem_of_app. right. by left.
    + destruct (K9 u k p' Hk E) as (A & kp' & Hkp' & Hin). split; [done|].
      destruct (Hd p' kp' Hkp') as (y & Hy & _ & _ & Hsub). exists y. split; [done|]. by apply Hsub.
  - intros p' x u [[-> ->]|(N & k & Hk & _ & _ & _ & _ & _ & _ & E)]%Hl Hu; [by apply elem_of_nil in Hu|]. rewrite E in Hu.
    assert (Hcase : (u = t /\ p' = par) \/ u ∈ n_children k).
    { case_decide; [|by right]. apply elem_of_app in Hu as [?|Hu]; [by right|]. apply list_elem_of_singleton in Hu. by left. }
    destruct Hcase as [[-> ->]|Hu']; [exists kt; by rewrite HL, decide_True|].
    destruct (K10 p' k u Hk Hu') as (ku & Hku & Es). destruct (Hd u ku Hku) as (y & Hy & _ & E2 & _). exists y. by rewrite E2.
  - intros p' x [[-> ->]|(N & k & Hk & _ & _ & _ & _ & _ & _ & ->)]%Hl; [constructor|]. case_decide; [|by eapply K11].
    apply NoDup_app. split; [by eapply K11|]. split; [|apply NoDup_singleton].
    intros u Hu ->%list_elem_of_singleton. by apply (Hnt p' k Hk).
  - intros u x [[-> ->]|(_ & k & Hk & -> & _ & _ & _ & -> & _)]%Hl E; [|by eapply K12]. right. cbn in E |- *. f_equal.
    destruct (K6 par kp Hp) as [Hr Hz]. apply Hz. lia.
  - intros u x [[-> ->]|(_ & k & Hk & _ & _ & _ & -> & _)]%Hl; unfold add_task; rewrite dom_alter, dom_insert.
    + rewrite Estack, Hlive. split; [set_solver|]. split; [set_solver|]. rewrite not_elem_of_union, not_elem_of_singleton.
      split; [done|]. intros Hd'. apply elem_of_dom in Hd' as [y Hy]. by apply K14 in Hy as (? & _).
    + destruct (K14 u k Hk) as (A & B & C). split; [auto|]. split; [auto|].
      rewrite not_elem_of_union, not_elem_of_singleton. split; [|done]. intros E. by rewrite E in B.
  - intros u x u' x' [[-> ->]|(_ & k & Hk & _ & _ & _ & -> & _)]%Hl [[-> ->]|(_ & k' & Hk' & _ & _ & _ & -> & _)]%Hl Hn'; try done.
    + rewrite Estack. intros E. destruct (K14 u' k' Hk') as (_ & B & _). by rewrite <- E in B.
    + rewrite Estack. intros E. destruct (K14 u k Hk) as (_ & B & _). by rewrite E in B.
    + by eapply K15.
Qed.

(** A task leaves the tree and the list. *)
Definition detach (k : tnode) : tnode :=
  Node (n_usage k) (n_pid k) None (n_sp0 k) false (n_children k) None.

Definition drop_task (t par : Z) n : gmap Z tnode := alter detach t (alter (del_child t) par n).

Lemma drop_task_ok n l lp h t par kt :
  tree_inv n l lp h -> n !! t = Some kt -> n_sib kt = Some par ->
  tree_inv (drop_task t par n) (filter (fun u => u <> t) l) lp h.
Proof.
  intros Hi Ht Hs. pose proof Hi as [K1 K2 K3 K4 K5 K6 K7 K8 K9 K10 K11 K12 K13 K14 K15].
  destruct (K9 t kt par Ht Hs) as (Htp & kp & Hp & Hin).
  assert (Hti : t <> idle) by (intros ->; destruct (K4 kt Ht); congruence).
  assert (HL : forall u, drop_task t par n !! u =
    if decide (u = t) then Some (detach kt) else if decide (u = par) then Some (del_child t kp) else n !! u).
  { intros u. unfold drop_task. destruct (decide (u = t)) as [->|N1]; [by rewrite lookup_alter_eq, lookup_alter_ne, Ht by done|].
    destruct (decide (u = par)) as [->|N2]; [by rewrite lookup_alter_ne, lookup_alter_eq, Hp by done|].
    by rewrite !lookup_alter_ne by done. }
  assert (Hl : forall u x, drop_task t par n !! u = Some x ->
    exists k, n !! u = Some k /\ n_pid x = n_pid k /\ n_usage x = n_usage k /\ n_stack x = n_stack k /\
      n_on x = (if decide (u = t) then false else n_on k) /\
      n_sib x = (if decide (u = t) then None else n_sib k) /\ n_parent x = (if decide (u = t) then None else n_parent k) /\
      n_children x = if decide (u = par) then filter (fun v => v <> t) (n_children k) else n_children k).
  { intros u x. rewrite HL. intros E.
    destruct (decide (u = t)) as [->|N1]; [injection E as <-; exists kt; case_decide; done|].
    destruct (decide (u = par)) as [->|N2]; [injection E as <-; by exists kp|by exists x]. }
  assert (Hd : forall u k, n !! u = Some k -> u <> t -> exists x, drop_task t par n !! u = Some x /\ n_on x = n_on k /\
    n_sib x = n_sib k).
  { intros u k Hk Hne. rewrite HL, decide_False by done. destruct (decide (u = par)) as [->|]; [simplify_eq; by eexists|by exists k]. }
  split; try done.
  - by apply NoDup_filter.
  - intros u. rewrite list_elem_of_filter, K2. split.
    + intros (Hne & k & Hk & E). destruct (Hd u k Hk Hne) as (x & Hx & E' & _). exists x. by rewrite E'.
    + intros (x & (k & Hk & _ & _ & _ & E & _)%Hl & E'). rewrite E in E'. case_decide; [done|]. split; [done|by exists k].
  - destruct l as [|x l]; [done|]. cbn in K3. injection K3 as ->. rewrite filter_cons_True by done. done.
  - intros x (k & Hk & -> & _ & _ & _ & -> & _)%Hl. rewrite decide_False by done. by apply K4.
  - intros u x (k & Hk & _ & -> & _)%Hl. by eapply K5.
  - intros u x (k & Hk & -> & _)%Hl. by apply K6.
  - intros u x u' x' (k & Hk & -> & _)%Hl (k' & Hk' & -> & _)%Hl. by eapply K7.
  - intros u x (k & Hk & _ & _ & _ & _ & -> & -> & _)%Hl. case_decide; [done|]. by eapply K8.
  - intros u x p' (k & Hk & _ & _ & _ & _ & -> & _)%Hl E. case_decide as D; [done|].
    destruct (K9 u k p' Hk E) as (A & kp' & Hkp' & Hin'). split; [done|]. rewrite HL.
    destruct (decide (p' = t)) as [->|]; [simplify_eq; eexists; by split|].
    destruct (decide (p' = par)) as [->|]; [|by exists kp']. simplify_eq. eexists. split; [done|].
    cbn. by apply list_elem_of_filter.
  - intros p' x u (k & Hk & _ & _ & _ & _ & _ & _ & E)%Hl Hu. rewrite E in Hu.
    assert (Hu' : u <> t /\ u ∈ n_children k).
    { case_decide; [by apply list_elem_of_filter in Hu|]. split; [|done]. intros ->.
      destruct (K10 p' k t Hk Hu) as (k2 & Hk2 & E2). simplify_eq. }
    destruct Hu' as [Hne Hu']. destruct (K10 p' k u Hk Hu') as (ku & Hku & Es).
    destruct (Hd u ku Hku Hne) as (y & Hy & _ & E2). exists y. by rewrite E2.
  - intros p' x (k & Hk & _ & _ & _ & _ & _ & _ & ->)%Hl. case_decide; [apply NoDup_filter|]; by eapply K11.
  - intros u x (k & Hk & -> & _ & _ & _ & -> & _)%Hl E. case_decide; [by left|by eapply K12].
  - intros u x (k & Hk & _ & _ & -> & _)%Hl. unfold drop_task. rewrite !dom_alter. by apply (K14 u).
  - intros u x u' x' (k & Hk & _ & _ & -> & _)%Hl (k' & Hk' & _ & _ & -> & _)%Hl. by eapply K15.
Qed.

(** A detached task without children is freed. *)
Lemma delete_task_ok n l lp h h' t kt :
  tree_inv n l lp h -> n !! t = Some kt -> n_on kt = false -> n_sib kt = None -> n_children kt = [] ->
  km_ok h' -> live h ∖ {[t; n_stack kt]} ⊆ live h' -> tree_inv (delete t n) l lp h'.
Proof.
  intros [K1 K2 K3 K4 K5 K6 K7 K8 K9 K10 K11 K12 K13 K14 K15] Ht Hon Hsib Hch Hh' Hlive.
  assert (Hno : forall u k, n !! u = Some k -> t ∉ n_children k).
  { intros u k Hk Hin. destruct (K10 u k t Hk Hin) as (k2 & Hk2 & E). congruence. }
  split; try done.
  - intros u. rewrite K2. split; intros (k & Hk & E).
    + exists k. rewrite lookup_delete_ne by (intros <-; congruence). done.
    + apply lookup_delete_Some in Hk as [_ Hk]. by exists k.
  - intros k [_ Hk]%lookup_delete_Some. by apply K4.
  - intros u k [_ Hk]%lookup_delete_Some. by eapply K5.
  - intros u k [_ Hk]%lookup_delete_Some. by apply K6.
  - intros u k u' k' [_ Hk]%lookup_delete_Some [_ Hk']%lookup_delete_Some. by eapply K7.
  - intros u k [_ Hk]%lookup_delete_Some. by eapply K8.
  - intros u k p [_ Hk]%lookup_delete_Some E. destruct (K9 u k p Hk E) as (A & kp & Hkp & Hin). split; [done|].
    exists kp. rewrite lookup_delete_ne; [done|]. intros <-. simplify_eq. rewrite Hch in Hin. by apply elem_of_nil in Hin.
  - intros p kp u [_ Hk]%lookup_delete_Some Hu. destruct (K10 p kp u Hk Hu) as (k & Hku & E). exists k.
    rewrite lookup_delete_ne; [done|]. intros <-. congruence.
  - intros p kp [_ Hk]%lookup_delete_Some. by eapply K11.
  - intros u k [_ Hk]%lookup_delete_Some. by eapply K12.
  - intros u k [Hne Hk]%lookup_delete_Some. destruct (K14 u k Hk) as (A & B & C). destruct (K14 t kt Ht) as (_ & _ & C').
    rewrite dom_delete. pose proof (K15 u k t kt Hk Ht ltac:(done)) as Hs.
    assert (n_stack kt <> u) by (intros <-; apply C'; by apply elem_of_dom).
    assert (n_stack k <> t) by (intros E; rewrite E in C; apply C; by apply elem_of_dom).
    split_and!; [apply Hlive; set_solver..|set_solver].
  - intros u k u' k' [_ Hk]%lookup_delete_Some [_ Hk']%lookup_delete_Some. by eapply K15.
Qed.
End tree.

(** ** The invariant of the kernel state *)

Section kernel.
Context {M : Type} `{!KAlloc M, !KAllocSpec M} {R : Type} `{!TaskRes R}.
Context (sizeof_task idle : Z).
Notation kstate := (kstate (M := M) (R := R)).
Implicit Types (s : kstate) (t p : Z) (k : task_struct).

Definition nodes s : gmap Z tnode := view <$> tasks s.

(** The references to a task: one while it is on the task list, and one that the
    exit of init keeps ([exit_notify] does not give back the reaper's reference
    when the task is its own reaper). *)
Definition refs_of k : Z :=
  (if on_tasks k then 1 else 0) + (if (pid k =? 1) && bool_decide (state k = TASK_ZOMBIE) then 1 else 0).

(** [E t] counts the references a running function holds to [t]. *)
Record kinv (X : Z -> Prop) (E : Z -> Z) s : Prop := KInv {
  ki_tree : tree_inv idle (nodes s) (task_list s) (last_pid s) (kheap s);
  ki_wait : wait_inv X (tasks s) (queues s);
  ki_zombie t k : tasks s !! t = Some k -> state k = TASK_ZOMBIE ->
    mm k = None /\ fs k = FS None None /\ pid k <> 0 /\ (pid k = 1 \/ children k = []);
  ki_cur : exists c, current s = Some c /\ c ∈ task_list s;
  ki_self t p : t ∈ waiters s (ChildExit p) -> t = p;
  ki_usage t k : tasks s !! t = Some k -> usage k = refs_of k + E t;
}.

Definition kernel_ok s : Prop := kinv (fun _ => False) (fun _ => 0) s.

Lemma nodes_lookup s t k : tasks s !! t = Some k -> nodes s !! t = Some (view k).
Proof. intros E. unfold nodes. by rewrite lookup_fmap, E. Qed.

Lemma nodes_some s t n : nodes s !! t = Some n -> exists k, tasks s !! t = Some k /\ n = view k.
Proof. unfold nodes. rewrite lookup_fmap. destruct (tasks s !! t) as [k|]; [|done]. intros [= <-]. by exists k. Qed.

Lemma nodes_upd f g t s : (forall k, view (f k) = g (view k)) -> nodes (upd f t s) = alter g t (nodes s).
Proof.
  intros Hf. apply map_eq. intros u. unfold nodes. rewrite lookup_fmap, lookup_upd.
  destruct (decide (t = u)) as [->|Hne].
  - rewrite lookup_alter_eq, lookup_fmap. destruct (tasks s !! u); [|done]. cbn. by rewrite Hf.
  - rewrite lookup_alter_ne by done. by rewrite lookup_fmap.
Qed.

Lemma on_list s X E t : kinv X E s -> t ∈ task_list s -> exists k, tasks s !! t = Some k /\ on_tasks k = true.
Proof.
  intros Hk Ht. apply (ti_on _ _ _ _ _ (ki_tree _ _ _ Hk)) in Ht as (n & Hn & Eo).
  apply nodes_some in Hn as (k & Hk' & ->). by exists k.
Qed.

Lemma current_task s X E c : kinv X E s -> current s = Some c -> c ∈ task_list s /\ exists k, tasks s !! c = Some k.
Proof.
  intros Hk Hc. destruct (ki_cur _ _ _ Hk) as (c' & Hc' & Hin). rewrite Hc in Hc'. injection Hc' as <-.
  split; [done|]. destruct (on_list s X E c Hk Hin) as (k & ? & _). by exists k.
Qed.

(** *** Steps that leave the tree alone *)

(** The same tasks, with the same places in the tree, the same zombies and the same
    resources. *)
Definition similar (m m' : gmap Z task_struct) : Prop :=
  forall u, match m !! u, m' !! u with
            | Some k, Some x => view x = view k /\ (state x = TASK_ZOMBIE <-> state k = TASK_ZOMBIE) /\ mm x = mm k /\ fs x = fs k
            | None, None => True
            | _, _ => False
            end.

#[export] Instance similar_preorder : PreOrder similar.
Proof.
  split.
  - intros m u. by destruct (m !! u).
  - intros m1 m2 m3 H1 H2 u. specialize (H1 u). specialize (H2 u).
    destruct (m1 !! u), (m2 !! u), (m3 !! u); try done.
    destruct H1 as (A1 & B1 & C1 & D1), H2 as (A2 & B2 & C2 & D2). split_and!; [congruence|tauto|congruence..].
Qed.

Lemma similar_nodes s s' : similar (tasks s) (tasks s') -> nodes s' = nodes s.
Proof.
  intros Hs. apply map_eq. intros u. unfold nodes. rewrite !lookup_fmap. specialize (Hs u).
  destruct (tasks s !! u), (tasks s' !! u); try done. cbn. f_equal. apply Hs.
Qed.

Lemma zombie_refs k x : view x = view k -> (state x = TASK_ZOMBIE <-> state k = TASK_ZOMBIE) -> refs_of x = refs_of k.
Proof.
  intros A B. unfold view in A. injection A as _ Ep _ _ Eo _ _. unfold refs_of. rewrite Ep, Eo.
  by rewrite (bool_decide_ext _ _ B).
Qed.

Lemma similar_kinv X Y E s s' :
  kinv X E s -> similar (tasks s) (tasks s') ->
  task_list s' = task_list s -> last_pid s' = last_pid s -> kheap s' = kheap s ->
  (exists c, current s' = Some c /\ c ∈ task_list s) -> wait_inv Y (tasks s') (queues s') ->
  (forall t p, t ∈ waiters s' (ChildExit p) -> t ∈ waiters s (ChildExit p) \/ t = p) -> kinv Y E s'.
Proof.
  intros [T W Z C S U] Hs E1 E2 E3 Hc Hw Hself. split; try done.
  - by rewrite E1, E2, E3, (similar_nodes s s').
  - intros t k Hk Hz. specialize (Hs t). rewrite Hk in Hs. destruct (tasks s !! t) as [k0|] eqn:Hk0; [|done].
    destruct Hs as (A & B & C' & D). destruct (Z t k0 Hk0 (proj1 B Hz)) as (F1 & F2 & F3 & F4). rewrite C', D.
    unfold view in A. injection A as _ -> _ _ _ -> _. done.
  - by rewrite E1.
  - intros t p Hin. destruct (Hself t p Hin) as [?| ->]; [by apply S|done].
  - intros t k Hk. specialize (Hs t). rewrite Hk in Hs. destruct (tasks s !! t) as [k0|] eqn:Hk0; [|done].
    destruct Hs as (A & B & _). rewrite (zombie_refs k0 k A B), <- (U t k0 Hk0). unfold view in A. by injection A.
Qed.

(** An update of one task that the invariant does not notice. *)
Definition quiet (f : task_struct -> task_struct) : Prop :=
  calm f /\ forall k, view (f k) = view k /\ (state (f k) = TASK_ZOMBIE <-> state k = TASK_ZOMBIE) /\ mm (f k) = mm k /\ fs (f k) = fs k.

Lemma quiet_similar f t m : quiet f -> similar m (alter f t m).
Proof.
  intros [_ Hf] u. destruct (decide (t = u)) as [->|Hne].
  - rewrite lookup_alter_eq. destruct (m !! u); [|done]. apply Hf.
  - rewrite lookup_alter_ne by done. by destruct (m !! u).
Qed.

Lemma quiet_kinv X E f t s : quiet f -> kinv X E s -> kinv X E (upd f t s).
Proof.
  intros Hq Hk. apply (similar_kinv X X _ s); try done.
  - by apply quiet_similar.
  - apply Hk.
  - apply wait_inv_calm; [apply Hq|apply Hk].
  - intros u p Hu. by left.
Qed.

(** A change of the fields outside the invariant. *)
Lemma ext_kinv X E s s' :
  kinv X E s -> tasks s' = tasks s -> queues s' = queues s -> task_list s' = task_list s ->
  last_pid s' = last_pid s -> kheap s' = kheap s -> (exists c, current s' = Some c /\ c ∈ task_list s) -> kinv X E s'.
Proof.
  intros Hk E1 E2 E3 E4 E5 Hc. apply (similar_kinv X X _ s); try done.
  - by rewrite E1.
  - rewrite E1, E2. apply Hk.
  - intros t p. unfold waiters. rewrite E2. by left.
Qed.

(** The state differs from that of [H] only in fields outside the invariant. *)
Ltac ext H := apply (ext_kinv _ _ _ _ H); [reflexivity..|exact (ki_cur _ _ _ H)].

Lemma quiet_wake_one now : quiet (wake_one now).
Proof.
  split; intros k; unfold wake_one, wake_due; destruct (bool_decide_reflect (state k = TASK_SLEEPING)) as [E|]; cbn [andb];
    try destruct (0 <=? _); cbn; rewrite ?E; done.
Qed.

Lemma quiet_time_slice v : quiet (set_time_slice v).
Proof. by split. Qed.

Lemma quiet_wake_state : quiet wake_state.
Proof.
  split; [apply wake_state_calm|]. intros k. unfold wake_state, slice. destruct (state k) eqn:E; [by rewrite E| | |by rewrite E];
    destruct (_ <=? 0); (split_and!; [done|by cbn|done..]).
Qed.

Lemma task_tick_ok X E s : kinv X E s -> kinv X E (task_tick s).
Proof.
  intros Hk. unfold task_tick. destruct (runqueue_empty s); [done|].
  assert (H1 : kinv X E (runqueue_wake_sleepers s (jiffies s))).
  { unfold runqueue_wake_sleepers. generalize (task_list s) as l. revert s Hk. induction l as [|t l IH] using rev_ind; intros; [done|].
    rewrite foldl_app. cbn [foldl]. apply quiet_kinv; [apply quiet_wake_one|done]. }
  destruct (current _) as [c|]; [|done]. destruct (negb _); [ext H1|].
  set (s2 := if 0 <? _ then _ else _).
  assert (H2 : kinv X E s2) by (unfold s2; destruct (0 <? _); [apply quiet_kinv; [apply quiet_time_slice|done]|done]).
  destruct (_ <=? 0); [ext H2|done].
Qed.

Lemma task_schedule_ok X E s r : kinv X E s -> kinv X E (snd (task_schedule s r)).
Proof.
  intros Hk. unfold task_schedule. destruct (current s) as [c|] eqn:Hc; [|done].
  set (s1 := upd _ c s). assert (H1 : kinv X E s1) by (apply quiet_kinv; [by split|done]).
  destruct (negb (need_resched s1)); [done|].
  set (n := runqueue_pick_next _ c). destruct (current_task s1 X E c H1 Hc) as [Hin _].
  assert (Hn : n ∈ task_list s1).
  { apply (pick_next_cases (task_clear_need_resched s1) c); [|done]. apply (ki_tree _ _ _ H1). }
  set (s3 := if negb (n =? c) then _ else _). set (s4 := switch_mm _ n). set (s5 := with_tss_esp0 s4 _).
  assert (H5 : kinv X E s5).
  { assert (Es : tasks s4 = tasks s1 /\ queues s4 = queues s1 /\ task_list s4 = task_list s1 /\ last_pid s4 = last_pid s1 /\
      kheap s4 = kheap s1 /\ current s4 = Some n).
    { unfold s4, switch_mm, s3. destruct (negb (n =? c)), (negb (task_pgd _ n =? 0)), (negb (_ =? _)); try done;
        by destruct (negb (kernel_pgd _ =? pgd_current _)). }
    destruct Es as (E1 & E2 & E3 & E4 & E5 & E6). apply (ext_kinv X E s1); try done. exists n. done. }
  destruct (_ <=? 0); cbn [snd]; [apply quiet_kinv; [apply quiet_time_slice|done]|done].
Qed.

Lemma timer_irq_ok X E s r : kinv X E s -> kinv X E (snd (timer_irq s r)).
Proof.
  intros Hk. unfold timer_irq.
  assert (H1 : kinv X E (task_tick (with_jiffies s (jiffies s +w 1)))).
  { apply task_tick_ok. ext Hk. }
  destruct (_ && _); [by apply task_schedule_ok|done].
Qed.

Lemma wake_up_process_ok X E t s : kinv X E s -> kinv X E (snd (wake_up_process t s)).
Proof.
  intros Hk. destruct (wake_up_process_spec t s) as (A & B & C & _). unfold rest in C. injection C as C1 C2 C3 C4 C5 C6 C7 C8 C9 C10.
  apply (similar_kinv X X _ s); try done.
  - rewrite A. apply quiet_similar, quiet_wake_state.
  - rewrite C2. apply Hk.
  - rewrite A, B. apply wait_inv_calm; [apply wake_state_calm|apply Hk].
  - intros u p. unfold waiters. rewrite B. by left.
Qed.

Lemma wake_task_view k :
  view (wake_task k) = view k /\ (state (wake_task k) = TASK_ZOMBIE <-> state k = TASK_ZOMBIE) /\ mm (wake_task k) = mm k /\ fs (wake_task k) = fs k.
Proof.
  unfold wake_task. destruct quiet_wake_state as [_ Hq]. destruct (Hq (set_waitq None (set_wait_link None k))) as (-> & A & -> & ->).
  done.
Qed.

Lemma wake_up_all_kinv X E q s : kinv X E s -> kinv X E (wake_up_all q s).
Proof.
  intros Hk. destruct (wake_up_all_spec q s) as (A & B & C); [apply (wi_nodup _ _ _ (ki_wait _ _ _ Hk))|].
  unfold rest in C. injection C as C1 C2 C3 C4 C5 C6 C7 C8 C9 C10.
  apply (similar_kinv X X _ s); try done.
  - intros u. rewrite A. destruct (decide (u ∈ waiters s q)); destruct (tasks s !! u); try done. apply wake_task_view.
  - rewrite C2. apply Hk.
  - apply wake_up_all_ok, Hk.
  - intros u p. unfold waiters. rewrite B. destruct (decide (q = ChildExit p)) as [->|Hne].
    + rewrite lookup_insert_eq. by intros ?%elem_of_nil.
    + rewrite lookup_insert_ne by done. by left.
Qed.

(** The state in which a task makes a system call. *)
Definition running s (c : Z) : Prop := current s = Some c /\ state (get s c) = TASK_RUNNABLE.

Lemma task_sleep_ok s c ticks : kernel_ok s -> running s c -> kernel_ok (task_sleep s ticks).
Proof.
  intros Hk [Hc Hrun]. unfold task_sleep. rewrite Hc. destruct (ticks =? 0); [done|].
  destruct (current_task s _ _ c Hk Hc) as [_ [kc Hkc]]. rewrite (get_lookup s c kc Hkc) in Hrun.
  assert (H1 : kernel_ok (upd (fun k => set_state TASK_SLEEPING (set_wake_jiffies (jiffies s +w ticks) k)) c s)).
  { apply (similar_kinv (fun _ => False) _ _ s); try done; [|apply Hk|apply wait_inv_calm; [|apply Hk]|by left].
    - intros u. cbn [upd with_tasks tasks]. destruct (decide (c = u)) as [<-|Hne]; [rewrite lookup_alter_eq, Hkc; cbn; by rewrite Hrun|].
      rewrite lookup_alter_ne by done. by destruct (tasks s !! u).
    - intros k. cbn. split_and!; by try intros ?. }
  ext H1.
Qed.

Lemma block_kinv q s s' :
  kernel_ok s -> (forall p, q = ChildExit p -> current s = Some p) ->
  wait_queue_block_locked q s = Some s' -> kernel_ok s'.
Proof.
  intros Hk Hq E. destruct (ki_cur _ _ _ Hk) as (c & Hc & Hin). destruct (current_task s _ _ c Hk Hc) as [_ [k Hck]].
  pose proof (block_ok q s s' c (ki_wait _ _ _ Hk) Hc ltac:(by eexists) E) as Hw.
  unfold wait_queue_block_locked in E. rewrite Hc in E. rewrite (get_lookup s c k Hck) in E.
  case_bool_decide; [by injection E as <-|]. case_bool_decide as Hz; [by injection E as <-|].
  unfold add_wait_queue in E. rewrite (get_upd_eq _ _ _ _ Hck) in E. destruct (wait_link _); [done|]. injection E as <-.
  apply (similar_kinv (fun _ => False) _ _ s); try done.
  - cbn [upd with_tasks set_waiters with_queues tasks]. rewrite !alter_alter. intros u.
    destruct (decide (c = u)) as [<-|Hne]; [|rewrite lookup_alter_ne by done; by destruct (tasks s !! u)].
    rewrite lookup_alter_eq, Hck. cbn. by rewrite ?bool_decide_eq_true_2.
  - by exists c.
  - intros u p. cbn [upd with_tasks]. unfold waiters. cbn [set_waiters with_queues queues upd with_tasks].
    destruct (decide (q = ChildExit p)) as [->|Hne].
    + rewrite lookup_insert_eq. cbn [default from_option id]. intros [->|Hu]%elem_of_cons; [|by left].
      right. specialize (Hq p eq_refl). congruence.
    + rewrite lookup_insert_ne by done. by left.
Qed.

(** *** Creation *)

(** The heap after both allocations. *)
Lemma two_allocs (h : M) t h1 st h2 :
  km_ok h -> kmalloc sizeof_task h = (Some t, h1) -> kmalloc THREAD_SIZE h1 = (Some st, h2) ->
  km_ok h2 /\ (t ∉ live h) /\ (st ∉ live h) /\ st <> t /\ 0 < st < 4294967296 /\ live h2 = {[st]} ∪ ({[t]} ∪ live h).
Proof.
  intros Hh E1 E2. destruct (kmalloc_some _ _ _ _ Hh E1) as (A1 & A2 & A3 & A4).
  destruct (kmalloc_some _ _ _ _ A1 E2) as (B1 & B2 & B3 & B4). rewrite A4 in B3, B4.
  split; [done|]. split; [done|]. split; [set_solver|]. split; [set_solver|]. split; [|done].
  apply (live_range st h2 B1). rewrite B4. set_solver.
Qed.

Lemma heap_kinv X E s h :
  kinv X E s -> km_ok h -> live (kheap s) ⊆ live h -> kinv X E (with_kheap s h).
Proof.
  intros [T W Z C S U] Hh Hl. split; try done. cbn [with_kheap kheap task_list last_pid].
  change (nodes (with_kheap s h)) with (nodes s).
  destruct T as [K1 K2 K3 K4 K5 K6 K7 K8 K9 K10 K11 K12 K13 K14 K15]. split; try done.
  intros t k Hk. destruct (K14 t k Hk) as (A & B & D). split_and!; try done; by apply Hl.
Qed.

Lemma kfree_other (h : M) t : km_ok h -> t ∈ live h -> km_ok (kfree t h) /\ live (kfree t h) = live h ∖ {[t]}.
Proof. apply kfree_live. Qed.

(** Linking a task that was just set up. *)
Lemma create_kinv s t st h2 k c kc r :
  kernel_ok s -> current s = Some c -> tasks s !! c = Some kc -> state kc <> TASK_ZOMBIE -> 0 <= last_pid s < 4294967295 ->
  km_ok h2 -> t ∉ live (kheap s) -> st ∉ live (kheap s) -> st <> t -> 0 < st < 4294967296 ->
  live h2 = {[st]} ∪ ({[t]} ∪ live (kheap s)) ->
  usage k = 1 -> pid k = last_pid s +w 1 -> parent k = Some c -> sp0 (thread k) = st +w THREAD_SIZE -> on_tasks k = false ->
  children k = [] -> sibling k = None -> state k = TASK_RUNNABLE -> waitq k = None -> wait_link k = None ->
  let s1 := with_last_pid (with_res (with_kheap s h2) r) (last_pid s +w 1) in
  let s2 := set_waiters (ChildExit t) [] (with_tasks s1 (<[t := k]> (tasks s1))) in
  kernel_ok (link_task (Some c) t s2).
Proof.
  intros Hk Hc Hkc Hkz Hlp Hh2 Ht Hst Hne Hstr Hl2 F1 F2 F3 F4 F5 F6 F7 F8 F9 F10 s1 s2.
  pose proof Hk as [T W Zo C S U]. destruct (current_task s _ _ c Hk Hc) as [Hin _].
  assert (Htn : tasks s !! t = None).
  { destruct (tasks s !! t) as [x|] eqn:E; [|done]. apply nodes_lookup in E. by apply (ti_own _ _ _ _ _ T) in E as (? & _). }
  assert (Htc : t <> c) by congruence.
  set (s3 := link_task (Some c) t s2).
  assert (Hlook : forall u, tasks s3 !! u = if decide (u = t) then Some (set_on_tasks true (set_sibling (Some c) k))
    else if decide (u = c) then Some (set_children (children kc ++ [t]) kc) else tasks s !! u).
  { intros u. unfold s3, link_task. rewrite lookup_upd. cbn [with_task_list tasks]. rewrite !lookup_upd.
    change (tasks s2) with (<[t:=k]> (tasks s)). destruct (decide (u = t)) as [->|N1].
    - rewrite !decide_True, decide_False, lookup_insert_eq by done. done.
    - rewrite !(decide_False (P := t = u)) by done. destruct (decide (u = c)) as [->|N2].
      + rewrite decide_True, lookup_insert_ne, Hkc by done. done.
      + rewrite decide_False, lookup_insert_ne by done. done. }
  split.
  - assert (En : nodes s3 = add_task t c (last_pid s +w 1) (st +w THREAD_SIZE) (nodes s)).
    { apply map_eq. intros u. unfold add_task, nodes at 1. rewrite lookup_fmap, Hlook. destruct (decide (u = t)) as [->|N1].
      - rewrite lookup_alter_ne, lookup_insert_eq by done. cbn. unfold view.
        cbn [set_on_tasks set_sibling usage pid parent thread on_tasks children sibling]. by rewrite F1, F2, F3, F4, F6.
      - destruct (decide (u = c)) as [->|N2].
        + rewrite lookup_alter_eq, lookup_insert_ne by done. by rewrite (nodes_lookup s c kc Hkc).
        + rewrite lookup_alter_ne, lookup_insert_ne by done. unfold nodes. by rewrite lookup_fmap. }
    rewrite En. change (task_list s3) with (task_list s ++ [t]). change (last_pid s3) with (last_pid s +w 1).
    change (kheap s3) with h2. eapply add_task_ok; try done. by apply nodes_lookup.
  - destruct W as [L N Q B]. change (queues s3) with (<[ChildExit t := []]> (queues s)).
    assert (Hq : default [] (queues s !! ChildExit t) = []).
    { destruct (default [] (queues s !! ChildExit t)) as [|u l] eqn:E; [done|].
      assert (Hu : u ∈ default [] (queues s !! ChildExit t)) by (rewrite E; by left).
      assert (u = t) as -> by (by apply S). apply L in Hu as (x & Hx & _). congruence. }
    assert (Hqs : forall q, default [] (<[ChildExit t := []]> (queues s) !! q) = default [] (queues s !! q)).
    { intros q. destruct (decide (ChildExit t = q)) as [<-|Hq']; [by rewrite lookup_insert_eq, Hq|by rewrite lookup_insert_ne]. }
    split.
    + intros u q. rewrite Hqs, L, Hlook. destruct (decide (u = t)) as [->|N1].
      * split; [intros (x & Hx & _); congruence|]. intros (x & [= <-] & E). cbn in E. congruence.
      * destruct (decide (u = c)) as [->|N2]; [|done]. split; intros (x & Hx & E); simplify_eq; [by eexists|by exists kc].
    + intros q. rewrite Hqs. apply N.
    + intros u x. rewrite Hlook. destruct (decide (u = t)) as [->|N1]; [intros [= <-]; cbn; by rewrite F9, F10|].
      destruct (decide (u = c)) as [->|N2]; [intros [= <-]; by apply (Q c kc)|apply Q].
    + intros u x. rewrite Hlook. destruct (decide (u = t)) as [->|N1]; [intros [= <-] _ E; cbn in E; congruence|].
      destruct (decide (u = c)) as [->|N2]; [intros [= <-]; by apply (B c kc)|apply B].
  - intros u x. rewrite Hlook. destruct (decide (u = t)) as [->|N1]; [intros [= <-] E; cbn in E; congruence|].
    destruct (decide (u = c)) as [->|N2]; [intros [= <-] E; by cbn in E|apply Zo].
  - exists c. split; [done|]. apply elem_of_app. by left.
  - intros u p. change (waiters s3 (ChildExit p)) with (default [] (<[ChildExit t := []]> (queues s) !! ChildExit p)).
    destruct (decide (t = p)) as [->|Hp]; [rewrite lookup_insert_eq; by intros ?%elem_of_nil|].
    rewrite lookup_insert_ne by congruence. apply S.
  - intros u x. rewrite Hlook. destruct (decide (u = t)) as [->|N1].
    { intros [= <-]. unfold refs_of. cbn. rewrite F1, F8, andb_false_r. done. }
    destruct (decide (u = c)) as [->|N2]; [intros [= <-]; by apply (U c kc)|apply U].
Qed.

(** An allocation that failed after another one had succeeded, and the heap after
    both are given back. *)
Lemma undo_allocs (h h1 h2 : M) (t st : option Z) :
  km_ok h -> kmalloc sizeof_task h = (t, h1) -> kmalloc THREAD_SIZE h1 = (st, h2) ->
  km_ok h2 /\ live h ⊆ live h2 /\
  (forall u, st = None -> t = Some u -> km_ok (kfree u h2) /\ live h ⊆ live (kfree u h2)) /\
  (forall v, t = None -> st = Some v -> km_ok (kfree v h2) /\ live h ⊆ live (kfree v h2)) /\
  (forall u v, t = Some u -> st = Some v -> km_ok (kfree u (kfree v h2)) /\ live h ⊆ live (kfree u (kfree v h2))).
Proof.
  intros Hh E1 E2.
  assert (A : km_ok h1 /\ match t with None => live h1 = live h | Some u => (u ∉ live h) /\ live h1 = {[u]} ∪ live h end).
  { destruct t as [u|]; [destruct (kmalloc_some _ _ _ _ Hh E1) as (? & _ & ? & ?)|destruct (kmalloc_none _ _ _ Hh E1)]; done. }
  destruct A as [A1 A2].
  assert (B : km_ok h2 /\ match st with None => live h2 = live h1 | Some v => (v ∉ live h1) /\ live h2 = {[v]} ∪ live h1 end).
  { destruct st as [v|]; [destruct (kmalloc_some _ _ _ _ A1 E2) as (? & _ & ? & ?)|destruct (kmalloc_none _ _ _ A1 E2)]; done. }
  destruct B as [B1 B2]. split; [done|]. split; [destruct t, st; set_solver|]. split_and!.
  - intros u -> ->. destruct A2 as [A2 A3]. rewrite A3 in B2. destruct (kfree_live u h2 B1) as [C1 C2]; [set_solver|].
    split; [done|]. rewrite C2, B2. set_solver.
  - intros v -> ->. destruct B2 as [B2 B3]. rewrite A2 in *. destruct (kfree_live v h2 B1) as [C1 C2]; [set_solver|].
    split; [done|]. rewrite C2, B3. set_solver.
  - intros u v -> ->. destruct A2 as [A2 A3], B2 as [B2 B3]. rewrite A3 in *.
    destruct (kfree_live v h2 B1) as [C1 C2]; [set_solver|].
    destruct (kfree_live u _ C1) as [D1 D2]; [set_solver|]. split; [done|]. rewrite D2, C2, B3. set_solver.
Qed.

(** A failed creation may use up a pid. *)
Lemma fail_kinv s h r pd :
  kernel_ok s -> km_ok h -> live (kheap s) ⊆ live h -> last_pid s <= pd ->
  kernel_ok (with_last_pid (with_res (with_kheap s h) r) pd).
Proof.
  intros Hk Hh Hl Hpd. destruct (heap_kinv _ _ s h Hk Hh Hl) as [T W Z C S U]. split; try done.
  destruct T as [K1 K2 K3 K4 K5 K6 K7 K8 K9 K10 K11 K12 K13 K14 K15]. split; try done.
  intros t k Hk'. destruct (K6 t k Hk'). split; [|done]. cbn [with_kheap last_pid with_last_pid with_res] in *. lia.
Qed.

Lemma sys_fork_ok s c r :
  kernel_ok s -> running s c -> 0 <= last_pid s < 4294967295 -> kernel_ok (snd (sys_fork sizeof_task s r)).
Proof.
  intros Hk [Hc Hrun] Hlp. destruct (current_task s _ _ c Hk Hc) as [Hin [kc Hkc]]. rewrite (get_lookup s c kc Hkc) in Hrun.
  unfold sys_fork. rewrite Hc. destruct (mm (get s c)) as [pmm|]; [|done].
  pose proof (ti_heap _ _ _ _ _ (ki_tree _ _ _ Hk)) as Hh.
  destruct (kmalloc sizeof_task (kheap s)) as [t h1] eqn:E1. destruct (kmalloc THREAD_SIZE h1) as [st h2] eqn:E2.
  destruct (undo_allocs _ _ _ _ _ Hh E1 E2) as (U1 & U2 & U3 & U4 & U5).
  destruct t as [t|], st as [st|]; cbn [snd].
  - destruct (U5 t st eq_refl eq_refl) as [V1 V2]. destruct (dup_mm pmm (res s)) as [[cmm|] r1]; cbn [snd].
    + destruct (two_allocs _ _ _ _ _ Hh E1 E2) as (A1 & A2 & A3 & A4 & A5 & A6).
      eapply create_kinv; try done; congruence.
    + apply (fail_kinv s _ r1 (last_pid s)); try done.
  - destruct (U3 t eq_refl eq_refl). by apply heap_kinv.
  - destruct (U4 st eq_refl eq_refl). by apply heap_kinv.
  - by apply heap_kinv.
Qed.

Lemma task_create_ok s c entry program :
  kernel_ok s -> running s c -> 0 <= last_pid s < 4294967295 ->
  kernel_ok (snd (task_create_internal sizeof_task s entry program)).
Proof.
  intros Hk [Hc Hrun] Hlp. destruct (current_task s _ _ c Hk Hc) as [Hin [kc Hkc]]. rewrite (get_lookup s c kc Hkc) in Hrun.
  unfold task_create_internal. pose proof (ti_heap _ _ _ _ _ (ki_tree _ _ _ Hk)) as Hh.
  destruct (kmalloc sizeof_task (kheap s)) as [t h1] eqn:E1. destruct (kmalloc THREAD_SIZE h1) as [st h2] eqn:E2.
  destruct (undo_allocs _ _ _ _ _ Hh E1 E2) as (U1 & U2 & U3 & U4 & U5).
  destruct t as [t|], st as [st|]; [|by apply heap_kinv..].
  destruct (match program with None => _ | Some _ => _ end) as [[m failed] r1]. rewrite Hc. destruct failed; cbn [snd].
  - destruct (U5 t st eq_refl eq_refl) as [V1 V2]. apply fail_kinv; try done. rewrite add32_id; lia.
  - destruct (two_allocs _ _ _ _ _ Hh E1 E2) as (A1 & A2 & A3 & A4 & A5 & A6).
    eapply create_kinv; try done; congruence.
Qed.

(** *** Reference counts *)

(** A change of the tree fields of some tasks. *)
Definition kin (m m' : gmap Z task_struct) : Prop :=
  forall u, match m !! u, m' !! u with
            | Some k, Some x => pid x = pid k /\ waitq x = waitq k /\ wait_link x = wait_link k /\ state x = state k /\
                                mm x = mm k /\ fs x = fs k
            | None, None => True
            | _, _ => False
            end.

#[export] Instance kin_preorder : PreOrder kin.
Proof.
  split.
  - intros m u. by destruct (m !! u).
  - intros m1 m2 m3 H1 H2 u. specialize (H1 u). specialize (H2 u).
    destruct (m1 !! u), (m2 !! u), (m3 !! u); try done. destruct_and!. split_and!; congruence.
Qed.

Lemma kin_alter f t m :
  (forall k, pid (f k) = pid k /\ waitq (f k) = waitq k /\ wait_link (f k) = wait_link k /\ state (f k) = state k /\
     mm (f k) = mm k /\ fs (f k) = fs k) -> kin m (alter f t m).
Proof.
  intros Hf u. destruct (decide (t = u)) as [->|Hne].
  - rewrite lookup_alter_eq. destruct (m !! u); [|done]. apply Hf.
  - rewrite lookup_alter_ne by done. by destruct (m !! u).
Qed.

Lemma kin_wait X m m' qs : kin m m' -> wait_inv X m qs -> wait_inv X m' qs.
Proof.
  intros Hk [L N Q B].
  assert (Hr : forall u x, m' !! u = Some x -> exists k, m !! u = Some k /\ waitq x = waitq k /\ wait_link x = wait_link k /\ state x = state k).
  { intros u x Hx. specialize (Hk u). rewrite Hx in Hk. destruct (m !! u) as [k|]; [|done]. exists k. destruct_and!. done. }
  assert (Hl : forall u k, m !! u = Some k -> exists x, m' !! u = Some x /\ wait_link x = wait_link k).
  { intros u k Hu. specialize (Hk u). rewrite Hu in Hk. destruct (m' !! u) as [x|]; [|done]. exists x. destruct_and!. done. }
  split; try done.
  - intros u q. rewrite L. split; intros (k & Hu & E).
    + destruct (Hl u k Hu) as (x & Hx & E'). exists x. by rewrite E'.
    + destruct (Hr u k Hu) as (x & Hx & _ & E' & _). exists x. by rewrite <- E'.
  - intros u x Hx. destruct (Hr u x Hx) as (k & Hu & -> & -> & _). by eapply Q.
  - intros u x Hx HX. destruct (Hr u x Hx) as (k & Hu & -> & _ & ->). by eapply B.
Qed.

Lemma kin_kinv X E E' s s' :
  kinv X E s -> kin (tasks s) (tasks s') -> queues s' = queues s -> current s' = current s ->
  task_list s' = task_list s -> tree_inv idle (nodes s') (task_list s) (last_pid s') (kheap s') ->
  (forall u k x, tasks s !! u = Some k -> tasks s' !! u = Some x -> state k = TASK_ZOMBIE -> pid k <> 0 ->
     children k = [] -> children x = [] \/ pid k = 1) ->
  (forall u k x, tasks s !! u = Some k -> tasks s' !! u = Some x -> on_tasks x = on_tasks k /\ usage x = usage k + (E' u - E u)) ->
  kinv X E' s'.
Proof.
  intros [T W Z C S U] Hk E1 E2 E3 Ht Hch Hu'. split.
  - by rewrite E3.
  - rewrite E1. by apply (kin_wait _ (tasks s)).
  - intros u x Hx Hz. pose proof (Hk u) as Hu. rewrite Hx in Hu. destruct (tasks s !! u) as [k|] eqn:Hku; [|done].
    destruct Hu as (A1 & _ & _ & A2 & A3 & A4). rewrite A2 in Hz. destruct (Z u k Hku Hz) as (B1 & B2 & B3 & B4).
    rewrite A1, A3, A4. split_and!; try done. destruct B4 as [?|B4]; [by left|].
    destruct (Hch u k x Hku Hx Hz B3 B4); tauto.
  - rewrite E2, E3. done.
  - intros u p. unfold waiters. rewrite E1. apply S.
  - intros u x Hx. pose proof (Hk u) as Hu. rewrite Hx in Hu. destruct (tasks s !! u) as [k|] eqn:Hku; [|done].
    destruct Hu as (A1 & _ & _ & A2 & _). destruct (Hu' u k x Hku Hx) as [A3 ->]. rewrite (U u k Hku). unfold refs_of.
    rewrite A1, A2, A3. lia.
Qed.

(** One more function holds [d] references to [t]. *)
Definition held (d t : Z) (E : Z -> Z) : Z -> Z := fun u => E u + (if decide (u = t) then d else 0).

Definition bump_usage (d : Z) t s : kstate := upd (fun k => set_usage (usage k + d) k) t s.

Lemma bump_usage_ok X E d t s :
  (forall k, tasks s !! t = Some k -> 1 <= usage k + d) -> kinv X E s ->
  kinv X (held d t E) (bump_usage d t s) /\ nodes (bump_usage d t s) = alter (add_usage d) t (nodes s).
Proof.
  intros Hd Hk. assert (En : nodes (bump_usage d t s) = alter (add_usage d) t (nodes s)) by (by apply nodes_upd).
  split; [|done]. apply (kin_kinv X E _ s); try done.
  - by apply kin_alter.
  - rewrite En. apply add_usage_ok; [|apply Hk]. intros n (k & Hk' & ->)%nodes_some. cbn. by apply Hd.
  - intros u k x Hu Hx _ _ Hc. left. unfold bump_usage in Hx. rewrite lookup_upd in Hx. case_decide; [|congruence].
    rewrite Hu in Hx. injection Hx as <-. done.
  - intros u k x Hu Hx. unfold bump_usage in Hx. rewrite lookup_upd, Hu in Hx. unfold held.
    destruct (decide (t = u)), (decide (u = t)); try congruence; cbn in Hx; injection Hx as <-; cbn; split; try done; lia.
Qed.

(** Dropping a reference that is not the last. *)
Lemma put_not_last s t k : tasks s !! t = Some k -> usage k <> 1 -> put_task_struct t s = Done (bump_usage (-1) t s).
Proof.
  intros Hk Hu. unfold put_task_struct.
  assert (E : upd (fun k => set_usage (usage k - 1) k) t s = bump_usage (-1) t s) by done. rewrite E.
  unfold bump_usage. rewrite (get_upd_eq _ _ _ _ Hk). cbn [set_usage usage]. destruct (Z.eqb_spec (usage k + -1) 0); [lia|done].
Qed.

Lemma wake_up_process_nodes t s : nodes (snd (wake_up_process t s)) = nodes s.
Proof.
  destruct (wake_up_process_spec t s) as (A & _). apply similar_nodes. rewrite A. apply quiet_similar, quiet_wake_state.
Qed.

Lemma wake_up_all_nodes X E q s : kinv X E s -> nodes (wake_up_all q s) = nodes s.
Proof.
  intros Hk. destruct (wake_up_all_spec q s) as (A & B & C); [apply (wi_nodup _ _ _ (ki_wait _ _ _ Hk))|].
  apply similar_nodes. intros u. rewrite A. destruct (decide (u ∈ waiters s q)); destruct (tasks s !! u); try done. apply wake_task_view.
Qed.

(** *** Reparenting *)

Lemma next_in_head t l : next_in (t :: l) t = head l.
Proof. cbn [next_in]. by rewrite Z.eqb_refl. Qed.

(** One round of the loop. *)
Definition move_step (par reaper t : Z) s : kstate :=
  upd (fun k => set_children (children k ++ [t]) k) reaper
    (upd (fun k => set_sibling (Some reaper) (set_parent (Some reaper) (set_real_parent (Some reaper) k))) t
      (upd (fun k => set_children (filter (fun u => u <> t) (children k)) k) par s)).

Lemma move_step_nodes par reaper t s : nodes (move_step par reaper t s) = move_child par t reaper (nodes s).
Proof.
  unfold move_step, move_child. rewrite (nodes_upd _ (add_child t)) by done.
  rewrite (nodes_upd _ (adopt (Some reaper))) by done. by rewrite (nodes_upd _ (del_child t)).
Qed.

Lemma move_step_kin par reaper t s : kin (tasks s) (tasks (move_step par reaper t s)).
Proof.
  unfold move_step. cbn [upd with_tasks tasks]. transitivity (alter (fun k => set_children (filter (fun u => u <> t) (children k)) k) par (tasks s)).
  { by apply kin_alter. }
  etransitivity; [|by apply kin_alter]. by apply kin_alter.
Qed.

Lemma filter_ne_tail t (l : list Z) : NoDup (t :: l) -> filter (fun u => u <> t) (t :: l) = l.
Proof.
  intros [Hn _]%NoDup_cons. rewrite filter_cons_False by tauto. apply filter_all_in. intros x Hx ->. done.
Qed.

Lemma reparent_round X E par reaper t l s kp kr :
  kinv X E s -> tasks s !! par = Some kp -> children kp = t :: l -> tasks s !! reaper = Some kr ->
  reaper <> par -> par <> idle -> reaper ∉ t :: l -> (state kr = TASK_ZOMBIE -> pid kr = 1) ->
  let s' := move_step par reaper t s in
  kinv X E s' /\ (exists kp', tasks s' !! par = Some kp' /\ children kp' = l /\ parent kp' = parent kp) /\
  (exists kr', tasks s' !! reaper = Some kr' /\ state kr' = state kr /\ pid kr' = pid kr /\ children kr' = children kr ++ [t]).
Proof.
  intros Hk Hp Hch Hr Hne Hid Hnin Hz s'. pose proof (ki_tree _ _ _ Hk) as T.
  pose proof (nodes_lookup _ _ _ Hp) as Hpn. pose proof (nodes_lookup _ _ _ Hr) as Hrn.
  assert (Hin : t ∈ n_children (view kp)) by (cbn; rewrite Hch; by left).
  destruct (ti_child _ _ _ _ _ T par _ t Hpn Hin) as (nt & Hnt & Hs).
  destruct (ti_sib _ _ _ _ _ T t nt par Hnt Hs) as [Htp _].
  assert (Htr : t <> reaper) by (intros ->; apply Hnin; by left).
  assert (Hnd : NoDup (t :: l)) by (rewrite <- Hch; apply (ti_nodup _ _ _ _ _ T par _ Hpn)).
  assert (HT : tree_inv idle (nodes s') (task_list s) (last_pid s) (kheap s)).
  { unfold s'. rewrite move_step_nodes. by eapply move_child_ok. }
  assert (Hpar : exists kp', tasks s' !! par = Some kp' /\ children kp' = l /\ parent kp' = parent kp).
  { unfold s', move_step. rewrite !lookup_upd. rewrite (decide_False (P := reaper = par)) by done.
    rewrite (decide_False (P := t = par)), decide_True, Hp by done. cbn. eexists. split; [done|]. cbn. rewrite Hch. split; [by apply filter_ne_tail|done]. }
  assert (Hrea : exists kr', tasks s' !! reaper = Some kr' /\ state kr' = state kr /\ pid kr' = pid kr /\ children kr' = children kr ++ [t]).
  { unfold s', move_step. rewrite !lookup_upd. rewrite decide_True by done. rewrite (decide_False (P := t = reaper)) by done.
    rewrite decide_False, Hr by done. by eexists. }
  split; [|done]. apply (kin_kinv X E _ s); try done; [apply move_step_kin| |].
  2:{ intros u k x Hu Hx. unfold s', move_step in Hx. rewrite !lookup_upd, Hu in Hx. rewrite Z.sub_diag, Z.add_0_r.
    repeat case_decide; cbn in Hx; by injection Hx as <-. }
  intros u k x Hu Hx Hzu Hp0 Hcu. destruct (decide (u = reaper)) as [->|N1]; [right; rewrite Hr in Hu; injection Hu as <-; auto|].
  left. unfold s', move_step in Hx. rewrite !lookup_upd in Hx. rewrite decide_False in Hx by done. rewrite Hu in Hx.
  destruct (decide (t = u)), (decide (par = u)); cbn in Hx; injection Hx as <-; cbn; by rewrite ?Hcu.
Qed.

(** The loop ends when the reaper is another task ... *)
Lemma reparent_other X E fuel par reaper l w s kp kr :
  kinv X E s -> tasks s !! par = Some kp -> children kp = l -> tasks s !! reaper = Some kr ->
  reaper <> par -> par <> idle -> reaper ∉ l -> (state kr = TASK_ZOMBIE -> pid kr = 1) -> (length l <= fuel)%nat ->
  exists w' s', reparent_loop fuel par reaper (head l) w s = Done (w', s') /\ kinv X E s' /\
    kin (tasks s) (tasks s') /\ rest s' = rest s /\ (exists kp', tasks s' !! par = Some kp' /\ children kp' = [] /\ parent kp' = parent kp) /\
    (forall u, n_usage <$> nodes s' !! u = n_usage <$> nodes s !! u) /\
    (exists kr', tasks s' !! reaper = Some kr' /\ children kr' = children kr ++ l) /\
    w' = w || existsb (fun t => bool_decide (state (get s t) = TASK_ZOMBIE)) l.
Proof.
  revert fuel w s kp kr. induction l as [|t l IH]; intros fuel w s kp kr Hk Hp Hch Hr Hne Hid Hnin Hz Hf; cbn [head existsb].
  { exists w, s. destruct fuel; cbn [reparent_loop]; (split_and!; [done..|by exists kp|done| |by rewrite orb_false_r]);
      exists kr; by rewrite app_nil_r. }
  destruct fuel as [|fuel]; [cbn in Hf; lia|]. cbn [reparent_loop]. rewrite (get_lookup s par kp Hp), Hch, next_in_head.
  fold (move_step par reaper t s).
  destruct (reparent_round X E par reaper t l s kp kr) as (K' & (kp' & Hp' & Hch' & Epp) & (kr' & Hr' & E1 & E2 & E3)); try done.
  set (s1 := move_step par reaper t s) in *.
  destruct (IH fuel (w || bool_decide (state (get s1 t) = TASK_ZOMBIE)) s1 kp' kr') as (w' & s' & Er & A1 & A2 & A3 & A4 & A5 & (kr2 & A6 & A8) & A7); try done.
  { intros ?. apply Hnin. by right. }
  { rewrite E1, E2. done. }
  { cbn in Hf. lia. }
  pose proof (move_step_kin par reaper t s) as Hkin. fold s1 in Hkin.
  assert (Est : forall u, state (get s1 u) = state (get s u)).
  { intros u. specialize (Hkin u). unfold get. destruct (tasks s !! u), (tasks s1 !! u); try done. destruct_and!. done. }
  assert (Hus : forall u, n_usage <$> nodes s1 !! u = n_usage <$> nodes s !! u).
  { intros u. unfold nodes. rewrite !lookup_fmap. unfold s1, move_step. rewrite !lookup_upd.
    repeat case_decide; by destruct (tasks s !! u). }
  exists w', s'. split; [done|]. split; [done|]. split; [by transitivity (tasks s1)|]. split; [done|]. split; [by rewrite <- Epp|].
  split; [intros u; by rewrite A5, Hus|]. split.
  - exists kr2. split; [done|]. rewrite A8, E3, <- app_assoc. done.
  - rewrite A7, Est. rewrite <- orb_assoc. do 2 f_equal. clear -Est.
    induction l as [|x l IHl]; [done|]. cbn [existsb]. by rewrite IHl, Est.
Qed.

(** ... and never when a task with two children reparents them to itself. *)
Lemma reparent_self_endless par fuel w s kp t u l :
  tasks s !! par = Some kp -> children kp = t :: u :: l -> NoDup (t :: u :: l) -> par ∉ t :: u :: l ->
  reparent_loop fuel par par (Some t) w s = Endless.
Proof.
  revert w s kp t u l. induction fuel as [|fuel IH]; intros w s kp t u l Hp Hch Hnd Hn; [done|]. cbn [reparent_loop].
  rewrite (get_lookup s par kp Hp), Hch, next_in_head. cbn [head].
  fold (move_step par par t s).
  assert (Hpt : t <> par) by (intros ->; apply Hn; by left).
  assert (Hp' : tasks (move_step par par t s) !! par = Some (set_children (u :: l ++ [t]) kp)).
  { unfold move_step. rewrite lookup_upd, decide_True by done. rewrite lookup_upd, decide_False by done.
    rewrite lookup_upd, decide_True, Hp by done. cbn [fmap option_fmap option_map]. apply f_equal. transitivity (set_children (filter (fun x => x <> t) (children kp) ++ [t]) kp); [reflexivity|].
    by rewrite Hch, filter_ne_tail. }
  assert (Hnd' : NoDup (u :: l ++ [t])).
  { apply NoDup_cons in Hnd as [N1 N2]. change (u :: l ++ [t]) with ((u :: l) ++ [t]). apply NoDup_app. split; [done|].
    split; [|apply NoDup_singleton]. intros x Hx ->%list_elem_of_singleton. done. }
  assert (Hn' : par ∉ u :: l ++ [t]) by (change (u :: l ++ [t]) with ((u :: l) ++ [t]); rewrite elem_of_app, list_elem_of_singleton; intros [?|?]; [apply Hn; by right|done]).
  destruct l as [|v l]; cbn [app] in *; by eapply IH.
Qed.

(** *** Exit *)

(** What a task gives back: its files, its address space, its directories. *)
Definition release_res t k (r : R) : R :=
  let r1 := files_close_all t r in
  let r2 := match mm k with Some m => mm_destroy m r1 | None => r1 end in
  put_opt (root (fs k)) (put_opt (pwd (fs k)) r2).

Definition zombie_of (code reason info0 info1 : Z) (k : task_struct) : task_struct :=
  set_state TASK_ZOMBIE (set_exit (ExitInfo code reason info0 info1) (set_fs (FS None None) (set_mm None k))).

Lemma task_zombify_spec t code reason info0 info1 s k :
  tasks s !! t = Some k -> pid k <> 0 -> state k <> TASK_ZOMBIE ->
  let s' := task_zombify t code reason info0 info1 s in
  tasks s' = alter (zombie_of code reason info0 info1) t (tasks s) /\ queues s' = queues s /\
  task_list s' = task_list s /\ current s' = current s /\ last_pid s' = last_pid s /\ kheap s' = kheap s /\
  res s' = release_res t k (res s).
Proof.
  intros Hk Hp Hz. unfold task_zombify. rewrite (get_lookup s t k Hk). unfold is_idle_task.
  destruct (Z.eqb_spec (pid k) 0); [done|]. rewrite bool_decide_eq_false_2 by done.
  unfold task_release_resources. set (s0 := with_res s _).
  assert (E : tasks (task_free_user_memory t s0) = alter (set_mm None) t (tasks s) /\
    queues (task_free_user_memory t s0) = queues s /\ task_list (task_free_user_memory t s0) = task_list s /\
    current (task_free_user_memory t s0) = current s /\ last_pid (task_free_user_memory t s0) = last_pid s /\
    kheap (task_free_user_memory t s0) = kheap s /\
    res (task_free_user_memory t s0) = match mm k with Some m => mm_destroy m (files_close_all t (res s)) | None => files_close_all t (res s) end).
  { unfold task_free_user_memory. destruct (mm (get s0 t)) as [m|] eqn:Em;
      change (get s0 t) with (get s t) in Em; rewrite (get_lookup s t k Hk) in Em; rewrite Em; [done|].
    split_and!; try done. symmetry. apply alter_id. intros x Hx. change (tasks s0) with (tasks s) in Hx.
    rewrite Hk in Hx. injection Hx as <-. destruct k. cbn in Em. by subst. }
  destruct E as (E1 & E2 & E3 & E4 & E5 & E6 & E7). cbn [upd with_tasks with_res tasks queues task_list current last_pid kheap res].
  assert (Ef : fs (get (task_free_user_memory t s0) t) = fs k).
  { unfold get. by rewrite E1, lookup_alter_eq, Hk. }
  rewrite Ef, E1, E2, E3, E4, E5, E6, E7. split_and!; try done. by rewrite !alter_alter.
Qed.

Lemma zombie_calm code reason info0 info1 : calm (zombie_of code reason info0 info1).
Proof. intros k. split_and!; try done. Qed.

Lemma task_zombify_ok (X : Z -> Prop) E t code reason info0 info1 s k :
  kinv (fun u => u = t \/ X u) E s -> tasks s !! t = Some k -> pid k <> 0 -> state k <> TASK_ZOMBIE ->
  (pid k = 1 \/ children k = []) ->
  kinv X (held (if pid k =? 1 then -1 else 0) t E) (task_zombify t code reason info0 info1 s) /\ nodes (task_zombify t code reason info0 info1 s) = nodes s.
Proof.
  intros Hi Hk Hp Hz Hch. destruct (task_zombify_spec t code reason info0 info1 s k Hk Hp Hz) as (A & B & C & D & El & F & _).
  set (s' := task_zombify t code reason info0 info1 s) in *.
  assert (En : nodes s' = nodes s).
  { apply map_eq. intros u. unfold nodes. rewrite !lookup_fmap, A. destruct (decide (t = u)) as [->|Hne].
    - rewrite lookup_alter_eq. by destruct (tasks s !! u).
    - by rewrite lookup_alter_ne. }
  split; [|done]. destruct Hi as [T W Zo Cu S U]. split.
  - by rewrite En, C, El, F.
  - rewrite A, B. apply (wait_inv_strengthen _ t).
    + apply wait_inv_calm; [apply zombie_calm|done].
    + intros x. rewrite lookup_alter_eq, Hk. by intros [= <-].
  - intros u x. rewrite A. intros (y & Hy & ->)%alter_some. case_decide; [|by eapply Zo]. intros _. subst u.
    rewrite Hk in Hy. injection Hy as <-. done.
  - by rewrite D, C.
  - intros u p. unfold waiters. rewrite B. apply S.
  - intros u x. rewrite A. intros (y & Hy & ->)%alter_some. specialize (U u y Hy). unfold held.
    destruct (decide (t = u)), (decide (u = t)); try congruence; [|lia]. subst u. rewrite Hk in Hy. injection Hy as <-.
    cbn [zombie_of set_state set_exit set_fs set_mm usage]. unfold refs_of in *. cbn. rewrite bool_decide_eq_false_2, andb_false_r in U by done.
    rewrite U. destruct (pid k =? 1); rewrite ?bool_decide_eq_true_2 by done; cbn [andb]; lia.
Qed.

Lemma kinv_held X E E' s : (forall u, E u = E' u) -> kinv X E s -> kinv X E' s.
Proof. intros He [T W Z C S U]. split; try done. intros t k Hk. rewrite <- He. by apply U. Qed.

(** Waking and reference counting keep tasks that are runnable or zombies. *)
Lemma wake_up_all_keeps q s u k :
  NoDup (waiters s q) -> tasks s !! u = Some k -> state k = TASK_ZOMBIE \/ state k = TASK_RUNNABLE ->
  exists k', tasks (wake_up_all q s) !! u = Some k' /\ state k' = state k /\ exit k' = exit k /\ mm k' = mm k /\ pid k' = pid k /\
    (u ∉ waiters s q -> waitq k' = waitq k).
Proof.
  intros Hn Hk Hst. destruct (wake_up_all_spec q s Hn) as (T & _). rewrite T, Hk. case_decide; [|by exists k].
  eexists. split; [done|]. unfold wake_task, wake_state. cbn [set_waitq set_wait_link state]. by destruct Hst as [E|E]; rewrite E.
Qed.

Lemma bump_usage_keeps d p s u k :
  tasks s !! u = Some k ->
  exists k', tasks (bump_usage d p s) !! u = Some k' /\ state k' = state k /\ exit k' = exit k /\ mm k' = mm k /\ pid k' = pid k /\
    waitq k' = waitq k.
Proof. intros Hk. unfold bump_usage. rewrite lookup_upd, Hk. case_decide; by eexists. Qed.

(** What [exit_notify] leaves of the task [t], whose wait queue was [wq], of its
    parent and of the resources [r]. *)
Record exited (t : Z) (info : exit_info) (par : option Z) (r : R) (wq : option wqid) (s x : kstate) : Prop := Exited {
  ex_task : exists k', tasks x !! t = Some k' /\ state k' = TASK_ZOMBIE /\ exit k' = info /\ mm k' = None /\
    (pid k' <> 1 -> waitq k' = wq);
  ex_par p kp : par = Some p -> tasks s !! p = Some kp -> state kp = TASK_BLOCKED \/ state kp = TASK_SLEEPING ->
    exists kp', tasks x !! p = Some kp' /\ state kp' = TASK_RUNNABLE;
  ex_run u ku : u <> t -> tasks s !! u = Some ku -> state ku = TASK_RUNNABLE ->
    exists ku', tasks x !! u = Some ku' /\ state ku' = TASK_RUNNABLE;
  ex_rest : task_list x = task_list s /\ kheap x = kheap s /\ current x = current s /\ res x = r;
}.

Lemma exited_wake t info par r wq s x E p k :
  kinv (fun _ => False) E x -> exited t info par r wq s x -> tasks s !! t = Some k -> nodes x !! t = nodes s !! t ->
  (p = t -> pid k = 1) -> exited t info par r wq s (wake_up_all (ChildExit p) x).
Proof.
  intros Hx [(k' & Hk' & Z1 & Z2 & Z3 & Z4) Hp Hr (R1 & R2 & R3 & R4)] Ht En Hpt. set (q := ChildExit p).
  assert (Hn : NoDup (waiters x q)) by apply (wi_nodup _ _ _ (ki_wait _ _ _ Hx)).
  destruct (wake_up_all_spec q x Hn) as (_ & _ & C). unfold rest in C. injection C as C1 C2 _ _ _ _ _ _ C9 C10.
  split; [| | |by rewrite C1, C2, C9, C10].
  - destruct (wake_up_all_keeps q x t k' Hn Hk') as (k2 & Hk2 & E1 & E2 & E3 & E4 & E5); [by left|]. exists k2. rewrite E1, E2, E3, E4.
    split_and!; try done. intros Hne. rewrite E5; [by apply Z4|]. intros Hin. apply (ki_self _ _ _ Hx) in Hin as <-.
    rewrite (nodes_lookup _ _ _ Hk'), (nodes_lookup _ _ _ Ht) in En. injection En as _ En _ _ _ _ _. specialize (Hpt eq_refl). congruence.
  - intros p' kp E0 Hkp Hs. destruct (Hp p' kp E0 Hkp Hs) as (kp' & Hkp' & Ez).
    destruct (wake_up_all_keeps q x p' kp' Hn Hkp') as (k2 & Hk2 & E1 & _); [by right|]. exists k2. by rewrite E1.
  - intros u ku Hne Hku Hs. destruct (Hr u ku Hne Hku Hs) as (k1 & Hk1 & Ez).
    destruct (wake_up_all_keeps q x u k1 Hn Hk1) as (k2 & Hk2 & E1 & _); [by right|]. exists k2. by rewrite E1.
Qed.

Lemma exited_put t info par r wq s x E p n :
  kinv (fun _ => False) E x -> exited t info par r wq s x -> nodes x !! p = Some n -> 2 <= n_usage n ->
  put_task_struct p x = Done (bump_usage (-1) p x) /\ kinv (fun _ => False) (held (-1) p E) (bump_usage (-1) p x) /\
  nodes (bump_usage (-1) p x) = alter (add_usage (-1)) p (nodes x) /\ exited t info par r wq s (bump_usage (-1) p x).
Proof.
  intros Hx [(k' & Hk' & Z1 & Z2 & Z3 & Z4) Hp Hr Hrst] Hn Hu. apply nodes_some in Hn as (kp & Hkp & ->). cbn in Hu.
  split; [apply (put_not_last _ _ kp); [done|lia]|].
  destruct (bump_usage_ok (fun _ => False) E (-1) p x) as [B1 B2]; [intros k2 Hk2; rewrite Hkp in Hk2; injection Hk2 as <-; lia|done|].
  split; [done|]. split; [done|]. split; [| | |done].
  - destruct (bump_usage_keeps (-1) p x t k' Hk') as (k2 & Hk2 & E1 & E2 & E3 & E4 & E5). exists k2. by rewrite E1, E2, E3, E4, E5.
  - intros p' kp' E0 Hkp' Hs. destruct (Hp p' kp' E0 Hkp' Hs) as (k2 & Hk2 & Ez).
    destruct (bump_usage_keeps (-1) p x p' k2 Hk2) as (k3 & Hk3 & E1 & _). exists k3. by rewrite E1.
  - intros u ku Hne Hku Hs. destruct (Hr u ku Hne Hku Hs) as (k1 & Hk1 & Ez).
    destruct (bump_usage_keeps (-1) p x u k1 Hk1) as (k2 & Hk2 & E1 & _). exists k2. by rewrite E1.
Qed.

(** The references [exit_notify] holds to the parent and to the reaper. *)
Definition exit_refs (par : option Z) (reaper : Z) : Z -> Z :=
  fun u => (if decide (par = Some u) then 1 else 0) + (if decide (u = reaper) then 1 else 0).

(** The task is a zombie and its parent is awake. *)
Lemma exit_zombie t code reason info0 info1 E s k :
  kinv (fun u => u = t \/ False) E s -> tasks s !! t = Some k -> pid k <> 0 -> state k <> TASK_ZOMBIE ->
  (pid k = 1 \/ children k = []) ->
  let s5 := signal_notify_exit t (task_zombify t code reason info0 info1 s) in
  kinv (fun _ => False) (held (if pid k =? 1 then -1 else 0) t E) s5 /\ nodes s5 = nodes s /\
  exited t (ExitInfo code reason info0 info1) (parent k) (release_res t k (res s)) (waitq k) s s5.
Proof.
  intros Hi Hk Hp Hz Hch. cbv zeta. set (info := ExitInfo code reason info0 info1).
  destruct (task_zombify_ok (fun _ => False) E t code reason info0 info1 s k Hi Hk Hp Hz Hch) as [K1 N1].
  destruct (task_zombify_spec t code reason info0 info1 s k Hk Hp Hz) as (A1 & _ & A3 & A4 & _ & A6 & A7).
  set (s1 := task_zombify t code reason info0 info1 s) in *.
  assert (Hk1 : tasks s1 !! t = Some (zombie_of code reason info0 info1 k)) by (by rewrite A1, lookup_alter_eq, Hk).
  unfold signal_notify_exit. rewrite (get_lookup _ _ _ Hk1). change (parent (zombie_of _ _ _ _ k)) with (parent k).
  destruct (parent k) as [p|] eqn:Ep.
  2:{ split; [done|]. split; [done|]. split; [by eexists|done| |by rewrite A3, A4, A6, A7].
      intros u ku Hne Hku Hs. rewrite A1, lookup_alter_ne by done. by exists ku. }
  destruct (wake_up_process_spec p s1) as (W1 & _ & C & _). unfold rest in C. injection C as C1 C2 _ _ _ _ _ _ C9 C10.
  pose proof (wake_up_process_ok _ _ p s1 K1) as K2. pose proof (wake_up_process_nodes p s1) as N2.
  set (s2 := snd (wake_up_process p s1)) in *.
  assert (Hpt : p <> t).
  { intros ->. pose proof (nodes_lookup _ _ _ Hk) as Hkn. pose proof (ti_parent _ _ _ _ _ (ki_tree _ _ _ Hi) t _ Hkn) as E0.
    cbn in E0. rewrite Ep in E0. destruct (ti_sib _ _ _ _ _ (ki_tree _ _ _ Hi) t _ t Hkn) as [? _]; [by cbn|done]. }
  assert (X2 : exited t info (Some p) (release_res t k (res s)) (waitq k) s s2).
  { split.
    - rewrite W1, lookup_alter_ne by done. by eexists.
    - intros p' kp [= <-] Hkp Hs. rewrite W1, lookup_alter_eq, A1, lookup_alter_ne, Hkp by done. eexists. split; [done|].
      unfold wake_state. destruct Hs as [E0|E0]; rewrite E0; unfold slice; by destruct (_ <=? 0).
    - intros u ku Hne Hku Hs. rewrite W1. destruct (decide (p = u)) as [->|Hpu].
      + rewrite lookup_alter_eq, A1, lookup_alter_ne, Hku by done. eexists. split; [done|]. unfold wake_state. by rewrite Hs.
      + rewrite lookup_alter_ne, A1, lookup_alter_ne by done. by exists ku.
    - by rewrite C1, C2, C9, C10, A3, A4, A6, A7. }
  split; [by apply wake_up_all_kinv|]. split; [by rewrite (wake_up_all_nodes _ _ _ s2 K2), N2|].
  eapply exited_wake; [done..|by rewrite N2, N1|done].
Qed.

(** The last part of [exit_notify], from the reparented state on. *)
Lemma exit_tail t code reason info0 info1 par reaper (wake : bool) s k :
  kinv (fun u => u = t \/ False) (exit_refs par reaper) s -> tasks s !! t = Some k -> pid k <> 0 -> state k <> TASK_ZOMBIE ->
  (pid k = 1 \/ children k = []) -> (reaper = t <-> pid k = 1) -> par <> Some t ->
  (forall p, par = Some p -> exists n, nodes s !! p = Some n /\ 2 <= n_usage n /\ (reaper <> t -> p = reaper -> 3 <= n_usage n)) ->
  (reaper <> t -> exists n, nodes s !! reaper = Some n /\ 2 <= n_usage n) ->
  exists s', (let s5 := signal_notify_exit t (task_zombify t code reason info0 info1 s) in
    let s6 := match par with Some p => wake_up_all (ChildExit p) s5 | None => s5 end in
    let s7 := if wake then wake_up_all (ChildExit reaper) s6 else s6 in
    let! s8 := match par with Some p => put_task_struct p s7 | None => Done s7 end in
    let! s9 := if negb (reaper =? t) then put_task_struct reaper s8 else Done s8 in
    Done (task_set_need_resched s9)) = Done s' /\ kernel_ok s' /\
    exited t (ExitInfo code reason info0 info1) (parent k) (release_res t k (res s)) (waitq k) s s' /\
    (forall u n, nodes s !! u = Some n -> exists n', nodes s' !! u = Some n' /\ n_pid n' = n_pid n /\ n_children n' = n_children n /\ n_parent n' = n_parent n).
Proof.
  intros Hi Hk Hp Hz Hch Hone Hpt Hpar Hrea. set (info := ExitInfo code reason info0 info1).
  destruct (exit_zombie t code reason info0 info1 _ s k Hi Hk Hp Hz Hch) as (K5 & N5 & X5). cbv zeta in K5, N5, X5.
  set (s5 := signal_notify_exit t _) in *. set (E5 := held _ t _) in K5. set (r := release_res t k (res s)) in *.
  assert (HE : forall u, E5 u = (if decide (par = Some u) then 1 else 0) + (if decide (u = reaper /\ reaper <> t) then 1 else 0)).
  { intros u. unfold E5, held, exit_refs. destruct (Z.eqb_spec (pid k) 1) as [E1|E1]; repeat case_decide; try lia; naive_solver. }
  clearbody E5.
  set (s6 := match par with Some p => wake_up_all (ChildExit p) s5 | None => s5 end).
  assert (H6 : kinv (fun _ => False) E5 s6 /\ nodes s6 = nodes s /\ exited t info (parent k) r (waitq k) s s6).
  { unfold s6. destruct par as [p|]; [|done]. split; [by apply wake_up_all_kinv|].
    split; [by rewrite (wake_up_all_nodes _ _ _ s5 K5)|eapply exited_wake; [done..|by rewrite N5|congruence]]. }
  destruct H6 as (K6 & N6 & X6). set (s7 := if wake then wake_up_all (ChildExit reaper) s6 else s6).
  assert (H7 : kinv (fun _ => False) E5 s7 /\ nodes s7 = nodes s /\ exited t info (parent k) r (waitq k) s s7).
  { unfold s7. destruct wake; [|done]. split; [by apply wake_up_all_kinv|].
    split; [by rewrite (wake_up_all_nodes _ _ _ s6 K6)|eapply exited_wake; [done..|by rewrite N6|by apply Hone]]. }
  destruct H7 as (K7 & N7 & X7). cbv zeta. fold s6. fold s7.
  assert (Hsame : forall d p x u n, nodes x !! u = Some n -> exists n', alter (add_usage d) p (nodes x) !! u = Some n' /\
    n_pid n' = n_pid n /\ n_children n' = n_children n /\ n_parent n' = n_parent n).
  { intros d p x u n Hn. destruct (decide (p = u)) as [->|Hne].
    - rewrite lookup_alter_eq, Hn. by eexists.
    - rewrite lookup_alter_ne, Hn by done. by eexists. }
  assert (H8 : exists s8, match par with Some p => put_task_struct p s7 | None => Done s7 end = Done s8 /\
    kinv (fun _ => False) (fun u => if decide (u = reaper /\ reaper <> t) then 1 else 0) s8 /\
    (reaper <> t -> exists n, nodes s8 !! reaper = Some n /\ 2 <= n_usage n) /\ exited t info (parent k) r (waitq k) s s8 /\
    (forall u n, nodes s !! u = Some n -> exists n', nodes s8 !! u = Some n' /\ n_pid n' = n_pid n /\ n_children n' = n_children n /\ n_parent n' = n_parent n)).
  { destruct par as [p|].
    2:{ exists s7. rewrite N7. split; [done|]. split; [|by eauto 10]. eapply kinv_held; [|done]. intros u. rewrite HE. repeat case_decide; done. }
    destruct (Hpar p eq_refl) as (n & Hn & Hu & Hu3). rewrite <- N7 in Hn.
    destruct (exited_put t info (parent k) r (waitq k) s s7 E5 p n K7 X7 Hn Hu) as (P1 & P2 & P3 & P4).
    eexists. split; [done|]. split.
    { eapply kinv_held; [|exact P2]. intros u. unfold held. rewrite HE. repeat case_decide; try lia; naive_solver. }
    split; [|split; [done|intros u n'; rewrite P3, <- N7; apply Hsame]].
    intros Hne. rewrite P3. destruct (decide (p = reaper)) as [->|Hpr].
    - rewrite lookup_alter_eq, Hn. eexists. split; [done|]. cbn. specialize (Hu3 Hne eq_refl). lia.
    - rewrite lookup_alter_ne, N7 by done. by apply Hrea. }
  destruct H8 as (s8 & -> & K8 & Hr8 & X8 & Y8). cbn [obind].
  destruct (Z.eqb_spec reaper t) as [->|Hne]; cbn [negb obind].
  - assert (K9 : kernel_ok s8) by (eapply kinv_held; [|exact K8]; intros u; cbv beta; by rewrite decide_False by tauto).
    eexists. split; [done|]. split; [ext K9|]. split; [|done]. destruct X8 as [X81 X82 X83 X84]. by split.
  - destruct (Hr8 Hne) as (n & Hn & Hu). destruct (exited_put t info (parent k) r (waitq k) s s8 _ reaper n K8 X8 Hn Hu) as (P1 & P2 & P3 & P4).
    assert (K9 : kernel_ok (bump_usage (-1) reaper s8)).
    { eapply kinv_held; [|exact P2]. intros u. unfold held. repeat case_decide; try lia; naive_solver. }
    rewrite P1. cbn [obind]. eexists. split; [done|]. split; [ext K9|]. split; [destruct P4 as [X81 X82 X83 X84]; by split|].
    intros u n0 Hn0. destruct (Y8 u n0 Hn0) as (n1 & Hn1 & E1 & E2 & E5').
    change (nodes (task_set_need_resched (bump_usage (-1) reaper s8))) with (nodes (bump_usage (-1) reaper s8)). rewrite P3.
    destruct (Hsame (-1) reaper s8 u n1 Hn1) as (n2 & Hn2 & E3 & E4 & E6). exists n2. split; [done|]. by rewrite E3, E4, E6.
Qed.

(** [exit_notify] after the references are taken. *)
Definition exit_rest (fuel : nat) t (code reason info0 info1 : Z) (par : option Z) (reaper : Z) s3 : outcome kstate :=
  let! (wake, s4) := reparent_children fuel t reaper s3 in
  let s5 := signal_notify_exit t (task_zombify t code reason info0 info1 s4) in
  let s6 := match par with Some p => wake_up_all (ChildExit p) s5 | None => s5 end in
  let s7 := if (wake : bool) then wake_up_all (ChildExit reaper) s6 else s6 in
  let! s8 := match par with Some p => put_task_struct p s7 | None => Done s7 end in
  let! s9 := if negb (reaper =? t) then put_task_struct reaper s8 else Done s8 in
  Done (task_set_need_resched s9).

Lemma remove_kinv E t s k :
  kinv (fun _ => False) E s -> tasks s !! t = Some k ->
  let s1 := wait_queue_remove t s in
  kinv (fun u => u = t \/ False) E s1 /\ nodes s1 = nodes s /\ rest s1 = rest s /\
  tasks s1 !! t = Some (set_waitq None (set_wait_link None k)) /\ (forall u, u <> t -> tasks s1 !! u = tasks s !! u).
Proof.
  intros Hk Ht s1. destruct (wait_queue_remove_ok (fun _ => False) t s (ki_wait _ _ _ Hk)) as (W & A & B & C).
  specialize (A k Ht). fold s1 in W, A, B, C. clearbody s1.
  assert (Hs : similar (tasks s) (tasks s1)).
  { intros u. destruct (decide (u = t)) as [->|Hne]; [by rewrite Ht, A|]. rewrite B by done. by destruct (tasks s !! u). }
  split; [|split; [by apply similar_nodes|done]].
  pose proof C as C'. unfold rest in C'. injection C' as C1 C2 C3 C4 C5 C6 C7 C8 C9 C10.
  apply (similar_kinv (fun _ => False) _ _ s); try done.
  - rewrite C2. apply Hk.
  - intros u p Hu. left. unfold waiters in Hu |- *. apply (wi_link _ _ _ W) in Hu as (x & Hx & El).
    apply (wi_link _ _ _ (ki_wait _ _ _ Hk)). destruct (decide (u = t)) as [->|Hne].
    + rewrite A in Hx. injection Hx as <-. done.
    + rewrite B in Hx by done. by exists x.
Qed.

(** The same tasks, with the same states, pids and children. *)
Definition kindred (m m' : gmap Z task_struct) : Prop :=
  forall u, match m !! u, m' !! u with
            | Some k, Some x => pid x = pid k /\ state x = state k /\ children x = children k
            | None, None => True
            | _, _ => False
            end.

#[export] Instance kindred_preorder : PreOrder kindred.
Proof.
  split.
  - intros m u. by destruct (m !! u).
  - intros m1 m2 m3 H1 H2 u. specialize (H1 u). specialize (H2 u).
    destruct (m1 !! u), (m2 !! u), (m3 !! u); try done. destruct_and!. split_and!; congruence.
Qed.

Lemma kindred_bump d t s : kindred (tasks s) (tasks (bump_usage d t s)).
Proof. intros u. unfold bump_usage. rewrite lookup_upd. case_decide; by destruct (tasks s !! u). Qed.

(** The state in which [exit_notify] reparents. *)
Lemma exit_prefix E fuel t code reason info0 info1 s k :
  kinv (fun _ => False) E s -> tasks s !! t = Some k -> pid k <> 0 -> state k <> TASK_ZOMBIE ->
  exists par reaper s3 k3 kr, exit_notify fuel t code reason info0 info1 s = exit_rest fuel t code reason info0 info1 par reaper s3 /\
    kinv (fun u => u = t \/ False) (fun u => E u + exit_refs par reaper u) s3 /\ tasks s3 !! t = Some k3 /\ pid k3 = pid k /\ state k3 = state k /\ children k3 = children k /\
    mm k3 = mm k /\ fs k3 = fs k /\ par <> Some t /\ (state k <> TASK_BLOCKED -> waitq k3 = waitq k) /\
    (forall p, par = Some p -> exists n, nodes s3 !! p = Some n /\ 2 <= n_usage n /\ (p = reaper -> 3 <= n_usage n)) /\
    (exists n, nodes s3 !! reaper = Some n /\ 2 <= n_usage n) /\
    tasks s3 !! reaper = Some kr /\ (pid kr = 1 \/ reaper = idle) /\ (state kr = TASK_ZOMBIE -> pid kr = 1) /\ (reaper = t -> pid k = 1) /\ (pid k = 1 -> t ∈ task_list s -> reaper = t) /\
    (reaper ∉ children k) /\ t <> idle /\ rest s3 = rest s /\ parent k3 = parent k /\
    kindred (tasks s) (tasks s3).
Proof.
  intros Hk Ht Hp Hz. unfold exit_notify. rewrite (get_lookup s t k Ht). unfold is_idle_task.
  destruct (Z.eqb_spec (pid k) 0); [done|]. rewrite (bool_decide_eq_false_2 (state k = TASK_ZOMBIE)) by done.
  set (s1 := if _ && _ then _ else s).
  assert (H1 : exists k1, kinv (fun u => u = t \/ False) E s1 /\ nodes s1 = nodes s /\ rest s1 = rest s /\ tasks s1 !! t = Some k1 /\
    pid k1 = pid k /\ state k1 = state k /\ children k1 = children k /\ parent k1 = parent k /\
    (mm k1 = mm k /\ fs k1 = fs k /\ (state k <> TASK_BLOCKED -> waitq k1 = waitq k)) /\
    kindred (tasks s) (tasks s1)).
  { unfold s1. destruct (bool_decide (state k = TASK_BLOCKED)) eqn:Eb; [apply bool_decide_eq_true in Eb|]; [destruct (bool_decide _)|]; cbn [andb].
    - destruct (remove_kinv E t s k Hk Ht) as (A & B & C & D & F). eexists. split_and!; try done.
      intros u. destruct (decide (u = t)) as [->|Hne]; [by rewrite Ht, D|]. rewrite F by done. by destruct (tasks s !! u).
    - exists k. split_and!; try done. destruct Hk as [T W Z C S U]. split; try done. by apply (wait_inv_weaken (fun _ => False)).
    - exists k. split_and!; try done. destruct Hk as [T W Z C S U]. split; try done. by apply (wait_inv_weaken (fun _ => False)). }
  destruct H1 as (k1 & K1 & N1 & R1 & Ht1 & P1 & P2 & P3 & P4 & (P6 & P7 & P8) & P5).
  set (par := parent (get s1 t)). assert (Epar : par = parent k1) by (unfold par; by rewrite (get_lookup s1 t k1 Ht1)).
  clearbody par.
  set (s2 := match par with Some p => get_task_struct p s1 | None => s1 end).
  pose proof (ki_tree _ _ _ K1) as T1.
  assert (Hpt : par <> Some t).
  { intros E0. pose proof (nodes_lookup s1 t k1 Ht1) as Hn. pose proof (ti_parent _ _ _ _ _ T1 t _ Hn) as E1. cbn in E1.
    by destruct (ti_sib _ _ _ _ _ T1 t _ t Hn) as [? _]; [cbn; congruence|]. }
  assert (Hpar : forall p, par = Some p -> exists n, nodes s1 !! p = Some n).
  { intros p E0. pose proof (nodes_lookup s1 t k1 Ht1) as Hn. pose proof (ti_parent _ _ _ _ _ T1 t _ Hn) as E1. cbn in E1.
    destruct (ti_sib _ _ _ _ _ T1 t _ p Hn) as (_ & kp & Hkp & _); [cbn; congruence|]. by exists kp. }
  assert (H2 : kinv (fun u => u = t \/ False) (fun u => E u + if decide (par = Some u) then 1 else 0) s2 /\ rest s2 = rest s1 /\ kin (tasks s1) (tasks s2) /\
    nodes s2 = match par with Some p => alter (add_usage 1) p (nodes s1) | None => nodes s1 end /\
    (forall u x, tasks s2 !! u = Some x -> exists y, tasks s1 !! u = Some y /\ children x = children y /\ parent x = parent y)).
  { unfold s2. destruct par as [p|].
    2:{ split_and!; [eapply kinv_held; [|done]; intros u; rewrite decide_False by done; lia|done|reflexivity|done|by eauto]. }
    destruct (bump_usage_ok (fun u => u = t \/ False) E 1 p s1) as [A B]; [|done|].
    { intros kp Hkp. apply nodes_lookup in Hkp. pose proof (ti_usage _ _ _ _ _ T1 p _ Hkp). cbn in *. lia. }
    split; [eapply kinv_held; [|exact A]; intros u; unfold held; repeat case_decide; congruence|].
    split; [done|]. split; [by apply kin_alter|]. split; [exact B|].
    intros u x. unfold get_task_struct. rewrite lookup_upd. case_decide; [|by eauto]. destruct (tasks s1 !! u) as [y|]; [|done].
    intros [= <-]. by eauto. }
  destruct H2 as (K2 & R2 & Kin2 & N2 & Ch2). pose proof (ki_tree _ _ _ K2) as T2.
  assert (Hidl : idle ∈ task_list s2) by (apply head_Some_elem_of, (ti_head _ _ _ _ _ T2)).
  assert (Hti : t <> idle).
  { intros ->. apply nodes_lookup in Ht1. destruct (ti_idle _ _ _ _ _ T1 _ Ht1) as [Eo _]. cbn in Eo. congruence. }
  (* the reaper *)
  assert (Hre : exists reaper, task_reaper_locked s2 = (Some reaper, get_task_struct reaper s2) /\
    exists kr, tasks s2 !! reaper = Some kr /\ (pid kr = 1 \/ reaper = idle) /\ (pid k = 1 -> t ∈ task_list s -> pid kr = 1)).
  { unfold task_reaper_locked. destruct (find_task_by_vpid s2 1) as [r|] eqn:Ef.
    - exists r. split; [done|]. unfold find_task_by_vpid in Ef. apply List.find_some in Ef as [Hin%list_elem_of_In Eo%Z.eqb_eq].
      destruct (on_list s2 _ _ r K2 Hin) as (kr & Hkr & _). exists kr. rewrite (get_lookup s2 r kr Hkr) in Eo. auto.
    - pose proof (ti_head _ _ _ _ _ T2) as Hh.
      destruct (task_list s2) as [|x l] eqn:El; [by apply elem_of_nil in Hidl|]. cbn in Hh. injection Hh as ->. exists idle. split; [done|].
      destruct (on_list s2 _ _ idle K2) as (kr & Hkr & _); [rewrite El; by left|]. exists kr. split; [done|]. split; [auto|].
      intros Eo Hin. exfalso. unfold find_task_by_vpid in Ef. rewrite El in Ef.
      assert (Hin' : t ∈ task_list s2) by (unfold rest in R1, R2; congruence). rewrite El in Hin'. apply list_elem_of_In in Hin'.
      pose proof (List.find_none _ _ Ef t Hin') as Hn. cbv beta in Hn. specialize (Kin2 t). rewrite Ht1 in Kin2. unfold get in Hn.
      destruct (tasks s2 !! t) as [k2|]; [|done]. destruct Kin2 as (E2 & _). cbn in Hn. rewrite E2, P1, Eo in Hn. done. }
  destruct Hre as (reaper & Er & kr & Hkr & Hpr & Hp1). rewrite Er. cbn [default from_option id].
  destruct (bump_usage_ok (fun u => u = t \/ False) (fun u => E u + if decide (par = Some u) then 1 else 0) 1 reaper s2) as [K3 N3]; [|done|].
  { intros kp Hkp. apply nodes_lookup in Hkp. pose proof (ti_usage _ _ _ _ _ T2 reaper _ Hkp). cbn in *. lia. }
  change (bump_usage 1 reaper s2) with (get_task_struct reaper s2) in K3, N3. set (s3 := get_task_struct reaper s2) in *.
  assert (H3 : forall u x, tasks s2 !! u = Some x -> exists y, tasks s3 !! u = Some y /\ pid y = pid x /\ state y = state x /\ children y = children x /\ parent y = parent x /\
    mm y = mm x /\ fs y = fs x /\ waitq y = waitq x).
  { intros u x Hx. unfold s3, get_task_struct. rewrite lookup_upd, Hx. case_decide; by eexists. }
  assert (Hk2 : exists k2, tasks s2 !! t = Some k2 /\ pid k2 = pid k /\ state k2 = state k /\ children k2 = children k /\ parent k2 = parent k /\
    mm k2 = mm k /\ fs k2 = fs k /\ waitq k2 = waitq k1).
  { specialize (Kin2 t). rewrite Ht1 in Kin2. destruct (tasks s2 !! t) as [k2|] eqn:E2; [|done]. exists k2. destruct_and!.
    destruct (Ch2 t k2 E2) as (y & Hy & Ey & Ey'). split_and!; congruence. }
  destruct Hk2 as (k2 & Hk2 & Q1 & Q2 & Q3 & Q10 & Q12 & Q13 & Q14). destruct (H3 t k2 Hk2) as (k3 & Hk3 & Q4 & Q5 & Q6 & Q11 & Q15 & Q16 & Q17).
  destruct (H3 reaper kr Hkr) as (kr3 & Hkr3 & Q7 & Q8 & Q9 & _).
  pose proof (nodes_lookup _ _ _ Hkr) as Hkrn. pose proof (nodes_lookup _ _ _ Hk2) as Hk2n.
  exists par, reaper, s3, k3, kr3. split; [reflexivity|].
  split; [eapply kinv_held; [|exact K3]; intros u; unfold held, exit_refs; lia|]. split; [done|].
  do 5 (split; [congruence|]). split; [done|]. split; [intros Hb; specialize (P8 Hb); congruence|]. split; [|split; [|split; [done|split; [by rewrite Q7|split; [|split; [|split; [|split; [|split; [done|split; [|split; [congruence|]]]]]]]]]]].
  - intros p E0. destruct (Hpar p E0) as (n1 & Hn1). rewrite E0 in N2. pose proof (ti_usage _ _ _ _ _ T1 p n1 Hn1).
    rewrite N3, N2. destruct (decide (p = reaper)) as [<-|Hne].
    + rewrite !lookup_alter_eq, Hn1. eexists. split; [done|]. cbn. lia.
    + rewrite lookup_alter_ne, lookup_alter_eq, Hn1 by done. eexists. split; [done|]. cbn. split; [lia|done].
  - rewrite N3, lookup_alter_eq, Hkrn. eexists. split; [done|]. pose proof (ti_usage _ _ _ _ _ T2 reaper _ Hkrn). cbn in *. lia.
  - intros E0. rewrite Q8 in E0. rewrite Q7. destruct Hpr as [?| ->]; [done|].
    destruct (ki_zombie _ _ _ K2 idle kr Hkr E0) as (_ & _ & E2 & _). destruct (ti_idle _ _ _ _ _ T2 _ Hkrn) as [E1 _]. done.
  - intros ->. destruct Hpr as [E0|E0]; [|done]. rewrite Hk2 in Hkr. injection Hkr as <-. congruence.
  - intros E0 Hin. specialize (Hp1 E0 Hin). apply (ti_pids _ _ _ _ _ T2 reaper (view kr) t (view k2) Hkrn Hk2n). cbn. congruence.
  - rewrite <- Q3. intros Hin. destruct (ti_child _ _ _ _ _ T2 t (view k2) reaper Hk2n Hin) as (nr & Hnr & E0).
    rewrite Hkrn in Hnr. injection Hnr as <-. destruct Hpr as [E1| ->].
    + destruct (ti_init _ _ _ _ _ T2 reaper (view kr) Hkrn E1) as [E2|E2]; rewrite E2 in E0; [done|]. injection E0 as E0. by destruct Hti.
    + destruct (ti_idle _ _ _ _ _ T2 _ Hkrn) as [_ E1]. congruence.
  - unfold s3. by rewrite <- R1, <- R2.
  - etransitivity; [exact P5|]. etransitivity; [|apply kindred_bump]. unfold s2. destruct par as [p|]; [apply kindred_bump|done].
Qed.

(** A task whose only child stays with it. *)
Lemma reparent_self_one X E t c s k :
  kinv X E s -> tasks s !! t = Some k -> children k = [c] ->
  let s' := move_step t t c s in
  kinv X E s' /\ nodes s' = nodes s /\ rest s' = rest s /\
  exists k', tasks s' !! t = Some k' /\ pid k' = pid k /\ state k' = state k.
Proof.
  intros Hi Hk Hch s'. pose proof (nodes_lookup _ _ _ Hk) as Hkn. pose proof (ki_tree _ _ _ Hi) as T.
  destruct (ti_child _ _ _ _ _ T t (view k) c Hkn) as (nc & Hnc & Es); [cbn; rewrite Hch; by left|].
  destruct (ti_sib _ _ _ _ _ T c nc t Hnc Es) as [Hct _]. pose proof (ti_parent _ _ _ _ _ T c nc Hnc) as Ep.
  apply nodes_some in Hnc as (kc & Hkc & ->). cbn in Es, Ep.
  assert (Hl : forall u, tasks s' !! u = if decide (u = t) then Some (set_children [c] (set_children [] k))
    else if decide (u = c) then Some (set_sibling (Some t) (set_parent (Some t) (set_real_parent (Some t) kc))) else tasks s !! u).
  { intros u. unfold s', move_step. rewrite !lookup_upd. destruct (decide (u = t)) as [->|N1].
    - rewrite decide_True, decide_False, decide_True, Hk by done. cbn [fmap option_fmap option_map]. apply f_equal.
      transitivity (set_children (filter (fun x => x <> c) (children k) ++ [c]) k); [reflexivity|].
      by rewrite Hch, filter_ne_tail by apply NoDup_singleton.
    - destruct (decide (t = u)) as [E0|_]; [congruence|].
      destruct (decide (u = c)) as [->|N2], (decide (c = _)) as [E0|]; try congruence. by rewrite Hkc. }
  assert (Hs : similar (tasks s) (tasks s')).
  { intros u. rewrite Hl. destruct (decide (u = t)) as [->|N1]; [rewrite Hk; unfold view; cbn; by rewrite Hch|].
    destruct (decide (u = c)) as [->|N2]; [rewrite Hkc; unfold view; cbn; by rewrite Ep, Es|]. by destruct (tasks s !! u). }
  split; [|split; [by apply similar_nodes|split; [done|]]].
  - apply (similar_kinv X X _ s); try done; [apply Hi| |by left].
    apply (kin_wait _ (tasks s)); [apply move_step_kin|apply Hi].
  - eexists. rewrite Hl, decide_True by done. by split.
Qed.

(** A task that has not exited is on the task list. *)
Lemma alive_on_list s t k : kernel_ok s -> tasks s !! t = Some k -> state k <> TASK_ZOMBIE -> t ∈ task_list s.
Proof.
  intros Hk Ht Hz. pose proof (nodes_lookup _ _ _ Ht) as Hn. apply (ti_on _ _ _ _ _ (ki_tree _ _ _ Hk)). exists (view k). split; [done|].
  pose proof (ti_usage _ _ _ _ _ (ki_tree _ _ _ Hk) t _ Hn) as Hu. pose proof (ki_usage _ _ _ Hk t k Ht) as E. cbn in Hu |- *.
  unfold refs_of in E. rewrite bool_decide_eq_false_2, andb_false_r in E by done. destruct (on_tasks k); [done|lia].
Qed.

(** Whenever [exit_notify] ends, the invariant holds. *)
Lemma exit_notify_ok fuel t code reason info0 info1 s s' :
  kernel_ok s -> is_Some (tasks s !! t) -> exit_notify fuel t code reason info0 info1 s = Done s' -> kernel_ok s'.
Proof.
  intros Hk [k Ht] E. destruct (decide (pid k = 0)) as [Hp|Hp].
  { unfold exit_notify, is_idle_task in E. rewrite (get_lookup s t k Ht), Hp in E. by injection E as <-. }
  destruct (decide (state k = TASK_ZOMBIE)) as [Hz|Hz].
  { unfold exit_notify, is_idle_task in E. rewrite (get_lookup s t k Ht) in E.
    destruct (Z.eqb_spec (pid k) 0); [done|]. rewrite bool_decide_eq_true_2 in E by done. by injection E as <-. }
  destruct (exit_prefix _ fuel t code reason info0 info1 s k Hk Ht Hp Hz)
    as (par & reaper & s3 & k3 & kr & Eq & K3 & Ht3 & P1 & P2 & P3 & _ & _ & Hpt & _ & Hpar & Hrea & Hkr & Hpid & Hrz & Hself & Hone & Hnin & Hti & _ & _ & _).
  apply (kinv_held _ _ (exit_refs par reaper)) in K3; [|intros u; lia]. pose proof (alive_on_list s t k Hk Ht Hz) as Hal.
  rewrite Eq in E. unfold exit_rest, reparent_children in E. rewrite (get_lookup s3 t k3 Ht3), P3 in E.
  destruct (decide (reaper = t)) as [->|Hne].
  - destruct (children k) as [|c l] eqn:Ec; [|destruct l as [|c' l]].
    + assert (El : forall w, reparent_loop fuel t t (head []) w s3 = Done (w, s3)) by (by destruct fuel). rewrite El in E. cbn [obind] in E.
      destruct (exit_tail t code reason info0 info1 par t false s3 k3) as (s2 & E2 & K' & _); [done|done|congruence|congruence|by right|rewrite P1; tauto|done| |done|].
      { intros p Epar. destruct (Hpar p Epar) as (n & Hn & Hu & _). by exists n. }
      cbv zeta in E2. rewrite E2 in E. by injection E as <-.
    + destruct fuel as [|fuel]; [done|]. cbn [head reparent_loop] in E. rewrite (get_lookup s3 t k3 Ht3), P3, next_in_head in E.
      cbn [head] in E. fold (move_step t t c s3) in E.
      destruct (reparent_self_one _ _ t c s3 k3 K3 Ht3) as (K4 & N4 & _ & k4 & Ht4 & Q1 & Q2); [done|].
      set (s4 := move_step t t c s3) in *. set (w := _ || _) in E.
      assert (El : reparent_loop fuel t t None w s4 = Done (w, s4)) by (by destruct fuel). rewrite El in E. cbn [obind] in E.
      destruct (exit_tail t code reason info0 info1 par t w s4 k4) as (s2 & E2 & K' & _); [done|done|congruence|congruence|left; rewrite Q1, P1; by apply Hself|rewrite Q1, P1; tauto|done| |done|].
      { intros p Epar. destruct (Hpar p Epar) as (n & Hn & Hu & _). exists n. by rewrite N4. }
      cbv zeta in E2. rewrite E2 in E. by injection E as <-.
    + pose proof (nodes_lookup _ _ _ Ht3) as Hn3. pose proof (ti_nodup _ _ _ _ _ (ki_tree _ _ _ K3) t _ Hn3) as Hnd. cbn in Hnd. rewrite P3 in Hnd.
      cbn [head] in E. rewrite (reparent_self_endless t fuel false s3 k3 c c' l) in E; [done|done|done|done|].
      intros Hin. destruct (ti_child _ _ _ _ _ (ki_tree _ _ _ K3) t (view k3) t Hn3) as (n & Hn & Es); [cbn; by rewrite P3|].
      by destruct (ti_sib _ _ _ _ _ (ki_tree _ _ _ K3) t n t Hn Es).
  - destruct (decide (length (children k) <= fuel)%nat) as [Hf|Hf].
    + destruct (reparent_other _ _ fuel t reaper (children k) false s3 k3 kr K3 Ht3 P3 Hkr Hne Hti Hnin Hrz Hf)
        as (w & s4 & El & K4 & Kin & _ & (k4 & Ht4 & Ec & _) & Hus & _ & _).
      rewrite El in E. cbn [obind] in E. pose proof (Kin t) as Kt. rewrite Ht3, Ht4 in Kt. destruct Kt as (Q1 & _ & _ & Q2 & _).
      destruct (exit_tail t code reason info0 info1 par reaper w s4 k4) as (s2 & E2 & K' & _); [done|done|congruence|congruence|by right|rewrite Q1, P1; tauto|done| | |].
      * intros p Epar. destruct (Hpar p Epar) as (n & Hn & Hu & Hu3). specialize (Hus p). rewrite Hn in Hus.
        destruct (nodes s4 !! p) as [n4|]; [|done]. cbn in Hus. injection Hus as Hus. exists n4. rewrite Hus. auto.
      * intros _. destruct Hrea as (n & Hn & Hu). specialize (Hus reaper). rewrite Hn in Hus.
        destruct (nodes s4 !! reaper) as [n4|]; [|done]. cbn in Hus. injection Hus as Hus. exists n4. by rewrite Hus.
      * cbv zeta in E2. rewrite E2 in E. by injection E as <-.
    + exfalso. revert E. assert (El : reparent_loop fuel t reaper (head (children k)) false s3 = Endless); [|by rewrite El].
      clear -K3 Ht3 P3 Hkr Hne Hti Hnin Hrz Hf. revert s3 k3 kr K3 Ht3 P3 Hkr Hnin Hrz. generalize false as w. revert fuel Hf.
      generalize (children k) as l. induction l as [|c l IH]; intros fuel Hf w s3 k3 kr K3 Ht3 P3 Hkr Hnin Hrz; [cbn in Hf; lia|].
      cbn [head]. destruct fuel as [|fuel]; [done|]. cbn [reparent_loop]. rewrite (get_lookup s3 t k3 Ht3), P3, next_in_head.
      fold (move_step t reaper c s3).
      destruct (reparent_round _ _ t reaper c l s3 k3 kr K3 Ht3 P3 Hkr Hne Hti Hnin Hrz) as (K' & (kp' & Hp' & Hch' & _) & (kr' & Hr' & E1 & E2 & _)).
      eapply IH; try done; [cbn in Hf; lia|intros ?; apply Hnin; by right|by rewrite E1, E2].
Qed.

(** What [exit_notify] does to a task other than idle and init. *)
Lemma exit_notify_does fuel t code reason info0 info1 s k :
  kernel_ok s -> tasks s !! t = Some k -> pid k <> 0 -> pid k <> 1 -> state k <> TASK_ZOMBIE ->
  (length (children k) <= fuel)%nat ->
  exists s' k', exit_notify fuel t code reason info0 info1 s = Done s' /\ kernel_ok s' /\
    tasks s' !! t = Some k' /\ children k' = [] /\ pid k' = pid k /\ parent k' = parent k /\
    (exists reaper kr kr', tasks s !! reaper = Some kr /\ tasks s' !! reaper = Some kr' /\ (pid kr = 1 \/ reaper = idle) /\
      children kr' = children kr ++ children k) /\
    exists wq, (state k <> TASK_BLOCKED -> wq = waitq k) /\
      exited t (ExitInfo code reason info0 info1) (parent k) (release_res t k (res s)) wq s s'.
Proof.
  intros Hk Ht Hp Hp1 Hz Hf.
  destruct (exit_prefix _ fuel t code reason info0 info1 s k Hk Ht Hp Hz)
    as (par & reaper & s3 & k3 & kr & Eq & K3 & Ht3 & P1 & P2 & P3 & P4 & P5 & Hpt & P6 & Hpar & Hrea & Hkr & Hpid & Hrz & Hself & _ & Hnin & Hti & Hrest & Epa & Hst).
  apply (kinv_held _ _ (exit_refs par reaper)) in K3; [|intros u; lia].
  assert (Hne : reaper <> t) by (intros E; by apply Hself in E).
  unfold exit_rest, reparent_children in Eq. rewrite (get_lookup s3 t k3 Ht3), P3 in Eq.
  destruct (reparent_other _ _ fuel t reaper (children k) false s3 k3 kr K3 Ht3 P3 Hkr Hne Hti Hnin Hrz Hf)
    as (w & s4 & El & K4 & Kin & R4 & (k4 & Ht4 & Ec & Epa4) & Hus & (kr4 & Hkr4 & Ekr) & _).
  rewrite El in Eq. cbn [obind] in Eq. pose proof (Kin t) as Kt. rewrite Ht3, Ht4 in Kt. destruct Kt as (Q1 & Q3 & _ & Q2 & Q4 & Q5).
  destruct (exit_tail t code reason info0 info1 par reaper w s4 k4) as (s2 & E2 & K' & [(k' & Hk' & X2) Hwk Hrun X3] & Y2);
    [done|done|congruence|congruence|by right|rewrite Q1, P1; tauto|done| | |].
  { intros p Epar. destruct (Hpar p Epar) as (n & Hn & Hu & Hu3). specialize (Hus p). rewrite Hn in Hus.
    destruct (nodes s4 !! p) as [n4|]; [|done]. cbn in Hus. injection Hus as Hus. exists n4. rewrite Hus. auto. }
  { intros _. destruct Hrea as (n & Hn & Hu). specialize (Hus reaper). rewrite Hn in Hus.
    destruct (nodes s4 !! reaper) as [n4|]; [|done]. cbn in Hus. injection Hus as Hus. exists n4. by rewrite Hus. }
  cbv zeta in E2. rewrite E2 in Eq. exists s2, k'. split; [done|]. split; [done|]. split; [done|].
  pose proof (Y2 t (view k4) (nodes_lookup _ _ _ Ht4)) as (n' & Hn' & Np & Nc & Nq). rewrite (nodes_lookup _ _ _ Hk') in Hn'.
  injection Hn' as <-. cbn in Np, Nc, Nq. unfold rest in R4, Hrest. injection R4. injection Hrest. intros.
  split; [congruence|]. split; [congruence|]. split; [congruence|]. split.
  - destruct (Y2 reaper (view kr4) (nodes_lookup _ _ _ Hkr4)) as (n' & Hn' & _ & E' & _). apply nodes_some in Hn' as (kr' & Hkr' & ->).
    pose proof (Hst reaper) as Hr. rewrite Hkr in Hr. destruct (tasks s !! reaper) as [kr0|] eqn:Hkr0; [|done]. destruct Hr as (G1 & G2 & G3).
    exists reaper, kr0, kr'. cbn in E'. rewrite <- G1, <- G3, E', Ekr. done.
  - exists (waitq k4). split; [intros Hb; rewrite Q3; by apply P6|].
    assert (Hback : forall u x, tasks s !! u = Some x -> exists y, tasks s4 !! u = Some y /\ state y = state x).
    { intros u x Hx. pose proof (Hst u) as Hu. rewrite Hx in Hu. destruct (tasks s3 !! u) as [y|] eqn:Hy; [|done].
      pose proof (Kin u) as Ku. rewrite Hy in Ku. destruct (tasks s4 !! u) as [z|]; [|done]. exists z. split; [done|].
      destruct Hu as (_ & <- & _). apply Ku. }
    split.
    + by exists k'.
    + intros p kp Ep Hkp Hs. destruct (Hback p kp Hkp) as (z & Hz4 & Ez). apply (Hwk p z); [congruence|done|by rewrite Ez].
    + intros u ku Hu Hku Hs. destruct (Hback u ku Hku) as (z & Hz4 & Ez). apply (Hrun u z); [done|done|by rewrite Ez].
    + destruct X3 as (G1 & G2 & G3 & G4). split_and!; [congruence..|]. assert (Er : res s4 = res s) by congruence.
      rewrite G4, Er. unfold release_res. by rewrite Q4, Q5, P4, P5.
Qed.

(** C19: [exit_notify] ends for every task but idle and init: the task becomes a
    zombie with the exit status; its files, its address space and its references to
    directories are given back, each by one call and in this order, and nothing
    else of the resources changes; its children are appended to those of pid 1 or,
    without one, of the idle task; a parent that sleeps or waits becomes runnable;
    the references taken meanwhile are given back; and the invariant holds. *)
Theorem exit_notify_correct fuel t code reason info0 info1 s k :
  kernel_ok s -> tasks s !! t = Some k -> pid k <> 0 -> pid k <> 1 -> state k <> TASK_ZOMBIE ->
  (length (children k) <= fuel)%nat ->
  exists s' k', exit_notify fuel t code reason info0 info1 s = Done s' /\ kernel_ok s' /\
    tasks s' !! t = Some k' /\ state k' = TASK_ZOMBIE /\ exit k' = ExitInfo code reason info0 info1 /\ mm k' = None /\ children k' = [] /\
    res s' = release_res t k (res s) /\
    (exists reaper kr kr', tasks s !! reaper = Some kr /\ tasks s' !! reaper = Some kr' /\ (pid kr = 1 \/ reaper = idle) /\
      children kr' = children kr ++ children k) /\
    (forall p kp, parent k = Some p -> tasks s !! p = Some kp -> state kp = TASK_BLOCKED \/ state kp = TASK_SLEEPING ->
      exists kp', tasks s' !! p = Some kp' /\ state kp' = TASK_RUNNABLE) /\
    task_list s' = task_list s /\ kheap s' = kheap s /\ current s' = current s.
Proof.
  intros Hk Ht Hp Hp1 Hz Hf.
  destruct (exit_notify_does fuel t code reason info0 info1 s k Hk Ht Hp Hp1 Hz Hf)
    as (s' & k' & E & K' & Ht' & Hch & _ & _ & Hre & wq & _ & [(k2 & Hk2 & Z1 & Z2 & Z3 & _) Hwk _ (R1 & R2 & R3 & R4)]).
  rewrite Ht' in Hk2. injection Hk2 as <-. exists s', k'. by split_and!.
Qed.

(** C35: the exit of init (pid 1) with two or more children never ends: it is its own
    reaper, and [reparent_children] moves each child to the end of the list it is
    walking. *)
Theorem init_exit_never_ends E t s k c c' l :
  kinv (fun _ => False) E s -> tasks s !! t = Some k -> pid k = 1 -> t ∈ task_list s -> state k <> TASK_ZOMBIE ->
  children k = c :: c' :: l ->
  forall fuel code reason info0 info1, exit_notify fuel t code reason info0 info1 s = Endless.
Proof.
  intros Hk Ht Hp Hin Hz Hch fuel code reason info0 info1.
  destruct (exit_prefix E fuel t code reason info0 info1 s k Hk Ht ltac:(lia) Hz)
    as (par & reaper & s3 & k3 & kr & Eq & K3 & Ht3 & P1 & P2 & P3 & _ & _ & _ & _ & _ & _ & _ & _ & _ & _ & Hself & _).
  rewrite (Hself Hp Hin) in Eq. rewrite Eq. unfold exit_rest, reparent_children. rewrite (get_lookup s3 t k3 Ht3), P3, Hch.
  cbn [head]. pose proof (nodes_lookup _ _ _ Ht3) as Hn3. pose proof (ti_nodup _ _ _ _ _ (ki_tree _ _ _ K3) t _ Hn3) as Hnd.
  cbn in Hnd. rewrite P3, Hch in Hnd. rewrite (reparent_self_endless t fuel false s3 k3 c c' l); try done; [congruence|].
  intros Hin'. destruct (ti_child _ _ _ _ _ (ki_tree _ _ _ K3) t (view k3) t Hn3) as (n & Hn & Es); [cbn; by rewrite P3, Hch|].
  by destruct (ti_sib _ _ _ _ _ (ki_tree _ _ _ K3) t n t Hn Es).
Qed.

(** *** Reaping *)

Definition unlinked (k : task_struct) : task_struct :=
  set_parent None (set_real_parent None (set_on_tasks false (set_sibling None k))).

(** The state after [release_task] dropped its reference. *)
Definition released t c s : kstate :=
  with_task_list (upd unlinked t (upd (fun k => set_children (filter (fun u => u <> t) (children k)) k) c s))
    (filter (fun u => u <> t) (task_list s)).

Lemma released_nodes t c s : nodes (released t c s) = drop_task t c (nodes s).
Proof.
  unfold released. change (nodes (with_task_list ?x ?l)) with (nodes x). rewrite (nodes_upd _ detach) by done.
  by rewrite (nodes_upd _ (del_child t)).
Qed.

Lemma released_ok t c s k :
  kernel_ok s -> current s = Some c -> tasks s !! t = Some k -> sibling k = Some c ->
  kinv (fun _ => False) (held (if on_tasks k then 1 else 0) t (fun _ => 0)) (released t c s) /\ t <> c /\
  tasks (released t c s) !! t = Some (unlinked k).
Proof.
  intros Hk Hc Ht Hs. pose proof (nodes_lookup _ _ _ Ht) as Hn.
  destruct (ti_sib _ _ _ _ _ (ki_tree _ _ _ Hk) t _ c Hn Hs) as (Hne & _).
  destruct (current_task s _ _ c Hk Hc) as [Hin _]. split; [|split; [done|]].
  - destruct Hk as [T W Z C S U]. split.
    + rewrite released_nodes. by eapply drop_task_ok.
    + apply (kin_wait _ (tasks s)); [|done]. cbn [released with_task_list upd with_tasks tasks].
      etransitivity; [|by apply kin_alter]. by apply kin_alter.
    + intros u x. cbn [released with_task_list upd with_tasks tasks].
      intros (y & (z & Hz & ->)%alter_some & ->)%alter_some Hzo. specialize (Z u z Hz).
      assert (Hzz : state z = TASK_ZOMBIE) by (repeat case_decide; done). destruct (Z Hzz) as (Z1 & Z2 & Z3 & Z4).
      destruct Z4 as [?|E]; repeat case_decide; cbn; rewrite ?E; auto.
    + exists c. split; [done|]. by apply list_elem_of_filter.
    + done.
    + intros u x. cbn [released with_task_list upd with_tasks tasks]. unfold held.
      intros (y & (z & Hz & ->)%alter_some & ->)%alter_some. specialize (U u z Hz). unfold refs_of in *.
      destruct (decide (t = u)), (decide (u = t)); try congruence; destruct (decide (c = u)); try congruence.
      * subst u. rewrite Ht in Hz. injection Hz as <-. cbn. destruct (on_tasks k); lia.
      * cbn. lia.
      * lia.
  - unfold released. cbn [with_task_list tasks]. rewrite !lookup_upd, decide_True, decide_False, Ht by done. done.
Qed.

Lemma kstate_eq s s' :
  tasks s = tasks s' -> rest s = rest s' -> queues s = queues s' -> need_resched s = need_resched s' -> s = s'.
Proof. destruct s, s'. unfold rest. cbn. intros. by simplify_eq. Qed.

Lemma released_record k :
  let k1 := set_parent None (set_real_parent None (set_on_tasks false (set_sibling None (set_usage (usage k + 1) k)))) in
  set_usage (usage k1 + -1) k1 = unlinked k.
Proof. destruct k as [u]. cbv -[Z.add]. f_equal. lia. Qed.

(** Reaping up to the second reference. *)
Lemma release_step t c s k :
  kernel_ok s -> current s = Some c -> tasks s !! t = Some k -> sibling k = Some c -> pid k <> 0 ->
  release_task t (unlink_sibling t (get_task_struct t s)) = Done (released t c s).
Proof.
  intros Hk Hc Ht Hs Hp. pose proof (nodes_lookup _ _ _ Ht) as Hn.
  destruct (ti_sib _ _ _ _ _ (ki_tree _ _ _ Hk) t _ c Hn Hs) as (Hne & _).
  pose proof (ti_usage _ _ _ _ _ (ki_tree _ _ _ Hk) t _ Hn) as Hu. cbn in Hu.
  assert (G1 : get (get_task_struct t s) t = set_usage (usage k + 1) k) by (unfold get_task_struct; by rewrite (get_upd_eq _ _ _ k)).
  unfold unlink_sibling at 1. rewrite G1. change (sibling (set_usage _ k)) with (sibling k). rewrite Hs.
  set (s1 := upd (set_sibling None) t _).
  assert (T1 : tasks s1 !! t = Some (set_sibling None (set_usage (usage k + 1) k))).
  { unfold s1. rewrite lookup_upd, decide_True by done. rewrite lookup_upd, decide_False by done.
    unfold get_task_struct. rewrite lookup_upd, decide_True, Ht by done. done. }
  unfold release_task. rewrite (get_lookup _ _ _ T1). unfold is_idle_task. cbn [set_sibling set_usage pid].
  destruct (Z.eqb_spec (pid k) 0); [done|]. unfold unlink_sibling. rewrite (get_lookup _ _ _ T1). cbn [set_sibling sibling].
  unfold unlink_tasks. rewrite (get_lookup _ _ _ T1). cbn [set_sibling set_usage on_tasks].
  set (s2 := if on_tasks k then _ else s1).
  assert (E2 : s2 = with_task_list (upd (set_on_tasks false) t s1) (filter (fun u => u <> t) (task_list s))).
  { unfold s2. destruct (on_tasks k) eqn:Eo; [done|].
    assert (Hnl : t ∉ task_list s).
    { rewrite (ti_on _ _ _ _ _ (ki_tree _ _ _ Hk)). intros (nt & Hn' & E). rewrite Hn in Hn'. injection Hn' as <-. cbn in E. congruence. }
    rewrite filter_all_in by (intros x Hx ->; done). unfold upd. cbn [with_tasks with_task_list].
    rewrite alter_id; [by destruct s|]. intros x Hx. rewrite T1 in Hx. injection Hx as <-.
    destruct k. cbn in Eo. by subst. }
  rewrite E2. set (s3 := upd _ t (with_task_list _ _)).
  assert (T3 : tasks s3 !! t = Some (set_usage (usage k + 1) (unlinked k))).
  { unfold s3. rewrite lookup_upd, decide_True by done. cbn [with_task_list tasks].
    rewrite lookup_upd, decide_True, T1 by done. done. }
  rewrite (put_not_last s3 t _ T3) by (cbn; lia). f_equal. apply kstate_eq; [|done..].
  cbn [bump_usage s3 s1 released get_task_struct upd with_tasks with_task_list tasks].
  apply map_eq. intros u. destruct (decide (t = u)) as [<-|N1].
  - rewrite !lookup_alter_eq. rewrite (lookup_alter_ne _ _ c t) by done. rewrite (lookup_alter_ne _ _ c t) by done.
    rewrite lookup_alter_eq, Ht. cbn [fmap option_fmap option_map]. by rewrite released_record.
  - rewrite !(lookup_alter_ne _ _ t u) by done. destruct (decide (c = u)) as [<-|N2].
    + rewrite !lookup_alter_eq. by rewrite lookup_alter_ne.
    + rewrite !lookup_alter_ne by done. done.
Qed.

(** The last reference: the task is freed if it is detached from everything. *)
Lemma put_last E t s k :
  kinv (fun _ => False) E s -> (forall u, u <> t -> E u = 0) -> tasks s !! t = Some k -> usage k = 1 -> on_tasks k = false -> current s <> Some t ->
  (put_task_struct t s = Panic \/
   exists s', put_task_struct t s = Done s' /\ kernel_ok s' /\ tasks s' !! t = None /\ (t ∉ live (kheap s')) /\
     (sp0 (thread k) <> 0 -> n_stack (view k) ∉ live (kheap s')) /\ task_list s' = task_list s /\ current s' = current s /\
     (forall u, u <> t -> tasks s' !! u = tasks s !! u) /\ res s' = res s) /\
  (put_task_struct t s = Panic <-> task_release_invariant_holds k = false).
Proof.
  intros Hk HE Ht Hu Hon Hc. pose proof (nodes_lookup _ _ _ Ht) as Hn. unfold put_task_struct.
  set (s1 := upd _ t s). assert (T1 : tasks s1 !! t = Some (set_usage (usage k - 1) k)) by (unfold s1; by rewrite lookup_upd, decide_True, Ht by done).
  rewrite (get_lookup _ _ _ T1). cbn [set_usage usage]. rewrite Hu. change (1 - 1 =? 0) with true. cbv iota.
  unfold __put_task_struct. rewrite (get_lookup _ _ _ T1).
  change (task_release_invariant_holds (set_usage (usage k - 1) k)) with (task_release_invariant_holds k).
  destruct (task_release_invariant_holds k) eqn:Ei; cbn [negb]; [|by split; [left|]].
  cbn [set_usage usage thread]. rewrite Hu. change (1 - 1 =? 0) with true. cbn [negb]. split; [right|done]. eexists. split; [done|].
  unfold task_release_invariant_holds in Ei. rewrite !andb_true_iff in Ei. destruct Ei as [[[[[[[I1 I2] I3] I4] I5] I6] I7] I8].
  apply bool_decide_eq_true in I6, I7, I8.
  destruct (ti_own _ _ _ _ _ (ki_tree _ _ _ Hk) t _ Hn) as (O1 & O2 & O3). pose proof (ti_heap _ _ _ _ _ (ki_tree _ _ _ Hk)) as Hh.
  set (h := if negb _ then _ else _).
  assert (Hh1 : km_ok h /\ t ∈ live h /\ live (kheap s) ∖ {[t; n_stack (view k)]} ⊆ live h /\
    (sp0 (thread k) <> 0 -> n_stack (view k) ∉ live h)).
  { unfold h. change (kheap s1) with (kheap s). destruct (Z.eqb_spec (sp0 (thread k)) 0); cbn [negb]; [split_and!; [done..|set_solver|done]|].
    destruct (kfree_live (n_stack (view k)) (kheap s) Hh O2) as [A B].
    change (sp0 (thread k) -w THREAD_SIZE) with (n_stack (view k)). rewrite B. split; [done|]. assert (n_stack (view k) <> t) by (intros E0; apply O3; rewrite E0; by apply elem_of_dom).
    split_and!; [set_solver..|]. intros _. set_solver. }
  destruct Hh1 as (H1 & H2 & H3 & H3'). destruct (kfree_live t h H1 H2) as [H4 H5].
  set (s' := with_tasks (with_kheap s1 (kfree t h)) (delete t (tasks s1))).
  assert (Hl : forall u x, tasks s' !! u = Some x -> u <> t /\ tasks s !! u = Some x).
  { intros u x Hx. change (delete t (tasks s1) !! u = Some x) in Hx. apply lookup_delete_Some in Hx as [Hne Hx].
    split; [done|]. unfold s1 in Hx. by rewrite lookup_upd, decide_False in Hx. }
  split; [|split; [apply lookup_delete_eq|split; [|split; [|split; [done|split; [done|split; [|done]]]]]]].
  2:{ change (kheap s') with (kfree t h). rewrite H5. set_solver. }
  2:{ intros Hs. change (kheap s') with (kfree t h). rewrite H5. specialize (H3' Hs). clear -H3'. set_solver. }
  2:{ intros u Hne. change (tasks s') with (delete t (tasks s1)). rewrite lookup_delete_ne by done. unfold s1.
      by rewrite lookup_upd, decide_False. }
  pose proof Hk as [T W Z C S U]. split.
  - assert (En : nodes s' = delete t (nodes s)).
    { apply map_eq. intros u. unfold nodes. rewrite lookup_fmap. destruct (decide (t = u)) as [<-|Hne].
      - change (tasks s') with (delete t (tasks s1)). by rewrite !lookup_delete_eq.
      - change (tasks s') with (delete t (tasks s1)). rewrite !lookup_delete_ne by done. unfold s1.
        rewrite lookup_upd, decide_False by done. by rewrite lookup_fmap. }
    rewrite En. change (kheap s') with (kfree t h). eapply delete_task_ok; try done. rewrite H5. clear -H3. set_solver.
  - destruct W as [L N Q B]. change (queues s') with (queues s). split.
    + intros u q. rewrite L. split; intros (x & Hx & El).
      * assert (u <> t).
        { intros ->. rewrite Ht in Hx. injection Hx as <-. rewrite (Q t k Ht), I8 in El. done. }
        exists x. split; [|done]. change (tasks s') with (delete t (tasks s1)). rewrite lookup_delete_ne by done.
        unfold s1. by rewrite lookup_upd, decide_False.
      * apply Hl in Hx as [_ Hx]. by exists x.
    + done.
    + intros u x [_ Hx]%Hl. by eapply Q.
    + intros u x [_ Hx]%Hl. by eapply B.
  - intros u x [_ Hx]%Hl. by eapply Z.
  - done.
  - done.
  - intros u x [Hne Hx]%Hl. rewrite (U u x Hx), (HE u Hne). done.
Qed.

(** The pid and the exit status are read before the task is released. *)
Lemma reaped_fields t c s k :
  tasks s !! t = Some k -> sibling k = Some c -> t <> c ->
  pid (get (unlink_sibling t (get_task_struct t s)) t) = pid k /\
  exit (get (unlink_sibling t (get_task_struct t s)) t) = exit k.
Proof.
  intros Ht Es Hne. unfold unlink_sibling, get_task_struct. rewrite (get_upd_eq _ _ _ _ Ht). cbn [set_usage sibling]. rewrite Es.
  assert (T : tasks (upd (fun k => set_children (filter (fun u => u <> t) (children k)) k) c (upd (fun k => set_usage (usage k + 1) k) t s)) !! t
    = Some (set_usage (usage k + 1) k)) by (rewrite lookup_upd, decide_False by done; by rewrite lookup_upd, decide_True, Ht).
  by rewrite (get_upd_eq _ _ _ _ T).
Qed.

Lemma wait_scan_spec s any id l ht r o :
  wait_scan s any id l ht = (r, o) ->
  let matching t := any || (pid (get s t) =? id) in
  match o with
  | Some t => t ∈ l /\ matching t = true /\ state (get s t) = TASK_ZOMBIE /\ r = true
  | None => (r = true -> ht = true \/ exists t, t ∈ l /\ matching t = true) /\
            (r = false -> ht = false /\ forall t, t ∈ l -> matching t = false) /\
            (any = true -> forall t, t ∈ l -> state (get s t) <> TASK_ZOMBIE) /\
            (any = false -> ht = false -> r = true -> exists t, t ∈ l /\ matching t = true /\ state (get s t) <> TASK_ZOMBIE)
  end.
Proof.
  intros E matching. revert ht E. induction l as [|t l IH]; intros ht E; cbn [wait_scan] in E.
  { injection E as <- <-. split_and!; [by left|split; [done|by intros t ?%elem_of_nil]|by intros _ t ?%elem_of_nil|congruence]. }
  fold (matching t) in E. destruct (matching t) eqn:Em; cbn [negb] in E.
  - case_bool_decide as Hz; [injection E as <- <-; split_and!; [by left|done..]|].
    destruct any eqn:Ea; cbn [negb] in E.
    + specialize (IH true E). destruct o as [u|]; [destruct IH as (A & B); split; [by right|done]|].
      destruct IH as (A & B & C & _). split_and!; [| | |done].
      * intros _. right. exists t. split; [by left|done].
      * intros ->. by destruct (B eq_refl).
      * intros _ u [->|Hu]%elem_of_cons; [done|by apply C].
    + injection E as <- <-. split_and!; [|done..|].
      * intros _. right. exists t. split; [by left|done].
      * intros _ _ _. exists t. split; [by left|done].
  - specialize (IH ht E). destruct o as [u|]; [destruct IH as (A & B); split; [by right|done]|].
    destruct IH as (A & B & C & D). split_and!.
    + intros Hr. destruct (A Hr) as [?|(u & Hu & E')]; [by left|right; exists u; split; [by right|done]].
    + intros Hr. destruct (B Hr) as [B1 B2]. split; [done|]. intros u [->|Hu]%elem_of_cons; [done|by apply B2].
    + intros Ha. unfold matching in Em. rewrite Ha in Em. done.
    + intros H1 H2 H3. destruct (D H1 H2 H3) as (u & Hu & E'). exists u. split; [by right|done].
Qed.

(** A task other than init has one reference, that of the task list. *)
Lemma one_reference s t k : kernel_ok s -> tasks s !! t = Some k -> pid k <> 1 -> usage k = 1 /\ on_tasks k = true.
Proof.
  intros Hk Ht Hp. pose proof (ti_usage _ _ _ _ _ (ki_tree _ _ _ Hk) t _ (nodes_lookup _ _ _ Ht)) as Hu. cbn in Hu.
  pose proof (ki_usage _ _ _ Hk t k Ht) as E. unfold refs_of in E. destruct (Z.eqb_spec (pid k) 1); [done|]. cbn [andb] in E.
  destruct (on_tasks k); [split; [lia|done]|lia].
Qed.

(** Dropping the reference of the task list: a panic, exactly when it is the last
    one and the zombie is still linked somewhere. *)
Lemma reap_result t c s k :
  kernel_ok s -> current s = Some c -> tasks s !! t = Some k -> sibling k = Some c -> state k = TASK_ZOMBIE ->
  let linked := usage k = 1 /\ (waitq k <> None \/ children k <> []) in
  match put_task_struct t (released t c s) with
  | Panic => linked
  | Endless => False
  | Done s' => ~ linked /\ kernel_ok s' /\ (t ∉ task_list s') /\
      (usage k = 1 -> tasks s' !! t = None /\ (t ∉ live (kheap s')) /\ (sp0 (thread k) <> 0 -> n_stack (view k) ∉ live (kheap s'))) /\
      (forall u, u <> t -> u <> c -> tasks s' !! u = tasks s !! u) /\ res s' = res s
  end.
Proof.
  intros Hk Hc Ht Es Hz linked. destruct (ki_zombie _ _ _ Hk t k Ht Hz) as (_ & _ & Hp & _).
  destruct (released_ok t c s k Hk Hc Ht Es) as (K2 & Hne & T2).
  assert (Hnl : t ∉ filter (fun u => u <> t) (task_list s)) by (intros [? _]%list_elem_of_filter; done).
  assert (Hfr : forall u, u <> t -> u <> c -> tasks (released t c s) !! u = tasks s !! u).
  { intros u N1 N2. unfold released. cbn [with_task_list tasks]. by rewrite !lookup_upd, !decide_False by done. }
  destruct (decide (usage k = 1)) as [Hu|Hu].
  - destruct (put_last _ t (released t c s) (unlinked k) K2) as [Hres Hiff]; try done.
    { intros u Hne'. unfold held. by rewrite decide_False. }
    { change (current (released t c s)) with (current s). congruence. }
    assert (Hinv : task_release_invariant_holds (unlinked k) = false <-> (waitq k <> None \/ children k <> [])).
    { unfold task_release_invariant_holds, is_idle_task. cbn. rewrite Hz. destruct (Z.eqb_spec (pid k) 0); [done|]. cbn.
      repeat case_bool_decide; cbn; naive_solver. }
    rewrite Hinv in Hiff. destruct Hres as [Hpan|(s' & E & K3 & G1 & G2 & G3 & G4 & G5 & G6 & G7)].
    + rewrite Hpan. split; [done|]. by apply Hiff.
    + rewrite E. split; [intros [_ Hl]; apply Hiff in Hl; congruence|]. split; [done|].
      split; [by rewrite G4|]. split; [done|]. split; [intros u N1 N2; by rewrite G6, Hfr|done].
  - rewrite (put_not_last _ _ _ T2) by done. split; [by intros [? _]|]. split; [|split; [done|split; [done|split; [|done]]]].
    + pose proof (ti_usage _ _ _ _ _ (ki_tree _ _ _ Hk) t _ (nodes_lookup _ _ _ Ht)) as Hu1. cbn in Hu1.
      assert (Eo : on_tasks k = true).
      { pose proof (ki_usage _ _ _ Hk t k Ht) as E. unfold refs_of in E. destruct (on_tasks k), (_ && _); try done; lia. }
      destruct (bump_usage_ok (fun _ => False) (held (if on_tasks k then 1 else 0) t (fun _ => 0)) (-1) t (released t c s)) as [K3 _]; [|done|].
      { intros x Hx. rewrite T2 in Hx. injection Hx as <-. cbn. lia. }
      eapply kinv_held; [|exact K3]. intros u. unfold held. rewrite Eo. case_decide; lia.
    + intros u N1 N2. unfold bump_usage. rewrite lookup_upd, decide_False by done. by apply Hfr.
Qed.

(** A child found by the scan. *)
Lemma child_of s X E c kc t : kinv X E s -> tasks s !! c = Some kc -> t ∈ children kc -> exists k, tasks s !! t = Some k /\ sibling k = Some c.
Proof.
  intros Hk Hkc Hch. destruct (ti_child _ _ _ _ _ (ki_tree _ _ _ Hk) c _ t (nodes_lookup _ _ _ Hkc) Hch) as (n & Hn & Es).
  apply nodes_some in Hn as (k & Ht & ->). by exists k.
Qed.

(** Whenever a round of [do_waitpid] ends, the invariant holds. *)
Lemma do_waitpid_ok id s w s' c :
  kernel_ok s -> running s c -> do_waitpid id s = Done (Some (w, s')) -> kernel_ok s'.
Proof.
  intros Hk [Hc Hrun] E. destruct (current_task s _ _ c Hk Hc) as [Hin [kc Hkc]]. unfold do_waitpid in E.
  destruct (id =? 0); [by injection E as _ <-|]. rewrite Hc in E. destruct (negb _ && _); [by injection E as _ <-|].
  destruct (wait_scan s _ id (children (get s c)) false) as [r o] eqn:Es. apply wait_scan_spec in Es. cbv zeta in Es.
  destruct o as [t|].
  - destruct Es as (Hch & _ & Hz & _). rewrite (get_lookup _ _ _ Hkc) in Hch.
    destruct (child_of s _ _ c kc t Hk Hkc Hch) as (k & Ht & Esib).
    rewrite (get_lookup _ _ _ Ht) in Hz. destruct (ki_zombie _ _ _ Hk t k Ht Hz) as (_ & _ & Hp & _).
    rewrite (release_step t c s k Hk Hc Ht Esib Hp) in E. cbn [obind] in E.
    pose proof (reap_result t c s k Hk Hc Ht Esib Hz) as Hr. cbv zeta in Hr.
    destruct (put_task_struct t (released t c s)) as [s2| |]; try done. cbn [obind] in E. injection E as _ <-. apply Hr.
  - destruct (bool_decide _ || negb r); [by injection E as _ <-|].
    destruct (wait_queue_block_locked (ChildExit c) s) as [s1|] eqn:Eb; [|done]. injection E as _ <-.
    eapply block_kinv; [done| |done]. intros p [= <-]. done.
Qed.

Lemma waitpid_keeps id s c (P : waited -> kstate -> Prop) :
  kernel_ok s -> running s c -> (exists w s', do_waitpid id s = Done (Some (w, s')) /\ P w s') ->
  exists w s', do_waitpid id s = Done (Some (w, s')) /\ kernel_ok s' /\ P w s'.
Proof. intros Hk Hr (w & s' & E & HP). exists w, s'. split; [done|]. split; [by eapply do_waitpid_ok|done]. Qed.

Lemma signal_wake_up_state_ok t s : kernel_ok s -> is_Some (tasks s !! t) -> kernel_ok (signal_wake_up_state t s).
Proof.
  intros Hk [k Ht]. unfold signal_wake_up_state. rewrite (get_lookup _ _ _ Ht).
  destruct (state k) eqn:Es; try done; [by apply wake_up_process_ok|]. destruct (waitq k); [|done].
  destruct (remove_kinv _ t s k Hk Ht) as (K1 & _ & _ & T1 & _). pose proof (wake_up_process_ok _ _ t _ K1) as K2.
  destruct (wake_up_process_spec t (wait_queue_remove t s)) as (A & _).
  destruct K2 as [T W Z C S U]. split; try done. apply (wait_inv_strengthen _ t); [done|].
  intros x Hx. rewrite A, lookup_alter_eq, T1 in Hx. injection Hx as <-. apply wake_state_blocked.
Qed.

Lemma sys_kill_ok fuel id sig s r s' :
  kernel_ok s -> sys_kill fuel id sig s = Done (r, s') -> kernel_ok s'.
Proof.
  intros Hk E. unfold sys_kill in E. destruct (negb _); [by injection E as _ <-|]. destruct (id =? 0); [by injection E as _ <-|].
  destruct (runqueue_empty s); [by injection E as _ <-|]. destruct (find_task_by_vpid s id) as [t|] eqn:Ef; [|by injection E as _ <-].
  unfold find_task_by_vpid in Ef. apply List.find_some in Ef as [Hin%list_elem_of_In _].
  destruct (on_list s _ _ t Hk Hin) as (k & Ht & _).
  destruct (is_idle_task _); [by injection E as _ <-|]. destruct (sig =? 0); [by injection E as _ <-|].
  destruct (sig =? SIGCHLD).
  { destruct (parent (get s t)) as [p|] eqn:Ep; injection E as _ <-; [|done]. apply signal_wake_up_state_ok; [done|].
    rewrite (get_lookup _ _ _ Ht) in Ep. pose proof (nodes_lookup _ _ _ Ht) as Hn.
    pose proof (ti_parent _ _ _ _ _ (ki_tree _ _ _ Hk) t _ Hn) as E1. cbn in E1.
    destruct (ti_sib _ _ _ _ _ (ki_tree _ _ _ Hk) t _ p Hn) as (_ & kp & Hkp & _); [cbn; congruence|].
    apply nodes_some in Hkp as (kp' & ? & _). by exists kp'. }
  destruct (bool_decide _); [by injection E as _ <-|]. destruct (bool_decide _); [by injection E as _ <-|].
  destruct (bool_decide (current s = Some t)) eqn:Ec.
  - apply bool_decide_eq_true in Ec. unfold do_exit_reason in E. rewrite Ec in E.
    destruct (is_idle_task (get s t)); cbn [obind] in E; [by injection E as _ <-|].
    destruct (exit_notify _ _ _ _ _ _ _) as [s1| |] eqn:En; try done. cbn [obind] in E. injection E as _ <-.
    by apply (exit_notify_ok _ _ _ _ _ _ _ _ Hk ltac:(by eexists) En).
  - destruct (is_global_init _); [by injection E as _ <-|].
    destruct (exit_notify _ _ _ _ _ _ _) as [s1| |] eqn:En; try done. cbn [obind] in E. injection E as _ <-.
    by apply (exit_notify_ok _ _ _ _ _ _ _ _ Hk ltac:(by eexists) En).
Qed.

(** C20: one round of [do_waitpid], for a caller that is on no queue and whose
    zombie children are on no queue and have no children (an init that exited may
    have): it fails, changing nothing, exactly when no child matches; it sleeps, on
    the caller's own queue, only when a child matches and no matching child has
    exited; and otherwise it returns the pid and exit status of a matching zombie
    child, which leaves the task list and, unless it is init, is freed with its
    stack; the resources and the tasks other than the child and the caller keep
    their values. *)
Theorem do_waitpid_correct id s c kc :
  kernel_ok s -> running s c -> tasks s !! c = Some kc -> waitq kc = None -> id <> 0 -> pid kc <> id ->
  (forall t k, t ∈ children kc -> tasks s !! t = Some k -> state k = TASK_ZOMBIE -> waitq k = None /\ children k = []) ->
  let matching t := (id =? 4294967295) || (pid (get s t) =? id) in
  exists w s', do_waitpid id s = Done (Some (w, s')) /\ kernel_ok s' /\
  match w with
  | Failed => s' = s /\ forall t, t ∈ children kc -> matching t = false
  | Blocked => (exists t, t ∈ children kc /\ matching t = true) /\
      (forall t, t ∈ children kc -> matching t = true -> state (get s t) <> TASK_ZOMBIE) /\
      (c ∈ waiters s' (ChildExit c)) /\ state (get s' c) = TASK_BLOCKED
  | Reaped pd info => exists t k, t ∈ children kc /\ tasks s !! t = Some k /\ matching t = true /\
      state k = TASK_ZOMBIE /\ pd = pid k /\ info = exit k /\ (t ∉ task_list s') /\
      (pid k <> 1 -> tasks s' !! t = None /\ (t ∉ live (kheap s')) /\ (sp0 (thread k) <> 0 -> n_stack (view k) ∉ live (kheap s'))) /\
      (forall u, u <> t -> u <> c -> tasks s' !! u = tasks s !! u) /\ res s' = res s
  end.
Proof.
  intros Hk [Hc Hrun] Hkc Hwq Hid Hself Hdet matching.
  apply (waitpid_keeps id s c (fun w s' => match w with Failed => _ | Blocked => _ | Reaped pd info => _ end)); [done..|].
  unfold do_waitpid. destruct (Z.eqb_spec id 0); [done|]. rewrite Hc, (get_lookup _ _ _ Hkc).
  destruct (Z.eqb_spec (pid kc) id); [done|]. rewrite andb_false_r.
  destruct (wait_scan s _ id (children kc) false) as [r o] eqn:Es. apply wait_scan_spec in Es. cbv zeta in Es.
  destruct o as [t|].
  - destruct Es as (Hch & Hm & Hz & _). destruct (child_of s _ _ c kc t Hk Hkc Hch) as (k & Ht & Esib).
    rewrite (get_lookup _ _ _ Ht) in Hz. destruct (ki_zombie _ _ _ Hk t k Ht Hz) as (_ & _ & Hp & _).
    destruct (Hdet t k Hch Ht Hz) as [D1 D2]. rewrite (release_step t c s k Hk Hc Ht Esib Hp). cbn [obind].
    destruct (reaped_fields t c s k Ht Esib (proj1 (ti_sib _ _ _ _ _ (ki_tree _ _ _ Hk) t _ c (nodes_lookup _ _ _ Ht) Esib))) as [Fp Fe].
    rewrite Fp, Fe. pose proof (reap_result t c s k Hk Hc Ht Esib Hz) as Hr. cbv zeta in Hr.
    destruct (put_task_struct t (released t c s)) as [s2| |]; [|destruct Hr as [_ [?|?]]; congruence|done]. cbn [obind].
    destruct Hr as (_ & _ & G1 & G2 & G3 & G4). eexists (Reaped _ _), s2. split; [done|]. exists t, k. split_and!; try done.
    intros Hp1. apply G2. by apply (one_reference s t).
  - destruct Es as (S1 & S2 & S3 & S4). destruct r; cbn [negb].
    + destruct (S1 eq_refl) as [?|(t & Ht & Em)]; [done|].
      rewrite bool_decide_eq_false_2 by (intros E0; rewrite E0 in Ht; by apply elem_of_nil in Ht). cbn [orb].
      unfold wait_queue_block_locked. rewrite Hc, (get_lookup _ _ _ Hkc), Hwq. rewrite bool_decide_eq_false_2 by done.
      rewrite (get_lookup _ _ _ Hkc) in Hrun. rewrite bool_decide_eq_false_2 by congruence.
      unfold add_wait_queue. rewrite (get_upd_eq _ _ _ _ Hkc). cbn [set_waitq wait_link].
      pose proof (wi_waitq _ _ _ (ki_wait _ _ _ Hk) c kc Hkc) as Hl. rewrite Hwq in Hl. cbn in Hl. rewrite Hl.
      eexists Blocked, _. split; [done|]. split; [by exists t|]. split.
      * intros u Hu Hm. unfold matching in Hm. destruct (id =? 4294967295); [by apply S3|].
        destruct (S4 eq_refl eq_refl eq_refl) as (v & Hv & Hmv & Hzv). cbn [orb] in Hm, Hmv. apply Z.eqb_eq in Hm, Hmv.
        destruct (child_of s _ _ c kc u Hk Hkc Hu) as (ku & Hku & _). destruct (child_of s _ _ c kc v Hk Hkc Hv) as (kv & Hkv & _).
        rewrite (get_lookup _ _ _ Hku) in Hm. rewrite (get_lookup _ _ _ Hkv) in Hmv.
        by rewrite (ti_pids _ _ _ _ _ (ki_tree _ _ _ Hk) u _ v _ (nodes_lookup _ _ _ Hku) (nodes_lookup _ _ _ Hkv) (eq_trans Hm (eq_sym Hmv))).
      * split.
        -- change (c ∈ waiters (set_waiters (ChildExit c) (c :: waiters (upd (set_waitq (Some (ChildExit c))) c s) (ChildExit c))
             (upd (set_wait_link (Some (Linked (ChildExit c)))) c (upd (set_waitq (Some (ChildExit c))) c s))) (ChildExit c)).
           rewrite waiters_set, decide_True by done. by left.
        -- erewrite get_upd_eq; [done|]. change (tasks (set_waiters ?a ?b ?x)) with (tasks x).
           rewrite lookup_upd, decide_True by done. by rewrite lookup_upd, decide_True, Hkc.
    + rewrite orb_true_r. eexists Failed, s. split; [done|]. split; [done|]. by apply S2.
Qed.

(** *** A zombie on a wait queue *)

(** The parent of a zombie that is still on a wait queue panics when it reaps it. *)
Lemma reap_linked_panics s c kc t k :
  kernel_ok s -> running s c -> tasks s !! c = Some kc -> t ∈ children kc -> tasks s !! t = Some k ->
  state k = TASK_ZOMBIE -> waitq k <> None -> pid k <> 1 -> pid k <> 4294967295 -> do_waitpid (pid k) s = Panic.
Proof.
  intros Hk [Hc Hrun] Hkc Hch Ht Hz Hq Hp1 Hpm. destruct (ki_zombie _ _ _ Hk t k Ht Hz) as (_ & _ & Hp & _).
  pose proof (nodes_lookup _ _ _ Ht) as Hn. unfold do_waitpid. destruct (Z.eqb_spec (pid k) 0); [done|]. rewrite Hc.
  destruct (Z.eqb_spec (pid k) 4294967295); [done|]. rewrite (get_lookup _ _ _ Hkc). cbn [negb andb].
  assert (Huniq : forall u, u ∈ children kc -> pid (get s u) = pid k -> u = t).
  { intros u Hu E. destruct (child_of s _ _ c kc u Hk Hkc Hu) as (ku & Hku & _). rewrite (get_lookup _ _ _ Hku) in E.
    by apply (ti_pids _ _ _ _ _ (ki_tree _ _ _ Hk) u (view ku) t (view k) (nodes_lookup _ _ _ Hku) Hn). }
  assert (Hct : c <> t).
  { intros <-. destruct (child_of s _ _ c kc c Hk Hkc Hch) as (k2 & Hk2 & E). rewrite Ht in Hk2. injection Hk2 as <-.
    by destruct (ti_sib _ _ _ _ _ (ki_tree _ _ _ Hk) c (view k) c Hn E). }
  destruct (Z.eqb_spec (pid kc) (pid k)) as [E|_].
  { by destruct (Hct (ti_pids _ _ _ _ _ (ki_tree _ _ _ Hk) c (view kc) t (view k) (nodes_lookup _ _ _ Hkc) Hn E)). }
  destruct (wait_scan s false (pid k) (children kc) false) as [r o] eqn:Es. apply wait_scan_spec in Es. cbn [orb] in Es.
  destruct o as [u|].
  - destruct Es as (Hu & Em%Z.eqb_eq & _). rewrite (Huniq u Hu Em). destruct (child_of s _ _ c kc t Hk Hkc Hch) as (k2 & Hk2 & Esib).
    rewrite Ht in Hk2. injection Hk2 as <-. rewrite (release_step t c s k Hk Hc Ht Esib Hp). cbn [obind].
    pose proof (reap_result t c s k Hk Hc Ht Esib Hz) as Hr. cbv zeta in Hr. destruct (one_reference s t k Hk Ht Hp1) as [Hu1 _].
    destruct (put_task_struct t (released t c s)) as [s2| |]; [|done..]. destruct Hr as [Hr _]. destruct Hr. by split; [|left].
  - destruct Es as (_ & S2 & _ & S4). exfalso. destruct r.
    + destruct (S4 eq_refl eq_refl eq_refl) as (u & Hu & Em%Z.eqb_eq & Hnz). rewrite (Huniq u Hu Em), (get_lookup _ _ _ Ht) in Hnz. done.
    + destruct (S2 eq_refl) as [_ Hno]. specialize (Hno t Hch). rewrite (get_lookup _ _ _ Ht), Z.eqb_refl in Hno. done.
Qed.

Lemma find_pid s t k : kernel_ok s -> t ∈ task_list s -> tasks s !! t = Some k -> find_task_by_vpid s (pid k) = Some t.
Proof.
  intros Hk Hin Ht. unfold find_task_by_vpid. destruct (List.find _ _) as [u|] eqn:Ef.
  - apply List.find_some in Ef as [Hu%list_elem_of_In E%Z.eqb_eq]. destruct (on_list s _ _ u Hk Hu) as (ku & Hku & _).
    rewrite (get_lookup _ _ _ Hku) in E. f_equal.
    by apply (ti_pids _ _ _ _ _ (ki_tree _ _ _ Hk) u (view ku) t (view k) (nodes_lookup _ _ _ Hku) (nodes_lookup _ _ _ Ht)).
  - apply list_elem_of_In in Hin. pose proof (List.find_none _ _ Ef t Hin) as E. cbv beta in E.
    by rewrite (get_lookup _ _ _ Ht), Z.eqb_refl in E.
Qed.

(** C34: a task that [wake_up_process] made runnable while it was on a wait queue
    (the exit of a child does that to its parent) is still on the queue; when its
    parent kills it then, [sys_kill] returns 0 and leaves a zombie on the queue,
    and the parent's [waitpid] for it panics in [__put_task_struct]. *)
Theorem kill_then_wait_panics fuel sig s c kc t k :
  kernel_ok s -> running s c -> tasks s !! c = Some kc -> t ∈ children kc -> tasks s !! t = Some k ->
  state k = TASK_RUNNABLE -> waitq k <> None -> mm k <> None -> pid k <> 1 -> pid k <> 4294967295 ->
  sig = SIGINT \/ sig = SIGKILL \/ sig = SIGTERM -> (length (children k) <= fuel)%nat ->
  exists s', sys_kill fuel (pid k) sig s = Done (0, s') /\ kernel_ok s' /\ running s' c /\ do_waitpid (pid k) s' = Panic.
Proof.
  intros Hk Hrc Hkc Hch Ht Hrt Hq Hm Hp1 Hpm Hsig Hf. pose proof Hrc as [Hc Hrun]. rewrite (get_lookup _ _ _ Hkc) in Hrun.
  destruct (child_of s _ _ c kc t Hk Hkc Hch) as (k2 & Hk2 & Esib). rewrite Ht in Hk2. injection Hk2 as <-.
  pose proof (nodes_lookup _ _ _ Ht) as Hn. destruct (ti_sib _ _ _ _ _ (ki_tree _ _ _ Hk) t _ c Hn Esib) as [Htc _].
  assert (Epar : parent k = Some c) by (rewrite <- Esib; apply (ti_parent _ _ _ _ _ (ki_tree _ _ _ Hk) t _ Hn)).
  assert (Hp : pid k <> 0).
  { intros E. destruct (ti_pid _ _ _ _ _ (ki_tree _ _ _ Hk) t _ Hn) as [_ Hi]. rewrite (Hi E) in Hn.
    destruct (ti_idle _ _ _ _ _ (ki_tree _ _ _ Hk) _ Hn) as [_ Ei]. cbn in Ei. congruence. }
  pose proof (alive_on_list s t k Hk Ht ltac:(congruence)) as Hin.
  destruct (exit_notify_does fuel t (128 + sig) TASK_EXIT_SIGNAL sig 0 s k Hk Ht Hp Hp1 ltac:(congruence) Hf)
    as (s' & k' & E & K' & Ht' & _ & Ep' & Epar' & _ & wq & Hwq & [(k2 & Hk2 & Z1 & _ & _ & Z4) _ Hkeep (_ & _ & R3 & _)]).
  rewrite Ht' in Hk2. injection Hk2 as <-. destruct (Hkeep c kc ltac:(done) Hkc Hrun) as (kc' & Hkc' & Hrun').
  assert (Hrc' : running s' c) by (split; [congruence|by rewrite (get_lookup _ _ _ Hkc')]).
  exists s'. split; [|split; [done|split; [done|]]].
  - unfold sys_kill. destruct (Z.eqb_spec (pid k) 0); [done|].
    rewrite (find_pid s t k Hk Hin Ht), (get_lookup _ _ _ Ht). unfold is_idle_task, is_global_init.
    destruct (Z.eqb_spec (pid k) 0); [done|]. destruct (Z.eqb_spec (pid k) 1); [done|].
    rewrite (bool_decide_eq_false_2 (state k = TASK_ZOMBIE)) by congruence. rewrite (bool_decide_eq_false_2 (mm k = None)) by done.
    rewrite (bool_decide_eq_false_2 (current s = Some t)) by congruence. rewrite E.
    assert (Er : runqueue_empty s = false).
    { unfold runqueue_empty. destruct (task_list s); [by apply elem_of_nil in Hin|done]. }
    rewrite Er. by destruct Hsig as [->|[->| ->]].
  - rewrite <- Ep'. apply (reap_linked_panics s' c kc' t k' K' Hrc' Hkc'); try done; try congruence.
    + pose proof (nodes_lookup _ _ _ Ht') as Hn'. pose proof (ti_parent _ _ _ _ _ (ki_tree _ _ _ K') t _ Hn') as Es'. cbn in Es'.
      destruct (ti_sib _ _ _ _ _ (ki_tree _ _ _ K') t _ c Hn') as (_ & n & Hnc & Hin'); [cbn; congruence|].
      rewrite (nodes_lookup _ _ _ Hkc') in Hnc. by injection Hnc as <-.
    + rewrite Z4 by congruence. rewrite Hwq by congruence. done.
Qed.

(** ** The kernel as a step relation *)

(** One step: an interrupt or a system call of the running task that returns.  The
    wait queues a driver owns are [Queue]s.  Three kinds of call are not steps: those
    that panic or never end; those where [wait_queue_block_locked] links a node that
    is already on a list ([None]); and creations once the 32-bit pid counter is at
    its end, after which pids would be reused. *)
Inductive kstep : kstate -> kstate -> Prop :=
  | step_timer s r : kstep s (snd (timer_irq s r))
  | step_yield s r : kstep s (snd (task_yield s r))
  | step_sleep s c ticks : running s c -> kstep s (task_sleep s ticks)
  | step_block s s' c a : running s c -> wait_queue_block_locked (Queue a) s = Some s' -> kstep s s'
  | step_wake s a : kstep s (wake_up_all (Queue a) s)
  | step_fork s c r : running s c -> last_pid s < 4294967295 -> kstep s (snd (sys_fork sizeof_task s r))
  | step_kthread s c entry :
      running s c -> last_pid s < 4294967295 -> kstep s (snd (kernel_thread sizeof_task s entry))
  | step_user s c entry program :
      running s c -> last_pid s < 4294967295 -> kstep s (snd (kernel_create_user sizeof_task s entry program))
  | step_exit s s' c fuel code : running s c -> do_exit fuel code s = Done s' -> kstep s s'
  | step_kill s s' c fuel id sig r : running s c -> sys_kill fuel id sig s = Done (r, s') -> kstep s s'
  | step_wait s s' c id w : running s c -> do_waitpid id s = Done (Some (w, s')) -> kstep s s'.

Lemma last_pid_nonneg s : kernel_ok s -> 0 <= last_pid s.
Proof.
  intros Hk. destruct (ki_cur _ _ _ Hk) as (c & Hc & _). destruct (current_task s _ _ c Hk Hc) as [_ [k Hck]].
  destruct (ti_pid _ _ _ _ _ (ki_tree _ _ _ Hk) c _ (nodes_lookup _ _ _ Hck)) as [? _]. cbn in *. lia.
Qed.

Lemma do_exit_ok s s' c fuel code : kernel_ok s -> current s = Some c -> do_exit fuel code s = Done s' -> kernel_ok s'.
Proof.
  intros Hk Hc E. destruct (current_task s _ _ c Hk Hc) as [_ [k Hck]]. unfold do_exit, do_exit_reason in E. rewrite Hc in E.
  destruct (is_idle_task _); [by injection E as <-|]. eapply exit_notify_ok; [done|by exists k|done].
Qed.

Lemma kstep_ok s s' : kernel_ok s -> kstep s s' -> kernel_ok s'.
Proof.
  intros Hk Hs. pose proof (last_pid_nonneg s Hk) as Hlp.
  destruct Hs as [s r|s r|s c ticks Hr|s s' c a Hr E|s a|s c r Hr Hl|s c entry Hr Hl|s c entry prog Hr Hl|s s' c fuel code Hr E
    |s s' c fuel id sig r Hr E|s s' c id w Hr E].
  - by apply timer_irq_ok.
  - apply timer_irq_ok. ext Hk.
  - by apply (task_sleep_ok s c).
  - refine (block_kinv _ _ _ Hk _ E). discriminate.
  - by apply wake_up_all_kinv.
  - by eapply sys_fork_ok.
  - by eapply task_create_ok.
  - by eapply task_create_ok.
  - destruct Hr as [Hc _]. by eapply do_exit_ok.
  - by eapply sys_kill_ok.
  - by eapply do_waitpid_ok.
Qed.

Lemma ksteps_ok s s' : kernel_ok s -> rtc kstep s s' -> kernel_ok s'.
Proof. intros Hk Hs. induction Hs as [|s0 s1 s2 H1 _ IH]; [done|]. by apply IH, (kstep_ok s0). Qed.
End kernel.

Section boot.
Context {M : Type} `{!KAlloc M, !KAllocSpec M} {R : Type} `{!TaskRes R}.
Context (sizeof_task : Z).
Implicit Types (h : M) (r : R).

Lemma init_task_ok h r e s t : km_ok h -> init_task sizeof_task h r e = Done s -> current s = Some t -> kernel_ok t s.
Proof.
  intros Hh E Hc. unfold init_task in E. destruct (kmalloc sizeof_task h) as [a h1] eqn:E1.
  destruct (kmalloc THREAD_SIZE h1) as [b h2] eqn:E2. destruct a as [a|], b as [st|]; try done. injection E as <-. injection Hc as ->.
  destruct (two_allocs sizeof_task _ _ _ _ _ Hh E1 E2) as (A1 & A2 & A3 & A4 & A5 & A6).
  assert (Est : (st +w THREAD_SIZE) -w THREAD_SIZE = st).
  { unfold THREAD_SIZE, sub32, add32, u32. rewrite Zminus_mod_idemp_l. replace (st + 4096 - 4096) with st by lia. apply Z.mod_small. lia. }
  split.
  - unfold nodes. cbn [tasks task_list last_pid kheap]. rewrite map_fmap_singleton. set (x := view _).
    assert (Hl : forall u k, ({[t := x]} : gmap Z tnode) !! u = Some k -> u = t /\ k = x) by (by intros u k [-> ->]%lookup_singleton_Some).
    assert (Hs : n_stack x = st) by done.
    split; try done; try (intros u k [-> ->]%Hl; unfold x; cbn; done).
    + apply NoDup_singleton.
    + intros u. rewrite list_elem_of_singleton. split.
      * intros ->. exists x. by rewrite lookup_singleton_eq.
      * by intros (k & [-> _]%Hl & _).
    + intros k [_ ->]%Hl. done.
    + by intros u k u' k' [-> ->]%Hl [-> ->]%Hl.
    + by intros u k p [-> ->]%Hl.
    + intros p kp u [-> ->]%Hl Hu. by apply elem_of_nil in Hu.
    + intros p kp [-> ->]%Hl. apply NoDup_nil_2.
    + intros u k [-> ->]%Hl. rewrite Hs, A6, dom_singleton. set_solver.
    + by intros u k u' k' [-> ->]%Hl [-> ->]%Hl.
  - split.
    + intros u q. cbn [queues tasks]. destruct (decide (q = ChildExit t)) as [->|Hq].
      * rewrite lookup_singleton_eq. cbn. split; [by intros ?%elem_of_nil|]. by intros (k & [_ <-]%lookup_singleton_Some & E).
      * rewrite lookup_singleton_ne by done. cbn. split; [by intros ?%elem_of_nil|]. by intros (k & [_ <-]%lookup_singleton_Some & E).
    + intros q. cbn [queues]. destruct (decide (q = ChildExit t)) as [->|Hq]; [rewrite lookup_singleton_eq|rewrite lookup_singleton_ne by done]; apply NoDup_nil_2.
    + cbn [tasks]. by intros u k [_ <-]%lookup_singleton_Some.
    + cbn [tasks]. by intros u k [_ <-]%lookup_singleton_Some.
  - cbn [tasks]. by intros u k [_ <-]%lookup_singleton_Some.
  - exists t. split; [done|]. by left.
  - intros u p. unfold waiters. cbn [queues]. destruct (decide (ChildExit p = ChildExit t)) as [->|Hq];
      [rewrite lookup_singleton_eq|rewrite lookup_singleton_ne by done]; by intros ?%elem_of_nil.
  - cbn [tasks]. by intros u k [_ <-]%lookup_singleton_Some.
Qed.

End boot.

(** ** A run of the kernel *)

Module Trace.

(** A heap of 20 objects. *)
Notation kst := (kstate (M := Heap.heap) (R := unit)).

#[global] Instance kst_inhabited : Inhabited kst :=
  populate (KState ∅ [] None false 0 0 0 0 ∅ 0 0 (Heap.init 0) tt).

Definition done (x : outcome kst) : kst := match x with Done s => s | _ => inhabitant end.

(** The idle task (4096) starts init (4098, pid 1); init forks a task (4100, pid
    2), which forks another (4102, pid 3) and blocks on a queue. *)
Definition s0 : kst := Eval vm_compute in done (init_task 1 (Heap.init 20) tt 0).
Definition s1 : kst := Eval vm_compute in snd (kernel_create_user 1 s0 0 []).
Definition s2 : kst := Eval vm_compute in snd (task_yield s1 no_regs).
Definition s3 : kst := Eval vm_compute in snd (sys_fork 1 s2 no_regs).
Definition s4 : kst := Eval vm_compute in snd (task_yield s3 no_regs).
Definition s5 : kst := Eval vm_compute in snd (sys_fork 1 s4 no_regs).
Definition s6 : kst := Eval vm_compute in default inhabitant (wait_queue_block_locked (Queue 7) s5).
Definition s7 : kst := Eval vm_compute in snd (timer_irq s6 no_regs).
(** Pid 3 exits, which wakes pid 2 but leaves it on the queue; init kills pid 2. *)
Definition s8 : kst := Eval vm_compute in done (do_exit 5 0 s7).
Definition s9 : kst := Eval vm_compute in snd (task_yield s8 no_regs).
Definition s10 : kst := Eval vm_compute in snd (task_yield s9 no_regs).
Definition s11 : kst := Eval vm_compute in match sys_kill 5 2 SIGKILL s10 with Done (_, s) => s | _ => inhabitant end.

Lemma boot_ok : kernel_ok 4096 s0.
Proof. apply (init_task_ok 1 (Heap.init 20) tt 0); [apply Heap.init_ok|by vm_compute|done]. Qed.

Lemma step_to (s s' s'' : kst) : kstep 1 s s' -> s' = s'' -> rtc (kstep 1) s s''.
Proof. intros H <-. by apply rtc_once. Qed.

Lemma run_init : rtc (kstep 1) s0 s3.
Proof.
  eapply rtc_l; [apply (step_user 1 s0 4096 0 []); by vm_compute|change (snd _) with s1].
  eapply rtc_l; [apply (step_yield 1 s1 no_regs)|change (snd _) with s2].
  eapply step_to; [apply (step_fork 1 s2 4098 no_regs); by vm_compute|by vm_compute].
Qed.

Lemma run_forked : rtc (kstep 1) s0 s5.
Proof.
  etrans; [apply run_init|].
  eapply rtc_l; [apply (step_yield 1 s3 no_regs)|change (snd _) with s4].
  eapply step_to; [apply (step_fork 1 s4 4100 no_regs); by vm_compute|by vm_compute].
Qed.

Lemma run_blocked : rtc (kstep 1) s0 s6.
Proof.
  etrans; [apply run_forked|].
  apply rtc_once, (step_block 1 s5 s6 4100 7); by vm_compute.
Qed.

Lemma run_child : rtc (kstep 1) s6 s7.
Proof.
  eapply step_to; [apply (step_timer 1 s6 no_regs)|by vm_compute].
Qed.

Lemma run_woken : rtc (kstep 1) s0 s10.
Proof.
  etrans; [apply run_blocked|]. etrans; [apply run_child|].
  eapply rtc_l; [apply (step_exit 1 s7 s8 4102 5 0); by vm_compute|].
  eapply rtc_l; [apply (step_yield 1 s8 no_regs)|change (snd _) with s9].
  eapply rtc_l; [apply (step_yield 1 s9 no_regs)|change (snd _) with s10]. apply rtc_refl.
Qed.

Lemma run_killed : rtc (kstep 1) s0 s11.
Proof.
  etrans; [apply run_woken|]. apply rtc_once, (step_kill 1 s10 s11 4098 5 2 SIGKILL 0); by vm_compute.
Qed.

(** Init kills pid 2, which the exit of pid 3 woke while it was on queue 7. *)
Lemma kill_then_wait_panics_witness :
  rtc (kstep 1) s0 s10 /\ waitq (get s10 4100) = Some (Queue 7) /\
  exists s', sys_kill 5 2 SIGKILL s10 = Done (0, s') /\ running s' 4098 /\ do_waitpid 2 s' = Panic.
Proof.
  split; [apply run_woken|]. split; [by vm_compute|].
  destruct (kill_then_wait_panics 4096 5 SIGKILL s10 4098 (get s10 4098) 4100 (get s10 4100)) as (s' & E & _ & Hr & Hp).
  - apply (ksteps_ok 1 4096 s0 s10 boot_ok), run_woken.
  - split; by vm_compute.
  - by vm_compute.
  - vm_compute. by left.
  - by vm_compute.
  - by vm_compute.
  - by vm_compute.
  - by vm_compute.
  - by vm_compute.
  - by vm_compute.
  - by right; left.
  - vm_compute. lia.
  - exists s'. exact (conj E (conj Hr Hp)).
Defined.


Lemma s7_ok : kernel_ok 4096 s7.
Proof. apply (ksteps_ok 1 4096 s0 s7 boot_ok). etrans; [apply run_blocked|apply run_child]. Qed.

Lemma exit_notify_correct_witness :
  pid (get s7 4102) = 3 /\
  exists s' k', exit_notify 5 4102 9 0 0 0 s7 = Done s' /\ tasks s' !! 4102 = Some k' /\ state k' = TASK_ZOMBIE.
Proof.
  split; [by vm_compute|].
  destruct (exit_notify_correct 4096 5 4102 9 0 0 0 s7 (get s7 4102) s7_ok) as (s' & k' & E & _ & H & Hz & _).
  - by vm_compute.
  - by vm_compute.
  - by vm_compute.
  - by vm_compute.
  - vm_compute. lia.
  - exists s', k'. exact (conj E (conj H Hz)).
Defined.

(** Pid 2 is not blocked: it waits for pid 3, which has exited. *)
Definition w6 : kst := Eval vm_compute in snd (task_yield s5 no_regs).
Definition w7 : kst := Eval vm_compute in done (do_exit 5 42 w6).
Definition w8 : kst := Eval vm_compute in snd (task_yield w7 no_regs).
Definition w9 : kst := Eval vm_compute in snd (task_yield w8 no_regs).
Definition w10 : kst := Eval vm_compute in snd (task_yield w9 no_regs).

Lemma run_waiting : rtc (kstep 1) s5 w10.
Proof.
  eapply rtc_l; [apply (step_yield 1 s5 no_regs)|change (snd _) with w6].
  eapply rtc_l; [apply (step_exit 1 w6 w7 4102 5 42); by vm_compute|].
  eapply rtc_l; [apply (step_yield 1 w7 no_regs)|change (snd _) with w8].
  eapply rtc_l; [apply (step_yield 1 w8 no_regs)|change (snd _) with w9].
  eapply rtc_l; [apply (step_yield 1 w9 no_regs)|change (snd _) with w10].
  apply rtc_refl.
Qed.

Lemma do_waitpid_correct_witness :
  (exists s', do_waitpid 3 w10 = Done (Some (Reaped 3 (ExitInfo 42 0 0 0), s')) /\ tasks s' !! 4102 = None) /\
  exists w s', do_waitpid 3 w10 = Done (Some (w, s')) /\ kernel_ok 4096 s'.
Proof.
  split; [eexists; split; by vm_compute|].
  destruct (do_waitpid_correct 4096 3 w10 4100 (get w10 4100)) as (w & s' & E & K & _).
  - apply (ksteps_ok 1 4096 s0 w10 boot_ok). etrans; [apply run_forked|apply run_waiting].
  - split; by vm_compute.
  - by vm_compute.
  - by vm_compute.
  - done.
  - by vm_compute.
  - intros t k Ht. vm_compute in Ht. apply list_elem_of_singleton in Ht as ->. intros E. vm_compute in E. by injection E as <-.
  - exact (ex_intro _ w (ex_intro _ s' (conj E K))).
Defined.

(** Init with two children exits. *)
Definition i5 : kst := Eval vm_compute in snd (sys_fork 1 s3 no_regs).

Lemma init_exit_never_ends_witness :
  children (get i5 4098) = [4100; 4102] /\ exit_notify 1000 4098 0 0 0 0 i5 = Endless.
Proof.
  split; [by vm_compute|].
  apply (init_exit_never_ends 4096 (fun _ => 0) 4098 i5 (get i5 4098) 4100 4102 []).
  - apply (ksteps_ok 1 4096 s0 i5 boot_ok). etrans; [apply run_init|].
    eapply step_to; [apply (step_fork 1 s3 4098 no_regs); by vm_compute|by vm_compute].
  - by vm_compute.
  - by vm_compute.
  - vm_compute. right. by left.
  - by vm_compute.
  - by vm_compute.
Defined.
End Trace.
