(* ===== verification/Cstring.v ===== *)
(** * Memory blocks, C strings and numerals ([lib/string.c])

    A block of memory is a list of bytes, a pointer into it an offset.  An access
    outside the block gives [None], so that a result [Some] also says that every
    access was in bounds.  Functions that only read a string take the bytes from
    the pointer on, terminator included. *)

From stdpp Require Import base tactics numbers list.
From Stdlib Require Import ZArith Lia.
From S2P Require Import Prelude.

Implicit Types (m s : list Z) (d p : nat).

(** ** Operations *)

Definition store m p (c : Z) : option (list Z) := if decide (p < length m)%nat then Some (<[p := c]> m) else None.

(** [while (n--) *p++ = c;] *)
Fixpoint memset m p (c : Z) (n : nat) : option (list Z) :=
  match n with
  | O => Some m
  | S n' => m' ← store m p (c mod 256); memset m' (S p) c n'
  end.

(** [while (n--) *d++ = *s++;] with both pointers in one block. *)
Fixpoint memcpy m d p (n : nat) : option (list Z) :=
  match n with
  | O => Some m
  | S n' => c ← m !! p; m' ← store m d c; memcpy m' (S d) (S p) n'
  end.

(** [d += n; s += n; while (n--) *(--d) = *(--s);] *)
Fixpoint copy_down m d p (n : nat) : option (list Z) :=
  match n with
  | O => Some m
  | S n' => c ← m !! (p + n')%nat; m' ← store m (d + n') c; copy_down m' d p n'
  end.

Definition memmove m d p (n : nat) : option (list Z) :=
  if decide (n = 0%nat \/ d = p) then Some m
  else if decide (d < p)%nat then memcpy m d p n else copy_down m d p n.

Fixpoint strlen s : option Z :=
  match s with
  | [] => None
  | c :: s' => if c =? 0 then Some 0 else n ← strlen s'; Some (n + 1)
  end.

(** [*s1 - *s2] at the first difference. *)
Fixpoint strcmp (s1 s2 : list Z) : option Z :=
  match s1, s2 with
  | c1 :: s1', c2 :: s2' => if negb (c1 =? 0) && (c1 =? c2) then strcmp s1' s2' else Some (c1 - c2)
  | _, _ => None
  end.

Fixpoint strncmp (s1 s2 : list Z) (n : nat) : option Z :=
  match n with
  | O => Some 0
  | S n' =>
      match s1, s2 with
      | c1 :: s1', c2 :: s2' => if negb (c1 =? 0) && (c1 =? c2) then strncmp s1' s2' n' else Some (c1 - c2)
      | _, _ => None
      end
  end.

(** Copies up to and including the terminator; [fuel] bounds the bytes copied. *)
Fixpoint strcpy (fuel : nat) m d p : option (list Z) :=
  match fuel with
  | O => None
  | S fuel' => c ← m !! p; m' ← store m d c; if c =? 0 then Some m' else strcpy fuel' m' (S d) (S p)
  end.

(** The two loops of [strcat]. *)
Fixpoint str_end (fuel : nat) m d : option nat :=
  match fuel with
  | O => None
  | S fuel' => c ← m !! d; if c =? 0 then Some d else str_end fuel' m (S d)
  end.

Fixpoint append (fuel : nat) m d p : option (list Z) :=
  match fuel with
  | O => None
  | S fuel' => c ← m !! p; if c =? 0 then store m d 0 else m' ← store m d c; append fuel' m' (S d) (S p)
  end.

Definition strcat m d p : option (list Z) :=
  e ← str_end (length m) m d; append (length m) m e p.

(** ** Numerals *)

(** [(rem > 9) ? (rem - 10) + 'a' : rem + '0'] *)
Definition itoa_char (r : Z) : Z := if 9 <? r then r - 10 + 97 else r + 48.

(** [while (u_num != 0)]: a 32-bit number has at most 32 digits in any base. *)
Fixpoint itoa_digits (fuel : nat) m (i : nat) (u base : Z) : option (list Z * nat) :=
  match fuel with
  | O => None
  | S fuel' =>
      if u =? 0 then Some (m, i)
      else m' ← store m i (itoa_char (u mod base)); itoa_digits fuel' m' (S i) (u / base) base
  end.

(** [while (start < end)] swaps. *)
Fixpoint reverse_loop (fuel : nat) m (a b : Z) : option (list Z) :=
  match fuel with
  | O => None
  | S fuel' =>
      if a <? b then
        x ← m !! Z.to_nat a; y ← m !! Z.to_nat b;
        m1 ← store m (Z.to_nat a) y; m2 ← store m1 (Z.to_nat b) x;
        reverse_loop fuel' m2 (a + 1) (b - 1)
      else Some m
  end.

Definition itoa (num base : Z) m : option (list Z) :=
  if num =? 0 then m1 ← store m 0 48; store m1 1 0
  else
    let neg := (num <? 0) && (base =? 10) in
    let u := if neg then u32 (- num) else u32 num in
    '(m1, i) ← itoa_digits 33 m 0 u base;
    '(m2, j) ← (if (neg : bool) then m' ← store m1 i 45; Some (m', S i) else Some (m1, i));
    m3 ← store m2 j 0;
    reverse_loop 34 m3 0 (Z.of_nat j - 1).

(** *** Reference definitions *)

(** The digits of [v] in base [b], most significant first, and the number a list
    of digits denotes. *)
Fixpoint digits_aux (fuel : nat) (b v : Z) (acc : list Z) : list Z :=
  match fuel with
  | O => acc
  | S fuel' => if v =? 0 then acc else digits_aux fuel' b (v / b) (v mod b :: acc)
  end.

Definition digits (b v : Z) : list Z := if v =? 0 then [0] else digits_aux 32 b v [].

Definition value (b : Z) (l : list Z) : Z := fold_left (fun a x => a * b + x) l 0.

(** ** Lemmas *)

Lemma store_Some m p c : (p < length m)%nat -> store m p c = Some (<[p := c]> m).
Proof. intros H. unfold store. by rewrite decide_True. Qed.

Lemma value_app b l1 l2 a : fold_left (fun a x => a * b + x) (l1 ++ l2) a = fold_left (fun a x => a * b + x) l2 (fold_left (fun a x => a * b + x) l1 a).
Proof. apply fold_left_app. Qed.

Lemma digits_aux_spec fuel b v acc :
  2 <= b -> 0 <= v < 2 ^ Z.of_nat fuel ->
  exists l, digits_aux fuel b v acc = l ++ acc /\ value b l = v /\ Forall (fun x => 0 <= x < b) l /\
    (length l <= fuel)%nat /\ (v <> 0 -> exists x l', l = x :: l' /\ x <> 0) /\ (v = 0 -> l = []).
Proof.
  intros Hb. revert v acc. induction fuel as [|fuel IH]; intros v acc Hv.
  { cbn in Hv. exists []. assert (v = 0) as -> by lia. by split_and!. }
  cbn [digits_aux]. destruct (Z.eqb_spec v 0) as [->|Hn].
  { exists []. split_and!; try done; cbn; lia. }
  rewrite Nat2Z.inj_succ, Z.pow_succ_r in Hv by lia.
  assert (Hq : 0 <= v / b < 2 ^ Z.of_nat fuel).
  { split; [apply Z.div_pos; lia|]. apply Z.div_lt_upper_bound; nia. }
  destruct (IH (v / b) (v mod b :: acc) Hq) as (l & E & V & F & L & N1 & N2).
  exists (l ++ [v mod b]). split_and!.
  - rewrite E. by rewrite <- app_assoc.
  - unfold value in *. rewrite value_app, V. cbn. pose proof (Z.div_mod v b). lia.
  - apply Forall_app. split; [done|]. constructor; [|done]. apply Z.mod_pos_bound. lia.
  - rewrite length_app. cbn. lia.
  - intros _. destruct (decide (v / b = 0)) as [E0|E0].
    + rewrite (N2 E0). exists (v mod b), []. split; [done|]. pose proof (Z.div_mod v b). lia.
    + destruct (N1 E0) as (x & l' & -> & Hx). by exists x, (l' ++ [v mod b]).
  - lia.
Qed.

Lemma digits_spec b v :
  2 <= b -> is_u32 v ->
  value b (digits b v) = v /\ Forall (fun x => 0 <= x < b) (digits b v) /\ (length (digits b v) <= 32)%nat /\
  (v <> 0 -> exists x l, digits b v = x :: l /\ x <> 0) /\ digits b v <> [].
Proof.
  intros Hb Hv. unfold digits. destruct (Z.eqb_spec v 0) as [->|Hn].
  { split_and!; try done; [|cbn; lia]. constructor; [lia|done]. }
  unfold is_u32 in Hv. destruct (digits_aux_spec 32 b v [] Hb) as (l & E & V & F & L & N & _); [cbn; lia|].
  rewrite E, app_nil_r. split_and!; try done. destruct (N Hn) as (x & l' & -> & _). done.
Qed.

(** *** Copying *)

Lemma memset_spec m p c n :
  (p + n <= length m)%nat ->
  exists r, memset m p c n = Some r /\ length r = length m /\
    forall i, r !! i = if decide (p <= i < p + n)%nat then Some (c mod 256) else m !! i.
Proof.
  revert m p. induction n as [|n IH]; intros m p H; cbn [memset].
  { exists m. split_and!; try done. intros i. by rewrite decide_False by lia. }
  rewrite store_Some by lia. cbn [mbind option_bind]. destruct (IH (<[p := c mod 256]> m) (S p)) as (r & E & L & Hr).
  { rewrite length_insert. lia. }
  exists r. rewrite length_insert in L. split_and!; try done. intros i. rewrite Hr.
  destruct (decide (p = i)) as [<-|Hne].
  - rewrite decide_False by lia. rewrite list_lookup_insert_eq by lia. by rewrite decide_True by lia.
  - rewrite list_lookup_insert_ne by done. repeat case_decide; try done; lia.
Qed.

(** The block after copying [n] bytes from [p] to [d]. *)
Definition copied m d p (n : nat) (r : list Z) : Prop :=
  length r = length m /\ forall i, r !! i = if decide (d <= i < d + n)%nat then m !! (p + (i - d))%nat else m !! i.

Lemma memcpy_spec m d p n :
  (d + n <= length m)%nat -> (p + n <= length m)%nat -> (d <= p \/ p + n <= d)%nat ->
  exists r, memcpy m d p n = Some r /\ copied m d p n r.
Proof.
  revert m d p. induction n as [|n IH]; intros m d p Hd Hp Ho; cbn [memcpy].
  { exists m. split; [done|]. split; [done|]. intros i. by rewrite decide_False by lia. }
  destruct (lookup_lt_is_Some_2 m p) as [c Hc]; [lia|]. rewrite Hc. cbn [mbind option_bind]. rewrite store_Some by lia. cbn [mbind option_bind].
  destruct (IH (<[d := c]> m) (S d) (S p)) as (r & E & L & Hr); try (rewrite length_insert; lia); [lia|].
  exists r. rewrite length_insert in L. split; [done|]. split; [done|]. intros i. rewrite Hr. destruct (decide (d = i)) as [<-|Hne].
  - rewrite decide_False by lia. rewrite list_lookup_insert_eq by lia. rewrite decide_True by lia. rewrite <- Hc. f_equal. lia.
  - destruct (decide (S d <= i < S d + n)%nat).
    + rewrite list_lookup_insert_ne by lia. rewrite decide_True by lia. f_equal. lia.
    + rewrite list_lookup_insert_ne by done. by rewrite decide_False by lia.
Qed.

Lemma copy_down_spec m d p n :
  (d + n <= length m)%nat -> (p + n <= length m)%nat -> (p <= d)%nat ->
  exists r, copy_down m d p n = Some r /\ copied m d p n r.
Proof.
  revert m. induction n as [|n IH]; intros m Hd Hp Ho; cbn [copy_down].
  { exists m. split; [done|]. split; [done|]. intros i. by rewrite decide_False by lia. }
  destruct (lookup_lt_is_Some_2 m (p + n)) as [c Hc]; [lia|]. rewrite Hc. cbn [mbind option_bind]. rewrite store_Some by lia. cbn [mbind option_bind].
  destruct (IH (<[(d + n)%nat := c]> m)) as (r & E & L & Hr); try (rewrite length_insert; lia); [lia|].
  exists r. rewrite length_insert in L. split; [done|]. split; [done|]. intros i. rewrite Hr. destruct (decide (i = d + n)%nat) as [->|Hne].
  - rewrite decide_False by lia. rewrite list_lookup_insert_eq by lia. rewrite decide_True by lia. rewrite <- Hc. f_equal. lia.
  - destruct (decide (d <= i < d + n)%nat).
    + rewrite list_lookup_insert_ne by lia. rewrite decide_True by lia. done.
    + rewrite list_lookup_insert_ne by done. by rewrite decide_False by lia.
Qed.

(** [memmove] copies correctly whatever the overlap of source and destination:
    afterwards the destination holds the bytes the source had before, every other
    byte is unchanged, and no access leaves the block. *)
Theorem memmove_correct m d p n :
  (d + n <= length m)%nat -> (p + n <= length m)%nat ->
  exists r, memmove m d p n = Some r /\ length r = length m /\
    forall i, r !! i = if decide (d <= i < d + n)%nat then m !! (p + (i - d))%nat else m !! i.
Proof.
  intros Hd Hp. unfold memmove. case_decide as H0.
  - exists m. split_and!; try done. intros i. case_decide; [|done]. destruct H0 as [H0| ->]; [lia|]. f_equal. lia.
  - case_decide; [apply memcpy_spec; lia|apply copy_down_spec; lia].
Qed.

Lemma memmove_correct_witness :
  memmove [1; 2; 3; 4; 5] 1 0 4 = Some [1; 1; 2; 3; 4] /\
  exists r, memmove [1; 2; 3; 4; 5] 1 0 4 = Some r /\ length r = 5%nat.
Proof.
  split; [done|]. destruct (memmove_correct [1; 2; 3; 4; 5] 1 0 4) as (r & E & L & _); [cbn; lia..|]. exists r. exact (conj E L).
Defined.

(** *** Strings *)

Lemma strlen_spec s r : 0 ∉ s -> strlen (s ++ 0 :: r) = Some (Z.of_nat (length s)).
Proof.
  induction s as [|c s IH]; intros H; cbn [strlen app]; [done|]. apply not_elem_of_cons in H as [H1 H2].
  destruct (Z.eqb_spec c 0); [done|]. rewrite IH by done. cbn [mbind option_bind length]. f_equal. lia.
Qed.

(** Both strings are read up to the first difference, at most up to the shorter
    terminator. *)
Lemma strncmp_spec s1 s2 r1 r2 n :
  0 ∉ s1 -> 0 ∉ s2 -> exists z, strncmp (s1 ++ 0 :: r1) (s2 ++ 0 :: r2) n = Some z /\ (z = 0 <-> take n s1 = take n s2).
Proof.
  revert s2 n. induction s1 as [|c1 s1 IH]; intros s2 n H1 H2; (destruct n as [|n]; [by exists 0|]); cbn [strncmp app].
  - destruct s2 as [|c2 s2]; cbn; [by exists 0|]. apply not_elem_of_cons in H2 as [H2 _]. exists (0 - c2). split; [done|].
    split; [lia|done].
  - apply not_elem_of_cons in H1 as [H1 H1']. destruct s2 as [|c2 s2]; cbn [app].
    + exists (c1 - 0). split; [|split; [lia|done]]. destruct (Z.eqb_spec c1 0); done.
    + apply not_elem_of_cons in H2 as [H2 H2']. destruct (Z.eqb_spec c1 0) as [|_]; [done|]. cbn [negb andb].
      destruct (Z.eqb_spec c1 c2) as [->|Hne].
      * destruct (IH s2 n H1' H2') as (z & E & Hz). exists z. split; [done|]. cbn [firstn]. rewrite Hz. split; [by intros ->|by intros [= ->]].
      * exists (c1 - c2). split; [done|]. cbn [firstn]. split; [lia|intros [= ->]; done].
Qed.

Lemma strcmp_spec s1 s2 r1 r2 :
  0 ∉ s1 -> 0 ∉ s2 -> exists z, strcmp (s1 ++ 0 :: r1) (s2 ++ 0 :: r2) = Some z /\ (z = 0 <-> s1 = s2).
Proof.
  revert s2. induction s1 as [|c1 s1 IH]; intros s2 H1 H2; cbn [strcmp app].
  - destruct s2 as [|c2 s2]; cbn; [by exists 0|]. apply not_elem_of_cons in H2 as [H2 _]. exists (0 - c2). split; [done|].
    split; [lia|done].
  - apply not_elem_of_cons in H1 as [H1 H1']. destruct s2 as [|c2 s2]; cbn [app].
    + exists (c1 - 0). split; [|split; [lia|done]]. destruct (Z.eqb_spec c1 0); done.
    + apply not_elem_of_cons in H2 as [H2 H2']. destruct (Z.eqb_spec c1 0) as [|_]; [done|]. cbn [negb andb].
      destruct (Z.eqb_spec c1 c2) as [->|Hne].
      * destruct (IH s2 H1' H2') as (z & E & Hz). exists z. split; [done|]. rewrite Hz. split; [by intros ->|by intros [= ->]].
      * exists (c1 - c2). split; [done|]. split; [lia|intros [= ->]; done].
Qed.

(** The string at [p] of a block. *)
Definition str_at m p s : Prop := (0 ∉ s) /\ forall i c, (s ++ [0]) !! i = Some c -> m !! (p + i)%nat = Some c.

Lemma str_at_cons m p c s : str_at m p (c :: s) -> m !! p = Some c /\ c <> 0 /\ str_at m (S p) s.
Proof.
  intros [H1 H2]. apply not_elem_of_cons in H1 as [H1 H1']. split; [|split; [done|split; [done|]]].
  - rewrite <- (H2 0%nat c eq_refl). f_equal. lia.
  - intros i x Hx. rewrite <- (H2 (S i) x Hx). f_equal. lia.
Qed.

Lemma str_at_nil m p : str_at m p [] -> m !! p = Some 0.
Proof. intros [_ H]. rewrite <- (H 0%nat 0 eq_refl). f_equal. lia. Qed.

Lemma str_at_insert m p s d c : (d < p \/ p + length s < d)%nat -> str_at m p s -> str_at (<[d := c]> m) p s.
Proof.
  intros Hd [H1 H2]. split; [done|]. intros i x Hx. pose proof (lookup_lt_Some _ _ _ Hx) as Hl. rewrite length_app in Hl. cbn in Hl.
  rewrite list_lookup_insert_ne by lia. by apply H2.
Qed.

(** [append] writes the source string and a terminator at [d]. *)
Lemma append_spec fuel m d p s :
  str_at m p s -> (length s < fuel)%nat -> (d + length s < length m)%nat -> (d + length s < p \/ p + length s < d)%nat ->
  exists r, append fuel m d p = Some r /\ length r = length m /\ str_at r d s /\
    forall i, (i < d \/ d + length s < i)%nat -> r !! i = m !! i.
Proof.
  revert fuel m d p. induction s as [|c s IH]; intros fuel m d p Hs Hf Hd Ho; (destruct fuel as [|fuel]; [cbn in Hf; lia|]); cbn [append].
  - rewrite (str_at_nil _ _ Hs). cbn [mbind option_bind length] in *. rewrite Z.eqb_refl, store_Some by lia.
    eexists. split; [done|]. rewrite length_insert. split; [done|]. split.
    + split; [apply not_elem_of_nil|]. intros [|i] x [= <-]. rewrite Nat.add_0_r. by apply list_lookup_insert_eq; lia.
    + intros i Hi. rewrite list_lookup_insert_ne by lia. done.
  - apply str_at_cons in Hs as (Hc & Hc0 & Hs). rewrite Hc. cbn [mbind option_bind length] in *. destruct (Z.eqb_spec c 0); [done|].
    rewrite store_Some by lia. cbn [mbind option_bind].
    destruct (IH fuel (<[d := c]> m) (S d) (S p)) as (r & E & L & Hr & Hr'); [apply str_at_insert; [lia|done]|lia|rewrite length_insert; lia|lia|].
    exists r. rewrite length_insert in L. split; [done|]. split; [done|]. split.
    + destruct Hr as [R1 R2]. split; [by apply not_elem_of_cons|]. intros [|i] x Hx.
      * injection Hx as <-. rewrite Nat.add_0_r, Hr' by lia. by apply list_lookup_insert_eq; lia.
      * rewrite <- (R2 i x Hx). f_equal. lia.
    + intros i Hi. rewrite Hr' by lia. by rewrite list_lookup_insert_ne by lia.
Qed.

Lemma str_end_spec fuel m d s : str_at m d s -> (length s < fuel)%nat -> str_end fuel m d = Some (d + length s)%nat.
Proof.
  revert fuel d. induction s as [|c s IH]; intros fuel d Hs Hf; (destruct fuel as [|fuel]; [cbn in Hf; lia|]); cbn [str_end].
  - rewrite (str_at_nil _ _ Hs). cbn [mbind option_bind length]. rewrite Z.eqb_refl. f_equal. lia.
  - apply str_at_cons in Hs as (Hc & Hc0 & Hs). rewrite Hc. cbn [mbind option_bind length] in *. destruct (Z.eqb_spec c 0); [done|].
    rewrite IH by (done || lia). f_equal. lia.
Qed.

(** [strcat] on strings that do not overlap, with room for the result: the
    destination holds the concatenation and nothing outside it is written. *)
Theorem strcat_correct m d p s1 s2 :
  str_at m d s1 -> str_at m p s2 -> (d + length s1 + length s2 < length m)%nat ->
  (d + length s1 + length s2 < p \/ p + length s2 < d)%nat ->
  exists r, strcat m d p = Some r /\ length r = length m /\ str_at r d (s1 ++ s2) /\
    forall i, (i < d \/ d + length s1 + length s2 < i)%nat -> r !! i = m !! i.
Proof.
  intros H1 H2 Hl Ho. unfold strcat. rewrite (str_end_spec _ _ _ _ H1) by lia. cbn [mbind option_bind].
  destruct (append_spec (length m) m (d + length s1) p s2) as (r & E & L & Hr & Hr'); [done|lia..|].
  exists r. split; [done|]. split; [done|]. split.
  - split; [rewrite elem_of_app; destruct H1, Hr; tauto|]. intros i x Hx. rewrite <- app_assoc in Hx.
    destruct (decide (i < length s1)%nat) as [Hi|Hi].
    + rewrite lookup_app_l in Hx by done. rewrite Hr' by lia. apply (proj2 H1). by rewrite lookup_app_l.
    + rewrite lookup_app_r in Hx by lia. rewrite <- (proj2 Hr _ x Hx). f_equal. lia.
  - intros i Hi. apply Hr'. lia.
Qed.

(** [strcpy] copies the string with its terminator. *)
Lemma strcpy_spec fuel m d p s :
  str_at m p s -> (length s < fuel)%nat -> (d + length s < length m)%nat -> (d + length s < p \/ p + length s < d)%nat ->
  exists r, strcpy fuel m d p = Some r /\ length r = length m /\ str_at r d s /\
    forall i, (i < d \/ d + length s < i)%nat -> r !! i = m !! i.
Proof.
  intros Hs Hf Hd Ho. destruct (append_spec fuel m d p s Hs Hf Hd Ho) as (r & E & Hr). exists r. split; [|done]. rewrite <- E. clear r E Hr.
  revert fuel m d p Hs Hf Hd Ho. induction s as [|c s IH]; intros fuel m d p Hs Hf Hd Ho; (destruct fuel as [|fuel]; [cbn in Hf; lia|]);
    cbn [append strcpy length] in *.
  - rewrite (str_at_nil _ _ Hs). cbn [mbind option_bind]. rewrite store_Some by lia. done.
  - apply str_at_cons in Hs as (Hc & Hc0 & Hs). rewrite Hc. cbn [mbind option_bind]. destruct (Z.eqb_spec c 0); [done|].
    rewrite store_Some by lia. cbn [mbind option_bind].
    apply IH; [apply str_at_insert; [lia|done]|lia|rewrite length_insert; lia|lia].
Qed.

(** *** [itoa] *)

Lemma digits_aux_app fuel b v acc : digits_aux fuel b v acc = digits_aux fuel b v [] ++ acc.
Proof.
  revert v acc. induction fuel as [|fuel IH]; intros v acc; cbn [digits_aux]; [done|]. destruct (v =? 0); [done|].
  rewrite IH, (IH _ [_]). by rewrite <- app_assoc.
Qed.

Lemma insert_middle m1 m2 (x c : Z) : <[length m1 := c]> (m1 ++ x :: m2) = m1 ++ c :: m2.
Proof. rewrite insert_app_r_alt by done. by rewrite Nat.sub_diag. Qed.

Lemma itoa_digits_spec fuel pre post u base :
  2 <= base -> 0 <= u < 2 ^ Z.of_nat fuel -> let l := digits_aux fuel base u [] in (length l <= length post)%nat ->
  itoa_digits (S fuel) (pre ++ post) (length pre) u base
  = Some (pre ++ (itoa_char <$> reverse l) ++ drop (length l) post, (length pre + length l)%nat).
Proof.
  intros Hb. revert pre post u. induction fuel as [|fuel IH]; intros pre post u Hu l Hl.
  - cbn in Hu. assert (u = 0) as -> by lia. cbn. by rewrite Nat.add_0_r, drop_0.
  - change (itoa_digits (S (S fuel)) (pre ++ post) (length pre) u base) with
      (if u =? 0 then Some (pre ++ post, length pre) else m' ← store (pre ++ post) (length pre) (itoa_char (u mod base)); itoa_digits (S fuel) m' (S (length pre)) (u / base) base).
    cbn [digits_aux] in l. subst l. destruct (Z.eqb_spec u 0) as [->|Hn]; [cbn; by rewrite Nat.add_0_r, drop_0|].
    rewrite digits_aux_app in Hl |- *. rewrite length_app in Hl. cbn [length] in Hl.
    destruct post as [|x post]; [cbn in Hl; lia|]. cbn [length] in Hl.
    rewrite store_Some by (rewrite length_app; cbn; lia). cbn [mbind option_bind]. rewrite insert_middle.
    rewrite Nat2Z.inj_succ, Z.pow_succ_r in Hu by lia.
    specialize (IH (pre ++ [itoa_char (u mod base)]) post (u / base)). rewrite length_app in IH. cbn [length] in IH.
    rewrite <- app_assoc in IH. cbn [app] in IH. replace (S (length pre)) with (length pre + 1)%nat by lia. rewrite IH.
    + rewrite reverse_app, length_app. cbn [length reverse rev_append app]. rewrite <- app_assoc. cbn [app].
      rewrite fmap_cons. replace (length (digits_aux fuel base (u / base) []) + 1)%nat with (S (length (digits_aux fuel base (u / base) []))) by lia.
      cbn [drop app]. f_equal. f_equal. lia.
    + split; [apply Z.div_pos; lia|]. apply Z.div_lt_upper_bound; nia.
    + lia.
Qed.

Lemma reverse_loop_spec fuel x l y :
  (length l < 2 * fuel)%nat ->
  reverse_loop fuel (x ++ l ++ y) (Z.of_nat (length x)) (Z.of_nat (length x) + Z.of_nat (length l) - 1) = Some (x ++ reverse l ++ y).
Proof.
  revert x l y. induction fuel as [|fuel IH]; intros x l y Hf; [lia|]. cbn [reverse_loop].
  destruct (Z.ltb_spec (Z.of_nat (length x)) (Z.of_nat (length x) + Z.of_nat (length l) - 1)) as [Hlt|Hge].
  - destruct l as [|a l]; [cbn in Hlt; lia|]. destruct l as [|b l _] using rev_ind; [cbn in Hlt; lia|].
    cbn [length] in *. rewrite length_app in *. cbn [length] in *. rewrite Nat2Z.id.
    replace (Z.to_nat (Z.of_nat (length x) + Z.of_nat (S (length l + 1)) - 1)) with (length (x ++ a :: l)) by (rewrite length_app; cbn; lia).
    replace (x ++ (a :: l ++ [b]) ++ y) with (x ++ a :: (l ++ b :: y)) by (cbn; by rewrite <- app_assoc).
    rewrite (list_lookup_middle x _ a _ eq_refl). cbn [mbind option_bind].
    replace (x ++ a :: l ++ b :: y) with ((x ++ a :: l) ++ b :: y) at 1 by (by rewrite <- app_assoc).
    rewrite (list_lookup_middle (x ++ a :: l) _ b _ eq_refl). cbn [mbind option_bind].
    rewrite store_Some by (rewrite !length_app; cbn; lia). cbn [mbind option_bind]. rewrite insert_middle.
    replace (x ++ b :: l ++ b :: y) with ((x ++ b :: l) ++ b :: y) by (by rewrite <- app_assoc).
    replace (length (x ++ a :: l)) with (length (x ++ b :: l)) by (by rewrite !length_app).
    rewrite store_Some by (rewrite !length_app; cbn; lia). cbn [mbind option_bind]. rewrite insert_middle.
    replace ((x ++ b :: l) ++ a :: y) with ((x ++ [b]) ++ l ++ (a :: y)) by (by rewrite <- !app_assoc).
    replace (Z.of_nat (length x) + 1) with (Z.of_nat (length (x ++ [b]))) by (rewrite length_app; cbn; lia).
    replace (Z.of_nat (length x) + Z.of_nat (S (length l + 1)) - 1 - 1) with (Z.of_nat (length (x ++ [b])) + Z.of_nat (length l) - 1)
      by (rewrite length_app; cbn; lia).
    rewrite IH by lia. rewrite reverse_cons, reverse_app. cbn [reverse rev_append app]. by rewrite <- !app_assoc.
  - f_equal. destruct l as [|a [|b l]]; [done|done|]. cbn in Hge. lia.
Qed.

(** The text of [itoa]: the digits of the number, in base 10 with its sign. *)
Definition itoa_text (num base : Z) : list Z :=
  let neg := (num <? 0) && (base =? 10) in
  (if neg then [45] else []) ++ (itoa_char <$> digits base (u32 (if neg then - num else num))).

(** [itoa] writes the digits of the number in the given base, most significant
    first, with a sign in base 10 and a terminator, and nothing after it. *)
Theorem itoa_correct num base m :
  -2147483648 <= num < 2147483648 -> 2 <= base -> (length (itoa_text num base) < length m)%nat ->
  itoa num base m = Some (itoa_text num base ++ 0 :: drop (S (length (itoa_text num base))) m).
Proof.
  intros Hn Hb Hl. unfold itoa, itoa_text in *. destruct (Z.eqb_spec num 0) as [->|H0].
  - change ((0 <? 0) && (base =? 10)) with false in *. cbn in Hl |- *. change (digits base (u32 0)) with [0] in *. cbn in Hl |- *.
    destruct m as [|a [|b m]]; [cbn in Hl; lia..|]. cbn. by rewrite drop_0.
  - cbv zeta. set (neg := (num <? 0) && (base =? 10)) in *. set (w := if neg then - num else num) in *.
    replace (if neg then u32 (- num) else u32 num) with (u32 w) by (unfold w; by destruct neg).
    assert (Hw : u32 w <> 0).
    { unfold w, neg, u32. destruct (Z.ltb_spec num 0); destruct (base =? 10); cbn [andb]; try (rewrite Z.mod_small; lia).
      replace num with (num + 4294967296 + (-1) * 4294967296) by lia. rewrite Z.mod_add by lia. rewrite Z.mod_small; lia. }
    pose proof (u32_range w) as Hr. unfold is_u32 in Hr. unfold digits in Hl |- *. destruct (Z.eqb_spec (u32 w) 0); [done|].
    rewrite length_app, length_fmap in Hl. pose proof (itoa_digits_spec 32 [] m (u32 w) base Hb) as E. cbv zeta in E. cbn [app length] in E.
    rewrite E; [|cbn; lia|lia]. clear E. cbn [mbind option_bind]. set (l := digits_aux 32 base (u32 w) []) in *.
    assert (Hl32 : (length l <= 32)%nat).
    { destruct (digits_aux_spec 32 base (u32 w) [] Hb) as (l0 & E & _ & _ & L & _); [cbn; lia|]. unfold l. by rewrite E, app_nil_r. }
    clearbody l. set (k := if neg then [45] else ([] : list Z)) in *. set (ds := itoa_char <$> l).
    assert (Eds : itoa_char <$> reverse l = reverse ds) by (unfold ds; by rewrite fmap_reverse).
    assert (Lds : length ds = length l) by apply length_fmap. rewrite Eds.
    assert (Hk : (if neg then m' ← store (reverse ds ++ drop (length l) m) (0 + length l) 45; Some (m', S (0 + length l))
       else Some (reverse ds ++ drop (length l) m, (0 + length l)%nat)) = Some ((reverse ds ++ k) ++ drop (length l + length k) m, (length l + length k)%nat)).
    { unfold k in *. destruct neg; cbn [length Nat.add app] in *.
      - destruct (drop (length l) m) as [|x r] eqn:Ed; [apply (f_equal length) in Ed; rewrite length_drop in Ed; cbn in Ed; lia|].
        rewrite store_Some by (rewrite length_app, length_reverse; cbn; lia). cbn [mbind option_bind].
        replace (length l) with (length (reverse ds)) at 1 by (by rewrite length_reverse). rewrite insert_middle, <- app_assoc. cbn [app].
        f_equal. f_equal; [|lia]. do 2 f_equal. rewrite <- drop_drop, Ed. done.
      - by rewrite !app_nil_r, !Nat.add_0_r. }
    rewrite Hk. cbn [mbind option_bind]. clear Hk.
    assert (Lk : (length (reverse ds ++ k) = length l + length k)%nat) by (rewrite length_app, length_reverse; lia).
    destruct (drop (length l + length k) m) as [|x r] eqn:Ed; [apply (f_equal length) in Ed; rewrite length_drop in Ed; cbn in Ed; lia|].
    rewrite store_Some by (rewrite length_app, Lk; cbn; lia). cbn [mbind option_bind]. rewrite <- Lk at 1. rewrite insert_middle.
    pose proof (reverse_loop_spec 34 [] (reverse ds ++ k) (0 :: r)) as E. cbn [app length] in E. rewrite Lk in E.
    change (Z.of_nat 0) with 0 in E. rewrite Z.add_0_l in E. rewrite E; [|unfold k; destruct neg; cbn; lia]. f_equal.
    rewrite reverse_app, reverse_involutive. replace (reverse k) with k by (unfold k; by destruct neg). f_equal. f_equal.
    rewrite length_app, Lds. replace (S (length k + length l))%nat with ((length l + length k) + 1)%nat by lia. rewrite <- drop_drop, Ed. done.
Qed.

Lemma itoa_correct_witness :
  itoa (-128) 10 [9; 9; 9; 9; 9; 7] = Some [45; 49; 50; 56; 0; 7] /\
  itoa (-128) 10 [9; 9; 9; 9; 9; 7] = Some (itoa_text (-128) 10 ++ 0 :: drop 5 [9; 9; 9; 9; 9; 7]).
Proof. split; [by vm_compute|]. apply (itoa_correct (-128) 10 [9; 9; 9; 9; 9; 7]); [lia|lia|vm_compute; lia]. Defined.
