(* ===== verification/Vsprintf.v ===== *)
(** * Formatted output ([lib/vsprintf.c])

    The format and the string arguments are the bytes of memory from a pointer
    on; reading past the given bytes, writing outside the buffer and an argument
    of the wrong kind give [None].  [size_t] is 32 bits wide. *)

From stdpp Require Import base tactics numbers list.
From Stdlib Require Import ZArith Lia.
From S2P Require Import Prelude Cstring.

(** ** The code *)

Record vsn_ctx : Type := Ctx { buf : option (list Z); size : Z; pos : Z; total : Z }.

Definition vsn_emit_ch (ctx : vsn_ctx) (c : Z) : option vsn_ctx :=
  match buf ctx with
  | Some m =>
      if (0 <? size ctx) && (pos ctx +w 1 <? size ctx)
      then m' ← store m (Z.to_nat (pos ctx)) c; Some (Ctx (Some m') (size ctx) (pos ctx +w 1) (total ctx +w 1))
      else Some (Ctx (Some m) (size ctx) (pos ctx) (total ctx +w 1))
  | None => Some (Ctx None (size ctx) (pos ctx) (total ctx +w 1))
  end.

(** ["(null)"] *)
Definition null_str : list Z := [40; 110; 117; 108; 108; 41; 0].

Fixpoint emit_str (ctx : vsn_ctx) (s : list Z) : option vsn_ctx :=
  match s with
  | [] => None
  | c :: s' => if c =? 0 then Some ctx else ctx' ← vsn_emit_ch ctx c; emit_str ctx' s'
  end.

Definition vsn_emit_str (ctx : vsn_ctx) (s : option (list Z)) : option vsn_ctx := emit_str ctx (default null_str s).

Definition vsn_strlen (s : option (list Z)) : option Z := match s with None => Some 6 | Some s => strlen s end.

Fixpoint emit_pad (ctx : vsn_ctx) (n : nat) (pad : Z) : option vsn_ctx :=
  match n with
  | O => Some ctx
  | S n' => ctx' ← vsn_emit_ch ctx pad; emit_pad ctx' n' pad
  end.

Definition vsn_emit_pad (ctx : vsn_ctx) (n pad : Z) : option vsn_ctx := emit_pad ctx (Z.to_nat n) pad.

(** The bytes [tmp[0]], ..., [tmp[len - 1]]; [tmp] has 16. *)
Fixpoint hex_tmp (fuel : nat) (v : Z) (upper : bool) : list Z :=
  match fuel with
  | O => []
  | S fuel' =>
      if v =? 0 then []
      else
        let d := Z.land v 15 in
        (if d <? 10 then 48 + d else (if upper then 65 else 97) + (d - 10)) :: hex_tmp fuel' (Z.shiftr v 4) upper
  end.

Fixpoint dec_tmp (fuel : nat) (v : Z) : list Z :=
  match fuel with
  | O => []
  | S fuel' => if v =? 0 then [] else (48 + v mod 10) :: dec_tmp fuel' (v / 10)
  end.

(** [for (int i = len - 1; i >= 0; i--)] *)
Fixpoint emit_tmp (ctx : vsn_ctx) (l : list Z) : option vsn_ctx :=
  match l with
  | [] => Some ctx
  | c :: l' => ctx' ← emit_tmp ctx l'; vsn_emit_ch ctx' c
  end.

Definition emit_number (ctx : vsn_ctx) (tmp : list Z) (width pad : Z) : option vsn_ctx :=
  let len := Z.of_nat (length tmp) in
  ctx1 ← (if len <? width then vsn_emit_pad ctx (width - len) pad else Some ctx);
  emit_tmp ctx1 tmp.

Definition vsn_emit_u32_hex (ctx : vsn_ctx) (v width : Z) (upper : bool) (pad : Z) : option vsn_ctx :=
  emit_number ctx (if v =? 0 then [48] else hex_tmp 16 v upper) width pad.

Definition vsn_emit_u32_dec (ctx : vsn_ctx) (v width pad : Z) : option vsn_ctx :=
  emit_number ctx (if v =? 0 then [48] else dec_tmp 16 v) width pad.

(** [while (t) { len++; t /= 10; }] *)
Fixpoint dec_len (fuel : nat) (t len : Z) : Z :=
  match fuel with
  | O => len
  | S fuel' => if t =? 0 then len else dec_len fuel' (t / 10) (len + 1)
  end.

(** [v] is an [int]; [-v] wraps for the least one. *)
Definition vsn_emit_s32_dec (ctx : vsn_ctx) (v width pad : Z) : option vsn_ctx :=
  if v <? 0 then
    let uv := u32 (- v) in
    if pad =? 48 then
      ctx1 ← vsn_emit_ch ctx 45;
      vsn_emit_u32_dec ctx1 uv (if 0 <? width then width - 1 else width) pad
    else
      let len := dec_len 11 uv (if uv =? 0 then 2 else 1) in
      ctx1 ← (if len <? width then vsn_emit_pad ctx (width - len) pad else Some ctx);
      ctx2 ← vsn_emit_ch ctx1 45;
      vsn_emit_u32_dec ctx2 uv 0 48
  else vsn_emit_u32_dec ctx (u32 v) width pad.

(** The next variadic argument: a 32-bit word or a string pointer. *)
Inductive arg : Type := AInt (v : Z) | AStr (s : option (list Z)).

Definition va_int (args : list arg) : option (Z * list arg) :=
  match args with AInt v :: r => Some (v, r) | _ => None end.
Definition va_str (args : list arg) : option (option (list Z) * list arg) :=
  match args with AStr s :: r => Some (s, r) | _ => None end.

Definition is_digit (c : Z) : bool := (48 <=? c) && (c <=? 57).

(** [while (format[i] >= '0' && format[i] <= '9')]; an [int] wraps. *)
Fixpoint parse_width (f : list Z) (width : Z) : option (Z * list Z) :=
  match f with
  | [] => None
  | c :: f' => if is_digit c then parse_width f' (s32 (width * 10 + (c - 48))) else Some (width, f)
  end.

(** The [switch]. *)
Definition convert (ctx : vsn_ctx) (spec width pad : Z) (args : list arg) : option (vsn_ctx * list arg) :=
  if spec =? 100 then '(v, args) ← va_int args; c ← vsn_emit_s32_dec ctx (s32 v) width pad; Some (c, args)
  else if spec =? 117 then '(v, args) ← va_int args; c ← vsn_emit_u32_dec ctx v width pad; Some (c, args)
  else if spec =? 120 then '(v, args) ← va_int args; c ← vsn_emit_u32_hex ctx v width false pad; Some (c, args)
  else if spec =? 88 then '(v, args) ← va_int args; c ← vsn_emit_u32_hex ctx v width true pad; Some (c, args)
  else if spec =? 112 then
    '(v, args) ← va_int args;
    c1 ← vsn_emit_str ctx (Some [48; 120; 0]);
    c ← vsn_emit_u32_hex c1 v (if 0 <? width then width else 8) false 48; Some (c, args)
  else if spec =? 99 then '(v, args) ← va_int args; c ← vsn_emit_ch ctx (v mod 256); Some (c, args)
  else if spec =? 115 then
    '(s, args) ← va_str args;
    slen ← vsn_strlen s;
    c1 ← (if slen <? width then vsn_emit_pad ctx (width - slen) pad else Some ctx);
    c ← vsn_emit_str c1 s; Some (c, args)
  else c1 ← vsn_emit_ch ctx 37; c ← vsn_emit_ch c1 spec; Some (c, args).

(** The loop over the format: [f] is the format from index [i] on.  Each round
    consumes at least a byte. *)
Fixpoint format_loop (fuel : nat) (ctx : vsn_ctx) (f : list Z) (args : list arg) : option vsn_ctx :=
  match fuel with
  | O => None
  | S fuel' =>
      match f with
      | [] => None
      | c :: f1 =>
          if c =? 0 then Some ctx
          else if negb (c =? 37) then ctx' ← vsn_emit_ch ctx c; format_loop fuel' ctx' f1 args
          else
            match f1 with
            | [] => None
            | c1 :: f2 =>
                if c1 =? 0 then Some ctx
                else if c1 =? 37 then ctx' ← vsn_emit_ch ctx 37; format_loop fuel' ctx' f2 args
                else
                  let '(pad, f3) := if c1 =? 48 then (48, f2) else (32, f1) in
                  '(width, f4) ← parse_width f3 0;
                  c4 ← head f4;
                  let f5 := if c4 =? 108 then tail f4 else f4 in
                  spec ← head f5;
                  '(ctx', args') ← convert ctx spec width pad args;
                  format_loop fuel' ctx' (tail f5) args'
            end
      end
  end.

(** The printk priority is skipped. *)
Definition skip_priority (f : list Z) : option (list Z) :=
  c0 ← f !! 0%nat;
  if negb (c0 =? 60) then Some f else
  c1 ← f !! 1%nat;
  if negb ((48 <=? c1) && (c1 <=? 55)) then Some f else
  c2 ← f !! 2%nat;
  if negb (c2 =? 62) then Some f else Some (drop 3 f).

Definition vsnprintf (b : option (list Z)) (sz : Z) (format : option (list Z)) (args : list arg) : option (Z * option (list Z)) :=
  match format with
  | None =>
      match b with
      | Some m => if 0 <? sz then m' ← store m 0 0; Some (0, Some m') else Some (0, b)
      | None => Some (0, None)
      end
  | Some f =>
      f1 ← skip_priority f;
      ctx ← format_loop (length f1) (Ctx b sz 0 0) f1 args;
      match buf ctx with
      | Some m =>
          if 0 <? sz then
            m' ← store m (Z.to_nat (if pos ctx <? sz then pos ctx else sz - 1)) 0; Some (s32 (total ctx), Some m')
          else Some (s32 (total ctx), Some m)
      | None => Some (s32 (total ctx), None)
      end
  end.

(** ** Reference: what a format means *)

Inductive conv : Type := Cd | Cu | Cx | CX | Cp | Cc | Cs.
Inductive item : Type := Lit (c : Z) | Percent | Conv (zero : bool) (width : Z) (long : bool) (c : conv).

Definition conv_char (c : conv) : Z :=
  match c with Cd => 100 | Cu => 117 | Cx => 120 | CX => 88 | Cp => 112 | Cc => 99 | Cs => 115 end.

(** The bytes of an item in a format. *)
Definition item_bytes (i : item) : list Z :=
  match i with
  | Lit c => [c]
  | Percent => [37; 37]
  | Conv zero w long c =>
      37 :: (if zero then [48] else []) ++ (if w =? 0 then [] else Z.add 48 <$> digits 10 w) ++
      (if long then [108] else []) ++ [conv_char c]
  end.

Definition item_ok (i : item) : Prop :=
  match i with
  | Lit c => c <> 0 /\ c <> 37
  | Percent => True
  | Conv _ w _ _ => 0 <= w < 2147483648
  end.

Definition dec_text (v : Z) : list Z := Z.add 48 <$> digits 10 v.
Definition hex_char (upper : bool) (d : Z) : Z := if d <? 10 then 48 + d else (if upper then 65 else 97) + (d - 10).
Definition hex_text (upper : bool) (v : Z) : list Z := hex_char upper <$> digits 16 v.

(** Right-justified in a field. *)
Definition justify (w pad : Z) (t : list Z) : list Z := replicate (Z.to_nat (w - Z.of_nat (length t))) pad ++ t.

Fixpoint cstring (s : list Z) : option (list Z) :=
  match s with
  | [] => None
  | c :: s' => if c =? 0 then Some [] else t ← cstring s'; Some (c :: t)
  end.

Definition render_conv (zero : bool) (w : Z) (c : conv) (a : arg) : option (list Z) :=
  let pad := if zero then 48 else 32 in
  match c, a with
  | Cd, AInt v =>
      let v := s32 v in
      Some (if v <? 0
            then if zero then 45 :: justify (w - 1) 48 (dec_text (- v)) else justify w 32 (45 :: dec_text (- v))
            else justify w pad (dec_text v))
  | Cu, AInt v => Some (justify w pad (dec_text v))
  | Cx, AInt v => Some (justify w pad (hex_text false v))
  | CX, AInt v => Some (justify w pad (hex_text true v))
  | Cp, AInt v => Some ([48; 120] ++ justify (if 0 <? w then w else 8) 48 (hex_text false v))
  | Cc, AInt v => Some [v mod 256]
  | Cs, AStr s => t ← cstring (default null_str s); Some (justify w pad t)
  | _, _ => None
  end.

Fixpoint render (l : list item) (args : list arg) : option (list Z) :=
  match l with
  | [] => Some []
  | Lit c :: l' => t ← render l' args; Some (c :: t)
  | Percent :: l' => t ← render l' args; Some (37 :: t)
  | Conv zero w _ c :: l' =>
      match args with
      | [] => None
      | a :: args' => t1 ← render_conv zero w c a; t ← render l' args'; Some (t1 ++ t)
      end
  end.

Definition arg_ok (a : arg) : Prop := match a with AInt v => is_u32 v | AStr _ => True end.

(** ** The output functions emit lists of bytes *)

Fixpoint emit_list (ctx : vsn_ctx) (l : list Z) : option vsn_ctx :=
  match l with
  | [] => Some ctx
  | c :: l' => ctx' ← vsn_emit_ch ctx c; emit_list ctx' l'
  end.

Lemma emit_list_app ctx l1 l2 : emit_list ctx (l1 ++ l2) = ctx' ← emit_list ctx l1; emit_list ctx' l2.
Proof.
  revert ctx. induction l1 as [|c l1 IH]; intros ctx; cbn; [done|]. destruct (vsn_emit_ch ctx c); cbn; [apply IH|done].
Qed.

Lemma emit_one ctx c : emit_list ctx [c] = vsn_emit_ch ctx c.
Proof. cbn. by destruct (vsn_emit_ch ctx c). Qed.

Lemma emit_str_list ctx s t : cstring s = Some t -> emit_str ctx s = emit_list ctx t.
Proof.
  revert ctx t. induction s as [|c s IH]; intros ctx t H; cbn in H; [done|]. cbn [emit_str]. destruct (c =? 0).
  - by injection H as <-.
  - destruct (cstring s) as [t'|]; cbn in H; [|done]. injection H as <-. cbn. destruct (vsn_emit_ch ctx c); cbn; [by apply IH|done].
Qed.

Lemma strlen_cstring s t : cstring s = Some t -> strlen s = Some (Z.of_nat (length t)).
Proof.
  revert t. induction s as [|c s IH]; intros t H; cbn in H |- *; [done|]. destruct (c =? 0).
  - by injection H as <-.
  - destruct (cstring s) as [t'|]; cbn in H; [|done]. injection H as <-. rewrite (IH t' eq_refl). cbn. f_equal. lia.
Qed.

Lemma emit_pad_list ctx n pad : emit_pad ctx n pad = emit_list ctx (replicate n pad).
Proof. revert ctx. induction n as [|n IH]; intros ctx; cbn; [done|]. destruct (vsn_emit_ch ctx pad); cbn; [apply IH|done]. Qed.

Lemma emit_tmp_list ctx l : emit_tmp ctx l = emit_list ctx (reverse l).
Proof.
  revert ctx. induction l as [|c l IH]; intros ctx; cbn [emit_tmp]; [done|]. rewrite IH, reverse_cons, emit_list_app.
  destruct (emit_list ctx (reverse l)); cbn [mbind option_bind]; [by rewrite emit_one|done].
Qed.

Lemma pad_list ctx len width pad :
  0 <= len -> (if len <? width then vsn_emit_pad ctx (width - len) pad else Some ctx) = emit_list ctx (replicate (Z.to_nat (width - len)) pad).
Proof.
  intros Hl. destruct (Z.ltb_spec len width); [apply emit_pad_list|]. by replace (Z.to_nat (width - len)) with 0%nat by lia.
Qed.

Lemma emit_number_list ctx tmp width pad : emit_number ctx tmp width pad = emit_list ctx (justify width pad (reverse tmp)).
Proof.
  unfold emit_number, justify. rewrite pad_list by lia. rewrite emit_list_app, length_reverse.
  destruct (emit_list ctx _); cbn [mbind option_bind]; [apply emit_tmp_list|done].
Qed.

(** *** Numbers *)

Lemma digits_aux_fuel f f' b v acc : 2 <= b -> 0 <= v < b ^ Z.of_nat f -> (f <= f')%nat -> digits_aux f b v acc = digits_aux f' b v acc.
Proof.
  intros Hb. revert f' v acc. induction f as [|f IH]; intros f' v acc Hv Hf.
  - cbn in Hv. assert (v = 0) as -> by lia. by destruct f'.
  - destruct f' as [|f']; [lia|]. cbn [digits_aux]. destruct (v =? 0); [done|]. rewrite Nat2Z.inj_succ, Z.pow_succ_r in Hv by lia.
    apply IH; [|lia]. split; [apply Z.div_pos; lia|apply Z.div_lt_upper_bound; lia].
Qed.

Lemma dec_tmp_digits f v : dec_tmp f v = Z.add 48 <$> reverse (digits_aux f 10 v []).
Proof.
  revert v. induction f as [|f IH]; intros v; cbn [dec_tmp digits_aux]; [done|]. destruct (v =? 0); [done|].
  rewrite digits_aux_app, reverse_app, IH. done.
Qed.

Lemma hex_tmp_digits f v upper : hex_tmp f v upper = hex_char upper <$> reverse (digits_aux f 16 v []).
Proof.
  revert v. induction f as [|f IH]; intros v; cbn [hex_tmp digits_aux]; [done|]. destruct (v =? 0); [done|].
  rewrite digits_aux_app, reverse_app, IH. change 15 with (Z.ones 4). rewrite Z.land_ones, Z.shiftr_div_pow2 by lia. done.
Qed.

Lemma u32_dec_list ctx v width pad : is_u32 v -> vsn_emit_u32_dec ctx v width pad = emit_list ctx (justify width pad (dec_text v)).
Proof.
  intros Hv. unfold vsn_emit_u32_dec. rewrite emit_number_list. do 2 f_equal. unfold dec_text, digits.
  destruct (v =? 0); [done|]. rewrite dec_tmp_digits, <- fmap_reverse, reverse_involutive. f_equal.
  apply digits_aux_fuel; [lia| |lia]. unfold is_u32 in Hv. cbn. lia.
Qed.

Lemma u32_hex_list ctx v width upper pad :
  is_u32 v -> vsn_emit_u32_hex ctx v width upper pad = emit_list ctx (justify width pad (hex_text upper v)).
Proof.
  intros Hv. unfold vsn_emit_u32_hex. rewrite emit_number_list. do 2 f_equal. unfold hex_text, digits.
  destruct (v =? 0); [done|]. rewrite hex_tmp_digits, <- fmap_reverse, reverse_involutive. f_equal.
  apply digits_aux_fuel; [lia| |lia]. unfold is_u32 in Hv. cbn. lia.
Qed.

Lemma dec_len_digits f v n : dec_len f v n = n + Z.of_nat (length (digits_aux f 10 v [])).
Proof.
  revert v n. induction f as [|f IH]; intros v n; cbn [dec_len digits_aux]; [cbn; lia|]. destruct (v =? 0); [cbn; lia|].
  rewrite IH, (digits_aux_app f 10 (v / 10) [_]), length_app. cbn [length]. lia.
Qed.

Lemma s32_range v : -2147483648 <= s32 v < 2147483648.
Proof. unfold s32. pose proof (u32_range v) as H. unfold is_u32 in H. destruct (Z.ltb_spec (u32 v) 2147483648); lia. Qed.

Lemma s32_dec_list ctx v width (zero : bool) :
  -2147483648 <= v < 2147483648 -> 0 <= width ->
  vsn_emit_s32_dec ctx v width (if zero then 48 else 32) =
  emit_list ctx (if v <? 0
    then if zero then 45 :: justify (width - 1) 48 (dec_text (- v)) else justify width 32 (45 :: dec_text (- v))
    else justify width (if zero then 48 else 32) (dec_text v)).
Proof.
  intros Hv Hw. unfold vsn_emit_s32_dec. destruct (Z.ltb_spec v 0) as [Hn|Hp].
  - rewrite (u32_id (- v)) by (unfold is_u32; lia). destruct zero; cbn [Z.eqb Pos.eqb].
    + cbn [emit_list]. destruct (vsn_emit_ch ctx 45) as [c1|]; cbn [mbind option_bind]; [|done].
      rewrite u32_dec_list by (unfold is_u32; lia). f_equal. unfold justify. f_equal. f_equal. destruct (Z.ltb_spec 0 width); lia.
    + destruct (Z.eqb_spec (- v) 0); [lia|]. rewrite dec_len_digits, pad_list by lia. unfold justify.
      rewrite emit_list_app. assert (El : 1 + Z.of_nat (length (digits_aux 11 10 (- v) [])) = Z.of_nat (length (45 :: dec_text (- v)))).
      { cbn [length]. unfold dec_text, digits. destruct (Z.eqb_spec (- v) 0); [done|]. rewrite length_fmap.
        rewrite <- (digits_aux_fuel 11 32 10 (- v) []); [lia|lia|change (10 ^ Z.of_nat 11) with 100000000000; lia|lia]. }
      rewrite El. destruct (emit_list ctx (replicate _ 32)) as [c1|]; cbn [mbind option_bind]; [|done]. cbn [emit_list].
      destruct (vsn_emit_ch c1 45) as [c2|]; cbn [mbind option_bind]; [|done].
      rewrite u32_dec_list by (unfold is_u32; lia). f_equal. unfold justify. by replace (Z.to_nat (0 - _)) with 0%nat by lia.
  - rewrite u32_id by (unfold is_u32; lia). rewrite u32_dec_list by (unfold is_u32; lia). done.
Qed.

(** *** Conversions *)

Lemma null_cstring : cstring null_str = Some [40; 110; 117; 108; 108; 41].
Proof. done. Qed.

Lemma convert_list ctx zero w c a args t :
  arg_ok a -> 0 <= w -> render_conv zero w c a = Some t ->
  convert ctx (conv_char c) w (if zero then 48 else 32) (a :: args) = ctx' ← emit_list ctx t; Some (ctx', args).
Proof.
  intros Ha Hw Hr. destruct c, a as [v|s]; cbn [render_conv] in Hr; try done.
  - injection Hr as <-. change (convert ctx (conv_char Cd) w (if zero then 48 else 32) (AInt v :: args)) with
      (c ← vsn_emit_s32_dec ctx (s32 v) w (if zero then 48 else 32); Some (c, args)). by rewrite s32_dec_list by (apply s32_range || done).
  - injection Hr as <-. change (convert ctx (conv_char Cu) w (if zero then 48 else 32) (AInt v :: args)) with
      (c ← vsn_emit_u32_dec ctx v w (if zero then 48 else 32); Some (c, args)). by rewrite u32_dec_list.
  - injection Hr as <-. change (convert ctx (conv_char Cx) w (if zero then 48 else 32) (AInt v :: args)) with
      (c ← vsn_emit_u32_hex ctx v w false (if zero then 48 else 32); Some (c, args)). by rewrite u32_hex_list.
  - injection Hr as <-. change (convert ctx (conv_char CX) w (if zero then 48 else 32) (AInt v :: args)) with
      (c ← vsn_emit_u32_hex ctx v w true (if zero then 48 else 32); Some (c, args)). by rewrite u32_hex_list.
  - injection Hr as <-. change (convert ctx (conv_char Cp) w (if zero then 48 else 32) (AInt v :: args)) with
      (c1 ← vsn_emit_str ctx (Some [48; 120; 0]); c ← vsn_emit_u32_hex c1 v (if 0 <? w then w else 8) false 48; Some (c, args)).
    change (vsn_emit_str ctx (Some [48; 120; 0])) with (emit_str ctx [48; 120; 0]). rewrite (emit_str_list ctx [48; 120; 0] [48; 120]) by done.
    change (48 :: 120 :: justify ?a ?b ?c) with ([48; 120] ++ justify a b c). rewrite emit_list_app.
    destruct (emit_list ctx [48; 120]) as [c1|]; cbn [mbind option_bind]; [|done]. by rewrite u32_hex_list.
  - injection Hr as <-. change (convert ctx (conv_char Cc) w (if zero then 48 else 32) (AInt v :: args)) with
      (c ← vsn_emit_ch ctx (v mod 256); Some (c, args)). by rewrite emit_one.
  - change (convert ctx (conv_char Cs) w (if zero then 48 else 32) (AStr s :: args)) with
      (slen ← vsn_strlen s; c1 ← (if slen <? w then vsn_emit_pad ctx (w - slen) (if zero then 48 else 32) else Some ctx);
       c ← vsn_emit_str c1 s; Some (c, args)).
    destruct (cstring (default null_str s)) as [t0|] eqn:Es; cbn [mbind option_bind] in Hr; [|done]. injection Hr as <-.
    assert (El : vsn_strlen s = Some (Z.of_nat (length t0))).
    { destruct s as [s|]; cbn [vsn_strlen]; [by apply strlen_cstring|]. change (cstring null_str = Some t0) in Es. rewrite null_cstring in Es. by injection Es as <-. }
    rewrite El. cbn [mbind option_bind]. rewrite pad_list by lia. unfold justify. rewrite emit_list_app.
    destruct (emit_list ctx (replicate _ _)) as [c1|]; cbn [mbind option_bind]; [|done].
    unfold vsn_emit_str. by rewrite (emit_str_list c1 _ t0 Es).
Qed.

(** *** The field width *)

Lemma s32_id v : -2147483648 <= v < 2147483648 -> s32 v = v.
Proof.
  intros H. unfold s32, u32. destruct (Z.ltb_spec (v mod 4294967296) 2147483648) as [Hl|Hl].
  - destruct (Z_lt_le_dec v 0); [|by rewrite Z.mod_small in Hl |- * by lia].
    replace v with (v + 4294967296 + (-1) * 4294967296) in Hl at 1 by lia. rewrite Z.mod_add, Z.mod_small in Hl by lia. lia.
  - destruct (Z_lt_le_dec v 0); [|rewrite Z.mod_small in Hl by lia; lia].
    replace (v mod 4294967296) with (v + 4294967296); [lia|].
    replace v with (v + 4294967296 + (-1) * 4294967296) at 2 by lia. rewrite Z.mod_add, Z.mod_small by lia. lia.
Qed.

Lemma value_ge l a : 0 <= a -> Forall (fun x => 0 <= x < 10) l -> a <= fold_left (fun a x => a * 10 + x) l a.
Proof.
  revert a. induction l as [|x l IH]; intros a Ha Hl; cbn; [lia|]. apply Forall_cons in Hl as [Hx Hl].
  specialize (IH (a * 10 + x) ltac:(lia) Hl). lia.
Qed.

Lemma parse_width_digits l r a :
  0 <= a -> Forall (fun x => 0 <= x < 10) l -> fold_left (fun a x => a * 10 + x) l a < 2147483648 ->
  (forall c r', r = c :: r' -> is_digit c = false) -> r <> [] ->
  parse_width ((Z.add 48 <$> l) ++ r) a = Some (fold_left (fun a x => a * 10 + x) l a, r).
Proof.
  revert a. induction l as [|x l IH]; intros a Ha Hl Hv Hr Hn; cbn [fmap list_fmap app].
  - destruct r as [|c r]; [done|]. cbn. by rewrite (Hr c r eq_refl).
  - apply Forall_cons in Hl as [Hx Hl]. cbn [parse_width]. unfold is_digit.
    destruct (Z.leb_spec 48 (48 + x)); [|lia]. destruct (Z.leb_spec (48 + x) 57); [|lia]. cbn [andb fold_left] in *.
    replace (48 + x - 48) with x by lia. pose proof (value_ge l (a * 10 + x) ltac:(lia) Hl).
    rewrite s32_id by lia. apply IH; try done. lia.
Qed.

(** *** The buffer *)

(** The state after the bytes [t]: the buffer holds as many of them as leave room
    for the terminator, [total] counts all. *)
Definition after (m : list Z) (sz : Z) (t : list Z) : vsn_ctx :=
  let n := Z.to_nat (sz - 1) in
  Ctx (Some (take n t ++ drop (n `min` length t) m)) sz (Z.of_nat (n `min` length t)) (u32 (Z.of_nat (length t))).

Lemma u32_succ n : u32 n +w 1 = u32 (n + 1).
Proof. unfold add32, u32. by rewrite Zplus_mod_idemp_l. Qed.

Lemma emit_after m sz t c :
  0 <= sz < 4294967296 -> (Z.to_nat sz <= length m)%nat -> vsn_emit_ch (after m sz t) c = Some (after m sz (t ++ [c])).
Proof.
  intros Hs Hm. unfold vsn_emit_ch, after. cbn [buf size pos total]. set (n := Z.to_nat (sz - 1)).
  rewrite u32_succ. rewrite !length_app. cbn [length].
  replace (Z.of_nat (length t) + 1) with (Z.of_nat (length t + 1)) by lia.
  destruct (decide (length t < n)%nat) as [Hlt|Hge].
  - rewrite !Nat.min_r by lia. destruct (Z.ltb_spec 0 sz); [|lia]. rewrite add32_id by lia.
    destruct (Z.ltb_spec (Z.of_nat (length t) + 1) sz); [|lia]. cbn [andb]. rewrite !take_ge by (rewrite ?length_app; cbn; lia).
    destruct (drop (length t) m) as [|x r] eqn:Ed; [apply (f_equal length) in Ed; rewrite length_drop in Ed; cbn in Ed; lia|].
    rewrite Nat2Z.id, store_Some by (rewrite length_app; cbn; lia). cbn [mbind option_bind]. rewrite insert_middle.
    f_equal. f_equal; [|lia]. f_equal. rewrite <- app_assoc. cbn [app]. do 2 f_equal. rewrite <- drop_drop, Ed. done.
  - rewrite !Nat.min_l by lia. replace ((0 <? sz) && (Z.of_nat n +w 1 <? sz)) with false.
    + rewrite take_app_le by lia. done.
    + destruct (Z.ltb_spec 0 sz); [|done]. rewrite add32_id by lia. destruct (Z.ltb_spec (Z.of_nat n + 1) sz); [lia|done].
Qed.

Lemma emit_list_after m sz t l :
  0 <= sz < 4294967296 -> (Z.to_nat sz <= length m)%nat -> emit_list (after m sz t) l = Some (after m sz (t ++ l)).
Proof.
  intros Hs Hm. revert t. induction l as [|c l IH]; intros t; cbn [emit_list]; [by rewrite app_nil_r|].
  rewrite emit_after by done. cbn [mbind option_bind]. rewrite IH, <- app_assoc. done.
Qed.

(** *** The loop *)

Definition format_bytes (l : list item) : list Z := concat (item_bytes <$> l).

Lemma conv_char_ok c : conv_char c <> 0 /\ conv_char c <> 37 /\ conv_char c <> 48 /\ conv_char c <> 108 /\ is_digit (conv_char c) = false.
Proof. by destruct c. Qed.

Lemma width_digits w : 0 <= w < 2147483648 ->
  let wd := if w =? 0 then [] else Z.add 48 <$> digits 10 w in
  (wd = [] \/ exists x r, wd = (48 + x) :: r /\ 0 < x < 10) /\
  forall r, r <> [] -> (forall c r', r = c :: r' -> is_digit c = false) -> parse_width (wd ++ r) 0 = Some (w, r).
Proof.
  intros Hw wd. unfold wd. destruct (Z.eqb_spec w 0) as [->|Hn].
  - split; [by left|]. intros r Hr Hd. destruct r as [|c r]; [done|]. cbn. by rewrite (Hd c r eq_refl).
  - destruct (digits_spec 10 w) as (V & F & _ & N & _); [lia|unfold is_u32; lia|]. split.
    + destruct (N Hn) as (x & l & E & Hx). rewrite E in F |- *. apply Forall_cons in F as [Fx _]. right. exists x, (Z.add 48 <$> l). split; [done|lia].
    + intros r Hr Hd. unfold value in V. rewrite parse_width_digits; [by rewrite V|lia|done|lia|done|done].
Qed.

(** One conversion of the loop. *)
Lemma loop_conv fuel ctx zero w (long : bool) c rest args :
  0 <= w < 2147483648 ->
  format_loop (S fuel) ctx (item_bytes (Conv zero w long c) ++ rest) args =
  '(ctx', args') ← convert ctx (conv_char c) w (if zero then 48 else 32) args; format_loop fuel ctx' rest args'.
Proof.
  intros Hw. destruct (conv_char_ok c) as (C0 & C37 & C48 & C108 & Cd). destruct (width_digits w Hw) as [Hhd Hpw].
  set (wd := if w =? 0 then [] else Z.add 48 <$> digits 10 w) in *.
  set (tl := (if long then [108] else []) ++ conv_char c :: rest).
  assert (Htl : tl <> [] /\ forall x r, tl = x :: r -> is_digit x = false /\ x <> 0 /\ x <> 37 /\ x <> 48).
  { unfold tl. destruct long; cbn; split; try done; intros x r [= <- <-]; done. }
  destruct Htl as [Htl1 Htl2].
  assert (Eb : item_bytes (Conv zero w long c) ++ rest = 37 :: (if zero then [48] else []) ++ wd ++ tl).
  { unfold tl. cbn [item_bytes app]. fold wd. rewrite <- !app_assoc. done. }
  rewrite Eb. cbn [format_loop].
  assert (Hf1 : exists c1 f2, (if zero then [48] else []) ++ wd ++ tl = c1 :: f2 /\ c1 <> 0 /\ c1 <> 37 /\
    (if c1 =? 48 then (48, f2) else (32, c1 :: f2)) = (if zero then 48 else 32, wd ++ tl)).
  { destruct zero; cbn [app]; [by exists 48, (wd ++ tl)|]. destruct Hhd as [->|(x & r & -> & Hx)]; cbn [app].
    - destruct tl as [|c1 f2]; [done|]. destruct (Htl2 c1 f2 eq_refl) as (_ & ? & ? & ?). exists c1, f2. split_and!; try done.
      by destruct (Z.eqb_spec c1 48).
    - exists (48 + x), (r ++ tl). split_and!; try done; try lia. by destruct (Z.eqb_spec (48 + x) 48); [lia|]. }
  destruct Hf1 as (c1 & f2 & -> & N0 & N37 & Epad). change (37 =? 0) with false. change (negb (37 =? 37)) with false. cbv iota.
  destruct (Z.eqb_spec c1 0); [done|]. destruct (Z.eqb_spec c1 37); [done|]. rewrite Epad.
  rewrite (Hpw tl Htl1) by (intros x r E; by destruct (Htl2 x r E)). cbn [mbind option_bind].
  assert (Hsp : exists c4, head tl = Some c4 /\ (if c4 =? 108 then tail tl else tl) = conv_char c :: rest).
  { unfold tl. destruct long; cbn [app head tail]; [by exists 108|]. exists (conv_char c). split; [done|]. by destruct (Z.eqb_spec (conv_char c) 108). }
  destruct Hsp as (c4 & -> & E5). cbn [mbind option_bind]. rewrite E5. cbn [head tail mbind option_bind]. done.
Qed.

Lemma loop_items fuel ctx items junk args t :
  Forall item_ok items -> Forall arg_ok args -> render items args = Some t -> (length (format_bytes items) < fuel)%nat ->
  format_loop fuel ctx (format_bytes items ++ 0 :: junk) args = emit_list ctx t.
Proof.
  revert fuel ctx args t. induction items as [|i items IH]; intros fuel ctx args t Hi Ha Hr Hf; (destruct fuel as [|fuel]; [lia|]).
  { cbn in Hr. injection Hr as <-. done. }
  apply Forall_cons in Hi as [Hi His]. unfold format_bytes in *. rewrite fmap_cons in *. cbn [concat] in *. rewrite length_app in Hf. rewrite <- app_assoc.
  set (rest := concat (item_bytes <$> items)) in *. destruct i as [c| |zero w long c]; cbn [render] in Hr.
  - destruct Hi as [H0 H37]. destruct (render items args) as [t'|] eqn:Er; cbn in Hr; [|done]. injection Hr as <-.
    cbn [item_bytes app format_loop]. destruct (Z.eqb_spec c 0); [done|]. destruct (Z.eqb_spec c 37); [done|]. cbn [negb emit_list].
    destruct (vsn_emit_ch ctx c); cbn [mbind option_bind]; [|done]. apply IH; try done. cbn in Hf. lia.
  - destruct (render items args) as [t'|] eqn:Er; cbn in Hr; [|done]. injection Hr as <-. cbn [item_bytes app format_loop emit_list].
    change (37 =? 0) with false. change (negb (37 =? 37)) with false. change (37 =? 37) with true. cbv iota.
    destruct (vsn_emit_ch ctx 37); cbn [mbind option_bind]; [|done]. apply IH; try done. cbn in Hf. lia.
  - destruct args as [|a args]; [done|]. apply Forall_cons in Ha as [Ha Has].
    destruct (render_conv zero w c a) as [t1|] eqn:Ec; cbn in Hr; [|done]. destruct (render items args) as [t2|] eqn:Er; cbn in Hr; [|done].
    injection Hr as <-. rewrite loop_conv by done. rewrite (convert_list ctx zero w c a args t1 Ha (proj1 Hi) Ec), emit_list_app.
    destruct (emit_list ctx t1) as [c1|]; cbn [mbind option_bind]; [|done]. apply IH; try done. cbn [item_bytes length] in Hf. lia.
Qed.

(** A format that begins with a printk priority [<n>] means the rest of it. *)
Definition strip_priority (items : list item) : list item :=
  match items with
  | Lit a :: Lit n :: Lit b :: rest => if (a =? 60) && ((48 <=? n) && (n <=? 55)) && (b =? 62) then rest else items
  | _ => items
  end.

Lemma skip_priority_items items junk :
  Forall item_ok items -> skip_priority (format_bytes items ++ 0 :: junk) = Some (format_bytes (strip_priority items) ++ 0 :: junk).
Proof.
  intros Hi. unfold skip_priority. destruct items as [|[a| |] items]; [done| |done|done]. cbn [format_bytes fmap list_fmap concat item_bytes app lookup list_lookup mbind option_bind].
  assert (Hst : a <> 60 -> strip_priority (Lit a :: items) = Lit a :: items).
  { intros Ha. unfold strip_priority. destruct items as [|[| |] [|[| |] ?]]; try done. by destruct (Z.eqb_spec a 60). }
  destruct (Z.eqb_spec a 60) as [->|Ha]; cbn [negb]; [clear Hst|by rewrite Hst].
  destruct items as [|[n| |] items]; [done| |done|done]. cbn [format_bytes fmap list_fmap concat item_bytes app lookup list_lookup mbind option_bind].
  destruct ((48 <=? n) && (n <=? 55)) eqn:En; cbn [negb].
  2:{ unfold strip_priority. destruct items as [|[| |] ?]; try done. by rewrite En. }
  destruct items as [|[b| |] items]; [done| |done|done]. cbn [format_bytes fmap list_fmap concat item_bytes app lookup list_lookup mbind option_bind strip_priority].
  rewrite En. cbn [Z.eqb Pos.eqb andb]. destruct (Z.eqb_spec b 62); [reflexivity|done].
Qed.

Lemma strip_priority_ok items : Forall item_ok items -> Forall item_ok (strip_priority items).
Proof.
  intros H. unfold strip_priority. destruct items as [|[a| |] [|[n| |] [|[b| |] l]]]; try done. destruct (_ && _); [|done].
  by do 3 apply Forall_cons in H as [_ H].
Qed.

Lemma vsnprintf_lemma m sz items junk args t :
  0 <= sz < 4294967296 -> (Z.to_nat sz <= length m)%nat ->
  Forall item_ok items -> Forall arg_ok args -> render (strip_priority items) args = Some t ->
  vsnprintf (Some m) sz (Some (format_bytes items ++ 0 :: junk)) args =
  Some (s32 (Z.of_nat (length t)),
    Some (if sz =? 0 then m else take (Z.to_nat (sz - 1)) t ++ 0 :: drop (S (Z.to_nat (sz - 1) `min` length t)) m)).
Proof.
  intros Hs Hm Hi Ha Hr. unfold vsnprintf. rewrite skip_priority_items by done. cbn [mbind option_bind]. apply strip_priority_ok in Hi.
  rewrite (loop_items _ _ (strip_priority items) junk args t) by (done || (rewrite length_app; cbn; lia)).
  assert (E0 : Ctx (Some m) sz 0 0 = after m sz []) by (unfold after; by rewrite firstn_nil, Nat.min_0_r, drop_0).
  rewrite E0, emit_list_after by done. cbn [app mbind option_bind]. unfold after. cbn [buf pos total].
  assert (Es : s32 (u32 (Z.of_nat (length t))) = s32 (Z.of_nat (length t))) by (unfold s32, u32; by rewrite Zmod_mod). rewrite Es.
  destruct (Z.ltb_spec 0 sz) as [Hp|Hz].
  - destruct (Z.eqb_spec sz 0); [lia|]. set (k := Z.to_nat (sz - 1)). destruct (Z.ltb_spec (Z.of_nat (k `min` length t)) sz); [|lia].
    rewrite Nat2Z.id. destruct (drop (k `min` length t) m) as [|x r] eqn:Ed; [apply (f_equal length) in Ed; rewrite length_drop in Ed; cbn in Ed; lia|].
    assert (Hl : length (take k t) = (k `min` length t)%nat) by apply length_take.
    rewrite store_Some by (rewrite length_app, Hl; cbn; lia). cbn [mbind option_bind]. rewrite <- Hl at 1. rewrite insert_middle. do 5 f_equal.
    replace (S (k `min` length t)) with (k `min` length t + 1)%nat by lia. rewrite <- drop_drop, Ed. done.
  - destruct (Z.eqb_spec sz 0); [|lia]. subst sz. cbn. by rewrite drop_0.
Qed.

(** C24: [vsnprintf] writes what its format means: for every format of literal
    bytes, [%%] and conversions, where a printk priority [<n>] at the beginning,
    if there is one, means nothing, the buffer receives the longest prefix of the
    full text that leaves room for the terminator, then the terminator, and
    nothing else; the result is the length of the full text; a size of 0 writes
    nothing; no access is out of bounds. *)
Theorem vsnprintf_correct m sz items junk args t :
  0 <= sz < 4294967296 -> (Z.to_nat sz <= length m)%nat ->
  Forall item_ok items -> Forall arg_ok args -> render (strip_priority items) args = Some t ->
  vsnprintf (Some m) sz (Some (format_bytes items ++ 0 :: junk)) args =
  Some (s32 (Z.of_nat (length t)),
    Some (if sz =? 0 then m else take (Z.to_nat (sz - 1)) t ++ 0 :: drop (S (Z.to_nat (sz - 1) `min` length t)) m)).
Proof. apply vsnprintf_lemma. Qed.

(** ["n=%5d %s"] with -42 and ["ok"], cut to 11 bytes. *)
Definition demo_items : list item := [Lit 110; Lit 61; Conv false 5 false Cd; Lit 32; Conv false 0 false Cs].
Definition demo_args : list arg := [AInt 4294967254; AStr (Some [111; 107; 0])].

Lemma vsnprintf_correct_witness :
  vsnprintf (Some (replicate 12 7)) 10 (Some (format_bytes demo_items ++ [0])) demo_args
  = Some (10, Some [110; 61; 32; 32; 45; 52; 50; 32; 111; 0; 7; 7]).
Proof.
  apply (vsnprintf_correct (replicate 12 7) 10 demo_items [] demo_args [110; 61; 32; 32; 45; 52; 50; 32; 111; 107]).
  - lia.
  - cbn. lia.
  - repeat constructor; cbn; lia.
  - repeat constructor; unfold arg_ok, is_u32; lia.
  - by vm_compute.
Defined.

(** a format that ends inside a conversion makes [vsnprintf] read on behind the
    terminator of the format: the bytes found there are taken as format. *)
Theorem vsnprintf_reads_past_end d f args :
  48 <= d <= 57 ->
  vsnprintf (Some [7; 7; 7; 7; 7; 7; 7; 7]) 8 (Some ([37; d; 0])) args = None /\
  vsnprintf (Some [7; 7; 7; 7; 7; 7; 7; 7]) 8 (Some ([37; d; 0] ++ [97; 98; 0] ++ f)) args
  = Some (4, Some [37; 0; 97; 98; 0; 7; 7; 7]).
Proof.
  intros Hd. assert (Hc : d = 48 \/ d = 49 \/ d = 50 \/ d = 51 \/ d = 52 \/ d = 53 \/ d = 54 \/ d = 55 \/ d = 56 \/ d = 57) by lia.
  repeat (destruct Hc as [->|Hc]; [split; by vm_compute|]). subst d. split; by vm_compute.
Qed.

Lemma vsnprintf_reads_past_end_witness :
  vsnprintf (Some [7; 7; 7; 7; 7; 7; 7; 7]) 8 (Some [37; 53; 0]) [] = None.
Proof. apply (vsnprintf_reads_past_end 53 [] []). lia. Defined.
