(* ===== verification/Parser.v ===== *)
(** * The option parser ([lib/parser.c])

    Strings and patterns are the bytes of memory from a pointer on, terminator
    included; a pointer into the string is an offset.  Reading past the given
    bytes gives [None].  What a failed match leaves behind in the caller's array
    of substrings is not modelled. *)

From stdpp Require Import base tactics numbers list.
From Stdlib Require Import ZArith Lia.
From S2P Require Import Prelude Cstring Vsprintf.

(** ** The code *)

Definition is_hex_digit (c : Z) : bool :=
  ((48 <=? c) && (c <=? 57)) || ((97 <=? c) && (c <=? 102)) || ((65 <=? c) && (c <=? 70)).

Definition hex_value (c : Z) : Z :=
  if (48 <=? c) && (c <=? 57) then c - 48
  else if (97 <=? c) && (c <=? 102) then c - 97 + 10
  else if (65 <=? c) && (c <=? 70) then c - 65 + 10
  else -1.

Definition is_octal (c : Z) : bool := (48 <=? c) && (c <=? 55).

(** [from] and [to]. *)
Definition substring : Type := (Z * Z)%type.
Definition MAX_OPT_ARGS : nat := 3.

(** The first percent sign before the terminator. *)
Fixpoint find_meta (p : list Z) (k : nat) : option (option nat) :=
  match p with
  | [] => None
  | c :: p' => if c =? 0 then Some None else if c =? 37 then Some (Some k) else find_meta p' (S k)
  end.

(** [while (f(scan[0])) scan++;] *)
Fixpoint scan_while (f : Z -> bool) (s : list Z) : option Z :=
  match s with
  | [] => None
  | c :: s' => if f c then n ← scan_while f s'; Some (n + 1) else Some 0
  end.

(** At least one byte of the class. *)
Definition scan_some (f : Z -> bool) (s : list Z) : option (option Z) :=
  c ← head s; if negb (f c) then Some None else n ← scan_while f s; Some (Some n).

(** The [switch]: [to - from] of the argument at [s], or no match. *)
Definition scan_arg (spec len : Z) (s : list Z) : option (option Z) :=
  if spec =? 115 then
    n ← strlen s;
    if n =? 0 then Some None else Some (Some (if (len =? -1) || (n <? len) then n else len))
  else if spec =? 100 then
    c ← head s;
    if c =? 45 then r ← scan_some is_digit (tail s); Some (option_map (Z.add 1) r) else scan_some is_digit s
  else if spec =? 117 then scan_some is_digit s
  else if spec =? 111 then scan_some is_octal s
  else if spec =? 120 then scan_some is_hex_digit s
  else Some None.

(** [s] from offset [o] on. *)
Definition at_off (s : list Z) (o : Z) : option (list Z) :=
  if (o <? 0) || (zlen s <? o) then None else Some (drop (Z.to_nat o) s).

(** The [while (1)]: every round consumes a byte of the pattern. *)
Fixpoint match_loop (fuel : nat) (str : list Z) (o : Z) (p : list Z) (args : list substring) : option (option (list substring)) :=
  match fuel with
  | O => None
  | S fuel' =>
      s ← at_off str o;
      m ← find_meta p 0;
      match m with
      | None => z ← strcmp p s; Some (if z =? 0 then Some args else None)
      | Some k =>
          z ← strncmp p s k;
          if negb (z =? 0) then Some None else
          let o1 := o + Z.of_nat k in
          s1 ← at_off str o1;
          let p1 := drop (S k) p in
          c ← head p1;
          if negb (is_digit c) && (c =? 37) then
            x ← head s1;
            if negb (x =? 37) then Some None else match_loop fuel' str (o1 + 1) (tail p1) args
          else
            '(len, p2) ← (if is_digit c then parse_width p1 0 else Some (-1, p1));
            if decide (MAX_OPT_ARGS <= length args)%nat then Some None else
            spec ← head p2;
            r ← scan_arg spec len s1;
            match r with
            | None => Some None
            | Some n => match_loop fuel' str (o1 + n) (tail p2) (args ++ [(o1, o1 + n)])
            end
      end
  end.

(** [Some None] is no match; otherwise the substrings. *)
Definition match_one (s : list Z) (p : option (list Z)) : option (option (list substring)) :=
  match p with
  | None => Some (Some [])
  | Some p => match_loop (length p) s 0 p []
  end.

(** The table ends with an entry without pattern. *)
Fixpoint match_token (s : list Z) (table : list (Z * option (list Z))) : option (Z * list substring) :=
  match table with
  | [] => None
  | (token, p) :: table' =>
      r ← match_one s p;
      match r with Some args => Some (token, args) | None => match_token s table' end
  end.

(** [-EINVAL], or 0 with the number. *)
Inductive parsed : Type := Einval | Parsed (v : Z).

(** The loop over the digits; an [int] wraps. *)
Fixpoint number_loop (base : Z) (l : list Z) (value : Z) : option Z :=
  match l with
  | [] => Some value
  | c :: l' =>
      let digit := if base =? 16 then hex_value c else if is_digit c then c - 48 else -1 in
      if (digit <? 0) || (base <=? digit) then None else number_loop base l' (s32 (value * base + digit))
  end.

(** [t] is the text of the substring. *)
Definition match_number (t : list Z) (base : Z) : parsed :=
  match t with
  | [] => Einval
  | c :: t' =>
      let '(sign, p) := if c =? 45 then (-1, t') else (1, t) in
      let '(base, p) :=
        if base =? 0 then
          match p with
          | 48 :: 120 :: p' | 48 :: 88 :: p' => (16, p')
          | 48 :: p' => (8, p')
          | _ => (10, p)
          end
        else (base, p) in
      match p with
      | [] => Einval
      | _ => match number_loop base p 0 with
             | Some value => Parsed (s32 (value * sign))
             | None => Einval
             end
      end
  end.

Definition match_int (t : list Z) : parsed := match_number t 0.
Definition match_octal (t : list Z) : parsed := match_number t 8.
Definition match_hex (t : list Z) : parsed := match_number t 16.

(** ** Printing and parsing numbers *)

Lemma number_loop_digits (f : Z -> Z) base l a :
  2 <= base -> 0 <= a -> Forall (fun x => 0 <= x < base) l ->
  (forall x, 0 <= x < base -> (if base =? 16 then hex_value (f x) else if is_digit (f x) then f x - 48 else -1) = x) ->
  fold_left (fun a x => a * base + x) l a < 2147483648 ->
  number_loop base (f <$> l) a = Some (fold_left (fun a x => a * base + x) l a).
Proof.
  intros Hb Ha Hl Hf. revert a Ha. induction l as [|x l IH]; intros a Ha Hv; cbn [fmap list_fmap number_loop fold_left] in *; [done|].
  apply Forall_cons in Hl as [Hx Hl]. rewrite (Hf x Hx). destruct (Z.ltb_spec x 0); [lia|]. destruct (Z.leb_spec base x); [lia|]. cbn [orb].
  assert (Hge : forall l a, 0 <= a -> Forall (fun x => 0 <= x < base) l -> a <= fold_left (fun a x => a * base + x) l a).
  { clear -Hb. induction l as [|x l IH]; intros a Ha Hl; cbn; [lia|]. apply Forall_cons in Hl as [Hx Hl].
    specialize (IH (a * base + x) ltac:(nia) Hl). nia. }
  pose proof (Hge l (a * base + x) ltac:(nia) Hl). rewrite s32_id by nia. apply IH; [done|nia|done].
Qed.

Lemma dec_digit x : 0 <= x < 10 -> (if 10 =? 16 then hex_value (48 + x) else if is_digit (48 + x) then 48 + x - 48 else -1) = x.
Proof. intros Hx. cbn. unfold is_digit. destruct (Z.leb_spec 48 (48 + x)); [|lia]. destruct (Z.leb_spec (48 + x) 57); [|lia]. cbn [andb]. lia. Qed.

Lemma hex_digit up x : 0 <= x < 16 -> (if 16 =? 16 then hex_value (hex_char up x) else if is_digit (hex_char up x) then hex_char up x - 48 else -1) = x.
Proof.
  intros Hx. change (16 =? 16) with true. cbv iota. unfold hex_char, hex_value. destruct (Z.ltb_spec x 10), up;
    bcase; cbn [andb]; lia.
Qed.

(** The text of [%d]. *)
Definition int_text (v : Z) : list Z := if v <? 0 then 45 :: dec_text (- v) else dec_text v.

Lemma match_int_text v : -2147483648 < v < 2147483648 -> v <> 0 -> match_int (int_text v) = Parsed v.
Proof.
  intros Hv Hn. assert (H10 : forall w, 0 < w < 2147483648 -> exists x l, digits 10 w = x :: l /\ 0 < x < 10 /\
    number_loop 10 (dec_text w) 0 = Some w).
  { intros w Hw. destruct (digits_spec 10 w) as (V & F & _ & N & _); [lia|unfold is_u32; lia|]. destruct (N ltac:(lia)) as (x & l & E & Hx).
    exists x, l. split; [done|]. split; [rewrite E in F; apply Forall_cons in F as [F _]; lia|]. unfold dec_text, value in *.
    rewrite number_loop_digits; [by rewrite V|lia|lia|done|apply dec_digit|lia]. }
  assert (Hm : forall w sign, 0 < w < 2147483648 -> sign = 1 \/ sign = -1 ->
    (let '(base, p) := match dec_text w with 48 :: 120 :: p' | 48 :: 88 :: p' => (16, p') | 48 :: p' => (8, p') | _ => (10, dec_text w) end in
     match p with [] => Einval | _ => match number_loop base p 0 with Some value => Parsed (s32 (value * sign)) | None => Einval end end) = Parsed (w * sign)).
  { intros w sign Hw Hs. destruct (H10 w Hw) as (x & l & E & Hx & Hl). unfold dec_text in *. rewrite E in *. cbn [fmap list_fmap] in *.
    assert (Hc : 48 + x = 49 \/ 48 + x = 50 \/ 48 + x = 51 \/ 48 + x = 52 \/ 48 + x = 53 \/ 48 + x = 54 \/ 48 + x = 55 \/ 48 + x = 56 \/ 48 + x = 57) by lia.
    revert Hl. generalize dependent (48 + x). intros c Hc Hl. destruct Hs as [-> | ->];
    repeat (destruct Hc as [->|Hc]; [rewrite Hl, s32_id by lia; done|]); subst c; rewrite Hl, s32_id by lia; done. }
  unfold match_int, match_number, int_text. destruct (Z.ltb_spec v 0) as [Hneg|Hpos].
  - change (45 =? 45) with true. cbv iota. cbv beta iota. change (0 =? 0) with true. cbv iota. rewrite (Hm (- v) (-1)) by (auto || lia). f_equal. lia.
  - destruct (H10 v) as (x & l & E & Hx & Hl); [lia|]. specialize (Hm v 1 ltac:(lia) ltac:(auto)). unfold dec_text in *. rewrite E in *. cbn [fmap list_fmap] in *.
    destruct (Z.eqb_spec (48 + x) 45); [lia|]. change (0 =? 0) with true. cbv iota. rewrite Hm. f_equal. lia.
Qed.

Lemma match_hex_text up v : 0 <= v < 2147483648 -> match_hex (hex_text up v) = Parsed v.
Proof.
  intros Hv. destruct (digits_spec 16 v) as (V & F & _ & _ & N); [lia|unfold is_u32; lia|].
  assert (Hl : number_loop 16 (hex_text up v) 0 = Some v).
  { unfold hex_text, value in *. rewrite number_loop_digits; [by rewrite V|lia|lia|done|apply hex_digit|lia]. }
  unfold match_hex, match_number, hex_text in *. destruct (digits 16 v) as [|x l]; [done|]. cbn [fmap list_fmap] in *.
  apply Forall_cons in F as [Hx _]. assert (Hc : hex_char up x <> 45) by (unfold hex_char; destruct up, (x <? 10); lia).
  destruct (Z.eqb_spec (hex_char up x) 45); [done|]. change (16 =? 0) with false. cbv iota. rewrite Hl.
  rewrite Z.mul_1_r, s32_id by lia. done.
Qed.

Lemma render_int v : -2147483648 <= v < 2147483648 -> render [Conv false 0 false Cd] [AInt (u32 v)] = Some (int_text v).
Proof.
  intros Hv. assert (E : s32 (u32 v) = v).
  { transitivity (s32 v); [unfold s32, u32; by rewrite Zmod_mod|by apply s32_id]. }
  cbn [render render_conv mbind option_bind]. rewrite E, app_nil_r. f_equal. unfold int_text, justify.
  destruct (v <? 0); by replace (Z.to_nat (0 - _)) with 0%nat by lia.
Qed.

Lemma int_text_length v : -2147483648 <= v < 2147483648 -> (length (int_text v) <= 33)%nat.
Proof.
  intros Hv. unfold int_text, dec_text. destruct (Z.ltb_spec v 0); cbn [length]; rewrite length_fmap.
  - destruct (digits_spec 10 (- v)) as (_ & _ & L & _); [lia|unfold is_u32; lia|lia].
  - destruct (digits_spec 10 v) as (_ & _ & L & _); [lia|unfold is_u32; lia|lia].
Qed.

Lemma hex_text_length up v : is_u32 v -> (length (hex_text up v) <= 33)%nat.
Proof. intros Hv. unfold hex_text. rewrite length_fmap. destruct (digits_spec 16 v) as (_ & _ & L & _); [lia|done|lia]. Qed.

(** Printing one number into a buffer of 64 bytes. *)
Lemma print_number m c v t :
  length m = 64%nat -> is_u32 v -> render [Conv false 0 false c] [AInt v] = Some t -> (length t <= 33)%nat ->
  vsnprintf (Some m) 64 (Some (format_bytes [Conv false 0 false c] ++ [0])) [AInt v] = Some (Z.of_nat (length t), Some (t ++ 0 :: drop (S (63 `min` length t)) m)).
Proof.
  intros Hm Hv Hr Hl. pose proof (vsnprintf_lemma m 64 [Conv false 0 false c] [] [AInt v] t) as E. rewrite s32_id in E by lia.
  rewrite E; [|lia|change (Z.to_nat 64) with 64%nat; lia|by apply Forall_singleton|by apply Forall_singleton|done].
  change (64 =? 0) with false. cbv iota. change (Z.to_nat (64 - 1)) with 63%nat. by rewrite take_ge by lia.
Qed.

(** C37: printing and parsing numbers are inverse: what [vsnprintf] prints for [%d]
    is read back by [match_int] as the same number, for every [int] but 0 and the
    least one, and [match_hex] reads back what [vsnprintf] prints for [%x] and
    [%X], for every number an [int] can hold. *)
Theorem print_parse_roundtrip m v (up : bool) w :
  length m = 64%nat -> -2147483648 < v < 2147483648 -> v <> 0 -> 0 <= w < 2147483648 ->
  (exists t r, vsnprintf (Some m) 64 (Some (format_bytes [Conv false 0 false Cd] ++ [0])) [AInt (u32 v)]
    = Some (Z.of_nat (length t), Some (t ++ 0 :: r)) /\ match_int t = Parsed v) /\
  (exists t r, vsnprintf (Some m) 64 (Some (format_bytes [Conv false 0 false (if up then CX else Cx)] ++ [0])) [AInt w]
    = Some (Z.of_nat (length t), Some (t ++ 0 :: r)) /\ match_hex t = Parsed w).
Proof.
  intros Hm Hv Hn Hw. split.
  - exists (int_text v). eexists. split; [|by apply match_int_text].
    apply print_number; [done|apply u32_range|apply render_int; lia|apply int_text_length; lia].
  - exists (hex_text up w). eexists. split; [|by apply match_hex_text].
    apply print_number; [done|unfold is_u32; lia| |apply hex_text_length; unfold is_u32; lia].
    destruct up; cbn [render render_conv mbind option_bind]; rewrite app_nil_r; unfold justify; by rewrite (Z2Nat.nonpos (0 - _)) by lia.
Qed.

Lemma print_parse_roundtrip_witness :
  exists (t r : list Z), vsnprintf (Some (replicate 64 7)) 64 (Some (format_bytes [Conv false 0 false CX] ++ [0])) [AInt 48879] = Some (Z.of_nat (length t), Some (t ++ 0 :: r)) /\
    match_hex t = Parsed 48879.
Proof. apply (print_parse_roundtrip (replicate 64 7) (-42) true 48879); [done|lia|lia|lia]. Defined.

(** [match_int] rejects the number 0, which [%d] prints as one digit: the leading
    zero is taken as the mark of an octal number without digits. *)
Theorem match_int_rejects_zero :
  render [Conv false 0 false Cd] [AInt 0] = Some [48] /\ match_int [48] = Einval /\ match_octal [48] = Parsed 0.
Proof. split_and!; by vm_compute. Qed.

(** ** What a pattern means *)

Inductive kind : Type := Ks | Kd | Ku | Ko | Kx.
Inductive piece : Type := PLit (c : Z) | PPct | PArg (len : Z) (k : kind).

Definition kind_char (k : kind) : Z := match k with Ks => 115 | Kd => 100 | Ku => 117 | Ko => 111 | Kx => 120 end.

(** [len = -1] stands for no length. *)
Definition piece_bytes (p : piece) : list Z :=
  match p with
  | PLit c => [c]
  | PPct => [37; 37]
  | PArg len k => 37 :: (if len =? -1 then [] else dec_text len) ++ [kind_char k]
  end.

Definition piece_ok (p : piece) : Prop :=
  match p with PLit c => c <> 0 /\ c <> 37 | PPct => True | PArg len _ => -1 <= len < 2147483648 end.

(** The longest prefix of bytes of a class. *)
Fixpoint span_len (f : Z -> bool) (s : list Z) : Z :=
  match s with [] => 0 | c :: s' => if f c then 1 + span_len f s' else 0 end.

Definition span_some (f : Z -> bool) (s : list Z) : option Z := if 0 <? span_len f s then Some (span_len f s) else None.

(** The length of the argument at the front of a string. *)
Definition arg_len (k : kind) (len : Z) (s : list Z) : option Z :=
  match k with
  | Ks => if decide (s = []) then None else Some (if len =? -1 then Z.of_nat (length s) else Z.min len (Z.of_nat (length s)))
  | Kd => match s with
          | [] => None
          | c :: s' => if c =? 45 then option_map (Z.add 1) (span_some is_digit s') else span_some is_digit s
          end
  | Ku => span_some is_digit s
  | Ko => span_some is_octal s
  | Kx => span_some is_hex_digit s
  end.

(** The substrings of the match of a whole string: literals byte for byte, arguments
    as long as possible, at most [MAX_OPT_ARGS] of them. *)
Fixpoint match_ref (ps : list piece) (s : list Z) (o : Z) (argc : nat) : option (list substring) :=
  match ps with
  | [] => if decide (s = []) then Some [] else None
  | PLit c :: ps' => match s with x :: s' => if x =? c then match_ref ps' s' (o + 1) argc else None | [] => None end
  | PPct :: ps' => match s with x :: s' => if x =? 37 then match_ref ps' s' (o + 1) argc else None | [] => None end
  | PArg len k :: ps' =>
      if decide (MAX_OPT_ARGS <= argc)%nat then None else
      n ← arg_len k len s;
      r ← match_ref ps' (drop (Z.to_nat n) s) (o + n) (S argc);
      Some ((o, o + n) :: r)
  end.

Lemma scan_while_span f s j : f 0 = false -> scan_while f (s ++ 0 :: j) = Some (span_len f s).
Proof.
  intros Hf. induction s as [|c s IH]; cbn [scan_while app span_len]; [by rewrite Hf|]. destruct (f c); [|done].
  rewrite IH. cbn [mbind option_bind]. f_equal. lia.
Qed.

Lemma span_len_bounds f s : 0 <= span_len f s <= Z.of_nat (length s).
Proof. induction s as [|c s IH]; cbn [span_len length]; [lia|]. destruct (f c); lia. Qed.

Lemma scan_some_span f s j : f 0 = false -> scan_some f (s ++ 0 :: j) = Some (span_some f s).
Proof.
  intros Hf. unfold scan_some, span_some. destruct s as [|c s]; cbn [app head mbind option_bind]; [by rewrite Hf|].
  destruct (f c) eqn:E; cbn [negb].
  - change (c :: s ++ 0 :: j) with ((c :: s) ++ 0 :: j). rewrite scan_while_span by done. cbn [mbind option_bind span_len]. rewrite E.
    pose proof (span_len_bounds f s). destruct (Z.ltb_spec 0 (1 + span_len f s)); [done|lia].
  - cbn [span_len]. by rewrite E.
Qed.

Lemma span_some_bounds f s n : span_some f s = Some n -> 0 <= n <= Z.of_nat (length s).
Proof. unfold span_some. pose proof (span_len_bounds f s). destruct (0 <? span_len f s); [intros [= <-]; lia|done]. Qed.

Lemma arg_len_bounds k len s n : -1 <= len -> arg_len k len s = Some n -> 0 <= n <= Z.of_nat (length s).
Proof.
  intros Hl. destruct k; cbn [arg_len]; try apply span_some_bounds.
  - case_decide; [done|]. destruct (Z.eqb_spec len (-1)); intros [= <-]; lia.
  - destruct s as [|c s]; [done|]. destruct (c =? 45); [|apply span_some_bounds].
    destruct (span_some is_digit s) as [m|] eqn:E; cbn; [|done]. intros [= <-]. apply span_some_bounds in E. cbn [length]. lia.
Qed.

Lemma scan_arg_len k len s j : -1 <= len -> 0 ∉ s -> scan_arg (kind_char k) len (s ++ 0 :: j) = Some (arg_len k len s).
Proof.
  intros Hl H0. destruct k; cbn [arg_len].
  - change (scan_arg (kind_char Ks) len (s ++ 0 :: j)) with
      (n ← strlen (s ++ 0 :: j); if n =? 0 then Some None else Some (Some (if (len =? -1) || (n <? len) then n else len))).
    rewrite strlen_spec by done. cbn [mbind option_bind]. destruct s as [|c s]; [done|]. rewrite decide_False by done.
    destruct (Z.eqb_spec (Z.of_nat (length (c :: s))) 0); [cbn in *; lia|]. do 2 f_equal. destruct (len =? -1); [done|]. cbn [orb].
    destruct (Z.ltb_spec (Z.of_nat (length (c :: s))) len); lia.
  - change (scan_arg (kind_char Kd) len (s ++ 0 :: j)) with
      (c ← head (s ++ 0 :: j); if c =? 45 then r ← scan_some is_digit (tail (s ++ 0 :: j)); Some (option_map (Z.add 1) r) else scan_some is_digit (s ++ 0 :: j)).
    destruct s as [|c s]; [done|]. cbn [app head tail mbind option_bind]. destruct (c =? 45).
    + by rewrite scan_some_span.
    + change (c :: s ++ 0 :: j) with ((c :: s) ++ 0 :: j). by rewrite scan_some_span.
  - change (scan_arg (kind_char Ku) len (s ++ 0 :: j)) with (scan_some is_digit (s ++ 0 :: j)). by rewrite scan_some_span.
  - change (scan_arg (kind_char Ko) len (s ++ 0 :: j)) with (scan_some is_octal (s ++ 0 :: j)). by rewrite scan_some_span.
  - change (scan_arg (kind_char Kx) len (s ++ 0 :: j)) with (scan_some is_hex_digit (s ++ 0 :: j)). by rewrite scan_some_span.
Qed.

(** A pattern is a run of literals before the next percent sign. *)
Lemma pieces_split ps :
  exists lits rest, ps = (PLit <$> lits) ++ rest /\
    (rest = [] \/ (exists q, rest = PPct :: q) \/ exists len k q, rest = PArg len k :: q).
Proof.
  induction ps as [|p ps IH]; [by exists [], []; auto|]. destruct p as [c| |len k].
  - destruct IH as (lits & rest & -> & H). by exists (c :: lits), rest.
  - exists [], (PPct :: ps). eauto.
  - exists [], (PArg len k :: ps). eauto 10.
Qed.

Lemma match_ref_lits lits rest s o argc :
  match_ref ((PLit <$> lits) ++ rest) s o argc =
  if decide (take (length lits) s = lits) then match_ref rest (drop (length lits) s) (o + Z.of_nat (length lits)) argc else None.
Proof.
  revert s o. induction lits as [|c lits IH]; intros s o; cbn [fmap list_fmap app length take drop match_ref].
  - rewrite decide_True by done. f_equal. lia.
  - destruct s as [|x s]; [done|]. cbn [take drop]. destruct (Z.eqb_spec x c) as [->|Hne].
    + rewrite IH. destruct (decide (take (length lits) s = lits)) as [E|E].
      * rewrite decide_True by congruence. f_equal. lia.
      * rewrite decide_False by congruence. done.
    + rewrite decide_False by congruence. done.
Qed.

Definition pattern_bytes (ps : list piece) : list Z := concat (piece_bytes <$> ps).

Lemma pattern_lits lits rest : pattern_bytes ((PLit <$> lits) ++ rest) = lits ++ pattern_bytes rest.
Proof. unfold pattern_bytes. induction lits as [|c lits IH]; cbn; [done|]. by rewrite IH. Qed.

Lemma find_meta_lits lits q k :
  Forall (fun c => c <> 0 /\ c <> 37) lits -> find_meta (lits ++ q) k = find_meta q (k + length lits).
Proof.
  revert k. induction lits as [|c lits IH]; intros k H; cbn [app find_meta length]; [by rewrite Nat.add_0_r|].
  apply Forall_cons in H as [[H1 H2] H]. destruct (Z.eqb_spec c 0); [done|]. destruct (Z.eqb_spec c 37); [done|].
  rewrite IH by done. f_equal. lia.
Qed.

Lemma kind_char_ok k : kind_char k <> 0 /\ kind_char k <> 37 /\ is_digit (kind_char k) = false.
Proof. by destruct k. Qed.

Lemma dec_text_digits len : 0 <= len < 2147483648 -> Forall (fun c => 48 <= c <= 57) (dec_text len) /\ dec_text len <> [].
Proof.
  intros H. destruct (digits_spec 10 len) as (_ & F & _ & _ & N); [lia|unfold is_u32; lia|]. unfold dec_text. split.
  - apply Forall_fmap. eapply Forall_impl; [done|]. cbn. lia.
  - by destruct (digits 10 len).
Qed.

Lemma pattern_no_zero ps : Forall piece_ok ps -> 0 ∉ pattern_bytes ps.
Proof.
  unfold pattern_bytes. induction 1 as [|p ps Hp Hps IH]; cbn; [apply not_elem_of_nil|]. rewrite elem_of_app. intros [H|H]; [|done].
  destruct p as [c| |len k]; cbn in H.
  - apply elem_of_cons in H as [H|H%elem_of_nil]; [|done]. by destruct Hp.
  - apply elem_of_cons in H as [H|H]; [done|]. by apply elem_of_cons in H as [H|H%elem_of_nil].
  - apply elem_of_cons in H as [H|H]; [done|]. apply elem_of_app in H as [H|H].
    + destruct (Z.eqb_spec len (-1)) as [|Hl]; [by apply elem_of_nil in H|]. destruct (dec_text_digits len) as [F _]; [cbn in Hp; lia|].
      rewrite Forall_forall in F. apply F in H. lia.
    + apply elem_of_cons in H as [H|H%elem_of_nil]; [|done]. destruct (kind_char_ok k) as (? & _). congruence.
Qed.

Lemma at_off_app pre s : at_off (pre ++ s) (Z.of_nat (length pre)) = Some s.
Proof.
  unfold at_off, zlen. rewrite length_app. destruct (Z.ltb_spec (Z.of_nat (length pre)) 0); [lia|].
  destruct (Z.ltb_spec (Z.of_nat (length pre + length s)) (Z.of_nat (length pre))); [lia|]. cbn [orb]. rewrite Nat2Z.id. by rewrite drop_app_length.
Qed.

Lemma strncmp_0 s1 s2 : strncmp s1 s2 0 = Some 0.
Proof. by destruct s1. Qed.

(** The round of the loop at the next percent sign. *)
Lemma match_round fuel pre s js lits rest jp args :
  Forall piece_ok ((PLit <$> lits) ++ rest) -> 0 ∉ s ->
  (exists q, pattern_bytes rest = 37 :: q) ->
  match_loop (S fuel) (pre ++ s ++ 0 :: js) (Z.of_nat (length pre)) (lits ++ pattern_bytes rest ++ 0 :: jp) args =
  if decide (take (length lits) s = lits)
  then match_loop (S fuel) ((pre ++ lits) ++ drop (length lits) s ++ 0 :: js) (Z.of_nat (length (pre ++ lits))) (pattern_bytes rest ++ 0 :: jp) args
  else Some None.
Proof.
  intros Hok Hs [q Hq]. pose proof (pattern_no_zero _ Hok) as Hz. rewrite pattern_lits in Hz.
  apply Forall_app in Hok as [Hl Hr]. rewrite Forall_fmap in Hl.
  assert (Hl' : Forall (fun c => c <> 0 /\ c <> 37) lits) by (eapply Forall_impl; [done|]; intros c Hc; exact Hc).
  assert (Hf : find_meta (lits ++ pattern_bytes rest ++ 0 :: jp) 0 = Some (Some (length lits))).
  { rewrite find_meta_lits by done. rewrite Hq. done. }
  assert (Hf' : find_meta (pattern_bytes rest ++ 0 :: jp) 0 = Some (Some 0%nat)) by (by rewrite Hq).
  destruct (strncmp_spec (lits ++ pattern_bytes rest) s jp js (length lits) Hz Hs) as (z & Ez & Hzz).
  rewrite <- app_assoc in Ez. rewrite take_app_length in Hzz.
  cbn [match_loop]. rewrite at_off_app. cbn [mbind option_bind]. rewrite Hf. cbn [mbind option_bind]. rewrite Ez. cbn [mbind option_bind].
  destruct (decide (take (length lits) s = lits)) as [E|E].
  - rewrite (proj2 Hzz) by done. change (negb (0 =? 0)) with false. cbv iota.
    assert (Es : pre ++ s ++ 0 :: js = (pre ++ lits) ++ drop (length lits) s ++ 0 :: js).
    { rewrite <- (take_drop (length lits) s) at 1. rewrite E. by rewrite <- !app_assoc. }
    rewrite Es. replace (Z.of_nat (length pre) + Z.of_nat (length lits)) with (Z.of_nat (length (pre ++ lits))) by (rewrite length_app; lia).
    rewrite (at_off_app (pre ++ lits)). cbn [mbind option_bind]. rewrite Hf'. cbn [mbind option_bind]. rewrite strncmp_0. cbn [mbind option_bind].
    change (negb (0 =? 0)) with false. cbv iota. rewrite Z.add_0_r, (at_off_app (pre ++ lits)). cbn [mbind option_bind].
    assert (Ed : drop (S (length lits)) (lits ++ pattern_bytes rest ++ 0 :: jp) = drop 1 (pattern_bytes rest ++ 0 :: jp)).
    { replace (S (length lits)) with (length lits + 1)%nat by lia. by rewrite <- drop_drop, drop_app_length. }
    rewrite Ed. done.
  - destruct (Z.eqb_spec z 0) as [H|H]; [|done]. apply Hzz in H. congruence.
Qed.

Lemma match_loop_ref n fuel pre s js ps jp args :
  (length ps <= n)%nat -> Forall piece_ok ps -> 0 ∉ s -> (length (pattern_bytes ps) < fuel)%nat ->
  match_loop fuel (pre ++ s ++ 0 :: js) (Z.of_nat (length pre)) (pattern_bytes ps ++ 0 :: jp) args =
  Some (option_map (app args) (match_ref ps s (Z.of_nat (length pre)) (length args))).
Proof.
  revert fuel pre s ps args. induction n as [|n IH]; intros fuel pre s ps args Hn Hok Hs Hf.
  { destruct ps; [|cbn in Hn; lia]. destruct fuel; [lia|]. cbn [pattern_bytes concat fmap list_fmap app match_loop].
    rewrite at_off_app. cbn [mbind option_bind find_meta]. change (0 =? 0) with true. cbv iota.
    destruct (strcmp_spec [] s jp js (not_elem_of_nil _) Hs) as (z & Ez & Hz). cbn [app] in Ez. cbn [mbind option_bind]. rewrite Ez. cbn [mbind option_bind match_ref].
    destruct (Z.eqb_spec z 0) as [H|H].
    - rewrite decide_True by (symmetry; by apply Hz). cbn. by rewrite app_nil_r.
    - rewrite decide_False by (intros E; apply H, Hz; done). done. }
  destruct (pieces_split ps) as (lits & rest & -> & Hrest). rewrite pattern_lits in *. rewrite match_ref_lits, <- app_assoc.
  rewrite length_app, length_fmap in Hn. rewrite length_app in Hf. destruct fuel as [|fuel]; [lia|].
  pose proof Hok as Hok'. apply Forall_app in Hok' as [Hl Hr]. rewrite Forall_fmap in Hl.
  destruct Hrest as [->|Hrest].
  - (* only literals *)
    assert (Hl' : Forall (fun c => c <> 0 /\ c <> 37) lits) by (eapply Forall_impl; [done|]; intros c Hc; exact Hc).
    pose proof (pattern_no_zero _ Hok) as Hz. rewrite pattern_lits in Hz. change (pattern_bytes []) with (@nil Z) in *. rewrite app_nil_r in Hz.
    cbn [app match_loop match_ref]. rewrite at_off_app. cbn [mbind option_bind]. rewrite find_meta_lits by done. cbn [find_meta].
    change (0 =? 0) with true. cbv iota. cbn [mbind option_bind].
    destruct (strcmp_spec lits s jp js Hz Hs) as (z & Ez & Hzz). rewrite Ez. cbn [mbind option_bind].
    destruct (Z.eqb_spec z 0) as [H|H].
    + apply Hzz in H as <-. rewrite decide_True by (by apply take_ge). rewrite drop_ge by done. rewrite decide_True by done. cbn. by rewrite app_nil_r.
    + destruct (decide (take (length lits) s = lits)) as [E|E]; [|done]. destruct (decide (drop (length lits) s = [])) as [E'|E']; [|done].
      exfalso. apply H, Hzz. rewrite <- (take_drop (length lits) s), E, E', app_nil_r. done.
  - assert (Hq : exists q, pattern_bytes rest = 37 :: q) by (destruct Hrest as [[q ->]|(len & k & q & ->)]; by eexists).
    rewrite (match_round fuel pre s js lits rest jp args Hok Hs Hq). case_decide as E; [|done].
    set (pre1 := pre ++ lits). set (s1 := drop (length lits) s).
    assert (Hs1 : 0 ∉ s1) by (unfold s1; intros H; apply Hs; rewrite <- (take_drop (length lits) s); apply elem_of_app; by right).
    replace (Z.of_nat (length pre) + Z.of_nat (length lits)) with (Z.of_nat (length pre1)) by (unfold pre1; rewrite length_app; lia).
    clearbody pre1 s1. clear E Hq Hok Hs. destruct Hrest as [[q ->]|(len & k & q & ->)]; apply Forall_cons in Hr as [Hr Hrs]; cbn [length] in Hn.
    + change (pattern_bytes (PPct :: q)) with (37 :: 37 :: pattern_bytes q) in *. cbn [length] in Hf. cbn [app match_loop match_ref].
      rewrite at_off_app. cbn [mbind option_bind find_meta]. change (37 =? 0) with false. change (37 =? 37) with true. cbv iota. cbn [mbind option_bind strncmp].
      change (negb (0 =? 0)) with false. cbv iota. rewrite Z.add_0_r, at_off_app. cbn [mbind option_bind drop head].
      change (negb (is_digit 37) && (37 =? 37)) with true. cbv iota.
      destruct s1 as [|x s1]; cbn [app head mbind option_bind]; [done|]. destruct (Z.eqb_spec x 37) as [->|Hx]; cbn [negb]; [|done].
      replace (pre1 ++ 37 :: s1 ++ 0 :: js) with ((pre1 ++ [37]) ++ s1 ++ 0 :: js) by (by rewrite <- app_assoc).
      replace (Z.of_nat (length pre1) + 1) with (Z.of_nat (length (pre1 ++ [37]))) by (rewrite length_app; cbn; lia).
      apply IH; [lia|done|by apply not_elem_of_cons in Hs1 as [_ ?]|lia].
    + cbn [piece_ok] in Hr. set (ds := if len =? -1 then [] else dec_text len).
      assert (Ep : pattern_bytes (PArg len k :: q) = 37 :: ds ++ kind_char k :: pattern_bytes q).
      { unfold pattern_bytes. cbn [fmap list_fmap concat piece_bytes]. fold ds. cbn [app]. by rewrite <- app_assoc. }
      rewrite Ep in *. cbn [length] in Hf. rewrite length_app in Hf. cbn [length] in Hf. cbn [app match_loop match_ref].
      rewrite at_off_app. cbn [mbind option_bind find_meta]. change (37 =? 0) with false. change (37 =? 37) with true. cbv iota. cbn [mbind option_bind strncmp].
      change (negb (0 =? 0)) with false. cbv iota. rewrite Z.add_0_r, at_off_app. cbn [mbind option_bind drop].
      destruct (kind_char_ok k) as (K0 & K37 & Kd).
      assert (Hp : exists c, head ((ds ++ kind_char k :: pattern_bytes q) ++ 0 :: jp) = Some c /\ (negb (is_digit c) && (c =? 37)) = false /\
        (if is_digit c then parse_width ((ds ++ kind_char k :: pattern_bytes q) ++ 0 :: jp) 0 else Some (-1, (ds ++ kind_char k :: pattern_bytes q) ++ 0 :: jp))
        = Some (len, kind_char k :: pattern_bytes q ++ 0 :: jp)).
      { unfold ds. destruct (Z.eqb_spec len (-1)) as [->|Hlen].
        - exists (kind_char k). cbn [app head]. split; [done|]. rewrite Kd. split; [|done]. by destruct (Z.eqb_spec (kind_char k) 37).
        - destruct (dec_text_digits len) as [F N]; [lia|]. destruct (dec_text len) as [|c r] eqn:Ed; [done|]. exists c. split; [done|].
          apply Forall_cons in F as [Fc F]. assert (Hd : is_digit c = true) by (unfold is_digit; destruct (Z.leb_spec 48 c), (Z.leb_spec c 57); lia || done).
          rewrite Hd. split; [done|]. rewrite <- Ed, <- app_assoc. destruct (digits_spec 10 len) as (V & F10 & _); [lia|unfold is_u32; lia|].
          unfold dec_text, value in *. rewrite parse_width_digits; [by rewrite V|lia|done|lia| |done]. intros x r' [= <- _]. done. }
      rewrite !drop_0. destruct Hp as (c & -> & Hc & Hw). cbn [mbind option_bind]. rewrite Hc. cbv iota. rewrite Hw. cbn [mbind option_bind].
      case_decide as Hmax; [done|]. cbn [head tail mbind option_bind]. rewrite scan_arg_len by (done || lia). cbn [mbind option_bind].
      destruct (arg_len k len s1) as [m|] eqn:Em; cbn [mbind option_bind]; [|done]. apply arg_len_bounds in Em as Hm; [|lia].
      set (tk := take (Z.to_nat m) s1). assert (Htk : length tk = Z.to_nat m) by (apply length_take_le; lia).
      replace (pre1 ++ s1 ++ 0 :: js) with ((pre1 ++ tk) ++ drop (Z.to_nat m) s1 ++ 0 :: js)
        by (rewrite <- (take_drop (Z.to_nat m) s1) at 2; by rewrite <- !app_assoc).
      replace (Z.of_nat (length pre1) + m) with (Z.of_nat (length (pre1 ++ tk))) by (rewrite length_app; lia).
      rewrite IH; [|lia|done|intros H; apply Hs1; rewrite <- (take_drop (Z.to_nat m) s1); apply elem_of_app; by right|lia].
      rewrite (length_app args). cbn [length]. rewrite Nat.add_1_r. f_equal. destruct (match_ref q _ _ _) as [r|]; cbn; [|done]. f_equal. by rewrite <- app_assoc.
Qed.

(** C36: [match_one] finds what the pattern means: for every pattern of literals,
    escaped percent signs and arguments it matches the string or not, and finds the
    same substrings, as a matcher that goes piece by piece; it reads neither the
    string nor the pattern past its terminator. *)
Theorem match_one_correct ps s :
  Forall piece_ok ps -> 0 ∉ s ->
  match_one (s ++ [0]) (Some (pattern_bytes ps ++ [0])) = Some (match_ref ps s 0 0).
Proof.
  intros Hok Hs. unfold match_one. pose proof (match_loop_ref (length ps) (length (pattern_bytes ps ++ [0])) [] s [] ps [] []) as H.
  cbn [app length] in H. change (Z.of_nat 0) with 0 in H. rewrite H; [|done|done|done|rewrite length_app; cbn; lia].
  f_equal. by destruct (match_ref ps s 0 0).
Qed.

(** ["s=%d,%3s"] on ["s=-7,abc"]. *)
Definition demo_pattern : list piece := [PLit 115; PLit 61; PArg (-1) Kd; PLit 44; PArg 3 Ks].

Lemma match_one_correct_witness :
  match_one ([115; 61; 45; 55; 44; 97; 98; 99] ++ [0]) (Some (pattern_bytes demo_pattern ++ [0])) = Some (Some [(2, 4); (5, 8)]).
Proof.
  rewrite (match_one_correct demo_pattern [115; 61; 45; 55; 44; 97; 98; 99]).
  - by vm_compute.
  - repeat constructor; cbn; lia.
  - rewrite !not_elem_of_cons. split_and!; try lia. apply not_elem_of_nil.
Defined.
