(* ===== verification/Ntty.v ===== *)
(** * The terminal line discipline ([drivers/tty/n_tty.c])

    The input ring buffer and the canonical line editor.  A reader that finds the
    buffer empty blocks ([wait_queue_block_locked], [task_yield]) and goes on where
    it was when it runs again: [n_tty_read] is modelled per stretch between two
    such points, with the place to resume as a value.  The characters echoed and
    the interrupts delivered are a log.  A [NULL] terminal or buffer is not
    modelled. *)

From stdpp Require Import base tactics numbers list.
From Stdlib Require Import ZArith Lia.
From S2P Require Import Prelude.

Definition N_TTY_INPUT_BUF_SIZE : Z := 256.
Definition TTY_FLAG_ECHO : Z := 1.
Definition TTY_FLAG_CANON : Z := 2.

Record n_tty_data : Type := NTty {
  input_buffer : list Z;
  input_head : Z;
  input_tail : Z;
  input_count : Z;
  linebuf : list Z;
  line_len : Z;
  line_pos : Z;
}.

Implicit Types (l : n_tty_data).

Definition set_line l (b : list Z) (n p : Z) : n_tty_data :=
  NTty (input_buffer l) (input_head l) (input_tail l) (input_count l) b n p.

(** [kmalloc] and [memset]. *)
Definition n_tty_open : n_tty_data := NTty (replicate 256 0) 0 0 0 (replicate 256 0) 0 0.

(** One character from the driver; dropped when the buffer is full. *)
Definition receive_char l (c : Z) : n_tty_data :=
  let c := if c =? 13 then 10 else c in
  if input_count l <? N_TTY_INPUT_BUF_SIZE
  then NTty (zset (input_buffer l) (input_head l) c) ((input_head l + 1) mod N_TTY_INPUT_BUF_SIZE) (input_tail l)
         (input_count l + 1) (linebuf l) (line_len l) (line_pos l)
  else l.

Definition n_tty_receive_buf l (buf : list Z) : n_tty_data := foldl receive_char l buf.

(** [None]: the buffer is empty and the caller blocks. *)
Definition n_tty_getchar_blocking l : option (Z * n_tty_data) :=
  if 0 <? input_count l
  then Some (znth (input_buffer l) (input_tail l),
         NTty (input_buffer l) (input_head l) ((input_tail l + 1) mod N_TTY_INPUT_BUF_SIZE) (input_count l - 1)
           (linebuf l) (line_len l) (line_pos l))
  else None.

Inductive event : Type := Echo (c : Z) | Interrupt.

(** Where a reader goes on: at the top of the outer loop, or in the inner loop with
    the flags it had read. *)
Inductive reader : Type := Entered | Editing (flags : Z).

#[export] Instance reader_eq_dec : EqDecision reader.
Proof. solve_decision. Defined.

Inductive result : Type := Returned (bytes : list Z) | Blocked (r : reader).

Definition has_flag (flags f : Z) : bool := negb (Z.land flags f =? 0).

Definition echo (flags : Z) (cs : list Z) : list event := if has_flag flags TTY_FLAG_ECHO then Echo <$> cs else [].

(** The inner loop: the characters up to the end of the line are taken from the
    buffer. *)
Inductive edited : Type := LineEnd | Interrupted | Empty.

Fixpoint edit_loop (fuel : nat) (flags : Z) l (out : list event) : edited * n_tty_data * list event :=
  match n_tty_getchar_blocking l with
  | None => (Empty, l, out)
  | Some (c, l1) =>
      match fuel with
      | O => (Empty, l, out)
      | S fuel' =>
          if c =? 3 then (Interrupted, l1, out ++ [Interrupt])
          else
            let c := if c =? 13 then 10 else c in
            if c =? 10 then
              let l2 := if line_len l1 + 1 <? 256
                        then set_line l1 (zset (linebuf l1) (line_len l1) c) (line_len l1 + 1) (line_pos l1) else l1 in
              (LineEnd, l2, out ++ echo flags [10])
            else if (c =? 8) || (c =? 127) then
              if 0 <? line_len l1
              then edit_loop fuel' flags (set_line l1 (linebuf l1) (line_len l1 - 1) (line_pos l1)) (out ++ echo flags [8; 32; 8])
              else edit_loop fuel' flags l1 out
            else if line_len l1 + 1 <? 256
            then edit_loop fuel' flags (set_line l1 (zset (linebuf l1) (line_len l1) c) (line_len l1 + 1) (line_pos l1)) (out ++ echo flags [c])
            else edit_loop fuel' flags l1 out
      end
  end.

(** [while (read < len && line_pos < line_len)] *)
Fixpoint copy_line (n : nat) l (acc : list Z) : list Z * n_tty_data :=
  match n with
  | O => (acc, l)
  | S n' =>
      if line_pos l <? line_len l
      then copy_line n' (set_line l (linebuf l) (line_len l) (line_pos l + 1)) (acc ++ [znth (linebuf l) (line_pos l)])
      else (acc, l)
  end.

(** [flags] is what [tty_get_flags] returns during the stretch.  The outer loop runs
    at most twice before it returns or blocks. *)
Fixpoint read_loop (fuel : nat) (r : reader) (flags len : Z) l (out : list event) : option (result * n_tty_data * list event) :=
  match fuel with
  | O => None
  | S fuel' =>
      let edit f l out :=
        match edit_loop (Z.to_nat (input_count l)) f l out with
        | (LineEnd, l1, out1) => read_loop fuel' Entered flags len l1 out1
        | (Interrupted, l1, out1) => Some (Returned [], l1, out1)
        | (Empty, l1, out1) => Some (Blocked (Editing f), l1, out1)
        end in
      match r with
      | Editing f => edit f l out
      | Entered =>
          if has_flag flags TTY_FLAG_CANON then
            if line_pos l <? line_len l then
              let '(bytes, l1) := copy_line (Z.to_nat len) l [] in
              let l2 := if line_len l1 <=? line_pos l1 then set_line l1 (linebuf l1) 0 0 else l1 in
              Some (Returned bytes, l2, out)
            else edit flags (set_line l (linebuf l) 0 0) out
          else
            match n_tty_getchar_blocking l with
            | None => Some (Blocked Entered, l, out)
            | Some (c, l1) => if c =? 3 then Some (Returned [], l1, out ++ [Interrupt]) else Some (Returned [c], l1, out)
            end
      end
  end.

Definition n_tty_read (r : reader) (flags len : Z) l : option (result * n_tty_data * list event) :=
  if len =? 0 then Some (Returned [], l, []) else read_loop 3 r flags len l [].

(** ** Reference: a queue and a line editor *)

(** The characters waiting in the ring. *)
Definition queue l : list Z :=
  (fun i => znth (input_buffer l) ((input_tail l + Z.of_nat i) mod 256)) <$> seq 0 (Z.to_nat (input_count l)).

(** The line being edited, and the part of a finished line not read yet. *)
Definition line l : list Z := take (Z.to_nat (line_len l)) (linebuf l).
Definition pending l : list Z := drop (Z.to_nat (line_pos l)) (line l).

Record n_tty_ok l : Prop := NTtyOk {
  nt_buf : length (input_buffer l) = 256%nat;
  nt_tail : 0 <= input_tail l < 256;
  nt_count : 0 <= input_count l <= 256;
  nt_head : input_head l = (input_tail l + input_count l) mod 256;
  nt_line : length (linebuf l) = 256%nat;
  nt_len : 0 <= line_len l <= 255;
  nt_pos : 0 <= line_pos l;
}.

Inductive outcome : Type := Complete (line rest : list Z) | Stopped (line rest : list Z) | Waiting (line : list Z).

(** Erase, newline and interrupt; a line holds 255 characters. *)
Fixpoint edit_ref (ln cs : list Z) : outcome :=
  match cs with
  | [] => Waiting ln
  | c :: cs' =>
      if c =? 3 then Stopped ln cs'
      else if (c =? 10) || (c =? 13) then Complete (take 255 (ln ++ [10])) cs'
      else if (c =? 8) || (c =? 127) then edit_ref (take (length ln - 1) ln) cs'
      else edit_ref (take 255 (ln ++ [c])) cs'
  end.

(** ** The ring buffer *)

Lemma length_queue l : length (queue l) = Z.to_nat (input_count l).
Proof. unfold queue. by rewrite length_fmap, length_seq. Qed.

Lemma receive_char_ok l c :
  n_tty_ok l ->
  n_tty_ok (receive_char l c) /\
  queue (receive_char l c) = take 256 (queue l ++ [if c =? 13 then 10 else c]) /\
  linebuf (receive_char l c) = linebuf l /\ line_len (receive_char l c) = line_len l /\ line_pos (receive_char l c) = line_pos l.
Proof.
  intros [B T C H L N P]. unfold receive_char, N_TTY_INPUT_BUF_SIZE. set (c' := if c =? 13 then 10 else c).
  destruct (Z.ltb_spec (input_count l) 256) as [Hlt|Hge].
  - split; [|split; [|done]].
    + split; cbn; try done; try lia.
      * by rewrite length_zset.
      * rewrite H, Zplus_mod_idemp_l. f_equal. lia.
    + rewrite take_ge by (rewrite length_app, length_queue; cbn; lia). unfold queue. cbn [input_buffer input_tail input_count].
      rewrite Z2Nat.inj_add by lia. change (Z.to_nat 1) with 1%nat. rewrite seq_app, fmap_app. f_equal.
      * apply list_fmap_ext. intros i x [-> Hx]%lookup_seq. cbn [Nat.add]. rewrite znth_zset_ne; [done|rewrite H; apply Z.mod_pos_bound; lia|apply Z.mod_pos_bound; lia|].
        rewrite H. intros E. assert (Hm : (input_tail l + input_count l - (input_tail l + Z.of_nat i)) mod 256 = 0).
        { rewrite Zminus_mod, E, Z.sub_diag. done. }
        replace (input_tail l + input_count l - (input_tail l + Z.of_nat i)) with (input_count l - Z.of_nat i) in Hm by lia.
        rewrite Z.mod_small in Hm; lia.
      * cbn. f_equal. rewrite Z2Nat.id by lia. rewrite <- H. apply znth_zset_eq. unfold zlen. rewrite B, H.
        apply Z.mod_pos_bound. lia.
  - split; [by split|]. split; [|done]. rewrite take_app_le by (rewrite length_queue; lia). rewrite take_ge; [done|rewrite length_queue; lia].
Qed.

Lemma getchar_ok l :
  n_tty_ok l ->
  match n_tty_getchar_blocking l with
  | None => queue l = []
  | Some (c, l') => queue l = c :: queue l' /\ n_tty_ok l' /\ linebuf l' = linebuf l /\ line_len l' = line_len l /\ line_pos l' = line_pos l
  end.
Proof.
  intros [B T C H L N P]. unfold n_tty_getchar_blocking, N_TTY_INPUT_BUF_SIZE. destruct (Z.ltb_spec 0 (input_count l)) as [Hp|Hz].
  - split; [|split; [|done]].
    + unfold queue. cbn [input_buffer input_tail input_count]. replace (Z.to_nat (input_count l)) with (S (Z.to_nat (input_count l - 1))) by lia.
      cbn [seq]. rewrite fmap_cons, <- seq_shift, <- list_fmap_compose. f_equal.
      * f_equal. rewrite Z.add_0_r, Z.mod_small by lia. done.
      * apply list_fmap_ext. intros i x _. cbn. f_equal. rewrite Zplus_mod_idemp_l. f_equal. lia.
    + split; cbn; try done; try lia.
      * apply Z.mod_pos_bound. lia.
      * rewrite H, Zplus_mod_idemp_l. f_equal. lia.
  - unfold queue. replace (input_count l) with 0 by lia. done.
Qed.

Lemma receive_buf_ok l buf :
  n_tty_ok l ->
  n_tty_ok (n_tty_receive_buf l buf) /\
  queue (n_tty_receive_buf l buf) = take 256 (queue l ++ ((fun c => if c =? 13 then 10 else c) <$> buf)).
Proof.
  unfold n_tty_receive_buf. revert l. induction buf as [|c buf IH]; intros l Hl; cbn [foldl fmap list_fmap].
  - split; [done|]. rewrite app_nil_r, take_ge; [done|]. rewrite length_queue. pose proof (nt_count _ Hl). lia.
  - destruct (receive_char_ok l c Hl) as (H1 & H2 & _). destruct (IH _ H1) as [H3 H4]. split; [done|]. rewrite H4, H2.
    destruct (decide (length (queue l) < 256)%nat) as [Hlt|Hge].
    + rewrite (take_ge (queue l ++ _)) by (rewrite length_app; cbn; lia). by rewrite <- app_assoc.
    + rewrite (take_app_le (take 256 _)) by (rewrite length_take, length_app; lia). rewrite !(take_app_le (queue l)) by lia. by rewrite take_take.
Qed.

(** The input side as operations on a queue. *)
Inductive op : Type := Receive (buf : list Z) | Get.

Fixpoint run (l : n_tty_data) (ops : list op) : list (option Z) * n_tty_data :=
  match ops with
  | [] => ([], l)
  | Receive buf :: ops' => run (n_tty_receive_buf l buf) ops'
  | Get :: ops' =>
      match n_tty_getchar_blocking l with
      | None => let '(r, l') := run l ops' in (None :: r, l')
      | Some (c, l1) => let '(r, l') := run l1 ops' in (Some c :: r, l')
      end
  end.

Fixpoint run_ref (q : list Z) (ops : list op) : list (option Z) * list Z :=
  match ops with
  | [] => ([], q)
  | Receive buf :: ops' => run_ref (take 256 (q ++ ((fun c => if c =? 13 then 10 else c) <$> buf))) ops'
  | Get :: ops' =>
      match q with
      | [] => let '(r, q') := run_ref q ops' in (None :: r, q')
      | c :: q1 => let '(r, q') := run_ref q1 ops' in (Some c :: r, q')
      end
  end.

(** C38: the ring buffer is a queue of 256 characters: every sequence of receptions and
    reads returns the characters in order, carriage returns as newlines, and drops
    exactly those that arrive when 256 are waiting. *)
Theorem n_tty_refines_fifo l ops :
  n_tty_ok l ->
  fst (run l ops) = fst (run_ref (queue l) ops) /\ queue (snd (run l ops)) = snd (run_ref (queue l) ops) /\ n_tty_ok (snd (run l ops)).
Proof.
  revert l. induction ops as [|o ops IH]; intros l Hl; [done|]. destruct o as [buf|]; cbn [run run_ref].
  - destruct (receive_buf_ok l buf Hl) as [H1 H2]. rewrite <- H2. by apply IH.
  - pose proof (getchar_ok l Hl) as Hg. destruct (n_tty_getchar_blocking l) as [[c l1]|].
    + destruct Hg as (Hq & H1 & _). rewrite Hq. specialize (IH l1 H1).
      destruct (run l1 ops) as [r l'], (run_ref (queue l1) ops) as [r' q']. cbn [fst snd] in *. destruct IH as (-> & ? & ?). done.
    + rewrite Hg. specialize (IH l Hl). rewrite Hg in IH. destruct (run l ops) as [r l'], (run_ref [] ops) as [r' q'].
      cbn [fst snd] in *. destruct IH as (-> & ? & ?). done.
Qed.

Lemma open_ok : n_tty_ok n_tty_open.
Proof. split; cbn; lia || done. Qed.

Lemma n_tty_refines_fifo_witness :
  fst (run n_tty_open [Receive [97; 13]; Get; Receive [98]; Get; Get; Get]) = [Some 97; Some 10; Some 98; None].
Proof.
  destruct (n_tty_refines_fifo n_tty_open [Receive [97; 13]; Get; Receive [98]; Get; Get; Get] open_ok) as (E & _). rewrite E. by vm_compute.
Defined.

(** ** The line editor *)

Lemma length_line l : n_tty_ok l -> length (line l) = Z.to_nat (line_len l).
Proof. intros [B T C H L N P]. unfold line. rewrite length_take, L. lia. Qed.

Lemma set_line_ok l b n p : n_tty_ok l -> length b = 256%nat -> 0 <= n <= 255 -> 0 <= p -> n_tty_ok (set_line l b n p).
Proof. intros [B T C H L N P] ???. by split. Qed.

Lemma add_char l c :
  n_tty_ok l ->
  let l' := if line_len l + 1 <? 256 then set_line l (zset (linebuf l) (line_len l) c) (line_len l + 1) (line_pos l) else l in
  n_tty_ok l' /\ line l' = take 255 (line l ++ [c]) /\ queue l' = queue l /\ line_pos l' = line_pos l /\ input_count l' = input_count l.
Proof.
  intros Hl l'. pose proof Hl as [B T C H L N P]. unfold l'. destruct (Z.ltb_spec (line_len l + 1) 256) as [Hlt|Hge].
  - split; [apply set_line_ok; try done; [by rewrite length_zset|lia]|]. split; [|done].
    rewrite take_ge by (rewrite length_app, length_line by done; cbn; lia). unfold line, zset. cbn [set_line linebuf line_len].
    rewrite Z2Nat.inj_add by lia. change (Z.to_nat 1) with 1%nat. rewrite Nat.add_1_r.
    rewrite (take_S_r _ _ c) by (apply list_lookup_insert_eq; lia). by rewrite take_insert_ge by lia.
  - split; [done|]. split; [|done]. rewrite take_app_le by (rewrite length_line by done; lia). rewrite take_ge; [done|rewrite length_line by done; lia].
Qed.

Lemma edit_loop_spec fuel flags l out e l' out' :
  n_tty_ok l -> (Z.to_nat (input_count l) <= fuel)%nat -> edit_loop fuel flags l out = (e, l', out') ->
  n_tty_ok l' /\ line_pos l' = line_pos l /\
  match e, edit_ref (line l) (queue l) with
  | LineEnd, Complete ln rest => line l' = ln /\ queue l' = rest
  | Interrupted, Stopped ln rest => line l' = ln /\ queue l' = rest
  | Empty, Waiting ln => line l' = ln /\ queue l' = []
  | _, _ => False
  end.
Proof.
  revert l out. induction fuel as [|fuel IH]; intros l out Hl Hf E; cbn [edit_loop] in E; pose proof (getchar_ok l Hl) as Hg;
    (destruct (n_tty_getchar_blocking l) as [[c l1]|] eqn:Eg; [|injection E as <- <- <-; rewrite Hg; done]).
  { destruct Hg as (Hq & _). apply (f_equal length) in Hq. rewrite length_queue in Hq. cbn in Hq. lia. }
  destruct Hg as (Hq & H1 & L1 & L2 & L3). assert (El : line l1 = line l) by (unfold line; by rewrite L1, L2).
  assert (Hc : (Z.to_nat (input_count l1) <= fuel)%nat).
  { apply (f_equal length) in Hq. cbn [length] in Hq. rewrite !length_queue in Hq. lia. }
  rewrite Hq. cbn [edit_ref]. rewrite <- El. destruct (Z.eqb_spec c 3) as [->|H3]; [injection E as <- <- <-; done|].
  destruct (Z.eqb_spec c 13) as [->|H13].
  { change (10 =? 10) with true in E. cbv iota zeta in E. injection E as <- <- <-. change ((13 =? 10) || (13 =? 13)) with true. cbv iota.
    destruct (add_char l1 10 H1) as (A1 & A2 & A3 & A4 & _). by rewrite A4, A3, A2. }
  destruct (Z.eqb_spec c 10) as [->|H10].
  { cbv iota zeta in E. injection E as <- <- <-. cbn [orb]. destruct (add_char l1 10 H1) as (A1 & A2 & A3 & A4 & _). by rewrite A4, A3, A2. }
  cbn [orb] in *. destruct ((c =? 8) || (c =? 127)).
  - assert (Herase : forall o, (if 0 <? line_len l1 then edit_loop fuel flags (set_line l1 (linebuf l1) (line_len l1 - 1) (line_pos l1)) o
        else edit_loop fuel flags l1 out) = (e, l', out') -> exists l2 o2, edit_loop fuel flags l2 o2 = (e, l', out') /\ n_tty_ok l2 /\
        line l2 = take (length (line l1) - 1) (line l1) /\ queue l2 = queue l1 /\ line_pos l2 = line_pos l1 /\ input_count l2 = input_count l1).
    { pose proof H1 as [B T C H L N P]. intros o Ho. destruct (Z.ltb_spec 0 (line_len l1)).
      - eexists _, o. split; [done|]. split; [apply set_line_ok; try done; lia|]. split; [|done].
        rewrite length_line by done. unfold line. cbn [set_line linebuf line_len]. rewrite take_take. f_equal. lia.
      - eexists l1, out. split; [done|]. split; [done|]. split; [|done]. rewrite length_line by done.
        unfold line. replace (line_len l1) with 0 by lia. done. }
    apply Herase in E as (l2 & o2 & E & A1 & A2 & A3 & A4 & A5). clear Herase.
    destruct (IH l2 o2 A1 ltac:(rewrite A5; done) E) as (B1 & B2 & B3). rewrite A2, A3 in B3. split; [done|]. split; [congruence|done].
  - destruct (add_char l1 c H1) as (A1 & A2 & A3 & A4 & A5).
    assert (Ex : exists o2, edit_loop fuel flags (if line_len l1 + 1 <? 256 then set_line l1 (zset (linebuf l1) (line_len l1) c) (line_len l1 + 1) (line_pos l1) else l1) o2 = (e, l', out')).
    { destruct (line_len l1 + 1 <? 256); by eexists. }
    clear E. destruct Ex as [o2 E]. destruct (IH _ o2 A1 ltac:(rewrite A5; done) E) as (B1 & B2 & B3). rewrite A2, A3 in B3.
    split; [done|]. split; [congruence|done].
Qed.

Lemma copy_line_spec n l acc :
  n_tty_ok l -> line_pos l <= line_len l ->
  exists p, copy_line n l acc = (acc ++ take n (pending l), set_line l (linebuf l) (line_len l) p) /\
    line_pos l <= p <= line_len l /\ drop (Z.to_nat p) (line l) = drop n (pending l).
Proof.
  revert l acc. induction n as [|n IH]; intros l acc Hl Hp; cbn [copy_line].
  { exists (line_pos l). cbn [take]. rewrite app_nil_r, drop_0. destruct l. split_and!; done || cbn in *; lia. }
  pose proof Hl as [B T C H L N P]. destruct (Z.ltb_spec (line_pos l) (line_len l)) as [Hlt|Hge].
  - destruct (IH (set_line l (linebuf l) (line_len l) (line_pos l + 1)) (acc ++ [znth (linebuf l) (line_pos l)])) as (p & E & Hb & Hd);
      [apply set_line_ok; try done; lia|cbn; lia|]. exists p. cbn [set_line line_pos line_len linebuf] in *.
    assert (Epend : pending l = znth (linebuf l) (line_pos l) :: pending (set_line l (linebuf l) (line_len l) (line_pos l + 1))).
    { unfold pending. change (line (set_line l (linebuf l) (line_len l) (line_pos l + 1))) with (line l). cbn [set_line line_pos].
      rewrite Z2Nat.inj_add by lia. change (Z.to_nat 1) with 1%nat. rewrite Nat.add_1_r. apply drop_S. unfold line.
      rewrite lookup_take_lt by lia. apply znth_lookup. unfold zlen. lia. }
    rewrite Epend. cbn [take drop]. split; [|split; [lia|]].
    + rewrite E. f_equal. by rewrite <- app_assoc.
    + by rewrite <- Hd.
  - exists (line_pos l). assert (Ep : pending l = []) by (unfold pending; apply drop_ge; rewrite length_line by done; lia).
    rewrite Ep. cbn [take drop]. rewrite app_nil_r. fold (pending l). rewrite Ep. destruct l. split_and!; done || cbn in *; lia.
Qed.

(** Handing out a finished line. *)
Lemma read_pending fuel flags len l out :
  n_tty_ok l -> has_flag flags TTY_FLAG_CANON = true -> 0 <= line_pos l < line_len l ->
  exists l', read_loop (S fuel) Entered flags len l out = Some (Returned (take (Z.to_nat len) (pending l)), l', out) /\
    n_tty_ok l' /\ queue l' = queue l /\ pending l' = drop (Z.to_nat len) (pending l).
Proof.
  intros Hl Hf Hp. cbn [read_loop]. rewrite Hf. destruct (Z.ltb_spec (line_pos l) (line_len l)); [|lia].
  destruct (copy_line_spec (Z.to_nat len) l [] Hl ltac:(lia)) as (p & E & Hb & Hd). rewrite E. cbn [app]. cbn [set_line line_len line_pos linebuf].
  pose proof Hl as [B T C Hh L N P]. eexists. split; [done|]. destruct (Z.leb_spec (line_len l) p) as [Hge|Hlt].
  - split; [apply set_line_ok; try done; [apply set_line_ok; done || lia|lia..]|]. split; [done|].
    rewrite <- Hd. unfold pending, line. cbn [set_line line_len line_pos linebuf]. rewrite drop_ge; [|rewrite length_take; lia].
    rewrite drop_ge; [done|]. rewrite length_take. lia.
  - split; [apply set_line_ok; done || lia|]. split; [done|]. rewrite <- Hd. done.
Qed.

(** Editing, and then handing out the line. *)
Lemma read_edit n f flags len l out :
  n_tty_ok l -> has_flag flags TTY_FLAG_CANON = true -> line_pos l = 0 ->
  match edit_ref (line l) (queue l) with
  | Complete ln rest => exists l' o, read_loop (S (S n)) (Editing f) flags len l out = Some (Returned (take (Z.to_nat len) ln), l', o) /\
      n_tty_ok l' /\ queue l' = rest /\ pending l' = drop (Z.to_nat len) ln
  | Stopped ln rest => exists l' o, read_loop (S (S n)) (Editing f) flags len l out = Some (Returned [], l', o) /\
      n_tty_ok l' /\ queue l' = rest /\ pending l' = ln
  | Waiting ln => exists l' o, read_loop (S (S n)) (Editing f) flags len l out = Some (Blocked (Editing f), l', o) /\
      n_tty_ok l' /\ queue l' = [] /\ line l' = ln /\ line_pos l' = 0
  end.
Proof.
  intros Hl Hc Hp. change (read_loop (S (S n)) (Editing f) flags len l out) with
    (match edit_loop (Z.to_nat (input_count l)) f l out with
     | (LineEnd, l1, out1) => read_loop (S n) Entered flags len l1 out1
     | (Interrupted, l1, out1) => Some (Returned [], l1, out1)
     | (Empty, l1, out1) => Some (Blocked (Editing f), l1, out1)
     end).
  destruct (edit_loop (Z.to_nat (input_count l)) f l out) as [[e l1] o1] eqn:E.
  destruct (edit_loop_spec _ _ _ _ _ _ _ Hl (le_n _) E) as (H1 & H2 & H3).
  destruct e, (edit_ref (line l) (queue l)) as [ln rest|ln rest|ln] eqn:Er; try done.
  - destruct H3 as [H3 H4]. assert (Hpos : ln <> []).
    { clear -Er. revert Er. generalize (line l) as x. induction (queue l) as [|c cs IH]; intros x; cbn [edit_ref]; [done|].
      destruct (c =? 3); [done|]. destruct ((c =? 10) || (c =? 13)); [intros [= <- _]; by destruct x|]. destruct ((c =? 8) || (c =? 127)); apply IH. }
    assert (Hlen : 0 < line_len l1).
    { apply (f_equal length) in H3. rewrite length_line in H3 by done. destruct ln; [done|]. cbn in H3. lia. }
    destruct (read_pending n flags len l1 o1 H1 Hc ltac:(lia)) as (l' & E' & K1 & K2 & K3).
    assert (Ep : pending l1 = ln) by (unfold pending; rewrite H2, Hp, drop_0; done). rewrite Ep in *.
    exists l', o1. split_and!; try done. congruence.
  - destruct H3 as [H3 H4]. exists l1, o1. split_and!; try done. unfold pending. rewrite H2, Hp, drop_0. done.
  - destruct H3 as [H3 H4]. exists l1, o1. split_and!; try done. congruence.
Qed.

Lemma read_enter flags len l out :
  n_tty_ok l -> has_flag flags TTY_FLAG_CANON = true -> line_len l <= line_pos l ->
  read_loop 3 Entered flags len l out = read_loop 3 (Editing flags) flags len (set_line l (linebuf l) 0 0) out.
Proof.
  intros Hl Hc Hp. change (read_loop 3 Entered flags len l out) with
    (if has_flag flags TTY_FLAG_CANON then
       if line_pos l <? line_len l then
         let '(bytes, l1) := copy_line (Z.to_nat len) l [] in
         Some (Returned bytes, if line_len l1 <=? line_pos l1 then set_line l1 (linebuf l1) 0 0 else l1, out)
       else read_loop 3 (Editing flags) flags len (set_line l (linebuf l) 0 0) out
     else match n_tty_getchar_blocking l with
          | None => Some (Blocked Entered, l, out)
          | Some (c, l1) => if c =? 3 then Some (Returned [], l1, out ++ [Interrupt]) else Some (Returned [c], l1, out)
          end).
  rewrite Hc. destruct (Z.ltb_spec (line_pos l) (line_len l)); [lia|done].
Qed.

(** C25: a canonical read returns lines: an unread rest of a line first, otherwise the
    line the reference editor makes of the waiting characters (from the line begun
    before the reader blocked, if it did), cut to the size of the caller's buffer
    with the rest kept for the next read; it blocks exactly when no line is
    complete.  After an interrupt character the read returns nothing, but the
    unfinished line stays and the next read returns it as if it were complete. *)
Theorem n_tty_read_correct r flags len l :
  n_tty_ok l -> has_flag flags TTY_FLAG_CANON = true -> 0 < len -> (r <> Entered -> line_pos l = 0) ->
  if decide (r = Entered /\ line_pos l < line_len l)
  then exists l', n_tty_read r flags len l = Some (Returned (take (Z.to_nat len) (pending l)), l', []) /\
         n_tty_ok l' /\ queue l' = queue l /\ pending l' = drop (Z.to_nat len) (pending l)
  else
    match edit_ref (if decide (r = Entered) then [] else line l) (queue l) with
    | Complete ln rest => exists l' o, n_tty_read r flags len l = Some (Returned (take (Z.to_nat len) ln), l', o) /\
        n_tty_ok l' /\ queue l' = rest /\ pending l' = drop (Z.to_nat len) ln
    | Stopped ln rest => exists l' o, n_tty_read r flags len l = Some (Returned [], l', o) /\
        n_tty_ok l' /\ queue l' = rest /\ pending l' = ln
    | Waiting ln => exists f l' o, n_tty_read r flags len l = Some (Blocked (Editing f), l', o) /\
        n_tty_ok l' /\ queue l' = [] /\ line l' = ln /\ line_pos l' = 0
    end.
Proof.
  intros Hl Hc Hlen Hr. unfold n_tty_read. destruct (Z.eqb_spec len 0); [lia|]. pose proof (nt_pos _ Hl). case_decide as Hcase.
  - destruct Hcase as [-> Hlt]. by apply read_pending.
  - destruct r as [|f].
    + rewrite decide_True by done. assert (Hge : line_len l <= line_pos l) by (destruct (decide (line_pos l < line_len l)); [tauto|lia]).
      rewrite read_enter by done. pose proof Hl as [B T C Hh L N P].
      pose proof (read_edit 1 flags flags len (set_line l (linebuf l) 0 0) [] ltac:(apply set_line_ok; done || lia) Hc eq_refl) as H1.
      change (line (set_line l (linebuf l) 0 0)) with (@nil Z) in H1. change (queue (set_line l (linebuf l) 0 0)) with (queue l) in H1.
      destruct (edit_ref [] (queue l)); [done|done|]. by exists flags.
    + rewrite decide_False by done. pose proof (read_edit 1 f flags len l [] Hl Hc (Hr ltac:(done))) as H1.
      destruct (edit_ref (line l) (queue l)); [done|done|]. by exists f.
Qed.

(** ["ab^Hc\n"], read with room for two bytes. *)
Definition typed : n_tty_data := Eval vm_compute in n_tty_receive_buf n_tty_open [97; 98; 8; 99; 13; 100].

Lemma n_tty_read_correct_witness :
  exists l' o, n_tty_read Entered 3 2 typed = Some (Returned [97; 99], l', o) /\ queue l' = [100] /\ pending l' = [10].
Proof.
  assert (Hl : n_tty_ok typed) by (change typed with (n_tty_receive_buf n_tty_open [97; 98; 8; 99; 13; 100]); apply receive_buf_ok, open_ok).
  pose proof (n_tty_read_correct Entered 3 2 typed Hl eq_refl eq_refl (fun H => False_rect _ (H eq_refl))) as H.
  rewrite decide_False in H by (intros [_ H']; vm_compute in H'; done).
  destruct H as (l' & o & E & _ & Hq & Hp). exists l', o. exact (conj E (conj Hq Hp)).
Defined.
