(* ===== verification/Files.v ===== *)
(** * Open files and descriptor tables ([fs/file.c], [sys_open] and [sys_close] of
    [fs/open.c])

    Open files are the values of a finite map from their addresses; every task
    has a table of 32 descriptors.  Directory entries, inodes and path lookup are
    the interface [FsOps]; its state is threaded through the calls. *)

From stdpp Require Import base tactics numbers list gmap sets.
From Stdlib Require Import ZArith Lia.
From S2P Require Import Prelude.

Definition TASK_FD_MAX : nat := 32.
Definition VFS_O_CREAT : Z := 64.
Definition VFS_O_TRUNC : Z := 512.
Definition FS_FILE : Z := 1.
Definition FS_DIRECTORY : Z := 2.
Definition LAST_NORM : Z := 0.

Record file : Type := File { dentry : Z; fpos : Z; fflags : Z; refcount : Z }.

Record fdtable : Type := FdTable { used : list bool; fd : list (option Z) }.

#[export] Instance fdtable_inhabited : Inhabited fdtable := populate (FdTable (replicate 32 false) (replicate 32 None)).

(** What the open-file layer uses of [fs/namei.c], [fs/dcache.c], [fs/inode.c] and of
    the file systems.  It relies on no property of them. *)
Class FsOps (R : Type) := {
  kern_path : list Z -> R -> option Z * R;
  filename_parentat : list Z -> R -> option (Z * list Z * Z) * R;
  d_inode : Z -> R -> option Z;
  i_flags : Z -> R -> Z;
  create_fs : Z -> list Z -> R -> option Z * R;
  d_lookup : Z -> list Z -> R -> option Z;
  d_alloc : Z -> list Z -> R -> option Z * R;
  (** [new_d->inode = created], and clearing [DENTRY_NEGATIVE] *)
  set_d_inode : Z -> Z -> R -> R;
  clear_negative : Z -> R -> R;
  (** [vfs_dentry_get] with an empty name *)
  vfs_dentry_get : Z -> R -> option Z * R;
  d_ref : Z -> R -> R;
  d_put : Z -> R -> R;
  open_fs : Z -> R -> R;
  close_fs : Z -> R -> R;
  vfs_check_access : Z -> bool -> bool -> bool -> R -> bool;
  truncate : Z -> R -> R;
  read_fs : Z -> Z -> Z -> R -> Z * R;
  write_fs : Z -> Z -> Z -> R -> Z * R;
}.

Section files.
Context {M : Type} `{!KAlloc M} {R : Type} `{!FsOps R}.
(** [sizeof(struct file)] *)
Context (sizeof_file : Z).

Record fstate : Type := FState { files : gmap Z file; tables : gmap Z fdtable; fheap : M; fsr : R }.
Implicit Types (s : fstate) (t f : Z) (i : nat).

Definition with_files s v := FState v (tables s) (fheap s) (fsr s).
Definition with_tables s v := FState (files s) v (fheap s) (fsr s).
Definition with_fsr s v := FState (files s) (tables s) (fheap s) v.

Definition table s t : fdtable := default inhabitant (tables s !! t).
Definition is_used s t i : bool := default false (used (table s t) !! i).
Definition fd_at s t i : option Z := default None (fd (table s t) !! i).

(** [used[i] = u; fd[i] = f;] *)
Definition set_slot t i (u : bool) (f : option Z) s : fstate :=
  with_tables s (alter (fun b => FdTable (<[i := u]> (used b)) (<[i := f]> (fd b))) t (tables s)).

(** ** Open files *)

Definition vfs_open_dentry (d flags : Z) s : option Z * fstate :=
  match d_inode d (fsr s) with
  | None => (None, s)
  | Some node =>
      match kmalloc sizeof_file (fheap s) with
      | (None, h) => (None, FState (files s) (tables s) h (fsr s))
      | (Some f, h) => (Some f, FState (<[f := File d 0 flags 1]> (files s)) (tables s) h (open_fs node (d_ref d (fsr s))))
      end
  end.

Definition is_dir (node : Z) (r : R) : bool := Z.land (i_flags node r) 7 =? FS_DIRECTORY.

(** The first part of [vfs_open]: the entry for the path, created if asked for. *)
Definition open_lookup (path : list Z) (flags : Z) (r : R) : option Z * R :=
  let '(found, r1) := kern_path path r in
  match found ≫= (fun d => d_inode d r1) with
  | Some _ => (found, r1)
  | None =>
      if negb (Z.land flags VFS_O_CREAT =? 0) then
        match filename_parentat path r1 with
        | (None, r2) => (None, r2)
        | (Some (par, name, last_type), r2) =>
            if negb (last_type =? LAST_NORM) then (None, r2) else
            match d_inode par r2 with
            | None => (None, r2)
            | Some dir =>
                if negb (is_dir dir r2) then (None, r2) else
                match create_fs dir name r2 with
                | (None, r3) => (None, r3)
                | (Some created, r3) =>
                    match d_lookup par name r3 with
                    | Some d => (Some d, clear_negative d (set_d_inode d created r3))
                    | None =>
                        match d_alloc par name r3 with
                        | (None, r4) => (None, r4)
                        | (Some d, r4) => (Some d, set_d_inode d created r4)
                        end
                    end
                end
            end
        end
      else (found, r1)
  end.

Definition vfs_open (path : list Z) (flags : Z) s : option Z * fstate :=
  let '(found, r) := open_lookup path flags (fsr s) in
  let s := with_fsr s r in
  match found with
  | None => (None, s)
  | Some d =>
      match d_inode d r with
      | None => (None, s)
      | Some node =>
          let trunc := negb (Z.land flags VFS_O_TRUNC =? 0) in
          let allowed := if is_dir node r then vfs_check_access node true false true r
                         else vfs_check_access node true trunc false r in
          if negb allowed then (None, s) else
          match vfs_open_dentry d flags s with
          | (None, s1) => (None, s1)
          | (Some f, s1) =>
              if trunc && (Z.land (i_flags node (fsr s1)) 7 =? FS_FILE)
              then (Some f, with_fsr s1 (truncate node (fsr s1))) else (Some f, s1)
          end
      end
  end.

Definition vfs_open_node (node flags : Z) s : option Z * fstate :=
  match vfs_dentry_get node (fsr s) with
  | (None, r) => (None, with_fsr s r)
  | (Some d, r) =>
      let '(f, s1) := vfs_open_dentry d flags (with_fsr s r) in
      (f, with_fsr s1 (d_put d (fsr s1)))
  end.

(** [vfs_read] and [vfs_write]: the bytes transferred; the buffer is not modelled. *)
Definition vfs_read f (len : Z) s : Z * fstate :=
  match files s !! f with
  | None => (0, s)
  | Some x =>
      match d_inode (dentry x) (fsr s) with
      | None => (0, s)
      | Some node =>
          if negb (vfs_check_access node true false false (fsr s)) then (0, s) else
          let '(n, r) := read_fs node (fpos x) len (fsr s) in
          (n, FState (<[f := File (dentry x) (fpos x +w n) (fflags x) (refcount x)]> (files s)) (tables s) (fheap s) r)
      end
  end.

Definition vfs_write f (len : Z) s : Z * fstate :=
  match files s !! f with
  | None => (0, s)
  | Some x =>
      match d_inode (dentry x) (fsr s) with
      | None => (0, s)
      | Some node =>
          if negb (vfs_check_access node false true false (fsr s)) then (0, s) else
          let '(n, r) := write_fs node (fpos x) len (fsr s) in
          (n, FState (<[f := File (dentry x) (fpos x +w n) (fflags x) (refcount x)]> (files s)) (tables s) (fheap s) r)
      end
  end.

Definition set_refcount (n : Z) (x : file) : file := File (dentry x) (fpos x) (fflags x) n.

Definition vfs_close f s : fstate :=
  match files s !! f with
  | None => s
  | Some x =>
      if 1 <? refcount x then with_files s (<[f := set_refcount (refcount x - 1) x]> (files s))
      else
        let r1 := match d_inode (dentry x) (fsr s) with Some node => close_fs node (fsr s) | None => fsr s end in
        FState (delete f (files s)) (tables s) (kfree f (fheap s)) (d_put (dentry x) r1)
  end.

Definition file_dup f s : fstate := with_files s (alter (fun x => set_refcount (refcount x +w 1) x) f (files s)).
Definition file_close f s : fstate := vfs_close f s.

(** ** Descriptor tables *)

Definition files_init t s : fstate := with_tables s (<[t := inhabitant]> (tables s)).

Definition close_slot t s i : fstate :=
  if is_used s t i
  then set_slot t i false None (match fd_at s t i with Some f => file_close f s | None => s end)
  else s.

Definition files_close_all t s : fstate := foldl (close_slot t) s (seq 0 TASK_FD_MAX).

Definition clone_slot (dst src : Z) s i : fstate :=
  match fd_at s src i with
  | Some f => if is_used s src i then set_slot dst i true (Some f) (file_dup f s) else s
  | None => s
  end.

Definition files_clone (dst src : Z) s : fstate := foldl (clone_slot dst src) s (seq 0 TASK_FD_MAX).

(** [c] is the current task. *)
Definition get_unused_fd (c f : Z) s : Z * fstate :=
  match List.find (fun i => negb (is_used s c i)) (seq 3 29) with
  | Some i => (Z.of_nat i, set_slot c i true (Some f) s)
  | None => (-1, s)
  end.

Definition fget (c n : Z) s : option Z :=
  if (n <? 0) || (32 <=? n) then None
  else if negb (is_used s c (Z.to_nat n)) then None else fd_at s c (Z.to_nat n).

Definition close_fd (c n : Z) s : Z * fstate :=
  if n <? 3 then (-1, s) else
  match fget c n s with
  | None => (-1, s)
  | Some f => (0, set_slot c (Z.to_nat n) false None (file_close f s))
  end.

(** [used[i] = 1; fd[i] = file_open_node(console, 0);] *)
Definition install_one (c console : Z) s i : fstate :=
  let '(f, s1) := vfs_open_node console 0 s in set_slot c i true f s1.

Definition install_stdio (c console : Z) s : fstate := foldl (install_one c console) s [0%nat; 1%nat; 2%nat].

(** [name] is the path after the copy from the caller. *)
Definition sys_open (c : Z) (name : list Z) (flags : Z) s : Z * fstate :=
  match vfs_open name flags s with
  | (None, s1) => (-1, s1)
  | (Some f, s1) => get_unused_fd c f s1
  end.

Definition sys_close (c n : Z) s : Z * fstate := close_fd c n s.
End files.

(** ** Counting descriptors *)

(** All descriptors of all tasks; [count D f] of them refer to [f]. *)
Definition count (D : gmap (Z * nat) Z) (f : Z) : Z := count_if (fun g => g = f) D.

Lemma count_insert D k f g : D !! k = None -> count (<[k := f]> D) g = count D g + (if decide (g = f) then 1 else 0).
Proof. intros Hk. unfold count. rewrite count_if_insert by done. f_equal. by apply decide_ext. Qed.

Lemma count_delete D k f g : D !! k = Some f -> count (delete k D) g = count D g - (if decide (g = f) then 1 else 0).
Proof. intros Hk. unfold count. rewrite (count_if_delete _ _ k f) by done. f_equal. by apply decide_ext. Qed.

Lemma count_nonneg D f : 0 <= count D f.
Proof. apply count_if_nonneg. Qed.

Lemma count_pos D k f : D !! k = Some f -> 1 <= count D f.
Proof. intros Hk. by apply (count_if_pos _ D k f). Qed.

Section invariant.
Context {M : Type} `{!KAlloc M, !KAllocSpec M} {R : Type} `{!FsOps R}.
Context (sizeof_file : Z).
Notation fstate := (fstate (M := M) (R := R)).
Implicit Types (s : fstate) (t f : Z) (i : nat) (D : gmap (Z * nat) Z) (E : Z -> Z).

(** The reference count of an open file is the number of descriptors that refer to
    it, plus [E f] references held elsewhere; descriptors refer to open files;
    open files are allocated. *)
Record files_ok D E s : Prop := FilesOk {
  fo_len t b : tables s !! t = Some b -> length (used b) = 32%nat /\ length (fd b) = 32%nat;
  fo_slot t i f : D !! (t, i) = Some f <-> is_used s t i = true /\ fd_at s t i = Some f;
  fo_ref f x : files s !! f = Some x -> refcount x = count D f + E f /\ 1 <= refcount x < 4294967296;
  fo_open t i f : D !! (t, i) = Some f -> is_Some (files s !! f);
  fo_extra f : 0 <= E f;
  fo_closed f : files s !! f = None -> E f = 0;
  fo_heap : km_ok (fheap s);
  fo_live f : is_Some (files s !! f) -> f ∈ live (fheap s);
}.

Definition has_table s t : Prop := is_Some (tables s !! t).

Lemma is_used_table s t i : is_used s t i = true -> has_table s t.
Proof.
  unfold is_used, table, has_table. destruct (tables s !! t); [by eexists|].
  change (default false (replicate 32 false !! i) = true -> is_Some (@None fdtable)).
  destruct (replicate 32 false !! i) as [b|] eqn:Eb; [|done]. by apply lookup_replicate in Eb as [-> _].
Qed.

Lemma fd_at_range D E s t i : files_ok D E s -> is_used s t i = true -> (i < 32)%nat.
Proof.
  intros Hs Hu. destruct (is_used_table _ _ _ Hu) as [b Hb]. unfold is_used, table in Hu. rewrite Hb in Hu. cbn in Hu.
  destruct (fo_len _ _ _ Hs t b Hb) as [L _]. rewrite <- L. apply lookup_lt_is_Some. destruct (used b !! i); [by eexists|done].
Qed.

Lemma set_slot_view D E s t i u (f : option Z) t' i' :
  files_ok D E s -> has_table s t -> (i < 32)%nat ->
  is_used (set_slot t i u f s) t' i' = (if decide ((t', i') = (t, i)) then u else is_used s t' i') /\
  fd_at (set_slot t i u f s) t' i' = (if decide ((t', i') = (t, i)) then f else fd_at s t' i').
Proof.
  intros Hs [b Hb] Hi. destruct (fo_len _ _ _ Hs t b Hb) as [L1 L2]. unfold is_used, fd_at, table, set_slot. cbn [with_tables tables].
  destruct (decide (t' = t)) as [->|Ht].
  - rewrite lookup_alter_eq, Hb. cbn. destruct (decide (i' = i)) as [->|Hi'].
    + rewrite !decide_True by done. by rewrite !list_lookup_insert_eq by lia.
    + rewrite !(decide_False (P := (t, i') = (t, i))) by congruence. by rewrite !list_lookup_insert_ne by done.
  - rewrite lookup_alter_ne by done. rewrite !decide_False by congruence. done.
Qed.

Lemma set_slot_len D E s t i u (f : option Z) : files_ok D E s -> forall t' b, tables (set_slot t i u f s) !! t' = Some b -> length (used b) = 32%nat /\ length (fd b) = 32%nat.
Proof.
  intros Hs t' b Hb. unfold set_slot in Hb. cbn [with_tables tables] in Hb. destruct (decide (t = t')) as [<-|Hne].
  - rewrite lookup_alter_eq in Hb. destruct (tables s !! t) as [b0|] eqn:E0; [|done]. cbn in Hb. injection Hb as <-. cbn.
    rewrite !length_insert. by eapply fo_len.
  - rewrite lookup_alter_ne in Hb by done. by eapply fo_len.
Qed.

(** Closing a descriptor. *)
Lemma close_ok D E s t i f :
  files_ok D E s -> D !! (t, i) = Some f -> files_ok (delete (t, i) D) E (set_slot t i false None (file_close f s)).
Proof.
  intros Hs HD. pose proof (proj1 (fo_slot _ _ _ Hs t i f) HD) as [Hu Hf]. pose proof (fd_at_range _ _ _ _ _ Hs Hu) as Hi.
  pose proof (is_used_table _ _ _ Hu) as Ht. destruct (fo_open _ _ _ Hs t i f HD) as [x Hx]. destruct (fo_ref _ _ _ Hs f x Hx) as [Hr Hb].
  pose proof (count_delete D (t, i) f) as Hc. specialize (Hc f HD) as Hcf. rewrite decide_True in Hcf by done.
  set (s1 := file_close f s). assert (T1 : tables s1 = tables s) by (unfold s1, file_close, vfs_close; rewrite Hx; by destruct (1 <? refcount x)).
  assert (Hfiles : forall g y, files s1 !! g = Some y -> (g <> f /\ files s !! g = Some y) \/ (g = f /\ refcount y = refcount x - 1 /\ 1 < refcount x)).
  { intros g y. unfold s1, file_close, vfs_close. rewrite Hx. destruct (Z.ltb_spec 1 (refcount x)) as [H1|H1]; cbn [with_files files].
    - intros [[<- <-]|[? ?]]%lookup_insert_Some; [by right|left; by split].
    - intros [? ?]%lookup_delete_Some. left. by split. }
  assert (Hother : forall g, g <> f -> files s1 !! g = files s !! g).
  { intros g Hg. unfold s1, file_close, vfs_close. rewrite Hx. destruct (1 <? refcount x); cbn [with_files files]; [by rewrite lookup_insert_ne|by rewrite lookup_delete_ne]. }
  assert (Hsame : 1 < refcount x -> is_Some (files s1 !! f)).
  { intros H. unfold s1, file_close, vfs_close. rewrite Hx. destruct (Z.ltb_spec 1 (refcount x)); [|lia]. cbn. rewrite lookup_insert_eq. by eexists. }
  assert (Hview : forall t' i', is_used s1 t' i' = is_used s t' i' /\ fd_at s1 t' i' = fd_at s t' i').
  { intros. unfold is_used, fd_at, table. by rewrite T1. }
  assert (Hs1 : forall t' b, tables s1 !! t' = Some b -> length (used b) = 32%nat /\ length (fd b) = 32%nat) by (rewrite T1; apply Hs).
  assert (Hheap : km_ok (fheap s1) /\ forall g, is_Some (files s1 !! g) -> g ∈ live (fheap s1)).
  { pose proof (fo_heap _ _ _ Hs) as Hk. pose proof (fo_live _ _ _ Hs) as Hl. unfold s1, file_close, vfs_close. rewrite Hx.
    destruct (1 <? refcount x); cbn [with_files files fheap].
    - split; [done|]. intros g Hg. apply Hl. destruct (decide (g = f)) as [->|]; [by eexists|]. by rewrite lookup_insert_ne in Hg.
    - destruct (kfree_live f (fheap s) Hk) as [K1 K2]; [apply Hl; by eexists|]. split; [done|]. intros g [y [Hg Hy]%lookup_delete_Some].
      rewrite K2. apply elem_of_difference. split; [apply Hl; by eexists|]. apply not_elem_of_singleton. congruence. }
  assert (Hslot : forall t' i', is_used (set_slot t i false None s1) t' i' = (if decide ((t', i') = (t, i)) then false else is_used s t' i') /\
    fd_at (set_slot t i false None s1) t' i' = (if decide ((t', i') = (t, i)) then None else fd_at s t' i')).
  { intros t' i'. change (set_slot t i false None s1) with (with_files (FState (files s1) (tables (set_slot t i false None s1)) (fheap s1) (fsr s1)) (files s1)).
    destruct (set_slot_view D E s t i false None t' i' Hs Ht Hi) as [V1 V2]. rewrite <- V1, <- V2. unfold is_used, fd_at, table, set_slot.
    cbn [with_files with_tables tables]. by rewrite T1. }
  split.
  - intros t' b Hb'. eapply (set_slot_len D E s t i false None Hs t' b). unfold set_slot in *. cbn [with_tables tables] in *. by rewrite <- T1.
  - intros t' i' g. destruct (Hslot t' i') as [-> ->]. rewrite lookup_delete_Some. case_decide as Hd; [split; [intros [? _]; congruence|by intros [? _]]|].
    rewrite (fo_slot _ _ _ Hs). split; [by intros [_ ?]|]. intros ?. split; [congruence|done].
  - intros g y Hy. change (files s1 !! g = Some y) in Hy. destruct (Hfiles g y Hy) as [[Hne Hg]|(-> & Hr' & H1)].
    + rewrite (Hc g HD), decide_False by done. destruct (fo_ref _ _ _ Hs g y Hg). split; [lia|done].
    + rewrite Hcf. split; lia.
  - intros t' i' g Hg0. pose proof Hg0 as [_ Hg]%lookup_delete_Some. change (is_Some (files s1 !! g)). destruct (decide (g = f)) as [->|Hne].
    + apply Hsame. apply count_pos in Hg0. pose proof (fo_extra _ _ _ Hs f). lia.
    + rewrite Hother by done. by eapply fo_open.
  - apply Hs.
  - intros g Hg. change (files s1 !! g = None) in Hg. destruct (decide (g = f)) as [->|Hne]; [|rewrite Hother in Hg by done; by eapply fo_closed].
    pose proof (fo_extra _ _ _ Hs f). pose proof (count_pos D (t, i) f HD). destruct (Z_lt_le_dec 1 (refcount x)) as [H1|H1]; [|lia].
    destruct (Hsame H1). congruence.
  - apply Hheap.
  - intros g Hg. by apply Hheap.
Qed.

(** Changes of the tables alone. *)
Lemma tables_ok D E D' E' s s' :
  files_ok D E s -> files s' = files s -> fheap s' = fheap s ->
  (forall t b, tables s' !! t = Some b -> length (used b) = 32%nat /\ length (fd b) = 32%nat) ->
  (forall t i f, D' !! (t, i) = Some f <-> is_used s' t i = true /\ fd_at s' t i = Some f) ->
  (forall f x, files s !! f = Some x -> count D' f + E' f = count D f + E f) ->
  (forall t i f, D' !! (t, i) = Some f -> is_Some (files s !! f)) ->
  (forall f, 0 <= E' f) -> (forall f, files s !! f = None -> E' f = 0) -> files_ok D' E' s'.
Proof.
  intros [A B C F G H I J] E1 E2 T1 T2 T3 T4 T5 T6. split; rewrite ?E1, ?E2; try done.
  intros f x Hx. destruct (C f x Hx). rewrite (T3 f x Hx). done.
Qed.

(** A used slot without a file is cleared. *)
Lemma clear_ok D E s t i :
  files_ok D E s -> is_used s t i = true -> fd_at s t i = None -> files_ok D E (set_slot t i false None s).
Proof.
  intros Hs Hu Hf. pose proof (fd_at_range _ _ _ _ _ Hs Hu) as Hi. pose proof (is_used_table _ _ _ Hu) as Ht.
  apply (tables_ok D E D E s); try done; try apply Hs.
  - by eapply set_slot_len.
  - intros t' i' f. destruct (set_slot_view D E s t i false None t' i' Hs Ht Hi) as [-> ->]. rewrite (fo_slot _ _ _ Hs).
    case_decide as Hd; [|done]. injection Hd as -> ->. rewrite Hf. split; intros [? ?]; done.
Qed.

Definition bump (d : Z) f E : Z -> Z := fun g => if decide (g = f) then E g + d else E g.

(** A descriptor takes over a reference. *)
Lemma install_ok D E s t i f :
  files_ok D E s -> has_table s t -> (i < 32)%nat -> is_used s t i = false -> is_Some (files s !! f) -> 1 <= E f ->
  files_ok (<[(t, i) := f]> D) (bump (-1) f E) (set_slot t i true (Some f) s).
Proof.
  intros Hs Ht Hi Hu Hf HE.
  assert (HD : D !! (t, i) = None).
  { destruct (D !! (t, i)) as [g|] eqn:Eg; [|done]. apply (fo_slot _ _ _ Hs) in Eg as [? _]. congruence. }
  apply (tables_ok D E _ _ s); try done.
  - by eapply set_slot_len.
  - intros t' i' g. destruct (set_slot_view D E s t i true (Some f) t' i' Hs Ht Hi) as [-> ->]. case_decide as Hd.
    + injection Hd as -> ->. rewrite lookup_insert_eq. split; [by intros [= ->]|by intros [_ [= ->]]].
    + rewrite lookup_insert_ne by congruence. apply (fo_slot _ _ _ Hs).
  - intros g x Hg. rewrite count_insert by done. unfold bump. destruct (decide (g = f)); lia.
  - intros t' i' g [[_ <-]|[_ Hg]]%lookup_insert_Some; [done|by eapply fo_open].
  - intros g. unfold bump. pose proof (fo_extra _ _ _ Hs g). case_decide; subst; lia.
  - intros g Hg. unfold bump. case_decide as Hd; [subst; rewrite Hg in Hf; by destruct Hf|by eapply fo_closed].
Qed.

(** A new reference to an open file. *)
Lemma dup_ok D E s f : files_ok D E s -> (forall x, files s !! f = Some x -> refcount x < 4294967295) -> is_Some (files s !! f) ->
  files_ok D (bump 1 f E) (file_dup f s).
Proof.
  intros Hs Hlt [x Hx]. specialize (Hlt x Hx). destruct (fo_ref _ _ _ Hs f x Hx) as [Hr Hb].
  assert (Hl : forall g y, files (file_dup f s) !! g = Some y -> exists y0, files s !! g = Some y0 /\ refcount y = refcount y0 + if decide (g = f) then 1 else 0).
  { intros g y. cbn [file_dup with_files files]. destruct (decide (g = f)) as [->|Hne].
    - rewrite lookup_alter_eq, Hx. cbn. intros [= <-]. exists x. split; [done|]. cbn. rewrite add32_id by lia. done.
    - rewrite lookup_alter_ne by done. intros Hy. exists y. split; [done|lia]. }
  assert (Hd : forall g, is_Some (files (file_dup f s) !! g) <-> is_Some (files s !! g)).
  { intros g. cbn [file_dup with_files files]. by rewrite lookup_alter_is_Some. }
  pose proof Hs as [A B C F G H I J]. split; try done.
  - intros g y Hy. destruct (Hl g y Hy) as (y0 & H0 & ->). destruct (C g y0 H0) as [C1 C2]. unfold bump. case_decide as Hg; [|lia].
    subst g. rewrite Hx in H0. injection H0 as <-. lia.
  - intros t i g Hg. apply Hd. by eapply F.
  - intros g. unfold bump. specialize (G g). case_decide; lia.
  - intros g Hg. unfold bump. case_decide as Hgf; [subst|].
    + assert (Hn : ~ is_Some (files (file_dup f s) !! f)) by (rewrite Hg; by intros [? ?]). rewrite Hd, Hx in Hn. exfalso. apply Hn. by eexists.
    + apply H. apply eq_None_not_Some. rewrite <- Hd, Hg. by intros [? ?].
  - intros g Hg. apply J. by apply Hd.
Qed.

Lemma bump_cancel f E g : bump (-1) f (bump 1 f E) g = E g.
Proof. unfold bump. repeat case_decide; lia. Qed.

Lemma files_ok_ext D E E' s : (forall f, E f = E' f) -> files_ok D E s -> files_ok D E' s.
Proof.
  intros HE [A B C F G H I J]. split; try done.
  - intros f x Hx. rewrite <- HE. by apply C.
  - intros f. rewrite <- HE. apply G.
  - intros f Hf. rewrite <- HE. by apply H.
Qed.

(** The state of the file systems does not matter. *)
Lemma fsr_ok D E s r : files_ok D E s -> files_ok D E (with_fsr s r).
Proof. intros [A B C F G H I J]. by split. Qed.

Lemma count_closed D E s p : files_ok D E s -> files s !! p = None -> count D p = 0.
Proof.
  intros Hs Hp. apply count_if_none. intros [t i] g Hg ->. apply (fo_open _ _ _ Hs) in Hg as [? ?]. congruence.
Qed.

Lemma open_dentry_ok D E s d flags (f : option Z) s' :
  files_ok D E s -> vfs_open_dentry sizeof_file d flags s = (f, s') ->
  match f with
  | None => files_ok D E s' /\ files s' = files s
  | Some f => files_ok D (bump 1 f E) s' /\ files s !! f = None /\ is_Some (files s' !! f) /\ tables s' = tables s /\
      forall g, g <> f -> files s' !! g = files s !! g
  end.
Proof.
  intros Hs. pose proof Hs as [A B C F G H I J]. unfold vfs_open_dentry. destruct (d_inode d (fsr s)) as [node|]; [|intros [= <- <-]; done].
  destruct (kmalloc sizeof_file (fheap s)) as [[p|] h] eqn:Ek; intros [= <- <-].
  - destruct (kmalloc_some _ _ _ _ I Ek) as (K1 & K2 & K3 & K4).
    assert (Hp : files s !! p = None) by (apply eq_None_not_Some; intros Hp; by apply K3, J).
    pose proof (count_closed D E s p Hs Hp) as Hc.
    split; [|split; [done|split; [cbn; rewrite lookup_insert_eq; by eexists|split; [done|intros g Hg; cbn; by rewrite lookup_insert_ne]]]].
    split; cbn [files tables fheap]; try done.
    + intros g x [[<- <-]|[Hne Hg]]%lookup_insert_Some; cbn; unfold bump.
      * rewrite decide_True by done. rewrite Hc, (H p Hp). lia.
      * rewrite decide_False by done. by apply C.
    + intros t i g Hg. apply F in Hg as Hg'. destruct (decide (g = p)) as [->|Hne]; [by rewrite lookup_insert_eq; eexists|by rewrite lookup_insert_ne].
    + intros g. unfold bump. specialize (G g). case_decide; lia.
    + intros g [Hg Hne]%lookup_insert_None. unfold bump. rewrite decide_False by done. by apply H.
    + intros g Hg. rewrite K4. destruct (decide (g = p)) as [->|Hne]; [set_solver|]. rewrite lookup_insert_ne in Hg by done. apply J in Hg. set_solver.
  - destruct (kmalloc_none _ _ _ I Ek) as [K1 K2]. split; [|done]. split; cbn; try done. intros g Hg. rewrite K2. by apply J.
Qed.

Lemma vfs_open_ok D E s path flags (f : option Z) s' :
  files_ok D E s -> vfs_open sizeof_file path flags s = (f, s') ->
  match f with
  | None => files_ok D E s'
  | Some f => files_ok D (bump 1 f E) s' /\ files s !! f = None /\ is_Some (files s' !! f) /\ tables s' = tables s
  end.
Proof.
  intros Hs. unfold vfs_open. destruct (open_lookup path flags (fsr s)) as [[d|] r]; [|intros [= <- <-]; by apply fsr_ok].
  destruct (d_inode d r) as [node|]; [|intros [= <- <-]; by apply fsr_ok]. destruct (negb _); [intros [= <- <-]; by apply fsr_ok|].
  destruct (vfs_open_dentry sizeof_file d flags (with_fsr s r)) as [g s1] eqn:Eo.
  pose proof (open_dentry_ok D E _ _ _ _ _ (fsr_ok _ _ _ r Hs) Eo) as Hg.
  destruct g as [g|]; [|intros [= <- <-]; by apply Hg]. destruct Hg as (H1 & H2 & H3 & H4 & _).
  destruct (_ && _); intros [= <- <-]; split_and!; try done. by apply fsr_ok.
Qed.

Lemma find_free_slot s c i : List.find (fun i => negb (is_used s c i)) (seq 3 29) = Some i -> (3 <= i < 32)%nat /\ is_used s c i = false.
Proof.
  intros Hf. apply List.find_some in Hf as [Hin Hu]. apply List.in_seq in Hin. split; [lia|]. by apply negb_true_iff in Hu.
Qed.

(** No descriptor from 3 on is free: [get_unused_fd] fails. *)
Definition table_full s c : bool := forallb (is_used s c) (seq 3 29).

Lemma find_free_least s c i :
  List.find (fun i => negb (is_used s c i)) (seq 3 29) = Some i -> forall j, (3 <= j < i)%nat -> is_used s c j = true.
Proof.
  generalize 29%nat. intros n. generalize 3%nat. induction n as [|n IH]; intros k; cbn [seq List.find]; [done|].
  destruct (is_used s c k) eqn:Eu; cbn [negb].
  - intros Hf j Hj. destruct (decide (j = k)) as [->|]; [done|]. apply (IH (S k) Hf). lia.
  - intros [= <-] j Hj. lia.
Qed.

Lemma find_free_none s c : List.find (fun i => negb (is_used s c i)) (seq 3 29) = None <-> table_full s c = true.
Proof.
  unfold table_full. generalize (seq 3 29). induction l as [|i l IH]; cbn [List.find forallb]; [done|].
  destruct (is_used s c i); cbn [negb andb]; [done|]. split; done.
Qed.

Lemma sys_open_lemma D E s c name flags n s' :
  files_ok D E s -> has_table s c -> sys_open sizeof_file c name flags s = (n, s') ->
  match (vfs_open sizeof_file name flags s).1 with
  | None => n = -1 /\ files_ok D E s'
  | Some f => files s !! f = None /\ is_Some (files s' !! f) /\
      if table_full s c then n = -1 /\ files_ok D (bump 1 f E) s'
      else 3 <= n < 32 /\ is_used s c (Z.to_nat n) = false /\ (forall j, (3 <= j < Z.to_nat n)%nat -> is_used s c j = true) /\
        D !! (c, Z.to_nat n) = None /\ files_ok (<[(c, Z.to_nat n) := f]> D) E s'
  end.
Proof.
  intros Hs Ht. unfold sys_open. destruct (vfs_open sizeof_file name flags s) as [f s1] eqn:Eo. pose proof (vfs_open_ok D E s _ _ _ _ Hs Eo) as Hv.
  destruct f as [f|]; [|by intros [= <- <-]]. destruct Hv as (H1 & H2 & H3 & H4). unfold get_unused_fd. cbn [fst].
  assert (Hv : forall i, is_used s1 c i = is_used s c i) by (intros i; unfold is_used, table; by rewrite H4).
  assert (Hfull : table_full s c = table_full s1 c).
  { unfold table_full. induction (seq 3 29) as [|i l IH]; [done|]. cbn [forallb]. by rewrite Hv, IH. }
  rewrite Hfull. destruct (List.find _ _) as [i|] eqn:Ef; intros [= <- <-].
  - destruct (table_full s1 c) eqn:Et; [apply find_free_none in Et; congruence|]. clear Hfull Et. pose proof (find_free_least _ _ _ Ef) as Hleast.
    apply find_free_slot in Ef as [Hi Hu]. rewrite Nat2Z.id. split; [done|]. split; [done|]. split; [lia|]. split; [by rewrite <- Hv|].
    split; [intros j Hj; rewrite <- Hv; by apply Hleast|]. split.
    + destruct (D !! (c, i)) as [g|] eqn:Eg; [|done]. apply (fo_slot _ _ _ Hs) in Eg as [? _]. rewrite Hv in Hu. congruence.
    + eapply files_ok_ext; [apply bump_cancel|]. apply install_ok; try done; [unfold has_table; by rewrite H4|lia|].
      unfold bump. rewrite decide_True by done. pose proof (fo_extra _ _ _ Hs f). lia.
  - apply find_free_none in Ef. by rewrite Ef.
Qed.

(** C39: [sys_open] fails without effect on the descriptors exactly when [vfs_open]
    gives no file; otherwise the new open file is bound, with its one reference, to
    the least free descriptor from 3 on and no other descriptor changes.  When no
    descriptor from 3 on is free it fails too, and the file stays open with a
    reference that no descriptor holds. *)
Theorem sys_open_correct D E s c name flags n s' :
  files_ok D E s -> has_table s c -> sys_open sizeof_file c name flags s = (n, s') ->
  match (vfs_open sizeof_file name flags s).1 with
  | None => n = -1 /\ files_ok D E s'
  | Some f => files s !! f = None /\ is_Some (files s' !! f) /\
      if table_full s c then n = -1 /\ files_ok D (bump 1 f E) s'
      else 3 <= n < 32 /\ is_used s c (Z.to_nat n) = false /\ (forall j, (3 <= j < Z.to_nat n)%nat -> is_used s c j = true) /\
        D !! (c, Z.to_nat n) = None /\ files_ok (<[(c, Z.to_nat n) := f]> D) E s'
  end.
Proof. apply sys_open_lemma. Qed.

Lemma sys_close_lemma D E s c n r s' :
  files_ok D E s -> sys_close c n s = (r, s') ->
  (r = -1 /\ s' = s /\ (n < 3 \/ 32 <= n \/ D !! (c, Z.to_nat n) = None)) \/
  (exists f, r = 0 /\ 3 <= n < 32 /\ D !! (c, Z.to_nat n) = Some f /\ files_ok (delete (c, Z.to_nat n) D) E s' /\
    (files s' !! f = None <-> count D f = 1 /\ E f = 0) /\ forall g, g <> f -> files s' !! g = files s !! g).
Proof.
  intros Hs. unfold sys_close, close_fd. destruct (Z.ltb_spec n 3); [intros [= <- <-]; by auto|]. unfold fget.
  destruct (Z.ltb_spec n 0); [lia|]. destruct (Z.leb_spec 32 n); cbn [orb]; [intros [= <- <-]; left; auto|].
  destruct (is_used s c (Z.to_nat n)) eqn:Eu; cbn [negb].
  2:{ intros [= <- <-]. left. split_and!; try done. right. right. destruct (D !! (c, Z.to_nat n)) eqn:Eg; [|done].
      apply (fo_slot _ _ _ Hs) in Eg as [? _]. congruence. }
  destruct (fd_at s c (Z.to_nat n)) as [f|] eqn:Ef; intros [= <- <-].
  2:{ left. split_and!; try done. right. right. destruct (D !! (c, Z.to_nat n)) eqn:Eg; [|done].
      apply (fo_slot _ _ _ Hs) in Eg as [_ ?]. congruence. }
  assert (HD : D !! (c, Z.to_nat n) = Some f) by (by apply (fo_slot _ _ _ Hs)).
  right. exists f. split; [done|]. split; [lia|]. split; [done|]. split; [by apply close_ok|].
  change (files (set_slot c (Z.to_nat n) false None (file_close f s))) with (files (file_close f s)). unfold file_close, vfs_close.
  destruct (fo_open _ _ _ Hs _ _ _ HD) as [x Hx]. rewrite Hx. destruct (fo_ref _ _ _ Hs f x Hx) as [Hr Hb].
  pose proof (fo_extra _ _ _ Hs f). pose proof (count_pos _ _ _ HD). destruct (Z.ltb_spec 1 (refcount x)); cbn [with_files files].
  - split; [rewrite lookup_insert_eq; split; [done|lia]|]. intros g Hg. by rewrite lookup_insert_ne.
  - split; [rewrite lookup_delete_eq; split; [lia|done]|]. intros g Hg. by rewrite lookup_delete_ne.
Qed.

(** [sys_close] drops the reference of exactly that descriptor, and frees the file
    when it was the last one; it refuses the standard descriptors and those that
    are not open. *)
Theorem sys_close_correct D E s c n r s' :
  files_ok D E s -> sys_close c n s = (r, s') ->
  (r = -1 /\ s' = s /\ (n < 3 \/ 32 <= n \/ D !! (c, Z.to_nat n) = None)) \/
  (exists f, r = 0 /\ 3 <= n < 32 /\ D !! (c, Z.to_nat n) = Some f /\ files_ok (delete (c, Z.to_nat n) D) E s' /\
    (files s' !! f = None <-> count D f = 1 /\ E f = 0) /\ forall g, g <> f -> files s' !! g = files s !! g).
Proof. apply sys_close_lemma. Qed.

(** *** Fork and exit *)

Lemma files_init_ok D E s t : files_ok D E s -> (forall i, D !! (t, i) = None) -> files_ok D E (files_init t s).
Proof.
  intros Hs HD. assert (Hu : forall i, is_used (files_init t s) t i = false).
  { intros i. unfold is_used, table, files_init. cbn [with_tables tables]. rewrite lookup_insert_eq.
    change (default false (replicate 32 false !! i) = false). destruct (replicate 32 false !! i) as [b|] eqn:Eb; [|done].
    by apply lookup_replicate in Eb as [-> _]. }
  assert (Ho : forall t' i, t' <> t -> is_used (files_init t s) t' i = is_used s t' i /\ fd_at (files_init t s) t' i = fd_at s t' i).
  { intros t' i Hne. unfold is_used, fd_at, table, files_init. cbn [with_tables tables]. by rewrite lookup_insert_ne by done. }
  apply (tables_ok D E D E s); try done; try apply Hs.
  - intros t' b Hb. change (<[t := inhabitant]> (tables s) !! t' = Some b) in Hb. apply lookup_insert_Some in Hb as [[<- <-]|[_ Hb]]; [done|by eapply fo_len].
  - intros t' i f. destruct (decide (t' = t)) as [->|Hne].
    + rewrite Hu, HD. split; [done|by intros [? _]].
    + destruct (Ho t' i Hne) as [-> ->]. apply (fo_slot _ _ _ Hs).
Qed.

Lemma close_slot_ok D E s t i :
  files_ok D E s -> files_ok (delete (t, i) D) E (close_slot t s i).
Proof.
  intros Hs. unfold close_slot. destruct (is_used s t i) eqn:Eu.
  - destruct (fd_at s t i) as [f|] eqn:Ef.
    + apply close_ok; [done|]. by apply (fo_slot _ _ _ Hs).
    + rewrite delete_id; [by apply clear_ok|]. destruct (D !! (t, i)) eqn:Eg; [|done]. apply (fo_slot _ _ _ Hs) in Eg as [_ ?]. congruence.
  - rewrite delete_id; [done|]. destruct (D !! (t, i)) eqn:Eg; [|done]. apply (fo_slot _ _ _ Hs) in Eg as [? _]. congruence.
Qed.

(** The descriptors left when the task [t] is gone. *)
Lemma close_all_ok D E s t :
  files_ok D E s -> exists D', files_ok D' E (files_close_all t s) /\
    forall t' i, D' !! (t', i) = if decide (t' = t) then None else D !! (t', i).
Proof.
  intros Hs. unfold files_close_all.
  assert (Hgen : forall l D s, files_ok D E s -> exists D', files_ok D' E (foldl (close_slot t) s l) /\
    forall t' i, D' !! (t', i) = if decide (t' = t /\ i ∈ l) then None else D !! (t', i)).
  { induction l as [|j l IH]; intros D0 s0 H0; cbn [foldl].
    - exists D0. split; [done|]. intros t' i. rewrite decide_False by (intros [_ ?%elem_of_nil]; done). done.
    - destruct (IH _ _ (close_slot_ok D0 E s0 t j H0)) as (D' & H1 & H2). exists D'. split; [done|]. intros t' i. rewrite H2.
      destruct (decide (t' = t /\ i ∈ l)) as [[-> Hi]|Hn]; [rewrite decide_True by (split; [done|by right]); done|].
      destruct (decide ((t', i) = (t, j))) as [[= -> ->]|Hne].
      + rewrite lookup_delete_eq, decide_True by (split; [done|by left]). done.
      + rewrite lookup_delete_ne by congruence. rewrite decide_False; [done|]. intros [-> [->|Hi]%elem_of_cons]; [done|tauto]. }
  destruct (Hgen (seq 0 TASK_FD_MAX) D s Hs) as (D' & H1 & H2). exists D'. split; [done|]. intros t' i. rewrite H2.
  destruct (decide (t' = t)) as [->|Hne]; [|by rewrite decide_False by tauto].
  destruct (decide (t = t /\ i ∈ seq 0 TASK_FD_MAX)) as [_|Hn]; [done|]. destruct (D !! (t, i)) as [f|] eqn:Eg; [|done].
  exfalso. apply Hn. split; [done|]. apply (fo_slot _ _ _ Hs) in Eg as [Hu _]. pose proof (fd_at_range _ _ _ _ _ Hs Hu).
  apply elem_of_seq. unfold TASK_FD_MAX. lia.
Qed.

Lemma clone_slot_ok D E s dst src i :
  files_ok D E s -> has_table s dst -> dst <> src -> is_used s dst i = false -> D !! (dst, i) = None ->
  (forall f x, files s !! f = Some x -> refcount x < 4294967295) ->
  exists D', files_ok D' E (clone_slot dst src s i) /\ D' = match D !! (src, i) with Some f => <[(dst, i) := f]> D | None => D end.
Proof.
  intros Hs Ht Hne Hu HD Hlt. unfold clone_slot. destruct (fd_at s src i) as [f|] eqn:Ef.
  - destruct (is_used s src i) eqn:Eu.
    + assert (HDs : D !! (src, i) = Some f) by (by apply (fo_slot _ _ _ Hs)). rewrite HDs. eexists. split; [|done].
      destruct (fo_open _ _ _ Hs _ _ _ HDs) as [x Hx]. pose proof (fd_at_range _ _ _ _ _ Hs Eu) as Hi.
      eapply files_ok_ext; [apply bump_cancel|]. apply install_ok; try done.
      * apply dup_ok; [done|apply Hlt|by eexists].
      * cbn. rewrite lookup_alter_is_Some. by eexists.
      * unfold bump. rewrite decide_True by done. pose proof (fo_extra _ _ _ Hs f). lia.
    + exists D. split; [done|]. destruct (D !! (src, i)) eqn:Eg; [|done]. apply (fo_slot _ _ _ Hs) in Eg as [? _]. congruence.
  - exists D. split; [done|]. destruct (D !! (src, i)) eqn:Eg; [|done]. apply (fo_slot _ _ _ Hs) in Eg as [_ ?]. congruence.
Qed.

Lemma clone_slot_view s dst src i :
  has_table s dst -> has_table (clone_slot dst src s i) dst /\
  forall j, j <> i -> is_used (clone_slot dst src s i) dst j = is_used s dst j.
Proof.
  intros [b Hb]. unfold clone_slot. destruct (fd_at s src i) as [f|]; [|by split; [exists b|]]. destruct (is_used s src i); [|by split; [exists b|]].
  split.
  - unfold has_table. cbn. rewrite lookup_alter_eq, Hb. by eexists.
  - intros j Hj. unfold is_used, table. cbn [set_slot with_tables file_dup with_files tables]. rewrite lookup_alter_eq, Hb. cbn.
    by rewrite list_lookup_insert_ne.
Qed.

Lemma clone_ok D E s dst src :
  files_ok D E s -> has_table s dst -> dst <> src -> (forall i, is_used s dst i = false) ->
  (forall f x, files s !! f = Some x -> refcount x + 32 < 4294967296) ->
  exists D', files_ok D' E (files_clone dst src s) /\
    forall t i, D' !! (t, i) = if decide (t = dst) then D !! (src, i) else D !! (t, i).
Proof.
  intros Hs Ht Hne Hu Hlt. unfold files_clone.
  assert (HD : forall i, D !! (dst, i) = None).
  { intros i. destruct (D !! (dst, i)) eqn:Eg; [|done]. apply (fo_slot _ _ _ Hs) in Eg as [? _]. rewrite Hu in *. done. }
  assert (Hgen : forall n, (n <= 32)%nat -> let s1 := foldl (clone_slot dst src) s (seq 0 n) in exists D', files_ok D' E s1 /\
    has_table s1 dst /\ (forall f, count D' f <= count D f + Z.of_nat n) /\ (forall i, (n <= i)%nat -> is_used s1 dst i = false) /\
    forall t i, D' !! (t, i) = if decide (t = dst /\ (i < n)%nat) then D !! (src, i) else D !! (t, i)).
  { induction n as [|n IH]; intros Hn; [exists D; split_and!; try done; [intros f; lia|]; intros t i; by rewrite decide_False by lia|].
    destruct IH as (D1 & H1 & H2 & H3 & H5 & H4); [lia|]. cbv zeta. rewrite seq_S, foldl_app. cbn [foldl Nat.add]. set (s1 := foldl _ s (seq 0 n)) in *.
    assert (HDn : D1 !! (dst, n) = None) by (rewrite H4, decide_False by lia; apply HD).
    assert (HDs : D1 !! (src, n) = D !! (src, n)) by (by rewrite H4, decide_False by (intros [? _]; congruence)).
    destruct (clone_slot_ok D1 E s1 dst src n H1 H2 Hne) as (D2 & K1 & ->); [by apply H5|done| |].
    - intros f x Hx. destruct (fo_ref _ _ _ H1 f x Hx) as [Hr _]. specialize (H3 f). destruct (files s !! f) as [y|] eqn:Ey.
      + specialize (Hlt f y Ey). destruct (fo_ref _ _ _ Hs f y Ey). lia.
      + rewrite (count_closed D E s f Hs Ey) in H3. rewrite (fo_closed _ _ _ Hs f Ey) in Hr. lia.
    - destruct (clone_slot_view s1 dst src n H2) as [V1 V2]. eexists. split; [done|]. split; [done|]. split; [|split].
      + intros f. specialize (H3 f). destruct (D1 !! (src, n)) as [g|]; [|lia]. rewrite count_insert by done. case_decide; lia.
      + intros i Hi. rewrite V2 by lia. apply H5. lia.
      + intros t i. rewrite HDs. destruct (decide ((t, i) = (dst, n))) as [[= -> ->]|Hti].
        * rewrite decide_True by lia. destruct (D !! (src, n)); [by rewrite lookup_insert_eq|done].
        * replace (match D !! (src, n) with Some f => <[(dst, n):=f]> D1 | None => D1 end !! (t, i)) with (D1 !! (t, i))
            by (destruct (D !! (src, n)); [by rewrite lookup_insert_ne by congruence|done]).
          rewrite H4. destruct (decide (t = dst)) as [->|Ht']; [|by rewrite !decide_False by tauto].
          assert (i <> n) by congruence. repeat case_decide; try done; lia. }
  destruct (Hgen 32%nat (le_n _)) as (D' & H1 & _ & _ & _ & H4). exists D'. split; [done|]. intros t i. rewrite H4.
  destruct (decide (t = dst)) as [->|Ht']; [|by rewrite decide_False by tauto]. destruct (decide (dst = dst /\ (i < 32)%nat)) as [_|Hn]; [done|].
  rewrite HD. destruct (D !! (src, i)) eqn:Eg; [|done]. apply (fo_slot _ _ _ Hs) in Eg as [Eu _]. pose proof (fd_at_range _ _ _ _ _ Hs Eu). lia.
Qed.

(** [vfs_read] and [vfs_write] move the position only. *)
Lemma pos_ok D E s f x p r :
  files_ok D E s -> files s !! f = Some x ->
  files_ok D E (FState (<[f := File (dentry x) p (fflags x) (refcount x)]> (files s)) (tables s) (fheap s) r).
Proof.
  intros Hs Hx. pose proof Hs as [A B C F G H I J].
  assert (Hd : forall g, is_Some (<[f := File (dentry x) p (fflags x) (refcount x)]> (files s) !! g) <-> is_Some (files s !! g)).
  { intros g. destruct (decide (f = g)) as [<-|Hne]; [rewrite lookup_insert_eq, Hx; split; by eexists|by rewrite lookup_insert_ne]. }
  split; cbn [files tables fheap]; try done.
  - intros g y [[<- <-]|[_ Hg]]%lookup_insert_Some; cbn; by apply C.
  - intros t i g Hg. apply Hd. by eapply F.
  - intros g [Hg _]%lookup_insert_None. by apply H.
  - intros g Hg. apply J. by apply Hd.
Qed.

(** ** The descriptor operations as a step relation *)

Definition fresh_table s t : Prop := forall i, is_used s t i = false.

(** The references no descriptor holds after [sys_open]: one more, to the file it
    opened, when the table is full, and no other change. *)
Definition open_leaks c name flags s E : Z -> Z :=
  match (vfs_open sizeof_file name flags s).1 with
  | Some f => if table_full s c then bump 1 f E else E
  | None => E
  end.

(** The steps carry those references along; only [sys_open] changes them. *)
Inductive fstep : (Z -> Z) * fstate -> (Z -> Z) * fstate -> Prop :=
  | step_open E s c name flags : has_table s c -> fstep (E, s) (open_leaks c name flags s E, snd (sys_open sizeof_file c name flags s))
  | step_close E s c n : fstep (E, s) (E, snd (sys_close c n s))
  | step_read E s f len : fstep (E, s) (E, snd (vfs_read f len s))
  | step_write E s f len : fstep (E, s) (E, snd (vfs_write f len s))
  | step_fork E s child par : fresh_table s child -> child <> par ->
      (forall f x, files s !! f = Some x -> refcount x + 32 < 4294967296) -> fstep (E, s) (E, files_clone child par (files_init child s))
  | step_exit E s t : fstep (E, s) (E, files_close_all t s).

Lemma fork_ok D E s child par :
  files_ok D E s -> fresh_table s child -> child <> par -> (forall f x, files s !! f = Some x -> refcount x + 32 < 4294967296) ->
  exists D', files_ok D' E (files_clone child par (files_init child s)) /\
    forall t i, D' !! (t, i) = if decide (t = child) then D !! (par, i) else D !! (t, i).
Proof.
  intros Hs Hf Hne Hlt. assert (HD : forall i, D !! (child, i) = None).
  { intros i. destruct (D !! (child, i)) eqn:Eg; [|done]. apply (fo_slot _ _ _ Hs) in Eg as [Eu _]. rewrite Hf in Eu. done. }
  pose proof (files_init_ok D E s child Hs HD) as Hs1. apply clone_ok; try done.
  - unfold has_table, files_init. cbn. rewrite lookup_insert_eq. by eexists.
  - intros i. destruct (is_used (files_init child s) child i) eqn:Eu; [|done]. unfold is_used, table, files_init in Eu. cbn [with_tables tables] in Eu.
    rewrite lookup_insert_eq in Eu. change (default false (replicate 32 false !! i) = true) in Eu.
    destruct (replicate 32 false !! i) as [b|] eqn:Eb; [|done]. by apply lookup_replicate in Eb as [-> _].
Qed.

Lemma fstep_ok D E s E' s' : files_ok D E s -> fstep (E, s) (E', s') -> exists D', files_ok D' E' s'.
Proof.
  intros Hs Hst. inversion Hst as [? ? c name flags Ht|? ? c n|? ? f len|? ? f len|? ? child par Hf Hne Hlt|? ? t]; subst; clear Hst.
  - unfold open_leaks. destruct (sys_open sizeof_file c name flags s) as [n s1] eqn:Eo. cbn [snd].
    pose proof (sys_open_lemma D E s c name flags n s1 Hs Ht Eo) as H. destruct (vfs_open _ _ _ _).1 as [f|]; [|by destruct H; exists D].
    destruct H as (_ & _ & H). destruct (table_full s c); [by destruct H; exists D|]. destruct H as (_ & _ & _ & _ & H). by eexists.
  - destruct (sys_close c n s) as [r s1] eqn:Ec.
    destruct (sys_close_lemma D E' s c n r s1 Hs Ec) as [(_ & -> & _)|(f & _ & _ & _ & H & _)]; [by exists D|by eexists].
  - exists D. unfold vfs_read. destruct (files s !! f) as [x|] eqn:Ex; [|done]. destruct (d_inode _ _); [|done]. destruct (negb _); [done|].
    destruct (read_fs _ _ _ _). by apply pos_ok.
  - exists D. unfold vfs_write. destruct (files s !! f) as [x|] eqn:Ex; [|done]. destruct (d_inode _ _); [|done]. destruct (negb _); [done|].
    destruct (write_fs _ _ _ _). by apply pos_ok.
  - destruct (fork_ok D E' s child par Hs Hf Hne Hlt) as (D1 & H1 & _). by exists D1.
  - destruct (close_all_ok D E' s t Hs) as (D1 & H1 & _). by exists D1.
Qed.

Lemma fsteps_ok D E s E' s' : files_ok D E s -> rtc fstep (E, s) (E', s') -> exists D', files_ok D' E' s'.
Proof.
  intros Hs Hr. remember (E, s) as p eqn:Ep. remember (E', s') as q eqn:Eq. revert D E s Hs Ep.
  induction Hr as [p|p [E1 s1] q Hst _ IH]; intros D E s Hs ->.
  - injection Eq as -> ->. by exists D.
  - destruct (fstep_ok D E s E1 s1 Hs Hst) as [D1 H1]. by eapply IH.
Qed.

(** C16: descriptors and reference counts agree in every state reached by opening,
    closing, reading, writing, forking and exiting: every descriptor refers to an
    open, allocated file; the reference count of a file is the number of descriptors
    of all tasks that refer to it plus the references that were there at the start
    without a descriptor and those of opens that found the table full ([E'], which
    only such an open changes); a file is open exactly as long as there is one. *)
Theorem descriptors_refcounted D E s E' s' :
  files_ok D E s -> rtc fstep (E, s) (E', s') ->
  exists D', (forall t i f, D' !! (t, i) = Some f <-> is_used s' t i = true /\ fd_at s' t i = Some f) /\
    (forall f x, files s' !! f = Some x -> refcount x = count D' f + E' f /\ 1 <= refcount x) /\
    (forall f, is_Some (files s' !! f) <-> 1 <= count D' f + E' f) /\
    (forall t i f, D' !! (t, i) = Some f -> is_Some (files s' !! f) /\ f ∈ live (fheap s')).
Proof.
  intros Hs Hr. destruct (fsteps_ok D E s E' s' Hs Hr) as [D' H']. exists D'. split; [apply H'|]. split; [|split].
  - intros f x Hx. destruct (fo_ref _ _ _ H' f x Hx). split; [done|lia].
  - intros f. split.
    + intros [x Hx]. destruct (fo_ref _ _ _ H' f x Hx). lia.
    + intros Hc. destruct (files s' !! f) eqn:Ef; [done|]. rewrite (count_closed _ _ _ _ H' Ef), (fo_closed _ _ _ H' f Ef) in Hc. lia.
  - intros t i f HD. apply (fo_open _ _ _ H') in HD as Ho. split; [done|]. by apply (fo_live _ _ _ H').
Qed.

(** C40: a fork gives the child exactly the descriptors of its parent, and the exit of
    the child takes back exactly those references: every other descriptor and every
    reference count is as before the fork. *)
Theorem fork_exit_roundtrip D E s child par :
  files_ok D E s -> fresh_table s child -> child <> par -> (forall f x, files s !! f = Some x -> refcount x + 32 < 4294967296) ->
  let s1 := files_clone child par (files_init child s) in
  (exists D1, files_ok D1 E s1 /\ (forall i, D1 !! (child, i) = D !! (par, i)) /\ forall t i, t <> child -> D1 !! (t, i) = D !! (t, i)) /\
  files_ok D E (files_close_all child s1).
Proof.
  intros Hs Hf Hne Hlt s1. destruct (fork_ok D E s child par Hs Hf Hne Hlt) as (D1 & H1 & H2). split.
  - exists D1. split; [done|]. split; [intros i; by rewrite H2, decide_True|]. intros t i Ht. by rewrite H2, decide_False.
  - destruct (close_all_ok D1 E s1 child H1) as (D2 & H3 & H4). replace D with D2; [done|]. apply map_eq. intros [t i]. rewrite H4.
    destruct (decide (t = child)) as [->|Ht]; [|by rewrite H2, decide_False].
    destruct (D !! (child, i)) eqn:Eg; [|done]. apply (fo_slot _ _ _ Hs) in Eg as [Eu _]. rewrite Hf in Eu. done.
Qed.
End invariant.

(** ** Concrete states *)

Module FilesDemo.

(** A file system with one file. *)
#[global] Instance fs_unit : FsOps unit := {|
  kern_path _ _ := (Some 7, tt); filename_parentat _ _ := (None, tt); d_inode _ _ := Some 1; i_flags _ _ := FS_FILE;
  create_fs _ _ _ := (None, tt); d_lookup _ _ _ := None; d_alloc _ _ _ := (None, tt); set_d_inode _ _ _ := tt; clear_negative _ _ := tt;
  vfs_dentry_get _ _ := (Some 7, tt); d_ref _ _ := tt; d_put _ _ := tt; open_fs _ _ := tt; close_fs _ _ := tt;
  vfs_check_access _ _ _ _ _ := true; truncate _ _ := tt; read_fs _ _ len _ := (len, tt); write_fs _ _ len _ := (len, tt) |}.

Notation fst0 := (fstate (M := Heap.heap) (R := unit)).

(** Task 1 has an empty table. *)
Definition s0 : fst0 := FState ∅ {[1 := inhabitant]} (Heap.init 40) tt.

Lemma unused (s : fst0) t i : (tables s !! t = None \/ tables s !! t = Some inhabitant) -> is_used s t i = false.
Proof.
  intros Ht. unfold is_used, table. assert (E : default inhabitant (tables s !! t) = (inhabitant : fdtable)) by (by destruct Ht as [-> | ->]).
  rewrite E. change (default false (replicate 32 false !! i) = false). destruct (replicate 32 false !! i) as [b|] eqn:Eb; [|done].
  by apply lookup_replicate in Eb as [-> _].
Qed.

Lemma s0_ok : files_ok ∅ (fun _ => 0) s0.
Proof.
  split; cbn [s0 files tables fheap]; try done; try lia.
  - intros t b [<- <-]%lookup_singleton_Some. done.
  - intros t i f. rewrite unused; [split; [done|by intros [? _]]|]. cbn. destruct (decide (t = 1)) as [->|Hne]; [right; by rewrite lookup_singleton_eq|].
    left. by rewrite lookup_singleton_ne.
  - intros f [? ?]. done.
Qed.

(** [sys_open] on it. *)
Definition s1 : fst0 := Eval vm_compute in snd (sys_open 16 1 [47] 0 s0).

Lemma sys_open_correct_witness :
  sys_open 16 1 [47] 0 s0 = (3, s1) /\ files_ok (<[(1, 3%nat) := 4096]> ∅) (fun _ => 0) s1.
Proof.
  assert (E : sys_open 16 1 [47] 0 s0 = (3, s1)) by (by vm_compute). split; [exact E|].
  assert (Ev : (vfs_open 16 [47] 0 s0).1 = Some 4096) by (by vm_compute). assert (Ef : table_full s0 1 = false) by (by vm_compute).
  assert (Ht : has_table s0 1) by (exists inhabitant; by vm_compute).
  pose proof (sys_open_correct 16 ∅ (fun _ => 0) s0 1 [47] 0 3 s1 s0_ok Ht E) as H. rewrite Ev, Ef in H. exact (proj2 (proj2 (proj2 (proj2 (proj2 (proj2 H)))))).
Defined.

Lemma s1_ok : exists D, files_ok D (fun _ => 0) s1.
Proof.
  exists (<[(1, 3%nat) := 4096]> ∅).
  assert (Ev : (vfs_open 16 [47] 0 s0).1 = Some 4096) by (by vm_compute). assert (Ef : table_full s0 1 = false) by (by vm_compute).
  assert (Ht : has_table s0 1) by (exists inhabitant; by vm_compute).
  pose proof (sys_open_lemma 16 ∅ (fun _ => 0) s0 1 [47] 0 3 s1 s0_ok Ht) as H. rewrite Ev, Ef in H. apply H. by vm_compute.
Qed.

Lemma sys_close_correct_witness : exists s2 D, sys_close 1 3 s1 = (0, s2) /\ files_ok D (fun _ => 0) s2 /\ files s2 = ∅.
Proof.
  destruct s1_ok as [D HD]. exists (snd (sys_close 1 3 s1)).
  destruct (sys_close_correct D (fun _ => 0) s1 1 3 0 (snd (sys_close 1 3 s1)) HD) as [[H _]|(f & _ & _ & _ & H & _)]; [by vm_compute|done|].
  eexists. split; [by vm_compute|]. split; [exact H|by vm_compute].
Defined.

Lemma fork_exit_roundtrip_witness :
  exists D, files_ok D (fun _ => 0) (files_close_all 2 (files_clone 2 1 (files_init 2 s1))) /\
    refcount <$> files (files_clone 2 1 (files_init 2 s1)) !! 4096 = Some 2.
Proof.
  destruct s1_ok as [D HD]. exists D. split; [|by vm_compute].
  apply (fork_exit_roundtrip D (fun _ => 0) s1 2 1 HD).
  - intros i. apply unused. left. by vm_compute.
  - done.
  - intros f x Hx. assert (Hm : map_Forall (fun _ x => refcount x + 32 < 4294967296) (files s1)) by (apply (bool_decide_unpack _); by vm_compute).
    exact (Hm f x Hx).
Defined.

(** Thirty opens: the last one finds the table full and leaks its file. *)
Definition open_one (p : (Z -> Z) * fst0) : (Z -> Z) * fst0 := (open_leaks 16 1 [47] 0 p.2 p.1, snd (sys_open 16 1 [47] 0 p.2)).
Definition opens (n : nat) : (Z -> Z) * fst0 := Nat.iter n open_one (fun _ => 0, s0).
Definition leaks_n (n : nat) : Z -> Z := (opens n).1.
Definition open_n (n : nat) : fst0 := (opens n).2.

Lemma opens_steps n : (forall k, In k (seq 0 n) -> is_Some (tables (open_n k) !! 1)) -> rtc (fstep 16) (fun _ => 0, s0) (leaks_n n, open_n n).
Proof.
  unfold leaks_n, open_n. rewrite <- surjective_pairing. induction n as [|n IH]; intros Hk; [apply rtc_refl|].
  apply rtc_r with (opens n).
  - apply IH. intros k Hin. apply Hk. apply List.in_seq in Hin. apply List.in_seq. lia.
  - change (opens (S n)) with (open_one (opens n)). rewrite (surjective_pairing (opens n)) at 1. apply step_open.
    apply Hk. apply List.in_seq. lia.
Qed.

Lemma descriptors_refcounted_witness :
  exists D, (forall t i f, D !! (t, i) = Some f <-> is_used (open_n 30) t i = true /\ fd_at (open_n 30) t i = Some f) /\
    leaks_n 30 4125 = 1 /\ count D 4125 = 0 /\ refcount <$> files (open_n 30) !! 4125 = Some 1.
Proof.
  destruct (descriptors_refcounted 16 ∅ (fun _ => 0) s0 (leaks_n 30) (open_n 30) s0_ok) as (D & H1 & H2 & _).
  - apply opens_steps. apply List.Forall_forall, (bool_decide_unpack _). by vm_compute.
  - exists D. split; [exact H1|]. assert (E1 : leaks_n 30 4125 = 1) by (by vm_compute). split; [exact E1|].
    assert (E2 : refcount <$> files (open_n 30) !! 4125 = Some 1) by (by vm_compute). split; [|exact E2].
    destruct (files (open_n 30) !! 4125) as [x|] eqn:Ex; [|done]. destruct (H2 4125 x Ex) as [Hx _]. rewrite E1 in Hx. injection E2 as E2. lia.
Defined.
End FilesDemo.
