(* ===== verification/Rmap.v ===== *)
(** * Reverse mappings of anonymous pages ([mm/rmap.c])

    A page in use by address spaces records who maps it: the first mapping in
    the fields [map_mm] and [map_vaddr] of [struct page], every further one in
    a [kmalloc]ed node of [rmap_list].  The functions work on the page
    allocator's state, whose inactive list they maintain, and the heap. *)

From stdpp Require Import base tactics numbers list gmap sets.
From Stdlib Require Import ZArith Lia.
From S2P Require Import Prelude Bootmem Buddy PageAlloc.

(** ** The code *)

Definition SIZEOF_RMAP_ITEM : Z := 12.

Definition set_maps (n mm va : Z) (l : list rmap_item) (p : page) : page :=
  Page (flags p) (refcount p) (order p) n mm va l.

Definition is_item (mm va : Z) (i : rmap_item) : bool := (ri_mm i =? mm) && (ri_vaddr i =? va).

(** The walk that unlinks the first node of a mapping. *)
Fixpoint unlink_item (mm va : Z) (l : list rmap_item) : option (rmap_item * list rmap_item) :=
  match l with
  | [] => None
  | i :: l' =>
      if is_item mm va i then Some (i, l')
      else match unlink_item mm va l' with Some (j, r) => Some (j, i :: r) | None => None end
  end.

Section rmap.
Context {M : Type} `{!KAlloc M}.
Implicit Types w : pa * M.

(** Replace the mapping fields of one page. *)
Definition put_maps (s : pa) (pfn n mm va : Z) (l : list rmap_item) : pa :=
  with_pages s (upd_page (pages s) pfn (set_maps n mm va l)).

Definition page_add_anon_rmap (mm vaddr phys : Z) w : pa * M :=
  let '(s, h) := w in
  let pfn := phys / 4096 in
  if negb (page_exists s pfn) then w else
  let pg := znth (pages s) pfn in
  if mapcount pg =? 0 then (lru_add_inactive (put_maps s pfn 1 mm vaddr (rmap_list pg)) pfn, h)
  else if (map_mm pg =? mm) && (map_vaddr pg =? vaddr) then w
  else if existsb (is_item mm vaddr) (rmap_list pg) then w
  else match kmalloc SIZEOF_RMAP_ITEM h with
       | (None, h1) => (s, h1)
       | (Some node, h1) =>
           (put_maps s pfn (if mapcount pg <? 65535 then mapcount pg + 1 else mapcount pg)
              (map_mm pg) (map_vaddr pg) (Rmap_item node mm vaddr :: rmap_list pg), h1)
       end.

(** [if (pg->mapcount) pg->mapcount--; if (pg->mapcount == 0) lru_del(pg)] *)
Definition drop_count (s : pa) (pfn : Z) : pa :=
  let pg := znth (pages s) pfn in
  let s1 := put_maps s pfn (dec (mapcount pg)) (map_mm pg) (map_vaddr pg) (rmap_list pg) in
  if mapcount (znth (pages s1) pfn) =? 0 then lru_del s1 pfn else s1.

Definition page_remove_rmap (mm vaddr phys : Z) w : pa * M :=
  let '(s, h) := w in
  let pfn := phys / 4096 in
  if negb (page_exists s pfn) then w else
  let pg := znth (pages s) pfn in
  if mapcount pg =? 0 then w
  else if (map_mm pg =? mm) && (map_vaddr pg =? vaddr) then
    if mapcount pg =? 1 then (lru_del (put_maps s pfn 0 0 0 (rmap_list pg)) pfn, h)
    else match rmap_list pg with
         | i :: l => (drop_count (put_maps s pfn (mapcount pg) (ri_mm i) (ri_vaddr i) l) pfn, kfree (ri_node i) h)
         | [] => (drop_count (put_maps s pfn (mapcount pg) 0 0 []) pfn, h)
         end
  else match unlink_item mm vaddr (rmap_list pg) with
       | Some (i, l) => (drop_count (put_maps s pfn (mapcount pg) (map_mm pg) (map_vaddr pg) l) pfn,
                         kfree (ri_node i) h)
       | None => w
       end.

Definition page_dup_rmap (dst_mm vaddr phys : Z) w : pa * M := page_add_anon_rmap dst_mm vaddr phys w.

Definition page_mapcount (s : pa) (phys : Z) : Z :=
  let pfn := phys / 4096 in
  if negb (page_exists s pfn) then 0 else mapcount (znth (pages s) pfn).
End rmap.

(** ** What the functions leave alone *)

(** [s'] is [s] but for the mapping fields of page [pfn] and its place on the
    inactive list. *)
Record remapped (pfn : Z) (s s' : pa) : Prop := Remapped {
  rm_ok : pa_ok s';
  rm_static : pa_static s' = pa_static s;
  rm_free x : free_page s' x <-> free_page s x;
  rm_refs q : 0 <= q < total_pages s -> refcount (znth (pages s') q) = refcount (znth (pages s) q);
  rm_other q : 0 <= q < total_pages s -> q <> pfn -> page_maps (znth (pages s') q) = page_maps (znth (pages s) q);
}.

Lemma remapped_refl pfn s : pa_ok s -> remapped pfn s s.
Proof. by split. Qed.

Lemma remapped_trans pfn s1 s2 s3 : remapped pfn s1 s2 -> remapped pfn s2 s3 -> remapped pfn s1 s3.
Proof.
  intros [A1 A2 A3 A4 A5] [B1 B2 B3 B4 B5]. pose proof (total_of_static _ _ A2) as Ht. split; try done.
  - congruence.
  - intros x. by rewrite B3.
  - intros q Hq. rewrite B4 by (by rewrite Ht). by apply A4.
  - intros q Hq Hne. rewrite B5 by (done || by rewrite Ht). by apply A5.
Qed.

Lemma static_with_pages s ps : pa_static (with_pages s ps) = pa_static s.
Proof. by destruct s. Qed.

Lemma put_maps_page s pfn n mm va l q :
  zones_ok s -> 0 <= pfn < total_pages s -> 0 <= q < total_pages s ->
  znth (pages (put_maps s pfn n mm va l)) q =
    if decide (pfn = q) then set_maps n mm va l (znth (pages s) q) else znth (pages s) q.
Proof. intros (_ & Hlen & _) Hp Hq. cbn [put_maps with_pages put pages mem_map]. apply znth_upd_page; lia. Qed.

Lemma put_maps_ok s pfn n mm va l :
  pa_ok s -> 0 <= pfn < total_pages s -> remapped pfn s (put_maps s pfn n mm va l).
Proof.
  intros Hok Hp. pose proof (ok_zones _ Hok) as Hz. pose proof Hz as (_ & Hlen & _).
  assert (Hpg : forall q, 0 <= q -> znth (upd_page (pages s) pfn (set_maps n mm va l)) q =
    if decide (pfn = q) then set_maps n mm va l (znth (pages s) q) else znth (pages s) q)
    by (intros q Hq; apply znth_upd_page; lia).
  destruct (pa_ok_refs s (upd_page (pages s) pfn (set_maps n mm va l)) Hok) as [Hok' Hf'].
  { split; [apply zlen_upd_page|]. intros q Hq. rewrite Hpg by done. by case_decide. }
  { intros x Hx. pose proof (free_page_zone s x Hz (ok_buddy _ Hok) Hx). rewrite Hpg by lia.
    destruct (ok_free _ Hok x Hx) as [E _]. by case_decide. }
  split; try done.
  - intros q Hq. cbn [put_maps with_pages put pages mem_map]. rewrite Hpg by lia. by case_decide.
  - intros q Hq Hne. cbn [put_maps with_pages put pages mem_map]. rewrite Hpg by lia. by rewrite decide_False.
Qed.

(** The inactive list does not touch what a page is mapped by. *)
Lemma lru_del_core s pg q :
  zones_ok s -> 0 <= pg -> 0 <= q < total_pages s ->
  page_core (znth (pages (lru_del s pg)) q) = page_core (znth (pages s) q).
Proof.
  intros (_ & Hlen & _) Hp Hq. unfold lru_del, page_exists. destruct (Z.ltb_spec pg (zlen (pages s))); [|done].
  destruct (has _ _); [|done]. cbn [negb put pages mem_map]. rewrite znth_upd_page by lia. by case_decide.
Qed.

Lemma lru_add_core s pg q :
  zones_ok s -> 0 <= pg -> 0 <= q < total_pages s ->
  page_core (znth (pages (lru_add_inactive s pg)) q) = page_core (znth (pages s) q).
Proof.
  intros (_ & Hlen & _) Hp Hq. unfold lru_add_inactive, page_exists.
  destruct (Z.ltb_spec pg (zlen (pages s))); [|done]. destruct (has _ _); [done|].
  cbn [negb put pages mem_map]. rewrite znth_upd_page by lia. by case_decide.
Qed.

Lemma static_lru_del s pg : pa_static (lru_del s pg) = pa_static s.
Proof. unfold lru_del. destruct (negb _); [done|]. destruct (negb _); [done|]. apply (static_relist s). Qed.

Lemma static_lru_add s pg : pa_static (lru_add_inactive s pg) = pa_static s.
Proof. unfold lru_add_inactive. destruct (negb _); [done|]. destruct (has _ _); [done|]. apply (static_relist s). Qed.

Lemma core_maps p p' : page_core p' = page_core p -> refcount p' = refcount p /\ page_maps p' = page_maps p.
Proof. unfold page_core, page_maps. intros [= -> -> -> -> ->]. done. Qed.

Lemma remapped_lru_del s pg : pa_ok s -> 0 <= pg -> remapped pg s (lru_del s pg).
Proof.
  intros Hok Hp. destruct (lru_del_ok s pg Hok Hp) as [A B]. pose proof (ok_zones _ Hok).
  split; [done|apply static_lru_del|done|..]; intros q Hq; intros; by apply core_maps, lru_del_core.
Qed.

Lemma remapped_lru_add s pg : pa_ok s -> 0 <= pg -> ~ free_page s pg -> remapped pg s (lru_add_inactive s pg).
Proof.
  intros Hok Hp Hn. destruct (lru_add_inactive_ok s pg Hok Hp Hn) as [A B]. pose proof (ok_zones _ Hok).
  split; [done|apply static_lru_add|done|..]; intros q Hq; intros; by apply core_maps, lru_add_core.
Qed.

(** [get_page] on a frame in use, below the limit of the count. *)
Lemma get_page_post s f :
  pa_ok s -> 0 <= f / 4096 < total_pages s -> ~ free_page s (f / 4096) -> 0 <= refcount (znth (pages s) (f / 4096)) < 65535 ->
  let s' := get_page s f in
  pa_ok s' /\ pa_static s' = pa_static s /\ (forall x, free_page s' x <-> free_page s x) /\ maps_same s s' /\
  (forall q, 0 <= q < total_pages s -> refcount (znth (pages s') q) =
     if decide (f / 4096 = q) then refcount (znth (pages s) q) + 1 else refcount (znth (pages s) q)).
Proof.
  intros Hok Hq Hn Hr s'. set (i := f / 4096) in *. set (rc := refcount (znth (pages s) i)) in *.
  assert (E : s' = with_pages s (upd_page (pages s) i (set_refcount (rc + 1)))).
  { unfold s', get_page. change PAGE_SIZE with 4096. fold i. unfold page_exists. pose proof (ok_zones _ Hok) as (_ & Hl & _).
    destruct (Z.ltb_spec i (zlen (pages s))); [|lia]. cbn [negb]. fold rc.
    destruct (Z.eqb_spec rc 0) as [E0|]; [by rewrite E0|]. destruct (Z.ltb_spec rc 65535); [done|lia]. }
  destruct (set_count_ok s i (rc + 1) Hok Hq Hn ltac:(lia)) as (G1 & G2 & G3). rewrite <- E in G1, G2, G3.
  split_and!; try done.
  - rewrite E. apply static_with_pages.
  - intros q Hq0. by apply G3.
  - intros q Hq0. destruct (G3 q Hq0) as [-> _]. case_decide as Hd; [|done]. by rewrite <- Hd.
Qed.

(** ** The mappings a page records *)

Definition item_key (i : rmap_item) : Z * Z := (ri_mm i, ri_vaddr i).

Definition rmaps (p : page) : list (Z * Z) :=
  if mapcount p =? 0 then [] else (map_mm p, map_vaddr p) :: (item_key <$> rmap_list p).

(** Well-formed mapping fields: the count is the number of mappings, none is
    recorded twice. *)
Definition page_rmap_ok (p : page) : Prop :=
  mapcount p = zlen (rmaps p) /\ NoDup (rmaps p) /\ (mapcount p = 0 -> rmap_list p = []).

Lemma rmaps_of p p' : page_maps p' = page_maps p -> rmaps p' = rmaps p.
Proof. unfold page_maps, rmaps. by intros [= -> -> -> ->]. Qed.

Lemma page_rmap_ok_of p p' : page_maps p' = page_maps p -> page_rmap_ok p -> page_rmap_ok p'.
Proof. intros E. unfold page_rmap_ok. rewrite (rmaps_of _ _ E). unfold page_maps in E. by injection E as -> _ _ ->. Qed.

Lemma is_item_spec mm va i : is_item mm va i = true <-> item_key i = (mm, va).
Proof.
  unfold is_item, item_key. rewrite andb_true_iff, !Z.eqb_eq. split; [intros [-> ->]; done|by intros [= -> ->]].
Qed.

Lemma existsb_item mm va l : existsb (is_item mm va) l = true <-> (mm, va) ∈ item_key <$> l.
Proof.
  rewrite existsb_exists, list_elem_of_fmap. split.
  - intros (i & Hi & E). exists i. apply is_item_spec in E. split; [done|by apply list_elem_of_In].
  - intros (i & E & Hi). exists i. rewrite is_item_spec. split; [by apply list_elem_of_In|done].
Qed.

Lemma unlink_item_spec mm va l :
  match unlink_item mm va l with
  | Some (i, r) => l ≡ₚ i :: r /\ item_key i = (mm, va)
  | None => (mm, va) ∉ item_key <$> l
  end.
Proof.
  induction l as [|i l IH]; simpl; [set_solver|]. destruct (is_item mm va i) eqn:E.
  - by apply is_item_spec in E.
  - assert (Hne : item_key i <> (mm, va)) by (rewrite <- is_item_spec; congruence).
    destruct (unlink_item mm va l) as [[j r]|].
    + destruct IH as [IH1 IH2]. split; [|done]. rewrite IH1. apply Permutation_swap.
    + set_solver.
Qed.

(** ** The nodes on the heap *)

Definition item_nodes (p : page) : list Z := ri_node <$> rmap_list p.
Definition nodes_at (s : pa) (q : Z) : list Z := item_nodes (znth (pages s) q).

(** [n] is a node of some page. *)
Definition is_node (s : pa) (n : Z) : Prop := exists q, 0 <= q < total_pages s /\ n ∈ nodes_at s q.

Section owned.
Context {M : Type} `{!KAlloc M, !KAllocSpec M}.
Implicit Types (s : pa) (h : M).

(** The fields of every page are well-formed and every node is one live object. *)
Record rmap_inv s h : Prop := RmapInv {
  ri_heap : km_ok h;
  ri_pages q : 0 <= q < total_pages s -> page_rmap_ok (znth (pages s) q);
  ri_nodup q : 0 <= q < total_pages s -> NoDup (nodes_at s q);
  ri_disjoint q q' n : 0 <= q < total_pages s -> 0 <= q' < total_pages s ->
    n ∈ nodes_at s q -> n ∈ nodes_at s q' -> q = q';
  ri_live n : is_node s n -> n ∈ live h;
}.

(** The objects of the heap that are not nodes are the same. *)
Definition same_foreign s h s' h' : Prop :=
  forall p, p ∈ live h' /\ ~ is_node s' p <-> p ∈ live h /\ ~ is_node s p.

Lemma nodes_at_other pfn s s' q :
  remapped pfn s s' -> 0 <= q < total_pages s -> q <> pfn -> nodes_at s' q = nodes_at s q.
Proof.
  intros Hr Hq Hne. pose proof (rm_other _ _ _ Hr q Hq Hne) as E. unfold nodes_at, item_nodes.
  unfold page_maps in E. by injection E as _ _ _ ->.
Qed.

Lemma is_node_split pfn s n :
  0 <= pfn < total_pages s ->
  is_node s n <-> n ∈ nodes_at s pfn \/ (exists q, 0 <= q < total_pages s /\ q <> pfn /\ n ∈ nodes_at s q).
Proof.
  intros Hp. split.
  - intros (q & Hq & Hn). destruct (decide (q = pfn)) as [->|Hne]; [by left|right]. by exists q.
  - intros [Hn|(q & Hq & Hne & Hn)]; [by exists pfn|by exists q].
Qed.

Lemma is_node_remapped pfn s s' n :
  remapped pfn s s' -> 0 <= pfn < total_pages s ->
  is_node s' n <-> n ∈ nodes_at s' pfn \/ (exists q, 0 <= q < total_pages s /\ q <> pfn /\ n ∈ nodes_at s q).
Proof.
  intros Hr Hp. pose proof (total_of_static _ _ (rm_static _ _ _ Hr)) as Ht.
  rewrite (is_node_split pfn) by (by rewrite Ht). rewrite Ht.
  apply or_iff_compat_l. split; intros (q & Hq & Hne & Hn); exists q;
    by rewrite (nodes_at_other _ _ _ _ Hr Hq Hne) in *.
Qed.

Lemma rmap_inv_step pfn s h s' h' :
  remapped pfn s s' -> 0 <= pfn < total_pages s -> rmap_inv s h -> km_ok h' ->
  page_rmap_ok (znth (pages s') pfn) -> NoDup (nodes_at s' pfn) ->
  (forall n, n ∈ nodes_at s' pfn -> n ∈ live h' /\ (n ∈ nodes_at s pfn \/ n ∉ live h)) ->
  (forall n, is_node s n -> n ∉ nodes_at s pfn -> n ∈ live h') ->
  rmap_inv s' h'.
Proof.
  intros Hr Hp [I1 I2 I3 I4 I5] Hk Hg Hnd Hnew Hold.
  pose proof (total_of_static _ _ (rm_static _ _ _ Hr)) as Ht.
  assert (Hfresh : forall n q, 0 <= q < total_pages s -> q <> pfn -> n ∈ nodes_at s' pfn -> n ∉ nodes_at s q).
  { intros n q Hq Hne Hn Hnq. destruct (Hnew n Hn) as [_ [Hx|Hx]]; [by apply Hne, (I4 q pfn n)|].
    apply Hx, I5. by exists q. }
  split; rewrite ?Ht; try done.
  - intros q Hq. destruct (decide (q = pfn)) as [->|Hne]; [done|].
    apply (page_rmap_ok_of _ _ (rm_other _ _ _ Hr q Hq Hne)). by apply I2.
  - intros q Hq. destruct (decide (q = pfn)) as [->|Hne]; [done|].
    rewrite (nodes_at_other _ _ _ _ Hr Hq Hne). by apply I3.
  - intros q q' n Hq Hq' Hn Hn'.
    destruct (decide (q = pfn)) as [->|Hne], (decide (q' = pfn)) as [->|Hne']; try done.
    + rewrite (nodes_at_other _ _ _ _ Hr Hq' Hne') in Hn'. by destruct (Hfresh n q').
    + rewrite (nodes_at_other _ _ _ _ Hr Hq Hne) in Hn. by destruct (Hfresh n q).
    + rewrite (nodes_at_other _ _ _ _ Hr Hq Hne) in Hn. rewrite (nodes_at_other _ _ _ _ Hr Hq' Hne') in Hn'.
      by apply (I4 q q' n).
  - intros n. rewrite (is_node_remapped _ _ _ _ Hr Hp). intros [Hn|(q & Hq & Hne & Hn)]; [by apply Hnew|].
    apply Hold; [by exists q|]. intros Hn'. by apply Hne, (I4 q pfn n).
Qed.

(** Nothing moves on the heap. *)
Lemma rmap_inv_same pfn s h s' :
  remapped pfn s s' -> 0 <= pfn < total_pages s -> rmap_inv s h ->
  page_rmap_ok (znth (pages s') pfn) -> nodes_at s' pfn = nodes_at s pfn ->
  rmap_inv s' h /\ same_foreign s h s' h.
Proof.
  intros Hr Hp Hi Hg E. assert (Hn : forall n, is_node s' n <-> is_node s n).
  { intros n. by rewrite (is_node_remapped _ _ _ _ Hr Hp), E, (is_node_split pfn). }
  split; [|intros p; by rewrite Hn].
  eapply rmap_inv_step; try done.
  - apply (ri_heap _ _ Hi).
  - rewrite E. by apply (ri_nodup _ _ Hi).
  - intros n Hx. rewrite E in Hx. split; [|by left]. apply (ri_live _ _ Hi). by exists pfn.
  - intros n Hx _. by apply (ri_live _ _ Hi).
Qed.

(** The mapping fields of the page after [put_maps]. *)
Lemma put_maps_here s pfn n mm va l :
  pa_ok s -> 0 <= pfn < total_pages s ->
  page_maps (znth (pages (put_maps s pfn n mm va l)) pfn) = (n, mm, va, l).
Proof.
  intros Hok Hp. rewrite put_maps_page by (done || apply (ok_zones _ Hok)). by rewrite decide_True.
Qed.

Lemma maps_fields p n mm va l :
  page_maps p = (n, mm, va, l) ->
  rmaps p = (if n =? 0 then [] else (mm, va) :: (item_key <$> l)) /\ mapcount p = n /\ rmap_list p = l /\
  item_nodes p = ri_node <$> l.
Proof. unfold page_maps, rmaps, item_nodes. by intros [= -> -> -> ->]. Qed.

Lemma page_exists_in s pfn : zones_ok s -> 0 <= pfn < total_pages s -> page_exists s pfn = true.
Proof. intros (_ & Hlen & _) Hp. apply Z.ltb_lt. lia. Qed.

Lemma rmaps_live p : mapcount p <> 0 -> rmaps p = (map_mm p, map_vaddr p) :: (item_key <$> rmap_list p).
Proof. intros H. unfold rmaps. by destruct (Z.eqb_spec (mapcount p) 0). Qed.

(** A further node is linked in front. *)
Lemma push_item_post s h pfn mm va node h1 :
  let pg := znth (pages s) pfn in
  let s' := put_maps s pfn (mapcount pg + 1) (map_mm pg) (map_vaddr pg) (Rmap_item node mm va :: rmap_list pg) in
  pa_ok s -> rmap_inv s h -> 0 <= pfn < total_pages s -> mapcount pg <> 0 -> (mm, va) ∉ rmaps pg ->
  kmalloc SIZEOF_RMAP_ITEM h = (Some node, h1) ->
  remapped pfn s s' /\ rmap_inv s' h1 /\ same_foreign s h s' h1 /\
  rmaps (znth (pages s') pfn) ≡ₚ (mm, va) :: rmaps pg.
Proof.
  intros pg s' Hok Hi Hp Hm Hnew Hk. pose proof (put_maps_ok s pfn (mapcount pg + 1) (map_mm pg) (map_vaddr pg)
    (Rmap_item node mm va :: rmap_list pg) Hok Hp) as Hr. fold s' in Hr.
  destruct (kmalloc_some _ _ _ _ (ri_heap _ _ Hi) Hk) as (K1 & _ & K3 & K4).
  pose proof (put_maps_here s pfn (mapcount pg + 1) (map_mm pg) (map_vaddr pg)
    (Rmap_item node mm va :: rmap_list pg) Hok Hp) as E. apply maps_fields in E as (E1 & E2 & E3 & E4).
  fold s' in E1, E2, E3, E4. destruct (ri_pages _ _ Hi pfn Hp) as (P1 & P2 & P3). fold pg in P1, P2, P3.
  pose proof (rmaps_live pg Hm) as Ep. rewrite Ep in P1, Hnew.
  assert (Hpos : mapcount pg + 1 <> 0) by (rewrite P1; unfold zlen; simpl; lia).
  rewrite (proj2 (Z.eqb_neq _ _) Hpos) in E1.
  assert (Hperm : rmaps (znth (pages s') pfn) ≡ₚ (mm, va) :: rmaps pg).
  { rewrite E1, Ep. cbn [fmap list_fmap]. apply Permutation_swap. }
  assert (Hnodes : nodes_at s' pfn = node :: nodes_at s pfn) by exact E4.
  assert (Hfresh : ~ is_node s node) by (intros Hn; by apply K3, (ri_live _ _ Hi)).
  assert (Hn' : forall n, is_node s' n <-> n = node \/ is_node s n).
  { intros n. rewrite (is_node_remapped _ _ _ _ Hr Hp), Hnodes, (is_node_split pfn s n Hp). set_solver. }
  split_and!; try done.
  - eapply rmap_inv_step; try done.
    + split_and!; [|rewrite Hperm; apply NoDup_cons; by rewrite Ep in P2 |- *|lia].
      rewrite E2. unfold zlen. rewrite Hperm, Ep. unfold zlen in P1. cbn [length] in *. lia.
    + rewrite Hnodes. apply NoDup_cons. split; [|by apply (ri_nodup _ _ Hi)].
      intros Hn. apply Hfresh. by exists pfn.
    + intros n. rewrite Hnodes, K4. intros [->|Hn]%elem_of_cons; [set_solver|]. split; [|by left].
      apply elem_of_union_r, (ri_live _ _ Hi). by exists pfn.
    + intros n Hn _. rewrite K4. apply elem_of_union_r. by apply (ri_live _ _ Hi).
  - intros p. rewrite Hn', K4, elem_of_union, elem_of_singleton. split; [|set_solver].
    intros [[->|Hl] Hx]; tauto.
Qed.

(** What [page_add_anon_rmap] does to a page in use: the mapping is recorded,
    unless it was already or there is no memory for the node. *)
Lemma page_add_post mm va phys s h :
  let pfn := phys / 4096 in
  let '(s', h') := page_add_anon_rmap mm va phys (s, h) in
  pa_ok s -> rmap_inv s h -> 0 <= pfn < total_pages s -> ~ free_page s pfn ->
  mapcount (znth (pages s) pfn) < 65535 ->
  remapped pfn s s' /\ rmap_inv s' h' /\ same_foreign s h s' h' /\
  (rmaps (znth (pages s') pfn) ≡ₚ (mm, va) :: rmaps (znth (pages s) pfn) \/
   rmaps (znth (pages s') pfn) = rmaps (znth (pages s) pfn) /\
   ((mm, va) ∈ rmaps (znth (pages s) pfn) \/ (kmalloc SIZEOF_RMAP_ITEM h).1 = None)).
Proof.
  intros pfn. unfold page_add_anon_rmap. fold pfn.
  destruct (negb (page_exists s pfn)) eqn:Ex.
  { intros Hok _ Hp. rewrite page_exists_in in Ex by (done || apply (ok_zones _ Hok)). done. }
  set (pg := znth (pages s) pfn). destruct (Z.eqb_spec (mapcount pg) 0) as [Hm|Hm].
  - intros Hok Hi Hp Hnf _. destruct (ri_pages _ _ Hi pfn Hp) as (P1 & P2 & P3). fold pg in P1, P2, P3.
    rewrite (P3 Hm). pose proof (put_maps_ok s pfn 1 mm va [] Hok Hp) as Hr1.
    set (s1 := put_maps s pfn 1 mm va []) in *.
    pose proof (remapped_lru_add s1 pfn (rm_ok _ _ _ Hr1) (proj1 Hp) ltac:(by rewrite (rm_free _ _ _ Hr1))) as Hr2.
    assert (E : page_maps (znth (pages (lru_add_inactive s1 pfn)) pfn) = (1, mm, va, [])).
    { rewrite <- (put_maps_here s pfn 1 mm va [] Hok Hp). fold s1. apply core_maps, lru_add_core; [|lia|].
      - apply ok_zones, (rm_ok _ _ _ Hr1).
      - by rewrite (total_of_static _ _ (rm_static _ _ _ Hr1)). }
    apply maps_fields in E as (E1 & E2 & E3 & E4). cbn in E1.
    pose proof (remapped_trans _ _ _ _ Hr1 Hr2) as Hr.
    destruct (rmap_inv_same pfn s h _ Hr Hp Hi) as [G1 G2].
    { unfold page_rmap_ok. rewrite E1, E2. split_and!; [done|apply NoDup_singleton|done]. }
    { unfold nodes_at. rewrite E4. unfold item_nodes. fold pg. by rewrite (P3 Hm). }
    split_and!; try done. left. rewrite E1. unfold rmaps. by rewrite Hm.
  - assert (Hsame : forall h1, pa_ok s -> rmap_inv s h -> km_ok h1 -> live h1 = live h ->
      remapped pfn s s /\ rmap_inv s h1 /\ same_foreign s h s h1).
    { intros h1 Hok [I1 I2 I3 I4 I5] Hk E. split_and!; [by apply remapped_refl| |by unfold same_foreign; rewrite E].
      split; try done. intros n Hn. rewrite E. by apply I5. }
    destruct ((map_mm pg =? mm) && (map_vaddr pg =? va)) eqn:E0.
    { intros Hok Hi Hp _ _. destruct (Hsame h Hok Hi (ri_heap _ _ Hi) eq_refl) as (G1 & G2 & G3).
      split_and!; try done. right. split; [done|left]. rewrite (rmaps_live pg Hm).
      apply andb_true_iff in E0 as [->%Z.eqb_eq ->%Z.eqb_eq]. by left. }
    destruct (existsb (is_item mm va) (rmap_list pg)) eqn:E1.
    { intros Hok Hi Hp _ _. destruct (Hsame h Hok Hi (ri_heap _ _ Hi) eq_refl) as (G1 & G2 & G3).
      split_and!; try done. right. split; [done|left]. rewrite (rmaps_live pg Hm).
      apply existsb_item in E1. by right. }
    destruct (kmalloc SIZEOF_RMAP_ITEM h) as [[node|] h1] eqn:Ek.
    + intros Hok Hi Hp Hnf Hlt. destruct (Z.ltb_spec (mapcount pg) 65535); [|lia].
      assert (Hnew : (mm, va) ∉ rmaps pg).
      { rewrite (rmaps_live pg Hm), elem_of_cons. rewrite <- existsb_item, E1.
        intros [[= -> ->]|?]; [|done]. by rewrite !Z.eqb_refl in E0. }
      destruct (push_item_post s h pfn mm va node h1 Hok Hi Hp Hm Hnew Ek) as (G1 & G2 & G3 & G4).
      split_and!; try done. by left.
    + intros Hok Hi Hp _ _. destruct (kmalloc_none _ _ _ (ri_heap _ _ Hi) Ek) as [K1 K2].
      destruct (Hsame h1 Hok Hi K1 K2) as (G1 & G2 & G3). split_and!; try done. right. split; [done|by right].
Qed.

Lemma drop_count_post s pfn n mm va l :
  pa_ok s -> 0 <= pfn < total_pages s -> page_maps (znth (pages s) pfn) = (n, mm, va, l) -> 1 < n ->
  remapped pfn s (drop_count s pfn) /\
  page_maps (znth (pages (drop_count s pfn)) pfn) = (n - 1, mm, va, l).
Proof.
  intros Hok Hp E Hn. unfold drop_count. unfold page_maps in E. injection E as -> -> -> ->.
  unfold dec. destruct (Z.eqb_spec n 0); [lia|].
  pose proof (put_maps_here s pfn (n - 1) mm va l Hok Hp) as E. pose proof (maps_fields _ _ _ _ _ E) as (_ & -> & _).
  destruct (Z.eqb_spec (n - 1) 0); [lia|]. split; [by apply put_maps_ok|done].
Qed.

(** A node is unlinked and freed. *)
Lemma pop_item_post s h pfn mm va i mm' va' l :
  let pg := znth (pages s) pfn in
  let s' := drop_count (put_maps s pfn (mapcount pg) mm' va' l) pfn in
  pa_ok s -> rmap_inv s h -> 0 <= pfn < total_pages s -> mapcount pg <> 0 -> rmap_list pg ≡ₚ i :: l ->
  rmaps pg ≡ₚ (mm, va) :: (mm', va') :: (item_key <$> l) ->
  remapped pfn s s' /\ rmap_inv s' (kfree (ri_node i) h) /\ same_foreign s h s' (kfree (ri_node i) h) /\
  rmaps pg ≡ₚ (mm, va) :: rmaps (znth (pages s') pfn).
Proof.
  intros pg s' Hok Hi Hp Hm Hl Hperm. destruct (ri_pages _ _ Hi pfn Hp) as (P1 & P2 & P3). fold pg in P1, P2, P3.
  assert (Hn : 1 < mapcount pg) by (rewrite P1; unfold zlen; rewrite Hperm; simpl; lia).
  pose proof (put_maps_ok s pfn (mapcount pg) mm' va' l Hok Hp) as Hr1.
  pose proof (put_maps_here s pfn (mapcount pg) mm' va' l Hok Hp) as E.
  pose proof (total_of_static _ _ (rm_static _ _ _ Hr1)) as Ht.
  destruct (drop_count_post _ pfn _ _ _ _ (rm_ok _ _ _ Hr1) ltac:(by rewrite Ht) E Hn) as [Hr2 E']. fold s' in Hr2, E'.
  pose proof (remapped_trans _ _ _ _ Hr1 Hr2) as Hr.
  apply maps_fields in E' as (E1 & E2 & E3 & E4).
  rewrite (proj2 (Z.eqb_neq (mapcount pg - 1) 0)) in E1 by lia.
  assert (Hrm : rmaps pg ≡ₚ (mm, va) :: rmaps (znth (pages s') pfn)) by (by rewrite E1).
  assert (Hnd : NoDup (ri_node i :: nodes_at s' pfn) /\ nodes_at s pfn ≡ₚ ri_node i :: nodes_at s' pfn).
  { assert (Hpm : nodes_at s pfn ≡ₚ ri_node i :: nodes_at s' pfn).
    { unfold nodes_at at 1. unfold item_nodes. fold pg. rewrite Hl. unfold nodes_at. by rewrite E4. }
    split; [|done]. rewrite <- Hpm. by apply (ri_nodup _ _ Hi). }
  destruct Hnd as [[N1 N2]%NoDup_cons N3].
  assert (Hnode : is_node s (ri_node i)) by (exists pfn; rewrite N3; split; [done|by left]).
  destruct (kfree_live (ri_node i) h (ri_heap _ _ Hi) (ri_live _ _ Hi _ Hnode)) as [K1 K2].
  assert (Hn' : forall n, is_node s' n <-> is_node s n /\ n <> ri_node i).
  { intros n. rewrite (is_node_remapped _ _ _ _ Hr Hp), (is_node_split pfn s n Hp), N3, elem_of_cons. split.
    - intros [Hx|(q & Hq & Hne & Hx)]; [by split; [left; right|intros ->]|]. split; [right; by exists q|].
      intros ->. apply Hne, (ri_disjoint _ _ Hi q pfn (ri_node i)); try done. rewrite N3. by left.
    - intros [[[->|Hx]|Hx] Hne]; [done|by left|by right]. }
  split_and!; try done.
  - eapply rmap_inv_step; try done.
    + rewrite P1 in E2. unfold page_rmap_ok. rewrite E2. unfold zlen. rewrite Hrm. cbn [length].
      rewrite Hrm in P2. apply NoDup_cons in P2 as [_ P2]. split_and!; [lia|done|].
      intros Hz. apply nil_length_inv. unfold zlen in P1. rewrite Hrm, E1 in P1. cbn [length] in P1, Hz.
      rewrite E1 in Hz. cbn [length] in Hz. lia.
    + intros n Hx. rewrite K2, elem_of_difference, elem_of_singleton. split; [|left; rewrite N3; by right].
      split; [|by intros ->]. apply (ri_live _ _ Hi). exists pfn. split; [done|]. rewrite N3. by right.
    + intros n Hx Hnot. rewrite K2, elem_of_difference, elem_of_singleton. split; [by apply (ri_live _ _ Hi)|].
      intros ->. apply Hnot. rewrite N3. by left.
  - intros p. rewrite Hn', K2, elem_of_difference, elem_of_singleton. split; [|naive_solver].
    intros [[? ?] Hx]. split; [done|]. intros Hx'. by apply Hx.
Qed.

(** What [page_remove_rmap] does: the mapping is forgotten, the others stay. *)
Lemma page_remove_post mm va phys s h :
  let pfn := phys / 4096 in
  let '(s', h') := page_remove_rmap mm va phys (s, h) in
  pa_ok s -> rmap_inv s h -> 0 <= pfn < total_pages s ->
  remapped pfn s s' /\ rmap_inv s' h' /\ same_foreign s h s' h' /\
  (rmaps (znth (pages s) pfn) ≡ₚ (mm, va) :: rmaps (znth (pages s') pfn) \/
   rmaps (znth (pages s') pfn) = rmaps (znth (pages s) pfn) /\ (mm, va) ∉ rmaps (znth (pages s) pfn)).
Proof.
  intros pfn. unfold page_remove_rmap. fold pfn.
  destruct (negb (page_exists s pfn)) eqn:Ex.
  { intros Hok _ Hp. rewrite page_exists_in in Ex by (done || apply (ok_zones _ Hok)). done. }
  set (pg := znth (pages s) pfn).
  assert (Hsame : pa_ok s -> rmap_inv s h -> (mm, va) ∉ rmaps pg ->
    remapped pfn s s /\ rmap_inv s h /\ same_foreign s h s h /\
    (rmaps pg ≡ₚ (mm, va) :: rmaps pg \/ rmaps pg = rmaps pg /\ (mm, va) ∉ rmaps pg)).
  { intros Hok Hi Hn. split_and!; [by apply remapped_refl|done|done|by right]. }
  destruct (Z.eqb_spec (mapcount pg) 0) as [Hm|Hm].
  { intros Hok Hi Hp. apply Hsame; [done..|]. unfold rmaps. rewrite Hm. apply not_elem_of_nil. }
  pose proof (rmaps_live pg Hm) as Er.
  destruct ((map_mm pg =? mm) && (map_vaddr pg =? va)) eqn:E0.
  - apply andb_true_iff in E0 as [Em%Z.eqb_eq Ev%Z.eqb_eq]. rewrite Em, Ev in Er.
    destruct (Z.eqb_spec (mapcount pg) 1) as [H1|H1].
    + intros Hok Hi Hp. destruct (ri_pages _ _ Hi pfn Hp) as (P1 & _). fold pg in P1.
      assert (Hnil : rmap_list pg = []).
      { apply nil_length_inv. rewrite Er in P1. unfold zlen in P1. cbn [length] in P1. rewrite length_fmap in P1. lia. }
      pose proof (put_maps_ok s pfn 0 0 0 (rmap_list pg) Hok Hp) as Hr1. rewrite Hnil in *.
      set (s1 := put_maps s pfn 0 0 0 []) in *.
      pose proof (remapped_lru_del s1 pfn (rm_ok _ _ _ Hr1) (proj1 Hp)) as Hr2.
      assert (E : page_maps (znth (pages (lru_del s1 pfn)) pfn) = (0, 0, 0, [])).
      { rewrite <- (put_maps_here s pfn 0 0 0 [] Hok Hp). fold s1. apply core_maps, lru_del_core; [|lia|].
        - apply ok_zones, (rm_ok _ _ _ Hr1).
        - by rewrite (total_of_static _ _ (rm_static _ _ _ Hr1)). }
      apply maps_fields in E as (E1 & E2 & E3 & E4). cbn in E1.
      pose proof (remapped_trans _ _ _ _ Hr1 Hr2) as Hr.
      destruct (rmap_inv_same pfn s h _ Hr Hp Hi) as [G1 G2].
      { unfold page_rmap_ok. rewrite E1, E2. split_and!; [done|apply NoDup_nil_2|done]. }
      { unfold nodes_at. rewrite E4. unfold item_nodes. fold pg. by rewrite Hnil. }
      split_and!; try done. left. rewrite E1, Er. done.
    + destruct (rmap_list pg) as [|i l] eqn:El; intros Hok Hi Hp.
      { destruct (ri_pages _ _ Hi pfn Hp) as (P1 & _). fold pg in P1. rewrite Er in P1. by unfold zlen in P1. }
      destruct (pop_item_post s h pfn mm va i (ri_mm i) (ri_vaddr i) l Hok Hi Hp Hm) as (G1 & G2 & G3 & G4).
      { fold pg. by rewrite El. }
      { fold pg. by rewrite Er. }
      split_and!; try done. by left.
  - pose proof (unlink_item_spec mm va (rmap_list pg)) as Hu.
    destruct (unlink_item mm va (rmap_list pg)) as [[i l]|]; intros Hok Hi Hp.
    + destruct Hu as [Hl Hk].
      destruct (pop_item_post s h pfn mm va i (map_mm pg) (map_vaddr pg) l Hok Hi Hp Hm Hl) as (G1 & G2 & G3 & G4).
      { fold pg. rewrite Er, Hl. cbn [fmap list_fmap]. rewrite Hk. apply Permutation_swap. }
      split_and!; try done. by left.
    + apply Hsame; [done..|]. rewrite Er, elem_of_cons. intros [[= -> ->]|Hx]; [|done].
      by rewrite !Z.eqb_refl in E0.
Qed.

(** The invariant and the nodes depend on the mapping fields only. *)
Lemma rmap_inv_maps s s' h :
  total_pages s' = total_pages s -> maps_same s s' -> rmap_inv s h ->
  rmap_inv s' h /\ (forall n, is_node s' n <-> is_node s n).
Proof.
  intros Ht Hm [I1 I2 I3 I4 I5].
  assert (Hn : forall q, 0 <= q < total_pages s -> nodes_at s' q = nodes_at s q).
  { intros q Hq. specialize (Hm q Hq). unfold nodes_at, item_nodes. unfold page_maps in Hm. by injection Hm as _ _ _ ->. }
  assert (Hi : forall n, is_node s' n <-> is_node s n).
  { intros n. unfold is_node. rewrite Ht. split; intros (q & Hq & H); exists q; by rewrite Hn in *. }
  split; [|done]. split; rewrite ?Ht; try done.
  - intros q Hq. apply (page_rmap_ok_of _ _ (Hm q Hq)). by apply I2.
  - intros q Hq. rewrite Hn by done. by apply I3.
  - intros q q' n Hq Hq'. rewrite !Hn by done. by apply I4.
  - intros n. rewrite Hi. apply I5.
Qed.

(** *** Giving up one mapping of a frame *)

(** The mapping is forgotten and a reference dropped. *)
Record mapping_dropped (mm va : Z) (f : Z) (s : pa) (h : M) (s' : pa) (h' : M) : Prop := MappingDropped {
  md_ok : pa_ok s';
  md_static : pa_static s' = pa_static s;
  md_rmap : rmap_inv s' h';
  md_foreign : same_foreign s h s' h';
  md_other q : 0 <= q < total_pages s -> q <> f / 4096 ->
    refcount (znth (pages s') q) = refcount (znth (pages s) q) /\
    page_maps (znth (pages s') q) = page_maps (znth (pages s) q);
  md_ref : refcount (znth (pages s') (f / 4096)) = dropped (refcount (znth (pages s) (f / 4096)));
  md_maps : rmaps (znth (pages s) (f / 4096)) ≡ₚ (mm, va) :: rmaps (znth (pages s') (f / 4096)) \/
    rmaps (znth (pages s') (f / 4096)) = rmaps (znth (pages s) (f / 4096)) /\
    (mm, va) ∉ rmaps (znth (pages s) (f / 4096));
  md_free q : free_page s' q <-> free_page s q \/ (q = f / 4096 /\ refcount (znth (pages s) (f / 4096)) <= 1);
}.

Lemma in_block_0 p q : in_block p 0 q <-> q = p.
Proof. unfold in_block. change (2 ^ 0) with 1. lia. Qed.

Lemma block_ok_0 s q :
  zones_ok s -> 0 < q < total_pages s -> block_ok (buddy_max_order s) (get_zone s (pfn_to_zone s q)) q 0.
Proof.
  intros Hz Hq. pose proof (zone_of_pfn s q Hz ltac:(lia)) as Hin. destruct Hz as (_ & _ & _ & _ & _ & _ & _ & Hmo).
  unfold block_ok, in_zone in *. change (2 ^ 0) with 1. split_and!; try lia. apply Z.divide_1_l.
Qed.

(** [free_page] on one frame in use. *)
Lemma free_frame_post s q :
  pa_ok s -> buddy_ready s = true -> 0 < q < total_pages s -> q * 4096 < PAGE_OFFSET -> ~ free_page s q ->
  0 <= refcount (znth (pages s) q) < 65536 ->
  exists s', free_pages s (q * 4096) 0 = Some s' /\ released s q 0 s' /\
    (forall x, free_page s' x <-> free_page s x \/ (x = q /\ refcount (znth (pages s) q) <= 1)).
Proof.
  intros Hok Hr Hq Hlow Hn Href. destruct (free_pages_post s (pfn_to_zone s q) q 0 Hok Hr) as (s' & E & Hrel).
  { split_and!; [by apply block_ok_0; [apply (ok_zones _ Hok)|]|done|]. intros x ->%in_block_0. done. }
  exists s'. split_and!; try done. intros x. destruct (Z.le_gt_cases (refcount (znth (pages s) q)) 1) as [Hle|Hgt].
  - rewrite (rd_last _ _ _ _ Hrel) by (intros y ->%in_block_0; done). rewrite in_block_0. tauto.
  - rewrite (rd_shared _ _ _ _ Hrel) by (exists q; by rewrite in_block_0). split; [by left|]. intros [?|[_ ?]]; [done|lia].
Qed.

Lemma drop_mapping mm va f s h :
  pa_ok s -> buddy_ready s = true -> rmap_inv s h -> (4096 | f) -> 0 < f < PAGE_OFFSET -> f / 4096 < total_pages s ->
  ~ free_page s (f / 4096) -> 0 <= refcount (znth (pages s) (f / 4096)) < 65536 ->
  let '(s1, h1) := page_remove_rmap mm va f (s, h) in
  exists s2, free_pages s1 f 0 = Some s2 /\ mapping_dropped mm va f s h s2 h1.
Proof.
  intros Hok Hr Hi [q ->] Hf Ht Hn Href. rewrite Z.div_mul in * by lia.
  pose proof (page_remove_post mm va (q * 4096) s h) as HP. rewrite Z.div_mul in HP by lia.
  destruct (page_remove_rmap mm va (q * 4096) (s, h)) as [s1 h1].
  destruct (HP Hok Hi ltac:(lia)) as (Hm & Hi1 & Hf1 & Hmaps).
  pose proof (total_of_static _ _ (rm_static _ _ _ Hm)) as Ht1.
  assert (Hq1 : refcount (znth (pages s1) q) = refcount (znth (pages s) q)) by (apply (rm_refs _ _ _ Hm); lia).
  destruct (free_frame_post s1 q) as (s2 & E & Hrel & Hfree); try done.
  { apply (rm_ok _ _ _ Hm). }
  { pose proof (rm_static _ _ _ Hm) as Hst. unfold pa_static in Hst. congruence. }
  { lia. }
  { lia. }
  { by rewrite (rm_free _ _ _ Hm). }
  { by rewrite Hq1. }
  exists s2. split; [done|]. pose proof (total_of_static _ _ (rd_static _ _ _ _ Hrel)) as Ht2.
  assert (Hsame : maps_same s1 s2) by (intros y; apply (rd_maps _ _ _ _ Hrel)).
  destruct (rmap_inv_maps s1 s2 h1 Ht2 Hsame Hi1) as [Hi2 Hn2].
  assert (Hrq : rmaps (znth (pages s2) q) = rmaps (znth (pages s1) q)) by (apply rmaps_of, Hsame; lia).
  split; rewrite ?Z.div_mul by lia; try done.
  - apply (rd_ok _ _ _ _ Hrel).
  - by rewrite (rd_static _ _ _ _ Hrel), (rm_static _ _ _ Hm).
  - intros p. rewrite Hn2. apply Hf1.
  - intros y Hy Hne. rewrite <- Ht1 in Hy. split.
    + rewrite (rd_other _ _ _ _ Hrel) by (done || by rewrite in_block_0). apply (rm_refs _ _ _ Hm). by rewrite <- Ht1.
    + rewrite Hsame by done. apply (rm_other _ _ _ Hm); [by rewrite <- Ht1|done].
  - rewrite (rd_refs _ _ _ _ Hrel) by (by rewrite in_block_0). by rewrite Hq1.
  - by rewrite Hrq.
  - intros y. rewrite Hfree, (rm_free _ _ _ Hm), Hq1. done.
Qed.
End owned.
