(* ===== verification/Paging.v ===== *)
(** * Page tables in physical memory ([mm/memory.c], [asm/pgtable.h])

    Physical memory is a map from page addresses to pages of 1024 words.  A
    page directory is named by its pointer in the direct map, 0 for NULL, and a
    page table by its physical address, the way the directory entries name it;
    the kernel reaches both through the direct map, so that reading [pgd[i]] is
    reading the physical page below.  A function of this file that only reads
    returns its result, one that writes the new memory, both inside [run]: the
    direct map panics for a physical address above the memory it covers.  The
    TLB is not modelled: every change of an entry in use is followed by
    [invlpg] in the code. *)

From stdpp Require Import base tactics numbers list gmap sets.
From Stdlib Require Import ZArith Lia.
From S2P Require Import Prelude Bootmem Buddy Vma.

(** ** The hardware's formats *)

Definition PGDIR_SIZE : Z := 4194304.
Definition PTE_PRESENT : Z := 1.
Definition PTE_READ_WRITE : Z := 2.
Definition PTE_USER : Z := 4.
Definition PTE_CACHE_DISABLE : Z := 16.
Definition PTE_COW : Z := 512.

Definition pgd_index (address : Z) : Z := Z.shiftr address 22.
Definition pte_index (address : Z) : Z := Z.land (Z.shiftr address 12) 1023.
Definition pgd_present (pgd : Z) : bool := has pgd PTE_PRESENT.
Definition pte_present (pte : Z) : bool := has pte PTE_PRESENT.
Definition pte_user (pte : Z) : bool := has pte PTE_USER.
Definition pte_write (pte : Z) : bool := has pte PTE_READ_WRITE.
Definition pte_pfn (pte : Z) : Z := Z.land pte (not32 4095).
(** [pte & (PAGE_SIZE - 1)] *)
Definition pte_flags (pte : Z) : Z := Z.land pte 4095.

Definition phys_to_virt (phys : Z) : Z := phys +w PAGE_OFFSET.
Definition virt_to_phys_addr (virt : Z) : Z := virt -w PAGE_OFFSET.

(** ** Physical memory *)

Definition zero_page : list Z := replicate 1024 0.
Notation memory := (gmap Z (list Z)).

Definition frame (r : memory) (p : Z) : list Z := default zero_page (r !! p).
Definition rd (r : memory) (p i : Z) : Z := znth (frame r p) i.
Definition wr (r : memory) (p i v : Z) : memory := <[p := zset (frame r p) i v]> r.

Section tables.
Variable lowmem_end : Z.
Implicit Types (r : memory) (pgd va : Z).

Definition memlayout_align_up_u32 (v align : Z) : Z :=
  if align =? 0 then v else Z.land (v +w (align -w 1)) (not32 (align -w 1)).

Definition memlayout_lowmem_phys_end : Z := memlayout_align_up_u32 lowmem_end PGDIR_SIZE.

Definition memlayout_directmap_phys_to_virt (phys : Z) : run Z :=
  if negb (lowmem_end =? 0) && (memlayout_lowmem_phys_end <=? phys) then Panics else Ret (phys_to_virt phys).

(** [pgd[pgd_index(va)]] *)
Definition pgd_entry r pgd va : Z := rd r (virt_to_phys_addr pgd) (pgd_index va).

(** The physical page of the table an entry points to, through the direct map. *)
Definition table_of (pde : Z) : run Z :=
  let? v := memlayout_directmap_phys_to_virt (pte_pfn pde) in Ret (virt_to_phys_addr v).

(** ** Reading entries *)

Definition get_pte_raw r pgd va : run Z :=
  if pgd =? 0 then Ret 0 else
  let pde := pgd_entry r pgd va in
  if negb (pgd_present pde) then Ret 0 else
  let? t := table_of pde in
  Ret (rd r t (pte_index va)).

Definition get_pte_flags r pgd va : run Z :=
  if pgd =? 0 then Ret 0 else
  let pde := pgd_entry r pgd va in
  if negb (pgd_present pde) then Ret 0 else
  let? t := table_of pde in
  let pte := rd r t (pte_index va) in
  if negb (pte_present pte) then Ret 0 else Ret pte.

Definition virt_to_phys_pgd r pgd va : run Z :=
  if pgd =? 0 then Ret 4294967295 else
  let pde := pgd_entry r pgd va in
  if negb (pgd_present pde) then Ret 4294967295 else
  let? t := table_of pde in
  let pte := rd r t (pte_index va) in
  if negb (pte_present pte) then Ret 4294967295 else Ret (pte_pfn pte +w Z.land va 4095).

(** The same walk on the current directory. *)
Definition virt_to_phys r page_directory va : run Z :=
  if page_directory =? 0 then Ret 4294967295 else
  let pde := pgd_entry r page_directory va in
  if negb (pgd_present pde) then Ret 4294967295 else
  let? t := table_of pde in
  let pte := rd r t (pte_index va) in
  if negb (pte_present pte) then Ret 4294967295 else Ret (pte_pfn pte +w Z.land va 4095).

Definition page_mapped r page_directory va : run bool :=
  if page_directory =? 0 then Ret false else
  let pde := pgd_entry r page_directory va in
  if negb (pgd_present pde) then Ret false else
  let? t := table_of pde in
  Ret (pte_present (rd r t (pte_index va))).

(** [Ret None] is the result 0. *)
Definition get_pte r pgd va : run (option (Z * Z)) :=
  if pgd =? 0 then Ret None else
  let pde := pgd_entry r pgd va in
  if negb (pgd_present pde) then Ret None else
  let? t := table_of pde in
  let pte := rd r t (pte_index va) in
  if negb (pte_present pte) then Ret None else Ret (Some (pde, pte)).

(** ** Changing entries *)

(** [pgd[pgd_index(va)] |= PTE_USER] *)
Definition set_pde_user r pgd va : memory :=
  wr r (virt_to_phys_addr pgd) (pgd_index va) (Z.lor (pgd_entry r pgd va) PTE_USER).

Definition set_pte_raw r pgd va (pte : Z) : run memory :=
  if pgd =? 0 then Ret r else
  let pde := pgd_entry r pgd va in
  if negb (pgd_present pde) then Ret r else
  let? t := table_of pde in
  Ret (wr r t (pte_index va) pte).

Definition set_pte_flags r pgd va (flags : Z) : run memory :=
  if pgd =? 0 then Ret r else
  let pde := pgd_entry r pgd va in
  if negb (pgd_present pde) then Ret r else
  let r1 := if has flags PTE_USER then set_pde_user r pgd va else r in
  let? t := table_of pde in
  let pte := rd r1 t (pte_index va) in
  if negb (pte_present pte) then Ret r1
  else Ret (wr r1 t (pte_index va) (Z.lor (pte_pfn pte) (pte_flags flags))).

Definition unmap_page_pgd r pgd va : run memory :=
  if pgd =? 0 then Ret r else
  let pde := pgd_entry r pgd va in
  if negb (pgd_present pde) then Ret r else
  let? t := table_of pde in
  if negb (pte_present (rd r t (pte_index va))) then Ret r else Ret (wr r t (pte_index va) 0).

Definition set_page_user_pgd r pgd va : run memory :=
  if pgd =? 0 then Ret r else
  let pde := pgd_entry r pgd va in
  if negb (pgd_present pde) then Ret r else
  let? t := table_of pde in
  let pte := rd r t (pte_index va) in
  if negb (pte_present pte) then Ret r
  else Ret (wr (set_pde_user r pgd va) t (pte_index va) (Z.lor pte PTE_USER)).

Definition set_page_user r page_directory va : run memory := set_page_user_pgd r page_directory va.

Definition set_page_readonly_pgd r pgd va : run memory :=
  if pgd =? 0 then Ret r else
  let pde := pgd_entry r pgd va in
  if negb (pgd_present pde) then Ret r else
  let? t := table_of pde in
  let pte := rd r t (pte_index va) in
  if negb (pte_present pte) then Ret r else Ret (wr r t (pte_index va) (Z.land pte (not32 PTE_READ_WRITE))).
End tables.

(** ** Words *)

Lemma has_lor a b n : 0 <= n -> has (Z.lor a b) (2 ^ n) = has a (2 ^ n) || has b (2 ^ n).
Proof. intros Hn. by rewrite !has_testbit, Z.lor_spec. Qed.

Lemma has_land a b n : 0 <= n -> has (Z.land a b) (2 ^ n) = has a (2 ^ n) && has b (2 ^ n).
Proof. intros Hn. by rewrite !has_testbit, Z.land_spec. Qed.

Lemma has_zero n : 0 <= n -> has 0 (2 ^ n) = false.
Proof. intros Hn. by rewrite has_testbit, Z.bits_0. Qed.

Lemma land_u32 x y : is_u32 x -> is_u32 (Z.land x y).
Proof.
  intros Hx. replace (Z.land x y) with (Z.land x y mod 2 ^ 32).
  - pose proof (Z.mod_pos_bound (Z.land x y) (2 ^ 32)). unfold is_u32. lia.
  - rewrite <- Z.land_ones, <- Z.land_assoc, (Z.land_comm y), Z.land_assoc, (Z.land_ones x) by lia.
    unfold is_u32 in Hx. by rewrite (Z.mod_small x) by lia.
Qed.

Lemma pte_flags_mod x : pte_flags x = x mod 4096.
Proof. apply (land_mask x 12); lia. Qed.

Lemma pte_pfn_eq x : is_u32 x -> pte_pfn x = x - x mod 4096.
Proof. intros Hx. apply (land_not32_mask x 12); [lia|done|done]. Qed.

Lemma pte_pfn_range x : is_u32 x -> 0 <= pte_pfn x <= x /\ (4096 | pte_pfn x).
Proof.
  intros Hx. rewrite pte_pfn_eq by done. pose proof (Z.mod_pos_bound x 4096). unfold is_u32 in Hx.
  pose proof (Z.mod_le x 4096). split; [lia|]. exists (x / 4096). rewrite (Z.div_mod x 4096) at 1 by lia. lia.
Qed.

(** The low twelve bits of an entry are its flags. *)
Lemma has_flags x n : 0 <= n < 12 -> has (pte_flags x) (2 ^ n) = has x (2 ^ n).
Proof.
  intros Hn. unfold pte_flags. rewrite has_land, (has_testbit 4095) by lia.
  change 4095 with (Z.ones 12). rewrite Z.ones_spec_low by lia. apply andb_true_r.
Qed.

(** An entry built from a page address and flags. *)
Lemma entry_sum f fl : (4096 | f) -> 0 <= fl < 4096 -> Z.lor f fl = f + fl.
Proof.
  intros [k ->] Hfl. assert (Hl : Z.land (k * 4096) fl = 0).
  { apply Z.bits_inj'. intros i Hi. rewrite Z.land_spec, Z.bits_0. change 4096 with (2 ^ 12).
    destruct (Z.lt_ge_cases i 12); [by rewrite Z.mul_pow2_bits_low by lia|].
    rewrite <- (Z.mod_small fl (2 ^ 12)), Z.mod_pow2_bits_high by lia. apply andb_false_r. }
  by rewrite Z.add_nocarry_lxor, Z.lxor_lor.
Qed.

Lemma entry_pfn f fl : (4096 | f) -> 0 <= fl < 4096 -> 0 <= f < 4294967296 -> pte_pfn (Z.lor f fl) = f.
Proof.
  intros Hf Hfl Hr. rewrite entry_sum by done. destruct Hf as [k ->].
  assert (E : (k * 4096 + fl) mod 4096 = fl) by (rewrite Z.add_comm, Z.mod_add by lia; by apply Z.mod_small).
  rewrite pte_pfn_eq, E by (unfold is_u32; lia). lia.
Qed.

Lemma entry_flags f fl : (4096 | f) -> 0 <= fl < 4096 -> pte_flags (Z.lor f fl) = fl.
Proof.
  intros Hf Hfl. rewrite entry_sum, pte_flags_mod by done. destruct Hf as [k ->].
  rewrite Z.add_comm, Z.mod_add by lia. by apply Z.mod_small.
Qed.

Lemma entry_u32 f fl : (4096 | f) -> 0 <= fl < 4096 -> 0 <= f < 4294967296 -> is_u32 (Z.lor f fl).
Proof. intros [k ->] Hfl Hr. rewrite entry_sum by (done || by exists k). unfold is_u32. lia. Qed.

Lemma entry_has f fl n : (4096 | f) -> 0 <= fl < 4096 -> 0 <= n < 12 -> has (Z.lor f fl) (2 ^ n) = has fl (2 ^ n).
Proof. intros Hf Hfl Hn. rewrite <- has_flags, entry_flags by done. done. Qed.

(** The user bit added to an entry. *)
Lemma lor_user x :
  is_u32 x -> is_u32 (Z.lor x PTE_USER) /\ pte_pfn (Z.lor x PTE_USER) = pte_pfn x /\
  pgd_present (Z.lor x PTE_USER) = pgd_present x.
Proof.
  intros Hx. destruct (pte_pfn_range x Hx) as [Hx1 Hx2].
  assert (Hf : 0 <= pte_flags x < 4096) by (rewrite pte_flags_mod; apply Z.mod_pos_bound; lia).
  assert (Hsplit : x = Z.lor (pte_pfn x) (pte_flags x)).
  { rewrite entry_sum, pte_flags_mod, pte_pfn_eq by (done || rewrite pte_flags_mod; apply Z.mod_pos_bound; lia). lia. }
  assert (Hor : Z.lor x PTE_USER = Z.lor (pte_pfn x) (Z.lor (pte_flags x) PTE_USER)) by (rewrite Z.lor_assoc; by rewrite <- Hsplit).
  assert (Hf' : 0 <= Z.lor (pte_flags x) PTE_USER < 4096).
  { split; [apply Z.lor_nonneg; unfold PTE_USER; lia|].
    destruct (decide (pte_flags x = 0)) as [->|]; [done|]. apply (Z.log2_lt_cancel _ 4096).
    rewrite Z.log2_lor by (unfold PTE_USER; lia). apply Z.max_lub_lt; [|done].
    change (Z.log2 4096) with 12. apply Z.log2_lt_pow2; lia. }
  unfold is_u32 in Hx. split_and!.
  - rewrite Hor. apply entry_u32; done || lia.
  - rewrite Hor. apply entry_pfn; done || lia.
  - unfold pgd_present. change PTE_PRESENT with (2 ^ 0). rewrite has_lor by lia. apply orb_false_r.
Qed.

(** A directory entry that at most became accessible to user programs. *)
Definition pde_like (a b : Z) : Prop := b = a \/ b = Z.lor a PTE_USER.

Lemma pde_like_trans a b c : pde_like a b -> pde_like b c -> pde_like a c.
Proof. intros [->| ->] [->| ->]; unfold pde_like; rewrite <- ?Z.lor_assoc, ?Z.lor_diag; tauto. Qed.

Lemma pde_like_same a b :
  pde_like a b -> is_u32 a ->
  pte_pfn b = pte_pfn a /\ pgd_present b = pgd_present a /\ has b PTE_READ_WRITE = has a PTE_READ_WRITE /\
  (has a PTE_USER = true -> has b PTE_USER = true).
Proof.
  intros [->| ->] Ha; [done|]. destruct (lor_user a Ha) as (_ & E1 & E2). split_and!; try done.
  - change PTE_READ_WRITE with (2 ^ 1). change PTE_USER with (2 ^ 2). rewrite has_set_ne by lia. done.
  - intros _. change PTE_USER with (2 ^ 2). apply has_set. lia.
Qed.

(** ** Addresses *)

Definition page_of (va : Z) : Z := va / 4096.

Lemma pgd_index_eq va : pgd_index va = va / 4194304.
Proof. unfold pgd_index. rewrite Z.shiftr_div_pow2 by lia. done. Qed.

Lemma pte_index_eq va : pte_index va = page_of va mod 1024.
Proof. unfold pte_index. rewrite (land_mask _ 10), Z.shiftr_div_pow2 by lia. done. Qed.

Lemma pgd_index_range va : is_u32 va -> 0 <= pgd_index va < 1024.
Proof. unfold is_u32. rewrite pgd_index_eq. split; [apply Z.div_pos; lia|apply Z.div_lt_upper_bound; lia]. Qed.

Lemma pte_index_range va : 0 <= pte_index va < 1024.
Proof. rewrite pte_index_eq. apply Z.mod_pos_bound. lia. Qed.

Lemma pgd_index_user va : 0 <= va < TASK_SIZE -> 0 <= pgd_index va < 768.
Proof. unfold TASK_SIZE. rewrite pgd_index_eq. split; [apply Z.div_pos; lia|apply Z.div_lt_upper_bound; lia]. Qed.

Lemma indices_page va va' :
  0 <= va -> 0 <= va' -> pgd_index va = pgd_index va' -> pte_index va = pte_index va' -> page_of va = page_of va'.
Proof.
  intros H H'. rewrite !pgd_index_eq, !pte_index_eq. unfold page_of.
  change 4194304 with (4096 * 1024). rewrite <- !Z.div_div by lia. intros E1 E2.
  rewrite (Z.div_mod (va / 4096) 1024), (Z.div_mod (va' / 4096) 1024) by lia. congruence.
Qed.

Lemma page_indices va va' :
  page_of va = page_of va' -> pgd_index va = pgd_index va' /\ pte_index va = pte_index va'.
Proof.
  unfold page_of. intros E. rewrite !pgd_index_eq, !pte_index_eq. unfold page_of.
  change 4194304 with (4096 * 1024). rewrite <- !Z.div_div, E by lia. done.
Qed.

(** ** Memory *)

Definition pages_sized (r : memory) : Prop :=
  forall p l, r !! p = Some l -> length l = 1024%nat /\ Forall is_u32 l.

Lemma frame_sized r p : pages_sized r -> length (frame r p) = 1024%nat /\ Forall is_u32 (frame r p).
Proof.
  intros H. unfold frame. destruct (r !! p) as [l|] eqn:E; [by apply (H p)|]. simpl. split; [done|].
  apply Forall_replicate. unfold is_u32. lia.
Qed.

Lemma rd_u32 r p i : pages_sized r -> is_u32 (rd r p i).
Proof.
  intros H. destruct (frame_sized r p H) as [Hl Hf]. unfold rd, znth. rewrite list_lookup_total_alt.
  destruct (frame r p !! Z.to_nat i) as [x|] eqn:E; simpl; [|unfold is_u32; lia].
  rewrite Forall_forall in Hf. apply Hf. by apply list_elem_of_lookup_2 in E.
Qed.

Lemma wr_sized r p i v : pages_sized r -> is_u32 v -> pages_sized (wr r p i v).
Proof.
  intros H Hv q l. unfold wr. destruct (frame_sized r p H) as [Hl Hf]. rewrite lookup_insert_Some.
  intros [[-> <-]|[_ E]]; [|by apply (H q)]. split; [by rewrite length_zset|].
  unfold zset. by apply Forall_insert.
Qed.

Lemma frame_insert r p l q : frame (<[p := l]> r) q = if decide (q = p) then l else frame r q.
Proof.
  unfold frame. case_decide; [subst; by rewrite lookup_insert_eq|]. by rewrite lookup_insert_ne.
Qed.

Lemma rd_wr r p i v q j :
  pages_sized r -> 0 <= i < 1024 -> 0 <= j ->
  rd (wr r p i v) q j = if decide (q = p /\ j = i) then v else rd r q j.
Proof.
  intros H Hi Hj. unfold rd, wr. rewrite frame_insert. destruct (frame_sized r p H) as [Hl _].
  destruct (decide (q = p)) as [->|Hne]; [|by rewrite decide_False by tauto].
  destruct (decide (j = i)) as [->|Hji].
  - rewrite decide_True by done. apply znth_zset_eq. unfold zlen. lia.
  - rewrite decide_False by tauto. apply znth_zset_ne; lia.
Qed.

Lemma frame_wr_other r p i v q : q <> p -> frame (wr r p i v) q = frame r q.
Proof. intros H. unfold wr. rewrite frame_insert. by rewrite decide_False. Qed.

(** ** Well-formed tables

    [D] is the set of page directories.  The entries of a directory point to
    tables inside the direct map; below [TASK_SIZE] (the first 768 entries) no
    table is used twice. *)

Section walk.
Variable lowmem_end : Z.
Implicit Types (r : memory) (D : gset Z) (pgd va : Z).
Notation LE := (memlayout_lowmem_phys_end lowmem_end).
Notation dphys := virt_to_phys_addr.

Definition LOWMEM_MAX : Z := 939524096.
Hypothesis Hlow : 0 < lowmem_end <= LOWMEM_MAX.

Lemma low_phys_end : lowmem_end <= LE <= LOWMEM_MAX /\ (4194304 | LE).
Proof.
  unfold memlayout_lowmem_phys_end, memlayout_align_up_u32, PGDIR_SIZE, LOWMEM_MAX in *. cbn [Z.eqb].
  rewrite (sub32_id 4194304) by lia. rewrite add32_id by lia.
  rewrite (land_not32_mask _ 22) by (unfold is_u32; lia). change (2 ^ 22) with 4194304.
  pose proof (Z.div_mod (lowmem_end + (4194304 - 1)) 4194304). pose proof (Z.mod_pos_bound (lowmem_end + (4194304 - 1)) 4194304).
  split; [|exists ((lowmem_end + (4194304 - 1)) / 4194304); lia].
  assert ((lowmem_end + (4194304 - 1)) / 4194304 <= 224) by (apply Z.lt_succ_r, Z.div_lt_upper_bound; lia). lia.
Qed.

Record dirs_ok r D : Prop := DirsOk {
  dk_sized : pages_sized r;
  dk_dir pgd : pgd ∈ D -> exists p, pgd = p + PAGE_OFFSET /\ 0 < p < LE /\ (4096 | p);
  dk_low pgd i : pgd ∈ D -> 0 <= i < 1024 -> pgd_present (rd r (dphys pgd) i) = true ->
    0 < pte_pfn (rd r (dphys pgd) i) < LE;
  dk_sep pgd i pgd' : pgd ∈ D -> pgd' ∈ D -> 0 <= i < 1024 -> pgd_present (rd r (dphys pgd) i) = true ->
    pte_pfn (rd r (dphys pgd) i) <> dphys pgd';
  dk_inj pgd i pgd' j : pgd ∈ D -> pgd' ∈ D -> 0 <= i < 1024 -> 0 <= j < 1024 ->
    pgd_present (rd r (dphys pgd) i) = true -> pgd_present (rd r (dphys pgd') j) = true ->
    pte_pfn (rd r (dphys pgd) i) = pte_pfn (rd r (dphys pgd') j) -> i = j /\ (pgd = pgd' \/ 768 <= i);
}.

(** The page holds a directory or a table. *)
Definition is_table r D (t : Z) : Prop :=
  exists pgd i, pgd ∈ D /\ 0 <= i < 1024 /\ pgd_present (rd r (dphys pgd) i) = true /\ t = pte_pfn (rd r (dphys pgd) i).
Definition is_dir D (p : Z) : Prop := exists pgd, pgd ∈ D /\ p = dphys pgd.
Definition is_pt r D (p : Z) : Prop := is_table r D p \/ is_dir D p.

(** The entry of an address, 0 where there is no table. *)
Definition pte_of r pgd va : Z :=
  let pde := pgd_entry r pgd va in
  if pgd_present pde then rd r (pte_pfn pde) (pte_index va) else 0.

Lemma dphys_eq p : 0 < p < LE -> dphys (p + PAGE_OFFSET) = p.
Proof.
  intros H. destruct low_phys_end as [? _]. unfold virt_to_phys_addr, PAGE_OFFSET, LOWMEM_MAX in *.
  rewrite sub32_id; lia.
Qed.

Lemma dir_phys r D pgd : dirs_ok r D -> pgd ∈ D -> pgd <> 0 /\ 0 < dphys pgd < LE /\ (4096 | dphys pgd).
Proof.
  intros Hd Hp. destruct (dk_dir _ _ Hd pgd Hp) as (p & -> & Hr & Ha). rewrite dphys_eq by done.
  unfold PAGE_OFFSET. split_and!; try done; lia.
Qed.

Lemma dphys_inj r D pgd pgd' : dirs_ok r D -> pgd ∈ D -> pgd' ∈ D -> dphys pgd = dphys pgd' -> pgd = pgd'.
Proof.
  intros Hd Hp Hp'. destruct (dk_dir _ _ Hd pgd Hp) as (p & -> & Hr & _), (dk_dir _ _ Hd pgd' Hp') as (p' & -> & Hr' & _).
  rewrite !dphys_eq by done. by intros ->.
Qed.

Lemma directmap_low phys : 0 <= phys < LE -> memlayout_directmap_phys_to_virt lowmem_end phys = Ret (phys_to_virt phys).
Proof.
  intros H. unfold memlayout_directmap_phys_to_virt. destruct (Z.leb_spec LE phys); [lia|]. by rewrite andb_false_r.
Qed.

Lemma phys_virt phys : 0 <= phys < LE -> dphys (phys_to_virt phys) = phys.
Proof.
  intros H. destruct low_phys_end as [? _]. unfold phys_to_virt, virt_to_phys_addr, PAGE_OFFSET, LOWMEM_MAX in *.
  rewrite add32_id, sub32_id; lia.
Qed.

Lemma table_of_low pde : 0 <= pte_pfn pde < LE -> table_of lowmem_end pde = Ret (pte_pfn pde).
Proof. intros H. unfold table_of. rewrite directmap_low by done. simpl. by rewrite phys_virt. Qed.

(** The walk of every function above. *)
Lemma walk_dir r D pgd va :
  dirs_ok r D -> pgd ∈ D -> is_u32 va ->
  (pgd =? 0) = false /\
  (pgd_present (pgd_entry r pgd va) = true ->
     table_of lowmem_end (pgd_entry r pgd va) = Ret (pte_pfn (pgd_entry r pgd va)) /\
     pte_of r pgd va = rd r (pte_pfn (pgd_entry r pgd va)) (pte_index va)) /\
  (pgd_present (pgd_entry r pgd va) = false -> pte_of r pgd va = 0).
Proof.
  intros Hd Hp Hv. destruct (dir_phys _ _ _ Hd Hp) as (Hn & _).
  split_and!; [by apply Z.eqb_neq|intros E; split|intros E; unfold pte_of; by rewrite E].
  - apply table_of_low. pose proof (dk_low _ _ Hd pgd (pgd_index va) Hp (pgd_index_range va Hv) E).
    unfold pgd_entry. lia.
  - unfold pte_of. by rewrite E.
Qed.

Ltac walk Hd Hp Hv :=
  let H := fresh in pose proof (walk_dir _ _ _ _ Hd Hp Hv) as H; destruct H as (-> & ?Hwt & ?Hwf).

Lemma get_pte_raw_eq r D pgd va :
  dirs_ok r D -> pgd ∈ D -> is_u32 va -> get_pte_raw lowmem_end r pgd va = Ret (pte_of r pgd va).
Proof.
  intros Hd Hp Hv. unfold get_pte_raw. walk Hd Hp Hv. cbv zeta.
  destruct (pgd_present (pgd_entry r pgd va)); cbn [negb]; [|by rewrite Hwf].
  destruct Hwt as [-> ->]; [done|]. done.
Qed.

Lemma pte_zero_not_present : pte_present 0 = false.
Proof. done. Qed.

Lemma get_pte_flags_eq r D pgd va :
  dirs_ok r D -> pgd ∈ D -> is_u32 va ->
  get_pte_flags lowmem_end r pgd va = Ret (if pte_present (pte_of r pgd va) then pte_of r pgd va else 0).
Proof.
  intros Hd Hp Hv. unfold get_pte_flags. walk Hd Hp Hv. cbv zeta.
  destruct (pgd_present (pgd_entry r pgd va)); cbn [negb]; [|by rewrite Hwf].
  destruct Hwt as [-> ->]; [done|]. cbn [rbind]. by destruct (pte_present _).
Qed.

Lemma virt_to_phys_eq r D pgd va :
  dirs_ok r D -> pgd ∈ D -> is_u32 va ->
  virt_to_phys_pgd lowmem_end r pgd va =
    Ret (if pte_present (pte_of r pgd va) then pte_pfn (pte_of r pgd va) +w Z.land va 4095 else 4294967295) /\
  virt_to_phys lowmem_end r pgd va = virt_to_phys_pgd lowmem_end r pgd va /\
  page_mapped lowmem_end r pgd va = Ret (pte_present (pte_of r pgd va)) /\
  get_pte lowmem_end r pgd va =
    Ret (if pte_present (pte_of r pgd va) then Some (pgd_entry r pgd va, pte_of r pgd va) else None).
Proof.
  intros Hd Hp Hv. split_and!; [| done | |].
  all: unfold virt_to_phys_pgd, page_mapped, get_pte; walk Hd Hp Hv; cbv zeta;
    destruct (pgd_present (pgd_entry r pgd va)); cbn [negb]; [|by rewrite Hwf];
    destruct Hwt as [-> ->]; [done|]; cbn [rbind]; by destruct (pte_present _).
Qed.

(** ** Changes of one entry *)

(** [r'] has the same directories and tables, the same pages apart from them,
    and the entry of [va] in [pgd] is now [v]. *)
Record entry_set D pgd va (v : Z) r r' : Prop := EntrySet {
  es_ok : dirs_ok r' D;
  es_pde pgd' i : pgd' ∈ D -> 0 <= i < 1024 -> pde_like (rd r (dphys pgd') i) (rd r' (dphys pgd') i);
  es_pt p : is_pt r' D p <-> is_pt r D p;
  es_data p : ~ is_pt r D p -> frame r' p = frame r p;
  es_pte pgd' va' : pgd' ∈ D -> 0 <= va' < TASK_SIZE ->
    pte_of r' pgd' va' = if decide (pgd' = pgd /\ page_of va' = page_of va) then v else pte_of r pgd' va';
}.

(** Two memories with the same directories up to flags. *)
Lemma dirs_ok_same r r' D :
  dirs_ok r D -> pages_sized r' ->
  (forall pgd i, pgd ∈ D -> 0 <= i < 1024 ->
     pgd_present (rd r' (dphys pgd) i) = pgd_present (rd r (dphys pgd) i) /\
     (pgd_present (rd r (dphys pgd) i) = true -> pte_pfn (rd r' (dphys pgd) i) = pte_pfn (rd r (dphys pgd) i))) ->
  dirs_ok r' D /\ (forall p, is_pt r' D p <-> is_pt r D p).
Proof.
  intros [H1 H2 H3 H4 H5] Hs Heq. split.
  - split; try done.
    + intros pgd i Hp Hi E. destruct (Heq pgd i Hp Hi) as [E1 E2]. rewrite E1 in E. rewrite E2 by done. by apply H3.
    + intros pgd i pgd' Hp Hp' Hi E. destruct (Heq pgd i Hp Hi) as [E1 E2]. rewrite E1 in E. rewrite E2 by done. by apply H4.
    + intros pgd i pgd' j Hp Hp' Hi Hj E E' Ef. destruct (Heq pgd i Hp Hi) as [E1 E2], (Heq pgd' j Hp' Hj) as [F1 F2].
      rewrite E1 in E. rewrite F1 in E'. rewrite E2, F2 in Ef by done. by apply (H5 pgd i pgd' j).
  - intros p. unfold is_pt. apply or_iff_compat_r. unfold is_table.
    split; intros (pgd & i & Hp & Hi & E & ->); exists pgd, i; destruct (Heq pgd i Hp Hi) as [E1 E2];
      rewrite E1 in *; by rewrite E2.
Qed.

Lemma pgd_entry_rd r pgd va : pgd_entry r pgd va = rd r (dphys pgd) (pgd_index va).
Proof. done. Qed.

(** A table is not a directory. *)
Lemma table_not_dir r D pgd va pgd' :
  dirs_ok r D -> pgd ∈ D -> pgd' ∈ D -> is_u32 va -> pgd_present (pgd_entry r pgd va) = true ->
  pte_pfn (pgd_entry r pgd va) <> dphys pgd'.
Proof. intros Hd Hp Hp' Hv E. apply (dk_sep _ _ Hd); try done. by apply pgd_index_range. Qed.

Lemma user_u32 va : 0 <= va < TASK_SIZE -> is_u32 va.
Proof. unfold TASK_SIZE, is_u32. lia. Qed.

Lemma write_entry r D pgd va v :
  dirs_ok r D -> pgd ∈ D -> 0 <= va < TASK_SIZE -> is_u32 v -> pgd_present (pgd_entry r pgd va) = true ->
  entry_set D pgd va v r (wr r (pte_pfn (pgd_entry r pgd va)) (pte_index va) v).
Proof.
  intros Hd Hp Hv Hw E. pose proof (dk_sized _ _ Hd) as Hs. pose proof (user_u32 va Hv) as Hv'.
  set (t := pte_pfn (pgd_entry r pgd va)).
  assert (Hdir : forall pgd' i, pgd' ∈ D -> 0 <= i -> rd (wr r t (pte_index va) v) (dphys pgd') i = rd r (dphys pgd') i).
  { intros pgd' i Hp' Hi. rewrite rd_wr by (done || apply pte_index_range). rewrite decide_False; [done|].
    intros [E1 _]. by apply (table_not_dir r D pgd va pgd'). }
  destruct (dirs_ok_same r (wr r t (pte_index va) v) D Hd) as [G1 G2].
  { by apply wr_sized. }
  { intros pgd' i Hp' Hi. rewrite Hdir by (done || lia). done. }
  split; try done.
  - intros pgd' i Hp' Hi. left. apply Hdir; [done|lia].
  - intros p Hn. apply frame_wr_other. intros ->. apply Hn. left. exists pgd, (pgd_index va).
    split_and!; try done; by apply pgd_index_range.
  - intros pgd' va' Hp' Hv2. pose proof (user_u32 va' Hv2) as Hv2'. unfold pte_of.
    rewrite pgd_entry_rd, Hdir, <- pgd_entry_rd by (done || by apply pgd_index_range).
    destruct (pgd_present (pgd_entry r pgd' va')) eqn:E'.
    + rewrite rd_wr by (done || apply pte_index_range). apply decide_ext. split.
      * intros [E1 E2]. destruct (dk_inj _ _ Hd pgd' (pgd_index va') pgd (pgd_index va)) as [F1 F2]; try done.
        { by apply pgd_index_range. }
        { by apply pgd_index_range. }
        pose proof (pgd_index_user va' Hv2). destruct F2 as [->|]; [|lia]. split; [done|].
        apply indices_page; lia || done.
      * intros [-> [F1 F2]%page_indices]. rewrite F2. split; [|done]. unfold t. by rewrite !pgd_entry_rd, F1.
    + rewrite decide_False; [done|]. intros [-> [F1 _]%page_indices].
      rewrite pgd_entry_rd, F1, <- pgd_entry_rd in E'. congruence.
Qed.

(** A change of the flags of one directory entry. *)
Lemma set_pde_user_ok r D pgd va :
  dirs_ok r D -> pgd ∈ D -> is_u32 va -> pgd_present (pgd_entry r pgd va) = true ->
  let r' := set_pde_user r pgd va in
  dirs_ok r' D /\ (forall p, is_pt r' D p <-> is_pt r D p) /\
  (forall p, ~ is_pt r D p -> frame r' p = frame r p) /\
  (forall pgd' va', pgd' ∈ D -> is_u32 va' -> pte_of r' pgd' va' = pte_of r pgd' va') /\
  pgd_present (pgd_entry r' pgd va) = true /\ pte_pfn (pgd_entry r' pgd va) = pte_pfn (pgd_entry r pgd va) /\
  (forall pgd' i, pgd' ∈ D -> 0 <= i < 1024 -> rd r' (dphys pgd') i =
    if decide (pgd' = pgd /\ i = pgd_index va) then Z.lor (rd r (dphys pgd') i) PTE_USER else rd r (dphys pgd') i).
Proof.
  intros Hd Hp Hv E r'. pose proof (dk_sized _ _ Hd) as Hs.
  assert (Hx : is_u32 (pgd_entry r pgd va)) by (by apply rd_u32).
  set (x := pgd_entry r pgd va) in *. destruct (lor_user x Hx) as (E3 & E1 & E2). rewrite E in E2.
  pose proof (pgd_index_range va Hv) as Hi.
  assert (Hdir : forall pgd' i, pgd' ∈ D -> 0 <= i < 1024 ->
    rd r' (dphys pgd') i = if decide (pgd' = pgd /\ i = pgd_index va) then Z.lor x PTE_USER else rd r (dphys pgd') i).
  { intros pgd' i Hp' Hi'. unfold r', set_pde_user. rewrite rd_wr by (done || lia). apply decide_ext.
    split; [intros [F ->]; split; [by apply (dphys_inj r D)|done]|by intros [-> ->]]. }
  destruct (dirs_ok_same r r' D Hd) as [G1 G2].
  { by apply wr_sized. }
  { intros pgd' i Hp' Hi'. rewrite Hdir by done. case_decide as F; [|done]. destruct F as [-> ->].
    fold (pgd_entry r pgd va). fold x. by rewrite E2, E1, E. }
  split_and!; try done.
  - intros p Hn. apply frame_wr_other. intros ->. apply Hn. right. by exists pgd.
  - intros pgd' va' Hp' Hv2. unfold pte_of. rewrite !pgd_entry_rd, Hdir by (done || by apply pgd_index_range).
    assert (Hrd : forall i, pgd_present (rd r (dphys pgd') (pgd_index va')) = true ->
      rd r' (pte_pfn (rd r (dphys pgd') (pgd_index va'))) i = rd r (pte_pfn (rd r (dphys pgd') (pgd_index va'))) i).
    { intros i Ep. unfold rd at 1 3. unfold r', set_pde_user. rewrite frame_wr_other; [done|].
      by apply (table_not_dir r D pgd' va' pgd). }
    case_decide as F.
    + destruct F as [-> F]. rewrite E2, E1, F in *. fold (pgd_entry r pgd va). fold x. rewrite E. by apply Hrd.
    + destruct (pgd_present (rd r (dphys pgd') (pgd_index va'))) eqn:Ep; [by apply Hrd|done].
  - rewrite pgd_entry_rd, Hdir, decide_True by done. done.
  - rewrite pgd_entry_rd, Hdir, decide_True by done. done.
  - intros pgd' i Hp' Hi'. rewrite Hdir by done. case_decide as F; [|done]. by destruct F as [-> ->].
Qed.

Lemma pte_of_page r pgd va va' : page_of va = page_of va' -> pte_of r pgd va = pte_of r pgd va'.
Proof. intros [E1 E2]%page_indices. unfold pte_of. by rewrite !pgd_entry_rd, E1, E2. Qed.

Lemma pte_of_u32 r pgd va : pages_sized r -> is_u32 (pte_of r pgd va).
Proof. intros Hs. unfold pte_of. case_match; [by apply rd_u32|unfold is_u32; lia]. Qed.

Lemma entry_set_refl r D pgd va : dirs_ok r D -> entry_set D pgd va (pte_of r pgd va) r r.
Proof.
  intros Hd. split; try done; [by left|]. intros pgd' va' Hp Hv. case_decide as E; [|done]. destruct E as [-> E].
  by apply pte_of_page.
Qed.

Lemma entry_set_trans D pgd va v v' r1 r2 r3 :
  entry_set D pgd va v r1 r2 -> entry_set D pgd va v' r2 r3 -> entry_set D pgd va v' r1 r3.
Proof.
  intros [A1 A0 A2 A3 A4] [B1 B0 B2 B3 B4]. split; [done| | | |].
  - intros pgd' i Hp Hi. eapply pde_like_trans; [by apply A0|by apply B0].
  - intros p. by rewrite B2.
  - intros p Hn. rewrite B3 by (by rewrite A2). by apply A3.
  - intros pgd' va' Hp Hv. rewrite B4, A4 by done. by case_decide.
Qed.

(** The entry of the address itself. *)
Lemma entry_set_here D pgd va v r r' :
  entry_set D pgd va v r r' -> pgd ∈ D -> 0 <= va < TASK_SIZE -> pte_of r' pgd va = v.
Proof. intros H Hp Hv. rewrite (es_pte _ _ _ _ _ _ H) by done. by rewrite decide_True. Qed.

Lemma not_present_zero x : pte_present x = true -> x <> 0.
Proof. intros H ->. done. Qed.

Lemma set_pte_raw_post r D pgd va v :
  dirs_ok r D -> pgd ∈ D -> 0 <= va < TASK_SIZE -> is_u32 v -> pte_of r pgd va <> 0 ->
  exists r', set_pte_raw lowmem_end r pgd va v = Ret r' /\ entry_set D pgd va v r r'.
Proof.
  intros Hd Hp Hv Hw Hn. unfold set_pte_raw. walk Hd Hp (user_u32 va Hv). cbv zeta.
  destruct (pgd_present (pgd_entry r pgd va)) eqn:E; cbn [negb]; [|by rewrite Hwf in Hn].
  destruct Hwt as [-> _]; [done|]. eexists. split; [done|]. by apply write_entry.
Qed.

Lemma unmap_page_post r D pgd va :
  dirs_ok r D -> pgd ∈ D -> 0 <= va < TASK_SIZE ->
  exists r', unmap_page_pgd lowmem_end r pgd va = Ret r' /\
    entry_set D pgd va (if pte_present (pte_of r pgd va) then 0 else pte_of r pgd va) r r'.
Proof.
  intros Hd Hp Hv. unfold unmap_page_pgd. walk Hd Hp (user_u32 va Hv). cbv zeta.
  destruct (pgd_present (pgd_entry r pgd va)) eqn:E; cbn [negb].
  - destruct Hwt as [-> E']; [done|]. cbn [rbind]. rewrite <- E'.
    destruct (pte_present (pte_of r pgd va)); cbn [negb]; eexists; (split; [done|]).
    + by apply write_entry.
    + by apply entry_set_refl.
  - eexists. split; [done|]. replace (if pte_present _ then _ else _) with (pte_of r pgd va) by (by rewrite (Hwf eq_refl)).
    by apply entry_set_refl.
Qed.

(** The user bit of the directory entry leaves every entry as it is. *)
Lemma pde_user_entry_set r D pgd va :
  dirs_ok r D -> pgd ∈ D -> is_u32 va -> pgd_present (pgd_entry r pgd va) = true ->
  entry_set D pgd va (pte_of r pgd va) r (set_pde_user r pgd va).
Proof.
  intros Hd Hp Hv E. destruct (set_pde_user_ok r D pgd va Hd Hp Hv E) as (G1 & G2 & G3 & G4 & _ & _ & G7).
  split; try done.
  { intros pgd' i Hp' Hi. rewrite G7 by done. case_decide; [by right|by left]. }
  intros pgd' va' Hp' Hv'. rewrite G4 by (done || by apply user_u32).
  case_decide as F; [|done]. destruct F as [-> F]. by apply pte_of_page.
Qed.

Lemma new_flags_range x : 0 <= pte_flags x < 4096.
Proof. rewrite pte_flags_mod. apply Z.mod_pos_bound. lia. Qed.

Lemma relabel_u32 x fl : is_u32 x -> is_u32 (Z.lor (pte_pfn x) (pte_flags fl)).
Proof.
  intros Hx. destruct (pte_pfn_range x Hx). apply entry_u32; [done|apply new_flags_range|unfold is_u32 in Hx; lia].
Qed.

Lemma set_pte_flags_post r D pgd va flags :
  dirs_ok r D -> pgd ∈ D -> 0 <= va < TASK_SIZE ->
  exists r', set_pte_flags lowmem_end r pgd va flags = Ret r' /\
    entry_set D pgd va (if pte_present (pte_of r pgd va) then Z.lor (pte_pfn (pte_of r pgd va)) (pte_flags flags)
                        else pte_of r pgd va) r r'.
Proof.
  intros Hd Hp Hv. pose proof (user_u32 va Hv) as Hv'. unfold set_pte_flags.
  destruct (walk_dir r D pgd va Hd Hp Hv') as (-> & Hwt & Hwf). cbv zeta.
  destruct (pgd_present (pgd_entry r pgd va)) eqn:E; cbn [negb].
  2:{ eexists. split; [done|]. replace (if pte_present _ then _ else _) with (pte_of r pgd va) by (by rewrite (Hwf eq_refl)).
    by apply entry_set_refl. }
  destruct Hwt as [-> Ew]; [done|]. cbn [rbind].
  set (r1 := if has flags PTE_USER then set_pde_user r pgd va else r).
  assert (H1 : entry_set D pgd va (pte_of r pgd va) r r1 /\ pgd_present (pgd_entry r1 pgd va) = true /\
    pte_pfn (pgd_entry r1 pgd va) = pte_pfn (pgd_entry r pgd va)).
  { unfold r1. destruct (has flags PTE_USER).
    - split; [by apply pde_user_entry_set|]. by destruct (set_pde_user_ok r D pgd va Hd Hp Hv' E) as (_ & _ & _ & _ & ? & ? & _).
    - split; [by apply entry_set_refl|done]. }
  destruct H1 as (H1 & H2 & H3). pose proof (es_ok _ _ _ _ _ _ H1) as Hd1.
  pose proof (entry_set_here _ _ _ _ _ _ H1 Hp Hv) as Hsame.
  assert (Hrd : rd r1 (pte_pfn (pgd_entry r pgd va)) (pte_index va) = pte_of r pgd va).
  { rewrite <- Hsame. unfold pte_of at 1. by rewrite H2, H3. }
  rewrite Hrd. destruct (pte_present (pte_of r pgd va)) eqn:Ep; cbn [negb]; eexists; (split; [done|]); [|done].
  eapply entry_set_trans; [done|]. rewrite <- H3. apply write_entry; try done.
  apply relabel_u32, pte_of_u32, (dk_sized _ _ Hd).
Qed.

Lemma set_page_user_post r D pgd va :
  dirs_ok r D -> pgd ∈ D -> 0 <= va < TASK_SIZE ->
  exists r', set_page_user_pgd lowmem_end r pgd va = Ret r' /\
    entry_set D pgd va (if pte_present (pte_of r pgd va) then Z.lor (pte_of r pgd va) PTE_USER
                        else pte_of r pgd va) r r'.
Proof.
  intros Hd Hp Hv. pose proof (user_u32 va Hv) as Hv'. unfold set_page_user_pgd.
  destruct (walk_dir r D pgd va Hd Hp Hv') as (-> & Hwt & Hwf). cbv zeta.
  destruct (pgd_present (pgd_entry r pgd va)) eqn:E; cbn [negb].
  2:{ eexists. split; [done|]. replace (if pte_present _ then _ else _) with (pte_of r pgd va) by (by rewrite (Hwf eq_refl)).
      by apply entry_set_refl. }
  destruct Hwt as [-> Ew]; [done|]. cbn [rbind]. rewrite <- Ew.
  destruct (pte_present (pte_of r pgd va)) eqn:Ep; cbn [negb]; eexists; (split; [done|]); [|by apply entry_set_refl].
  destruct (set_pde_user_ok r D pgd va Hd Hp Hv' E) as (_ & _ & _ & _ & H2 & H3 & _).
  pose proof (pde_user_entry_set r D pgd va Hd Hp Hv' E) as H1.
  eapply entry_set_trans; [done|]. rewrite <- H3. apply write_entry; try done; [apply (es_ok _ _ _ _ _ _ H1)|].
  assert (Hx : is_u32 (pte_of r pgd va)) by apply pte_of_u32, (dk_sized _ _ Hd).
  unfold is_u32 in *. split; [apply Z.lor_nonneg; unfold PTE_USER; lia|].
  assert (pte_of r pgd va <> 0) by (by apply not_present_zero). apply (Z.log2_lt_cancel _ 4294967296).
  rewrite Z.log2_lor by (unfold PTE_USER; lia). apply Z.max_lub_lt; [|done].
  change (Z.log2 4294967296) with 32. apply Z.log2_lt_pow2; lia.
Qed.

Lemma set_page_readonly_post r D pgd va :
  dirs_ok r D -> pgd ∈ D -> 0 <= va < TASK_SIZE ->
  exists r', set_page_readonly_pgd lowmem_end r pgd va = Ret r' /\
    entry_set D pgd va (if pte_present (pte_of r pgd va) then Z.land (pte_of r pgd va) (not32 PTE_READ_WRITE)
                        else pte_of r pgd va) r r'.
Proof.
  intros Hd Hp Hv. pose proof (user_u32 va Hv) as Hv'. unfold set_page_readonly_pgd.
  destruct (walk_dir r D pgd va Hd Hp Hv') as (-> & Hwt & Hwf). cbv zeta.
  destruct (pgd_present (pgd_entry r pgd va)) eqn:E; cbn [negb].
  2:{ eexists. split; [done|]. replace (if pte_present _ then _ else _) with (pte_of r pgd va) by (by rewrite (Hwf eq_refl)).
      by apply entry_set_refl. }
  destruct Hwt as [-> Ew]; [done|]. cbn [rbind]. rewrite <- Ew.
  destruct (pte_present (pte_of r pgd va)) eqn:Ep; cbn [negb]; eexists; (split; [done|]); [|by apply entry_set_refl].
  apply write_entry; try done. assert (Hx : is_u32 (pte_of r pgd va)) by apply pte_of_u32, (dk_sized _ _ Hd).
  by apply land_u32.
Qed.

(** ** Pages that are not tables *)

Lemma write_data r D p l :
  dirs_ok r D -> ~ is_pt r D p -> length l = 1024%nat -> Forall is_u32 l ->
  dirs_ok (<[p := l]> r) D /\ (forall q, is_pt (<[p := l]> r) D q <-> is_pt r D q) /\
  (forall pgd va, pgd ∈ D -> is_u32 va -> pte_of (<[p := l]> r) pgd va = pte_of r pgd va).
Proof.
  intros Hd Hn Hl Hf. assert (Hdir : forall pgd i, pgd ∈ D -> rd (<[p := l]> r) (dphys pgd) i = rd r (dphys pgd) i).
  { intros pgd i Hp. unfold rd. rewrite frame_insert, decide_False; [done|]. intros <-. apply Hn. right. by exists pgd. }
  destruct (dirs_ok_same r (<[p := l]> r) D Hd) as [G1 G2].
  { intros q l' [[-> <-]|[_ ?]]%lookup_insert_Some; [done|by apply (dk_sized _ _ Hd q)]. }
  { intros pgd i Hp _. by rewrite Hdir. }
  split_and!; try done. intros pgd va Hp Hv. unfold pte_of. rewrite !pgd_entry_rd, Hdir by done.
  destruct (pgd_present _) eqn:E; [|done]. unfold rd at 1 3. rewrite frame_insert, decide_False; [done|].
  intros Et. apply Hn. left. exists pgd, (pgd_index va). split_and!; try done; by apply pgd_index_range.
Qed.

Lemma zero_page_sized : length zero_page = 1024%nat /\ Forall is_u32 zero_page.
Proof. split; [done|]. apply Forall_replicate. unfold is_u32. lia. Qed.

Lemma rd_zero_page r p i : frame r p = zero_page -> 0 <= i < 1024 -> rd r p i = 0.
Proof.
  intros E Hi. unfold rd, znth. rewrite E. apply list_lookup_total_correct, lookup_replicate. split; [done|lia].
Qed.

(** A new, empty table behind an entry that had none. *)
Lemma new_table_post r D pgd va t fl :
  dirs_ok r D -> pgd ∈ D -> 0 <= va < TASK_SIZE -> pgd_present (pgd_entry r pgd va) = false ->
  ~ is_pt r D t -> 0 < t < LE -> (4096 | t) -> 0 <= fl < 4096 -> has fl PTE_PRESENT = true ->
  let r' := wr (<[t := zero_page]> r) (dphys pgd) (pgd_index va) (Z.lor t fl) in
  dirs_ok r' D /\ (forall p, is_pt r' D p <-> is_pt r D p \/ p = t) /\
  (forall p, ~ is_pt r D p -> p <> t -> frame r' p = frame r p) /\
  (forall pgd' va', pgd' ∈ D -> is_u32 va' -> pte_of r' pgd' va' = pte_of r pgd' va') /\
  (forall pgd' i, pgd' ∈ D -> 0 <= i < 1024 ->
    rd r' (dphys pgd') i = if decide (pgd' = pgd /\ i = pgd_index va) then Z.lor t fl else rd r (dphys pgd') i).
Proof.
  intros Hd Hp Hv E Hn Ht Ha Hfl Hpr r'. pose proof (user_u32 va Hv) as Hv'. pose proof (pgd_index_user va Hv) as Hiu.
  destruct low_phys_end as [HLE _]. unfold LOWMEM_MAX in HLE.
  destruct (write_data r D t zero_page Hd Hn) as (D1 & D2 & D3); [apply zero_page_sized..|].
  set (r1 := <[t := zero_page]> r) in *.
  assert (E1 : pte_pfn (Z.lor t fl) = t) by (apply entry_pfn; done || lia).
  assert (E2 : pgd_present (Z.lor t fl) = true).
  { unfold pgd_present in *. change PTE_PRESENT with (2 ^ 0) in *. rewrite has_lor, Hpr by lia. apply orb_true_r. }
  assert (Hsz : pages_sized r') by (apply wr_sized; [apply (dk_sized _ _ D1)|apply entry_u32; done || lia]).
  assert (Hold : forall pgd' i, pgd' ∈ D -> rd r1 (dphys pgd') i = rd r (dphys pgd') i).
  { intros pgd' i Hp'. unfold rd, r1. rewrite frame_insert, decide_False; [done|]. intros <-. apply Hn. right. by exists pgd'. }
  assert (Hdir : forall pgd' i, pgd' ∈ D -> 0 <= i < 1024 ->
    rd r' (dphys pgd') i = if decide (pgd' = pgd /\ i = pgd_index va) then Z.lor t fl else rd r (dphys pgd') i).
  { intros pgd' i Hp' Hi'. unfold r'. rewrite rd_wr by (lia || apply (dk_sized _ _ D1)). rewrite Hold by done. apply decide_ext.
    split; [intros [F ->]; split; [by apply (dphys_inj r D)|done]|by intros [-> ->]]. }
  assert (Hnt : forall pgd' i, pgd' ∈ D -> 0 <= i < 1024 -> pgd_present (rd r (dphys pgd') i) = true ->
    pte_pfn (rd r (dphys pgd') i) <> t).
  { intros pgd' i Hp' Hi F <-. apply Hn. left. by exists pgd', i. }
  split_and!.
  - split; [done|apply (dk_dir _ _ Hd)|..].
    + intros pgd' i Hp' Hi. rewrite Hdir by done. case_decide; [by rewrite E1|by apply (dk_low _ _ Hd)].
    + intros pgd' i pgd2 Hp' Hp2 Hi. rewrite Hdir by done. case_decide; [|by apply (dk_sep _ _ Hd)].
      rewrite E1. intros _ ->. apply Hn. right. by exists pgd2.
    + intros pgd1 i pgd2 j Hp1 Hp2 Hi Hj. rewrite !Hdir by done.
      case_decide as F1; case_decide as F2; rewrite ?E1.
      * destruct F1 as [-> ->], F2 as [-> ->]. intros _ _ _. split; [done|by left].
      * intros _ F Et. symmetry in Et. by apply Hnt in Et.
      * intros F _ Et. by apply Hnt in Et.
      * by apply (dk_inj _ _ Hd).
  - intros p. unfold is_pt, is_table. split.
    + intros [(pgd' & i & Hp' & Hi & F & ->)|Hx]; [|tauto]. rewrite Hdir in * by done. case_decide; [by right|].
      left. left. by exists pgd', i.
    + intros [[(pgd' & i & Hp' & Hi & F & ->)|Hx]| ->]; [|tauto|].
      * left. exists pgd', i. rewrite Hdir by done. rewrite decide_False; [done|].
        intros [-> ->]. unfold pgd_entry in E. congruence.
      * left. exists pgd, (pgd_index va). pose proof (pgd_index_range va Hv'). by rewrite Hdir, decide_True.
  - intros p Hnp Hne. unfold r'. rewrite frame_wr_other by (intros ->; apply Hnp; right; by exists pgd).
    unfold r1. rewrite frame_insert. by rewrite decide_False.
  - intros pgd' va' Hp' Hv2. unfold pte_of. rewrite !pgd_entry_rd, Hdir by (done || by apply pgd_index_range).
    assert (Hrd : forall q i, (forall pgd2, pgd2 ∈ D -> q <> dphys pgd2) -> rd r' q i = rd r1 q i).
    { intros q i Hq. unfold rd, r'. rewrite frame_wr_other; [done|by apply Hq]. }
    case_decide as F.
    + destruct F as [-> F]. rewrite E2, E1, F. fold (pgd_entry r pgd va). rewrite E. rewrite Hrd.
      * apply rd_zero_page; [|apply pte_index_range]. unfold r1. by rewrite frame_insert, decide_True.
      * intros pgd2 Hp2 ->. apply Hn. right. by exists pgd2.
    + destruct (pgd_present (rd r (dphys pgd') (pgd_index va'))) eqn:F'; [|done].
      pose proof (pgd_index_range va' Hv2) as Hi2. rewrite Hrd.
      * unfold rd at 1 3, r1. rewrite frame_insert, decide_False; [done|by apply Hnt].
      * intros pgd2 Hp2. by apply (dk_sep _ _ Hd).
  - done.
Qed.
End walk.
