(* ===== verification/Swap.v ===== *)
(** * Anonymous memory and swapping ([mm/swap.c])

    The state of the virtual memory below the page allocator: physical memory
    with the page tables in it, the address spaces, the heap, the swap slots
    and the counters of the fault handler.  A swap slot's buffer is a heap
    object with its contents.  [swap_out_page] is what reclaim calls, so that
    this file closes the loop: the allocator of [PageAlloc] runs with the real
    [swap_out_page], and the reclaimers of files and slabs stay an interface. *)

From stdpp Require Import base tactics numbers list gmap sets.
From Stdlib Require Import ZArith Lia.
From S2P Require Import Prelude Bootmem Buddy PageAlloc Rmap Vma Paging.

(** ** State *)

Definition SWAP_SLOTS : Z := 64.

Record swap_slot : Type := Slot { sused : bool; sdata : option (Z * list Z) }.
#[export] Instance swap_slot_inhabited : Inhabited swap_slot := populate (Slot false None).

(** An [mm_struct]: its page directory and the rest of its fields. *)
Record space : Type := Space { mm_pgd : Z; mm_areas : mm_struct }.

Record pf_stats : Type := Pf {
  pf_total : Z; pf_present : Z; pf_not_present : Z; pf_write : Z; pf_user : Z; pf_kernel : Z;
  pf_reserved : Z; pf_prot : Z; pf_null : Z; pf_kernel_addr : Z; pf_out_of_range : Z;
}.

Section state.
Context {M Y : Type}.

(** [cur_mm] is [current ? current->mm : NULL], [file_pages] the state of the
    page cache.  [panicked] records that a callback of the page allocator
    panicked. *)
Record vmem : Type := Vmem {
  ram : memory;
  page_directory : Z;
  kernel_directory : Z;
  vheap : M;
  mms : gmap Z space;
  cur_mm : option Z;
  swap_slots : list swap_slot;
  cow_faults : Z;
  cow_copies : Z;
  pf : pf_stats;
  file_pages : Y;
  panicked : bool;
}.

Definition with_ram (x : vmem) v : vmem :=
  Vmem v (page_directory x) (kernel_directory x) (vheap x) (mms x) (cur_mm x) (swap_slots x) (cow_faults x)
    (cow_copies x) (pf x) (file_pages x) (panicked x).
Definition with_directory (x : vmem) v : vmem :=
  Vmem (ram x) v (kernel_directory x) (vheap x) (mms x) (cur_mm x) (swap_slots x) (cow_faults x)
    (cow_copies x) (pf x) (file_pages x) (panicked x).
Definition with_vheap (x : vmem) v : vmem :=
  Vmem (ram x) (page_directory x) (kernel_directory x) v (mms x) (cur_mm x) (swap_slots x) (cow_faults x)
    (cow_copies x) (pf x) (file_pages x) (panicked x).
Definition with_mms (x : vmem) v : vmem :=
  Vmem (ram x) (page_directory x) (kernel_directory x) (vheap x) v (cur_mm x) (swap_slots x) (cow_faults x)
    (cow_copies x) (pf x) (file_pages x) (panicked x).
Definition with_slots (x : vmem) v : vmem :=
  Vmem (ram x) (page_directory x) (kernel_directory x) (vheap x) (mms x) (cur_mm x) v (cow_faults x)
    (cow_copies x) (pf x) (file_pages x) (panicked x).
Definition with_cow (x : vmem) f c : vmem :=
  Vmem (ram x) (page_directory x) (kernel_directory x) (vheap x) (mms x) (cur_mm x) (swap_slots x) f c (pf x) (file_pages x) (panicked x).
Definition with_pf (x : vmem) v : vmem :=
  Vmem (ram x) (page_directory x) (kernel_directory x) (vheap x) (mms x) (cur_mm x) (swap_slots x) (cow_faults x)
    (cow_copies x) v (file_pages x) (panicked x).
Definition with_panicked (x : vmem) : vmem :=
  Vmem (ram x) (page_directory x) (kernel_directory x) (vheap x) (mms x) (cur_mm x) (swap_slots x) (cow_faults x)
    (cow_copies x) (pf x) (file_pages x) true.
Definition with_files (x : vmem) v : vmem :=
  Vmem (ram x) (page_directory x) (kernel_directory x) (vheap x) (mms x) (cur_mm x) (swap_slots x) (cow_faults x)
    (cow_copies x) (pf x) v (panicked x).
End state.
Arguments vmem : clear implicits.

(** ** Swap entries *)

Definition swap_pte_encode (slot : Z) : Z := (slot +w 1) <<w 12.

Definition swap_pte_decode (pte : Z) : option Z :=
  if pte_present pte then None else
  let enc := Z.shiftr pte 12 in
  if enc =? 0 then None else
  let enc1 := enc -w 1 in
  if SWAP_SLOTS <=? enc1 then None else Some enc1.

Section swap.
Context {M Y : Type} `{!KAlloc M}.
Variable lowmem_end : Z.
Notation vmem := (vmem M Y).
Implicit Types (s : pa) (x : vmem) (w : pa * vmem).

(** [rmap.c] and [free_page] on the whole state. *)
Definition on_rmap (f : pa * M -> pa * M) w : pa * vmem :=
  let '(s, h) := f (w.1, vheap w.2) in (s, with_vheap w.2 h).

Definition free_frame (phys : Z) w : run (pa * vmem) :=
  match free_pages w.1 phys 0 with Some s => Ret (s, w.2) | None => Panics end.

Definition set_slot (i : Z) (v : swap_slot) x : vmem := with_slots x (zset (swap_slots x) i v).

Definition swap_init x : vmem := with_slots x (replicate 64 (Slot false None)).

Definition swap_free_slot (slot : Z) x : vmem :=
  if SWAP_SLOTS <=? slot then x else
  let sl := znth (swap_slots x) slot in
  if negb (sused sl) then x else
  let x1 := match sdata sl with Some (buf, _) => with_vheap x (kfree buf (vheap x)) | None => x end in
  set_slot slot (Slot false None) x1.

(** The first unused slot. *)
Fixpoint find_unused (l : list swap_slot) (i : Z) : option Z :=
  match l with
  | [] => None
  | sl :: l' => if negb (sused sl) then Some i else find_unused l' (i + 1)
  end.

(** [page] is not NULL: it is the page of frame [pfn].  A [map_mm] that points
    to no [mm_struct] cannot be followed. *)
Definition swap_out_anon (pfn : Z) w : run (Z * (pa * vmem)) :=
  let '(s, x) := w in
  let page := znth (pages s) pfn in
  if negb (mapcount page =? 1) then Ret (-1, w)
  else if map_mm page =? 0 then Ret (-1, w)
  else if TASK_SIZE <=? map_vaddr page then Ret (-1, w)
  else match rmap_list page with
  | _ :: _ => Ret (-1, w)
  | [] =>
    match find_unused (swap_slots x) 0 with
    | None => Ret (-1, w)
    | Some slot =>
      match mms x !! map_mm page with
      | None => Panics
      | Some sp =>
        let? pte := get_pte_flags lowmem_end (ram x) (mm_pgd sp) (map_vaddr page) in
        if negb (pte_present pte) then Ret (-1, w) else
        let phys := pte_pfn pte in
        match kmalloc PAGE_SIZE (vheap x) with
        | (None, h) => Ret (-1, (s, with_vheap x h))
        | (Some buf, h) =>
          let? v := memlayout_directmap_phys_to_virt lowmem_end phys in
          let data := frame (ram x) (virt_to_phys_addr v) in
          let? r := set_pte_raw lowmem_end (ram x) (mm_pgd sp) (map_vaddr page) (swap_pte_encode slot) in
          let w1 := on_rmap (page_remove_rmap (map_mm page) (map_vaddr page) phys) (s, with_ram (with_vheap x h) r) in
          let? w2 := free_frame phys w1 in
          let s3 := with_pages w2.1 (upd_page (pages w2.1) pfn (clear_bit PG_ISOLATED)) in
          Ret (0, (s3, set_slot slot (Slot true (Some (buf, data))) w2.2))
        end
      end
    end
  end.
End swap.

(** The other reclaimers, the page cache, write-back and the slab shrinker, on
    the allocator and their own state. *)
Class FileReclaim (Y : Type) := {
  fr_cache : pa * Y -> Z * (pa * Y);
  fr_writeback : pa * Y -> Z * (pa * Y);
  fr_slab : pa * Y -> Z * (pa * Y);
}.

Definition on_files {M Y} (f : pa * Y -> Z * (pa * Y)) (w : pa * vmem M Y) : Z * (pa * vmem M Y) :=
  let '(n, (s, y)) := f (w.1, file_pages w.2) in (n, (s, with_files w.2 y)).

(** The reclaimers of the running kernel.  A panic in [swap_out_page] ends the
    kernel; here it is recorded, since the allocator's model goes on. *)
Definition kernel_reclaimers {M Y} `{!KAlloc M, !FileReclaim Y} (lowmem_end : Z) : Reclaimers (vmem M Y) := {|
  page_cache_reclaim_one := on_files fr_cache;
  writeback_flush_all := on_files fr_writeback;
  slab_reclaim_one := on_files fr_slab;
  swap_out_page := fun pfn w =>
    match swap_out_anon lowmem_end pfn w with
    | Ret r => r
    | _ => (-1, (w.1, with_panicked w.2))
    end;
|}.

(** What they promise: they own the frames [file_frame], release some of them
    and touch no other. *)
Class FileReclaimOk (Y : Type) `{!FileReclaim Y} := {
  file_frame : Y -> Z -> Prop;
  file_step (f : pa * Y -> Z * (pa * Y)) (s : pa) (y : Y) :
    f ∈ [fr_cache; fr_writeback; fr_slab] -> pa_ok s ->
    (forall q, file_frame y q -> 0 <= q < total_pages s /\ ~ free_page s q) ->
    let '(_, (s', y')) := f (s, y) in
    pa_ok s' /\ pa_static s' = pa_static s /\ maps_same s s' /\
    (forall q, file_frame y' q -> file_frame y q /\ ~ free_page s' q) /\
    (forall q, 0 <= q < total_pages s -> ~ file_frame y q ->
       (free_page s' q <-> free_page s q) /\ refcount (znth (pages s') q) = refcount (znth (pages s) q));
}.

(** ** The abstract page tables

    [A] is the content of the page tables below [TASK_SIZE]: the entry, not 0,
    of each page of each address space. *)

Notation entries := (gmap (Z * Z) Z).

Definition user_page (va : Z) : Prop := 0 <= va < TASK_SIZE /\ (4096 | va).

(** The entry maps the frame. *)
Definition maps_to (f p : Z) : Prop := pte_present p = true /\ pte_pfn p = f.

#[export] Instance maps_to_dec f p : Decision (maps_to f p).
Proof. apply _. Defined.

Definition nmaps (A : entries) (f : Z) : Z := count_if (maps_to f) A.

Section invariant.
Context {M Y : Type} `{!KAlloc M, !KAllocSpec M, !FileReclaim Y, !FileReclaimOk Y}.
Variable lowmem_end : Z.
Notation vmem := (vmem M Y).
Notation LE := (memlayout_lowmem_phys_end lowmem_end).
Implicit Types (s : pa) (x : vmem) (A : entries) (k : Z * Z).

(** The page directories in use. *)
Definition dirs x : gset Z := {[kernel_directory x]} ∪ map_img (SA := gset Z) (mm_pgd <$> mms x).

(** The page tables are well-formed and [A] is their content; every address
    space has a directory of its own; the kernel's has no user part. *)
Record tabs_ok x A : Prop := TabsOk {
  to_dirs : dirs_ok lowmem_end (ram x) (dirs x);
  to_own mm mm' sp sp' : mms x !! mm = Some sp -> mms x !! mm' = Some sp' -> mm_pgd sp = mm_pgd sp' -> mm = mm';
  to_mm mm sp : mms x !! mm = Some sp -> mm <> 0 /\ mm_pgd sp <> kernel_directory x;
  to_kernel i : 0 <= i < 768 -> pgd_present (rd (ram x) (virt_to_phys_addr (kernel_directory x)) i) = false;
  to_pde mm sp i : mms x !! mm = Some sp -> 0 <= i < 768 ->
    let pde := rd (ram x) (virt_to_phys_addr (mm_pgd sp)) i in
    pgd_present pde = true -> has pde PTE_USER = true /\ has pde PTE_READ_WRITE = true;
  to_entry mm sp va : mms x !! mm = Some sp -> user_page va ->
    pte_of (ram x) (mm_pgd sp) va = default 0 (A !! (mm, va));
  to_key mm va p : A !! (mm, va) = Some p -> p <> 0 /\ user_page va /\ is_Some (mms x !! mm);
}.

(** The frame is in use. *)
Definition frame_used s (p : Z) : Prop :=
  0 < p /\ (4096 | p) /\ p / 4096 < total_pages s /\ ~ free_page s (p / 4096).

Definition ref s (p : Z) : Z := refcount (znth (pages s) (p / 4096)).

(** The frame is in use, and not by the page cache. *)
Definition frame_ours s x (p : Z) : Prop := frame_used s p /\ ~ file_frame (file_pages x) (p / 4096).

(** Tables and mapped frames are in use, mapped frames are not tables, and a
    frame is referenced at least as often as it is mapped. *)
Record frames_ok s x A : Prop := FramesOk {
  fr_pa : pa_ok s;
  fr_ready : buddy_ready s = true;
  fr_total : total_pages s * 4096 <= LE;
  fr_files q : file_frame (file_pages x) q -> 0 <= q < total_pages s /\ ~ free_page s q;
  fr_pt p : is_pt (ram x) (dirs x) p -> frame_ours s x p /\ 1 <= ref s p < 65536;
  fr_map k p : A !! k = Some p -> pte_present p = true ->
    pte_user p = true /\ frame_ours s x (pte_pfn p) /\ ~ is_pt (ram x) (dirs x) (pte_pfn p) /\
    nmaps A (pte_pfn p) <= ref s (pte_pfn p) < 65536;
}.

(** An entry that is not present names a slot of its own, which holds the
    page; the buffers are live objects, one per slot. *)
Record slots_ok s x A : Prop := SlotsOk {
  so_len : length (swap_slots x) = 64%nat;
  so_entry k p : A !! k = Some p -> pte_present p = false ->
    exists i buf data, swap_pte_decode p = Some i /\ 0 <= i < 64 /\
      znth (swap_slots x) i = Slot true (Some (buf, data));
  so_own k k' p p' i : A !! k = Some p -> A !! k' = Some p' -> swap_pte_decode p = Some i ->
    swap_pte_decode p' = Some i -> k = k';
  so_buf i b : 0 <= i < 64 -> sdata (znth (swap_slots x) i) = Some b ->
    b.1 ∈ live (vheap x) /\ ~ is_node s b.1 /\ length b.2 = 1024%nat /\ Forall is_u32 b.2;
  so_bufs i j b b' : 0 <= i < 64 -> 0 <= j < 64 -> sdata (znth (swap_slots x) i) = Some b ->
    sdata (znth (swap_slots x) j) = Some b' -> b.1 = b'.1 -> i = j;
  so_free i : 0 <= i < 64 -> sused (znth (swap_slots x) i) = false -> sdata (znth (swap_slots x) i) = None;
}.

(** What the pages record as their mappings are mappings. *)
Record rmaps_ok s x A : Prop := RmapsOk {
  ro_inv : rmap_inv s (vheap x);
  ro_map q k : 0 <= q < total_pages s -> k ∈ rmaps (znth (pages s) q) ->
    exists p, A !! k = Some p /\ maps_to (q * 4096) p;
}.

(** Copy on write: a frame mapped writable is mapped once, and so is one
    whose area is writable but whose entry is neither writable nor marked. *)
Record share_ok x A : Prop := ShareOk {
  sh_write k p : A !! k = Some p -> pte_present p = true -> pte_write p = true -> nmaps A (pte_pfn p) <= 1;
  sh_stale k p sp : A !! k = Some p -> pte_present p = true -> pte_write p = false -> has p PTE_COW = false ->
    mms x !! k.1 = Some sp -> vma_allows (mmap (mm_areas sp)) k.2 true false = true -> nmaps A (pte_pfn p) <= 1;
}.

Record vm_ok s x A : Prop := VmOk {
  vo_tabs : tabs_ok x A;
  vo_frames : frames_ok s x A;
  vo_slots : slots_ok s x A;
  vo_rmaps : rmaps_ok s x A;
  vo_share : share_ok x A;
  vo_running : panicked x = false;
}.

(** The memory a program sees: the contents of each of its pages. *)
Definition entry_data x (p : Z) : option (list Z) :=
  if pte_present p then Some (frame (ram x) (pte_pfn p))
  else match swap_pte_decode p with
       | Some i => snd <$> sdata (znth (swap_slots x) i)
       | None => None
       end.

Definition user_mem x A k : option (list Z) := A !! k ≫= entry_data x.

(** A frame that was allocated and is not mapped yet. *)
Definition in_flight s x A (f : Z) : Prop :=
  frame_ours s x f /\ nmaps A f = 0 /\ ~ is_pt (ram x) (dirs x) f.

(** What a step may do on behalf of another address space: the same address
    spaces, the same contents; entries stay or are swapped out, tables may be
    added; frames in flight stay as they are, and so do the mappings of a frame
    that records more than one. *)
Record evolves s x A s' x' A' : Prop := Evolves {
  ev_static : pa_static s' = pa_static s;
  ev_mms : mms x' = mms x;
  ev_cur : cur_mm x' = cur_mm x;
  ev_dir : page_directory x' = page_directory x;
  ev_kdir : kernel_directory x' = kernel_directory x;
  ev_pt p : is_pt (ram x) (dirs x) p -> is_pt (ram x') (dirs x') p;
  ev_pde pgd i : pgd ∈ dirs x -> 0 <= i < 1024 ->
    pgd_present (rd (ram x) (virt_to_phys_addr pgd) i) = true ->
    pde_like (rd (ram x) (virt_to_phys_addr pgd) i) (rd (ram x') (virt_to_phys_addr pgd) i);
  ev_entry k : A' !! k = A !! k \/
    exists p p', A !! k = Some p /\ pte_present p = true /\ A' !! k = Some p' /\ pte_present p' = false;
  ev_mem k : user_mem x' A' k = user_mem x A k;
  ev_flight f : in_flight s x A f -> in_flight s' x' A' f /\ ref s' f = ref s f /\
    rmaps (znth (pages s') (f / 4096)) = rmaps (znth (pages s) (f / 4096)) /\ frame (ram x') f = frame (ram x) f;
  ev_counters : cow_faults x' = cow_faults x /\ cow_copies x' = cow_copies x /\ pf x' = pf x;
  ev_shared k p : A !! k = Some p -> pte_present p = true -> 0 <= pte_pfn p / 4096 < total_pages s ->
    1 < zlen (rmaps (znth (pages s) (pte_pfn p / 4096))) -> A' !! k = Some p /\
    rmaps (znth (pages s') (pte_pfn p / 4096)) = rmaps (znth (pages s) (pte_pfn p / 4096));
}.

(** No directory entry appears or goes away. *)
Definition same_tables x x' : Prop :=
  forall pgd i, pgd ∈ dirs x -> 0 <= i < 1024 ->
    pde_like (rd (ram x) (virt_to_phys_addr pgd) i) (rd (ram x') (virt_to_phys_addr pgd) i).

Hypothesis Hlow : 0 < lowmem_end <= LOWMEM_MAX.

(** ** Small facts *)

Lemma mm_dir x mm sp : mms x !! mm = Some sp -> mm_pgd sp ∈ dirs x.
Proof.
  intros E. apply elem_of_union_r. rewrite elem_of_map_img. exists mm. by rewrite lookup_fmap, E.
Qed.

Lemma dirs_spec x pgd :
  pgd ∈ dirs x <-> pgd = kernel_directory x \/ exists mm sp, mms x !! mm = Some sp /\ mm_pgd sp = pgd.
Proof.
  unfold dirs. rewrite elem_of_union, elem_of_singleton, elem_of_map_img. apply or_iff_compat_l.
  split; [intros (mm & E); rewrite lookup_fmap in E; destruct (mms x !! mm) as [sp|] eqn:Em; [|done];
    injection E as <-; by exists mm, sp|].
  intros (mm & sp & E & <-). exists mm. by rewrite lookup_fmap, E.
Qed.

Lemma user_page_eq va va' : user_page va -> user_page va' -> page_of va = page_of va' -> va = va'.
Proof.
  intros [_ [q ->]] [_ [q' ->]]. unfold page_of. rewrite !Z.div_mul by lia. by intros ->.
Qed.

Lemma user_page_u32 va : user_page va -> is_u32 va.
Proof. intros [H _]. by apply user_u32. Qed.

Lemma swap_pte_facts i :
  0 <= i < 64 ->
  swap_pte_decode (swap_pte_encode i) = Some i /\ pte_present (swap_pte_encode i) = false /\
  is_u32 (swap_pte_encode i) /\ swap_pte_encode i <> 0.
Proof.
  intros Hi. assert (E : swap_pte_encode i = (i + 1) * 4096).
  { unfold swap_pte_encode, shl32. rewrite add32_id by lia. rewrite Z.shiftl_mul_pow2 by lia.
    rewrite u32_id by (unfold is_u32; lia). done. }
  assert (Hp : pte_present (swap_pte_encode i) = false).
  { rewrite E. unfold pte_present. change PTE_PRESENT with (2 ^ 0). rewrite has_testbit by lia.
    replace ((i + 1) * 4096) with ((i + 1) * 2 ^ 12) by lia. by rewrite Z.mul_pow2_bits_low by lia. }
  split_and!; try done; [|rewrite E; unfold is_u32; lia|rewrite E; lia].
  unfold swap_pte_decode. rewrite Hp, E. rewrite Z.shiftr_div_pow2 by lia. change (2 ^ 12) with 4096.
  rewrite Z.div_mul by lia. destruct (Z.eqb_spec (i + 1) 0); [lia|]. rewrite sub32_id by lia.
  unfold SWAP_SLOTS. destruct (Z.leb_spec 64 (i + 1 - 1)); [lia|]. f_equal. lia.
Qed.

Lemma find_unused_spec l j i :
  find_unused l j = Some i -> j <= i < j + zlen l /\ sused (znth l (i - j)) = false.
Proof.
  revert j. induction l as [|sl l IH]; intros j; simpl; [done|]. unfold zlen. cbn [length].
  destruct (sused sl) eqn:E; cbn [negb].
  - intros H. destruct (IH (j + 1) H) as [H1 H2]. unfold zlen in H1. split; [lia|].
    unfold znth in *. replace (Z.to_nat (i - j)) with (S (Z.to_nat (i - (j + 1)))) by lia. done.
  - intros [= <-]. split; [lia|]. by rewrite Z.sub_diag.
Qed.

Lemma find_unused_none l j : find_unused l j = None -> forall i, 0 <= i < zlen l -> sused (znth l i) = true.
Proof.
  revert j. induction l as [|sl l IH]; intros j; simpl; unfold zlen; cbn [length]; [lia|].
  destruct (sused sl) eqn:E; cbn [negb]; [|done]. intros H i Hi. destruct (decide (i = 0)) as [->|]; [done|].
  unfold znth. replace (Z.to_nat i) with (S (Z.to_nat (i - 1))) by lia. apply (IH (j + 1) H (i - 1)). unfold zlen. lia.
Qed.

(** [A] with the entry of one page replaced, 0 for none. *)
Definition upd_entry A k (v : Z) : entries := if v =? 0 then delete k A else <[k := v]> A.

Lemma upd_entry_here A k v : default 0 (upd_entry A k v !! k) = v.
Proof.
  unfold upd_entry. destruct (Z.eqb_spec v 0) as [->|]; [by rewrite lookup_delete_eq|by rewrite lookup_insert_eq].
Qed.

Lemma upd_entry_other A k k' v : k' <> k -> upd_entry A k v !! k' = A !! k'.
Proof. intros H. unfold upd_entry. case_match; [by rewrite lookup_delete_ne|by rewrite lookup_insert_ne]. Qed.

Lemma upd_entry_some A k v k' p :
  upd_entry A k v !! k' = Some p -> (k' = k /\ p = v /\ v <> 0) \/ (k' <> k /\ A !! k' = Some p).
Proof using.
  clear Hlow.
  destruct (decide (k' = k)) as [->|Hne]; [|rewrite upd_entry_other by done; tauto].
  unfold upd_entry. destruct (Z.eqb_spec v 0); [by rewrite lookup_delete_eq|].
  rewrite lookup_insert_eq. intros [= ->]. tauto.
Qed.

(** The count of a frame when one entry changes; [p] is the old entry. *)
Lemma nmaps_upd A k v f :
  let w (p : Z) := if decide (maps_to f p) then 1 else 0 in
  nmaps (upd_entry A k v) f = nmaps A f - w (default 0 (A !! k)) + w v.
Proof.
  intros w. unfold nmaps. assert (Hw0 : w 0 = 0) by (unfold w; rewrite decide_False; [done|intros [? _]; done]).
  unfold upd_entry. destruct (Z.eqb_spec v 0) as [->|Hv]; destruct (A !! k) as [p|] eqn:E; cbn [default].
  - rewrite (count_if_delete _ _ _ _ E). rewrite Hw0. unfold w, id. lia.
  - rewrite delete_id by done. lia.
  - rewrite (count_if_replace _ _ _ _ _ E). unfold w, id. lia.
  - rewrite (count_if_insert _ _ _ _ E), Hw0. unfold w. lia.
Qed.

(** The page tables after a change of one entry. *)
Lemma tabs_entry_set x A mm sp va v r :
  tabs_ok x A -> mms x !! mm = Some sp -> user_page va ->
  entry_set lowmem_end (dirs x) (mm_pgd sp) va v (ram x) r ->
  tabs_ok (with_ram x r) (upd_entry A (mm, va) v).
Proof.
  intros [T1 T2 T3 T4 Tp T5 T6] Hmm Hva [E1 E0 E2 E3 E4]. pose proof (dk_sized _ _ _ T1) as Hsz.
  split; cbn [with_ram ram mms kernel_directory]; try done.
  - intros i Hi. destruct (pde_like_same _ _ (E0 (kernel_directory x) i ltac:(set_solver) ltac:(lia))) as (_ & -> & _).
    + by apply rd_u32.
    + by apply T4.
  - intros mm' sp' i Hmm' Hi.
    destruct (pde_like_same _ _ (E0 (mm_pgd sp') i (mm_dir _ _ _ Hmm') ltac:(lia))) as (_ & -> & -> & Hu).
    + by apply rd_u32.
    + intros Hp. destruct (Tp mm' sp' i Hmm' Hi Hp). split; [by apply Hu|done].
  - intros mm' sp' va' Hmm' Hva'. rewrite E4 by (by apply (mm_dir _ mm') || apply Hva').
    destruct (decide ((mm', va') = (mm, va))) as [[= -> ->]|Hne].
    + rewrite upd_entry_here. rewrite Hmm in Hmm'. injection Hmm' as ->. by rewrite decide_True.
    + rewrite upd_entry_other by done. rewrite decide_False; [by apply T5|].
      intros [F1 F2]. apply Hne. f_equal; [by apply (T2 _ _ _ _ Hmm' Hmm)|by apply user_page_eq].
  - intros mm' va' p [([= -> ->] & -> & Hv)|[Hne E]]%upd_entry_some; [|by apply T6].
    split_and!; [done|apply Hva..|by exists sp].
Qed.

(** ** Dropping one mapping *)

Lemma frame_div f f' : (4096 | f) -> (4096 | f') -> f / 4096 = f' / 4096 -> f = f'.
Proof. intros [q ->] [q' ->]. rewrite !Z.div_mul by lia. by intros ->. Qed.

Lemma frame_low s x A f : frames_ok s x A -> frame_used s f -> 0 < f < LE /\ 0 < f / 4096 < total_pages s.
Proof.
  intros Hf (U1 & [q ->] & U3 & _). rewrite Z.div_mul in * by lia. pose proof (fr_total _ _ _ Hf). lia.
Qed.

Lemma frame_offset s x A f : frames_ok s x A -> frame_used s f -> 0 < f < PAGE_OFFSET.
Proof.
  intros Hf Hu. destruct (frame_low _ _ _ _ Hf Hu) as [H _].
  destruct (low_phys_end _ Hlow) as [? _]. unfold PAGE_OFFSET, LOWMEM_MAX in *. lia.
Qed.

Lemma nmaps_pos A k p : A !! k = Some p -> pte_present p = true -> 1 <= nmaps A (pte_pfn p).
Proof. intros E Hp. by apply (count_if_pos _ A k p). Qed.

(** The counts after an entry that was present is gone. *)
Lemma nmaps_drop A k p v f :
  A !! k = Some p -> pte_present p = true -> pte_present v = false ->
  nmaps (upd_entry A k v) f = nmaps A f - (if decide (f = pte_pfn p) then 1 else 0).
Proof.
  intros E Hp Hv. rewrite nmaps_upd, E. cbn [default]. unfold maps_to, id.
  rewrite (decide_False (P := pte_present v = true /\ _)) by (intros [? _]; congruence).
  destruct (decide (f = pte_pfn p)) as [->|Hne].
  - rewrite decide_True by done. lia.
  - rewrite decide_False by (intros [_ ?]; congruence). lia.
Qed.

Lemma frames_drop s x A k p v h s' h' x' :
  frames_ok s x A -> A !! k = Some p -> pte_present p = true -> pte_present v = false ->
  mapping_dropped k.1 k.2 (pte_pfn p) s h s' h' ->
  (forall q, is_pt (ram x') (dirs x') q <-> is_pt (ram x) (dirs x) q) -> file_pages x' = file_pages x ->
  frames_ok s' x' (upd_entry A k v).
Proof.
  intros Hf E Hp Hv [D1 D2 D3 D4 D5 D6 D7 D8] Hpt Hfp. pose proof Hf as [F1 F2 F3 FF F4 F5].
  destruct (F5 k p E Hp) as (_ & [Hu Hnf] & Hnpt & Hcnt). pose proof (total_of_static _ _ D2) as Ht.
  set (f := pte_pfn p) in *. pose proof (frame_low _ _ _ _ Hf Hu) as [_ Hfl].
  assert (Hused : forall f', frame_used s f' -> (f' = f -> 1 < ref s f) -> frame_used s' f').
  { intros f' (U1 & U2 & U3 & U4) Hne. split_and!; try done; [by rewrite Ht|]. rewrite D8.
    intros [?|[E1 E2]]; [done|]. apply frame_div in E1; [|done|apply Hu]. specialize (Hne E1). unfold ref in Hne. lia. }
  assert (Href : forall f', frame_used s f' -> ref s' f' = if decide (f' = f) then dropped (ref s f) else ref s f').
  { intros f' Hu'. unfold ref. case_decide as Hd; [by subst|]. apply D5.
    - pose proof (frame_low _ _ _ _ Hf Hu'). lia.
    - intros E1. apply Hd. by apply frame_div; [apply Hu'|apply Hu|]. }
  split.
  - done.
  - unfold pa_static in D2. congruence.
  - by rewrite Ht.
  - intros q. rewrite Hfp, Ht, D8. intros Hq. destruct (FF q Hq) as [Q1 Q2]. split; [done|].
    intros [?|[-> _]]; [done|]. by apply Hnf.
  - intros q. rewrite Hpt. intros Hq. destruct (F4 q Hq) as [[Q1 Q2] Q3]. assert (Hqf : q <> f) by (by intros ->).
    unfold frame_ours. rewrite Hfp. split; [split; [by apply Hused|done]|]. rewrite Href by done. by rewrite decide_False.
  - intros k' p' [(_ & -> & _)|[Hne E']]%upd_entry_some Hp'; [congruence|].
    destruct (F5 k' p' E' Hp') as (G1 & [G2 G4] & G3 & G5). unfold frame_ours. rewrite Hpt, Hfp.
    assert (Hgt : pte_pfn p' = f -> 1 < ref s f).
    { intros Ef. apply Z.nle_gt. intros Hle. apply Hne.
      apply (count_if_unique (maps_to f) A k' k p' p); try done. unfold nmaps in *. lia. }
    rewrite (nmaps_drop A k p v) by done. rewrite Href by done. fold f. split_and!; try done.
    + by apply Hused.
    + destruct (decide (pte_pfn p' = f)) as [Ef|]; [|lia]. specialize (Hgt Ef). rewrite Ef.
      unfold dropped. destruct (Z.ltb_spec 1 (ref s f)); lia.
    + destruct (decide (pte_pfn p' = f)) as [Ef|]; [|lia]. unfold dropped. destruct (1 <? ref s f); lia.
Qed.

Lemma rmaps_drop s x A k p v h s' h' x' :
  rmaps_ok s x A -> frames_ok s x A -> A !! k = Some p -> pte_present p = true -> rmap_inv s h ->
  mapping_dropped k.1 k.2 (pte_pfn p) s h s' h' -> vheap x' = h' ->
  rmaps_ok s' x' (upd_entry A k v).
Proof.
  intros [R1 R2] Hf E Hp Hi [D1 D2 D3 D4 D5 D6 D7 D8] Eh. pose proof (total_of_static _ _ D2) as Ht.
  destruct (fr_map _ _ _ Hf k p E Hp) as (_ & [Hu _] & _). pose proof (frame_low _ _ _ _ Hf Hu) as [_ Hfl].
  split; [by rewrite Eh|]. intros q k' Hq Hk'. rewrite Ht in Hq.
  assert (Hin : k' ∈ rmaps (znth (pages s) q) /\ k' <> k).
  { destruct (decide (q = pte_pfn p / 4096)) as [->|Hne].
    - destruct (ri_pages _ _ Hi _ Hq) as (_ & Hnd & _). destruct k as [mm va]. cbn [fst snd] in D7.
      destruct D7 as [D7|[D7 D7']].
      + rewrite D7 in Hnd. apply NoDup_cons in Hnd as [Hnd _]. split; [rewrite D7; by right|]. by intros ->.
      + rewrite D7 in Hk'. split; [done|]. by intros ->.
    - rewrite (rmaps_of _ _ (proj2 (D5 q Hq Hne))) in Hk'. split; [done|]. intros ->.
      destruct (R2 q k Hq Hk') as (p0 & E0 & _ & Ef). rewrite E in E0. injection E0 as <-.
      apply Hne. rewrite Ef. by rewrite Z.div_mul by lia. }
  destruct Hin as [Hin Hne]. destruct (R2 q k' Hq Hin) as (p' & E' & Hp'). exists p'.
  by rewrite upd_entry_other.
Qed.

(** Fewer mappings keep the sharing rules. *)
Lemma share_drop x A k p v x' :
  share_ok x A -> A !! k = Some p -> pte_present p = true -> pte_present v = false -> mms x' = mms x ->
  share_ok x' (upd_entry A k v).
Proof.
  intros [S1 S2] E Hp Hv Em.
  assert (Hle : forall f, nmaps (upd_entry A k v) f <= nmaps A f).
  { intros f. rewrite (nmaps_drop A k p v f) by done. case_decide; lia. }
  split.
  - intros k' p' [(_ & -> & _)|[_ E']]%upd_entry_some Hp' Hw; [congruence|].
    etrans; [apply Hle|]. by apply (S1 k').
  - intros k' p' sp [(_ & -> & _)|[_ E']]%upd_entry_some Hp' Hw Hc Hsp Hva; [congruence|].
    etrans; [apply Hle|]. rewrite Em in Hsp. by apply (S2 k' p' sp).
Qed.

(** ** Changes of the page allocator that nobody here notices *)

Record core_same s s' : Prop := CoreSame {
  cs_ok : pa_ok s';
  cs_static : pa_static s' = pa_static s;
  cs_free q : free_page s' q <-> free_page s q;
  cs_ref q : 0 <= q < total_pages s -> refcount (znth (pages s') q) = refcount (znth (pages s) q);
  cs_maps : maps_same s s';
}.

Lemma ref_core s s' f : core_same s s' -> frame_used s f -> ref s' f = ref s f.
Proof.
  intros [C1 C2 C3 C4 C5] (U1 & U2 & U3 & U4). apply C4. split; [apply Z.div_pos; lia|done].
Qed.

Lemma vm_ok_core s s' x A : core_same s s' -> vm_ok s x A -> vm_ok s' x A.
Proof.
  intros Hc [V1 V2 V3 V4 V5 V6]. pose proof Hc as [C1 C2 C3 C4 C5]. pose proof (total_of_static _ _ C2) as Ht.
  destruct (rmap_inv_maps s s' (vheap x) Ht C5 (ro_inv _ _ _ V4)) as [Hi Hn].
  assert (Hu : forall f, frame_used s' f <-> frame_used s f).
  { intros f. unfold frame_used. by rewrite Ht, C3. }
  split; try done.
  - destruct V2 as [F1 F2 F3 FF F4 F5]. split; try done.
    + unfold pa_static in C2. congruence.
    + by rewrite Ht.
    + intros q. rewrite Ht, C3. apply FF.
    + intros p Hp. destruct (F4 p Hp) as [[U U'] R]. unfold frame_ours. rewrite Hu. by rewrite (ref_core s s').
    + intros k p E Hp. unfold frame_ours. rewrite Hu. destruct (F5 k p E Hp) as (G1 & [G2 G4] & G3 & G5).
      by rewrite (ref_core s s').
  - destruct V3 as [S1 S2 S3 S4 S5 S6]. split; try done. intros i b Hi0 Hb. rewrite Hn. by apply (S4 i).
  - destruct V4 as [R1 R2]. split; [done|]. intros q k. rewrite Ht. intros Hq.
    rewrite (rmaps_of _ _ (C5 q Hq)). by apply R2.
Qed.

(** A change of [PG_ISOLATED]. *)
Lemma clear_isolated_core s q :
  pa_ok s -> 0 <= q < total_pages s ->
  core_same s (with_pages s (upd_page (pages s) q (clear_bit PG_ISOLATED))).
Proof.
  intros Hok Hq. pose proof (ok_zones _ Hok) as Hz. pose proof Hz as (_ & Hlen & _).
  assert (Hpg : forall y, 0 <= y -> znth (upd_page (pages s) q (clear_bit PG_ISOLATED)) y =
    if decide (q = y) then clear_bit PG_ISOLATED (znth (pages s) y) else znth (pages s) y)
    by (intros y Hy; apply znth_upd_page; lia).
  assert (Hfl : forall fl n, 0 <= n < 32 -> n <> 3 -> has (Z.land fl (not32 PG_ISOLATED)) (2 ^ n) = has fl (2 ^ n)).
  { intros fl n Hn Hne. change PG_ISOLATED with (2 ^ 3). apply has_clear_ne; lia. }
  destruct (pa_ok_refs s (upd_page (pages s) q (clear_bit PG_ISOLATED)) Hok) as [G1 G2].
  { split; [apply zlen_upd_page|]. intros y Hy. rewrite Hpg by done. case_decide; [|done].
    cbn [clear_bit set_flags flags order]. change PG_BUDDY with (2 ^ 0). change PG_LRU with (2 ^ 2).
    rewrite !Hfl by lia. done. }
  { intros y Hy. pose proof (free_page_zone s y Hz (ok_buddy _ Hok) Hy). rewrite Hpg by lia.
    destruct (ok_free _ Hok y Hy) as [E _]. by case_decide. }
  split; try done.
  - intros y Hy. cbn [with_pages put pages mem_map]. rewrite Hpg by lia. by case_decide.
  - intros y Hy. cbn [with_pages put pages mem_map]. rewrite Hpg by lia. by case_decide.
Qed.

(** ** A page goes to a swap slot *)

(** Nodes stay live when an object is allocated. *)
Lemma rmap_inv_kmalloc s h sz b h' :
  rmap_inv s h -> kmalloc sz h = (Some b, h') -> rmap_inv s h' /\ ~ is_node s b.
Proof.
  intros [I1 I2 I3 I4 I5] E. destruct (kmalloc_some _ _ _ _ I1 E) as (K1 & _ & K3 & K4). split.
  - split; try done. intros n Hn. rewrite K4. apply elem_of_union_r. by apply I5.
  - intros Hn. by apply K3, I5.
Qed.

Lemma slots_fill s x A k p i buf data h s' h1 x' :
  slots_ok s x A -> A !! k = Some p -> pte_present p = true -> 0 <= i < 64 ->
  sused (znth (swap_slots x) i) = false -> rmap_inv s (vheap x) ->
  kmalloc PAGE_SIZE (vheap x) = (Some buf, h) -> same_foreign s h s' h1 ->
  length data = 1024%nat -> Forall is_u32 data ->
  swap_slots x' = zset (swap_slots x) i (Slot true (Some (buf, data))) -> vheap x' = h1 ->
  slots_ok s' x' (upd_entry A k (swap_pte_encode i)).
Proof.
  intros [S1 S2 S3 S4 S5 S6] E Hp Hi Hfree Hinv Hk Hfor Hl Hd Es Eh.
  destruct (swap_pte_facts i Hi) as (E1 & E2 & _ & E4).
  destruct (kmalloc_some _ _ _ _ (ri_heap _ _ Hinv) Hk) as (K1 & _ & K3 & K4).
  destruct (rmap_inv_kmalloc _ _ _ _ _ Hinv Hk) as [_ Hnn].
  assert (Hz : forall j, 0 <= j < 64 -> znth (swap_slots x') j =
    if decide (j = i) then Slot true (Some (buf, data)) else znth (swap_slots x) j).
  { intros j Hj. rewrite Es. case_decide as F; [subst; apply znth_zset_eq; unfold zlen; lia|apply znth_zset_ne; lia]. }
  assert (Hnot : forall k' p', A !! k' = Some p' -> swap_pte_decode p' <> Some i).
  { intros k' p' E' Hd'. assert (Hnp : pte_present p' = false).
    { unfold swap_pte_decode in Hd'. by destruct (pte_present p'). }
    destruct (S2 k' p' E' Hnp) as (j & b & d & Hj & _ & Hsl). rewrite Hd' in Hj. injection Hj as <-.
    rewrite Hsl in Hfree. done. }
  split.
  - rewrite Es. by rewrite length_zset.
  - intros k' p' [(-> & -> & _)|[Hne E']]%upd_entry_some Hnp.
    + exists i, buf, data. rewrite Hz by done. by rewrite decide_True.
    + destruct (S2 k' p' E' Hnp) as (j & b & d & Hj & Hjr & Hsl). exists j, b, d. split_and!; try done; try lia.
      rewrite Hz by done. rewrite decide_False; [done|]. intros ->. by apply (Hnot k' p').
  - intros k1 k2 p1 p2 j [(-> & -> & _)|[N1 F1]]%upd_entry_some [(-> & -> & _)|[N2 F2]]%upd_entry_some D1 D2;
      [done|rewrite E1 in D1; injection D1 as <-; by destruct (Hnot k2 p2 F2)
      |rewrite E1 in D2; injection D2 as <-; by destruct (Hnot k1 p1 F1)|by apply (S3 k1 k2 p1 p2 j)].
  - intros j b Hj. rewrite Hz, Eh by done. case_decide as F.
    + cbn [sdata]. intros [= <-]. cbn [fst snd]. destruct (Hfor buf) as [_ G]. destruct G as [G1 G2]; [|done].
      split; [|done]. rewrite K4. set_solver.
    + intros Hb. destruct (S4 j b Hj Hb) as (B1 & B2 & B3 & B4). destruct (Hfor b.1) as [_ G].
      destruct G as [G1 G2]; [|done]. split; [rewrite K4; set_solver|done].
  - intros j1 j2 b1 b2 H1 H2. rewrite !Hz by done.
    case_decide as F1; case_decide as F2; subst; try done; cbn [sdata].
    + intros [= <-] Hb2. cbn [fst]. intros ->. by destruct K3, (S4 j2 b2 H2 Hb2).
    + intros Hb1 [= <-]. cbn [fst]. intros <-. by destruct K3, (S4 j1 b1 H1 Hb1).
    + by apply S5.
  - intros j Hj. rewrite Hz by done. case_decide; [done|by apply S6].
Qed.

Lemma evolves_refl s x A : vm_ok s x A -> evolves s x A s x A.
Proof. intros _. split; try done; by left. Qed.

(** A failed allocation from the heap. *)
Lemma vm_ok_heap s x A h :
  vm_ok s x A -> km_ok h -> live h = live (vheap x) ->
  vm_ok s (with_vheap x h) A /\ evolves s x A s (with_vheap x h) A.
Proof.
  intros [V1 V2 V3 V4 V5 V6] Hk Hl. split; [|split; try done; by left].
  split; try done.
  - destruct V1 as [T1 T2 T3 T4 T5 T6]. by split.
  - destruct V2 as [F1 F2 F3 FF F4 F5]. by split.
  - destruct V3 as [S1 S2 S3 S4 S5 S6]. split; try done. cbn [with_vheap vheap swap_slots]. by rewrite Hl.
  - destruct V4 as [R1 R2]. split; try done. destruct R1 as [I1 I2 I3 I4 I5]. split; try done.
    cbn [with_vheap vheap]. by rewrite Hl.
  - destruct V5 as [H1 H2]. by split.
Qed.

(** The contents seen through an entry that does not change. *)
Lemma entry_data_same x x' A k p :
  A !! k = Some p ->
  (pte_present p = true -> frame (ram x') (pte_pfn p) = frame (ram x) (pte_pfn p)) ->
  (forall i, pte_present p = false -> swap_pte_decode p = Some i ->
     sdata (znth (swap_slots x') i) = sdata (znth (swap_slots x) i)) ->
  entry_data x' p = entry_data x p.
Proof.
  intros _ H1 H2. unfold entry_data. destruct (pte_present p) eqn:E; [by rewrite H1|].
  destruct (swap_pte_decode p) as [i|] eqn:Ed; [|done]. by rewrite H2.
Qed.

Lemma tabs_other x x' A :
  tabs_ok x A -> ram x' = ram x -> kernel_directory x' = kernel_directory x -> mms x' = mms x -> tabs_ok x' A.
Proof.
  intros [T1 T2 T3 T4 Tp T5 T6] Er Ek Em. assert (Ed : dirs x' = dirs x) by (unfold dirs; by rewrite Ek, Em).
  split; by rewrite ?Ed, ?Er, ?Ek, ?Em.
Qed.

(** The step on the whole state, once everything is available. *)
Lemma swap_out_step s x A mm va p sp i buf h r s1 h1 s2 x' :
  vm_ok s x A -> A !! (mm, va) = Some p -> pte_present p = true -> mms x !! mm = Some sp -> user_page va ->
  0 <= i < 64 -> sused (znth (swap_slots x) i) = false -> kmalloc PAGE_SIZE (vheap x) = (Some buf, h) ->
  entry_set lowmem_end (dirs x) (mm_pgd sp) va (swap_pte_encode i) (ram x) r ->
  mapping_dropped mm va (pte_pfn p) s h s2 h1 -> rmaps (znth (pages s) (pte_pfn p / 4096)) = [(mm, va)] ->
  x' = set_slot i (Slot true (Some (buf, frame (ram x) (pte_pfn p)))) (with_vheap (with_ram (with_vheap x h) r) h1) ->
  vm_ok s2 x' (upd_entry A (mm, va) (swap_pte_encode i)) /\
  evolves s x A s2 x' (upd_entry A (mm, va) (swap_pte_encode i)) /\ same_tables x x'.
Proof.
  intros HV E Hp Hmm Hva Hi Hfree Hk Hes Hmd Hone ->. pose proof HV as [V1 V2 V3 V4 V5 V6].
  destruct (swap_pte_facts i Hi) as (E1 & E2 & _ & E4). pose proof (total_of_static _ _ (md_static _ _ _ _ _ _ _ Hmd)) as Ht.
  destruct (rmap_inv_kmalloc _ _ _ _ _ (ro_inv _ _ _ V4) Hk) as [Hinv Hnn].
  destruct (fr_map _ _ _ V2 _ _ E Hp) as (_ & [Hu Hnf] & Hnpt & Hcnt).
  set (x' := set_slot _ _ _).
  assert (Hdirs : dirs x' = dirs x) by done.
  assert (Hpt : forall q, is_pt (ram x') (dirs x') q <-> is_pt (ram x) (dirs x) q) by (intros q; apply (es_pt _ _ _ _ _ _ _ Hes)).
  assert (Hslot : forall j, 0 <= j < 64 -> znth (swap_slots x') j =
    if decide (j = i) then Slot true (Some (buf, frame (ram x) (pte_pfn p))) else znth (swap_slots x) j).
  { intros j Hj. unfold x'. cbn [set_slot with_slots swap_slots with_vheap with_ram]. pose proof (so_len _ _ _ V3).
    case_decide as F; [subst; apply znth_zset_eq; unfold zlen; lia|apply znth_zset_ne; lia]. }
  assert (HV' : vm_ok s2 x' (upd_entry A (mm, va) (swap_pte_encode i))).
  { split; try done.
    - apply (tabs_other (with_ram x r)); [|done..]. by apply (tabs_entry_set x A mm sp va _ r).
    - by apply (frames_drop s x A (mm, va) p _ h s2 h1).
    - destruct (frame_sized (ram x) (pte_pfn p) (dk_sized _ _ _ (to_dirs _ _ V1))) as [Hl Hd].
      apply (slots_fill s x A (mm, va) p i buf (frame (ram x) (pte_pfn p)) h s2 h1); try done.
      + apply (ro_inv _ _ _ V4).
      + apply (md_foreign _ _ _ _ _ _ _ Hmd).
    - by apply (rmaps_drop s x A (mm, va) p _ h s2 h1).
    - by apply (share_drop x A (mm, va) p). }
  split_and!; [done| |intros pgd j Hd Hj; by apply (es_pde _ _ _ _ _ _ _ Hes)]. split; try done.
  - apply (md_static _ _ _ _ _ _ _ Hmd).
  - intros q Hq. by apply Hpt.
  - intros pgd j Hd Hj _. by apply (es_pde _ _ _ _ _ _ _ Hes).
  - intros k. destruct (decide (k = (mm, va))) as [->|Hne]; [|left; by apply upd_entry_other].
    right. exists p, (swap_pte_encode i). split_and!; try done. unfold upd_entry.
    destruct (Z.eqb_spec (swap_pte_encode i) 0); [done|]. by rewrite lookup_insert_eq.
  - intros k. unfold user_mem. destruct (decide (k = (mm, va))) as [->|Hne].
    + unfold upd_entry. destruct (Z.eqb_spec (swap_pte_encode i) 0); [done|]. rewrite lookup_insert_eq, E.
      cbn [mbind option_bind]. unfold entry_data. rewrite E2, Hp, E1. rewrite Hslot by done. by rewrite decide_True.
    + rewrite upd_entry_other by done. destruct (A !! k) as [q|] eqn:Eq; [|done]. cbn [mbind option_bind].
      apply (entry_data_same x x' A k q Eq).
      * intros Hq. apply (es_data _ _ _ _ _ _ _ Hes). by apply (fr_map _ _ _ V2 k q).
      * intros j Hq Hd. destruct (so_entry _ _ _ V3 k q Eq Hq) as (j' & b & d & Hj & Hjr & Hsl).
        rewrite Hd in Hj. injection Hj as <-. rewrite Hslot by done. rewrite decide_False; [done|].
        intros ->. by rewrite Hsl in Hfree.
  - intros f ([Huf Hff] & Hz & Hnp). assert (Hne : f / 4096 <> pte_pfn p / 4096).
    { intros Ed. apply frame_div in Ed; [|apply Huf|apply Hu]. pose proof (nmaps_pos A _ p E Hp). subst f. lia. }
    pose proof (frame_low _ _ _ _ V2 Huf) as [_ Hfl].
    destruct (md_other _ _ _ _ _ _ _ Hmd (f / 4096) ltac:(lia) Hne) as [G1 G2].
    destruct Huf as (U1 & U2 & U3 & U4). split_and!; [|done|by apply rmaps_of|by apply (es_data _ _ _ _ _ _ _ Hes)].
    unfold in_flight. rewrite Hpt, (nmaps_drop A (mm, va) p) by done. rewrite decide_False by (by intros ->).
    split_and!; [|lia|done]. split; [|done]. unfold frame_used. rewrite Ht, (md_free _ _ _ _ _ _ _ Hmd). tauto.
  - intros k q Ek Hq Hqr Hl.
    assert (Hne : pte_pfn q / 4096 <> pte_pfn p / 4096) by (intros Ed; rewrite Ed, Hone in Hl; by cbn in Hl).
    destruct (md_other _ _ _ _ _ _ _ Hmd _ Hqr Hne) as [_ G]. split; [|by apply rmaps_of].
    rewrite upd_entry_other; [done|]. intros ->. by simplify_eq.
Qed.

Lemma evolves_core s x A s1 x1 A1 s2 :
  evolves s x A s1 x1 A1 -> core_same s1 s2 -> evolves s x A s2 x1 A1.
Proof.
  intros [E1 E2 E3 E4 E5 E6 E7 E9 E10 E11 E12 E15] Hc. split; try done.
  - by rewrite (cs_static _ _ Hc).
  - intros f Hf. destruct (E11 f Hf) as (([G1 G4] & G5 & G6) & G2 & G3 & G7).
    assert (Hq : 0 <= f / 4096 < total_pages s1) by (split; [apply Z.div_pos; destruct G1; lia|apply G1]).
    split_and!; [|by rewrite (ref_core _ _ _ Hc)|by rewrite (rmaps_of _ _ (cs_maps _ _ Hc _ Hq))|done].
    split_and!; [|done|done]. split; [|done]. destruct G1 as (U1 & U2 & U3 & U4). unfold frame_used.
    by rewrite (total_of_static _ _ (cs_static _ _ Hc)), (cs_free _ _ Hc).
  - intros k p E Hp Hq Hl. destruct (E15 k p E Hp Hq Hl) as [G1 G2]. split; [done|]. rewrite <- G2.
    apply rmaps_of, (cs_maps _ _ Hc). by rewrite (total_of_static _ _ E1).
Qed.

(** [swap_out_page] returns; whatever it returns, the programs' memory is the same. *)
Lemma swap_out_post pfn s x A :
  vm_ok s x A -> 0 <= pfn < total_pages s ->
  exists r s' x' A', swap_out_anon lowmem_end pfn (s, x) = Ret (r, (s', x')) /\
    vm_ok s' x' A' /\ evolves s x A s' x' A' /\ same_tables x x' /\ (r <> 0 -> s' = s).
Proof.
  intros HV Hpfn. pose proof HV as [V1 V2 V3 V4 V5 V6].
  assert (Hstay : exists r s' x' A', Ret (-1, (s, x)) = Ret (r, (s', x')) /\
    vm_ok s' x' A' /\ evolves s x A s' x' A' /\ same_tables x x' /\ (r <> 0 -> s' = s)).
  { exists (-1), s, x, A. split_and!; try done; [by apply evolves_refl|by left]. }
  unfold swap_out_anon. set (page := znth (pages s) pfn).
  destruct (Z.eqb_spec (mapcount page) 1) as [Hm|]; cbn [negb]; [|done].
  destruct (Z.eqb_spec (map_mm page) 0) as [|Hmm0]; [done|].
  destruct (Z.leb_spec TASK_SIZE (map_vaddr page)) as [|Hva]; [done|].
  destruct (rmap_list page) as [|it l] eqn:El; [|done].
  destruct (find_unused (swap_slots x) 0) as [i|] eqn:Ei; [|done].
  apply find_unused_spec in Ei as [Hi Hfree]. rewrite Z.sub_0_r in Hfree. unfold zlen in Hi. rewrite (so_len _ _ _ V3) in Hi.
  assert (Hin : (map_mm page, map_vaddr page) ∈ rmaps page) by (unfold rmaps; rewrite Hm; by left).
  destruct (ro_map _ _ _ V4 pfn _ Hpfn Hin) as (p & E & Hp & Hf).
  set (mm := map_mm page) in *. set (va := map_vaddr page) in *.
  destruct (to_key _ _ V1 mm va p E) as (_ & Hup & sp & Hsp). rewrite Hsp.
  pose proof (to_dirs _ _ V1) as Hd. pose proof (mm_dir _ _ _ Hsp) as Hdir.
  assert (Hpte : pte_of (ram x) (mm_pgd sp) va = p) by (by rewrite (to_entry _ _ V1 mm sp va), E).
  rewrite (get_pte_flags_eq _ Hlow _ _ _ _ Hd Hdir (user_page_u32 _ Hup)), Hpte, Hp. cbn [rbind negb]. rewrite Hp. cbn [negb].
  destruct (kmalloc PAGE_SIZE (vheap x)) as [[buf|] h] eqn:Ek.
  2:{ destruct (kmalloc_none _ _ _ (ri_heap _ _ (ro_inv _ _ _ V4)) Ek) as [K1 K2].
      destruct (vm_ok_heap s x A h HV K1 K2) as [G1 G2]. exists (-1), s, (with_vheap x h), A. split_and!; try done. by left. }
  destruct (fr_map _ _ _ V2 _ _ E Hp) as (_ & [Hu Hnf] & Hnpt & Hcnt). pose proof (frame_low _ _ _ _ V2 Hu) as [Hlo Hfl].
  rewrite (directmap_low lowmem_end (pte_pfn p)) by lia. cbn [rbind]. rewrite (phys_virt _ Hlow) by lia.
  destruct (swap_pte_facts i Hi) as (E1 & E2 & E3 & E4).
  destruct (set_pte_raw_post _ Hlow (ram x) (dirs x) (mm_pgd sp) va (swap_pte_encode i) Hd Hdir (proj1 Hup) E3) as (r & Er & Hes).
  { rewrite Hpte. by apply not_present_zero. }
  rewrite Er. cbn [rbind]. unfold on_rmap. cbn [fst snd with_ram with_vheap vheap].
  destruct (rmap_inv_kmalloc _ _ _ _ _ (ro_inv _ _ _ V4) Ek) as [Hinv Hnn].
  pose proof (drop_mapping mm va (pte_pfn p) s h (fr_pa _ _ _ V2) (fr_ready _ _ _ V2) Hinv) as HD.
  destruct (page_remove_rmap mm va (pte_pfn p) (s, h)) as [s1 h1].
  destruct HD as (s2 & Ef & Hmd).
  { apply Hu. }
  { by apply (frame_offset _ _ _ _ V2). }
  { lia. }
  { apply Hu. }
  { pose proof (nmaps_pos A _ p E Hp). unfold ref in Hcnt. lia. }
  unfold free_frame. cbn [fst snd]. rewrite Ef. cbn [rbind fst snd].
  assert (Hone : rmaps (znth (pages s) (pte_pfn p / 4096)) = [(mm, va)]).
  { rewrite Hf, Z.div_mul by lia. fold page. unfold rmaps. by rewrite Hm, El. }
  destruct (swap_out_step s x A mm va p sp i buf h r s1 h1 s2 _ HV E Hp Hsp Hup Hi Hfree Ek Hes Hmd Hone eq_refl) as (G1 & G2 & G3).
  pose proof (total_of_static _ _ (md_static _ _ _ _ _ _ _ Hmd)) as Ht.
  pose proof (clear_isolated_core s2 pfn (md_ok _ _ _ _ _ _ _ Hmd) ltac:(by rewrite Ht)) as Hc.
  do 4 eexists. split_and!; [done| | |done|done]; [by eapply vm_ok_core|by eapply evolves_core].
Qed.

(** ** Reclaim as a whole *)

Lemma evolves_trans s x A s1 x1 A1 s2 x2 A2 :
  vm_ok s1 x1 A1 -> evolves s x A s1 x1 A1 -> evolves s1 x1 A1 s2 x2 A2 -> evolves s x A s2 x2 A2.
Proof.
  intros HV H1 H2. pose proof H1 as [E1 E2 E3 E4 E5 E6 E7 E9 E10 E11 (E12 & E13 & E14) E15].
  pose proof H2 as [F1 F2 F3 F4 F5 F6 F7 F9 F10 F11 (F12 & F13 & F14) F15].
  assert (Hd : dirs x1 = dirs x) by (unfold dirs; congruence).
  split; try congruence.
  - intros p Hp. by apply F6, E6.
  - intros pgd i Hp Hi Hpr. pose proof (E7 pgd i Hp Hi Hpr) as Hl. eapply pde_like_trans; [done|].
    rewrite Hd in F7. apply F7; try done. destruct Hl as [->| ->]; [done|].
    unfold pgd_present in *. change PTE_PRESENT with (2 ^ 0) in *. rewrite has_lor, Hpr by lia. done.
  - intros k. destruct (F9 k) as [->|(p & p' & G1 & G2 & G3 & G4)]; [apply E9|].
    destruct (E9 k) as [E|(p0 & p1 & _ & _ & G5 & G6)]; [|rewrite G5 in G1; injection G1 as ->; congruence].
    right. exists p, p'. by rewrite <- E.
  - intros f Hf. destruct (E11 f Hf) as (G1 & G2 & G3 & G7). destruct (F11 f G1) as (G4 & G5 & G6 & G8).
    split_and!; [done|congruence|congruence|congruence].
  - split_and!; congruence.
  - intros k p E Hp Hq Hl. destruct (E15 k p E Hp Hq Hl) as [G1 G2]. rewrite <- G2 in Hl |- *. apply F15; try done.
    by rewrite (total_of_static _ _ E1).
Qed.

(** Pages change hands elsewhere. *)
Lemma vm_ok_held s s' x A :
  vm_ok s x A -> pa_ok s' -> pa_static s' = pa_static s -> held_same s s' -> maps_same s s' ->
  vm_ok s' x A /\ evolves s x A s' x A.
Proof.
  intros HV Hok Hst Hh Hm. pose proof HV as [V1 V2 V3 V4 V5 V6]. pose proof (total_of_static _ _ Hst) as Ht.
  destruct (rmap_inv_maps s s' (vheap x) Ht Hm (ro_inv _ _ _ V4)) as [Hi Hn].
  assert (Hu : forall f, frame_used s f -> frame_used s' f /\ ref s' f = ref s f).
  { intros f (U1 & U2 & U3 & U4). destruct (Hh (f / 4096)) as [H1 H2]; [split; [apply Z.div_pos; lia|done]|done|].
    unfold frame_used. rewrite Ht. split; [done|]. unfold page_core in H2. unfold ref. congruence. }
  split.
  - split; try done.
    + destruct V2 as [F1 F2 F3 FF F4 F5]. split; try done.
      * unfold pa_static in Hst. congruence.
      * by rewrite Ht.
      * intros q Hq. destruct (FF q Hq) as [Q1 Q2]. rewrite Ht. split; [done|]. by apply (Hh q).
      * intros p Hp. destruct (F4 p Hp) as [[U U'] R]. destruct (Hu p U) as [W1 W2]. unfold frame_ours. by rewrite W2.
      * intros k p E Hp. destruct (F5 k p E Hp) as (G1 & [G2 G4] & G3 & G5). destruct (Hu _ G2) as [W1 W2].
        unfold frame_ours. by rewrite W2.
    + destruct V3 as [S1 S2 S3 S4 S5 S6]. split; try done. intros i b Hi0 Hb. rewrite Hn. by apply (S4 i).
    + destruct V4 as [R1 R2]. split; [done|]. intros q k. rewrite Ht. intros Hq.
      rewrite (rmaps_of _ _ (Hm q Hq)). by apply R2.
  - split; try done; [by left|by left| |intros k p E Hp Hq _; split; [done|by apply rmaps_of, Hm]].
    intros f ([Hf Hff] & Hz & Hnp). destruct (Hu f Hf) as [W1 W2].
    split_and!; [done|done| |done]. apply rmaps_of, Hm. split; [apply Z.div_pos; destruct Hf; lia|apply Hf].
Qed.

(** A step of the other reclaimers. *)
Lemma file_step_vm f s x A :
  f ∈ [fr_cache; fr_writeback; fr_slab] -> vm_ok s x A ->
  let '(_, (s', x')) := on_files f (s, x) in vm_ok s' x' A /\ evolves s x A s' x' A /\ same_tables x x'.
Proof.
  intros Hin HV. pose proof HV as [V1 V2 V3 V4 V5 V6]. unfold on_files. cbn [fst snd].
  pose proof (file_step f s (file_pages x) Hin (fr_pa _ _ _ V2) (fr_files _ _ _ V2)) as HF.
  destruct (f (s, file_pages x)) as [n [s' y']]. destruct HF as (P1 & P2 & P3 & P4 & P5).
  pose proof (total_of_static _ _ P2) as Ht.
  destruct (rmap_inv_maps s s' (vheap x) Ht P3 (ro_inv _ _ _ V4)) as [Hi Hn].
  assert (Hu : forall f, frame_ours s x f -> frame_ours s' (with_files x y') f /\ ref s' f = ref s f).
  { intros f0 [(U1 & U2 & U3 & U4) U5]. destruct (P5 (f0 / 4096)) as [H1 H2]; [split; [apply Z.div_pos; lia|done]|done|].
    unfold frame_ours, frame_used. rewrite Ht, H1. split; [|exact H2]. split; [done|]. cbn [with_files file_pages].
    intros Hf. by apply U5, P4. }
  split_and!; [| |by left].
  - split; try done.
    + apply (tabs_other x); done.
    + destruct V2 as [F1 F2 F3 FF F4 F5]. split; try done.
      * unfold pa_static in P2. congruence.
      * by rewrite Ht.
      * intros q Hq. rewrite Ht. destruct (P4 q Hq) as [Q1 Q2]. split; [by apply FF|done].
      * intros p Hp. destruct (F4 p Hp) as [U R]. destruct (Hu p U) as [W1 W2]. by rewrite W2.
      * intros k p E Hp. destruct (F5 k p E Hp) as (G1 & G2 & G3 & G5). destruct (Hu _ G2) as [W1 W2]. by rewrite W2.
    + destruct V3 as [S1 S2 S3 S4 S5 S6]. split; try done. intros i b Hi0 Hb. rewrite Hn. by apply (S4 i).
    + destruct V4 as [R1 R2]. split; [done|]. intros q k. rewrite Ht. intros Hq.
      rewrite (rmaps_of _ _ (P3 q Hq)). by apply R2.
    + destruct V5 as [H1 H2]. by split.
  - split; try done; [by left|by left| |intros k p E Hp Hq _; split; [done|by apply rmaps_of, P3]].
    intros f0 (Hf & Hz & Hnp). destruct (Hu f0 Hf) as [W1 W2].
    split_and!; [done|done| |done].
    apply rmaps_of, P3. destruct Hf as [Hf _]. split; [apply Z.div_pos; destruct Hf; lia|apply Hf].
Qed.

(** What reclaim keeps, relative to a state it started from. *)
Definition since (s0 : pa) (x0 : vmem) (A0 : entries) s x : Prop :=
  exists A, vm_ok s x A /\ evolves s0 x0 A0 s x A /\ same_tables x0 x.

Lemma same_tables_trans s x A x1 x2 s1 A1 :
  evolves s x A s1 x1 A1 -> same_tables x x1 -> same_tables x1 x2 -> same_tables x x2.
Proof.
  intros Hev H1 H2 pgd i Hp Hi. eapply pde_like_trans; [by apply H1|]. apply H2; [|done].
  unfold dirs in *. by rewrite (ev_kdir _ _ _ _ _ _ Hev), (ev_mms _ _ _ _ _ _ Hev).
Qed.

#[local] Instance reclaimers_inst : Reclaimers vmem := kernel_reclaimers lowmem_end.

Lemma since_file s0 x0 A0 f s x :
  f ∈ [fr_cache; fr_writeback; fr_slab] -> since s0 x0 A0 s x ->
  let w' := (on_files f (s, x)).2 in
  pa_ok w'.1 /\ since s0 x0 A0 w'.1 w'.2 /\ pa_static w'.1 = pa_static s.
Proof.
  intros Hin (A & HV & Hev & Hst). pose proof (file_step_vm f s x A Hin HV) as HF.
  destruct (on_files f (s, x)) as [n [s' x']]. destruct HF as (HV' & Hev' & Hst'). cbn [fst snd].
  split_and!; [apply (fr_pa _ _ _ (vo_frames _ _ _ HV'))| |apply (ev_static _ _ _ _ _ _ Hev')].
  exists A. split_and!; [done|by apply (evolves_trans _ _ _ _ _ _ _ _ _ HV)|by eapply same_tables_trans].
Qed.

Definition reclaimers_ok (s0 : pa) (x0 : vmem) (A0 : entries) : ReclaimersOk vmem.
Proof.
  refine {| xok := since s0 x0 A0 |}.
  - intros s s' x (A & HV & Hev & Ht) _ Hok Hst Hh Hm. destruct (vm_ok_held s s' x A HV Hok Hst Hh Hm) as [HV' Hev'].
    exists A. split_and!; [done|by apply (evolves_trans _ _ _ _ _ _ _ _ _ HV)|done].
  - intros s x _ Hs. apply since_file; [set_solver|done].
  - intros s x _ Hs. apply since_file; [set_solver|done].
  - intros s x _ Hs. apply since_file; [set_solver|done].
  - intros pg s x _ (A & HV & Hev & Hst) Hpg Hnf Hl. cbn [swap_out_page reclaimers_inst kernel_reclaimers].
    destruct (swap_out_post pg s x A HV Hpg) as (r & s' & x' & A' & E & HV' & Hev' & Hst' & Hr). rewrite E. cbn [fst snd].
    split_and!; [apply (fr_pa _ _ _ (vo_frames _ _ _ HV'))| |apply (ev_static _ _ _ _ _ _ Hev')|].
    + exists A'. split_and!; [done|by apply (evolves_trans _ _ _ _ _ _ _ _ _ HV)|by eapply same_tables_trans].
    + intros Hne. by rewrite (Hr Hne).
Defined.
End invariant.
