(* ===== verification/Fault.v ===== *)
(** * Page faults and copy on write ([mm/memory.c], [swap_in_mm] of [mm/swap.c])

    The functions on the whole state: the page allocator, whose reclaim may
    swap pages out at every allocation, and the virtual memory of [Swap].  An
    access of the kernel to a user address goes through the page tables of the
    current directory, and is a page fault where they have no entry; kernel
    accesses ignore the write bit, since [CR0.WP] is never set.  The messages
    printed before a panic are not modelled. *)

From stdpp Require Import base tactics numbers list gmap sets.
From Stdlib Require Import ZArith Lia.
From S2P Require Import Prelude Bootmem Buddy PageAlloc Rmap Vma Paging Swap.

Definition TASK_EXIT_PAGEFAULT : Z := 2.

Section code.
Context {M Y : Type} `{!KAlloc M, !FileReclaim Y}.
Variable lowmem_end : Z.
Notation vmem := (vmem M Y).
Implicit Types (s : pa) (x : vmem) (w : pa * vmem).

#[local] Instance kernel_reclaim : Reclaimers vmem := kernel_reclaimers lowmem_end.

(** [alloc_page(GFP_KERNEL)]; a panic inside reclaim is one here. *)
Definition alloc_page w : run (option Z * (pa * vmem)) :=
  let '(r, w1) := alloc_pages GFP_KERNEL 0 w in
  if panicked w1.2 then Panics else Ret (r, w1).

Definition put_ram w (r : memory) : pa * vmem := (w.1, with_ram w.2 r).

(** The contents of the page of a virtual address, for the current directory. *)
Definition vread_page (va : Z) x : run (list Z) :=
  let pte := pte_of (ram x) (page_directory x) va in
  if pte_present pte then Ret (frame (ram x) (pte_pfn pte)) else Faults va.

Definition vwrite_page (va : Z) (data : list Z) w : run (pa * vmem) :=
  let pte := pte_of (ram w.2) (page_directory w.2) va in
  if pte_present pte then Ret (put_ram w (<[pte_pfn pte := data]> (ram w.2))) else Faults va.

(** ** Mapping *)

Definition map_page_ex (pgd phys va flags : Z) w : run (pa * vmem) :=
  if pgd =? 0 then Ret w else
  let dir := virt_to_phys_addr pgd in
  let? st :=
    if negb (pgd_present (pgd_entry (ram w.2) pgd va)) then
      let? (t, w1) := alloc_page w in
      match t with
      | None => Ret (None, w1)
      | Some t =>
          let? v := memlayout_directmap_phys_to_virt lowmem_end t in
          let r1 := <[virt_to_phys_addr v := zero_page]> (ram w1.2) in
          let r2 := wr r1 dir (pgd_index va) (Z.lor (Z.lor t PTE_READ_WRITE) PTE_PRESENT) in
          let r3 := if has flags PTE_USER then set_pde_user r2 pgd va else r2 in
          Ret (Some tt, put_ram w1 r3)
      end
    else if has flags PTE_USER then Ret (Some tt, put_ram w (set_pde_user (ram w.2) pgd va))
    else Ret (Some tt, w) in
  match st with
  | (None, w2) => Ret w2
  | (Some _, w2) =>
      let? t := table_of lowmem_end (pgd_entry (ram w2.2) pgd va) in
      Ret (put_ram w2 (wr (ram w2.2) t (pte_index va) (Z.lor phys flags)))
  end.

Definition map_page (phys va : Z) w : run (pa * vmem) :=
  map_page_ex (page_directory w.2) phys va (Z.lor PTE_READ_WRITE PTE_PRESENT) w.

(** The pointer to the new directory, [None] for NULL. *)
Definition pgd_clone_kernel w : run (option Z * (pa * vmem)) :=
  if kernel_directory w.2 =? 0 then Ret (None, w) else
  let? (t, w1) := alloc_page w in
  match t with
  | None => Ret (None, w1)
  | Some t =>
      let? v := memlayout_directmap_phys_to_virt lowmem_end t in
      let d := virt_to_phys_addr v in
      let k := virt_to_phys_addr (kernel_directory w1.2) in
      let r1 := <[d := zero_page]> (ram w1.2) in
      let r2 := foldl (fun r i => wr r d i (rd r k i)) r1 (seqZ 0 1024) in
      Ret (Some v, put_ram w1 r2)
  end.

Definition switch_pgd (pgd : Z) w : pa * vmem :=
  if pgd =? 0 then w else (w.1, with_directory w.2 pgd).

(** ** Checking user pointers *)

(** The areas of the current address space. *)
Definition current_areas x : option (list vm_area_struct) :=
  match cur_mm x with
  | None => None
  | Some mm => match mms x !! mm with Some sp => Some (mmap (mm_areas sp)) | None => None end
  end.

Definition current_allows x (addr : Z) (is_write is_exec : bool) : bool :=
  match current_areas x with Some l => vma_allows l addr is_write is_exec | None => false end.

(** One page of [access_ok]. *)
Definition page_access_ok x (pgd page : Z) (write : bool) : run bool :=
  let? e := get_pte lowmem_end (ram x) pgd page in
  match e with
  | None => Ret (current_allows x page write false)
  | Some (pde, pte) =>
      Ret (has pde PTE_USER && pte_user pte &&
           (if write then has pde PTE_READ_WRITE && (pte_write pte || has pte PTE_COW) else true))
  end.

(** The loop ends when [page == last]; [n] bounds its rounds. *)
Fixpoint access_loop (n : nat) x (pgd page last : Z) (write : bool) : run bool :=
  match n with
  | O => Ret false
  | S n' =>
      let? ok := page_access_ok x pgd page write in
      if negb ok then Ret false
      else if page =? last then Ret true
      else access_loop n' x pgd (page +w 4096) last write
  end.

Definition access_ok x (pgd addr len : Z) (write : bool) : run bool :=
  if pgd =? 0 then Ret false else
  if len =? 0 then Ret true else
  let start := addr in
  let end_ := (start +w len) -w 1 in
  if start <? PAGE_SIZE then Ret false
  else if end_ <? start then Ret false
  else if TASK_SIZE <=? end_ then Ret false
  else
    let page := Z.land start (not32 4095) in
    let last := Z.land end_ (not32 4095) in
    access_loop (Z.to_nat 1048576) x pgd page last write.

(** ** Copy on write *)

Definition resolve_cow (page_base : Z) w : run (Z * (pa * vmem)) :=
  let x := w.2 in
  let? pte := get_pte_flags lowmem_end (ram x) (page_directory x) page_base in
  if negb (has pte PTE_COW) then Ret (0, w) else
  let phys := pte_pfn pte in
  let rc := page_ref_count w.1 phys in
  let w1 := (w.1, with_cow x (cow_faults x +w 1) (cow_copies x)) in
  if rc <=? 1 then
    let flags := Z.land (Z.lor (pte_flags pte) PTE_READ_WRITE) (not32 PTE_COW) in
    let? r := set_pte_flags lowmem_end (ram w1.2) (page_directory w1.2) page_base flags in
    Ret (1, put_ram w1 r)
  else
    let? (new_phys, w2) := alloc_page w1 in
    match new_phys with
    | None => Ret (-1, w2)
    | Some new_phys =>
        match kmalloc PAGE_SIZE (vheap w2.2) with
        | (None, h) =>
            let? w3 := free_frame new_phys (w2.1, with_vheap w2.2 h) in
            Ret (-1, w3)
        | (Some tmp, h) =>
            let w3 := (w2.1, with_vheap w2.2 h) in
            let? data := vread_page page_base w3.2 in
            let? w4 := map_page_ex (page_directory w3.2) new_phys page_base
                         (Z.lor (Z.lor PTE_PRESENT PTE_USER) PTE_READ_WRITE) w3 in
            let w5 := match cur_mm w4.2 with
                      | Some mm => on_rmap (page_add_anon_rmap mm page_base new_phys)
                                     (on_rmap (page_remove_rmap mm page_base phys) w4)
                      | None => w4
                      end in
            let? w6 := vwrite_page page_base data w5 in
            let w7 := (w6.1, with_vheap w6.2 (kfree tmp (vheap w6.2))) in
            let? w8 := free_frame phys w7 in
            Ret (1, (w8.1, with_cow w8.2 (cow_faults w8.2) (cow_copies w8.2 +w 1)))
        end
    end.

(** ** Swapping in *)

Definition swap_in_mm (mm vaddr : Z) w : run (Z * (pa * vmem)) :=
  match mms w.2 !! mm with
  | None => Ret (0, w)
  | Some sp =>
      if TASK_SIZE <=? vaddr then Ret (0, w) else
      let? pte := get_pte_raw lowmem_end (ram w.2) (mm_pgd sp) vaddr in
      match swap_pte_decode pte with
      | None => Ret (0, w)
      | Some slot =>
          let sl := znth (swap_slots w.2) slot in
          match sused sl, sdata sl with
          | true, Some _ =>
              let? (phys, w1) := alloc_page w in
              match phys with
              | None => Ret (-1, w1)
              | Some phys =>
                  let flags := if vma_allows (mmap (mm_areas sp)) vaddr true false
                               then Z.lor (Z.lor PTE_PRESENT PTE_USER) PTE_READ_WRITE
                               else Z.lor PTE_PRESENT PTE_USER in
                  let? w2 := map_page_ex (mm_pgd sp) phys vaddr flags w1 in
                  match sdata (znth (swap_slots w2.2) slot) with
                  | None => Faults 0
                  | Some (_, data) =>
                      let? w3 := vwrite_page vaddr data w2 in
                      let w4 := on_rmap (page_add_anon_rmap mm vaddr phys) w3 in
                      Ret (1, (w4.1, swap_free_slot slot w4.2))
                  end
              end
          | _, _ => Ret (0, w)
          end
      end
  end.

(** ** The fault handler *)

Definition handle_mm_fault (mm : option Z) (page_base : Z) (is_present is_write is_exec : bool) w
  : run (Z * (pa * vmem)) :=
  match mm with
  | None => Ret (0, w)
  | Some mm =>
      match mms w.2 !! mm with
      | None => Ret (0, w)
      | Some sp =>
          let allows := vma_allows (mmap (mm_areas sp)) page_base in
          if negb (allows is_write is_exec) then Ret (0, w)
          else if is_present then
            if negb is_write then Ret (0, w) else
            let? (res, w1) := resolve_cow page_base w in
            if 0 <? res then Ret (1, w1)
            else if res <? 0 then Ret (-1, w1)
            else if allows true false then
              let? pte := get_pte_flags lowmem_end (ram w1.2) (page_directory w1.2) page_base in
              if negb (pte =? 0) && pte_user pte && negb (pte_write pte) && negb (has pte PTE_COW) then
                let? r := set_pte_flags lowmem_end (ram w1.2) (page_directory w1.2) page_base
                            (Z.lor (pte_flags pte) PTE_READ_WRITE) in
                Ret (1, put_ram w1 r)
              else Ret (0, w1)
            else Ret (0, w1)
          else
            let? (res, w1) := swap_in_mm mm page_base w in
            if 0 <? res then Ret (1, w1) else
            let? (phys, w2) := alloc_page w1 in
            match phys with
            | None => Ret (-1, w2)
            | Some phys =>
                let flags := if allows true false then Z.lor (Z.lor PTE_PRESENT PTE_USER) PTE_READ_WRITE
                             else Z.lor PTE_PRESENT PTE_USER in
                let? w3 := map_page_ex (page_directory w2.2) phys page_base flags w2 in
                let w4 := on_rmap (page_add_anon_rmap mm page_base phys) w3 in
                let? w5 := vwrite_page page_base zero_page w4 in
                Ret (1, w5)
            end
      end
  end.

(** The interrupted code goes on, or the task was ended by [do_exit_reason] and
    another one is scheduled. *)
Inductive fault_result : Type := Resumes | Killed.

Definition count_pf (present write user reserved : bool) (c : pf_stats) : pf_stats :=
  Pf (pf_total c +w 1) (if present then pf_present c +w 1 else pf_present c)
    (if present then pf_not_present c else pf_not_present c +w 1) (if write then pf_write c +w 1 else pf_write c)
    (if user then pf_user c +w 1 else pf_user c) (if user then pf_kernel c else pf_kernel c +w 1)
    (if reserved then pf_reserved c +w 1 else pf_reserved c) (pf_prot c) (pf_null c) (pf_kernel_addr c) (pf_out_of_range c).

Definition count_prot (c : pf_stats) : pf_stats :=
  Pf (pf_total c) (pf_present c) (pf_not_present c) (pf_write c) (pf_user c) (pf_kernel c) (pf_reserved c)
    (pf_prot c +w 1) (pf_null c) (pf_kernel_addr c) (pf_out_of_range c).
Definition count_null (c : pf_stats) : pf_stats :=
  Pf (pf_total c) (pf_present c) (pf_not_present c) (pf_write c) (pf_user c) (pf_kernel c) (pf_reserved c)
    (pf_prot c) (pf_null c +w 1) (pf_kernel_addr c) (pf_out_of_range c).
Definition count_kernel_addr (c : pf_stats) : pf_stats :=
  Pf (pf_total c) (pf_present c) (pf_not_present c) (pf_write c) (pf_user c) (pf_kernel c) (pf_reserved c)
    (pf_prot c) (pf_null c) (pf_kernel_addr c +w 1) (pf_out_of_range c).
Definition count_out_of_range (c : pf_stats) : pf_stats :=
  Pf (pf_total c) (pf_present c) (pf_not_present c) (pf_write c) (pf_user c) (pf_kernel c) (pf_reserved c)
    (pf_prot c) (pf_null c) (pf_kernel_addr c) (pf_out_of_range c +w 1).

Definition on_pf (f : pf_stats -> pf_stats) w : pa * vmem := (w.1, with_pf w.2 (f (pf w.2))).

(** [cr2] is the faulting address, [err] the error code of the exception. *)
Definition do_page_fault (cr2 err : Z) w : run (fault_result * (pa * vmem)) :=
  let is_present := has err 1 in
  let is_write := has err 2 in
  let is_user := has err 4 in
  let is_reserved := has err 8 in
  let is_instr_fetch := has err 16 in
  let page_base := Z.land cr2 (not32 4095) in
  let w1 := on_pf (count_pf is_present is_write is_user is_reserved) w in
  if is_reserved then Panics else
  let mm := cur_mm w1.2 in
  let user_access := is_user || (bool_decide (is_Some mm) && (cr2 <? TASK_SIZE)) in
  if is_present then
    if negb user_access then Panics else
    let? (hm, w2) := handle_mm_fault mm page_base true is_write is_instr_fetch w1 in
    if 0 <? hm then Ret (Resumes, w2)
    else if hm <? 0 then Panics
    else Ret (Killed, on_pf count_prot w2)
  else if cr2 <? PAGE_SIZE then
    if user_access then Ret (Killed, on_pf count_null w1) else Panics
  else if user_access && (TASK_SIZE <=? cr2) then Ret (Killed, on_pf count_kernel_addr w1)
  else if user_access && negb (current_allows w1.2 page_base is_write is_instr_fetch)
  then Ret (Killed, on_pf count_out_of_range w1)
  else if user_access then
    let? (hm, w2) := handle_mm_fault mm page_base false is_write is_instr_fetch w1 in
    if 0 <? hm then Ret (Resumes, w2)
    else if hm <? 0 then Panics
    else Ret (Killed, on_pf count_out_of_range w2)
  else
    let? (phys, w2) := alloc_page w1 in
    match phys with
    | None => Panics
    | Some phys =>
        let? w3 := map_page_ex (page_directory w2.2) phys page_base (Z.lor PTE_PRESENT PTE_READ_WRITE) w2 in
        let? w4 := vwrite_page page_base zero_page w3 in
        Ret (Resumes, w4)
    end.
End code.

(** ** Allocating a frame *)

Section proofs.
Context {M Y : Type} `{!KAlloc M, !KAllocSpec M, !FileReclaim Y, !FileReclaimOk Y}.
Variable lowmem_end : Z.
Notation vmem := (vmem M Y).
Notation LE := (memlayout_lowmem_phys_end lowmem_end).
Notation vm_ok := (vm_ok lowmem_end).
Notation tabs_ok := (tabs_ok lowmem_end).
Notation frames_ok := (frames_ok lowmem_end).
Implicit Types (s : pa) (x : vmem) (w : pa * vmem) (A : entries) (k : Z * Z).
Hypothesis Hlow : 0 < lowmem_end <= LOWMEM_MAX.

(** The entries are determined by the memory. *)
Lemma entries_unique s s' x A A' : vm_ok s x A -> vm_ok s' x A' -> A = A'.
Proof.
  intros [[_ _ _ _ _ E1 K1] _ _ _ _ _] [[_ _ _ _ _ E2 K2] _ _ _ _ _]. apply map_eq. intros [mm va].
  destruct (A !! (mm, va)) as [p|] eqn:E.
  - destruct (K1 mm va p E) as (Hn & Hva & sp & Hsp). pose proof (E1 mm sp va Hsp Hva) as H1.
    pose proof (E2 mm sp va Hsp Hva) as H2. rewrite E in H1. cbn in H1. rewrite H1 in H2.
    destruct (A' !! (mm, va)) as [p'|]; cbn in H2; [by subst|done].
  - destruct (A' !! (mm, va)) as [p|] eqn:E'; [|done]. destruct (K2 mm va p E') as (Hn & Hva & sp & Hsp).
    pose proof (E1 mm sp va Hsp Hva) as H1. pose proof (E2 mm sp va Hsp Hva) as H2. rewrite E in H1. rewrite E' in H2.
    cbn in H1, H2. congruence.
Qed.

(** A frame just allocated. *)
Definition fresh s x A (f : Z) : Prop :=
  in_flight s x A f /\ ref s f = 1 /\ rmaps (znth (pages s) (f / 4096)) = [].

Lemma alloc_page_post s x A :
  vm_ok s x A ->
  exists r s' x' A', alloc_page lowmem_end (s, x) = Ret (r, (s', x')) /\ vm_ok s' x' A' /\ evolves s x A s' x' A' /\
    same_tables x x' /\
    match r with
    | None => True
    | Some f => fresh s' x' A' f /\ forall g, in_flight s x A g -> g <> f
    end.
Proof.
  intros HV. pose proof HV as [V1 V2 V3 V4 V5 V6].
  pose proof (@alloc_pages_post vmem (kernel_reclaim lowmem_end) (reclaimers_ok lowmem_end Hlow s x A) GFP_KERNEL 0 (s, x)) as HP.
  pose proof (@reclaim_keeps vmem (kernel_reclaim lowmem_end) (reclaimers_ok lowmem_end Hlow s x A)) as HK.
  assert (Hw : @wok vmem (kernel_reclaim lowmem_end) (reclaimers_ok lowmem_end Hlow s x A) (s, x)).
  { split; [apply (fr_pa _ _ _ _ V2)|]. exists A. split_and!; [done|by apply (evolves_refl lowmem_end)|by left]. }
  specialize (HP Hw (fr_ready _ _ _ _ V2) ltac:(lia)). unfold alloc_page.
  destruct (alloc_pages GFP_KERNEL 0 (s, x)) as [r [s' x']]. destruct HP as [[Hok' (A' & HV' & Hev' & Htb)] HP].
  cbn [fst snd] in *. rewrite (vo_running _ _ _ _ HV'). exists r, s', x', A'. split_and!; try done.
  destruct r as [f|]; [|done]. destruct HP as (p & [s1 x1] & t & -> & Hrtc & _ & _ & Hg & Hst & Ex & _).
  cbn [fst snd] in *. subst x1. destruct (HK (s, x) (s1, x') Hw Hrtc) as [[Hok1 (A1 & HV1 & Hev1 & _)] _].
  cbn [fst snd] in *. pose proof (entries_unique _ _ _ _ _ HV1 HV') as ->.
  destruct (gr_block _ _ _ _ _ Hg) as (_ & Hp0 & _ & Hpe & _).
  pose proof (gr_was_free _ _ _ _ _ Hg p ltac:(by apply in_block_0)) as Hfree.
  pose proof (free_page_zone s1 p (ok_zones _ Hok1) (ok_buddy _ Hok1) Hfree) as Hp.
  pose proof (total_of_static _ _ (ev_static _ _ _ _ _ _ Hev1)) as Ht1. pose proof (total_of_static _ _ Hst) as Ht.
  assert (Hdiv : p * 4096 / 4096 = p) by (by rewrite Z.div_mul by lia).
  destruct HV1 as [W1 W2 W3 W4 W5 W6].
  assert (Hnot : forall f, frame_used s1 f -> f <> p * 4096).
  { intros f (_ & _ & _ & U4) ->. rewrite Hdiv in U4. done. }
  assert (Hnm : forall k q, A' !! k = Some q -> ~ maps_to (p * 4096) q).
  { intros k q E [Hpr Hf]. destruct (fr_map _ _ _ _ W2 k q E Hpr) as (_ & [Hu _] & _). by apply (Hnot _ Hu). }
  split.
  - unfold fresh, in_flight, frame_ours. split_and!.
    + unfold frame_used. rewrite Hdiv. split_and!; [lia|by exists p|lia|]. rewrite (gr_free _ _ _ _ _ Hg), in_block_0. tauto.
    + rewrite Hdiv. intros Hff. destruct (fr_files _ _ _ _ W2 p Hff) as [_ ?]. done.
    + by apply count_if_none.
    + intros Hpt. destruct (fr_pt _ _ _ _ W2 _ Hpt) as [[Hu _] _]. by apply (Hnot _ Hu).
    + unfold ref. rewrite Hdiv. apply (gr_refs _ _ _ _ _ Hg). by apply in_block_0.
    + rewrite Hdiv. assert (Hr : rmaps (znth (pages s') p) = rmaps (znth (pages s1) p)) by (apply rmaps_of, (gr_maps _ _ _ _ _ Hg); lia).
      rewrite Hr. destruct (rmaps (znth (pages s1) p)) as [|k l] eqn:El; [done|].
      destruct (ro_map _ _ _ W4 p k ltac:(lia)) as (q & E & Hq); [rewrite El; by left|]. by destruct (Hnm k q E).
  - intros g Hgf ->. destruct (ev_flight _ _ _ _ _ _ Hev1 _ Hgf) as ([[Hu _] _] & _). by apply (Hnot _ Hu).
Qed.

(** ** A new page table *)

(** The memory after the first half of [map_page_ex] for a user mapping. *)
Definition with_table (r : memory) (pgd va t : Z) : memory :=
  set_pde_user (wr (<[t := zero_page]> r) (virt_to_phys_addr pgd) (pgd_index va)
                  (Z.lor (Z.lor t PTE_READ_WRITE) PTE_PRESENT)) pgd va.

Lemma with_table_post r D pgd va t :
  dirs_ok lowmem_end r D -> pgd ∈ D -> 0 <= va < TASK_SIZE -> pgd_present (pgd_entry r pgd va) = false ->
  ~ is_pt r D t -> 0 < t < LE -> (4096 | t) ->
  let r' := with_table r pgd va t in
  dirs_ok lowmem_end r' D /\ (forall p, is_pt r' D p <-> is_pt r D p \/ p = t) /\
  (forall p, ~ is_pt r D p -> p <> t -> frame r' p = frame r p) /\
  (forall pgd' va', pgd' ∈ D -> is_u32 va' -> pte_of r' pgd' va' = pte_of r pgd' va') /\
  (forall pgd' i, pgd' ∈ D -> 0 <= i < 1024 -> rd r' (virt_to_phys_addr pgd') i =
     if decide (pgd' = pgd /\ i = pgd_index va) then Z.lor t 7 else rd r (virt_to_phys_addr pgd') i).
Proof.
  intros Hd Hp Hv E Hn Ht Ha r'. pose proof (user_u32 va Hv) as Hv'. unfold r', with_table.
  rewrite <- Z.lor_assoc. change (Z.lor PTE_READ_WRITE PTE_PRESENT) with 3.
  destruct (new_table_post _ Hlow r D pgd va t 3 Hd Hp Hv E Hn Ht Ha ltac:(lia) eq_refl) as (N1 & N2 & N3 & N4 & N5).
  set (r1 := wr _ _ _ _) in *. pose proof (pgd_index_range va Hv') as Hi.
  assert (E1 : pgd_entry r1 pgd va = Z.lor t 3) by (rewrite pgd_entry_rd, N5 by done; by rewrite decide_True).
  assert (Hpr : pgd_present (pgd_entry r1 pgd va) = true).
  { rewrite E1. unfold pgd_present. change PTE_PRESENT with (2 ^ 0). rewrite has_lor by lia. apply orb_true_r. }
  destruct (set_pde_user_ok _ Hlow r1 D pgd va N1 Hp Hv' Hpr) as (S1 & S2 & S3 & S4 & _ & _ & S7). split_and!.
  - done.
  - intros p. by rewrite S2.
  - intros p Hnp Hne. rewrite S3 by (rewrite N2; tauto). by apply N3.
  - intros pgd' va' Hp' Hv2. rewrite S4 by done. by apply N4.
  - intros pgd' i Hp' Hi'. rewrite S7, N5 by done. case_decide; [|done]. rewrite <- Z.lor_assoc. done.
Qed.

Lemma vm_ok_with_table s x A mm sp va t :
  vm_ok s x A -> fresh s x A t -> mms x !! mm = Some sp -> user_page va ->
  pgd_present (pgd_entry (ram x) (mm_pgd sp) va) = false ->
  let x' := with_ram x (with_table (ram x) (mm_pgd sp) va t) in
  vm_ok s x' A /\
  (forall k, user_mem x' A k = user_mem x A k) /\
  (forall p, is_pt (ram x') (dirs x) p <-> is_pt (ram x) (dirs x) p \/ p = t) /\
  (forall p, ~ is_pt (ram x) (dirs x) p -> p <> t -> frame (ram x') p = frame (ram x) p) /\
  (forall pgd i, pgd ∈ dirs x -> 0 <= i < 1024 -> pgd_present (rd (ram x) (virt_to_phys_addr pgd) i) = true ->
     rd (ram x') (virt_to_phys_addr pgd) i = rd (ram x) (virt_to_phys_addr pgd) i) /\
  pgd_present (pgd_entry (ram x') (mm_pgd sp) va) = true.
Proof.
  intros HV (((Hu & Hff) & Hz & Hnpt) & Href & Hrm) Hmm Hva E x'. pose proof HV as [V1 V2 V3 V4 V5 V6].
  pose proof (frame_low _ _ _ _ _ V2 Hu) as [Ht _]. pose proof (mm_dir _ _ _ Hmm) as Hd.
  destruct (with_table_post (ram x) (dirs x) (mm_pgd sp) va t (to_dirs _ _ _ V1) Hd (proj1 Hva) E Hnpt Ht) as (N1 & N2 & N3 & N4 & N5).
  { apply Hu. }
  pose proof (user_page_u32 _ Hva) as Hv'. pose proof (pgd_index_range va Hv') as Hi.
  assert (Hkey : forall mm' sp' i, mms x !! mm' = Some sp' -> 0 <= i < 1024 ->
    rd (ram x') (virt_to_phys_addr (mm_pgd sp')) i =
      if decide (mm_pgd sp' = mm_pgd sp /\ i = pgd_index va) then Z.lor t 7 else rd (ram x) (virt_to_phys_addr (mm_pgd sp')) i).
  { intros mm' sp' i Hm Hir. apply N5; [by eapply mm_dir|done]. }
  assert (Hpe : pgd_present (pgd_entry (ram x') (mm_pgd sp) va) = true).
  { rewrite pgd_entry_rd, (Hkey mm) by done. rewrite decide_True by done. unfold pgd_present.
    change PTE_PRESENT with (2 ^ 0). rewrite has_lor by lia. apply orb_true_r. }
  split_and!; try done.
  - split; try done.
    + destruct V1 as [T1 T2 T3 T4 Tp T5 T6]. split; try done.
      * intros i Hi0. cbn [kernel_directory x' with_ram ram]. rewrite N5 by (lia || by apply elem_of_union_l, elem_of_singleton). rewrite decide_False; [by apply T4|].
        intros [Ek _]. by destruct (T3 mm sp Hmm).
      * intros mm' sp' i Hm Hi0. cbv zeta. rewrite (Hkey mm') by (done || lia). case_decide as F; [|by apply (Tp mm')].
        intros _. split; [change PTE_USER with (2 ^ 2)|change PTE_READ_WRITE with (2 ^ 1)]; rewrite has_lor by lia; apply orb_true_r.
      * intros mm' sp' va' Hm Hva'. cbn [x' with_ram ram]. rewrite N4 by (by apply (mm_dir _ mm') || by apply user_page_u32).
        by apply T5.
    + destruct V2 as [F1 F2 F3 FF F4 F5]. split; try done.
      * intros p [Hp| ->]%N2; [by apply F4|]. by rewrite Href.
      * intros k p Ek Hp. destruct (F5 k p Ek Hp) as (G1 & G2 & G3 & G4). split_and!; try done; try apply G4.
        intros [Hq|Hq]%N2; [done|]. pose proof (nmaps_pos A k p Ek Hp). rewrite Hq in *. lia.
    + destruct V3 as [S1 S2 S3 S4 S5 S6]. by split.
    + destruct V4 as [R1 R2]. by split.
    + destruct V5 as [H1 H2]. by split.
  - intros k. unfold user_mem. destruct (A !! k) as [p|] eqn:Ek; [|done]. cbn [mbind option_bind].
    apply (entry_data_same x x' A k p Ek); [|done]. intros Hp. apply N3.
    + by apply (fr_map _ _ _ _ V2 k p).
    + intros Hq. pose proof (nmaps_pos A k p Ek Hp). rewrite Hq in *. lia.
  - intros pgd i Hp Hir Hpr. cbn [x' with_ram ram]. rewrite N5 by done. rewrite decide_False; [done|].
    intros [-> ->]. unfold pgd_entry in E. congruence.
Qed.

Lemma evolves_with_table s x A s1 x1 A1 t x2 :
  evolves s x A s1 x1 A1 -> (forall g, in_flight s x A g -> g <> t) ->
  (forall k, user_mem x2 A1 k = user_mem x1 A1 k) ->
  (forall p, is_pt (ram x2) (dirs x1) p <-> is_pt (ram x1) (dirs x1) p \/ p = t) ->
  (forall p, ~ is_pt (ram x1) (dirs x1) p -> p <> t -> frame (ram x2) p = frame (ram x1) p) ->
  (forall pgd i, pgd ∈ dirs x1 -> 0 <= i < 1024 -> pgd_present (rd (ram x1) (virt_to_phys_addr pgd) i) = true ->
     rd (ram x2) (virt_to_phys_addr pgd) i = rd (ram x1) (virt_to_phys_addr pgd) i) ->
  x2 = with_ram x1 (ram x2) -> evolves s x A s1 x2 A1.
Proof.
  intros [E1 E2 E3 E4 E5 E6 E7 E9 E10 E11 E12 E15] Ho Hm Hpt Hdata Hpde Ex.
  assert (Hd : dirs x1 = dirs x) by (unfold dirs; congruence).
  assert (Hd2 : dirs x2 = dirs x1) by (by rewrite Ex).
  split; try (rewrite Ex; done); try done.
  - intros p Hp. rewrite Hd2, Hpt. left. by apply E6.
  - intros pgd i Hp Hi Hpr. pose proof (E7 pgd i Hp Hi Hpr) as Hl. rewrite Hpde; [done|by rewrite Hd|done|].
    destruct Hl as [->| ->]; [done|]. unfold pgd_present in *. change PTE_PRESENT with (2 ^ 0) in *. by rewrite has_lor, Hpr by lia.
  - intros k. by rewrite Hm.
  - intros f Hf. destruct (E11 f Hf) as ((G1 & G2 & G3) & G4 & G5 & G6). pose proof (Ho f Hf) as Hne.
    split_and!; try done; [|by rewrite Hdata]. unfold in_flight. rewrite Hd2, Hpt. split_and!; [|done|tauto].
    unfold frame_ours in *. by rewrite Ex.
Qed.

(** [map_page_ex] on a page of an address space: with memory for the table, if
    one is needed, exactly this entry changes. *)
Lemma map_page_post s x A mm sp va f fl :
  vm_ok s x A -> mms x !! mm = Some sp -> user_page va -> (4096 | f) -> 0 < f < LE ->
  0 <= fl < 4096 -> has fl PTE_USER = true ->
  exists s1 x1 A1, vm_ok s1 x1 A1 /\ evolves s x A s1 x1 A1 /\
    (pte_of (ram x) (mm_pgd sp) va <> 0 -> s1 = s /\ x1 = x /\ A1 = A) /\
    ((map_page_ex lowmem_end (mm_pgd sp) f va fl (s, x) = Ret (s1, x1) /\ A1 !! (mm, va) = None /\
        pgd_present (pgd_entry (ram x) (mm_pgd sp) va) = false) \/
     exists r, map_page_ex lowmem_end (mm_pgd sp) f va fl (s, x) = Ret (s1, with_ram x1 r) /\
       entry_set lowmem_end (dirs x1) (mm_pgd sp) va (Z.lor f fl) (ram x1) r).
Proof.
  intros HV Hmm Hva Hal Hfr Hfl Hus. pose proof HV as [V1 V2 V3 V4 V5 V6]. pose proof (to_dirs _ _ _ V1) as Hd.
  pose proof (mm_dir _ _ _ Hmm) as Hdir. pose proof (user_page_u32 _ Hva) as Hv'. destruct (low_phys_end _ Hlow) as [HLE _].
  destruct (walk_dir _ Hlow _ _ _ _ Hd Hdir Hv') as (H0 & Hwt & Hwf).
  unfold map_page_ex. rewrite H0. cbn [fst snd].
  assert (Hfin : forall r D, dirs_ok lowmem_end r D -> mm_pgd sp ∈ D -> pgd_present (pgd_entry r (mm_pgd sp) va) = true ->
    table_of lowmem_end (pgd_entry r (mm_pgd sp) va) = Ret (pte_pfn (pgd_entry r (mm_pgd sp) va)) /\
    entry_set lowmem_end D (mm_pgd sp) va (Z.lor f fl) r
      (wr r (pte_pfn (pgd_entry r (mm_pgd sp) va)) (pte_index va) (Z.lor f fl))).
  { intros r D HdD HinD Hpr. destruct (walk_dir _ Hlow _ _ _ _ HdD HinD Hv') as (_ & Hwt1 & _).
    destruct (Hwt1 Hpr) as [Et _]. split; [done|]. apply write_entry; try done; [apply Hva|].
    apply entry_u32; try done. unfold LOWMEM_MAX in *. lia. }
  destruct (pgd_present (pgd_entry (ram x) (mm_pgd sp) va)) eqn:Ep; cbn [negb].
  - destruct (set_pde_user_ok _ Hlow _ _ _ _ Hd Hdir Hv' Ep) as (S1 & _ & _ & _ & S5 & _).
    destruct (Hfin _ _ S1 Hdir S5) as [Et Hes]. exists s, x, A. split_and!; try done; [by apply (evolves_refl lowmem_end)|].
    right. eexists. rewrite Hus. cbn [rbind put_ram fst snd with_ram ram]. rewrite Et. cbn [rbind]. split; [done|].
    eapply entry_set_trans; [by apply pde_user_entry_set|done].
  - destruct (alloc_page_post s x A HV) as (t & s1 & x1 & A1 & Ea & HV1 & Hev & Htb & Ht). rewrite Ea. cbn [rbind].
    assert (Hm1 : mms x1 !! mm = Some sp) by (by rewrite (ev_mms _ _ _ _ _ _ Hev)).
    assert (Ep1 : pgd_present (pgd_entry (ram x1) (mm_pgd sp) va) = false).
    { destruct (pde_like_same _ _ (Htb (mm_pgd sp) (pgd_index va) Hdir (pgd_index_range va Hv'))) as (_ & E & _).
      - apply rd_u32, (dk_sized _ _ _ Hd).
      - unfold pgd_entry in *. congruence. }
    assert (HA1 : A1 !! (mm, va) = None).
    { pose proof (to_entry _ _ _ (vo_tabs _ _ _ _ HV1) mm sp va Hm1 Hva) as E. unfold pte_of in E. rewrite Ep1 in E.
      destruct (A1 !! (mm, va)) as [p|] eqn:E'; [|done]. cbn in E. subst p.
      by destruct (to_key _ _ _ (vo_tabs _ _ _ _ HV1) mm va 0 E'). }
    destruct t as [t|]; cbn [rbind fst snd].
    + destruct Ht as [Hfresh Hother]. pose proof Hfresh as (((Hu & Hff) & Hz & Hnpt) & Href & Hrm).
      pose proof (frame_low _ _ _ _ _ (vo_frames _ _ _ _ HV1) Hu) as [Htr _].
      rewrite (directmap_low lowmem_end t) by lia. cbn [rbind]. rewrite (phys_virt _ Hlow) by lia. rewrite Hus.
      change (set_pde_user _ (mm_pgd sp) va) with (with_table (ram x1) (mm_pgd sp) va t).
      destruct (vm_ok_with_table s1 x1 A1 mm sp va t HV1 Hfresh Hm1 Hva Ep1) as (HV2 & Hmem & Hpt2 & Hdata & Hpde & Hpr).
      set (x2 := with_ram x1 (with_table (ram x1) (mm_pgd sp) va t)) in *.
      destruct (Hfin (ram x2) (dirs x2)) as [Et Hes]; [apply (to_dirs _ _ _ (vo_tabs _ _ _ _ HV2))|by apply (mm_dir _ mm)|done|].
      exists s1, x2, A1. split_and!; [done| |by rewrite (Hwf eq_refl)|].
      * by apply (evolves_with_table s x A s1 x1 A1 t x2).
      * right. eexists. cbn [put_ram fst snd]. fold x2. rewrite Et. cbn [rbind]. split; [done|exact Hes].
    + exists s1, x1, A1. split_and!; try done; [by rewrite (Hwf eq_refl)|]. by left.
Qed.

(** ** Steps on a valid state *)

(** The memory of the programs but for one page. *)
Definition page_becomes x A k (d : option (list Z)) x' A' : Prop :=
  user_mem x' A' k = d /\ forall k', k' <> k -> user_mem x' A' k' = user_mem x A k'.

(** What a mapping counts for. *)
Definition counts (f p : Z) : Z := if decide (maps_to f p) then 1 else 0.

Lemma nmaps_entry A k v f :
  nmaps (upd_entry A k v) f = nmaps A f - counts f (default 0 (A !! k)) + counts f v.
Proof. apply nmaps_upd. Qed.

Lemma counts_here f p : maps_to f p -> counts f p = 1.
Proof. intros H. unfold counts. by rewrite decide_True. Qed.

Lemma counts_other f p : ~ maps_to f p -> counts f p = 0.
Proof. intros H. unfold counts. by rewrite decide_False. Qed.

Lemma counts_range f p : 0 <= counts f p <= 1.
Proof. unfold counts. case_decide; lia. Qed.

(** The invariant without the reverse mappings. *)
Record vm_core s x A : Prop := VmCore {
  vc_tabs : tabs_ok x A;
  vc_frames : frames_ok s x A;
  vc_slots : slots_ok s x A;
  vc_share : share_ok x A;
  vc_running : panicked x = false;
}.

Lemma vm_ok_core_of s x A : vm_ok s x A -> vm_core s x A.
Proof. intros [V1 V2 V3 V4 V5 V6]. by split. Qed.

(** A frame in flight is mapped in the place of what was there. *)
Lemma vm_core_map s x A mm sp va f fl r :
  vm_core s x A -> mms x !! mm = Some sp -> user_page va -> in_flight s x A f -> 1 <= ref s f < 65536 ->
  0 <= fl < 4096 -> has fl PTE_PRESENT = true -> has fl PTE_USER = true ->
  entry_set lowmem_end (dirs x) (mm_pgd sp) va (Z.lor f fl) (ram x) r ->
  let v := Z.lor f fl in
  let A' := upd_entry A (mm, va) v in
  vm_core s (with_ram x r) A' /\ page_becomes x A (mm, va) (Some (frame (ram x) f)) (with_ram x r) A' /\
  A' !! (mm, va) = Some v /\ maps_to f v /\ nmaps A' f = 1 /\
  (forall g, g <> f -> nmaps A' g = nmaps A g - counts g (default 0 (A !! (mm, va)))).
Proof.
  intros HV Hmm Hva ((Hu & Hff) & Hz & Hnpt) Href Hfl Hpr Hus Hes v A'. pose proof HV as [V1 V2 V3 V5 V6].
  pose proof (frame_low _ _ _ _ _ V2 Hu) as [Hlo Hq]. destruct (low_phys_end _ Hlow) as [HLE _]. unfold LOWMEM_MAX in HLE.
  assert (Hal : (4096 | f)) by apply Hu.
  assert (E1 : pte_pfn v = f) by (apply entry_pfn; done || lia).
  assert (E2 : pte_present v = true).
  { unfold pte_present. change PTE_PRESENT with (2 ^ 0) in *. unfold v. by rewrite entry_has by (done || lia). }
  assert (E3 : pte_user v = true).
  { unfold pte_user. change PTE_USER with (2 ^ 2) in *. unfold v. by rewrite entry_has by (done || lia). }
  assert (Hv0 : v <> 0) by (by apply not_present_zero).
  assert (HA : A' !! (mm, va) = Some v).
  { unfold A', upd_entry. destruct (Z.eqb_spec v 0); [done|]. by rewrite lookup_insert_eq. }
  assert (Hne : forall k p, A !! k = Some p -> pte_present p = true -> pte_pfn p <> f).
  { intros k p Ek Hp <-. pose proof (nmaps_pos A k p Ek Hp). lia. }
  assert (Hold : ~ maps_to f (default 0 (A !! (mm, va)))).
  { intros [Hp Hf]. destruct (A !! (mm, va)) as [p|] eqn:E; [by apply (Hne _ _ E)|done]. }
  assert (Hn : nmaps A' f = 1).
  { unfold A'. rewrite nmaps_entry, (counts_other _ _ Hold), counts_here by done. lia. }
  assert (Hn' : forall g, g <> f -> nmaps A' g = nmaps A g - counts g (default 0 (A !! (mm, va)))).
  { intros g Hg. unfold A'. rewrite nmaps_entry, (counts_other g v); [lia|]. intros [_ ?]. congruence. }
  assert (Hle : forall k p, A !! k = Some p -> pte_present p = true -> nmaps A' (pte_pfn p) <= nmaps A (pte_pfn p)).
  { intros k p Ek Hp. rewrite Hn' by (by apply (Hne k p)). pose proof (counts_range (pte_pfn p) (default 0 (A !! (mm, va)))). lia. }
  assert (Hpt : forall p, is_pt (ram (with_ram x r)) (dirs (with_ram x r)) p <-> is_pt (ram x) (dirs x) p).
  { intros p. apply (es_pt _ _ _ _ _ _ _ Hes). }
  split_and!; try done.
  - split; try done.
    + by apply (tabs_entry_set lowmem_end Hlow x A mm sp va v r).
    + pose proof V2 as [F1 F2 F3 FF F4 F5]. split; try done.
      * intros p. rewrite Hpt. apply F4.
      * intros k p [(-> & -> & _)|[Hk Ek]]%upd_entry_some Hp.
        -- rewrite Hpt, E1, Hn. split_and!; try done; try lia.
        -- destruct (F5 k p Ek Hp) as (G1 & G2 & G3 & G4). rewrite Hpt. pose proof (Hle k p Ek Hp). split_and!; try done; lia.
    + destruct V3 as [S1 S2 S3 S4 S5 S6]. split; try done.
      * intros k p [(-> & -> & _)|[Hk Ek]]%upd_entry_some Hp; [congruence|by apply (S2 k)].
      * intros k k' p p' i H1 H2 D1 D2.
        assert (Hx : forall k p, A' !! k = Some p -> swap_pte_decode p = Some i -> A !! k = Some p).
        { intros k0 p0 [(-> & -> & _)|[Hk Ek]]%upd_entry_some Hd; [|done]. unfold swap_pte_decode in Hd. by rewrite E2 in Hd. }
        by apply (S3 k k' p p' i); [apply Hx|apply Hx|..].
    + destruct V5 as [H1 H2]. split.
      * intros k p [(-> & -> & _)|[Hk Ek]]%upd_entry_some Hp Hw; [rewrite E1; lia|].
        pose proof (Hle k p Ek Hp). pose proof (H1 k p Ek Hp Hw). lia.
      * intros k p sp' [(-> & -> & _)|[Hk Ek]]%upd_entry_some Hp Hw Hc Hsp Hal'; [rewrite E1; lia|].
        pose proof (Hle k p Ek Hp). pose proof (H2 k p sp' Ek Hp Hw Hc Hsp Hal'). lia.
  - split.
    + unfold user_mem. rewrite HA. cbn [mbind option_bind]. unfold entry_data. rewrite E2, E1. f_equal.
      by apply (es_data _ _ _ _ _ _ _ Hes).
    + intros k Hk. unfold user_mem, A'. rewrite upd_entry_other by done. destruct (A !! k) as [p|] eqn:Ek; [|done].
      cbn [mbind option_bind]. apply (entry_data_same x _ A k p Ek); [|done]. intros Hp.
      apply (es_data _ _ _ _ _ _ _ Hes). by apply (fr_map _ _ _ _ V2 k p).
Qed.

(** Nothing was mapped there: the reverse mappings stay correct. *)
Lemma rmaps_map s x A k v r :
  rmaps_ok s x A -> pte_present (default 0 (A !! k)) = false -> rmaps_ok s (with_ram x r) (upd_entry A k v).
Proof.
  intros [R1 R2] Hold. split; [done|]. intros q k' Hq Hk. destruct (R2 q k' Hq Hk) as (p & Ek & Hp).
  exists p. split; [|done]. rewrite upd_entry_other; [done|]. intros ->. rewrite Ek in Hold. cbn in Hold.
  destruct Hp. congruence.
Qed.

(** The reverse mappings of one frame change. *)
Lemma vm_ok_remap s x A f s' h' :
  vm_core s x A -> remapped (f / 4096) s s' -> rmap_inv s' h' -> same_foreign s (vheap x) s' h' ->
  (forall q k, 0 <= q < total_pages s -> k ∈ rmaps (znth (pages s') q) -> exists p, A !! k = Some p /\ maps_to (q * 4096) p) ->
  vm_ok s' (with_vheap x h') A /\ (forall k, user_mem (with_vheap x h') A k = user_mem x A k).
Proof.
  intros [V1 V2 V3 V5 V6] [M1 M2 M3 M4 M5] Hi Hf Hk. pose proof (total_of_static _ _ M2) as Ht. split; [|done].
  assert (Hu : forall g, frame_used s' g <-> frame_used s g) by (intros g; unfold frame_used; by rewrite Ht, M3).
  assert (Hr : forall g, frame_used s g -> ref s' g = ref s g).
  { intros g (U1 & U2 & U3 & U4). apply M4. split; [apply Z.div_pos; lia|done]. }
  split; try done.
  - by apply (tabs_other _ x).
  - destruct V2 as [F1 F2 F3 FF F4 F5]. split; try done.
    + unfold pa_static in M2. congruence.
    + by rewrite Ht.
    + intros q. rewrite Ht, M3. apply FF.
    + intros p Hp. destruct (F4 p Hp) as [[U U'] R]. unfold frame_ours. by rewrite Hu, Hr.
    + intros k p E Hp. destruct (F5 k p E Hp) as (G1 & [G2 G4] & G3 & G5). unfold frame_ours. by rewrite Hu, Hr.
  - destruct V3 as [S1 S2 S3 S4 S5 S6]. split; try done. cbn [with_vheap vheap swap_slots]. intros i b Hi0 Hb.
    destruct (S4 i b Hi0 Hb) as (B1 & B2 & B3). destruct (Hf b.1) as [_ G]. by destruct (G (conj B1 B2)).
  - split; [done|]. intros q k. rewrite Ht. apply Hk.
  - destruct V5 as [H1 H2]. by split.
Qed.

(** Only the reverse mappings of one frame changed. *)
Record only_rmap (f : Z) s x s' x' : Prop := OnlyRmap {
  or_remapped : remapped (f / 4096) s s';
  or_rest : x' = with_vheap x (vheap x');
  or_foreign : same_foreign s (vheap x) s' (vheap x');
}.

Lemma frame_mul f : (4096 | f) -> f / 4096 * 4096 = f.
Proof. intros [q ->]. by rewrite Z.div_mul by lia. Qed.

Lemma mapcount_rmaps s h q : rmap_inv s h -> 0 <= q < total_pages s -> mapcount (znth (pages s) q) = zlen (rmaps (znth (pages s) q)).
Proof. intros Hi Hq. by destruct (ri_pages _ _ Hi q Hq) as (E & _). Qed.

(** Recording a mapping that is there. *)
Lemma vm_ok_add_rmap s x A mm va p f :
  vm_ok s x A -> A !! (mm, va) = Some p -> maps_to f p -> zlen (rmaps (znth (pages s) (f / 4096))) < 65535 ->
  let w := on_rmap (page_add_anon_rmap mm va f) (s, x) in
  vm_ok w.1 w.2 A /\ (forall k, user_mem w.2 A k = user_mem x A k) /\ only_rmap f s x w.1 w.2.
Proof.
  intros HV E [Hp Hf] Hc. pose proof HV as [V1 V2 V3 V4 V5 V6]. destruct (fr_map _ _ _ _ V2 _ _ E Hp) as (_ & [Hu _] & _).
  rewrite Hf in Hu. pose proof (frame_low _ _ _ _ _ V2 Hu) as [_ Hq].
  unfold on_rmap. cbn [fst snd]. pose proof (page_add_post mm va f s (vheap x)) as HP.
  destruct (page_add_anon_rmap mm va f (s, vheap x)) as [s' h'].
  rewrite <- (mapcount_rmaps _ _ _ (ro_inv _ _ _ V4)) in Hc by lia.
  destruct (HP (fr_pa _ _ _ _ V2) (ro_inv _ _ _ V4) ltac:(lia) (proj2 (proj2 (proj2 Hu))) Hc) as (G1 & G2 & G3 & G4). clear HP.
  cbn [fst snd]. pose proof (frame_mul f (proj1 (proj2 Hu))) as Hdiv.
  assert (Hkey : forall q k, 0 <= q < total_pages s -> k ∈ rmaps (znth (pages s') q) -> exists p, A !! k = Some p /\ maps_to (q * 4096) p).
  { intros q k Hq0 Hk. destruct (decide (q = f / 4096)) as [->|Hne].
    2:{ rewrite (rmaps_of _ _ (rm_other _ _ _ G1 q Hq0 Hne)) in Hk. by apply (ro_map _ _ _ V4). }
    assert (Hor : k = (mm, va) \/ k ∈ rmaps (znth (pages s) (f / 4096))).
    { destruct G4 as [G4|[G4 _]]; [|rewrite G4 in Hk; by right]. rewrite G4 in Hk. by apply elem_of_cons in Hk. }
    destruct Hor as [->|Hk']; [exists p; by rewrite Hdiv|]. apply (ro_map _ _ _ V4); [lia|done]. }
  destruct (vm_ok_remap s x A f s' h' (vm_ok_core_of _ _ _ HV) G1 G2 G3 Hkey) as [G5 G6].
  split_and!; try done.
Qed.

(** A mapping is replaced by one of a frame in flight, and no longer recorded
    for the old frame. *)
Lemma vm_ok_replace s x A mm sp va p f fl r :
  vm_ok s x A -> A !! (mm, va) = Some p -> pte_present p = true ->
  mms x !! mm = Some sp -> user_page va -> in_flight s x A f -> 1 <= ref s f < 65536 ->
  0 <= fl < 4096 -> has fl PTE_PRESENT = true -> has fl PTE_USER = true ->
  entry_set lowmem_end (dirs x) (mm_pgd sp) va (Z.lor f fl) (ram x) r ->
  let A' := upd_entry A (mm, va) (Z.lor f fl) in
  let w := on_rmap (page_remove_rmap mm va (pte_pfn p)) (s, with_ram x r) in
  vm_ok w.1 w.2 A' /\ page_becomes x A (mm, va) (Some (frame (ram x) f)) w.2 A' /\
  A' !! (mm, va) = Some (Z.lor f fl) /\ maps_to f (Z.lor f fl) /\ nmaps A' f = 1 /\
  nmaps A' (pte_pfn p) < ref s (pte_pfn p) /\ only_rmap (pte_pfn p) s (with_ram x r) w.1 w.2.
Proof.
  intros HV E Hp Hmm Hva Hfl Href Hf Hpr Hus Hes A' w. pose proof HV as [V1 V2 V3 V4 V5 V6].
  destruct (vm_core_map s x A mm sp va f fl r (vm_ok_core_of _ _ _ HV) Hmm Hva Hfl Href Hf Hpr Hus Hes) as (C1 & C2 & C3 & C4 & C5 & C6).
  fold A' in C1, C2, C3, C5, C6.
  destruct (fr_map _ _ _ _ V2 _ _ E Hp) as (_ & [Hu Huf] & Hnpt & Hcnt). pose proof (frame_low _ _ _ _ _ V2 Hu) as [_ Hq].
  assert (Hne : pte_pfn p <> f).
  { intros Hx. pose proof (nmaps_pos A _ p E Hp). destruct Hfl as (_ & Hz & _). rewrite Hx in *. lia. }
  unfold w, on_rmap. cbn [fst snd with_ram vheap]. pose proof (page_remove_post mm va (pte_pfn p) s (vheap x)) as HP.
  destruct (page_remove_rmap mm va (pte_pfn p) (s, vheap x)) as [s' h'].
  destruct (HP (fr_pa _ _ _ _ V2) (ro_inv _ _ _ V4) ltac:(lia)) as (G1 & G2 & G3 & G4). clear HP. cbn [fst snd].
  assert (Hdel : (mm, va) ∉ rmaps (znth (pages s') (pte_pfn p / 4096))).
  { destruct G4 as [G4|[G4 G5]]; [|by rewrite G4]. destruct (ri_pages _ _ (ro_inv _ _ _ V4) (pte_pfn p / 4096) ltac:(lia)) as (_ & Hnd & _).
    rewrite G4 in Hnd. by apply NoDup_cons in Hnd as [? _]. }
  assert (Hkey : forall q k, 0 <= q < total_pages s -> k ∈ rmaps (znth (pages s') q) -> exists p, A' !! k = Some p /\ maps_to (q * 4096) p).
  { intros q k Hq0 Hk. assert (Hin : k ∈ rmaps (znth (pages s) q)).
    { destruct (decide (q = pte_pfn p / 4096)) as [->|Hne'].
      - destruct G4 as [G4|[G4 _]]; [rewrite G4; by right|by rewrite G4 in Hk].
      - by rewrite (rmaps_of _ _ (rm_other _ _ _ G1 q Hq0 Hne')) in Hk. }
    destruct (ro_map _ _ _ V4 q k Hq0 Hin) as (p' & Ek & Hp'). exists p'. split; [|done]. unfold A'.
    rewrite upd_entry_other; [done|]. intros ->. assert (p' = p) as -> by congruence. apply Hdel. destruct Hp' as [_ ->].
    by rewrite Z.div_mul by lia. }
  destruct (vm_ok_remap s (with_ram x r) A' (pte_pfn p) s' h' C1 G1 G2 G3 Hkey) as [G5 G6].
  split_and!; try done. rewrite (C6 _ Hne), E. cbn [default]. unfold id. rewrite counts_here by done. lia.
Qed.

(** A store into a frame that holds no table. *)
Lemma vm_ok_store s x A f data :
  vm_ok s x A -> ~ is_pt (ram x) (dirs x) f -> length data = 1024%nat -> Forall is_u32 data ->
  let x' := with_ram x (<[f := data]> (ram x)) in
  vm_ok s x' A /\ (forall q, is_pt (ram x') (dirs x') q <-> is_pt (ram x) (dirs x) q) /\
  (forall k, (forall p, A !! k = Some p -> ~ maps_to f p) -> user_mem x' A k = user_mem x A k).
Proof.
  intros HV Hnpt Hl Hu x'. pose proof HV as [V1 V2 V3 V4 V5 V6]. pose proof (to_dirs _ _ _ V1) as Hd.
  destruct (write_data _ (ram x) (dirs x) f data Hd Hnpt Hl Hu) as (W1 & W2 & W3).
  assert (Hrd : forall pgd i, pgd ∈ dirs x -> rd (ram x') (virt_to_phys_addr pgd) i = rd (ram x) (virt_to_phys_addr pgd) i).
  { intros pgd i Hpg. unfold rd, x'. cbn [with_ram ram]. rewrite frame_insert, decide_False; [done|].
    intros Hx. apply Hnpt. right. by exists pgd. }
  assert (Hkd : kernel_directory x ∈ dirs x) by (apply elem_of_union_l; by apply elem_of_singleton).
  split_and!; [split; try done|done|].
  - destruct V1 as [T1 T2 T3 T4 Tp T5 T6]. split; try done.
    + intros i Hi. rewrite (Hrd _ _ Hkd). by apply T4.
    + intros mm sp i Hmm Hi. rewrite (Hrd _ _ (mm_dir _ _ _ Hmm)). by apply (Tp mm).
    + intros mm sp va Hmm Hva. rewrite <- (T5 mm sp va Hmm Hva). apply W3; [by apply (mm_dir _ mm)|by apply user_page_u32].
  - destruct V2 as [F1 F2 F3 FF F4 F5]. split; try done.
    + intros q Hq. apply F4. by apply W2.
    + intros k' p' E' Hp'. destruct (F5 k' p' E' Hp') as (G1 & G2 & G3 & G4). split_and!; try done; [|lia..].
      intros Hq. apply G3. by apply W2.
  - destruct V3 as [S1 S2 S3 S4 S5 S6]. by split.
  - destruct V4 as [R1 R2]. by split.
  - destruct V5 as [H1 H2]. by split.
  - intros k Hk. unfold user_mem. destruct (A !! k) as [p'|] eqn:E'; [|done]. cbn [mbind option_bind].
    apply (entry_data_same x x' A k p' E'); [|done]. intros Hp'. unfold x'. cbn [with_ram ram].
    rewrite frame_insert, decide_False; [done|]. intros Hx. by apply (Hk p' eq_refl).
Qed.

(** The program stores into a frame of its own. *)
Lemma vm_ok_write s x A k p f data :
  vm_ok s x A -> A !! k = Some p -> maps_to f p -> nmaps A f = 1 -> length data = 1024%nat -> Forall is_u32 data ->
  let x' := with_ram x (<[f := data]> (ram x)) in
  vm_ok s x' A /\ page_becomes x A k (Some data) x' A /\
  (forall q, is_pt (ram x') (dirs x') q <-> is_pt (ram x) (dirs x) q).
Proof.
  intros HV E [Hp Hf] Hn Hl Hu x'. destruct (fr_map _ _ _ _ (vo_frames _ _ _ _ HV) k p E Hp) as (_ & _ & Hnpt & _). rewrite Hf in Hnpt.
  destruct (vm_ok_store s x A f data HV Hnpt Hl Hu) as (HV' & Hpt & Hmem). split_and!; try done. split.
  - unfold user_mem. rewrite E. cbn [mbind option_bind]. unfold entry_data. rewrite Hp, Hf.
    change (ram x') with (<[f := data]> (ram x)). by rewrite frame_insert, decide_True.
  - intros k' Hk. apply Hmem. intros p' E' Hp'. apply Hk.
    apply (count_if_unique (maps_to f) A k' k p' p); try done. unfold nmaps in Hn. lia.
Qed.

(** An object of the heap in transit. *)
Definition scratch s x (b : Z) : Prop :=
  b ∈ live (vheap x) /\ ~ is_node s b /\
  forall i d, 0 <= i < 64 -> sdata (znth (swap_slots x) i) = Some d -> d.1 <> b.

Lemma vm_ok_kmalloc s x A sz b h :
  vm_ok s x A -> kmalloc sz (vheap x) = (Some b, h) -> vm_ok s (with_vheap x h) A /\ scratch s (with_vheap x h) b.
Proof.
  intros [V1 V2 V3 V4 V5 V6] Hk. destruct (rmap_inv_kmalloc _ _ _ _ _ (ro_inv _ _ _ V4) Hk) as [Hinv Hnn].
  destruct (kmalloc_some _ _ _ _ (ri_heap _ _ (ro_inv _ _ _ V4)) Hk) as (_ & _ & K3 & K4).
  split; [split; try done|].
  - by apply (tabs_other _ x).
  - destruct V2 as [F1 F2 F3 FF F4 F5]. by split.
  - destruct V3 as [S1 S2 S3 S4 S5 S6]. split; try done. cbn [with_vheap vheap swap_slots]. rewrite K4. intros i d Hi Hd.
    destruct (S4 i d Hi Hd) as (B1 & B2 & B3). split_and!; try done; [by apply elem_of_union_r|apply B3..].
  - destruct V4 as [R1 R2]. by split.
  - destruct V5 as [H1 H2]. by split.
  - unfold scratch. cbn [with_vheap vheap swap_slots]. rewrite K4. split_and!; [by apply elem_of_union_l, elem_of_singleton|done|].
    intros i d Hi Hd <-. by apply K3, (so_buf _ _ _ V3 i d).
Qed.

Lemma vm_ok_kfree s x A b :
  vm_ok s x A -> scratch s x b ->
  vm_ok s (with_vheap x (kfree b (vheap x))) A.
Proof.
  intros [V1 V2 V3 V4 V5 V6] (Hb & Hn & Hs). destruct (kfree_live b _ (ri_heap _ _ (ro_inv _ _ _ V4)) Hb) as [K1 K2].
  split; try done.
  - by apply (tabs_other _ x).
  - destruct V2 as [F1 F2 F3 FF F4 F5]. by split.
  - destruct V3 as [S1 S2 S3 S4 S5 S6]. split; try done. cbn [with_vheap vheap swap_slots]. rewrite K2. intros i d Hi Hd.
    destruct (S4 i d Hi Hd) as (B1 & B2 & B3). split_and!; try done; [|apply B3..].
    apply elem_of_difference. split; [done|]. rewrite elem_of_singleton. by apply (Hs i d).
  - destruct V4 as [R1 R2]. split; [|done]. destruct R1 as [I1 I2 I3 I4 I5]. split; try done.
    intros n Hnode. cbn [with_vheap vheap]. rewrite K2. apply elem_of_difference. split; [by apply I5|].
    rewrite elem_of_singleton. by intros ->.
  - destruct V5 as [H1 H2]. by split.
Qed.

(** Giving up a reference that no mapping stands for. *)
Lemma vm_ok_put_frame s x A f :
  vm_ok s x A -> frame_ours s x f -> ~ is_pt (ram x) (dirs x) f -> nmaps A f < ref s f < 65536 ->
  exists s', free_frame f (s, x) = Ret (s', x) /\ vm_ok s' x A /\ pa_static s' = pa_static s /\ maps_same s s'.
Proof.
  intros HV [Hu Hff] Hnpt Hr. pose proof HV as [V1 V2 V3 V4 V5 V6]. pose proof (frame_low _ _ _ _ _ V2 Hu) as [Hlo Hq].
  pose proof (frame_mul f (proj1 (proj2 Hu))) as Hdiv.
  assert (Hr0 : 0 <= nmaps A f) by apply count_if_nonneg.
  destruct (free_frame_post s (f / 4096)) as (s' & Es & Hrel & Hfree); try done.
  { apply (fr_pa _ _ _ _ V2). }
  { apply (fr_ready _ _ _ _ V2). }
  { rewrite Hdiv. by apply (frame_offset lowmem_end Hlow s x A). }
  { apply Hu. }
  { unfold ref in Hr. lia. }
  rewrite Hdiv in Es. exists s'. unfold free_frame. cbn [fst snd]. rewrite Es. pose proof (rd_static _ _ _ _ Hrel) as Hst.
  pose proof (total_of_static _ _ Hst) as Ht. assert (Hm : maps_same s s') by (intros y; apply (rd_maps _ _ _ _ Hrel)).
  destruct (rmap_inv_maps s s' (vheap x) Ht Hm (ro_inv _ _ _ V4)) as [Hi Hn]. split_and!; try done.
  assert (Huse : forall g, frame_used s g -> (g = f -> 1 < ref s f) -> frame_used s' g).
  { intros g (U1 & U2 & U3 & U4) Hg. split_and!; try done; [by rewrite Ht|]. rewrite Hfree.
    intros [?|[E1 E2]]; [done|]. apply frame_div in E1; [|done|apply Hu]. specialize (Hg E1). unfold ref in Hg. lia. }
  assert (Href : forall g, frame_used s g -> ref s' g = if decide (g = f) then dropped (ref s f) else ref s g).
  { intros g Hg. unfold ref. case_decide as Hd; [subst; apply (rd_refs _ _ _ _ Hrel); by apply in_block_0|].
    pose proof (frame_low _ _ _ _ _ V2 Hg). apply (rd_other _ _ _ _ Hrel); [lia|]. rewrite in_block_0. intros E1.
    apply Hd. apply frame_div; [apply Hg|apply Hu|done]. }
  split; try done.
  - destruct V2 as [F1 F2 F3 FF F4 F5]. split.
    + apply (rd_ok _ _ _ _ Hrel).
    + unfold pa_static in Hst. congruence.
    + by rewrite Ht.
    + intros q Hqf. rewrite Ht, Hfree. destruct (FF q Hqf) as [Q1 Q2]. split; [done|]. intros [?|[-> _]]; done.
    + intros p Hp. destruct (F4 p Hp) as [[U U'] R]. assert (p <> f) by (by intros ->).
      split; [split; [by apply Huse|done]|]. rewrite Href by done. by rewrite decide_False.
    + intros k p E Hp. destruct (F5 k p E Hp) as (G1 & [G2 G4] & G3 & G5). pose proof (nmaps_pos A k p E Hp) as Hpos.
      split_and!; try done.
      * split; [|done]. apply Huse; [done|]. intros <-. lia.
      * rewrite Href by done. case_decide as Hd; [|lia]. rewrite Hd in *. unfold dropped. destruct (Z.ltb_spec 1 (ref s f)); lia.
      * rewrite Href by done. case_decide as Hd; [|lia]. unfold dropped. destruct (Z.ltb_spec 1 (ref s f)); lia.
  - destruct V3 as [S1 S2 S3 S4 S5 S6]. split; try done. intros i b Hi0 Hb. rewrite Hn. by apply (S4 i).
  - destruct V4 as [R1 R2]. split; [done|]. intros q k. rewrite Ht. intros Hq0. rewrite (rmaps_of _ _ (Hm q Hq0)). by apply R2.
Qed.

(** Freeing a slot no entry names. *)
Lemma vm_ok_free_slot s x A i :
  vm_ok s x A -> 0 <= i < 64 -> (forall k p, A !! k = Some p -> swap_pte_decode p <> Some i) ->
  vm_ok s (swap_free_slot i x) A /\ (forall k, user_mem (swap_free_slot i x) A k = user_mem x A k) /\
  sused (znth (swap_slots (swap_free_slot i x)) i) = false.
Proof.
  intros HV Hi Hno. unfold swap_free_slot. change SWAP_SLOTS with 64. destruct (Z.leb_spec 64 i); [lia|].
  destruct (sused (znth (swap_slots x) i)) eqn:Eu; cbn [negb]; [|done].
  set (x1 := match sdata _ with Some (buf, _) => _ | None => x end).
  pose proof (vo_slots _ _ _ _ HV) as [S1 S2 S3 S4 S5 S6].
  assert (Hs1 : swap_slots x1 = swap_slots x) by (unfold x1; by destruct (sdata _) as [[? ?]|]).
  assert (Hz : forall j, 0 <= j < 64 -> znth (zset (swap_slots x) i (Slot false None)) j =
    if decide (j = i) then Slot false None else znth (swap_slots x) j).
  { intros j Hj. case_decide as F; [subst; apply znth_zset_eq; unfold zlen; lia|apply znth_zset_ne; lia]. }
  assert (Hmem : forall k, user_mem (set_slot i (Slot false None) x1) A k = user_mem x A k).
  { intros k. unfold user_mem. destruct (A !! k) as [p|] eqn:Ek; [|done]. cbn [mbind option_bind].
    apply (entry_data_same x _ A k p Ek); [intros _; unfold x1; by destruct (sdata _) as [[? ?]|]|].
    intros j Hp Hd. destruct (S2 k p Ek Hp) as (j' & b & d & Hj & Hjr & _). rewrite Hd in Hj. injection Hj as <-.
    cbn [set_slot with_slots swap_slots]. rewrite Hs1, Hz by done. rewrite decide_False; [done|]. intros ->. by apply (Hno k p). }
  split_and!; [|done|cbn [set_slot with_slots swap_slots]; rewrite Hs1, Hz by done; by rewrite decide_True].
  assert (Hx1 : exists h, x1 = with_vheap x h /\ rmap_inv s h /\ forall j b, 0 <= j < 64 -> j <> i ->
      sdata (znth (swap_slots x) j) = Some b -> b.1 ∈ live h).
  { unfold x1. pose proof (ro_inv _ _ _ (vo_rmaps _ _ _ _ HV)) as Hinv. destruct (sdata (znth (swap_slots x) i)) as [[buf d]|] eqn:Ed.
    - destruct (S4 i _ Hi Ed) as (B1 & B2 & _). cbn [fst] in *. destruct (kfree_live buf _ (ri_heap _ _ Hinv) B1) as [K1 K2].
      exists (kfree buf (vheap x)). split_and!; [done| |].
      + destruct Hinv as [I1 I2 I3 I4 I5]. split; try done. intros n Hn. rewrite K2. apply elem_of_difference.
        split; [by apply I5|]. rewrite elem_of_singleton. by intros ->.
      + intros j b Hj Hne Hb. rewrite K2. apply elem_of_difference. split; [by apply (S4 j)|]. rewrite elem_of_singleton.
        intros Hx. by apply Hne, (S5 j i b (buf, d)).
    - exists (vheap x). split_and!; [by destruct x|done|]. intros j b Hj _ Hb. by apply (S4 j). }
  destruct Hx1 as (h & Ex & Hinv & Hlive). clearbody x1. subst x1. destruct HV as [V1 V2 V3 V4 V5 V6]. split; try done.
  - by apply (tabs_other _ x).
  - destruct V2 as [F1 F2 F3 FF F4 F5]. by split.
  - split; cbn [set_slot with_slots with_vheap swap_slots vheap].
    + unfold zset. by rewrite length_insert.
    + intros k p E Hp. destruct (S2 k p E Hp) as (j & b & d & Hd & Hj & Hs). exists j, b, d. split_and!; try done; try lia.
      rewrite Hz by done. rewrite decide_False; [done|]. intros ->. by apply (Hno k p).
    + done.
    + intros j b Hj. rewrite Hz by done. case_decide; [done|]. intros Hb. destruct (S4 j b Hj Hb) as (B1 & B2 & B3).
      split_and!; [by apply (Hlive j b)|done|apply B3..].
    + intros j j' b b' Hj Hj'. rewrite !Hz by done. repeat case_decide; try done. by apply S5.
    + intros j Hj. rewrite Hz by done. case_decide; [done|]. by apply S6.
  - destruct V4 as [R1 R2]. by split.
  - destruct V5 as [H1 H2]. by split.
Qed.

(** The flags of an entry change: its frame is mapped once, or the entry
    becomes read-only and marked for copying. *)
Lemma vm_ok_relabel s x A mm sp va p fl r :
  vm_ok s x A -> A !! (mm, va) = Some p -> pte_present p = true -> mms x !! mm = Some sp -> user_page va ->
  nmaps A (pte_pfn p) <= 1 \/ has fl PTE_READ_WRITE = false /\ has fl PTE_COW = true ->
  0 <= fl < 4096 -> has fl PTE_PRESENT = true -> has fl PTE_USER = true ->
  entry_set lowmem_end (dirs x) (mm_pgd sp) va (Z.lor (pte_pfn p) fl) (ram x) r ->
  let v := Z.lor (pte_pfn p) fl in
  let A' := upd_entry A (mm, va) v in
  vm_ok s (with_ram x r) A' /\ (forall k, user_mem (with_ram x r) A' k = user_mem x A k) /\
  A' !! (mm, va) = Some v /\ maps_to (pte_pfn p) v /\ (forall g, nmaps A' g = nmaps A g).
Proof.
  intros HV E Hp Hmm Hva Hn1 Hfl Hpr Hus Hes v A'. pose proof HV as [V1 V2 V3 V4 V5 V6]. set (f := pte_pfn p) in *.
  destruct (fr_map _ _ _ _ V2 _ _ E Hp) as (_ & [Hu Hff] & Hnpt & Hcnt). fold f in Hu, Hff, Hnpt, Hcnt.
  pose proof (frame_low _ _ _ _ _ V2 Hu) as [Hlo Hq]. destruct (low_phys_end _ Hlow) as [HLE _]. unfold LOWMEM_MAX in HLE.
  assert (Hal : (4096 | f)) by apply Hu.
  assert (E1 : pte_pfn v = f) by (apply entry_pfn; done || lia).
  assert (E2 : pte_present v = true).
  { unfold pte_present. change PTE_PRESENT with (2 ^ 0) in *. unfold v. by rewrite entry_has by (done || lia). }
  assert (E3 : pte_user v = true).
  { unfold pte_user. change PTE_USER with (2 ^ 2) in *. unfold v. by rewrite entry_has by (done || lia). }
  assert (Hv0 : v <> 0) by (by apply not_present_zero).
  assert (HA : A' !! (mm, va) = Some v).
  { unfold A', upd_entry. destruct (Z.eqb_spec v 0); [done|]. by rewrite lookup_insert_eq. }
  assert (Hn : forall g, nmaps A' g = nmaps A g).
  { intros g. unfold A'. rewrite nmaps_entry, E. cbn [default]. unfold id. destruct (decide (g = f)) as [->|Hg].
    - rewrite !counts_here by done. lia.
    - rewrite !counts_other by (intros [_ Hx]; by rewrite <- Hx in Hg). lia. }
  assert (Hpt : forall p, is_pt (ram (with_ram x r)) (dirs (with_ram x r)) p <-> is_pt (ram x) (dirs x) p).
  { intros g. apply (es_pt _ _ _ _ _ _ _ Hes). }
  pose proof (nmaps_pos A _ p E Hp) as Hpos. fold f in Hpos.
  split_and!; try done; [split; try done|].
  - by apply (tabs_entry_set lowmem_end Hlow x A mm sp va v r).
  - pose proof V2 as [F1 F2 F3 FF F4 F5]. split; try done.
    + intros g. rewrite Hpt. apply F4.
    + intros k q [(-> & -> & _)|[Hk Ek]]%upd_entry_some Hq'; rewrite Hpt, Hn; [|by apply (F5 k)].
      rewrite E1. split_and!; try done; lia.
  - destruct V3 as [S1 S2 S3 S4 S5 S6]. split; try done.
    + intros k q [(-> & -> & _)|[Hk Ek]]%upd_entry_some Hq'; [congruence|by apply (S2 k)].
    + intros k k' q q' i H1 H2 D1 D2.
      assert (Hx : forall k p, A' !! k = Some p -> swap_pte_decode p = Some i -> A !! k = Some p).
      { intros k0 p0 [(-> & -> & _)|[Hk Ek]]%upd_entry_some Hd; [|done]. unfold swap_pte_decode in Hd. by rewrite E2 in Hd. }
      by apply (S3 k k' q q' i); [apply Hx|apply Hx|..].
  - destruct V4 as [R1 R2]. split; [done|]. intros q k Hq0 Hk. destruct (R2 q k Hq0 Hk) as (p' & Ek & Hp').
    destruct (decide (k = (mm, va))) as [->|Hne]; [|exists p'; split; [by unfold A'; rewrite upd_entry_other|done]].
    exists v. split; [done|]. assert (p' = p) as -> by congruence. split; [done|]. rewrite E1. by destruct Hp'.
  - destruct V5 as [H1 H2]. split.
    + intros k q [(-> & -> & _)|[Hk Ek]]%upd_entry_some Hq' Hw; rewrite Hn; [|by apply (H1 k)]. rewrite E1.
      destruct Hn1 as [Hn1|[Hn1 _]]; [done|]. unfold pte_write in Hw. change PTE_READ_WRITE with (2 ^ 1) in *.
      unfold v in Hw. rewrite entry_has in Hw by (done || lia). congruence.
    + intros k q sp' [(-> & -> & _)|[Hk Ek]]%upd_entry_some Hq' Hw Hc Hsp Hal'; rewrite Hn; [|by apply (H2 k q sp')]. rewrite E1.
      destruct Hn1 as [Hn1|[_ Hn1]]; [done|]. change PTE_COW with (2 ^ 9) in *.
      unfold v in Hc. rewrite entry_has in Hc by (done || lia). congruence.
  - intros k. unfold user_mem. destruct (decide (k = (mm, va))) as [->|Hne].
    + rewrite HA, E. cbn [mbind option_bind]. unfold entry_data. rewrite E2, E1, Hp. fold f. f_equal.
      by apply (es_data _ _ _ _ _ _ _ Hes).
    + unfold A'. rewrite upd_entry_other by done. destruct (A !! k) as [q|] eqn:Ek; [|done]. cbn [mbind option_bind].
      apply (entry_data_same x _ A k q Ek); [|done]. intros Hq'. apply (es_data _ _ _ _ _ _ _ Hes). by apply (fr_map _ _ _ _ V2 k q).
Qed.

(** ** The address space of the running program *)

Definition running x mm sp : Prop :=
  cur_mm x = Some mm /\ mms x !! mm = Some sp /\ page_directory x = mm_pgd sp.

Lemma running_same x x' mm sp :
  cur_mm x' = cur_mm x -> mms x' = mms x -> page_directory x' = page_directory x -> running x mm sp -> running x' mm sp.
Proof. intros E1 E2 E3 (H1 & H2 & H3). unfold running. by rewrite E1, E2, E3. Qed.

Lemma running_evolves s x A s' x' A' mm sp : evolves s x A s' x' A' -> running x mm sp -> running x' mm sp.
Proof. intros H. apply running_same; [apply (ev_cur _ _ _ _ _ _ H)|apply (ev_mms _ _ _ _ _ _ H)|apply (ev_dir _ _ _ _ _ _ H)]. Qed.

Lemma running_pte s x A mm sp va :
  vm_ok s x A -> running x mm sp -> user_page va -> pte_of (ram x) (page_directory x) va = default 0 (A !! (mm, va)).
Proof. intros HV (_ & Hmm & ->) Hva. by apply (to_entry _ _ _ (vo_tabs _ _ _ _ HV)). Qed.

(** The kernel stores a page through a user address that is mapped once. *)
Lemma vwrite_post s x A mm sp va p f data :
  vm_ok s x A -> running x mm sp -> user_page va -> A !! (mm, va) = Some p -> maps_to f p -> nmaps A f = 1 ->
  length data = 1024%nat -> Forall is_u32 data ->
  let x' := with_ram x (<[f := data]> (ram x)) in
  vwrite_page va data (s, x) = Ret (s, x') /\ vm_ok s x' A /\ page_becomes x A (mm, va) (Some data) x' A /\
  (forall q, is_pt (ram x') (dirs x') q <-> is_pt (ram x) (dirs x) q).
Proof.
  intros HV Hr Hva E [Hp Hf] Hn Hl Hd x'. split; [|by apply (vm_ok_write s x A (mm, va) p f data)].
  unfold vwrite_page. cbn [fst snd]. rewrite (running_pte s x A mm sp va HV Hr Hva), E. cbn [default]. unfold id.
  by rewrite Hp, Hf.
Qed.

Lemma fresh_evolves s x A s' x' A' f : evolves s x A s' x' A' -> fresh s x A f -> fresh s' x' A' f.
Proof.
  intros Hev (H1 & H2 & H3). destruct (ev_flight _ _ _ _ _ _ Hev f H1) as (G1 & G2 & G3 & _).
  split_and!; [done|by rewrite G2|by rewrite G3].
Qed.

Lemma absent_evolves s x A s' x' A' k :
  evolves s x A s' x' A' -> pte_present (default 0 (A !! k)) = false -> A' !! k = A !! k.
Proof.
  intros Hev H. destruct (ev_entry _ _ _ _ _ _ Hev k) as [?|(p & p' & E & Hp & _)]; [done|].
  rewrite E in H. cbn in H. unfold id in H. congruence.
Qed.

(** A page where nothing is mapped gets a frame just allocated, if there is
    memory for the page table. *)
Lemma map_fresh_post s x A mm sp va f fl :
  vm_ok s x A -> mms x !! mm = Some sp -> user_page va -> fresh s x A f ->
  pte_present (default 0 (A !! (mm, va))) = false ->
  0 <= fl < 4096 -> has fl PTE_PRESENT = true -> has fl PTE_USER = true ->
  exists s1 x1 A1, vm_ok s1 x1 A1 /\ evolves s x A s1 x1 A1 /\
    (A !! (mm, va) <> None -> s1 = s /\ x1 = x /\ A1 = A) /\
    ((map_page_ex lowmem_end (mm_pgd sp) f va fl (s, x) = Ret (s1, x1) /\ A !! (mm, va) = None /\
        pgd_present (pgd_entry (ram x) (mm_pgd sp) va) = false) \/
     exists r, map_page_ex lowmem_end (mm_pgd sp) f va fl (s, x) = Ret (s1, with_ram x1 r) /\
       let A' := upd_entry A1 (mm, va) (Z.lor f fl) in
       vm_ok s1 (with_ram x1 r) A' /\ (exists d, page_becomes x A (mm, va) (Some d) (with_ram x1 r) A') /\
       A' !! (mm, va) = Some (Z.lor f fl) /\ maps_to f (Z.lor f fl) /\ nmaps A' f = 1 /\
       rmaps (znth (pages s1) (f / 4096)) = []).
Proof.
  intros HV Hmm Hva Hfr Hno Hfl Hpr Hus. pose proof Hfr as (((Hu & Hff) & _) & _ & _).
  pose proof (frame_low _ _ _ _ _ (vo_frames _ _ _ _ HV) Hu) as [Hlo _].
  destruct (map_page_post s x A mm sp va f fl HV Hmm Hva (proj1 (proj2 Hu)) Hlo Hfl Hus) as (s1 & x1 & A1 & HV1 & Hev & Hsame & Hc).
  exists s1, x1, A1. split_and!; try done.
  { intros Hn. apply Hsame. rewrite (to_entry _ _ _ (vo_tabs _ _ _ _ HV) mm sp va Hmm Hva).
    destruct (A !! (mm, va)) as [p|] eqn:E; [|done]. by destruct (to_key _ _ _ (vo_tabs _ _ _ _ HV) mm va p E). }
  pose proof (absent_evolves _ _ _ _ _ _ (mm, va) Hev Hno) as HA.
  destruct Hc as [(E1 & E2 & E3)|(r & E1 & Hes)]; [left; by rewrite <- HA|right]. exists r. split; [done|]. cbv zeta.
  pose proof (fresh_evolves _ _ _ _ _ _ f Hev Hfr) as (Hfl1 & Href & Hrm).
  assert (Hm1 : mms x1 !! mm = Some sp) by (by rewrite (ev_mms _ _ _ _ _ _ Hev)).
  destruct (vm_core_map s1 x1 A1 mm sp va f fl r (vm_ok_core_of _ _ _ HV1) Hm1 Hva Hfl1 ltac:(lia) Hfl Hpr Hus Hes)
    as ([C1 C2 C3 C4 C5] & [B1 B2] & C6 & C7 & C8 & _).
  split_and!; try done.
  - split; try done. apply rmaps_map; [apply (vo_rmaps _ _ _ _ HV1)|by rewrite HA].
  - exists (frame (ram x1) f). split; [done|]. intros k Hk. rewrite (B2 k Hk). apply (ev_mem _ _ _ _ _ _ Hev).
Qed.

(** What stays the same of the rest of the state. *)
Definition same_rest x x' : Prop :=
  mms x' = mms x /\ cur_mm x' = cur_mm x /\ page_directory x' = page_directory x /\
  kernel_directory x' = kernel_directory x /\ pf x' = pf x.

Lemma same_rest_evolves s x A s' x' A' : evolves s x A s' x' A' -> same_rest x x'.
Proof. intros [E1 E2 E3 E4 E5 _ _ _ _ _ (_ & _ & E6) _]. done. Qed.

Lemma same_rest_trans x1 x2 x3 : same_rest x1 x2 -> same_rest x2 x3 -> same_rest x1 x3.
Proof. unfold same_rest. intuition congruence. Qed.

Lemma running_rest x x' mm sp : same_rest x x' -> running x mm sp -> running x' mm sp.
Proof. intros (E1 & E2 & E3 & _). by apply running_same. Qed.

Lemma free_slot_rest i x : same_rest x (swap_free_slot i x).
Proof.
  unfold swap_free_slot. case_match; [done|]. case_match; [done|].
  by destruct (sdata (znth (swap_slots x) i)) as [[? ?]|].
Qed.

Lemma only_rmap_rest f s x s' x' : only_rmap f s x s' x' -> same_rest x x'.
Proof. intros [_ -> _]. done. Qed.

(** The slot a page is swapped out to. *)
Definition swapped A k : option Z := A !! k ≫= swap_pte_decode.

Lemma page_becomes_same x A k d x' A' x2 :
  page_becomes x A k d x' A' -> (forall k, user_mem x2 A' k = user_mem x' A' k) -> page_becomes x A k d x2 A'.
Proof. intros [H1 H2] H. split; [by rewrite H|]. intros k' Hk. rewrite H. by apply H2. Qed.

Lemma page_becomes_again x A k d d' x1 A1 x2 A2 :
  page_becomes x A k d x1 A1 -> page_becomes x1 A1 k d' x2 A2 -> page_becomes x A k d' x2 A2.
Proof. intros [_ H1] [H2 H3]. split; [done|]. intros k' Hk. rewrite H3 by done. by apply H1. Qed.

Lemma entry_write f fl : (4096 | f) -> 0 <= fl < 4096 -> pte_write (Z.lor f fl) = has fl PTE_READ_WRITE.
Proof. intros H1 H2. unfold pte_write. change PTE_READ_WRITE with (2 ^ 1). by rewrite entry_has by (done || lia). Qed.

Lemma swap_in_post s x A mm sp va :
  vm_ok s x A -> running x mm sp -> user_page va ->
  exists r s' x' A', swap_in_mm lowmem_end mm va (s, x) = Ret (r, (s', x')) /\ vm_ok s' x' A' /\ same_rest x x' /\
    (forall k, user_mem x' A' k = user_mem x A k) /\
    match swapped A (mm, va) with
    | None => r = 0 /\ s' = s /\ x' = x /\ A' = A
    | Some i => (r = -1 /\ A' !! (mm, va) = A !! (mm, va)) \/
        (r = 1 /\ sused (znth (swap_slots x') i) = false /\
         exists p, A' !! (mm, va) = Some p /\ pte_present p = true /\ nmaps A' (pte_pfn p) = 1 /\
           pte_write p = vma_allows (mmap (mm_areas sp)) va true false)
    end.
Proof.
  intros HV Hrun Hva. pose proof HV as [V1 V2 V3 V4 V5 V6]. pose proof Hrun as (Hcur & Hmm & Hpd).
  unfold swap_in_mm. cbn [fst snd]. rewrite Hmm. destruct (Z.leb_spec TASK_SIZE va) as [Hx|_]; [unfold user_page in Hva; lia|].
  rewrite (get_pte_raw_eq _ Hlow _ _ _ _ (to_dirs _ _ _ V1) (mm_dir _ _ _ Hmm) (user_page_u32 _ Hva)). cbn [rbind].
  rewrite (to_entry _ _ _ V1 mm sp va Hmm Hva). unfold swapped.
  assert (Hskip : exists r s' x' A', Ret (0, (s, x)) = Ret (r, (s', x')) /\ vm_ok s' x' A' /\ same_rest x x' /\
    (forall k, user_mem x' A' k = user_mem x A k) /\ r = 0 /\ s' = s /\ x' = x /\ A' = A) by (by exists 0, s, x, A).
  destruct (A !! (mm, va)) as [p|] eqn:E; cbn [default mbind option_bind]; unfold id; [|done].
  destruct (swap_pte_decode p) as [i|] eqn:Ed; [|done]. clear Hskip.
  assert (Hp : pte_present p = false) by (unfold swap_pte_decode in Ed; by destruct (pte_present p)).
  destruct (so_entry _ _ _ V3 _ p E Hp) as (i' & buf & data & Hi & Hir & Hs). rewrite Ed in Hi. injection Hi as <-. rewrite Hs. cbn [sused sdata].
  destruct (alloc_page_post s x A HV) as (t & s1 & x1 & A1 & Ea & HV1 & Hev & _ & Ht). rewrite Ea. cbn [rbind fst snd].
  assert (Hno : pte_present (default 0 (A !! (mm, va))) = false) by (by rewrite E).
  pose proof (absent_evolves _ _ _ _ _ _ (mm, va) Hev Hno) as HA1. rewrite E in HA1. pose proof (same_rest_evolves _ _ _ _ _ _ Hev) as Hr1.
  destruct t as [f|].
  2:{ exists (-1), s1, x1, A1. split_and!; try done; [apply (ev_mem _ _ _ _ _ _ Hev)|]. left. by split. }
  destruct Ht as [Hfr _]. set (fl := if vma_allows _ va true false then _ else _).
  assert (Hfl : 0 <= fl < 4096 /\ has fl PTE_PRESENT = true /\ has fl PTE_USER = true) by (unfold fl; by destruct (vma_allows _ _ _ _)).
  destruct Hfl as (Hfl & Hpr & Hus). pose proof (running_rest _ _ _ _ Hr1 Hrun) as Hrun1.
  destruct (map_fresh_post s1 x1 A1 mm sp va f fl HV1 (proj1 (proj2 Hrun1)) Hva Hfr) as (s2 & x2 & A2 & HV2 & Hev2 & Hsame & Hc); try done.
  { by rewrite HA1. }
  destruct Hsame as (-> & -> & ->); [by rewrite HA1|]. destruct Hc as [(_ & Hc & _)|(r & Em & Hc)]; [by rewrite HA1 in Hc|].
  cbv zeta in Hc. set (v := Z.lor f fl) in *. set (A' := upd_entry A1 (mm, va) v) in *.
  destruct Hc as (HV3 & [d0 Hb] & HA' & Hmt & Hn & Hrm). rewrite Em. cbn [rbind fst snd with_ram swap_slots].
  destruct (so_entry _ _ _ (vo_slots _ _ _ _ HV1) _ p HA1 Hp) as (i' & buf1 & data1 & Hi & _ & Hs1). rewrite Ed in Hi. injection Hi as <-.
  rewrite Hs1. cbn [sdata]. destruct (so_buf _ _ _ (vo_slots _ _ _ _ HV1) i (buf1, data1) Hir ltac:(by rewrite Hs1)) as (_ & _ & Hl & Hd).
  assert (Hrun2 : running (with_ram x1 r) mm sp) by (by apply (running_same x1)).
  destruct (vwrite_post s1 (with_ram x1 r) A' mm sp va v f data1 HV3 Hrun2 Hva HA' Hmt Hn Hl Hd) as (Ew & HV4 & Hb4 & _).
  rewrite Ew. cbn [rbind fst snd]. set (x3 := with_ram (with_ram x1 r) _) in *.
  destruct (vm_ok_add_rmap s1 x3 A' mm va v f HV4 HA' Hmt) as (HV5 & Hm5 & Ho); [by rewrite Hrm|].
  destruct (on_rmap (page_add_anon_rmap mm va f) (s1, x3)) as [s4 x4]. cbn [fst snd] in *.
  destruct (vm_ok_free_slot s4 x4 A' i HV5 Hir) as (HV6 & Hm6 & Hfree).
  { intros k q [(-> & -> & _)|[Hk Ek]]%upd_entry_some Hdq.
    - unfold swap_pte_decode in Hdq. destruct Hmt as [Hpv _]. by rewrite Hpv in Hdq.
    - by apply Hk, (so_own _ _ _ (vo_slots _ _ _ _ HV1) k (mm, va) q p i). }
  exists 1, s4, (swap_free_slot i x4), A'. split_and!; try done.
  - eapply same_rest_trans; [exact Hr1|]. eapply same_rest_trans; [|apply free_slot_rest]. by apply only_rmap_rest in Ho.
  - intros k. rewrite Hm6, Hm5. rewrite <- (ev_mem _ _ _ _ _ _ Hev k).
    destruct (page_becomes_again _ _ _ _ _ _ _ _ _ Hb Hb4) as [B1 B2].
    destruct (decide (k = (mm, va))) as [->|Hk]; [|by apply B2]. rewrite B1. unfold user_mem. rewrite HA1.
    cbn [mbind option_bind]. unfold entry_data. by rewrite Hp, Ed, Hs1.
  - right. split_and!; try done. exists v. destruct Hmt as [Hpv Hfv]. rewrite Hfv. split_and!; try done. unfold v.
    destruct Hfr as (((Hu & _) & _) & _). rewrite entry_write by (apply Hu || done). unfold fl.
    by destruct (vma_allows (mmap (mm_areas sp)) va true false).
Qed.

(** ** Copy on write *)

(** The invariant does not look at the counters, the current address space and
    its directory. *)
Lemma vm_ok_fields s x x' A :
  ram x' = ram x -> kernel_directory x' = kernel_directory x -> vheap x' = vheap x -> mms x' = mms x ->
  swap_slots x' = swap_slots x -> file_pages x' = file_pages x -> panicked x' = panicked x ->
  vm_ok s x A -> vm_ok s x' A /\ (forall k, user_mem x' A k = user_mem x A k).
Proof.
  intros E1 E2 E3 E4 E5 E6 E7 [V1 V2 V3 V4 V5 V6].
  assert (Ed : dirs x' = dirs x) by (unfold dirs; by rewrite E2, E4). split; [split|].
  - by apply (tabs_other _ x).
  - destruct V2 as [F1 F2 F3 FF F4 F5]. split; unfold frame_ours in *; by rewrite ?E1, ?Ed, ?E6.
  - destruct V3 as [S1 S2 S3 S4 S5 S6]. split; by rewrite ?E3, ?E5.
  - destruct V4 as [R1 R2]. split; by rewrite ?E3.
  - destruct V5 as [H1 H2]. split; by rewrite ?E4.
  - by rewrite E7.
  - intros k. unfold user_mem, entry_data. by rewrite E1, E5.
Qed.

Lemma vm_ok_counters s x A a b : vm_ok s x A -> vm_ok s (with_cow x a b) A.
Proof. intros HV. by apply (vm_ok_fields s x). Qed.

Lemma only_rmap_frame f s x s' x' g :
  only_rmap f s x s' x' -> frame_ours s x g -> frame_ours s' x' g /\ ref s' g = ref s g.
Proof.
  intros [[M1 M2 M3 M4 M5] Ex _] [(U1 & U2 & U3 & U4) U5]. rewrite Ex. unfold frame_ours, frame_used.
  rewrite (total_of_static _ _ M2), M3. split; [done|]. apply M4. split; [apply Z.div_pos; lia|done].
Qed.

Lemma only_rmap_scratch f s x s' x' b : only_rmap f s x s' x' -> scratch s x b -> scratch s' x' b.
Proof.
  intros [_ Ex Hf] (H1 & H2 & H3). destruct (proj2 (Hf b) (conj H1 H2)) as [G1 G2].
  split_and!; try done. intros i d Hi Hd. apply (H3 i d); [done|]. by rewrite Ex in Hd.
Qed.

(** The page is private and writable. *)
Definition private_write A k : Prop :=
  exists p, A !! k = Some p /\ pte_present p = true /\ pte_write p = true /\ has p PTE_COW = false /\
    nmaps A (pte_pfn p) = 1.

(** The second half of [resolve_cow]: from the state with the new frame and
    the buffer. *)
Lemma cow_copy_post s x A mm sp va p f tmp :
  vm_ok s x A -> running x mm sp -> user_page va -> A !! (mm, va) = Some p -> pte_present p = true ->
  fresh s x A f -> scratch s x tmp ->
  exists s' x' A', vm_ok s' x' A' /\ same_rest x x' /\ (forall k, user_mem x' A' k = user_mem x A k) /\
    private_write A' (mm, va) /\
    (let? w4 := map_page_ex lowmem_end (page_directory x) f va
                  (Z.lor (Z.lor PTE_PRESENT PTE_USER) PTE_READ_WRITE) (s, x) in
     let w5 := match cur_mm w4.2 with
               | Some mm => on_rmap (page_add_anon_rmap mm va f) (on_rmap (page_remove_rmap mm va (pte_pfn p)) w4)
               | None => w4
               end in
     let? w6 := vwrite_page va (frame (ram x) (pte_pfn p)) w5 in
     let w7 := (w6.1, with_vheap w6.2 (kfree tmp (vheap w6.2))) in
     free_frame (pte_pfn p) w7) = Ret (s', x').
Proof.
  intros HV Hrun Hva E Hp Hfr Htmp. pose proof HV as [V1 V2 V3 V4 V5 V6]. pose proof Hrun as (Hcur & Hmm & Hpd).
  pose proof Hfr as (Hfl & Href & Hrm). pose proof Hfl as ((Hu & Hff) & Hnz & Hnpt).
  pose proof (frame_low _ _ _ _ _ V2 Hu) as [Hlo Hqf]. change (Z.lor (Z.lor PTE_PRESENT PTE_USER) PTE_READ_WRITE) with 7.
  destruct (fr_map _ _ _ _ V2 _ _ E Hp) as (_ & Hold & Hopt & Hocnt). pose proof (frame_low _ _ _ _ _ V2 (proj1 Hold)) as [_ Hqo].
  destruct (map_page_post s x A mm sp va f 7 HV Hmm Hva (proj1 (proj2 Hu)) Hlo ltac:(lia) eq_refl) as (s1 & x1 & A1 & _ & _ & Hs & Hc).
  destruct Hs as (-> & -> & ->).
  { rewrite (to_entry _ _ _ V1 mm sp va Hmm Hva), E. by apply not_present_zero. }
  destruct Hc as [(_ & Hc & _)|(r & Em & Hes)]; [congruence|]. rewrite Hpd, Em. cbn [rbind fst snd with_ram cur_mm]. rewrite Hcur.
  destruct (vm_ok_replace s x A mm sp va p f 7 r HV E Hp Hmm Hva Hfl ltac:(lia) ltac:(lia) eq_refl eq_refl Hes)
    as (HV1 & Hb1 & HA1 & Hmt & Hn1 & Hn0 & Ho1).
  assert (Hpt1 : forall q, is_pt r (dirs x) q <-> is_pt (ram x) (dirs x) q) by apply (es_pt _ _ _ _ _ _ _ Hes).
  set (A1 := upd_entry A (mm, va) (Z.lor f 7)) in *.
  destruct (on_rmap (page_remove_rmap mm va (pte_pfn p)) (s, with_ram x r)) as [s2 x2]. cbn [fst snd] in *.
  assert (Hne : f / 4096 <> pte_pfn p / 4096).
  { intros Hx. apply frame_div in Hx; [|apply Hu|apply Hold]. pose proof (nmaps_pos A _ p E Hp). rewrite <- Hx in *. lia. }
  assert (Hrm2 : rmaps (znth (pages s2) (f / 4096)) = []).
  { rewrite <- Hrm. apply rmaps_of. apply (rm_other _ _ _ (or_remapped _ _ _ _ _ Ho1)); [lia|done]. }
  destruct (vm_ok_add_rmap s2 x2 A1 mm va _ f HV1 HA1 Hmt) as (HV2 & Hm2 & Ho2); [by rewrite Hrm2|].
  destruct (on_rmap (page_add_anon_rmap mm va f) (s2, x2)) as [s3 x3]. cbn [fst snd] in *.
  pose proof (same_rest_trans _ _ _ (only_rmap_rest _ _ _ _ _ Ho1) (only_rmap_rest _ _ _ _ _ Ho2)) as Hr3.
  assert (Hrun3 : running x3 mm sp) by (by apply (running_rest (with_ram x r))).
  destruct (frame_sized (ram x) (pte_pfn p) (dk_sized _ _ _ (to_dirs _ _ _ V1))) as [Hl Hd].
  destruct (vwrite_post s3 x3 A1 mm sp va _ f _ HV2 Hrun3 Hva HA1 Hmt Hn1 Hl Hd) as (Ew & HV3 & Hb3 & Hpt3).
  rewrite Ew. cbn [rbind fst snd]. set (x4 := with_ram x3 _) in *.
  assert (Hsc : scratch s3 x4 tmp) by (apply (only_rmap_scratch _ s2 x2 s3 x3 tmp Ho2), (only_rmap_scratch _ _ _ _ _ _ Ho1), Htmp).
  pose proof (vm_ok_kfree s3 x4 A1 tmp HV3 Hsc) as HV4. set (x5 := with_vheap x4 _) in *.
  destruct (only_rmap_frame _ _ _ _ _ (pte_pfn p) Ho1 Hold) as [Ho1' Hr1'].
  destruct (only_rmap_frame _ _ _ _ _ (pte_pfn p) Ho2 Ho1') as [Ho2' Hr2'].
  destruct (vm_ok_put_frame s3 x5 A1 (pte_pfn p) HV4 Ho2') as (s5 & Ef & HV5 & _ & _).
  { intros Hx. apply Hopt, Hpt1. change (is_pt (ram x4) (dirs x4) (pte_pfn p)) in Hx. apply Hpt3 in Hx.
    rewrite (or_rest _ _ _ _ _ Ho2), (or_rest _ _ _ _ _ Ho1) in Hx. exact Hx. }
  { rewrite Hr2', Hr1'. lia. }
  exists s5, x5, A1. split_and!; try done.
  - intros k. change (user_mem x4 A1 k = user_mem x A k).
    destruct (page_becomes_again _ _ _ _ _ _ _ _ _ (page_becomes_same _ _ _ _ _ _ _ Hb1 Hm2) Hb3) as [B1 B2].
    destruct (decide (k = (mm, va))) as [->|Hk]; [|by apply B2]. rewrite B1. unfold user_mem. rewrite E.
    cbn [mbind option_bind]. unfold entry_data. by rewrite Hp.
  - exists (Z.lor f 7). destruct Hmt as [Hpv Hfv]. split_and!; try done; [| |by rewrite Hfv].
    + unfold pte_write. change PTE_READ_WRITE with (2 ^ 1). by rewrite entry_has by (apply Hu || lia).
    + change PTE_COW with (2 ^ 9). by rewrite entry_has by (apply Hu || lia).
Qed.

Lemma page_ref_count_used s f : pa_ok s -> frame_used s f -> page_ref_count s f = ref s f.
Proof.
  intros Hok (U1 & U2 & U3 & U4). unfold page_ref_count. change PAGE_SIZE with 4096.
  rewrite page_exists_in; [done|apply (ok_zones _ Hok)|]. split; [apply Z.div_pos; lia|done].
Qed.

(** Making a page that is mapped once writable. *)
Lemma make_writable_post s x A mm sp va p flags :
  vm_ok s x A -> running x mm sp -> user_page va -> A !! (mm, va) = Some p -> pte_present p = true ->
  nmaps A (pte_pfn p) <= 1 -> has flags PTE_PRESENT = true -> has flags PTE_USER = true ->
  has flags PTE_READ_WRITE = true -> has flags PTE_COW = false ->
  exists r A', set_pte_flags lowmem_end (ram x) (page_directory x) va flags = Ret r /\ vm_ok s (with_ram x r) A' /\
    (forall k, user_mem (with_ram x r) A' k = user_mem x A k) /\ private_write A' (mm, va).
Proof.
  intros HV Hrun Hva E Hp Hn B1 B2 B3 B4. pose proof HV as [V1 V2 V3 V4 V5 V6]. pose proof Hrun as (Hcur & Hmm & Hpd). rewrite Hpd.
  destruct (set_pte_flags_post _ Hlow (ram x) (dirs x) (mm_pgd sp) va flags (to_dirs _ _ _ V1) (mm_dir _ _ _ Hmm) (proj1 Hva)) as (r & Er & Hes).
  rewrite (to_entry _ _ _ V1 mm sp va Hmm Hva), E in Hes. cbn [default] in Hes. unfold id in Hes. rewrite Hp in Hes.
  destruct (fr_map _ _ _ _ V2 _ _ E Hp) as (Hus & [Hu _] & _). pose proof (frame_low _ _ _ _ _ V2 Hu) as [Hlo _].
  pose proof (new_flags_range flags) as Hfl. unfold pte_write.
  change PTE_PRESENT with (2 ^ 0) in *. change PTE_USER with (2 ^ 2) in *. change PTE_READ_WRITE with (2 ^ 1) in *.
  change PTE_COW with (2 ^ 9) in *. rewrite <- has_flags in B1, B2, B3, B4 by lia.
  destruct (vm_ok_relabel s x A mm sp va p (pte_flags flags) r HV E Hp Hmm Hva (or_introl Hn) Hfl) as (HV' & Hm & HA & Hmt & Hn'); try done.
  pose proof (nmaps_pos A _ p E Hp) as Hpos.
  eexists r, _. split_and!; try done. eexists. unfold pte_write. change PTE_READ_WRITE with (2 ^ 1). change PTE_COW with (2 ^ 9).
  split_and!; [done|apply Hmt| | |rewrite (proj2 Hmt), Hn'; lia]; by rewrite entry_has by (apply Hu || lia).
Qed.

(** The entry a write fault on a shared page finds. *)
Definition cow_entry A k : option Z :=
  match A !! k with Some p => if pte_present p && has p PTE_COW then Some p else None | None => None end.

Lemma resolve_cow_post s x A mm sp va :
  vm_ok s x A -> running x mm sp -> user_page va ->
  match cow_entry A (mm, va) with
  | None => resolve_cow lowmem_end va (s, x) = Ret (0, (s, x))
  | Some p =>
      (exists r s' x' A', resolve_cow lowmem_end va (s, x) = Ret (r, (s', x')) /\ vm_ok s' x' A' /\ same_rest x x' /\
         (forall k, user_mem x' A' k = user_mem x A k) /\ (r = -1 \/ r = 1 /\ private_write A' (mm, va))) \/
      (resolve_cow lowmem_end va (s, x) = Faults va /\ zlen (rmaps (znth (pages s) (pte_pfn p / 4096))) <= 1)
  end.
Proof.
  intros HV Hrun Hva. pose proof HV as [V1 V2 V3 V4 V5 V6]. pose proof Hrun as (Hcur & Hmm & Hpd).
  unfold resolve_cow, cow_entry. cbn [fst snd]. rewrite Hpd.
  rewrite (get_pte_flags_eq _ Hlow _ _ _ _ (to_dirs _ _ _ V1) (mm_dir _ _ _ Hmm) (user_page_u32 _ Hva)). cbn [rbind].
  rewrite (to_entry _ _ _ V1 mm sp va Hmm Hva).
  destruct (A !! (mm, va)) as [p|] eqn:E; cbn [default]; unfold id; [|done].
  destruct (pte_present p) eqn:Hp; cbn [andb]; [|done]. destruct (has p PTE_COW) eqn:Hc; cbn [negb]; [|done].
  destruct (fr_map _ _ _ _ V2 _ _ E Hp) as (Hus & [Hu Hff] & Hnpt & Hcnt).
  rewrite (page_ref_count_used s _ (fr_pa _ _ _ _ V2) Hu).
  set (x1 := with_cow x (cow_faults x +w 1) (cow_copies x)). pose proof (vm_ok_counters s x A (cow_faults x +w 1) (cow_copies x) HV) as HV1. fold x1 in HV1.
  assert (Hrun1 : running x1 mm sp) by done.
  destruct (Z.leb_spec (ref s (pte_pfn p)) 1) as [Hle|Hgt].
  { set (flags := Z.land _ (not32 PTE_COW)).
    assert (Hfb : forall n, 0 <= n < 12 -> has flags (2 ^ n) = (has p (2 ^ n) || has PTE_READ_WRITE (2 ^ n)) && has (not32 PTE_COW) (2 ^ n)).
    { intros n Hn'. unfold flags. rewrite has_land, has_lor, has_flags by lia. done. }
    destruct (make_writable_post s x1 A mm sp va p flags HV1 Hrun1 Hva E Hp ltac:(lia)) as (r & A' & Er & HV' & Hm' & Hpw).
    { change PTE_PRESENT with (2 ^ 0) at 1. rewrite (Hfb 0) by lia. change (has p (2 ^ 0)) with (pte_present p). by rewrite Hp. }
    { change PTE_USER with (2 ^ 2) at 1. rewrite (Hfb 2) by lia. change (has p (2 ^ 2)) with (pte_user p). by rewrite Hus. }
    { change PTE_READ_WRITE with (2 ^ 1) at 1. rewrite (Hfb 1) by lia. by rewrite orb_true_r. }
    { change PTE_COW with (2 ^ 9) at 1. rewrite (Hfb 9) by lia. by rewrite andb_false_r. }
    left. exists 1, s, (with_ram x1 r), A'. rewrite Er. cbn [rbind]. split_and!; try done. by right. }
  destruct (alloc_page_post s x1 A HV1) as (t & s2 & x2 & A2 & Ea & HV2 & Hev & _ & Ht). rewrite Ea. cbn [rbind fst snd].
  pose proof (same_rest_evolves _ _ _ _ _ _ Hev) as Hr2. pose proof (running_rest _ _ _ _ Hr2 Hrun1) as Hrun2.
  assert (Hm2 : forall k, user_mem x2 A2 k = user_mem x A k) by apply (ev_mem _ _ _ _ _ _ Hev).
  destruct t as [f|]; [|left; exists (-1), s2, x2, A2; split_and!; try done; by left]. destruct Ht as [Hfr _].
  destruct (kmalloc PAGE_SIZE (vheap x2)) as [[tmp|] h] eqn:Ek.
  2:{ destruct (kmalloc_none _ _ _ (ri_heap _ _ (ro_inv _ _ _ (vo_rmaps _ _ _ _ HV2))) Ek) as [K1 K2].
      destruct (vm_ok_heap _ _ _ _ h HV2 K1 K2) as [HV3 Hev3]. pose proof (fresh_evolves _ _ _ _ _ _ _ Hev3 Hfr) as ((F1 & F2 & F3) & F4 & _).
      destruct (vm_ok_put_frame s2 (with_vheap x2 h) A2 f HV3 F1 F3 ltac:(lia)) as (s3 & Ef & HV4 & _ & _). rewrite Ef. cbn [rbind].
      left. exists (-1), s3, (with_vheap x2 h), A2. split_and!; try done. by left. }
  destruct (vm_ok_kmalloc _ _ _ _ _ _ HV2 Ek) as [HV3 Hsc]. set (x3 := with_vheap x2 h) in *.
  assert (Hrun3 : running x3 mm sp) by done. unfold vread_page.
  rewrite (running_pte s2 x3 A2 mm sp va HV3 Hrun3 Hva).
  destruct (ev_entry _ _ _ _ _ _ Hev (mm, va)) as [HA|(q & q' & Eq & Hq & HA & Hq')].
  - rewrite HA, E. cbn [default]. unfold id. rewrite Hp. cbn [rbind]. rewrite E in HA.
    destruct (cow_copy_post s2 x3 A2 mm sp va p f tmp HV3 Hrun3 Hva HA Hp Hfr Hsc) as (s4 & x4 & A4 & HV4 & Hr4 & Hm4 & Hpw & Ecp).
    left. exists 1, s4, (with_cow x4 (cow_faults x4) (cow_copies x4 +w 1)), A4. split_and!.
    + destruct (map_page_ex lowmem_end (page_directory x3) f va _ (s2, x3)) as [w4| |]; cbn [rbind] in Ecp |- *; [|done|done].
      destruct (vwrite_page va _ _) as [w6| |]; cbn [rbind] in Ecp |- *; [|done|done]. by rewrite Ecp.
    + by apply vm_ok_counters.
    + eapply same_rest_trans; [exact Hr2|]. eapply same_rest_trans; [|exact Hr4]. done.
    + intros k. rewrite <- Hm2. apply (Hm4 k).
    + by right.
  - right. rewrite HA. cbn [default]. unfold id. rewrite Hq'. split; [done|]. apply Z.nlt_ge. intros Hl.
    pose proof (frame_low _ _ _ _ _ V2 Hu) as [_ Hq0].
    destruct (ev_shared _ _ _ _ _ _ Hev (mm, va) p E Hp ltac:(lia) Hl) as [HA' _]. congruence.
Qed.

(** ** The fault handler *)

Lemma pgd_present_evolves s x A s' x' A' mm sp va :
  evolves s x A s' x' A' -> mms x !! mm = Some sp -> user_page va ->
  pgd_present (pgd_entry (ram x) (mm_pgd sp) va) = true -> pgd_present (pgd_entry (ram x') (mm_pgd sp) va) = true.
Proof.
  intros Hev Hmm Hva Hp. pose proof (pgd_index_range va (user_page_u32 _ Hva)) as Hi.
  destruct (ev_pde _ _ _ _ _ _ Hev (mm_pgd sp) (pgd_index va) (mm_dir _ _ _ Hmm) Hi Hp) as [E|E]; unfold pgd_entry in *; rewrite E; [done|].
  unfold pgd_present in *. change PTE_PRESENT with (2 ^ 0) in *. by rewrite has_lor, Hp by lia.
Qed.

(** A page that is not there: a zero page. *)
Lemma zero_fill_post s x A mm sp va fl :
  vm_ok s x A -> running x mm sp -> user_page va -> pte_present (default 0 (A !! (mm, va))) = false ->
  0 <= fl < 4096 -> has fl PTE_PRESENT = true -> has fl PTE_USER = true ->
  let code :=
    let? (phys, w2) := alloc_page lowmem_end (s, x) in
    match phys with
    | None => Ret (-1, w2)
    | Some phys =>
        let? w3 := map_page_ex lowmem_end (page_directory w2.2) phys va fl w2 in
        let w4 := on_rmap (page_add_anon_rmap mm va phys) w3 in
        let? w5 := vwrite_page va zero_page w4 in
        Ret (1, w5)
    end in
  (exists r s' x' A', code = Ret (r, (s', x')) /\ vm_ok s' x' A' /\ same_rest x x' /\
     (forall k, k <> (mm, va) -> user_mem x' A' k = user_mem x A k) /\
     ((r = -1 /\ user_mem x' A' (mm, va) = user_mem x A (mm, va)) \/
      (r = 1 /\ user_mem x' A' (mm, va) = Some zero_page /\
       exists p, A' !! (mm, va) = Some p /\ pte_present p = true /\ pte_write p = has fl PTE_READ_WRITE))) \/
  (code = Faults va /\ pgd_present (pgd_entry (ram x) (mm_pgd sp) va) = false).
Proof.
  intros HV Hrun Hva Hno Hfl Hpr Hus code. unfold code. clear code. pose proof Hrun as (Hcur & Hmm & Hpd).
  destruct (alloc_page_post s x A HV) as (t & s1 & x1 & A1 & Ea & HV1 & Hev & _ & Ht). rewrite Ea. cbn [rbind fst snd].
  pose proof (absent_evolves _ _ _ _ _ _ (mm, va) Hev Hno) as HA1. pose proof (same_rest_evolves _ _ _ _ _ _ Hev) as Hr1.
  pose proof (running_rest _ _ _ _ Hr1 Hrun) as Hrun1. pose proof (ev_mem _ _ _ _ _ _ Hev) as Hm1.
  destruct t as [f|]; [|left; exists (-1), s1, x1, A1; split_and!; try done; by left]. destruct Ht as [Hfr _].
  rewrite (proj2 (proj2 Hrun1)).
  destruct (map_fresh_post s1 x1 A1 mm sp va f fl HV1 (proj1 (proj2 Hrun1)) Hva Hfr) as (s2 & x2 & A2 & HV2 & Hev2 & _ & Hc); try done.
  { by rewrite HA1. }
  pose proof (running_rest _ _ _ _ (same_rest_evolves _ _ _ _ _ _ Hev2) Hrun1) as Hrun2.
  destruct Hc as [(Em & HN & Hnp)|(r & Em & Hc)]; rewrite Em; cbn [rbind].
  - right. assert (HA2 : A2 !! (mm, va) = None) by (rewrite (absent_evolves _ _ _ _ _ _ (mm, va) Hev2); by rewrite HN).
    split.
    + unfold vwrite_page, on_rmap. cbn [fst snd]. destruct (page_add_anon_rmap mm va f (s2, vheap x2)) as [s3 h3]. cbn [fst snd with_vheap ram page_directory].
      by rewrite (running_pte s2 x2 A2 mm sp va HV2 Hrun2 Hva), HA2.
    + destruct (pgd_present (pgd_entry (ram x) (mm_pgd sp) va)) eqn:Ep; [|done].
      by rewrite (pgd_present_evolves _ _ _ _ _ _ mm sp va Hev Hmm Hva Ep) in Hnp.
  - left. cbv zeta in Hc. set (A' := upd_entry A2 (mm, va) (Z.lor f fl)) in *. destruct Hc as (HV3 & [d0 Hb] & HA' & Hmt & Hn & Hrm).
    destruct (vm_ok_add_rmap s2 (with_ram x2 r) A' mm va _ f HV3 HA' Hmt) as (HV4 & Hm4 & Ho); [by rewrite Hrm|].
    destruct (on_rmap (page_add_anon_rmap mm va f) (s2, with_ram x2 r)) as [s3 x3]. cbn [fst snd] in *.
    pose proof (only_rmap_rest _ _ _ _ _ Ho) as Hr3. assert (Hrun3 : running x3 mm sp) by (by apply (running_rest (with_ram x2 r))).
    destruct zero_page_sized as [Hl Hd].
    destruct (vwrite_post s3 x3 A' mm sp va _ f zero_page HV4 Hrun3 Hva HA' Hmt Hn Hl Hd) as (Ew & HV5 & Hb5 & _).
    rewrite Ew. cbn [rbind]. destruct (page_becomes_again _ _ _ _ _ _ _ _ _ (page_becomes_same _ _ _ _ _ _ _ Hb Hm4) Hb5) as [B1 B2].
    eexists 1, s3, _, A'. split_and!; try done.
    + eapply same_rest_trans; [exact Hr1|]. eapply same_rest_trans; [apply (same_rest_evolves _ _ _ _ _ _ Hev2)|]. done.
    + intros k Hk. rewrite B2 by done. apply Hm1.
    + right. split_and!; try done. exists (Z.lor f fl). split_and!; [done|apply Hmt|]. apply entry_write; [|done].
      destruct Hfr as (((Hu & _) & _) & _). apply Hu.
Qed.

Lemma vma_allows_no_exec l va (w e : bool) : vma_allows l va w e = true -> vma_allows l va w false = true.
Proof.
  induction l as [|v l IH]; [done|]. cbn [vma_allows andb]. destruct (_ && _); [|apply IH].
  by destruct (e && _).
Qed.

(** A write to a page that is mapped read-only. *)
Lemma write_fault_post s x A mm sp va p ex :
  vm_ok s x A -> running x mm sp -> user_page va -> A !! (mm, va) = Some p -> pte_present p = true ->
  pte_write p = false -> vma_allows (mmap (mm_areas sp)) va true ex = true ->
  (exists r s' x' A', handle_mm_fault lowmem_end (Some mm) va true true ex (s, x) = Ret (r, (s', x')) /\ vm_ok s' x' A' /\
     same_rest x x' /\ (forall k, user_mem x' A' k = user_mem x A k) /\ (r = -1 \/ r = 1 /\ private_write A' (mm, va))) \/
  (handle_mm_fault lowmem_end (Some mm) va true true ex (s, x) = Faults va /\ has p PTE_COW = true /\
   zlen (rmaps (znth (pages s) (pte_pfn p / 4096))) <= 1).
Proof.
  intros HV Hrun Hva E Hp Hw Hal. pose proof HV as [V1 V2 V3 V4 V5 V6]. pose proof Hrun as (Hcur & Hmm & Hpd).
  pose proof (vma_allows_no_exec _ _ _ _ Hal) as Hal'.
  unfold handle_mm_fault. cbn [fst snd]. rewrite Hmm, Hal. cbn [negb].
  pose proof (resolve_cow_post s x A mm sp va HV Hrun Hva) as HR. unfold cow_entry in HR. rewrite E, Hp in HR. cbn [andb] in HR.
  destruct (has p PTE_COW) eqn:Hc.
  - destruct HR as [(r & s' & x' & A' & Er & HV' & Hr' & Hm & Hres)|[Er Hrm]]; rewrite Er; cbn [rbind]; [left|right; done].
    destruct Hres as [->|[-> Hpw]]; [exists (-1)|exists 1]; exists s', x', A'; split_and!; try done; [by left|by right].
  - rewrite HR. cbn [rbind fst snd]. rewrite Hal'. cbn [Z.ltb Z.compare]. rewrite Hpd.
    rewrite (get_pte_flags_eq _ Hlow _ _ _ _ (to_dirs _ _ _ V1) (mm_dir _ _ _ Hmm) (user_page_u32 _ Hva)). cbn [rbind].
    rewrite (to_entry _ _ _ V1 mm sp va Hmm Hva), E. cbn [default]. unfold id. rewrite Hp, Hw, Hc.
    destruct (fr_map _ _ _ _ V2 _ _ E Hp) as (Hus & [Hu _] & _). rewrite Hus.
    destruct (Z.eqb_spec p 0) as [Hz|_]; [by apply not_present_zero in Hp|]. cbn [negb andb].
    pose proof (sh_stale _ _ V5 _ p sp E Hp Hw Hc Hmm Hal') as Hn. left.
    destruct (make_writable_post s x A mm sp va p (Z.lor (pte_flags p) PTE_READ_WRITE) HV Hrun Hva E Hp Hn) as (r & A' & Er & HV' & Hm & Hpw).
    { change PTE_PRESENT with (2 ^ 0). rewrite has_lor, has_flags by lia. change (has p (2 ^ 0)) with (pte_present p). by rewrite Hp. }
    { change PTE_USER with (2 ^ 2). rewrite has_lor, has_flags by lia. change (has p (2 ^ 2)) with (pte_user p). by rewrite Hus. }
    { change PTE_READ_WRITE with (2 ^ 1). rewrite has_lor by lia. by rewrite orb_true_r. }
    { change PTE_COW with (2 ^ 9) in *. rewrite has_lor, has_flags, Hc by lia. done. }
    rewrite Hpd in Er. rewrite Er. cbn [rbind]. exists 1, s, (with_ram x r), A'. split_and!; try done. by right.
Qed.

(** An access to a page that is not there. *)
Lemma missing_fault_post s x A mm sp va (w ex : bool) :
  vm_ok s x A -> running x mm sp -> user_page va -> pte_present (default 0 (A !! (mm, va))) = false ->
  vma_allows (mmap (mm_areas sp)) va w ex = true ->
  let lost := exists w, swap_in_mm lowmem_end mm va (s, x) = Ret (-1, w) in
  (exists r s' x' A', handle_mm_fault lowmem_end (Some mm) va false w ex (s, x) = Ret (r, (s', x')) /\ vm_ok s' x' A' /\
     same_rest x x' /\ (forall k, k <> (mm, va) -> user_mem x' A' k = user_mem x A k) /\
     ((r = -1 /\ user_mem x' A' (mm, va) = user_mem x A (mm, va)) \/
      (r = 1 /\ (exists p, A' !! (mm, va) = Some p /\ pte_present p = true /\ (w = true -> pte_write p = true)) /\
       match user_mem x A (mm, va) with
       | None => user_mem x' A' (mm, va) = Some zero_page
       | Some d => user_mem x' A' (mm, va) = Some d \/ user_mem x' A' (mm, va) = Some zero_page /\ lost
       end))) \/
  (handle_mm_fault lowmem_end (Some mm) va false w ex (s, x) = Faults va /\
   pgd_present (pgd_entry (ram x) (mm_pgd sp) va) = false).
Proof.
  intros HV Hrun Hva Hno Hal lost. pose proof HV as [V1 V2 V3 V4 V5 V6]. pose proof Hrun as (Hcur & Hmm & Hpd).
  unfold handle_mm_fault. cbn [fst snd]. rewrite Hmm, Hal. cbn [negb].
  destruct (swap_in_post s x A mm sp va HV Hrun Hva) as (r & s1 & x1 & A1 & Es & HV1 & Hr1 & Hm1 & Hc). rewrite Es. cbn [rbind fst snd].
  set (fl := if vma_allows _ va true false then _ else _).
  assert (Hfl : 0 <= fl < 4096 /\ has fl PTE_PRESENT = true /\ has fl PTE_USER = true) by (unfold fl; by destruct (vma_allows (mmap (mm_areas sp)) va true false)).
  destruct Hfl as (Hfl & Hpr & Hus). pose proof (running_rest _ _ _ _ Hr1 Hrun) as Hrun1.
  assert (Hwr : w = true -> vma_allows (mmap (mm_areas sp)) va true false = true) by (intros ->; by apply vma_allows_no_exec in Hal).
  assert (Hcase : (r = 1 /\ (exists p, A1 !! (mm, va) = Some p /\ pte_present p = true /\ (w = true -> pte_write p = true)) /\ user_mem x A (mm, va) <> None) \/
    (r <> 1 /\ A1 !! (mm, va) = A !! (mm, va) /\ (r = 0 \/ r = -1) /\ (user_mem x A (mm, va) <> None -> lost))).
  { unfold swapped in Hc. unfold user_mem. destruct (A !! (mm, va)) as [p|] eqn:E; cbn [mbind option_bind] in *.
    - assert (Hp : pte_present p = false) by exact Hno. destruct (so_entry _ _ _ V3 _ p E Hp) as (i & b & d & Ed & _ & Hs). rewrite Ed in Hc.
      destruct Hc as [[-> Hc]|(-> & _ & q & Hq & Hqp & _ & Hqw)]; [right|left].
      + split_and!; try done; [by right|]. intros _. by eexists.
      + split_and!; [done|exists q; rewrite Hqw; done|]. unfold entry_data. rewrite Hp, Ed, Hs. discriminate.
    - right. destruct Hc as (-> & -> & -> & ->). split_and!; try done. by left. }
  destruct Hcase as [(-> & Hq & Hsome)|(Hr & HA1 & Hr01 & Hlost)].
  { left. exists 1, s1, x1, A1. split_and!; try done. right. split_and!; try done.
    rewrite Hm1. destruct (user_mem x A (mm, va)) as [d|]; [by left|done]. }
  destruct (Z.ltb_spec 0 r); [lia|].
  destruct (zero_fill_post s1 x1 A1 mm sp va fl HV1 Hrun1 Hva) as [(r2 & s2 & x2 & A2 & Ez & HV2 & Hr2 & Hm2 & Hz)|[Ez Hnp]]; try done.
  { by rewrite HA1. }
  - left. exists r2, s2, x2, A2. split_and!; try done.
    + by eapply same_rest_trans.
    + intros k Hk. rewrite Hm2 by done. apply Hm1.
    + destruct Hz as [[-> Hz]|(-> & Hz & Hq)]; [left; by rewrite Hz|right]. split_and!; try done.
      { destruct Hq as (q & Hq1 & Hq2 & Hq3). exists q. split_and!; try done. intros Hw. rewrite Hq3. unfold fl. by rewrite (Hwr Hw). }
      destruct (user_mem x A (mm, va)) as [d|]; [|done]. right. split; [done|by apply Hlost].
  - right. split; [exact Ez|]. destruct (pgd_present (pgd_entry (ram x) (mm_pgd sp) va)) eqn:Ep; [|done].
    exfalso. destruct (A !! (mm, va)) as [p|] eqn:E.
    + (* the table of a swapped page is there *)
      pose proof (to_entry _ _ _ (vo_tabs _ _ _ _ HV1) mm sp va (proj1 (proj2 Hrun1)) Hva) as Hx. rewrite HA1 in Hx. cbn in Hx. unfold id in Hx.
      unfold pte_of in Hx. rewrite Hnp in Hx. destruct (to_key _ _ _ V1 mm va p E). congruence.
    + unfold swapped in Hc. rewrite E in Hc. cbn in Hc. destruct Hc as (_ & _ & -> & _). congruence.
Qed.

(** ** Page faults of programs *)

(** The page of an address. *)
Definition base (va : Z) : Z := Z.land va (not32 4095).

Lemma base_eq va : is_u32 va -> base va = va - va mod 4096.
Proof. apply pte_pfn_eq. Qed.

Lemma base_user_page va : 0 <= va < TASK_SIZE -> user_page (base va).
Proof.
  intros H. assert (Hu : is_u32 va) by (by apply user_u32). pose proof (pte_pfn_range va Hu) as [H1 H2].
  split; [unfold base, pte_pfn in *; lia|done].
Qed.

(** The processor reports what the page tables say: the page is not there, or
    it is there and the write is refused. *)
Definition genuine A mm cr2 err : Prop :=
  let p := default 0 (A !! (mm, base cr2)) in
  has err 8 = false /\ pte_present p = has err 1 /\ (has err 1 = true -> has err 2 = true /\ pte_write p = false).

(** The areas of the program allow the access. *)
Definition fault_allowed sp cr2 err : bool :=
  (has err 1 || (4096 <=? cr2)) && vma_allows (mmap (mm_areas sp)) (base cr2) (has err 2) (has err 16).

(** The page can be accessed as the program wants. *)
Definition accessible A k (write : bool) : Prop :=
  exists p, A !! k = Some p /\ pte_present p = true /\ (write = true -> pte_write p = true).

(** The contents of the page the program goes on with. *)
Definition page_kept s x A mm va x' A' : Prop :=
  match user_mem x A (mm, va) with
  | None => user_mem x' A' (mm, va) = Some zero_page
  | Some d => user_mem x' A' (mm, va) = Some d \/
      user_mem x' A' (mm, va) = Some zero_page /\ exists w, swap_in_mm lowmem_end mm va (s, x) = Ret (-1, w)
  end.

(** [handle_mm_fault] on a genuine fault. *)
Lemma handle_mm_fault_post s x A mm sp cr2 err :
  vm_ok s x A -> running x mm sp -> 0 <= cr2 < TASK_SIZE -> genuine A mm cr2 err ->
  vma_allows (mmap (mm_areas sp)) (base cr2) (has err 2) (has err 16) = true ->
  match handle_mm_fault lowmem_end (Some mm) (base cr2) (has err 1) (has err 2) (has err 16) (s, x) with
  | Ret (r, (s', x')) => exists A', vm_ok s' x' A' /\ same_rest x x' /\
      (forall k, k <> (mm, base cr2) -> user_mem x' A' k = user_mem x A k) /\
      (r = -1 \/ r = 1 /\ accessible A' (mm, base cr2) (has err 2) /\ page_kept s x A mm (base cr2) x' A')
  | Panics => False
  | Faults va => va = base cr2 /\
      (pgd_present (pgd_entry (ram x) (mm_pgd sp) va) = false \/
       exists p, A !! (mm, va) = Some p /\ has p PTE_COW = true /\ zlen (rmaps (znth (pages s) (pte_pfn p / 4096))) <= 1)
  end.
Proof.
  intros HV Hrun Hc (G1 & G2 & G3) Hal. pose proof (base_user_page cr2 Hc) as Hva. destruct (has err 1) eqn:Epr.
  - destruct (G3 eq_refl) as [Hw Hnw]. rewrite Hw in *. destruct (A !! (mm, base cr2)) as [p|] eqn:E; [|done]. cbn in G2, Hnw. unfold id in G2, Hnw.
    destruct (write_fault_post s x A mm sp (base cr2) p (has err 16) HV Hrun Hva E G2 Hnw Hal)
      as [(r & s' & x' & A' & Er & HV' & Hr' & Hm & Hres)|(Er & Hcow & Hl)]; rewrite Er.
    + exists A'. split_and!; try done. destruct Hres as [->|[-> (q & Q1 & Q2 & Q3 & _)]]; [by left|right]. split_and!; [done|by exists q|].
      unfold page_kept. rewrite Hm. unfold user_mem. rewrite E. cbn [mbind option_bind]. unfold entry_data. rewrite G2. by left.
    + split; [done|]. right. by exists p.
  - destruct (missing_fault_post s x A mm sp (base cr2) (has err 2) (has err 16) HV Hrun Hva G2 Hal)
      as [(r & s' & x' & A' & Er & HV' & Hr' & Hm & Hres)|(Er & Hl)]; rewrite Er; [|split; [done|by left]].
    exists A'. split_and!; try done. destruct Hres as [[-> _]|(-> & Hq & Hk)]; [by left|right]. split_and!; try done.
Qed.


(** ** Checking user pointers *)

Lemma get_pte_eq r D pgd va :
  dirs_ok lowmem_end r D -> pgd ∈ D -> is_u32 va ->
  get_pte lowmem_end r pgd va =
    Ret (if pte_present (pte_of r pgd va) then Some (pgd_entry r pgd va, pte_of r pgd va) else None) /\
  (pte_present (pte_of r pgd va) = true -> pgd_present (pgd_entry r pgd va) = true).
Proof.
  intros Hd Hp Hv. destruct (walk_dir _ Hlow _ _ _ _ Hd Hp Hv) as (H0 & Hwt & Hwf). unfold get_pte. rewrite H0. cbv zeta.
  destruct (pgd_present (pgd_entry r pgd va)) eqn:E; cbn [negb].
  - destruct (Hwt eq_refl) as [-> ->]. cbn [rbind]. by destruct (pte_present _).
  - by rewrite (Hwf eq_refl).
Qed.

(** What the program may do with the page. *)
Definition page_allowed A mm sp va (write : bool) : bool :=
  let p := default 0 (A !! (mm, va)) in
  if pte_present p then (if write then pte_write p || has p PTE_COW else true)
  else vma_allows (mmap (mm_areas sp)) va write false.

Lemma page_access_eq s x A mm sp va write :
  vm_ok s x A -> running x mm sp -> user_page va ->
  page_access_ok lowmem_end x (mm_pgd sp) va write = Ret (page_allowed A mm sp va write).
Proof.
  intros HV (Hcur & Hmm & Hpd) Hva. pose proof HV as [V1 V2 V3 V4 V5 V6]. unfold page_access_ok, page_allowed.
  destruct (get_pte_eq _ _ _ va (to_dirs _ _ _ V1) (mm_dir _ _ _ Hmm) (user_page_u32 _ Hva)) as [-> Hpde]. cbn [rbind].
  rewrite (to_entry _ _ _ V1 mm sp va Hmm Hva) in *. destruct (pte_present (default 0 (A !! (mm, va)))) eqn:Hp.
  - destruct (A !! (mm, va)) as [p|] eqn:E; [|done]. cbn [default] in *. unfold id in *.
    destruct (to_pde _ _ _ V1 mm sp (pgd_index va) Hmm (pgd_index_user _ (proj1 Hva)) (Hpde eq_refl)) as [U1 U2].
    unfold pgd_entry. rewrite U1, U2. destruct (fr_map _ _ _ _ V2 _ _ E Hp) as [-> _]. done.
  - unfold current_allows, current_areas. by rewrite Hcur, Hmm.
Qed.

Lemma access_loop_eq s x A mm sp write n :
  vm_ok s x A -> running x mm sp ->
  forall page d, 0 <= d < Z.of_nat n -> 0 <= page -> (4096 | page) -> page + 4096 * d < TASK_SIZE ->
  exists b, access_loop lowmem_end n x (mm_pgd sp) page (page + 4096 * d) write = Ret b /\
    (b = true <-> forall i, 0 <= i <= d -> page_allowed A mm sp (page + 4096 * i) write = true).
Proof.
  intros HV Hrun. induction n as [|n IH]; intros page d Hd Hp Hal Hle; [lia|]. cbn [access_loop].
  rewrite (page_access_eq s x A mm sp page write HV Hrun) by (split; [lia|done]). cbn [rbind].
  destruct (page_allowed A mm sp page write) eqn:E; cbn [negb].
  2:{ exists false. split; [done|]. split; [done|]. intros H. specialize (H 0 ltac:(lia)). by rewrite Z.mul_0_r, Z.add_0_r, E in H. }
  destruct (Z.eqb_spec page (page + 4096 * d)) as [Hz|Hnz].
  - exists true. split; [done|]. split; [|done]. intros _ i Hi. assert (i = 0) as -> by lia. by rewrite Z.mul_0_r, Z.add_0_r.
  - assert (Hw : page +w 4096 = page + 4096) by (apply add32_id; unfold TASK_SIZE in Hle; lia).
    rewrite Hw. replace (page + 4096 * d) with (page + 4096 + 4096 * (d - 1)) by lia.
    destruct (IH (page + 4096) (d - 1)) as (b & -> & Hb); [lia|lia|by apply Z.divide_add_r; [|exists 1]|lia|].
    exists b. split; [done|]. rewrite Hb. split; intros H i Hi.
    + destruct (decide (i = 0)) as [->|Hi0]; [by rewrite Z.mul_0_r, Z.add_0_r|].
      replace (page + 4096 * i) with (page + 4096 + 4096 * (i - 1)) by lia. apply H. lia.
    + replace (page + 4096 + 4096 * i) with (page + 4096 * (i + 1)) by lia. apply H. lia.
Qed.

(** C27: [access_ok] returns for every argument, and accepts a user buffer
    exactly when it is empty, or lies between the first page and [TASK_SIZE]
    without wrapping around and every page it touches is accessible to the
    program: mapped with the right permission or shared copy on write, or in an
    area that allows the access. *)
Theorem access_ok_correct s x A mm sp addr len write :
  vm_ok s x A -> running x mm sp -> is_u32 addr -> is_u32 len ->
  exists b, access_ok lowmem_end x (mm_pgd sp) addr len write = Ret b /\
    (b = true <-> len = 0 \/
       4096 <= addr /\ addr + len <= TASK_SIZE /\
       forall va, addr <= va < addr + len -> page_allowed A mm sp (base va) write = true).
Proof.
  intros HV Hrun Ha Hl. unfold access_ok. unfold is_u32 in Ha, Hl.
  destruct (dir_phys _ Hlow _ _ _ (to_dirs _ _ _ (vo_tabs _ _ _ _ HV)) (mm_dir _ _ _ (proj1 (proj2 Hrun)))) as (Hpgd & _).
  destruct (Z.eqb_spec (mm_pgd sp) 0); [done|]. destruct (Z.eqb_spec len 0) as [->|Hlen]; [exists true; split; [done|tauto]|].
  assert (Hrej : forall P : Prop, (P -> False) -> exists b, Ret false = Ret b /\ (b = true <-> len = 0 \/ P)).
  { intros P HP. exists false. split; [done|]. split; [done|]. intros [?|?]; [done|by destruct HP]. }
  set (e := (addr +w len) -w 1).
  assert (He : e = if addr + len - 1 <? 4294967296 then addr + len - 1 else addr + len - 1 - 4294967296).
  { unfold e, add32, sub32, u32. rewrite Zminus_mod_idemp_l. destruct (Z.ltb_spec (addr + len - 1) 4294967296).
    - apply Z.mod_small. lia.
    - symmetry. apply (Z.mod_unique_pos _ _ 1); lia. }
  change PAGE_SIZE with 4096. destruct (Z.ltb_spec addr 4096); [apply Hrej; lia|].
  destruct (Z.ltb_spec e addr) as [Hea|Hea].
  { apply Hrej. intros (_ & H1 & _). destruct (Z.ltb_spec (addr + len - 1) 4294967296); unfold TASK_SIZE in *; lia. }
  destruct (Z.ltb_spec (addr + len - 1) 4294967296) as [Hlt|]; [|lia]. clearbody e. subst e.
  destruct (Z.leb_spec TASK_SIZE (addr + len - 1)) as [|HT]; [apply Hrej; lia|].
  fold (base addr) (base (addr + len - 1)).
  assert (Hu1 : is_u32 addr) by (unfold is_u32; lia). assert (Hu2 : is_u32 (addr + len - 1)) by (unfold is_u32; lia).
  pose proof (base_eq _ Hu1) as B1. pose proof (base_eq _ Hu2) as B2. destruct (base_user_page addr ltac:(lia)) as [Bu [q Bq]].
  pose proof (Z.mod_pos_bound addr 4096 ltac:(lia)). pose proof (Z.mod_pos_bound (addr + len - 1) 4096 ltac:(lia)).
  set (d := (addr + len - 1) / 4096 - addr / 4096).
  assert (Hd : base (addr + len - 1) = base addr + 4096 * d).
  { rewrite B1, B2. unfold d. pose proof (Z.div_mod addr 4096 ltac:(lia)). pose proof (Z.div_mod (addr + len - 1) 4096 ltac:(lia)). lia. }
  assert (Hd0 : 0 <= d) by (unfold d; pose proof (Z.div_le_mono addr (addr + len - 1) 4096 ltac:(lia) ltac:(lia)); lia).
  rewrite Hd. destruct (access_loop_eq s x A mm sp write (Z.to_nat 1048576) HV Hrun (base addr) d) as (b & Eb & Hb).
  { unfold TASK_SIZE in HT. lia. }
  { lia. }
  { by exists q. }
  { rewrite <- Hd, B2. lia. }
  exists b. split; [done|]. rewrite Hb. split.
  - intros Hall. right. split_and!; [lia|lia|]. intros va Hva. assert (Huv : is_u32 va) by (unfold is_u32; lia).
    assert (Hi : base va = base addr + 4096 * (va / 4096 - addr / 4096)).
    { rewrite B1, (base_eq _ Huv). pose proof (Z.div_mod addr 4096 ltac:(lia)). pose proof (Z.div_mod va 4096 ltac:(lia)). lia. }
    rewrite Hi. apply Hall. unfold d. pose proof (Z.div_le_mono addr va 4096 ltac:(lia) ltac:(lia)).
    pose proof (Z.div_le_mono va (addr + len - 1) 4096 ltac:(lia) ltac:(lia)). lia.
  - intros [?|(_ & _ & Hall)] i Hi; [done|]. assert (Hv : base addr + 4096 * i <= addr + len - 1) by (rewrite Hd in B2; lia).
    destruct (decide (i = 0)) as [->|Hi0]; [rewrite Z.mul_0_r, Z.add_0_r; apply Hall; lia|].
    specialize (Hall (base addr + 4096 * i) ltac:(lia)).
    rewrite base_eq in Hall by (unfold is_u32; lia). rewrite Bq in Hall |- *.
    replace (q * 4096 + 4096 * i) with ((q + i) * 4096) in Hall |- * by lia. by rewrite Z.mod_mul, Z.sub_0_r in Hall by lia.
Qed.
(** ** Memory pressure *)


End proofs.

(** ** A first address space *)

Section first.
Context {M Y : Type} `{!KAlloc M, !KAllocSpec M, !FileReclaim Y, !FileReclaimOk Y}.
Variables (lowmem_end : Z) (s : pa) (h : M) (y : Y) (fk fm mm : Z) (areas : mm_struct).
Notation LE := (memlayout_lowmem_phys_end lowmem_end).

(** The kernel's directory in frame [fk], the address space [mm] with its
    directory in frame [fm], both empty. *)
Definition first_state : vmem M Y :=
  Vmem ∅ (fm + PAGE_OFFSET) (fk + PAGE_OFFSET) h {[mm := Space (fm + PAGE_OFFSET) areas]} (Some mm)
    (replicate 64 (Slot false None)) 0 0 (Pf 0 0 0 0 0 0 0 0 0 0 0) y false.

Hypothesis Hlow : 0 < lowmem_end <= LOWMEM_MAX.
Hypothesis Hok : pa_ok s.
Hypothesis Hready : buddy_ready s = true.
Hypothesis Htotal : total_pages s * 4096 <= LE.
Hypothesis Hfiles : forall q, ~ file_frame y q.
Hypothesis Hheap : km_ok h.
Hypothesis Hframes : frame_used s fk /\ frame_used s fm /\ fk <> fm.
Hypothesis Hrefs : ref s fk = 1 /\ ref s fm = 1.
Hypothesis Hmm : mm <> 0.
Hypothesis Hunmapped : forall q, 0 <= q < total_pages s -> mapcount (znth (pages s) q) = 0 /\ rmap_list (znth (pages s) q) = [].

Lemma first_rd p i : 0 <= i < 1024 -> rd (∅ : memory) p i = 0.
Proof. intros Hi. by apply rd_zero_page. Qed.

Lemma first_dirs pgd : pgd ∈ dirs first_state <-> pgd = fk + PAGE_OFFSET \/ pgd = fm + PAGE_OFFSET.
Proof.
  unfold dirs, first_state. cbn [kernel_directory mms]. rewrite map_fmap_singleton, map_img_singleton_L. cbn [mm_pgd].
  rewrite elem_of_union, !elem_of_singleton. done.
Qed.

Lemma first_mm m sp : mms first_state !! m = Some sp -> mm = m /\ Space (fm + PAGE_OFFSET) areas = sp.
Proof. apply lookup_singleton_Some. Qed.

Lemma first_frame f : frame_used s f -> 0 < f < LE /\ (4096 | f).
Proof. intros (H1 & H2 & H3 & _). split; [|done]. destruct H2 as [q ->]. rewrite Z.div_mul in H3 by lia. lia. Qed.

Lemma first_pt p : is_pt (ram first_state) (dirs first_state) p -> p = fk \/ p = fm.
Proof.
  destruct Hframes as (H1 & H2 & _). destruct (first_frame _ H1), (first_frame _ H2).
  intros [(pgd & i & _ & Hi & Hp & _)|(pgd & Hd & ->)]; [by rewrite first_rd in Hp|].
  apply first_dirs in Hd as [-> | ->]; rewrite (dphys_eq lowmem_end) by done; tauto.
Qed.

Lemma vm_ok_first : vm_ok lowmem_end s first_state ∅.
Proof using All.
  destruct Hframes as (U1 & U2 & Hne). destruct (first_frame _ U1) as [F1 D1]. destruct (first_frame _ U2) as [F2 D2].
  destruct (low_phys_end _ Hlow) as [HLE _]. unfold LOWMEM_MAX in HLE.
  split; try done.
  - split.
    + split.
      * done.
      * intros pgd [-> | ->]%first_dirs; eauto.
      * intros pgd i _ Hi Hp. by rewrite first_rd in Hp.
      * intros pgd i pgd' _ _ Hi Hp. by rewrite first_rd in Hp.
      * intros pgd i pgd' j _ _ Hi _ Hp. by rewrite first_rd in Hp.
    + intros m m' sp sp' [E1 _]%first_mm [E2 _]%first_mm _. congruence.
    + intros m sp [<- <-]%first_mm. split; [done|]. cbn [mm_pgd first_state kernel_directory]. lia.
    + intros i Hi. unfold first_state. cbn [ram kernel_directory]. by rewrite first_rd by lia.
    + intros m sp i _ Hi. cbv zeta. unfold first_state. cbn [ram]. by rewrite first_rd by lia.
    + intros m sp va [<- <-]%first_mm Hva. unfold pte_of, pgd_entry, first_state. cbn [ram mm_pgd].
      pose proof (pgd_index_range va (user_page_u32 _ Hva)). by rewrite first_rd.
    + intros m va p E. by rewrite lookup_empty in E.
  - split; try done.
    + intros q Hq. by destruct (Hfiles q).
    + intros p Hp. assert (Hr : frame_used s p /\ ref s p = 1) by (destruct (first_pt p Hp) as [-> | ->]; tauto).
      destruct Hr as [Hr ->]. split; [|lia]. split; [done|apply Hfiles].
  - assert (Hz : forall i, 0 <= i < 64 -> znth (swap_slots first_state) i = Slot false None).
    { intros i Hi. unfold first_state, znth. cbn [swap_slots]. rewrite lookup_total_replicate_2 by lia. done. }
    split; try done.
    + intros i b Hi Hb. by rewrite Hz in Hb.
    + intros i j b b' Hi Hj Hb. by rewrite Hz in Hb.
    + intros i Hi _. by rewrite Hz.
  - assert (Hr : forall q, 0 <= q < total_pages s -> rmaps (znth (pages s) q) = [] /\ item_nodes (znth (pages s) q) = []).
    { intros q Hq. destruct (Hunmapped q Hq) as [E1 E2]. unfold rmaps, item_nodes. by rewrite E1, E2. }
    split.
    + split; try done.
      * intros q Hq. destruct (Hunmapped q Hq) as [E1 E2]. destruct (Hr q Hq) as [E3 _]. unfold page_rmap_ok.
        rewrite E1, E3. split_and!; [done|constructor|by rewrite E2].
      * intros q Hq. unfold nodes_at. destruct (Hr q Hq) as [_ ->]. constructor.
      * intros q q' n Hq Hq' Hn. unfold nodes_at in Hn. destruct (Hr q Hq) as [_ E]. rewrite E in Hn. by apply elem_of_nil in Hn.
      * intros n (q & Hq & Hn). unfold nodes_at in Hn. destruct (Hr q Hq) as [_ E]. rewrite E in Hn. by apply elem_of_nil in Hn.
    + intros q k Hq Hk. destruct (Hr q Hq) as [E _]. rewrite E in Hk. by apply elem_of_nil in Hk.
Qed.
End first.

(** ** The small machine of [PageAlloc] with one program *)

#[global] Instance no_files : FileReclaim unit := {|
  fr_cache := fun w => (0, w); fr_writeback := fun w => (0, w); fr_slab := fun w => (0, w);
|}.

#[global] Program Instance no_files_ok : FileReclaimOk unit := {| file_frame := fun _ _ => False |}.
Next Obligation. intros f s y Hf Hok _. apply elem_of_cons in Hf as [->|[->|[->|[]%elem_of_nil]%elem_of_cons]%elem_of_cons]; by cbn. Qed.

Module Tiny_vm.
Definition low : Z := 2097152.
Definition s : pa := get_page (get_page Tiny.s2 (300 * 4096)) (301 * 4096).
(** The [mm_struct] is allocated at 1. *)
Definition heap : Heap.heap := Heap.Build_heap 8 4096 {[1]}.
(** One area of 16 pages, readable and writable, and one read-only page. *)
Definition areas : mm_struct := Mm 0 0 0 0 0 [Vma 16 65536 131072 (Z.lor VMA_READ VMA_WRITE) 0; Vma 17 262144 266240 VMA_READ 0].
Definition x : vmem Heap.heap unit := first_state heap tt (300 * 4096) (301 * 4096) 1 areas.

Lemma frame_facts :
  total_pages Tiny.s2 = 512 /\ refcount (znth (pages Tiny.s2) 300) = 0 /\ refcount (znth (pages (get_page Tiny.s2 (300 * 4096))) 301) = 0 /\
  ref s (300 * 4096) = 1 /\ ref s (301 * 4096) = 1.
Proof. vm_compute. done. Qed.

Lemma not_free q : q = 300 \/ q = 301 -> ~ free_page Tiny.s2 q.
Proof.
  destruct Tiny.s2_ok as (_ & _ & Hfree). intros Hq Hf. apply Hfree in Hf as [_ [Hr _]]. clear Hfree.
  destruct Tiny.kernel_frames as [K1 K2]. destruct Hq as [-> | ->]; congruence.
Qed.

Lemma two_frames s0 p q :
  pa_ok s0 -> 0 < p < total_pages s0 -> 0 < q < total_pages s0 -> ~ free_page s0 p -> ~ free_page s0 q ->
  refcount (znth (pages s0) p) = 0 -> refcount (znth (pages (get_page s0 (p * 4096))) q) = 0 ->
  let s1 := get_page (get_page s0 (p * 4096)) (q * 4096) in
  pa_ok s1 /\ frame_used s1 (p * 4096) /\ frame_used s1 (q * 4096).
Proof.
  intros Hok Hp Hq N1 N2 C1 C2 s1.
  destruct (get_page_post s0 (p * 4096) Hok) as (A1 & A2 & A3 & A4 & A5); rewrite ?Z.div_mul by lia; [lia|done|lia|].
  pose proof (total_of_static _ _ A2) as Ht1.
  destruct (get_page_post (get_page s0 (p * 4096)) (q * 4096) A1) as (B1 & B2 & B3 & B4 & B5);
    rewrite ?Z.div_mul by lia; [lia|by rewrite A3|lia|].
  pose proof (total_of_static _ _ B2) as Ht2. unfold frame_used, s1. rewrite !Z.div_mul, !B3, !A3, Ht2, Ht1 by lia.
  split_and!; try done; try lia; [by exists p|by exists q].
Qed.

Lemma s_ok : pa_ok s /\ frame_used s (300 * 4096) /\ frame_used s (301 * 4096).
Proof.
  destruct Tiny.s2_ok as (Hok & _ & _). destruct frame_facts as (Ht & C1 & C2 & _ & _).
  assert (Hr : 0 < 300 < total_pages Tiny.s2 /\ 0 < 301 < total_pages Tiny.s2) by (rewrite Ht; lia).
  exact (two_frames Tiny.s2 300 301 Hok (proj1 Hr) (proj2 Hr) (not_free 300 (or_introl eq_refl)) (not_free 301 (or_intror eq_refl)) C1 C2).
Qed.

Lemma unmapped : forallb (fun q => (mapcount (znth (pages s) q) =? 0) && match rmap_list (znth (pages s) q) with [] => true | _ => false end) (seqZ 0 512) = true.
Proof. vm_compute. done. Qed.

Lemma static_facts : total_pages s = 512 /\ buddy_ready s = true /\ memlayout_lowmem_phys_end low = 4194304.
Proof. vm_compute. done. Qed.

Lemma x_ok : vm_ok low s x ∅.
Proof.
  destruct s_ok as (Hok & U1 & U2). destruct frame_facts as (_ & _ & _ & R1 & R2). destruct static_facts as (Ht & Hr & Hl).
  apply vm_ok_first.
  - unfold low, LOWMEM_MAX. lia.
  - exact Hok.
  - exact Hr.
  - rewrite Ht, Hl. lia.
  - intros q [].
  - intros p Hp. cbn [heap Heap.used] in Hp. apply elem_of_singleton in Hp as ->. cbn. lia.
  - split; [exact U1|]. split; [exact U2|]. lia.
  - split; [exact R1|exact R2].
  - lia.
  - intros q Hq. rewrite Ht in Hq. pose proof unmapped as Hb. rewrite forallb_forall in Hb.
    specialize (Hb q). rewrite <- list_elem_of_In, elem_of_seqZ in Hb. specialize (Hb ltac:(lia)). apply andb_true_iff in Hb as [H1 H2].
    apply Z.eqb_eq in H1. split; [exact H1|]. by destruct (rmap_list _).
Qed.

Lemma x_running : running x 1 (Space (301 * 4096 + PAGE_OFFSET) areas).
Proof. done. Qed.
End Tiny_vm.

(** A write to the first page of the writable area. *)
Lemma Tiny_vm_resumes :
  match do_page_fault Tiny_vm.low 65541 6 (Tiny_vm.s, Tiny_vm.x) with Ret (Resumes, _) => true | _ => false end = true.
Proof. vm_compute. reflexivity. Qed.


Lemma access_ok_correct_witness :
  exists b, access_ok Tiny_vm.low Tiny_vm.x (301 * 4096 + PAGE_OFFSET) 131000 72 true = Ret b /\
    (b = true <-> 72 = 0 \/ 4096 <= 131000 /\ 131000 + 72 <= TASK_SIZE /\
       forall va, 131000 <= va < 131000 + 72 ->
         page_allowed ∅ 1 (Space (301 * 4096 + PAGE_OFFSET) Tiny_vm.areas) (base va) true = true).
Proof.
  assert (Hlow : 0 < Tiny_vm.low <= LOWMEM_MAX) by (unfold Tiny_vm.low, LOWMEM_MAX; lia).
  exact (access_ok_correct Tiny_vm.low Hlow Tiny_vm.s Tiny_vm.x ∅ 1 _ 131000 72 true Tiny_vm.x_ok Tiny_vm.x_running
    ltac:(unfold is_u32; lia) ltac:(unfold is_u32; lia)).
Defined.

(** The machine after the program wrote to its first page: its frame is
    mapped, and can be swapped out. *)
Definition state_of {A} (r : run (A * (pa * vmem Heap.heap unit))) (w : pa * vmem Heap.heap unit) : pa * vmem Heap.heap unit :=
  match r with Ret (_, w') => w' | _ => w end.

Definition Tiny_written : pa * vmem Heap.heap unit :=
  state_of (handle_mm_fault (M := Heap.heap) (Y := unit) Tiny_vm.low (Some 1) 65536 false true false (Tiny_vm.s, Tiny_vm.x))
    (Tiny_vm.s, Tiny_vm.x).

Definition Tiny_frame : Z := pte_pfn (pte_of (ram Tiny_written.2) (301 * 4096 + PAGE_OFFSET) 65536) / 4096.

Lemma Tiny_written_ok :
  exists A, vm_ok Tiny_vm.low Tiny_written.1 Tiny_written.2 A /\ running Tiny_written.2 1 (Space (301 * 4096 + PAGE_OFFSET) Tiny_vm.areas).
Proof.
  assert (Hlow : 0 < Tiny_vm.low <= LOWMEM_MAX) by (unfold Tiny_vm.low, LOWMEM_MAX; lia).
  destruct (missing_fault_post Tiny_vm.low Hlow Tiny_vm.s Tiny_vm.x ∅ 1 _ 65536 true false Tiny_vm.x_ok Tiny_vm.x_running)
    as [(r & s' & x' & A' & E & HV & Hr & _)|[E _]]; [split; [unfold TASK_SIZE; lia|by exists 16]|reflexivity|reflexivity|..];
    unfold Tiny_written; rewrite E.
  - exists A'. split; [exact HV|]. exact (running_rest _ _ _ _ Hr Tiny_vm.x_running).
  - exists ∅. split; [exact Tiny_vm.x_ok|exact Tiny_vm.x_running].
Qed.


Lemma Tiny_swaps_out :
  match swap_out_anon Tiny_vm.low Tiny_frame Tiny_written with Ret (0, _) => true | _ => false end = true /\
  0 <= Tiny_frame < total_pages Tiny_written.1.
Proof. vm_compute. split; [reflexivity|]. split; [discriminate|reflexivity]. Qed.

