(* ===== verification/AddrSpace.v ===== *)
(** * Address spaces ([mm/mmap.c])

    Copying an address space for [fork], tearing one down, and the changes of
    the page tables under [munmap] and [mprotect].  [mm_struct] objects are
    addresses of the heap, the keys of [mms]. *)

From stdpp Require Import base tactics numbers list gmap sets.
From Stdlib Require Import ZArith Lia.
From S2P Require Import Prelude Bootmem Buddy PageAlloc Rmap Vma Paging Swap Fault.

Definition SIZEOF_MM : Z := 28.

(** The pages a loop over an address range can visit at most. *)
Definition PAGES : nat := Z.to_nat 1048576.

Section code.
Context {M Y : Type} `{!KAlloc M, !FileReclaim Y}.
Variable lowmem_end : Z.
Notation vmem := (vmem M Y).
Implicit Types (s : pa) (x : vmem) (w : pa * vmem).

(** [for (va = start; va < end; va += PAGE_SIZE)] *)
Fixpoint for_pages (n : nat) (start end_ : Z) (body : Z -> pa * vmem -> run (pa * vmem)) w : run (pa * vmem) :=
  match n with
  | O => Ret w
  | S n' => if start <? end_ then let? w1 := body start w in for_pages n' (start +w 4096) end_ body w1 else Ret w
  end.

Definition page_start (v : vm_area_struct) : Z := Z.land (vm_start v) (not32 4095).
Definition page_end (v : vm_area_struct) : Z := Z.land (vm_end v +w 4095) (not32 4095).

(** ** Copying *)

(** One page of the loop in [dup_mm]. *)
Definition dup_page (src_pgd new_dir mm va : Z) w : run (pa * vmem) :=
  let? pte := get_pte_flags lowmem_end (ram w.2) src_pgd va in
  if negb (has pte PTE_PRESENT) || negb (has pte PTE_USER) then Ret w else
  let phys := pte_pfn pte in
  let flags := Z.land pte 4095 in
  let? (flags, w1) :=
    if has flags PTE_READ_WRITE then
      let flags1 := Z.lor (Z.land flags (not32 PTE_READ_WRITE)) PTE_COW in
      let? r := set_pte_flags lowmem_end (ram w.2) src_pgd va flags1 in
      Ret (flags1, put_ram w r)
    else Ret (flags, w) in
  let? w2 := map_page_ex lowmem_end new_dir phys va flags w1 in
  let w3 := on_rmap (page_dup_rmap mm va phys) w2 in
  Ret (get_page w3.1 phys, w3.2).

Fixpoint dup_areas (src_pgd new_dir mm : Z) (l : list vm_area_struct) w : run (pa * vmem) :=
  match l with
  | [] => Ret w
  | v :: l' =>
      let? w1 := for_pages PAGES (page_start v) (page_end v) (dup_page src_pgd new_dir mm) w in
      dup_areas src_pgd new_dir mm l' w1
  end.

(** Both arms of the code free the frame of the directory. *)
Definition free_pgd (pgd : Z) w : run (pa * vmem) :=
  if PAGE_OFFSET <=? pgd then free_frame (virt_to_phys_addr pgd) w else free_frame pgd w.

Definition dup_mm (src : Z) w : run (option Z * (pa * vmem)) :=
  match mms w.2 !! src with
  | None => Ret (None, w)
  | Some sp =>
      let? (dir, w1) := pgd_clone_kernel lowmem_end w in
      match dir with
      | None => Ret (None, w1)
      | Some new_dir =>
          match kmalloc SIZEOF_MM (vheap w1.2) with
          | (None, h) =>
              let? w2 := free_pgd new_dir (w1.1, with_vheap w1.2 h) in
              Ret (None, w2)
          | (Some mm, h) =>
              let a := mm_areas sp in
              let '(l, h1) := clone_loop (mmap a) [] h in
              let l := default [] l in
              match mmap a, l with
              | _ :: _, [] =>
                  let? w2 := free_pgd new_dir (w1.1, with_vheap w1.2 h1) in
                  Ret (None, (w2.1, with_vheap w2.2 (kfree mm (vheap w2.2))))
              | _, _ =>
                  let a' := Mm (start_code a) (end_code a) (start_stack a) (start_brk a) (brk a) l in
                  let x2 := with_mms (with_vheap w1.2 h1) (<[mm := Space new_dir a']> (mms w1.2)) in
                  let? w3 := dup_areas (mm_pgd sp) new_dir mm (mmap a) (w1.1, x2) in
                  Ret (Some mm, w3)
              end
          end
      end
  end.

Definition mm_create w : option Z * (pa * vmem) :=
  match kmalloc SIZEOF_MM (vheap w.2) with
  | (None, h) => (None, (w.1, with_vheap w.2 h))
  | (Some mm, h) =>
      (Some mm, (w.1, with_mms (with_vheap w.2 h) (<[mm := Space (page_directory w.2) (Mm 0 0 0 0 0 [])]> (mms w.2))))
  end.

(** ** Tearing down *)

(** [mm] is NULL as [None]. *)
Definition task_free_user_page_mapped (mm : option Z) (dir va_page : Z) w : run (Z * (pa * vmem)) :=
  if dir =? 0 then Ret (0, w) else
  let pde := pgd_entry (ram w.2) dir va_page in
  if negb (pgd_present pde) then Ret (0, w) else
  let? t := table_of lowmem_end pde in
  let pte := rd (ram w.2) t (pte_index va_page) in
  if negb (pte_present pte) then
    match swap_pte_decode pte with
    | Some slot => Ret (1, (w.1, swap_free_slot slot (with_ram w.2 (wr (ram w.2) t (pte_index va_page) 0))))
    | None => Ret (0, w)
    end
  else if negb (pte_user pte) then Ret (0, w)
  else
    let phys := pte_pfn pte in
    let w1 := put_ram w (wr (ram w.2) t (pte_index va_page) 0) in
    let w2 := match mm with Some mm => on_rmap (page_remove_rmap mm va_page phys) w1 | None => w1 end in
    let? w3 := free_frame phys w2 in
    Ret (1, w3).

(** [table] is not NULL. *)
Definition pte_table_empty (r : memory) (table : Z) : bool :=
  forallb (fun i => negb (pte_present (rd r table i))) (seqZ 0 1024).

(** The frame of the kernel's table for the entry, 0 if there is none. *)
Definition kernel_pde_phys x (i : Z) : Z :=
  if negb (kernel_directory x =? 0) && pgd_present (rd (ram x) (virt_to_phys_addr (kernel_directory x)) i)
  then pte_pfn (rd (ram x) (virt_to_phys_addr (kernel_directory x)) i) else 0.

(** The rest of a round of [zap_page_range], for a directory entry seen for
    the first time. *)
Definition zap_table (dir i : Z) w : run (pa * vmem) :=
  let pde := rd (ram w.2) (virt_to_phys_addr dir) i in
  if negb (pgd_present pde) then Ret w else
  let pde_phys := pte_pfn pde in
  let k := kernel_pde_phys w.2 i in
  if negb (k =? 0) && (k =? pde_phys) then Ret w else
  let? v := memlayout_directmap_phys_to_virt lowmem_end pde_phys in
  if negb (pte_table_empty (ram w.2) (virt_to_phys_addr v)) then Ret w else
  free_frame pde_phys (put_ram w (wr (ram w.2) (virt_to_phys_addr dir) i 0)).

Fixpoint zap_loop (n : nat) (mm : option Z) (dir va end_ last : Z) w : run (pa * vmem) :=
  match n with
  | O => Ret w
  | S n' =>
      if end_ <=? va then Ret w else
      let? (_, w1) := task_free_user_page_mapped mm dir va w in
      let i := pgd_index va in
      if i =? last then zap_loop n' mm dir (va +w 4096) end_ last w1
      else let? w2 := zap_table dir i w1 in zap_loop n' mm dir (va +w 4096) end_ i w2
  end.

Definition zap_page_range (mm : option Z) (dir start end_ : Z) w : run (pa * vmem) :=
  if dir =? 0 then Ret w else
  let page_start := Z.land start (not32 4095) in
  let page_end := Z.land (end_ +w 4095) (not32 4095) in
  if page_end <=? page_start then Ret w else
  zap_loop PAGES mm dir page_start page_end 4294967295 w.

(** The loop of [mm_destroy] over the directory. *)
Fixpoint free_tables (l : list Z) (pgd : Z) w : run (pa * vmem) :=
  match l with
  | [] => Ret w
  | i :: l' =>
      let pde := rd (ram w.2) (virt_to_phys_addr pgd) i in
      if negb (has pde PTE_PRESENT) then free_tables l' pgd w else
      let pde_phys := pte_pfn pde in
      let k := kernel_pde_phys w.2 i in
      if negb (k =? 0) && (k =? pde_phys) then free_tables l' pgd w
      else let? w1 := free_frame pde_phys w in free_tables l' pgd w1
  end.

Fixpoint zap_areas (mm pgd : Z) (l : list vm_area_struct) w : run (pa * vmem) :=
  match l with
  | [] => Ret w
  | v :: l' =>
      let? w1 := if page_start v <? page_end v then zap_page_range (Some mm) pgd (page_start v) (page_end v) w else Ret w in
      zap_areas mm pgd l' w1
  end.

(** [vma_list_free] and [kfree(mm)]. *)
Definition free_mm (mm : Z) (sp : space) w : pa * vmem :=
  let h := foldl (fun h v => kfree (vm_node v) h) (vheap w.2) (mmap (mm_areas sp)) in
  (w.1, with_mms (with_vheap w.2 (kfree mm h)) (delete mm (mms w.2))).

Definition mm_destroy (mm : Z) w : run (pa * vmem) :=
  match mms w.2 !! mm with
  | None => Ret w
  | Some sp =>
      if (mm_pgd sp =? 0) || (mm_pgd sp =? kernel_directory w.2) then Ret (free_mm mm sp w) else
      let? w1 := zap_areas mm (mm_pgd sp) (mmap (mm_areas sp)) w in
      let? w2 := free_tables (seqZ 0 1024) (mm_pgd sp) w1 in
      let? w3 := free_pgd (mm_pgd sp) w2 in
      Ret (free_mm mm sp w3)
  end.

(** ** Changing permissions *)

Definition update_page (pgd : Z) (write : bool) (va : Z) w : run (pa * vmem) :=
  let? pte := get_pte_flags lowmem_end (ram w.2) pgd va in
  if pte =? 0 then Ret w else
  let f1 := Z.lor (Z.land pte (PAGE_SIZE - 1)) (Z.lor PTE_USER PTE_PRESENT) in
  let f2 := if write then Z.lor f1 PTE_READ_WRITE else Z.land f1 (not32 PTE_READ_WRITE) in
  let f3 := if negb write then Z.land f2 (not32 PTE_COW) else f2 in
  let? r := set_pte_flags lowmem_end (ram w.2) pgd va f3 in
  Ret (put_ram w r).

Definition update_mapped_page_flags (mm : option Z) (start end_ prot : Z) w : run (Z * (pa * vmem)) :=
  match mm with
  | None => Ret (-1, w)
  | Some mm =>
      match mms w.2 !! mm with
      | None => Ret (-1, w)
      | Some sp =>
          if mm_pgd sp =? 0 then Ret (-1, w) else
          let page_start := Z.land start (not32 4095) in
          let page_end := Z.land (end_ +w 4095) (not32 4095) in
          let? w1 := for_pages PAGES page_start page_end (update_page (mm_pgd sp) (has prot VMA_WRITE)) w in
          Ret (0, w1)
      end
  end.
End code.

(** ** Plenty of memory *)

(** [n] frames can be taken from the first zone without reclaim. *)
Definition plenty (n : Z) (s : pa) : Prop :=
  exists t zs, contig_zonelist s = t :: zs /\
    znth (watermark (get_zone s t)) WMARK_HIGH + n < zone_free_pages (get_zone s t) /\
    0 <= znth (watermark (get_zone s t)) WMARK_HIGH.

Definition plentyb (n : Z) (s : pa) : bool :=
  match contig_zonelist s with
  | t :: _ => (znth (watermark (get_zone s t)) WMARK_HIGH + n <? zone_free_pages (get_zone s t)) && (0 <=? znth (watermark (get_zone s t)) WMARK_HIGH)
  | [] => false
  end.

Lemma plentyb_plenty n s : plentyb n s = true -> plenty n s.
Proof.
  unfold plentyb, plenty. destruct (contig_zonelist s) as [|t zs]; [done|]. intros [H1%Z.ltb_lt H2%Z.leb_le]%andb_true_iff. by exists t, zs.
Qed.

Lemma plenty_le n m s : m <= n -> plenty n s -> plenty m s.
Proof. intros H (t & zs & H1 & H2 & H3). exists t, zs. split_and!; try done. lia. Qed.

(** Nothing the allocator decides by changed. *)
Lemma plenty_same n s s' :
  contig_zonelist s' = contig_zonelist s -> (forall t, zone_free_pages (get_zone s' t) = zone_free_pages (get_zone s t)) ->
  (forall t, watermark (get_zone s' t) = watermark (get_zone s t)) -> plenty n s -> plenty n s'.
Proof. intros E1 E2 E3 (t & zs & H1 & H2 & H3). exists t, zs. by rewrite E1, E2, E3. Qed.

Lemma zone_has_free s t : pa_ok s -> 0 < zone_free_pages (get_zone s t) -> exists x, page_free (view s t) x.
Proof.
  intros Hok Hn. destruct (zone_free_pages_correct (buddy_max_order s) (view s t) (ok_buddy _ Hok t)) as (X & HX & E).
  change (bzone (view s t)) with (get_zone s t) in E.
  destruct (set_choose_or_empty X) as [[x Hx]|Hx]; [exists x; by apply HX|].
  apply size_empty_iff in Hx. rewrite Hx in E. lia.
Qed.

Section plenty.
Context {X : Type} `{!Reclaimers X}.

Lemma alloc_pages_plenty n s (x : X) :
  pa_ok s -> buddy_ready s = true -> 0 <= n -> plenty (n + 1) s ->
  exists p t s', alloc_pages GFP_KERNEL 0 (s, x) = (Some (p * 4096), (s', x)) /\ granted s t p 0 s' /\ pa_ok s' /\
    pa_static s' = pa_static s /\ plenty n s'.
Proof.
  intros Hok Hr Hn (t & zs & Hz & Hp & Hw). pose proof (ok_zones _ Hok) as (Z1 & Z2 & Z3 & _ & _ & _ & _ & Zmo).
  destruct (zone_has_free s t Hok ltac:(lia)) as [q Hq].
  pose proof (alloc_in_zone s t 0 Hok ltac:(lia)) as Ha. cbv zeta in Ha.
  pose proof (buddy_alloc_post (buddy_max_order s) (view s t) 0 (ok_buddy _ Hok t) ltac:(lia)) as HP.
  destruct (buddy_alloc (buddy_max_order s) (view s t) 0) as [p b] eqn:Eb. cbn [fst snd] in *.
  destruct HP as [(-> & _ & HP)|_].
  { exfalso. apply (HP q); [exists q; lia|]. intros y ->%in_block_0. done. }
  destruct Ha as [[-> _]|(Hp0 & Hok' & Hg)]; [exfalso|].
  { pose proof (buddy_alloc_post (buddy_max_order s) (view s t) 0 (ok_buddy _ Hok t) ltac:(lia)) as HP. rewrite Eb in HP. cbn [fst snd] in HP.
    destruct HP as [(_ & _ & HP)|(Hb & _)]; [|destruct Hb as (? & ? & _); lia]. apply (HP q); [exists q; lia|]. intros y ->%in_block_0. done. }
  set (s' := take_refs (put s t b) p 0) in *. pose proof (gr_static _ _ _ _ _ Hg) as Hst.
  assert (Hwm : zone_watermark_ok (get_zone s t) 0 WMARK_HIGH = true).
  { unfold zone_watermark_ok. change (1 <<w 0) with 1. pose proof (zone_free_pages_range (get_zone s t)).
    destruct (Z.ltb_spec (zone_free_pages (get_zone s t)) 1); [lia|]. rewrite sub32_id by lia. apply Z.ltb_lt. lia. }
  assert (Hps : pa_static s' = pa_static s).
  { unfold s', take_refs in *. rewrite get_with_pages, get_put in Hst. rewrite static_with_pages. by apply static_put. }
  assert (Hpr : p < total_pages s).
  { pose proof (gr_was_free _ _ _ _ _ Hg p ltac:(by apply in_block_0)) as Hf. apply (free_page_zone s p (ok_zones _ Hok) (ok_buddy _ Hok)) in Hf. lia. }
  exists p, t, s'. split_and!; try done.
  - unfold alloc_pages. cbn [alloc_tries]. unfold __alloc_pages_nodemask. cbn [fst snd]. rewrite Hr. cbn [negb].
    change (default_zonelist_for_gfp s GFP_KERNEL) with (contig_zonelist s). rewrite Hz. cbn [try_passes try_zones].
    unfold try_zone. cbn [fst snd]. rewrite Hwm. cbn [Z.eqb andb negb]. rewrite Eb. destruct (Z.ltb_spec p 0); [lia|].
    destruct (Z.eqb_spec p 0); [lia|]. fold s'. change PAGE_SIZE with 4096. rewrite mul32_id by lia. done.
  - exists t, zs. assert (Ez : contig_zonelist s' = contig_zonelist s) by (unfold pa_static in Hps; congruence).
    rewrite Ez, (gr_count _ _ _ _ _ Hg). unfold zone_static in Hst. injection Hst as _ _ _ _ _ -> _ _.
    change (2 ^ 0) with 1. split_and!; try done. lia.
Qed.
End plenty.

(** The number of free frames of a zone depends on the free frames only. *)
Lemma zone_page_free s t x : pa_ok s -> page_free (view s t) x <-> free_page s x /\ in_zone (get_zone s t) x.
Proof.
  intros Hok. split.
  - intros Hx. split; [by exists t|]. destruct (ok_buddy _ Hok t) as (L & HL & _).
    rewrite (page_free_iff _ _ _ _ HL) in Hx. by destruct (free_in_bounds _ _ _ _ HL Hx).
  - intros [[t' Hx] Hz]. destruct (ok_buddy _ Hok t') as (L & HL & _). pose proof Hx as Hx'.
    rewrite (page_free_iff _ _ _ _ HL) in Hx'. destruct (free_in_bounds _ _ _ _ HL Hx') as [_ Hz'].
    by rewrite (zones_disjoint s t t' x (ok_zones _ Hok) Hz Hz').
Qed.

Lemma plenty_free n s s' :
  pa_ok s -> pa_ok s' -> pa_static s' = pa_static s -> (forall x, free_page s' x <-> free_page s x) -> plenty n s -> plenty n s'.
Proof.
  intros Hok Hok' Hst Hf. pose proof (total_of_static _ _ Hst) as Ht.
  apply plenty_same; [unfold pa_static in Hst; congruence|intros t|intros t; unfold pa_static in Hst; destruct t; cbn [get_zone]; congruence].
  destruct (zone_free_pages_correct _ _ (ok_buddy _ Hok t)) as (X & HX & EX).
  destruct (zone_free_pages_correct _ _ (ok_buddy _ Hok' t)) as (X' & HX' & EX').
  change (bzone (view s t)) with (get_zone s t) in EX. change (bzone (view s' t)) with (get_zone s' t) in EX'. rewrite EX, EX'.
  f_equal. f_equal. apply set_eq. intros q. rewrite HX, HX', !zone_page_free, Hf by done.
  destruct (ok_zones _ Hok) as (_ & _ & _ & E1 & E2 & E3 & E4 & _). destruct (ok_zones _ Hok') as (_ & _ & _ & E5 & E6 & E7 & E8 & _).
  unfold in_zone, zend. destruct t; cbn [get_zone]; rewrite ?E1, ?E2, ?E3, ?E4, ?E5, ?E6, ?E7, ?E8, Ht; done.
Qed.

Section proofs.
Context {M Y : Type} `{!KAlloc M, !KAllocSpec M, !FileReclaim Y, !FileReclaimOk Y}.
Variable lowmem_end : Z.
Notation vmem := (vmem M Y).
Notation LE := (memlayout_lowmem_phys_end lowmem_end).
Notation vm_ok := (vm_ok lowmem_end).
Implicit Types (s : pa) (x : vmem) (w : pa * vmem) (A : entries) (k : Z * Z).
Hypothesis Hlow : 0 < lowmem_end <= LOWMEM_MAX.

(** ** Steps without reclaim *)

Lemma alloc_page_plenty n s x A :
  vm_ok s x A -> 0 <= n -> plenty (n + 1) s ->
  exists f s', alloc_page lowmem_end (s, x) = Ret (Some f, (s', x)) /\ vm_ok s' x A /\ evolves s x A s' x A /\
    fresh s' x A f /\ (forall g, in_flight s x A g -> g <> f) /\ plenty n s' /\ held_same s s' /\ maps_same s s'.
Proof.
  intros HV Hn Hp. destruct (alloc_page_post lowmem_end Hlow s x A HV) as (r & s1 & x1 & A1 & E & HV1 & Hev & _ & Hr).
  destruct (@alloc_pages_plenty vmem (kernel_reclaim lowmem_end) n s x (fr_pa _ _ _ _ (vo_frames _ _ _ _ HV))
    (fr_ready _ _ _ _ (vo_frames _ _ _ _ HV)) Hn Hp) as (p & t & s' & Ea & Hg & _ & _ & Hpl).
  unfold alloc_page in E. rewrite Ea in E. cbn [snd] in E. rewrite (vo_running _ _ _ _ HV) in E. injection E as <- <- <-.
  pose proof (entries_unique _ _ _ _ _ _ HV1 HV) as ->. destruct Hr as [Hr1 Hr2].
  exists (p * 4096), s'. split_and!; try done; [|by eapply held_same_granted|intros q; apply (gr_maps _ _ _ _ _ Hg)].
  unfold alloc_page. rewrite Ea. cbn [snd]. by rewrite (vo_running _ _ _ _ HV).
Qed.

(** [map_page_ex] of a user page with memory for a table. *)
Lemma map_page_plenty n s x A mm sp va f fl :
  vm_ok s x A -> 0 <= n -> plenty (n + 1) s -> mms x !! mm = Some sp -> user_page va -> (4096 | f) -> 0 < f < LE ->
  0 <= fl < 4096 -> has fl PTE_USER = true ->
  exists s1 x1 r, vm_ok s1 x1 A /\ evolves s x A s1 x1 A /\ x1 = with_ram x (ram x1) /\ plenty n s1 /\
    map_page_ex lowmem_end (mm_pgd sp) f va fl (s, x) = Ret (s1, with_ram x1 r) /\
    entry_set lowmem_end (dirs x1) (mm_pgd sp) va (Z.lor f fl) (ram x1) r /\
    held_same s s1 /\ maps_same s s1.
Proof.
  intros HV Hn Hpl Hmm Hva Hal Hfr Hfl Hus. pose proof HV as [V1 V2 V3 V4 V5 V6]. pose proof (to_dirs _ _ _ V1) as Hd.
  pose proof (mm_dir _ _ _ Hmm) as Hdir. pose proof (user_page_u32 _ Hva) as Hv'. destruct (low_phys_end _ Hlow) as [HLE _].
  destruct (walk_dir _ Hlow _ _ _ _ Hd Hdir Hv') as (H0 & Hwt & Hwf).
  unfold map_page_ex. rewrite H0. cbn [fst snd].
  assert (Hfin : forall r D, dirs_ok lowmem_end r D -> mm_pgd sp ∈ D -> pgd_present (pgd_entry r (mm_pgd sp) va) = true ->
    table_of lowmem_end (pgd_entry r (mm_pgd sp) va) = Ret (pte_pfn (pgd_entry r (mm_pgd sp) va)) /\
    entry_set lowmem_end D (mm_pgd sp) va (Z.lor f fl) r
      (wr r (pte_pfn (pgd_entry r (mm_pgd sp) va)) (pte_index va) (Z.lor f fl))).
  { intros r D HdD HinD Hpr. destruct (walk_dir _ Hlow _ _ _ _ HdD HinD Hv') as (_ & Hwt1 & _).
    destruct (Hwt1 Hpr) as [Et _]. split; [done|]. apply write_entry; try done; [apply Hva|].
    apply entry_u32; try done. unfold LOWMEM_MAX in *. lia. }
  destruct (pgd_present (pgd_entry (ram x) (mm_pgd sp) va)) eqn:Ep; cbn [negb].
  - destruct (set_pde_user_ok _ Hlow _ _ _ _ Hd Hdir Hv' Ep) as (S1 & _ & _ & _ & S5 & _).
    destruct (Hfin _ _ S1 Hdir S5) as [Et Hes]. eexists s, x, _. split_and!; [done|by apply (evolves_refl lowmem_end)|by destruct x| | | |by intros q|by intros q].
    + by apply (plenty_le (n + 1)); [lia|].
    + rewrite Hus. cbn [rbind put_ram fst snd with_ram ram]. rewrite Et. done.
    + eapply entry_set_trans; [by apply pde_user_entry_set|done].
  - destruct (alloc_page_plenty n s x A HV Hn Hpl) as (t & s1 & Ea & HV1 & Hev & Hfresh & Hother & Hpl1 & Hh & Hm). rewrite Ea. cbn [rbind fst snd].
    pose proof Hfresh as (((Hu & Hff) & Hz & Hnpt) & Href & Hrm).
    pose proof (frame_low _ _ _ _ _ (vo_frames _ _ _ _ HV1) Hu) as [Htr _].
    rewrite (directmap_low lowmem_end t) by lia. cbn [rbind]. rewrite (phys_virt _ Hlow) by lia. rewrite Hus.
    change (set_pde_user _ (mm_pgd sp) va) with (with_table (ram x) (mm_pgd sp) va t).
    destruct (vm_ok_with_table lowmem_end Hlow s1 x A mm sp va t HV1 Hfresh Hmm Hva Ep) as (HV2 & Hmem & Hpt2 & Hdata & Hpde & Hpr).
    set (x2 := with_ram x (with_table (ram x) (mm_pgd sp) va t)) in *.
    destruct (Hfin (ram x2) (dirs x2)) as [Et Hes]; [apply (to_dirs _ _ _ (vo_tabs _ _ _ _ HV2))|by apply (mm_dir _ mm)|done|].
    eexists s1, x2, _. split_and!; try done.
    + by eapply evolves_with_table.
    + cbn [put_ram fst snd]. fold x2. rewrite Et. done.
Qed.

(** ** A new address space *)

Lemma page_eq (l l' : list Z) :
  length l = 1024%nat -> length l' = 1024%nat -> (forall i, 0 <= i < 1024 -> znth l i = znth l' i) -> l = l'.
Proof.
  intros H1 H2 H. apply list_eq. intros i. destruct (Nat.lt_ge_cases i 1024) as [Hi|Hi].
  - specialize (H (Z.of_nat i) ltac:(lia)). unfold znth in H. rewrite Nat2Z.id in H.
    destruct (lookup_lt_is_Some_2 l i ltac:(lia)) as [a Ea]. destruct (lookup_lt_is_Some_2 l' i ltac:(lia)) as [b Eb].
    rewrite (list_lookup_total_correct _ _ _ Ea), (list_lookup_total_correct _ _ _ Eb) in H. congruence.
  - rewrite !lookup_ge_None_2 by lia. done.
Qed.

(** The copy of words of one page into another. *)
Definition copy_words (r : memory) (d k n : Z) : memory :=
  foldl (fun r i => wr r d i (rd r k i)) (<[d := zero_page]> r) (seqZ 0 n).

Lemma copy_loop r (d k : Z) n :
  pages_sized r -> d <> k -> Z.of_nat n <= 1024 ->
  let r' := copy_words r d k (Z.of_nat n) in
  pages_sized r' /\ (forall i, 0 <= i < 1024 -> rd r' d i = if i <? Z.of_nat n then rd r k i else 0) /\
  forall p, p <> d -> frame r' p = frame r p.
Proof.
  intros Hs Hne. unfold copy_words. induction n as [|n IH]; intros Hn; cbv zeta.
  - change (seqZ 0 (Z.of_nat 0)) with (@nil Z). cbn [foldl]. change (Z.of_nat 0) with 0. split_and!.
    + intros p l [[-> <-]|[_ E]]%lookup_insert_Some; [apply zero_page_sized|by apply (Hs p)].
    + intros i Hi. destruct (Z.ltb_spec i 0); [lia|]. apply rd_zero_page; [|done]. by rewrite frame_insert, decide_True.
    + intros p Hp. by rewrite frame_insert, decide_False.
  - destruct IH as (I1 & I2 & I3); [lia|]. rewrite seqZ_S, Nat2Z.inj_succ. rewrite foldl_app. cbn [foldl].
    set (r1 := foldl _ _ (seqZ 0 (Z.of_nat n))) in *. rewrite Z.add_0_l. assert (Ek : rd r1 k (Z.of_nat n) = rd r k (Z.of_nat n)) by (unfold rd; by rewrite I3).
    split_and!.
    + apply wr_sized; [done|]. rewrite Ek. by apply rd_u32.
    + intros i Hi. rewrite rd_wr; [|done|lia|lia]. rewrite Ek. destruct (decide _) as [[_ ->]|Hd].
      * destruct (Z.ltb_spec (Z.of_nat n) (Z.succ (Z.of_nat n))); [done|lia].
      * rewrite I2 by done. destruct (Z.ltb_spec i (Z.of_nat n)), (Z.ltb_spec i (Z.succ (Z.of_nat n))); try done; [lia|].
        exfalso. apply Hd. split; [done|lia].
    + intros p Hp. rewrite frame_wr_other by done. by apply I3.
Qed.

Lemma copy_page r (d k : Z) :
  pages_sized r -> d <> k ->
  pages_sized (copy_words r d k 1024) /\ frame (copy_words r d k 1024) d = frame r k /\
  forall p, p <> d -> frame (copy_words r d k 1024) p = frame r p.
Proof.
  intros Hs Hne. destruct (Z_of_nat_complete 1024) as [n En]; [lia|].
  destruct (copy_loop r d k n Hs Hne) as (G1 & G2 & G3); [lia|]. rewrite <- En in *.
  revert G1 G2 G3. generalize (copy_words r d k 1024). intros r' G1 G2 G3. split; [exact G1|]. split; [|exact G3]. destruct (frame_sized _ d G1) as [L1 _]. destruct (frame_sized r k Hs) as [L2 _].
  apply page_eq; [exact L1|exact L2|]. intros i Hi. specialize (G2 i Hi). unfold rd in G2. rewrite G2.
  destruct (Z.ltb_spec i 1024); [reflexivity|lia].
Qed.

Lemma phys_to_virt_low t : 0 < t < LE -> phys_to_virt t = t + PAGE_OFFSET.
Proof. intros Ht. destruct (low_phys_end _ Hlow) as [HLE _]. unfold LOWMEM_MAX, phys_to_virt, PAGE_OFFSET in *. apply add32_id. lia. Qed.

(** The directory is a copy of the kernel's, the address space is empty. *)
Lemma vm_ok_new_mm s x A t r mm a :
  vm_ok s x A -> fresh s x A t -> mms x !! mm = None -> mm <> 0 -> pages_sized r ->
  frame r t = frame (ram x) (virt_to_phys_addr (kernel_directory x)) ->
  (forall p, p <> t -> frame r p = frame (ram x) p) ->
  let x' := with_mms (with_ram x r) (<[mm := Space (phys_to_virt t) a]> (mms x)) in
  vm_ok s x' A /\ (forall k, user_mem x' A k = user_mem x A k) /\ phys_to_virt t ∉ dirs x.
Proof.
  intros HV Hfr Hnew Hmm0 Hsz Hk Ho x'. pose proof HV as [V1 V2 V3 V4 V5 V6]. pose proof Hfr as (((Hu & Hff) & Hz & Hnpt) & Href & Hrm).
  pose proof (frame_low _ _ _ _ _ V2 Hu) as [Ht _]. pose proof (phys_to_virt_low t Ht) as Ev. set (v := phys_to_virt t) in *.
  assert (Hdv : virt_to_phys_addr v = t) by (apply (phys_virt _ Hlow); lia).
  assert (Hvd : v ∉ dirs x) by (intros Hin; apply Hnpt; right; by exists v).
  pose proof (to_dirs _ _ _ V1) as Hd. set (kd := kernel_directory x) in *.
  assert (Hkd : kd ∈ dirs x) by (apply elem_of_union_l; by apply elem_of_singleton).
  assert (HnA : forall va, A !! (mm, va) = None).
  { intros va. destruct (A !! (mm, va)) as [p|] eqn:E; [|done]. destruct (to_key _ _ _ V1 mm va p E) as (_ & _ & sp & Hsp). congruence. }
  assert (Hdirs : forall pgd, pgd ∈ dirs x' <-> pgd = v \/ pgd ∈ dirs x).
  { intros pgd. unfold dirs, x'. cbn [with_mms with_ram mms kernel_directory]. rewrite fmap_insert.
    rewrite map_img_insert_notin_L by (by rewrite lookup_fmap, Hnew). cbn [mm_pgd]. rewrite !elem_of_union, !elem_of_singleton. tauto. }
  set (g := fun pgd => if decide (pgd = v) then kd else pgd).
  assert (Hg : forall pgd, pgd ∈ dirs x' -> g pgd ∈ dirs x).
  { intros pgd Hp. unfold g. case_decide; [done|]. apply Hdirs in Hp as [?|?]; done. }
  assert (Hrd : forall pgd i, pgd ∈ dirs x' -> rd r (virt_to_phys_addr pgd) i = rd (ram x) (virt_to_phys_addr (g pgd)) i).
  { intros pgd i Hp. unfold g, rd. case_decide as Hc; [by rewrite Hc, Hdv, Hk|]. rewrite Ho; [done|].
    apply Hdirs in Hp as [?|Hp]; [done|]. intros E. apply Hnpt. right. by exists pgd. }
  assert (Hup : forall i, pgd_present (rd (ram x) (virt_to_phys_addr kd) i) = true -> 0 <= i < 1024 -> 768 <= i).
  { intros i Hp Hi. apply Z.nlt_ge. intros Hlt. pose proof (to_kernel _ _ _ V1 i ltac:(lia)) as HT. fold kd in HT. congruence. }
  assert (Hpt : forall p, is_pt r (dirs x') p <-> is_pt (ram x) (dirs x) p \/ p = t).
  { intros p. split.
    - intros [(pgd & i & Hp & Hi & Hpr & ->)|(pgd & Hp & ->)].
      + left. left. exists (g pgd), i. rewrite (Hrd _ _ Hp) in Hpr |- *. split; [by apply Hg|]. done.
      + apply Hdirs in Hp as [->|Hp]; [by right|left; right; by exists pgd].
    - intros [[(pgd & i & Hp & Hi & Hpr & ->)|(pgd & Hp & ->)]| ->].
      + left. exists pgd, i. assert (Hp' : pgd ∈ dirs x') by (apply Hdirs; by right). rewrite Hrd by done. unfold g.
        rewrite decide_False by (by intros ->). done.
      + right. exists pgd. split; [apply Hdirs; by right|done].
      + right. exists v. split; [apply Hdirs; by left|done]. }
  assert (Hdok : dirs_ok lowmem_end r (dirs x')).
  { pose proof Hd as [K1 K2 K3 K4 K5]. split.
    - done.
    - intros pgd [->|Hp]%Hdirs; [exists t; split_and!; try done; try lia; apply Hu|by apply K2].
    - intros pgd i Hp Hi. rewrite Hrd by done. by apply K3; [apply Hg|].
    - intros pgd i pgd' Hp Hp' Hi. rewrite Hrd by done. intros Hpr. apply Hdirs in Hp' as [->|Hp'].
      + rewrite Hdv. intros E. apply Hnpt. left. exists (g pgd), i. split; [by apply Hg|]. done.
      + apply K4; try done. by apply Hg.
    - intros pgd i pgd' j Hp Hp' Hi Hj. rewrite !Hrd by done. intros P1 P2 E.
      destruct (K5 (g pgd) i (g pgd') j (Hg _ Hp) (Hg _ Hp') Hi Hj P1 P2 E) as [-> Hor]. split; [done|].
      unfold g in P1, P2, Hor. destruct (decide (pgd = v)) as [E1|E1], (decide (pgd' = v)) as [E2|E2].
      + left. congruence.
      + right. by apply Hup.
      + right. by apply Hup.
      + done. }
  assert (Hpe : forall pgd va, pgd ∈ dirs x -> pgd_entry r pgd va = pgd_entry (ram x) pgd va).
  { intros pgd va Hp. unfold pgd_entry. rewrite Hrd by (apply Hdirs; by right). unfold g. by rewrite decide_False by (by intros ->). }
  split_and!; [split; try done| |done].
  - destruct V1 as [T1 T2 T3 T4 Tp T5 T6]. fold kd in T4. split; try done; cbn [x' with_mms with_ram ram mms kernel_directory].
    + intros m m' sp sp' [[<- <-]|[N1 E1]]%lookup_insert_Some [[<- <-]|[N2 E2]]%lookup_insert_Some E; try done; cbn [mm_pgd] in E.
      * exfalso. apply Hvd. rewrite E. by apply (mm_dir _ m').
      * exfalso. apply Hvd. rewrite <- E. by apply (mm_dir _ m).
      * by apply (T2 m m' sp sp').
    + intros m sp [[<- <-]|[N1 E1]]%lookup_insert_Some; [split; [done|]|by apply T3]. cbn [mm_pgd]. intros E. apply Hvd. fold v in E. by rewrite E.
    + intros i Hi. rewrite Hrd by (apply Hdirs; by right). unfold g. rewrite decide_False by (intros E; apply Hvd; by rewrite <- E). by apply T4.
    + intros m sp i [[<- <-]|[N1 E1]]%lookup_insert_Some Hi; cbn [mm_pgd]; cbv zeta.
      * rewrite Hrd by (apply Hdirs; by left). unfold g. rewrite decide_True by done. by rewrite (T4 i Hi).
      * rewrite Hrd by (apply Hdirs; right; by apply (mm_dir _ m)). unfold g.
        rewrite decide_False by (intros E; apply Hvd; rewrite <- E; by apply (mm_dir _ m)). by apply (Tp m).
    + intros m sp va [[<- <-]|[N1 E1]]%lookup_insert_Some Hva; cbn [mm_pgd].
      * rewrite HnA. unfold pte_of, pgd_entry. rewrite Hrd by (apply Hdirs; by left). unfold g. rewrite decide_True by done.
        by rewrite (T4 _ (pgd_index_user _ (proj1 Hva))).
      * rewrite <- (T5 m sp va E1 Hva). unfold pte_of. rewrite Hpe by (by apply (mm_dir _ m)).
        destruct (pgd_present (pgd_entry (ram x) (mm_pgd sp) va)) eqn:Ep; [|done]. unfold rd. rewrite Ho; [done|]. intros E. apply Hnpt. left.
        exists (mm_pgd sp), (pgd_index va). split_and!; try done; [by apply (mm_dir _ m)|apply pgd_index_range, user_page_u32, Hva..].
    + intros m va p E. destruct (T6 m va p E) as (H1 & H2 & [sp Hsp]). split_and!; try done. destruct (decide (m = mm)) as [->|Hne]; [congruence|].
      exists sp. by rewrite lookup_insert_ne.
  - destruct V2 as [F1 F2 F3 FF F4 F5]. split; try done; cbn [x' with_mms with_ram ram].
    + intros p [Hp| ->]%Hpt; [by apply F4|]. rewrite Href. split; [done|lia].
    + intros k p E Hp. destruct (F5 k p E Hp) as (G1 & G2 & G3 & G4). split_and!; try done; try lia.
      intros [Hx|Hx]%Hpt; [done|]. pose proof (nmaps_pos A k p E Hp). rewrite Hx in *. lia.
  - destruct V3 as [S1 S2 S3 S4 S5 S6]. by split.
  - destruct V4 as [R1 R2]. by split.
  - destruct V5 as [H1 H2]. split; [done|]. intros k p sp E Hp Hw Hc Hsp. cbn [x' with_mms mms] in Hsp.
    apply lookup_insert_Some in Hsp as [[Hx <-]|[_ Hsp]]; [|by apply (H2 k p sp)]. destruct k as [m va]. cbn in Hx. subst m. by rewrite HnA in E.
  - intros k. unfold user_mem. destruct (A !! k) as [p|] eqn:E; [|done]. cbn [mbind option_bind].
    apply (entry_data_same x x' A k p E); [|done]. intros Hp. cbn [x' with_mms with_ram ram]. apply Ho. intros Hx.
    pose proof (nmaps_pos A k p E Hp). rewrite Hx in *. lia.
Qed.

(** ** Sharing a page *)

(** A frame records no more mappings than there are. *)
Lemma rmaps_le s x A f : vm_ok s x A -> frame_used s f -> zlen (rmaps (znth (pages s) (f / 4096))) <= nmaps A f.
Proof.
  intros HV Hu. pose proof (frame_low _ _ _ _ _ (vo_frames _ _ _ _ HV) Hu) as [_ Hq].
  pose proof (vo_rmaps _ _ _ _ HV) as [R1 R2]. destruct (ri_pages _ _ R1 (f / 4096) ltac:(lia)) as (_ & Hnd & _).
  apply count_if_keys; [done|]. intros k Hk. destruct (R2 (f / 4096) k ltac:(lia) Hk) as (p & E & Hp).
  exists p. split; [done|]. by rewrite (frame_mul f (proj1 (proj2 Hu))) in Hp.
Qed.

(** The entry [p] of [src] may be shared as it is. *)
Definition shareable x (src va p : Z) : Prop :=
  pte_write p = false /\
  (has p PTE_COW = true \/ forall sp, mms x !! src = Some sp -> vma_allows (mmap (mm_areas sp)) va true false = false).

Lemma vm_ok_share s x A src mm sp va p f fl r :
  vm_ok s x A -> mms x !! mm = Some sp -> user_page va -> A !! (mm, va) = None ->
  A !! (src, va) = Some p -> pte_present p = true -> pte_pfn p = f -> shareable x src va p ->
  has fl PTE_READ_WRITE = false -> (has fl PTE_COW = true \/ vma_allows (mmap (mm_areas sp)) va true false = false) ->
  0 <= fl < 4096 -> has fl PTE_PRESENT = true -> has fl PTE_USER = true -> ref s f < 65535 ->
  entry_set lowmem_end (dirs x) (mm_pgd sp) va (Z.lor f fl) (ram x) r ->
  let A' := upd_entry A (mm, va) (Z.lor f fl) in
  let w := on_rmap (page_dup_rmap mm va f) (s, with_ram x r) in
  let s' := get_page w.1 f in
  vm_ok s' w.2 A' /\ page_becomes x A (mm, va) (Some (frame (ram x) f)) w.2 A' /\ A' !! (mm, va) = Some (Z.lor f fl) /\
  (exists h, w.2 = with_vheap (with_ram x r) h) /\ pa_static s' = pa_static s /\
  (forall q, free_page s' q <-> free_page s q) /\
  (forall q, 0 <= q < total_pages s -> refcount (znth (pages s') q) <= refcount (znth (pages s) q) + 1).
Proof.
  intros HV Hmm Hva Hno E Hp Hf [Hpw Hps] Hrw Hcow Hfl Hpr Hus Href Hes A' w s'.
  pose proof HV as [V1 V2 V3 V4 V5 V6]. destruct (fr_map _ _ _ _ V2 _ _ E Hp) as (_ & [Hu Hff] & Hnpt & Hcnt). rewrite Hf in *.
  pose proof (frame_low _ _ _ _ _ V2 Hu) as [Hlo Hq]. destruct (low_phys_end _ Hlow) as [HLE _]. unfold LOWMEM_MAX in HLE.
  assert (Hal : (4096 | f)) by apply Hu. set (v := Z.lor f fl) in *.
  assert (B : forall n, 0 <= n < 12 -> has v (2 ^ n) = has fl (2 ^ n)) by (intros n Hn; by apply entry_has).
  assert (E1 : pte_pfn v = f) by (apply entry_pfn; done || lia).
  assert (E2 : pte_present v = true) by (rewrite <- Hpr; apply (B 0); lia).
  assert (E3 : pte_user v = true) by (rewrite <- Hus; apply (B 2); lia).
  assert (E4 : pte_write v = false) by (rewrite <- Hrw; apply (B 1); lia).
  assert (E5 : has v PTE_COW = has fl PTE_COW) by (apply (B 9); lia).
  assert (Hv0 : v <> 0) by (by apply not_present_zero).
  assert (HA : A' !! (mm, va) = Some v).
  { unfold A', upd_entry. destruct (Z.eqb_spec v 0); [done|]. by rewrite lookup_insert_eq. }
  assert (Hn : forall g, nmaps A' g = nmaps A g + counts g v).
  { intros g. unfold A'. rewrite nmaps_entry, Hno. cbn [default]. rewrite (counts_other g 0); [lia|]. by intros [? _]. }
  assert (Hnf : nmaps A' f = nmaps A f + 1) by (rewrite Hn, counts_here by done; lia).
  assert (Hng : forall g, g <> f -> nmaps A' g = nmaps A g).
  { intros g Hg. rewrite Hn, counts_other; [lia|]. intros [_ ?]. congruence. }
  assert (Hold : forall k q, A' !! k = Some q -> k <> (mm, va) -> A !! k = Some q).
  { intros k q [(-> & _)|[_ Ek]]%upd_entry_some Hk; done. }
  assert (Hone : forall k q, A !! k = Some q -> maps_to f q -> nmaps A f <= 1 -> k = (src, va) /\ q = p).
  { intros k q Ek Hq' Hle. assert (k = (src, va)) as -> by (by apply (count_if_unique (maps_to f) A k (src, va) q p)). split; congruence. }
  (* the frame *)
  pose proof (rmaps_le s x A f HV Hu) as Hrl.
  unfold w, on_rmap, page_dup_rmap in *. cbn [fst snd with_ram vheap] in *.
  pose proof (page_add_post mm va f s (vheap x)) as HP. destruct (page_add_anon_rmap mm va f (s, vheap x)) as [s1 h1].
  pose proof (mapcount_rmaps s (vheap x) (f / 4096) (ro_inv _ _ _ V4) ltac:(lia)) as Hmc.
  destruct (HP (fr_pa _ _ _ _ V2) (ro_inv _ _ _ V4) ltac:(lia) (proj2 (proj2 (proj2 Hu))) ltac:(lia)) as (M0 & G2 & G3 & G4). clear HP.
  pose proof M0 as [M1 M2 M3 M4 M5]. cbn [fst snd] in *. pose proof (total_of_static _ _ M2) as Ht1.
  pose proof (nmaps_pos A _ p E Hp) as Hpos. rewrite Hf in Hpos.
  assert (Hr1 : refcount (znth (pages s1) (f / 4096)) = ref s f) by (apply M4; lia).
  destruct (get_page_post s1 f M1) as (P1 & P2 & P3 & P4 & P5).
  { lia. }
  { rewrite M3. apply Hu. }
  { rewrite Hr1. lia. }
  fold s' in P1, P2, P3, P4, P5. pose proof (total_of_static _ _ P2) as Ht2.
  destruct (rmap_inv_maps s1 s' h1 Ht2 P4 G2) as [Hinv Hnodes].
  assert (Hu' : forall g, frame_used s' g <-> frame_used s g) by (intros g; unfold frame_used; by rewrite Ht2, Ht1, P3, M3).
  assert (Hr' : forall g, frame_used s g -> ref s' g = if decide (g = f) then ref s f + 1 else ref s g).
  { intros g Hg. pose proof (frame_low _ _ _ _ _ V2 Hg) as [_ Hgq]. unfold ref at 1. rewrite P5 by lia. rewrite (M4 (g / 4096)) by lia. unfold ref.
    destruct (decide (g = f)) as [->|Hne]; [by rewrite decide_True|]. rewrite decide_False; [done|]. intros Hx. apply Hne. symmetry. apply frame_div; [apply Hu|apply Hg|done]. }
  assert (Hpt : forall q, is_pt r (dirs x) q <-> is_pt (ram x) (dirs x) q) by apply (es_pt _ _ _ _ _ _ _ Hes).
  set (x' := with_vheap (with_ram x r) h1). split_and!; try done.
  - split; try done.
    + apply (tabs_other _ (with_ram x r)); try done. by apply (tabs_entry_set lowmem_end Hlow x A mm sp va v r).
    + pose proof V2 as [F1 F2 F3 FF F4 F5]. split; try done.
      * unfold pa_static in *. congruence.
      * by rewrite Ht2, Ht1.
      * intros q. rewrite Ht2, Ht1, P3, M3. apply FF.
      * intros q Hq0. apply Hpt in Hq0. destruct (F4 q Hq0) as [[U1 U2] R]. unfold frame_ours. rewrite Hu', Hr' by done.
        rewrite decide_False by (by intros ->). done.
      * intros k q Ek Hq0. assert (Hcase : frame_ours s x (pte_pfn q) /\ ~ is_pt (ram x) (dirs x) (pte_pfn q) /\ pte_user q = true /\
          (pte_pfn q <> f -> nmaps A (pte_pfn q) <= ref s (pte_pfn q) < 65536)).
        { destruct (decide (k = (mm, va))) as [->|Hk]; [assert (q = v) as -> by congruence; rewrite E1; done|].
          pose proof (Hold k q Ek Hk) as Ek'. destruct (F5 k q Ek' Hq0) as (G5 & G6 & G7 & G8). done. }
        destruct Hcase as ([U1 U2] & C2 & C3 & C4). unfold frame_ours. rewrite Hu', Hr' by done.
        split_and!; try done; [by intros Hx; apply Hpt in Hx|..]; destruct (decide (pte_pfn q = f)) as [Ex|Hx].
        -- rewrite Ex, Hnf. lia.
        -- rewrite Hng by done. by apply C4.
        -- lia.
        -- by apply C4.
    + destruct V3 as [S1 S2 S3 S4 S5 S6]. split; try done.
      * intros k q [(-> & -> & _)|[Hk Ek]]%upd_entry_some Hq0; [congruence|by apply (S2 k)].
      * intros k k' q q' i H1 H2 D1 D2.
        assert (Hx : forall k p, A' !! k = Some p -> swap_pte_decode p = Some i -> A !! k = Some p).
        { intros k0 p0 [(-> & -> & _)|[Hk Ek]]%upd_entry_some Hd; [|done]. unfold swap_pte_decode in Hd. by rewrite E2 in Hd. }
        by apply (S3 k k' q q' i); [apply Hx|apply Hx|..].
      * intros i b Hi Hb. destruct (S4 i b Hi Hb) as (B1 & B2 & B3). destruct (G3 b.1) as [_ G]. destruct (G (conj B1 B2)) as [G5 G6].
        split_and!; [done|by rewrite Hnodes|apply B3..].
    + split; [done|]. intros q k. rewrite Ht2, Ht1. intros Hq0. rewrite (rmaps_of _ _ (P4 q ltac:(by rewrite Ht1))). intros Hk.
      destruct (decide (k = (mm, va) /\ q = f / 4096)) as [[-> ->]|Hnk].
      { exists v. split; [done|]. by rewrite (frame_mul f Hal). }
      assert (Hin : k ∈ rmaps (znth (pages s) q)).
      { destruct (decide (q = f / 4096)) as [->|Hne].
        - destruct G4 as [G4|[G4 _]]; [|by rewrite G4 in Hk]. rewrite G4 in Hk. apply elem_of_cons in Hk as [->|Hk]; [|done]. exfalso. by apply Hnk.
        - by rewrite (rmaps_of _ _ (M5 q Hq0 Hne)) in Hk. }
      destruct (ro_map _ _ _ V4 q k Hq0 Hin) as (p' & Ek & Hp'). exists p'. split; [|done]. unfold A'. rewrite upd_entry_other; [done|]. by intros ->; congruence.
    + destruct V5 as [H1 H2]. split.
      * intros k q Ek Hq0 Hw. destruct (decide (k = (mm, va))) as [->|Hk]; [assert (q = v) as -> by congruence; congruence|].
        pose proof (Hold k q Ek Hk) as Ek'. pose proof (H1 k q Ek' Hq0 Hw) as Hle. destruct (decide (pte_pfn q = f)) as [Ex|Hx]; [|by rewrite Hng].
        exfalso. rewrite Ex in Hle. destruct (Hone k q Ek' (conj Hq0 Ex) Hle) as [-> ->]. congruence.
      * intros k q sp' Ek Hq0 Hw Hc Hsp' Hal'. destruct (decide (k = (mm, va))) as [->|Hk].
        { assert (q = v) as -> by congruence. rewrite E5 in Hc. cbn [fst snd] in *. destruct Hcow as [Hcow|Hcow]; [congruence|].
          change (mms x !! mm = Some sp') in Hsp'. congruence. }
        pose proof (Hold k q Ek Hk) as Ek'. pose proof (H2 k q sp' Ek' Hq0 Hw Hc Hsp' Hal') as Hle.
        destruct (decide (pte_pfn q = f)) as [Ex|Hx]; [|by rewrite Hng]. exfalso. rewrite Ex in Hle.
        destruct (Hone k q Ek' (conj Hq0 Ex) Hle) as [-> ->]. destruct Hps as [Hps|Hps]; [congruence|]. specialize (Hps sp' Hsp'). cbn [snd] in Hal'. congruence.
  - split.
    + unfold user_mem. rewrite HA. cbn [mbind option_bind]. unfold entry_data. rewrite E2, E1. f_equal. by apply (es_data _ _ _ _ _ _ _ Hes).
    + intros k Hk. unfold user_mem, A'. rewrite upd_entry_other by done. destruct (A !! k) as [q|] eqn:Ek; [|done].
      cbn [mbind option_bind]. apply (entry_data_same x x' A k q Ek); [|done]. intros Hq0.
      apply (es_data _ _ _ _ _ _ _ Hes). by apply (fr_map _ _ _ _ V2 k q).
  - by exists h1.
  - congruence.
  - intros q. by rewrite P3, M3.
  - intros q Hq0. rewrite P5 by lia. rewrite (M4 q Hq0). case_decide; lia.
Qed.

(** ** One page of a fork *)

(** The flags of a page shared copy on write. *)
Definition cow_flags (fl : Z) : Z := Z.lor (Z.land fl (not32 PTE_READ_WRITE)) PTE_COW.

Lemma cow_flags_bits p n :
  0 <= n < 12 -> has (cow_flags (pte_flags p)) (2 ^ n) = (has p (2 ^ n) && has (not32 PTE_READ_WRITE) (2 ^ n)) || has PTE_COW (2 ^ n).
Proof. intros Hn. unfold cow_flags. by rewrite has_lor, has_land, has_flags by lia. Qed.

Lemma cow_flags_range p : pte_flags (cow_flags (pte_flags p)) = cow_flags (pte_flags p).
Proof.
  unfold cow_flags, pte_flags. rewrite Z.land_lor_distr_l. f_equal.
  rewrite <- !Z.land_assoc, (Z.land_comm (not32 PTE_READ_WRITE)), (Z.land_assoc 4095), Z.land_diag. done.
Qed.

(** The first half: the page of the parent loses its write permission. *)
Lemma dup_protect_post s x A src sps va p :
  vm_ok s x A -> mms x !! src = Some sps -> user_page va -> A !! (src, va) = Some p -> pte_present p = true ->
  pte_write p = true \/ shareable x src va p ->
  exists x1 A1 fl,
    (if has (pte_flags p) PTE_READ_WRITE then
       let? r := set_pte_flags lowmem_end (ram x) (mm_pgd sps) va (cow_flags (pte_flags p)) in
       Ret (cow_flags (pte_flags p), put_ram (s, x) r)
     else Ret (pte_flags p, (s, x))) = Ret (fl, (s, x1)) /\
    vm_ok s x1 A1 /\ x1 = with_ram x (ram x1) /\ (forall k, user_mem x1 A1 k = user_mem x A k) /\
    (forall k, k <> (src, va) -> A1 !! k = A !! k) /\
    (exists p1, A1 !! (src, va) = Some p1 /\ maps_to (pte_pfn p) p1 /\ shareable x src va p1) /\
    0 <= fl < 4096 /\ has fl PTE_PRESENT = true /\ has fl PTE_USER = true /\ has fl PTE_READ_WRITE = false /\
    (has fl PTE_COW = true \/ vma_allows (mmap (mm_areas sps)) va true false = false).
Proof.
  intros HV Hmm Hva E Hp Hsh. pose proof HV as [V1 V2 V3 V4 V5 V6]. destruct (fr_map _ _ _ _ V2 _ _ E Hp) as (Hus & [Hu _] & _).
  pose proof (frame_low _ _ _ _ _ V2 Hu) as [Hlo _]. assert (Hal : (4096 | pte_pfn p)) by apply Hu.
  assert (Hw : has (pte_flags p) PTE_READ_WRITE = pte_write p) by (apply (has_flags p 1); lia). rewrite Hw.
  destruct (pte_write p) eqn:Epw.
  - clear Hsh. assert (Hfl : 0 <= cow_flags (pte_flags p) < 4096) by (rewrite <- (cow_flags_range p); apply new_flags_range).
    pose proof (cow_flags_range p) as Hrange. set (fl := cow_flags (pte_flags p)) in *.
    assert (F0 : has fl PTE_PRESENT = true).
    { change PTE_PRESENT with (2 ^ 0). unfold fl. rewrite cow_flags_bits by lia. change (has p (2 ^ 0)) with (pte_present p). by rewrite Hp. }
    assert (F2 : has fl PTE_USER = true).
    { change PTE_USER with (2 ^ 2). unfold fl. rewrite cow_flags_bits by lia. change (has p (2 ^ 2)) with (pte_user p). by rewrite Hus. }
    assert (F1 : has fl PTE_READ_WRITE = false).
    { change PTE_READ_WRITE with (2 ^ 1). unfold fl. rewrite cow_flags_bits by lia. by rewrite andb_false_r. }
    assert (F9 : has fl PTE_COW = true).
    { change PTE_COW with (2 ^ 9). unfold fl. rewrite cow_flags_bits by lia. by rewrite orb_true_r. }
    destruct (set_pte_flags_post _ Hlow (ram x) (dirs x) (mm_pgd sps) va fl (to_dirs _ _ _ V1) (mm_dir _ _ _ Hmm) (proj1 Hva)) as (r & Er & Hes).
    rewrite (to_entry _ _ _ V1 src sps va Hmm Hva), E in Hes. cbn [default] in Hes. unfold id in Hes. rewrite Hp in Hes.
    rewrite Hrange in Hes.
    destruct (vm_ok_relabel lowmem_end Hlow s x A src sps va p fl r HV E Hp Hmm Hva (or_intror (conj F1 F9)) Hfl F0 F2 Hes) as (HV' & Hm & HA & Hmt & _).
    rewrite Er. cbn [rbind]. eexists (with_ram x r), _, fl. split_and!; try done; try lia.
    + intros k Hk. by apply upd_entry_other.
    + eexists. split_and!; [done|apply Hmt|]. split; [|left].
      * rewrite entry_write by done. done.
      * change PTE_COW with (2 ^ 9) in *. by rewrite entry_has by (done || lia).
    + by left.
  - destruct Hsh as [?|Hsh]; [done|]. pose proof Hsh as [_ Hs]. exists x, A, (pte_flags p). pose proof (new_flags_range p) as Hfl. split_and!; try done; try lia.
    + by destruct x.
    + by exists p.
    + change PTE_PRESENT with (2 ^ 0). rewrite has_flags by lia. exact Hp.
    + change PTE_USER with (2 ^ 2). rewrite has_flags by lia. exact Hus.
    + change PTE_COW with (2 ^ 9) in *. rewrite has_flags by lia. destruct Hs as [Hs|Hs]; [by left|right; by apply Hs].
Qed.

(** What one page of the loop does. *)
Record dup_step src mm va s x A s' x' A' : Prop := DupStep {
  du_ok : vm_ok s' x' A';
  du_rest : same_rest x x';
  du_slots : swap_slots x' = swap_slots x;
  du_static : pa_static s' = pa_static s;
  du_mem k : k <> (mm, va) -> user_mem x' A' k = user_mem x A k;
  du_other k : k <> (mm, va) -> k <> (src, va) -> A' !! k = A !! k;
  du_absent : pte_present (default 0 (A !! (src, va))) = false -> A' !! (mm, va) = None;
  du_copied : pte_present (default 0 (A !! (src, va))) = true ->
    user_mem x' A' (mm, va) = user_mem x A (src, va) /\
    forall k p, k = (mm, va) \/ k = (src, va) -> A' !! k = Some p -> pte_present p = true /\ pte_write p = false;
  du_refs q : 0 <= q < total_pages s -> ~ free_page s q ->
    ~ free_page s' q /\ refcount (znth (pages s') q) <= refcount (znth (pages s) q) + 1;
}.

Lemma dup_page_post n s x A src sps mm spn va :
  vm_ok s x A -> 0 <= n -> plenty (n + 1) s -> mms x !! src = Some sps -> mms x !! mm = Some spn -> src <> mm ->
  user_page va -> A !! (mm, va) = None ->
  (forall p, A !! (src, va) = Some p -> pte_present p = true ->
     ref s (pte_pfn p) < 65535 /\ (pte_write p = true \/ shareable x src va p)) ->
  vma_allows (mmap (mm_areas spn)) va true false = vma_allows (mmap (mm_areas sps)) va true false ->
  exists s' x' A', dup_page lowmem_end (mm_pgd sps) (mm_pgd spn) mm va (s, x) = Ret (s', x') /\ plenty n s' /\
    dup_step src mm va s x A s' x' A'.
Proof.
  intros HV Hn Hpl Hsrc Hmm Hne Hva Hno Hsh Hareas. pose proof HV as [V1 V2 V3 V4 V5 V6].
  unfold dup_page. cbn [fst snd].
  rewrite (get_pte_flags_eq _ Hlow _ _ _ _ (to_dirs _ _ _ V1) (mm_dir _ _ _ Hsrc) (user_page_u32 _ Hva)). cbn [rbind].
  rewrite (to_entry _ _ _ V1 src sps va Hsrc Hva).
  assert (Hskip : pte_present (default 0 (A !! (src, va))) = false -> exists s' x' A', Ret (s, x) = Ret (s', x') /\ plenty n s' /\
    dup_step src mm va s x A s' x' A').
  { intros Habs. exists s, x, A. split_and!; [done|apply (plenty_le (n + 1)); [lia|done]|]. split; try done.
    - by rewrite Habs.
    - intros q Hq Hf. split; [done|lia]. }
  destruct (pte_present (default 0 (A !! (src, va)))) eqn:Hp; [|by apply Hskip].
  destruct (A !! (src, va)) as [p|] eqn:E; [|done]. cbn [default] in Hp |- *. unfold id in *. clear Hskip.
  destruct (Hsh p eq_refl Hp) as [Href Hs]. clear Hsh.
  destruct (fr_map _ _ _ _ V2 _ _ E Hp) as (Hus & [Hu Hff] & Hnpt & Hcnt). pose proof (frame_low _ _ _ _ _ V2 Hu) as [Hlo Hqf].
  change (has p PTE_PRESENT) with (pte_present p). change (has p PTE_USER) with (pte_user p). rewrite Hp, Hus. cbn [negb orb].
  change (Z.land p 4095) with (pte_flags p).
  change (Z.lor (Z.land (pte_flags p) (not32 PTE_READ_WRITE)) PTE_COW) with (cow_flags (pte_flags p)).
  destruct (dup_protect_post s x A src sps va p HV Hsrc Hva E Hp Hs) as (x1 & A1 & fl & -> & HV1 & Ex1 & Hm1 & HA1 & (p1 & Ep1 & Hp1 & Hs1) & Hfl & F0 & F2 & F1 & F9).
  cbn [rbind]. assert (Hmm1 : mms x1 !! mm = Some spn) by (by rewrite Ex1). assert (Hsrc1 : mms x1 !! src = Some sps) by (by rewrite Ex1).
  destruct (map_page_plenty n s x1 A1 mm spn va (pte_pfn p) fl HV1 Hn Hpl Hmm1 Hva (proj1 (proj2 Hu)) Hlo Hfl F2)
    as (s2 & x2 & r & HV2 & Hev & Ex2 & Hpl2 & Em & Hes & Hh & Hms).
  rewrite Em. cbn [rbind]. pose proof (total_of_static _ _ (ev_static _ _ _ _ _ _ Hev)) as Ht.
  assert (Hu2 : frame_used s2 (pte_pfn p) /\ ref s2 (pte_pfn p) = ref s (pte_pfn p)).
  { destruct Hu as (U1 & U2 & U3 & U4). destruct (Hh (pte_pfn p / 4096) ltac:(lia) U4) as [H1 H2]. unfold frame_used. rewrite Ht.
    split; [done|]. by destruct (core_maps _ _ H2). }
  destruct Hu2 as [Hu2 Hr2].
  destruct (vm_ok_share s2 x2 A1 src mm spn va p1 (pte_pfn p) fl r HV2) as (HV3 & [B1 B2] & HA3 & [h Ex3] & Hst3 & Hf3 & Hrf3); try done.
  { by rewrite Ex2. }
  { rewrite HA1; [done|congruence]. }
  { apply Hp1. }
  { apply Hp1. }
  { destruct Hs1 as [S1 S2]. split; [done|]. by rewrite Ex2, Ex1. }
  { by rewrite Hareas. }
  { by rewrite Hr2. }
  destruct (on_rmap (page_dup_rmap mm va (pte_pfn p)) (s2, with_ram x2 r)) as [s3 x3]. cbn [fst snd] in *.
  set (A3 := upd_entry A1 (mm, va) (Z.lor (pte_pfn p) fl)) in *.
  assert (Hmk : forall k, user_mem x2 A1 k = user_mem x A k).
  { intros k. rewrite <- Hm1. apply (ev_mem _ _ _ _ _ _ Hev). }
  assert (HA3' : forall k, k <> (mm, va) -> A3 !! k = A1 !! k) by (intros k Hk; by apply upd_entry_other).
  exists (get_page s3 (pte_pfn p)), x3, A3. split_and!; [done| |split; try done].
  - apply (plenty_free n s2); try done; [apply (fr_pa _ _ _ _ (vo_frames _ _ _ _ HV2))|apply (fr_pa _ _ _ _ (vo_frames _ _ _ _ HV3))].
  - by rewrite Ex3, Ex2, Ex1.
  - by rewrite Ex3, Ex2, Ex1.
  - rewrite Hst3. apply (ev_static _ _ _ _ _ _ Hev).
  - intros k Hk. rewrite (B2 k Hk). apply Hmk.
  - intros k Hk Hk'. rewrite HA3' by done. by apply HA1.
  - rewrite E. cbn. unfold id. congruence.
  - intros _. split.
    + rewrite B1. rewrite <- Hmk. unfold user_mem. rewrite Ep1. cbn [mbind option_bind]. unfold entry_data.
      destruct Hp1 as [-> ->]. done.
    + intros k q [-> | ->] Ek.
      * assert (q = Z.lor (pte_pfn p) fl) as -> by congruence. rewrite entry_write by (apply Hu || done). split; [|done].
        unfold pte_present. change PTE_PRESENT with (2 ^ 0) in *. by rewrite entry_has by (apply Hu || lia).
      * rewrite HA3' in Ek by congruence. assert (q = p1) as -> by congruence. split; [apply Hp1|apply Hs1].
  - intros q Hq Hf. destruct (Hh q Hq Hf) as [H1 H2]. destruct (core_maps _ _ H2) as [H3 _]. rewrite Hf3. split; [done|]. rewrite <- H3.
    apply Hrf3. by rewrite Ht.
Qed.
End proofs.
