(* ===== verification/Fork.v ===== *)
(** * Copying an address space ([dup_mm] of [mm/mmap.c])

    The loop of [dup_mm] over the pages of the areas, and the whole call: a
    child whose pages hold what the pages of the parent hold, shared copy on
    write. *)

From stdpp Require Import base tactics numbers list gmap sets.
From Stdlib Require Import ZArith Lia.
From S2P Require Import Prelude Bootmem Buddy PageAlloc Rmap Vma Paging Swap Fault AddrSpace.

Section proofs.
Context {M Y : Type} `{!KAlloc M, !KAllocSpec M, !FileReclaim Y, !FileReclaimOk Y}.
Variable lowmem_end : Z.
Notation vmem := (vmem M Y).
Notation LE := (memlayout_lowmem_phys_end lowmem_end).
Notation vm_ok := (vm_ok lowmem_end).
Notation dup_step := (dup_step lowmem_end).
Implicit Types (s : pa) (x : vmem) (w : pa * vmem) (A : entries) (k : Z * Z).
Hypothesis Hlow : 0 < lowmem_end <= LOWMEM_MAX.

(** ** The whole copy *)

Fixpoint each (body : Z -> pa * vmem -> run (pa * vmem)) (l : list Z) w : run (pa * vmem) :=
  match l with
  | [] => Ret w
  | va :: l' => let? w1 := body va w in each body l' w1
  end.

Lemma each_app body l l' w : each body (l ++ l') w = let? w1 := each body l w in each body l' w1.
Proof.
  revert w. induction l as [|va l IH]; intros w; cbn [each app]; [done|].
  destruct (body va w) as [w1| |]; cbn [rbind]; [apply IH|done|done].
Qed.

Definition pages_from (start d : Z) : list Z := (fun i => start + 4096 * i) <$> seqZ 0 d.

Lemma pages_from_S start d : 0 < d -> pages_from start d = start :: pages_from (start + 4096) (d - 1).
Proof.
  intros Hd. unfold pages_from. rewrite seqZ_cons by done. cbn [fmap list_fmap]. rewrite Z.mul_0_r, Z.add_0_r. f_equal.
  replace (Z.pred d) with (d - 1) by lia. apply list_eq. intros i. rewrite !list_lookup_fmap.
  destruct (Z.lt_ge_cases (Z.of_nat i) (d - 1)) as [Hi|Hi].
  - rewrite !lookup_seqZ_lt by lia. cbn. f_equal. lia.
  - rewrite !lookup_seqZ_ge by lia. done.
Qed.

Lemma elem_of_pages_from start d va : va ∈ pages_from start d <-> exists i, 0 <= i < d /\ va = start + 4096 * i.
Proof. unfold pages_from. rewrite list_elem_of_fmap. setoid_rewrite elem_of_seqZ. split; intros (i & H1 & H2); exists i; (split; [lia|lia]). Qed.

Lemma for_pages_each n start d body w :
  d <= Z.of_nat n -> 0 <= start -> start + 4096 * d < 4294967296 ->
  for_pages n start (start + 4096 * d) body w = each body (pages_from start d) w.
Proof.
  revert start d w. induction n as [|n IH]; intros start d w Hd Hs He; cbn [for_pages].
  - unfold pages_from. by rewrite seqZ_nil by lia.
  - destruct (Z.ltb_spec start (start + 4096 * d)) as [Hlt|Hge].
    + rewrite pages_from_S by lia. cbn [each]. destruct (body start w) as [w1| |]; cbn [rbind]; [|done|done].
      rewrite add32_id by lia. replace (start + 4096 * d) with (start + 4096 + 4096 * (d - 1)) by lia. apply IH; lia.
    + unfold pages_from. by rewrite seqZ_nil by lia.
Qed.

(** The pages of an area. *)
Definition area_pages (v : vm_area_struct) : list Z := pages_from (page_start v) ((page_end v - page_start v) / 4096).

Definition area_ok (v : vm_area_struct) : Prop := 0 <= vm_start v <= vm_end v /\ vm_end v <= TASK_SIZE.

Lemma area_bounds v :
  area_ok v -> 0 <= page_start v /\ (4096 | page_start v) /\ page_end v <= TASK_SIZE /\
  page_end v = page_start v + 4096 * ((page_end v - page_start v) / 4096).
Proof.
  intros [H1 H2]. unfold TASK_SIZE in *. assert (Hu1 : is_u32 (vm_start v)) by (unfold is_u32; lia).
  assert (Hu2 : is_u32 (vm_end v + 4095)) by (unfold is_u32; lia).
  assert (E1 : page_start v = vm_start v - vm_start v mod 4096) by (by apply pte_pfn_eq).
  assert (E2 : page_end v = vm_end v + 4095 - (vm_end v + 4095) mod 4096).
  { unfold page_end. rewrite add32_id by lia. by apply pte_pfn_eq. }
  pose proof (Z.div_mod (vm_start v) 4096 ltac:(lia)). pose proof (Z.div_mod (vm_end v + 4095) 4096 ltac:(lia)).
  pose proof (Z.mod_pos_bound (vm_start v) 4096 ltac:(lia)). pose proof (Z.mod_pos_bound (vm_end v + 4095) 4096 ltac:(lia)).
  assert (Hps : page_start v = 4096 * (vm_start v / 4096)) by lia.
  assert (Hpe : page_end v = 4096 * ((vm_end v + 4095) / 4096)) by lia.
  assert (Hd : (page_end v - page_start v) / 4096 = (vm_end v + 4095) / 4096 - vm_start v / 4096).
  { rewrite Hps, Hpe. replace (4096 * _ - 4096 * _) with (((vm_end v + 4095) / 4096 - vm_start v / 4096) * 4096) by lia. apply Z.div_mul. lia. }
  split_and!; [lia|exists (vm_start v / 4096); lia| |rewrite Hd; lia].
  assert ((vm_end v + 4095) / 4096 <= 786432) by (apply Z.lt_succ_r, Z.div_lt_upper_bound; lia). lia.
Qed.

Lemma area_user_page v va : area_ok v -> va ∈ area_pages v -> user_page va.
Proof.
  intros Hv. destruct (area_bounds v Hv) as (B1 & B2 & B3 & B4). intros (i & Hi & ->)%elem_of_pages_from.
  split; [lia|]. apply Z.divide_add_r; [done|]. by apply Z.divide_factor_l.
Qed.

Definition all_pages (l : list vm_area_struct) : list Z := concat (area_pages <$> l).

Lemma dup_areas_each src_pgd new_dir mm l w :
  Forall area_ok l -> dup_areas lowmem_end src_pgd new_dir mm l w = each (dup_page lowmem_end src_pgd new_dir mm) (all_pages l) w.
Proof.
  revert w. induction l as [|v l IH]; intros w Hl; [done|]. apply Forall_cons in Hl as [Hv Hl]. cbn [dup_areas].
  unfold all_pages. cbn [fmap list_fmap concat]. rewrite each_app. destruct (area_bounds v Hv) as (B1 & B2 & B3 & B4). unfold TASK_SIZE in *.
  assert (E : for_pages PAGES (page_start v) (page_end v) (dup_page lowmem_end src_pgd new_dir mm) w =
    each (dup_page lowmem_end src_pgd new_dir mm) (area_pages v) w).
  { rewrite B4. apply for_pages_each; [unfold PAGES; rewrite Z2Nat.id by lia|lia|lia].
    apply Z.div_le_upper_bound; lia. }
  rewrite E. destruct (each _ (area_pages v) w) as [w1| |]; cbn [rbind]; [|done|done]. by apply IH.
Qed.

(** The state after the pages [V] were copied. *)
Record duped src mm s0 x0 A0 (V : list Z) s x A : Prop := Duped {
  dd_ok : vm_ok s x A;
  dd_rest : same_rest x0 x;
  dd_slots : swap_slots x = swap_slots x0;
  dd_static : pa_static s = pa_static s0;
  dd_mem k : k.1 <> mm -> user_mem x A k = user_mem x0 A0 k;
  dd_src va : va ∉ V -> A !! (src, va) = A0 !! (src, va);
  dd_none va : va ∉ V \/ pte_present (default 0 (A0 !! (src, va))) = false -> A !! (mm, va) = None;
  dd_copied va : va ∈ V -> pte_present (default 0 (A0 !! (src, va))) = true ->
    user_mem x A (mm, va) = user_mem x0 A0 (src, va) /\
    forall k p, k = (mm, va) \/ k = (src, va) -> A !! k = Some p -> pte_present p = true /\ pte_write p = false;
  dd_refs q : 0 <= q < total_pages s0 -> ~ free_page s0 q ->
    ~ free_page s q /\ refcount (znth (pages s) q) <= refcount (znth (pages s0) q) + zlen V;
}.

Lemma duped_step src mm s0 x0 A0 V s x A va s' x' A' :
  src <> mm -> va ∉ V -> duped src mm s0 x0 A0 V s x A -> dup_step src mm va s x A s' x' A' ->
  duped src mm s0 x0 A0 (va :: V) s' x' A'.
Proof.
  intros Hne Hva [D1 D2 D3 D4 D5 D6 D7 D8 D9] [U1 U2 U3 U4 U5 U6 U7 U8 U9].
  pose proof (D6 va Hva) as Hsrc. split; try done.
  - by eapply same_rest_trans.
  - congruence.
  - congruence.
  - intros k Hk. rewrite U5 by (intros ->; done). by apply D5.
  - intros va' Hv. apply not_elem_of_cons in Hv as [Hv1 Hv2]. rewrite U6; [by apply D6|congruence..].
  - intros va' Hv. destruct (decide (va' = va)) as [->|Hv'].
    + apply U7. rewrite Hsrc. destruct Hv as [Hv|Hv]; [|done]. exfalso. apply Hv. by left.
    + rewrite U6; [|congruence..]. apply D7. destruct Hv as [Hv|Hv]; [left|by right]. by apply not_elem_of_cons in Hv as [_ ?].
  - intros va' Hv Hp. destruct (decide (va' = va)) as [->|Hv'].
    + destruct U8 as [U8 U8']; [by rewrite Hsrc|]. split; [|done]. rewrite U8. by apply D5.
    + apply elem_of_cons in Hv as [?|Hv]; [done|]. destruct (D8 va' Hv Hp) as [G1 G2]. split; [rewrite U5; [done|congruence]|].
      intros k p Hk. rewrite U6; [by apply G2|destruct Hk as [-> | ->]; congruence..].
  - intros q Hq Hf. destruct (D9 q Hq Hf) as [G1 G2]. destruct (U9 q ltac:(by rewrite (total_of_static _ _ D4)) G1) as [G3 G4].
    split; [done|]. unfold zlen in *. cbn [length]. lia.
Qed.

Lemma dup_each_post src sps mm spn s0 x0 A0 l :
  src <> mm -> mms x0 !! src = Some sps -> mms x0 !! mm = Some spn -> Forall user_page l ->
  (forall va, vma_allows (mmap (mm_areas spn)) va true false = vma_allows (mmap (mm_areas sps)) va true false) ->
  vm_ok s0 x0 A0 -> (forall va p, A0 !! (src, va) = Some p -> pte_present p = true -> pte_write p = true \/ shareable x0 src va p) ->
  forall V s x A, NoDup (l ++ V) -> plenty (zlen l) s -> duped src mm s0 x0 A0 V s x A ->
  (forall k p, A0 !! k = Some p -> pte_present p = true -> ref s0 (pte_pfn p) + zlen (l ++ V) < 65535) ->
  exists s' x' A', each (dup_page lowmem_end (mm_pgd sps) (mm_pgd spn) mm) l (s, x) = Ret (s', x') /\
    duped src mm s0 x0 A0 (rev l ++ V) s' x' A'.
Proof.
  intros Hne Hsrc Hmm Hup Har HV0 Hsh. induction l as [|va l IH]; intros V s x A Hnd Hpl HD Href; cbn [each].
  { by exists s, x, A. }
  apply Forall_cons in Hup as [Hva Hup]. cbn [app] in Hnd. apply NoDup_cons in Hnd as [Hni Hnd].
  assert (Hnv : va ∉ V) by (intros Hx; apply Hni, elem_of_app; by right).
  pose proof HD as [D1 D2 D3 D4 D5 D6 D7 D8 D9]. destruct D2 as (Em & _).
  destruct (dup_page_post lowmem_end Hlow (zlen l) s x A src sps mm spn va) as (s1 & x1 & A1 & E1 & Hpl1 & HS); try done.
  - unfold zlen. lia.
  - unfold zlen in *. cbn [length] in Hpl. by replace (Z.of_nat (length l) + 1) with (Z.of_nat (S (length l))) by lia.
  - by rewrite Em.
  - by rewrite Em.
  - apply D7. by left.
  - rewrite D6 by done. intros p E Hp. split.
    + destruct (fr_map _ _ _ _ (vo_frames _ _ _ _ HV0) _ _ E Hp) as (_ & [Hu _] & _). pose proof (frame_low _ _ _ _ _ (vo_frames _ _ _ _ HV0) Hu) as [_ Hq].
      destruct (D9 (pte_pfn p / 4096) ltac:(lia) (proj2 (proj2 (proj2 Hu)))) as [_ Hle]. specialize (Href _ p E Hp). unfold ref, zlen in *.
      cbn [length app] in Href. rewrite length_app in Href. lia.
    + unfold shareable. rewrite Em. by apply Hsh.
  - rewrite E1. cbn [rbind]. pose proof (duped_step src mm s0 x0 A0 V s x A va s1 x1 A1 Hne Hnv HD HS) as HD1.
    destruct (IH Hup (va :: V) s1 x1 A1) as (s2 & x2 & A2 & E2 & HD2); try done.
    + rewrite <- Permutation_middle. by apply NoDup_cons.
    + intros k p E Hp. specialize (Href k p E Hp). unfold zlen in *. cbn [length app] in Href. rewrite length_app in *. cbn [length]. lia.
    + exists s2, x2, A2. split; [done|]. cbn [rev]. by rewrite <- app_assoc.
Qed.

Lemma copy_words_insert r (d k n : Z) : exists l, copy_words r d k n = <[d := l]> r.
Proof.
  unfold copy_words. assert (H : forall js l, exists l', foldl (fun r i => wr r d i (rd r k i)) (<[d := l]> r) js = <[d := l']> r).
  { intros js. induction js as [|i js IH]; intros l; cbn [foldl]; [by exists l|]. unfold wr at 2.
    rewrite insert_insert_eq. apply IH. }
  apply H.
Qed.

(** The heap grew. *)
Lemma vm_ok_grow s x A h :
  vm_ok s x A -> km_ok h -> live (vheap x) ⊆ live h -> vm_ok s (with_vheap x h) A.
Proof.
  intros [V1 V2 V3 V4 V5 V6] Hk Hl. split; try done.
  - by apply (tabs_other _ x).
  - destruct V2 as [F1 F2 F3 FF F4 F5]. by split.
  - destruct V3 as [S1 S2 S3 S4 S5 S6]. split; try done. cbn [with_vheap vheap swap_slots]. intros i b Hi Hb.
    destruct (S4 i b Hi Hb) as (B1 & B2 & B3). split_and!; try done; [by apply Hl|apply B3..].
  - destruct V4 as [R1 R2]. split; [|done]. destruct R1 as [I1 I2 I3 I4 I5]. split; try done. intros n Hn. apply Hl. by apply I5.
  - destruct V5 as [H1 H2]. by split.
Qed.

Lemma vma_allows_same l l' va (w e : bool) : Forall2 same_area l l' -> vma_allows l' va w e = vma_allows l va w e.
Proof.
  induction 1 as [|v v' l l' Hs Hl IH]; [done|]. destruct Hs as (E1 & E2 & E3 & _). cbn [vma_allows]. by rewrite E1, E2, E3, IH.
Qed.

Lemma pgd_clone_kernel_eq w w1 t v :
  kernel_directory w.2 <> 0 -> alloc_page lowmem_end w = Ret (Some t, w1) -> memlayout_directmap_phys_to_virt lowmem_end t = Ret v ->
  pgd_clone_kernel lowmem_end w =
    Ret (Some v, put_ram w1 (copy_words (ram w1.2) (virt_to_phys_addr v) (virt_to_phys_addr (kernel_directory w1.2)) 1024)).
Proof.
  intros H0 Ea Ev. unfold pgd_clone_kernel, copy_words. destruct (Z.eqb_spec (kernel_directory w.2) 0); [done|].
  rewrite Ea. cbn [rbind]. rewrite Ev. cbn [rbind]. reflexivity.
Qed.

(** [pgd_clone_kernel] with a frame to spare. *)
Lemma clone_dir_post n s x A :
  vm_ok s x A -> 0 <= n -> plenty (n + 1) s ->
  exists t s1 l, pgd_clone_kernel lowmem_end (s, x) = Ret (Some (phys_to_virt t), (s1, with_ram x (<[t := l]> (ram x)))) /\
    l = frame (ram x) (virt_to_phys_addr (kernel_directory x)) /\ vm_ok s1 x A /\ fresh s1 x A t /\ plenty n s1 /\ held_same s s1 /\
    pa_static s1 = pa_static s.
Proof.
  intros HV Hn Hpl. destruct (alloc_page_plenty lowmem_end Hlow n s x A HV Hn Hpl) as (t & s1 & Ea & HV1 & Hev & Hfr & _ & Hpl1 & Hh & _).
  pose proof HV1 as [V1 V2 _ _ _ _]. pose proof Hfr as (((Hu & _) & _ & Hnpt) & _).
  pose proof (frame_low _ _ _ _ _ V2 Hu) as [Ht _].
  assert (Hkd : kernel_directory x ∈ dirs x) by (apply elem_of_union_l; by apply elem_of_singleton).
  pose proof (dk_sized _ _ _ (to_dirs _ _ _ V1)) as Hsz. set (kp := virt_to_phys_addr (kernel_directory x)).
  assert (Hne : t <> kp) by (intros ->; apply Hnpt; right; by exists (kernel_directory x)).
  destruct (copy_words_insert (ram x) t kp 1024) as [l El]. destruct (copy_page (ram x) t kp Hsz Hne) as (_ & C2 & _).
  rewrite El, frame_insert, decide_True in C2 by done.
  exists t, s1, l. split; [|split_and!; [exact C2|exact HV1|exact Hfr|exact Hpl1|exact Hh|apply (ev_static _ _ _ _ _ _ Hev)]].
  destruct (dir_phys _ Hlow _ _ _ (to_dirs _ _ _ V1) Hkd) as (H0 & _).
  rewrite (pgd_clone_kernel_eq (s, x) (s1, x) t (phys_to_virt t)); [|exact H0|exact Ea|apply (directmap_low lowmem_end t); lia].
  unfold put_ram. cbn [fst snd]. rewrite (phys_virt _ Hlow) by lia. fold kp. rewrite El. reflexivity.
Qed.

(** Giving back the frame of a directory that is not in use yet. *)
Lemma free_pgd_post s x A t h :
  vm_ok s x A -> fresh s x A t -> km_ok h -> live (vheap x) ⊆ live h ->
  let x1 := with_vheap (with_ram x (<[t := frame (ram x) (virt_to_phys_addr (kernel_directory x))]> (ram x))) h in
  exists s', free_pgd (phys_to_virt t) (s, x1) = Ret (s', x1) /\ vm_ok s' x1 A /\ maps_same s s' /\ total_pages s' = total_pages s /\
    forall k, user_mem x1 A k = user_mem x A k.
Proof.
  intros HV (((Hu & Hff) & Hz & Hnpt) & Href & Hrm) Hk Hl. set (l := frame _ _). intros x1.
  pose proof (frame_low _ _ _ _ _ (vo_frames _ _ _ _ HV) Hu) as [Ht _]. pose proof (phys_to_virt_low lowmem_end Hlow t Ht) as Ev.
  pose proof (dk_sized _ _ _ (to_dirs _ _ _ (vo_tabs _ _ _ _ HV))) as Hsz. destruct (frame_sized (ram x) (virt_to_phys_addr (kernel_directory x)) Hsz) as [Hll Hlu].
  destruct (vm_ok_store lowmem_end s x A t l HV Hnpt Hll Hlu) as (HV1 & Hpt & Hmem).
  pose proof (vm_ok_grow s _ A h HV1 Hk Hl) as HV2.
  destruct (vm_ok_put_frame lowmem_end Hlow s x1 A t) as (s' & E & HV' & Hst & Hms); try done.
  - intros Hx. by apply Hnpt, Hpt.
  - lia.
  - exists s'. split_and!; try done.
    + unfold free_pgd. rewrite Ev. unfold PAGE_OFFSET. destruct (Z.leb_spec 3221225472 (t + 3221225472)); [|lia].
      change (t + 3221225472) with (t + PAGE_OFFSET). rewrite <- Ev, (phys_virt _ Hlow) by lia. exact E.
    + by apply total_of_static.
    + intros k. apply Hmem. intros p Ek [Hp Hpf]. pose proof (nmaps_pos A k p Ek Hp) as Hpos. rewrite Hpf in Hpos. lia.
Qed.

(** What [dup_mm] needs: frames for every page of the areas and for the
    directory, reference counts that do not saturate, and pages that are
    writable or may be shared as they are. *)
Record forkable s x A (src : Z) (sp : space) : Prop := Forkable {
  fk_ok : vm_ok s x A;
  fk_mm : mms x !! src = Some sp;
  fk_live mm : is_Some (mms x !! mm) -> mm ∈ live (vheap x);
  fk_areas : Forall area_ok (mmap (mm_areas sp));
  fk_disjoint : NoDup (all_pages (mmap (mm_areas sp)));
  fk_memory : plenty (zlen (all_pages (mmap (mm_areas sp))) + 1) s;
  fk_refs k p : A !! k = Some p -> pte_present p = true -> ref s (pte_pfn p) + zlen (all_pages (mmap (mm_areas sp))) < 65535;
  fk_share va p : A !! (src, va) = Some p -> pte_present p = true -> pte_write p = true \/ shareable x src va p;
}.

(** The child [mm], with the areas of [spn], is a copy of [src]. *)
Record forked x A (src : Z) (sp : space) (mm : Z) (spn : space) x' A' : Prop := Forked {
  fd_new : mms x !! mm = None;
  fd_mms : mms x' = <[mm := spn]> (mms x);
  fd_areas : Forall2 same_area (mmap (mm_areas sp)) (mmap (mm_areas spn));
  fd_mem va : user_mem x' A' (mm, va) =
    if decide (va ∈ all_pages (mmap (mm_areas sp))) then
      if pte_present (default 0 (A !! (src, va))) then user_mem x A (src, va) else None
    else None;
  fd_readonly va k p : va ∈ all_pages (mmap (mm_areas sp)) -> pte_present (default 0 (A !! (src, va))) = true ->
    k = (mm, va) \/ k = (src, va) -> A' !! k = Some p -> pte_present p = true /\ pte_write p = false;
}.

(** The copy of the pages, once the child has its directory and its areas. *)
Lemma dup_pages_post s x A src sp s1 t mm h1 a :
  forkable s x A src sp -> vm_ok s1 x A -> fresh s1 x A t -> plenty (zlen (all_pages (mmap (mm_areas sp)))) s1 -> held_same s s1 ->
  pa_static s1 = pa_static s -> mms x !! mm = None -> mm <> 0 -> km_ok h1 -> live (vheap x) ⊆ live h1 ->
  Forall2 same_area (mmap (mm_areas sp)) (mmap a) ->
  let r := <[t := frame (ram x) (virt_to_phys_addr (kernel_directory x))]> (ram x) in
  let x2 := with_mms (with_vheap (with_ram x r) h1) (<[mm := Space (phys_to_virt t) a]> (mms x)) in
  exists s' x' A', dup_areas lowmem_end (mm_pgd sp) (phys_to_virt t) mm (mmap (mm_areas sp)) (s1, x2) = Ret (s', x') /\ vm_ok s' x' A' /\
    (forall k, is_Some (mms x !! k.1) -> user_mem x' A' k = user_mem x A k) /\
    forked x A src sp mm (Space (phys_to_virt t) a) x' A'.
Proof.
  intros [K1 K2 K3 K4 K5 K6 K7 K8] HV Hfr Hpl Hh Hst Hnew Hmm0 Hk Hl Har r x2. set (spn := Space (phys_to_virt t) a).
  pose proof (dk_sized _ _ _ (to_dirs _ _ _ (vo_tabs _ _ _ _ HV))) as Hsz.
  destruct (frame_sized (ram x) (virt_to_phys_addr (kernel_directory x)) Hsz) as [Hll Hlu].
  destruct (vm_ok_new_mm lowmem_end Hlow s1 (with_vheap x h1) A t r mm a (vm_ok_grow s1 x A h1 HV Hk Hl)) as (HV2 & Hm2 & _); try done.
  { intros p l [[-> <-]|[_ E]]%lookup_insert_Some; [done|by apply (Hsz p)]. }
  { unfold r. by rewrite frame_insert, decide_True. }
  { intros p Hp. unfold r. by rewrite frame_insert, decide_False. }
  assert (Hne : src <> mm) by (intros ->; congruence).
  assert (HnA : forall va, A !! (mm, va) = None).
  { intros va. destruct (A !! (mm, va)) as [p|] eqn:E; [|done]. destruct (to_key _ _ _ (vo_tabs _ _ _ _ HV) mm va p E) as (_ & _ & sq & Hsq). congruence. }
  set (l := all_pages (mmap (mm_areas sp))) in *.
  destruct (dup_each_post src sp mm spn s1 x2 A l) with (V := @nil Z) (s := s1) (x := x2) (A := A) as (s' & x' & A' & E & HD); try done.
  - cbn [x2 with_mms mms]. by rewrite lookup_insert_ne.
  - cbn [x2 with_mms mms]. by rewrite lookup_insert_eq.
  - unfold l, all_pages. apply Forall_forall. intros va Hva. apply list_elem_of_In, in_concat in Hva as (ps & Hps & Hva).
    apply list_elem_of_In, list_elem_of_fmap in Hps as (v & -> & Hv). rewrite Forall_forall in K4. apply (area_user_page v); [by apply K4|by apply list_elem_of_In].
  - intros va. by apply vma_allows_same.
  - intros va p Ep Hp. destruct (K8 va p Ep Hp) as [?|[S1 S2]]; [by left|right]. split; [done|]. destruct S2 as [?|S2]; [by left|right].
    intros sq. cbn [x2 with_mms mms]. rewrite lookup_insert_ne by done. apply S2.
  - by rewrite app_nil_r.
  - split; try done.
    + intros va Hv. by apply elem_of_nil in Hv.
    + intros q Hq Hf. split; [done|]. unfold zlen. cbn. lia.
  - intros k p Ep Hp. rewrite app_nil_r. specialize (K7 k p Ep Hp). fold l in K7.
    destruct (fr_map _ _ _ _ (vo_frames _ _ _ _ K1) _ _ Ep Hp) as (_ & [Hu _] & _). pose proof (frame_low _ _ _ _ _ (vo_frames _ _ _ _ K1) Hu) as [_ Hq].
    destruct (Hh (pte_pfn p / 4096) ltac:(lia) (proj2 (proj2 (proj2 Hu)))) as [_ Hc]. destruct (core_maps _ _ Hc) as [Hc' _]. unfold ref in *. lia.
  - exists s', x', A'. destruct HD as [D1 D2 D3 D4 D5 D6 D7 D8 D9].
    assert (Hin : forall va, va ∈ rev l ++ [] <-> va ∈ l).
    { intros va. rewrite app_nil_r, !list_elem_of_In. symmetry. apply in_rev. }
    split_and!; try done.
    + rewrite dup_areas_each by done. exact E.
    + intros k [sq Hsq]. rewrite D5 by (intros Hx; rewrite Hx in Hsq; congruence). apply Hm2.
    + split; try done.
      * destruct D2 as [-> _]. done.
      * intros va. assert (Hnone : va ∉ l \/ pte_present (default 0 (A !! (src, va))) = false -> user_mem x' A' (mm, va) = None).
        { intros Hx. unfold user_mem. rewrite D7; [done|]. by rewrite Hin. }
        fold l. case_decide as Hv; [|apply Hnone; by left]. destruct (pte_present _) eqn:Ep; [|apply Hnone; by right].
        rewrite (proj1 (D8 va ltac:(by apply Hin) Ep)). apply Hm2.
      * intros va k p Hv Ep. apply (D8 va); [by apply Hin|done].
Qed.

End proofs.

(** ** The small machine forks *)

(** Every present user page of the directory is writable. *)
Definition all_writable (r : memory) (pgd : Z) : bool :=
  forallb (fun pde => negb (pgd_present pde) || forallb (fun p => negb (pte_present p) || pte_write p) (frame r (pte_pfn pde)))
    (frame r (virt_to_phys_addr pgd)).

Lemma rd_in r p i : pages_sized r -> 0 <= i < 1024 -> In (rd r p i) (frame r p).
Proof.
  intros Hs Hi. destruct (frame_sized r p Hs) as [Hl _]. unfold rd, znth. apply list_elem_of_In. apply list_elem_of_lookup_total_2. lia.
Qed.

Lemma all_writable_pte r pgd va :
  pages_sized r -> all_writable r pgd = true -> user_page va -> pte_present (pte_of r pgd va) = true -> pte_write (pte_of r pgd va) = true.
Proof.
  intros Hs Hw Hva. pose proof (pgd_index_user va (proj1 Hva)) as H1. pose proof (pte_index_range va) as H2.
  unfold all_writable in Hw. rewrite forallb_forall in Hw. specialize (Hw _ (rd_in r (virt_to_phys_addr pgd) (pgd_index va) Hs ltac:(lia))).
  cbv beta in Hw. fold (pgd_entry r pgd va) in Hw. unfold pte_of. destruct (pgd_present (pgd_entry r pgd va)); [|done].
  cbn [negb orb] in Hw. rewrite forallb_forall in Hw. specialize (Hw _ (rd_in r _ (pte_index va) Hs H2)).
  intros Hp. by rewrite Hp in Hw.
Qed.

Lemma Tiny_facts :
  forallb (fun q => refcount (znth (pages Tiny_written.1) q) <? 60000) (seqZ 0 512) = true /\ total_pages Tiny_written.1 = 512 /\
  all_writable (ram Tiny_written.2) (301 * 4096 + PAGE_OFFSET) = true /\
  bool_decide (NoDup (all_pages (mmap Tiny_vm.areas))) = true /\ mms Tiny_written.2 = {[1 := Space (301 * 4096 + PAGE_OFFSET) Tiny_vm.areas]} /\
  bool_decide (1 ∈ Heap.used (vheap Tiny_written.2)) = true.
Proof. vm_compute. done. Qed.

Lemma Tiny_plenty : plenty (zlen (all_pages (mmap Tiny_vm.areas)) + 1) Tiny_written.1.
Proof. apply plentyb_plenty. vm_compute. reflexivity. Qed.

Lemma Tiny_forkable : exists A, forkable Tiny_vm.low Tiny_written.1 Tiny_written.2 A 1 (Space (301 * 4096 + PAGE_OFFSET) Tiny_vm.areas).
Proof.
  destruct Tiny_written_ok as (A & HV & Hrun). destruct Tiny_facts as (F1 & F2 & F3 & F4 & F5 & F6). exists A.
  pose proof (proj1 (proj2 Hrun)) as Hmm. constructor; [exact HV|exact Hmm|..].
  - intros mm [sq Hsq]. rewrite F5 in Hsq. apply lookup_singleton_Some in Hsq as [<- _]. apply bool_decide_eq_true in F6. exact F6.
  - repeat constructor; cbn; unfold TASK_SIZE; lia.
  - apply bool_decide_eq_true in F4. exact F4.
  - exact Tiny_plenty.
  - intros k p E Hp. destruct (fr_map _ _ _ _ (vo_frames _ _ _ _ HV) _ _ E Hp) as (_ & [(Hu0 & _ & Hu & _) _] & _).
    rewrite F2 in Hu. pose proof (Z.div_pos (pte_pfn p) 4096 ltac:(lia) ltac:(lia)). rewrite forallb_forall in F1. specialize (F1 (pte_pfn p / 4096)). rewrite <- list_elem_of_In, elem_of_seqZ in F1.
    specialize (F1 ltac:(lia)). apply Z.ltb_lt in F1. unfold ref. change (zlen _) with 17. lia.
  - intros va p E Hp. left. destruct (to_key _ _ _ (vo_tabs _ _ _ _ HV) _ _ _ E) as (_ & Hva & _).
    pose proof (to_entry _ _ _ (vo_tabs _ _ _ _ HV) 1 _ va Hmm Hva) as Ep. rewrite E in Ep. cbn in Ep. unfold id in Ep. subst p.
    apply all_writable_pte; [exact (dk_sized _ _ _ (to_dirs _ _ _ (vo_tabs _ _ _ _ HV)))|exact F3|exact Hva|exact Hp].
Qed.

Lemma Tiny_forks : match dup_mm (M := Heap.heap) (Y := unit) Tiny_vm.low 1 Tiny_written with Ret (Some _, _) => true | _ => false end = true.
Proof. vm_compute. reflexivity. Qed.


(** After the fork the parent calls [mprotect] on the shared page, asking for
    the permissions it already has. *)
Definition protect_parent (r : run (option Z * (pa * vmem Heap.heap unit))) : option (Z * (pa * vmem Heap.heap unit)) :=
  match r with
  | Ret (Some mm, w) =>
      match update_mapped_page_flags Tiny_vm.low (Some 1) 65536 69632 (Z.lor VMA_READ VMA_WRITE) w with Ret (_, w') => Some (mm, w') | _ => None end
  | _ => None
  end.

Definition Tiny_protected : option (Z * (pa * vmem Heap.heap unit)) := protect_parent (dup_mm Tiny_vm.low 1 Tiny_written).

Definition entry_of (w : pa * vmem Heap.heap unit) (mm va : Z) : Z :=
  match mms w.2 !! mm with Some sp => pte_of (ram w.2) (mm_pgd sp) va | None => 0 end.

(** [update_mapped_page_flags] gives write permission to pages that are shared
    copy on write: the parent then writes to the frame of its child. *)
Theorem mprotect_breaks_copy_on_write :
  match Tiny_protected with
  | Some (mm, w) =>
      let p := entry_of w 1 65536 in
      let q := entry_of w mm 65536 in
      negb (mm =? 1) && pte_present p && pte_write p && pte_present q && (pte_pfn q =? pte_pfn p)
  | None => false
  end = true.
Proof. vm_compute. reflexivity. Qed.
