(* ===== verification/Path.v ===== *)
(** * Path strings ([fs/namei.c])

    The functions of path lookup that work on strings only: normalisation of a
    path into a buffer, and the split of a path into its parent and its last
    component.  A path is the list of its bytes without the terminator; a buffer
    is a block of [Cstring], so that [None] stands for an access outside it. *)

From stdpp Require Import base tactics numbers list.
From Stdlib Require Import ZArith Lia.
From S2P Require Import Prelude Cstring.

Definition SLASH : Z := 47.
Definition DOT : Z := 46.

Definition is_dot (s : list Z) : bool := bool_decide (s = [DOT]).
Definition is_dotdot (s : list Z) : bool := bool_decide (s = [DOT; DOT]).

(** ** The code *)

(** [memcpy] from another block. *)
Fixpoint blit (m : list Z) (d : nat) (s : list Z) : option (list Z) :=
  match s with
  | [] => Some m
  | c :: s' => m' ← store m d c; blit m' (S d) s'
  end.

(** The return value, the buffer and [*len]. *)
Definition vfs_append_component (out : list Z) (len cap : Z) (s : list Z) : option (Z * list Z * Z) :=
  if (len =? 0) && (cap <? 2) then Some (0, out, len) else
  '(out1, len1) ← (if len =? 0 then o1 ← store out 0 SLASH; o2 ← store o1 1 0; Some (o2, 1) else Some (out, len));
  if zlen s =? 0 then Some (1, out1, len1) else
  if cap <=? len1 +w 1 then Some (0, out1, len1) else
  c ← out1 !! Z.to_nat (len1 -w 1);
  '(out2, len2) ← (if negb (c =? SLASH) then
                     o1 ← store out1 (Z.to_nat len1) SLASH; o2 ← store o1 (Z.to_nat (len1 +w 1)) 0; Some (o2, len1 +w 1)
                   else Some (out1, len1));
  if cap <=? len2 +w zlen s then Some (0, out2, len2) else
  out3 ← blit out2 (Z.to_nat len2) s;
  out4 ← store out3 (Z.to_nat (len2 +w zlen s)) 0;
  Some (1, out4, len2 +w zlen s).

(** [while (i > 0 && out[i] != '/') i--;] *)
Fixpoint back_to_slash (out : list Z) (i : nat) : option nat :=
  match i with
  | O => Some 0%nat
  | S i' => c ← out !! i; if c =? SLASH then Some i else back_to_slash out i'
  end.

Definition vfs_pop_component (out : list Z) (len : Z) : option (list Z * Z) :=
  if len <=? 1 then o1 ← store out 0 SLASH; o2 ← store o1 1 0; Some (o2, 1)
  else
    i ← back_to_slash out (Z.to_nat (len - 1));
    if decide (i = 0%nat) then o ← store out 1 0; Some (o, 1)
    else o ← store out i 0; Some (o, Z.of_nat i).

(** Skips the slashes at the start. *)
Fixpoint skip_slashes (p : list Z) : list Z :=
  match p with
  | c :: p' => if c =? SLASH then skip_slashes p' else p
  | [] => []
  end.

(** Passes over a component: its bytes and the rest. *)
Fixpoint take_component (p : list Z) : list Z * list Z :=
  match p with
  | c :: p' => if c =? SLASH then ([], p) else let '(s, r) := take_component p' in (c :: s, r)
  | [] => ([], [])
  end.

(** The main loop; [fuel] bounds the bytes left. *)
Fixpoint normalize_loop (fuel : nat) (out : list Z) (len cap : Z) (p : list Z) : option (Z * list Z) :=
  match fuel with
  | O => Some (1, out)
  | S fuel' =>
      match p with
      | [] => Some (1, out)
      | _ =>
          let '(s, r) := take_component p in
          if is_dot s then normalize_loop fuel' out len cap (skip_slashes r)
          else if is_dotdot s then '(o, l) ← vfs_pop_component out len; normalize_loop fuel' o l cap (skip_slashes r)
          else if 0 <? zlen s then
            '(ok, o, l) ← vfs_append_component out len cap s;
            if ok =? 0 then Some (0, o) else normalize_loop fuel' o l cap (skip_slashes r)
          else normalize_loop fuel' out len cap (skip_slashes r)
      end
  end.

Definition vfs_normalize_path (path out : list Z) (cap : Z) : option (Z * list Z) :=
  if cap <? 2 then Some (0, out) else
  o0 ← store out 0 0;
  '(ok, o, l) ← vfs_append_component o0 0 cap [];
  if ok =? 0 then Some (0, o) else normalize_loop (S (length path)) o l cap (skip_slashes path).

(** [while (len > 1 && name[len - 1] == '/') len--;] *)
Fixpoint strip_slashes (name : list Z) (len : nat) : nat :=
  match len with
  | S (S _ as l) => if name !!! l =? SLASH then strip_slashes name l else len
  | _ => len
  end.

(** [while (slash > 0 && name[slash - 1] != '/') slash--;] *)
Fixpoint find_last_slash (name : list Z) (slash : nat) : nat :=
  match slash with
  | O => O
  | S l => if name !!! l =? SLASH then slash else find_last_slash name l
  end.

Definition PARENT_NAME : nat := 256.

(** The first part of [filename_parentat]: [parent_name] and [last]. *)
Definition split_parent (name : list Z) (last_cap : Z) : option (list Z * list Z) :=
  if (zlen name =? 0) || (last_cap =? 0) then None else
  let len := strip_slashes name (length name) in
  let slash := find_last_slash name len in
  if decide (slash = 0%nat) then
    if last_cap <=? Z.of_nat len then None else Some ([DOT], take len name)
  else if decide (slash = 1%nat) then
    let base_len := (len - 1)%nat in
    if (Z.of_nat base_len =? 0) || (last_cap <=? Z.of_nat base_len) then None
    else Some ([SLASH], take base_len (drop 1 name))
  else if decide (PARENT_NAME <= slash)%nat then None
  else
    let base_len := (len - slash)%nat in
    if (Z.of_nat base_len =? 0) || (last_cap <=? Z.of_nat base_len) then None
    else Some (take (slash - 1) name, take base_len (drop slash name)).

(** ** The reference: a path is a list of components *)

Definition emit (s : list Z) : list (list Z) := match s with [] => [] | _ => [s] end.

(** The maximal runs without a slash. *)
Fixpoint split_at (cur p : list Z) : list (list Z) :=
  match p with
  | [] => emit cur
  | c :: p' => if c =? SLASH then emit cur ++ split_at [] p' else split_at (cur ++ [c]) p'
  end.

Definition components (p : list Z) : list (list Z) := split_at [] p.

Definition apply_component (st : list (list Z)) (c : list Z) : list (list Z) :=
  if is_dot c then st else if is_dotdot c then removelast st else st ++ [c].

(** The directory a path names, as components below the root. *)
Definition normal (p : list Z) : list (list Z) := foldl apply_component [] (components p).

Definition slashed (st : list (list Z)) : list Z := concat ((fun c => SLASH :: c) <$> st).
Definition render (st : list (list Z)) : list Z := match st with [] => [SLASH] | _ => slashed st end.

(** A component of a path. *)
Definition plain (c : list Z) : Prop := c <> [] /\ Forall (fun b => b <> SLASH /\ b <> 0) c.

(** ** Stores into a buffer *)

Lemma store_app (a t : list Z) x c n : n = length a -> store (a ++ x :: t) n c = Some (a ++ c :: t).
Proof.
  intros ->. unfold store. rewrite length_app. cbn [length]. rewrite decide_True by lia. f_equal.
  rewrite insert_app_r_alt, Nat.sub_diag by lia. done.
Qed.

Lemma blit_app (a t s : list Z) : (length s <= length t)%nat -> blit (a ++ t) (length a) s = Some (a ++ s ++ drop (length s) t).
Proof.
  revert a t. induction s as [|c s IH]; intros a t Hl; cbn [blit length app drop] in *; [by rewrite drop_0|].
  destruct t as [|x t]; cbn [length] in Hl; [lia|]. rewrite store_app by done. cbn [mbind option_bind].
  replace (S (length a)) with (length (a ++ [c])) by (rewrite length_app; cbn; lia).
  replace (a ++ c :: t) with ((a ++ [c]) ++ t) by (by rewrite <- app_assoc). rewrite IH by lia. f_equal. rewrite <- app_assoc. done.
Qed.

Lemma slashed_app st c : slashed (st ++ [c]) = slashed st ++ SLASH :: c.
Proof. unfold slashed. rewrite fmap_app, concat_app. cbn. by rewrite app_nil_r. Qed.

Lemma render_app st c : render (st ++ [c]) = slashed st ++ SLASH :: c.
Proof. unfold render. rewrite <- slashed_app. by destruct st. Qed.

Lemma render_nonempty st : st <> [] -> render st = slashed st.
Proof. by destruct st. Qed.

Lemma render_length st : (1 <= length (render st))%nat.
Proof. destruct st as [|c st]; cbn; lia. Qed.

(** The last byte of a component is no slash. *)
Lemma plain_last c a : plain c -> exists x, (a ++ c) !! (length (a ++ c) - 1)%nat = Some x /\ x <> SLASH.
Proof.
  intros [Hne Hf]. destruct c as [|b c _] using rev_ind; [done|]. apply Forall_app in Hf as [_ Hb]. apply Forall_cons in Hb as [[Hb _] _].
  exists b. split; [|done]. rewrite app_assoc, length_app. cbn [length].
  replace (length (a ++ c) + 1 - 1)%nat with (length (a ++ c)) by lia. rewrite lookup_app_r by lia. by rewrite Nat.sub_diag.
Qed.

(** The buffer holds the string. *)
Definition holds (out str : list Z) : Prop := exists t, out = str ++ 0 :: t.

Section buffer.
Variable cap : Z.
Hypothesis Hcap : 2 <= cap < 2147483648.
Implicit Types (out : list Z) (st : list (list Z)).

Lemma append_component_spec out st c :
  holds out (render st) -> cap <= zlen out -> zlen (render st) < cap -> Forall plain st -> plain c -> zlen c < 2147483648 ->
  if cap <=? zlen (render (st ++ [c])) then exists o l, vfs_append_component out (zlen (render st)) cap c = Some (0, o, l)
  else exists o, vfs_append_component out (zlen (render st)) cap c = Some (1, o, zlen (render (st ++ [c]))) /\
    holds o (render (st ++ [c])) /\ length o = length out.
Proof.
  intros [t ->] Hlen Hfit Hst Hc Hcl. pose proof (render_length st) as Hr. pose proof Hc as [Hne _].
  assert (Hn : 0 < zlen c) by (unfold zlen; destruct c; [done|cbn [length]; lia]).
  unfold vfs_append_component. unfold zlen in *. set (len := Z.of_nat (length (render st))) in *.
  destruct (Z.eqb_spec len 0); [lia|]. cbn [andb mbind option_bind].
  destruct (Z.eqb_spec (Z.of_nat (length c)) 0); [lia|]. rewrite !add32_id by lia. rewrite sub32_id by lia.
  rewrite render_app, length_app. cbn [length]. rewrite length_app in Hlen. cbn [length] in Hlen.
  destruct (decide (st = [])) as [->|Hs].
  - (* below the root *)
    cbn [render slashed fmap list_fmap concat length] in *. change (Z.to_nat (len - 1)) with 0%nat. cbn [app lookup list_lookup mbind option_bind].
    change (SLASH =? SLASH) with true. cbn [negb mbind option_bind]. rewrite add32_id by lia. subst len. change (Z.of_nat 1) with 1 in *.
    destruct (Z.leb_spec cap (1 + 1)).
    { rewrite (proj2 (Z.leb_le _ _)) by lia. eauto. }
    destruct (Z.leb_spec cap (Z.of_nat (0 + S (length c)))) as [Hov|Hfits].
    { rewrite (proj2 (Z.leb_le _ _)) by lia. eauto. }
    rewrite (proj2 (Z.leb_gt _ _)) by lia. change (Z.to_nat 1) with (length [SLASH]).
    change (SLASH :: 0 :: t) with ([SLASH] ++ 0 :: t). rewrite blit_app by (cbn [length]; lia). cbn [mbind option_bind].
    rewrite app_assoc. destruct (drop (length c) (0 :: t)) as [|y u] eqn:Ed.
    { apply (f_equal length) in Ed. rewrite length_drop in Ed. cbn [length] in Ed. lia. }
    rewrite store_app by (rewrite length_app; cbn [length]; lia). cbn [mbind option_bind].
    eexists. split_and!; [do 2 f_equal; lia|by exists u|]. apply (f_equal length) in Ed. rewrite length_drop in Ed. cbn [length app] in *.
    rewrite ?length_app in *. cbn [length] in *. lia.
  - (* below a directory: a slash first *)
    rewrite (render_nonempty st Hs) in *. destruct st as [|c0 st0 _] using rev_ind; [done|]. clear Hs.
    apply Forall_app in Hst as [_ Hc0]. apply Forall_cons in Hc0 as [Hc0 _].
    rewrite slashed_app in *. set (a := slashed st0 ++ SLASH :: c0) in *.
    destruct (plain_last c0 (slashed st0 ++ [SLASH]) Hc0) as (x & Hx & Hxs).
    replace ((slashed st0 ++ [SLASH]) ++ c0) with a in Hx by (by rewrite <- app_assoc).
    assert (El : len = Z.of_nat (length a)) by (unfold len, a; by rewrite render_app). clearbody len. rewrite lookup_app_l by lia. replace (Z.to_nat (len - 1)) with (length a - 1)%nat by lia. rewrite Hx. cbn [mbind option_bind].
    destruct (Z.eqb_spec x SLASH); [done|]. cbn [negb].
    destruct (Z.leb_spec cap (len + 1)).
    { rewrite (proj2 (Z.leb_le _ _)) by lia. eauto. }
    rewrite store_app by lia. cbn [mbind option_bind]. destruct t as [|y u]; [cbn [length] in Hlen; lia|].
    change (a ++ SLASH :: y :: u) with (a ++ [SLASH] ++ y :: u). rewrite app_assoc. rewrite store_app by (rewrite length_app; cbn [length]; lia).
    cbn [mbind option_bind]. rewrite add32_id by lia.
    destruct (Z.leb_spec cap (Z.of_nat (length a + S (length c)))) as [Hov|Hfits].
    { rewrite (proj2 (Z.leb_le _ _)) by lia. eauto. }
    rewrite (proj2 (Z.leb_gt _ _)) by lia. replace (Z.to_nat (len + 1)) with (length (a ++ [SLASH])) by (rewrite length_app; cbn [length]; lia).
    cbn [length] in Hlen. rewrite blit_app by (cbn [length]; lia). cbn [mbind option_bind]. rewrite app_assoc.
    destruct (drop (length c) (0 :: u)) as [|z v] eqn:Ed.
    { apply (f_equal length) in Ed. rewrite length_drop in Ed. cbn [length] in Ed. lia. }
    rewrite store_app by (rewrite !length_app; cbn [length]; lia). cbn [mbind option_bind].
    eexists. split_and!; [do 2 f_equal; lia|exists v; by rewrite <- !app_assoc|]. apply (f_equal length) in Ed. rewrite length_drop in Ed.
    rewrite ?length_app in *. cbn [length] in *. lia.
Qed.

Lemma back_to_slash_spec (a c u : list Z) k :
  Forall (fun b => b <> SLASH) c -> (k <= length c)%nat -> back_to_slash (a ++ SLASH :: c ++ u) (length a + k) = Some (length a).
Proof.
  intros Hc. induction k as [|k IH]; intros Hk.
  - rewrite Nat.add_0_r. destruct a as [|x a]; [done|].
    pose proof (list_lookup_middle (x :: a) (c ++ u) SLASH (S (length a)) eq_refl) as E. cbn [length back_to_slash]. rewrite E. done.
  - destruct (lookup_lt_is_Some_2 c k ltac:(lia)) as [b Hb]. rewrite Nat.add_succ_r. cbn [back_to_slash].
    assert (E : (a ++ SLASH :: c ++ u) !! S (length a + k) = Some b).
    { rewrite lookup_app_r by lia. replace (S (length a + k) - length a)%nat with (S k) by lia. change (SLASH :: c ++ u) with ([SLASH] ++ c ++ u). rewrite lookup_app_r by (cbn; lia). cbn [length]. replace (S k - 1)%nat with k by lia. by rewrite lookup_app_l by lia. }
    rewrite E. cbn [mbind option_bind]. rewrite Forall_lookup in Hc. pose proof (Hc k b Hb). destruct (Z.eqb_spec b SLASH); [done|]. apply IH. lia.
Qed.

Lemma pop_spec out st :
  holds out (render st) -> cap <= zlen out -> zlen (render st) < cap -> Forall plain st ->
  exists o, vfs_pop_component out (zlen (render st)) = Some (o, zlen (render (removelast st))) /\
    holds o (render (removelast st)) /\ length o = length out.
Proof.
  intros [t ->] Hlen Hfit Hst. unfold vfs_pop_component. destruct st as [|c st _] using rev_ind.
  { cbn [render removelast]. change (zlen [SLASH]) with 1. cbn [Z.leb Z.compare]. eexists. split_and!; [done|by exists t|done]. }
  apply Forall_app in Hst as [Hst Hc]. apply Forall_cons in Hc as [[Hne Hc] _]. rewrite removelast_last.
  rewrite render_app in *. unfold zlen in *. rewrite length_app in *. cbn [length] in *. rewrite length_app in Hlen. cbn [length] in Hlen.
  assert (1 <= length c)%nat by (destruct c; [done|cbn; lia]). destruct (Z.leb_spec (Z.of_nat (length (slashed st) + S (length c))) 1); [lia|].
  replace (Z.to_nat (Z.of_nat (length (slashed st) + S (length c)) - 1)) with (length (slashed st) + length c)%nat by lia.
  rewrite <- app_assoc. cbn [app]. rewrite back_to_slash_spec; [|eapply Forall_impl; [done|tauto]|lia]. cbn [mbind option_bind].
  destruct st as [|c0 st].
  - change (length (slashed [])) with 0%nat. rewrite decide_True by done. destruct c as [|b c]; [done|].
    change (slashed [] ++ SLASH :: (b :: c) ++ 0 :: t) with ([SLASH] ++ b :: c ++ 0 :: t). rewrite store_app by done. cbn [mbind option_bind].
    eexists. split_and!; [done|by eexists|]. rewrite !length_app. cbn [length app]. rewrite !length_app. cbn [length]. lia.
  - rewrite (render_nonempty (c0 :: st)) by done. set (a := slashed (c0 :: st)) in *. assert (1 <= length a)%nat by (cbn; lia).
    rewrite decide_False by lia. rewrite store_app by done. cbn [mbind option_bind].
    eexists. split_and!; [done|by eexists|]. rewrite !length_app. cbn [length app]. rewrite ?length_app. cbn [length]. lia.
Qed.
End buffer.

(** ** Components *)

Lemma split_at_take cur p :
  let '(s, r) := take_component p in split_at cur p = emit (cur ++ s) ++ components r /\ Forall (fun b => b <> SLASH) s /\ p = s ++ r.
Proof.
  revert cur. induction p as [|c p IH]; intros cur; cbn [take_component split_at].
  - rewrite !app_nil_r. done.
  - destruct (Z.eqb_spec c SLASH) as [->|Hc].
    + rewrite app_nil_r. unfold components. cbn [split_at]. done.
    + specialize (IH (cur ++ [c])). destruct (take_component p) as [s r]. destruct IH as (H1 & H2 & ->).
      rewrite H1, <- app_assoc. split_and!; [done|by constructor|done].
Qed.

Lemma components_skip p : components (skip_slashes p) = components p.
Proof. induction p as [|c p IH]; [done|]. cbn [skip_slashes]. destruct (Z.eqb_spec c SLASH) as [->|]; [by rewrite IH|done]. Qed.

Lemma skip_slashes_length p : (length (skip_slashes p) <= length p)%nat.
Proof. induction p as [|c p IH]; [done|]. cbn [skip_slashes]. destruct (c =? SLASH); cbn [length]; lia. Qed.

Lemma skip_slashes_head p : match skip_slashes p with c :: _ => c <> SLASH | [] => True end.
Proof. induction p as [|c p IH]; [done|]. cbn [skip_slashes]. by destruct (Z.eqb_spec c SLASH). Qed.

Lemma skip_slashes_forall (P : Z -> Prop) p : Forall P p -> Forall P (skip_slashes p).
Proof. induction 1 as [|c p Hc Hp IH]; [constructor|]. cbn [skip_slashes]. destruct (c =? SLASH); [done|by constructor]. Qed.

(** The first component and the rest, for a path that does not start with a slash. *)
Lemma components_head p :
  p <> [] -> match p with c :: _ => c <> SLASH | [] => True end -> Forall (fun b => b <> 0) p ->
  let '(s, r) := take_component p in
  plain s /\ components p = s :: components (skip_slashes r) /\ (length (skip_slashes r) < length p)%nat /\ Forall (fun b => b <> 0) r /\
  (length s <= length p)%nat.
Proof.
  intros Hne Hh Hz. pose proof (split_at_take [] p) as H. destruct (take_component p) as [s r] eqn:E. destruct H as (H1 & H2 & Hp).
  assert (Hs : s <> []).
  { destruct p as [|c p]; [done|]. cbn [take_component] in E. destruct (Z.eqb_spec c SLASH); [done|]. destruct (take_component p). by injection E as <- <-. }
  rewrite Hp in Hz. apply Forall_app in Hz as [Hz1 Hz2]. split_and!; try done.
  - split; [done|]. by apply Forall_and.
  - unfold components at 1. rewrite H1. cbn [app]. rewrite components_skip. by destruct s.
  - pose proof (skip_slashes_length r). rewrite Hp, length_app. destruct s; [done|]. cbn [length]. lia.
  - rewrite Hp, length_app. lia.
Qed.

(** ** Normalisation *)

(** The reference with the size of the buffer: every intermediate path must fit. *)
Fixpoint normal_within (cap : Z) (st cs : list (list Z)) : option (list (list Z)) :=
  match cs with
  | [] => Some st
  | c :: cs' => let st' := apply_component st c in if cap <=? zlen (render st') then None else normal_within cap st' cs'
  end.

Lemma normal_within_some cap st cs st' : normal_within cap st cs = Some st' -> st' = foldl apply_component st cs.
Proof. revert st. induction cs as [|c cs IH]; intros st; cbn [normal_within foldl]; [congruence|]. case_match; [done|apply IH]. Qed.

Lemma render_slashed st : (length (render st) <= length (slashed st) + 1)%nat /\ (length (slashed st) <= length (render st))%nat.
Proof. destruct st as [|c st]; cbn [render]; cbn; lia. Qed.

Lemma slashed_removelast st : (length (slashed (removelast st)) <= length (slashed st))%nat.
Proof. destruct st as [|c st _] using rev_ind; [done|]. rewrite removelast_last, slashed_app, length_app. lia. Qed.

Lemma apply_component_length st c : (length (slashed (apply_component st c)) <= length (slashed st) + S (length c))%nat.
Proof.
  unfold apply_component. pose proof (slashed_removelast st). destruct (is_dot c), (is_dotdot c); try lia.
  rewrite slashed_app, length_app. cbn [length]. lia.
Qed.

Lemma normal_within_fits cap st cs :
  Z.of_nat (length (slashed st) + length (slashed cs) + 1) < cap -> normal_within cap st cs = Some (foldl apply_component st cs).
Proof.
  revert st. induction cs as [|c cs IH]; intros st Hf; cbn [normal_within foldl]; [done|].
  pose proof (apply_component_length st c) as Ha. pose proof (render_slashed (apply_component st c)) as [Hr _].
  change (slashed (c :: cs)) with (SLASH :: c ++ slashed cs) in Hf. cbn [length] in Hf. rewrite length_app in Hf.
  destruct (Z.leb_spec cap (zlen (render (apply_component st c)))); [unfold zlen in *; lia|]. apply IH. lia.
Qed.

Lemma split_at_length cur p : (length (slashed (split_at cur p)) <= length cur + length p + 1)%nat.
Proof.
  revert cur. induction p as [|c p IH]; intros cur; cbn [split_at length].
  - destruct cur; cbn; rewrite ?app_nil_r; lia.
  - destruct (c =? SLASH).
    + unfold slashed in *. rewrite fmap_app, concat_app, length_app. specialize (IH []). cbn [length] in IH. destruct cur; cbn in *; rewrite ?app_nil_r; lia.
    + specialize (IH (cur ++ [c])). rewrite length_app in IH. cbn [length] in IH. lia.
Qed.

Lemma emit_plain cur : Forall (fun b => b <> SLASH /\ b <> 0) cur -> Forall plain (emit cur).
Proof. intros Hc. destruct cur as [|b cur]; [constructor|]. apply Forall_singleton. by split. Qed.

(** The components are nonempty, without slashes. *)
Lemma components_plain p : Forall (fun b => b <> 0) p -> Forall plain (components p).
Proof.
  unfold components. assert (H : forall cur, Forall (fun b => b <> SLASH /\ b <> 0) cur -> Forall (fun b => b <> 0) p -> Forall plain (split_at cur p)).
  { induction p as [|c p IH]; intros cur Hc Hp; cbn [split_at].
    - by apply emit_plain.
    - apply Forall_cons in Hp as [Hc0 Hp]. destruct (Z.eqb_spec c SLASH).
      + apply Forall_app. split; [by apply emit_plain|]. by apply IH.
      + apply IH; [|done]. apply Forall_app. split; [done|]. by repeat constructor. }
  intros Hp. by apply H.
Qed.

Lemma split_at_plain cur s : Forall (fun b => b <> SLASH) s -> forall p, split_at cur (s ++ p) = split_at (cur ++ s) p.
Proof.
  revert cur. induction s as [|c s IH]; intros cur Hs p; cbn [app split_at]; [by rewrite app_nil_r|].
  apply Forall_cons in Hs as [Hc Hs]. destruct (Z.eqb_spec c SLASH); [done|]. rewrite IH by done. by rewrite <- app_assoc.
Qed.

(** Reading back a rendered path. *)
Lemma components_slashed st : Forall plain st -> components (slashed st) = st.
Proof.
  intros H. unfold components. assert (G : forall cur, split_at cur (slashed st) = emit cur ++ st).
  { induction H as [|c st [Hne Hc] Hst IH]; intros cur; [by rewrite app_nil_r|].
    change (slashed (c :: st)) with (SLASH :: c ++ slashed st). cbn [split_at]. change (SLASH =? SLASH) with true. cbv iota. f_equal.
    rewrite split_at_plain by (eapply Forall_impl; [exact Hc|by intros b [? ?]]). rewrite IH. by destruct c. }
  by rewrite G.
Qed.

Lemma components_render st : Forall plain st -> components (render st) = st.
Proof. intros H. destruct st as [|c st]; [done|]. by apply components_slashed. Qed.

Lemma normal_plain cs st :
  Forall plain cs -> Forall (fun c => plain c /\ is_dot c = false /\ is_dotdot c = false) st ->
  Forall (fun c => plain c /\ is_dot c = false /\ is_dotdot c = false) (foldl apply_component st cs).
Proof.
  intros Hcs. revert st. induction Hcs as [|c cs Hc _ IH]; intros st Hst; [done|]. cbn [foldl]. apply IH. unfold apply_component.
  destruct (is_dot c) eqn:E1; [done|]. destruct (is_dotdot c) eqn:E2.
  - destruct st as [|d st _] using rev_ind; [done|]. rewrite removelast_last. by apply Forall_app in Hst as [? _].
  - apply Forall_app. split; [done|]. by apply Forall_singleton.
Qed.

Lemma normal_fixed st :
  Forall (fun c => plain c /\ is_dot c = false /\ is_dotdot c = false) st -> forall acc, foldl apply_component acc st = acc ++ st.
Proof.
  induction 1 as [|c st (_ & E1 & E2) _ IH]; intros acc; cbn [foldl]; [by rewrite app_nil_r|].
  unfold apply_component at 2. rewrite E1, E2, IH, <- app_assoc. done.
Qed.

Lemma normalize_loop_spec cap fuel p : forall out st,
  2 <= cap < 2147483648 -> zlen p < 2147483648 -> (length p < fuel)%nat -> Forall (fun b => b <> 0) p ->
  match p with c :: _ => c <> SLASH | [] => True end ->
  holds out (render st) -> cap <= zlen out -> zlen (render st) < cap -> Forall plain st ->
  match normal_within cap st (components p) with
  | Some st' => exists o, normalize_loop fuel out (zlen (render st)) cap p = Some (1, o) /\ holds o (render st') /\ length o = length out
  | None => exists o, normalize_loop fuel out (zlen (render st)) cap p = Some (0, o)
  end.
Proof.
  revert p. induction fuel as [|fuel IH]; intros p out st Hcap Hlen Hfuel Hz Hh Hb Hout Hfit Hst; [lia|].
  destruct (decide (p = [])) as [->|Hp]; [cbn; eauto|].
  pose proof (components_head p Hp Hh Hz) as HC. cbn [normalize_loop]. destruct (take_component p) as [s r].
  destruct HC as (Hs & -> & Hl & Hzr & Hsp). cbn [normal_within].
  set (p' := skip_slashes r) in *. assert (Hp' : zlen p' < 2147483648) by (unfold zlen in *; lia).
  assert (Hz' : Forall (fun b => b <> 0) p') by (by apply skip_slashes_forall).
  assert (Hh' : match p' with c :: _ => c <> SLASH | [] => True end) by apply skip_slashes_head.
  replace (match p with [] => _ | _ :: _ => _ end) with
    (if is_dot s then normalize_loop fuel out (zlen (render st)) cap p'
     else if is_dotdot s then '(o, l) ← vfs_pop_component out (zlen (render st)); normalize_loop fuel o l cap p'
     else if 0 <? zlen s then
       '(ok, o, l) ← vfs_append_component out (zlen (render st)) cap s; if ok =? 0 then Some (0, o) else normalize_loop fuel o l cap p'
     else normalize_loop fuel out (zlen (render st)) cap p') by (by destruct p).
  unfold apply_component. destruct (is_dot s) eqn:E1.
  { rewrite (proj2 (Z.leb_gt _ _)) by lia. apply IH; try done; lia. }
  destruct (is_dotdot s) eqn:E2.
  { destruct (pop_spec cap Hcap out st Hb Hout Hfit Hst) as (o & -> & Ho & Hlo). cbn [mbind option_bind].
    assert (Hr : zlen (render (removelast st)) < cap).
    { pose proof (slashed_removelast st). pose proof (render_slashed st). pose proof (render_slashed (removelast st)). unfold zlen in *.
      destruct st as [|c0 st0 _] using rev_ind; [done|]. rewrite removelast_last in *. rewrite render_app in *. rewrite slashed_app in *.
      rewrite length_app in *. cbn [length] in *. lia. }
    rewrite (proj2 (Z.leb_gt _ _)) by lia.
    specialize (IH p' o (removelast st) Hcap Hp' ltac:(lia) Hz' Hh' Ho ltac:(unfold zlen in *; lia) Hr).
    rewrite <- Hlo. apply IH. destruct st as [|c0 st0 _] using rev_ind; [done|]. rewrite removelast_last. by apply Forall_app in Hst as [? _]. }
  assert (Hsl : 0 < zlen s < 2147483648) by (unfold zlen in *; destruct Hs as [Hs _]; destruct s; [done|cbn [length] in *; lia]).
  rewrite (proj2 (Z.ltb_lt _ _)) by lia. pose proof (append_component_spec cap Hcap out st s Hb Hout Hfit Hst Hs ltac:(lia)) as HA.
  destruct (cap <=? zlen (render (st ++ [s]))) eqn:Ec.
  - destruct HA as (o & l & ->). cbn. eauto.
  - destruct HA as (o & -> & Ho & Hlo). cbn [mbind option_bind Z.eqb]. apply Z.leb_gt in Ec. rewrite <- Hlo.
    apply IH; try done; [lia|unfold zlen in *; lia|]. apply Forall_app. split; [done|]. by apply Forall_singleton.
Qed.

(** C26: [vfs_normalize_path] never writes outside its buffer.  It succeeds
    exactly when the path of every prefix fits, in particular when the whole
    string fits with two bytes to spare, and then leaves the absolute path of
    the directory the components name: empty components and [.] are dropped,
    [..] removes the component before it and stops at the root.  Normalising
    the result again changes nothing. *)
Theorem vfs_normalize_path_correct path out cap :
  2 <= cap < 2147483648 -> cap <= zlen out -> zlen path < 2147483647 -> Forall (fun b => b <> 0) path ->
  exists r o, vfs_normalize_path path out cap = Some (r, o) /\
    (r = 1 \/ r = 0) /\ (r = 1 <-> normal_within cap [] (components path) <> None) /\
    (zlen path + 2 < cap -> r = 1) /\
    (r = 1 -> (exists t, o = render (normal path) ++ 0 :: t) /\ length o = length out /\ normal (render (normal path)) = normal path).
Proof.
  intros Hcap Hout Hlen Hz. unfold vfs_normalize_path. rewrite (proj2 (Z.ltb_ge _ _)) by lia.
  destruct out as [|b0 [|b1 t]]; [unfold zlen in Hout; cbn in Hout; lia..|].
  change (store (b0 :: b1 :: t) 0 0) with (Some (0 :: b1 :: t)). cbn [mbind option_bind].
  assert (E : vfs_append_component (0 :: b1 :: t) 0 cap [] = Some (1, SLASH :: 0 :: t, 1)).
  { unfold vfs_append_component. rewrite (proj2 (Z.ltb_ge _ _)) by lia. done. }
  rewrite E. cbn [mbind option_bind Z.eqb]. pose proof (skip_slashes_length path) as Hs.
  pose proof (normalize_loop_spec cap (S (length path)) (skip_slashes path) (SLASH :: 0 :: t) [] Hcap) as HL.
  rewrite components_skip in HL. specialize (HL ltac:(unfold zlen in *; lia) ltac:(lia) (skip_slashes_forall _ _ Hz) (skip_slashes_head _)
    ltac:(by exists t) ltac:(unfold zlen in *; cbn [length] in *; lia) ltac:(change (zlen (render [])) with 1; lia) ltac:(constructor)).
  assert (Hfits : zlen path + 2 < cap -> normal_within cap [] (components path) <> None).
  { intros Hf. rewrite normal_within_fits; [done|]. pose proof (split_at_length [] path). unfold components, zlen in *. cbn [length slashed fmap list_fmap concat] in *. lia. }
  change (zlen (render [])) with 1 in HL. pose proof (normal_plain (components path) [] (components_plain path Hz) ltac:(constructor)) as Hpl.
  destruct (normal_within cap [] (components path)) as [st|] eqn:Ew.
  - apply normal_within_some in Ew. fold (normal path) in Ew. subst st. destruct HL as (o & -> & Ho & Hlo). exists 1, o.
    split_and!; try done; [by left|]. intros _. split_and!; try done.
    unfold normal at 1. fold (normal path) in Hpl. rewrite components_render by (eapply Forall_impl; [done|tauto]). by apply normal_fixed.
  - destruct HL as (o & ->). exists 0, o. split_and!; try done; [by right|]. intros Hf. by apply Hfits in Hf.
Qed.

Lemma vfs_normalize_path_correct_witness :
  exists o, vfs_normalize_path [47; 97; 47; 47; 46; 47; 98; 47; 46; 46; 47; 99] (replicate 16 7) 16 = Some (1, o) /\
    exists t, o = [47; 97; 47; 99] ++ 0 :: t.
Proof.
  destruct (vfs_normalize_path_correct [47; 97; 47; 47; 46; 47; 98; 47; 46; 46; 47; 99] (replicate 16 7) 16) as (r & o & E & _ & _ & Hr & Ho);
    [lia|unfold zlen; rewrite length_replicate; lia|unfold zlen; cbn [length]; lia|repeat constructor; lia|].
  assert (r = 1) as -> by (apply Hr; unfold zlen; cbn [length]; lia). exists o. split; [exact E|]. exact (proj1 (Ho eq_refl)).
Defined.

(** ** Parent and last component *)

Lemma split_at_slash cur (a b : list Z) : split_at cur (a ++ SLASH :: b) = split_at cur a ++ components b.
Proof.
  revert cur. induction a as [|c a IH]; intros cur; cbn [app split_at]; [done|].
  destruct (c =? SLASH); rewrite IH; [by rewrite app_assoc|done].
Qed.

Lemma components_last (a b : list Z) : b <> [] -> Forall (fun x => x <> SLASH) b -> components (a ++ SLASH :: b) = components a ++ [b].
Proof.
  intros Hne Hb. unfold components at 1. rewrite split_at_slash. f_equal. unfold components.
  pose proof (split_at_plain [] b Hb []) as E. rewrite app_nil_r in E. rewrite E. by destruct b.
Qed.

Lemma components_slashes a k : components (a ++ replicate k SLASH) = components a.
Proof.
  induction k as [|k IH]; [by rewrite app_nil_r|]. rewrite replicate_S_end, app_assoc. unfold components at 1.
  rewrite split_at_slash. fold (components (a ++ replicate k SLASH)). by rewrite IH, app_nil_r.
Qed.

Lemma strip_slashes_spec name len :
  (1 <= len <= length name)%nat ->
  let l := strip_slashes name len in
  (1 <= l <= len)%nat /\ take len name = take l name ++ replicate (len - l) SLASH /\ (l = 1%nat \/ name !!! (l - 1)%nat <> SLASH).
Proof.
  induction len as [|len IH]; intros Hl; [lia|]. destruct len as [|len]; cbv zeta.
  { cbn [strip_slashes]. split_and!; [lia|lia|by rewrite Nat.sub_diag, app_nil_r|by left]. }
  change (strip_slashes name (S (S len))) with (if name !!! S len =? SLASH then strip_slashes name (S len) else S (S len)).
  destruct (Z.eqb_spec (name !!! S len) SLASH) as [E|E].
  - destruct (IH ltac:(lia)) as (H1 & H2 & H3). cbv zeta in *. split_and!; [lia|lia| |done].
    rewrite (take_S_r name (S len) SLASH), H2; [|by rewrite list_lookup_lookup_total_lt, E by lia].
    rewrite <- app_assoc, <- replicate_S_end. do 2 f_equal. lia.
  - split_and!; [lia|lia|by rewrite Nat.sub_diag, app_nil_r|right]. by replace (S (S len) - 1)%nat with (S len) by lia.
Qed.

Lemma find_last_slash_spec name n :
  (n <= length name)%nat ->
  let l := find_last_slash name n in
  (l <= n)%nat /\ (forall i, (l <= i < n)%nat -> name !!! i <> SLASH) /\ (l <> 0%nat -> name !!! (l - 1)%nat = SLASH).
Proof.
  induction n as [|n IH]; intros Hn; cbn [find_last_slash]; [split_and!; [lia|lia|done]|].
  destruct (Z.eqb_spec (name !!! n) SLASH) as [E|E]; cbv zeta.
  - split_and!; [lia|lia|]. intros _. by replace (S n - 1)%nat with n by lia.
  - destruct (IH ltac:(lia)) as (H1 & H2 & H3). split_and!; [lia| |done]. intros i Hi.
    destruct (decide (i = n)) as [->|]; [done|]. apply H2. lia.
Qed.

Lemma no_slash_between name (a b : nat) :
  (b <= length name)%nat -> (forall i, (a <= i < b)%nat -> name !!! i <> SLASH) -> Forall (fun x => x <> SLASH) (take (b - a) (drop a name)).
Proof.
  intros Hb H. apply Forall_lookup. intros i x Hx. apply lookup_take_Some in Hx as [Hx Hi]. rewrite lookup_drop in Hx.
  apply list_lookup_total_correct in Hx. subst x. apply H. lia.
Qed.

(** the split of a path in [filename_parentat].  If it succeeds the last
    component is the last of the path, without slashes, shorter than its buffer,
    and the parent, shorter than its buffer too, has the components before it;
    a path of one relative component has the parent ".".  It fails exactly if
    the path has no component, or the last one or the parent is too long. *)
Theorem split_parent_correct name cap :
  0 < cap -> name <> [] ->
  let len := strip_slashes name (length name) in
  let slash := find_last_slash name len in
  match split_parent name cap with
  | Some (par, last) =>
      last <> [] /\ Forall (fun b => b <> SLASH) last /\ zlen last < cap /\ zlen par < 256 /\
      (par = [DOT] /\ components name = [last] \/ components name = components par ++ [last])
  | None => components name = [] \/ cap <= Z.of_nat (len - slash) \/ (256 <= slash)%nat
  end.
Proof.
  intros Hcap Hne len slash. unfold split_parent. fold len. fold slash.
  assert (Hl0 : (1 <= length name)%nat) by (destruct name; [done|cbn; lia]).
  destruct (Z.eqb_spec (zlen name) 0); [unfold zlen in *; lia|]. destruct (Z.eqb_spec cap 0); [lia|]. cbn [orb].
  destruct (strip_slashes_spec name (length name) ltac:(lia)) as (L1 & L2 & L3). fold len in L1, L2, L3. rewrite firstn_all in L2.
  destruct (find_last_slash_spec name len ltac:(lia)) as (S1 & S2 & S3). fold slash in S1, S2, S3.
  assert (Hcomp : components name = components (take len name)) by (rewrite L2 at 1; apply components_slashes).
  pose proof (no_slash_between name slash len ltac:(lia) S2) as Hlast.
  assert (Hlen : length (take (len - slash) (drop slash name)) = (len - slash)%nat) by (rewrite length_take, length_drop; lia).
  destruct (decide (slash = 0%nat)) as [E0|E0].
  { rewrite E0 in *. rewrite Nat.sub_0_r, drop_0 in *. destruct (Z.leb_spec cap (Z.of_nat len)); [tauto|].
    assert (Hn : take len name <> []) by (intros Hx; rewrite Hx in Hlen; cbn in Hlen; lia).
    unfold zlen. rewrite Hlen. split_and!; try done. left. split; [done|]. rewrite Hcomp. unfold components.
    pose proof (split_at_plain [] (take len name) Hlast []) as E. rewrite app_nil_r in E. rewrite E. by destruct (take len name). }
  assert (Hcut : take len name = take (slash - 1) name ++ SLASH :: take (len - slash) (drop slash name)).
  { rewrite <- (take_drop (slash - 1) (take len name)) at 1. rewrite take_take, Nat.min_l by lia. f_equal.
    rewrite skipn_firstn_comm. destruct (lookup_lt_is_Some_2 name (slash - 1) ltac:(lia)) as [x Hx].
    rewrite (list_lookup_total_correct _ _ _ Hx) in S3. rewrite (drop_S name x (slash - 1) Hx), (S3 E0).
    replace (S (slash - 1)) with slash by lia. replace (len - (slash - 1))%nat with (S (len - slash)) by lia. done. }
  assert (Hzero : (len - slash = 0)%nat -> components name = []).
  { intros Hz. rewrite Hcomp. destruct (decide (len = 1%nat)) as [E1|E1].
    - rewrite Hcut, Hz. assert (slash = 1%nat) as -> by lia. done.
    - destruct L3 as [?|L3]; [done|]. assert (len = slash) as E by lia. rewrite E in L3. by specialize (S3 E0). }
  assert (Hgo : (len - slash <> 0)%nat -> components name = components (take (slash - 1) name) ++ [take (len - slash) (drop slash name)] /\
    take (len - slash) (drop slash name) <> []).
  { intros Hz. assert (Hn : take (len - slash) (drop slash name) <> []) by (intros Hx; rewrite Hx in Hlen; cbn in Hlen; lia).
    split; [|done]. rewrite Hcomp, Hcut. by apply components_last. }
  destruct (decide (slash = 1%nat)) as [E1|E1].
  - rewrite E1 in *. destruct (Z.eqb_spec (Z.of_nat (len - 1)) 0); [left; apply Hzero; lia|]. cbn [orb].
    destruct (Z.leb_spec cap (Z.of_nat (len - 1))); [tauto|]. destruct (Hgo ltac:(lia)) as [G1 G2].
    unfold zlen. rewrite Hlen. split_and!; try done. by right.
  - destruct (decide (PARENT_NAME <= slash)%nat) as [Hp|Hp]; [right; by right|]. unfold PARENT_NAME in Hp.
    destruct (Z.eqb_spec (Z.of_nat (len - slash)) 0); [left; apply Hzero; lia|]. cbn [orb].
    destruct (Z.leb_spec cap (Z.of_nat (len - slash))); [tauto|]. destruct (Hgo ltac:(lia)) as [G1 G2].
    unfold zlen. rewrite Hlen, length_take. split_and!; try done; [lia|]. by right.
Qed.

Lemma split_parent_correct_witness :
  split_parent [47; 97; 47; 98; 47; 47] 128 = Some ([47; 97], [98]) /\ components [47; 97; 47; 98; 47; 47] = components [47; 97] ++ [[98]].
Proof.
  pose proof (split_parent_correct [47; 97; 47; 98; 47; 47] 128 ltac:(lia) ltac:(discriminate)) as H. cbv zeta in H.
  assert (E : split_parent [47; 97; 47; 98; 47; 47] 128 = Some ([47; 97], [98])) by reflexivity.
  rewrite E in H. destruct H as (_ & _ & _ & _ & [[H _]|H]); [discriminate H|]. split; [exact E|exact H].
Defined.
