(* ===== verification/Dcache.v ===== *)
(** * Directory entries ([fs/dcache.c])

    The state of the virtual file system, and the cache of directory entries.
    Directory entries, inodes and mounts are the values of finite maps from their
    addresses.  The list of the children of an entry and the chains of its hash
    table are lists of addresses, first member first: [sibling], [hash_next] and
    the list heads of the code are the links of these lists.  A name carries the
    address of its copy on the heap. *)

From stdpp Require Import base tactics numbers list gmap sets.
From Stdlib Require Import ZArith Lia.
From S2P Require Import Prelude.

Definition D_HASH_SIZE : Z := 32.
Definition DENTRY_NEGATIVE : Z := 1.
Definition SIZEOF_DENTRY : Z := 40.
Definition SIZEOF_DCACHE_HASH : Z := 128.

Record dentry : Type := Dentry {
  d_name : option (Z * list Z);
  d_parent : option Z;
  d_children : list Z;
  d_inode : option Z;
  d_mount : option Z;
  d_refcount : Z;
  d_flags : Z;
  d_cache : option (Z * list (list Z));
}.

Definition set_d_children l (r : dentry) := Dentry (d_name r) (d_parent r) l (d_inode r) (d_mount r) (d_refcount r) (d_flags r) (d_cache r).
Definition set_d_parent p (r : dentry) := Dentry (d_name r) p (d_children r) (d_inode r) (d_mount r) (d_refcount r) (d_flags r) (d_cache r).
Definition set_d_inode i (r : dentry) := Dentry (d_name r) (d_parent r) (d_children r) i (d_mount r) (d_refcount r) (d_flags r) (d_cache r).
Definition set_d_mount m (r : dentry) := Dentry (d_name r) (d_parent r) (d_children r) (d_inode r) m (d_refcount r) (d_flags r) (d_cache r).
Definition set_d_refcount n (r : dentry) := Dentry (d_name r) (d_parent r) (d_children r) (d_inode r) (d_mount r) n (d_flags r) (d_cache r).
Definition set_d_flags f (r : dentry) := Dentry (d_name r) (d_parent r) (d_children r) (d_inode r) (d_mount r) (d_refcount r) f (d_cache r).
Definition set_d_cache c (r : dentry) := Dentry (d_name r) (d_parent r) (d_children r) (d_inode r) (d_mount r) (d_refcount r) (d_flags r) c.

(** The operation tables are named by their addresses; [i_data] is
    [private_data], with its bytes where it is a string. *)
Record inode : Type := Inode {
  i_mode : Z; i_uid : Z; i_gid : Z; i_flags : Z; i_ino : Z; i_size : Z; i_impl : Z;
  i_mapping : option Z; i_op : option Z; f_ops : option Z; i_data : option (Z * list Z);
}.

Record vfsmount : Type := Vfsmount {
  mnt_path : option (list Z); mnt_sb : Z; mnt_root : option Z; mnt_mountpoint : option Z; mnt_parent : option Z;
}.

(** What path lookup uses of the current task. *)
Record task_fs : Type := TaskFs { fs_pwd : option Z; fs_root : option Z; t_uid : Z; t_gid : Z; t_umask : Z }.

(** [X] is the state of the file systems. *)
Record vfs (M X : Type) : Type := Vfs {
  dents : gmap Z dentry; inodes : gmap Z inode; mounts : gmap Z vfsmount; vfs_mounts : list Z;
  vfs_root_dentry : option Z; current : option task_fs; nameidata_depth : nat; last_ino : Z; dheap : M; fsx : X;
}.
Arguments Vfs {M X}.
Arguments dents {M X}. Arguments inodes {M X}. Arguments mounts {M X}. Arguments vfs_mounts {M X}.
Arguments vfs_root_dentry {M X}. Arguments current {M X}. Arguments nameidata_depth {M X}. Arguments last_ino {M X}.
Arguments dheap {M X}. Arguments fsx {M X}.

Section code.
Context {M X : Type} `{!KAlloc M}.
Notation vfs := (vfs M X).
Implicit Types v : vfs.

Definition with_dents v d : vfs := Vfs d (inodes v) (mounts v) (vfs_mounts v) (vfs_root_dentry v) (current v) (nameidata_depth v) (last_ino v) (dheap v) (fsx v).
Definition with_inodes v i : vfs := Vfs (dents v) i (mounts v) (vfs_mounts v) (vfs_root_dentry v) (current v) (nameidata_depth v) (last_ino v) (dheap v) (fsx v).
Definition with_heap v h : vfs := Vfs (dents v) (inodes v) (mounts v) (vfs_mounts v) (vfs_root_dentry v) (current v) (nameidata_depth v) (last_ino v) h (fsx v).

Definition upd_dentry (f : dentry -> dentry) (d : Z) v : vfs := with_dents v (alter f d (dents v)).

(** [h = ((h << 5) + h) + c] over the bytes *)
Definition d_hash_name (name : list Z) : Z := foldl (fun h c => ((h <<w 5) +w h) +w c) 5381 name.

Definition d_bucket (name : list Z) : nat := Z.to_nat (Z.land (d_hash_name name) (D_HASH_SIZE - 1)).

Definition empty_table : list (list Z) := replicate 32 [].

(** Whether the parent has a table now. *)
Definition d_hash_get_or_alloc (parent : Z) v : bool * vfs :=
  match dents v !! parent with
  | None => (false, v)
  | Some r =>
      match d_cache r with
      | Some _ => (true, v)
      | None =>
          match kmalloc SIZEOF_DCACHE_HASH (dheap v) with
          | (None, h) => (false, with_heap v h)
          | (Some a, h) => (true, upd_dentry (set_d_cache (Some (a, empty_table))) parent (with_heap v h))
          end
      end
  end.

Definition upd_bucket (f : list Z -> list Z) (i : nat) (r : dentry) : dentry :=
  match d_cache r with
  | Some (a, bs) => set_d_cache (Some (a, alter f i bs)) r
  | None => r
  end.

Definition d_hash_insert (d : Z) v : vfs :=
  match dents v !! d with
  | None => v
  | Some r =>
      match d_parent r, d_name r with
      | Some p, Some (_, n) =>
          let '(ok, v1) := d_hash_get_or_alloc p v in
          if ok then upd_dentry (upd_bucket (cons d) (d_bucket n)) p v1 else v1
      | _, _ => v
      end
  end.

Definition d_hash_remove (d parent : Z) v : vfs :=
  match dents v !! d ≫= d_name with
  | Some (_, n) => upd_dentry (upd_bucket (unlink_from d) (d_bucket n)) parent v
  | None => v
  end.

(** [kstrdup] of [mm/util.c]: the copy, with its address. *)
Definition kstrdup (s : list Z) (h : M) : option (Z * list Z) * M :=
  match kmalloc (zlen s + 1) h with
  | (None, h') => (None, h')
  | (Some a, h') => (Some (a, s), h')
  end.

Definition d_alloc (parent : option Z) (name : option (list Z)) v : option Z * vfs :=
  match kmalloc SIZEOF_DENTRY (dheap v) with
  | (None, h) => (None, with_heap v h)
  | (Some d, h) =>
      let '(nm, h1) := match name with Some n => kstrdup n h | None => (None, h) end in
      let v1 := with_dents (with_heap v h1) (<[d := Dentry nm parent [] None None 1 0 None]> (dents v)) in
      match parent with
      | None => (Some d, v1)
      | Some p => (Some d, d_hash_insert d (upd_dentry (fun r => set_d_children (d :: d_children r) r) p v1))
      end
  end.

Definition has_name v (n : list Z) (c : Z) : bool :=
  match dents v !! c ≫= d_name with Some (_, n') => bool_decide (n' = n) | None => false end.

Definition d_lookup (parent : Z) (name : list Z) v : option Z :=
  match dents v !! parent with
  | None => None
  | Some r =>
      match d_cache r with
      | Some (_, bs) => List.find (has_name v name) (default [] (bs !! d_bucket name))
      | None => List.find (has_name v name) (d_children r)
      end
  end.

(** The code stores to [d->inode] also when [d] is NULL. *)
Definition vfs_dentry_get (node : option Z) (name : option (list Z)) v : run (Z * vfs) :=
  match d_alloc None name v with
  | (None, _) => Faults 20
  | (Some d, v1) => Ret (d, upd_dentry (set_d_inode node) d v1)
  end.

Definition free_opt {A} (o : option (Z * A)) (h : M) : M := match o with Some (a, _) => kfree a h | None => h end.

(** A put of an entry that was freed reads freed memory. *)
Definition vfs_dentry_put (d : Z) v : run vfs :=
  match dents v !! d with
  | None => Faults d
  | Some r => Ret (
      let n := if 0 <? d_refcount r then d_refcount r - 1 else d_refcount r in
      let v1 := upd_dentry (set_d_refcount n) d v in
      if negb (n =? 0) then v1
      else if bool_decide (is_Some (d_parent r)) || negb (bool_decide (d_children r = [])) then v1
      else if bool_decide (is_Some (d_mount r)) then v1
      else if bool_decide (vfs_root_dentry v = Some d) then v1
      else with_dents (with_heap v (kfree d (free_opt (d_name r) (free_opt (d_cache r) (dheap v))))) (delete d (dents v)))
  end.

Definition vfs_dentry_detach (d : Z) v : vfs :=
  match dents v !! d ≫= d_parent with
  | None => v
  | Some p =>
      let v1 := d_hash_remove d p v in
      let v2 := upd_dentry (fun r => set_d_children (unlink_from d (d_children r)) r) p v1 in
      upd_dentry (set_d_parent None) d v2
  end.
End code.

(** ** The invariant *)

Definition opt_addr {A} (o : option (Z * A)) : list Z := match o with Some (a, _) => [a] | None => [] end.

(** The heap objects of an entry. *)
Definition addrs (d : Z) (r : dentry) : list Z := d :: opt_addr (d_name r) ++ opt_addr (d_cache r).

Section proofs.
Context {M X : Type} `{!KAlloc M, !KAllocSpec M}.
Notation vfs := (vfs M X).
Implicit Types (v : vfs) (d p c : Z) (n : list Z).

Definition owned v (a : Z) : Prop := exists d r, dents v !! d = Some r /\ a ∈ addrs d r.

(** The entries own distinct live objects, parents and children agree, and a
    chain of a hash table holds children with names of that hash. *)
Record dc_ok v : Prop := DcOk {
  dc_heap : km_ok (dheap v);
  dc_live d r a : dents v !! d = Some r -> a ∈ addrs d r -> a ∈ live (dheap v);
  dc_nodup d r : dents v !! d = Some r -> NoDup (addrs d r);
  dc_disj d d' r r' a : dents v !! d = Some r -> dents v !! d' = Some r' -> a ∈ addrs d r -> a ∈ addrs d' r' -> d = d';
  dc_parent d r p : dents v !! d = Some r -> d_parent r = Some p -> exists rp, dents v !! p = Some rp /\ d ∈ d_children rp;
  dc_child p rp c : dents v !! p = Some rp -> c ∈ d_children rp -> exists rc, dents v !! c = Some rc /\ d_parent rc = Some p;
  dc_once p rp : dents v !! p = Some rp -> NoDup (d_children rp);
  dc_table p rp a bs : dents v !! p = Some rp -> d_cache rp = Some (a, bs) -> length bs = 32%nat;
  dc_chain p rp a bs i l c : dents v !! p = Some rp -> d_cache rp = Some (a, bs) -> bs !! i = Some l -> c ∈ l ->
    c ∈ d_children rp /\ exists rc x n, dents v !! c = Some rc /\ d_name rc = Some (x, n) /\ d_bucket n = i;
  dc_chain_once p rp a bs i l : dents v !! p = Some rp -> d_cache rp = Some (a, bs) -> bs !! i = Some l -> NoDup l;
  dc_noself d r : dents v !! d = Some r -> d_parent r <> Some d;
}.

(** [d] is an entry [n] of the directory [p]. *)
Definition entry v p n d : Prop := exists r x, dents v !! d = Some r /\ d_parent r = Some p /\ d_name r = Some (x, n).

(** If the directory has a hash table, [d] is in its chain for [n]. *)
Definition in_table v p n d : Prop :=
  forall rp a bs, dents v !! p = Some rp -> d_cache rp = Some (a, bs) -> exists l, bs !! d_bucket n = Some l /\ d ∈ l.

(** The entries that the search of a directory visits. *)
Definition found v p n d : Prop := entry v p n d /\ in_table v p n d.

(** The cache as a finite map. *)
Definition dc_map v (m : gmap (Z * list Z) Z) : Prop := forall p n d, m !! (p, n) = Some d <-> found v p n d.

Lemma d_bucket_lt n : (d_bucket n < 32)%nat.
Proof. unfold d_bucket, D_HASH_SIZE. change (32 - 1) with (Z.ones 5). rewrite Z.land_ones by lia. pose proof (Z.mod_pos_bound (d_hash_name n) (2 ^ 5) ltac:(lia)). lia. Qed.

Lemma has_name_true v n c : has_name v n c = true <-> exists r x, dents v !! c = Some r /\ d_name r = Some (x, n).
Proof.
  unfold has_name. destruct (dents v !! c) as [r|]; cbn [mbind option_bind].
  - destruct (d_name r) as [[x n']|] eqn:E.
    + rewrite bool_decide_eq_true. split; [intros ->; eauto|]. intros (r' & x' & Hr & E'). congruence.
    + split; [done|]. intros (r' & x' & Hr & E'). congruence.
  - split; [done|]. by intros (r' & x' & ? & ?).
Qed.

Lemma find_unique (f : Z -> bool) l d : (forall c, c ∈ l -> f c = true -> c = d) -> d ∈ l -> f d = true -> List.find f l = Some d.
Proof.
  intros Hu Hd Hf. destruct (List.find f l) as [c|] eqn:E.
  - apply find_some in E as [Hc E]. f_equal. apply Hu; [by apply list_elem_of_In|done].
  - pose proof (find_none _ _ E d ltac:(by apply list_elem_of_In)). congruence.
Qed.

(** The lookup finds what the map has. *)
Lemma d_lookup_map v m p n : dc_ok v -> dc_map v m -> d_lookup p n v = m !! (p, n).
Proof.
  intros Hok Hm. unfold d_lookup. destruct (dents v !! p) as [rp|] eqn:Ep.
  2:{ destruct (m !! (p, n)) as [d|] eqn:E; [|done]. apply Hm in E as [(r & x & H1 & H2 & _) _].
      destruct (dc_parent _ Hok d r p H1 H2) as (rp & ? & _). congruence. }
  assert (Hgo : forall l, (forall c, c ∈ l -> c ∈ d_children rp) -> (forall c, c ∈ l -> has_name v n c = true -> in_table v p n c) ->
    (forall d, m !! (p, n) = Some d -> d ∈ l) -> List.find (has_name v n) l = m !! (p, n)).
  { intros l Hl Ht Hd.
    assert (Hin : forall c, c ∈ l -> has_name v n c = true -> m !! (p, n) = Some c).
    { intros c Hc Hn. apply Hm. split; [|by apply Ht]. apply has_name_true in Hn as (r & x & Hr & Hx).
      destruct (dc_child _ Hok p rp c Ep (Hl c Hc)) as (rc & E1 & E2). exists r, x. split_and!; congruence. }
    destruct (m !! (p, n)) as [d|] eqn:E.
    - apply find_unique; [|by apply Hd|].
      + intros c Hc Hf. specialize (Hin c Hc Hf). congruence.
      + apply Hm in E as [(r & x & H1 & _ & H3) _]. apply has_name_true. eauto.
    - destruct (List.find _ l) as [c|] eqn:F; [|done]. apply find_some in F as [Hc F]. apply list_elem_of_In in Hc.
      specialize (Hin c Hc F). congruence. }
  destruct (d_cache rp) as [[a bs]|] eqn:Ec.
  - pose proof (dc_table _ Hok p rp a bs Ep Ec) as Hl. destruct (lookup_lt_is_Some_2 bs (d_bucket n)) as [l El]; [rewrite Hl; apply d_bucket_lt|].
    rewrite El. cbn [default]. unfold id. apply Hgo.
    + intros c Hc. by destruct (dc_chain _ Hok p rp a bs (d_bucket n) l c Ep Ec El Hc).
    + intros c Hc _ rp' a' bs' Ep' Ec'. simplify_eq. by exists l.
    + intros d [_ Hd]%Hm. destruct (Hd rp a bs Ep Ec) as (l' & E' & Hin). congruence.
  - apply Hgo; [done| |].
    + intros c Hc _ rp' a' bs' Ep' Ec'. congruence.
    + intros d [(r & x & H1 & H2 & H3) _]%Hm. destruct (dc_parent _ Hok d r p H1 H2) as (rp' & E & Hd). congruence.
Qed.

(** ** What the operations do to the map of entries *)

Lemma dents_upd f d v k : dents (upd_dentry f d v) !! k = if decide (k = d) then f <$> dents v !! k else dents v !! k.
Proof.
  unfold upd_dentry. cbn [with_dents dents]. case_decide as E; [subst; by rewrite lookup_alter_eq|by rewrite lookup_alter_ne].
Qed.

Lemma upd_dentry_insert f d v r : dents v !! d = Some r -> dents (upd_dentry f d v) = <[d := f r]> (dents v).
Proof.
  intros E. apply map_eq. intros k. rewrite dents_upd. case_decide as Hk; [subst; by rewrite E, lookup_insert_eq|by rewrite lookup_insert_ne].
Qed.

(** A new entry [d] below [p], with the table of [p] after the insertion. *)
Record added v p d (nm : option (Z * list Z)) (cache : option (Z * list (list Z))) v' : Prop := Added {
  ad_dents rp : dents v !! p = Some rp ->
    dents v' = <[d := Dentry nm (Some p) [] None None 1 0 None]> (<[p := set_d_cache cache (set_d_children (d :: d_children rp) rp)]> (dents v));
  ad_rest : inodes v' = inodes v /\ mounts v' = mounts v /\ vfs_mounts v' = vfs_mounts v /\ vfs_root_dentry v' = vfs_root_dentry v /\
    current v' = current v /\ nameidata_depth v' = nameidata_depth v /\ last_ino v' = last_ino v /\ fsx v' = fsx v;
}.

(** The table of the parent is as before, or [d] was put into its chain. *)
Definition cache_after (d : Z) (nm : option (Z * list Z)) (old new : option (Z * list (list Z))) : Prop :=
  match nm with
  | None => new = old
  | Some (_, n) =>
      match old with
      | Some (a, bs) => new = Some (a, alter (cons d) (d_bucket n) bs)
      | None => new = None \/ exists a, new = Some (a, alter (cons d) (d_bucket n) (empty_table))
      end
  end.

Lemma d_alloc_spec v p rp n d v' :
  dc_ok v -> dents v !! p = Some rp -> d_alloc (Some p) (Some n) v = (Some d, v') ->
  exists nm cache, added v p d nm cache v' /\ (nm = None \/ exists x, nm = Some (x, n)) /\ cache_after d nm (d_cache rp) cache /\
    d <> 0 /\ km_ok (dheap v') /\
    let new := d :: opt_addr nm ++ (if d_cache rp then [] else opt_addr cache) in
    NoDup new /\ (forall a, a ∈ new -> a ∉ live (dheap v)) /\ live (dheap v') = list_to_set new ∪ live (dheap v).
Proof.
  intros Hok Ep. unfold d_alloc, kstrdup. destruct (kmalloc SIZEOF_DENTRY (dheap v)) as [[d0|] h] eqn:E1; [|done].
  destruct (kmalloc_some _ _ _ _ (dc_heap _ Hok) E1) as (A1 & A2 & A3 & A4).
  assert (Hpl : p ∈ live (dheap v)) by (apply (dc_live _ Hok p rp p Ep); by left).
  assert (Hpd : p <> d0) by (intros ->; done).
  destruct (kmalloc (zlen n + 1) h) as [[x|] h1] eqn:E2.
  - destruct (kmalloc_some _ _ _ _ A1 E2) as (B1 & _ & B3 & B4). rewrite A4 in B3, B4. intros [= <- <-].
    unfold d_hash_insert. rewrite dents_upd, decide_False by done. cbn [with_dents dents]. rewrite lookup_insert_eq. cbn [d_parent d_name].
    unfold d_hash_get_or_alloc. rewrite dents_upd, decide_True by done. cbn [with_dents dents]. rewrite lookup_insert_ne by done.
    rewrite Ep. cbn [fmap option_fmap option_map]. cbn [set_d_children d_cache].
    destruct (d_cache rp) as [[a bs]|] eqn:Ec.
    + exists (Some (x, n)), (Some (a, alter (cons d0) (d_bucket n) bs)). split_and!; try done; [split; [|done]| |..].
      * intros rp' Ep'. assert (rp' = rp) as -> by congruence. apply map_eq. intros k. rewrite !dents_upd. cbn [with_dents dents].
        destruct (decide (k = p)) as [->|Hk].
        -- rewrite !(lookup_insert_ne _ d0) by done. rewrite lookup_insert_eq, Ep. cbn [fmap option_fmap option_map]. unfold upd_bucket. cbn [set_d_children d_cache]. by rewrite Ec.
        -- destruct (decide (k = d0)) as [->|Hk']; [by rewrite !lookup_insert_eq|]. by rewrite !lookup_insert_ne.
      * right. by eexists.
      * cbn [opt_addr app]. apply NoDup_cons. split; [|apply NoDup_singleton]. rewrite list_elem_of_singleton. set_solver.
      * cbn [opt_addr app]. intros y. rewrite !elem_of_cons, elem_of_nil. set_solver.
      * cbn [with_dents with_heap upd_dentry dheap opt_addr app list_to_set]. rewrite B4. set_solver.
    + change (dheap (upd_dentry _ _ _)) with h1. destruct (kmalloc SIZEOF_DCACHE_HASH h1) as [[a|] h2] eqn:E3.
      * destruct (kmalloc_some _ _ _ _ B1 E3) as (C1 & _ & C3 & C4). rewrite B4 in C3, C4.
        exists (Some (x, n)), (Some (a, alter (cons d0) (d_bucket n) (empty_table))). split_and!; try done; [split; [|done]| | |..].
        -- intros rp' Ep'. assert (rp' = rp) as -> by congruence. apply map_eq. intros k. rewrite !dents_upd. cbn [with_heap with_dents dents].
           rewrite !dents_upd. cbn [with_dents dents]. destruct (decide (k = p)) as [->|Hk].
           ++ rewrite !(lookup_insert_ne _ d0) by done. rewrite lookup_insert_eq, Ep. done.
           ++ destruct (decide (k = d0)) as [->|Hk']; [by rewrite !lookup_insert_eq|]. by rewrite !lookup_insert_ne.
        -- right. by eexists.
        -- right. by eexists.
        -- cbn [opt_addr app]. rewrite !NoDup_cons. rewrite !elem_of_cons, !elem_of_nil. split_and!; [set_solver|set_solver|set_solver|constructor].
        -- cbn [opt_addr app]. intros y. rewrite !elem_of_cons, elem_of_nil. set_solver.
        -- cbn [with_dents with_heap upd_dentry dheap opt_addr app list_to_set]. rewrite C4. set_solver.
      * destruct (kmalloc_none _ _ _ B1 E3) as [C1 C4]. exists (Some (x, n)), None. split_and!; try done; [split; [|done]| | |..].
        -- intros rp' Ep'. assert (rp' = rp) as -> by congruence. apply map_eq. intros k. cbn [with_heap dents]. rewrite !dents_upd. cbn [with_dents dents].
           destruct (decide (k = p)) as [->|Hk].
           ++ rewrite !(lookup_insert_ne _ d0) by done. rewrite lookup_insert_eq, Ep. cbn [fmap option_fmap option_map]. unfold set_d_cache. by rewrite <- Ec.
           ++ destruct (decide (k = d0)) as [->|Hk']; [by rewrite !lookup_insert_eq|]. by rewrite !lookup_insert_ne.
        -- right. by eexists.
        -- by left.
        -- cbn [opt_addr app]. rewrite !NoDup_cons, !elem_of_cons, !elem_of_nil. split_and!; [set_solver|set_solver|constructor].
        -- cbn [opt_addr app]. intros y. rewrite !elem_of_cons, elem_of_nil. set_solver.
        -- cbn [with_dents with_heap upd_dentry dheap opt_addr app list_to_set]. rewrite C4, B4. set_solver.
  - destruct (kmalloc_none _ _ _ A1 E2) as [B1 B4]. intros [= <- <-].
    unfold d_hash_insert. rewrite dents_upd, decide_False by done. cbn [with_dents dents]. rewrite lookup_insert_eq. cbn [d_parent d_name].
    exists None, (d_cache rp). split_and!; try done; [split; [|done]| |..].
    + intros rp' Ep'. assert (rp' = rp) as -> by congruence. apply map_eq. intros k. rewrite !dents_upd. cbn [with_dents dents].
      destruct (decide (k = p)) as [->|Hk].
      * rewrite !(lookup_insert_ne _ d0) by done. rewrite lookup_insert_eq, Ep. done.
      * destruct (decide (k = d0)) as [->|Hk']; [by rewrite !lookup_insert_eq|]. by rewrite !lookup_insert_ne.
    + by left.
    + cbn [opt_addr app]. destruct (d_cache rp); [apply NoDup_singleton|apply NoDup_singleton].
    + cbn [opt_addr app]. intros y. destruct (d_cache rp); cbn [opt_addr]; rewrite list_elem_of_singleton; set_solver.
    + cbn [with_dents with_heap upd_dentry dheap opt_addr app list_to_set]. rewrite B4, A4. destruct (d_cache rp); cbn [opt_addr list_to_set]; set_solver.
Qed.

Lemma empty_table_lookup i l : empty_table !! i = Some l -> l = [].
Proof. unfold empty_table. by intros [-> _]%lookup_replicate. Qed.

Lemma not_live_none v d : dc_ok v -> d ∉ live (dheap v) -> dents v !! d = None.
Proof. intros Hok Hd. destruct (dents v !! d) as [r|] eqn:E; [|done]. exfalso. apply Hd, (dc_live _ Hok d r d E). by left. Qed.

Lemma cache_after_chain d nm old new a bs i l c :
  cache_after d nm old new -> new = Some (a, bs) -> bs !! i = Some l -> c ∈ l ->
  (exists bs0 l0, old = Some (a, bs0) /\ bs0 !! i = Some l0 /\ c ∈ l0) \/ (c = d /\ exists x n, nm = Some (x, n) /\ d_bucket n = i).
Proof.
  unfold cache_after. destruct nm as [[x n]|]; [|intros -> ->; left; eauto].
  destruct old as [[a0 bs0]|].
  - intros -> [= <- <-] Hl Hc. rewrite list_lookup_alter in Hl. destruct (decide (d_bucket n = i)) as [E|E]; [subst i|].
    + apply fmap_Some in Hl as (l0 & E0 & ->). apply elem_of_cons in Hc as [->|Hc]; [right; eauto 6|left; eauto 6].
    + left. eauto 6.
  - intros [->|(a' & ->)]; [done|]. intros [= <- <-] Hl Hc. rewrite list_lookup_alter in Hl. destruct (decide (d_bucket n = i)) as [E|E]; [subst i|].
    + apply fmap_Some in Hl as (l0 & E0 & ->). apply empty_table_lookup in E0 as ->.
      apply elem_of_cons in Hc as [->|[]%elem_of_nil]. right. eauto 6.
    + apply empty_table_lookup in Hl as ->. by apply elem_of_nil in Hc.
Qed.

Lemma cache_after_table d nm old new a bs :
  cache_after d nm old new -> new = Some (a, bs) -> (forall a0 bs0, old = Some (a0, bs0) -> length bs0 = 32%nat) -> length bs = 32%nat.
Proof.
  unfold cache_after. intros H E Hold. destruct nm as [[x n]|]; [|subst; by apply (Hold a)].
  destruct old as [[a0 bs0]|]; [|destruct H as [->|(a' & ->)]; [done|]].
  - subst. injection E as <- <-. rewrite length_alter. by apply (Hold a0).
  - injection E as <- <-. by rewrite length_alter.
Qed.

Lemma cache_after_once d nm old new a bs i l :
  cache_after d nm old new -> new = Some (a, bs) -> bs !! i = Some l ->
  (forall a0 bs0 l0, old = Some (a0, bs0) -> bs0 !! i = Some l0 -> NoDup l0 /\ d ∉ l0) -> NoDup l.
Proof.
  unfold cache_after. intros H E Hl Hold. destruct nm as [[x n]|]; [|subst; by apply (Hold a bs l)].
  destruct old as [[a0 bs0]|]; [|destruct H as [->|(a' & ->)]; [done|]]; subst; injection E as <- <-;
    rewrite list_lookup_alter in Hl; destruct (decide (d_bucket n = i)) as [E'|E']; [subst i| |subst i|].
  - apply fmap_Some in Hl as (l0 & E0 & ->). apply NoDup_cons. by destruct (Hold a0 bs0 l0 eq_refl E0).
  - by apply (Hold a0 bs0 l).
  - apply fmap_Some in Hl as (l0 & E0 & ->). apply empty_table_lookup in E0 as ->. apply NoDup_singleton.
  - apply empty_table_lookup in Hl as ->. constructor.
Qed.

(** The state after a successful [d_alloc]. *)
Section alloc.
Variables (v v' : vfs) (p d : Z) (rp : dentry) (nm : option (Z * list Z)) (cache : option (Z * list (list Z))).
Hypothesis Hok : dc_ok v.
Hypothesis Ep : dents v !! p = Some rp.
Hypothesis Had : added v p d nm cache v'.
Hypothesis Hc : cache_after d nm (d_cache rp) cache.
Hypothesis Hheap : km_ok (dheap v').
Let new := d :: opt_addr nm ++ (if d_cache rp then [] else opt_addr cache).
Hypothesis Hnd : NoDup new.
Hypothesis Hnew : forall a, a ∈ new -> a ∉ live (dheap v).
Hypothesis Hlive : live (dheap v') = list_to_set new ∪ live (dheap v).
Let rp' := set_d_cache cache (set_d_children (d :: d_children rp) rp).
Let rd := Dentry nm (Some p) [] None None 1 0 None.

Lemma added_none : dents v !! d = None /\ p <> d.
Proof. assert (Hd : d ∉ live (dheap v)) by (apply Hnew; by left). split; [by apply not_live_none|]. intros ->. by rewrite (not_live_none v d Hok Hd) in Ep. Qed.

Lemma added_lookup k : dents v' !! k = if decide (k = d) then Some rd else if decide (k = p) then Some rp' else dents v !! k.
Proof.
  rewrite (ad_dents _ _ _ _ _ _ Had rp Ep). case_decide as E1; [subst; by rewrite lookup_insert_eq|]. rewrite lookup_insert_ne by done.
  case_decide as E2; [subst; by rewrite lookup_insert_eq|]. by rewrite lookup_insert_ne.
Qed.

(** Objects of an entry: as before, or new. *)
Lemma added_addrs k r a : dents v' !! k = Some r -> a ∈ addrs k r ->
  (k <> d /\ exists r0, dents v !! k = Some r0 /\ a ∈ addrs k r0) \/ ((k = d \/ k = p) /\ a ∈ new).
Proof.
  destruct added_none as [Hdn Hpd]. rewrite added_lookup. case_decide as E1; [|case_decide as E2].
  - intros [= <-] Ha. right. split; [by left|]. subst k. unfold addrs, rd in Ha. cbn [d_name d_cache opt_addr] in Ha. rewrite app_nil_r in Ha. unfold new. set_solver.
  - intros [= <-] Ha. subst k. unfold addrs, rp' in Ha. cbn [set_d_cache set_d_children d_name d_cache] in Ha.
    assert (Hcase : a ∈ opt_addr cache -> a ∈ opt_addr (d_cache rp) \/ d_cache rp = None).
    { unfold cache_after in Hc. destruct nm as [[x n]|]; [|rewrite Hc; by left]. destruct (d_cache rp) as [[a0 bs0]|]; [|by right].
      rewrite Hc. by left. }
    rewrite elem_of_cons, elem_of_app in Ha. destruct Ha as [->|[Ha|Ha]].
    + left. split; [done|]. exists rp. split; [done|]. by left.
    + left. split; [done|]. exists rp. split; [done|]. unfold addrs. set_solver.
    + destruct (Hcase Ha) as [Ha'|E]; [left; split; [done|]; exists rp; split; [done|]; unfold addrs; set_solver|].
      right. split; [by right|]. unfold new. rewrite E. set_solver.
  - intros E Ha. left. split; [done|]. eauto.
Qed.

Lemma dc_ok_added : dc_ok v'.
Proof.
  destruct added_none as [Hdn Hpd]. pose proof added_lookup as Hlk. pose proof Hok as [O1 O2 O3 O4 O5 O6 O7 O8 O9 O10 O11].
  assert (Hnc : forall q rq, dents v !! q = Some rq -> d ∉ d_children rq).
  { intros q rq Eq Hin. destruct (O6 q rq d Eq Hin) as (rc & ? & _). congruence. }
  assert (Hold : forall k r, dents v !! k = Some r -> exists r', dents v' !! k = Some r' /\ d_name r' = d_name r /\ d_parent r' = d_parent r).
  { intros k r E. rewrite Hlk. rewrite decide_False by congruence. case_decide; [|eauto]. subst k. exists rp'. assert (r = rp) as -> by congruence. done. }
  split.
  - done.
  - intros k r a E Ha. rewrite Hlive. destruct (added_addrs k r a E Ha) as [(_ & r0 & E0 & Ha0)|[_ Ha0]]; [|set_solver]. pose proof (O2 k r0 a E0 Ha0). set_solver.
  - intros k r. rewrite Hlk. case_decide as E1; [|case_decide as E2].
    + intros [= <-]. unfold addrs, rd. cbn [d_name d_cache opt_addr]. rewrite app_nil_r. subst k. unfold new in Hnd.
      rewrite app_comm_cons in Hnd. by apply NoDup_app in Hnd as [? _].
    + intros [= <-]. subst k. pose proof (O3 p rp Ep) as Hn0. unfold addrs, rp'. cbn [set_d_cache set_d_children d_name d_cache].
      unfold cache_after in Hc. destruct nm as [[x n]|]; [|by rewrite Hc]. destruct (d_cache rp) as [[a0 bs0]|] eqn:Ec; [rewrite Hc; by unfold addrs in Hn0; rewrite Ec in Hn0|].
      destruct Hc as [->|(a & ->)]; [by unfold addrs in Hn0; rewrite Ec in Hn0|]. cbn [opt_addr]. rewrite app_comm_cons. apply NoDup_app.
      unfold addrs in Hn0. rewrite Ec in Hn0. cbn [opt_addr] in Hn0. rewrite app_nil_r in Hn0. split_and!; [done| |apply NoDup_singleton].
      intros y Hy ->%list_elem_of_singleton. apply (Hnew a); [unfold new; rewrite ?Ec; cbn [opt_addr]; set_solver|].
      apply (O2 p rp a Ep). unfold addrs. rewrite Ec. cbn [opt_addr]. by rewrite app_nil_r.
    + apply O3.
  - intros k k' r r' a E E' Ha Ha'. destruct (added_addrs k r a E Ha) as [(N1 & r0 & E0 & Ha0)|[K1 Ha0]], (added_addrs k' r' a E' Ha') as [(N2 & r1 & E1 & Ha1)|[K2 Ha1]].
    + by apply (O4 k k' r0 r1 a).
    + exfalso. apply (Hnew a Ha1), (O2 k r0 a E0 Ha0).
    + exfalso. apply (Hnew a Ha0), (O2 k' r1 a E1 Ha1).
    + (* a new object belongs to one entry *)
      assert (Hself : forall k r, dents v' !! k = Some r -> a ∈ addrs k r -> k = d \/ k = p -> (k = d /\ a ∈ d :: opt_addr nm) \/ (k = p /\ a ∈ (if d_cache rp then [] else opt_addr cache))).
      { intros k0 r2 E2 Ha2 Hk. rewrite Hlk in E2. destruct Hk as [->|Hk].
        - rewrite decide_True in E2 by done. injection E2 as <-. left. unfold addrs, rd in Ha2. cbn [d_name d_cache opt_addr] in Ha2. by rewrite app_nil_r in Ha2.
        - subst k0. rewrite decide_False, decide_True in E2 by done. injection E2 as <-. right. split; [done|]. unfold addrs, rp' in Ha2.
          cbn [set_d_cache set_d_children d_name d_cache] in Ha2. rewrite elem_of_cons, elem_of_app in Ha2.
          assert (Hno : a ∉ addrs p rp) by (intros Hx; apply (Hnew a Ha0), (O2 p rp a Ep Hx)). unfold addrs in Hno. rewrite elem_of_cons, elem_of_app in Hno.
          unfold cache_after in Hc. destruct nm as [[x n]|].
          + destruct (d_cache rp) as [[a0 bs0]|]; [rewrite Hc in Ha2; cbn [opt_addr] in *; tauto|tauto].
          + rewrite Hc in Ha2. tauto. }
      unfold new in Hnd. rewrite app_comm_cons in Hnd. apply NoDup_app in Hnd as (_ & Hdis & _).
      destruct (Hself k r E Ha K1) as [[-> H1]|[-> H1]], (Hself k' r' E' Ha' K2) as [[-> H2]|[-> H2]]; try done; exfalso; by apply (Hdis a).
  - intros k r q. rewrite Hlk. case_decide as E1; [|case_decide as E2].
    + intros [= <-] [= <-]. subst k. exists rp'. rewrite Hlk, decide_False, decide_True by done. split; [done|]. cbn. by left.
    + intros [= <-] Hq. subst k. destruct (O5 p rp q Ep Hq) as (rq & Eq & Hin). rewrite Hlk. rewrite decide_False by congruence.
      case_decide as E3; [|eauto]. eexists. split; [done|]. subst q. cbn. right. congruence.
    + intros E Hq. destruct (O5 k r q E Hq) as (rq & Eq & Hin). rewrite Hlk. rewrite decide_False by congruence.
      case_decide as E3; [|eauto]. eexists. split; [done|]. subst q. cbn. right. congruence.
  - intros q rq c. rewrite Hlk. case_decide as E1; [|case_decide as E2].
    + intros [= <-] Hin. cbn in Hin. by apply elem_of_nil in Hin.
    + intros [= <-] Hin. cbn in Hin. subst q. apply elem_of_cons in Hin as [->|Hin].
      * exists rd. rewrite Hlk, decide_True by done. done.
      * destruct (O6 p rp c Ep Hin) as (rc & Ec & Hpc). destruct (Hold c rc Ec) as (r' & E' & _ & Hp'). exists r'. split; congruence.
    + intros E Hin. destruct (O6 q rq c E Hin) as (rc & Ec & Hpc). destruct (Hold c rc Ec) as (r' & E' & _ & Hp'). exists r'. split; congruence.
  - intros q rq. rewrite Hlk. case_decide as E1; [intros [= <-]; constructor|]. case_decide as E2; [|apply O7].
    intros [= <-]. cbn. apply NoDup_cons. split; [by apply (Hnc p)|by apply (O7 p)].
  - intros q rq a bs. rewrite Hlk. case_decide as E1; [by intros [= <-]|]. case_decide as E2; [|apply O8].
    intros [= <-] Ec. cbn in Ec. eapply cache_after_table; [done|done|]. intros a0 bs0. by apply (O8 p rp).
  - intros q rq a bs i l c. rewrite Hlk. case_decide as E1; [by intros [= <-]|]. case_decide as E2.
    + intros [= <-] Ec Hl Hin. cbn in Ec. destruct (cache_after_chain _ _ _ _ _ _ _ _ _ Hc Ec Hl Hin) as [(bs0 & l0 & Eo & El & Hin0)|(-> & x & n & Hn & Hb)].
      * destruct (O9 p rp a bs0 i l0 c Ep Eo El Hin0) as (H1 & rc & x & n & H2 & H3 & H4). split; [cbn; by right|].
        destruct (Hold c rc H2) as (r' & E' & Hn' & _). exists r', x, n. split_and!; congruence.
      * split; [cbn; by left|]. exists rd, x, n. rewrite Hlk, decide_True by done. done.
    + intros E Ec Hl Hin. destruct (O9 q rq a bs i l c E Ec Hl Hin) as (H1 & rc & x & n & H2 & H3 & H4). split; [done|].
      destruct (Hold c rc H2) as (r' & E' & Hn' & _). exists r', x, n. split_and!; congruence.
  - intros q rq a bs i l. rewrite Hlk. case_decide as E1; [by intros [= <-]|]. case_decide as E2; [|apply O10].
    intros [= <-] Ec Hl. cbn in Ec. eapply cache_after_once; [done..|]. intros a0 bs0 l0 Eo El. split; [by apply (O10 p rp a0 bs0 i)|].
    intros Hin. destruct (O9 p rp a0 bs0 i l0 d Ep Eo El Hin) as [H1 _]. by apply (Hnc p rp).
  - intros k r. rewrite Hlk. case_decide as E1; [intros [= <-]; cbn; congruence|]. case_decide as E2; [|apply O11].
    intros [= <-]. subst k. exact (O11 p rp Ep).
Qed.

Lemma added_entry p' n' d' : entry v' p' n' d' <-> entry v p' n' d' \/ (p' = p /\ d' = d /\ exists x, nm = Some (x, n')).
Proof.
  destruct added_none as [Hdn Hpd]. unfold entry. setoid_rewrite added_lookup. split.
  - intros (r & x & E & H1 & H2). case_decide as E1; [|case_decide as E2].
    + injection E as <-. cbn in H1, H2. right. split_and!; [congruence|done|eauto].
    + injection E as <-. subst d'. left. exists rp, x. done.
    + left. eauto.
  - intros [(r & x & E & H1 & H2)|(-> & -> & x & ->)].
    + rewrite decide_False by congruence. case_decide as E2; [|eauto]. subst d'. assert (r = rp) as -> by congruence. exists rp', x. done.
    + exists rd, x. rewrite decide_True by done. done.
Qed.

(** The directory got its first table. *)
Definition first_table : Prop := d_cache rp = None /\ cache <> None.

(** Everything that was found is still found, unless the directory got its first
    table, in which only the new entry is; the new entry is found under its name. *)
Lemma added_found p' n' d' :
  found v' p' n' d' <-> (found v p' n' d' /\ ~ (p' = p /\ first_table)) \/ (p' = p /\ d' = d /\ exists x, nm = Some (x, n')).
Proof.
  destruct added_none as [Hdn Hpd]. pose proof added_lookup as Hlk. unfold found. rewrite added_entry.
  assert (Hdp : forall n0 q, entry v q n0 d' -> d' <> d) by (intros n0 q (r & x & E & _) ->; congruence).
  assert (Hsame : p' <> p -> entry v p' n' d' -> in_table v' p' n' d' <-> in_table v p' n' d').
  { intros Hne He. assert (Hp'd : p' <> d).
    { intros ->. destruct He as (r & x & E & Hpar & _). destruct (dc_parent _ Hok d' r d E Hpar) as (? & ? & _). congruence. }
    unfold in_table. rewrite Hlk, decide_False, decide_False by done. done. }
  assert (Hp' : in_table v' p n' d' <-> forall a bs, cache = Some (a, bs) -> exists l, bs !! d_bucket n' = Some l /\ d' ∈ l).
  { unfold in_table. rewrite Hlk, decide_False, decide_True by done. split.
    - intros H a bs Ec. by apply (H rp' a bs).
    - intros H rq a bs [= <-] Ec. by apply (H a bs). }
  assert (Hp0 : in_table v p n' d' <-> forall a bs, d_cache rp = Some (a, bs) -> exists l, bs !! d_bucket n' = Some l /\ d' ∈ l).
  { unfold in_table. rewrite Ep. split; [intros H a bs Ec; by apply (H rp a bs)|]. intros H rq a bs [= <-] Ec. by apply (H a bs). }
  destruct (decide (p' = p)) as [->|Hne]; [|split].
  2:{ intros [[He|(? & _)] Ht]; [|done]. left. rewrite <- Hsame by done. split; [done|]. by intros [? _]. }
  2:{ intros [[[He Ht] _]|(? & _)]; [|done]. rewrite Hsame by done. by split; [left|]. }
  rewrite Hp', Hp0. unfold first_table. split.
  - intros [[He|Hd] Ht]; [|right; done]. left. split; [split; [done|]|].
    + intros a bs Ec. unfold cache_after in Hc. destruct nm as [[x n]|]; [|apply (Ht a bs); congruence]. rewrite Ec in Hc. destruct (Ht a _ Hc) as (l & El & Hin).
      rewrite list_lookup_alter in El. destruct (decide (d_bucket n = d_bucket n')) as [Eb|]; [|by exists l]. apply fmap_Some in El as (l0 & El & ->).
      exists l0. split; [congruence|]. apply elem_of_cons in Hin as [->|?]; [|done]. by destruct (Hdp n' p He).
    + intros (_ & Hnone & Hsome). unfold cache_after in Hc. rewrite Hnone in Hc. destruct nm as [[x n]|]; [|congruence]. destruct Hc as [?|(a & ->)]; [done|].
      destruct (Ht a _ eq_refl) as (l & El & Hin). rewrite list_lookup_alter in El. case_decide as Eb.
      * apply fmap_Some in El as (l0 & ->%empty_table_lookup & ->). apply list_elem_of_singleton in Hin as ->. by destruct (Hdp n' p He).
      * apply empty_table_lookup in El as ->. by apply elem_of_nil in Hin.
  - intros [[[He Ht] Hnf]|(_ & -> & x & Hn)].
    + split; [by left|]. intros a bs Ec. unfold cache_after in Hc. destruct (d_cache rp) as [[a0 bs0]|] eqn:Er; [|destruct Hnf; split_and!; congruence].
      destruct (Ht a0 bs0 eq_refl) as (l & El & Hin). destruct nm as [[x n]|]; [|simplify_eq; by exists l]. simplify_eq.
      rewrite list_lookup_alter. destruct (decide (d_bucket n = d_bucket n')) as [Eb|]; [|by exists l]. exists (d :: l). rewrite Eb, El. split; [done|by right].
    + split; [right; eauto|]. intros a bs Ec. unfold cache_after in Hc. rewrite Hn in Hc.
      assert (Hl : forall bs0, length bs0 = 32%nat -> exists l, alter (cons d) (d_bucket n') bs0 !! d_bucket n' = Some l /\ d ∈ l).
      { intros bs0 Hl. destruct (lookup_lt_is_Some_2 bs0 (d_bucket n')) as [l El]; [rewrite Hl; apply d_bucket_lt|].
        exists (d :: l). split; [by rewrite list_lookup_alter, decide_True, El|by left]. }
      destruct (d_cache rp) as [[a0 bs0]|] eqn:Er; [simplify_eq; apply Hl; by eapply (dc_table _ Hok)|].
      destruct Hc as [?|(a' & ?)]; [congruence|]. simplify_eq. by apply Hl.
Qed.

Lemma added_owned a : owned v' a <-> owned v a \/ a ∈ new.
Proof.
  destruct added_none as [Hdn Hpd]. split.
  - intros (k & r & E & Ha). destruct (added_addrs k r a E Ha) as [(_ & r0 & E0 & Ha0)|[_ Ha0]]; [left; by exists k, r0|by right].
  - intros [(k & r & E & Ha)|Ha].
    + destruct (decide (k = p)) as [->|Hk].
      * exists p, rp'. rewrite added_lookup, decide_False, decide_True by done. split; [done|]. assert (r = rp) as -> by congruence.
        unfold addrs, rp' in *. cbn [set_d_cache set_d_children d_name d_cache]. rewrite elem_of_cons, elem_of_app in *.
        destruct Ha as [?|[?|Ha]]; [by left|right; by left|right; right]. unfold cache_after in Hc. destruct nm as [[x n]|]; [|by rewrite Hc].
        destruct (d_cache rp) as [[a0 bs]|]; [by rewrite Hc|by apply elem_of_nil in Ha].
      * exists k, r. rewrite added_lookup, decide_False, decide_False by congruence. done.
    + unfold new in Ha. rewrite app_comm_cons, elem_of_app in Ha. destruct Ha as [Ha|Ha].
      * exists d, rd. rewrite added_lookup, decide_True by done. split; [done|]. unfold addrs, rd. cbn [d_name d_cache opt_addr]. by rewrite app_nil_r.
      * exists p, rp'. rewrite added_lookup, decide_False, decide_True by done. split; [done|]. unfold addrs, rp'. cbn [set_d_cache set_d_children d_name d_cache].
        rewrite elem_of_cons, elem_of_app. right. right. by destruct (d_cache rp); [apply elem_of_nil in Ha|].
Qed.
End alloc.

(** ** Detaching *)

(** The parent after [d] was unlinked. *)
Definition without (d : Z) (r rp : dentry) : dentry :=
  set_d_children (unlink_from d (d_children rp))
    (match d_name r with Some (_, n) => upd_bucket (unlink_from d) (d_bucket n) rp | None => rp end).

Lemma without_fields d r rp :
  d_name (without d r rp) = d_name rp /\ d_parent (without d r rp) = d_parent rp /\ d_children (without d r rp) = unlink_from d (d_children rp) /\
  opt_addr (d_cache (without d r rp)) = opt_addr (d_cache rp).
Proof. unfold without, upd_bucket. destruct (d_name r) as [[x n]|], (d_cache rp) as [[a bs]|] eqn:E; cbn; rewrite ?E; done. Qed.

Lemma without_addrs k d r rp : addrs k (without d r rp) = addrs k rp.
Proof. unfold addrs. by destruct (without_fields d r rp) as (-> & _ & _ & ->). Qed.

Lemma without_cache d r rp a bs :
  d_cache (without d r rp) = Some (a, bs) ->
  exists bs0, d_cache rp = Some (a, bs0) /\ bs = match d_name r with Some (_, n) => alter (unlink_from d) (d_bucket n) bs0 | None => bs0 end.
Proof.
  unfold without, upd_bucket. destruct (d_name r) as [[x n]|]; cbn [set_d_children d_cache]; [|intros E; by exists bs].
  destruct (d_cache rp) as [[a0 bs0]|] eqn:E; cbn [set_d_cache d_cache]; [|congruence]. intros [= <- <-]. by exists bs0.
Qed.

Lemma without_cache_some d r rp a bs0 :
  d_cache rp = Some (a, bs0) ->
  d_cache (without d r rp) = Some (a, match d_name r with Some (_, n) => alter (unlink_from d) (d_bucket n) bs0 | None => bs0 end).
Proof. intros E. unfold without, upd_bucket. destruct (d_name r) as [[x n]|]; cbn [set_d_children d_cache]; rewrite ?E; done. Qed.

Section detach.
Variables (v : vfs) (d p : Z) (r rp : dentry).
Hypothesis Hok : dc_ok v.
Hypothesis Ed : dents v !! d = Some r.
Hypothesis Hp : d_parent r = Some p.
Hypothesis Ep : dents v !! p = Some rp.
Let v' := vfs_dentry_detach d v.

Lemma detach_ne : p <> d.
Proof. intros ->. by apply (dc_noself _ Hok d r Ed). Qed.

Lemma detach_lookup k : dents v' !! k = if decide (k = d) then Some (set_d_parent None r) else if decide (k = p) then Some (without d r rp) else dents v !! k.
Proof.
  pose proof detach_ne as Hne. unfold v', vfs_dentry_detach. rewrite Ed. cbn [mbind option_bind]. rewrite Hp. rewrite !dents_upd.
  assert (Hh : forall k, dents (d_hash_remove d p v) !! k = if decide (k = p) then Some (match d_name r with Some (_, n) => upd_bucket (unlink_from d) (d_bucket n) rp | None => rp end) else dents v !! k).
  { intros k0. unfold d_hash_remove. rewrite Ed. cbn [mbind option_bind]. destruct (d_name r) as [[x n]|].
    - rewrite dents_upd. case_decide as E; [subst; by rewrite Ep|done].
    - case_decide as E; [by subst|done]. }
  rewrite !Hh. case_decide as E1.
  - subst k. rewrite decide_False, decide_False by done. by rewrite Ed.
  - case_decide as E2; [|done]. subst k. cbn [fmap option_fmap option_map]. unfold without. f_equal. f_equal. f_equal.
    destruct (d_name r) as [[x n]|]; [|done]. unfold upd_bucket. by destruct (d_cache rp) as [[a bs]|].
Qed.

Lemma detach_back k rk : dents v' !! k = Some rk -> exists r0, dents v !! k = Some r0 /\ d_name rk = d_name r0 /\ addrs k rk = addrs k r0.
Proof.
  rewrite detach_lookup. case_decide as E1; [|case_decide as E2].
  - intros [= <-]. subst k. by exists r.
  - intros [= <-]. subst k. exists rp. split; [done|]. split; [apply without_fields|apply without_addrs].
  - intros E. by exists rk.
Qed.

Lemma dc_ok_detach : dc_ok v'.
Proof.
  pose proof detach_ne as Hne. pose proof detach_lookup as Hlk. pose proof detach_back as Hb. pose proof Hok as [O1 O2 O3 O4 O5 O6 O7 O8 O9 O10 O11].
  assert (Hh : dheap v' = dheap v).
  { unfold v', vfs_dentry_detach. rewrite Ed. cbn [mbind option_bind]. rewrite Hp. unfold d_hash_remove. rewrite Ed. cbn [mbind option_bind]. by destruct (d_name r) as [[? ?]|]. }
  destruct (without_fields d r rp) as (W1 & W2 & W3 & W4).
  assert (Hfwd : forall k rk, k <> d -> dents v !! k = Some rk -> exists r1, dents v' !! k = Some r1 /\ d_parent r1 = d_parent rk /\ d_name r1 = d_name rk).
  { intros k rk Hk E. rewrite Hlk, decide_False by done. case_decide as E2; [|eauto]. subst k. assert (rk = rp) as -> by congruence. eauto. }
  assert (Hbo : forall n x, d_name r = Some (x, n) -> True) by done.
  split.
  - by rewrite Hh.
  - intros k rk a E Ha. rewrite Hh. destruct (Hb k rk E) as (r0 & E0 & _ & Ea). rewrite Ea in Ha. by apply (O2 k r0).
  - intros k rk E. destruct (Hb k rk E) as (r0 & E0 & _ & Ea). rewrite Ea. by apply (O3 k r0).
  - intros k k' rk rk' a E E' Ha Ha'. destruct (Hb k rk E) as (r0 & E0 & _ & Ea), (Hb k' rk' E') as (r1 & E1 & _ & Ea1). rewrite Ea in Ha. rewrite Ea1 in Ha'.
    by apply (O4 k k' r0 r1 a).
  - intros k rk q E Hq. assert (Hk : k <> d /\ exists r0, dents v !! k = Some r0 /\ d_parent r0 = Some q).
    { rewrite Hlk in E. case_decide as E1; [injection E as <-; done|]. split; [done|]. case_decide as E2; [|eauto]. injection E as <-. subst k. exists rp. split; [done|]. congruence. }
    destruct Hk as (Hk & r0 & E0 & Hq0). destruct (O5 k r0 q E0 Hq0) as (rq & Eq & Hin). rewrite Hlk. case_decide as E1; [|case_decide as E2].
    + eexists. split; [done|]. subst q. cbn. congruence.
    + eexists. split; [done|]. subst q. assert (rq = rp) as -> by congruence. rewrite W3. apply unlink_from_elem; [by apply (O7 p)|done].
    + eauto.
  - intros q rq c E Hin. assert (Hq : exists r0, dents v !! q = Some r0 /\ c ∈ d_children r0 /\ c <> d).
    { rewrite Hlk in E. case_decide as E1; [|case_decide as E2].
      - injection E as <-. subst q. cbn in Hin. exists r. split_and!; try done. intros ->. destruct (O6 d r d Ed Hin) as (rc & Ec & Hpc). by apply (O11 d rc).
      - injection E as <-. subst q. rewrite W3, unlink_from_elem in Hin by (by apply (O7 p)). exists rp. tauto.
      - exists rq. split_and!; try done. intros ->. destruct (O6 q rq d E Hin) as (rc & Ec & Hpc). congruence. }
    destruct Hq as (r0 & E0 & Hin0 & Hcd). destruct (O6 q r0 c E0 Hin0) as (rc & Ec & Hpc). destruct (Hfwd c rc Hcd Ec) as (r1 & E1 & H1 & _). exists r1. split; congruence.
  - intros q rq. rewrite Hlk. case_decide as E1; [intros [= <-]; by apply (O7 d r)|]. case_decide as E2; [|apply O7].
    intros [= <-]. rewrite W3. apply unlink_from_nodup. by apply (O7 p).
  - intros q rq a bs. rewrite Hlk. case_decide as E1; [intros [= <-]; by apply (O8 d r)|]. case_decide as E2; [|apply O8].
    intros [= <-] Ec. destruct (without_cache d r rp a bs Ec) as (bs0 & E0 & ->). pose proof (O8 p rp a bs0 Ep E0). destruct (d_name r) as [[x n]|]; [by rewrite length_alter|done].
  - intros q rq a bs i l c E Ec Hl Hc.
    assert (Hq : exists r0 bs0 l0, dents v !! q = Some r0 /\ d_cache r0 = Some (a, bs0) /\ bs0 !! i = Some l0 /\ c ∈ l0 /\ c <> d /\
      (c ∈ d_children r0 -> c ∈ d_children rq)).
    { rewrite Hlk in E. case_decide as E1; [|case_decide as E2].
      - injection E as <-. subst q. exists r, bs, l. split_and!; try done. intros ->. destruct (O9 d r a bs i l d Ed Ec Hl Hc) as [Hin _].
        destruct (O6 d r d Ed Hin) as (rc & Ecc & Hpc). by apply (O11 d rc).
      - injection E as <-. subst q. destruct (without_cache d r rp a bs Ec) as (bs0 & E0 & Ebs). exists rp, bs0.
        assert (Hx : exists l0, bs0 !! i = Some l0 /\ c ∈ l0 /\ c <> d).
        { destruct (d_name r) as [[x n]|] eqn:En.
          - subst bs. rewrite list_lookup_alter in Hl. case_decide as Eb.
            + subst i. apply fmap_Some in Hl as (l0 & El & ->). rewrite unlink_from_elem in Hc by (by apply (O10 p rp a bs0 (d_bucket n))). exists l0. tauto.
            + exists l. split_and!; try done. intros ->. destruct (O9 p rp a bs0 i l d Ep E0 Hl Hc) as (_ & rc & x' & n' & H1 & H2 & H3). congruence.
          - subst bs. exists l. split_and!; try done. intros ->. destruct (O9 p rp a bs0 i l d Ep E0 Hl Hc) as (_ & rc & x' & n' & H1 & H2 & H3). congruence. }
        destruct Hx as (l0 & H1 & H2 & H3). exists l0. split_and!; try done. rewrite W3. intros Hin. apply unlink_from_elem; [by apply (O7 p)|done].
      - exists rq, bs, l. split_and!; try done. intros ->. destruct (O9 q rq a bs i l d E Ec Hl Hc) as [Hin _].
        destruct (O6 q rq d E Hin) as (rc & Ecc & Hpc). congruence. }
    destruct Hq as (r0 & bs0 & l0 & H1 & H2 & H3 & H4 & H5 & H6). destruct (O9 q r0 a bs0 i l0 c H1 H2 H3 H4) as (G1 & rc & x & n & G2 & G3 & G4).
    split; [by apply H6|]. destruct (Hfwd c rc H5 G2) as (r1 & F1 & _ & F3). exists r1, x, n. split_and!; congruence.
  - intros q rq a bs i l. rewrite Hlk. case_decide as E1; [intros [= <-]; by apply (O10 d r)|]. case_decide as E2; [|apply O10].
    intros [= <-] Ec Hl. destruct (without_cache d r rp a bs Ec) as (bs0 & E0 & Ebs). destruct (d_name r) as [[x n]|]; subst bs; [|by apply (O10 p rp a bs0 i)].
    rewrite list_lookup_alter in Hl. case_decide; [|by apply (O10 p rp a bs0 i)]. apply fmap_Some in Hl as (l0 & El & ->). apply unlink_from_nodup. by eapply (O10 p rp a bs0).
  - intros k rk. rewrite Hlk. case_decide as E1; [by intros [= <-]|]. case_decide as E2; [|apply O11].
    intros [= <-]. rewrite W2. subst k. exact (O11 p rp Ep).
Qed.

Lemma detach_entry p' n' d' : entry v' p' n' d' <-> entry v p' n' d' /\ d' <> d.
Proof.
  destruct (without_fields d r rp) as (W1 & W2 & W3 & W4). unfold entry. setoid_rewrite detach_lookup. split.
  - intros (rk & x & E & H1 & H2). case_decide as E1; [injection E as <-; done|]. split; [|done]. case_decide as E2; [|eauto].
    injection E as <-. subst d'. exists rp, x. split_and!; congruence.
  - intros ((rk & x & E & H1 & H2) & Hd). rewrite decide_False by done. case_decide as E2; [|eauto]. subst d'. assert (rk = rp) as -> by congruence.
    exists (without d r rp), x. split_and!; congruence.
Qed.

Lemma detach_owned a : owned v' a <-> owned v a.
Proof.
  split.
  - intros (k & rk & E & Ha). destruct (detach_back k rk E) as (r0 & E0 & _ & Ea). exists k, r0. by rewrite <- Ea.
  - intros (k & rk & E & Ha). destruct (dents v' !! k) as [r1|] eqn:E1.
    + destruct (detach_back k r1 E1) as (r0 & E0 & _ & Ea). exists k, r1. split; [done|]. rewrite Ea. congruence.
    + rewrite detach_lookup in E1. case_decide; [done|]. case_decide; [done|]. congruence.
Qed.

Lemma detach_found p' n' d' : found v' p' n' d' <-> found v p' n' d' /\ d' <> d.
Proof.
  pose proof detach_lookup as Hlk. unfold found. rewrite detach_entry.
  enough (Ht : entry v p' n' d' -> d' <> d -> in_table v' p' n' d' <-> in_table v p' n' d') by (split; [intros [[? ?] ?]|intros [[? ?] ?]]; rewrite Ht in * by done; done).
  intros He Hd. unfold in_table. rewrite Hlk. case_decide as E1; [|case_decide as E2]; [| |done].
  - subst p'. rewrite Ed. split; intros H rq a bs [= <-] Ec; by apply (H _ a bs eq_refl).
  - subst p'. rewrite Ep. split.
    + intros H rq a bs [= <-] Ec. destruct (H _ a _ eq_refl (without_cache_some d r rp a bs Ec)) as (l & El & Hin). destruct (d_name r) as [[x n]|]; [|by exists l].
      rewrite list_lookup_alter in El. destruct (decide (d_bucket n = d_bucket n')) as [Eb|]; [|by exists l]. apply fmap_Some in El as (l0 & El & ->). exists l0. split; [congruence|].
      apply unlink_from_elem in Hin as [? _]; [done|]. by apply (dc_chain_once _ Hok p rp a bs (d_bucket n)).
    + intros H rq a bs [= <-] Ec. destruct (without_cache d r rp a bs Ec) as (bs0 & E0 & ->). destruct (H rp a bs0 eq_refl E0) as (l & El & Hin).
      destruct (d_name r) as [[x n]|]; [|by exists l]. rewrite list_lookup_alter. destruct (decide (d_bucket n = d_bucket n')) as [Eb|]; [|by exists l].
      rewrite Eb, El. eexists. split; [done|]. apply unlink_from_elem; [|done]. by apply (dc_chain_once _ Hok p rp a bs0 (d_bucket n')).
Qed.
End detach.

(** ** Changes of other fields *)

Definition shape (r : dentry) := (d_name r, d_parent r, d_children r, d_cache r).

(** The same tree on the same heap. *)
Definition same_shape v v' : Prop := dheap v' = dheap v /\ forall k, shape <$> dents v' !! k = shape <$> dents v !! k.

Lemma same_shape_back v v' k r' : same_shape v v' -> dents v' !! k = Some r' -> exists r, dents v !! k = Some r /\ shape r = shape r'.
Proof. intros [_ H] E. specialize (H k). rewrite E in H. cbn in H. symmetry in H. apply fmap_Some in H as (r & E1 & E2). eauto. Qed.

Lemma same_shape_sym v v' : same_shape v v' -> same_shape v' v.
Proof. intros [H1 H2]. split; [done|]. intros k. by rewrite H2. Qed.

Lemma shape_eq r r' : shape r = shape r' -> d_name r = d_name r' /\ d_parent r = d_parent r' /\ d_children r = d_children r' /\ d_cache r = d_cache r'.
Proof. unfold shape. intros [= -> -> -> ->]. done. Qed.

Lemma shape_addrs k r r' : shape r = shape r' -> addrs k r = addrs k r'.
Proof. intros (E1 & _ & _ & E4)%shape_eq. unfold addrs. by rewrite E1, E4. Qed.

Lemma dc_ok_shape v v' : same_shape v v' -> dc_ok v -> dc_ok v'.
Proof.
  intros HS [O1 O2 O3 O4 O5 O6 O7 O8 O9 O10 O11].
  assert (B : forall k r', dents v' !! k = Some r' -> exists r, dents v !! k = Some r /\ shape r = shape r') by (intros k r'; by apply same_shape_back).
  assert (F : forall k r, dents v !! k = Some r -> exists r', dents v' !! k = Some r' /\ shape r' = shape r) by (intros k r; by apply same_shape_back, same_shape_sym).
  destruct HS as [Hh _]. split.
  - by rewrite Hh.
  - intros k r' a E Ha. destruct (B k r' E) as (r & E0 & S). rewrite Hh. apply (O2 k r); [done|]. by rewrite (shape_addrs k r r' S).
  - intros k r' E. destruct (B k r' E) as (r & E0 & S). rewrite <- (shape_addrs k r r' S). by apply O3.
  - intros k k' r r' a E E' Ha Ha'. destruct (B k r E) as (r0 & E0 & S0), (B k' r' E') as (r1 & E1 & S1).
    rewrite <- (shape_addrs k r0 r S0) in Ha. rewrite <- (shape_addrs k' r1 r' S1) in Ha'. by apply (O4 k k' r0 r1 a).
  - intros k r q E Hq. destruct (B k r E) as (r0 & E0 & S0). apply shape_eq in S0 as (_ & S2 & _ & _). destruct (O5 k r0 q E0 ltac:(congruence)) as (rq & Eq & Hin).
    destruct (F q rq Eq) as (rq' & Eq' & Sq). apply shape_eq in Sq as (_ & _ & S3 & _). exists rq'. split; [done|]. congruence.
  - intros q rq c E Hin. destruct (B q rq E) as (r0 & E0 & S0). apply shape_eq in S0 as (_ & _ & S3 & _). destruct (O6 q r0 c E0 ltac:(congruence)) as (rc & Ec & Hpc).
    destruct (F c rc Ec) as (rc' & Ec' & Sc). apply shape_eq in Sc as (_ & S2 & _ & _). exists rc'. split; [done|]. congruence.
  - intros q rq E. destruct (B q rq E) as (r0 & E0 & S0). apply shape_eq in S0 as (_ & _ & S3 & _). rewrite <- S3. by apply (O7 q).
  - intros q rq a bs E Ec. destruct (B q rq E) as (r0 & E0 & S0). apply shape_eq in S0 as (_ & _ & _ & S4). apply (O8 q r0 a bs E0). congruence.
  - intros q rq a bs i l c E Ec Hl Hc. destruct (B q rq E) as (r0 & E0 & S0). apply shape_eq in S0 as (_ & _ & S3 & S4).
    destruct (O9 q r0 a bs i l c E0 ltac:(congruence) Hl Hc) as (H1 & rc & x & n & H2 & H3 & H4). split; [congruence|].
    destruct (F c rc H2) as (rc' & Ec' & Sc). apply shape_eq in Sc as (S1 & _ & _ & _). exists rc', x, n. split_and!; congruence.
  - intros q rq a bs i l E Ec Hl. destruct (B q rq E) as (r0 & E0 & S0). apply shape_eq in S0 as (_ & _ & _ & S4). apply (O10 q r0 a bs i l E0); [congruence|done].
  - intros k r E. destruct (B k r E) as (r0 & E0 & S0). apply shape_eq in S0 as (_ & S2 & _ & _). rewrite <- S2. by apply (O11 k).
Qed.

Lemma entry_shape v v' p n d : same_shape v v' -> entry v p n d <-> entry v' p n d.
Proof.
  assert (H : forall v v', same_shape v v' -> entry v' p n d -> entry v p n d).
  { intros w w' HS (r & x & E & H1 & H2). destruct (same_shape_back w w' d r HS E) as (r0 & E0 & S0). apply shape_eq in S0 as (S1 & S2 & _). exists r0, x. split_and!; congruence. }
  intros HS. split; [by apply H, same_shape_sym|by apply H].
Qed.

Lemma found_shape v v' p n d : same_shape v v' -> found v p n d <-> found v' p n d.
Proof.
  assert (H : forall v v', same_shape v v' -> in_table v' p n d -> in_table v p n d).
  { intros w w' HS Ht rp a bs E Ec. destruct (same_shape_back w' w p rp (same_shape_sym _ _ HS) E) as (r0 & E0 & S0).
    apply shape_eq in S0 as (_ & _ & _ & S4). apply (Ht r0 a bs E0). congruence. }
  intros HS. unfold found. rewrite (entry_shape v v') by done. split; (intros [? ?]; split; [done|]); [by apply (H v' v (same_shape_sym _ _ HS))|by apply (H v v')].
Qed.

Lemma owned_shape v v' a : same_shape v v' -> owned v a <-> owned v' a.
Proof.
  assert (H : forall v v', same_shape v v' -> owned v' a -> owned v a).
  { intros w w' HS (k & r & E & Ha). destruct (same_shape_back w w' k r HS E) as (r0 & E0 & S0). exists k, r0. split; [done|]. by rewrite (shape_addrs k r0 r S0). }
  intros HS. split; [by apply H, same_shape_sym|by apply H].
Qed.

Lemma same_shape_upd f d v : (forall r, shape (f r) = shape r) -> same_shape v (upd_dentry f d v).
Proof.
  intros Hf. split; [done|]. intros k. rewrite dents_upd. case_decide as E; [|done]. subst. destruct (dents v !! d); [|done]. cbn. by rewrite Hf.
Qed.

(** ** Dropping a reference *)

Lemma kfree_addrs (h : M) l : km_ok h -> NoDup l -> (forall a, a ∈ l -> a ∈ live h) ->
  let h' := foldl (fun h a => kfree a h) h l in km_ok h' /\ live h' = live h ∖ list_to_set l.
Proof.
  revert h. induction l as [|a l IH]; intros h Hk Hnd Hl; cbn [foldl list_to_set]; [split; [done|set_solver]|].
  apply NoDup_cons in Hnd as [Ha Hnd]. destruct (kfree_live a h Hk (Hl a ltac:(by left))) as [K1 K2].
  destruct (IH (kfree a h) K1 Hnd) as [K3 K4].
  - intros b Hb. rewrite K2. apply elem_of_difference. split; [apply Hl; by right|]. intros ->%elem_of_singleton. done.
  - split; [done|]. rewrite K4, K2. set_solver.
Qed.

Lemma put_cases v d r :
  dents v !! d = Some r ->
  (exists v', vfs_dentry_put d v = Ret v' /\ same_shape v v') \/
  (d_parent r = None /\ d_children r = [] /\ vfs_dentry_put d v = Ret (
     with_dents (with_heap v (foldl (fun h a => kfree a h) (dheap v) (opt_addr (d_cache r) ++ opt_addr (d_name r) ++ [d]))) (delete d (dents v)))).
Proof.
  intros E. unfold vfs_dentry_put. rewrite E.
  set (n := if 0 <? d_refcount r then d_refcount r - 1 else d_refcount r).
  assert (HS : same_shape v (upd_dentry (set_d_refcount n) d v)) by (by apply same_shape_upd).
  destruct (negb (n =? 0)); [left; by eexists|]. destruct (bool_decide_reflect (is_Some (d_parent r))) as [|Hp]; [left; by eexists|].
  destruct (bool_decide_reflect (d_children r = [])) as [Hc|]; [|left; by eexists]. cbn [orb negb].
  destruct (bool_decide (is_Some (d_mount r))); [left; by eexists|]. destruct (bool_decide (vfs_root_dentry v = Some d)); [left; by eexists|].
  right. split_and!; [by apply eq_None_not_Some|done|]. unfold free_opt. destruct (d_cache r) as [[a bs]|], (d_name r) as [[x nm]|]; done.
Qed.

Lemma put_freed v d r h :
  dc_ok v -> dents v !! d = Some r -> d_parent r = None -> d_children r = [] -> km_ok h -> live h = live (dheap v) ∖ list_to_set (addrs d r) ->
  let v' := with_dents (with_heap v h) (delete d (dents v)) in
  dc_ok v' /\ (forall p n d', found v' p n d' <-> found v p n d') /\ (forall a, owned v' a <-> owned v a /\ a ∉ addrs d r).
Proof.
  intros Hok Ed Hpar Hch Hk Hl v'. pose proof Hok as [O1 O2 O3 O4 O5 O6 O7 O8 O9 O10 O11].
  assert (Hlk : forall k rk, dents v' !! k = Some rk <-> k <> d /\ dents v !! k = Some rk).
  { intros k rk. unfold v'. cbn [with_dents dents]. rewrite lookup_delete_Some. split; intros [? ?]; by split. }
  assert (Hnot : forall q rq, dents v !! q = Some rq -> d ∉ d_children rq).
  { intros q rq Eq Hin. destruct (O6 q rq d Eq Hin) as (rc & Ec & Hpc). congruence. }
  assert (Hne : forall k rk a, k <> d -> dents v !! k = Some rk -> a ∈ addrs k rk -> a ∉ addrs d r).
  { intros k rk a Hkd E Ha Ha'. apply Hkd. by apply (O4 k d rk r a). }
  split_and!; [split| |].
  - done.
  - intros k rk a [Hkd E]%Hlk Ha. cbn [v' with_dents with_heap dheap]. rewrite Hl. apply elem_of_difference. split; [by apply (O2 k rk)|].
    rewrite elem_of_list_to_set. by apply (Hne k rk).
  - intros k rk [_ E]%Hlk. by apply O3.
  - intros k k' rk rk' a [_ E]%Hlk [_ E']%Hlk. by apply (O4 k k' rk rk' a).
  - intros k rk q [Hkd E]%Hlk Hq. destruct (O5 k rk q E Hq) as (rq & Eq & Hin). exists rq. rewrite Hlk. split_and!; try done. intros ->.
    assert (rq = r) as -> by congruence. rewrite Hch in Hin. by apply elem_of_nil in Hin.
  - intros q rq c [Hqd E]%Hlk Hin. destruct (O6 q rq c E Hin) as (rc & Ec & Hpc). exists rc. rewrite Hlk. split_and!; try done. intros ->. by apply (Hnot q rq).
  - intros q rq [_ E]%Hlk. by apply (O7 q).
  - intros q rq a bs [_ E]%Hlk. by apply (O8 q).
  - intros q rq a bs i l c [_ E]%Hlk Ec Hl0 Hc. destruct (O9 q rq a bs i l c E Ec Hl0 Hc) as (H1 & rc & x & n & H2 & H3 & H4). split; [done|].
    exists rc, x, n. rewrite Hlk. split_and!; try done. intros ->. by apply (Hnot q rq).
  - intros q rq a bs i l [_ E]%Hlk. by apply (O10 q).
  - intros k rk [_ E]%Hlk. by apply (O11 k).
  - intros p n d'. assert (Hp : entry v p n d' -> p <> d).
    { intros (rk & x & E & H1 & _) ->. destruct (O5 d' rk d E H1) as (rq & Eq & Hin). assert (rq = r) as -> by congruence. rewrite Hch in Hin. by apply elem_of_nil in Hin. }
    assert (He : entry v' p n d' <-> entry v p n d').
    { unfold entry. setoid_rewrite Hlk. split.
      - intros (rk & x & [_ E] & H1 & H2). eauto.
      - intros (rk & x & E & H1 & H2). exists rk, x. split_and!; try done. intros ->. congruence. }
    unfold found. rewrite He. split; intros [H1 H2]; (split; [done|]); intros rq a bs E.
    + apply (H2 rq a bs). apply Hlk. split; [by apply Hp|done].
    + apply Hlk in E as [_ E]. by apply (H2 rq a bs).
  - intros a. unfold owned. setoid_rewrite Hlk. split.
    + intros (k & rk & [Hkd E] & Ha). split; [eauto|]. by apply (Hne k rk).
    + intros [(k & rk & E & Ha) Hn]. exists k, rk. split_and!; try done. intros ->. congruence.
Qed.

(** ** Refinement of a finite map *)

(** The map after [d_alloc] made the entry [d] for the name [n] in [p]: without memory
    for the name nothing is added; when the directory gets its first table, entries
    it got before (for want of memory for the table) are not found any more. *)
Definition map_after_alloc v p n d v' (m : gmap (Z * list Z) Z) : gmap (Z * list Z) Z :=
  match dents v' !! d ≫= d_name with
  | None => m
  | Some _ =>
      <[(p, n) := d]> (if bool_decide (dents v !! p ≫= d_cache = None /\ dents v' !! p ≫= d_cache <> None)
                       then filter (fun e => e.1.1 <> p) m else m)
  end.

(** The uses of the cache, with the map of its entries.  A new entry is made only
    for a name that is not found; every allocation may fail. *)
Inductive dc_step : vfs * gmap (Z * list Z) Z -> vfs * gmap (Z * list Z) Z -> Prop :=
  | step_alloc v m p n d v' :
      is_Some (dents v !! p) -> m !! (p, n) = None -> d_alloc (Some p) (Some n) v = (Some d, v') ->
      dc_step (v, m) (v', map_after_alloc v p n d v' m)
  | step_alloc_fails v m p n v' : d_alloc (Some p) (Some n) v = (None, v') -> dc_step (v, m) (v', m)
  | step_detach v m d : is_Some (dents v !! d) -> dc_step (v, m) (vfs_dentry_detach d v, filter (fun e => e.2 <> d) m)
  | step_put v m d v' : vfs_dentry_put d v = Ret v' -> dc_step (v, m) (v', m)
  | step_fields v m f d : (forall r, shape (f r) = shape r) -> dc_step (v, m) (upd_dentry f d v, m).

(** Live objects that belong to no entry. *)
Definition foreign v (a : Z) : Prop := a ∈ live (dheap v) /\ ~ owned v a.

Lemma owned_live v a : dc_ok v -> owned v a -> a ∈ live (dheap v).
Proof. intros Hok (d & r & E & Ha). by apply (dc_live _ Hok d r). Qed.

Lemma dc_step_ok v m v' m' :
  dc_ok v -> dc_map v m -> dc_step (v, m) (v', m') ->
  dc_ok v' /\ dc_map v' m' /\ forall a, foreign v' a <-> foreign v a.
Proof.
  intros Hok Hm Hs. inversion Hs as [v0 m0 p n d v1 H1 H2 H4|v0 m0 p n v1 H0|v0 m0 d H0|v0 m0 d v1 H0|v0 m0 f d H0]; subst; clear Hs.
  - (* a new entry *)
    destruct H1 as [rp Ep]. destruct (d_alloc_spec v p rp n d v' Hok Ep H4) as (nm & cache & Had & Hnm & Hc & _ & Hk & Hnd & Hnew & Hlive).
    pose proof (added_lookup v v' p d rp nm cache Ep Had) as Hlk. destruct (added_none v v' p d rp nm cache Hok Ep Had Hnew) as [Hdn Hpd].
    assert (Hnd' : dents v' !! d ≫= d_name = nm) by (by rewrite Hlk, decide_True).
    assert (Hcd' : dents v' !! p ≫= d_cache = cache) by (by rewrite Hlk, decide_False, decide_True).
    assert (Hcd : dents v !! p ≫= d_cache = d_cache rp) by (by rewrite Ep).
    split_and!.
    + exact (dc_ok_added v v' p d rp nm cache Hok Ep Had Hc Hk Hnd Hnew Hlive).
    + intros p' n' d'. rewrite (added_found v v' p d rp nm cache Hok Ep Had Hc Hnd Hnew Hlive), <- (Hm p' n' d').
      unfold map_after_alloc. rewrite Hnd', Hcd', Hcd. unfold first_table. destruct Hnm as [->|(x & ->)].
      * split; [|by intros [[? _]|(_ & _ & ? & ?)]]. intros H. left. split; [done|]. intros (_ & F1 & F2). cbn in Hc. congruence.
      * set (ft := d_cache rp = None /\ cache <> None). destruct (decide ((p', n') = (p, n))) as [[= -> ->]|Hne].
        -- rewrite lookup_insert_eq. split; [intros [= <-]; right; eauto|]. intros [[? _]|(_ & -> & _)]; [congruence|done].
        -- rewrite lookup_insert_ne by done. case_bool_decide as Hft.
           ++ rewrite map_lookup_filter_Some. cbn [fst]. split; [intros [? ?]; left; tauto|]. intros [[? ?]|(-> & -> & y & [= _ ->])]; [|done]. split; [done|]. intros ->. tauto.
           ++ split; [intros ?; left; tauto|]. intros [[? ?]|(-> & -> & y & [= _ ->])]; done.
    + intros a. unfold foreign. rewrite (added_owned v v' p d rp nm cache Hok Ep Had Hc Hk Hnd Hnew Hlive), Hlive, elem_of_union, elem_of_list_to_set.
      split; [tauto|]. intros [H7 H8]. split; [by right|]. intros [?|Ha]; [done|]. by apply (Hnew a).
  - (* no memory *)
    unfold d_alloc in H0. destruct (kmalloc SIZEOF_DENTRY (dheap v)) as [[d|] h] eqn:E.
    { exfalso. by destruct (kstrdup n h). }
    injection H0 as <-. destruct (kmalloc_none _ _ _ (dc_heap _ Hok) E) as [K1 K2]. pose proof Hok as [O1 O2 O3 O4 O5 O6 O7 O8 O9 O10 O11].
    split_and!; try done.
    + split; try done. intros k r a E0 Ha. cbn [with_heap dheap]. rewrite K2. by apply (O2 k r).
    + intros a. unfold foreign. cbn [with_heap dheap]. by rewrite K2.
  - (* an entry is detached *)
    destruct H0 as [r Ed]. destruct (d_parent r) as [p|] eqn:Hp.
    + destruct (dc_parent _ Hok d r p Ed Hp) as (rp & Ep & _). split_and!.
      * by apply (dc_ok_detach v d p r rp).
      * intros p' n' d'. rewrite (detach_found v d p r rp Hok Ed Hp Ep), <- (Hm p' n' d'), map_lookup_filter_Some. done.
      * intros a. unfold foreign. rewrite (detach_owned v d p r rp Hok Ed Hp Ep).
        replace (dheap (vfs_dentry_detach d v)) with (dheap v); [done|]. unfold vfs_dentry_detach. rewrite Ed. cbn [mbind option_bind]. rewrite Hp.
        unfold d_hash_remove. rewrite Ed. cbn [mbind option_bind]. by destruct (d_name r) as [[? ?]|].
    + assert (Ev : vfs_dentry_detach d v = v) by (unfold vfs_dentry_detach; rewrite Ed; cbn [mbind option_bind]; by rewrite Hp). rewrite Ev.
      split_and!; try done. intros p' n' d'. rewrite map_lookup_filter_Some, (Hm p' n' d'). split; [by intros [? _]|]. intros H. split; [done|].
      cbn [snd]. intros ->. destruct H as [(r0 & x & E0 & Hp0 & _) _]. congruence.
  - (* a reference is dropped *)
    destruct (dents v !! d) as [r|] eqn:Ed; [|unfold vfs_dentry_put in H0; by rewrite Ed in H0].
    destruct (put_cases v d r Ed) as [(v2 & E2 & HS)|(Hp & Hc & E2)]; rewrite E2 in H0; injection H0 as <-.
    + split_and!; [by apply (dc_ok_shape v)| |].
      * intros p n d'. by rewrite <- (found_shape v).
      * intros a. unfold foreign. rewrite <- (owned_shape v) by done. by rewrite (proj1 HS).
    + assert (Hperm : opt_addr (d_cache r) ++ opt_addr (d_name r) ++ [d] ≡ₚ addrs d r).
      { unfold addrs. rewrite <- (Permutation_cons_append _ d). rewrite (Permutation_app_comm (opt_addr (d_cache r))). cbn [app]. done. }
      destruct (kfree_addrs (dheap v) (opt_addr (d_cache r) ++ opt_addr (d_name r) ++ [d]) (dc_heap _ Hok)) as [K1 K2].
      { rewrite Hperm. by apply (dc_nodup _ Hok). }
      { intros a. rewrite Hperm. by apply (dc_live _ Hok). }
      assert (K3 : list_to_set (opt_addr (d_cache r) ++ opt_addr (d_name r) ++ [d]) =@{gset Z} list_to_set (addrs d r)) by (apply set_eq; intros a; by rewrite !elem_of_list_to_set, Hperm).
      rewrite K3 in K2. destruct (put_freed v d r _ Hok Ed Hp Hc K1 K2) as (P1 & P2 & P4). split_and!; [done| |].
      * intros p n d'. by rewrite P2.
      * intros a. unfold foreign. rewrite P4. cbn [with_dents with_heap dheap]. rewrite K2, elem_of_difference, elem_of_list_to_set.
        split; [|].
        -- intros [[H1 H2] H3]. split; [done|]. tauto.
        -- intros [H1 H2]. split_and!; [done| |tauto]. intros Ha. apply H2. by exists d, r.
  - assert (HS : same_shape v (upd_dentry f d v)) by (by apply same_shape_upd).
    split_and!; [by apply (dc_ok_shape v)| |].
    + intros p n d'. by rewrite <- (found_shape v).
    + intros a. unfold foreign. by rewrite <- (owned_shape v).
Qed.

(** C8: the directory cache refines a finite map from a directory and a name to an
    entry.  After any sequence of uses of the cache on live entries (adding an entry
    for a name that is not found, where any of the three allocations may fail,
    detaching, dropping references, changing inodes, flags and mounts) the lookup
    through the lists and hash tables of the directories answers as the map does,
    the tree is well-formed, and no heap object was leaked or taken from anybody
    else.  The map gains the new entry if there was memory for its name, and loses
    the entries a directory got before its first table when it gets that table. *)
Theorem dcache_refines_map v m v' m' :
  dc_ok v -> dc_map v m -> rtc dc_step (v, m) (v', m') ->
  dc_ok v' /\ (forall p n, d_lookup p n v' = m' !! (p, n)) /\ (forall a, foreign v' a <-> foreign v a).
Proof.
  intros Hok Hm Hs. remember (v, m) as w eqn:Ew. remember (v', m') as w' eqn:Ew'. revert v m v' m' Hok Hm Ew Ew'.
  induction Hs as [w|w1 [v2 m2] w3 H1 _ IH]; intros v m v' m' Hok Hm -> Ew'.
  - injection Ew' as <- <-. split_and!; try done. intros p n. by apply d_lookup_map.
  - destruct (dc_step_ok v m v2 m2 Hok Hm H1) as (Hok2 & Hm2 & Hf2).
    destruct (IH v2 m2 v' m' Hok2 Hm2 eq_refl Ew') as (I1 & I2 & I3). split_and!; try done. intros a. by rewrite I3.
Qed.
End proofs.

(** ** A small cache *)

Module DcacheDemo.
(** A root directory at 1; other objects at 2, 3 and 5. *)
Definition root : dentry := Dentry None None [] (Some 9) None 1 0 None.
Definition start (budget : nat) : vfs Heap.heap unit :=
  Vfs {[1 := root]} ∅ ∅ [] (Some 1) None 0 100 (Heap.Build_heap budget 4096 {[1; 2; 3; 5]}) tt.

Lemma dcache_start_ok b : dc_ok (start b) /\ dc_map (start b) ∅.
Proof.
  assert (L : forall k r, dents (start b) !! k = Some r -> k = 1 /\ r = root) by (intros k r E; cbn [start dents] in E; by apply lookup_singleton_Some in E as [<- <-]).
  split_and!; [split|..].
  - intros p Hp. cbn [start dheap Heap.used] in Hp. assert (p = 1 \/ p = 2 \/ p = 3 \/ p = 5) by set_solver. cbn. lia.
  - intros d r a [-> ->]%L Ha. apply list_elem_of_singleton in Ha as ->. cbn. set_solver.
  - intros d r [-> ->]%L. apply NoDup_singleton.
  - intros d d' r r' a [-> _]%L [-> _]%L. done.
  - by intros d r p [-> ->]%L.
  - intros p rp c [-> ->]%L Hc. by apply elem_of_nil in Hc.
  - intros p rp [-> ->]%L. constructor.
  - by intros p rp a bs [-> ->]%L.
  - by intros p rp a bs i l c [-> ->]%L.
  - by intros p rp a bs i l [-> ->]%L.
  - by intros d r [-> ->]%L.
  - intros p n d. rewrite lookup_empty. split; [done|]. by intros [(r & x & [-> ->]%L & H & _) _].
Qed.

Definition tmp : list Z := [116; 109; 112].
Definition added_tmp : vfs Heap.heap unit := (d_alloc (Some 1) (Some tmp) (start 8)).2.

(** There is no memory for the table of the first entry; other objects are freed; the
    second entry gets a table. *)
Definition without_table : vfs Heap.heap unit := (d_alloc (Some 1) (Some tmp) (start 2)).2.
Definition memory_back : vfs Heap.heap unit := with_heap without_table (kfree 2 (kfree 3 (kfree 5 (dheap without_table)))).
Definition with_table : vfs Heap.heap unit := (d_alloc (Some 1) (Some [98]) memory_back).2.
End DcacheDemo.

(** With memory the new entry is found; the entry it got without a table is found too. *)
Lemma dcache_refines_map_witness :
  (dc_ok DcacheDemo.added_tmp /\ d_lookup 1 DcacheDemo.tmp DcacheDemo.added_tmp = Some 4096) /\
  (dc_ok DcacheDemo.without_table /\ d_lookup 1 DcacheDemo.tmp DcacheDemo.without_table = Some 4096).
Proof.
  assert (G : forall b v', (d_alloc (Some 1) (Some DcacheDemo.tmp) (DcacheDemo.start b)) = (Some 4096, v') ->
    map_after_alloc (DcacheDemo.start b) 1 DcacheDemo.tmp 4096 v' ∅ = <[(1, DcacheDemo.tmp) := 4096]> ∅ ->
    dc_ok v' /\ d_lookup 1 DcacheDemo.tmp v' = Some 4096).
  { intros b v' E Em. destruct (DcacheDemo.dcache_start_ok b) as (Hok & Hm).
    destruct (dcache_refines_map (DcacheDemo.start b) ∅ v' (<[(1, DcacheDemo.tmp) := 4096]> ∅) Hok Hm) as (H1 & H2 & _).
    - apply rtc_once. rewrite <- Em. apply step_alloc; [by eexists|apply lookup_empty|exact E].
    - split; [exact H1|]. rewrite H2. apply lookup_insert_eq. }
  split; [apply (G 8%nat)|apply (G 2%nat)]; vm_compute; reflexivity.
Defined.

(** An entry whose hash table could not be allocated is lost when the next one
    gets the table: it is a child of the directory that lookup does not find. *)
Theorem unhashed_entry_is_lost :
  d_lookup 1 DcacheDemo.tmp DcacheDemo.without_table = Some 4096 /\
  d_lookup 1 DcacheDemo.tmp DcacheDemo.with_table = None /\
  match dents DcacheDemo.with_table !! 1 with
  | Some r => existsb (has_name DcacheDemo.with_table DcacheDemo.tmp) (d_children r) = true
  | None => False
  end.
Proof. vm_compute. done. Qed.
