(* ===== verification/Namei.v ===== *)
(** * Path lookup ([fs/namei.c], with [fs/readdir.c], [fs/inode.c] and [vfs_chdir])

    Paths are resolved component by component from the root or the working
    directory, through the directory cache and, for names that are not cached,
    through the [lookup] of the file system.  The operation tables of the file
    systems are the interface [FsTables], indexed by the address of the table. *)

From stdpp Require Import base tactics numbers list gmap sets.
From Stdlib Require Import ZArith Lia.
From S2P Require Import Prelude Cstring Path Dcache.

Definition FS_FILE : Z := 1.
Definition FS_DIRECTORY : Z := 2.
Definition FS_CHARDEVICE : Z := 3.
Definition FS_BLOCKDEVICE : Z := 4.
Definition FS_SYMLINK : Z := 6.
Definition AT_FDCWD : Z := -100.
Definition LOOKUP_DIRECTORY : Z := 2.
Definition LOOKUP_ROOT : Z := 8192.
Definition LAST_NORM : Z := 0.
Definition LAST_ROOT : Z := 1.
Definition LAST_DOT : Z := 2.
Definition LAST_DOTDOT : Z := 3.

(** The tables of [struct inode_operations] and [struct file_operations], NULL
    members as [None], and the special files of [fs/char_dev.c] and
    [fs/block_dev.c].  A read returns the bytes it put into the buffer. *)
Class FsTables (M X : Type) := {
  op_lookup : Z -> option (Z -> list Z -> vfs M X -> option Z * vfs M X);
  op_create : Z -> option (Z -> list Z -> vfs M X -> option Z * vfs M X);
  op_mkdir : Z -> option (Z -> list Z -> vfs M X -> option Z * vfs M X);
  op_symlink : Z -> option (Z -> list Z -> list Z -> vfs M X -> option Z * vfs M X);
  op_unlink : Z -> option (Z -> list Z -> vfs M X -> run (Z * vfs M X));
  op_rmdir : Z -> option (Z -> list Z -> vfs M X -> run (Z * vfs M X));
  fop_read : Z -> option (Z -> Z -> Z -> vfs M X -> list Z * vfs M X);
  create_special_inode : Z -> Z -> Z -> Z -> Z -> Z -> vfs M X -> option Z * vfs M X;
  destroy_special_inode : Z -> vfs M X -> vfs M X;
}.

Record path : Type := PathOf { p_mnt : option Z; p_dentry : Z }.

Record nameidata : Type := Nameidata {
  nd_path : path; nd_root : option path; nd_name : list Z; nd_flags : Z; nd_last_type : Z; nd_dfd : Z;
}.

Section code.
Context {M X : Type} `{!KAlloc M, !FsTables M X}.
Notation vfs := (vfs M X).
Implicit Types v : vfs.

(** ** Inodes *)

Definition itype (i : inode) : Z := Z.land (i_flags i) 7.
Definition is_dir v (node : Z) : bool := match inodes v !! node with Some i => itype i =? FS_DIRECTORY | None => false end.

Definition dir_op v (node : Z) {A} (op : Z -> option A) : option A :=
  i ← inodes v !! node; if itype i =? FS_DIRECTORY then i_op i ≫= op else None.

Definition finddir_fs (node : Z) (name : list Z) v : option Z * vfs :=
  match dir_op v node op_lookup with Some f => f node name v | None => (None, v) end.
Definition create_fs (dir : Z) (name : list Z) v : option Z * vfs :=
  match dir_op v dir op_create with Some f => f dir name v | None => (None, v) end.
Definition mkdir_fs (dir : Z) (name : list Z) v : option Z * vfs :=
  match dir_op v dir op_mkdir with Some f => f dir name v | None => (None, v) end.
Definition symlink_fs (dir : Z) (name target : list Z) v : option Z * vfs :=
  match dir_op v dir op_symlink with Some f => f dir name target v | None => (None, v) end.

Definition inode_of v (d : Z) : option Z := dents v !! d ≫= d_inode.

Definition unlink_fs (dir_dentry : Z) (name : list Z) v : run (Z * vfs) :=
  match inode_of v dir_dentry with
  | None => Ret (-1, v)
  | Some dir => match dir_op v dir op_unlink with Some f => f dir_dentry name v | None => Ret (-1, v) end
  end.
Definition rmdir_fs (dir_dentry : Z) (name : list Z) v : run (Z * vfs) :=
  match inode_of v dir_dentry with
  | None => Ret (-1, v)
  | Some dir => match dir_op v dir op_rmdir with Some f => f dir_dentry name v | None => Ret (-1, v) end
  end.

Definition current_uid v : Z := match current v with Some t => t_uid t | None => 0 end.
Definition current_gid v : Z := match current v with Some t => t_gid t | None => 0 end.

Definition vfs_check_access (node : Z) (want_read want_write want_exec : bool) v : bool :=
  match inodes v !! node with
  | None => false
  | Some i =>
      let uid := current_uid v in
      let gid := current_gid v in
      if uid =? 0 then true else
      let mode := Z.land (i_mode i) 511 in
      let bits := if uid =? i_uid i then Z.land (Z.shiftr mode 6) 7
                  else if gid =? i_gid i then Z.land (Z.shiftr mode 3) 7 else Z.land mode 7 in
      negb (want_read && negb (has bits 4)) && negb (want_write && negb (has bits 2)) && negb (want_exec && negb (has bits 1))
  end.

(** ** The path of an entry *)

Definition mount_of v (d : Z) : option (Z * vfsmount) := m ← dents v !! d ≫= d_mount; r ← mounts v !! m; Some (m, r).

(** [d] is the root of a file system mounted on the result. *)
Definition mounted_on v (d : Z) : option Z :=
  match mount_of v d with
  | Some (_, r) => if bool_decide (mnt_root r = Some d) then mnt_mountpoint r else None
  | None => None
  end.

(** The loop of [vfs_build_dentry_path]: [acc] is what was written to the end of
    [tmp].  [strlen] of a missing name faults. *)
Fixpoint build_path (fuel : nat) (cap : Z) (d : Z) (acc : list Z) v : run (option (list Z)) :=
  match fuel with
  | O => Ret None
  | S fuel' =>
      match mounted_on v d with
      | Some mp => build_path fuel' cap mp acc v
      | None =>
          match dents v !! d with
          | None => Ret (Some acc)
          | Some r =>
              match d_parent r with
              | None => Ret (Some acc)
              | Some p =>
                  if p =? d then Ret (Some acc) else
                  match d_name r with
                  | None => Faults 0
                  | Some (_, n) =>
                      let pos := cap - 1 - zlen acc in
                      if (zlen n =? 0) || (pos <? zlen n + 1) then Ret None
                      else build_path fuel' cap p (SLASH :: n ++ acc) v
                  end
              end
          end
      end
  end.

(** The chain of parents and mounts has at most this many entries. *)
Definition DEPTH : nat := 4096.

Definition vfs_build_dentry_path (d cap : Z) v : run (option (list Z)) :=
  if cap <? 2 then Ret None else
  let? o := build_path DEPTH (if 512 <? cap then 512 else cap) d [] v in
  Ret (match o with Some [] => Some [SLASH] | _ => o end).

(** ** The walk *)

Definition with_depth v n : vfs :=
  Vfs (dents v) (inodes v) (mounts v) (vfs_mounts v) (vfs_root_dentry v) (current v) n (last_ino v) (dheap v) (fsx v).
Definition set_nameidata v : vfs := match current v with Some _ => with_depth v (S (nameidata_depth v)) | None => v end.
Definition restore_nameidata v : vfs := match current v with Some _ => with_depth v (pred (nameidata_depth v)) | None => v end.

Definition or_else {A} (o o' : option A) : option A := match o with Some _ => o | None => o' end.

(** The new [nd] and [*walk], or [-1]. *)
Definition path_init (nd : nameidata) (name : list Z) (flags : Z) v : option (nameidata * list Z) :=
  let given := if has flags LOOKUP_ROOT then p_dentry <$> nd_root nd else None in
  let root := or_else (or_else given (current v ≫= fs_root)) (vfs_root_dentry v) in
  let pwd := or_else (or_else given (current v ≫= fs_pwd)) root in
  match root, pwd with
  | Some root, Some pwd =>
      let keep := has flags LOOKUP_ROOT && bool_decide (is_Some (nd_root nd)) in
      let r := if keep then default (PathOf None root) (nd_root nd)
               else PathOf (or_else (dents v !! root ≫= d_mount) (hd_error (vfs_mounts v))) root in
      let mk p := Nameidata p (Some r) name flags LAST_ROOT (nd_dfd nd) in
      match name with
      | c :: _ =>
          if c =? SLASH then Some (mk r, skip_slashes name)
          else if keep then Some (mk r, name)
          else if negb (nd_dfd nd =? AT_FDCWD) then None
          else Some (mk (PathOf (or_else (dents v !! pwd ≫= d_mount) (p_mnt r)) pwd), name)
      | [] =>
          if keep then Some (mk r, name)
          else if negb (nd_dfd nd =? AT_FDCWD) then None
          else Some (mk (PathOf (or_else (dents v !! pwd ≫= d_mount) (p_mnt r)) pwd), name)
      end
  | _, _ => None
  end.

(** [..] from [curr] in the mount [m] *)
Definition walk_dotdot (root_mnt : option Z) (curr : Z) (m : option Z) v : Z * option Z :=
  match mount_of v curr, mounted_on v curr with
  | Some (_, r), Some mp => (default mp (dents v !! mp ≫= d_parent), or_else (mnt_parent r) root_mnt)
  | _, _ => (default curr (dents v !! curr ≫= d_parent), m)
  end.

(** A name below [curr]: the entry for it, made if the cache has none. *)
Definition walk_name (curr : Z) (part : list Z) v : option Z * vfs :=
  match d_lookup curr part v with
  | Some next =>
      let neg := match dents v !! next with Some r => has (d_flags r) DENTRY_NEGATIVE | None => false end in
      let mounted := match mount_of v next with Some (_, r) => bool_decide (is_Some (mnt_root r)) | None => false end in
      if neg && negb mounted then (None, v) else (Some next, v)
  | None =>
      match inode_of v curr with
      | None => (None, v)
      | Some dir =>
          let '(child, v1) := finddir_fs dir part v in
          match d_alloc (Some curr) (Some part) v1 with
          | (None, v2) => (None, v2)
          | (Some next, v2) =>
              (Some next,
               match child with
               | Some _ => upd_dentry (set_d_inode child) next v2
               | None => upd_dentry (fun r => set_d_flags (Z.lor (d_flags r) DENTRY_NEGATIVE) (set_d_inode None r)) next v2
               end)
          end
      end
  end.

(** One component: the entry, its mount and the type of the component. *)
Definition walk_component (root_mnt : option Z) (curr : Z) (m : option Z) (part : list Z) v : option (Z * option Z * Z) * vfs :=
  if is_dot part then (Some (curr, m, LAST_DOT), v)
  else if is_dotdot part then let '(c, m') := walk_dotdot root_mnt curr m v in (Some (c, m', LAST_DOTDOT), v)
  else match walk_name curr part v with
       | (Some next, v') => (Some (next, m, LAST_NORM), v')
       | (None, v') => (None, v')
       end.

(** Into the file system mounted on [curr]. *)
Definition cross_mount (curr : Z) (m : option Z) v : Z * option Z :=
  match mount_of v curr with
  | Some (id, r) => match mnt_root r with Some d => (d, Some id) | None => (curr, m) end
  | None => (curr, m)
  end.

Fixpoint until_zero (l : list Z) : list Z :=
  match l with
  | [] => []
  | c :: l' => if c =? 0 then [] else c :: until_zero l'
  end.

(** The read function, if [curr] is a symbolic link. *)
Definition link_reader v (curr : Z) : option (Z * (Z -> Z -> Z -> vfs -> list Z * vfs)) :=
  node ← inode_of v curr; i ← inodes v !! node;
  if i_flags i =? FS_SYMLINK then f ← f_ops i ≫= fop_read; Some (node, f) else None.

Definition NEW_PATH : Z := 512.
Definition PART : Z := 128.
Definition MAX_LINKS : nat := 8.

(** A slash between two parts unless there is one. *)
Definition with_slash (s : list Z) : list Z :=
  match last s with Some c => if c =? SLASH then s else s ++ [SLASH] | None => s end.

(** The directory a relative link starts from; [s_off] is the offset of the
    component in [cur_path]. *)
Definition link_base (cur_path : list Z) (s_off : nat) (curr : Z) v : run (option (list Z)) :=
  match cur_path with
  | c :: _ =>
      if c =? SLASH then
        if decide (s_off = 0%nat) then Ret (Some [SLASH]) else
        let blen := strip_slashes cur_path s_off in
        if 256 <=? Z.of_nat blen then Ret None else Ret (Some (take blen cur_path))
      else vfs_build_dentry_path (default curr (dents v !! curr ≫= d_parent)) 256 v
  | [] => vfs_build_dentry_path (default curr (dents v !! curr ≫= d_parent)) 256 v
  end.

(** [new_path] for a link with this target; the copy of the rest of the path is
    not bounded by the code. *)
Definition link_path (cur_path : list Z) (s_off : nat) (target rest : list Z) (curr : Z) v : run (option (list Z)) :=
  let? start :=
    match target with
    | c :: _ => if c =? SLASH then Ret (Some target) else
        let? b := link_base cur_path s_off curr v in
        Ret (b ← b; if NEW_PATH <? zlen b + 1 + zlen target + 1 then None else Some (with_slash b ++ target))
    | [] =>
        let? b := link_base cur_path s_off curr v in
        Ret (b ← b; if NEW_PATH <? zlen b + 1 + 0 + 1 then None else Some (with_slash b))
    end in
  match start with
  | None => Ret None
  | Some s =>
      let full := match rest with [] => s | _ => with_slash s ++ rest end in
      if NEW_PATH <=? zlen full then Faults NEW_PATH else Ret (Some full)
  end.

(** [vfs_normalize_path(new_path, cur_path, sizeof(cur_path))] *)
Definition normalized (p : list Z) : option (list Z) :=
  match vfs_normalize_path p (replicate 512 0) 512 with
  | Some (r, o) => if r =? 0 then None else Some (until_zero o)
  | None => None
  end.

Inductive walked : Type := WDone (p : path) (last_type : Z) | WRestart (cur_path : list Z) (last_type : Z) | WFail.

(** One pass over [cur_path], of which [p] is left. *)
Fixpoint walk_pass (fuel : nat) (root : path) (cur_path : list Z) (p : list Z) (curr : Z) (m : option Z) (lt : Z) v
    : run (walked * vfs) :=
  match fuel with
  | O => Ret (WFail, v)
  | S fuel' =>
      match p with
      | [] => Ret (WDone (PathOf m curr) lt, v)
      | _ =>
          let '(part, r) := take_component p in
          if PART <=? zlen part then Ret (WFail, v) else
          let '(o, v1) := walk_component (p_mnt root) curr m part v in
          match o with
          | None => Ret (WFail, v1)
          | Some (c, m', lt') =>
              let '(c2, m2) := cross_mount c m' v1 in
              match link_reader v1 c2 with
              | None => walk_pass fuel' root cur_path (skip_slashes r) c2 m2 lt' v1
              | Some (node, f) =>
                  let '(bytes, v2) := f node 0 255 v1 in
                  if (zlen bytes =? 0) || (256 <=? zlen bytes) then Ret (WFail, v2) else
                  let? np := link_path cur_path (length cur_path - length p) (until_zero bytes) (skip_slashes r) c2 v2 in
                  Ret (match np ≫= normalized with Some s => WRestart s lt' | None => WFail end, v2)
              end
          end
      end
  end.

(** The loop over the links.  A normalised path starts with a slash, so every
    pass after the first starts at the root. *)
Fixpoint walk_links (n : nat) (root : path) (cur_path : list Z) (start : path) (lt : Z) v : run (option (path * Z) * vfs) :=
  match n with
  | O => Ret (None, v)
  | S n' =>
      let p := skip_slashes cur_path in
      match p with
      | [] => Ret (Some (start, lt), v)
      | _ =>
          let? (w, v1) := walk_pass (S (length cur_path)) root cur_path p (p_dentry start) (p_mnt start) lt v in
          match w with
          | WDone q lt' => Ret (Some (q, lt'), v1)
          | WRestart s lt' => walk_links n' root s root lt' v1
          | WFail => Ret (None, v1)
          end
      end
  end.

Definition link_path_walk (name : list Z) (nd : nameidata) v : run (option (path * Z) * vfs) :=
  if NEW_PATH <=? zlen name then Ret (None, v)
  else walk_links MAX_LINKS (default (nd_path nd) (nd_root nd)) name (nd_path nd) (nd_last_type nd) v.

Definition path_lookupat (nd : nameidata) (flags : Z) v : run (option path * vfs) :=
  match path_init nd (nd_name nd) flags v with
  | None => Ret (None, v)
  | Some (nd1, walk) =>
      let? (o, v1) := match walk with [] => Ret (Some (nd_path nd1, nd_last_type nd1), v) | _ => link_path_walk walk nd1 v end in
      match o with
      | None => Ret (None, v1)
      | Some (p, _) =>
          if has flags LOOKUP_DIRECTORY && negb (match inode_of v1 (p_dentry p) with Some i => is_dir v1 i | None => false end)
          then Ret (None, v1) else Ret (Some p, v1)
      end
  end.

Definition empty_nd (dfd : Z) (name : list Z) (root : option path) : nameidata := Nameidata (PathOf None 0) root name 0 LAST_NORM dfd.

Definition filename_lookup (dfd : Z) (name : list Z) (flags : Z) v : run (option path * vfs) :=
  match name with
  | [] => Ret (None, v)
  | _ => let? (o, v1) := path_lookupat (empty_nd dfd name None) flags (set_nameidata v) in Ret (o, restore_nameidata v1)
  end.

Definition kern_path (name : list Z) (flags : Z) v : run (option path * vfs) := filename_lookup AT_FDCWD name flags v.

Definition vfs_path_lookup (d mnt : Z) (name : list Z) (flags : Z) v : run (option path * vfs) :=
  match name with
  | [] => Ret (None, v)
  | _ => let? (o, v1) := path_lookupat (empty_nd AT_FDCWD name (Some (PathOf (Some mnt) d))) (Z.lor flags LOOKUP_ROOT) (set_nameidata v) in
         Ret (o, restore_nameidata v1)
  end.

(** The parent, the last component and its type. *)
Definition filename_parentat (dfd : Z) (name : list Z) (flags last_cap : Z) v : run (option (path * list Z * Z) * vfs) :=
  match split_parent name last_cap with
  | None => Ret (None, v)
  | Some (parent_name, last) =>
      let type := if is_dot last then LAST_DOT else if is_dotdot last then LAST_DOTDOT else LAST_NORM in
      let? (o, v1) := path_lookupat (empty_nd dfd parent_name None) (Z.lor flags LOOKUP_DIRECTORY) (set_nameidata v) in
      Ret ((fun p => (p, last, type)) <$> o, restore_nameidata v1)
  end.

(** ** Directory operations *)

(** The entry of a new file: the cached one, or a new one. *)
Definition instantiate (parent : Z) (name : list Z) (created : Z) v : Z * vfs :=
  match d_lookup parent name v with
  | Some d => (0, upd_dentry (fun r => set_d_flags (Z.land (d_flags r) (not32 DENTRY_NEGATIVE)) (set_d_inode (Some created) r)) d v)
  | None =>
      match d_alloc (Some parent) (Some name) v with
      | (None, v1) => (-1, v1)
      | (Some d, v1) => (0, upd_dentry (set_d_inode (Some created)) d v1)
      end
  end.

(** The parent directory of a path whose last component is a name. *)
Definition parent_dir (name : list Z) v : run (option (Z * Z * list Z) * vfs) :=
  let? (o, v1) := filename_parentat AT_FDCWD name 0 PART v in
  Ret (match o with
       | Some (p, last, type) =>
           if negb (type =? LAST_NORM) then None else
           match inode_of v1 (p_dentry p) with
           | Some dir => if is_dir v1 dir then Some (p_dentry p, dir, last) else None
           | None => None
           end
       | None => None
       end, v1).

Definition vfs_symlink (target linkpath : list Z) v : run (Z * vfs) :=
  let? (o, v1) := parent_dir linkpath v in
  match o with
  | None => Ret (-1, v1)
  | Some (parent, dir, name) =>
      match symlink_fs dir name target v1 with
      | (None, v2) => Ret (-1, v2)
      | (Some created, v2) => Ret (instantiate parent name created v2)
      end
  end.

Definition vfs_resolve (name : list Z) v : run (option Z * vfs) :=
  let? (o, v1) := kern_path name 0 v in Ret (o ≫= (fun p => inode_of v1 (p_dentry p)), v1).

Definition vfs_mkdir (name : list Z) v : run (Z * vfs) :=
  match name with
  | [] => Ret (-1, v)
  | _ =>
      let? (o, v1) := parent_dir name v in
      match o with
      | None => Ret (-1, v1)
      | Some (parent, dir, last) =>
          if negb (vfs_check_access dir false true true v1) then Ret (-1, v1) else
          match finddir_fs dir last v1 with
          | (Some _, v2) => Ret (-1, v2)
          | (None, v2) =>
              match mkdir_fs dir last v2 with
              | (None, v3) => Ret (-1, v3)
              | (Some created, v3) => Ret (instantiate parent last created v3)
              end
          end
      end
  end.

Definition make_negative (r : dentry) : dentry := set_d_flags (Z.lor (d_flags r) DENTRY_NEGATIVE) (set_d_inode None r).

Definition vfs_unlink (name : list Z) v : run (Z * vfs) :=
  match name with
  | [] => Ret (-1, v)
  | _ =>
      let? (o, v1) := parent_dir name v in
      match o with
      | None => Ret (-1, v1)
      | Some (parent, dir, last) =>
          if negb (vfs_check_access dir false true true v1) then Ret (-1, v1) else
          let? (ret, v2) := unlink_fs parent last v1 in
          Ret (ret, if ret =? 0 then match d_lookup parent last v2 with Some c => upd_dentry make_negative c v2 | None => v2 end else v2)
      end
  end.

(** [while (child->children)] *)
Fixpoint drop_children (n : nat) (child : Z) v : run vfs :=
  match n with
  | O => Ret v
  | S n' =>
      match dents v !! child with
      | Some r => match d_children r with
                  | c :: _ => let? v1 := vfs_dentry_put c (vfs_dentry_detach c v) in drop_children n' child v1
                  | [] => Ret v
                  end
      | None => Ret v
      end
  end.

Definition vfs_rmdir (name : list Z) v : run (Z * vfs) :=
  match name with
  | [] => Ret (-1, v)
  | _ =>
      let? (o, v1) := parent_dir name v in
      match o with
      | None => Ret (-1, v1)
      | Some (parent, dir, last) =>
          if negb (vfs_check_access dir false true true v1) then Ret (-1, v1) else
          let? (ret, v2) := rmdir_fs parent last v1 in
          if ret =? 0 then
            match d_lookup parent last v2 with
            | Some c =>
                let? v3 := drop_children (length (default [] (d_children <$> dents v2 !! c))) c v2 in
                Ret (ret, upd_dentry make_negative c v3)
            | None => Ret (ret, v2)
            end
          else Ret (ret, v2)
      end
  end.

Definition vfs_chmod (name : list Z) (mode : Z) v : run (Z * vfs) :=
  let? (o, v1) := vfs_resolve name v in
  Ret (match o ≫= (fun n => i ← inodes v1 !! n; Some (n, i)) with
       | None => (-1, v1)
       | Some (n, i) =>
           if negb (current_uid v1 =? 0) && negb (current_uid v1 =? i_uid i) then (-1, v1)
           else (0, with_inodes v1 (<[n := Inode (Z.land mode 511) (i_uid i) (i_gid i) (i_flags i) (i_ino i) (i_size i) (i_impl i) (i_mapping i)
                                                (i_op i) (f_ops i) (i_data i)]> (inodes v1)))
       end).

(** [vfs_chdir] of [fs/open.c] *)
Definition vfs_chdir (name : list Z) v : run (Z * vfs) :=
  match name with
  | [] => Ret (-1, v)
  | _ =>
      let? (o, v1) := kern_path name LOOKUP_DIRECTORY v in
      match o with
      | None => Ret (-1, v1)
      | Some p =>
          let d := p_dentry p in
          match inode_of v1 d with
          | None => Ret (-1, v1)
          | Some node =>
              if negb (is_dir v1 node) then Ret (-1, v1)
              else if negb (vfs_check_access node false false true v1) then Ret (-1, v1)
              else match current v1 with
                   | None => Ret (-1, v1)
                   | Some t =>
                       let? v2 := match fs_pwd t with Some old => vfs_dentry_put old v1 | None => Ret v1 end in
                       let v3 := upd_dentry (fun r => set_d_refcount (d_refcount r +w 1) r) d v2 in
                       Ret (0, Vfs (dents v3) (inodes v3) (mounts v3) (vfs_mounts v3) (vfs_root_dentry v3)
                             (Some (TaskFs (Some d) (fs_root t) (t_uid t) (t_gid t) (t_umask t))) (nameidata_depth v3) (last_ino v3) (dheap v3) (fsx v3))
                   end
          end
      end
  end.

(** ** Lookup below a given entry, without links and mounts *)

Definition vfs_lookup_child (parent : Z) (name : list Z) v : option Z * vfs :=
  match name with
  | [] => (None, v)
  | _ =>
      match d_lookup parent name v with
      | Some c => (Some c, v)
      | None =>
          match inode_of v parent with
          | None => (None, v)
          | Some dir =>
              match finddir_fs dir name v with
              | (None, v1) => (None, v1)
              | (Some i, v1) =>
                  match d_alloc (Some parent) (Some name) v1 with
                  | (None, v2) => (None, v2)
                  | (Some c, v2) => (Some c, upd_dentry (set_d_inode (Some i)) c v2)
                  end
              end
          end
      end
  end.

(** [find_slash]: the bytes before the first slash, and the rest behind it. *)
Fixpoint cut_slash (p : list Z) : list Z * option (list Z) :=
  match p with
  | [] => ([], None)
  | c :: p' => if c =? SLASH then ([], Some p') else let '(s, r) := cut_slash p' in (c :: s, r)
  end.

Definition dir_child v (c : Z) : bool := match inode_of v c with Some i => is_dir v i | None => false end.

(** The parent and the leaf. *)
Fixpoint walk_parent (fuel : nat) (curr : Z) (p : list Z) (leaf_cap : Z) (create_dirs : bool) v : option (Z * list Z) * vfs :=
  match fuel with
  | O => (None, v)
  | S fuel' =>
      match cut_slash p with
      | (s, None) => if (zlen s =? 0) || (leaf_cap <=? zlen s) then (None, v) else (Some (curr, s), v)
      | ([], Some _) => (None, v)
      | (s, Some rest) =>
          let '(child, v1) := vfs_lookup_child curr s v in
          let '(child, v2) :=
            match child with
            | Some c => (Some c, v1)
            | None =>
                if create_dirs then
                  match inode_of v1 curr with
                  | None => (None, v1)
                  | Some dir =>
                      match mkdir_fs dir s v1 with
                      | (None, v') => (None, v')
                      | (Some i, v') =>
                          match d_alloc (Some curr) (Some s) v' with
                          | (None, v'') => (None, v'')
                          | (Some c, v'') => (Some c, upd_dentry (set_d_inode (Some i)) c v'')
                          end
                      end
                  end
                else (None, v1)
            end in
          match child with
          | Some c => if dir_child v2 c then walk_parent fuel' c rest leaf_cap create_dirs v2 else (None, v2)
          | None => (None, v2)
          end
      end
  end.

Definition vfs_walk_parent_at (root : Z) (p : list Z) (leaf_cap : Z) (create_dirs : bool) v : option (Z * list Z) * vfs :=
  if (zlen p =? 0) || (leaf_cap =? 0) || (256 <=? zlen p) then (None, v) else walk_parent (S (length p)) root p leaf_cap create_dirs v.

Definition vfs_resolve_at (root : Z) (p : list Z) v : option Z * vfs :=
  match vfs_walk_parent_at root p PART false v with
  | (None, v1) => (None, v1)
  | (Some (parent, leaf), v1) => let '(c, v2) := vfs_lookup_child parent leaf v1 in (c ≫= inode_of v2, v2)
  end.

Definition vfs_create_path_at (root : Z) (p : list Z) v : Z * vfs :=
  match vfs_walk_parent_at root p PART true v with (Some _, v1) => (0, v1) | (None, v1) => (-1, v1) end.

Definition vfs_attach_inode_at (root : Z) (p : list Z) (node : Z) v : Z * vfs :=
  match vfs_walk_parent_at root p PART false v with
  | (None, v1) => (-1, v1)
  | (Some (parent, name), v1) =>
      match vfs_lookup_child parent name v1 with
      | (Some d, v2) =>
          match inode_of v2 d with
          | Some _ => (0, v2)
          | None => (0, upd_dentry (fun r => set_d_flags (Z.land (d_flags r) (not32 DENTRY_NEGATIVE)) (set_d_inode (Some node) r)) d v2)
          end
      | (None, v2) =>
          match d_alloc (Some parent) (Some name) v2 with
          | (None, v3) => (-1, v3)
          | (Some d, v3) => (0, upd_dentry (set_d_inode (Some node)) d v3)
          end
      end
  end.

Definition vfs_mknod_at (root : Z) (p : list Z) (type devt private mode uid gid : Z) v : Z * vfs :=
  match create_special_inode type devt private mode uid gid v with
  | (None, v1) => (-1, v1)
  | (Some node, v1) =>
      let '(ret, v2) := vfs_attach_inode_at root p node v1 in
      (ret, if negb (ret =? 0) then destroy_special_inode node v2 else v2)
  end.

Definition vfs_detach_inode_at (root : Z) (p : list Z) v : run (option Z * vfs) :=
  match vfs_walk_parent_at root p PART false v with
  | (None, v1) => Ret (None, v1)
  | (Some (parent, name), v1) =>
      match vfs_lookup_child parent name v1 with
      | (None, v2) => Ret (None, v2)
      | (Some d, v2) =>
          match inode_of v2 d with
          | None => Ret (None, v2)
          | Some node => let? v3 := vfs_dentry_put d (vfs_dentry_detach d (upd_dentry (set_d_inode None) d v2)) in Ret (Some node, v3)
          end
      end
  end.

Definition vfs_unlink_at (root : Z) (p : list Z) v : run (Z * vfs) :=
  let? (o, v1) := vfs_detach_inode_at root p v in
  match o with
  | None => Ret (-1, v1)
  | Some node => Ret (0, destroy_special_inode node v1)
  end.

Definition vfs_rmdir_at (root : Z) (p : list Z) v : run (Z * vfs) :=
  match vfs_walk_parent_at root p PART false v with
  | (None, v1) => Ret (-1, v1)
  | (Some (parent, name), v1) => if negb (dir_child v1 parent) then Ret (-1, v1) else rmdir_fs parent name v1
  end.
End code.

(** ** Resolution in the map of the cache *)

Section proofs.
Context {M X : Type} `{!KAlloc M, !KAllocSpec M, !FsTables M X}.
Notation vfs := (vfs M X).
Implicit Types (v : vfs) (d curr : Z) (m : gmap (Z * list Z) Z).

(** A negative entry on which nothing is mounted. *)
Definition hidden v d : bool :=
  match dents v !! d with Some r => has (d_flags r) DENTRY_NEGATIVE | None => false end &&
  negb (match mount_of v d with Some (_, r) => bool_decide (is_Some (mnt_root r)) | None => false end).

(** *** The name space

    What a path means: directories with names, parents, file systems mounted on
    directories and the directories they are mounted on, and names to be ignored. *)
Record namespace : Type := Namespace {
  ns_names : gmap (Z * list Z) Z;
  ns_parent : gmap Z Z;
  ns_mounted : gmap Z Z;  (* from a directory to the root of what is mounted on it *)
  ns_covers : gmap Z Z;   (* from the root of a file system to the directory it is mounted on *)
  ns_hidden : gset Z;
}.

(** The directory above: a file system that is mounted continues where it is mounted;
    the root of all is above itself. *)
Definition ns_above (ns : namespace) (d : Z) : Z :=
  let place := default d (ns_covers ns !! d) in default place (ns_parent ns !! place).

(** The directory seen at [d]. *)
Definition ns_enter (ns : namespace) (d : Z) : Z := default d (ns_mounted ns !! d).

Definition ns_step (ns : namespace) (curr : Z) (c : list Z) : option Z :=
  if decide (c = [DOT]) then Some curr
  else if decide (c = [DOT; DOT]) then Some (ns_above ns curr)
  else d ← ns_names ns !! (curr, c); if decide (d ∈ ns_hidden ns) then None else Some d.

Fixpoint ns_walk (ns : namespace) (curr : Z) (cs : list (list Z)) : option Z :=
  match cs with
  | [] => Some curr
  | c :: cs' => d ← ns_step ns curr c; ns_walk ns (ns_enter ns d) cs'
  end.

(** The root of the file system of a mount, and where it is mounted, if [d] is the root. *)
Definition mount_root v (r : dentry) : option Z := m ← d_mount r; mt ← mounts v !! m; mnt_root mt.
Definition mount_place v (d : Z) (r : dentry) : option Z :=
  m ← d_mount r; mt ← mounts v !! m; if decide (mnt_root mt = Some d) then mnt_mountpoint mt else None.

(** The name space of a state; [m] is the map of its cache.  A negative entry is
    ignored unless something is mounted on it. *)
Definition namespace_of v m : namespace :=
  Namespace m (omap d_parent (dents v)) (omap (mount_root v) (dents v)) (map_imap (mount_place v) (dents v))
    (dom (filter (fun e => has (d_flags e.2) DENTRY_NEGATIVE = true /\ mount_root v e.2 = None) (dents v))).

(** The file systems keep their files in the cache, and know no other. *)
Definition cached_only v : Prop :=
  forall k p i c, inode_of v p = Some i -> d_lookup p c v = None -> finddir_fs i c (with_depth v k) = (None, with_depth v k).

Definition no_links v : Prop := forall n i, inodes v !! n = Some i -> i_flags i <> FS_SYMLINK.

Definition lookup_ok v m : Prop := dc_ok v /\ dc_map v m /\ no_links v /\ cached_only v.

Lemma no_links_reader v d : no_links v -> link_reader v d = None.
Proof.
  intros H. unfold link_reader. destruct (inode_of v d) as [n|]; [|done]. cbn [mbind option_bind].
  destruct (inodes v !! n) as [i|] eqn:E; [|done]. cbn [mbind option_bind]. destruct (Z.eqb_spec (i_flags i) FS_SYMLINK); [|done]. by destruct (H n i E).
Qed.

Lemma hidden_spec v m d : hidden v d = bool_decide (d ∈ ns_hidden (namespace_of v m)).
Proof.
  unfold hidden, mount_of. cbn [namespace_of ns_hidden]. apply eq_true_iff_eq. rewrite bool_decide_eq_true, elem_of_dom, andb_true_iff, negb_true_iff.
  unfold is_Some. setoid_rewrite map_lookup_filter_Some. cbn [snd]. destruct (dents v !! d) as [r|]; cbn [mbind option_bind].
  2:{ split; [by intros [? _]|by intros (r & ? & _)]. }
  assert (Hm : match (m0 ← d_mount r; r0 ← mounts v !! m0; Some (m0, r0)) with Some (_, r0) => bool_decide (is_Some (mnt_root r0)) | None => false end = false <->
    mount_root v r = None).
  { unfold mount_root. destruct (d_mount r) as [i|]; [|done]. cbn [mbind option_bind]. destruct (mounts v !! i) as [mt|]; [|done]. cbn [mbind option_bind].
    rewrite bool_decide_eq_false. symmetry. apply eq_None_not_Some. }
  rewrite Hm. split; [intros [? ?]; by exists r|]. by intros (r' & [= <-] & ?).
Qed.

Lemma above_spec v m rm curr mn : (walk_dotdot rm curr mn v).1 = ns_above (namespace_of v m) curr.
Proof.
  unfold walk_dotdot, mounted_on, ns_above. cbn [namespace_of ns_covers ns_parent]. rewrite lookup_omap, map_lookup_imap. unfold mount_of, mount_place.
  destruct (dents v !! curr) as [r|] eqn:E; cbn [mbind option_bind default].
  2:{ cbn [fst]. unfold id. by rewrite E. }
  destruct (d_mount r) as [i|]; cbn [mbind option_bind default fst]; [|unfold id; by rewrite E].
  destruct (mounts v !! i) as [mt|]; cbn [mbind option_bind default fst]; [|unfold id; by rewrite E].
  case_bool_decide as Er; [rewrite decide_True by done|rewrite decide_False by done; cbn [default fst]; unfold id; by rewrite E].
  destruct (mnt_mountpoint mt) as [mp|]; cbn [default fst]; unfold id; [done|by rewrite E].
Qed.

Lemma enter_spec v m curr mn : (cross_mount curr mn v).1 = ns_enter (namespace_of v m) curr.
Proof.
  unfold cross_mount, ns_enter, mount_of. cbn [namespace_of ns_mounted]. rewrite lookup_omap. unfold mount_root.
  destruct (dents v !! curr) as [r|]; [|done]. cbn [mbind option_bind]. destruct (d_mount r) as [i|]; [|done]. cbn [mbind option_bind].
  destruct (mounts v !! i) as [mt|]; [|done]. cbn [mbind option_bind]. by destruct (mnt_root mt).
Qed.

(** A name: the entry of the map, or a failure that adds at most one negative
    entry. *)
Lemma walk_name_found v m curr c d :
  lookup_ok v m -> m !! (curr, c) = Some d -> hidden v d = false -> walk_name curr c v = (Some d, v).
Proof.
  intros (H1 & H2 & _) E Hd. unfold walk_name. rewrite (d_lookup_map v m curr c H1 H2), E.
  unfold hidden in Hd. by rewrite Hd.
Qed.
Lemma walk_name_hidden v m curr c d :
  lookup_ok v m -> m !! (curr, c) = Some d -> hidden v d = true -> walk_name curr c v = (None, v).
Proof.
  intros (H1 & H2 & _) E Hd. unfold walk_name. rewrite (d_lookup_map v m curr c H1 H2), E.
  unfold hidden in Hd. by rewrite Hd.
Qed.

Lemma walk_component_found v m rm curr mn c nx :
  lookup_ok v m -> ns_step (namespace_of v m) curr c = Some nx -> exists mn' lt', walk_component rm curr mn c v = (Some (nx, mn', lt'), v).
Proof.
  intros Hok Hst. unfold ns_step in Hst. unfold walk_component, is_dot, is_dotdot.
  case_decide as E1; [rewrite bool_decide_true by done; injection Hst as <-; by eexists _, _|]. rewrite bool_decide_false by done.
  case_decide as E2; [rewrite bool_decide_true by done|rewrite bool_decide_false by done].
  - pose proof (above_spec v m rm curr mn) as E. destruct (walk_dotdot rm curr mn v) as [c' m']. cbn [fst] in E. injection Hst as <-. rewrite E. by eexists _, _.
  - apply bind_Some in Hst as (d' & Em & Hst). assert (Eh : hidden v d' = false) by (rewrite (hidden_spec v m); case_decide; [done|by apply bool_decide_false]).
    destruct (decide (d' ∈ _)) in Hst; [done|]. injection Hst as <-.
    rewrite (walk_name_found v m curr c d' Hok Em Eh). by eexists _, _.
Qed.

(** The pass over a path that exists changes nothing. *)
Lemma walk_pass_found root cp v m d : forall fuel p curr mn lt,
  lookup_ok v m -> (length p < fuel)%nat -> Forall (fun b => b <> 0) p -> match p with c :: _ => c <> SLASH | [] => True end ->
  Forall (fun c => zlen c < PART) (components p) -> ns_walk (namespace_of v m) curr (components p) = Some d ->
  exists mn' lt', walk_pass fuel root cp p curr mn lt v = Ret (WDone (PathOf mn' d) lt', v).
Proof.
  induction fuel as [|fuel IH]; intros p curr mn lt Hok Hf Hz Hh Hlen Hw; [lia|].
  destruct p as [|b q]; [cbn in *; simplify_eq; eauto|].
  pose proof (components_head (b :: q) ltac:(done) Hh Hz) as HC. cbn [walk_pass]. destruct (take_component (b :: q)) as [s r].
  destruct HC as (Hs & HC & Hl & Hzr & _).
  rewrite HC in Hlen, Hw. apply Forall_cons in Hlen as [Hsl Hlen]. cbn [ns_walk] in Hw. apply bind_Some in Hw as (nx & Hst & Hw).
  rewrite (proj2 (Z.leb_gt _ _)) by lia.
  destruct (walk_component_found v m (p_mnt root) curr mn s nx Hok Hst) as (m' & lt' & ->).
  destruct (cross_mount nx m' v) as [c2 m2] eqn:Ex. assert (c2 = ns_enter (namespace_of v m) nx) as -> by (by rewrite <- (enter_spec v m nx m'), Ex).
  rewrite (no_links_reader v _ (proj1 (proj2 (proj2 Hok)))). apply IH; try done; [lia|by apply skip_slashes_forall|apply skip_slashes_head].
Qed.

(** A lookup added nothing, or an entry that is hidden, or failed to.  (When the new
    entry brings the directory its first table, entries made without one are lost.) *)
Definition only_hidden v m v' : Prop :=
  dc_ok v' /\ (forall a, foreign v' a <-> foreign v a) /\ inodes v' = inodes v /\ mounts v' = mounts v /\
  current v' = current v /\ nameidata_depth v' = nameidata_depth v /\
  exists m', dc_map v' m' /\ (m' = m \/ exists p n d, m !! (p, n) = None /\ hidden v' d = true /\
    (m' = <[(p, n) := d]> m \/ dents v !! p ≫= d_cache = None /\ m' = <[(p, n) := d]> (filter (fun e => e.1.1 <> p) m))).

(** An entry just made: no child, no inode. *)
Definition blank v d : Prop := exists r, dents v !! d = Some r /\ d_children r = [] /\ d_cache r = None /\ d_inode r = None /\ d_mount r = None.

Lemma walk_pass_blank root cp v : forall fuel p curr mn lt,
  blank v curr -> (length p < fuel)%nat -> Forall (fun b => b <> 0) p -> match p with c :: _ => c <> SLASH | [] => True end ->
  ([DOT; DOT] : list Z) ∉ components p ->
  exists w, walk_pass fuel root cp p curr mn lt v = Ret (w, v) /\
    match w with WDone q _ => inode_of v (p_dentry q) = None | WRestart _ _ => False | WFail => True end.
Proof.
  induction fuel as [|fuel IH]; intros p curr mn lt Hb Hf Hz Hh Hdd; [lia|]. pose proof Hb as (r0 & E0 & B1 & B2 & B3 & B4).
  assert (Hin : inode_of v curr = None) by (unfold inode_of; by rewrite E0).
  destruct p as [|b q]; [eexists; split; [done|]; done|].
  pose proof (components_head (b :: q) ltac:(done) Hh Hz) as HC. cbn [walk_pass]. destruct (take_component (b :: q)) as [s r].
  destruct HC as (Hs & HC & Hl & Hzr & _). rewrite HC in Hdd. apply not_elem_of_cons in Hdd as [Hdd1 Hdd].
  destruct (PART <=? zlen s); [by eexists|]. unfold walk_component. destruct (is_dot s).
  - assert (Hm : mount_of v curr = None) by (unfold mount_of; rewrite E0; cbn [mbind option_bind]; by rewrite B4).
    unfold cross_mount. rewrite Hm. unfold link_reader. rewrite Hin. cbn [mbind option_bind].
    apply IH; try done; [lia|by apply skip_slashes_forall|apply skip_slashes_head].
  - destruct (is_dotdot s) eqn:Ed; [exfalso; apply Hdd1; by apply bool_decide_eq_true in Ed|]. unfold walk_name, d_lookup. rewrite E0, B2, B1. cbn [List.find].
    rewrite Hin. by eexists.
Qed.

Lemma d_alloc_some_fields v curr c d v' r :
  dc_ok v -> dents v !! curr = Some r -> d_alloc (Some curr) (Some c) v = (Some d, v') ->
  let v2 := upd_dentry (fun r => set_d_flags (Z.lor (d_flags r) DENTRY_NEGATIVE) (set_d_inode None r)) d v' in
  blank v2 d /\ hidden v2 d = true /\ forall m, dc_map v m -> m !! (curr, c) = None -> only_hidden v m v2.
Proof.
  intros Hok Ec Ea v2. destruct (d_alloc_spec v curr r c d v' Hok Ec Ea) as (nm & cache & Had & Hnm & Hc & _ & Hk & Hnd & Hnew & Hlive).
  pose proof (added_lookup v v' curr d r nm cache Ec Had d) as Hd. rewrite decide_True in Hd by done.
  assert (Hd2 : dents v2 !! d = Some (Dentry nm (Some curr) [] None None 1 1 None)) by (unfold v2; rewrite dents_upd, decide_True, Hd by done; done).
  assert (Hb : blank v2 d) by (by eexists).
  assert (Hhid : hidden v2 d = true) by (unfold hidden, mount_of; rewrite Hd2; done).
  split_and!; [done|done|]. intros m Hm Hno.
  assert (HS : same_shape v' v2) by (by apply same_shape_upd).
  pose proof (dc_ok_added v v' curr d r nm cache Hok Ec Had Hc Hk Hnd Hnew Hlive) as Hok'.
  destruct (ad_rest _ _ _ _ _ _ Had) as (R1 & R2 & _ & _ & R3 & R4 & _).
  split_and!; [by apply (dc_ok_shape v')| |done..|].
  - intros a. unfold foreign. rewrite <- (owned_shape v') by done. rewrite (proj1 HS).
    rewrite (added_owned v v' curr d r nm cache Hok Ec Had Hc Hk Hnd Hnew Hlive), Hlive, elem_of_union, elem_of_list_to_set.
    split; [tauto|]. intros [H7 H8]. split; [by right|]. intros [?|Ha]; [done|]. by apply (Hnew a).
  - destruct (dc_step_ok v m v' _ Hok Hm (step_alloc v m curr c d v' ltac:(by eexists) Hno Ea)) as (_ & Hm' & _).
    exists (map_after_alloc v curr c d v' m). split; [intros p n d'; rewrite <- (found_shape v') by done; apply Hm'|].
    unfold map_after_alloc. destruct (dents v' !! d ≫= d_name); [|by left]. right. exists curr, c, d. split; [done|]. split; [done|].
    case_bool_decide as Ht; [right; by split; [apply Ht|]|by left].
Qed.

Lemma only_hidden_refl v m : dc_ok v -> dc_map v m -> only_hidden v m v.
Proof. intros H1 H2. split_and!; try done. exists m. split; [done|by left]. Qed.

(** A name that is missing. *)
Lemma walk_name_missing v m curr c :
  lookup_ok v m -> (m !! (curr, c) = None \/ exists d, m !! (curr, c) = Some d /\ hidden v d = true) ->
  exists o v', walk_name curr c v = (o, v') /\ only_hidden v m v' /\ match o with Some d => blank v' d | None => True end.
Proof.
  intros Hok Hm. pose proof Hok as (H1 & H2 & H4 & H5). destruct Hm as [E|(d & E & Hd)].
  2:{ rewrite (walk_name_hidden v m curr c d Hok E Hd). exists None, v. split_and!; try done. by apply only_hidden_refl. }
  unfold walk_name. pose proof (d_lookup_map v m curr c H1 H2) as El. rewrite E in El. rewrite El.
  destruct (inode_of v curr) as [dir|] eqn:Ei; [|exists None, v; split_and!; try done; by apply only_hidden_refl].
  assert (Hf : finddir_fs dir c v = (None, v)).
  { pose proof (H5 (nameidata_depth v) curr dir c Ei El) as Hx. replace (with_depth v (nameidata_depth v)) with v in Hx by (by destruct v). done. }
  rewrite Hf. unfold inode_of in Ei. destruct (dents v !! curr) as [r|] eqn:Er; [|done].
  destruct (d_alloc (Some curr) (Some c) v) as [[d|] v2] eqn:Ea.
  - destruct (d_alloc_some_fields v curr c d v2 r H1 Er Ea) as (B & _ & HO). eexists (Some d), _. split_and!; [done|by apply HO|done].
  - exists None, v2. split_and!; try done. destruct (dc_step_ok v m v2 m H1 H2 (step_alloc_fails _ _ _ _ _ Ea)) as (K1 & K3 & K4).
    split_and!; try done; [by unfold d_alloc in Ea; destruct (kmalloc SIZEOF_DENTRY (dheap v)) as [[?|] ?]; [destruct (kstrdup c m0)|]; simplify_eq..|].
    exists m. split; [done|by left].
Qed.

Lemma walk_pass_missing root cp v m : forall fuel p curr mn lt,
  lookup_ok v m -> (length p < fuel)%nat -> Forall (fun b => b <> 0) p -> match p with c :: _ => c <> SLASH | [] => True end ->
  ([DOT; DOT] : list Z) ∉ components p -> ns_walk (namespace_of v m) curr (components p) = None ->
  exists w v', walk_pass fuel root cp p curr mn lt v = Ret (w, v') /\ only_hidden v m v' /\
    match w with WDone q _ => inode_of v' (p_dentry q) = None | WRestart _ _ => False | WFail => True end.
Proof.
  induction fuel as [|fuel IH]; intros p curr mn lt Hok Hf Hz Hh Hdd Hw; [lia|]. pose proof Hok as (H1 & H2 & H4 & H5).
  destruct p as [|b q]; [done|].
  pose proof (components_head (b :: q) ltac:(done) Hh Hz) as HC. cbn [walk_pass]. destruct (take_component (b :: q)) as [s r].
  destruct HC as (Hs & HC & Hl & Hzr & _). rewrite HC in Hdd, Hw. apply not_elem_of_cons in Hdd as [Hdd1 Hdd]. cbn [ns_walk] in Hw.
  destruct (PART <=? zlen s); [eexists WFail, v; split_and!; try done; by apply only_hidden_refl|].
  destruct (ns_step (namespace_of v m) curr s) as [nx|] eqn:Est.
  - destruct (walk_component_found v m (p_mnt root) curr mn s nx Hok Est) as (mn' & lt' & ->).
    destruct (cross_mount nx mn' v) as [c2 m2] eqn:Ex. assert (c2 = ns_enter (namespace_of v m) nx) as -> by (by rewrite <- (enter_spec v m nx mn'), Ex).
    rewrite (no_links_reader v _ H4). apply IH; try done; [lia|by apply skip_slashes_forall|apply skip_slashes_head].
  - unfold ns_step in Est. unfold walk_component, is_dot, is_dotdot.
    case_decide as E1; [done|]. rewrite bool_decide_false by done. case_decide as E2; [done|]. rewrite bool_decide_false by done.
    destruct (walk_name_missing v m curr s Hok) as (o & v' & -> & HO & Ho).
    { cbn [namespace_of ns_names] in Est. destruct (m !! (curr, s)) as [d|]; [|by left]. right. exists d. split; [done|]. rewrite (hidden_spec v m).
      apply bool_decide_eq_true. cbn [mbind option_bind] in Est. by case_decide. }
    destruct o as [d|]; [|by exists WFail, v']. pose proof Ho as (r0 & E0 & B1 & B2 & B3 & B4).
    assert (Hm : mount_of v' d = None) by (unfold mount_of; rewrite E0; cbn [mbind option_bind]; by rewrite B4).
    assert (Hin : inode_of v' d = None) by (unfold inode_of; by rewrite E0).
    unfold cross_mount. rewrite Hm. unfold link_reader. rewrite Hin. cbn [mbind option_bind].
    destruct (walk_pass_blank root cp v' fuel (skip_slashes r) d mn LAST_NORM Ho ltac:(lia) (skip_slashes_forall _ _ Hzr) (skip_slashes_head _)) as (w & -> & Hw2).
    { by rewrite components_skip in *. }
    by exists w, v'.
Qed.

(** Where a path starts: the root for an absolute path, else the working
    directory. *)
Definition start_of v (name : list Z) : option Z :=
  root ← or_else (current v ≫= fs_root) (vfs_root_dentry v);
  match name with
  | c :: _ => if c =? SLASH then Some root else Some (default root (current v ≫= fs_pwd))
  | [] => None
  end.

Lemma path_init_start v name start :
  start_of v name = Some start ->
  exists nd, path_init (empty_nd AT_FDCWD name None) name 0 v = Some (nd, skip_slashes name) /\ p_dentry (nd_path nd) = start.
Proof.
  unfold start_of. intros (root & Er & Hs)%bind_Some. destruct name as [|c name]; [done|]. unfold path_init.
  change (has 0 LOOKUP_ROOT) with false. cbn [empty_nd nd_root nd_dfd andb]. change (or_else None (current v ≫= fs_root)) with (current v ≫= fs_root).
  change (or_else None (current v ≫= fs_pwd)) with (current v ≫= fs_pwd). rewrite Er.
  assert (Ep : or_else (current v ≫= fs_pwd) (Some root) = Some (default root (current v ≫= fs_pwd))) by (by destruct (current v ≫= fs_pwd)).
  rewrite Ep. cbn [skip_slashes]. destruct (Z.eqb_spec c SLASH) as [->|Hc]; injection Hs as <-.
  - by eexists.
  - change (AT_FDCWD =? AT_FDCWD) with true. by eexists.
Qed.

Lemma lookup_ok_depth v m k : lookup_ok v m -> lookup_ok (with_depth v k) m.
Proof.
  intros (H1 & H2 & H4 & H5). split_and!; try done.
  - destruct H1 as [O1 O2 O3 O4 O5 O6 O7 O8 O9 O10 O11]. by split.
Qed.

Lemma set_nameidata_depth v : exists k, set_nameidata v = with_depth v k /\ forall v', current v' = current v -> nameidata_depth v' = k -> restore_nameidata v' = with_depth v' (nameidata_depth v).
Proof.
  unfold set_nameidata, restore_nameidata. destruct (current v) as [t|] eqn:E.
  - exists (S (nameidata_depth v)). split; [done|]. intros v' -> ->. done.
  - exists (nameidata_depth v). split; [by destruct v|]. intros v' -> <-. by destruct v'.
Qed.

Lemma with_depth_twice v j k : with_depth (with_depth v j) k = with_depth v k.
Proof. done. Qed.

Lemma only_hidden_depth v m v' j : only_hidden (with_depth v j) m v' -> only_hidden v m (with_depth v' (nameidata_depth v)).
Proof.
  intros ([O1 O2 O3 O4 O5 O6 O7 O8 O9 O10 O11] & HF & R1 & R2 & R3 & R4 & m' & Hm & Hor). split_and!; [by split|done..|by exists m'].
Qed.

(** The components of the path are walked from the start. *)
Lemma walk_links_pass root name start lt v n :
  let p := skip_slashes name in
  p <> [] ->
  walk_links (S n) root name start lt v =
    let? (w, v1) := walk_pass (S (length name)) root name p (p_dentry start) (p_mnt start) lt v in
    match w with
    | WDone q lt' => Ret (Some (q, lt'), v1)
    | WRestart s lt' => walk_links n root s root lt' v1
    | WFail => Ret (None, v1)
    end.
Proof. intros p Hp. cbn [walk_links]. fold p. by destruct p. Qed.

Section resolve.
Variables (v : vfs) (m : gmap (Z * list Z) Z) (name : list Z) (start : Z).
Hypothesis Hok : lookup_ok v m.
Hypothesis Hlen : zlen name < NEW_PATH.
Hypothesis Hz : Forall (fun b => b <> 0) name.
Hypothesis Hstart : start_of v name = Some start.

Lemma lookupat_found d k :
  Forall (fun c => zlen c < PART) (components name) -> ns_walk (namespace_of v m) start (components name) = Some d ->
  exists mn, path_lookupat (empty_nd AT_FDCWD name None) 0 (with_depth v k) = Ret (Some (PathOf mn d), with_depth v k).
Proof using All.
  intros Hc Hw. destruct (path_init_start (with_depth v k) name start Hstart) as (nd & En & Es). unfold path_lookupat.
  change (nd_name (empty_nd AT_FDCWD name None)) with name. rewrite En. change (has 0 LOOKUP_DIRECTORY) with false. cbn [andb].
  destruct (skip_slashes name) as [|b q] eqn:Eq.
  - rewrite <- components_skip, Eq in Hw. injection Hw as <-. cbn [rbind]. destruct (nd_path nd) as [mn dd]. cbn in Es. subst dd. by eexists.
  - rewrite <- Eq. unfold link_path_walk. pose proof (skip_slashes_length name) as Hl.
    rewrite (proj2 (Z.leb_gt _ _)) by (unfold zlen in *; lia). unfold MAX_LINKS. set (sk := skip_slashes name) in *.
    assert (Esk : skip_slashes sk = sk) by (unfold sk; pose proof (skip_slashes_head name) as Hh; destruct (skip_slashes name) as [|c l]; [done|]; cbn; by destruct (Z.eqb_spec c SLASH)).
    rewrite walk_links_pass by (by rewrite Esk, Eq). rewrite Esk.
    destruct (walk_pass_found (default (nd_path nd) (nd_root nd)) sk (with_depth v k) m d (S (length sk)) sk (p_dentry (nd_path nd)) (p_mnt (nd_path nd)) (nd_last_type nd)) as (mn' & lt' & ->).
    + by apply lookup_ok_depth.
    + lia.
    + by apply skip_slashes_forall.
    + apply skip_slashes_head.
    + unfold sk. by rewrite components_skip.
    + unfold sk. rewrite components_skip, Es. exact Hw.
    + cbn [rbind]. by eexists.
Qed.

Lemma lookupat_missing k :
  ([DOT; DOT] : list Z) ∉ components name -> ns_walk (namespace_of v m) start (components name) = None ->
  exists o v', path_lookupat (empty_nd AT_FDCWD name None) 0 (with_depth v k) = Ret (o, v') /\ only_hidden (with_depth v k) m v' /\
    o ≫= (fun p => inode_of v' (p_dentry p)) = None.
Proof using All.
  intros Hdd Hw. destruct (path_init_start (with_depth v k) name start Hstart) as (nd & En & Es). unfold path_lookupat.
  change (nd_name (empty_nd AT_FDCWD name None)) with name. rewrite En. change (has 0 LOOKUP_DIRECTORY) with false. cbn [andb].
  destruct (skip_slashes name) as [|b q] eqn:Eq; [by rewrite <- components_skip, Eq in Hw|].
  rewrite <- Eq. unfold link_path_walk. pose proof (skip_slashes_length name) as Hl.
  rewrite (proj2 (Z.leb_gt _ _)) by (unfold zlen in *; lia). unfold MAX_LINKS. set (sk := skip_slashes name) in *.
  assert (Esk : skip_slashes sk = sk) by (unfold sk; pose proof (skip_slashes_head name) as Hh; destruct (skip_slashes name) as [|c l]; [done|]; cbn; by destruct (Z.eqb_spec c SLASH)).
  rewrite walk_links_pass by (by rewrite Esk, Eq). rewrite Esk.
  destruct (walk_pass_missing (default (nd_path nd) (nd_root nd)) sk (with_depth v k) m (S (length sk)) sk (p_dentry (nd_path nd)) (p_mnt (nd_path nd)) (nd_last_type nd)) as (w & v' & -> & HO & Hw2).
  + by apply lookup_ok_depth.
  + lia.
  + by apply skip_slashes_forall.
  + apply skip_slashes_head.
  + unfold sk. by rewrite components_skip.
  + unfold sk. rewrite components_skip, Es. exact Hw.
  + cbn [rbind]. destruct w as [q' lt'| |]; [|done|]; cbn [rbind]; eexists _, v'; split_and!; try done.
Qed.
End resolve.

(** C7: [vfs_resolve], in a name space without symbolic links whose file systems keep
    their files in the cache (their [lookup] finds nothing that is not cached), on
    paths of less than 512 bytes with components of less than 128.  It finds what
    the walk over the components of the path finds in the name space, from the root
    or the working directory, with [..] leaving a mounted file system at the place
    where it is mounted, and with names entering what is mounted there.  For a path
    that exists it changes nothing.  For a path that does not exist and has no [..]
    it returns NULL; it then adds at most one entry, a negative one that no lookup
    shows, leaks nothing, and leaves inodes and mounts alone.  (With [..] after a
    missing name see [dotdot_after_missing_name].) *)
Theorem vfs_resolve_correct v m name start :
  lookup_ok v m -> zlen name < NEW_PATH -> Forall (fun b => b <> 0) name -> Forall (fun c => zlen c < PART) (components name) ->
  start_of v name = Some start ->
  match ns_walk (namespace_of v m) start (components name) with
  | Some d => vfs_resolve name v = Ret (inode_of v d, v)
  | None => ([DOT; DOT] : list Z) ∉ components name -> exists v', vfs_resolve name v = Ret (None, v') /\ only_hidden v m v'
  end.
Proof.
  intros Hok Hlen Hz Hc Hs. destruct (set_nameidata_depth v) as (k & Ek & Hres). unfold vfs_resolve, kern_path, filename_lookup.
  destruct name as [|b name]; [by unfold start_of in Hs; destruct (or_else _ _)|]. rewrite Ek.
  destruct (ns_walk (namespace_of v m) start (components (b :: name))) as [d|] eqn:Ew.
  - destruct (lookupat_found v m (b :: name) start Hok Hlen Hz Hs d k Hc Ew) as (mn & ->). cbn [rbind].
    rewrite (Hres (with_depth v k)) by done. rewrite with_depth_twice. replace (with_depth v (nameidata_depth v)) with v by (by destruct v). done.
  - intros Hdd. destruct (lookupat_missing v m (b :: name) start Hok Hlen Hz Hs k Hdd Ew) as (o & v' & -> & HO & Ho). cbn [rbind].
    pose proof HO as (_ & _ & _ & _ & R3 & R4 & _). rewrite (Hres v' R3 R4). exists (with_depth v' (nameidata_depth v)). split; [|by eapply only_hidden_depth].
    do 2 f_equal. exact Ho.
Qed.
End proofs.

(** ** A root file system with one directory *)

Module NameiDemo.
(** A file system without operations: everything is in the cache. *)
#[export] Instance no_tables : FsTables Heap.heap unit := {|
  op_lookup := fun _ => None; op_create := fun _ => None; op_mkdir := fun _ => None; op_symlink := fun _ => None;
  op_unlink := fun _ => None; op_rmdir := fun _ => None; fop_read := fun _ => None;
  create_special_inode := fun _ _ _ _ _ _ v => (None, v); destroy_special_inode := fun _ v => v;
|}.

Definition dir : inode := Inode 511 0 0 FS_DIRECTORY 1 0 0 None None None None.
Definition v0 : vfs Heap.heap unit := with_inodes (DcacheDemo.start 8) {[9 := dir; 10 := dir]}.
Definition v1 : vfs Heap.heap unit := upd_dentry (set_d_inode (Some 10)) 4096 (d_alloc (Some 1) (Some DcacheDemo.tmp) v0).2.
Definition m1 : gmap (Z * list Z) Z := {[(1, DcacheDemo.tmp) := 4096]}.

Lemma v0_ok : dc_ok v0 /\ dc_map v0 ∅.
Proof.
  destruct (DcacheDemo.dcache_start_ok 8) as ([O1 O2 O3 O4 O5 O6 O7 O8 O9 O10 O11] & Hm). split_and!; [by split|exact Hm].
Qed.

Lemma v1_ok : lookup_ok v1 m1.
Proof.
  destruct v0_ok as (Hok & Hm).
  assert (Ea : exists v', d_alloc (Some 1) (Some DcacheDemo.tmp) v0 = (Some 4096, v') /\ map_after_alloc v0 1 DcacheDemo.tmp 4096 v' ∅ = m1).
  { eexists. split; vm_compute; reflexivity. }
  destruct Ea as (v' & Ea & Em).
  assert (Hp : is_Some (dents v0 !! 1)) by (vm_compute; eexists; reflexivity).
  destruct (dc_step_ok v0 ∅ v' _ Hok Hm (step_alloc _ _ _ _ _ _ Hp (lookup_empty _) Ea)) as (H1 & H3 & _). rewrite Em in H3.
  assert (HS : same_shape v' v1) by (unfold v1; rewrite Ea; by apply same_shape_upd).
  split_and!.
  - by apply (dc_ok_shape v').
  - intros p n d. rewrite <- (found_shape v') by done. by rewrite <- (H3 p n d).
  - intros n i E. assert (Ei : inodes v1 = {[9 := dir; 10 := dir]}) by (vm_compute; reflexivity). rewrite Ei in E.
    apply lookup_insert_Some in E as [[_ <-]|[_ [_ <-]%lookup_singleton_Some]]; discriminate.
  - intros k p i c _ _. unfold finddir_fs, dir_op. destruct (inodes (with_depth v1 k) !! i) as [j|]; [|done]. cbn [mbind option_bind].
    destruct (itype j =? FS_DIRECTORY); [|done]. by destruct (i_op j).
Qed.
End NameiDemo.
Import (hints) NameiDemo.

Lemma vfs_resolve_correct_witness :
  vfs_resolve (SLASH :: DcacheDemo.tmp ++ SLASH :: [DOT; DOT] ++ SLASH :: SLASH :: DcacheDemo.tmp) NameiDemo.v1 = Ret (Some 10, NameiDemo.v1).
Proof.
  pose proof (vfs_resolve_correct NameiDemo.v1 NameiDemo.m1 (SLASH :: DcacheDemo.tmp ++ SLASH :: [DOT; DOT] ++ SLASH :: SLASH :: DcacheDemo.tmp) 1 NameiDemo.v1_ok) as H.
  assert (Ew : ns_walk (namespace_of NameiDemo.v1 NameiDemo.m1) 1 (components (SLASH :: DcacheDemo.tmp ++ SLASH :: [DOT; DOT] ++ SLASH :: SLASH :: DcacheDemo.tmp)) = Some 4096) by (vm_compute; reflexivity).
  assert (Ei : inode_of NameiDemo.v1 4096 = Some 10) by (vm_compute; reflexivity).
  rewrite Ew, Ei in H. apply H; [vm_compute; reflexivity|repeat constructor; discriminate|repeat constructor|vm_compute; reflexivity].
Defined.

(** The first lookup of a missing name followed by [..] goes on to the parent;
    it leaves a negative entry, at which the next lookup fails. *)
Theorem dotdot_after_missing_name :
  let p := SLASH :: [120] ++ SLASH :: [DOT; DOT] ++ SLASH :: DcacheDemo.tmp in
  match vfs_resolve p NameiDemo.v1 with
  | Ret (i, v2) => i = Some 10 /\ match vfs_resolve p v2 with Ret (i', _) => i' = None | _ => False end
  | _ => False
  end.
Proof. vm_compute. by split. Qed.
