(* ===== verification/Bytes.v ===== *)
(** * Byte arrays

    Parts of a buffer, as [memcpy] reads and writes them, and integers stored
    little endian, shared by the block layer, the caches and the file systems. *)

From stdpp Require Import base tactics numbers list.
From Stdlib Require Import ZArith Lia.
From S2P Require Import Prelude.

(** [n] bytes from offset [off] on. *)
Definition slice (off n : Z) (l : list Z) : list Z := take (Z.to_nat n) (drop (Z.to_nat off) l).

(** The array with the bytes [b] stored at [off]. *)
Definition splice (off : Z) (b l : list Z) : list Z :=
  take (Z.to_nat off) l ++ b ++ drop (Z.to_nat off + length b) l.

Definition is_byte (c : Z) : Prop := 0 <= c < 256.

Definition zeroes (n : Z) : list Z := replicate (Z.to_nat n) 0.

Lemma slice_lookup off n l i : slice off n l !! i = if decide (i < Z.to_nat n)%nat then l !! (Z.to_nat off + i)%nat else None.
Proof.
  unfold slice. case_decide; [by rewrite lookup_take_lt, lookup_drop by lia|by rewrite lookup_take_ge by lia].
Qed.

Lemma splice_lookup off b l i :
  0 <= off -> off + zlen b <= zlen l ->
  splice off b l !! i = if decide (Z.to_nat off <= i < Z.to_nat off + length b)%nat then b !! (i - Z.to_nat off)%nat else l !! i.
Proof.
  unfold zlen. intros H0 H1. unfold splice. assert (Ht : length (take (Z.to_nat off) l) = Z.to_nat off) by (rewrite length_take; lia).
  case_decide as Hd.
  - rewrite lookup_app_r by lia. rewrite Ht, lookup_app_l by lia. done.
  - destruct (decide (i < Z.to_nat off)%nat).
    + rewrite lookup_app_l by lia. by rewrite lookup_take_lt by lia.
    + rewrite lookup_app_r by lia. rewrite Ht, lookup_app_r by lia. rewrite lookup_drop. f_equal. lia.
Qed.

Lemma zlen_slice off n l : 0 <= off -> 0 <= n -> off + n <= zlen l -> zlen (slice off n l) = n.
Proof. unfold zlen, slice. intros. rewrite length_take, length_drop. lia. Qed.

Lemma zlen_splice off b l : 0 <= off -> off + zlen b <= zlen l -> zlen (splice off b l) = zlen l.
Proof. unfold zlen, splice. intros. rewrite !length_app, length_take, length_drop. lia. Qed.

Lemma length_splice off b l : 0 <= off -> off + zlen b <= zlen l -> length (splice off b l) = length l.
Proof. intros H1 H2. pose proof (zlen_splice off b l H1 H2) as H. unfold zlen in H. lia. Qed.

Lemma slice_all l n : n = zlen l -> slice 0 n l = l.
Proof. intros ->. unfold slice, zlen. rewrite drop_0, Nat2Z.id. by apply take_ge. Qed.

Lemma slice_splice_same off b l : 0 <= off -> off + zlen b <= zlen l -> slice off (zlen b) (splice off b l) = b.
Proof.
  intros H0 H1. apply list_eq. intros i. rewrite slice_lookup, splice_lookup by done. unfold zlen in *.
  case_decide; [case_decide; [f_equal; lia|lia]|]. symmetry. apply lookup_ge_None. lia.
Qed.

(** Parts that do not overlap. *)
Lemma slice_splice_other off b l o n :
  0 <= off -> off + zlen b <= zlen l -> 0 <= o -> o + n <= off \/ off + zlen b <= o -> slice o n (splice off b l) = slice o n l.
Proof.
  intros H0 H1 H2 H3. apply list_eq. intros i. rewrite !slice_lookup. case_decide; [|done].
  rewrite splice_lookup by done. unfold zlen in *. case_decide; [lia|done].
Qed.

(** A part of a part. *)
Lemma slice_slice o n o' n' l : 0 <= o -> 0 <= o' -> 0 <= n' -> o' + n' <= n -> slice o' n' (slice o n l) = slice (o + o') n' l.
Proof.
  intros. apply list_eq. intros i. rewrite !slice_lookup. case_decide; [|done]. rewrite decide_True by lia. f_equal. lia.
Qed.

(** Storing inside a part. *)
Lemma slice_splice_inside off n o b l :
  0 <= off -> 0 <= o -> o + zlen b <= n -> off + n <= zlen l -> slice off n (splice (off + o) b l) = splice o b (slice off n l).
Proof.
  intros H0 H1 H2 H3. assert (Hs : zlen (slice off n l) = n) by (apply zlen_slice; unfold zlen in *; lia). apply list_eq. intros i.
  rewrite splice_lookup by lia. rewrite !slice_lookup, splice_lookup by lia. unfold zlen in *.
  case_decide; [|case_decide; [lia|done]]. case_decide; case_decide; try lia; [f_equal; lia|done].
Qed.

Lemma splice_slice_same off n l : 0 <= off -> 0 <= n -> off + n <= zlen l -> splice off (slice off n l) l = l.
Proof.
  intros H0 H1 H2. assert (Hs : zlen (slice off n l) = n) by (apply zlen_slice; lia). apply list_eq. intros i.
  rewrite splice_lookup by lia. case_decide as Hd; [|done]. rewrite slice_lookup. unfold zlen in *. rewrite decide_True by lia. f_equal. lia.
Qed.

Lemma splice_splice off b b' l :
  0 <= off -> off + zlen b <= zlen l -> zlen b' = zlen b -> splice off b' (splice off b l) = splice off b' l.
Proof.
  intros H0 H1 H2. apply list_eq. intros i. rewrite (splice_lookup off b' (splice off b l)); [|lia|rewrite zlen_splice; lia].
  rewrite (splice_lookup off b l), (splice_lookup off b' l) by lia.
  unfold zlen in *. case_decide; [done|]. case_decide; [lia|done].
Qed.

Lemma Forall_slice {P : Z -> Prop} off n l : Forall P l -> Forall P (slice off n l).
Proof. intros. by apply Forall_take, Forall_drop. Qed.

Lemma Forall_splice {P : Z -> Prop} off b l : Forall P b -> Forall P l -> Forall P (splice off b l).
Proof. intros. apply Forall_app. split; [by apply Forall_take|]. apply Forall_app. split; [done|by apply Forall_drop]. Qed.

Lemma Forall_zeroes n : Forall is_byte (zeroes n).
Proof. apply Forall_replicate. unfold is_byte. lia. Qed.

Lemma zlen_zeroes n : 0 <= n -> zlen (zeroes n) = n.
Proof. intros. unfold zlen, zeroes. rewrite length_replicate. lia. Qed.

Lemma slice_app_l (a b : list Z) : slice 0 (zlen a) (a ++ b) = a.
Proof. unfold slice, zlen. rewrite Nat2Z.id, drop_0. by rewrite take_app_length. Qed.

Lemma slice_app_r o n (a b : list Z) : zlen a <= o -> slice o n (a ++ b) = slice (o - zlen a) n b.
Proof.
  unfold slice, zlen. intros H. replace (Z.to_nat o) with (length a + Z.to_nat (o - Z.of_nat (length a)))%nat by lia.
  by rewrite <- drop_drop, drop_app_length.
Qed.

(** Adjacent parts. *)
Lemma slice_adjacent off n m (l : list Z) :
  0 <= off -> 0 <= n -> 0 <= m -> off + n + m <= zlen l -> slice off n l ++ slice (off + n) m l = slice off (n + m) l.
Proof.
  intros. assert (Hs : zlen (slice off n l) = n) by (apply zlen_slice; lia). apply list_eq. intros i. rewrite slice_lookup.
  destruct (decide (i < Z.to_nat n)%nat).
  - rewrite lookup_app_l by (unfold zlen in Hs; lia). rewrite slice_lookup, !decide_True by lia. done.
  - rewrite lookup_app_r by (unfold zlen in Hs; lia). assert (length (slice off n l) = Z.to_nat n) as -> by (unfold zlen in Hs; lia).
    rewrite slice_lookup. case_decide; case_decide; try lia; [f_equal; lia|done].
Qed.

Lemma splice_adjacent o x y (l : list Z) :
  0 <= o -> o + zlen x + zlen y <= zlen l -> splice (o + zlen x) y (splice o x l) = splice o (x ++ y) l.
Proof.
  intros H0 H1. assert (0 <= zlen y) by (unfold zlen; lia). assert (0 <= zlen x) by (unfold zlen; lia). pose proof (zlen_app x y) as Ha.
  apply list_eq. intros i. rewrite (splice_lookup (o + zlen x) y) by (rewrite ?zlen_splice; lia).
  rewrite (splice_lookup o x), (splice_lookup o (x ++ y)) by lia. rewrite length_app. unfold zlen in *.
  destruct (decide (Z.to_nat (o + Z.of_nat (length x)) <= i < Z.to_nat (o + Z.of_nat (length x)) + length y)%nat).
  - rewrite decide_True by lia. rewrite lookup_app_r by lia. f_equal. lia.
  - case_decide; case_decide; try lia; [|done]. by rewrite lookup_app_l by lia.
Qed.

Lemma splice_nil o (l : list Z) : splice o [] l = l.
Proof. unfold splice. cbn [app length]. rewrite Nat.add_0_r. apply take_drop. Qed.

(** ** Little-endian integers *)

Fixpoint le_bytes (n : nat) (v : Z) : list Z :=
  match n with O => [] | S n' => v mod 256 :: le_bytes n' (v / 256) end.

Fixpoint le_value (l : list Z) : Z :=
  match l with [] => 0 | c :: l' => c + 256 * le_value l' end.

Lemma length_le_bytes n v : length (le_bytes n v) = n.
Proof. revert v. induction n as [|n IH]; intros v; [done|]. simpl. by rewrite IH. Qed.

Lemma le_bytes_byte n v : Forall is_byte (le_bytes n v).
Proof.
  revert v. induction n as [|n IH]; intros v; simpl; constructor; [|apply IH]. unfold is_byte. apply Z.mod_pos_bound. lia.
Qed.

Lemma le_value_bytes n v : 0 <= v < 256 ^ Z.of_nat n -> le_value (le_bytes n v) = v.
Proof.
  revert v. induction n as [|n IH]; intros v Hv; [simpl in *; lia|]. cbn [le_bytes le_value]. rewrite IH.
  - pose proof (Z.div_mod v 256 ltac:(lia)). lia.
  - rewrite Nat2Z.inj_succ, Z.pow_succ_r in Hv by lia. split; [apply Z.div_pos; lia|]. apply Z.div_lt_upper_bound; lia.
Qed.

Lemma le_value_range l : Forall is_byte l -> 0 <= le_value l < 256 ^ zlen l.
Proof.
  induction 1 as [|c l Hc _ IH]; [unfold zlen; simpl; lia|]. unfold zlen, is_byte in *. cbn [le_value length].
  rewrite Nat2Z.inj_succ, Z.pow_succ_r by lia. lia.
Qed.

Lemma le_bytes_value l : Forall is_byte l -> le_bytes (length l) (le_value l) = l.
Proof.
  induction 1 as [|c l Hc _ IH]; [done|]. unfold is_byte in Hc. cbn [length le_bytes le_value]. f_equal.
  - rewrite (Z.mul_comm 256), Z.mod_add by lia. apply Z.mod_small. lia.
  - rewrite (Z.mul_comm 256), Z.div_add by lia. rewrite Z.div_small by lia. exact IH.
Qed.

(** ** Arrays made of blocks of the same size *)

Section blocks.
Variable B : Z.
Hypothesis HB : 0 < B.

Lemma zlen_concat (ls : list (list Z)) : Forall (fun l => zlen l = B) ls -> zlen (concat ls) = B * zlen ls.
Proof.
  induction 1 as [|l ls Hl _ IH]; [unfold zlen; simpl; lia|]. cbn [concat]. rewrite zlen_app, IH, Hl. unfold zlen. cbn [length]. lia.
Qed.

(** The block number [j] begins at [B * j]. *)
Lemma concat_lookup (ls : list (list Z)) j l i :
  Forall (fun l => zlen l = B) ls -> ls !! j = Some l -> (i < Z.to_nat B)%nat -> concat ls !! (Z.to_nat B * j + i)%nat = l !! i.
Proof.
  intros HF. revert j. induction HF as [|l0 ls H0 _ IH]; intros j Hj Hi; [done|]. unfold zlen in H0. destruct j as [|j]; cbn [concat] in *.
  - injection Hj as ->. rewrite Nat.mul_0_r, Nat.add_0_l. apply lookup_app_l. lia.
  - rewrite lookup_app_r by lia. rewrite <- (IH j Hj Hi). f_equal. lia.
Qed.

Lemma slice_concat (ls : list (list Z)) j l o n :
  Forall (fun l => zlen l = B) ls -> ls !! Z.to_nat j = Some l -> 0 <= j -> 0 <= o -> o + n <= B ->
  slice (B * j + o) n (concat ls) = slice o n l.
Proof.
  intros HF Hj Hj0 Ho Hn. apply list_eq. intros i. rewrite !slice_lookup. case_decide; [|done].
  replace (Z.to_nat (B * j + o) + i)%nat with (Z.to_nat B * Z.to_nat j + (Z.to_nat o + i))%nat by (rewrite Z2Nat.inj_add, Z2Nat.inj_mul by nia; lia).
  apply concat_lookup; [done|done|lia].
Qed.

Lemma Forall_insert_block (ls : list (list Z)) j l : Forall (fun l => zlen l = B) ls -> zlen l = B -> Forall (fun l => zlen l = B) (<[j := l]> ls).
Proof. intros. by apply Forall_insert. Qed.

Lemma splice_concat (ls : list (list Z)) j l o b :
  Forall (fun l => zlen l = B) ls -> ls !! Z.to_nat j = Some l -> 0 <= j -> 0 <= o -> o + zlen b <= B ->
  splice (B * j + o) b (concat ls) = concat (<[Z.to_nat j := splice o b l]> ls).
Proof.
  intros HF Hj Hj0 Ho Hn. pose proof (lookup_lt_Some _ _ _ Hj) as Hlt. assert (Hl : zlen l = B) by (eapply (Forall_lookup_1 _ _ _ _ HF Hj)).
  assert (Hs : zlen (splice o b l) = B) by (rewrite zlen_splice; lia).
  pose proof (zlen_concat ls HF) as HC. pose proof (zlen_concat _ (Forall_insert_block ls (Z.to_nat j) _ HF Hs)) as HC'.
  assert (Hlen : zlen (<[Z.to_nat j := splice o b l]> ls) = zlen ls) by (unfold zlen; by rewrite length_insert). rewrite Hlen in HC'.
  assert (Hb : B * j + o + zlen b <= zlen (concat ls)) by (rewrite HC; unfold zlen in *; nia).
  apply list_eq. intros i. destruct (decide (i < length (concat ls))%nat) as [Hi|Hi].
  2:{ rewrite !lookup_ge_None_2; [done|unfold zlen in *; lia|]. pose proof (zlen_splice (B * j + o) b (concat ls) ltac:(nia) Hb). unfold zlen in *. lia. }
  set (q := (i / Z.to_nat B)%nat). set (m := (i mod Z.to_nat B)%nat).
  assert (Ei : i = (Z.to_nat B * q + m)%nat) by (apply Nat.div_mod; lia). assert (Hm : (m < Z.to_nat B)%nat) by (apply Nat.mod_upper_bound; lia).
  assert (Hq : (q < length ls)%nat) by (apply Nat.div_lt_upper_bound; unfold zlen in *; nia).
  destruct (lookup_lt_is_Some_2 ls q Hq) as [lq Eq]. rewrite splice_lookup by nia. rewrite Ei.
  destruct (decide (q = Z.to_nat j)) as [->|Hne].
  - assert (lq = l) as -> by congruence. rewrite (concat_lookup (<[Z.to_nat j := splice o b l]> ls) (Z.to_nat j) (splice o b l)); [|by apply Forall_insert_block|by apply list_lookup_insert_eq|done].
    rewrite (concat_lookup ls _ l) by done. rewrite splice_lookup by lia. unfold zlen in *.
    assert (Z.to_nat (B * j + o) = (Z.to_nat B * Z.to_nat j + Z.to_nat o)%nat) as -> by (rewrite Z2Nat.inj_add, Z2Nat.inj_mul by nia; lia).
    case_decide; case_decide; try lia; [f_equal; lia|done].
  - rewrite (concat_lookup (<[Z.to_nat j := splice o b l]> ls) q lq); [|by apply Forall_insert_block|by rewrite list_lookup_insert_ne|done].
    rewrite (concat_lookup ls _ lq) by done. case_decide as Hd; [|done]. exfalso. apply Hne. unfold zlen in *.
    assert (Hd' : Z.to_nat (B * j + o) = (Z.to_nat B * Z.to_nat j + Z.to_nat o)%nat) by (rewrite Z2Nat.inj_add, Z2Nat.inj_mul by nia; lia). nia.
Qed.
End blocks.
