(* ===== verification/Block.v ===== *)
(** * Block devices ([block/blk-core.c], [fs/block_dev.c], [block/genhd.c], [drivers/block/brd.c])

    A transfer is a [bio] on the stack of the caller.  The block layer wraps it
    in a request, appends the request to the queue of the disk and runs the
    driver, which fetches requests, moves the data and completes them.  The
    state holds the queues, the requests on the heap, the stack of bios (a
    position in it is the address of a bio), the disks and the block devices;
    [D] is the state of the drivers. *)

From stdpp Require Import base tactics numbers list gmap sets.
From Stdlib Require Import ZArith Lia.
From S2P Require Import Prelude Bytes.

Definition REQ_OP_READ : Z := 0.
Definition REQ_OP_WRITE : Z := 1.
Definition BLKDEV_MIN_RQ : Z := 4.
Definition SIZEOF_REQUEST : Z := 16.
Definition SIZEOF_QUEUE : Z := 40.
Definition SIZEOF_BDEV : Z := 56.

(** [bi_buf] is the contents of the buffer; [bi_end_io] is [bio_endio_sync]. *)
Record bio : Type := Bio {
  bi_bdev : Z; bi_sector : Z; bi_byte_offset : Z; bi_size : Z; bi_buf : list Z; bi_opf : Z; bi_status : Z;
}.
Record request : Type := Request { rq_q : Z; rq_bio : nat }.
Record request_queue : Type := Queue {
  queue_head : list Z; last_merge : option Z; make_request_fn : option Z; request_fn : option Z; queuedata : Z;
  running : bool; nr_requests : Z; queued : Z; in_flight : Z;
}.
Record gendisk : Type := Gendisk { major : Z; first_minor : Z; gd_queue : option Z; capacity : Z; gd_block_size : Z; gd_private : Z }.
Record block_device : Type := Bdev {
  devt : Z; bd_size : Z; bd_block_size : Z; bd_reads : Z; bd_writes : Z; bd_bytes_read : Z; bd_bytes_written : Z;
  refcnt : Z; openers : Z; bd_disk : option Z; bd_inode : option Z; bd_private : Z;
}.
Record io_stats : Type := IoStats { blk_reads : Z; blk_writes : Z; blk_bytes_read : Z; blk_bytes_written : Z }.

Record blk (M D : Type) : Type := Blk {
  queues : gmap Z request_queue;
  requests : gmap Z request;
  bios : list bio;
  disks : gmap Z gendisk;
  bdevs : gmap Z block_device;
  disk_map : list (Z * Z);
  bdev_map : list (Z * Z);
  io : io_stats;
  irqs_enabled : bool;
  bheap : M;
  drv : D;
}.
Arguments Blk {M D}. Arguments queues {M D}. Arguments requests {M D}. Arguments bios {M D}. Arguments disks {M D}.
Arguments bdevs {M D}. Arguments disk_map {M D}. Arguments bdev_map {M D}. Arguments io {M D}. Arguments irqs_enabled {M D}.
Arguments bheap {M D}. Arguments drv {M D}.

(** The request functions of the drivers, by address. *)
Class Drivers (M D : Type) := {
  call_request_fn : Z -> Z -> blk M D -> blk M D;
  call_make_request_fn : Z -> Z -> nat -> blk M D -> Z * blk M D;
}.

Section state.
Context {M D : Type}.
Implicit Types b : blk M D.

Definition with_queues b v : blk M D := Blk v (requests b) (bios b) (disks b) (bdevs b) (disk_map b) (bdev_map b) (io b) (irqs_enabled b) (bheap b) (drv b).
Definition with_requests b v : blk M D := Blk (queues b) v (bios b) (disks b) (bdevs b) (disk_map b) (bdev_map b) (io b) (irqs_enabled b) (bheap b) (drv b).
Definition with_bios b v : blk M D := Blk (queues b) (requests b) v (disks b) (bdevs b) (disk_map b) (bdev_map b) (io b) (irqs_enabled b) (bheap b) (drv b).
Definition with_bdevs b v : blk M D := Blk (queues b) (requests b) (bios b) (disks b) v (disk_map b) (bdev_map b) (io b) (irqs_enabled b) (bheap b) (drv b).
Definition with_bdev_map b v : blk M D := Blk (queues b) (requests b) (bios b) (disks b) (bdevs b) (disk_map b) v (io b) (irqs_enabled b) (bheap b) (drv b).
Definition with_disk_map b v : blk M D := Blk (queues b) (requests b) (bios b) (disks b) (bdevs b) v (bdev_map b) (io b) (irqs_enabled b) (bheap b) (drv b).
Definition with_io b v : blk M D := Blk (queues b) (requests b) (bios b) (disks b) (bdevs b) (disk_map b) (bdev_map b) v (irqs_enabled b) (bheap b) (drv b).
Definition with_bheap b v : blk M D := Blk (queues b) (requests b) (bios b) (disks b) (bdevs b) (disk_map b) (bdev_map b) (io b) (irqs_enabled b) v (drv b).
Definition with_drv b v : blk M D := Blk (queues b) (requests b) (bios b) (disks b) (bdevs b) (disk_map b) (bdev_map b) (io b) (irqs_enabled b) (bheap b) v.

Definition upd_queue (f : request_queue -> request_queue) (q : Z) b : blk M D := with_queues b (alter f q (queues b)).
Definition upd_bio (f : bio -> bio) (i : nat) b : blk M D := with_bios b (alter f i (bios b)).
Definition upd_bdev (f : block_device -> block_device) (d : Z) b : blk M D := with_bdevs b (alter f d (bdevs b)).
End state.

Definition set_head l (q : request_queue) := Queue l (last_merge q) (make_request_fn q) (request_fn q) (queuedata q) (running q) (nr_requests q) (queued q) (in_flight q).
Definition set_merge m (q : request_queue) := Queue (queue_head q) m (make_request_fn q) (request_fn q) (queuedata q) (running q) (nr_requests q) (queued q) (in_flight q).
Definition set_fns m r (q : request_queue) := Queue (queue_head q) (last_merge q) m r (queuedata q) (running q) (nr_requests q) (queued q) (in_flight q).
Definition set_running r (q : request_queue) := Queue (queue_head q) (last_merge q) (make_request_fn q) (request_fn q) (queuedata q) r (nr_requests q) (queued q) (in_flight q).
Definition set_nr n (q : request_queue) := Queue (queue_head q) (last_merge q) (make_request_fn q) (request_fn q) (queuedata q) (running q) n (queued q) (in_flight q).
Definition set_counts n k (q : request_queue) := Queue (queue_head q) (last_merge q) (make_request_fn q) (request_fn q) (queuedata q) (running q) (nr_requests q) n k.
Definition set_status e (x : bio) := Bio (bi_bdev x) (bi_sector x) (bi_byte_offset x) (bi_size x) (bi_buf x) (bi_opf x) e.
Definition set_buf c (x : bio) := Bio (bi_bdev x) (bi_sector x) (bi_byte_offset x) (bi_size x) c (bi_opf x) (bi_status x).
Definition set_refcnt n (d : block_device) := Bdev (devt d) (bd_size d) (bd_block_size d) (bd_reads d) (bd_writes d) (bd_bytes_read d) (bd_bytes_written d) n (openers d) (bd_disk d) (bd_inode d) (bd_private d).
Definition set_openers n (d : block_device) := Bdev (devt d) (bd_size d) (bd_block_size d) (bd_reads d) (bd_writes d) (bd_bytes_read d) (bd_bytes_written d) (refcnt d) n (bd_disk d) (bd_inode d) (bd_private d).

Section code.
Context {M D : Type} `{!KAlloc M, !Drivers M D}.
Notation blk := (blk M D).
Implicit Types b : blk.

(** ** Requests *)

Definition bio_endio (i : nat) (error : Z) b : blk := upd_bio (set_status error) i b.

Definition blk_peek_request (q : Z) b : option Z := queues b !! q ≫= (fun x => hd_error (queue_head x)).

(** [x--] guarded by [if (x)], [p = NULL] guarded by [if (p == rq)] *)
Definition less1 (n : Z) : Z := if n =? 0 then 0 else n -w 1.
Definition forget (rq : Z) (m : option Z) : option Z := if bool_decide (m = Some rq) then None else m.

Definition blk_fetch_request (q : Z) b : option Z * blk :=
  match blk_peek_request q b with
  | None => (None, b)
  | Some rq =>
      (Some rq, upd_queue (fun x => set_counts (less1 (queued x)) (in_flight x +w 1) (set_merge (forget rq (last_merge x)) (set_head (tail (queue_head x)) x))) q b)
  end.

Definition blk_complete_request (q rq error : Z) b : blk :=
  let b1 := upd_queue (fun x => set_counts (queued x) (less1 (in_flight x)) (set_merge (forget rq (last_merge x)) x)) q b in
  let b2 := match requests b !! rq with Some r => bio_endio (rq_bio r) error b1 | None => b1 end in
  with_bheap (with_requests b2 (delete rq (requests b2))) (kfree rq (bheap b2)).

(** [q->running = 1; q->request_fn(q); q->running = 0] *)
Definition run_queue (q fn : Z) b : blk :=
  upd_queue (set_running false) q (call_request_fn fn q (upd_queue (set_running true) q b)).

Definition blk_rq_init (q rq : Z) (i : nat) b : blk := with_requests b (<[rq := Request q i]> (requests b)).

Definition queue_full (x : request_queue) : bool := nr_requests x <=? (queued x +w in_flight x).

(** [bio->bi_bdev->disk->queue] *)
Definition bio_queue (i : nat) b : option Z :=
  x ← bios b !! i; d ← bdevs b !! bi_bdev x; g ← bd_disk d; k ← disks b !! g; gd_queue k.

Definition generic_make_request (i : nat) b : Z * blk :=
  let fail := (-1, bio_endio i (-1) b) in
  match bio_queue i b with
  | None => fail
  | Some q =>
      match queues b !! q with
      | None => fail
      | Some x =>
          match request_fn x with
          | Some fn =>
              let b1 := if negb (nr_requests x =? 0) && queue_full x && negb (running x) && irqs_enabled b then run_queue q fn b else b in
              match queues b1 !! q with
              | None => (-1, b1)
              | Some x1 =>
                  if negb (nr_requests x =? 0) && queue_full x && queue_full x1 then (-1, bio_endio i (-1) b1) else
                  match kmalloc SIZEOF_REQUEST (bheap b1) with
                  | (None, h) => (-1, bio_endio i (-1) (with_bheap b1 h))
                  | (Some rq, h) =>
                      let b2 := upd_queue (fun y => set_counts (queued y +w 1) (in_flight y) (set_merge (Some rq) (set_head (queue_head y ++ [rq]) y))) q
                                  (blk_rq_init q rq i (with_bheap b1 h)) in
                      (0, if running x1 then b2 else run_queue q fn b2)
                  end
              end
          | None =>
              match make_request_fn x with
              | None => fail
              | Some fn => call_make_request_fn fn q i b
              end
          end
      end
  end.

Definition submit_bio (i : nat) b : Z * blk :=
  match bios b !! i with
  | None => (-1, b)
  | Some x =>
      if bi_size x =? 0 then (-1, b) else
      let '(ret, b1) := generic_make_request i b in
      (ret, if negb (ret =? 0) && match bios b1 !! i with Some y => bi_status y =? 0 | None => false end then bio_endio i ret b1 else b1)
  end.

(** ** Queues *)

Definition blk_update_nr_requests (q nr : Z) b : Z * blk :=
  match queues b !! q with
  | None => (- EINVAL, b)
  | Some x =>
      match request_fn x, make_request_fn x with
      | None, None => (- EINVAL, b)
      | _, _ => (0, upd_queue (set_nr (if nr <? BLKDEV_MIN_RQ then BLKDEV_MIN_RQ else nr)) q b)
      end
  end.

Definition blk_queue_make_request (q : Z) (mfn : option Z) b : blk :=
  upd_queue (fun x => set_fns mfn (match mfn with Some _ => None | None => request_fn x end) x) q b.

Definition blk_init_queue (fn : option Z) (data : Z) b : option Z * blk :=
  match fn with
  | None => (None, b)
  | Some fn =>
      match kmalloc SIZEOF_QUEUE (bheap b) with
      | (None, h) => (None, with_bheap b h)
      | (Some q, h) => (Some q, with_queues (with_bheap b h) (<[q := Queue [] None None (Some fn) data false 128 0 0]> (queues b)))
      end
  end.

Fixpoint fail_requests (fuel : nat) (q : Z) b : blk :=
  match fuel with
  | O => b
  | S fuel' => match blk_fetch_request q b with (None, b1) => b1 | (Some rq, b1) => fail_requests fuel' q (blk_complete_request q rq (-1) b1) end
  end.

Definition queue_length (q : Z) b : nat := match queues b !! q with Some x => length (queue_head x) | None => 0%nat end.

Definition blk_cleanup_queue (q : Z) b : blk :=
  let b1 := fail_requests (S (queue_length q b)) q b in
  with_bheap (with_queues b1 (delete q (queues b1))) (kfree q (bheap b1)).

(** ** Transfers ([fs/block_dev.c]) *)

Definition block_account_io (d : Z) (is_write : bool) (bytes : Z) b : blk :=
  if bytes =? 0 then b else
  let s := io b in
  if is_write then
    with_io (upd_bdev (fun x => Bdev (devt x) (bd_size x) (bd_block_size x) (bd_reads x) (bd_writes x +w 1) (bd_bytes_read x) (bd_bytes_written x +w bytes) (refcnt x) (openers x) (bd_disk x) (bd_inode x) (bd_private x)) d b)
      (IoStats (blk_reads s) (blk_writes s +w 1) (blk_bytes_read s) (blk_bytes_written s +w bytes))
  else
    with_io (upd_bdev (fun x => Bdev (devt x) (bd_size x) (bd_block_size x) (bd_reads x +w 1) (bd_writes x) (bd_bytes_read x +w bytes) (bd_bytes_written x) (refcnt x) (openers x) (bd_disk x) (bd_inode x) (bd_private x)) d b)
      (IoStats (blk_reads s +w 1) (blk_writes s) (blk_bytes_read s +w bytes) (blk_bytes_written s)).

(** A transfer of [size] bytes with the buffer [buf]: the result and the buffer. *)
Definition transfer (d opf offset size : Z) (buf : list Z) b : Z * list Z * blk :=
  match bdevs b !! d with
  | None => (0, buf, b)
  | Some x =>
      if size =? 0 then (0, buf, b)
      else if bd_size x <=? offset then (0, buf, b)
      else
        let size := if bd_size x - offset <? size then u32 (bd_size x - offset) else size in
        let i := length (bios b) in
        let b1 := with_bios b (bios b ++ [Bio d (offset / 512) (offset mod 512) size buf opf 0]) in
        let '(ret, b2) := submit_bio i b1 in
        let y := bios b2 !! i in
        let buf' := match y with Some z => bi_buf z | None => buf end in
        let ok := (ret =? 0) && match y with Some z => bi_status z =? 0 | None => false end in
        (if ok then size else 0, buf', with_bios b2 (take i (bios b2)))
  end.

Definition block_device_read (d offset size : Z) (buf : list Z) b : Z * list Z * blk := transfer d REQ_OP_READ offset size buf b.

Definition block_device_write (d offset size : Z) (buf : list Z) b : Z * blk :=
  let '(n, _, b') := transfer d REQ_OP_WRITE offset size buf b in (n, b').
(** ** The registries of disks and devices ([block/genhd.c], [fs/block_dev.c]) *)

Definition MAP_SIZE : nat := 32.
Definition MKDEV (ma mi : Z) : Z := Z.lor (ma <<w 20) (Z.land mi 1048575).

Definition map_lookup (t : Z) (m : list (Z * Z)) : option Z := snd <$> List.find (fun e => fst e =? t) m.
Fixpoint map_remove (t : Z) (m : list (Z * Z)) : option (list (Z * Z)) :=
  match m with
  | [] => None
  | e :: m' => if fst e =? t then Some m' else cons e <$> map_remove t m'
  end.
Definition map_register (t p : Z) (m : list (Z * Z)) : option (list (Z * Z)) :=
  if decide (MAP_SIZE <= length m)%nat then None
  else match map_lookup t m with Some _ => Some m | None => Some (m ++ [(t, p)]) end.

Definition disk_lookup (t : Z) b : option Z := map_lookup t (disk_map b).
Definition get_gendisk (t : Z) b : option Z := disk_lookup t b.
Definition bdev_lookup (t : Z) b : option Z := map_lookup t (bdev_map b).
Definition disk_register (t p : Z) b : Z * blk := match map_register t p (disk_map b) with Some m => (0, with_disk_map b m) | None => (-1, b) end.
Definition bdev_register (t p : Z) b : Z * blk := match map_register t p (bdev_map b) with Some m => (0, with_bdev_map b m) | None => (-1, b) end.
Definition disk_unregister (t : Z) b : Z * blk := match map_remove t (disk_map b) with Some m => (0, with_disk_map b m) | None => (-1, b) end.
Definition bdev_unregister (t : Z) b : Z * blk := match map_remove t (bdev_map b) with Some m => (0, with_bdev_map b m) | None => (-1, b) end.

Definition bdev_alloc_for_disk (g : Z) b : option Z * blk :=
  match disks b !! g with
  | None => (None, b)
  | Some k =>
      match kmalloc SIZEOF_BDEV (bheap b) with
      | (None, h) => (None, with_bheap b h)
      | (Some d, h) =>
          let t := MKDEV (major k) (first_minor k) in
          let x := Bdev t ((capacity k * 512) mod 2 ^ 64) (if gd_block_size k =? 0 then 512 else gd_block_size k) 0 0 0 0 1 0 (Some g) None (gd_private k) in
          match bdev_register t d (with_bheap b h) with
          | (r, b1) => if r =? 0 then (Some d, with_bdevs b1 (<[d := x]> (bdevs b1))) else (None, with_bheap b1 (kfree d (bheap b1)))
          end
      end
  end.

Definition bdgrab (d : Z) b : Z * blk := (d, upd_bdev (fun x => set_refcnt (refcnt x +w 1) x) d b).

Definition bdput (d : Z) b : blk :=
  match bdevs b !! d with
  | None => b
  | Some x =>
      if refcnt x =? 0 then b else
      let b1 := upd_bdev (set_refcnt (refcnt x -w 1)) d b in
      if negb (refcnt x -w 1 =? 0) then b1
      else if negb (openers x =? 0) || bool_decide (is_Some (bd_inode x)) then b1
      else with_bheap (with_bdevs b1 (delete d (bdevs b1))) (kfree d (bheap b1))
  end.

Definition grab_new (r : option Z * blk) : option Z * blk :=
  match r with (Some d, b) => let '(d', b') := bdgrab d b in (Some d', b') | (None, b) => (None, b) end.

Definition bdget (t : Z) b : option Z * blk :=
  match bdev_lookup t b with
  | Some d => let '(d', b') := bdgrab d b in (Some d', b')
  | None => match get_gendisk t b with None => (None, b) | Some g => grab_new (bdev_alloc_for_disk g b) end
  end.

Definition bdget_disk (g index : Z) b : option Z * blk :=
  if negb (index =? 0) then (None, b) else
  match disks b !! g with
  | None => (None, b)
  | Some k =>
      match bdev_lookup (MKDEV (major k) (first_minor k)) b with
      | Some d => let '(d', b') := bdgrab d b in (Some d', b')
      | None => grab_new (bdev_alloc_for_disk g b)
      end
  end.

Definition blkdev_get (d : Z) b : Z * blk := (0, upd_bdev (fun x => set_openers (openers x +w 1) x) d b).
Definition blkdev_put (d : Z) b : blk := upd_bdev (fun x => set_openers (if openers x =? 0 then 0 else openers x -w 1) x) d b.
End code.

(** ** The RAM disk ([drivers/block/brd.c]) *)

Record brd_device : Type := BrdDevice { brd_number : Z; brd_queue : Z; brd_disk : Z; brd_backend : option Z }.
(** The RAM disks, and the memory of their backends. *)
Record brd : Type := Brd { brd_devs : gmap Z brd_device; backends : gmap Z (option (list Z)) }.

Section brd.
Context {M : Type} `{!KAlloc M}.
Notation blk := (blk M brd).
Implicit Types b : blk.

Definition backend_data (q : Z) b : option (Z * list Z) :=
  x ← queues b !! q; v ← brd_devs (drv b) !! queuedata x; a ← brd_backend v; o ← backends (drv b) !! a; l ← o; Some (a, l).

(** One request: the status it completes with, after moving the data. *)
Definition ramdisk_transfer (q : Z) (i : nat) b : Z * blk :=
  match bios b !! i, backend_data q b with
  | Some x, Some (a, data) =>
      match bdevs b !! bi_bdev x with
      | None => (-1, b)
      | Some d =>
          if bi_size x =? 0 then (-1, b) else
          let offset := (bi_sector x *w 512) +w bi_byte_offset x in
          if (bd_size d <=? offset) || (bd_size d <? (offset +w bi_size x)) then (-1, b)
          else if bi_opf x =? REQ_OP_READ then
            (0, block_account_io (bi_bdev x) false (bi_size x) (upd_bio (set_buf (splice 0 (slice offset (bi_size x) data) (bi_buf x))) i b))
          else if bi_opf x =? REQ_OP_WRITE then
            (0, block_account_io (bi_bdev x) true (bi_size x)
                  (with_drv b (Brd (brd_devs (drv b)) (<[a := Some (splice offset (slice 0 (bi_size x) (bi_buf x)) data)]> (backends (drv b))))))
          else (-1, b)
      end
  | _, _ => (-1, b)
  end.

Fixpoint ramdisk_loop (fuel : nat) (q : Z) b : blk :=
  match fuel with
  | O => b
  | S fuel' =>
      match blk_fetch_request q b with
      | (None, b1) => b1
      | (Some rq, b1) =>
          let '(status, b2) := match requests b1 !! rq with Some r => ramdisk_transfer q (rq_bio r) b1 | None => (-1, b1) end in
          ramdisk_loop fuel' q (blk_complete_request q rq status b2)
      end
  end.

(** Every round takes a request off the queue. *)
Definition ramdisk_request_fn (q : Z) b : blk := ramdisk_loop (S (queue_length q b)) q b.
End brd.

Definition RAMDISK_FN : Z := 1.

#[export] Instance brd_drivers {M} `{!KAlloc M} : Drivers M brd := {|
  call_request_fn := fun fn q b => if fn =? RAMDISK_FN then ramdisk_request_fn q b else b;
  call_make_request_fn := fun _ _ _ b => (-1, b);
|}.

(** ** What a block device promises

    Transfers between a buffer and the contents of a device.  [W] carries the
    heap as well, from which the block layer and its clients allocate. *)

Class BlockDev (W : Type) := {
  bdev_read : Z -> Z -> Z -> list Z -> W -> Z * list Z * W;
  bdev_write : Z -> Z -> Z -> list Z -> W -> Z * W;
}.

Class BlockDevSpec (W : Type) `{!KAlloc W, !KAllocSpec W, !BlockDev W} := {
  disk_data : W -> Z -> option (list Z);
  dev_ok : W -> Prop;
  dev_ok_heap w : dev_ok w -> km_ok w;
  disk_small w d data : dev_ok w -> disk_data w d = Some data -> zlen data < 4294967296;
  disk_bytes w d data : dev_ok w -> disk_data w d = Some data -> Forall is_byte data;
  dev_kmalloc sz w : dev_ok w -> dev_ok (kmalloc sz w).2 /\ forall d, disk_data (kmalloc sz w).2 d = disk_data w d;
  dev_kfree p w : dev_ok w -> p ∈ live w -> dev_ok (kfree p w) /\ forall d, disk_data (kfree p w) d = disk_data w d;
  bdev_read_ok d off size buf w data :
    dev_ok w -> disk_data w d = Some data -> is_u32 off -> 0 < size < 4294967296 -> zlen buf = size ->
    let '(n, buf', w') := bdev_read d off size buf w in
    dev_ok w' /\ (forall d', disk_data w' d' = disk_data w d') /\ live w' = live w /\
    (n = 0 /\ buf' = buf \/
     off < zlen data /\ n = Z.min size (zlen data - off) /\ buf' = splice 0 (slice off n data) buf);
  bdev_write_ok d off size buf w data :
    dev_ok w -> disk_data w d = Some data -> is_u32 off -> 0 < size < 4294967296 -> zlen buf = size -> Forall is_byte buf ->
    let '(n, w') := bdev_write d off size buf w in
    dev_ok w' /\ live w' = live w /\
    (n = 0 /\ (forall d', disk_data w' d' = disk_data w d') \/
     off < zlen data /\ n = Z.min size (zlen data - off) /\ disk_data w' d = Some (splice off (slice 0 n buf) data) /\
     forall d', d' <> d -> disk_data w' d' = disk_data w d');
}.

(** The heap of the block layer. *)
#[export] Instance blk_kalloc {M D} `{!KAlloc M} : KAlloc (blk M D) := {|
  kmalloc := fun sz b => let '(o, h) := kmalloc sz (bheap b) in (o, with_bheap b h);
  kfree := fun p b => with_bheap b (kfree p (bheap b));
|}.

#[export] Instance blk_kalloc_spec {M D} `{!KAlloc M, !KAllocSpec M} : KAllocSpec (blk M D).
Proof.
  refine {| km_ok := fun b => km_ok (bheap b); live := fun b => live (bheap b) |}.
  - intros sz m m' Hok. cbn [kmalloc blk_kalloc]. destruct (kmalloc sz (bheap m)) as [o h] eqn:E. intros [= -> <-]. by apply (kmalloc_none sz).
  - intros sz m p m' Hok. cbn [kmalloc blk_kalloc]. destruct (kmalloc sz (bheap m)) as [o h] eqn:E. intros [= -> <-]. by apply (kmalloc_some sz).
  - intros p m. apply kfree_live.
  - intros p m. apply live_range.
Defined.

#[export] Instance ramdisk_dev {M} `{!KAlloc M} : BlockDev (blk M brd) := {|
  bdev_read := block_device_read; bdev_write := block_device_write;
|}.

(** ** The RAM disk keeps the promise *)

Section ramdisk.
Context {M : Type} `{!KAlloc M, !KAllocSpec M}.
Notation blk := (blk M brd).
Implicit Types b : blk.

(** The queue of a device, and the memory of its backend. *)
Definition dev_queue b (d : Z) : option Z := x ← bdevs b !! d; g ← bd_disk x; k ← disks b !! g; gd_queue k.
Definition dev_backend b (d : Z) : option Z :=
  q ← dev_queue b d; y ← queues b !! q; v ← brd_devs (drv b) !! queuedata y; brd_backend v.
Definition ramdisk_data b (d : Z) : option (list Z) := a ← dev_backend b d; o ← backends (drv b) !! a; o.

Definition idle (y : request_queue) : Prop :=
  request_fn y = Some RAMDISK_FN /\ queue_head y = [] /\ running y = false /\ queued y = 0 /\ in_flight y = 0 /\ 0 <= nr_requests y.

(** No request is under way; the devices are RAM disks with backends of their
    own, as large as the devices. *)
Record ramdisks_ok b : Prop := RamdisksOk {
  rd_heap : km_ok (bheap b);
  rd_requests : requests b = ∅;
  rd_queue d q : dev_queue b d = Some q -> exists y, queues b !! q = Some y /\ idle y;
  rd_data d data : ramdisk_data b d = Some data ->
    Forall is_byte data /\ exists x, bdevs b !! d = Some x /\ bd_size x = zlen data /\ bd_size x < 4294967296;
  rd_own d d' a : dev_backend b d = Some a -> dev_backend b d' = Some a -> d = d';
}.

Lemma upd_queue_eq f q b y : queues b !! q = Some y -> upd_queue f q b = with_queues b (<[q := f y]> (queues b)).
Proof.
  intros E. unfold upd_queue. f_equal. apply map_eq. intros k. destruct (decide (k = q)) as [->|]; simplify_map_eq; done.
Qed.

Definition fetched (rq : Z) (y : request_queue) : request_queue :=
  set_counts (less1 (queued y)) (in_flight y +w 1) (set_merge (forget rq (last_merge y)) (set_head (tail (queue_head y)) y)).
Definition completed (rq : Z) (y : request_queue) : request_queue :=
  set_counts (queued y) (less1 (in_flight y)) (set_merge (forget rq (last_merge y)) y).

(** The driver on a queue with one request. *)
Lemma ramdisk_one b q y rq i st b2 :
  queues b !! q = Some y -> queue_head y = [rq] -> requests b !! rq = Some (Request q i) ->
  ramdisk_transfer q i (with_queues b (<[q := fetched rq y]> (queues b))) = (st, b2) ->
  queues b2 = <[q := fetched rq y]> (queues b) -> requests b2 = requests b ->
  ramdisk_request_fn q b =
    with_bheap (with_requests (bio_endio i st (with_queues b2 (<[q := completed rq (fetched rq y)]> (queues b))))
                  (delete rq (requests b))) (kfree rq (bheap b2)).
Proof.
  intros Ey Eh Er Et E2 Er2. unfold ramdisk_request_fn, queue_length. rewrite Ey, Eh. cbn [length ramdisk_loop].
  unfold blk_fetch_request at 1, blk_peek_request. rewrite Ey. cbn [mbind option_bind]. rewrite Eh. cbn [hd_error].
  rewrite (upd_queue_eq _ q b y Ey). fold (fetched rq y). cbn [requests with_queues]. rewrite Er. cbn [rq_bio]. rewrite Et.
  unfold blk_complete_request. rewrite (upd_queue_eq _ q b2 (fetched rq y)) by (rewrite E2; apply lookup_insert_eq).
  rewrite Er2, Er, E2, insert_insert_eq. cbn [rq_bio]. fold (completed rq (fetched rq y)).
  unfold blk_fetch_request, blk_peek_request. cbn [with_bheap with_requests bio_endio upd_bio with_bios with_queues queues requests bheap].
  rewrite lookup_insert_eq. cbn [mbind option_bind]. unfold completed, fetched. cbn [set_counts set_merge set_head queue_head]. rewrite Eh. cbn [tail hd_error].
  by rewrite Er2.
Qed.

(** The device [d] is a RAM disk: its queue is [q], its memory [data] at [a]. *)
Record ramdisk_at b d x q y a data : Prop := RamdiskAt {
  ra_dev : bdevs b !! d = Some x;
  ra_queue : dev_queue b d = Some q;
  ra_y : queues b !! q = Some y;
  ra_idle : idle y;
  ra_backend : (v ← brd_devs (drv b) !! queuedata y; brd_backend v) = Some a;
  ra_data : backends (drv b) !! a = Some (Some data);
}.

Lemma queue_of_bio b d i z : bios b !! i = Some z -> bi_bdev z = d -> bio_queue i b = dev_queue b d.
Proof. intros E <-. unfold bio_queue, dev_queue. by rewrite E. Qed.

Lemma sectors off : is_u32 off -> (off / 512 *w 512) +w off mod 512 = off.
Proof.
  intros H. pose proof (Z.div_mod off 512 ltac:(lia)). pose proof (Z.mod_pos_bound off 512 ltac:(lia)). unfold is_u32 in H.
  assert (0 <= off / 512) by (apply Z.div_pos; lia). rewrite mul32_id by lia. rewrite add32_id by lia. lia.
Qed.

(** A device that only counted a transfer. *)
Definition counted (f : block_device -> block_device) : Prop :=
  forall z, bd_size (f z) = bd_size z /\ bd_disk (f z) = bd_disk z.

Lemma alter_bio (l : list bio) z f : alter f (length l) (l ++ [z]) = l ++ [f z].
Proof. induction l as [|c l IH]; [done|]. cbn. by f_equal. Qed.

(** What the driver does with the bio of a transfer. *)
Lemma ramdisk_moves b d x q y a data opf off n buf h rq :
  ramdisk_at b d x q y a data -> is_u32 off -> off < bd_size x < 4294967296 -> 0 < n -> n <= bd_size x - off ->
  opf = REQ_OP_READ \/ opf = REQ_OP_WRITE ->
  let z := Bio d (off / 512) (off mod 512) n buf opf 0 in
  let b0 := with_queues (with_requests (with_bheap (with_bios b (bios b ++ [z])) h) {[rq := Request q (length (bios b))]}) in
  forall qs, (exists y', qs !! q = Some y' /\ queuedata y' = queuedata y) ->
  exists f st, counted f /\
  ramdisk_transfer q (length (bios b)) (b0 qs) =
    (0, Blk qs {[rq := Request q (length (bios b))]}
          (bios b ++ [if opf =? REQ_OP_READ then set_buf (splice 0 (slice off n data) buf) z else z])
          (disks b) (alter f d (bdevs b)) (disk_map b) (bdev_map b) st (irqs_enabled b) h
          (if opf =? REQ_OP_READ then drv b
           else Brd (brd_devs (drv b)) (<[a := Some (splice off (slice 0 n buf) data)]> (backends (drv b))))).
Proof.
  intros [R1 R2 R3 R4 R5 R6] Hoff Hlt Hn Hfit Hopf z b0 qs (y' & Ey' & Eq).
  assert (Ez : (bios b ++ [z]) !! length (bios b) = Some z) by (by apply list_lookup_middle).
  assert (Ed : backend_data q (b0 qs) = Some (a, data)).
  { unfold backend_data, b0. cbn [with_queues with_requests with_bheap with_bios queues drv]. rewrite Ey'. cbn [mbind option_bind]. rewrite Eq.
    destruct (brd_devs (drv b) !! queuedata y) as [v|]; [|done]. cbn [mbind option_bind] in *. rewrite R5. cbn [mbind option_bind]. by rewrite R6. }
  unfold ramdisk_transfer. rewrite Ed. unfold b0. cbn [with_queues with_requests with_bheap with_bios bios bdevs]. rewrite Ez. subst z. cbn [bi_bdev]. rewrite R1.
  cbn [bi_size bi_sector bi_byte_offset bi_opf bi_buf]. destruct (Z.eqb_spec n 0); [lia|]. rewrite (sectors off Hoff).
  destruct (Z.leb_spec (bd_size x) off); [lia|]. unfold is_u32 in Hoff. rewrite add32_id by lia. destruct (Z.ltb_spec (bd_size x) (off + n)); [lia|].
  cbn [orb]. destruct Hopf as [-> | ->]; cbn [Z.eqb REQ_OP_READ REQ_OP_WRITE]; unfold block_account_io, upd_bio;
    destruct (Z.eqb_spec n 0); try lia; cbn [with_queues with_requests with_bheap with_bios with_drv upd_bdev with_bdevs with_io queues requests bios disks bdevs disk_map bdev_map io irqs_enabled bheap drv];
    rewrite ?alter_bio; eexists _, _; (split; [|reflexivity]); by intros [].
Qed.

(** The clipped size of a transfer. *)
Lemma clip_min total off size :
  0 <= off < total -> total < 4294967296 -> 0 < size ->
  (if total - off <? size then u32 (total - off) else size) = Z.min size (total - off).
Proof. intros. destruct (Z.ltb_spec (total - off) size); [rewrite u32_id by (unfold is_u32; lia)|]; lia. Qed.

Lemma not_full y (c : bool) : idle y -> negb (nr_requests y =? 0) && queue_full y && c = false.
Proof.
  intros (_ & _ & _ & E1 & E2 & H). unfold queue_full. rewrite E1, E2. change (0 +w 0) with 0.
  destruct (Z.eqb_spec (nr_requests y) 0); [done|]. by destruct (Z.leb_spec (nr_requests y) 0); [lia|].
Qed.

Lemma transfer_idle b d x q y a data opf off size buf :
  ramdisk_at b d x q y a data -> requests b = ∅ -> is_u32 off -> off < bd_size x < 4294967296 -> 0 < size < 4294967296 ->
  opf = REQ_OP_READ \/ opf = REQ_OP_WRITE ->
  let n := Z.min size (bd_size x - off) in
  match kmalloc SIZEOF_REQUEST (bheap b) with
  | (None, h) => transfer d opf off size buf b = (0, buf, with_bheap b h)
  | (Some rq, h) => exists f st, counted f /\
      transfer d opf off size buf b =
        (n, if opf =? REQ_OP_READ then splice 0 (slice off n data) buf else buf,
         Blk (<[q := set_merge None y]> (queues b)) ∅ (bios b) (disks b) (alter f d (bdevs b)) (disk_map b) (bdev_map b) st
           (irqs_enabled b) (kfree rq h)
           (if opf =? REQ_OP_READ then drv b
            else Brd (brd_devs (drv b)) (<[a := Some (splice off (slice 0 n buf) data)]> (backends (drv b)))))
  end.
Proof.
  intros HR Hrq Hoff Hlt Hsz Hopf n. pose proof HR as [R1 R2 R3 R4 R5 R6]. pose proof R4 as (I1 & I2 & I3 & I4 & I5 & I6).
  assert (Hn : 0 < n <= bd_size x - off) by (unfold n; lia).
  unfold transfer. rewrite R1. destruct (Z.eqb_spec size 0); [lia|]. destruct (Z.leb_spec (bd_size x) off); [lia|].
  rewrite clip_min by (unfold is_u32 in *; lia). fold n. set (z := Bio d (off / 512) (off mod 512) n buf opf 0).
  assert (Ez : (bios b ++ [z]) !! length (bios b) = Some z) by (by apply list_lookup_middle).
  unfold submit_bio. cbn [with_bios bios]. rewrite Ez. cbn [z bi_size]. destruct (Z.eqb_spec n 0); [lia|].
  unfold generic_make_request. rewrite (queue_of_bio _ d _ z) by done.
  change (dev_queue _ d) with (dev_queue b d). rewrite R2. cbn [with_bios queues]. rewrite R3, I1.
  rewrite <- (andb_assoc _ (negb (running y))), (not_full y _ R4). cbn [with_bios queues bheap]. rewrite R3, (not_full y _ R4).
  destruct (kmalloc SIZEOF_REQUEST (bheap b)) as [[rq|] h] eqn:Ek.
  - rewrite I3. set (y1 := set_running true (set_counts (queued y +w 1) (in_flight y) (set_merge (Some rq) (set_head (queue_head y ++ [rq]) y)))).
    unfold run_queue. cbn [call_request_fn brd_drivers]. change (RAMDISK_FN =? RAMDISK_FN) with true. cbv iota.
    unfold blk_rq_init. cbn [with_bheap with_bios requests]. rewrite Hrq. change (<[rq := ?r]> ∅) with ({[rq := r]} : gmap Z request).
    set (b0 := with_requests _ {[rq := _]}). rewrite (upd_queue_eq _ q b0 y R3).
    erewrite (upd_queue_eq (set_running true) q (with_queues b0 _)) by (apply lookup_insert_eq). cbn [queues with_queues].
    rewrite insert_insert_eq. fold y1.
    destruct (ramdisk_moves b d x q y a data opf off n buf h rq HR Hoff ltac:(lia) ltac:(lia) ltac:(lia) Hopf (<[q := fetched rq y1]> (queues b))) as (f & st & Hf & Em).
    { exists (fetched rq y1). split; [apply lookup_insert_eq|done]. }
    fold z in Em. exists f, st. split; [exact Hf|].
    erewrite (ramdisk_one _ q y1 rq (length (bios b))); cycle 1.
    { apply lookup_insert_eq. } { cbn. by rewrite I2. } { apply lookup_singleton_eq. }
    { cbn [queues with_queues]. rewrite insert_insert_eq. exact Em. } { cbn [queues with_queues]. by rewrite insert_insert_eq. } { reflexivity. }
    set (b3 := with_bheap _ _). rewrite (upd_queue_eq (set_running false) q b3 (completed rq (fetched rq y1))) by (apply lookup_insert_eq).
    change (negb (0 =? 0)) with false. change (0 =? 0) with true. cbn [andb].
    unfold b3, bio_endio, upd_bio. cbn [with_queues with_requests with_bheap with_bios queues requests bios disks bdevs disk_map bdev_map io irqs_enabled bheap drv].
    rewrite alter_bio, list_lookup_middle, take_app_length by done. rewrite !insert_insert_eq.
    assert (Ey : set_running false (completed rq (fetched rq y1)) = set_merge None y).
    { unfold completed, fetched, y1, forget. cbn. rewrite (bool_decide_true (Some rq = Some rq)) by done.
      rewrite bool_decide_false by done. rewrite I4, I5. destruct y; cbn in *. by subst. }
    rewrite Ey. unfold b0. cbn [requests with_requests]. rewrite delete_singleton_eq. by destruct (opf =? REQ_OP_READ).
  - unfold bio_endio, upd_bio. cbn [with_bheap with_bios bios]. rewrite alter_bio, list_lookup_middle by done. cbn [set_status bi_status bi_buf].
    change (-1 =? 0) with false. cbn [andb negb]. cbn [with_bios bios]. rewrite list_lookup_middle by done. cbn [bi_buf bi_status]. rewrite take_app_length. done.
Qed.

(** The state after a transfer on [d]; only the memory of the disks differs. *)
Record transferred b d q y b' : Prop := Transferred {
  tr_queues : queues b' = <[q := set_merge None y]> (queues b);
  tr_requests : requests b' = ∅;
  tr_disks : disks b' = disks b;
  tr_bdevs : exists f, counted f /\ bdevs b' = alter f d (bdevs b);
  tr_devs : brd_devs (drv b') = brd_devs (drv b);
}.

Lemma transferred_queue b d q y b' : transferred b d q y b' -> forall d', dev_queue b' d' = dev_queue b d'.
Proof.
  intros [_ _ T3 (f & Hf & T4) _] d'. unfold dev_queue. rewrite T3, T4, lookup_alter.
  destruct (decide (d = d')) as [->|]; [|done]. destruct (bdevs b !! d') as [x|]; [|done]. cbn. by rewrite (proj2 (Hf x)).
Qed.

Lemma transferred_backend b d q y b' :
  queues b !! q = Some y -> transferred b d q y b' -> forall d', dev_backend b' d' = dev_backend b d'.
Proof.
  intros Ey HT d'. unfold dev_backend. rewrite (transferred_queue b d q y b' HT). destruct HT as [T1 _ _ _ T5].
  destruct (dev_queue b d') as [q'|]; [|done]. cbn [mbind option_bind]. rewrite T1, T5.
  destruct (decide (q' = q)) as [->|]; [by rewrite lookup_insert_eq, Ey|by rewrite lookup_insert_ne by done].
Qed.

Lemma transferred_ok b d q y b' :
  ramdisks_ok b -> queues b !! q = Some y -> idle y -> transferred b d q y b' -> km_ok (bheap b') ->
  (forall d' data', ramdisk_data b' d' = Some data' -> Forall is_byte data' /\ exists data, ramdisk_data b d' = Some data /\ zlen data' = zlen data) ->
  ramdisks_ok b'.
Proof.
  intros [O1 O2 O3 O4 O5] Ey Hy HT Hh Hd. pose proof (transferred_queue _ _ _ _ _ HT) as Hq. pose proof (transferred_backend _ _ _ _ _ Ey HT) as Hb.
  destruct HT as [T1 T2 T3 (f & Hf & T4) T5]. split; [done|done| | |].
  - intros d' q' E. rewrite Hq in E. destruct (O3 d' q' E) as (y' & E' & Hi). rewrite T1.
    destruct (decide (q' = q)) as [->|]; [|exists y'; by rewrite lookup_insert_ne by done].
    exists (set_merge None y). by rewrite lookup_insert_eq.
  - intros d' data' E. destruct (Hd d' data' E) as (HB & data & E' & El). split; [done|]. destruct (O4 d' data E') as (_ & x & Ex & Hs & Hlt).
    rewrite T4. destruct (decide (d = d')) as [->|].
    + exists (f x). rewrite lookup_alter_eq, Ex. by rewrite (proj1 (Hf x)), El.
    + exists x. by rewrite lookup_alter_ne, El by done.
  - intros d1 d2 a E1 E2. rewrite Hb in E1, E2. by apply (O5 d1 d2 a).
Qed.

Lemma ramdisk_there b d data :
  ramdisks_ok b -> ramdisk_data b d = Some data ->
  exists x q y a, ramdisk_at b d x q y a data /\ bd_size x = zlen data /\ bd_size x < 4294967296 /\ dev_backend b d = Some a.
Proof.
  intros [O1 O2 O3 O4 O5] E. destruct (O4 d data E) as (HB & x & Ex & Hs & Hlt). pose proof E as E'. unfold ramdisk_data in E'.
  destruct (dev_backend b d) as [a|] eqn:Ea; [|done]. pose proof Ea as Ea'. unfold dev_backend in Ea'. destruct (dev_queue b d) as [q|] eqn:Eq; [|done].
  cbn [mbind option_bind] in *. destruct (O3 d q Eq) as (y & Ey & Hi). rewrite Ey in Ea'. cbn [mbind option_bind] in Ea'.
  exists x, q, y, a. split_and!; try done. split; try done. by destruct (backends (drv b) !! a) as [o|]; [cbn in E'; subst|].
Qed.

(** A transfer is carried out if it starts inside the device and there is
    memory for the request. *)
Definition served b (data : list Z) (off : Z) : Prop := off < zlen data /\ is_Some (kmalloc SIZEOF_REQUEST (bheap b)).1.

Lemma transfer_post b d data opf off size buf :
  ramdisks_ok b -> ramdisk_data b d = Some data -> is_u32 off -> 0 < size < 4294967296 -> zlen buf = size ->
  opf = REQ_OP_READ \/ opf = REQ_OP_WRITE /\ Forall is_byte buf ->
  let '(n, buf', b') := transfer d opf off size buf b in
  ramdisks_ok b' /\ live (bheap b') = live (bheap b) /\
  (~ served b data off /\ n = 0 /\ buf' = buf /\ (forall d', ramdisk_data b' d' = ramdisk_data b d') \/
   served b data off /\ n = Z.min size (zlen data - off) /\
   buf' = (if opf =? REQ_OP_READ then splice 0 (slice off n data) buf else buf) /\
   ramdisk_data b' d = Some (if opf =? REQ_OP_READ then data else splice off (slice 0 n buf) data) /\
   forall d', d' <> d -> ramdisk_data b' d' = ramdisk_data b d').
Proof.
  intros Hok Ed Hoff Hsz Hbuf Hopf. destruct (ramdisk_there b d data Hok Ed) as (x & q & y & a & HR & Hs & Hlt & Ha).
  destruct (Z.leb_spec (zlen data) off) as [Hge|Hin].
  { unfold transfer. rewrite (ra_dev _ _ _ _ _ _ _ HR), Hs. destruct (Z.eqb_spec size 0); [lia|]. destruct (Z.leb_spec (zlen data) off); [|lia].
    split_and!; try done. left. split; [unfold served; lia|done]. }
  pose proof (transfer_idle b d x q y a data opf off size buf HR (rd_requests _ Hok) Hoff ltac:(lia) Hsz ltac:(tauto)) as HT.
  rewrite Hs in HT. set (n := Z.min size (zlen data - off)) in *. destruct (kmalloc SIZEOF_REQUEST (bheap b)) as [[rq|] h] eqn:Ek.
  - destruct HT as (f & st & Hf & ->). destruct (kmalloc_some _ _ _ _ (rd_heap _ Hok) Ek) as (K1 & K2 & K3 & K4).
    destruct (kfree_live rq h K1 ltac:(rewrite K4; set_solver)) as [F1 F2]. set (b' := Blk _ _ _ _ _ _ _ _ _ _ _).
    assert (HT : transferred b d q y b') by (split; [done|done|done|by exists f|by destruct (opf =? REQ_OP_READ)]).
    assert (Hd : forall d', ramdisk_data b' d' =
      if decide (d' = d) then Some (if opf =? REQ_OP_READ then data else splice off (slice 0 n buf) data) else ramdisk_data b d').
    { intros d'. unfold ramdisk_data. rewrite (transferred_backend b d q y b' (ra_y _ _ _ _ _ _ _ HR) HT). unfold b'. cbn [drv].
      case_decide as Hdd; [subst d'; rewrite Ha|destruct (dev_backend b d') as [a'|] eqn:Ea'; [|done]]; cbn [mbind option_bind].
      - destruct (opf =? REQ_OP_READ); [by rewrite (ra_data _ _ _ _ _ _ _ HR)|by cbn [backends]; rewrite lookup_insert_eq].
      - destruct (opf =? REQ_OP_READ); [done|]. cbn [backends]. rewrite lookup_insert_ne; [done|]. intros ->. by apply Hdd, (rd_own _ Hok d' d a'). }
    assert (Hlen : zlen (slice 0 n buf) = n) by (apply zlen_slice; lia).
    destruct (rd_data _ Hok d data Ed) as [HB _].
    split_and!.
    + apply (transferred_ok b d q y b' Hok (ra_y _ _ _ _ _ _ _ HR) (ra_idle _ _ _ _ _ _ _ HR) HT F1). intros d' data'. rewrite Hd. case_decide as Hdd.
      * subst d'. intros [= <-]. destruct Hopf as [-> |[-> HF]]; cbn [Z.eqb REQ_OP_READ REQ_OP_WRITE].
        { split; [done|by exists data]. }
        split; [by apply Forall_splice; [apply Forall_slice|]|]. exists data. split; [done|]. apply zlen_splice; unfold is_u32 in *; lia.
      * intros E. split; [apply (rd_data _ Hok d' data' E)|by exists data'].
    + unfold b'. cbn [bheap]. rewrite F2, K4. set_solver.
    + right. split_and!; try done; [split; [done|rewrite Ek; by eexists]|rewrite Hd; by rewrite decide_True|intros d' Hne; by rewrite Hd, decide_False].
  - rewrite HT. destruct (kmalloc_none _ _ _ (rd_heap _ Hok) Ek) as (K1 & K2). destruct Hok as [O1 O2 O3 O4 O5].
    split_and!; [by split|done|]. left. split; [|done]. intros [_ H]. rewrite Ek in H. by destruct H.
Qed.

#[export] Instance ramdisk_spec : BlockDevSpec blk.
Proof.
  refine {| disk_data := ramdisk_data; dev_ok := ramdisks_ok |}.
  - apply rd_heap.
  - intros w d data Hok E. destruct (rd_data _ Hok d data E) as (_ & x & _ & <- & ?). done.
  - intros w d data Hok E. apply (rd_data _ Hok d data E).
  - intros sz w [O1 O2 O3 O4 O5]. cbn [kmalloc blk_kalloc]. destruct (kmalloc sz (bheap w)) as [[p|] h] eqn:Ek; cbn [snd].
    + destruct (kmalloc_some _ _ _ _ O1 Ek) as (K1 & _). by split; [split|].
    + destruct (kmalloc_none _ _ _ O1 Ek) as (K1 & _). by split; [split|].
  - intros p w [O1 O2 O3 O4 O5] Hp. destruct (kfree_live p (bheap w) O1 Hp) as [F1 _]. by split; [split|].
  - intros d off size buf w data Hok Ed Hoff Hsz Hbuf. cbn [bdev_read ramdisk_dev]. unfold block_device_read.
    pose proof (transfer_post w d data REQ_OP_READ off size buf Hok Ed Hoff Hsz Hbuf ltac:(by left)) as HT.
    destruct (transfer d REQ_OP_READ off size buf w) as [[n buf'] w']. destruct HT as (H1 & H2 & HT). split_and!; [done| |done|].
    + destruct HT as [(_ & _ & _ & H)|(_ & _ & _ & H & H')]; [done|]. intros d'. destruct (decide (d' = d)) as [->|]; [by rewrite H, Ed|by apply H'].
    + destruct HT as [(_ & -> & -> & _)|([H _] & -> & -> & _)]; [by left|by right].
  - intros d off size buf w data Hok Ed Hoff Hsz Hbuf HF. cbn [bdev_write ramdisk_dev]. unfold block_device_write.
    pose proof (transfer_post w d data REQ_OP_WRITE off size buf Hok Ed Hoff Hsz Hbuf ltac:(by right)) as HT.
    destruct (transfer d REQ_OP_WRITE off size buf w) as [[n buf'] w']. destruct HT as (H1 & H2 & HT). split_and!; [done|done|].
    destruct HT as [(_ & -> & _ & H)|([H _] & -> & _ & Hd & H')]; [by left|by right].
Defined.

(** C14: transfers of a RAM disk.  With no request under way, a transfer that
    starts inside the device, with memory for the request, moves all bytes up
    to the end of the device and returns their number: a read stores them in
    the buffer and leaves every device as it was, a write stores them on this
    device and touches no other byte.  Any other transfer returns 0 and changes
    nothing.  In all cases the queue is empty again and the request is freed. *)
Theorem block_device_io_correct b d data off size buf :
  ramdisks_ok b -> ramdisk_data b d = Some data -> is_u32 off -> 0 < size < 4294967296 -> zlen buf = size -> Forall is_byte buf ->
  let '(n, buf1, b1) := block_device_read d off size buf b in
  let '(m, b2) := block_device_write d off size buf b in
  let fit := Z.min size (zlen data - off) in
  ramdisks_ok b1 /\ live (bheap b1) = live (bheap b) /\ ramdisks_ok b2 /\ live (bheap b2) = live (bheap b) /\
  (forall d', ramdisk_data b1 d' = ramdisk_data b d') /\
  (forall d', d' <> d -> ramdisk_data b2 d' = ramdisk_data b d') /\
  (served b data off -> n = fit /\ buf1 = splice 0 (slice off fit data) buf /\
     m = fit /\ ramdisk_data b2 d = Some (splice off (slice 0 fit buf) data)) /\
  (~ served b data off -> n = 0 /\ buf1 = buf /\ m = 0 /\ ramdisk_data b2 d = Some data).
Proof.
  intros Hok Ed Hoff Hsz Hbuf HF. unfold block_device_read, block_device_write.
  pose proof (transfer_post b d data REQ_OP_READ off size buf Hok Ed Hoff Hsz Hbuf ltac:(by left)) as H1.
  pose proof (transfer_post b d data REQ_OP_WRITE off size buf Hok Ed Hoff Hsz Hbuf ltac:(by right)) as H2.
  destruct (transfer d REQ_OP_READ off size buf b) as [[n buf1] b1]. destruct (transfer d REQ_OP_WRITE off size buf b) as [[m buf2] b2].
  destruct H1 as (A1 & A2 & HT1), H2 as (B1 & B2 & HT2). cbn [Z.eqb REQ_OP_READ REQ_OP_WRITE] in *. rewrite <- Ed. split_and!; try done.
  - destruct HT1 as [(_ & _ & _ & H)|(_ & _ & _ & H & H')]; [done|]. intros d'. destruct (decide (d' = d)) as [->|]; [by rewrite H, Ed|by apply H'].
  - intros d' Hne. destruct HT2 as [(_ & _ & _ & H)|(_ & _ & _ & _ & H')]; [done|by apply H'].
  - intros Hs. destruct HT1 as [(? & _)|(_ & -> & -> & _)]; [done|]. destruct HT2 as [(? & _)|(_ & -> & _ & H & _)]; [done|]. done.
  - intros Hs. destruct HT1 as [(_ & -> & -> & _)|(? & _)]; [|done]. destruct HT2 as [(_ & -> & _ & H)|(? & _)]; [|done]. done.
Qed.
End ramdisk.

(** A machine with one RAM disk of 2048 bytes. *)
Module RamdiskDemo.
Definition data : list Z := replicate 1024 7 ++ replicate 1024 9.
Definition queue : request_queue := Queue [] None None (Some RAMDISK_FN) 6 false 128 0 0.
(** A RAM disk, the block device 5, with this contents. *)
Definition disk (l : list Z) : blk Heap.heap brd :=
  Blk {[3 := queue]} ∅ [] {[4 := Gendisk 1 0 (Some 3) (zlen l / 512) 512 6]} {[5 := Bdev 1048576 (zlen l) 512 0 0 0 0 1 0 (Some 4) None 7]}
    [(1048576, 4)] [(1048576, 5)] (IoStats 0 0 0 0) true (Heap.Build_heap 64 4096 {[3; 4; 5; 6; 7]})
    (Brd {[6 := BrdDevice 0 3 4 (Some 7)]} {[7 := Some l]}).
Definition b := disk data.

Lemma disk_contents l : ramdisk_data (disk l) 5 = Some l.
Proof. reflexivity. Qed.

Lemma no_other_disk l d : d <> 5 -> dev_queue (disk l) d = None.
Proof. intros. unfold dev_queue. cbn [bdevs disk]. by rewrite lookup_singleton_ne. Qed.

Lemma disk_ok l : Forall is_byte l -> zlen l < 4294967296 -> ramdisks_ok (disk l).
Proof.
  intros HB Hl. split.
  - intros p Hp. cbn [bheap disk Heap.used] in Hp. assert (p = 3 \/ p = 4 \/ p = 5 \/ p = 6 \/ p = 7) by set_solver. cbn. lia.
  - done.
  - intros d q E. destruct (decide (d = 5)) as [->|Hd]; [|by rewrite no_other_disk in E]. injection E as <-. exists queue. by repeat split.
  - intros d l' E. destruct (decide (d = 5)) as [->|Hd]; [|by unfold ramdisk_data, dev_backend in E; rewrite no_other_disk in E].
    rewrite disk_contents in E. injection E as <-. split; [done|]. exists (Bdev 1048576 (zlen l) 512 0 0 0 0 1 0 (Some 4) None 7). by split_and!.
  - intros d d' a E E'. destruct (decide (d = 5)) as [->|Hd]; [|by unfold dev_backend in E; rewrite no_other_disk in E].
    destruct (decide (d' = 5)) as [->|Hd]; [done|by unfold dev_backend in E'; rewrite no_other_disk in E'].
Qed.

Lemma ramdisk_demo_ok : ramdisks_ok b.
Proof. apply disk_ok; [apply Forall_app; split; apply Forall_replicate; unfold is_byte; lia|done]. Qed.
End RamdiskDemo.

Lemma block_device_io_correct_witness :
  exists b1 b2, block_device_read 5 1020 4 [0; 0; 0; 0] RamdiskDemo.b = (4, [7; 7; 7; 7], b1) /\
    block_device_write 5 1020 4 [0; 0; 0; 0] RamdiskDemo.b = (4, b2) /\ ramdisks_ok b1 /\ ramdisks_ok b2.
Proof.
  pose proof (block_device_io_correct RamdiskDemo.b 5 RamdiskDemo.data 1020 4 [0; 0; 0; 0] RamdiskDemo.ramdisk_demo_ok (RamdiskDemo.disk_contents RamdiskDemo.data)
    ltac:(unfold is_u32; lia) ltac:(lia) ltac:(reflexivity) ltac:(repeat constructor; unfold is_byte; lia)) as H.
  destruct (block_device_read 5 1020 4 [0; 0; 0; 0] RamdiskDemo.b) as [[n buf1] b1].
  destruct (block_device_write 5 1020 4 [0; 0; 0; 0] RamdiskDemo.b) as [m b2].
  destruct H as (H1 & _ & H2 & _ & _ & _ & H & _). destruct H as (-> & -> & -> & _).
  { split; [reflexivity|]. vm_compute. eexists. reflexivity. }
  exists b1, b2. split_and!; [|reflexivity|exact H1|exact H2]. f_equal.
Defined.
