(* ===== verification/Buffer.v ===== *)
(** * The buffer cache ([fs/buffer.c])

    Buffers hold blocks of block devices, found through a hash table over
    device, block number and size, and linked in a list from the oldest to the
    newest.  The buffers and their data are heap objects.  [wb_stats] are the
    counters of [mm/page-writeback.c]. *)

From stdpp Require Import base tactics numbers list gmap sets.
From Stdlib Require Import ZArith Lia.
From S2P Require Import Prelude Bytes Block.

Definition BH_HASH_SIZE : nat := 64.
Definition BH_MAX : Z := 1024.
Definition BH_Uptodate : Z := 1.
Definition BH_Dirty : Z := 2.
Definition SIZEOF_BH : Z := 36.

(** ** Counters of write-back ([mm/page-writeback.c]) *)

Record wb_stats : Type := Wb { wb_dirty_pages : Z; wb_cleaned_pages : Z; wb_discarded_pages : Z; wb_throttled : Z }.

Definition writeback_account_dirtied (s : wb_stats) : wb_stats :=
  Wb (wb_dirty_pages s +w 1) (wb_cleaned_pages s) (wb_discarded_pages s) (wb_throttled s).
Definition writeback_account_discarded (s : wb_stats) : wb_stats :=
  Wb (if wb_dirty_pages s =? 0 then 0 else wb_dirty_pages s -w 1) (wb_cleaned_pages s) (wb_discarded_pages s +w 1) (wb_throttled s).
Definition writeback_account_cleaned (s : wb_stats) : wb_stats :=
  Wb (if wb_dirty_pages s =? 0 then 0 else wb_dirty_pages s -w 1) (wb_cleaned_pages s +w 1) (wb_discarded_pages s) (wb_throttled s).

(** ** State *)

(** [b_data] is the address of the data and its contents. *)
Record buffer_head : Type := Bh { b_bdev : Z; b_blocknr : Z; b_size : Z; b_data : Z * list Z; b_state : Z; b_count : Z }.

Definition set_b_data l (r : buffer_head) := Bh (b_bdev r) (b_blocknr r) (b_size r) ((b_data r).1, l) (b_state r) (b_count r).
Definition set_b_state s (r : buffer_head) := Bh (b_bdev r) (b_blocknr r) (b_size r) (b_data r) s (b_count r).
Definition set_b_count n (r : buffer_head) := Bh (b_bdev r) (b_blocknr r) (b_size r) (b_data r) (b_state r) n.

Record bcache (W : Type) : Type := Bcache {
  bhs : gmap Z buffer_head;
  bh_hash : list (list Z);
  bh_all : list Z;
  bh_total : Z;
  wb : wb_stats;
  bw : W;
}.
Arguments Bcache {W}. Arguments bhs {W}. Arguments bh_hash {W}. Arguments bh_all {W}. Arguments bh_total {W}. Arguments wb {W}. Arguments bw {W}.

Section code.
Context {W : Type} `{!KAlloc W, !BlockDev W}.
Notation bcache := (bcache W).
Implicit Types c : bcache.

Definition with_bhs c v : bcache := Bcache v (bh_hash c) (bh_all c) (bh_total c) (wb c) (bw c).
Definition with_wb c v : bcache := Bcache (bhs c) (bh_hash c) (bh_all c) (bh_total c) v (bw c).
Definition with_bw c v : bcache := Bcache (bhs c) (bh_hash c) (bh_all c) (bh_total c) (wb c) v.
Definition upd_bh (f : buffer_head -> buffer_head) (a : Z) c : bcache := with_bhs c (alter f a (bhs c)).

Definition bh_hashfn (bdev block size : Z) : nat :=
  Z.to_nat (Z.land (Z.lxor (Z.lxor bdev (block *w 2654435761)) (size *w 40503)) 63).

Definition bh_matches c (bdev block size : Z) (a : Z) : bool :=
  match bhs c !! a with Some r => (b_bdev r =? bdev) && (b_blocknr r =? block) && (b_size r =? size) | None => false end.

Definition bh_lookup (bdev block size : Z) c : option Z :=
  List.find (bh_matches c bdev block size) (bh_hash c !!! bh_hashfn bdev block size).

Definition bh_hash_of (r : buffer_head) : nat := bh_hashfn (b_bdev r) (b_blocknr r) (b_size r).

(** [bh_hash_insert] and [bh_all_add_tail]; [bh_hash_remove] and [bh_all_del] *)
Definition bh_hash_insert (a : Z) (r : buffer_head) (t : list (list Z)) : list (list Z) := alter (cons a) (bh_hash_of r) t.
Definition bh_all_add_tail (a : Z) (l : list Z) : list Z := l ++ [a].
Definition bh_hash_remove (a : Z) (r : buffer_head) (t : list (list Z)) : list (list Z) := alter (unlink_from a) (bh_hash_of r) t.
Definition bh_all_del (a : Z) (l : list Z) : list Z := unlink_from a l.

Definition evictable c (a : Z) : bool :=
  match bhs c !! a with Some r => (b_count r =? 0) && negb (has (b_state r) BH_Dirty) | None => false end.

Definition bh_evict_one c : bool * bcache :=
  match List.find (evictable c) (bh_all c) with
  | None => (false, c)
  | Some a =>
      match bhs c !! a with
      | None => (false, c)
      | Some r =>
          (true, Bcache (delete a (bhs c)) (bh_hash_remove a r (bh_hash c)) (bh_all_del a (bh_all c))
                   (if bh_total c =? 0 then 0 else bh_total c -w 1) (wb c) (kfree a (kfree (b_data r).1 (bw c))))
      end
  end.

(** A new buffer.  The data of a fresh object is not initialised; the model has
    zeroes there, which nobody reads before the buffer is filled. *)
Definition bh_alloc (bdev block size : Z) c : option Z * bcache :=
  let '(ok, c1) := if BH_MAX <=? bh_total c then bh_evict_one c else (true, c) in
  if negb ok then (None, c1) else
  match kmalloc SIZEOF_BH (bw c1) with
  | (None, w) => (None, with_bw c1 w)
  | (Some a, w) =>
      match kmalloc size w with
      | (None, w') => (None, with_bw c1 (kfree a w'))
      | (Some p, w') =>
          let r := Bh bdev block size (p, zeroes size) 0 1 in
          (Some a, Bcache (<[a := r]> (bhs c1)) (bh_hash_insert a r (bh_hash c1)) (bh_all_add_tail a (bh_all c1)) (bh_total c1 +w 1) (wb c1) w')
      end
  end.

Definition brelse (a : Z) c : bcache := upd_bh (fun r => set_b_count (if b_count r =? 0 then 0 else b_count r -w 1) r) a c.

(** Fills a buffer that is not up to date. *)
Definition bh_fill (a : Z) (bdev block size : Z) c : option Z * bcache :=
  match bhs c !! a with
  | None => (None, c)
  | Some r =>
      if has (b_state r) BH_Uptodate then (Some a, c) else
      let '(n, data, w) := bdev_read bdev (block *w size) size (b_data r).2 (bw c) in
      if negb (n =? size) then
        (None, brelse a (upd_bh (fun r => set_b_state (Z.land (b_state r) (not32 BH_Uptodate)) (set_b_data (zeroes size) r)) a (with_bw c w)))
      else (Some a, upd_bh (fun r => set_b_state (Z.lor (b_state r) BH_Uptodate) (set_b_data data r)) a (with_bw c w))
  end.

Definition bread (bdev block size : Z) c : option Z * bcache :=
  if size =? 0 then (None, c) else
  match bh_lookup bdev block size c with
  | Some a => bh_fill a bdev block size (upd_bh (fun r => set_b_count (b_count r +w 1) r) a c)
  | None =>
      match bh_alloc bdev block size c with
      | (None, c1) => (None, c1)
      | (Some a, c1) => bh_fill a bdev block size c1
      end
  end.

Definition mark_buffer_dirty (a : Z) c : bcache :=
  match bhs c !! a with
  | None => c
  | Some r =>
      let c1 := if has (b_state r) BH_Dirty then c else with_wb c (writeback_account_dirtied (wb c)) in
      upd_bh (set_b_state (Z.lor (b_state r) BH_Dirty)) a c1
  end.

Definition sync_dirty_buffer (a : Z) c : Z * bcache :=
  match bhs c !! a with
  | None => (-1, c)
  | Some r =>
      if b_size r =? 0 then (-1, c)
      else if negb (has (b_state r) BH_Dirty) then (0, c)
      else
        let '(n, w) := bdev_write (b_bdev r) (b_blocknr r *w b_size r) (b_size r) (b_data r).2 (bw c) in
        if negb (n =? b_size r) then (-1, with_bw c w)
        else
          let s := Z.lor (Z.land (b_state r) (not32 BH_Dirty)) BH_Uptodate in
          (0, with_wb (upd_bh (set_b_state s) a (with_bw c w)) (writeback_account_cleaned (wb c)))
  end.

Fixpoint sync_list (l : list Z) (flushed : Z) c : Z * bcache :=
  match l with
  | [] => (flushed, c)
  | a :: l' =>
      match bhs c !! a with
      | Some r =>
          if has (b_state r) BH_Dirty
          then let '(e, c1) := sync_dirty_buffer a c in sync_list l' (if e =? 0 then flushed + 1 else flushed) c1
          else sync_list l' flushed c
      | None => sync_list l' flushed c
      end
  end.

Definition sync_dirty_buffers_all c : Z * bcache := sync_list (bh_all c) 0 c.
Definition sync_mapping_buffers c : Z * bcache := sync_dirty_buffers_all c.

Definition invalidate_buffer (bdev block size : Z) c : bcache :=
  if size =? 0 then c else
  match bh_lookup bdev block size c with
  | None => c
  | Some a =>
      match bhs c !! a with
      | None => c
      | Some r =>
          let c1 := if has (b_state r) BH_Dirty then with_wb c (writeback_account_discarded (wb c)) else c in
          upd_bh (set_b_state (Z.land (b_state r) (not32 (Z.lor BH_Uptodate BH_Dirty)))) a c1
      end
  end.

(** ** Blocks of the Minix file system ([fs/minix/inode.c]) *)

Definition MINIX_BLOCK_SIZE : Z := 1024.

Definition minix_bread (bdev block : Z) c : option (list Z) * bcache :=
  match bread bdev block MINIX_BLOCK_SIZE c with
  | (None, c1) => (None, c1)
  | (Some a, c1) => (snd <$> (b_data <$> bhs c1 !! a), brelse a c1)
  end.

Definition minix_bwrite (bdev block : Z) (buf : list Z) c : bool * bcache :=
  match bread bdev block MINIX_BLOCK_SIZE c with
  | (None, c1) => (false, c1)
  | (Some a, c1) =>
      let c2 := mark_buffer_dirty a (upd_bh (set_b_data buf) a c1) in
      let '(err, c3) := sync_dirty_buffer a c2 in
      (err =? 0, brelse a c3)
  end.
End code.

(** ** The blocks behind the cache *)

Section proofs.
Context {W : Type} `{!KAlloc W, !KAllocSpec W, !BlockDev W, !BlockDevSpec W}.
Notation bcache := (bcache W).
Implicit Types (c : bcache) (r : buffer_head).

(** The size of the blocks. *)
Variable sz : Z.
Hypothesis Hsz : 0 < sz < 4294967296.

Definition uptodate r : bool := has (b_state r) BH_Uptodate.
Definition dirty r : bool := has (b_state r) BH_Dirty.
Definition key r : Z * Z := (b_bdev r, b_blocknr r).

(** The block is on a device with these contents. *)
Definition fits (data : list Z) (k : Z) : Prop := 0 <= k /\ k * sz + sz <= zlen data.
#[export] Instance fits_dec data k : Decision (fits data k).
Proof. unfold fits. apply _. Defined.

Definition block_of (data : list Z) (k : Z) : list Z := slice (k * sz) sz data.

Record buf_ok w r : Prop := BufOk {
  bf_size : b_size r = sz;
  bf_number : 0 <= b_blocknr r /\ b_blocknr r * sz < 4294967296;
  bf_len : zlen (b_data r).2 = sz;
  bf_bytes : Forall is_byte (b_data r).2;
  bf_state : 0 <= b_state r < 4;
  bf_dirty : dirty r = true -> uptodate r = true;
  bf_data : uptodate r = true -> exists data, disk_data w (b_bdev r) = Some data /\ fits data (b_blocknr r) /\
    (dirty r = false -> (b_data r).2 = block_of data (b_blocknr r));
}.

(** The hash table and the list hold exactly the buffers, one per block; the
    objects are live and different; a clean buffer agrees with the device. *)
Record bc_ok c : Prop := BcOk {
  bo_dev : dev_ok (bw c);
  bo_table : length (bh_hash c) = BH_HASH_SIZE;
  bo_chain i l a : bh_hash c !! i = Some l -> a ∈ l -> exists r, bhs c !! a = Some r /\ bh_hash_of r = i;
  bo_once i l : bh_hash c !! i = Some l -> NoDup l;
  bo_hashed a r : bhs c !! a = Some r -> exists l, bh_hash c !! bh_hash_of r = Some l /\ a ∈ l;
  bo_all_once : NoDup (bh_all c);
  bo_all a : a ∈ bh_all c <-> is_Some (bhs c !! a);
  bo_total : bh_total c = zlen (bh_all c) /\ bh_total c <= BH_MAX;
  bo_key a a' r r' : bhs c !! a = Some r -> bhs c !! a' = Some r' -> key r = key r' -> a = a';
  bo_live a r : bhs c !! a = Some r -> a ∈ live (bw c) /\ (b_data r).1 ∈ live (bw c);
  bo_own a a' r r' : bhs c !! a = Some r -> bhs c !! a' = Some r' -> (b_data r).1 <> a' /\ ((b_data r).1 = (b_data r').1 -> a = a');
  bo_buf a r : bhs c !! a = Some r -> buf_ok (bw c) r;
}.

(** The contents of a block: the buffer if it is up to date, or the device. *)
Definition cached c (d k : Z) : option (list Z) :=
  match bh_lookup d k sz c ≫= (fun a => bhs c !! a) with
  | Some r => if uptodate r then Some (b_data r).2 else None
  | None => None
  end.
Definition on_device (w : W) (d k : Z) : option (list Z) :=
  data ← disk_data w d; if decide (fits data k) then Some (block_of data k) else None.
Definition block c (d k : Z) : option (list Z) := match cached c d k with Some l => Some l | None => on_device (bw c) d k end.

Lemma hash_bound d k n : (bh_hashfn d k n < BH_HASH_SIZE)%nat.
Proof.
  unfold bh_hashfn, BH_HASH_SIZE. rewrite (land_mask _ 6) by lia. pose proof (Z.mod_pos_bound (Z.lxor (Z.lxor d (k *w 2654435761)) (n *w 40503)) (2 ^ 6) ltac:(lia)). lia.
Qed.

Lemma bh_lookup_spec c d k a : bc_ok c -> bh_lookup d k sz c = Some a <-> exists r, bhs c !! a = Some r /\ key r = (d, k).
Proof.
  intros [B1 B2 B3 B4 B5 B6 B7 B8 B9 B10 B11 B12]. unfold bh_lookup.
  destruct (bh_hash c !! bh_hashfn d k sz) as [l|] eqn:El; [|apply lookup_ge_None in El; pose proof (hash_bound d k sz); lia].
  rewrite (list_lookup_total_correct _ _ _ El).
  assert (Hm : forall a, bh_matches c d k sz a = true <-> exists r, bhs c !! a = Some r /\ key r = (d, k)).
  { intros a'. unfold bh_matches, key. destruct (bhs c !! a') as [r|] eqn:E; [|split; [done|by intros (? & ? & _)]].
    rewrite !andb_true_iff, !Z.eqb_eq. split; [intros [[<- <-] _]; by exists r|]. intros (r' & [= <-] & [= <- <-]). pose proof (bf_size _ _ (B12 a' r E)). tauto. }
  split.
  - intros [_ H]%List.find_some. by apply Hm.
  - intros (r & E & Hk). destruct (List.find (bh_matches c d k sz) l) as [a'|] eqn:Ef.
    + apply List.find_some in Ef as [_ H]. apply Hm in H as (r' & E' & Hk'). f_equal. apply (B9 a' a r' r); congruence.
    + exfalso. destruct (B5 a r E) as (l' & El' & Ha). unfold bh_hash_of in El'. injection Hk as E1 E2. rewrite E1, E2, (bf_size _ _ (B12 a r E)) in El'.
      rewrite El in El'. injection El' as <-. pose proof (List.find_none _ _ Ef a) as Hn. rewrite list_elem_of_In in Ha. specialize (Hn Ha).
      assert (Ht : bh_matches c d k sz a = true) by (apply Hm; exists r; split; [done|unfold key; congruence]). congruence.
Qed.

Lemma cached_some c d k l :
  bc_ok c -> cached c d k = Some l <-> exists a r, bhs c !! a = Some r /\ key r = (d, k) /\ uptodate r = true /\ (b_data r).2 = l.
Proof.
  intros Hok. unfold cached. split.
  - destruct (bh_lookup d k sz c) as [a|] eqn:El; [|done]. cbn [mbind option_bind]. destruct (bhs c !! a) as [r|] eqn:E; [|done].
    apply bh_lookup_spec in El as (r' & E' & Hk); [|done]. destruct (uptodate r) eqn:Hu; [|done]. intros [= <-]. exists a, r. split_and!; congruence.
  - intros (a & r & E & Hk & Hu & <-). assert (El : bh_lookup d k sz c = Some a) by (apply bh_lookup_spec; [done|by exists r]).
    rewrite El. cbn [mbind option_bind]. by rewrite E, Hu.
Qed.

Lemma cached_none c d k :
  bc_ok c -> cached c d k = None <-> forall a r, bhs c !! a = Some r -> key r = (d, k) -> uptodate r = false.
Proof.
  intros Hok. split.
  - intros Hn a r E Hk. destruct (uptodate r) eqn:Hu; [|done].
    assert (Hc : cached c d k = Some (b_data r).2) by (apply cached_some; [done|by exists a, r]). congruence.
  - intros H. destruct (cached c d k) as [l|] eqn:Hc; [|done]. apply cached_some in Hc as (a & r & E & Hk & Hu & _); [|done].
    by rewrite (H a r E Hk) in Hu.
Qed.

(** A clean block is the block on the device. *)
Lemma block_clean c d k :
  bc_ok c -> (forall a r, bhs c !! a = Some r -> key r = (d, k) -> dirty r = false) -> block c d k = on_device (bw c) d k.
Proof.
  intros Hok Hd. unfold block. destruct (cached c d k) as [l|] eqn:Hc; [|done]. apply cached_some in Hc as (a & r & E & Hk & Hu & <-); [|done].
  destruct (bf_data _ _ (bo_buf _ Hok a r E) Hu) as (data & Ed & Hf & Hcl). injection Hk as <- <-. unfold on_device. rewrite Ed. cbn [mbind option_bind].
  rewrite decide_True by done. f_equal. by apply Hcl, (Hd a r).
Qed.

(** ** Changes of the device *)

(** One block of [d] becomes [l]. *)
Definition dev_changed (w w' : W) (d k : Z) (l : list Z) : Prop :=
  (forall d', d' <> d -> disk_data w' d' = disk_data w d') /\
  exists data, disk_data w d = Some data /\ fits data k /\ zlen l = sz /\ disk_data w' d = Some (splice (k * sz) l data).

Definition dev_same (w w' : W) : Prop := forall d, disk_data w' d = disk_data w d.

Lemma fits_splice data k l j : fits data k -> zlen l = sz -> fits (splice (k * sz) l data) j <-> fits data j.
Proof. intros [H1 H2] Hl. unfold fits. rewrite zlen_splice by lia. done. Qed.

Lemma block_of_other data k l j : fits data k -> zlen l = sz -> 0 <= j -> j <> k -> block_of (splice (k * sz) l data) j = block_of data j.
Proof. intros [H1 H2] Hl Hj Hne. unfold block_of. apply slice_splice_other; [lia|lia|nia|nia]. Qed.

Lemma block_of_same data k l : fits data k -> zlen l = sz -> block_of (splice (k * sz) l data) k = l.
Proof. intros [H1 H2] Hl. unfold block_of. rewrite <- Hl at 2. apply slice_splice_same; lia. Qed.

Lemma buf_ok_same w w' r : dev_same w w' -> buf_ok w r -> buf_ok w' r.
Proof. intros Hs [F1 F2 F3 F4 F5 F6 F7]. split; try done. intros Hu. destruct (F7 Hu) as (data & E & H). exists data. by rewrite Hs. Qed.

Lemma buf_ok_changed w w' d k l r : dev_changed w w' d k l -> key r <> (d, k) -> buf_ok w r -> buf_ok w' r.
Proof.
  intros [Ho (data & E & Hf & Hl & E')] Hk [F1 F2 F3 F4 F5 F6 F7]. split; try done. intros Hu. destruct (F7 Hu) as (data2 & E2 & Hf2 & Hc).
  destruct (decide (b_bdev r = d)) as [Hd|Hd]; [|exists data2; by rewrite Ho].
  rewrite Hd in E2. assert (data2 = data) as -> by congruence. exists (splice (k * sz) l data). rewrite Hd. split_and!; [done|by apply fits_splice|].
  intros Hcl. rewrite block_of_other; [by apply Hc|done|done|apply F2|]. intros Hkk. apply Hk. unfold key. by rewrite Hd, Hkk.
Qed.

Lemma on_device_same w w' d k : dev_same w w' -> on_device w' d k = on_device w d k.
Proof. intros Hs. unfold on_device. by rewrite Hs. Qed.

Lemma on_device_changed w w' d k l d' k' : dev_changed w w' d k l -> on_device w' d' k' = if decide ((d', k') = (d, k)) then Some l else on_device w d' k'.
Proof.
  intros [Ho (data & E & Hf & Hl & E')]. unfold on_device. case_decide as Hd.
  - injection Hd as -> ->. rewrite E'. cbn [mbind option_bind]. rewrite decide_True by (by apply fits_splice). by rewrite block_of_same.
  - destruct (decide (d' = d)) as [->|]; [|by rewrite Ho]. rewrite E, E'. cbn [mbind option_bind].
    destruct (decide (fits data k')) as [H|H]; [rewrite decide_True by (by apply fits_splice)|by rewrite decide_False by (by rewrite fits_splice)].
    f_equal. apply block_of_other; [done|done|apply H|]. intros ->. done.
Qed.

(** ** Changes of a buffer *)

Definition put_bh (a : Z) r (s : wb_stats) (w : W) c : bcache := Bcache (<[a := r]> (bhs c)) (bh_hash c) (bh_all c) (bh_total c) s w.

Lemma upd_bh_eq f a r c : bhs c !! a = Some r -> upd_bh f a c = put_bh a (f r) (wb c) (bw c) c.
Proof.
  intros E. unfold upd_bh, put_bh, with_bhs. f_equal. apply map_eq. intros k. destruct (decide (k = a)) as [->|]; simplify_map_eq; done.
Qed.

Lemma put_bh_ok c a r r' s w :
  bc_ok c -> bhs c !! a = Some r -> key r' = key r -> (b_data r').1 = (b_data r).1 -> buf_ok w r' -> dev_ok w -> live w = live (bw c) ->
  dev_same (bw c) w \/ (exists l, dev_changed (bw c) w (b_bdev r) (b_blocknr r) l) ->
  bc_ok (put_bh a r' s w c).
Proof.
  intros Hok E Hk Hp Hb Hw Hl Hd. pose proof Hok as [B1 B2 B3 B4 B5 B6 B7 B8 B9 B10 B11 B12].
  assert (Hh : bh_hash_of r' = bh_hash_of r).
  { unfold bh_hash_of. injection Hk as -> ->. by rewrite (bf_size _ _ Hb), (bf_size _ _ (B12 a r E)). }
  assert (HI : forall k x, <[a := r']> (bhs c) !! k = Some x -> exists x0, bhs c !! k = Some x0 /\ key x = key x0 /\ (b_data x).1 = (b_data x0).1 /\
    bh_hash_of x = bh_hash_of x0 /\ (k = a /\ x = r' \/ k <> a /\ x = x0)).
  { intros k x. destruct (decide (k = a)) as [->|Hne]; [rewrite lookup_insert_eq; intros [= <-]; exists r; tauto|].
    rewrite lookup_insert_ne by done. intros Ek. exists x. tauto. }
  split; cbn [put_bh bw bh_hash bh_all bh_total bhs]; try done.
  - intros i l k Hi Hin. destruct (B3 i l k Hi Hin) as (x & Ex & Hx). destruct (decide (k = a)) as [->|Hne].
    + exists r'. rewrite lookup_insert_eq. split; [done|congruence].
    + exists x. by rewrite lookup_insert_ne.
  - intros k x Ex. destruct (HI k x Ex) as (x0 & E0 & _ & _ & -> & _). by apply B5.
  - intros k. rewrite B7. destruct (decide (k = a)) as [->|Hne]; [rewrite lookup_insert_eq, E; split; by eexists|by rewrite lookup_insert_ne].
  - intros k k' x x' Ex Ex' Hkk. destruct (HI k x Ex) as (x0 & E0 & K0 & _). destruct (HI k' x' Ex') as (x1 & E1 & K1 & _). apply (B9 k k' x0 x1); congruence.
  - intros k x Ex. destruct (HI k x Ex) as (x0 & E0 & _ & P0 & _). rewrite Hl, P0. by apply B10.
  - intros k k' x x' Ex Ex'. destruct (HI k x Ex) as (x0 & E0 & _ & P0 & _). destruct (HI k' x' Ex') as (x1 & E1 & _ & P1 & _). rewrite P0, P1. by apply (B11 k k' x0 x1).
  - intros k x Ex. destruct (HI k x Ex) as (x0 & E0 & _ & _ & _ & [[-> ->]|[Hne ->]]); [done|]. destruct Hd as [Hs|(l & Hc)].
    + apply (buf_ok_same (bw c)); [done|by apply (B12 k)].
    + apply (buf_ok_changed (bw c) w (b_bdev r) (b_blocknr r) l); [done| |by apply (B12 k)]. intros Hkk. by apply Hne, (B9 k a x0 r).
Qed.

(** What a change of one buffer does to the blocks. *)
Lemma put_bh_block c a r r' s w d k :
  bc_ok c -> bc_ok (put_bh a r' s w c) -> bhs c !! a = Some r -> key r' = key r ->
  (forall d' k', (d', k') <> key r -> on_device w d' k' = on_device (bw c) d' k') ->
  block (put_bh a r' s w c) d k =
    if decide ((d, k) = key r) then (if uptodate r' then Some (b_data r').2 else on_device w d k) else block c d k.
Proof.
  intros Hok Hok' E Hk Hd. unfold block. cbn [put_bh bw]. case_decide as Hdk.
  - destruct (uptodate r') eqn:Hu.
    + assert (Hc : cached (put_bh a r' s w c) d k = Some (b_data r').2).
      { apply cached_some; [done|]. exists a, r'. cbn [put_bh bhs]. rewrite lookup_insert_eq. split_and!; try done. congruence. }
      by rewrite Hc.
    + assert (Hc : cached (put_bh a r' s w c) d k = None).
      { apply cached_none; [done|]. intros a2 r2 E2 Hk2. rewrite (bo_key _ Hok' a2 a r2 r') in E2; [|done|cbn [put_bh bhs]; apply lookup_insert_eq|congruence].
        cbn [put_bh bhs] in E2. rewrite lookup_insert_eq in E2. injection E2 as <-. done. }
      by rewrite Hc.
  - assert (Hc : cached (put_bh a r' s w c) d k = cached c d k).
    { apply option_eq. intros l. rewrite !cached_some by done. cbn [put_bh bhs]. split; intros (a2 & r2 & E2 & Hk2 & Hu & Hl); exists a2, r2.
      - destruct (decide (a2 = a)) as [->|Hne]; [rewrite lookup_insert_eq in E2; injection E2 as <-; congruence|by rewrite lookup_insert_ne in E2].
      - destruct (decide (a2 = a)) as [->|Hne]; [congruence|by rewrite lookup_insert_ne]. }
    rewrite Hc, Hd by done. done.
Qed.

(** The states 0 to 3 and the two flags. *)
Lemma state_cases s : 0 <= s < 4 -> s = 0 \/ s = 1 \/ s = 2 \/ s = 3.
Proof. lia. Qed.

Ltac states H := destruct (state_cases _ H) as [-> |[-> |[-> | ->]]].

(** ** Eviction and allocation *)

(** Live objects that do not belong to the cache. *)
Definition foreign c (x : Z) : Prop := x ∈ live (bw c) /\ forall a r, bhs c !! a = Some r -> x <> a /\ x <> (b_data r).1.

Definition same_blocks c c' : Prop := forall d k, block c' d k = block c d k.

Lemma unlink_from_length a (l : list Z) : a ∈ l -> zlen (unlink_from a l) = zlen l - 1.
Proof.
  unfold zlen. induction l as [|b l IH]; intros Ha; [by apply elem_of_nil in Ha|]. cbn [unlink_from]. destruct (Z.eqb_spec b a) as [->|Hne]; cbn [length]; [lia|].
  apply elem_of_cons in Ha as [->|Ha]; [done|]. specialize (IH Ha). lia.
Qed.

Lemma bh_evict_one_post c :
  bc_ok c -> let '(ok, c') := bh_evict_one c in
  bc_ok c' /\ same_blocks c c' /\ dev_same (bw c) (bw c') /\ (ok = true -> bh_total c' = bh_total c - 1) /\ (ok = false -> c' = c) /\
  (forall a r, bhs c' !! a = Some r -> bhs c !! a = Some r) /\ (forall x, foreign c x -> foreign c' x) /\
  (forall d k, (forall a r, bhs c !! a = Some r -> key r <> (d, k)) -> forall a r, bhs c' !! a = Some r -> key r <> (d, k)).
Proof.
  intros Hok. unfold bh_evict_one. destruct (List.find (evictable c) (bh_all c)) as [a|] eqn:Ef; [|by split_and!].
  apply List.find_some in Ef as [Hin Hev]. apply list_elem_of_In in Hin. unfold evictable in Hev. destruct (bhs c !! a) as [r|] eqn:E; [|done].
  apply andb_true_iff in Hev as [_ Hnd]. apply negb_true_iff in Hnd. pose proof Hok as [B1 B2 B3 B4 B5 B6 B7 B8 B9 B10 B11 B12].
  set (c' := Bcache _ _ _ _ _ _). assert (HL : forall k x, bhs c' !! k = Some x <-> k <> a /\ bhs c !! k = Some x).
  { intros k x. unfold c'. cbn [bhs]. rewrite lookup_delete_Some. split; intros [? ?]; split; congruence. }
  pose proof (unlink_from_length a (bh_all c) Hin) as Hlen. destruct (B10 a r E) as [L1 L2]. destruct (B11 a a r r E E) as [N1 _].
  destruct (dev_kfree (b_data r).1 (bw c) B1 L2) as [D1 D2]. destruct (kfree_live _ _ (dev_ok_heap _ B1) L2) as [F1 F2].
  assert (L1' : a ∈ live (kfree (b_data r).1 (bw c))) by (rewrite F2; set_solver).
  destruct (dev_kfree a _ D1 L1') as [D3 D4]. destruct (kfree_live a _ F1 L1') as [F3 F4].
  assert (Hds : dev_same (bw c) (bw c')) by (intros d; unfold c'; cbn [bw]; by rewrite D4, D2).
  assert (Hlive : live (bw c') = live (bw c) ∖ {[(b_data r).1; a]}) by (unfold c'; cbn [bw]; rewrite F4, F2; set_solver).
  assert (Htot : 0 < bh_total c) by (destruct B8 as [-> _]; unfold zlen in *; lia).
  assert (Hok' : bc_ok c').
  { split; try done.
    - unfold c'. cbn [bh_hash]. unfold bh_hash_remove. by rewrite length_alter.
    - intros i l k Hi Hk. unfold c' in Hi. cbn [bh_hash] in Hi. unfold bh_hash_remove in Hi. rewrite list_lookup_alter in Hi. case_decide as Hd.
      + apply fmap_Some in Hi as (l0 & El & ->). apply unlink_from_elem in Hk as [Hk Hne]; [|exact (B4 _ _ El)]. destruct (B3 i l0 k ltac:(congruence) Hk) as (x & Ex & Hx). exists x. by rewrite HL.
      + destruct (B3 i l k Hi Hk) as (x & Ex & Hx). exists x. rewrite HL. split_and!; try done. intros ->. assert (x = r) as -> by congruence. done.
    - intros i l Hi. unfold c' in Hi. cbn [bh_hash] in Hi. unfold bh_hash_remove in Hi. rewrite list_lookup_alter in Hi. case_decide; [|by apply (B4 i)].
      apply fmap_Some in Hi as (l0 & El & ->). apply unlink_from_nodup. exact (B4 _ _ El).
    - intros k x [Hne Ex]%HL. destruct (B5 k x Ex) as (l & El & Hk). unfold c'. cbn [bh_hash]. unfold bh_hash_remove. rewrite list_lookup_alter. case_decide as Hd.
      + rewrite <- Hd in *. exists (unlink_from a l). rewrite El. split; [done|]. apply unlink_from_elem; [by eapply B4|done].
      + by exists l.
    - by apply unlink_from_nodup.
    - intros k. unfold c'. cbn [bh_all bhs]. unfold bh_all_del. rewrite unlink_from_elem, B7 by done. rewrite lookup_delete_is_Some. split; intros [? ?]; split; (done || congruence).
    - unfold c'. cbn [bh_total bh_all]. unfold bh_all_del. destruct B8 as [T1 T2]. destruct (Z.eqb_spec (bh_total c) 0); [lia|].
      unfold BH_MAX in *. rewrite sub32_id by lia. rewrite Hlen. lia.
    - intros k k' x x' [_ Ex]%HL [_ Ex']%HL. by apply B9.
    - intros k x [Hne Ex]%HL. destruct (B10 k x Ex) as [Q1 Q2]. destruct (B11 a k r x E Ex) as [Q3 Q4]. destruct (B11 k a x r Ex E) as [Q5 Q6]. rewrite Hlive.
      split; apply elem_of_difference; (split; [done|]); rewrite elem_of_union, !elem_of_singleton; intros [?|?]; try congruence; apply Hne; symmetry; apply Q4; congruence.
    - intros k k' x x' [_ Ex]%HL [_ Ex']%HL. by apply B11.
    - intros k x [_ Ex]%HL. apply (buf_ok_same (bw c)); [done|by apply (B12 k)]. }
  split_and!; try done.
  - intros d k. destruct (decide (key r = (d, k))) as [Hk|Hk].
    + assert (H1 : forall a2 r2, bhs c !! a2 = Some r2 -> key r2 = (d, k) -> a2 = a /\ r2 = r).
      { intros a2 r2 E2 Hk2. assert (a2 = a) as -> by (apply (B9 a2 a r2 r); congruence). split; congruence. }
      rewrite (block_clean c), (block_clean c') by first [done | intros a2 r2 E2 Hk2; try apply HL in E2 as [? E2]; destruct (H1 a2 r2 E2 Hk2) as [-> ->]; done].
      by apply on_device_same.
    + unfold block. rewrite (on_device_same (bw c)) by done. assert (Hc : cached c' d k = cached c d k); [|by rewrite Hc].
      apply option_eq. intros l. rewrite !cached_some by done. split; intros (a2 & r2 & E2 & Hk2 & Hu & Hl); exists a2, r2.
      * apply HL in E2. tauto.
      * rewrite HL. split_and!; try done. intros ->. congruence.
  - intros _. unfold c'. cbn [bh_total]. destruct (Z.eqb_spec (bh_total c) 0); [lia|]. apply sub32_id. destruct B8 as [_ T]. unfold BH_MAX in T. lia.
  - intros k x [_ ?]%HL. done.
  - intros x [Hx Hf]. destruct (Hf a r E) as [X1 X2]. split; [rewrite Hlive; set_solver|]. intros k y [_ Ey]%HL. by apply (Hf k).
  - intros d k H k2 x [_ Ex]%HL. by apply (H k2).
Qed.

(** Only the heap and the device behind the cache change. *)
Lemma with_bw_keeps c w :
  bc_ok c -> dev_ok w -> dev_same (bw c) w -> (forall a r, bhs c !! a = Some r -> a ∈ live w /\ (b_data r).1 ∈ live w) ->
  bc_ok (with_bw c w) /\ same_blocks c (with_bw c w).
Proof.
  intros Hok Hw Hs Hl. pose proof Hok as [B1 B2 B3 B4 B5 B6 B7 B8 B9 B10 B11 B12]. split.
  - split; try done; cbn [with_bw bw]. intros x r E. apply (buf_ok_same (bw c)); [done|by apply (B12 x)].
  - intros d k. unfold block. cbn [with_bw bw]. by rewrite (on_device_same (bw c)).
Qed.

Lemma with_bw_ok c w :
  bc_ok c -> dev_ok w -> dev_same (bw c) w -> live w = live (bw c) ->
  bc_ok (with_bw c w) /\ same_blocks c (with_bw c w) /\ forall x, foreign c x -> foreign (with_bw c w) x.
Proof.
  intros Hok Hw Hs Hl. destruct (with_bw_keeps c w Hok Hw Hs) as [H1 H2]; [intros a r; rewrite Hl; apply (bo_live _ Hok)|].
  split_and!; [done|done|]. intros x [Q1 Q2]. split; [cbn [with_bw bw]; by rewrite Hl|done].
Qed.

Definition new_bh (a : Z) r w c : bcache :=
  Bcache (<[a := r]> (bhs c)) (bh_hash_insert a r (bh_hash c)) (bh_all_add_tail a (bh_all c)) (bh_total c +w 1) (wb c) w.

Lemma new_bh_lookup a r w c x y : bhs (new_bh a r w c) !! x = Some y <-> x = a /\ y = r \/ x <> a /\ bhs c !! x = Some y.
Proof. cbn [new_bh bhs]. rewrite lookup_insert_Some. split; [intros [[-> ->]|[? ?]]; auto|intros [[-> ->]|[? ?]]; auto]. Qed.

(** A new buffer at [a] with its data at [p]. *)
Lemma new_bh_ok c a r w :
  bc_ok c -> buf_ok w r -> uptodate r = false -> (forall x y, bhs c !! x = Some y -> key y <> key r) -> bh_total c < BH_MAX ->
  dev_ok w -> dev_same (bw c) w -> a ∉ live (bw c) -> (b_data r).1 ∉ live (bw c) -> (b_data r).1 <> a ->
  live w = {[(b_data r).1; a]} ∪ live (bw c) ->
  bc_ok (new_bh a r w c).
Proof.
  intros Hok Hr Hu Hk Ht Hw Hs Ha Hp Hpa Hl. pose proof Hok as [B1 B2 B3 B4 B5 B6 B7 B8 B9 B10 B11 B12].
  assert (Hna : bhs c !! a = None) by (destruct (bhs c !! a) as [x|] eqn:E; [by destruct (B10 a x E)|done]).
  pose proof (new_bh_lookup a r w c) as HL. pose proof (hash_bound (b_bdev r) (b_blocknr r) (b_size r)) as Hb. fold (bh_hash_of r) in Hb.
  split.
  - exact Hw.
  - cbn [new_bh bh_hash]. unfold bh_hash_insert. by rewrite length_alter.
  - intros i l x Hi Hx. cbn [new_bh bh_hash] in Hi. unfold bh_hash_insert in Hi. rewrite list_lookup_alter in Hi. case_decide as Hd.
    + apply fmap_Some in Hi as (l0 & El & ->). apply elem_of_cons in Hx as [->|Hx]; [exists r; rewrite HL; auto|].
      destruct (B3 i l0 x ltac:(congruence) Hx) as (y & Ey & Hy). exists y. rewrite HL. split; [right; split; [congruence|done]|done].
    + destruct (B3 i l x Hi Hx) as (y & Ey & Hy). exists y. rewrite HL. split; [right; split; [congruence|done]|done].
  - intros i l Hi. cbn [new_bh bh_hash] in Hi. unfold bh_hash_insert in Hi. rewrite list_lookup_alter in Hi. case_decide; [|by apply (B4 i)].
    apply fmap_Some in Hi as (l0 & El & ->). apply NoDup_cons. split; [|exact (B4 _ _ El)]. intros Hin. destruct (B3 _ l0 a El Hin) as (y & Ey & _). congruence.
  - intros x y [[-> ->]|[Hne Ey]]%HL; cbn [new_bh bh_hash]; unfold bh_hash_insert; rewrite list_lookup_alter.
    + rewrite decide_True by done. destruct (bh_hash c !! bh_hash_of r) as [l0|] eqn:El; [|apply lookup_ge_None in El; lia]. exists (a :: l0). split; [done|by left].
    + destruct (B5 x y Ey) as (l & El & Hx). case_decide as Hd; [|by exists l]. rewrite <- Hd in *. exists (a :: l). rewrite El. split; [done|by right].
  - cbn [new_bh bh_all]. unfold bh_all_add_tail. apply NoDup_app. split_and!; [done| |apply NoDup_singleton].
    intros x Hx ->%list_elem_of_singleton. apply B7 in Hx. rewrite Hna in Hx. by destruct Hx.
  - intros x. cbn [new_bh bh_all bhs]. unfold bh_all_add_tail. rewrite elem_of_app, B7, list_elem_of_singleton, lookup_insert_is_Some.
    split; [intros [H| ->]; [|by left]; destruct (decide (a = x)); [by left|by right]|intros [->|[? H]]; [by right|by left]].
  - cbn [new_bh bh_total bh_all]. unfold bh_all_add_tail. destruct B8 as [T1 T2]. unfold zlen in *. rewrite length_app. cbn [length].
    unfold BH_MAX in *. rewrite add32_id by lia. lia.
  - intros x x' y y' [[-> ->]|[Hne Ey]]%HL [[-> ->]|[Hne' Ey']]%HL Hkk; [done| | |by apply (B9 x x' y y')].
    + by destruct (Hk x' y' Ey').
    + by destruct (Hk x y Ey).
  - intros x y [[-> ->]|[Hne Ey]]%HL; cbn [new_bh bw]; rewrite Hl; [set_solver|]. destruct (B10 x y Ey). set_solver.
  - intros x x' y y' [[-> ->]|[Hne Ey]]%HL [[-> ->]|[Hne' Ey']]%HL.
    + done.
    + destruct (B10 x' y' Ey') as [Q1 Q2]. split; [|intros Hq; by rewrite <- Hq in Q2]. by intros <-.
    + destruct (B10 x y Ey) as [Q1 Q2]. split; intros Hq; by rewrite Hq in Q2.
    + by apply B11.
  - intros x y [[-> ->]|[Hne Ey]]%HL; [done|]. apply (buf_ok_same (bw c)); [done|by apply (B12 x)].
Qed.

Lemma new_bh_blocks c a r w :
  bc_ok c -> bc_ok (new_bh a r w c) -> uptodate r = false -> bhs c !! a = None -> dev_same (bw c) w -> same_blocks c (new_bh a r w c).
Proof.
  intros Hok Hok' Hu Hna Hs d k. unfold block. rewrite (on_device_same (bw c) (bw (new_bh a r w c))) by done.
  assert (Hc : cached (new_bh a r w c) d k = cached c d k); [|by rewrite Hc]. apply option_eq. intros l. rewrite !cached_some by done.
  split; intros (x & y & Ey & Hky & Huy & Hl); exists x, y.
  - apply new_bh_lookup in Ey as [[-> ->]|[Hne Ey]]; [congruence|done].
  - rewrite new_bh_lookup. split_and!; try done. right. split; [congruence|done].
Qed.

Lemma bh_alloc_post c d k :
  bc_ok c -> (forall a r, bhs c !! a = Some r -> key r <> (d, k)) -> 0 <= k -> k * sz < 4294967296 ->
  let '(o, c') := bh_alloc d k sz c in
  bc_ok c' /\ same_blocks c c' /\ dev_same (bw c) (bw c') /\ (forall x, foreign c x -> foreign c' x) /\
  forall a, o = Some a -> exists p, bhs c' !! a = Some (Bh d k sz (p, zeroes sz) 0 1).
Proof.
  intros Hok Hk0 Hk1 Hk2. unfold bh_alloc.
  assert (HE : exists ok c1, (if BH_MAX <=? bh_total c then bh_evict_one c else (true, c)) = (ok, c1) /\ bc_ok c1 /\ same_blocks c c1 /\
    dev_same (bw c) (bw c1) /\ (forall x, foreign c x -> foreign c1 x) /\ (forall a r, bhs c1 !! a = Some r -> key r <> (d, k)) /\
    (ok = true -> bh_total c1 < BH_MAX)).
  { pose proof (bo_total _ Hok) as [_ Ht]. destruct (Z.leb_spec BH_MAX (bh_total c)); [|exists true, c; by split_and!].
    pose proof (bh_evict_one_post c Hok) as HP. destruct (bh_evict_one c) as [ok c1]. destruct HP as (P1 & P2 & P3 & P4 & _ & _ & P5 & P6).
    exists ok, c1. split_and!; try done; [by apply P6|]. intros Ho. rewrite P4 by done. lia. }
  destruct HE as (ok & c1 & -> & H1 & H2 & H3 & H4 & H5 & H6). destruct ok; cbn [negb]; [|by split_and!]. specialize (H6 eq_refl).
  assert (Hw : forall w, dev_ok w -> dev_same (bw c1) w -> live w = live (bw c1) ->
    bc_ok (with_bw c1 w) /\ same_blocks c (with_bw c1 w) /\ dev_same (bw c) w /\ forall x, foreign c x -> foreign (with_bw c1 w) x).
  { intros w A1 A2 A3. destruct (with_bw_ok c1 w H1 A1 A2 A3) as (A4 & A5 & A6). split_and!; [done| | |auto].
    - intros d' k'. by rewrite A5, H2.
    - intros d'. by rewrite A2, H3. }
  pose proof (bo_dev _ H1) as B1. pose proof (dev_kmalloc SIZEOF_BH (bw c1) B1) as [D1 D2]. destruct (kmalloc SIZEOF_BH (bw c1)) as [[a|] w] eqn:Ea; cbn [snd] in *.
  2:{ destruct (kmalloc_none _ _ _ (dev_ok_heap _ B1) Ea) as [_ Hl]. destruct (Hw w D1 D2 Hl) as (? & ? & ? & ?). by split_and!. }
  destruct (kmalloc_some _ _ _ _ (dev_ok_heap _ B1) Ea) as (K1 & K2 & K3 & K4).
  pose proof (dev_kmalloc sz w D1) as [D3 D4]. destruct (kmalloc sz w) as [[p|] w'] eqn:Ep; cbn [snd] in *.
  2:{ destruct (kmalloc_none _ _ _ K1 Ep) as [K5 Hl]. assert (La : a ∈ live w') by (rewrite Hl, K4; set_solver).
      destruct (dev_kfree a w' D3 La) as [D5 D6]. destruct (kfree_live a w' K5 La) as [F1 F2].
      destruct (Hw (kfree a w') D5) as (? & ? & ? & ?); [intros d'; by rewrite D6, D4, D2|rewrite F2, Hl, K4; set_solver|]. by split_and!. }
  destruct (kmalloc_some _ _ _ _ K1 Ep) as (K5 & K6 & K7 & K8). set (r := Bh d k sz (p, zeroes sz) 0 1).
  assert (Hna : bhs c1 !! a = None) by (destruct (bhs c1 !! a) as [x|] eqn:E; [by destruct (bo_live _ H1 a x E)|done]).
  assert (Hlive : live w' = {[p; a]} ∪ live (bw c1)) by (rewrite K8, K4; set_solver).
  assert (Hds : dev_same (bw c1) w') by (intros d'; by rewrite D4, D2).
  assert (Hr : buf_ok w' r) by (split; cbn; try done; [apply zlen_zeroes; lia|apply Forall_zeroes]).
  assert (Hok' : bc_ok (new_bh a r w' c1)).
  { apply new_bh_ok; try done; cbn; [intros H; apply K7; rewrite K4; set_solver|intros ->; apply K7; rewrite K4; set_solver]. }
  split_and!; try done.
  - intros d' k'. rewrite <- H2. by apply new_bh_blocks.
  - intros d'. cbn [bw]. by rewrite Hds, H3.
  - intros x Hx. destruct (H4 x Hx) as [Q1 Q2]. split; [cbn [bw]; rewrite Hlive; set_solver|]. intros y z Hy. apply (new_bh_lookup a r w' c1) in Hy as [[-> ->]|[Hne Ez]]; [|by apply (Q2 y)].
    cbn. split; [by intros ->|]. intros ->. apply K7. rewrite K4. set_solver.
  - intros a' [= <-]. exists p. apply (new_bh_lookup a r w' c1). by left.
Qed.

(** ** Reading *)

Lemma put_bh_foreign c a r r' s w x :
  bhs c !! a = Some r -> (b_data r').1 = (b_data r).1 -> live w = live (bw c) -> foreign c x -> foreign (put_bh a r' s w c) x.
Proof.
  intros E Hp Hl [H1 H2]. split; [cbn [put_bh bw]; by rewrite Hl|]. intros y z. cbn [put_bh bhs].
  destruct (decide (y = a)) as [->|Hne]; [rewrite lookup_insert_eq; intros [= <-]; rewrite Hp; by apply H2|rewrite lookup_insert_ne by done; apply H2].
Qed.

(** A change of a buffer that keeps its contents, and the device. *)
Lemma put_bh_same c a r r' s w :
  bc_ok c -> bhs c !! a = Some r -> key r' = key r -> (b_data r').1 = (b_data r).1 -> buf_ok w r' -> dev_ok w -> live w = live (bw c) ->
  dev_same (bw c) w -> uptodate r' = uptodate r -> (uptodate r = true -> (b_data r').2 = (b_data r).2) ->
  bc_ok (put_bh a r' s w c) /\ same_blocks c (put_bh a r' s w c) /\ forall x, foreign c x -> foreign (put_bh a r' s w c) x.
Proof.
  intros Hok E Hk Hp Hb Hw Hl Hs Hu Hd. assert (Hok' : bc_ok (put_bh a r' s w c)) by (apply (put_bh_ok c a r); auto).
  split_and!; [done| |intros x; by apply (put_bh_foreign c a r)].
  intros d k. rewrite (put_bh_block c a r) by (try done; intros; by apply on_device_same). case_decide as Hdk; [|done]. rewrite Hu.
  destruct (uptodate r) eqn:Hur.
  - rewrite Hd by done. symmetry. unfold block. assert (Hc : cached c d k = Some (b_data r).2) by (apply cached_some; [done|exists a, r; by split_and!]). by rewrite Hc.
  - unfold block. assert (Hc : cached c d k = None); [|rewrite Hc; by apply on_device_same].
    apply cached_none; [done|]. intros a2 r2 E2 Hk2. assert (a2 = a) as -> by (apply (bo_key _ Hok a2 a r2 r); congruence). congruence.
Qed.

Lemma buf_ok_count w r n : buf_ok w r -> buf_ok w (set_b_count n r).
Proof. by intros [F1 F2 F3 F4 F5 F6 F7]. Qed.

Lemma count_post c a n r :
  bc_ok c -> bhs c !! a = Some r -> let c' := put_bh a (set_b_count n r) (wb c) (bw c) c in
  bc_ok c' /\ same_blocks c c' /\ forall x, foreign c x -> foreign c' x.
Proof. intros Hok E. apply (put_bh_same c a r); try done; [apply buf_ok_count, (bo_buf _ Hok a r E)|apply (bo_dev _ Hok)]. Qed.

Lemma brelse_post c a r :
  bc_ok c -> bhs c !! a = Some r -> bc_ok (brelse a c) /\ same_blocks c (brelse a c) /\ bw (brelse a c) = bw c /\ forall x, foreign c x -> foreign (brelse a c) x.
Proof.
  intros Hok E. unfold brelse. rewrite (upd_bh_eq _ a r) by done.
  destruct (count_post c a (if b_count r =? 0 then 0 else b_count r -w 1) r Hok E) as (H1 & H2 & H3). by split_and!.
Qed.

(** A buffer with a block as the device has it. *)
Definition holds c a d k l : Prop := exists r, bhs c !! a = Some r /\ key r = (d, k) /\ uptodate r = true /\ (b_data r).2 = l.

Lemma splice_full (l l' : list Z) : zlen l = zlen l' -> splice 0 l l' = l.
Proof. intros H. unfold splice, zlen in *. cbn [take app Z.to_nat plus]. rewrite drop_ge by lia. by rewrite app_nil_r. Qed.

Lemma bh_fill_post c a r d k :
  bc_ok c -> bhs c !! a = Some r -> key r = (d, k) -> is_Some (disk_data (bw c) d) ->
  let '(o, c') := bh_fill a d k sz c in
  bc_ok c' /\ same_blocks c c' /\ dev_same (bw c) (bw c') /\ (forall x, foreign c x -> foreign c' x) /\
  forall a', o = Some a' -> exists l, block c d k = Some l /\ holds c' a' d k l.
Proof.
  intros Hok E Hk [data Ed]. unfold bh_fill. rewrite E. fold (uptodate r). pose proof (bo_buf _ Hok a r E) as Hb. destruct (uptodate r) eqn:Hu.
  { split_and!; try done. intros a' [= <-]. exists (b_data r).2. split; [|by exists r]. unfold block.
    assert (Hc : cached c d k = Some (b_data r).2) by (apply cached_some; [done|by exists a, r]). by rewrite Hc. }
  pose proof Hb as [F1 [F2 F2'] F3 F4 F5 F6 F7]. injection Hk as Hk1 Hk2.
  assert (Hdirty : dirty r = false) by (destruct (dirty r) eqn:Hd; [by rewrite F6 in Hu|done]).
  assert (Hs0 : b_state r = 0). { revert Hu Hdirty. unfold uptodate, dirty. states F5; cbn; done. }
  assert (Hoff : k *w sz = k * sz) by (apply mul32_id; nia).
  pose proof (bdev_read_ok d (k *w sz) sz (b_data r).2 (bw c) data (bo_dev _ Hok) Ed ltac:(rewrite Hoff; unfold is_u32; nia) Hsz F3) as HR.
  destruct (bdev_read d (k *w sz) sz (b_data r).2 (bw c)) as [[n buf] w]. destruct HR as (R1 & R2 & R3 & R4). rewrite Hoff in R4.
  destruct (Z.eqb_spec n sz) as [->|Hn]; cbn [negb].
  - destruct R4 as [[? _]|(G1 & G2 & G3)]; [lia|]. assert (Hf : fits data k) by (split; [congruence|lia]).
    rewrite splice_full in G3 by (rewrite zlen_slice by nia; done). fold (block_of data k) in G3. subst buf.
    rewrite (upd_bh_eq _ a r) by done. set (r' := set_b_state _ _). change (put_bh a r' _ _ _) with (put_bh a r' (wb c) w c). set (c' := put_bh _ _ _ _ _).
    assert (Hu' : uptodate r' = true) by (unfold uptodate, r'; cbn; by rewrite Hs0).
    assert (Hb' : buf_ok w r').
    { unfold r'. split; cbn; try done; [unfold block_of; apply zlen_slice; nia|apply Forall_slice, (disk_bytes _ _ _ (bo_dev _ Hok) Ed)|by rewrite Hs0|].
      intros _. exists data. rewrite Hk1, Hk2, R2. split_and!; done. }
    assert (Hok' : bc_ok c') by (apply (put_bh_ok c a r); auto).
    assert (Hblk : block c d k = Some (block_of data k)).
    { rewrite block_clean by (try done; intros a2 r2 E2 Hk'; assert (a2 = a) as -> by (apply (bo_key _ Hok a2 a r2 r); [done|done|rewrite Hk'; unfold key; congruence]); congruence).
      unfold on_device. rewrite Ed. cbn [mbind option_bind]. by rewrite decide_True. }
    split_and!; try done.
    + intros d' k'. unfold c'. rewrite (put_bh_block c a r) by (try done; intros; by apply on_device_same). case_decide as Hdk; [|done].
      rewrite Hu'. unfold key in Hdk. injection Hdk as -> ->. rewrite Hk1, Hk2. cbn. done.
    + intros x. by apply (put_bh_foreign c a r).
    + intros a' [= <-]. exists (block_of data k). split; [done|]. exists r'. unfold c'. cbn [put_bh bhs]. rewrite lookup_insert_eq. split_and!; [done|unfold key, r'; cbn; congruence|done|done].
  - rewrite (upd_bh_eq _ a r) by done. set (r' := set_b_state _ _).
    assert (Hb' : buf_ok w r').
    { unfold r'. split; cbn; try done; [apply zlen_zeroes; lia|apply Forall_zeroes|by rewrite Hs0|by rewrite Hs0|by rewrite Hs0]. }
    destruct (put_bh_same c a r r' (wb (with_bw c w)) w) as (P1 & P2 & P3); try done; [unfold uptodate, r'; cbn; by rewrite Hs0|congruence|].
    destruct (brelse_post (put_bh a r' (wb c) w c) a r') as (Q1 & Q2 & Q3 & Q4); [done|cbn [put_bh bhs]; apply lookup_insert_eq|].
    split_and!; try done; [intros d' k'; change (put_bh a r' _ _ _) with (put_bh a r' (wb c) w c); by rewrite Q2, P2|auto].
Qed.

Lemma bread_post c d k :
  bc_ok c -> is_Some (disk_data (bw c) d) -> 0 <= k -> k * sz < 4294967296 ->
  let '(o, c') := bread d k sz c in
  bc_ok c' /\ same_blocks c c' /\ dev_same (bw c) (bw c') /\ (forall x, foreign c x -> foreign c' x) /\
  forall a, o = Some a -> exists l, block c d k = Some l /\ holds c' a d k l.
Proof.
  intros Hok Hd Hk1 Hk2. unfold bread. destruct (Z.eqb_spec sz 0); [lia|]. destruct (bh_lookup d k sz c) as [a|] eqn:El.
  - apply bh_lookup_spec in El as (r & E & Hk); [|done]. rewrite (upd_bh_eq _ a r) by done.
    destruct (count_post c a (b_count r +w 1) r Hok E) as (P1 & P2 & P3). set (c1 := put_bh _ _ _ _ _) in *.
    pose proof (bh_fill_post c1 a (set_b_count (b_count r +w 1) r) d k P1 ltac:(apply lookup_insert_eq) Hk Hd) as HF.
    destruct (bh_fill a d k sz c1) as [o c']. destruct HF as (F1 & F2 & F3 & F4 & F5). split_and!; try done; [|auto|].
    + intros d' k'. by rewrite F2, P2.
    + intros a' Ha. rewrite <- P2. by apply F5.
  - assert (Hn : forall a r, bhs c !! a = Some r -> key r <> (d, k)).
    { intros a r E Hk. assert (bh_lookup d k sz c = Some a) by (apply bh_lookup_spec; [done|by exists r]). congruence. }
    pose proof (bh_alloc_post c d k Hok Hn Hk1 Hk2) as HA. destruct (bh_alloc d k sz c) as [[a|] c1]; destruct HA as (A1 & A2 & A3 & A4 & A5); [|by split_and!].
    destruct (A5 a eq_refl) as (p & E). pose proof (bh_fill_post c1 a _ d k A1 E eq_refl ltac:(by rewrite A3)) as HF.
    destruct (bh_fill a d k sz c1) as [o c']. destruct HF as (F1 & F2 & F3 & F4 & F5). split_and!; try done; [| |auto|].
    + intros d' k'. by rewrite F2, A2.
    + intros d'. by rewrite F3, A3.
    + intros a' Ha. rewrite <- A2. by apply F5.
Qed.

(** ** Writing *)

Definition set_block (f : Z -> Z -> option (list Z)) d k l : Z -> Z -> option (list Z) :=
  fun d' k' => if decide ((d', k') = (d, k)) then Some l else f d' k'.

(** A buffer is overwritten and marked dirty. *)
Lemma dirty_post c a d k l buf :
  bc_ok c -> holds c a d k l -> zlen buf = sz -> Forall is_byte buf ->
  let c' := mark_buffer_dirty a (upd_bh (set_b_data buf) a c) in
  bc_ok c' /\ (forall d' k', block c' d' k' = set_block (block c) d k buf d' k') /\ bw c' = bw c /\ (forall x, foreign c x -> foreign c' x) /\
  exists r, bhs c' !! a = Some r /\ key r = (d, k) /\ dirty r = true /\ (b_data r).2 = buf.
Proof.
  intros Hok (r & E & Hk & Hu & _) Hl HB. pose proof (bo_buf _ Hok a r E) as [F1 F2 F3 F4 F5 F6 F7]. set (r' := set_b_state (Z.lor (b_state r) BH_Dirty) (set_b_data buf r)).
  assert (Hu' : uptodate r' = true /\ dirty r' = true /\ 0 <= b_state r' < 4).
  { unfold uptodate, dirty, r' in *. cbn in *. revert Hu. states F5; cbn; done. }
  destruct Hu' as (Hu' & Hd' & Hs'). assert (Ec : exists s, mark_buffer_dirty a (upd_bh (set_b_data buf) a c) = put_bh a r' s (bw c) c).
  { rewrite (upd_bh_eq _ a r) by done. unfold mark_buffer_dirty. cbn [put_bh bhs]. rewrite lookup_insert_eq. cbn [set_b_data b_state].
    exists (if has (b_state r) BH_Dirty then wb c else writeback_account_dirtied (wb c)).
    rewrite (upd_bh_eq _ a (set_b_data buf r)) by (destruct (has (b_state r) BH_Dirty); cbn [with_wb put_bh bhs]; apply lookup_insert_eq).
    destruct (has (b_state r) BH_Dirty); unfold put_bh; cbn [with_wb bhs bh_hash bh_all bh_total wb bw]; by rewrite insert_insert_eq. }
  destruct Ec as (s & ->). cbv zeta. assert (Hb' : buf_ok (bw c) r').
  { split; try done. intros _. destruct (F7 Hu) as (data & Ed & Hf & _). exists data. split_and!; try done. congruence. }
  assert (Hok' : bc_ok (put_bh a r' s (bw c) c)) by (apply (put_bh_ok c a r); try done; [apply (bo_dev _ Hok)|by left]).
  split_and!; try done.
  - intros d' k'. rewrite (put_bh_block c a r) by done. unfold set_block. rewrite Hk, Hu'. done.
  - intros x. by apply (put_bh_foreign c a r).
  - exists r'. cbn [put_bh bhs]. rewrite lookup_insert_eq. done.
Qed.

Lemma sync_post c a r :
  bc_ok c -> bhs c !! a = Some r ->
  let '(e, c') := sync_dirty_buffer a c in
  bc_ok c' /\ same_blocks c c' /\ (forall x, foreign c x -> foreign c' x) /\
  (forall d, is_Some (disk_data (bw c) d) -> is_Some (disk_data (bw c') d)) /\
  (forall x, x <> a -> bhs c' !! x = bhs c !! x) /\
  (e <> 0 -> dev_same (bw c) (bw c') /\ bhs c' = bhs c) /\
  (e = 0 -> (exists r', bhs c' !! a = Some r' /\ key r' = key r /\ dirty r' = false) /\
     forall d k, on_device (bw c') d k = if decide (dirty r = true /\ (d, k) = key r) then Some (b_data r).2 else on_device (bw c) d k).
Proof.
  intros Hok E. unfold sync_dirty_buffer. rewrite E. pose proof (bo_buf _ Hok a r E) as Hb. pose proof Hb as [F1 [F2 F2'] F3 F4 F5 F6 F7]. rewrite F1.
  destruct (Z.eqb_spec sz 0); [lia|]. fold (dirty r). destruct (dirty r) eqn:Hd; cbn [negb].
  2:{ split_and!; try done. intros _. split; [by exists r|]. intros d k. rewrite decide_False by (by intros [? _]). done. }
  specialize (F6 eq_refl). destruct (F7 F6) as (data & Ed & Hf & _). assert (Hoff : b_blocknr r *w sz = b_blocknr r * sz) by (apply mul32_id; nia).
  pose proof (bdev_write_ok (b_bdev r) (b_blocknr r *w sz) sz (b_data r).2 (bw c) data (bo_dev _ Hok) Ed ltac:(rewrite Hoff; unfold is_u32; nia) Hsz F3 F4) as HW.
  destruct (bdev_write (b_bdev r) (b_blocknr r *w sz) sz (b_data r).2 (bw c)) as [m w]. destruct HW as (W1 & W2 & W3). rewrite Hoff in W3.
  assert (Hmin : Z.min sz (zlen data - b_blocknr r * sz) = sz) by (destruct Hf; lia). rewrite Hmin in W3.
  destruct (Z.eqb_spec m sz) as [->|Hn]; cbn [negb].
  - destruct W3 as [[? _]|(_ & _ & W3 & W4)]; [lia|]. rewrite slice_all in W3 by done.
    assert (Hc : dev_changed (bw c) w (b_bdev r) (b_blocknr r) (b_data r).2) by (split; [done|by exists data]).
    rewrite (upd_bh_eq _ a r) by done. set (r' := set_b_state _ r). change (with_wb (put_bh a r' _ _ _) ?s) with (put_bh a r' s w c). set (s := writeback_account_cleaned (wb c)).
    assert (Hs : uptodate r' = true /\ dirty r' = false /\ 0 <= b_state r' < 4).
    { unfold uptodate, dirty, r' in *. cbn in *. revert F6 Hd. states F5; cbn; done. } destruct Hs as (S1 & S2 & S3).
    assert (Hb' : buf_ok w r').
    { split; try done. intros _. exists (splice (b_blocknr r * sz) (b_data r).2 data). split_and!; [done|by apply fits_splice|]. intros _. by rewrite block_of_same. }
    assert (Hok' : bc_ok (put_bh a r' s w c)) by (apply (put_bh_ok c a r); try done; right; by eexists).
    split_and!; try done.
    + intros d k. rewrite (put_bh_block c a r); try done; [|intros d' k' Hne; rewrite (on_device_changed (bw c) w _ _ _ d' k' Hc); by rewrite decide_False].
      case_decide as Hdk; [|done]. rewrite S1. unfold block. symmetry.
      assert (Hcc : cached c d k = Some (b_data r).2) by (apply cached_some; [done|by exists a, r]). by rewrite Hcc.
    + intros x. by apply (put_bh_foreign c a r).
    + intros d. cbn [put_bh bw]. destruct (decide (d = b_bdev r)) as [->|Hne]; [rewrite W3; by eexists|by rewrite W4].
    + intros x Hx. cbn [put_bh bhs]. by rewrite lookup_insert_ne.
    + intros _. split; [exists r'; cbn [put_bh bhs]; by rewrite lookup_insert_eq|]. intros d k. cbn [put_bh bw]. rewrite (on_device_changed (bw c) w _ _ _ d k Hc).
      unfold key. destruct (decide ((d, k) = (b_bdev r, b_blocknr r))) as [Hdk|Hdk]; [by rewrite decide_True|by rewrite decide_False by tauto].
  - destruct W3 as [[_ W3]|(_ & ? & _)]; [|done]. destruct (with_bw_ok c w Hok W1 W3 W2) as (P1 & P2 & P3). split_and!; try done. intros d. cbn [with_bw bw]. by rewrite W3.
Qed.

(** ** Synchronisation *)

Definition is_dirty c (a : Z) : bool := match bhs c !! a with Some r => dirty r | None => false end.
Fixpoint ndirty c (l : list Z) : Z := match l with [] => 0 | a :: l' => (if is_dirty c a then 1 else 0) + ndirty c l' end.

Lemma ndirty_ext c c' l : (forall a, a ∈ l -> bhs c' !! a = bhs c !! a) -> ndirty c' l = ndirty c l.
Proof.
  induction l as [|a l IH]; intros H; [done|]. cbn [ndirty]. unfold is_dirty. rewrite (H a) by left. rewrite IH; [done|]. intros x Hx. apply H. by right.
Qed.

Lemma sync_list_post l : forall flushed c,
  bc_ok c -> NoDup l -> (forall a, a ∈ l -> is_Some (bhs c !! a)) ->
  let '(n, c') := sync_list l flushed c in
  bc_ok c' /\ same_blocks c c' /\ (forall x, foreign c x -> foreign c' x) /\ (forall a, a ∉ l -> bhs c' !! a = bhs c !! a) /\
  flushed <= n <= flushed + ndirty c l /\ (n = flushed + ndirty c l -> forall a, a ∈ l -> is_dirty c' a = false).
Proof.
  induction l as [|a l IH]; intros flushed c Hok Hnd Hin; cbn [sync_list ndirty].
  { split_and!; try done; [lia|]. intros _ a Ha. by apply elem_of_nil in Ha. }
  apply NoDup_cons in Hnd as [Ha Hnd]. destruct (Hin a ltac:(by left)) as [r E]. assert (Ed : is_dirty c a = dirty r) by (unfold is_dirty; by rewrite E). rewrite E, Ed. fold (dirty r).
  destruct (dirty r) eqn:Hd.
  - pose proof (sync_post c a r Hok E) as HS. destruct (sync_dirty_buffer a c) as [e c1]. destruct HS as (S1 & S2 & S3 & _ & S5 & S6 & S7).
    assert (Hext : ndirty c1 l = ndirty c l) by (apply ndirty_ext; intros x Hx; apply S5; by intros ->).
    assert (Hin1 : forall x, x ∈ l -> is_Some (bhs c1 !! x)) by (intros x Hx; rewrite S5 by (by intros ->); apply Hin; by right).
    specialize (IH (if e =? 0 then flushed + 1 else flushed) c1 S1 Hnd Hin1). destruct (sync_list l _ c1) as [n c']. destruct IH as (I1 & I2 & I3 & I4 & I5 & I6).
    rewrite Hext in *. split_and!; try done.
    + intros d k. by rewrite I2, S2.
    + auto.
    + intros x Hx. apply not_elem_of_cons in Hx as [Hx1 Hx2]. by rewrite I4, S5.
    + destruct (e =? 0); lia.
    + destruct (e =? 0); lia.
    + intros Hn x Hx. destruct (e =? 0) eqn:He; [apply Z.eqb_eq in He as ->|lia]. apply elem_of_cons in Hx as [->|Hx]; [|apply I6; [lia|done]].
      unfold is_dirty. rewrite I4 by done. destruct (proj1 (S7 eq_refl)) as (r' & -> & _ & Hr). done.
  - specialize (IH flushed c Hok Hnd ltac:(intros x Hx; apply Hin; by right)). destruct (sync_list l flushed c) as [n c']. destruct IH as (I1 & I2 & I3 & I4 & I5 & I6).
    split_and!; try done.
    + intros x Hx. apply not_elem_of_cons in Hx as [Hx1 Hx2]. by rewrite I4.
    + lia.
    + lia.
    + intros Hn x Hx. apply elem_of_cons in Hx as [->|Hx]; [|apply I6; [lia|done]]. unfold is_dirty. by rewrite I4, E.
Qed.

Lemma sync_all_post c :
  bc_ok c -> let '(n, c') := sync_dirty_buffers_all c in
  bc_ok c' /\ same_blocks c c' /\ (forall x, foreign c x -> foreign c' x) /\
  (n = ndirty c (bh_all c) -> forall d k, on_device (bw c') d k = block c d k).
Proof.
  intros Hok. pose proof (sync_list_post (bh_all c) 0 c Hok (bo_all_once _ Hok) ltac:(intros a; apply (bo_all _ Hok))) as H.
  unfold sync_dirty_buffers_all. destruct (sync_list (bh_all c) 0 c) as [n c']. destruct H as (H1 & H2 & H3 & H4 & _ & H6). split_and!; try done.
  intros Hn d k. rewrite <- H2, <- (block_clean c'); [done|done|]. intros a r E _. destruct (decide (a ∈ bh_all c)) as [Ha|Ha].
  - specialize (H6 Hn a Ha). unfold is_dirty in H6. by rewrite E in H6.
  - exfalso. rewrite H4 in E by done. apply Ha, (bo_all _ Hok). by eexists.
Qed.

(** *** What a synchronisation writes *)

(** The device writes of [sync_dirty_buffers_all]: every dirty buffer of the list in
    order, and whether the device took all of it. *)
Fixpoint write_all c (l : list Z) (w : W) : list (Z * bool) * W :=
  match l with
  | [] => ([], w)
  | a :: l' =>
      match bhs c !! a with
      | Some r =>
          if dirty r then
            let '(n, w1) := bdev_write (b_bdev r) (b_blocknr r * sz) sz (b_data r).2 w in
            let '(log, w2) := write_all c l' w1 in ((a, n =? sz) :: log, w2)
          else write_all c l' w
      | None => write_all c l' w
      end
  end.

Definition written (log : list (Z * bool)) : Z := Z.of_nat (length (List.filter snd log)).

Lemma write_all_ext c c' l w : (forall a, a ∈ l -> bhs c' !! a = bhs c !! a) -> write_all c' l w = write_all c l w.
Proof.
  revert w. induction l as [|a l IH]; intros w H; [done|]. cbn [write_all]. rewrite (H a) by left.
  assert (IH' : forall w, write_all c' l w = write_all c l w) by (intros; apply IH; intros x Hx; apply H; by right).
  destruct (bhs c !! a) as [r|]; [|done]. destruct (dirty r); [|done]. destruct (bdev_write _ _ _ _ w) as [n w1]. by rewrite IH'.
Qed.

(** The log lists exactly the dirty buffers. *)
Lemma write_all_dirty c l w : map fst (write_all c l w).1 = List.filter (is_dirty c) l.
Proof.
  revert w. induction l as [|a l IH]; intros w; [done|]. cbn [write_all List.filter]. unfold is_dirty at 1. destruct (bhs c !! a) as [r|]; [|done].
  destruct (dirty r); [|done]. destruct (bdev_write _ _ _ _ w) as [n w1]. specialize (IH w1). destruct (write_all c l w1) as [log w2].
  cbn [fst map] in *. by rewrite IH.
Qed.

Lemma write_all_in c l w x b : (x, b) ∈ (write_all c l w).1 -> x ∈ l /\ is_dirty c x = true.
Proof.
  intros H%list_elem_of_In. apply (List.in_map fst) in H. rewrite write_all_dirty in H. apply List.filter_In in H. by rewrite list_elem_of_In.
Qed.

Lemma sync_dirty_cases c a r :
  bc_ok c -> bhs c !! a = Some r -> dirty r = true ->
  let '(n, w) := bdev_write (b_bdev r) (b_blocknr r * sz) sz (b_data r).2 (bw c) in
  let '(e, c') := sync_dirty_buffer a c in
  bw c' = w /\ e = (if n =? sz then 0 else -1) /\ is_dirty c' a = negb (n =? sz).
Proof.
  intros Hok E Hd. pose proof (bo_buf _ Hok a r E) as [F1 [F2 F2'] _ _ F5 F6 _]. unfold sync_dirty_buffer. rewrite E, F1.
  assert (Hoff : b_blocknr r *w sz = b_blocknr r * sz) by (apply mul32_id; nia). rewrite Hoff.
  destruct (Z.eqb_spec sz 0) as [?|_]; [lia|]. fold (dirty r). rewrite Hd. cbn [negb].
  destruct (bdev_write (b_bdev r) (b_blocknr r * sz) sz (b_data r).2 (bw c)) as [n w]. destruct (n =? sz) eqn:En; cbn [negb].
  - split; [done|]. split; [done|]. unfold is_dirty. cbn [with_wb upd_bh with_bhs with_bw bhs]. rewrite lookup_alter_eq, E. cbn [fmap option_fmap option_map].
    unfold dirty in *. cbn [set_b_state b_state]. specialize (F6 Hd). unfold uptodate in F6. revert F6 Hd. states F5; cbn; done.
  - split; [done|]. split; [done|]. unfold is_dirty. cbn [with_bw bhs]. by rewrite E.
Qed.

Lemma sync_list_writes l : forall flushed c,
  bc_ok c -> NoDup l -> (forall a, a ∈ l -> is_Some (bhs c !! a)) ->
  let '(log, w) := write_all c l (bw c) in
  let '(n, c') := sync_list l flushed c in
  bw c' = w /\ n = flushed + written log /\ (forall a, a ∉ l -> bhs c' !! a = bhs c !! a) /\
  forall a, a ∈ l -> is_dirty c' a = true <-> (a, false) ∈ log.
Proof.
  induction l as [|a l IH]; intros flushed c Hok Hnd Hin; cbn [write_all sync_list].
  { split_and!; try done; [unfold written; cbn; lia|]. intros a Ha. by apply elem_of_nil in Ha. }
  apply NoDup_cons in Hnd as [Ha Hnd]. destruct (Hin a ltac:(by left)) as [r E]. rewrite E. fold (dirty r). destruct (dirty r) eqn:Hd.
  - pose proof (sync_dirty_cases c a r Hok E Hd) as HC. pose proof (sync_post c a r Hok E) as HS.
    destruct (bdev_write _ _ _ _ (bw c)) as [n0 w1]. destruct (sync_dirty_buffer a c) as [e c1].
    destruct HC as (<- & -> & D3), HS as (S1 & _ & _ & _ & S5 & _).
    assert (Hin1 : forall x, x ∈ l -> is_Some (bhs c1 !! x)) by (intros x Hx; rewrite S5 by (by intros ->); apply Hin; by right).
    specialize (IH (if (if n0 =? sz then 0 else -1) =? 0 then flushed + 1 else flushed) c1 S1 Hnd Hin1).
    rewrite (write_all_ext c c1) in IH by (intros x Hx; apply S5; by intros ->).
    pose proof (write_all_in c l (bw c1) a false) as Hlog. destruct (write_all c l (bw c1)) as [log w].
    destruct (sync_list l _ c1) as [m c']. destruct IH as (I1 & I2 & I3 & I4). split_and!; [done| | |].
    + rewrite I2. unfold written. destruct (n0 =? sz); cbn [Z.eqb List.filter snd length]; lia.
    + intros x Hx. apply not_elem_of_cons in Hx as [Hx1 Hx2]. by rewrite I3, S5.
    + intros x Hx. rewrite elem_of_cons. apply elem_of_cons in Hx as [->|Hx].
      2:{ rewrite I4 by done. split; [by right|]. by intros [[= -> _]|?]. }
      assert (Hda : is_dirty c' a = is_dirty c1 a) by (unfold is_dirty; by rewrite I3). rewrite Hda, D3. destruct (n0 =? sz); cbn [negb]; [|split; auto].
      split; [done|]. intros [?|H]; [congruence|]. by apply Hlog in H as [? _].
  - assert (Hin1 : forall x, x ∈ l -> is_Some (bhs c !! x)) by (intros x Hx; apply Hin; by right).
    specialize (IH flushed c Hok Hnd Hin1). destruct (write_all c l (bw c)) as [log w] eqn:Ew. destruct (sync_list l flushed c) as [m c'].
    destruct IH as (I1 & I2 & I3 & I4). split_and!; [done|done| |].
    + intros x Hx. apply not_elem_of_cons in Hx as [Hx1 Hx2]. by rewrite I3.
    + intros x [->|Hx]%elem_of_cons; [|by apply I4]. unfold is_dirty. rewrite I3, E, Hd by done. split; [done|]. intros H.
      pose proof (write_all_in c l (bw c) a false) as Hlog. rewrite Ew in Hlog. by apply Hlog in H as [? _].
Qed.

Lemma sync_all_writes c :
  bc_ok c ->
  let '(log, w) := write_all c (bh_all c) (bw c) in
  let '(n, c') := sync_dirty_buffers_all c in
  bw c' = w /\ n = written log /\ (forall a, is_dirty c' a = true <-> (a, false) ∈ log) /\
  (forall d k, (forall a r, (a, false) ∈ log -> bhs c' !! a = Some r -> key r <> (d, k)) -> on_device (bw c') d k = block c d k).
Proof.
  intros Hok. pose proof (sync_list_writes (bh_all c) 0 c Hok (bo_all_once _ Hok) ltac:(intros a; apply (bo_all _ Hok))) as H.
  pose proof (sync_all_post c Hok) as Hp. pose proof (write_all_in c (bh_all c) (bw c)) as Hlog. unfold sync_dirty_buffers_all in *.
  destruct (write_all c (bh_all c) (bw c)) as [log w]. destruct (sync_list (bh_all c) 0 c) as [n c']. destruct H as (H1 & H2 & H3 & H4), Hp as (P1 & P2 & _).
  assert (Hd : forall a, is_dirty c' a = true <-> (a, false) ∈ log).
  { intros a. destruct (decide (a ∈ bh_all c)) as [Ha|Ha]; [by apply H4|]. split.
    - unfold is_dirty. rewrite H3 by done. destruct (bhs c !! a) eqn:E; [|done]. intros _. exfalso. apply Ha, (bo_all _ Hok). by eexists.
    - intros Hx. by apply Hlog in Hx as [? _]. }
  split_and!; [done|lia|done|]. intros d k Hk. rewrite <- P2, <- (block_clean c'); [done|done|]. intros a r' E' Hkey.
  destruct (dirty r') eqn:Hr; [|done]. exfalso. assert (Ha : (a, false) ∈ log) by (apply Hd; unfold is_dirty; by rewrite E').
  by apply (Hk a r').
Qed.

(** *** When a block can be read *)

(** A clean buffer that nobody uses. *)
Definition spare c (a : Z) : bool := match bhs c !! a with Some r => bool_decide (b_count r = 0) && negb (dirty r) | None => false end.

(** The heap once there is room for one more buffer: when the cache is full the
    oldest spare buffer and its data are freed, and without one there is none. *)
Definition room c : option W :=
  if bool_decide (bh_total c < BH_MAX) then Some (bw c)
  else a ← List.find (spare c) (bh_all c); r ← bhs c !! a; Some (kfree a (kfree (b_data r).1 (bw c))).

(** The heap with the two objects of a new buffer. *)
Definition new_objects c : option W :=
  w ← room c;
  match kmalloc SIZEOF_BH w with
  | (Some _, w1) => match kmalloc sz w1 with (Some _, w2) => Some w2 | (None, _) => None end
  | (None, _) => None
  end.

(** The block is in the cache, or the device gives all of it into a buffer that is
    there or can be made. *)
Definition readable c d k : Prop :=
  match bh_lookup d k sz c ≫= (fun a => bhs c !! a) with
  | Some r => uptodate r = true \/ (bdev_read d (k * sz) sz (b_data r).2 (bw c)).1.1 = sz
  | None => exists w, new_objects c = Some w /\ (bdev_read d (k * sz) sz (zeroes sz) w).1.1 = sz
  end.

Lemma bh_fill_some c a r d k :
  bhs c !! a = Some r -> 0 <= k -> k * sz < 4294967296 ->
  is_Some (bh_fill a d k sz c).1 <-> uptodate r = true \/ (bdev_read d (k * sz) sz (b_data r).2 (bw c)).1.1 = sz.
Proof.
  intros E Hk Hk'. unfold bh_fill. rewrite E. fold (uptodate r). destruct (uptodate r); [split; [by left|by eexists]|].
  rewrite mul32_id by nia. destruct (bdev_read d (k * sz) sz (b_data r).2 (bw c)) as [[n data] w]. cbn [fst].
  destruct (Z.eqb_spec n sz) as [->|Hn]; cbn [negb fst]; [split; [by right|by eexists]|].
  split; [by intros [? ?]|]. by intros [?|?].
Qed.

Lemma bh_alloc_some c d k :
  bc_ok c -> match bh_alloc d k sz c with
  | (None, _) => new_objects c = None
  | (Some a, c1) => new_objects c = Some (bw c1) /\ exists p, bhs c1 !! a = Some (Bh d k sz (p, zeroes sz) 0 1)
  end.
Proof.
  intros Hok. unfold bh_alloc, new_objects, room. destruct (bo_total _ Hok) as [_ Ht].
  assert (Hev : (if BH_MAX <=? bh_total c then bh_evict_one c else (true, c)).1 = false /\ room c = None \/
    (if BH_MAX <=? bh_total c then bh_evict_one c else (true, c)).1 = true /\ room c = Some (bw (if BH_MAX <=? bh_total c then bh_evict_one c else (true, c)).2)).
  { unfold room. destruct (Z.leb_spec BH_MAX (bh_total c)) as [H|H]; [rewrite bool_decide_false by lia|rewrite bool_decide_true by lia; by right].
    unfold bh_evict_one. assert (Hf : List.find (evictable c) (bh_all c) = List.find (spare c) (bh_all c)).
    { assert (He : forall a, evictable c a = spare c a); [|induction (bh_all c) as [|a l IH]; [done|cbn [List.find]; by rewrite He, IH]].
      intros a. unfold evictable, spare. destruct (bhs c !! a) as [r|]; [|done]. f_equal. apply eq_true_iff_eq. by rewrite Z.eqb_eq, bool_decide_eq_true. }
    rewrite Hf. destruct (List.find (spare c) (bh_all c)) as [a|]; [|by left]. cbn [mbind option_bind]. destruct (bhs c !! a); [by right|by left]. }
  fold (room c). destruct (if BH_MAX <=? bh_total c then bh_evict_one c else (true, c)) as [ok c1]. cbn [fst snd] in Hev.
  destruct Hev as [[-> ->]|[-> ->]]; [done|]. cbn [negb mbind option_bind]. destruct (kmalloc SIZEOF_BH (bw c1)) as [[a|] w1]; [|done].
  destruct (kmalloc sz w1) as [[p|] w2]; [|done]. cbn [bw bhs]. split; [done|]. exists p. apply lookup_insert_eq.
Qed.

Lemma bread_some c d k : bc_ok c -> 0 <= k -> k * sz < 4294967296 -> is_Some (bread d k sz c).1 <-> readable c d k.
Proof.
  intros Hok Hk Hk'. unfold bread, readable. destruct (Z.eqb_spec sz 0) as [?|_]; [lia|]. destruct (bh_lookup d k sz c) as [a|] eqn:El; cbn [mbind option_bind].
  - apply bh_lookup_spec in El as (r & E & _); [|done]. rewrite E, (upd_bh_eq _ a r) by done.
    rewrite (bh_fill_some _ a (set_b_count (b_count r +w 1) r)) by (done || cbn [put_bh bhs]; apply lookup_insert_eq). done.
  - pose proof (bh_alloc_some c d k Hok) as HA. destruct (bh_alloc d k sz c) as [[a|] c1].
    + destruct HA as [HA [p E]]. rewrite (bh_fill_some c1 a _ d k E) by done. rewrite HA. cbn [b_data snd]. split.
      * intros [?|?]; [done|]. by exists (bw c1).
      * intros (w & [= <-] & ?). by right.
    + rewrite HA. split; [by intros [? ?]|]. by intros (w & ? & _).
Qed.

End proofs.

(** ** Block stores

    What the cache promises to a file system on one device: blocks of 1024
    bytes that are read and written.  A write that fails may be applied. *)

Class BlockStore (V : Type) := {
  store_read : Z -> Z -> V -> option (list Z) * V;
  store_write : Z -> Z -> list Z -> V -> bool * V;
}.

Definition is_block (l : list Z) : Prop := zlen l = MINIX_BLOCK_SIZE /\ Forall is_byte l.
Definition block_number (k : Z) : Prop := 0 <= k < 4194304.

Class BlockStoreSpec (V : Type) `{!KAlloc V, !KAllocSpec V, !BlockStore V} := {
  store_ok : V -> Z -> Prop;
  store_block : V -> Z -> Z -> option (list Z);
  store_free : V -> Z -> Prop;
  store_is_block v d k l : store_ok v d -> store_block v d k = Some l -> is_block l;
  store_kmalloc n v d : store_ok v d ->
    let '(o, v') := kmalloc n v in
    store_ok v' d /\ (forall k, store_block v' d k = store_block v d k) /\ (forall x, store_free v x -> store_free v' x) /\
    forall p, o = Some p -> store_free v' p /\ ~ store_free v p;
  store_kfree p v d : store_ok v d -> store_free v p ->
    store_ok (kfree p v) d /\ (forall k, store_block (kfree p v) d k = store_block v d k) /\
    forall x, x <> p -> store_free v x -> store_free (kfree p v) x;
  store_read_ok v d k : store_ok v d -> block_number k ->
    let '(o, v') := store_read d k v in
    (forall d', store_ok v d' -> store_ok v' d') /\ (forall d' k', store_block v' d' k' = store_block v d' k') /\
    (forall x, store_free v x -> store_free v' x) /\ forall l, o = Some l -> store_block v d k = Some l;
  store_write_ok v d k l : store_ok v d -> block_number k -> is_block l ->
    let '(ok, v') := store_write d k l v in
    (forall d', store_ok v d' -> store_ok v' d') /\ (forall x, store_free v x -> store_free v' x) /\
    (ok = true -> is_Some (store_block v d k)) /\
    ((forall d' k', store_block v' d' k' = set_block (store_block v) d k l d' k') \/
     ok = false /\ forall d' k', store_block v' d' k' = store_block v d' k');
}.

Section minix_blocks.
Context {W : Type} `{!KAlloc W, !KAllocSpec W, !BlockDev W, !BlockDevSpec W}.
Notation bcache := (bcache W).
Notation bc_ok := (bc_ok MINIX_BLOCK_SIZE).
Notation block := (block MINIX_BLOCK_SIZE).
Notation on_device := (on_device MINIX_BLOCK_SIZE).
Notation same_blocks := (same_blocks MINIX_BLOCK_SIZE).
Implicit Types c : bcache.

Let Hsz : 0 < MINIX_BLOCK_SIZE < 4294967296.
Proof. unfold MINIX_BLOCK_SIZE. lia. Qed.

Lemma minix_bread_post c d k :
  bc_ok c -> is_Some (disk_data (bw c) d) -> block_number k ->
  let '(o, c') := minix_bread d k c in
  bc_ok c' /\ same_blocks c c' /\ dev_same (bw c) (bw c') /\ (forall x, foreign c x -> foreign c' x) /\
  forall l, o = Some l -> block c d k = Some l.
Proof.
  intros Hok Hd Hk. unfold minix_bread. pose proof (bread_post MINIX_BLOCK_SIZE Hsz c d k Hok Hd ltac:(apply Hk) ltac:(destruct Hk; unfold MINIX_BLOCK_SIZE; lia)) as HR.
  destruct (bread d k MINIX_BLOCK_SIZE c) as [[a|] c1]; destruct HR as (R1 & R2 & R3 & R4 & R5); [|by split_and!].
  destruct (R5 a eq_refl) as (l & Hl & r & E & _ & _ & <-). destruct (brelse_post MINIX_BLOCK_SIZE Hsz c1 a r R1 E) as (Q1 & Q2 & Q3 & Q4). rewrite E. cbn [fmap option_fmap option_map].
  split_and!; [done|intros d' k'; by rewrite Q2, R2|by rewrite Q3|auto|by intros ? [= <-]].
Qed.

Lemma minix_bwrite_post c d k buf :
  bc_ok c -> is_Some (disk_data (bw c) d) -> block_number k -> is_block buf ->
  let '(ok, c') := minix_bwrite d k buf c in
  bc_ok c' /\ is_Some (disk_data (bw c') d) /\ (forall d', is_Some (disk_data (bw c) d') -> is_Some (disk_data (bw c') d')) /\
  (forall x, foreign c x -> foreign c' x) /\
  (ok = true -> is_Some (block c d k) /\ (forall d' k', block c' d' k' = set_block (block c) d k buf d' k') /\
     on_device (bw c') d k = Some buf /\ forall d' k', (d', k') <> (d, k) -> on_device (bw c') d' k' = on_device (bw c) d' k') /\
  (ok = false -> dev_same (bw c) (bw c') /\
     (same_blocks c c' \/ forall d' k', block c' d' k' = set_block (block c) d k buf d' k')).
Proof.
  intros Hok Hd Hk [Hl HB]. unfold minix_bwrite. pose proof (bread_post MINIX_BLOCK_SIZE Hsz c d k Hok Hd ltac:(apply Hk) ltac:(destruct Hk; unfold MINIX_BLOCK_SIZE; lia)) as HR.
  destruct (bread d k MINIX_BLOCK_SIZE c) as [[a|] c1]; destruct HR as (R1 & R2 & R3 & R4 & R5).
  2:{ split_and!; try done; [by rewrite R3|intros d'; by rewrite R3|]. intros _. by split; [|left]. }
  destruct (R5 a eq_refl) as (l & Hlb & Hh). destruct (dirty_post MINIX_BLOCK_SIZE Hsz c1 a d k l buf R1 Hh Hl HB) as (D1 & D2 & D3 & D4 & r & E & Er & Ed & Eb).
  set (c2 := mark_buffer_dirty _ _) in *. pose proof (sync_post MINIX_BLOCK_SIZE Hsz c2 a r D1 E) as HS. destruct (sync_dirty_buffer a c2) as [e c3].
  destruct HS as (S1 & S2 & S3 & S4 & S5 & S6 & S7).
  assert (E3 : exists r3, bhs c3 !! a = Some r3).
  { destruct (decide (e = 0)) as [He|He]; [destruct (proj1 (S7 He)) as (r' & ? & _); by exists r'|exists r; destruct (S6 He) as [_ ->]; done]. }
  destruct E3 as (r3 & E3). destruct (brelse_post MINIX_BLOCK_SIZE Hsz c3 a r3 S1 E3) as (Q1 & Q2 & Q3 & Q4).
  assert (HB' : forall d' k', block (brelse a c3) d' k' = set_block (block c) d k buf d' k').
  { intros d' k'. rewrite Q2, S2, D2. unfold set_block. by rewrite R2. }
  assert (Hdd : forall d', is_Some (disk_data (bw c) d') -> is_Some (disk_data (bw (brelse a c3)) d')).
  { intros d' H. rewrite Q3. apply S4. by rewrite D3, R3. }
  split_and!; auto.
  - intros He%Z.eqb_eq. split_and!; [by exists l|done| |].
    + rewrite Q3. rewrite (proj2 (S7 He)), Er, Eb. by rewrite decide_True.
    + intros d' k' Hne. rewrite Q3, (proj2 (S7 He)), Er, D3. rewrite decide_False by (intros [_ ?]; congruence). by apply on_device_same.
  - intros He%Z.eqb_neq. split; [|by right]. intros d'. rewrite Q3, (proj1 (S6 He)), D3. by rewrite R3.
Qed.

Lemma minix_bread_some c d k :
  bc_ok c -> is_Some (disk_data (bw c) d) -> block_number k -> is_Some (minix_bread d k c).1 <-> readable MINIX_BLOCK_SIZE c d k.
Proof.
  intros Hok Hd Hk. assert (Hk2 : k * MINIX_BLOCK_SIZE < 4294967296) by (destruct Hk; unfold MINIX_BLOCK_SIZE; lia).
  rewrite <- (bread_some MINIX_BLOCK_SIZE Hsz c d k Hok ltac:(apply Hk) Hk2). unfold minix_bread.
  pose proof (bread_post MINIX_BLOCK_SIZE Hsz c d k Hok Hd ltac:(apply Hk) Hk2) as HR.
  destruct (bread d k MINIX_BLOCK_SIZE c) as [[a|] c1]; [|split; by intros [? ?]]. destruct HR as (_ & _ & _ & _ & R5). destruct (R5 a eq_refl) as (l & _ & r & E & _).
  rewrite E. split; by eexists.
Qed.

(** The device behind the cache once the block is in it. *)
Lemma minix_bwrite_true c d k buf :
  bc_ok c -> is_Some (disk_data (bw c) d) -> block_number k -> is_block buf ->
  (minix_bwrite d k buf c).1 = true <->
  readable MINIX_BLOCK_SIZE c d k /\
  (bdev_write d (k * MINIX_BLOCK_SIZE) MINIX_BLOCK_SIZE buf (bw (minix_bread d k c).2)).1 = MINIX_BLOCK_SIZE.
Proof.
  intros Hok Hd Hk [Hl HB]. assert (Hk2 : k * MINIX_BLOCK_SIZE < 4294967296) by (destruct Hk; unfold MINIX_BLOCK_SIZE; lia).
  rewrite <- (bread_some MINIX_BLOCK_SIZE Hsz c d k Hok ltac:(apply Hk) Hk2). unfold minix_bwrite, minix_bread.
  pose proof (bread_post MINIX_BLOCK_SIZE Hsz c d k Hok Hd ltac:(apply Hk) Hk2) as HR.
  destruct (bread d k MINIX_BLOCK_SIZE c) as [[a|] c1]; [|split; [done|by intros [[? ?] _]]]. destruct HR as (R1 & _ & _ & _ & R5).
  destruct (R5 a eq_refl) as (l & Hlb & Hh). destruct (dirty_post MINIX_BLOCK_SIZE Hsz c1 a d k l buf R1 Hh Hl HB) as (D1 & _ & D3 & _ & r & E & Er & Ed & Eb).
  set (c2 := mark_buffer_dirty _ _) in *. pose proof (sync_dirty_cases MINIX_BLOCK_SIZE Hsz c2 a r D1 E Ed) as HC. injection Er as Er1 Er2.
  rewrite Er1, Er2, Eb, D3 in HC. cbn [snd]. change (bw (brelse a c1)) with (bw c1).
  destruct (bdev_write d (k * MINIX_BLOCK_SIZE) MINIX_BLOCK_SIZE buf (bw c1)) as [n w]. destruct (sync_dirty_buffer a c2) as [e c3]. destruct HC as (_ & -> & _).
  cbn [fst]. destruct (Z.eqb_spec n MINIX_BLOCK_SIZE) as [->|Hn]; cbn [Z.eqb]; (split; [done|]); [by intros _|by intros [_ ?]].
Qed.

(** C10: the buffer cache is transparent.  [minix_bread] changes no block and returns
    the contents of the block; it fails exactly when the block is not cached and no
    buffer can be had (all are in use or dirty, or memory is exhausted) or the
    device does not give all of it.  [minix_bwrite] succeeds exactly when the block
    can be read and the device then takes all of it, and changes exactly this
    block, both for later reads and on the device; a failed one leaves the devices
    as they are.  [sync_dirty_buffers_all] changes no block; it writes every dirty
    buffer to its device, in the order of the list, counts those the device took,
    and leaves exactly the others dirty; every block without a buffer left dirty is
    on the device as readers see it.  Whatever is evicted, the invariant holds, and
    no heap object outside of the cache is touched. *)
Theorem buffer_cache_transparent c d k buf :
  bc_ok c -> is_Some (disk_data (bw c) d) -> block_number k -> is_block buf ->
  let '(o, c1) := minix_bread d k c in
  let '(ok, c2) := minix_bwrite d k buf c in
  let '(n, c3) := sync_dirty_buffers_all c in
  let '(log, w3) := write_all MINIX_BLOCK_SIZE c (bh_all c) (bw c) in
  (bc_ok c1 /\ same_blocks c c1 /\ (is_Some o <-> readable MINIX_BLOCK_SIZE c d k) /\ forall l, o = Some l -> block c d k = Some l) /\
  (bc_ok c2 /\
   (ok = true <-> readable MINIX_BLOCK_SIZE c d k /\ (bdev_write d (k * MINIX_BLOCK_SIZE) MINIX_BLOCK_SIZE buf (bw c1)).1 = MINIX_BLOCK_SIZE) /\
   (ok = true -> (forall d' k', block c2 d' k' = set_block (block c) d k buf d' k') /\
      on_device (bw c2) d k = Some buf /\ forall d' k', (d', k') <> (d, k) -> on_device (bw c2) d' k' = on_device (bw c) d' k') /\
   (ok = false -> dev_same (bw c) (bw c2))) /\
  (bc_ok c3 /\ same_blocks c c3 /\ bw c3 = w3 /\ map fst log = List.filter (is_dirty c) (bh_all c) /\ n = written log /\
   (forall a, is_dirty c3 a = true <-> (a, false) ∈ log) /\
   (forall d' k', (forall a r, (a, false) ∈ log -> bhs c3 !! a = Some r -> key r <> (d', k')) -> on_device (bw c3) d' k' = block c d' k')) /\
  forall x, foreign c x -> foreign c1 x /\ foreign c2 x /\ foreign c3 x.
Proof.
  intros Hok Hd Hk Hb. pose proof (minix_bread_post c d k Hok Hd Hk) as H1. pose proof (minix_bwrite_post c d k buf Hok Hd Hk Hb) as H2.
  pose proof (sync_all_post MINIX_BLOCK_SIZE Hsz c Hok) as H3. pose proof (minix_bread_some c d k Hok Hd Hk) as H4.
  pose proof (minix_bwrite_true c d k buf Hok Hd Hk Hb) as H5. pose proof (sync_all_writes MINIX_BLOCK_SIZE Hsz c Hok) as H6.
  pose proof (write_all_dirty MINIX_BLOCK_SIZE c (bh_all c) (bw c)) as H7.
  destruct (minix_bread d k c) as [o c1], (minix_bwrite d k buf c) as [ok c2], (sync_dirty_buffers_all c) as [n c3], (write_all _ c _ _) as [log w3].
  destruct H1 as (A1 & A2 & A3 & A4 & A5), H2 as (B1 & B2 & B3 & B4 & B5 & B6), H3 as (C1 & C2 & C3 & C4), H6 as (D1 & D2 & D3 & D4). split_and!; auto.
  - intros Ho. by destruct (B5 Ho) as (_ & ? & ? & ?).
  - intros Ho. by destruct (B6 Ho).
Qed.
End minix_blocks.

(** ** The cache as a block store *)

#[export] Instance bcache_kalloc {W} `{!KAlloc W} : KAlloc (bcache W) := {|
  kmalloc := fun n c => let '(o, w) := kmalloc n (bw c) in (o, with_bw c w);
  kfree := fun p c => with_bw c (kfree p (bw c));
|}.

#[export] Instance bcache_kalloc_spec {W} `{!KAlloc W, !KAllocSpec W} : KAllocSpec (bcache W).
Proof.
  refine {| km_ok := fun c => km_ok (bw c); live := fun c => live (bw c) |}.
  - intros n c c' Hok. cbn [kmalloc bcache_kalloc]. destruct (kmalloc n (bw c)) as [o w] eqn:E. intros [= -> <-]. by apply (kmalloc_none n).
  - intros n c p c' Hok. cbn [kmalloc bcache_kalloc]. destruct (kmalloc n (bw c)) as [o w] eqn:E. intros [= -> <-]. by apply (kmalloc_some n).
  - intros p c. apply kfree_live.
  - intros p c. apply live_range.
Defined.

#[export] Instance bcache_store {W} `{!KAlloc W, !BlockDev W} : BlockStore (bcache W) := {|
  store_read := minix_bread; store_write := minix_bwrite;
|}.

#[export] Instance bcache_store_spec {W} `{!KAlloc W, !KAllocSpec W, !BlockDev W, !BlockDevSpec W} : BlockStoreSpec (bcache W).
Proof.
  refine {| store_ok := fun c d => bc_ok MINIX_BLOCK_SIZE c /\ is_Some (disk_data (bw c) d);
            store_block := block MINIX_BLOCK_SIZE; store_free := foreign |}.
  - intros c d k l [Hok _]. unfold block. destruct (cached MINIX_BLOCK_SIZE c d k) as [l'|] eqn:Hc.
    + intros [= <-]. apply cached_some in Hc as (a & r & E & _ & _ & <-); [|unfold MINIX_BLOCK_SIZE; lia|done]. destruct (bo_buf _ _ Hok a r E). by split.
    + unfold on_device. destruct (disk_data (bw c) d) as [data|] eqn:Ed; [|done]. cbn [mbind option_bind]. case_decide as Hf; [|done]. intros [= <-].
      destruct Hf as [F1 F2]. unfold MINIX_BLOCK_SIZE in *. split; [apply zlen_slice; unfold MINIX_BLOCK_SIZE; lia|apply Forall_slice, (disk_bytes _ _ _ (bo_dev _ _ Hok) Ed)].
  - intros n c d [Hok Hd]. cbn [kmalloc bcache_kalloc]. pose proof (dev_kmalloc n (bw c) (bo_dev _ _ Hok)) as [D1 D2].
    pose proof (dev_ok_heap _ (bo_dev _ _ Hok)) as Hh. destruct (kmalloc n (bw c)) as [o w] eqn:Ek. cbn [snd] in *.
    assert (Hl : live (bw c) ⊆ live w /\ forall p, o = Some p -> p ∈ live w /\ p ∉ live (bw c)).
    { destruct o as [p|]; [destruct (kmalloc_some _ _ _ _ Hh Ek) as (_ & _ & H1 & ->)|destruct (kmalloc_none _ _ _ Hh Ek) as (_ & ->)]; (split; [set_solver|]); [|done].
      intros ? [= <-]. set_solver. }
    destruct Hl as [Hl Hp]. destruct (with_bw_keeps MINIX_BLOCK_SIZE c w Hok D1 D2) as [H1 H2].
    { intros a r E. destruct (bo_live _ _ Hok a r E). set_solver. }
    split_and!; [done|cbn [with_bw bw]; by rewrite D2|intros k; apply H2|intros x [Q1 Q2]; split; [cbn [with_bw bw]; set_solver|done]|].
    intros p Ho. destruct (Hp p Ho) as [P1 P2]. split; [|by intros [? _]]. split; [done|]. intros a r E. destruct (bo_live _ _ Hok a r E). split; intros ->; done.
  - intros p c d [Hok Hd] [Hp1 Hp2]. cbn [kfree bcache_kalloc]. destruct (dev_kfree p (bw c) (bo_dev _ _ Hok) Hp1) as [D1 D2].
    destruct (kfree_live p (bw c) (dev_ok_heap _ (bo_dev _ _ Hok)) Hp1) as [_ Hl].
    destruct (with_bw_keeps MINIX_BLOCK_SIZE c (kfree p (bw c)) Hok D1 D2) as [H1 H2].
    { intros a r E. destruct (bo_live _ _ Hok a r E), (Hp2 a r E). rewrite Hl. set_solver. }
    split_and!; [done|cbn [with_bw bw]; by rewrite D2|intros k; apply H2|].
    intros x Hne [Q1 Q2]. split; [cbn [with_bw bw]; rewrite Hl; set_solver|done].
  - intros c d k [Hok Hd] Hk. cbn [store_read bcache_store]. pose proof (minix_bread_post c d k Hok Hd Hk) as H.
    destruct (minix_bread d k c) as [o c']. destruct H as (H1 & H2 & H3 & H4 & H5). split_and!; try done. intros d' [_ Hd']. split; [done|by rewrite H3].
  - intros c d k l [Hok Hd] Hk Hl. cbn [store_write bcache_store]. pose proof (minix_bwrite_post c d k l Hok Hd Hk Hl) as H.
    destruct (minix_bwrite d k l c) as [ok c']. destruct H as (H1 & H2 & H3 & H4 & H5 & H6). split_and!; try done; [intros d' [_ Hd']; split; auto|intros Ho; apply (H5 Ho)|].
    destruct ok; [left; by apply H5|]. destruct (proj2 (H6 eq_refl)) as [H|H]; [by right|by left].
Defined.

(** The RAM disk of [RamdiskDemo] behind an empty cache. *)
Module BufferDemo.
(** The empty cache over a RAM disk with this contents. *)
Definition cache (l : list Z) : bcache (blk Heap.heap brd) := Bcache ∅ (replicate BH_HASH_SIZE []) [] 0 (Wb 0 0 0 0) (RamdiskDemo.disk l).
Definition c := cache RamdiskDemo.data.

Lemma cache_ok l : Forall is_byte l -> zlen l < 4294967296 -> bc_ok MINIX_BLOCK_SIZE (cache l).
Proof.
  intros HB Hl. split; try done.
  - by apply RamdiskDemo.disk_ok.
  - intros i l' a [-> _]%lookup_replicate_1 Ha. by apply elem_of_nil in Ha.
  - intros i l' [-> _]%lookup_replicate_1. constructor.
  - constructor.
  - intros a. cbn [cache bh_all bhs]. rewrite lookup_empty. split; [by intros ?%elem_of_nil|by intros [? ?]].
Qed.

Lemma empty_cache_ok : bc_ok MINIX_BLOCK_SIZE c.
Proof. apply cache_ok; [apply Forall_app; split; apply Forall_replicate; unfold is_byte; lia|done]. Qed.
End BufferDemo.

Lemma buffer_cache_transparent_witness :
  exists c1 c2, minix_bread 5 1 BufferDemo.c = (Some (replicate 1024 9), c1) /\ bc_ok MINIX_BLOCK_SIZE c1 /\
    minix_bwrite 5 1 (zeroes 1024) BufferDemo.c = (true, c2) /\ block MINIX_BLOCK_SIZE c2 5 1 = Some (zeroes 1024).
Proof.
  pose proof (buffer_cache_transparent BufferDemo.c 5 1 (zeroes 1024) BufferDemo.empty_cache_ok ltac:(by exists RamdiskDemo.data)
    ltac:(unfold block_number; lia) ltac:(split; [reflexivity|apply Forall_zeroes])) as H.
  assert (E1 : (minix_bread 5 1 BufferDemo.c).1 = Some (replicate 1024 9)) by (vm_compute; reflexivity).
  assert (E2 : (minix_bwrite 5 1 (zeroes 1024) BufferDemo.c).1 = true) by (vm_compute; reflexivity).
  destruct (minix_bread 5 1 BufferDemo.c) as [o c1], (minix_bwrite 5 1 (zeroes 1024) BufferDemo.c) as [ok c2]. cbn [fst] in *. subst o ok.
  destruct (sync_dirty_buffers_all BufferDemo.c) as [n c3], (write_all _ _ _ _) as [log w3]. destruct H as ((H1 & _) & (_ & _ & H2 & _) & _).
  exists c1, c2. split_and!; [reflexivity|exact H1|reflexivity|]. destruct (H2 eq_refl) as (H3 & _). rewrite H3. unfold set_block. by rewrite decide_True.
Defined.
