(* ===== verification/Minix.v ===== *)
(** * The Minix file system ([fs/minix])

    On disk: a super block, bitmaps of inodes and zones, a table of inodes and
    the data zones, in blocks of 1024 bytes read and written through the
    interface [BlockStore].  The structures are packed and little endian.  A
    [minix_inode_info] is passed in and returned where the code updates it. *)

From stdpp Require Import base tactics numbers list gmap sets.
From Stdlib Require Import ZArith Lia.
From S2P Require Import Prelude Bytes Block Buffer.

Definition MINIX_SUPER_MAGIC : Z := 4991.

Record minix_super_block : Type := Msb {
  s_ninodes : Z; s_nzones : Z; s_imap_blocks : Z; s_zmap_blocks : Z; s_firstdatazone : Z; s_log_zone_size : Z;
  s_max_size : Z; s_magic : Z; s_state : Z;
}.
Record minix_inode_disk : Type := Mino { i_mode : Z; i_uid : Z; i_size : Z; i_mtime : Z; i_gid : Z; i_nlinks : Z; i_zone : list Z }.
Record minix_dir_entry : Type := Mde { de_inode : Z; de_name : list Z }.
Record minix_inode_info : Type := Minfo { m_bdev : Z; m_ino : Z; m_sb : minix_super_block; m_dinode : minix_inode_disk }.

Definition SIZEOF_SB : Z := 20.
Definition SIZEOF_INODE : Z := 32.
Definition SIZEOF_DE : Z := 16.
Definition SIZEOF_INFO : Z := 60.
Definition SIZEOF_VFS_INODE : Z := 52.

(** ** The packed structures *)

Definition super_bytes (s : minix_super_block) : list Z :=
  le_bytes 2 (s_ninodes s) ++ le_bytes 2 (s_nzones s) ++ le_bytes 2 (s_imap_blocks s) ++ le_bytes 2 (s_zmap_blocks s) ++
  le_bytes 2 (s_firstdatazone s) ++ le_bytes 2 (s_log_zone_size s) ++ le_bytes 4 (s_max_size s) ++ le_bytes 2 (s_magic s) ++ le_bytes 2 (s_state s).
Definition super_of (l : list Z) : minix_super_block :=
  Msb (le_value (slice 0 2 l)) (le_value (slice 2 2 l)) (le_value (slice 4 2 l)) (le_value (slice 6 2 l)) (le_value (slice 8 2 l))
    (le_value (slice 10 2 l)) (le_value (slice 12 4 l)) (le_value (slice 16 2 l)) (le_value (slice 18 2 l)).

Definition inode_bytes (i : minix_inode_disk) : list Z :=
  le_bytes 2 (i_mode i) ++ le_bytes 2 (i_uid i) ++ le_bytes 4 (i_size i) ++ le_bytes 4 (i_mtime i) ++ le_bytes 1 (i_gid i) ++
  le_bytes 1 (i_nlinks i) ++ concat (le_bytes 2 <$> i_zone i).
Definition inode_of (l : list Z) : minix_inode_disk :=
  Mino (le_value (slice 0 2 l)) (le_value (slice 2 2 l)) (le_value (slice 4 4 l)) (le_value (slice 8 4 l)) (le_value (slice 12 1 l))
    (le_value (slice 13 1 l)) ((fun j => le_value (slice (14 + 2 * j) 2 l)) <$> seqZ 0 9).

Definition de_bytes (e : minix_dir_entry) : list Z := le_bytes 2 (de_inode e) ++ de_name e.
Definition de_of (l : list Z) : minix_dir_entry := Mde (le_value (slice 0 2 l)) (slice 2 14 l).

(** The bytes up to the terminator: [name[14]] with a terminator behind it. *)
Fixpoint cstr (l : list Z) : list Z := match l with [] => [] | c :: l' => if c =? 0 then [] else c :: cstr l' end.

Definition DOT_NAME : list Z := 46 :: replicate 13 0.
Definition DOTDOT_NAME : list Z := 46 :: 46 :: replicate 12 0.

Definition set_i_size n (i : minix_inode_disk) := Mino (i_mode i) (i_uid i) n (i_mtime i) (i_gid i) (i_nlinks i) (i_zone i).
Definition set_i_nlinks n (i : minix_inode_disk) := Mino (i_mode i) (i_uid i) (i_size i) (i_mtime i) (i_gid i) n (i_zone i).
Definition set_m_dinode i (f : minix_inode_info) := Minfo (m_bdev f) (m_ino f) (m_sb f) i.

Section code.
Context {V : Type} `{!KAlloc V, !BlockStore V}.
Implicit Types v : V.

(** ** Super block and inodes ([fs/minix/inode.c]) *)

Definition minix_read_super (d : Z) v : option minix_super_block * V :=
  match store_read d 1 v with
  | (None, v1) => (None, v1)
  | (Some blk, v1) =>
      let sb := super_of (slice 0 SIZEOF_SB blk) in
      if negb (s_magic sb =? MINIX_SUPER_MAGIC) then (None, v1)
      else if (s_ninodes sb =? 0) || (s_firstdatazone sb =? 0) then (None, v1)
      else (Some sb, v1)
  end.

Definition minix_inode_table_block (sb : minix_super_block) : Z := 2 + s_imap_blocks sb + s_zmap_blocks sb.
Definition INODES_PER_BLOCK : Z := MINIX_BLOCK_SIZE / SIZEOF_INODE.

(** The block and the offset of an inode in the table. *)
Definition inode_block (sb : minix_super_block) (ino : Z) : Z := minix_inode_table_block sb + (ino - 1) / INODES_PER_BLOCK.
Definition inode_offset (ino : Z) : Z := (ino - 1) mod INODES_PER_BLOCK * SIZEOF_INODE.

Definition minix_read_inode (d : Z) (sb : minix_super_block) (ino : Z) v : option minix_inode_disk * V :=
  if (ino =? 0) || (s_ninodes sb <? ino) then (None, v) else
  match store_read d (inode_block sb ino) v with
  | (None, v1) => (None, v1)
  | (Some blk, v1) => (Some (inode_of (slice (inode_offset ino) SIZEOF_INODE blk)), v1)
  end.

Definition minix_write_inode (d : Z) (sb : minix_super_block) (ino : Z) (i : minix_inode_disk) v : Z * V :=
  if (ino =? 0) || (s_ninodes sb <? ino) then (-1, v) else
  match store_read d (inode_block sb ino) v with
  | (None, v1) => (-1, v1)
  | (Some blk, v1) =>
      let '(ok, v2) := store_write d (inode_block sb ino) (splice (inode_offset ino) (inode_bytes i) blk) v1 in
      (if ok then 0 else -1, v2)
  end.

Definition minix_zone_size (sb : minix_super_block) : Z := MINIX_BLOCK_SIZE <<w s_log_zone_size sb.
Definition minix_zone_to_block (zone : Z) : Z := zone.
Definition minix_zone_for_pos (i : minix_inode_disk) (sb : minix_super_block) (pos : Z) : Z :=
  let zsize := minix_zone_size sb in
  if zsize =? 0 then 0 else
  let z := pos / zsize in
  if z <? 7 then znth (i_zone i) z else 0.

(** ** Bitmaps ([fs/minix/bitmap.c]) *)

Definition minix_bitmap_test (blk : list Z) (bit : Z) : bool := Z.testbit (znth blk (Z.shiftr bit 3)) (Z.land bit 7).
Definition minix_bitmap_set (blk : list Z) (bit : Z) : list Z :=
  zset blk (Z.shiftr bit 3) (Z.lor (znth blk (Z.shiftr bit 3)) (Z.shiftl 1 (Z.land bit 7))).

Definition BITS_PER_BLOCK : Z := MINIX_BLOCK_SIZE * 8.

(** The search in one block from [bit] on, where [first + bit] must stay below
    [limit]: [None] if the limit is reached, [Some None] at the end of the block. *)
Fixpoint find_bit (n : nat) (blk : list Z) (bit first limit : Z) : option (option Z) :=
  match n with
  | O => Some None
  | S n' =>
      if limit <=? first + bit then None
      else if negb (minix_bitmap_test blk bit) then Some (Some bit)
      else find_bit n' blk (bit + 1) first limit
  end.

(** The loop over the blocks of a map that starts at block [base]; bit [i] of the
    map stands for number [first + i]. *)
Fixpoint alloc_bit (n : nat) (d base map first limit : Z) v : option Z * V :=
  match n with
  | O => (None, v)
  | S n' =>
      match store_read d (base + map) v with
      | (None, v1) => (None, v1)
      | (Some blk, v1) =>
          match find_bit (Z.to_nat BITS_PER_BLOCK) blk 0 (first + map * BITS_PER_BLOCK) limit with
          | None => (None, v1)
          | Some None => alloc_bit n' d base (map + 1) first limit v1
          | Some (Some bit) =>
              match store_write d (base + map) (minix_bitmap_set blk bit) v1 with
              | (true, v2) => (Some (first + map * BITS_PER_BLOCK + bit), v2)
              | (false, v2) => (None, v2)
              end
          end
      end
  end.

Definition minix_alloc_inode (d : Z) (sb : minix_super_block) v : option Z * V :=
  alloc_bit (Z.to_nat (s_imap_blocks sb)) d 2 0 1 (s_ninodes sb + 1) v.
Definition minix_alloc_zone (d : Z) (sb : minix_super_block) v : option Z * V :=
  alloc_bit (Z.to_nat (s_zmap_blocks sb)) d (2 + s_imap_blocks sb) 0 (s_firstdatazone sb) (s_nzones sb) v.

(** ** Directories ([fs/minix/dir.c]) *)

(** The block and the offset of a position of a file. *)
Definition pos_block (i : minix_inode_disk) (sb : minix_super_block) (pos : Z) : Z :=
  minix_zone_to_block (minix_zone_for_pos i sb pos) + pos mod minix_zone_size sb / MINIX_BLOCK_SIZE.
Definition pos_offset (sb : minix_super_block) (pos : Z) : Z := pos mod minix_zone_size sb mod MINIX_BLOCK_SIZE.

Fixpoint lookup_loop (fuel : nat) (d : Z) (sb : minix_super_block) (dir : minix_inode_disk) (name : list Z) (pos : Z) v
    : option (minix_dir_entry * Z) * V :=
  match fuel with
  | O => (None, v)
  | S fuel' =>
      if i_size dir <? (pos +w SIZEOF_DE) then (None, v)
      else if minix_zone_for_pos dir sb pos =? 0 then (None, v)
      else
        match store_read d (pos_block dir sb pos) v with
        | (None, v1) => (None, v1)
        | (Some blk, v1) =>
            let de := de_of (slice (pos_offset sb pos) SIZEOF_DE blk) in
            if negb (de_inode de =? 0) && bool_decide (cstr (de_name de) = name) then (Some (de, pos), v1)
            else lookup_loop fuel' d sb dir name (pos +w SIZEOF_DE) v1
        end
  end.

Definition minix_dir_lookup_entry (d : Z) (sb : minix_super_block) (dir : minix_inode_disk) (name : list Z) v : option (minix_dir_entry * Z) * V :=
  if minix_zone_size sb =? 0 then (None, v) else lookup_loop (S (Z.to_nat (i_size dir / SIZEOF_DE))) d sb dir name 0 v.

Definition minix_dir_add_entry (f : minix_inode_info) (child_ino : Z) (name : list Z) v : Z * minix_inode_info * V :=
  let d := m_bdev f in
  let sb := m_sb f in
  if (zlen name =? 0) || (14 <? zlen name) then (-1, f, v)
  else if minix_zone_size sb =? 0 then (-1, f, v)
  else
    let pos := i_size (m_dinode f) in
    if minix_zone_for_pos (m_dinode f) sb pos =? 0 then (-1, f, v)
    else if MINIX_BLOCK_SIZE <? pos_offset sb pos + SIZEOF_DE then (-1, f, v)
    else
      match store_read d (pos_block (m_dinode f) sb pos) v with
      | (None, v1) => (-1, f, v1)
      | (Some blk, v1) =>
          let de := Mde child_ino (name ++ zeroes (14 - zlen name)) in
          match store_write d (pos_block (m_dinode f) sb pos) (splice (pos_offset sb pos) (de_bytes de) blk) v1 with
          | (false, v2) => (-1, f, v2)
          | (true, v2) =>
              let f' := set_m_dinode (set_i_size (pos +w SIZEOF_DE) (m_dinode f)) f in
              let '(r, v3) := minix_write_inode d sb (m_ino f) (m_dinode f') v2 in (r, f', v3)
          end
      end.

(** The names [minix_readdir] leaves out: the entries it makes up itself. *)
Definition is_dots (name : list Z) : bool := bool_decide (cstr name = [46]) || bool_decide (cstr name = [46; 46]).

(** The loop of [minix_readdir]: the entry number [want], counted from [seen]. *)
Fixpoint readdir_loop (fuel : nat) (f : minix_inode_info) (want seen pos : Z) v : option (list Z * Z) * V :=
  match fuel with
  | O => (None, v)
  | S fuel' =>
      if i_size (m_dinode f) <? (pos +w SIZEOF_DE) then (None, v)
      else if minix_zone_for_pos (m_dinode f) (m_sb f) pos =? 0 then (None, v)
      else
        match store_read (m_bdev f) (pos_block (m_dinode f) (m_sb f) pos) v with
        | (None, v1) => (None, v1)
        | (Some blk, v1) =>
            let de := de_of (slice (pos_offset (m_sb f) pos) SIZEOF_DE blk) in
            if (de_inode de =? 0) || is_dots (de_name de) then readdir_loop fuel' f want seen (pos +w SIZEOF_DE) v1
            else if negb (seen =? want) then readdir_loop fuel' f want (seen +w 1) (pos +w SIZEOF_DE) v1
            else match cstr (de_name de) with [] => (None, v1) | n => (Some (n, de_inode de), v1) end
        end
  end.

(** [parent] is the inode number of the parent directory, if the entry has one. *)
Definition minix_readdir (f : minix_inode_info) (i_ino : Z) (parent : option Z) (index : Z) v : option (list Z * Z) * V :=
  if index =? 0 then (Some ([46], i_ino), v)
  else if index =? 1 then (Some ([46; 46], default i_ino parent), v)
  else if minix_zone_size (m_sb f) =? 0 then (None, v)
  else readdir_loop (S (Z.to_nat (i_size (m_dinode f) / SIZEOF_DE))) f (index - 2) 0 0 v.

(** ** Files ([fs/minix/file.c]) *)

(** The bytes of one round of the copy loops. *)
Definition chunk (sb : minix_super_block) (pos left : Z) : Z :=
  let zone_off := pos mod minix_zone_size sb in
  Z.min (Z.min left (minix_zone_size sb - zone_off)) (MINIX_BLOCK_SIZE - zone_off mod MINIX_BLOCK_SIZE).

(** [acc] is what was read so far. *)
Fixpoint read_loop (fuel : nat) (f : minix_inode_info) (offset size : Z) (acc : list Z) v : list Z * V :=
  match fuel with
  | O => (acc, v)
  | S fuel' =>
      let done := zlen acc in
      if size <=? done then (acc, v) else
      let pos := offset +w done in
      if minix_zone_for_pos (m_dinode f) (m_sb f) pos =? 0 then (acc, v) else
      match store_read (m_bdev f) (pos_block (m_dinode f) (m_sb f) pos) v with
      | (None, v1) => (acc, v1)
      | (Some blk, v1) => read_loop fuel' f offset size (acc ++ slice (pos_offset (m_sb f) pos) (chunk (m_sb f) pos (size - done)) blk) v1
      end
  end.

(** [node] is a regular file; the bytes read. *)
Definition minix_file_read (f : minix_inode_info) (offset size : Z) v : list Z * V :=
  if size =? 0 then ([], v)
  else if i_size (m_dinode f) <=? offset then ([], v)
  else
    let size := Z.min size (i_size (m_dinode f) - offset) in
    if minix_zone_size (m_sb f) =? 0 then ([], v) else read_loop (S (Z.to_nat size)) f offset size [] v.

(** The number of bytes written. *)
Fixpoint write_loop (fuel : nat) (f : minix_inode_info) (offset : Z) (buf : list Z) (done : Z) v : Z * V :=
  match fuel with
  | O => (done, v)
  | S fuel' =>
      if zlen buf <=? done then (done, v) else
      let pos := offset +w done in
      if minix_zone_for_pos (m_dinode f) (m_sb f) pos =? 0 then (done, v) else
      let sub := chunk (m_sb f) pos (zlen buf - done) in
      let b := pos_block (m_dinode f) (m_sb f) pos in
      match store_read (m_bdev f) b v with
      | (None, v1) => (done, v1)
      | (Some blk, v1) =>
          match store_write (m_bdev f) b (splice (pos_offset (m_sb f) pos) (slice done sub buf) blk) v1 with
          | (false, v2) => (done, v2)
          | (true, v2) => write_loop fuel' f offset buf (done + sub) v2
          end
      end
  end.

Definition minix_file_write (f : minix_inode_info) (offset : Z) (buf : list Z) v : Z * minix_inode_info * V :=
  if zlen buf =? 0 then (0, f, v)
  else if minix_zone_size (m_sb f) =? 0 then (0, f, v)
  else
    let '(done, v1) := write_loop (S (length buf)) f offset buf 0 v in
    if i_size (m_dinode f) <? (offset +w done) then
      let f' := set_m_dinode (set_i_size (offset +w done) (m_dinode f)) f in
      (done, f', (minix_write_inode (m_bdev f) (m_sb f) (m_ino f) (m_dinode f') v1).2)
    else (done, f, v1).

(** ** Inodes of the virtual file system *)

Definition S_IFMT : Z := 61440.
Definition S_IFDIR : Z := 16384.
Definition S_IFREG : Z := 32768.

(** What [minix_inode_from_disk] makes: the inode, its private data and its kind. *)
Record made_inode : Type := Made { vi_addr : Z; vi_info_addr : Z; vi_info : minix_inode_info; vi_is_dir : bool }.

Definition minix_inode_from_disk (d : Z) (sb : minix_super_block) (ino : Z) (i : minix_inode_disk) v : option made_inode * V :=
  match kmalloc SIZEOF_INFO v with
  | (None, v1) => (None, v1)
  | (Some p, v1) =>
      let is_dir := Z.land (i_mode i) S_IFMT =? S_IFDIR in
      let is_reg := Z.land (i_mode i) S_IFMT =? S_IFREG in
      if is_dir || is_reg then
        match kmalloc SIZEOF_VFS_INODE v1 with
        | (None, v2) => (None, kfree p v2)
        | (Some a, v2) => (Some (Made a p (Minfo d ino sb i) is_dir), v2)
        end
      else (None, kfree p v1)
  end.

(** [minix_evict_inode] *)
Definition minix_evict_inode (m : made_inode) v : V := kfree (vi_addr m) (kfree (vi_info_addr m) v).

(** ** Names ([fs/minix/namei.c]) *)

Definition minix_dir_finddir (f : minix_inode_info) (name : list Z) v : option made_inode * V :=
  match name with
  | [] => (None, v)
  | _ =>
      match minix_dir_lookup_entry (m_bdev f) (m_sb f) (m_dinode f) name v with
      | (None, v1) => (None, v1)
      | (Some (de, _), v1) =>
          match minix_read_inode (m_bdev f) (m_sb f) (de_inode de) v1 with
          | (None, v2) => (None, v2)
          | (Some i, v2) => minix_inode_from_disk (m_bdev f) (m_sb f) (de_inode de) i v2
          end
      end
  end.

Definition new_dinode (is_dir : bool) (zone : Z) : minix_inode_disk :=
  Mino (if is_dir then 16877 else 33188) 0 (if is_dir then 2 * SIZEOF_DE else 0) 0 0 (if is_dir then 2 else 1) (zone :: replicate 8 0).

(** The first block of a new file or directory. *)
Definition new_block (is_dir : bool) (ino parent : Z) : list Z :=
  if is_dir then splice SIZEOF_DE (de_bytes (Mde (u16 parent) DOTDOT_NAME)) (splice 0 (de_bytes (Mde (u16 ino) DOT_NAME)) (zeroes MINIX_BLOCK_SIZE))
  else zeroes MINIX_BLOCK_SIZE.

(** The second half of [minix_create_child]: the new inode and its block are
    written and the entry is added. *)
Definition fill_child (f : minix_inode_info) (name : list Z) (is_dir : bool) (ino zone : Z) v : option made_inode * minix_inode_info * V :=
  let d := m_bdev f in
  let sb := m_sb f in
  let dinode := new_dinode is_dir zone in
  match store_write d (minix_zone_to_block zone) (new_block is_dir ino (m_ino f)) v with
  | (false, v1) => (None, f, v1)
  | (true, v1) =>
  match minix_write_inode d sb ino dinode v1 with
  | (r, v2) => if negb (r =? 0) then (None, f, v2) else
  match minix_dir_add_entry f (u16 ino) name v2 with
  | (r2, f1, v3) => if negb (r2 =? 0) then (None, f1, v3) else
      if is_dir then
        let f2 := set_m_dinode (set_i_nlinks ((i_nlinks (m_dinode f1) + 1) mod 256) (m_dinode f1)) f1 in
        let '(r3, v4) := minix_write_inode d sb (m_ino f) (m_dinode f2) v3 in
        if negb (r3 =? 0) then (None, f2, v4) else
        let '(o, v5) := minix_inode_from_disk d sb ino dinode v4 in (o, f2, v5)
      else let '(o, v4) := minix_inode_from_disk d sb ino dinode v3 in (o, f1, v4)
  end end end.

Definition minix_create_child (f : minix_inode_info) (name : list Z) (is_dir : bool) v : option made_inode * minix_inode_info * V :=
  let d := m_bdev f in
  let sb := m_sb f in
  if (zlen name =? 0) || bool_decide (name = [46]) || bool_decide (name = [46; 46]) || (14 <? zlen name) then (None, f, v) else
  match minix_dir_lookup_entry d sb (m_dinode f) name v with
  | (Some _, v1) => (None, f, v1)
  | (None, v1) =>
      match minix_alloc_inode d sb v1 with
      | (None, v2) => (None, f, v2)
      | (Some ino, v2) =>
          match minix_alloc_zone d sb v2 with
          | (None, v3) => (None, f, v3)
          | (Some zone, v3) => fill_child f name is_dir ino zone v3
          end
      end
  end.

Definition minix_create_file (f : minix_inode_info) (name : list Z) v := minix_create_child f name false v.
Definition minix_mkdir_inode (f : minix_inode_info) (name : list Z) v := minix_create_child f name true v.

(** ** The example image *)

Definition example_super : minix_super_block := Msb 16 64 1 1 5 0 1048576 MINIX_SUPER_MAGIC 1.
Definition padded (l : list Z) : list Z := splice 0 l (zeroes MINIX_BLOCK_SIZE).
(** "Hello from MinixFS!\n" and "hello.txt" *)
Definition HELLO : list Z := [72; 101; 108; 108; 111; 32; 102; 114; 111; 109; 32; 77; 105; 110; 105; 120; 70; 83; 33; 10].
Definition HELLO_TXT : list Z := [104; 101; 108; 108; 111; 46; 116; 120; 116].

Definition example_blocks : list (Z * list Z) :=
  [(1, padded (super_bytes example_super)); (2, padded [3]); (3, padded [7]);
   (4, padded (inode_bytes (Mino 16877 0 (3 * SIZEOF_DE) 0 0 2 (5 :: replicate 8 0)) ++ inode_bytes (Mino 33060 0 (zlen HELLO) 0 0 1 (6 :: replicate 8 0))));
   (5, padded (de_bytes (Mde 1 DOT_NAME) ++ de_bytes (Mde 1 DOTDOT_NAME) ++ de_bytes (Mde 2 (HELLO_TXT ++ zeroes 5))));
   (6, padded HELLO)].

Fixpoint write_blocks (d : Z) (l : list (Z * list Z)) v : Z * V :=
  match l with
  | [] => (0, v)
  | (k, b) :: l' => match store_write d k b v with (true, v1) => write_blocks d l' v1 | (false, v1) => (-1, v1) end
  end.

Definition minix_seed_example_image (d : Z) v : Z * V := write_blocks d example_blocks v.

Definition minix_prepare_example_image (d : Z) v : Z * V :=
  match minix_read_super d v with
  | (Some _, v1) => (0, v1)
  | (None, v1) => minix_seed_example_image d v1
  end.
End code.

(** ** Stores *)

Section proofs.
Context {V : Type} `{!KAlloc V, !KAllocSpec V, !BlockStore V, !BlockStoreSpec V}.
Implicit Types v : V.
Variable d : Z.
Notation blk v k := (store_block v d k).

(** No block changes. *)
Record same v v' : Prop := Same {
  sm_ok : store_ok v' d;
  sm_block k : blk v' k = blk v k;
}.

(** The block [k] becomes [l]. *)
Record changed v v' k l : Prop := Changed {
  ch_ok : store_ok v' d;
  ch_here : blk v' k = Some l;
  ch_other j : j <> k -> blk v' j = blk v j;
}.

Lemma same_refl v : store_ok v d -> same v v.
Proof. by split. Qed.
Lemma same_trans v1 v2 v3 : same v1 v2 -> same v2 v3 -> same v1 v3.
Proof. intros [A1 A2] [B1 B2]. split; [done|]. intros k. by rewrite B2. Qed.

(** The store is what a failing transfer of an existing block left. *)
Definition io_error v' : Prop :=
  exists v k, store_ok v d /\ is_Some (blk v k) /\ (store_read d k v = (None, v') \/ exists l, store_write d k l v = (false, v')).

Lemma read_case v k b :
  store_ok v d -> block_number k -> blk v k = Some b ->
  exists o v', store_read d k v = (o, v') /\ same v v' /\ is_block b /\ (o = Some b \/ o = None /\ io_error v').
Proof.
  intros Hok Hk Hb. pose proof (store_read_ok v d k Hok Hk) as H. destruct (store_read d k v) as [o v'] eqn:E. destruct H as (H1 & H2 & _ & H4).
  exists o, v'. split_and!; [done|split; auto|by apply (store_is_block v d k)|]. destruct o as [l|]; [left; rewrite <- Hb; symmetry; auto|].
  right. split; [done|]. exists v, k. split_and!; [done|by eexists|by left].
Qed.

Lemma write_case v k l :
  store_ok v d -> block_number k -> is_block l -> is_Some (blk v k) ->
  exists ok v', store_write d k l v = (ok, v') /\ (changed v v' k l \/ ok = false /\ same v v') /\ (ok = true \/ ok = false /\ io_error v').
Proof.
  intros Hok Hk Hl Hb. pose proof (store_write_ok v d k l Hok Hk Hl) as H. destruct (store_write d k l v) as [ok v'] eqn:E. destruct H as (H1 & _ & _ & H4).
  exists ok, v'. split_and!; [done| |].
  - destruct H4 as [H4|[-> H4]]; [left|right; split; [done|by split; auto]]. split; [auto|by rewrite H4; unfold set_block; rewrite decide_True|].
    intros j Hj. rewrite H4. unfold set_block. rewrite decide_False; [done|congruence].
  - destruct ok; [by left|right; split; [done|]]. exists v, k. split_and!; [done|done|right; by eexists].
Qed.

(** ** Layout *)

(** Zones of one block; maps with a bit for every inode and zone and the inode
    table below the data zones. *)
Record sb_ok (sb : minix_super_block) : Prop := SbOk {
  sbo_log : s_log_zone_size sb = 0;
  sbo_maps : 0 <= s_imap_blocks sb /\ 0 <= s_zmap_blocks sb /\ 0 <= s_ninodes sb < 65536;
  sbo_table : minix_inode_table_block sb + (s_ninodes sb + 31) / 32 <= s_firstdatazone sb;
  sbo_zones : s_firstdatazone sb <= s_nzones sb < 65536;
  sbo_bits : s_ninodes sb <= s_imap_blocks sb * 8192 /\ s_nzones sb - s_firstdatazone sb <= s_zmap_blocks sb * 8192;
}.

(** The blocks of the file system are on the device. *)
Definition blocks_ok v (sb : minix_super_block) : Prop := forall k, 0 <= k < s_nzones sb -> is_Some (blk v k).

(** The zones of an inode: a prefix of the direct zones, all different. *)
Record has_zones (sb : minix_super_block) (i : minix_inode_disk) (zs : list Z) : Prop := HasZones {
  hz_len : length (i_zone i) = 9%nat;
  hz_prefix : take 7 (i_zone i) = zs ++ replicate (7 - length zs) 0;
  hz_range z : z ∈ zs -> s_firstdatazone sb <= z < s_nzones sb;
  hz_nodup : NoDup zs;
  hz_pos : 0 < s_firstdatazone sb;
}.

Definition zone_data v (z : Z) : list Z := default [] (blk v z).
Definition file_data v (zs : list Z) : list Z := concat (zone_data v <$> zs).

Lemma zone_size_1024 sb : sb_ok sb -> minix_zone_size sb = 1024.
Proof. intros [H _ _ _ _]. unfold minix_zone_size. by rewrite H. Qed.

Lemma zone_for_pos sb i zs pos :
  sb_ok sb -> has_zones sb i zs -> 0 <= pos ->
  if decide (pos < 1024 * zlen zs) then zs !! Z.to_nat (pos / 1024) = Some (minix_zone_for_pos i sb pos) /\ minix_zone_for_pos i sb pos <> 0
  else minix_zone_for_pos i sb pos = 0.
Proof.
  intros Hsb [H1 H2 H3 H4 H5] Hp. unfold minix_zone_for_pos. rewrite (zone_size_1024 sb Hsb). change (1024 =? 0) with false. cbv iota.
  assert (Hz : (length zs <= 7)%nat).
  { pose proof (f_equal length H2) as Hl. rewrite length_take, length_app, length_replicate, H1 in Hl. lia. }
  set (q := pos / 1024). assert (Hq : 0 <= q) by (apply Z.div_pos; lia).
  assert (Hlk : q < 7 -> i_zone i !! Z.to_nat q = (zs ++ replicate (7 - length zs) 0) !! Z.to_nat q) by (intros; rewrite <- H2, lookup_take_lt by lia; done).
  assert (Hpq : pos < 1024 * zlen zs <-> q < zlen zs).
  { unfold q. split; intros; [apply Z.div_lt_upper_bound; lia|]. pose proof (Z.div_mod pos 1024 ltac:(lia)). pose proof (Z.mod_pos_bound pos 1024 ltac:(lia)). nia. }
  unfold znth. case_decide as Hd.
  - apply Hpq in Hd. unfold zlen in Hd. destruct (Z.ltb_spec q 7); [|lia]. destruct (lookup_lt_is_Some_2 zs (Z.to_nat q) ltac:(lia)) as [z Ez].
    assert (Ei : i_zone i !! Z.to_nat q = Some z) by (rewrite Hlk by lia; by apply lookup_app_l_Some). rewrite (list_lookup_total_correct _ _ _ Ei).
    split; [done|]. apply list_elem_of_lookup_2 in Ez. pose proof (H3 z Ez). lia.
  - destruct (Z.ltb_spec q 7); [|done]. assert (Ei : i_zone i !! Z.to_nat q = Some 0).
    { rewrite Hlk by lia. unfold zlen in *. rewrite lookup_app_r by lia. apply lookup_replicate. lia. }
    by rewrite (list_lookup_total_correct _ _ _ Ei).
Qed.

(** ** The contents of a file *)

Section layout.
Variable sb : minix_super_block.
Hypothesis Hsb : sb_ok sb.

Lemma zone_number z : 0 <= z < s_nzones sb -> block_number z.
Proof. pose proof (sbo_zones _ Hsb). unfold block_number. lia. Qed.

Lemma pos_facts i zs pos :
  has_zones sb i zs -> 0 <= pos < 1024 * zlen zs ->
  minix_zone_for_pos i sb pos <> 0 /\ exists z, zs !! Z.to_nat (pos / 1024) = Some z /\ pos_block i sb pos = z /\ pos_offset sb pos = pos mod 1024 /\
    s_firstdatazone sb <= z < s_nzones sb /\ block_number z /\ pos = 1024 * (pos / 1024) + pos mod 1024.
Proof.
  intros Hz Hp. pose proof (zone_for_pos sb i zs pos Hsb Hz ltac:(lia)) as HZ. rewrite decide_True in HZ by lia. destruct HZ as [Ez Hne]. split; [done|].
  exists (minix_zone_for_pos i sb pos). pose proof (Z.mod_pos_bound pos 1024 ltac:(lia)) as Hm. pose proof (hz_range _ _ _ Hz _ (list_elem_of_lookup_2 _ _ _ Ez)) as Hr.
  pose proof (hz_pos _ _ _ Hz). unfold pos_block, pos_offset, minix_zone_to_block. rewrite (zone_size_1024 sb Hsb). unfold MINIX_BLOCK_SIZE.
  rewrite (Z.div_small (pos mod 1024)), (Z.mod_small (pos mod 1024)) by lia. rewrite Z.add_0_r. split_and!; try done; try lia; [by apply zone_number; lia|by apply Z.div_mod].
Qed.

Lemma zone_data_len v zs :
  store_ok v d -> blocks_ok v sb -> (forall z, z ∈ zs -> 0 <= z < s_nzones sb) -> Forall (fun l => zlen l = 1024) (zone_data v <$> zs).
Proof.
  intros Hok Hb Hz. apply Forall_fmap, Forall_forall. intros z Hin. cbn. unfold zone_data. destruct (Hb z (Hz z Hin)) as [b Eb]. rewrite Eb. cbn.
  apply (store_is_block v d z b Hok Eb).
Qed.

Lemma in_zones i zs : has_zones sb i zs -> forall z, z ∈ zs -> 0 <= z < s_nzones sb.
Proof. intros Hz z Hin. pose proof (hz_range _ _ _ Hz z Hin). pose proof (hz_pos _ _ _ Hz). lia. Qed.

Lemma file_len v i zs : store_ok v d -> blocks_ok v sb -> has_zones sb i zs -> zlen (file_data v zs) = 1024 * zlen zs.
Proof.
  intros Hok Hb Hz. unfold file_data. rewrite (zlen_concat 1024) by (by apply zone_data_len; [| |eapply in_zones]). unfold zlen. by rewrite length_fmap.
Qed.

Lemma zone_block v i zs q z :
  blocks_ok v sb -> has_zones sb i zs -> zs !! q = Some z -> exists b, blk v z = Some b /\ (zone_data v <$> zs) !! q = Some b.
Proof.
  intros Hb Hz Ez. destruct (Hb z (in_zones i zs Hz z (list_elem_of_lookup_2 _ _ _ Ez))) as [b Eb]. exists b. split; [done|].
  rewrite list_lookup_fmap, Ez. cbn. unfold zone_data. by rewrite Eb.
Qed.

Lemma slice_file v i zs pos z b n :
  store_ok v d -> blocks_ok v sb -> has_zones sb i zs -> 0 <= pos -> zs !! Z.to_nat (pos / 1024) = Some z -> blk v z = Some b ->
  pos mod 1024 + n <= 1024 -> slice pos n (file_data v zs) = slice (pos mod 1024) n b.
Proof.
  intros Hok Hb Hz Hp Ez Eb Hn. destruct (zone_block v i zs _ z Hb Hz Ez) as (b' & Eb' & Ef). assert (b' = b) as -> by congruence.
  pose proof (Z.mod_pos_bound pos 1024 ltac:(lia)). rewrite (Z.div_mod pos 1024) at 1 by lia. unfold file_data.
  apply slice_concat; [lia|by apply zone_data_len; [| |eapply in_zones]|done|apply Z.div_pos; lia|lia|lia].
Qed.

Lemma file_data_same v v' zs : same v v' -> file_data v' zs = file_data v zs.
Proof. intros [_ H]. unfold file_data. f_equal. apply list_fmap_ext. intros j z _. unfold zone_data. by rewrite H. Qed.

Lemma file_data_other v v' k l zs : changed v v' k l -> k ∉ zs -> file_data v' zs = file_data v zs.
Proof.
  intros [_ _ H] Hk. unfold file_data. f_equal. apply list_fmap_ext. intros j z Ez. unfold zone_data. rewrite H; [done|]. intros ->. by apply Hk, (list_elem_of_lookup_2 _ j).
Qed.

Lemma file_data_changed v v' i zs pos z b buf :
  store_ok v d -> blocks_ok v sb -> has_zones sb i zs -> 0 <= pos -> zs !! Z.to_nat (pos / 1024) = Some z -> blk v z = Some b ->
  pos mod 1024 + zlen buf <= 1024 -> changed v v' z (splice (pos mod 1024) buf b) -> file_data v' zs = splice pos buf (file_data v zs).
Proof.
  intros Hok Hb Hz Hp Ez Eb Hn [_ C1 C2]. destruct (zone_block v i zs _ z Hb Hz Ez) as (b' & Eb' & Ef). assert (b' = b) as -> by congruence.
  pose proof (Z.mod_pos_bound pos 1024 ltac:(lia)). rewrite (Z.div_mod pos 1024) at 1 by lia. unfold file_data.
  rewrite (splice_concat 1024 ltac:(lia) _ _ b) by first [done|lia|by apply zone_data_len; [| |eapply in_zones]|by apply Z.div_pos; lia]. f_equal. apply list_eq. intros j.
  destruct (decide (j = Z.to_nat (pos / 1024))) as [->|Hne].
  - rewrite list_lookup_insert_eq by (rewrite length_fmap; by apply (lookup_lt_Some _ _ _ Ez)). rewrite list_lookup_fmap, Ez. cbn. unfold zone_data. by rewrite C1.
  - rewrite list_lookup_insert_ne by done. rewrite !list_lookup_fmap. destruct (zs !! j) as [y|] eqn:Ey; [|done]. cbn. unfold zone_data. rewrite C2; [done|].
    intros ->. apply Hne. by apply (NoDup_lookup zs _ _ z (hz_nodup _ _ _ Hz)).
Qed.

Lemma blocks_ok_same v v' : same v v' -> blocks_ok v sb -> blocks_ok v' sb.
Proof. intros [_ H] Hb k Hk. rewrite H. by apply Hb. Qed.
Lemma blocks_ok_changed v v' k l : changed v v' k l -> blocks_ok v sb -> blocks_ok v' sb.
Proof. intros [_ H1 H2] Hb j Hj. destruct (decide (j = k)) as [->|Hne]; [rewrite H1; by eexists|rewrite H2 by done; by apply Hb]. Qed.

(** ** Reading and writing files *)

Lemma chunk_eq pos left : chunk sb pos left = Z.min left (1024 - pos mod 1024).
Proof.
  unfold chunk. rewrite (zone_size_1024 sb Hsb). unfold MINIX_BLOCK_SIZE. pose proof (Z.mod_pos_bound pos 1024 ltac:(lia)). rewrite (Z.mod_small (pos mod 1024) 1024) by lia. lia.
Qed.

(** The bytes a transfer can reach. *)
Definition reach (zs : list Z) (offset size : Z) : Z := Z.max 0 (Z.min size (1024 * zlen zs - offset)).

Lemma read_loop_post fuel : forall f zs offset size n v,
  m_bdev f = d -> m_sb f = sb -> store_ok v d -> blocks_ok v sb -> has_zones sb (m_dinode f) zs ->
  0 <= offset -> offset + size < 4294967296 -> 0 <= n <= reach zs offset size -> (Z.to_nat (size - n) < fuel)%nat ->
  exists m v', read_loop fuel f offset size (slice offset n (file_data v zs)) v = (slice offset m (file_data v zs), v') /\ same v v' /\
    n <= m <= reach zs offset size /\ (m = reach zs offset size \/ io_error v').
Proof.
  induction fuel as [|fuel IH]; intros f zs offset size n v Hd Hs Hok Hb Hz Ho Hsz Hn Hf; [lia|]. pose proof (file_len v _ zs Hok Hb Hz) as Hlen.
  assert (Hzl : 0 <= zlen zs) by (unfold zlen; lia).
  assert (Hsl : zlen (slice offset n (file_data v zs)) = n).
  { unfold reach in Hn. destruct (decide (n = 0)) as [->|]; [unfold zlen, slice; cbn; done|]. apply zlen_slice; lia. }
  cbn [read_loop]. rewrite Hsl. destruct (Z.leb_spec size n).
  { exists n, v. split_and!; [done|by apply same_refl|lia|lia|left; unfold reach in *; lia]. }
  rewrite add32_id by lia. destruct (decide (offset + n < 1024 * zlen zs)) as [Hin|Hout].
  2:{ pose proof (zone_for_pos sb _ zs (offset + n) Hsb Hz ltac:(lia)) as HZ. rewrite decide_False in HZ by lia. rewrite Hs, HZ. cbn.
      exists n, v. split_and!; [done|by apply same_refl|lia|lia|left; unfold reach in *; lia]. }
  rewrite Hs, Hd. destruct (pos_facts _ zs (offset + n) Hz ltac:(lia)) as (Hnz & z & Ez & -> & -> & Hzr & Hzn & Ep).
  destruct (Z.eqb_spec (minix_zone_for_pos (m_dinode f) sb (offset + n)) 0); [done|].
  destruct (zone_block v _ zs _ z Hb Hz Ez) as (b & Eb & _). destruct (read_case v z b Hok Hzn Eb) as (o & v1 & -> & Hsame & Hblk & Ho').
  destruct Ho' as [-> |[-> Hio]]; [|exists n, v1; split_and!; [done|done|lia|lia|by right]].
  rewrite chunk_eq. set (k := Z.min (size - n) (1024 - (offset + n) mod 1024)). pose proof (Z.mod_pos_bound (offset + n) 1024 ltac:(lia)) as Hm.
  rewrite <- (slice_file v _ zs (offset + n) z b k Hok Hb Hz ltac:(lia) Ez Eb ltac:(lia)).
  assert (Hk : 0 < k /\ offset + n + k <= 1024 * zlen zs).
  { split; [unfold k; lia|]. apply lookup_lt_Some in Ez. assert (Hq : (offset + n) / 1024 < zlen zs) by (unfold zlen; lia). unfold k. lia. }
  rewrite slice_adjacent by lia. rewrite <- (file_data_same v v1 zs Hsame).
  destruct (IH f zs offset size (n + k) v1 Hd Hs (sm_ok _ _ Hsame) (blocks_ok_same _ _ Hsame Hb) Hz Ho Hsz ltac:(unfold reach in *; lia) ltac:(lia))
    as (m & v' & -> & Hs' & Hm' & Hr). exists m, v'. split_and!; [done|by eapply same_trans|lia|lia|done].
Qed.

Lemma write_loop_post fuel : forall f zs offset buf n v,
  m_bdev f = d -> m_sb f = sb -> store_ok v d -> blocks_ok v sb -> has_zones sb (m_dinode f) zs -> Forall is_byte buf ->
  0 <= offset -> offset + zlen buf < 4294967296 -> 0 <= n <= reach zs offset (zlen buf) -> (Z.to_nat (zlen buf - n) < fuel)%nat ->
  exists m v' m', write_loop fuel f offset buf n v = (m, v') /\ store_ok v' d /\ (forall k, k ∉ zs -> blk v' k = blk v k) /\ blocks_ok v' sb /\
    n <= m <= m' /\ m' <= reach zs offset (zlen buf) /\ (m = reach zs offset (zlen buf) \/ io_error v') /\ (m' = m \/ io_error v') /\
    file_data v' zs = splice (offset + n) (slice n (m' - n) buf) (file_data v zs).
Proof.
  induction fuel as [|fuel IH]; intros f zs offset buf n v Hd Hs Hok Hb Hz HB Ho Hsz Hn Hf; [lia|]. pose proof (file_len v _ zs Hok Hb Hz) as Hlen.
  assert (Hnil : forall w, file_data w zs = splice (offset + n) (slice n (n - n) buf) (file_data w zs)) by (intros w; by rewrite Z.sub_diag, splice_nil).
  cbn [write_loop]. assert (Hzl : 0 <= zlen zs) by (unfold zlen; lia). destruct (Z.leb_spec (zlen buf) n).
  { exists n, v, n. split_and!; try done; try lia; left; unfold reach in *; lia. }
  rewrite add32_id by lia. destruct (decide (offset + n < 1024 * zlen zs)) as [Hin|Hout].
  2:{ pose proof (zone_for_pos sb _ zs (offset + n) Hsb Hz ltac:(lia)) as HZ. rewrite decide_False in HZ by lia. rewrite Hs, HZ. cbn.
      exists n, v, n. split_and!; try done; try lia; left; unfold reach in *; lia. }
  rewrite Hs, Hd. destruct (pos_facts _ zs (offset + n) Hz ltac:(lia)) as (Hnz & z & Ez & -> & -> & Hzr & Hzn & Ep).
  destruct (Z.eqb_spec (minix_zone_for_pos (m_dinode f) sb (offset + n)) 0); [done|].
  destruct (zone_block v _ zs _ z Hb Hz Ez) as (b & Eb & _). destruct (read_case v z b Hok Hzn Eb) as (o & v1 & -> & Hsame & Hblk & Ho').
  destruct Ho' as [-> |[-> Hio]].
  2:{ exists n, v1, n. split_and!; try done; try lia; [apply Hsame|intros k _; apply Hsame|by apply (blocks_ok_same v)|by right|]. rewrite (file_data_same v v1) by done. apply Hnil. }
  rewrite chunk_eq. set (k := Z.min (zlen buf - n) (1024 - (offset + n) mod 1024)). pose proof (Z.mod_pos_bound (offset + n) 1024 ltac:(lia)) as Hm.
  assert (Hk : 0 < k /\ offset + n + k <= 1024 * zlen zs).
  { split; [unfold k; lia|]. apply lookup_lt_Some in Ez. assert (Hq : (offset + n) / 1024 < zlen zs) by (unfold zlen; lia). unfold k. lia. }
  assert (Hkl : zlen (slice n k buf) = k) by (apply zlen_slice; lia). assert (Hzin : z ∈ zs) by (by apply (list_elem_of_lookup_2 _ _ _ Ez)).
  assert (Hblk' : is_block (splice ((offset + n) mod 1024) (slice n k buf) b)).
  { destruct Hblk as [B1 B2]. unfold MINIX_BLOCK_SIZE in *. split; [rewrite zlen_splice; unfold MINIX_BLOCK_SIZE; lia|apply Forall_splice; [by apply Forall_slice|done]]. }
  destruct (write_case v1 z (splice ((offset + n) mod 1024) (slice n k buf) b) (sm_ok _ _ Hsame) Hzn Hblk') as (ok & v2 & -> & Hw & Hok2); [rewrite (sm_block _ _ Hsame), Eb; by eexists|].
  pose proof (blocks_ok_same _ _ Hsame Hb) as Hb1. rewrite <- (file_data_same v v1 zs Hsame).
  assert (Hc : changed v1 v2 z (splice ((offset + n) mod 1024) (slice n k buf) b) -> file_data v2 zs = splice (offset + n) (slice n k buf) (file_data v1 zs) /\
    forall j, j ∉ zs -> blk v2 j = blk v j).
  { intros HC. split; [|intros j Hj; rewrite (ch_other _ _ _ _ HC) by (by intros ->); apply Hsame].
    apply (file_data_changed v1 v2 (m_dinode f) zs _ z b); try done; [apply Hsame|lia|by rewrite (sm_block _ _ Hsame)|lia]. }
  destruct ok.
  2:{ destruct Hok2 as [?|[_ Hio]]; [done|]. destruct Hw as [HC|[_ Hs2]].
      - destruct (Hc HC) as [HC1 HC2]. exists n, v2, (n + k). split_and!; try done; try lia; [apply HC|by eapply blocks_ok_changed|unfold reach; lia|by right|by right|]. by rewrite Z.add_simpl_l.
      - exists n, v2, n. split_and!; try done; try lia; [apply Hs2|intros j _; rewrite (sm_block _ _ Hs2); apply Hsame|by apply (blocks_ok_same v1)|by right|].
        rewrite (file_data_same v1 v2) by done. apply Hnil. }
  destruct Hw as [HC|[? _]]; [|done]. destruct (Hc HC) as [HC1 HC2].
  destruct (IH f zs offset buf (n + k) v2 Hd Hs (ch_ok _ _ _ _ HC) (blocks_ok_changed _ _ _ _ HC Hb1) Hz HB Ho Hsz ltac:(unfold reach in *; lia) ltac:(lia))
    as (m & v' & m' & -> & H1 & H2 & H3 & H4 & H5 & H6 & H7 & H8).
  exists m, v', m'. split_and!; try done; try lia.
  - intros j Hj. by rewrite H2, HC2.
  - rewrite H8, HC1. replace (offset + (n + k)) with (offset + n + zlen (slice n k buf)) by lia.
    assert (Hl2 : zlen (slice (n + k) (m' - (n + k)) buf) = m' - (n + k)) by (apply zlen_slice; unfold reach in *; lia).
    pose proof (file_len v1 _ zs (sm_ok _ _ Hsame) Hb1 Hz) as Hlen1.
    rewrite splice_adjacent by (unfold reach in *; lia). rewrite slice_adjacent by (unfold reach in *; lia). do 2 f_equal. lia.
Qed.

(** ** The inode table *)

Definition u16_ok (x : Z) : Prop := 0 <= x < 65536.
Record inode_ok (i : minix_inode_disk) : Prop := InodeOk {
  io_mode : u16_ok (i_mode i);
  io_uid : u16_ok (i_uid i);
  io_size : is_u32 (i_size i);
  io_mtime : is_u32 (i_mtime i);
  io_gid : is_byte (i_gid i);
  io_nlinks : is_byte (i_nlinks i);
  io_zones : length (i_zone i) = 9%nat /\ Forall u16_ok (i_zone i);
}.

Lemma zlen_le n x : zlen (le_bytes n x) = Z.of_nat n.
Proof. unfold zlen. by rewrite length_le_bytes. Qed.

(** A field of a packed structure. *)
Lemma field_here n k x (l : list Z) : k = Z.of_nat n -> slice 0 k (le_bytes n x ++ l) = le_bytes n x.
Proof. intros ->. rewrite <- (zlen_le n x) at 1. apply slice_app_l. Qed.
Lemma field_later n k x (l : list Z) o m : k = Z.of_nat n -> k <= o -> slice o m (le_bytes n x ++ l) = slice (o - k) m l.
Proof. intros -> H. rewrite slice_app_r by (by rewrite zlen_le). by rewrite zlen_le. Qed.

Lemma zlen_zones zs : length zs = 9%nat -> zlen (concat (le_bytes 2 <$> zs)) = 18.
Proof.
  intros Hl. rewrite (zlen_concat 2); [unfold zlen; rewrite length_fmap; lia|]. apply Forall_fmap, Forall_forall. intros z _. exact (zlen_le 2 z).
Qed.

Lemma inode_bytes_block i : inode_ok i -> zlen (inode_bytes i) = 32 /\ Forall is_byte (inode_bytes i).
Proof.
  intros [_ _ _ _ _ _ [Hl _]]. split.
  - unfold inode_bytes. rewrite !zlen_app, !zlen_le, zlen_zones by done. lia.
  - unfold inode_bytes. rewrite !Forall_app. split_and!; try apply le_bytes_byte. apply Forall_concat, Forall_fmap, Forall_forall. intros z _. apply le_bytes_byte.
Qed.

Lemma inode_roundtrip i : inode_ok i -> inode_of (inode_bytes i) = i.
Proof.
  intros [H1 H2 H3 H4 H5 H6 [H7 H8]]. unfold u16_ok, is_u32, is_byte in *. unfold inode_of, inode_bytes. destruct i as [mode uid size mtime gid nlinks zs].
  cbn [i_mode i_uid i_size i_mtime i_gid i_nlinks i_zone] in *.
  rewrite (field_here 2 2 mode), (field_later 2 2 mode _ 2), (field_later 2 2 mode _ 4), (field_later 2 2 mode _ 8), (field_later 2 2 mode _ 12), (field_later 2 2 mode _ 13) by lia.
  rewrite (field_here 2 2 uid), (field_later 2 2 uid _ (4 - 2)), (field_later 2 2 uid _ (8 - 2)), (field_later 2 2 uid _ (12 - 2)), (field_later 2 2 uid _ (13 - 2)) by lia.
  rewrite (field_here 4 4 size), (field_later 4 4 size _ (8 - 2 - 2)), (field_later 4 4 size _ (12 - 2 - 2)), (field_later 4 4 size _ (13 - 2 - 2)) by lia.
  rewrite (field_here 4 4 mtime), (field_later 4 4 mtime _ (12 - 2 - 2 - 4)), (field_later 4 4 mtime _ (13 - 2 - 2 - 4)) by lia.
  rewrite (field_here 1 1 gid), (field_later 1 1 gid _ (13 - 2 - 2 - 4 - 4)), (field_here 1 1 nlinks) by lia.
  rewrite !le_value_bytes by lia. f_equal. apply list_eq. intros j. rewrite list_lookup_fmap.
  destruct (decide (j < 9)%nat) as [Hj|Hj].
  - rewrite lookup_seqZ_lt by lia. cbn [fmap option_fmap option_map]. destruct (lookup_lt_is_Some_2 zs j ltac:(lia)) as [z Ez]. rewrite Ez.
    rewrite (field_later 2 2 mode), (field_later 2 2 uid), (field_later 4 4 size), (field_later 4 4 mtime), (field_later 1 1 gid), (field_later 1 1 nlinks) by lia.
    replace (14 + 2 * (0 + Z.of_nat j) - 2 - 2 - 4 - 4 - 1 - 1) with (2 * Z.of_nat j + 0) by lia.
    rewrite (slice_concat 2 ltac:(lia) _ (Z.of_nat j) (le_bytes 2 z)); [|apply Forall_fmap, Forall_forall; intros y _; exact (zlen_le 2 y)|rewrite list_lookup_fmap, Nat2Z.id, Ez; done|lia|lia|lia].
    rewrite slice_all by (by rewrite zlen_le). f_equal. apply le_value_bytes. pose proof (Forall_lookup_1 _ _ _ _ H8 Ez) as Hz. unfold u16_ok in Hz. lia.
  - rewrite lookup_seqZ_ge by lia. symmetry. apply lookup_ge_None. lia.
Qed.

(** The inode in the table. *)
Definition inode_at v (ino : Z) : option minix_inode_disk :=
  (fun b => inode_of (slice (inode_offset ino) SIZEOF_INODE b)) <$> blk v (inode_block sb ino).

Definition ino_ok (ino : Z) : Prop := 1 <= ino <= s_ninodes sb.

Lemma inode_place ino : ino_ok ino ->
  minix_inode_table_block sb <= inode_block sb ino < s_firstdatazone sb /\ 0 <= inode_block sb ino < s_nzones sb /\
  0 <= inode_offset ino /\ inode_offset ino + 32 <= 1024.
Proof.
  intros H. unfold ino_ok, inode_block, inode_offset, INODES_PER_BLOCK, MINIX_BLOCK_SIZE, SIZEOF_INODE in *. change (1024 / 32) with 32.
  destruct Hsb as [_ (S1 & S2 & S3) S4 S5 _]. unfold minix_inode_table_block in *. pose proof (Z.mod_pos_bound (ino - 1) 32 ltac:(lia)).
  assert (0 <= (ino - 1) / 32) by (apply Z.div_pos; lia). assert ((ino - 1) / 32 < (s_ninodes sb + 31) / 32).
  { apply Z.lt_le_trans with ((ino - 1 + 1 * 32) / 32); [rewrite Z.div_add by lia; lia|apply Z.div_le_mono; lia]. }
  lia.
Qed.

Lemma inode_apart ino ino' : ino_ok ino -> ino_ok ino' -> ino <> ino' -> inode_block sb ino = inode_block sb ino' ->
  inode_offset ino + 32 <= inode_offset ino' \/ inode_offset ino' + 32 <= inode_offset ino.
Proof.
  unfold ino_ok, inode_block, inode_offset, INODES_PER_BLOCK, MINIX_BLOCK_SIZE, SIZEOF_INODE. change (1024 / 32) with 32. intros H H' Hne Hb.
  pose proof (Z.div_mod (ino - 1) 32 ltac:(lia)). pose proof (Z.div_mod (ino' - 1) 32 ltac:(lia)). lia.
Qed.

Lemma read_inode_post v ino :
  store_ok v d -> blocks_ok v sb -> ino_ok ino ->
  exists o v', minix_read_inode d sb ino v = (o, v') /\ same v v' /\ (o = inode_at v ino \/ o = None /\ io_error v').
Proof.
  intros Hok Hb Hi. destruct (inode_place ino Hi) as (P1 & P2 & _). unfold minix_read_inode. unfold ino_ok in Hi.
  destruct (Z.eqb_spec ino 0); [lia|]. destruct (Z.ltb_spec (s_ninodes sb) ino); [lia|]. cbn [orb]. destruct (Hb _ P2) as [b Eb].
  destruct (read_case v _ b Hok (zone_number _ P2) Eb) as (o & v1 & -> & Hs & _ & [-> |[-> Hio]]); eexists _, v1; (split_and!; [done|done|]); [left; unfold inode_at; by rewrite Eb|by right].
Qed.

Lemma write_inode_post v ino i :
  store_ok v d -> blocks_ok v sb -> ino_ok ino -> inode_ok i ->
  exists r v', minix_write_inode d sb ino i v = (r, v') /\ store_ok v' d /\ blocks_ok v' sb /\
    (forall k, k <> inode_block sb ino -> blk v' k = blk v k) /\
    (forall ino', ino_ok ino' -> ino' <> ino -> inode_at v' ino' = inode_at v ino') /\
    (r = 0 /\ inode_at v' ino = Some i \/ r = -1 /\ io_error v').
Proof.
  intros Hok Hb Hi Hio. destruct (inode_place ino Hi) as (P1 & P2 & P3 & P4). unfold minix_write_inode. pose proof Hi as Hi'. unfold ino_ok in Hi'.
  destruct (Z.eqb_spec ino 0); [lia|]. destruct (Z.ltb_spec (s_ninodes sb) ino); [lia|]. cbn [orb]. destruct (Hb _ P2) as [b Eb]. clear Hi'.
  destruct (inode_bytes_block i Hio) as [I1 I2].
  destruct (read_case v _ b Hok (zone_number _ P2) Eb) as (o & v1 & -> & Hs & [B1 B2] & [-> |[-> Her]]).
  2:{ exists (-1), v1. split_and!; [done|apply Hs|by apply (blocks_ok_same v)|intros; apply Hs|intros; unfold inode_at; by rewrite (sm_block _ _ Hs)|by right]. }
  unfold MINIX_BLOCK_SIZE in B1. set (b' := splice (inode_offset ino) (inode_bytes i) b).
  assert (Hb' : is_block b') by (split; [unfold b'; rewrite zlen_splice; unfold MINIX_BLOCK_SIZE; lia|by apply Forall_splice]).
  destruct (write_case v1 _ b' (sm_ok _ _ Hs) (zone_number _ P2) Hb') as (ok & v2 & -> & Hw & Hk); [rewrite (sm_block _ _ Hs), Eb; by eexists|].
  pose proof (blocks_ok_same _ _ Hs Hb) as Hb1. exists (if ok then 0 else -1), v2.
  assert (Hat : forall ino', ino_ok ino' -> ino' <> ino -> changed v1 v2 (inode_block sb ino) b' -> inode_at v2 ino' = inode_at v ino').
  { intros ino' Hi' Hne [_ C1 C2]. unfold inode_at. destruct (decide (inode_block sb ino' = inode_block sb ino)) as [He|He]; [|by rewrite C2, (sm_block _ _ Hs)].
    rewrite He, C1, Eb. cbn. do 2 f_equal. unfold b'. apply slice_splice_other; [lia|lia|apply (inode_place ino' Hi')|].
    rewrite I1. unfold SIZEOF_INODE. destruct (inode_apart ino ino' Hi Hi' ltac:(done) ltac:(done)); lia. }
  split_and!; [done|destruct Hw as [Hw|[_ Hw]]; apply Hw|destruct Hw as [Hw|[_ Hw]]; [by apply (blocks_ok_changed v1 v2 _ _ Hw)|by apply (blocks_ok_same v1)]| | |].
  - intros k Hkn. destruct Hw as [Hw|[_ Hw]]; [rewrite (ch_other _ _ _ _ Hw) by done|rewrite (sm_block _ _ Hw)]; apply Hs.
  - intros ino' Hi' Hne. destruct Hw as [Hw|[_ Hw]]; [by apply Hat|unfold inode_at; by rewrite (sm_block _ _ Hw), (sm_block _ _ Hs)].
  - destruct ok; [left|right; split; [done|by destruct Hk as [?|[_ ?]]]]. split; [done|]. destruct Hw as [[_ C1 _]|[? _]]; [|done].
    unfold inode_at. rewrite C1. cbn. f_equal. unfold b', SIZEOF_INODE. rewrite <- I1. rewrite slice_splice_same by lia. by apply inode_roundtrip.
Qed.

(** ** Bitmaps *)

Lemma bit_place bit : 0 <= bit < 8192 -> 0 <= Z.shiftr bit 3 < 1024 /\ 0 <= Z.land bit 7 < 8 /\ bit = 8 * Z.shiftr bit 3 + Z.land bit 7.
Proof.
  intros H. rewrite Z.shiftr_div_pow2 by lia. rewrite (land_mask bit 3) by lia. change (2 ^ 3) with 8.
  pose proof (Z.div_mod bit 8 ltac:(lia)). pose proof (Z.mod_pos_bound bit 8 ltac:(lia)). lia.
Qed.

Lemma lor_byte c k : is_byte c -> 0 <= k < 8 -> is_byte (Z.lor c (Z.shiftl 1 k)).
Proof.
  unfold is_byte. intros H Hk. assert (H0 : 0 <= Z.lor c (Z.shiftl 1 k)) by (apply Z.lor_nonneg; rewrite Z.shiftl_nonneg; lia). split; [done|].
  change 256 with (2 ^ 8). destruct (Z.eq_dec (Z.lor c (Z.shiftl 1 k)) 0) as [->|Hne]; [lia|]. apply Z.log2_lt_pow2; [lia|].
  rewrite Z.log2_lor by (rewrite ?Z.shiftl_nonneg; lia). rewrite Z.shiftl_1_l, Z.log2_pow2 by lia.
  destruct (Z.eq_dec c 0) as [->|Hc]; [cbn; lia|]. pose proof (proj1 (Z.log2_lt_pow2 c 8 ltac:(lia)) ltac:(change (2 ^ 8) with 256; lia)). lia.
Qed.

Lemma bitmap_set_spec b bit :
  is_block b -> 0 <= bit < 8192 ->
  is_block (minix_bitmap_set b bit) /\ forall j, 0 <= j < 8192 -> minix_bitmap_test (minix_bitmap_set b bit) j = bool_decide (j = bit) || minix_bitmap_test b j.
Proof.
  intros [B1 B2] Hb. unfold MINIX_BLOCK_SIZE in B1. destruct (bit_place bit Hb) as (P1 & P2 & P3). unfold minix_bitmap_set, minix_bitmap_test.
  assert (Hc : is_byte (znth b (Z.shiftr bit 3))).
  { apply (Forall_lookup_1 is_byte b (Z.to_nat (Z.shiftr bit 3))); [done|]. apply znth_lookup. lia. }
  split.
  - split; [by rewrite zlen_zset|]. unfold zset. apply Forall_insert; [done|by apply lor_byte].
  - intros j Hj. destruct (bit_place j Hj) as (Q1 & Q2 & Q3). destruct (decide (Z.shiftr j 3 = Z.shiftr bit 3)) as [He|He].
    + rewrite He, znth_zset_eq by lia. rewrite Z.lor_spec, orb_comm. f_equal. rewrite Z.shiftl_1_l, Z.pow2_bits_eqb by lia.
      destruct (Z.eqb_spec (Z.land bit 7) (Z.land j 7)); [rewrite bool_decide_true by lia; done|]. rewrite bool_decide_false; [done|]. intros ->. lia.
    + rewrite znth_zset_ne by lia. rewrite bool_decide_false; [done|]. intros ->. lia.
Qed.

Lemma find_bit_spec n : forall b bit first limit, 0 <= bit ->
  match find_bit n b bit first limit with
  | Some (Some x) => bit <= x < bit + Z.of_nat n /\ first + x < limit /\ minix_bitmap_test b x = false /\ forall j, bit <= j < x -> minix_bitmap_test b j = true
  | Some None => forall j, bit <= j < bit + Z.of_nat n -> first + j < limit /\ minix_bitmap_test b j = true
  | None => exists x, bit <= x < bit + Z.of_nat n /\ limit <= first + x /\ forall j, bit <= j < x -> minix_bitmap_test b j = true
  end.
Proof.
  induction n as [|n IH]; intros b bit first limit H0; cbn [find_bit]; [intros; lia|]. destruct (Z.leb_spec limit (first + bit)).
  { exists bit. split_and!; [lia|lia|lia|intros; lia]. }
  destruct (minix_bitmap_test b bit) eqn:Ht; cbn [negb]; [|split_and!; try done; try lia].
  specialize (IH b (bit + 1) first limit ltac:(lia)). destruct (find_bit n b (bit + 1) first limit) as [[x|]|].
  - destruct IH as (H1 & H2 & H3 & H4). split_and!; try done; try lia. intros j Hj. destruct (decide (j = bit)) as [->|]; [done|apply H4; lia].
  - intros j Hj. destruct (decide (j = bit)) as [->|]; [split; [lia|done]|apply IH; lia].
  - destruct IH as (x & H1 & H2 & H3). exists x. split_and!; try lia. intros j Hj. destruct (decide (j = bit)) as [->|]; [done|apply H3; lia].
Qed.

(** Bit [i] of the map that begins at block [base]. *)
Definition map_bit v (base i : Z) : bool :=
  match blk v (base + i / 8192) with Some b => minix_bitmap_test b (i mod 8192) | None => false end.

(** A bit of the map is set and nothing else changes. *)
Record bit_set v v' (base i : Z) : Prop := BitSet {
  bs_ok : store_ok v' d;
  bs_blocks : blocks_ok v' sb;
  bs_other k : k <> base + i / 8192 -> blk v' k = blk v k;
  bs_bits j : 0 <= j -> j / 8192 = i / 8192 -> map_bit v' base j = bool_decide (j = i) || map_bit v base j;
}.

Lemma alloc_bit_post n : forall base map first limit v,
  store_ok v d -> blocks_ok v sb -> 0 <= map -> 0 <= base -> base + map + Z.of_nat n <= s_nzones sb ->
  exists o v', alloc_bit n d base map first limit v = (o, v') /\
    match o with
    | Some x => exists i, x = first + i /\ map * 8192 <= i < (map + Z.of_nat n) * 8192 /\ x < limit /\ map_bit v base i = false /\
        bit_set v v' base i /\ forall j, map * 8192 <= j < i -> map_bit v base j = true
    | None => (same v v' \/ exists i, map * 8192 <= i < (map + Z.of_nat n) * 8192 /\ bit_set v v' base i) /\
        (io_error v' \/ forall i, map * 8192 <= i < (map + Z.of_nat n) * 8192 -> first + i < limit -> map_bit v base i = true)
    end.
Proof.
  induction n as [|n IH]; intros base map first limit v Hok Hb Hm Hbase Hfit; cbn [alloc_bit].
  { exists None, v. split; [done|]. split; [left; by apply same_refl|right; intros; lia]. }
  assert (Hk : 0 <= base + map < s_nzones sb) by lia. destruct (Hb _ Hk) as [b Eb].
  destruct (read_case v _ b Hok (zone_number _ Hk) Eb) as (o & v1 & -> & Hs & Hblk & [-> |[-> Hio]]).
  2:{ exists None, v1. split; [done|]. split; [by left|by left]. }
  assert (Hbit : forall j, 0 <= j < 8192 -> map_bit v base (map * 8192 + j) = minix_bitmap_test b j).
  { intros j Hj. unfold map_bit. rewrite Z.div_add_l, (Z.div_small j), Z.add_0_r by lia. rewrite Eb. rewrite Z.add_comm, Z.mod_add, Z.mod_small by lia. done. }
  assert (Hin : forall j, map * 8192 <= j < map * 8192 + 8192 -> map_bit v base j = minix_bitmap_test b (j - map * 8192)).
  { intros j Hj. rewrite <- Hbit by lia. f_equal. lia. }
  change (Z.to_nat BITS_PER_BLOCK) with (Z.to_nat 8192). unfold BITS_PER_BLOCK, MINIX_BLOCK_SIZE. change (1024 * 8) with 8192.
  pose proof (find_bit_spec (Z.to_nat 8192) b 0 (first + map * 8192) limit ltac:(lia)) as HF. rewrite Z2Nat.id in HF by lia.
  destruct (find_bit (Z.to_nat 8192) b 0 (first + map * 8192) limit) as [[x|]|].
  - destruct HF as (F1 & F2 & F3 & F4). destruct (bitmap_set_spec b x Hblk ltac:(lia)) as [M1 M2].
    destruct (write_case v1 _ (minix_bitmap_set b x) (sm_ok _ _ Hs) (zone_number _ Hk) M1) as (ok & v2 & -> & Hw & Hok2); [rewrite (sm_block _ _ Hs), Eb; by eexists|].
    assert (Hi : (map * 8192 + x) / 8192 = map) by (rewrite Z.div_add_l, (Z.div_small x) by lia; lia).
    assert (HC : changed v1 v2 (base + map) (minix_bitmap_set b x) -> bit_set v v2 base (map * 8192 + x)).
    { intros [C0 C1 C2]. split; [done|by eapply blocks_ok_changed; [|by eapply blocks_ok_same]|rewrite Hi; intros k Hkn; by rewrite C2, (sm_block _ _ Hs)|].
      rewrite Hi. intros j Hj Hjm. pose proof (Z.div_mod j 8192 ltac:(lia)) as Hd. pose proof (Z.mod_pos_bound j 8192 ltac:(lia)) as Hmod. rewrite Hjm in Hd.
      unfold map_bit at 1. rewrite Hjm, C1, M2 by lia. rewrite Hin by lia. f_equal; [apply bool_decide_ext; lia|f_equal; lia]. }
    destruct ok.
    + destruct Hw as [Hw|[? _]]; [|done]. exists (Some (first + map * 8192 + x)), v2. split; [done|]. exists (map * 8192 + x).
      split_and!; try lia; [by rewrite Hbit by lia|by apply HC|]. intros j Hj. rewrite Hin by lia. apply F4. lia.
    + exists None, v2. split; [done|]. destruct Hok2 as [?|[_ Hio]]; [done|]. split; [|by left].
      destruct Hw as [Hw|[_ Hw]]; [right; exists (map * 8192 + x); split; [lia|by apply HC]|left; by eapply same_trans].
  - destruct (IH base (map + 1) first limit v1 (sm_ok _ _ Hs) (blocks_ok_same _ _ Hs Hb) ltac:(lia) Hbase ltac:(lia)) as (o & v' & -> & Ho).
    assert (Hmb : forall j, map_bit v1 base j = map_bit v base j) by (intros j; unfold map_bit; by rewrite (sm_block _ _ Hs)).
    assert (Hbs : forall i, bit_set v1 v' base i -> bit_set v v' base i).
    { intros i [A1 A2 A3 A4]. split; try done; [intros k Hkn; by rewrite A3, (sm_block _ _ Hs)|intros j Hj Hjm; by rewrite A4, Hmb]. }
    exists o, v'. split; [done|]. destruct o as [x|].
    + destruct Ho as (i & H1 & H2 & H3 & H4 & H5 & H6). exists i. rewrite Hmb in H4. split_and!; try done; try lia; [by apply Hbs|].
      intros j Hj. destruct (decide (j < map * 8192 + 8192)) as [Hlt|Hge]; [rewrite Hin by lia; by apply HF; lia|rewrite <- Hmb; apply H6; lia].
    + destruct Ho as [Ho1 Ho2]. split.
      * destruct Ho1 as [Ho1|(i & Hi & Ho1)]; [left; by eapply same_trans|right; exists i; split; [lia|by apply Hbs]].
      * destruct Ho2 as [?|Ho2]; [by left|right]. intros j Hj Hl. destruct (decide (j < map * 8192 + 8192)) as [Hlt|Hge]; [rewrite Hin by lia; by apply HF; lia|].
        rewrite <- Hmb. apply Ho2; lia.
  - destruct HF as (x & F1 & F2 & F3). exists None, v1. split; [done|]. split; [by left|right]. intros i Hi Hl. rewrite Hin by lia. apply F3. lia.
Qed.

(** ** Directories *)

(** The entries of a directory with these contents. *)
Definition entry_of (data : list Z) (j : Z) : minix_dir_entry := de_of (slice (16 * j) 16 data).
Definition entries (data : list Z) (size : Z) : list minix_dir_entry := entry_of data <$> seqZ 0 (size / 16).

Definition de_matches (name : list Z) (e : minix_dir_entry) : bool := negb (de_inode e =? 0) && bool_decide (cstr (de_name e) = name).

(** The first entry with the name and its position, [j] being the number of the
    first entry of the list. *)
Fixpoint find_entry (name : list Z) (es : list minix_dir_entry) (j : Z) : option (minix_dir_entry * Z) :=
  match es with
  | [] => None
  | e :: es' => if de_matches name e then Some (e, 16 * j) else find_entry name es' (j + 1)
  end.

Lemma find_entry_app name es es' j :
  find_entry name (es ++ es') j = match find_entry name es j with Some x => Some x | None => find_entry name es' (j + Z.of_nat (length es)) end.
Proof.
  revert j. induction es as [|e es IH]; intros j; cbn [app find_entry length]; [by rewrite Z.add_0_r|]. destruct (de_matches name e); [done|].
  rewrite IH. destruct (find_entry name es (j + 1)); [done|]. f_equal. lia.
Qed.

(** A directory: whole entries inside its zones. *)
Record dir_shape (i : minix_inode_disk) (zs : list Z) : Prop := DirShape {
  ds_zones : has_zones sb i zs;
  ds_whole : i_size i mod 16 = 0;
  ds_size : 0 <= i_size i <= 1024 * zlen zs;
}.

Lemma dir_small i zs : dir_shape i zs -> zlen zs <= 7.
Proof.
  intros [[H1 H2 _ _ _] _ _]. pose proof (f_equal length H2) as Hl. rewrite length_take, length_app, length_replicate, H1 in Hl. unfold zlen. lia.
Qed.

(** The place of an entry. *)
Lemma entry_place v i zs j :
  store_ok v d -> blocks_ok v sb -> has_zones sb i zs -> 0 <= j -> 16 * j + 16 <= 1024 * zlen zs ->
  exists z b, minix_zone_for_pos i sb (16 * j) <> 0 /\ pos_block i sb (16 * j) = z /\ pos_offset sb (16 * j) = (16 * j) mod 1024 /\
    zs !! Z.to_nat (16 * j / 1024) = Some z /\ blk v z = Some b /\ block_number z /\ (16 * j) mod 1024 + 16 <= 1024 /\
    slice ((16 * j) mod 1024) 16 b = slice (16 * j) 16 (file_data v zs).
Proof.
  intros Hok Hb Hz Hj Hfit. destruct (pos_facts i zs (16 * j) Hz ltac:(lia)) as (Hnz & z & Ez & E1 & E2 & _ & Hn & _).
  destruct (zone_block v i zs _ z Hb Hz Ez) as (b & Eb & _). exists z, b.
  assert (Hm : (16 * j) mod 1024 + 16 <= 1024).
  { change 1024 with (16 * 64) at 1. rewrite Z.mul_mod_distr_l by lia. pose proof (Z.mod_pos_bound j 64 ltac:(lia)). lia. }
  split_and!; try done. symmetry. apply (slice_file v i zs (16 * j) z b 16); try done. lia.
Qed.

Lemma lookup_loop_post fuel : forall i zs name j v,
  store_ok v d -> blocks_ok v sb -> dir_shape i zs -> 0 <= j <= i_size i / 16 -> (Z.to_nat (i_size i / 16 - j) < fuel)%nat ->
  exists o v', lookup_loop fuel d sb i name (16 * j) v = (o, v') /\ same v v' /\
    (o = find_entry name (entry_of (file_data v zs) <$> seqZ j (i_size i / 16 - j)) j \/ o = None /\ io_error v').
Proof.
  induction fuel as [|fuel IH]; intros i zs name j v Hok Hb Hds Hj Hf; [lia|]. pose proof Hds as [Hz Hw Hs]. pose proof (dir_small i zs Hds) as H7.
  pose proof (Z.div_mod (i_size i) 16 ltac:(lia)) as Hdm. rewrite Hw in Hdm. cbn [lookup_loop]. unfold SIZEOF_DE. rewrite (add32_id (16 * j)) by lia.
  destruct (Z.ltb_spec (i_size i) (16 * j + 16)) as [Hend|Hin].
  { exists None, v. split_and!; [done|by apply same_refl|]. left. assert (i_size i / 16 - j = 0) as -> by lia. done. }
  destruct (entry_place v i zs j Hok Hb Hz ltac:(lia) ltac:(lia)) as (z & b & Hnz & -> & -> & Ez & Eb & Hn & Hm & Hsl).
  destruct (Z.eqb_spec (minix_zone_for_pos i sb (16 * j)) 0); [done|].
  destruct (read_case v z b Hok Hn Eb) as (o & v1 & -> & Hsame & _ & [-> |[-> Hio]]); [|exists None, v1; split_and!; [done|done|by right]].
  rewrite seqZ_cons by lia. cbn [fmap list_fmap find_entry]. rewrite Hsl. fold (entry_of (file_data v zs) j). fold (de_matches name (entry_of (file_data v zs) j)).
  destruct (de_matches name (entry_of (file_data v zs) j)) eqn:Hmt; [exists (Some (entry_of (file_data v zs) j, 16 * j)), v1; by split_and!; [| |left]|].
  destruct (IH i zs name (j + 1) v1 (sm_ok _ _ Hsame) (blocks_ok_same _ _ Hsame Hb) Hds ltac:(lia) ltac:(lia)) as (o & v' & E & Hs' & Ho).
  replace (16 * j + 16) with (16 * (j + 1)) by lia. exists o, v'. split_and!; [done|by eapply same_trans|].
  rewrite (file_data_same v v1) in Ho by done. replace (Z.pred (i_size i / 16 - j)) with (i_size i / 16 - (j + 1)) by lia. replace (Z.succ j) with (j + 1) by lia. done.
Qed.

Lemma dir_lookup_post i zs name v :
  store_ok v d -> blocks_ok v sb -> dir_shape i zs ->
  exists o v', minix_dir_lookup_entry d sb i name v = (o, v') /\ same v v' /\
    (o = find_entry name (entries (file_data v zs) (i_size i)) 0 \/ o = None /\ io_error v').
Proof.
  intros Hok Hb Hds. unfold minix_dir_lookup_entry. rewrite (zone_size_1024 sb Hsb). change (1024 =? 0) with false. cbv iota. unfold SIZEOF_DE.
  pose proof (ds_size _ _ Hds). assert (0 <= i_size i / 16) by (apply Z.div_pos; lia).
  destruct (lookup_loop_post (S (Z.to_nat (i_size i / 16))) i zs name 0 v Hok Hb Hds ltac:(lia) ltac:(lia)) as (o & v' & E & H1 & H2).
  exists o, v'. rewrite Z.sub_0_r in H2. by split_and!.
Qed.

(** *** Adding an entry *)

Definition name_ok (name : list Z) : Prop := 1 <= zlen name <= 14 /\ Forall is_byte name /\ 0 ∉ name.
Definition padded_name (name : list Z) : list Z := name ++ zeroes (14 - zlen name).

Lemma cstr_padded name n : 0 ∉ name -> cstr (name ++ zeroes n) = name.
Proof.
  induction name as [|c name IH]; intros Hc; cbn [app cstr].
  - unfold zeroes. destruct (Z.to_nat n); done.
  - apply not_elem_of_cons in Hc as [Hc1 Hc2]. destruct (Z.eqb_spec c 0); [congruence|]. by rewrite IH.
Qed.

Lemma de_roundtrip ino name : u16_ok ino -> zlen name = 14 -> de_of (de_bytes (Mde ino name)) = Mde ino name.
Proof.
  intros Hi Hn. unfold de_of, de_bytes. cbn [de_inode de_name]. rewrite (field_here 2 2) by done. rewrite (field_later 2 2) by done.
  change (2 - 2) with 0. rewrite (slice_all name 14) by done. unfold u16_ok in Hi. by rewrite le_value_bytes by lia.
Qed.

Lemma zlen_de ino name : zlen name = 14 -> zlen (de_bytes (Mde ino name)) = 16.
Proof. intros H. unfold de_bytes. cbn [de_inode de_name]. rewrite zlen_app, zlen_le, H. lia. Qed.

Lemma zlen_padded name : name_ok name -> zlen (padded_name name) = 14.
Proof. intros [H _]. unfold padded_name. rewrite zlen_app, zlen_zeroes by lia. lia. Qed.

(** The entries after an entry was stored behind them. *)
Lemma entries_grow data size e :
  0 <= size -> size mod 16 = 0 -> size + 16 <= zlen data -> zlen (de_bytes e) = 16 -> de_of (de_bytes e) = e ->
  entries (splice size (de_bytes e) data) size = entries data size /\ entries (splice size (de_bytes e) data) (size + 16) = entries data size ++ [e].
Proof.
  intros H0 Hw Hfit He Hr. pose proof (Z.div_mod size 16 ltac:(lia)) as Hdm. rewrite Hw in Hdm. assert (0 <= size / 16) by (apply Z.div_pos; lia).
  assert (Hold : entry_of (splice size (de_bytes e) data) <$> seqZ 0 (size / 16) = entry_of data <$> seqZ 0 (size / 16)).
  { apply list_fmap_ext. intros k j Hj. apply lookup_seqZ in Hj as [-> Hj]. unfold entry_of. f_equal. apply slice_splice_other; lia. }
  split; [done|]. unfold entries. replace ((size + 16) / 16) with (size / 16 + 1) by (replace (size + 16) with (size + 1 * 16) by lia; by rewrite Z.div_add by lia).
  rewrite seqZ_app by lia. rewrite fmap_app, Hold. f_equal. rewrite Z.add_0_l, seqZ_cons by lia. cbn [fmap list_fmap]. f_equal. unfold entry_of. replace (16 * (size / 16)) with size by lia.
  pose proof (slice_splice_same size (de_bytes e) data ltac:(lia) ltac:(lia)) as Hs. rewrite He in Hs. by rewrite Hs.
Qed.
(** The directory [f] describes. *)
Record is_dir (f : minix_inode_info) (zs : list Z) : Prop := IsDir {
  id_bdev : m_bdev f = d;
  id_sb : m_sb f = sb;
  id_shape : dir_shape (m_dinode f) zs;
  id_inode : inode_ok (m_dinode f);
  id_ino : ino_ok (m_ino f);
}.

Definition add_size (f : minix_inode_info) : minix_inode_info := set_m_dinode (set_i_size (i_size (m_dinode f) + 16) (m_dinode f)) f.

Lemma set_size_ok n i : inode_ok i -> is_u32 n -> inode_ok (set_i_size n i).
Proof. by intros [] ?; split. Qed.

Lemma de_block ino name : u16_ok ino -> name_ok name -> Forall is_byte (de_bytes (Mde ino (padded_name name))).
Proof. intros _ (_ & H & _). unfold de_bytes, padded_name. cbn [de_inode de_name]. rewrite !Forall_app. split_and!; [apply le_bytes_byte|done|apply Forall_zeroes]. Qed.

Lemma inode_not_zone ino zs i : ino_ok ino -> has_zones sb i zs -> inode_block sb ino ∉ zs.
Proof. intros Hi Hz Hin. pose proof (inode_place ino Hi). pose proof (hz_range _ _ _ Hz _ Hin). lia. Qed.

Lemma inode_at_low v v' : (forall k, k < s_firstdatazone sb -> blk v' k = blk v k) -> forall ino, ino_ok ino -> inode_at v' ino = inode_at v ino.
Proof. intros H ino Hi. unfold inode_at. rewrite H; [done|]. pose proof (inode_place ino Hi). lia. Qed.

Lemma file_data_frame v v' zs : (forall k, k ∈ zs -> blk v' k = blk v k) -> file_data v' zs = file_data v zs.
Proof. intros H. unfold file_data. f_equal. apply list_fmap_ext. intros j z Ez. unfold zone_data. by rewrite H by (by apply (list_elem_of_lookup_2 _ j)). Qed.

Lemma add_entry_post f zs ino name v :
  is_dir f zs -> store_ok v d -> blocks_ok v sb -> u16_ok ino -> name_ok name ->
  exists r f' v', minix_dir_add_entry f ino name v = (r, f', v') /\ store_ok v' d /\ blocks_ok v' sb /\
    (forall k, k ∉ zs -> k <> inode_block sb (m_ino f) -> blk v' k = blk v k) /\
    (forall ino', ino_ok ino' -> ino' <> m_ino f -> inode_at v' ino' = inode_at v ino') /\
    entries (file_data v' zs) (i_size (m_dinode f)) = entries (file_data v zs) (i_size (m_dinode f)) /\
    (r = 0 /\ f' = add_size f /\ is_dir f' zs /\ inode_at v' (m_ino f) = Some (m_dinode f') /\
       entries (file_data v' zs) (i_size (m_dinode f')) = entries (file_data v zs) (i_size (m_dinode f)) ++ [Mde ino (padded_name name)] \/
     r = -1 /\ (io_error v' \/ i_size (m_dinode f) = 1024 * zlen zs /\ v' = v)).
Proof.
  intros [Hd Hs Hds Hio Hino] Hok Hb Hu Hn. pose proof Hds as [Hz Hw Hsz]. pose proof (dir_small _ _ Hds) as H7. unfold minix_dir_add_entry.
  pose proof Hn as (Hl & HB & H0). destruct (Z.eqb_spec (zlen name) 0); [lia|]. destruct (Z.ltb_spec 14 (zlen name)); [lia|]. cbn [orb].
  rewrite Hs, (zone_size_1024 sb Hsb). change (1024 =? 0) with false. cbv iota. set (size := i_size (m_dinode f)) in *.
  pose proof (Z.div_mod size 16 ltac:(lia)) as Hdm. rewrite Hw in Hdm. assert (0 <= size / 16) by (apply Z.div_pos; lia).
  assert (size = 16 * (size / 16)) as Hsz16 by lia. set (j := size / 16) in *.
  destruct (decide (size < 1024 * zlen zs)) as [Hroom|Hfull].
  2:{ pose proof (zone_for_pos sb _ zs size Hsb Hz ltac:(lia)) as HZ. rewrite decide_False in HZ by lia. rewrite HZ. cbn.
      exists (-1), f, v. split_and!; try done. right. split; [done|]. right. split; [lia|done]. }
  rewrite Hsz16, Hd. destruct (entry_place v _ zs j Hok Hb Hz ltac:(lia) ltac:(lia)) as (z & b & Hnz & -> & -> & Ez & Eb & Hzn & Hm & _).
  destruct (Z.eqb_spec (minix_zone_for_pos (m_dinode f) sb (16 * j)) 0); [done|]. unfold SIZEOF_DE. destruct (Z.ltb_spec MINIX_BLOCK_SIZE ((16 * j) mod 1024 + 16)); [unfold MINIX_BLOCK_SIZE in *; lia|].
  destruct (read_case v z b Hok Hzn Eb) as (o & v1 & -> & Hsame & [B1 B2] & [-> |[-> Hio1]]).
  2:{ exists (-1), f, v1. split_and!; [done|apply Hsame|by apply (blocks_ok_same v)|intros; apply Hsame|intros; unfold inode_at; by rewrite (sm_block _ _ Hsame)|by rewrite (file_data_same v v1)|]. right. split; [done|by left]. }
  change (name ++ zeroes (14 - zlen name)) with (padded_name name). set (e := Mde ino (padded_name name)).
  pose proof (Z.mod_pos_bound (16 * j) 1024 ltac:(lia)) as Hmb. assert (He : zlen (de_bytes e) = 16) by (by apply zlen_de, zlen_padded). unfold MINIX_BLOCK_SIZE in B1.
  set (b' := splice ((16 * j) mod 1024) (de_bytes e) b).
  assert (Hb' : is_block b') by (split; [unfold b'; rewrite zlen_splice; unfold MINIX_BLOCK_SIZE; lia|apply Forall_splice; [by apply de_block|done]]).
  assert (Hzin : z ∈ zs) by (by apply (list_elem_of_lookup_2 _ _ _ Ez)). pose proof (blocks_ok_same _ _ Hsame Hb) as Hb1.
  destruct (write_case v1 z b' (sm_ok _ _ Hsame) Hzn Hb') as (ok & v2 & -> & Hwr & Hk); [rewrite (sm_block _ _ Hsame), Eb; by eexists|].
  assert (HF2 : forall k, k ∉ zs -> blk v2 k = blk v k).
  { intros k Hkn. destruct Hwr as [HC|[_ HC]]; [rewrite (ch_other _ _ _ _ HC) by (by intros ->)|rewrite (sm_block _ _ HC)]; apply Hsame. }
  assert (HI2 : forall ino', ino_ok ino' -> inode_at v2 ino' = inode_at v ino').
  { apply inode_at_low. intros k Hk'. apply HF2. intros Hin. pose proof (hz_range _ _ _ Hz _ Hin). lia. }
  pose proof (file_len v _ zs Hok Hb Hz) as Hlen.
  assert (Hgrow : changed v1 v2 z b' -> entries (file_data v2 zs) size = entries (file_data v zs) size /\ entries (file_data v2 zs) (size + 16) = entries (file_data v zs) size ++ [e]).
  { intros HC. assert (file_data v2 zs = splice size (de_bytes e) (file_data v zs)) as ->.
    { rewrite Hsz16, <- (file_data_same v v1 zs Hsame). apply (file_data_changed v1 v2 (m_dinode f) zs _ z b); try done; [apply Hsame|lia|by rewrite (sm_block _ _ Hsame)|lia]. }
    apply entries_grow; try done; [lia|lia|by apply de_roundtrip, zlen_padded]. }
  assert (Hok2 : store_ok v2 d /\ blocks_ok v2 sb) by (destruct Hwr as [HC|[_ HC]]; (split; [apply HC|]); [by eapply blocks_ok_changed|by eapply blocks_ok_same]).
  destruct ok.
  2:{ exists (-1), f, v2. rewrite <- Hsz16. split_and!; [done|apply Hok2|apply Hok2|auto|auto| |right; split; [done|left; by destruct Hk as [?|[_ ?]]]].
      destruct Hwr as [HC|[_ HC]]; [by apply Hgrow|by rewrite (file_data_same v1 v2 zs HC), (file_data_same v v1)]. }
  destruct Hwr as [HC|[? _]]; [|done]. destruct (Hgrow HC) as [G1 G2]. rewrite <- Hsz16, add32_id by lia.
  change (set_m_dinode (set_i_size (size + 16) (m_dinode f)) f) with (add_size f).
  assert (Hmod : (size + 16) mod 16 = 0) by (replace (size + 16) with (16 * (j + 1)) by lia; rewrite Z.mul_comm; apply Z.mod_mul; lia).
  assert (Hroom' : size + 16 <= 1024 * zlen zs) by lia.
  assert (Hd' : is_dir (add_size f) zs).
  { split; [done|done| |by apply set_size_ok; [|unfold is_u32; fold size; lia]|done]. split; [by destruct Hz; split|done|cbn; fold size; lia]. }
  destruct (write_inode_post v2 (m_ino f) (m_dinode (add_size f)) (proj1 Hok2) (proj2 Hok2) Hino (id_inode _ _ Hd')) as (r & v3 & -> & W1 & W2 & W3 & W4 & W5).
  assert (HD3 : file_data v3 zs = file_data v2 zs).
  { apply file_data_frame. intros k Hkin. apply W3. intros ->. by apply (inode_not_zone (m_ino f) zs (m_dinode f)). }
  exists r, (add_size f), v3. rewrite HD3. split_and!; [done|done|done|intros k Hk1 Hk2; rewrite W3 by done; by apply HF2|intros i' Hi1 Hi2; rewrite W4 by done; by apply HI2|done|].
  destruct W5 as [[-> W5]|[-> W5]]; [left|right; split; [done|by left]]. by split_and!.
Qed.

(** ** Creating a file or a directory *)

Definition imap_base : Z := 2.
Definition zmap_base : Z := 2 + s_imap_blocks sb.
Definition inode_used v (ino : Z) : Prop := ino_ok ino /\ map_bit v imap_base (ino - 1) = true.
Definition zone_used v (z : Z) : Prop := s_firstdatazone sb <= z < s_nzones sb /\ map_bit v zmap_base (z - s_firstdatazone sb) = true.

Lemma bit_set_all v v' base i j : bit_set v v' base i -> 0 <= j -> map_bit v' base j = bool_decide (j = i) || map_bit v base j.
Proof.
  intros [_ _ H1 H2] Hj. destruct (decide (j / 8192 = i / 8192)) as [He|He]; [by apply H2|]. unfold map_bit. rewrite H1 by lia.
  rewrite bool_decide_false; [done|]. by intros ->.
Qed.

Lemma map_bit_frame v v' base j : blk v' (base + j / 8192) = blk v (base + j / 8192) -> map_bit v' base j = map_bit v base j.
Proof. unfold map_bit. by intros ->. Qed.

(** What a change of the directory [f] with the zones [zs] keeps of the file
    system in [v0]: the zones and inodes in use and the entries. *)
Record keeps (f : minix_inode_info) (zs : list Z) v0 v : Prop := Keeps {
  kp_ok : store_ok v d;
  kp_blocks : blocks_ok v sb;
  kp_zones z : zone_used v0 z -> zone_used v z /\ (z ∉ zs -> blk v z = blk v0 z);
  kp_inodes ino : inode_used v0 ino -> inode_used v ino /\ (ino <> m_ino f -> inode_at v ino = inode_at v0 ino);
  kp_entries : entries (file_data v zs) (i_size (m_dinode f)) = entries (file_data v0 zs) (i_size (m_dinode f));
}.

(** A step that leaves the bits set. *)
Lemma keeps_step f zs v0 v v' :
  keeps f zs v0 v -> store_ok v' d -> blocks_ok v' sb ->
  (forall j, 0 <= j < s_imap_blocks sb * 8192 -> map_bit v imap_base j = true -> map_bit v' imap_base j = true) ->
  (forall j, 0 <= j < s_zmap_blocks sb * 8192 -> map_bit v zmap_base j = true -> map_bit v' zmap_base j = true) ->
  (forall z, zone_used v0 z -> z ∉ zs -> blk v' z = blk v z) ->
  (forall ino, inode_used v0 ino -> ino <> m_ino f -> inode_at v' ino = inode_at v ino) ->
  entries (file_data v' zs) (i_size (m_dinode f)) = entries (file_data v zs) (i_size (m_dinode f)) -> keeps f zs v0 v'.
Proof.
  intros [K1 K2 K3 K4 K5] Hok Hb HI HZ Hz Hi He. pose proof (sbo_bits _ Hsb). split; [done|done| | |congruence].
  - intros z Hu. destruct (K3 z Hu) as [[U1 U2] U3]. split; [split; [done|apply HZ; [lia|done]]|]. intros Hn. rewrite Hz by done. auto.
  - intros ino Hu. destruct (K4 ino Hu) as [[U1 U2] U3]. split; [split; [done|apply HI; [unfold ino_ok in U1; lia|done]]|]. intros Hn. rewrite Hi by done. auto.
Qed.

Lemma keeps_same f zs v0 v v' : keeps f zs v0 v -> same v v' -> keeps f zs v0 v'.
Proof.
  intros HK Hs. apply (keeps_step f zs v0 v); try done; [apply Hs|by apply (blocks_ok_same v), HK| | | | |by rewrite (file_data_same v v')].
  all: intros; unfold map_bit, inode_at in *; by rewrite ?(sm_block _ _ Hs) in *.
Qed.

(** Where the blocks of the maps and of the table are. *)
Lemma imap_block i : 0 <= i < s_imap_blocks sb * 8192 -> imap_base <= imap_base + i / 8192 < zmap_base.
Proof.
  intros H. unfold imap_base, zmap_base. assert (0 <= i / 8192) by (apply Z.div_pos; lia). assert (i / 8192 < s_imap_blocks sb) by (apply Z.div_lt_upper_bound; lia). lia.
Qed.
Lemma zmap_block i : 0 <= i < s_zmap_blocks sb * 8192 -> zmap_base <= zmap_base + i / 8192 < minix_inode_table_block sb.
Proof.
  intros H. unfold zmap_base, minix_inode_table_block. assert (0 <= i / 8192) by (apply Z.div_pos; lia). assert (i / 8192 < s_zmap_blocks sb) by (apply Z.div_lt_upper_bound; lia). lia.
Qed.

Lemma table_low : minix_inode_table_block sb <= s_firstdatazone sb /\ imap_base <= zmap_base <= minix_inode_table_block sb.
Proof.
  destruct Hsb as [_ (S1 & S2 & S3) S4 S5 _]. assert (0 <= (s_ninodes sb + 31) / 32) by (apply Z.div_pos; lia). unfold imap_base, zmap_base, minix_inode_table_block in *. lia.
Qed.

(** Setting a bit of one of the two maps. *)
Lemma keeps_bit f zs v0 v v' base i :
  is_dir f zs -> keeps f zs v0 v -> 0 <= i -> base + i / 8192 < minix_inode_table_block sb -> bit_set v v' base i -> keeps f zs v0 v'.
Proof.
  intros Hf HK Hi0 Hlow HB. assert (0 <= i / 8192) by (apply Z.div_pos; lia). pose proof table_low as [T1 T2]. pose proof (hz_range _ _ _ (ds_zones _ _ (id_shape _ _ Hf))) as Hr. pose proof (bs_other _ _ _ _ HB) as Ho.
  assert (Hmono : forall base' j n, 0 <= j < n -> map_bit v base' j = true -> map_bit v' base' j = true).
  { intros base' j n Hj Ht. destruct (decide (base' + j / 8192 = base + i / 8192)) as [He|He]; [|by rewrite (map_bit_frame v v') by (by apply Ho)].
    unfold map_bit in *. rewrite He in *. pose proof (bs_bits _ _ _ _ HB (i / 8192 * 8192 + j mod 8192)) as Hbit. unfold map_bit in Hbit.
    pose proof (Z.mod_pos_bound j 8192 ltac:(lia)) as Hm. rewrite Z.div_add_l, (Z.div_small (j mod 8192)), Z.add_0_r in Hbit by lia.
    rewrite (Z.add_comm (i / 8192 * 8192)), Z.mod_add, Z.mod_mod in Hbit by lia.
    rewrite Hbit by lia. rewrite Ht. by rewrite orb_true_r. }
  apply (keeps_step f zs v0 v); try done; [apply HB|apply HB|intros j; by apply Hmono|intros j; by apply Hmono| | |].
  - intros z [Hz _] _. apply Ho. lia.
  - intros ino [Hi _] _. unfold inode_at. rewrite Ho; [done|]. pose proof (inode_place ino Hi). lia.
  - rewrite (file_data_frame v v'); [done|]. intros k Hk. apply Ho. specialize (Hr k Hk). lia.
Qed.

(** Steps that leave the maps alone. *)
Lemma keeps_high f zs v0 v v' :
  keeps f zs v0 v -> store_ok v' d -> blocks_ok v' sb -> (forall k, k < minix_inode_table_block sb -> blk v' k = blk v k) ->
  (forall z, zone_used v0 z -> z ∉ zs -> blk v' z = blk v z) ->
  (forall ino, inode_used v0 ino -> ino <> m_ino f -> inode_at v' ino = inode_at v ino) ->
  entries (file_data v' zs) (i_size (m_dinode f)) = entries (file_data v zs) (i_size (m_dinode f)) -> keeps f zs v0 v'.
Proof.
  intros HK Hok Hb Hl Hz Hi He. pose proof table_low. apply (keeps_step f zs v0 v); try done; intros j Hj; [pose proof (imap_block j Hj)|pose proof (zmap_block j Hj)]; rewrite (map_bit_frame v v'); try done; apply Hl; lia.
Qed.

(** The block of a zone that was not in use. *)
Lemma keeps_zone f zs v0 v v' z l :
  (forall k, k ∈ zs -> zone_used v0 k) -> keeps f zs v0 v -> s_firstdatazone sb <= z -> ~ zone_used v0 z -> changed v v' z l -> keeps f zs v0 v'.
Proof.
  intros Hzs HK Hz Hn HC. pose proof table_low as [T1 T2]. pose proof (ch_other _ _ _ _ HC) as Ho.
  apply (keeps_high f zs v0 v); [done|apply HC|by apply (blocks_ok_changed v v' z l HC), HK|intros k Hk; apply Ho; lia|intros k Hu _; apply Ho; by intros ->| |].
  - intros ino [Hi _] _. apply inode_at_low; [|done]. intros k Hk. apply Ho. lia.
  - rewrite (file_data_frame v v'); [done|]. intros k Hk. apply Ho. intros ->. auto.
Qed.

(** An inode that was not in use or the one of the directory. *)
Lemma keeps_inode f zs v0 v v' ino :
  is_dir f zs -> keeps f zs v0 v -> ino_ok ino -> ino = m_ino f \/ ~ inode_used v0 ino -> store_ok v' d -> blocks_ok v' sb ->
  (forall k, k <> inode_block sb ino -> blk v' k = blk v k) -> (forall ino', ino_ok ino' -> ino' <> ino -> inode_at v' ino' = inode_at v ino') -> keeps f zs v0 v'.
Proof.
  intros Hf HK Hi Hn Hok Hb Ho Hat. pose proof (inode_place ino Hi) as (P1 & _). pose proof (hz_range _ _ _ (ds_zones _ _ (id_shape _ _ Hf))) as Hr.
  apply (keeps_high f zs v0 v); [done|done|done|intros k Hk; apply Ho; lia|intros z [Hz _] _; apply Ho; lia| |].
  - intros i' Hu Hne. apply Hat; [apply Hu|]. intros ->. destruct Hn; auto.
  - rewrite (file_data_frame v v'); [done|]. intros k Hk. apply Ho. specialize (Hr k Hk). lia.
Qed.

(** *** The inode in memory *)

(** The store is what an allocation that failed left. *)
Definition no_memory v' : Prop := exists v n w, kmalloc n v = (None, w) /\ (v' = w \/ exists p, v' = kfree p w).

Lemma from_disk_post ino dir zone v :
  store_ok v d ->
  exists o v', minix_inode_from_disk d sb ino (new_dinode dir zone) v = (o, v') /\ same v v' /\
    match o with Some m => vi_info m = Minfo d ino sb (new_dinode dir zone) /\ vi_is_dir m = dir | None => no_memory v' end.
Proof.
  intros Hok. unfold minix_inode_from_disk. pose proof (store_kmalloc SIZEOF_INFO v d Hok) as H1. destruct (kmalloc SIZEOF_INFO v) as [[p|] v1] eqn:E1.
  2:{ exists None, v1. destruct H1 as (A1 & A2 & _). split_and!; [done|by split|]. exists v, SIZEOF_INFO, v1. auto. }
  destruct H1 as (A1 & A2 & _ & A4). destruct (A4 p eq_refl) as [Hp _].
  assert ((Z.land (i_mode (new_dinode dir zone)) S_IFMT =? S_IFDIR) = dir) as -> by (by destruct dir).
  assert (Hreg : dir || (Z.land (i_mode (new_dinode dir zone)) S_IFMT =? S_IFREG) = true) by (by destruct dir). rewrite Hreg.
  pose proof (store_kmalloc SIZEOF_VFS_INODE v1 d A1) as H2. destruct (kmalloc SIZEOF_VFS_INODE v1) as [[a|] v2] eqn:E2; destruct H2 as (B1 & B2 & B3 & _).
  - exists (Some (Made a p (Minfo d ino sb (new_dinode dir zone)) dir)), v2. split_and!; [done| |done|done]. split; [done|]. intros k. by rewrite B2.
  - destruct (store_kfree p v2 d B1 (B3 p Hp)) as (C1 & C2 & _). exists None, (kfree p v2). split_and!; [done| |].
    + split; [done|]. intros k. by rewrite C2, B2.
    + exists v1, SIZEOF_VFS_INODE, v2. split; [done|]. right. by exists p.
Qed.

(** *** The two allocations *)

Lemma keeps_start f zs v : store_ok v d -> blocks_ok v sb -> keeps f zs v v.
Proof. by split. Qed.

Lemma alloc_inode_post f zs v0 v :
  is_dir f zs -> keeps f zs v0 v ->
  exists o v', minix_alloc_inode d sb v = (o, v') /\ keeps f zs v0 v' /\
    (forall j, 0 <= j < s_zmap_blocks sb * 8192 -> map_bit v' zmap_base j = map_bit v zmap_base j) /\
    match o with
    | Some ino => ino_ok ino /\ map_bit v imap_base (ino - 1) = false /\ map_bit v' imap_base (ino - 1) = true
    | None => io_error v' \/ forall ino, ino_ok ino -> map_bit v imap_base (ino - 1) = true
    end.
Proof.
  intros Hf HK. pose proof table_low as [T1 T2]. pose proof (sbo_maps _ Hsb) as (M1 & M2 & M3). pose proof (sbo_bits _ Hsb) as [B1 _]. pose proof (sbo_zones _ Hsb) as Z1. unfold minix_alloc_inode.
  destruct (alloc_bit_post (Z.to_nat (s_imap_blocks sb)) 2 0 1 (s_ninodes sb + 1) v (kp_ok _ _ _ _ HK) (kp_blocks _ _ _ _ HK)) as (o & v' & -> & Ho); [lia|lia|unfold zmap_base, minix_inode_table_block in *; lia|].
  rewrite Z2Nat.id in Ho by lia. change 2 with imap_base in Ho. exists o, v'. split; [done|].
  assert (HB : forall i, 0 * 8192 <= i < (0 + s_imap_blocks sb) * 8192 -> bit_set v v' imap_base i -> keeps f zs v0 v' /\
    forall j, 0 <= j < s_zmap_blocks sb * 8192 -> map_bit v' zmap_base j = map_bit v zmap_base j).
  { intros i Hi Hs. pose proof (imap_block i ltac:(lia)). split; [apply (keeps_bit f zs v0 v v' imap_base i); try done; lia|].
    intros j Hj. pose proof (zmap_block j Hj). apply map_bit_frame, (bs_other _ _ _ _ Hs). lia. }
  destruct o as [x|].
  - destruct Ho as (i & -> & Hi & Hx & Hb & Hs & _). destruct (HB i Hi Hs) as [H1 H2]. split; [done|]. split; [done|]. split; [unfold ino_ok; lia|]. replace (1 + i - 1) with i by lia. split; [done|].
    rewrite (bit_set_all v v' _ i i Hs) by lia. by rewrite bool_decide_true.
  - destruct Ho as [Hs Ho]. assert (HK' : keeps f zs v0 v' /\ forall j, 0 <= j < s_zmap_blocks sb * 8192 -> map_bit v' zmap_base j = map_bit v zmap_base j).
    { destruct Hs as [Hs|(i & Hi & Hs)]; [|by apply (HB i)]. split; [by apply (keeps_same f zs v0 v)|]. intros j _. apply map_bit_frame, Hs. }
    split_and!; [apply HK'|apply HK'|]. destruct Ho as [Ho|Ho]; [by left|right]. intros ino Hi. unfold ino_ok in Hi. apply Ho; lia.
Qed.

Lemma alloc_zone_post f zs v0 v :
  is_dir f zs -> keeps f zs v0 v ->
  exists o v', minix_alloc_zone d sb v = (o, v') /\ keeps f zs v0 v' /\
    (forall j, 0 <= j < s_imap_blocks sb * 8192 -> map_bit v' imap_base j = map_bit v imap_base j) /\
    match o with
    | Some z => s_firstdatazone sb <= z < s_nzones sb /\ map_bit v zmap_base (z - s_firstdatazone sb) = false /\ map_bit v' zmap_base (z - s_firstdatazone sb) = true
    | None => io_error v' \/ forall z, s_firstdatazone sb <= z < s_nzones sb -> map_bit v zmap_base (z - s_firstdatazone sb) = true
    end.
Proof.
  intros Hf HK. pose proof table_low as [T1 T2]. pose proof (sbo_maps _ Hsb) as (M1 & M2 & M3). pose proof (sbo_bits _ Hsb) as [_ B1]. pose proof (sbo_zones _ Hsb) as Z1. unfold minix_alloc_zone.
  destruct (alloc_bit_post (Z.to_nat (s_zmap_blocks sb)) (2 + s_imap_blocks sb) 0 (s_firstdatazone sb) (s_nzones sb) v (kp_ok _ _ _ _ HK) (kp_blocks _ _ _ _ HK)) as (o & v' & -> & Ho); [lia|lia|unfold zmap_base, minix_inode_table_block in *; lia|].
  rewrite Z2Nat.id in Ho by lia. change (2 + s_imap_blocks sb) with zmap_base in Ho. exists o, v'. split; [done|].
  assert (HB : forall i, 0 * 8192 <= i < (0 + s_zmap_blocks sb) * 8192 -> bit_set v v' zmap_base i -> keeps f zs v0 v' /\
    forall j, 0 <= j < s_imap_blocks sb * 8192 -> map_bit v' imap_base j = map_bit v imap_base j).
  { intros i Hi Hs. pose proof (zmap_block i ltac:(lia)). split; [apply (keeps_bit f zs v0 v v' zmap_base i); try done; lia|].
    intros j Hj. pose proof (imap_block j Hj). apply map_bit_frame, (bs_other _ _ _ _ Hs). lia. }
  destruct o as [x|].
  - destruct Ho as (i & -> & Hi & Hx & Hb & Hs & _). destruct (HB i Hi Hs) as [H1 H2]. split_and!; try done; try lia; replace (s_firstdatazone sb + i - s_firstdatazone sb) with i by lia; [done|].
    rewrite (bit_set_all v v' _ i i Hs) by lia. by rewrite bool_decide_true.
  - destruct Ho as [Hs Ho]. assert (HK' : keeps f zs v0 v' /\ forall j, 0 <= j < s_imap_blocks sb * 8192 -> map_bit v' imap_base j = map_bit v imap_base j).
    { destruct Hs as [Hs|(i & Hi & Hs)]; [|by apply (HB i)]. split; [by apply (keeps_same f zs v0 v)|]. intros j _. apply map_bit_frame, Hs. }
    split_and!; [apply HK'|apply HK'|]. destruct Ho as [Ho|Ho]; [by left|right]. intros z Hz. apply Ho; lia.
Qed.

(** *** Filling the new inode *)

Lemma new_dinode_ok dir zone : 0 <= zone < 65536 -> inode_ok (new_dinode dir zone).
Proof.
  intros H. unfold new_dinode. split; cbn; unfold u16_ok, is_u32, is_byte, SIZEOF_DE; try (destruct dir; lia). split; [done|]. repeat constructor; unfold u16_ok; lia.
Qed.

Lemma new_block_ok dir ino parent : is_block (new_block dir ino parent).
Proof.
  unfold new_block. destruct dir; [|split; [done|apply Forall_zeroes]].
  assert (Hd : forall n l, length l = 14%nat -> zlen (de_bytes (Mde n l)) = 16) by (intros n l Hl; apply zlen_de; unfold zlen; lia).
  assert (Hz : zlen (zeroes MINIX_BLOCK_SIZE) = 1024) by done.
  split; [rewrite !zlen_splice; rewrite ?zlen_splice; rewrite ?Hd; unfold SIZEOF_DE; rewrite ?Hz; done|].
  apply Forall_splice; [|apply Forall_splice; [|apply Forall_zeroes]]; (apply Forall_app; split; [apply le_bytes_byte|repeat constructor; done]).
Qed.

(** Maps without a change. *)
Definition low v v' : Prop := forall k, k < minix_inode_table_block sb -> blk v' k = blk v k.

Lemma low_used v v' : low v v' -> (forall ino, inode_used v ino -> inode_used v' ino) /\ (forall z, zone_used v z -> zone_used v' z).
Proof.
  intros H. pose proof table_low. pose proof (sbo_bits _ Hsb). split.
  - intros ino [Hi Hb]. split; [done|]. unfold ino_ok in Hi. pose proof (imap_block (ino - 1) ltac:(lia)). rewrite (map_bit_frame v v'); [done|apply H; lia].
  - intros z [Hz Hb]. split; [done|]. pose proof (zmap_block (z - s_firstdatazone sb) ltac:(lia)). rewrite (map_bit_frame v v'); [done|apply H; lia].
Qed.

(** The new inode [ino] with its zone, after the directory [f] was changed. *)
Record filled (f : minix_inode_info) (zs : list Z) v0 v v' (dir : bool) (ino zone : Z) : Prop := Filled {
  fl_keeps : keeps f zs v0 v';
  fl_low : low v v';
  fl_block : blk v' zone = Some (new_block dir ino (m_ino f));
  fl_inode : inode_at v' ino = Some (new_dinode dir zone);
}.

(** Writing the inode of the directory. *)
Lemma filled_inode f zs v0 v v1 v2 dir ino zone :
  is_dir f zs -> filled f zs v0 v v1 dir ino zone -> ino_ok ino -> ino <> m_ino f -> s_firstdatazone sb <= zone -> store_ok v2 d -> blocks_ok v2 sb ->
  (forall k, k <> inode_block sb (m_ino f) -> blk v2 k = blk v1 k) -> (forall ino', ino_ok ino' -> ino' <> m_ino f -> inode_at v2 ino' = inode_at v1 ino') ->
  filled f zs v0 v v2 dir ino zone.
Proof.
  intros Hf [F1 F2 F3 F4] Hi Hne Hz Hok Hb Ho Hat. pose proof (inode_place _ (id_ino _ _ Hf)) as (P1 & _). split.
  - apply (keeps_inode f zs v0 v1 v2 (m_ino f)); auto. apply Hf.
  - intros k Hk. rewrite Ho by lia. auto.
  - rewrite Ho by lia. auto.
  - rewrite Hat by done. auto.
Qed.

Lemma fill_start f zs v0 v dir ino zone :
  is_dir f zs -> (forall z, z ∈ zs -> zone_used v0 z) -> keeps f zs v0 v -> inode_used v ino -> ~ inode_used v0 ino -> zone_used v zone -> ~ zone_used v0 zone ->
  exists ok v1, store_write d zone (new_block dir ino (m_ino f)) v = (ok, v1) /\ keeps f zs v0 v1 /\
    if ok then exists r v2, minix_write_inode d sb ino (new_dinode dir zone) v1 = (r, v2) /\ keeps f zs v0 v2 /\ (r = 0 /\ filled f zs v0 v v2 dir ino zone \/ r = -1 /\ io_error v2)
    else io_error v1.
Proof.
  intros Hf Hzs HK [Hi _] Hni [Hz _] Hnz. pose proof table_low as [T1 T2]. pose proof (sbo_zones _ Hsb) as Z1. pose proof (sbo_maps _ Hsb) as (M1 & M2 & M3).
  assert (Hz' : 0 <= zone < s_nzones sb) by (unfold minix_inode_table_block in *; lia).
  destruct (write_case v zone _ (kp_ok _ _ _ _ HK) (zone_number _ Hz') (new_block_ok dir ino (m_ino f)) (kp_blocks _ _ _ _ HK zone Hz')) as (ok & v1 & -> & Hw & Hk).
  exists ok, v1. split; [done|]. assert (HK1 : keeps f zs v0 v1).
  { destruct Hw as [HC|[_ HC]]; [eapply (keeps_zone f zs v0 v v1 zone); try done; lia|by apply (keeps_same f zs v0 v)]. }
  split; [done|]. destruct ok; [|by destruct Hk as [?|[_ ?]]]. destruct Hw as [HC|[? _]]; [|done].
  destruct (write_inode_post v1 ino (new_dinode dir zone) (kp_ok _ _ _ _ HK1) (kp_blocks _ _ _ _ HK1) Hi) as (r & v2 & -> & W1 & W2 & W3 & W4 & W5); [apply new_dinode_ok; lia|].
  pose proof (inode_place ino Hi) as (P1 & _). assert (HK2 : keeps f zs v0 v2) by (apply (keeps_inode f zs v0 v1 v2 ino); auto).
  exists r, v2. split_and!; [done|done|]. destruct W5 as [[-> W5]|[-> W5]]; [left|by right]. split; [done|]. split; try done.
  - intros k Hk'. rewrite W3 by lia. apply HC. lia.
  - rewrite W3 by lia. apply HC.
Qed.

Lemma filled_same f zs v0 v v1 v2 dir ino zone : filled f zs v0 v v1 dir ino zone -> same v1 v2 -> filled f zs v0 v v2 dir ino zone.
Proof.
  intros [F1 F2 F3 F4] Hs. split; [by apply (keeps_same f zs v0 v1)|intros k Hk; rewrite (sm_block _ _ Hs); auto|by rewrite (sm_block _ _ Hs)|].
  unfold inode_at in *. by rewrite (sm_block _ _ Hs).
Qed.

(** Adding the entry. *)
Lemma filled_entry f zs v0 v v1 v2 dir ino zone :
  is_dir f zs -> filled f zs v0 v v1 dir ino zone -> ino_ok ino -> ino <> m_ino f -> zone ∉ zs -> s_firstdatazone sb <= zone -> store_ok v2 d -> blocks_ok v2 sb ->
  (forall k, k ∉ zs -> k <> inode_block sb (m_ino f) -> blk v2 k = blk v1 k) -> (forall ino', ino_ok ino' -> ino' <> m_ino f -> inode_at v2 ino' = inode_at v1 ino') ->
  entries (file_data v2 zs) (i_size (m_dinode f)) = entries (file_data v1 zs) (i_size (m_dinode f)) -> filled f zs v0 v v2 dir ino zone.
Proof.
  intros Hf [F1 F2 F3 F4] Hi Hne Hzn Hz Hok Hb Ho Hat He. pose proof (inode_place _ (id_ino _ _ Hf)) as (P1 & _). pose proof table_low as [T1 T2].
  pose proof (hz_range _ _ _ (ds_zones _ _ (id_shape _ _ Hf))) as Hr.
  assert (Hlow : forall k, k < minix_inode_table_block sb -> blk v2 k = blk v1 k).
  { intros k Hk. apply Ho; [|lia]. intros Hin. specialize (Hr k Hin). lia. }
  split.
  - apply (keeps_high f zs v0 v1); try done; [intros z [Hu _] Hz'; apply Ho; [done|lia]|intros i' [Hu _]; by apply Hat].
  - intros k Hk. rewrite Hlow by done. auto.
  - rewrite Ho by (done || lia). auto.
  - rewrite Hat by done. auto.
Qed.

(** What the directory is after the operation. *)
Definition grown_dir (f : minix_inode_info) (dir : bool) : minix_inode_info :=
  let f1 := add_size f in
  if dir then set_m_dinode (set_i_nlinks ((i_nlinks (m_dinode f1) + 1) mod 256) (m_dinode f1)) f1 else f1.

(** The entry is there and the inode of the directory is on disk. *)
Record linked (f : minix_inode_info) (zs : list Z) v v' (name : list Z) (dir : bool) (ino : Z) : Prop := Linked {
  lk_dir : is_dir (grown_dir f dir) zs;
  lk_inode : inode_at v' (m_ino f) = Some (m_dinode (grown_dir f dir));
  lk_entries : entries (file_data v' zs) (i_size (m_dinode (grown_dir f dir))) = entries (file_data v zs) (i_size (m_dinode f)) ++ [Mde ino (padded_name name)];
}.

Lemma linked_same f zs v v1 v2 name dir ino : linked f zs v v1 name dir ino -> same v1 v2 -> linked f zs v v2 name dir ino.
Proof. intros [L1 L2 L3] Hs. split; [done|unfold inode_at in *; by rewrite (sm_block _ _ Hs)|by rewrite (file_data_same v1 v2)]. Qed.

Lemma fill_child_post f zs v0 v name dir ino zone :
  is_dir f zs -> (forall z, z ∈ zs -> zone_used v0 z) -> inode_used v0 (m_ino f) -> name_ok name -> keeps f zs v0 v ->
  inode_used v ino -> ~ inode_used v0 ino -> zone_used v zone -> ~ zone_used v0 zone ->
  exists o f' v', fill_child f name dir ino zone v = (o, f', v') /\ keeps f zs v0 v' /\
    match o with
    | Some m => f' = grown_dir f dir /\ filled f zs v0 v v' dir ino zone /\ linked f zs v0 v' name dir ino /\ vi_info m = Minfo d ino sb (new_dinode dir zone) /\ vi_is_dir m = dir
    | None => i_size (m_dinode f) = 1024 * zlen zs \/ io_error v' \/ no_memory v'
    end.
Proof.
  intros Hf Hzs Hdu Hn HK Hui Hni Huz Hnz. pose proof Huz as [Hzr _]. pose proof Hui as [Hi _]. pose proof (sbo_maps _ Hsb) as (_ & _ & M3). unfold fill_child.
  rewrite (id_bdev _ _ Hf), (id_sb _ _ Hf). unfold minix_zone_to_block. assert (Hne : ino <> m_ino f) by (by intros ->). assert (Hzn : zone ∉ zs) by (intros Hin; auto).
  destruct (fill_start f zs v0 v dir ino zone Hf Hzs HK Hui Hni Huz Hnz) as (ok & v1 & -> & HK1 & Hok). destruct ok; [|exists None, f, v1; split_and!; auto].
  destruct Hok as (r & v2 & -> & HK2 & [[-> F2]|[-> Hio]]); cbn [negb Z.eqb]; [|exists None, f, v2; split_and!; auto]. unfold ino_ok in Hi.
  assert (u16 ino = ino) as -> by (unfold u16; apply Z.mod_small; lia).
  destruct (add_entry_post f zs ino name v2 Hf (kp_ok _ _ _ _ HK2) (kp_blocks _ _ _ _ HK2) ltac:(unfold u16_ok; lia) Hn) as (r2 & f1 & v3 & -> & A1 & A2 & A3 & A4 & A5 & A6).
  pose proof (filled_entry f zs v0 v v2 v3 dir ino zone Hf F2 Hi Hne Hzn ltac:(lia) A1 A2 A3 A4 A5) as F3.
  destruct A6 as [(-> & -> & Hf1 & Hat & He)|[-> He]]; cbn [negb Z.eqb]; [|exists None, f1, v3; split_and!; [done|apply F3|destruct He as [?|[? _]]; auto]].
  rewrite (kp_entries _ _ _ _ HK2) in He.
  assert (Hend : forall w, filled f zs v0 v w dir ino zone -> linked f zs v0 w name dir ino ->
    exists o f' v', (let '(o, v5) := minix_inode_from_disk d sb ino (new_dinode dir zone) w in (o, grown_dir f dir, v5)) = (o, f', v') /\ keeps f zs v0 v' /\
      match o with
      | Some m => f' = grown_dir f dir /\ filled f zs v0 v v' dir ino zone /\ linked f zs v0 v' name dir ino /\ vi_info m = Minfo d ino sb (new_dinode dir zone) /\ vi_is_dir m = dir
      | None => i_size (m_dinode f) = 1024 * zlen zs \/ io_error v' \/ no_memory v'
      end).
  { intros w Fw Lw. destruct (from_disk_post ino dir zone w (kp_ok _ _ _ _ (fl_keeps _ _ _ _ _ _ _ _ Fw))) as (o & v5 & -> & Hs & Ho). exists o, (grown_dir f dir), v5.
    pose proof (filled_same _ _ _ _ _ _ _ _ _ Fw Hs) as Fw'. split_and!; [done|apply Fw'|]. destruct o as [m|]; [|auto]. destruct Ho as [Ho1 Ho2]. split_and!; try done. by apply (linked_same _ _ _ w). }
  destruct dir; [|apply Hend; [done|by split]].
  pose (f2 := grown_dir f true). assert (Hf2 : is_dir f2 zs).
  { destruct Hf1 as [D1 D2 [D3 D4 D5] D6 D7]. split; try done; [split; try done; by destruct D3; split|]. destruct D6. split; try done. cbn. unfold is_byte. apply Z.mod_pos_bound. lia. }
  change (set_m_dinode (set_i_nlinks ((i_nlinks (m_dinode (add_size f)) + 1) mod 256) (m_dinode (add_size f))) (add_size f)) with f2.
  destruct (write_inode_post v3 (m_ino f) (m_dinode f2) A1 A2 (id_ino _ _ Hf) (id_inode _ _ Hf2)) as (r3 & v4 & -> & W1 & W2 & W3 & W4 & W5).
  pose proof (filled_inode f zs v0 v v3 v4 true ino zone Hf F3 Hi Hne ltac:(lia) W1 W2 W3 W4) as F4.
  destruct W5 as [[-> W5]|[-> W5]]; cbn [negb Z.eqb]; [|exists None, f2, v4; split_and!; [done|apply F4|auto]]. apply Hend; [done|]. split; [done|done|].
  rewrite (file_data_frame v3 v4); [done|]. intros k Hk. apply W3. intros ->. by apply (inode_not_zone (m_ino f) zs (m_dinode f) (id_ino _ _ Hf) (ds_zones _ _ (id_shape _ _ Hf))).
Qed.

Definition refused_name (name : list Z) : Prop := name = [] \/ name = [46] \/ name = [46; 46] \/ 14 < zlen name.

(** C9: [minix_create_child] (the create and mkdir operations of a Minix
    directory) never touches what is in use: whatever happens, every zone and
    every inode the bitmaps mark keeps its bit and its contents, the directory's
    own excepted, and the directory keeps its entries.  If it succeeds, the name
    was allowed and absent (or the search for it met an I/O error, which the code
    takes for absent), the inode and the zone it took were free and are now
    marked, the inode table and the zone hold the new inode and its first block
    (with [.] and [..] for a directory), the directory has exactly one entry more,
    the name with the inode's number, and the directory's inode on disk has the
    new size (and link count).  It fails only for a name that is refused or
    exists, when no inode or no zone is free, when the directory is full, after
    an I/O error, or without memory. *)
Theorem minix_create_child_correct f zs name dir v :
  is_dir f zs -> store_ok v d -> blocks_ok v sb -> (forall z, z ∈ zs -> zone_used v z) -> inode_used v (m_ino f) -> Forall is_byte name -> 0 ∉ name ->
  let old := entries (file_data v zs) (i_size (m_dinode f)) in
  exists o f' v', minix_create_child f name dir v = (o, f', v') /\ keeps f zs v v' /\
    match o with
    | Some m => exists ino zone,
        ~ refused_name name /\ (find_entry name old 0 = None \/ io_error (minix_dir_lookup_entry d sb (m_dinode f) name v).2) /\
        ~ inode_used v ino /\ inode_used v' ino /\ ~ zone_used v zone /\ zone_used v' zone /\
        inode_at v' ino = Some (new_dinode dir zone) /\ blk v' zone = Some (new_block dir ino (m_ino f)) /\
        f' = grown_dir f dir /\ linked f zs v v' name dir ino /\ vi_info m = Minfo d ino sb (new_dinode dir zone) /\ vi_is_dir m = dir
    | None => refused_name name \/ is_Some (find_entry name old 0) \/ (forall ino, ino_ok ino -> inode_used v ino) \/
        (forall z, s_firstdatazone sb <= z < s_nzones sb -> zone_used v z) \/ i_size (m_dinode f) = 1024 * zlen zs \/ io_error v' \/ no_memory v'
    end.
Proof.
  intros Hf Hok Hb Hzs Hdu HB H0 old. unfold minix_create_child. rewrite (id_bdev _ _ Hf), (id_sb _ _ Hf). pose proof (keeps_start f zs v Hok Hb) as HK.
  destruct ((zlen name =? 0) || bool_decide (name = [46]) || bool_decide (name = [46; 46]) || (14 <? zlen name)) eqn:Eg.
  { exists None, f, v. split_and!; [done|done|]. left. rewrite !orb_true_iff, !bool_decide_eq_true, Z.eqb_eq, Z.ltb_lt in Eg. unfold refused_name. destruct Eg as [[[Eg|Eg]|Eg]|Eg]; auto. left. by destruct name. }
  rewrite !orb_false_iff, !bool_decide_eq_false, Z.eqb_neq, Z.ltb_ge in Eg. destruct Eg as [[[G1 G2] G3] G4].
  assert (Hn : name_ok name) by (split; [unfold zlen in *; lia|done]). assert (Hnr : ~ refused_name name) by (intros [->|[->|[->|?]]]; [done|done|done|lia]).
  destruct (dir_lookup_post (m_dinode f) zs name v Hok Hb (id_shape _ _ Hf)) as (o & v1 & El & Hs1 & Ho). fold old in Ho. rewrite El. cbn [snd].
  pose proof (keeps_same _ _ _ _ _ HK Hs1) as HK1. destruct o as [x|].
  { exists None, f, v1. split_and!; [done|done|]. right. left. destruct Ho as [<-|[? _]]; done. }
  assert (Habs : find_entry name old 0 = None \/ io_error v1) by (destruct Ho as [<-|[_ ?]]; auto). clear Ho.
  destruct (alloc_inode_post f zs v v1 Hf HK1) as (o & v2 & -> & HK2 & Hz2 & Ho). pose proof (sbo_bits _ Hsb) as [B1 B2].
  assert (Hb1 : forall base j, map_bit v1 base j = map_bit v base j) by (intros base j; apply map_bit_frame, Hs1). destruct o as [ino|].
  2:{ exists None, f, v2. split_and!; [done|done|]. destruct Ho as [?|Ho]; [tauto|]. right. right. left. intros ino Hi. split; [done|]. rewrite <- Hb1. auto. }
  destruct Ho as (Hi & Hf1 & Hs2). rewrite Hb1 in Hf1. destruct (alloc_zone_post f zs v v2 Hf HK2) as (o & v3 & -> & HK3 & Hi3 & Ho). destruct o as [zone|].
  2:{ exists None, f, v3. split_and!; [done|done|]. destruct Ho as [?|Ho]; [tauto|]. do 3 right. left. intros z Hz. split; [done|]. rewrite <- Hb1, <- Hz2 by lia. auto. }
  destruct Ho as (Hzr & Hf2 & Hs3). rewrite Hz2, Hb1 in Hf2 by lia. unfold ino_ok in Hi.
  assert (Hni : ~ inode_used v ino) by (intros [_ ?]; congruence). assert (Hnz : ~ zone_used v zone) by (intros [_ ?]; congruence).
  assert (Hu3 : inode_used v3 ino) by (split; [done|]; rewrite Hi3 by lia; done). assert (Huz : zone_used v3 zone) by done.
  destruct (fill_child_post f zs v v3 name dir ino zone Hf Hzs Hdu Hn HK3 Hu3 Hni Huz Hnz) as (o & f' & v' & -> & HK' & Ho).
  exists o, f', v'. split_and!; [done|done|]. destruct o as [m|]; [|tauto]. destruct Ho as (-> & [_ L2 L3 L4] & HL & Hm & Hmd).
  destruct (low_used v3 v' L2) as [U1 U2]. exists ino, zone. by split_and!; auto.
Qed.

(** ** Files *)

(** A regular file with the zones [zs]. *)
Record is_file (f : minix_inode_info) (zs : list Z) v : Prop := IsFile {
  if_bdev : m_bdev f = d;
  if_sb : m_sb f = sb;
  if_zones : has_zones sb (m_dinode f) zs;
  if_inode : inode_ok (m_dinode f);
  if_ino : ino_ok (m_ino f);
  if_disk : inode_at v (m_ino f) = Some (m_dinode f);
}.

(** The bytes of a file a read of [size] bytes at [offset] can return. *)
Definition visible (f : minix_inode_info) (zs : list Z) (offset size : Z) : Z := reach zs offset (Z.min size (i_size (m_dinode f) - offset)).

Lemma file_read_post f zs offset size v :
  is_file f zs v -> store_ok v d -> blocks_ok v sb -> is_u32 offset -> is_u32 size ->
  exists n v', minix_file_read f offset size v = (slice offset n (file_data v zs), v') /\ same v v' /\
    0 <= n <= visible f zs offset size /\ (n = visible f zs offset size \/ io_error v').
Proof.
  intros [Hd Hs Hz Hi Hino _] Hok Hb Ho Hsz. unfold minix_file_read, visible. pose proof (io_size _ Hi) as Hisz. unfold is_u32 in *. assert (Hzl : 0 <= zlen zs) by (unfold zlen; lia).
  assert (Hnil : reach zs offset (Z.min size (i_size (m_dinode f) - offset)) = 0 -> exists n v', ([], v) = (slice offset n (file_data v zs), v') /\ same v v' /\
    0 <= n <= reach zs offset (Z.min size (i_size (m_dinode f) - offset)) /\ (n = reach zs offset (Z.min size (i_size (m_dinode f) - offset)) \/ io_error v')).
  { intros ->. exists 0, v. split_and!; [done|by apply same_refl|lia|lia|by left]. }
  destruct (Z.eqb_spec size 0); [apply Hnil; unfold reach; lia|]. destruct (Z.leb_spec (i_size (m_dinode f)) offset); [apply Hnil; unfold reach; lia|].
  rewrite Hs, (zone_size_1024 sb Hsb). change (1024 =? 0) with false. cbv iota. set (k := Z.min size (i_size (m_dinode f) - offset)) in *.
  destruct (read_loop_post (S (Z.to_nat k)) f zs offset k 0 v Hd Hs Hok Hb Hz ltac:(lia) ltac:(lia) ltac:(unfold reach; lia) ltac:(lia)) as (m & v' & E & H1 & H2 & H3).
  change (slice offset 0 (file_data v zs)) with (@nil Z) in E. rewrite E. by exists m, v'.
Qed.

(** C13: Reading and writing Minix files are exact.  A read returns the bytes of
    the file at the offset, as many as were asked for and lie within the file's
    size and zones, and fewer only after an I/O error; it changes no block.  A
    write stores its bytes at the offset, as many as the zones of the file hold
    (the code never gives a file another zone), and stops early only after an I/O
    error: apart from them the data of the file, every other block and every
    other inode stay as they were.  The size becomes the end of what was written
    if that is larger, in memory and, unless the last transfer failed, on disk. *)
Theorem minix_file_io_correct f zs v :
  is_file f zs v -> store_ok v d -> blocks_ok v sb ->
  (forall offset size, is_u32 offset -> is_u32 size ->
     exists n v', minix_file_read f offset size v = (slice offset n (file_data v zs), v') /\ same v v' /\
       0 <= n <= visible f zs offset size /\ (n = visible f zs offset size \/ io_error v')) /\
  (forall offset buf, 0 <= offset -> 0 < zlen buf -> offset + zlen buf < 4294967296 -> Forall is_byte buf ->
     exists n n' f' v1 v', minix_file_write f offset buf v = (n, f', v') /\ store_ok v' d /\ blocks_ok v' sb /\
       0 <= n <= n' /\ n' <= reach zs offset (zlen buf) /\ (n = reach zs offset (zlen buf) \/ io_error v1) /\ (n' = n \/ io_error v1) /\
       file_data v' zs = splice offset (slice 0 n' buf) (file_data v zs) /\
       (forall k, k ∉ zs -> k <> inode_block sb (m_ino f) -> blk v' k = blk v k) /\
       (forall ino, ino_ok ino -> ino <> m_ino f -> inode_at v' ino = inode_at v ino) /\
       f' = set_m_dinode (set_i_size (Z.max (i_size (m_dinode f)) (offset + n)) (m_dinode f)) f /\
       (v' = v1 \/ v' = (minix_write_inode d sb (m_ino f) (m_dinode f') v1).2) /\
       (inode_at v' (m_ino f) = Some (m_dinode f') \/ io_error v')).
Proof.
  intros HF Hok Hb. split; [intros; by apply file_read_post|]. destruct HF as [Hd Hs Hz Hi Hino Hdisk]. intros offset buf Ho Hne Hsz HB. unfold minix_file_write.
  destruct (Z.eqb_spec (zlen buf) 0) as [|_]; [lia|]. rewrite Hs, (zone_size_1024 sb Hsb). change (1024 =? 0) with false. cbv iota. assert (Hzl : 0 <= zlen zs) by (unfold zlen; lia).
  destruct (write_loop_post (S (length buf)) f zs offset buf 0 v Hd Hs Hok Hb Hz HB Ho Hsz ltac:(unfold reach; lia) ltac:(unfold zlen in *; lia))
    as (n & v1 & n' & -> & W1 & W2 & W3 & W4 & W5 & W6 & W7 & W8). rewrite Z.add_0_r, Z.sub_0_r in W8.
  assert (Hr : reach zs offset (zlen buf) <= zlen buf) by (unfold reach; lia). rewrite add32_id by lia.
  assert (Hat1 : forall ino, ino_ok ino -> inode_at v1 ino = inode_at v ino).
  { apply inode_at_low. intros k Hk. apply W2. intros Hin. pose proof (hz_range _ _ _ Hz k Hin). lia. }
  destruct (Z.ltb_spec (i_size (m_dinode f)) (offset + n)) as [Hg|Hg].
  - rewrite Hd. assert (Hi' : inode_ok (set_i_size (offset + n) (m_dinode f))) by (apply set_size_ok; [done|unfold is_u32; lia]).
    destruct (write_inode_post v1 (m_ino f) _ W1 W3 Hino Hi') as (r & v' & E & I1 & I2 & I3 & I4 & I5). cbn [m_dinode set_m_dinode]. rewrite E.
    exists n, n', (set_m_dinode (set_i_size (offset + n) (m_dinode f)) f), v1, v'. rewrite Z.max_r by lia. cbn [m_dinode set_m_dinode]. rewrite E.
    split_and!; try done; try lia; [|intros k H1 H2; rewrite I3 by done; auto|intros i' H1 H2; rewrite I4 by done; auto|auto|destruct I5 as [[_ ?]|[_ ?]]; auto].
    rewrite (file_data_frame v1 v'); [done|]. intros k Hk. apply I3. intros ->. by apply (inode_not_zone (m_ino f) zs (m_dinode f)).
  - exists n, n', f, v1, v1. rewrite Z.max_l by lia. assert (f = set_m_dinode (set_i_size (i_size (m_dinode f)) (m_dinode f)) f) as <- by (by destruct f as [? ? ? []]).
    split_and!; try done; try lia; auto. left. rewrite Hat1 by done. done.
Qed.
End layout.
End proofs.

(** ** The example image on a RAM disk behind the buffer cache *)

Module MinixDemo.
Definition image : list Z :=
  concat ((fun k => default (zeroes 1024) (list_find (fun e => e.1 = k) example_blocks ≫= fun r => Some r.2.2)) <$> seqZ 0 64).
Definition v : bcache (blk Heap.heap brd) := BufferDemo.cache image.
Definition root : minix_inode_info := Minfo 5 1 example_super (Mino 16877 0 48 0 0 2 (5 :: replicate 8 0)).
Definition hello : minix_inode_info := Minfo 5 2 example_super (Mino 33060 0 20 0 0 1 (6 :: replicate 8 0)).

Lemma image_bytes : Forall is_byte image /\ zlen image = 65536.
Proof.
  split; [|vm_compute; reflexivity]. assert (Hf : forallb (fun c => (0 <=? c) && (c <? 256)) image = true) by (vm_compute; reflexivity).
  apply Forall_forall. intros c Hc. rewrite forallb_forall in Hf. specialize (Hf c). unfold is_byte. rewrite andb_true_iff, Z.leb_le, Z.ltb_lt in Hf. apply Hf, list_elem_of_In, Hc.
Qed.

Lemma example_layout : sb_ok example_super.
Proof. split; cbn; try done; vm_compute; split; congruence. Qed.

Lemma image_ok : store_ok v 5.
Proof. destruct image_bytes as [H1 H2]. split; [apply BufferDemo.cache_ok; [done|lia]|by exists image]. Qed.

Lemma image_blocks : blocks_ok 5 v example_super.
Proof.
  intros k Hk. cbn in Hk. destruct image_bytes as [_ H2]. unfold store_block. cbn [bcache_store_spec]. unfold block.
  destruct (cached MINIX_BLOCK_SIZE v 5 k); [by eexists|]. unfold on_device. change (disk_data (bw v) 5) with (Some image). cbn [mbind option_bind].
  rewrite decide_True; [by eexists|]. unfold fits, MINIX_BLOCK_SIZE. lia.
Qed.

Lemma zones_at z i : i_zone i = z :: replicate 8 0 -> 5 <= z < 64 -> has_zones example_super i [z].
Proof.
  intros Hz Hr. split; rewrite ?Hz; try done; [intros y ->%list_elem_of_singleton; done|apply NoDup_singleton].
Qed.

Lemma root_dir : is_dir 5 example_super root [5].
Proof.
  split; try done.
  - split; [by apply zones_at|done|cbn; unfold zlen; cbn; lia].
  - split; cbn; unfold u16_ok, is_u32, is_byte; try lia. split; [done|]. repeat constructor; unfold u16_ok; lia.
Qed.

Lemma hello_file : is_file 5 example_super hello [6] v.
Proof.
  split; try done.
  - by apply zones_at.
  - split; cbn; unfold u16_ok, is_u32, is_byte; try lia. split; [done|]. repeat constructor; unfold u16_ok; lia.
Qed.
End MinixDemo.

Lemma minix_create_child_correct_witness :
  exists m f' v', minix_create_child MinixDemo.root [97] true MinixDemo.v = (Some m, f', v') /\ m_ino (vi_info m) = 3 /\
    keeps 5 example_super MinixDemo.root [5] MinixDemo.v v' /\ linked 5 example_super MinixDemo.root [5] MinixDemo.v v' [97] true 3.
Proof.
  destruct (minix_create_child_correct 5 example_super MinixDemo.example_layout MinixDemo.root [5] [97] true MinixDemo.v MinixDemo.root_dir MinixDemo.image_ok MinixDemo.image_blocks)
    as (o & f' & v' & E & HK & Ho).
  - intros z ->%list_elem_of_singleton. split; [done|]. vm_compute. reflexivity.
  - split; [done|]. vm_compute. reflexivity.
  - repeat constructor; unfold is_byte; lia.
  - intros H%list_elem_of_singleton. done.
  - assert (Hm : (fun m => m_ino (vi_info m)) <$> (minix_create_child MinixDemo.root [97] true MinixDemo.v).1.1 = Some 3) by (vm_compute; reflexivity).
    rewrite E in Hm. cbn [fst] in Hm. destruct o as [m|]; [|done]. injection Hm as Hm. destruct Ho as (ino & zone & _ & _ & _ & _ & _ & _ & _ & _ & _ & HL & Hi & _).
    rewrite Hi in Hm. cbn in Hm. subst ino. exists m, f', v'. rewrite Hi. by split_and!.
Defined.

Lemma minix_file_io_correct_witness :
  exists v1 v2 n f', minix_file_read MinixDemo.hello 6 100 MinixDemo.v = (slice 6 14 HELLO, v1) /\ same 5 MinixDemo.v v1 /\
    minix_file_write MinixDemo.hello 20 [33; 33] MinixDemo.v = (n, f', v2) /\ i_size (m_dinode f') = 22 /\ store_ok v2 5.
Proof.
  destruct (minix_file_io_correct 5 example_super MinixDemo.example_layout MinixDemo.hello [6] MinixDemo.v MinixDemo.hello_file MinixDemo.image_ok MinixDemo.image_blocks) as [HR HW].
  destruct (HR 6 100 ltac:(unfold is_u32; lia) ltac:(unfold is_u32; lia)) as (k & v1 & E1 & H1 & _).
  destruct (HW 20 [33; 33] ltac:(lia) ltac:(done) ltac:(done) ltac:(repeat constructor; unfold is_byte; lia)) as (n & n' & f' & w & v2 & E2 & H2 & _ & _ & _ & _ & _ & _ & _ & _ & -> & _).
  assert (F1 : (minix_file_read MinixDemo.hello 6 100 MinixDemo.v).1 = slice 6 14 HELLO) by (vm_compute; reflexivity).
  assert (F2 : (minix_file_write MinixDemo.hello 20 [33; 33] MinixDemo.v).1.1 = 2) by (vm_compute; reflexivity).
  rewrite E1 in F1. rewrite E2 in F2. cbn [fst] in F1, F2. subst n. eexists v1, v2, 2, _. rewrite <- F1. split_and!; [exact E1|exact H1|exact E2|reflexivity|exact H2].
Defined.
